(* ===== verification/_CoqProject ===== *)
-Q . S2P
Prelude.v
GoLists.v
GoBase.v
Utf8.v
Float64.v
Float64Spec.v
Dates.v
Strconv.v
Domain.v
Catalog.v
IngestAuth.v
Tx.v
Lww.v
PriceRepo.v
PriceRepoSpec.v
HistoryRepo.v
HistoryRepoSpec.v
MarketService.v
MarketServiceSpec.v
HistoryService.v
HistoryServiceSpec.v
PgxRepository.v
Webhook.v
BillingDB.v
Json.v
Billing.v
BillingQueue.v
BillingSamples.v
BillingSpec.v
BillingQueueSpec.v
DirectWebhook.v
BillingSystem.v
Accounts.v
DomainJson.v
Http.v
ObsMetrics.v
IngestHandler.v
IngestHandlerSpec.v
QueryHandlers.v
AccountsSpec.v
AccountAdmin.v
AccountAdminSpec.v
BlackMarket.v
BlackMarketSpec.v
Opportunities.v
OpportunitiesSpec.v
SavedData.v
SavedDataSpec.v
RateLimiter.v
RateLimiterSpec.v
EconomicProfile.v
EconomicProfileSpec.v
UserAuth.v
UserAuthSpec.v
Server.v
ServerSpec.v
AdminPanel.v
AdminPanelSpec.v
PlayerProfile.v
PlayerProfileSpec.v
BillingHandler.v
BillingHandlerSpec.v
Config.v
Startup.v
ConfigSpec.v
Readiness.v
Migrate.v
ReadinessSpec.v
Status.v
StatusSpec.v
Exposition.v
ExpositionSpec.v
AccountCommand.v
AccountCommandSpec.v
Marshal.v
MarshalSpec.v
Logger.v
LoggerSpec.v
Lifecycle.v
RequestJson.v
