(* ===== verification/Prelude.v ===== *)
(** * A verification of the market API

    The program ([cmd/api], packages under [internal/]) is a Go server.  It ingests market
    prices and price histories sent by trusted clients, serves the newest of them, keeps
    user accounts with paid plans and their data, processes the webhooks of a billing
    provider, and has an administration panel, metrics and a log; beside it are a migration
    tool, a command for the administration of accounts and a health probe.  All state is in
    PostgreSQL; the Go code is handlers, services that validate, and repositories whose SQL
    statements do the work.  The development models all of these, the statements and the
    failures between them, and proves what they promise together.

    ** How the program is modelled

    A Go function that returns a value and an error is a function into [result]; [let!] and
    [fail_if] are its early returns.  A handler is a function from the request and the state
    to the response and the state.  A repository call is a function from the database (a
    record of tables) to an answer and a database.  A table is a [gmap] on its key, or a
    list where the key can be null or the order matters.  The environment of a call is
    explicit: the readings of the clocks, and what becomes of each statement: done,
    refused, or, for a commit, applied with its acknowledgement lost.  A transaction that
    does not commit leaves the database as it was; the one migration that commits itself
    is modelled as such ([Migrate]).  Transactions are taken one at a time:
    concurrency is the interleaving of whole transactions and of statements outside them
    ([BillingSystem] has the steps of the workers, [IngestHandler] those of the counters),
    which is what the row locks and the mutexes of the source are for; where a call can be
    overtaken between two of its statements ([SavedData]), what others do meanwhile is an
    argument.

    Integers of Go are [Z]; where they can leave their width ([retryDelay],
    [ParseDuration], the figures of [BlackMarket], the counters of [ObsMetrics]) the
    wrap-around is written out, and shown not to happen where the bounds of the inputs
    exclude it.  [float64] is the Standard Library's [SpecFloat] with 53 bits ([Float64]).
    Durations and instants are nanoseconds; [pg_time] is the truncation to the microseconds
    of a [timestamptz].  A string is its bytes; [Utf8] reads its runes.

    ** Files

    Foundations:
    - [Prelude]: [result], its notation and inversion tactics ([inv_ok], [inv_err],
      [bool_facts], [case_if]).  [GoLists]: deduplication, stable sorting, the best row of a
      query.  [GoBase]: strings, case folding, time, digests.  [Float64], [Float64Spec]:
      binary64 and bounds on its rounding.  [Dates]: civil dates and instants.  [Strconv]:
      the readers of numbers and durations.  [Utf8]: UTF-8, and texts as PostgreSQL takes
      them.  [Json], [Marshal], [MarshalSpec]: [encoding/json], reading and writing.
      [Http]: requests and responses.

    Prices and histories:
    - [Domain], [DomainJson]: [internal/domain/market.go] and its JSON.  [Catalog]:
      [internal/marketcatalog/catalog.go].  [IngestAuth]:
      [internal/ingestauth/authenticator.go].
    - [Tx]: statements, failures, server codes and digests shared by the repositories.
      [Lww]: last-write-wins registers, the abstract specification of the read models.
    - [PriceRepo], [PriceRepoSpec]: [internal/repository/market_repository.go].
      [HistoryRepo], [HistoryRepoSpec]: [history_repository.go] and
      [market_trust_repository.go].
    - [MarketService], [MarketServiceSpec], [HistoryService], [HistoryServiceSpec]:
      [internal/service], against the class [MarketRepository] and its laws.
      [PgxRepository]: the PostgreSQL repository as an instance of the class, its laws, and
      the enriched query against the plain one.  [RequestJson]: the JSON that the
      fingerprints of the ledger are made of, and history requests end to end.
    - [IngestHandler], [IngestHandlerSpec]: the ingestion handlers of [internal/handlers],
      with gzip, JSON, tokens and counters.  [QueryHandlers]: the read handlers.
    - [BlackMarket], [BlackMarketSpec], [Opportunities], [OpportunitiesSpec]:
      [internal/blackmarket].

    Billing:
    - [Webhook]: payloads, validation, scope and access of [webhook_queue.go],
      [webhook_types.go], [webhook_subscription.go] and [service.go] of
      [internal/billing].  [BillingDB]: the tables and the statements on [subscriptions].
      [Billing]: the handlers of orders, payments and subscriptions, and
      [ProcessWebhookEvent].  [BillingQueue]: reception, leases, retries and batches.
      [BillingSamples]: concrete payloads.  [BillingSpec], [BillingQueueSpec]: the theorems
      on single calls.  [DirectWebhook]: the older synchronous [ProcessWebhook] and its
      theorems.  [BillingSystem]: deliveries, workers, crashes and time as a step relation,
      with its invariants and concrete runs.
    - [BillingHandler], [BillingHandlerSpec]: the client of the provider
      ([provider.go]), the checkout and the portal, and the endpoints ([handler.go]) with
      the signature of a webhook.

    Users:
    - [UserAuth], [UserAuthSpec]: [internal/authn], the tokens and their keys.
      [Accounts], [AccountsSpec]: [internal/accounts].
    - [AccountAdmin], [AccountAdminSpec]: [internal/accountadmin].  [AccountCommand],
      [AccountCommandSpec]: [cmd/account-admin] with the package [flag].  [AdminPanel],
      [AdminPanelSpec]: [internal/adminpanel].
    - [SavedData], [SavedDataSpec]: [internal/saveddata].  [EconomicProfile],
      [EconomicProfileSpec]: [internal/economicprofile].  [PlayerProfile],
      [PlayerProfileSpec]: [internal/playerprofile], with the client of the game's API.

    The server:
    - [Config], [ConfigSpec]: [internal/config].  [Startup]: the parts [main] of [cmd/api]
      builds.  [Lifecycle]: a run of [main], as its log records it.
    - [Server], [ServerSpec]: the routes, the middleware and the wrappers of
      [internal/server] and [internal/handlers].  [RateLimiter], [RateLimiterSpec]: the
      buckets of [security.go].
    - [ObsMetrics], [Exposition], [ExpositionSpec]: the counters and the
      Prometheus text of [internal/observability].  [Readiness], [Migrate],
      [ReadinessSpec]: the readiness check, the probe of [cmd/healthcheck], and
      [cmd/migrate] with what the files of [migrations] do.  [Status], [StatusSpec]: the
      status endpoint.  [Logger], [LoggerSpec]: the log.

    ** What the theorems show

    - Ingestion ([PriceRepoSpec], [HistoryRepoSpec], [IngestHandlerSpec]): a request has
      exactly one effect under any sequence of failures and retries, over HTTP too; only
      an authenticated, bounded and well-formed request has one; in every reachable
      database the read model is the newest of the audit trail, key by key; the order of
      requests does not matter; replays and conflicts are answered from the ledger; the
      copy sources feed every row once; the counters balance. ([RequestJson]): the JSON
      of a request is read back as the request, so that an identifier answers one
      request only, unless the SHA-256 of two texts collides; and how every history
      request is answered, with the two errors of the repository that an accepted one
      can cause.
    - Queries ([PriceRepoSpec], [HistoryRepoSpec], [MarketServiceSpec],
      [HistoryServiceSpec], [QueryHandlers]): the rows selected are exactly those asked
      for, in a strict order, grouped and labelled without loss; the evidence added by the
      enriched query is the seven-day evidence of the history; periods are whole days.
    - Validation ([MarketServiceSpec], [HistoryServiceSpec], [Catalog], [IngestAuth]):
      exactly which requests are accepted, and that what the history service accepts the
      tables can store, but for item keys with the character 0.
    - Black market ([BlackMarketSpec], [OpportunitiesSpec]): the figures and the bounds
      within which they are exact; a search returns supported trades only, the best of each
      market and item; where the arithmetic overflows.
    - Webhooks ([BillingSpec]): a subscription event refines a last-write-wins write;
      late deliveries undo nothing; orders give bounded access; payments touch one
      subscription. ([BillingQueueSpec], [DirectWebhook]): an event has its whole effect
      or none; what is queued is processable; retries are bounded.  ([BillingSystem]):
      at most [MaxAttempts] leases, and, if workers keep to their leases, at most one
      business effect per event; the indexes of the table hold; and runs in which the
      queue loses or repeats work, with the migration that stops it altogether.
      ([BillingHandlerSpec]): only signed bodies reach the queue; a checkout is for the
      user who asks.
    - Users ([UserAuthSpec]): which tokens are accepted, for whom, and for how long a key is
      trusted.  ([AccountsSpec]): the effective subscription and the entitlements; what
      orders and plan changes give and take.  ([AccountAdminSpec], [AccountCommandSpec],
      [AdminPanelSpec]): grants and revocations, their limits, their audit, what their dry
      runs predict, which arguments of the command can cause them, and that only active
      administrators do anything in the panel.
    - Data of users ([SavedDataSpec], [EconomicProfileSpec], [PlayerProfileSpec]): a request
      touches the rows of its user only, a refused one changes nothing, names, defaults and
      types hold, the provider is asked at most once per cooldown, and what is saved or
      linked is read back.
    - The server ([ServerSpec]): which requests reach a handler and as whom, and what
      every response carries.  ([RateLimiterSpec]): the burst plus the rate at which a
      bucket can be refilled, up to the rounding of [float64]: the configured rate, if
      the time to live is long enough.  ([ConfigSpec], [Lifecycle]): what is accepted
      starts and runs, its tokens work over the transports it allows, production is
      locked, a run reports its failure, and its log does not depend on secrets.
      ([ReadinessSpec]): the migrations of the repository, and nothing less, make a
      database ready.  ([StatusSpec], [ObsMetrics], [ExpositionSpec], [LoggerSpec]): the
      status, the counters, the scrape and the log say what happened, whatever their
      texts contain.

    ** Parameters

    Code that is not in the repository, or of the Go library and too far from the
    program, is a parameter: SHA-256, HMAC and RSA ([Sha256], [Hmac], [Rsa]), gzip
    ([Gzip]), the case tables of Unicode for strings that are not ASCII ([Unicode]), the
    parser of addresses ([Urls]); of the database, its collation ([Collation]), [lower],
    [jsonb], [numeric] and [uuid] ([AdminEncoding], [SavedEncoding], [Numeric63],
    [EntitlementEncoding]) and [percentile_cont] (the argument [median]); the parser of
    identifiers and the JSON of the ledger's fingerprints ([RequestEncoding], whose JSON
    [RequestJson] gives), and the JSON of the provider's payloads, with the times in
    them ([WebhookEncoding]).  The answers of the HTTP clients, the files, the [.env]
    files and the environment, the pool, the clock and the figures of the runtime, the
    random identifiers, and which migrations the database refuses for its rows and
    columns ([exec_schema]) are arguments of the calls that use them.  A theorem that
    relies on a law of a parameter states it, and its witness instantiates it.

    ** Bounds and fuel

    The copy sources run with one unit of fuel more than the rows they hold, which is shown
    to be enough; the readers of texts ([TrimSpace], [Fields], the runes of [Utf8], the
    escapes of [Marshal]) run with the length of their argument, of which every step takes a
    byte; the scanner of [Json] with twice the length and two, which is shown to be enough.
    The shortest decimal of a [float64] is searched up to 17 digits, which tell every value
    from its neighbours.
    The loop of a batch has the configured size.

    ** Not modelled

    The sockets, the signals and the goroutines of [main], but for the order of what
    they log; escapes in the paths of requests; panics, but for their record in the log;
    the derivation of the address of the keys; the JSON of most answers, which are
    records here; the texts of errors and of the usage of commands, where nothing
    depends on them; the answers of routes whose service is not configured, where the
    wiring excludes it; the offset from UTC of a time, on which the fingerprint of a
    price request depends.  The expiry of a job's context shows as a refused statement,
    and so does, in the price tables, an item key with the character 0, which PostgreSQL
    cannot store (the copy of such a request always fails; the history tables of the
    model refuse it).  Sequences are taken not to have gaps, identifiers and counters of
    the database not to overflow, and the time zone of a session to be UTC; the order of
    tied rows, which the database leaves open, is that of the map, and no theorem
    depends on it.  A select computes its columns for the rows its condition keeps, and
    the condition from left to right ([Opportunities]).  [postgresInterval] rounds half
    a microsecond up, where the formatting of the source goes by the nearest binary
    fraction. *)
From Stdlib Require Export Ascii.
From stdpp Require Export base gmap strings list sorting numbers relations.
From Stdlib Require Export ZArith Lia.

(** * Errors as values

    A Go function that returns [(T, error)] is a function into [result E T];
    [let!] is the [if err != nil { return ..., err }] of the source and
    [fail_if] an early return guarded by a condition. *)

Inductive result (E A : Type) : Type :=
  | Ok (a : A)
  | Err (e : E).
Arguments Ok {E A} a.
Arguments Err {E A} e.

Definition rbind {E A B} (m : result E A) (k : A -> result E B) : result E B :=
  match m with Ok a => k a | Err e => Err e end.

Definition rmap_err {E F A} (f : E -> F) (m : result E A) : result F A :=
  match m with Ok a => Ok a | Err e => Err (f e) end.

Definition is_ok {E A} (m : result E A) : bool :=
  match m with Ok _ => true | Err _ => false end.

Definition of_option {E A} (e : E) (o : option A) : result E A :=
  match o with Some a => Ok a | None => Err e end.

Declare Scope go_scope.
Delimit Scope go_scope with go.
Notation "'let!' x ':=' m 'in' k" := (rbind m (fun x => k))
  (at level 10, x pattern, m at level 100, k at level 200,
   format "'[v' 'let!'  x  ':='  m  'in' '//' k ']'") : go_scope.
Notation "'fail_if' b 'with' e 'else' k" := (if b then Err e else k)
  (at level 10, b at level 100, e at level 100, k at level 200,
   format "'[v' 'fail_if'  b  'with'  e  'else' '//' k ']'") : go_scope.
Open Scope go_scope.

(** The hint database of the development. *)
Create HintDb go.

Lemma rbind_ok {E A B} (m : result E A) (k : A -> result E B) b :
  rbind m k = Ok b <-> exists a, m = Ok a /\ k a = Ok b.
Proof. destruct m; simpl; naive_solver. Qed.

Lemma rbind_err {E A B} (m : result E A) (k : A -> result E B) e :
  rbind m k = Err e <-> m = Err e \/ exists a, m = Ok a /\ k a = Err e.
Proof. destruct m; simpl; naive_solver. Qed.

Lemma rmap_err_ok {E F A} (f : E -> F) (m : result E A) a :
  rmap_err f m = Ok a <-> m = Ok a.
Proof. destruct m; simpl; naive_solver. Qed.

Lemma of_option_ok {E A} (e : E) (o : option A) a :
  of_option e o = Ok a <-> o = Some a.
Proof. destruct o; simpl; naive_solver. Qed.

Lemma is_ok_true {E A} (m : result E A) : is_ok m = true <-> exists a, m = Ok a.
Proof. destruct m; simpl; naive_solver. Qed.

(** [inv_ok] turns a hypothesis [f x = Ok v], for an [f] written with
    [let!] and [fail_if], into the guards that were passed and the
    intermediate results. *)
Ltac inv_ok :=
  repeat match goal with
  | H : Ok _ = Ok _ |- _ => injection H as H; try subst
  | H : Err _ = Ok _ |- _ => discriminate H
  | H : Ok _ = Err _ |- _ => discriminate H
  | H : rmap_err _ _ = Ok _ |- _ => apply rmap_err_ok in H
  | H : of_option _ _ = Ok _ |- _ => apply of_option_ok in H
  | H : rbind _ _ = Ok _ |- _ =>
      let a := fresh "r" in let Ha := fresh "Hr" in
      apply rbind_ok in H as (a & Ha & H)
  | H : (if ?b then Err _ else _) = Ok _ |- _ =>
      let Hb := fresh "Hg" in destruct b eqn:Hb; [discriminate H|]
  | H : (if ?b then _ else Err _) = Ok _ |- _ =>
      let Hb := fresh "Hg" in destruct b eqn:Hb; [|discriminate H]
  | H : (match ?o with Some _ => _ | None => Err _ end) = Ok _ |- _ =>
      let Hb := fresh "Hm" in destruct o eqn:Hb; [|discriminate H]
  | H : (let '(_, _) := ?p in _) = Ok _ |- _ =>
      destruct p eqn:?
  end.

Lemma rmap_err_err {E F A} (f : E -> F) (m : result E A) e :
  rmap_err f m = Err e <-> exists e', m = Err e' /\ e = f e'.
Proof. destruct m; simpl; naive_solver. Qed.

(** [inv_err] does the same for [f x = Err e]: one goal per way to fail, with
    the guards passed before it. *)
Ltac inv_err :=
  repeat match goal with
  | H : Ok _ = Err _ |- _ => discriminate H
  | H : Err _ = Err _ |- _ => injection H as H; try subst
  | H : rmap_err _ _ = Err _ |- _ =>
      let e := fresh "e" in let He := fresh "Hr" in
      apply rmap_err_err in H as (e & He & H); try subst
  | H : rbind _ _ = Err _ |- _ =>
      let a := fresh "r" in let Ha := fresh "Hr" in
      apply rbind_err in H as [H|(a & Ha & H)]
  | H : (if ?b then Err _ else _) = Err _ |- _ =>
      let Hb := fresh "Hg" in destruct b eqn:Hb
  end.

(** [bool_facts] reads boolean guards as propositions. *)
Ltac bool_facts :=
  repeat match goal with
  | H : _ || _ = false |- _ => apply orb_false_iff in H as [? ?]
  | H : _ && _ = true |- _ => apply andb_true_iff in H as [? ?]
  | H : negb _ = true |- _ => apply negb_true_iff in H
  | H : negb _ = false |- _ => apply negb_false_iff in H
  | H : bool_decide _ = true |- _ => apply bool_decide_eq_true in H
  | H : bool_decide _ = false |- _ => apply bool_decide_eq_false in H
  | H : (_ <? _)%Z = true |- _ => apply Z.ltb_lt in H
  | H : (_ <? _)%Z = false |- _ => apply Z.ltb_ge in H
  | H : (_ <=? _)%Z = true |- _ => apply Z.leb_le in H
  | H : (_ <=? _)%Z = false |- _ => apply Z.leb_gt in H
  | H : (_ =? _)%Z = true |- _ => apply Z.eqb_eq in H
  | H : (_ =? _)%Z = false |- _ => apply Z.eqb_neq in H
  end.

(** Case analysis on the innermost test of the goal. *)
Ltac case_if :=
  match goal with
  | |- context [if ?b then _ else _] =>
      lazymatch b with context [if _ then _ else _] => fail | _ => destruct b eqn:? end
  end.
