(* ===== verification/GoLists.v ===== *)
(** Lists and slices: first-occurrence deduplication (the [seen] map of the Go
    loops), [sort.SliceStable], and the maximum under a comparison, which is
    what [select distinct on (...) ... order by ... desc] keeps per key. *)
From S2P Require Import Prelude.

(** * Deduplication *)

Section dedup.
Context {A : Type} `{EqDecision A}.

(** The loop [if _, ok := seen[x]; ok { continue }; seen[x] = ...; append]. *)
Fixpoint dedup_from (seen : list A) (l : list A) : list A :=
  match l with
  | [] => []
  | x :: l' =>
      if bool_decide (x ∈ seen) then dedup_from seen l'
      else x :: dedup_from (x :: seen) l'
  end.

Definition dedup (l : list A) : list A := dedup_from [] l.

Lemma elem_of_dedup_from seen l x :
  x ∈ dedup_from seen l <-> x ∈ l /\ x ∉ seen.
Proof.
  revert seen; induction l as [|y l IH]; intros seen; simpl.
  { rewrite elem_of_nil. tauto. }
  case_bool_decide as Hy.
  - rewrite IH, elem_of_cons. naive_solver.
  - rewrite !elem_of_cons, IH, elem_of_cons.
    destruct (decide (x = y)) as [->|]; naive_solver.
Qed.

Lemma NoDup_dedup_from seen l : NoDup (dedup_from seen l).
Proof.
  revert seen; induction l as [|y l IH]; intros seen; simpl; [constructor|].
  case_bool_decide; [done|]. constructor; [|done].
  rewrite elem_of_dedup_from, elem_of_cons. tauto.
Qed.

Lemma elem_of_dedup l x : x ∈ dedup l <-> x ∈ l.
Proof. unfold dedup. rewrite elem_of_dedup_from, elem_of_nil. tauto. Qed.

Lemma NoDup_dedup l : NoDup (dedup l).
Proof. apply NoDup_dedup_from. Qed.

Lemma length_dedup_from seen l : (length (dedup_from seen l) <= length l)%nat.
Proof.
  revert seen; induction l as [|y l IH]; intros seen; simpl; [done|].
  case_bool_decide; simpl; [specialize (IH seen)|specialize (IH (y :: seen))]; lia.
Qed.

Lemma dedup_from_NoDup seen l :
  NoDup l -> (forall x, x ∈ l -> x ∉ seen) -> dedup_from seen l = l.
Proof.
  intros Hl; revert seen; induction Hl as [|y l Hy Hl IH]; intros seen Hs; [done|].
  simpl. rewrite bool_decide_eq_false_2 by (apply Hs; set_solver).
  f_equal. apply IH. intros x Hx. rewrite elem_of_cons. intros [->|?]; [done|].
  by apply (Hs x); [set_solver|].
Qed.

Lemma dedup_from_ext s1 s2 l :
  (forall x, x ∈ s1 <-> x ∈ s2) -> dedup_from s1 l = dedup_from s2 l.
Proof.
  revert s1 s2; induction l as [|y l IH]; intros s1 s2 Hs; simpl; [done|].
  rewrite (bool_decide_ext _ _ (Hs y)). case_bool_decide; [by apply IH|].
  f_equal. apply IH. intros x. rewrite !elem_of_cons, Hs. done.
Qed.

Lemma dedup_NoDup l : NoDup l -> dedup l = l.
Proof. intros. apply dedup_from_NoDup; set_solver. Qed.

Lemma dedup_dedup l : dedup (dedup l) = dedup l.
Proof. apply dedup_NoDup, NoDup_dedup. Qed.
End dedup.

#[export] Hint Resolve NoDup_dedup NoDup_dedup_from : go.

Lemma StronglySorted_weaken {A} (R R' : A -> A -> Prop) l :
  (forall a b, R a b -> R' a b) -> StronglySorted R l -> StronglySorted R' l.
Proof. intros Hr. induction 1; constructor; [done|]. eapply Forall_impl; [done|]. intros. by apply Hr. Qed.

(** * Comparison functions *)

(** What [sort] asks of a [less] function: a strict weak order. *)
Class StrictWeak {A} (less : A -> A -> bool) : Prop := {
  less_asym : forall x y, less x y = true -> less y x = false;
  less_neg_trans : forall x y z,
    less x y = false -> less y z = false -> less x z = false;
}.

(** [y] is not smaller than [x]. *)
Definition not_after {A} (less : A -> A -> bool) (x y : A) : Prop := less y x = false.

#[export] Instance not_after_dec {A} (less : A -> A -> bool) :
  RelDecision (not_after less).
Proof. intros x y. unfold not_after. apply _. Defined.

#[export] Instance not_after_trans {A} (less : A -> A -> bool) `{!StrictWeak less} :
  Transitive (not_after less).
Proof. intros x y z Hxy Hyz. by apply (less_neg_trans z y x). Qed.

#[export] Instance not_after_total {A} (less : A -> A -> bool) `{!StrictWeak less} :
  Total (not_after less).
Proof.
  intros x y. unfold not_after. destruct (less y x) eqn:E; [right|by left].
  by apply less_asym.
Qed.

(** [if a != b { return a < b }; return rest]. *)
Definition then_less {A} (first rest : A -> A -> bool) (x y : A) : bool :=
  first x y || (negb (first y x) && rest x y).

#[export] Instance then_less_strict_weak {A} (l1 l2 : A -> A -> bool)
  `{!StrictWeak l1, !StrictWeak l2} : StrictWeak (then_less l1 l2).
Proof.
  unfold then_less. split.
  - intros x y [H|[H1 H2]%andb_true_iff]%orb_true_iff.
    + by rewrite H, (less_asym _ _ H).
    + apply negb_true_iff in H1. rewrite H1. simpl.
      rewrite (less_asym _ _ H2). by rewrite andb_false_r.
  - intros x y z [H1 H2]%orb_false_iff [H3 H4]%orb_false_iff.
    rewrite (less_neg_trans x y z H1 H3). simpl.
    destruct (l1 z x) eqn:E; [done|]. simpl.
    assert (l1 y x = false) as Hyx by eauto using less_neg_trans.
    assert (l1 z y = false) as Hzy by eauto using less_neg_trans.
    rewrite Hyx in H2. rewrite Hzy in H4. simpl in *.
    eauto using less_neg_trans.
Qed.

(** Comparing by a key. *)
#[export] Instance less_on_strict_weak {A K} (less : K -> K -> bool) (key : A -> K)
  `{!StrictWeak less} : StrictWeak (fun x y => less (key x) (key y)).
Proof. split; intros *; [apply less_asym|apply less_neg_trans]. Qed.

#[export] Instance flip_strict_weak {A} (less : A -> A -> bool) `{!StrictWeak less} :
  StrictWeak (fun x y => less y x).
Proof. split; intros *; [apply less_asym|]. intros. eauto using less_neg_trans. Qed.

Lemma strict_weak_ext {A} (l1 l2 : A -> A -> bool) :
  (forall x y, l1 x y = l2 x y) -> StrictWeak l2 -> StrictWeak l1.
Proof.
  intros He Hs. split; intros *; rewrite !He; [apply less_asym|apply less_neg_trans].
Qed.

(** The [if a.f != b.f { return a.f < b.f }] step of a comparison, for a key
    whose order separates distinct values. *)
Lemma then_less_if {A K} `{EqDecision K} (less : K -> K -> bool) (key : A -> K)
    (rest : A -> A -> bool) x y :
  (forall a, less a a = false) ->
  (forall a b, less a b = false -> less b a = false -> a = b) ->
  (forall a b, less a b = true -> less b a = false) ->
  (if bool_decide (key x <> key y) then less (key x) (key y) else rest x y)
  = then_less (fun x y => less (key x) (key y)) rest x y.
Proof.
  intros Hirr Hsep Hasym. unfold then_less. case_bool_decide as Hk.
  - destruct (less (key x) (key y)) eqn:E1; [done|]. simpl.
    destruct (less (key y) (key x)) eqn:E2; [done|]. exfalso. eauto.
  - assert (key x = key y) as -> by (destruct (decide (key x = key y)); tauto).
    by rewrite Hirr.
Qed.

#[export] Instance Zltb_strict_weak : StrictWeak Z.ltb.
Proof. split; intros; bool_facts; apply Z.ltb_ge; lia. Qed.

(** [s < t] on Go strings compares bytes. *)
Definition str_ltb (s t : string) : bool := negb (String.leb t s).

Lemma str_ltb_not_le s t : str_ltb s t = true <-> ~ String.le t s.
Proof.
  unfold str_ltb, String.le. rewrite negb_true_iff.
  destruct (String.leb t s); simpl; naive_solver.
Qed.

Lemma str_ltb_ge s t : str_ltb s t = false <-> String.le t s.
Proof.
  unfold str_ltb, String.le. rewrite negb_false_iff.
  destruct (String.leb t s); simpl; naive_solver.
Qed.

#[export] Instance str_ltb_strict_weak : StrictWeak str_ltb.
Proof.
  split.
  - intros x y H%str_ltb_not_le. apply str_ltb_ge.
    by destruct (total String.le x y).
  - intros x y z H1%str_ltb_ge H2%str_ltb_ge. apply str_ltb_ge. by trans y.
Qed.

Lemma str_ltb_eq s t : str_ltb s t = false -> str_ltb t s = false -> s = t.
Proof. intros H1%str_ltb_ge H2%str_ltb_ge. by apply (anti_symm String.le). Qed.

(** * [sort.SliceStable] *)

Section stable_sort.
Context {A : Type} (less : A -> A -> bool).

Fixpoint insert_stable (x : A) (l : list A) : list A :=
  match l with
  | [] => [x]
  | y :: l' => if less y x then y :: insert_stable x l' else x :: l
  end.

Fixpoint slice_stable (l : list A) : list A :=
  match l with
  | [] => []
  | x :: l' => insert_stable x (slice_stable l')
  end.

Lemma insert_stable_Permutation x l : insert_stable x l ≡ₚ x :: l.
Proof.
  induction l as [|y l IH]; simpl; [done|].
  destruct (less y x); [|done]. rewrite IH. apply Permutation_swap.
Qed.

Lemma slice_stable_Permutation l : slice_stable l ≡ₚ l.
Proof.
  induction l as [|x l IH]; simpl; [done|].
  by rewrite insert_stable_Permutation, IH.
Qed.

Lemma length_slice_stable l : length (slice_stable l) = length l.
Proof. apply Permutation_length, slice_stable_Permutation. Qed.

Lemma elem_of_slice_stable x l : x ∈ slice_stable l <-> x ∈ l.
Proof. by rewrite slice_stable_Permutation. Qed.

Context `{!StrictWeak less}.

Lemma insert_stable_sorted x l :
  StronglySorted (not_after less) l -> StronglySorted (not_after less) (insert_stable x l).
Proof.
  induction 1 as [|y l Hl IH Hy]; simpl; [repeat constructor|].
  destruct (less y x) eqn:E.
  - constructor; [done|]. rewrite insert_stable_Permutation.
    constructor; [|done]. by apply less_asym.
  - constructor; [by constructor|]. constructor; [done|].
    eapply Forall_impl; [done|]. intros z Hz. by trans y.
Qed.

Lemma slice_stable_sorted l : StronglySorted (not_after less) (slice_stable l).
Proof. induction l; simpl; [constructor|by apply insert_stable_sorted]. Qed.

(** When the comparison separates the elements, the sorted slice does not
    depend on the order the rows arrived in. *)
Lemma slice_stable_unique l1 l2 :
  l1 ≡ₚ l2 ->
  (forall x y, x ∈ l1 -> y ∈ l1 -> less x y = false -> less y x = false -> x = y) ->
  slice_stable l1 = slice_stable l2.
Proof.
  intros Hp Hsep. eapply StronglySorted_unique_strong.
  - intros x y Hx Hy Hxy Hyx.
    rewrite slice_stable_Permutation in Hx. rewrite slice_stable_Permutation, <- Hp in Hy.
    exact (Hsep x y Hx Hy Hyx Hxy).
  - apply slice_stable_sorted.
  - apply slice_stable_sorted.
  - by rewrite !slice_stable_Permutation.
Qed.

(** Without ties between distinct elements the order of the result is strict. *)
Lemma slice_stable_strict l :
  NoDup l ->
  (forall x y, x ∈ l -> y ∈ l -> less x y = false -> less y x = false -> x = y) ->
  StronglySorted (fun x y => less x y = true) (slice_stable l).
Proof.
  intros Hnd Hsep.
  assert (NoDup (slice_stable l)) as Hnd' by by rewrite slice_stable_Permutation.
  assert (forall x, x ∈ slice_stable l -> x ∈ l) as Hin
    by (intros x; by rewrite slice_stable_Permutation).
  pose proof (slice_stable_sorted l) as Hs. revert Hin Hnd'.
  induction Hs as [|x l' Hs IH Hx]; intros Hin Hnd'; [constructor|].
  apply NoDup_cons in Hnd' as [Hx' Hnd']. constructor; [apply IH; set_solver|].
  apply Forall_forall. intros y Hy. rewrite Forall_forall in Hx. specialize (Hx y Hy).
  unfold not_after in Hx. destruct (less x y) eqn:E; [done|].
  exfalso. apply Hx'. rewrite (Hsep x y); set_solver.
Qed.
End stable_sort.

(** * The row kept by [distinct on] *)

Section best.
Context {A : Type} (less : A -> A -> bool).

Definition better (acc : option A) (x : A) : option A :=
  match acc with
  | None => Some x
  | Some a => if less a x then Some x else Some a
  end.

Definition best (l : list A) : option A := foldl better None l.

Lemma foldl_better_Some a l : exists m, foldl better (Some a) l = Some m.
Proof.
  revert a; induction l as [|x l IH]; intros a; simpl; [eauto|].
  destruct (less a x); apply IH.
Qed.

Lemma best_None l : best l = None <-> l = [].
Proof.
  destruct l as [|x l]; [done|]. unfold best; simpl.
  destruct (foldl_better_Some x l) as [m ->]. done.
Qed.

Lemma foldl_better_elem acc l m :
  foldl better acc l = Some m -> acc = Some m \/ m ∈ l.
Proof.
  revert acc; induction l as [|x l IH]; intros acc; simpl; [by left|].
  intros [H|H]%IH; [|right; set_solver].
  destruct acc as [a|]; simpl in H; [destruct (less a x)|]; simplify_eq; set_solver.
Qed.

Lemma best_elem l m : best l = Some m -> m ∈ l.
Proof. by intros [?|?]%foldl_better_elem. Qed.

Context `{!StrictWeak less}.

Lemma foldl_better_max acc l m :
  foldl better acc l = Some m ->
  (forall a, acc = Some a -> less m a = false) /\ forall x, x ∈ l -> less m x = false.
Proof.
  revert acc; induction l as [|y l IH]; intros acc; simpl.
  - intros ->. split; [|set_solver]. intros a [= ->].
    destruct (less a a) eqn:E; [|done]. by rewrite (less_asym _ _ E) in E.
  - intros [Hacc Hl]%IH.
    destruct acc as [a|]; simpl in Hacc.
    + destruct (less a y) eqn:E.
      * specialize (Hacc _ eq_refl). split.
        -- intros ? [= <-]. apply (less_neg_trans m y a); [done|by apply less_asym].
        -- intros x [->|?]%elem_of_cons; auto.
      * specialize (Hacc _ eq_refl). split; [naive_solver|].
        intros x [->|?]%elem_of_cons; [|auto]. by apply (less_neg_trans m a y).
    + split; [done|]. intros x [->|?]%elem_of_cons; auto.
Qed.

Lemma best_max l m x : best l = Some m -> x ∈ l -> less m x = false.
Proof. intros H. eapply foldl_better_max in H. naive_solver. Qed.

(** If ties are equalities the best row is determined by the set of rows. *)
Lemma best_unique l m :
  m ∈ l -> (forall x, x ∈ l -> less m x = false) ->
  (forall x, x ∈ l -> less m x = false -> less x m = false -> x = m) ->
  best l = Some m.
Proof.
  intros Hm Hmax Hsep. destruct (best l) as [b|] eqn:E.
  - f_equal. apply Hsep; eauto using best_elem, best_max.
  - apply best_None in E as ->. by apply elem_of_nil in Hm.
Qed.
End best.

(** Selecting commutes with a renaming that preserves the comparison. *)
Lemma best_fmap {A B} (lessA : A -> A -> bool) (lessB : B -> B -> bool) (f : A -> B) l :
  (forall x y, x ∈ l -> y ∈ l -> lessB (f x) (f y) = lessA x y) ->
  best lessB (map f l) = f <$> best lessA l.
Proof.
  unfold best. assert (forall acc,
    (forall x y, x ∈ l -> y ∈ l -> lessB (f x) (f y) = lessA x y) ->
    (forall a, acc = Some a -> forall x, x ∈ l -> lessB (f a) (f x) = lessA a x) ->
    foldl (better lessB) (f <$> acc) (map f l) = f <$> foldl (better lessA) acc l) as Hgen;
    [|intros H; by apply (Hgen None)].
  induction l as [|x l IH]; intros acc Hl Hacc; [done|]. cbn [foldl map].
  assert (better lessB (f <$> acc) (f x) = f <$> better lessA acc x) as ->.
  { destruct acc as [a|]; [|done]. simpl. rewrite (Hacc a) by set_solver.
    by destruct (lessA a x). }
  apply IH; [set_solver|]. intros a Ha y Hy.
  destruct acc as [a'|]; simpl in Ha; [destruct (lessA a' x)|]; simplify_eq;
    [apply Hl; set_solver|apply (Hacc a); set_solver|apply Hl; set_solver].
Qed.

Lemma list_filter_map {A B} (f : A -> B) (p : B -> bool) l :
  List.filter p (map f l) = map f (List.filter (fun x => p (f x)) l).
Proof. induction l as [|x l IH]; simpl; [done|]. destruct (p (f x)); simpl; congruence. Qed.

Lemma filter_all {A} (p : A -> bool) l : (forall x, x ∈ l -> p x = true) -> List.filter p l = l.
Proof.
  induction l as [|x l IH]; intros H1; simpl; [done|].
  rewrite H1 by set_solver. f_equal. apply IH. set_solver.
Qed.

Lemma filter_none {A} (p : A -> bool) l : (forall x, x ∈ l -> p x = false) -> List.filter p l = [].
Proof.
  induction l as [|x l IH]; intros H1; simpl; [done|].
  rewrite H1 by set_solver. apply IH. set_solver.
Qed.
