(* ===== verification/GoBase.v ===== *)
(** The parts of Go's language and standard library the modelled code uses:
    64-bit integers, [time.Time] and [time.Duration], and package [strings]. *)
From S2P Require Import Prelude.
From stdpp Require Export pretty.
Local Open Scope Z_scope.

(** * Machine integers *)

Definition max_int64 : Z := 2 ^ 63 - 1.
Definition min_int64 : Z := - 2 ^ 63.

(** Two's-complement wrap-around of an [int64] result. *)
Definition wrap64 (z : Z) : Z := (z + 2 ^ 63) mod 2 ^ 64 - 2 ^ 63.

Definition in_int64 (z : Z) : Prop := min_int64 <= z <= max_int64.

Lemma wrap64_id z : in_int64 z -> wrap64 z = z.
Proof. unfold in_int64, min_int64, max_int64, wrap64. intros. rewrite Z.mod_small; lia. Qed.

Lemma wrap64_range z : in_int64 (wrap64 z).
Proof.
  unfold in_int64, min_int64, max_int64, wrap64.
  pose proof (Z.mod_pos_bound (z + 2 ^ 63) (2 ^ 64) ltac:(lia)). lia.
Qed.

#[export] Hint Resolve wrap64_range : go.

(** * Instants and durations

    A [time.Time] is its instant, in nanoseconds from the Unix epoch; the
    location a value carries does not take part in [Before], [After], [Sub],
    [Add] or [IsZero], so [UTC()] is the identity on instants. *)

Abbreviation time := Z (only parsing).
Abbreviation duration := Z (only parsing).

Definition second : duration := 1000000000.
Definition minute : duration := 60 * second.
Definition hour : duration := 60 * minute.

(** January 1, year 1, 00:00:00 UTC: the zero [time.Time]. *)
Definition zero_time : time := -62135596800 * second.

Definition is_zero (t : time) : bool := t =? zero_time.

(** [t.Sub(u)] saturates at the extreme durations. *)
Definition time_sub (t u : time) : duration :=
  Z.max min_int64 (Z.min max_int64 (t - u)).

(** A [timestamptz] column holds microseconds: pgx sends
    [Unix()*1000000 + Nanosecond()/1000]. *)
Definition pg_time (t : time) : time := t / 1000 * 1000.

Lemma pg_time_idemp t : pg_time (pg_time t) = pg_time t.
Proof. unfold pg_time. by rewrite Z.div_mul. Qed.

Lemma pg_time_mono t u : t <= u -> pg_time t <= pg_time u.
Proof.
  unfold pg_time. intros H. apply Z.mul_le_mono_nonneg_r; [lia|].
  apply Z.div_le_mono; lia.
Qed.

Lemma pg_time_le t : pg_time t <= t.
Proof. unfold pg_time. pose proof (Z.mul_div_le t 1000). lia. Qed.

Lemma time_sub_small t u :
  in_int64 (t - u) -> time_sub t u = t - u.
Proof. unfold in_int64, time_sub. lia. Qed.

(** * Strings

    A Go string is its bytes.  Package [strings] folds the case of ASCII
    strings byte by byte; what it does to other strings is given by the
    Unicode tables of the standard library, which are not part of the
    repository: [Unicode] stands for them. *)

Class Unicode := {
  unicode_lower : string -> string;
  unicode_upper : string -> string;
  unicode_equal_fold : string -> string -> bool;
}.

Fixpoint bytes_of (s : string) : list ascii :=
  match s with EmptyString => [] | String c s' => c :: bytes_of s' end.

Fixpoint of_bytes (l : list ascii) : string :=
  match l with [] => EmptyString | c :: l' => String c (of_bytes l') end.

Definition byte_val (c : ascii) : Z := Z.of_N (N_of_ascii c).
Definition byte (z : Z) : ascii := ascii_of_N (Z.to_N z).

Lemma byte_val_range c : 0 <= byte_val c < 256.
Proof. unfold byte_val. pose proof (N_ascii_bounded c). lia. Qed.

Lemma byte_val_byte z : 0 <= z < 256 -> byte_val (byte z) = z.
Proof. intros Hz. unfold byte_val, byte. rewrite N_ascii_embedding; lia. Qed.

Definition in_range (lo hi : Z) (c : ascii) : bool :=
  (lo <=? byte_val c) && (byte_val c <=? hi).

Definition str_len (s : string) : Z := Z.of_nat (String.length s).

Definition is_empty (s : string) : bool :=
  match s with EmptyString => true | _ => false end.

Lemma is_empty_true s : is_empty s = true <-> s = EmptyString.
Proof. by destruct s. Qed.

Lemma is_empty_false s : is_empty s = false <-> s <> EmptyString.
Proof. by destruct s. Qed.

Lemma str_len_pos s : is_empty s = false <-> 0 < str_len s.
Proof. unfold str_len. destruct s; simpl; split; try done; lia. Qed.

Fixpoint str_all (p : ascii -> bool) (s : string) : bool :=
  match s with EmptyString => true | String c s' => p c && str_all p s' end.

Fixpoint str_map (f : ascii -> ascii) (s : string) : string :=
  match s with EmptyString => EmptyString | String c s' => String (f c) (str_map f s') end.

Definition is_ascii (s : string) : bool := str_all (in_range 0 127) s.

Definition lower_byte (c : ascii) : ascii :=
  if in_range 65 90 c then byte (byte_val c + 32) else c.
Definition upper_byte (c : ascii) : ascii :=
  if in_range 97 122 c then byte (byte_val c - 32) else c.

Section unicode.
Context `{Unicode}.

Definition ToLower (s : string) : string :=
  if is_ascii s then str_map lower_byte s else unicode_lower s.
Definition ToUpper (s : string) : string :=
  if is_ascii s then str_map upper_byte s else unicode_upper s.
Definition EqualFold (s t : string) : bool :=
  if is_ascii s && is_ascii t
  then bool_decide (str_map lower_byte s = str_map lower_byte t)
  else unicode_equal_fold s t.
End unicode.

(** [strip_prefix p s] is the rest of [s] after the prefix [p]. *)
Fixpoint strip_prefix (p s : string) : option string :=
  match p, s with
  | EmptyString, _ => Some s
  | String a p', String b s' => if bool_decide (a = b) then strip_prefix p' s' else None
  | _, _ => None
  end.

Definition HasPrefix (s p : string) : bool :=
  match strip_prefix p s with Some _ => true | None => false end.

Definition TrimPrefix (s p : string) : string :=
  match strip_prefix p s with Some s' => s' | None => s end.

(** The UTF-8 encodings of the runes [unicode.IsSpace] accepts. *)
Definition space_encodings : list string :=
  Eval cbv in
  map (fun l => of_bytes (map byte l))
    ([[9]; [10]; [11]; [12]; [13]; [32]; [194; 133]; [194; 160]; [225; 154; 128]]
     ++ map (fun z => [226; 128; z])
          [128; 129; 130; 131; 132; 133; 134; 135; 136; 137; 138; 168; 169; 175]
     ++ [[226; 129; 159]; [227; 128; 128]]).

(** The encodings read from the end of a string. *)
Definition space_encodings_rev : list string :=
  Eval cbv in map String.rev space_encodings.

(** Drop one space rune from the front, if there is one. *)
Fixpoint strip_first (ps : list string) (s : string) : option string :=
  match ps with
  | [] => None
  | p :: ps' => match strip_prefix p s with Some s' => Some s' | None => strip_first ps' s end
  end.

Fixpoint trim_left_fuel (ps : list string) (n : nat) (s : string) : string :=
  match n with
  | O => s
  | S n' => match strip_first ps s with Some s' => trim_left_fuel ps n' s' | None => s end
  end.

Definition TrimLeftSpace (s : string) : string :=
  trim_left_fuel space_encodings (String.length s) s.
Definition TrimRightSpace (s : string) : string :=
  String.rev (trim_left_fuel space_encodings_rev (String.length s) (String.rev s)).
Definition TrimSpace (s : string) : string := TrimRightSpace (TrimLeftSpace s).

(** [strings.Fields]: the maximal runs of non-space bytes. *)
Fixpoint fields_fuel (n : nat) (cur s : string) : list string :=
  let flush := if is_empty cur then [] else [String.rev cur] in
  match n with
  | O => flush
  | S n' =>
      match strip_first space_encodings s with
      | Some s' => flush ++ fields_fuel n' EmptyString s'
      | None =>
          match s with
          | EmptyString => flush
          | String c s' => fields_fuel n' (String c cur) s'
          end
      end
  end.
Definition Fields (s : string) : list string :=
  fields_fuel (S (String.length s)) EmptyString s.

(** [strings.Split] with a one-byte separator. *)
Fixpoint split_on (sep : ascii) (cur s : string) : list string :=
  match s with
  | EmptyString => [String.rev cur]
  | String c s' =>
      if bool_decide (c = sep) then String.rev cur :: split_on sep EmptyString s'
      else split_on sep (String c cur) s'
  end.
Definition Split (s : string) (sep : ascii) : list string := split_on sep EmptyString s.

Fixpoint ContainsAny (s chars : string) : bool :=
  match s with
  | EmptyString => false
  | String c s' => bool_decide (c ∈ bytes_of chars) || ContainsAny s' chars
  end.

(** [strconv.FormatInt(n, 10)]. *)
Definition FormatInt (n : Z) : string := pretty n.

Lemma FormatInt_inj m n : FormatInt m = FormatInt n -> m = n.
Proof. apply (inj (pretty (A := Z))). Qed.

Example trim_space_example :
  TrimSpace (String (byte 9) (String (byte 32) "a b" +:+ of_bytes (map byte [194; 160; 10])))
  = "a b".
Proof. vm_compute. reflexivity. Qed.

Example fields_example : Fields "  Bearer   tok " = ["Bearer"; "tok"].
Proof. vm_compute. reflexivity. Qed.

Example split_example : Split "a,,b" "," = ["a"; EmptyString; "b"].
Proof. vm_compute. reflexivity. Qed.

(** Case tables that leave every non-ASCII string alone, for the examples. *)
Definition plain_unicode : Unicode := {|
  unicode_lower := id;
  unicode_upper := id;
  unicode_equal_fold s t := bool_decide (s = t);
|}.

(** * Digests

    SHA-256, which the source takes from [crypto/sha256]. *)
Class Sha256 := sha256 : string -> string.

(** A stand-in for the examples: the text itself. *)
Definition plain_sha256 : Sha256 := fun s => s.
