(* ===== verification/Utf8.v ===== *)
(** UTF-8 as [unicode/utf8] reads and writes it: [DecodeRuneInString],
    [EncodeRune], and the number of runes of a string, which is [len([]rune(s))]
    in the source and [char_length] in PostgreSQL; texts as PostgreSQL trims them,
    next to [strings.TrimSpace]; and the laws: decoding and encoding are inverse to
    each other, so that replacing what is not UTF-8 changes nothing else. *)
From S2P Require Import Prelude GoLists GoBase.
Local Open Scope Z_scope.

(** [utf8.RuneError], which stands for each byte that starts no rune. *)
Definition RuneError : Z := 65533.

Definition continuation (c : ascii) : bool := in_range 128 191 c.

(** The bits of a continuation byte. *)
Definition low6 (c : ascii) : Z := byte_val c - 128.

(** The range of the second byte after the first byte [a], and how many
    continuation bytes follow it: the tables [first] and [acceptRanges]. *)
Definition second_range (a : ascii) : option (Z * Z * nat) :=
  if in_range 194 223 a then Some (128, 191, 0%nat)
  else if in_range 224 224 a then Some (160, 191, 1%nat)
  else if in_range 225 236 a then Some (128, 191, 1%nat)
  else if in_range 237 237 a then Some (128, 159, 1%nat)
  else if in_range 238 239 a then Some (128, 191, 1%nat)
  else if in_range 240 240 a then Some (144, 191, 2%nat)
  else if in_range 241 243 a then Some (128, 191, 2%nat)
  else if in_range 244 244 a then Some (128, 143, 2%nat)
  else None.

(** The first rune of a string that is not empty, whether it is encoded
    properly, and the rest of the string. *)
Definition decode_rune (a : ascii) (s : string) : Z * bool * string :=
  let invalid := (RuneError, false, s) in
  if in_range 0 127 a then (byte_val a, true, s) else
  match second_range a, s with
  | Some (lo, hi, more), String b s1 =>
      if negb (in_range lo hi b) then invalid else
      match more, s1 with
      | 0%nat, _ => ((byte_val a - 192) * 64 + low6 b, true, s1)
      | 1%nat, String c s2 =>
          if continuation c
          then ((byte_val a - 224) * 4096 + low6 b * 64 + low6 c, true, s2) else invalid
      | _, String c (String d s3) =>
          if continuation c && continuation d
          then ((byte_val a - 240) * 262144 + low6 b * 4096 + low6 c * 64 + low6 d, true, s3)
          else invalid
      | _, _ => invalid
      end
  | _, _ => invalid
  end.

(** [utf8.AppendRune]; a rune that cannot be encoded is written as
    [RuneError]. *)
Definition encode_valid (r : Z) : string :=
  of_bytes (map byte
    (if r <? 128 then [r]
     else if r <? 2048 then [192 + r / 64; 128 + r mod 64]
     else if r <? 65536 then [224 + r / 4096; 128 + r / 64 mod 64; 128 + r mod 64]
     else [240 + r / 262144; 128 + r / 4096 mod 64; 128 + r / 64 mod 64; 128 + r mod 64])).

Definition is_surrogate (r : Z) : bool := (55296 <=? r) && (r <=? 57343).

Definition encode_rune (r : Z) : string :=
  if (r <? 0) || (1114111 <? r) || is_surrogate r then encode_valid RuneError
  else encode_valid r.

(** The runes of a string, and whether they are all encoded properly; the fuel
    is the length of the string. *)
Fixpoint runes_fuel (n : nat) (s : string) : list Z :=
  match n, s with
  | S n', String a s' => let '(r, _, rest) := decode_rune a s' in r :: runes_fuel n' rest
  | _, _ => []
  end.

Definition runes (s : string) : list Z := runes_fuel (String.length s) s.

Definition RuneCount (s : string) : Z := Z.of_nat (length (runes s)).

Fixpoint valid_fuel (n : nat) (s : string) : bool :=
  match n, s with
  | S n', String a s' => let '(_, ok, rest) := decode_rune a s' in ok && valid_fuel n' rest
  | _, _ => true
  end.

Definition ValidString (s : string) : bool := valid_fuel (String.length s) s.

Example runes_example :
  runes (of_bytes (map byte [97; 195; 177; 226; 130; 172; 240; 159; 152; 128; 255; 226; 130]))
  = [97; 241; 8364; 128512; RuneError; RuneError; RuneError].
Proof. vm_compute. reflexivity. Qed.

Example encode_example :
  foldr (fun r s => encode_rune r +:+ s) EmptyString [97; 241; 8364; 128512; 55296]
  = of_bytes (map byte [97; 195; 177; 226; 130; 172; 240; 159; 152; 128; 239; 191; 189]).
Proof. vm_compute. reflexivity. Qed.

(** [length] of a [text]: the bytes of a character after the first are
    [10xxxxxx]. *)
Definition char_length (s : string) : Z :=
  Z.of_nat (length (List.filter (fun c => negb (in_range 128 191 c)) (bytes_of s))).

Definition length_between (lo hi : Z) (s : string) : bool :=
  (lo <=? char_length s) && (char_length s <=? hi).

(** * Laws *)

Lemma second_range_high a lo hi more :
  second_range a = Some (lo, hi, more) ->
  continuation a = false /\ 128 <= lo /\ hi <= 191 /\ (more <= 2)%nat.
Proof.
  unfold second_range, continuation, in_range. intros Hs.
  repeat match type of Hs with
  | (if ?b then _ else _) = _ => destruct b eqn:?
  end; try discriminate; injection Hs as <- <- <-; bool_facts;
    (split; [apply andb_false_iff; right; apply Z.leb_gt; lia|lia]).
Qed.

Lemma in_range_continuation lo hi c :
  128 <= lo -> hi <= 191 -> in_range lo hi c = true -> continuation c = true.
Proof.
  unfold continuation, in_range. intros Hlo Hhi Hc. bool_facts.
  apply andb_true_iff; split; apply Z.leb_le; lia.
Qed.

Lemma ascii_not_continuation a : in_range 0 127 a = true -> continuation a = false.
Proof.
  unfold continuation, in_range. intros Ha. bool_facts.
  apply andb_false_iff; left; apply Z.leb_gt; lia.
Qed.

(** How many bytes of a string are not continuation bytes: [char_length]. *)
Fixpoint heads (s : string) : nat :=
  match s with
  | EmptyString => 0
  | String c s' => if continuation c then heads s' else S (heads s')
  end.

Lemma heads_char_length s : Z.of_nat (heads s) = char_length s.
Proof.
  unfold char_length. f_equal. induction s as [|c s IH]; [done|]. simpl.
  fold (continuation c). destruct (continuation c); simpl; by rewrite IH.
Qed.

(** A rune takes at least one byte; a valid one has one byte that is not a
    continuation byte. *)
Lemma decode_rune_spec a s r ok rest :
  decode_rune a s = (r, ok, rest) ->
  (String.length rest <= String.length s)%nat
  /\ (ok = true -> heads (String a s) = S (heads rest)).
Proof.
  unfold decode_rune. intros Hd.
  destruct (in_range 0 127 a) eqn:Ha.
  { injection Hd as <- <- <-. split; [done|]. intros _. simpl. by rewrite ascii_not_continuation. }
  destruct (second_range a) as [[[lo hi] more]|] eqn:Hr; [|injection Hd as <- <- <-; done].
  destruct (second_range_high _ _ _ _ Hr) as (Hc & Hlo & Hhi & Hm).
  destruct s as [|b s1]; [by injection Hd as <- <- <-|].
  destruct (in_range lo hi b) eqn:Hb; simpl in Hd; [|by injection Hd as <- <- <-].
  pose proof (in_range_continuation _ _ _ Hlo Hhi Hb) as Hb'.
  destruct more as [|[|more]].
  - injection Hd as <- <- <-. simpl. rewrite Hc, Hb'. split; [lia|done].
  - destruct s1 as [|c s2]; [by injection Hd as <- <- <-|].
    destruct (continuation c) eqn:Hcc; injection Hd as <- <- <-; simpl; [|done].
    rewrite Hc, Hb', Hcc. split; [lia|done].
  - destruct s1 as [|c [|d s3]]; try by injection Hd as <- <- <-.
    destruct (continuation c && continuation d) eqn:Hcd; injection Hd as <- <- <-; simpl; [|done].
    apply andb_true_iff in Hcd as [Hcc Hdd]. rewrite Hc, Hb', Hcc, Hdd. split; [lia|done].
Qed.

Lemma runes_fuel_heads n s :
  (String.length s <= n)%nat -> valid_fuel n s = true -> length (runes_fuel n s) = heads s.
Proof.
  revert s; induction n as [|n IH]; intros [|a s] Hn Hv; simpl in *; try done; [lia|].
  destruct (decode_rune a s) as [[r ok] rest] eqn:Hd.
  apply decode_rune_spec in Hd as [Hlen Hheads].
  apply andb_true_iff in Hv as [-> Hv]. specialize (Hheads eq_refl). simpl in Hheads.
  rewrite Hheads. simpl. f_equal. apply IH; [lia|done].
Qed.

(** On valid UTF-8 the rune count of Go is the [char_length] of PostgreSQL. *)
Lemma RuneCount_char_length s : ValidString s = true -> RuneCount s = char_length s.
Proof.
  intros Hv. unfold RuneCount, runes. rewrite <- heads_char_length.
  f_equal. by apply runes_fuel_heads.
Qed.

Lemma runes_fuel_pos n a s : (0 < n)%nat -> runes_fuel n (String a s) <> [].
Proof. destruct n; [lia|]. simpl. intros _. by destruct (decode_rune a s) as [[? ?] ?]. Qed.

Lemma RuneCount_pos s : s <> EmptyString -> 1 <= RuneCount s.
Proof.
  destruct s as [|a s]; [done|]. intros _. unfold RuneCount, runes.
  pose proof (runes_fuel_pos (String.length (String a s)) a s) as Hp. simpl in *.
  destruct (decode_rune a s) as [[? ?] ?]. simpl. lia.
Qed.

(** ** Texts as PostgreSQL trims them, next to [strings.TrimSpace]. *)

(** What a [text] value can hold: valid UTF-8 without the character 0. *)
Definition sql_text (s : string) : bool := ValidString s && str_all (fun c => negb (in_range 0 0 c)) s.

(** [btrim]: spaces, and no other character. *)
Fixpoint ltrim_spaces (s : string) : string :=
  match s with
  | String c s' => if bool_decide (c = " "%char) then ltrim_spaces s' else s
  | EmptyString => s
  end.
Definition btrim (s : string) : string := String.rev (ltrim_spaces (String.rev (ltrim_spaces s))).

Lemma strip_prefix_app p s s' : strip_prefix p s = Some s' -> s = p +:+ s'.
Proof.
  revert s; induction p as [|a p IH]; intros [|b s] Hs; simplify_eq/=; try done.
  destruct (bool_decide _) eqn:E; [|discriminate]. bool_facts. subst. by rewrite (IH _ Hs).
Qed.

Lemma strip_first_app ps s s' :
  strip_first ps s = Some s' -> exists p, p ∈ ps /\ s = p +:+ s'.
Proof.
  induction ps as [|p ps IH]; simpl; [done|].
  destruct (strip_prefix p s) eqn:Hp.
  - intros [= <-]. exists p. split; [by left|]. by apply strip_prefix_app.
  - intros (q & Hq & ->)%IH. exists q. split; [by right|done].
Qed.

Lemma append_cons c s t : String c s +:+ t = String c (s +:+ t).
Proof. done. Qed.

Lemma string_app_length s t : String.length (s +:+ t) = (String.length s + String.length t)%nat.
Proof. induction s as [|c s IH]; [done|]. rewrite append_cons. simpl. f_equal. exact IH. Qed.

(** The loop stops at a string that does not start with a space, and removes a
    prefix. *)
Lemma trim_left_fuel_spec ps n s :
  (forall p, p ∈ ps -> p <> EmptyString) -> (String.length s <= n)%nat ->
  strip_first ps (trim_left_fuel ps n s) = None
  /\ exists p, s = p +:+ trim_left_fuel ps n s.
Proof.
  intros Hps. revert s; induction n as [|n IH]; intros s Hn; simpl.
  - split; [|by exists EmptyString]. destruct s; [|simpl in Hn; lia].
    destruct (strip_first ps EmptyString) as [s'|] eqn:E; [|done].
    apply strip_first_app in E as (p & Hp & E). by destruct p; [destruct (Hps _ Hp)|].
  - destruct (strip_first ps s) as [s'|] eqn:E; [|split; [done|by exists EmptyString]].
    apply strip_first_app in E as (p & Hp & ->).
    destruct (IH s') as [Hs (q & Hq)].
    { rewrite string_app_length in Hn. destruct p; [by destruct (Hps _ Hp)|]. simpl in Hn. lia. }
    split; [done|]. exists (p +:+ q).
    rewrite Hq at 1. clear. induction p as [|c p IH]; [done|]. rewrite !append_cons. f_equal. exact IH.
Qed.

Lemma spaces_nonempty p : p ∈ space_encodings -> p <> EmptyString.
Proof.
  intros Hp ->. assert (bool_decide (EmptyString ∈ space_encodings) = true) as E by by apply bool_decide_eq_true_2.
  vm_compute in E. discriminate.
Qed.
Lemma spaces_rev_nonempty p : p ∈ space_encodings_rev -> p <> EmptyString.
Proof.
  intros Hp ->. assert (bool_decide (EmptyString ∈ space_encodings_rev) = true) as E by by apply bool_decide_eq_true_2.
  vm_compute in E. discriminate.
Qed.

Lemma space_is_space : " " ∈ space_encodings.
Proof. apply list_elem_of_In. unfold space_encodings. simpl. tauto. Qed.
Lemma space_is_space_rev : " " ∈ space_encodings_rev.
Proof. apply list_elem_of_In. unfold space_encodings_rev. simpl. tauto. Qed.

Definition head_not_space (s : string) : Prop :=
  match s with String c _ => c <> " "%char | EmptyString => True end.

Lemma ltrim_head s : head_not_space s -> ltrim_spaces s = s.
Proof. destruct s as [|c s]; [done|]. simpl. intros Hc. by rewrite bool_decide_eq_false_2. Qed.

Lemma strip_first_head ps s :
  " " ∈ ps -> strip_first ps s = None -> head_not_space s.
Proof.
  intros Hin Hn. destruct s as [|c s]; [done|]. simpl. intros ->.
  induction ps as [|p ps IH]; [by apply elem_of_nil in Hin|].
  apply elem_of_cons in Hin as [<-|Hin]; simpl in Hn; [done|].
  destruct (strip_prefix p _); [discriminate|]. auto.
Qed.

Lemma app_nil_r_string s : s +:+ EmptyString = s.
Proof. induction s as [|c s IH]; [done|]. rewrite append_cons. simpl. f_equal. exact IH. Qed.

Lemma app_assoc_string s t u : (s +:+ t) +:+ u = s +:+ (t +:+ u).
Proof. induction s as [|c s IH]; [done|]. rewrite !append_cons. f_equal. exact IH. Qed.

Lemma rev_app_acc s t : String.rev_app s t = String.rev s +:+ t.
Proof.
  unfold String.rev. revert t; induction s as [|c s IH]; intros t; [done|]. simpl.
  rewrite IH, (IH (String c EmptyString)), app_assoc_string. done.
Qed.

Lemma rev_cons c s : String.rev (String c s) = String.rev s +:+ String c EmptyString.
Proof. unfold String.rev at 1. simpl. apply rev_app_acc. Qed.

Lemma rev_app_distr s t : String.rev (s +:+ t) = String.rev t +:+ String.rev s.
Proof.
  induction s as [|c s IH].
  - change (EmptyString +:+ t) with t. unfold String.rev at 3. simpl. by rewrite app_nil_r_string.
  - by rewrite append_cons, !rev_cons, IH, app_assoc_string.
Qed.

Lemma rev_involutive s : String.rev (String.rev s) = s.
Proof. induction s as [|c s IH]; [done|]. rewrite rev_cons, rev_app_distr, IH. done. Qed.

(** A trimmed text keeps its form under [btrim]. *)
Lemma btrim_TrimSpace s : btrim (TrimSpace s) = TrimSpace s.
Proof.
  assert (head_not_space (TrimLeftSpace s)) as Hl.
  { apply (strip_first_head space_encodings); [exact space_is_space|].
    apply (trim_left_fuel_spec space_encodings); [exact spaces_nonempty|done]. }
  unfold TrimSpace. generalize dependent (TrimLeftSpace s). clear s. intros s Hl.
  set (r := trim_left_fuel space_encodings_rev (String.length s) (String.rev s)).
  assert (String.length (String.rev s) = String.length s) as Hlen.
  { clear. induction s as [|c s IH]; [done|]. rewrite rev_cons, string_app_length, IH. simpl. lia. }
  destruct (trim_left_fuel_spec space_encodings_rev (String.length s) (String.rev s)
              spaces_rev_nonempty) as [Hr (p & Hp)]; [lia|].
  apply strip_first_head in Hr; [|exact space_is_space_rev].
  fold r in Hr, Hp. unfold TrimRightSpace. fold r.
  assert (s = String.rev r +:+ String.rev p) as Hs.
  { rewrite <- (rev_involutive s), Hp. apply rev_app_distr. }
  unfold btrim. rewrite (ltrim_head (String.rev r)).
  - by rewrite rev_involutive, (ltrim_head r).
  - destruct (String.rev r) as [|c t]; [done|]. rewrite Hs in Hl. exact Hl.
Qed.

(** ** Decoding and encoding runes are inverse to each other, so that replacing what is not UTF-8 changes nothing else. *)

Definition scalar (r : Z) : Prop := 0 <= r <= 1114111 /\ is_surrogate r = false.

Lemma byte_of z c : byte_val c = z -> byte z = c.
Proof. intros <-. unfold byte, byte_val. rewrite N2Z.id. apply ascii_N_embedding. Qed.

(** The ranges of the first byte, per length of the encoding. *)
Inductive first_byte : Z -> Z -> Z -> nat -> Prop :=
  | First2 a : 194 <= a <= 223 -> first_byte a 128 191 0
  | First3 a lo hi : 224 <= a <= 239 -> lo = (if a =? 224 then 160 else 128) ->
      hi = (if a =? 237 then 159 else 191) -> first_byte a lo hi 1
  | First4 a lo hi : 240 <= a <= 244 -> lo = (if a =? 240 then 144 else 128) ->
      hi = (if a =? 244 then 143 else 191) -> first_byte a lo hi 2.

Lemma second_range_first a lo hi more :
  second_range a = Some (lo, hi, more) <-> first_byte (byte_val a) lo hi more.
Proof.
  pose proof (byte_val_range a) as Ha. unfold second_range, in_range. generalize dependent (byte_val a).
  intros z Ha. split.
  - intros Hs.
    repeat match type of Hs with
    | (if ?b then _ else _) = _ => destruct b eqn:?
    end; try discriminate; injection Hs as <- <- <-; bool_facts;
      constructor; try lia; repeat case_match; lia.
  - intros Hf. inversion Hf; subst.
    all: repeat (case_match; bool_facts; try lia; try done).
Qed.

Lemma in_range_true lo hi c : in_range lo hi c = true <-> lo <= byte_val c <= hi.
Proof. unfold in_range. rewrite andb_true_iff, !Z.leb_le. done. Qed.

(** The three shapes of a rune of several bytes. *)
Lemma decode_rune2 a b t :
  first_byte (byte_val a) 128 191 0 -> 128 <= byte_val b <= 191 ->
  decode_rune a (String b t) = ((byte_val a - 192) * 64 + low6 b, true, t).
Proof.
  intros Ha Hb. unfold decode_rune. inversion Ha; subst.
  destruct (in_range 0 127 a) eqn:E; [apply in_range_true in E; lia|].
  rewrite (proj2 (second_range_first a 128 191 0)) by done.
  by rewrite (proj2 (in_range_true 128 191 b)).
Qed.

Lemma decode_rune3 a lo hi b c t :
  first_byte (byte_val a) lo hi 1 -> lo <= byte_val b <= hi -> 128 <= byte_val c <= 191 ->
  decode_rune a (String b (String c t)) =
  ((byte_val a - 224) * 4096 + low6 b * 64 + low6 c, true, t).
Proof.
  intros Ha Hb Hc. unfold decode_rune.
  destruct (in_range 0 127 a) eqn:E; [apply in_range_true in E; inversion Ha; lia|].
  rewrite (proj2 (second_range_first a lo hi 1)), (proj2 (in_range_true lo hi b)) by done.
  unfold continuation. by rewrite (proj2 (in_range_true 128 191 c)).
Qed.

Lemma decode_rune4 a lo hi b c d t :
  first_byte (byte_val a) lo hi 2 -> lo <= byte_val b <= hi -> 128 <= byte_val c <= 191 ->
  128 <= byte_val d <= 191 ->
  decode_rune a (String b (String c (String d t))) =
  ((byte_val a - 240) * 262144 + low6 b * 4096 + low6 c * 64 + low6 d, true, t).
Proof.
  intros Ha Hb Hc Hd. unfold decode_rune.
  destruct (in_range 0 127 a) eqn:E; [apply in_range_true in E; inversion Ha; lia|].
  rewrite (proj2 (second_range_first a lo hi 2)), (proj2 (in_range_true lo hi b)) by done.
  unfold continuation. by rewrite (proj2 (in_range_true 128 191 c)), (proj2 (in_range_true 128 191 d)).
Qed.

Lemma encode_rune_scalar r : scalar r -> encode_rune r = encode_valid r.
Proof.
  intros [Hr Hs]. unfold encode_rune. rewrite Hs, orb_false_r.
  by rewrite (proj2 (Z.ltb_ge r 0)), (proj2 (Z.ltb_ge 1114111 r)) by lia.
Qed.

#[local] Ltac div_lia := Z.to_euclidean_division_equations; lia.

(** An encoded rune is decoded, whatever follows. *)
Lemma decode_encode r :
  scalar r -> exists a s, encode_rune r = String a s /\ forall t, decode_rune a (s +:+ t) = (r, true, t).
Proof.
  intros Hr. rewrite encode_rune_scalar by done. destruct Hr as [Hr Hs].
  unfold is_surrogate in Hs. apply andb_false_iff in Hs. rewrite !Z.leb_gt in Hs.
  unfold encode_valid.
  destruct (r <? 128) eqn:E1; [|destruct (r <? 2048) eqn:E2; [|destruct (r <? 65536) eqn:E3]]; bool_facts.
  - eexists _, _. split; [reflexivity|]. intros t. unfold decode_rune.
    rewrite (proj2 (in_range_true 0 127 _)), byte_val_byte by (rewrite ?byte_val_byte; div_lia). done.
  - exists (byte (192 + r / 64)), (String (byte (128 + r mod 64)) EmptyString). split; [reflexivity|]. intros t.
    rewrite append_cons. change (EmptyString +:+ t) with t.
    rewrite decode_rune2; unfold low6; [rewrite !byte_val_byte by div_lia|apply First2; rewrite byte_val_byte by div_lia; div_lia|rewrite byte_val_byte by div_lia; div_lia].
    repeat f_equal. div_lia.
  - exists (byte (224 + r / 4096)),
      (String (byte (128 + r / 64 mod 64)) (String (byte (128 + r mod 64)) EmptyString)).
    split; [reflexivity|]. intros t. rewrite !append_cons. change (EmptyString +:+ t) with t.
    erewrite decode_rune3; [|rewrite byte_val_byte by div_lia; econstructor; [div_lia|reflexivity|reflexivity]|..];
      unfold low6; rewrite ?byte_val_byte by div_lia; [|repeat case_match; div_lia|div_lia].
    repeat f_equal. div_lia.
  - exists (byte (240 + r / 262144)), (String (byte (128 + r / 4096 mod 64))
      (String (byte (128 + r / 64 mod 64)) (String (byte (128 + r mod 64)) EmptyString))).
    split; [reflexivity|]. intros t. rewrite !append_cons. change (EmptyString +:+ t) with t.
    erewrite decode_rune4; [|rewrite byte_val_byte by div_lia; econstructor; [div_lia|reflexivity|reflexivity]|..];
      unfold low6; rewrite ?byte_val_byte by div_lia; [|repeat case_match; div_lia|div_lia|div_lia].
    repeat f_equal. div_lia.
Qed.

(** What is decoded from a proper encoding is encoded as it was. *)
Lemma encode_decode a s r ok rest :
  decode_rune a s = (r, ok, rest) ->
  scalar r /\ (ok = true -> String a s = encode_rune r +:+ rest).
Proof.
  assert (scalar RuneError) as Herr by done.
  unfold decode_rune. intros Hd.
  destruct (in_range 0 127 a) eqn:Ha.
  { apply in_range_true in Ha. injection Hd as <- <- <-.
    assert (scalar (byte_val a)) as Hr.
    { split; [lia|]. unfold is_surrogate. rewrite (proj2 (Z.leb_gt 55296 _)); [done|lia]. }
    split; [done|]. intros _. rewrite encode_rune_scalar by done. unfold encode_valid.
    rewrite (proj2 (Z.ltb_lt _ 128)) by lia. simpl. by rewrite (byte_of _ a). }
  destruct (second_range a) as [[[lo hi] more]|] eqn:Hf; [|by injection Hd as <- <- <-].
  apply second_range_first in Hf.
  destruct s as [|b s1]; [by injection Hd as <- <- <-|].
  destruct (in_range lo hi b) eqn:Hb; simpl in Hd; [|by injection Hd as <- <- <-].
  apply in_range_true in Hb.
  destruct more as [|[|more]].
  - injection Hd as <- <- <-. inversion Hf; subst. unfold low6.
    assert (scalar ((byte_val a - 192) * 64 + (byte_val b - 128))) as Hr.
    { split; [lia|]. unfold is_surrogate. rewrite (proj2 (Z.leb_gt 55296 _)); [done|lia]. }
    split; [done|]. intros _. rewrite encode_rune_scalar by done. unfold encode_valid.
    rewrite (proj2 (Z.ltb_ge _ 128)), (proj2 (Z.ltb_lt _ 2048)) by lia. cbn [map of_bytes].
    by rewrite !append_cons, (byte_of _ a), (byte_of _ b) by div_lia.
  - destruct s1 as [|c s2]; [by injection Hd as <- <- <-|].
    destruct (continuation c) eqn:Hc; [|by injection Hd as <- <- <-].
    apply in_range_true in Hc. injection Hd as <- <- <-. unfold low6.
    set (r := (byte_val a - 224) * 4096 + (byte_val b - 128) * 64 + (byte_val c - 128)).
    assert (2048 <= r < 65536 /\ (r < 55296 \/ 57343 < r)) as [Hr Hns].
    { inversion Hf; subst. revert Hb. repeat case_match; bool_facts; unfold r; lia. }
    assert (scalar r) as Hs.
    { split; [lia|]. apply andb_false_iff. rewrite !Z.leb_gt. lia. }
    split; [done|]. intros _. rewrite encode_rune_scalar by done. unfold encode_valid.
    rewrite (proj2 (Z.ltb_ge _ 128)), (proj2 (Z.ltb_ge _ 2048)), (proj2 (Z.ltb_lt _ 65536)) by lia.
    cbn [map of_bytes].
    assert (128 <= byte_val b <= 191) by (inversion Hf; subst; revert Hb; repeat case_match; lia).
    by rewrite !append_cons, (byte_of _ a), (byte_of _ b), (byte_of _ c) by (unfold r; div_lia).
  - destruct s1 as [|c [|d s3]]; try by injection Hd as <- <- <-.
    destruct (continuation c && continuation d) eqn:Hcd; [|by injection Hd as <- <- <-].
    apply andb_true_iff in Hcd as [Hc Hd']. apply in_range_true in Hc, Hd'.
    injection Hd as <- <- <-. unfold low6.
    set (r := (byte_val a - 240) * 262144 + (byte_val b - 128) * 4096 + (byte_val c - 128) * 64
              + (byte_val d - 128)).
    assert (65536 <= r <= 1114111) as Hr.
    { inversion Hf; subst. revert Hb. repeat case_match; bool_facts; unfold r; lia. }
    assert (scalar r) as Hs.
    { split; [lia|]. apply andb_false_iff. rewrite !Z.leb_gt. lia. }
    split; [done|]. intros _. rewrite encode_rune_scalar by done. unfold encode_valid.
    rewrite (proj2 (Z.ltb_ge _ 128)), (proj2 (Z.ltb_ge _ 2048)), (proj2 (Z.ltb_ge _ 65536)) by lia.
    cbn [map of_bytes].
    assert (128 <= byte_val b <= 191) by (inversion Hf; subst; revert Hb; repeat case_match; lia).
    by rewrite !append_cons, (byte_of _ a), (byte_of _ b), (byte_of _ c), (byte_of _ d) by (unfold r; div_lia).
Qed.

(** * Strings *)

Definition encode_runes (l : list Z) : string :=
  foldr (fun r t => encode_rune r +:+ t) EmptyString l.

(** What [encoding/json] writes for a string, read back: a byte that is not part
    of a rune becomes U+FFFD. *)
Definition coerce_utf8 (s : string) : string := encode_runes (runes s).

Lemma runes_fuel_encode l : Forall scalar l -> forall n, (String.length (encode_runes l) <= n)%nat ->
  runes_fuel n (encode_runes l) = l /\ valid_fuel n (encode_runes l) = true.
Proof.
  induction 1 as [|r l Hr Hl IH]; intros n Hn; [by destruct n|]. simpl in *.
  destruct (decode_encode r Hr) as (a & s & Hs & Hd). rewrite Hs, append_cons in *.
  simpl in Hn. rewrite string_app_length in Hn. destruct n as [|n]; [lia|]. simpl. rewrite Hd.
  destruct (IH n) as [-> ->]; [lia|done].
Qed.

Lemma runes_scalar s : Forall scalar (runes s).
Proof.
  unfold runes. generalize (String.length s). intros n. revert s.
  induction n as [|n IH]; intros [|a s]; simpl; try constructor.
  destruct (decode_rune a s) as [[r ok] rest] eqn:E. apply encode_decode in E as [Hr _].
  by constructor.
Qed.

Lemma runes_coerce s : runes (coerce_utf8 s) = runes s.
Proof. exact (proj1 (runes_fuel_encode _ (runes_scalar s) _ (le_n _))). Qed.

Lemma RuneCount_coerce s : RuneCount (coerce_utf8 s) = RuneCount s.
Proof. unfold RuneCount. by rewrite runes_coerce. Qed.

Lemma coerce_valid s : ValidString (coerce_utf8 s) = true.
Proof. exact (proj2 (runes_fuel_encode _ (runes_scalar s) _ (le_n _))). Qed.

Lemma encode_runes_valid n s :
  (String.length s <= n)%nat -> valid_fuel n s = true -> encode_runes (runes_fuel n s) = s.
Proof.
  revert s. induction n as [|n IH]; intros [|a s] Hn Hv; simpl in *; try done; [lia|].
  destruct (decode_rune a s) as [[r ok] rest] eqn:E. apply andb_true_iff in Hv as [Hok Hv]. subst ok.
  pose proof (decode_rune_spec _ _ _ _ _ E) as [Hlen _].
  apply encode_decode in E as [_ E]. rewrite (E eq_refl). simpl. f_equal. apply IH; [lia|done].
Qed.

Lemma coerce_utf8_valid s : ValidString s = true -> coerce_utf8 s = s.
Proof. by apply encode_runes_valid. Qed.

(** Text of one byte per rune. *)
Lemma ascii_valid s : is_ascii s = true -> ValidString s = true.
Proof.
  unfold ValidString. generalize (le_n (String.length s)). generalize (String.length s) at 2 3. intros n.
  revert n. induction s as [|c s IH]; intros [|n] Hn Ha; simpl in *; try done.
  apply andb_true_iff in Ha as [Hc Ha]. unfold decode_rune. rewrite Hc. simpl. apply IH; [lia|done].
Qed.

(** * Trimming *)

Lemma strip_first_app_None ps s t :
  strip_first ps (s +:+ t) = None -> strip_first ps s = None.
Proof.
  induction ps as [|p ps IH]; [done|]. simpl. destruct (strip_prefix p (s +:+ t)) eqn:E; [done|].
  intros Hs. destruct (strip_prefix p s) as [s'|] eqn:E2; [|by apply IH].
  exfalso. apply strip_prefix_app in E2 as ->. rewrite app_assoc_string in E. revert E. clear.
  induction p as [|c p IH]; [done|]. rewrite append_cons. simpl. by rewrite bool_decide_eq_true_2.
Qed.

Lemma trim_left_None ps n s : strip_first ps s = None -> trim_left_fuel ps n s = s.
Proof. intros Hs. destruct n; [done|]. simpl. by rewrite Hs. Qed.

Lemma rev_length s : String.length (String.rev s) = String.length s.
Proof. induction s as [|c s IH]; [done|]. rewrite rev_cons, string_app_length, IH. simpl. lia. Qed.

(** Neither end of a trimmed string is a space, and trimming takes nothing else. *)
Definition trimmed (s : string) : Prop :=
  strip_first space_encodings s = None /\ strip_first space_encodings_rev (String.rev s) = None.

Lemma TrimSpace_trimmed s : trimmed (TrimSpace s).
Proof.
  unfold TrimSpace. pose proof (proj1 (trim_left_fuel_spec space_encodings (String.length s) s
    spaces_nonempty ltac:(lia))) as Hl. fold (TrimLeftSpace s) in Hl.
  set (l := TrimLeftSpace s) in *. clearbody l. clear s. unfold TrimRightSpace.
  destruct (trim_left_fuel_spec space_encodings_rev (String.length l) (String.rev l)
              spaces_rev_nonempty) as [Hr (p & Hp)]; [rewrite rev_length; lia|].
  set (r := trim_left_fuel _ _ _) in *. clearbody r. split; [|by rewrite rev_involutive].
  apply (strip_first_app_None _ _ (String.rev p)). rewrite <- rev_app_distr, <- Hp, rev_involutive. done.
Qed.

Lemma TrimSpace_id s : trimmed s -> TrimSpace s = s.
Proof.
  intros [Hl Hr]. unfold TrimSpace, TrimLeftSpace, TrimRightSpace. rewrite (trim_left_None _ _ s Hl).
  rewrite trim_left_None by done. apply rev_involutive.
Qed.

Lemma TrimSpace_idemp s : TrimSpace (TrimSpace s) = TrimSpace s.
Proof. apply TrimSpace_id, TrimSpace_trimmed. Qed.

(** A string of graphic characters has nothing to trim. *)
Lemma strip_first_graphic ps c s :
  forallb (fun p => match p with String a _ => negb (in_range 33 126 a) | EmptyString => false end) ps = true ->
  in_range 33 126 c = true -> strip_first ps (String c s) = None.
Proof.
  intros Hps Hc. induction ps as [|p ps IH]; [done|]. simpl in *. apply andb_true_iff in Hps as [Hp Hps].
  destruct p as [|a p]; [done|]. simpl. case_bool_decide as E; [|by apply IH]. subst a. by rewrite Hc in Hp.
Qed.

Lemma str_all_app p s t : str_all p (s +:+ t) = str_all p s && str_all p t.
Proof. induction s as [|c s IH]; [done|]. rewrite append_cons. simpl. by rewrite IH, andb_assoc. Qed.

Lemma str_all_rev p s : str_all p (String.rev s) = str_all p s.
Proof.
  induction s as [|c s IH]; [done|]. rewrite rev_cons, str_all_app, IH. simpl. rewrite andb_true_r.
  apply andb_comm.
Qed.

Lemma TrimSpace_graphic s : str_all (in_range 33 126) s = true -> TrimSpace s = s.
Proof.
  intros Hs. apply TrimSpace_id. split.
  - destruct s as [|c s]; [done|]. apply andb_true_iff in Hs as [Hc _]. by apply strip_first_graphic.
  - rewrite <- str_all_rev in Hs. destruct (String.rev s) as [|c t]; [done|].
    apply andb_true_iff in Hs as [Hc _]. by apply strip_first_graphic.
Qed.

Lemma str_all_impl (p q : ascii -> bool) s :
  (forall c, p c = true -> q c = true) -> str_all p s = true -> str_all q s = true.
Proof.
  intros Hpq. induction s as [|c s IH]; [done|]. simpl. intros [Hc Hs]%andb_true_iff.
  by rewrite Hpq, IH.
Qed.

(** A string without capitals is its own lower case. *)
Lemma ToLower_id `{Unicode} s :
  str_all (fun c => in_range 0 127 c && negb (in_range 65 90 c)) s = true -> ToLower s = s.
Proof.
  intros Hs. unfold ToLower, is_ascii.
  rewrite (str_all_impl (fun c => in_range 0 127 c && negb (in_range 65 90 c)) _ s) by (by intros c []%andb_true_iff || done).
  induction s as [|c s IH]; [done|]. simpl in *. apply andb_true_iff in Hs as [Hc Hs].
  rewrite IH by done. f_equal. unfold lower_byte. by destruct (in_range 65 90 c); [rewrite andb_false_r in Hc|].
Qed.
