(* ===== verification/Float64.v ===== *)
(** The [float64] values of Go: IEEE 754 binary64, as the Standard Library's
    [SpecFloat] specifies it, with the conversions the source uses. *)
From S2P Require Import Prelude GoLists GoBase.
From Stdlib Require Export Floats.SpecFloat.
Local Open Scope Z_scope.

Abbreviation float64 := spec_float (only parsing).
Definition prec64 : Z := 53.
Definition emax64 : Z := 1024.

Definition f_add : float64 -> float64 -> float64 := SFadd prec64 emax64.
Definition f_sub : float64 -> float64 -> float64 := SFsub prec64 emax64.
Definition f_mul : float64 -> float64 -> float64 := SFmul prec64 emax64.
Definition f_div : float64 -> float64 -> float64 := SFdiv prec64 emax64.
Definition f_ltb : float64 -> float64 -> bool := SFltb.
Definition f_leb : float64 -> float64 -> bool := SFleb.

(** [math.IsNaN] and [math.IsInf(f, 0)]. *)
Definition IsNaN (f : float64) : bool := match f with S754_nan => true | _ => false end.
Definition IsInf (f : float64) : bool := match f with S754_infinity _ => true | _ => false end.

(** [float64(n)] of an integer: the nearest value, ties to even. *)
Definition of_Z (n : Z) : float64 := binary_normalize prec64 emax64 n 0 false.

Definition f_zero : float64 := S754_zero false.

(** * Decimal literals

    [strconv.ParseFloat] of a decimal [digits * 10^e]: the nearest value, or
    nothing when that overflows. *)
Fixpoint decimal_digits (s : string) (acc : Z) (n : nat) : Z * nat * string :=
  match s with
  | String c s' =>
      if in_range 48 57 c then decimal_digits s' (10 * acc + (byte_val c - 48)) (S n) else (acc, n, s)
  | EmptyString => (acc, n, s)
  end.

Definition decimal_exponent (s : string) : Z :=
  match s with
  | String c s1 =>
      if bool_decide (c = "e"%char) || bool_decide (c = "E"%char) then
        match s1 with
        | String d s2 =>
            if bool_decide (d = "-"%char) then - (fst (fst (decimal_digits s2 0 0)))
            else if bool_decide (d = "+"%char) then fst (fst (decimal_digits s2 0 0))
            else fst (fst (decimal_digits s1 0 0))
        | EmptyString => 0
        end
      else 0
  | EmptyString => 0
  end.

(** The value of a literal of the grammar of JSON numbers: its sign, its digits
    and its exponent of ten. *)
Definition decimal_parts (s : string) : bool * Z * Z :=
  let '(neg, s) := match s with
    | String c s' => if bool_decide (c = "-"%char) then (true, s') else (false, s)
    | EmptyString => (false, s) end in
  let '(i, _, rest) := decimal_digits s 0 0 in
  match rest with
  | String c rest' =>
      if bool_decide (c = "."%char) then
        let '(m, n, rest'') := decimal_digits rest' i 0 in
        (neg, m, decimal_exponent rest'' - Z.of_nat n)
      else (neg, i, decimal_exponent rest)
  | EmptyString => (neg, i, 0)
  end.

(** A decimal of at most [n] digits with exponent [e] is below [10^(n+e)] and at
    least [10^e]: those below [10^-400] are 0 and those above [10^400] overflow,
    and the powers of ten of the others are computed. *)
Definition decimal_float (neg : bool) (m e : Z) : option float64 :=
  match m with
  | Z.pos p =>
      let size := Z.log2 m / 3 + 1 in
      if 400 <? e then None
      else if e + size + 1 <? -400 then Some (S754_zero neg)
      else
        let f :=
          if 0 <=? e then binary_normalize prec64 emax64 (m * 10 ^ e) 0 false
          else f_div (S754_finite false p 0) (S754_finite false (Z.to_pos (10 ^ (- e))) 0) in
        if IsInf f then None else Some (if neg then SFopp f else f)
  | _ => Some (S754_zero neg)
  end.

Definition ParseFloat (literal : string) : option float64 :=
  let '(neg, m, e) := decimal_parts literal in decimal_float neg m e.

(** A literal of the source. *)
Definition f_lit (literal : string) : float64 := default S754_nan (ParseFloat literal).

(** * Integers *)

(** The integer part of a finite value, rounded down, towards zero, up, or to
    the nearest with halves away from zero; [math.Floor] and so on are these as
    [float64] values, which is exact. *)
Definition mantissa (s : bool) (m : positive) : Z := if s then Z.neg m else Z.pos m.

Definition floor_of (m e : Z) : Z := if 0 <=? e then m * 2 ^ e else m / 2 ^ (- e).

Definition ceil_of (m e : Z) : Z := - floor_of (- m) e.

Definition round_of (m e : Z) : Z :=
  if 0 <=? e then m * 2 ^ e
  else if 0 <=? m then (2 * m + 2 ^ (- e)) / 2 ^ (1 - e)
  else - ((2 * (- m) + 2 ^ (- e)) / 2 ^ (1 - e)).

(** PostgreSQL's [round] of a [double precision]: halves to even. *)
Definition round_even_of (m e : Z) : Z :=
  let f := floor_of m e in
  if 0 <=? e then f
  else
    let twice := 2 * (m - f * 2 ^ (- e)) in
    if twice <? 2 ^ (- e) then f
    else if 2 ^ (- e) <? twice then f + 1
    else if Z.even f then f else f + 1.

Definition trunc_of (m e : Z) : Z := if 0 <=? m then floor_of m e else ceil_of m e.

Definition integral (op : Z -> Z -> Z) (f : float64) : option Z :=
  match f with
  | S754_zero _ => Some 0
  | S754_finite s m e => Some (op (mantissa s m) e)
  | _ => None
  end.

(** The conversion [int64(f)] of an integral value: what is not in range is
    the least integer, on the architecture of the deployment (amd64). *)
Definition to_int64 (n : option Z) : Z :=
  match n with
  | Some z => if (min_int64 <=? z) && (z <=? max_int64) then z else min_int64
  | None => min_int64
  end.

(** [time.Duration.Seconds]. *)
Definition Seconds (d : duration) : float64 :=
  f_add (of_Z (Z.quot d second)) (f_div (of_Z (Z.rem d second)) (of_Z 1000000000)).

Example parse_examples :
  (ParseFloat "0.04", ParseFloat "-12.5e1", ParseFloat "1e-400", ParseFloat "1e309",
   ParseFloat "9007199254740993")
  = (Some (S754_finite false 5764607523034235 (-57)), Some (S754_finite true 8796093022208000 (-46)),
     Some (S754_zero false), None, Some (S754_finite false 4503599627370496 1)).
Proof. vm_compute. reflexivity. Qed.

Example round_examples :
  map (fun s => to_int64 (integral round_of (f_lit s))) ["2.5"; "-2.5"; "2.49"; "1e300"; "0"]
  = [3; -3; 2; min_int64; 0]
  /\ map (fun s => to_int64 (integral round_even_of (f_lit s))) ["2.5"; "3.5"; "-2.5"] = [2; 4; -2]
  /\ map (fun s => to_int64 (integral ceil_of (f_lit s))) ["2.1"; "-2.1"; "7"] = [3; -2; 7].
Proof. vm_compute. repeat split. Qed.

(** * Laws *)

Lemma to_int64_range n : in_int64 (to_int64 n).
Proof.
  unfold to_int64, in_int64, min_int64, max_int64.
  destruct n as [z|]; [|lia]. destruct (_ && _) eqn:E; bool_facts; lia.
Qed.
#[export] Hint Resolve to_int64_range : go.

(** The integer above a value is at least the one below it. *)
Lemma floor_le_ceil m e : floor_of m e <= ceil_of m e.
Proof.
  unfold ceil_of, floor_of. case_if; [lia|].
  bool_facts. pose proof (Z.pow_pos_nonneg 2 (- e) ltac:(lia) ltac:(lia)).
  Z.to_euclidean_division_equations. nia.
Qed.
