(* ===== verification/Float64Spec.v ===== *)
(** Bounds on the rounding of binary64: a product with a factor below one does not
    exceed the other factor, small integers are exact, and on nonnegative normal
    numbers a sum, a product or a quotient exceeds the exact one by a factor of at
    most [1 + 2^-52]. *)
From S2P Require Import Prelude GoLists GoBase Float64.
Local Open Scope Z_scope.

Abbreviation fexp64 := (fexp prec64 emax64).

(** * Digits *)

Lemma digits2_bounds p : 2 ^ (Z.pos (digits2_pos p) - 1) <= Z.pos p < 2 ^ Z.pos (digits2_pos p).
Proof.
  induction p as [p IH|p IH|]; simpl digits2_pos; [| |done].
  - rewrite Pos2Z.inj_succ, Z.pow_succ_r by lia.
    replace (Z.succ (Z.pos (digits2_pos p)) - 1) with (Z.succ (Z.pos (digits2_pos p) - 1)) by lia.
    rewrite Z.pow_succ_r by lia. lia.
  - rewrite Pos2Z.inj_succ, Z.pow_succ_r by lia.
    replace (Z.succ (Z.pos (digits2_pos p)) - 1) with (Z.succ (Z.pos (digits2_pos p) - 1)) by lia.
    rewrite Z.pow_succ_r by lia. lia.
Qed.

Lemma digits2_unique p d : 2 ^ (d - 1) <= Z.pos p < 2 ^ d -> Z.pos (digits2_pos p) = d.
Proof.
  intros [Hl Hu]. destruct (digits2_bounds p) as [Hl' Hu'].
  assert (0 < d). { destruct (Z.le_gt_cases d 0); [|done]. pose proof (Z.pow_le_mono_r 2 d 0). lia. }
  apply Z.le_antisymm.
  - apply Z.nlt_ge. intros Hlt. pose proof (Z.pow_le_mono_r 2 d (Z.pos (digits2_pos p) - 1)). lia.
  - apply Z.nlt_ge. intros Hlt. pose proof (Z.pow_le_mono_r 2 (Z.pos (digits2_pos p)) (d - 1)). lia.
Qed.

Lemma digits2_mul p q : Z.pos (digits2_pos (p * q)) <= Z.pos (digits2_pos p) + Z.pos (digits2_pos q).
Proof.
  destruct (digits2_bounds p) as [_ Hp], (digits2_bounds q) as [_ Hq], (digits2_bounds (p * q)) as [Hl _].
  apply Z.nlt_ge. intros Hlt.
  assert (Z.pos (p * q) < 2 ^ (Z.pos (digits2_pos p) + Z.pos (digits2_pos q))).
  { rewrite Z.pow_add_r, Pos2Z.inj_mul by lia. apply Z.mul_lt_mono_nonneg; lia. }
  pose proof (Z.pow_le_mono_r 2 (Z.pos (digits2_pos p) + Z.pos (digits2_pos q))
                (Z.pos (digits2_pos (p * q)) - 1)). lia.
Qed.

Lemma fexp_mono a b : a <= b -> fexp64 a <= fexp64 b.
Proof. unfold fexp. lia. Qed.

(** * Shifts *)

Lemma iter_pos_nat {A} (f : A -> A) p x : iter_pos f p x = Nat.iter (Pos.to_nat p) f x.
Proof.
  revert x; induction p as [p IH|p IH|]; intros x; cbn [iter_pos]; [| |done].
  - rewrite !IH, Pos2Nat.inj_xI, <- Nat.iter_add. rewrite <- Nat.iter_succ_r. f_equal. lia.
  - rewrite !IH, Pos2Nat.inj_xO, <- Nat.iter_add. f_equal. lia.
Qed.

(** The record of a mantissa shifted by [k]: the quotient, and whether anything
    was shifted out. *)
Definition shifted (M k : Z) (r : shr_record) : Prop :=
  shr_m r = M / 2 ^ k /\ (shr_r r = false /\ shr_s r = false <-> M mod 2 ^ k = 0).

Lemma shr_1_shifted M k r : 0 <= M -> 0 <= k -> shifted M k r -> shifted M (k + 1) (shr_1 r).
Proof.
  intros HM Hk [Hm Hx]. pose proof (Z.pow_pos_nonneg 2 k ltac:(lia) Hk) as Hp.
  pose proof (Z.div_pos M (2 ^ k) HM Hp) as Hq.
  pose proof (Z.div_mod M (2 ^ k) ltac:(lia)) as Hdm.
  pose proof (Z.mod_pos_bound M (2 ^ k) Hp) as Hb.
  assert (2 ^ (k + 1) = 2 ^ k * 2) as Hpow by (rewrite Z.pow_add_r by lia; lia).
  unfold shifted. rewrite Hpow, <- Z.div_div by lia. rewrite Z.rem_mul_r by lia. rewrite <- Hm in *.
  destruct r as [m rb sb]. simpl in *.
  destruct m as [|[p|p|]|p]; simpl; try lia.
  - split; [done|]. rewrite orb_false_iff in *. rewrite Z.mod_0_l, Z.mul_0_r, Z.add_0_r by lia. tauto.
  - split; [apply (Z.div_unique _ _ _ 1); lia|].
    rewrite <- (Z.mod_unique (Z.pos p~1) 2 (Z.pos p) 1) by lia. split; [by intros [? _]|lia].
  - split; [apply (Z.div_unique _ _ _ 0); lia|].
    rewrite <- (Z.mod_unique (Z.pos p~0) 2 (Z.pos p) 0) by lia.
    rewrite orb_false_iff, Z.mul_0_r, Z.add_0_r. tauto.
  - split; [done|]. change (1 mod 2) with 1. split; [by intros [? _]|lia].
Qed.

Lemma shr_shifted M e n r e' :
  0 <= M -> shr {| shr_m := M; shr_r := false; shr_s := false |} e n = (r, e') ->
  e' = e + Z.max n 0 /\ shifted M (Z.max n 0) r.
Proof.
  intros HM Hs.
  assert (forall k, shifted M (Z.of_nat k)
            (Nat.iter k shr_1 {| shr_m := M; shr_r := false; shr_s := false |})) as Hk.
  { induction k as [|k IH].
    - split; simpl; [by rewrite Z.div_1_r|]. by rewrite Z.mod_1_r.
    - rewrite Nat2Z.inj_succ. simpl. apply shr_1_shifted; [done|lia|done]. }
  unfold shr in Hs. destruct n as [|p|p]; injection Hs as <- <-.
  - split; [lia|]. apply (Hk 0%nat).
  - split; [lia|]. rewrite iter_pos_nat. specialize (Hk (Pos.to_nat p)).
    by rewrite positive_nat_Z in Hk.
  - split; [lia|]. apply (Hk 0%nat).
Qed.

(** Rounding to the nearest adds one at most, and nothing when it is exact. *)
Lemma round_nearest_bounds M k r :
  0 <= k -> shifted M k r ->
  shr_m r <= round_nearest_even (shr_m r) (loc_of_shr_record r) <= shr_m r + 1 /\
  (M mod 2 ^ k = 0 -> round_nearest_even (shr_m r) (loc_of_shr_record r) = shr_m r).
Proof.
  intros Hk [_ Hx]. destruct r as [m [] []]; simpl in *.
  - split; [lia|]. intros H0. by apply Hx in H0 as [? _].
  - split; [case_if; lia|]. intros H0. by apply Hx in H0 as [? _].
  - split; [lia|]. intros H0. by apply Hx in H0 as [_ ?].
  - split; [lia|done].
Qed.

(** * The bound *)

(** A value [B * 2^k] on a grid at least as coarse as the one a value [M * 2^E] is
    rounded to bounds the rounded value when it bounds the value. *)
Lemma binary_round_le M E B k :
  0 <= M -> E <= k -> fexp64 (Zdigits2 M + E) <= k -> M <= B * 2 ^ (k - E) ->
  B * 2 ^ (k - E) < 2 ^ (emax64 - prec64 - E) ->
  match binary_round_aux prec64 emax64 false M E loc_Exact with
  | S754_zero _ => True
  | S754_finite s m e => s = false /\ E <= e /\ Z.pos m * 2 ^ (e - E) <= B * 2 ^ (k - E)
  | _ => False
  end.
Proof.
  intros HM HEk Hfk HB Hmax. unfold binary_round_aux, shr_fexp. simpl shr_record_of_loc.
  destruct (shr {| shr_m := M; shr_r := false; shr_s := false |} E _) as [r1 e1] eqn:E1.
  apply shr_shifted in E1 as [He1 Hs1]; [|done].
  set (n := Z.max (fexp64 (Zdigits2 M + E) - E) 0) in *.
  pose proof (Z.pow_pos_nonneg 2 n ltac:(lia) ltac:(lia)) as Hpn.
  destruct (round_nearest_bounds M n r1 ltac:(lia) Hs1) as [Hr Hr0].
  set (rn := round_nearest_even (shr_m r1) (loc_of_shr_record r1)) in *.
  destruct Hs1 as [Hm1 _].
  pose proof (Z.div_pos M (2 ^ n) HM Hpn).
  assert (rn * 2 ^ n <= B * 2 ^ (k - E)) as Hrn.
  { assert (B * 2 ^ (k - E) = B * 2 ^ (k - e1) * 2 ^ n) as HBn.
    { rewrite <- Z.mul_assoc, <- Z.pow_add_r by lia. do 2 f_equal. lia. }
    rewrite HBn in HB |- *. apply Z.mul_le_mono_nonneg_r; [lia|].
    destruct (Z.eq_dec (M mod 2 ^ n) 0) as [H0|H0].
    - rewrite Hr0, Hm1 by done. apply Z.div_le_upper_bound; lia.
    - assert (M / 2 ^ n < B * 2 ^ (k - e1)); [|lia].
      apply Z.div_lt_upper_bound; [done|]. pose proof (Z.mod_divide M (2 ^ n) ltac:(lia)) as Hd.
      destruct (Z.eq_dec M (2 ^ n * (B * 2 ^ (k - e1)))) as [HMe|]; [|lia].
      exfalso. apply H0. rewrite HMe, Z.mul_comm. apply Z.mod_mul. lia. }
  destruct (shr {| shr_m := rn; shr_r := false; shr_s := false |} e1 _) as [r2 e2] eqn:E2.
  apply shr_shifted in E2 as [He2 [Hm2 _]]; [|lia].
  set (n2 := Z.max (fexp64 (Zdigits2 rn + e1) - e1) 0) in *.
  pose proof (Z.pow_pos_nonneg 2 n2 ltac:(lia) ltac:(lia)) as Hpn2.
  assert (shr_m r2 * 2 ^ (e2 - E) <= B * 2 ^ (k - E)) as Hfin.
  { replace (e2 - E) with (n2 + n) by lia. rewrite Z.pow_add_r by lia.
    etrans; [|exact Hrn]. rewrite Z.mul_assoc. apply Z.mul_le_mono_nonneg_r; [lia|].
    rewrite Hm2, Z.mul_comm. apply Z.mul_div_le. lia. }
  destruct (shr_m r2) as [|m|m] eqn:Em; [done| |].
  - destruct (e2 <=? emax64 - prec64) eqn:Emax; [split_and!; [done|lia|done]|].
    bool_facts. exfalso.
    pose proof (Z.pow_le_mono_r 2 (emax64 - prec64 - E) (e2 - E) ltac:(lia) ltac:(lia)).
    pose proof (Z.pow_nonneg 2 (e2 - E) ltac:(lia)). nia.
  - pose proof (Z.div_pos rn (2 ^ n2) ltac:(lia) Hpn2). lia.
Qed.

(** * Integers below [2^53] are exact *)

Lemma shl_align_spec m e e' :
  e' <= e -> shl_align m e e' = (Z.to_pos (Z.pos m * 2 ^ (e - e')), e').
Proof.
  intros He. unfold shl_align. destruct (e' - e) as [|p|p] eqn:E; [|lia|].
  - replace (e - e') with 0 by lia. rewrite Z.mul_1_r. simpl. f_equal. lia.
  - replace (e - e') with (Z.pos p) by lia. f_equal. apply Pos2Z.inj.
    rewrite Z2Pos.id by (pose proof (Z.pow_pos_nonneg 2 (Z.pos p)); lia).
    clear. induction p as [|p IH] using Pos.peano_ind; [simpl; lia|].
    rewrite Pos.iter_succ, Pos2Z.inj_succ, Z.pow_succ_r, Pos2Z.inj_xO by lia. lia.
Qed.

(** A mantissa whose digits put it on the grid is not rounded. *)
Lemma binary_round_aux_exact m e :
  bounded prec64 emax64 m e = true ->
  binary_round_aux prec64 emax64 false (Z.pos m) e loc_Exact = S754_finite false m e.
Proof.
  unfold bounded, canonical_mantissa. intros [Hc Hb]%andb_true_iff. apply Z.eqb_eq in Hc.
  unfold binary_round_aux, shr_fexp. simpl shr_record_of_loc. simpl Zdigits2.
  rewrite Hc, Z.sub_diag. simpl. rewrite Hc, Z.sub_diag. simpl. by rewrite Hb.
Qed.

Lemma of_Z_exact g :
  0 < g < 2 ^ 53 ->
  exists m e, of_Z g = S754_finite false m e /\ bounded prec64 emax64 m e = true /\
    e <= 0 /\ Z.pos m = g * 2 ^ (- e).
Proof.
  intros [Hg Hg']. destruct g as [|p|p]; [lia| |lia]. unfold of_Z, binary_normalize, binary_round.
  destruct (digits2_bounds p) as [Hl Hu]. set (d := Z.pos (digits2_pos p)) in *.
  assert (d <= 53) as Hd.
  { apply Z.nlt_ge. intros Hlt. pose proof (Z.pow_le_mono_r 2 53 (d - 1)). lia. }
  assert (0 < d) as Hd0 by lia.
  assert (fexp64 (d + 0) = d - 53) as Hf by (unfold fexp, emin, prec64, emax64; lia).
  rewrite Hf, shl_align_spec by lia. rewrite Z.sub_0_l.
  pose proof (Z.pow_pos_nonneg 2 (- (d - 53)) ltac:(lia) ltac:(lia)) as Hp.
  set (m := Z.to_pos (Z.pos p * 2 ^ (- (d - 53)))).
  assert (Z.pos m = Z.pos p * 2 ^ (- (d - 53))) as Hm by (unfold m; rewrite Z2Pos.id; lia).
  assert (bounded prec64 emax64 m (d - 53) = true) as Hb.
  { unfold bounded, canonical_mantissa. rewrite (digits2_unique m 53).
    - apply andb_true_iff. unfold fexp, emin, prec64, emax64. split; [apply Z.eqb_eq|apply Z.leb_le]; lia.
    - rewrite Hm. replace (53 - 1) with ((d - 1) + - (d - 53)) by lia.
      replace (2 ^ 53) with (2 ^ (d + - (d - 53))) by (f_equal; lia).
      rewrite !Z.pow_add_r by lia. nia. }
  exists m, (d - 53). rewrite binary_round_aux_exact by done. split_and!; [done|done|lia|done].
Qed.

(** * Products *)

(** A rate below one has a mantissa below [2^53] and an exponent of at most -53. *)
Lemma rate_below_one m e :
  bounded prec64 emax64 m e = true -> f_leb (of_Z 1) (S754_finite false m e) = false ->
  Z.pos m < 2 ^ 53 /\ e <= -53.
Proof.
  unfold bounded, canonical_mantissa. intros [Hc _]%andb_true_iff Hl. apply Z.eqb_eq in Hc.
  destruct (digits2_bounds m) as [Hlo Hhi]. set (d := Z.pos (digits2_pos m)) in *.
  unfold fexp, emin, prec64, emax64 in Hc.
  assert (d <= 53) as Hd by lia.
  pose proof (Z.pow_le_mono_r 2 d 53 ltac:(lia) Hd). split; [lia|].
  apply Z.nlt_ge. intros He.
  change (of_Z 1) with (S754_finite false 4503599627370496 (-52)) in Hl.
  unfold f_leb, SFleb, SFcompare in Hl.
  destruct (Z.compare_spec (-52) e) as [Hee|Hee|Hee]; [|done|lia].
  assert (d = 53) as Hd53 by lia. rewrite Hd53 in Hlo. change (Pos.compare_cont Eq) with Pos.compare in Hl.
  destruct (Pos.compare_spec 4503599627370496 m) as [|Hlt|Hgt]; try done.
  apply Pos2Z.pos_lt_pos in Hgt. change (2 ^ (53 - 1)) with 4503599627370496 in Hlo. lia.
Qed.

(** A nonnegative value of at most [g]. *)
Definition at_most (g : Z) (f : float64) : Prop :=
  match f with
  | S754_zero _ => True
  | S754_finite s m e => s = false /\ if 0 <=? e then Z.pos m * 2 ^ e <= g else Z.pos m <= g * 2 ^ (- e)
  | _ => False
  end.

Lemma f_mul_rate g rate :
  0 <= g < 2 ^ 53 -> valid_binary prec64 emax64 rate = true ->
  IsNaN rate = false -> IsInf rate = false -> f_ltb rate f_zero = false -> f_leb (of_Z 1) rate = false ->
  at_most g (f_mul (of_Z g) rate).
Proof.
  intros [Hg0 Hg] Hv Hn Hi Hneg Hone.
  destruct rate as [s|s| |s my ey]; try done.
  { destruct (Z.eq_dec g 0) as [->|]; [done|].
    destruct (of_Z_exact g) as (m & e & -> & _); [lia|done]. }
  destruct s; [done|].
  destruct (Z.eq_dec g 0) as [->|]; [done|].
  destruct (of_Z_exact g) as (mx & ex & -> & Hb & Hex & Hmx); [lia|].
  destruct (rate_below_one my ey Hv Hone) as [Hmy Hey].
  assert (fexp64 (Z.pos (digits2_pos mx) + ex) = ex) as Hcx.
  { unfold bounded, canonical_mantissa in Hb. apply andb_true_iff in Hb as [Hb _]. by apply Z.eqb_eq in Hb. }
  assert (Z.pos (digits2_pos my) <= 53) as Hdy.
  { destruct (digits2_bounds my) as [Hl _]. apply Z.nlt_ge. intros Hlt.
    pose proof (Z.pow_le_mono_r 2 53 (Z.pos (digits2_pos my) - 1)). lia. }
  pose proof (Z.pow_le_mono_r 2 53 (- ey) ltac:(lia) ltac:(lia)) as Hpow.
  pose proof (binary_round_le (Z.pos (mx * my)) (ex + ey) (Z.pos mx) ex) as Hr.
  replace (ex - (ex + ey)) with (- ey) in Hr by lia.
  assert (0 < Z.pos mx) by lia.
  change (f_mul (S754_finite false mx ex) (S754_finite false my ey))
    with (binary_round_aux prec64 emax64 false (Z.pos (mx * my)) (ex + ey) loc_Exact).
  assert (Z.pos mx * 2 ^ (- ey) = g * 2 ^ (- (ex + ey))) as Hgx.
  { rewrite Hmx, <- Z.mul_assoc, <- Z.pow_add_r by lia. do 2 f_equal. lia. }
  specialize (Hr ltac:(lia) ltac:(lia)).
  assert (fexp64 (Zdigits2 (Z.pos (mx * my)) + (ex + ey)) <= ex) as Hf.
  { rewrite <- Hcx at 2. apply fexp_mono. simpl Zdigits2. pose proof (digits2_mul mx my). lia. }
  specialize (Hr Hf ltac:(rewrite Pos2Z.inj_mul; apply Z.mul_le_mono_nonneg_l; lia)).
  assert (Z.pos mx * 2 ^ (- ey) < 2 ^ (emax64 - prec64 - (ex + ey))) as Hmax.
  { rewrite Hgx. replace (emax64 - prec64 - (ex + ey)) with (971 + - (ex + ey)) by (unfold emax64, prec64; lia).
    rewrite Z.pow_add_r by lia. pose proof (Z.pow_pos_nonneg 2 (- (ex + ey)) ltac:(lia) ltac:(lia)).
    apply Z.mul_lt_mono_pos_r; [lia|]. pose proof (Z.pow_le_mono_r 2 53 971). lia. }
  specialize (Hr Hmax). destruct (binary_round_aux _ _ _ _ _ _) as [|s| |s m e]; try done.
  destruct Hr as (Hs & HE & Hm). split; [done|]. rewrite Hgx in Hm.
  pose proof (Z.pow_pos_nonneg 2 (- (ex + ey)) ltac:(lia) ltac:(lia)) as HpE.
  case_if; bool_facts.
  - replace (e - (ex + ey)) with (e + - (ex + ey)) in Hm by lia. rewrite Z.pow_add_r in Hm by lia. nia.
  - pose proof (Z.pow_pos_nonneg 2 (e - (ex + ey)) ltac:(lia) ltac:(lia)).
    replace (- (ex + ey)) with (- e + (e - (ex + ey))) in Hm by lia. rewrite Z.pow_add_r in Hm by lia.
    nia.
Qed.

(** Rounding to an integer, halves away from zero or to even, keeps the bound. *)
Lemma at_most_floor g f : at_most g f -> 0 <= g -> exists z, integral round_of f = Some z /\ 0 <= z <= g.
Proof.
  intros Ha Hg. destruct f as [s| | |s m e]; try done; [by exists 0|].
  destruct Ha as [-> Ha]. exists (round_of (Z.pos m) e). split; [done|]. unfold round_of.
  destruct (0 <=? e) eqn:E; bool_facts; [pose proof (Z.pow_nonneg 2 e); lia|]. simpl (0 <=? Z.pos m). cbv iota.
  pose proof (Z.pow_pos_nonneg 2 (- e) ltac:(lia) ltac:(lia)).
  replace (1 - e) with (Z.succ (- e)) by lia. rewrite Z.pow_succ_r by lia.
  split; [apply Z.div_pos; lia|]. apply Z.lt_succ_r, Z.div_lt_upper_bound; nia.
Qed.

Lemma at_most_even g f : at_most g f -> 0 <= g -> exists z, integral round_even_of f = Some z /\ 0 <= z <= g.
Proof.
  intros Ha Hg. destruct f as [s| | |s m e]; try done; [by exists 0|].
  destruct Ha as [-> Ha]. exists (round_even_of (Z.pos m) e). split; [done|].
  unfold round_even_of, floor_of. simpl mantissa.
  destruct (0 <=? e) eqn:E; bool_facts; [pose proof (Z.pow_nonneg 2 e); lia|].
  pose proof (Z.pow_pos_nonneg 2 (- e) ltac:(lia) ltac:(lia)) as Hp.
  pose proof (Z.div_pos (Z.pos m) (2 ^ (- e)) ltac:(lia) Hp).
  pose proof (Z.div_le_upper_bound (Z.pos m) (2 ^ (- e)) g Hp ltac:(lia)).
  pose proof (Z.mul_div_le (Z.pos m) (2 ^ (- e)) Hp).
  assert (2 ^ (- e) <= 2 * (Z.pos m - Z.pos m / 2 ^ (- e) * 2 ^ (- e)) -> Z.pos m / 2 ^ (- e) + 1 <= g) by nia.
  repeat case_if; bool_facts; lia.
Qed.

(** * Comparisons *)

Lemma f_ltb_negb x y : IsNaN x = false -> IsNaN y = false -> f_ltb x y = negb (f_leb y x).
Proof.
  unfold f_leb, f_ltb, SFleb, SFltb, SFcompare. intros Hx Hy.
  destruct x as [[]|[]| |[] mx ex], y as [[]|[]| |[] my ey]; try done;
    pose proof (Z.compare_antisym ex ey) as Hz; pose proof (Pos.compare_antisym mx my) as Hp;
    unfold Pos.compare in Hp; rewrite Hz, Hp;
    destruct (Z.compare ex ey), (Pos.compare_cont Eq mx my); done.
Qed.

Lemma f_leb_ltb x y : f_leb x y = true -> f_ltb y x = false.
Proof.
  intros Hle. rewrite f_ltb_negb, Hle; [done|..]; by destruct x, y.
Qed.

(** ** Relative errors of binary64 on nonnegative normal numbers: a sum, a product or a quotient exceeds the exact one by a factor of at most [1 + 2^-52]. *)

(** A value as a multiple of [2^-1074]. *)
Definition units (f : float64) : Z :=
  match f with S754_finite _ m e => Z.pos m * 2 ^ (e + 1074) | _ => 0 end.

Definition unit1 : Z := 2 ^ 1074.

(** Zero, or positive with a mantissa of 53 digits and an exponent of at least
    [k]. *)
Definition normal (k : Z) (f : float64) : Prop :=
  match f with
  | S754_zero _ => True
  | S754_finite s m e => s = false /\ 2 ^ 52 <= Z.pos m < 2 ^ 53 /\ Z.max k (-1074) <= e
  | _ => False
  end.

Lemma units_pos m e : -1074 <= e -> 0 < units (S754_finite false m e).
Proof. intros He. simpl. pose proof (Z.pow_pos_nonneg 2 (e + 1074) ltac:(lia) ltac:(lia)). lia. Qed.

Lemma normal_mono k k' f : normal k f -> k' <= k -> normal k' f.
Proof. destruct f; simpl; try done. intros (? & ? & ?) ?. split; [done|lia]. Qed.

Lemma units_nonneg f : 0 <= units f.
Proof. destruct f; simpl; lia. Qed.

Lemma digits2_normal m : 2 ^ 52 <= Z.pos m < 2 ^ 53 -> Z.pos (digits2_pos m) = 53.
Proof. intros Hm. apply digits2_unique. lia. Qed.

Lemma digits2_lower M d : 0 <= d -> 2 ^ d <= M -> d < Zdigits2 M.
Proof.
  intros Hd HM. pose proof (Z.pow_pos_nonneg 2 d ltac:(lia) Hd). destruct M as [|p|p]; [lia| |lia].
  simpl. destruct (digits2_bounds p) as [_ Hu]. apply Z.nle_gt. intros Hle.
  pose proof (Z.pow_le_mono_r 2 (Z.pos (digits2_pos p)) d). lia.
Qed.

Lemma Zdigits2_bounds M : 0 < M -> 2 ^ (Zdigits2 M - 1) <= M < 2 ^ Zdigits2 M.
Proof. destruct M as [|p|p]; [lia| |lia]. intros _. apply digits2_bounds. Qed.

(** * Rounding *)

Lemma shr_1_m r : 0 <= shr_m r -> shr_m (shr_1 r) = shr_m r / 2 /\ 0 <= shr_m (shr_1 r).
Proof.
  destruct r as [[|[p|p|]|p] rb sb]; simpl; intros Hm; try lia; (split; [|lia]); try done;
    Z.to_euclidean_division_equations; lia.
Qed.

Lemma shr_m_div r e n r' e' :
  0 <= shr_m r -> shr r e n = (r', e') ->
  e' = e + Z.max n 0 /\ shr_m r' = shr_m r / 2 ^ Z.max n 0.
Proof.
  intros Hm Hs.
  assert (forall k, shr_m (Nat.iter k shr_1 r) = shr_m r / 2 ^ Z.of_nat k /\ 0 <= shr_m (Nat.iter k shr_1 r)) as Hk.
  { induction k as [|k [IH IH']]; [simpl; rewrite Z.div_1_r; lia|].
    rewrite Nat2Z.inj_succ. change (Nat.iter (S k) shr_1 r) with (shr_1 (Nat.iter k shr_1 r)).
    destruct (shr_1_m _ IH') as [-> Hp]. rewrite IH in *. split; [|done].
    rewrite Z.div_div by lia. f_equal. rewrite Z.pow_succ_r by lia. lia. }
  unfold shr in Hs. destruct n as [|p|p]; injection Hs as <- <-.
  - split; [lia|]. simpl. by rewrite Z.div_1_r.
  - split; [lia|]. rewrite iter_pos_nat. specialize (Hk (Pos.to_nat p)). rewrite positive_nat_Z in Hk.
    by destruct Hk as [-> _].
  - split; [lia|]. simpl. by rewrite Z.div_1_r.
Qed.

Lemma shr_record_m M l : shr_m (shr_record_of_loc M l) = M.
Proof. by destruct l as [|[]]. Qed.

Lemma round_nearest_up m l : m <= round_nearest_even m l <= m + 1.
Proof. destruct l as [|[]]; simpl; try lia. case_if; lia. Qed.

(** Rounding a mantissa of at least 53 digits to a normal number. *)
Lemma round_normal M E l :
  2 ^ 52 <= M -> -1021 <= Zdigits2 M + E ->
  exists m e, 2 ^ 52 <= Z.pos m < 2 ^ 53 /\ E <= e /\ -1074 <= e /\
    Z.pos m * 2 ^ (e - E) * 2 ^ 52 <= (2 ^ 52 + 1) * M /\
    binary_round_aux prec64 emax64 false M E l =
      if e <=? 971 then S754_finite false m e else S754_infinity false.
Proof.
  intros HM Hd. pose proof (digits2_lower M 52 ltac:(lia) HM) as Hd53.
  pose proof (Zdigits2_bounds M ltac:(lia)) as [Hlo Hhi]. set (d := Zdigits2 M) in *.
  unfold binary_round_aux, shr_fexp.
  replace (fexp64 (Zdigits2 M + E) - E) with (d - 53) by (unfold fexp, emin, prec64, emax64; lia).
  destruct (shr (shr_record_of_loc M l) E (d - 53)) as [r1 e1] eqn:E1.
  apply shr_m_div in E1 as [-> Hm1]; [|rewrite shr_record_m; lia]. rewrite shr_record_m in Hm1.
  rewrite Z.max_l in * by lia. set (n := d - 53) in *.
  pose proof (Z.pow_pos_nonneg 2 n ltac:(lia) ltac:(lia)) as Hn.
  assert (2 ^ (d - 1) = 2 ^ n * 2 ^ 52) as Hp1 by (rewrite <- Z.pow_add_r by lia; f_equal; lia).
  assert (2 ^ d = 2 ^ n * 2 ^ 53) as Hp2 by (rewrite <- Z.pow_add_r by lia; f_equal; lia).
  assert (2 ^ 52 <= M / 2 ^ n < 2 ^ 53) as Hq.
  { split; [apply Z.div_le_lower_bound; lia|apply Z.div_lt_upper_bound; lia]. }
  pose proof (Z.mul_div_le M (2 ^ n) Hn) as Hqm.
  pose proof (round_nearest_up (shr_m r1) (loc_of_shr_record r1)) as Hr.
  set (rn := round_nearest_even (shr_m r1) (loc_of_shr_record r1)) in *. rewrite Hm1 in Hr.
  assert (rn * 2 ^ n * 2 ^ 52 <= (2 ^ 52 + 1) * M) as Herr.
  { assert (rn * 2 ^ n <= (M / 2 ^ n + 1) * 2 ^ n) by (apply Z.mul_le_mono_nonneg_r; lia).
    assert (2 ^ 52 * 2 ^ n <= M / 2 ^ n * 2 ^ n) by (apply Z.mul_le_mono_nonneg_r; lia). lia. }
  destruct (Z.eq_dec rn (2 ^ 53)) as [Hrn|Hrn].
  - rewrite Hrn in *.
    replace (fexp64 (Zdigits2 (2 ^ 53) + (E + n)) - (E + n)) with 1
      by (change (Zdigits2 (2 ^ 53)) with 54; unfold fexp, emin, prec64, emax64; lia).
    simpl shr. exists (Z.to_pos (2 ^ 52)), (E + n + 1). split_and!; [done|done|lia|lia| |].
    + replace (E + n + 1 - E) with (n + 1) by lia. rewrite Z.pow_add_r by lia. change (Z.pos (Z.to_pos (2 ^ 52))) with (2 ^ 52). lia.
    + reflexivity.
  - destruct rn as [|p|p]; [lia| |lia]. simpl Zdigits2. rewrite digits2_normal by lia.
    replace (fexp64 (53 + (E + n)) - (E + n)) with 0 by (unfold fexp, emin, prec64, emax64; lia).
    simpl shr. exists p, (E + n). split_and!; [lia|lia|lia|lia| |reflexivity].
    replace (E + n - E) with n by lia. exact Herr.
Qed.

(** The same, as a statement on values. *)
Lemma round_normal_units k M E l :
  2 ^ 52 <= M -> -1021 <= Zdigits2 M + E -> k <= E -> -1074 <= E ->
  M * 2 ^ (E + 1074) < 2 ^ 2000 ->
  let r := binary_round_aux prec64 emax64 false M E l in
  (normal k r /\ 0 < units r) /\ units r * 2 ^ 52 <= (2 ^ 52 + 1) * (M * 2 ^ (E + 1074)).
Proof.
  intros HM Hd Hk HE Hlt r.
  destruct (round_normal M E l HM Hd) as (m & e & Hm & HEe & He & Herr & Hr). unfold r. rewrite Hr.
  pose proof (Z.pow_pos_nonneg 2 (E + 1074) ltac:(lia) ltac:(lia)) as Hp.
  assert (Z.pos m * 2 ^ (e + 1074) * 2 ^ 52 <= (2 ^ 52 + 1) * (M * 2 ^ (E + 1074))) as Hu.
  { replace (e + 1074) with ((e - E) + (E + 1074)) by lia. rewrite Z.pow_add_r by lia.
    replace (Z.pos m * (2 ^ (e - E) * 2 ^ (E + 1074)) * 2 ^ 52)
      with (Z.pos m * 2 ^ (e - E) * 2 ^ 52 * 2 ^ (E + 1074)) by ring.
    rewrite Z.mul_assoc. apply Z.mul_le_mono_nonneg_r; lia. }
  case_if; bool_facts; [split; [split; [simpl; lia|by apply units_pos]|exact Hu]|]. exfalso.
  assert (2 ^ 52 * 2 ^ 2046 * 2 ^ 52 <= Z.pos m * 2 ^ (e + 1074) * 2 ^ 52).
  { apply Z.mul_le_mono_nonneg_r; [lia|]. apply Z.mul_le_mono_nonneg; try lia. apply Z.pow_le_mono_r; lia. }
  assert ((2 ^ 52 + 1) * 2 ^ 2000 < 2 ^ 52 * 2 ^ 2046 * 2 ^ 52) by (vm_compute; reflexivity).
  assert ((2 ^ 52 + 1) * (M * 2 ^ (E + 1074)) < (2 ^ 52 + 1) * 2 ^ 2000) by (apply Z.mul_lt_mono_pos_l; lia).
  lia.
Qed.

(** * Operations *)

Lemma units_align m e ez :
  -1074 <= ez <= e -> Z.pos m * 2 ^ (e - ez) * 2 ^ (ez + 1074) = Z.pos m * 2 ^ (e + 1074).
Proof. intros He. rewrite <- Z.mul_assoc, <- Z.pow_add_r by lia. do 2 f_equal. lia. Qed.

Lemma f_add_err k x y :
  normal k x -> normal k y -> units x + units y < 2 ^ 2000 ->
  (normal k (f_add x y) /\ (0 < units x + units y -> 0 < units (f_add x y))) /\
  units (f_add x y) * 2 ^ 52 <= (2 ^ 52 + 1) * (units x + units y).
Proof.
  intros Hx Hy Hlt.
  destruct x as [sx| | |sx mx ex], y as [sy| | |sy my ey]; try done.
  - split; [by destruct sx, sy|]. by destruct sx, sy.
  - pose proof (units_nonneg (S754_finite sy my ey)). simpl in *. split; [split; [assumption|]|]; lia.
  - pose proof (units_nonneg (S754_finite sx mx ex)). simpl in *. split; [split; [assumption|]|]; lia.
  - destruct Hx as (-> & Hmx & Hex), Hy as (-> & Hmy & Hey).
    unfold f_add, SFadd. cbv zeta. set (ez := Z.min ex ey). rewrite !shl_align_spec by lia. cbn [fst cond_Zopp].
    pose proof (Z.pow_pos_nonneg 2 (ex - ez) ltac:(lia) ltac:(lia)) as Hpx.
    pose proof (Z.pow_pos_nonneg 2 (ey - ez) ltac:(lia) ltac:(lia)) as Hpy.
    rewrite !Z2Pos.id by lia.
    set (M := Z.pos mx * 2 ^ (ex - ez) + Z.pos my * 2 ^ (ey - ez)) in *.
    assert (units (S754_finite false mx ex) + units (S754_finite false my ey) = M * 2 ^ (ez + 1074)) as Hsum.
    { unfold units, M. by rewrite Z.mul_add_distr_r, !units_align by lia. }
    rewrite Hsum in *.
    assert (2 ^ 53 <= M) as HM.
    { unfold M. assert (2 ^ 52 * 1 <= Z.pos mx * 2 ^ (ex - ez)) by (apply Z.mul_le_mono_nonneg; lia).
      assert (2 ^ 52 * 1 <= Z.pos my * 2 ^ (ey - ez)) by (apply Z.mul_le_mono_nonneg; lia). lia. }
    pose proof (digits2_lower M 53 ltac:(lia) HM) as Hd.
    assert (binary_normalize prec64 emax64 M ez false = binary_round_aux prec64 emax64 false M ez loc_Exact) as ->.
    { destruct M as [|p|p]; [lia| |lia]. unfold binary_normalize, binary_round, shl_align. simpl Zdigits2 in Hd.
      destruct (fexp64 (Z.pos (digits2_pos p) + ez) - ez) eqn:Ef; try done.
      unfold fexp, emin, prec64, emax64 in Ef. lia. }
    destruct (round_normal_units k M ez loc_Exact) as [[Hn Hp] He]; [lia..|]. split; [split; [exact Hn|intros _; exact Hp]|exact He].
Qed.

Lemma f_mul_err k x y :
  normal k x -> normal k y -> -500 <= k -> units x < 2 ^ 1500 -> units y < 2 ^ 1500 ->
  normal (2 * k) (f_mul x y) /\
  units (f_mul x y) * unit1 * 2 ^ 52 <= (2 ^ 52 + 1) * (units x * units y).
Proof.
  intros Hx Hy Hk Hux Huy.
  destruct x as [sx| | |sx mx ex], y as [sy| | |sy my ey]; try done; [split; [done|simpl; lia]..|].
  destruct Hx as (-> & Hmx & Hex), Hy as (-> & Hmy & Hey). unfold f_mul, SFmul. simpl xorb.
  assert (2 ^ 52 * 2 ^ 52 <= Z.pos (mx * my)) as HM.
  { rewrite Pos2Z.inj_mul. apply Z.mul_le_mono_nonneg; lia. }
  pose proof (digits2_lower (Z.pos (mx * my)) 104 ltac:(lia) ltac:(lia)) as Hd.
  assert (Z.pos (mx * my) * 2 ^ (ex + ey + 1074) * unit1 = units (S754_finite false mx ex) * units (S754_finite false my ey))
    as Hval.
  { unfold units, unit1. rewrite Pos2Z.inj_mul.
    replace (Z.pos mx * Z.pos my * 2 ^ (ex + ey + 1074) * 2 ^ 1074)
      with (Z.pos mx * Z.pos my * (2 ^ (ex + ey + 1074) * 2 ^ 1074)) by ring.
    replace (Z.pos mx * 2 ^ (ex + 1074) * (Z.pos my * 2 ^ (ey + 1074)))
      with (Z.pos mx * Z.pos my * (2 ^ (ex + 1074) * 2 ^ (ey + 1074))) by ring.
    rewrite <- !Z.pow_add_r by lia. do 2 f_equal. lia. }
  assert (units (S754_finite false mx ex) * units (S754_finite false my ey) < 2 ^ 1500 * 2 ^ 1500) as Hlt.
  { pose proof (units_nonneg (S754_finite false mx ex)). pose proof (units_nonneg (S754_finite false my ey)).
    apply Z.mul_lt_mono_nonneg; lia. }
  destruct (round_normal_units (2 * k) (Z.pos (mx * my)) (ex + ey) loc_Exact) as [[Hn _] He]; try lia.
  { apply (Z.mul_lt_mono_pos_r unit1); [unfold unit1; lia|]. rewrite Hval.
    etransitivity; [exact Hlt|]. vm_compute. reflexivity. }
  split; [exact Hn|]. rewrite <- Hval.
  replace (units _ * unit1 * 2 ^ 52)
    with (units (binary_round_aux prec64 emax64 false (Z.pos (mx * my)) (ex + ey) loc_Exact) * 2 ^ 52 * unit1) by ring.
  rewrite Z.mul_assoc. apply Z.mul_le_mono_nonneg_r; [unfold unit1; lia|exact He].
Qed.

Lemma f_div_err mx ex my ey :
  2 ^ 52 <= Z.pos mx < 2 ^ 53 -> 2 ^ 52 <= Z.pos my < 2 ^ 53 -> -500 <= ex <= 300 -> -500 <= ey <= 0 ->
  let x := S754_finite false mx ex in
  let y := S754_finite false my ey in
  (normal (ex - ey - 53) (f_div x y) /\ 0 < units (f_div x y)) /\
  units (f_div x y) * units y * 2 ^ 52 <= (2 ^ 52 + 1) * (units x * unit1).
Proof.
  intros Hmx Hmy Hex Hey x y. unfold f_div, SFdiv, x, y, SFdiv_core_binary. cbv zeta. simpl Zdigits2.
  rewrite !digits2_normal by done.
  replace (fexp64 (53 + ex - (53 + ey))) with (ex - ey - 53) by (unfold fexp, emin, prec64, emax64; lia).
  rewrite Z.min_l by lia. set (E := ex - ey - 53). replace (ex - ey - E) with 53 by lia.
  cbv iota. rewrite Z.shiftl_mul_pow2 by lia.
  change (Z.pos mx * 2 ^ 53) with (Z.pos mx * 2 ^ 53). set (N := Z.pos mx * 2 ^ 53).
  pose proof (Z.div_mod N (Z.pos my) ltac:(lia)) as Hdm.
  pose proof (Z.mod_pos_bound N (Z.pos my) ltac:(lia)) as Hmod.
  unfold Z.div, Z.modulo in Hdm, Hmod. destruct (Z.div_eucl N (Z.pos my)) as [q r]. simpl xorb.
  assert (2 ^ 52 <= q) as Hq by nia. assert (q < 2 ^ 55) as Hq2 by nia.
  pose proof (digits2_lower q 52 ltac:(lia) Hq) as Hd.
  assert (q * 2 ^ (E + 1074) < 2 ^ 2000) as Hlt.
  { pose proof (Z.pow_le_mono_r 2 (E + 1074) 1921 ltac:(lia) ltac:(lia)).
    pose proof (Z.pow_nonneg 2 (E + 1074) ltac:(lia)).
    apply (Z.le_lt_trans _ (2 ^ 55 * 2 ^ 1921)); [apply Z.mul_le_mono_nonneg; lia|]. by vm_compute. }
  destruct (round_normal_units E q E (new_location (Z.pos my) r)) as [Hn He]; try lia.
  split; [exact Hn|]. fold x y.
  assert (q * 2 ^ (E + 1074) * units y <= units x * unit1) as Hval.
  { unfold units, x, y, unit1.
    replace (q * 2 ^ (E + 1074) * (Z.pos my * 2 ^ (ey + 1074)))
      with (Z.pos my * q * (2 ^ (E + 1074) * 2 ^ (ey + 1074))) by ring.
    replace (Z.pos mx * 2 ^ (ex + 1074) * 2 ^ 1074)
      with (Z.pos mx * (2 ^ (ex + 1074) * 2 ^ 1074)) by ring.
    rewrite <- !Z.pow_add_r by lia.
    replace (ex + 1074 + 1074) with (53 + (E + 1074 + (ey + 1074))) by lia. rewrite (Z.pow_add_r 2 53) by lia.
    rewrite (Z.mul_assoc (Z.pos mx)). fold N. apply Z.mul_le_mono_nonneg_r; [apply Z.pow_nonneg; lia|lia]. }
  set (u := units (binary_round_aux _ _ _ _ _ _)) in *.
  replace (u * units y * 2 ^ 52) with (u * 2 ^ 52 * units y) by ring.
  pose proof (units_nonneg y).
  transitivity ((2 ^ 52 + 1) * (q * 2 ^ (E + 1074)) * units y); [apply Z.mul_le_mono_nonneg_r; lia|].
  rewrite <- Z.mul_assoc. apply Z.mul_le_mono_nonneg_l; lia.
Qed.

(** ** Integers *)

Lemma of_Z_normal g : 0 <= g < 2 ^ 53 -> normal (-52) (of_Z g) /\ units (of_Z g) = g * unit1.
Proof.
  intros Hg. destruct (Z.eq_dec g 0) as [->|]; [done|].
  destruct (of_Z_exact g) as (m & e & -> & Hb & He & Hm); [lia|].
  unfold bounded, canonical_mantissa in Hb. apply andb_true_iff in Hb as [Hc _]. apply Z.eqb_eq in Hc.
  unfold fexp, emin, prec64, emax64 in Hc.
  pose proof (digits2_bounds m) as [Hlo Hhi].
  assert (Z.pos (digits2_pos m) <= 53 + 0) as Hd53 by lia.
  assert (-52 <= e) as He52.
  { apply Z.nlt_ge. intros Hlt. assert (2 ^ 53 <= 2 ^ (- e)) by (apply Z.pow_le_mono_r; lia).
    assert (2 ^ 53 <= Z.pos m) by nia.
    pose proof (Z.pow_le_mono_r 2 (Z.pos (digits2_pos m)) 53 ltac:(lia) ltac:(lia)). lia. }
  assert (Z.pos (digits2_pos m) = 53) as Hd by lia. rewrite Hd in *. split.
  - simpl. split; [done|]. split; [|lia]. split; [exact Hlo|exact Hhi].
  - unfold units, unit1. rewrite Hm, <- Z.mul_assoc, <- Z.pow_add_r by lia. do 2 f_equal. lia.
Qed.

(** ** Comparisons *)

Lemma units_lt_exponent m1 e1 m2 e2 :
  2 ^ 52 <= Z.pos m1 < 2 ^ 53 -> 2 ^ 52 <= Z.pos m2 < 2 ^ 53 -> -1074 <= e1 -> e1 < e2 ->
  units (S754_finite false m1 e1) < units (S754_finite false m2 e2).
Proof.
  intros Hm1 Hm2 He Hlt. unfold units.
  assert (2 ^ (e2 + 1074) = 2 ^ (e2 - e1 - 1) * 2 ^ 1 * 2 ^ (e1 + 1074)) as ->
    by (rewrite <- !Z.pow_add_r by lia; f_equal; lia).
  pose proof (Z.pow_pos_nonneg 2 (e2 - e1 - 1) ltac:(lia) ltac:(lia)).
  pose proof (Z.pow_pos_nonneg 2 (e1 + 1074) ltac:(lia) ltac:(lia)).
  change (2 ^ 1) with 2. rewrite !Z.mul_assoc. apply Z.mul_lt_mono_pos_r; [done|].
  assert (2 ^ 52 * 1 <= Z.pos m2 * 2 ^ (e2 - e1 - 1)) by (apply Z.mul_le_mono_nonneg; lia). lia.
Qed.

Lemma f_leb_units k x y : normal k x -> normal k y -> f_leb x y = true <-> units x <= units y.
Proof.
  intros Hx Hy. unfold f_leb, SFleb, SFcompare.
  destruct x as [sx| | |sx mx ex], y as [sy| | |sy my ey]; try done.
  - destruct Hy as (-> & _ & He). pose proof (units_pos my ey ltac:(lia)). simpl in *. split; [lia|done].
  - destruct Hx as (-> & _ & He). pose proof (units_pos mx ex ltac:(lia)). simpl in *. split; [done|lia].
  - destruct Hx as (-> & Hmx & Hex), Hy as (-> & Hmy & Hey).
    destruct (Z.compare_spec ex ey) as [->|Hlt|Hlt].
    + change (Pos.compare_cont Eq) with Pos.compare.
      pose proof (Z.pow_pos_nonneg 2 (ey + 1074) ltac:(lia) ltac:(lia)). unfold units.
      rewrite <- Z.mul_le_mono_pos_r by done. destruct (Pos.compare_spec mx my); split; try done; lia.
    + pose proof (units_lt_exponent mx ex my ey Hmx Hmy ltac:(lia) Hlt). split; [lia|done].
    + pose proof (units_lt_exponent my ey mx ex Hmy Hmx ltac:(lia) Hlt). split; [done|lia].
Qed.

(** ** Taking one *)

Lemma f_sub_one t :
  normal (-1000) t -> unit1 <= units t < 2 ^ 53 * unit1 ->
  normal (-200) (f_sub t (of_Z 1)) /\ units (f_sub t (of_Z 1)) <= units t - unit1.
Proof.
  intros Ht Hu. destruct t as [| | |s m e]; try done; [destruct s; simpl in Hu; unfold unit1 in Hu; lia|].
  destruct Ht as (-> & Hm & He). unfold units, unit1 in Hu.
  assert (-52 <= e <= 0) as He'.
  { split.
    - apply Z.nlt_ge. intros Hlt.
      assert (Z.pos m * 2 ^ (e + 1074) < 2 ^ 53 * 2 ^ (e + 1074)) by
        (apply Z.mul_lt_mono_pos_r; [apply Z.pow_pos_nonneg|]; lia).
      rewrite <- Z.pow_add_r in * by lia.
      pose proof (Z.pow_le_mono_r 2 (53 + (e + 1074)) 1074 ltac:(lia) ltac:(lia)). lia.
    - apply Z.nlt_ge. intros Hlt.
      assert (2 ^ 52 * 2 ^ 1075 <= Z.pos m * 2 ^ (e + 1074)).
      { apply Z.mul_le_mono_nonneg; try lia. apply Z.pow_le_mono_r; lia. }
      assert (2 ^ 53 * 2 ^ 1074 = 2 ^ 52 * 2 ^ 1075) by (vm_compute; reflexivity). lia. }
  change (of_Z 1) with (S754_finite false 4503599627370496 (-52)).
  unfold f_sub, SFsub. cbv zeta. rewrite Z.min_r by lia. rewrite !shl_align_spec by lia.
  cbn [fst cond_Zopp]. change (-52 - -52) with 0.
  pose proof (Z.pow_pos_nonneg 2 (e - -52) ltac:(lia) ltac:(lia)) as Hp.
  rewrite !Z2Pos.id by lia. change (2 ^ 0) with 1. rewrite Z.mul_1_r.
  assert (4503599627370496 = 2 ^ (- e) * 2 ^ (e - -52)) as H52
    by (rewrite <- Z.pow_add_r by lia; replace (- e + (e - -52)) with 52 by lia; done).
  set (B := Z.pos m - 2 ^ (- e)).
  assert (Z.pos m * 2 ^ (e - -52) - 4503599627370496 = B * 2 ^ (e - -52)) as HMB by (rewrite H52; unfold B; ring).
  rewrite HMB.
  assert (units (S754_finite false m e) - unit1 = B * 2 ^ (e - -52) * 2 ^ 1022) as Hval.
  { unfold units, unit1. rewrite <- HMB. replace (e + 1074) with ((e - -52) + 1022) by lia.
    rewrite Z.pow_add_r by lia. change (2 ^ 1074) with (4503599627370496 * 2 ^ 1022). ring. }
  assert (0 <= B) as HB.
  { apply Z.nlt_ge. intros Hlt. assert (B * 2 ^ (e - -52) < 0) by (apply Z.mul_neg_pos; lia).
    pose proof (Z.pow_pos_nonneg 2 1022 ltac:(lia) ltac:(lia)).
    assert (B * 2 ^ (e - -52) * 2 ^ 1022 < 0) by (apply Z.mul_neg_pos; lia). unfold units, unit1 in *. lia. }
  rewrite Hval.
  set (M := B * 2 ^ (e - -52)) in *. assert (0 <= M) as HM by (apply Z.mul_nonneg_nonneg; lia).
  assert (M < 2 ^ 53 * 2 ^ (e - -52)) as HMlt by (apply Z.mul_lt_mono_pos_r; unfold B; lia).
  destruct M as [|p|p] eqn:EM; [split; [done|simpl; lia]| |lia].
  unfold binary_normalize, binary_round.
  set (d := Z.pos (digits2_pos p)).
  assert (d <= e + 105) as Hde.
  { destruct (digits2_bounds p) as [Hlo _]. fold d in Hlo. apply Z.nlt_ge. intros Hlt.
    rewrite <- Z.pow_add_r in HMlt by lia.
    pose proof (Z.pow_le_mono_r 2 (53 + (e - -52)) (d - 1) ltac:(lia) ltac:(lia)). lia. }
  assert (0 < d) as Hd0 by (unfold d; lia).
  replace (fexp64 (d + -52)) with (d - 105) by (unfold fexp, emin, prec64, emax64; lia).
  destruct (Z.le_gt_cases d 53) as [Hd|Hd].
  - rewrite shl_align_spec by lia.
    destruct (digits2_bounds p) as [Hlo Hhi]. fold d in Hlo, Hhi.
    pose proof (Z.pow_pos_nonneg 2 (-52 - (d - 105)) ltac:(lia) ltac:(lia)) as Hps.
    set (m' := Z.to_pos (Z.pos p * 2 ^ (-52 - (d - 105)))).
    assert (Z.pos m' = Z.pos p * 2 ^ (-52 - (d - 105))) as Hm' by (unfold m'; rewrite Z2Pos.id; lia).
    assert (2 ^ 52 <= Z.pos m' < 2 ^ 53) as Hmn.
    { rewrite Hm'. replace (2 ^ 52) with (2 ^ (d - 1) * 2 ^ (-52 - (d - 105))) by (rewrite <- Z.pow_add_r by lia; f_equal; lia).
      replace (2 ^ 53) with (2 ^ d * 2 ^ (-52 - (d - 105))) by (rewrite <- Z.pow_add_r by lia; f_equal; lia). nia. }
    rewrite binary_round_aux_exact.
    + split; [simpl; lia|]. unfold units. rewrite Hm', <- Z.mul_assoc, <- Z.pow_add_r by lia.
      replace (-52 - (d - 105) + (d - 105 + 1074)) with 1022 by lia. lia.
    + unfold bounded, canonical_mantissa. rewrite digits2_normal by done.
      apply andb_true_iff. unfold fexp, emin, prec64, emax64. split; [apply Z.eqb_eq|apply Z.leb_le]; lia.
  - unfold shl_align. destruct (d - 105 - -52) as [|q|q] eqn:Eq; [lia| |lia].
    pose proof (Zdigits2_bounds (Z.pos p) ltac:(lia)) as [Hlo _]. simpl Zdigits2 in Hlo. fold d in Hlo.
    pose proof (Z.pow_le_mono_r 2 52 (d - 1) ltac:(lia) ltac:(lia)).
    destruct (round_normal_units (-52) (Z.pos p) (-52) loc_Exact) as [[Hn _] _]; [lia|change (Zdigits2 (Z.pos p)) with d; lia|lia|lia| |].
    { change (-52 + 1074) with 1022. rewrite <- Z.pow_add_r in HMlt by lia.
      pose proof (Z.pow_le_mono_r 2 (53 + (e - -52)) 200 ltac:(lia) ltac:(lia)).
      apply (Z.lt_trans _ (2 ^ 200 * 2 ^ 1022)); [|vm_compute; reflexivity].
      apply Z.mul_lt_mono_pos_r; [apply Z.pow_pos_nonneg|]; lia. }
    split; [by eapply normal_mono|].
    pose proof (binary_round_le (Z.pos p) (-52) B e) as Hle.
    assert (B * 2 ^ (e - -52) = Z.pos p) as HBp by (rewrite <- EM; reflexivity).
    rewrite HBp in Hle.
    assert (Z.pos p < 2 ^ (emax64 - prec64 - -52)) as Hsmall.
    { rewrite <- Z.pow_add_r in HMlt by lia.
      pose proof (Z.pow_le_mono_r 2 (53 + (e - -52)) (emax64 - prec64 - -52) ltac:(lia) ltac:(unfold emax64, prec64; lia)). lia. }
    specialize (Hle ltac:(lia) ltac:(lia)
      ltac:(simpl Zdigits2; fold d; unfold fexp, emin, prec64, emax64; lia) ltac:(lia) Hsmall).
    destruct (binary_round_aux _ _ _ _ _ _) as [s| | |s m' e']; try done.
    destruct Hle as (_ & Hee & Hle). unfold units. replace (e' + 1074) with ((e' - -52) + 1022) by lia.
    rewrite Z.pow_add_r, Z.mul_assoc by lia. apply Z.mul_le_mono_nonneg_r; lia.
Qed.

(** ** Seconds *)

Lemma nanoseconds_err n :
  0 <= n < 1000000000 ->
  let f := f_div (of_Z n) (of_Z 1000000000) in
  (normal (-100) f /\ (0 < n -> 0 < units f)) /\
  units f * 1000000000 * 2 ^ 52 <= (2 ^ 52 + 1) * (n * unit1).
Proof.
  intros Hn f. destruct (Z.eq_dec n 0) as [->|Hn0]; [split; [split; [done|lia]|simpl; lia]|].
  destruct (of_Z_normal n) as [Hnn Hnu]; [lia|].
  destruct (of_Z_normal 1000000000) as [Hbn Hbu]; [lia|].
  destruct (of_Z_exact n) as (mx & ex & Hx & _ & Hex & _); [lia|].
  unfold f. rewrite Hx in *.
  destruct (of_Z 1000000000) as [| | |s my ey] eqn:Ey; try (vm_compute in Ey; discriminate).
  destruct Hnn as (_ & Hmx & Hexl), Hbn as (-> & Hmy & _).
  assert (ey = -23) as -> by (vm_compute in Ey; congruence).
  destruct (f_div_err mx ex my (-23) Hmx Hmy ltac:(lia) ltac:(lia)) as [[Hf Hp] Hu].
  split; [split; [eapply normal_mono; [exact Hf|lia]|done]|].
  set (u := units (f_div _ _)) in *. rewrite Hnu, Hbu in Hu.
  apply (Z.mul_le_mono_pos_r _ _ unit1); [unfold unit1; lia|].
  replace (u * 1000000000 * 2 ^ 52 * unit1) with (u * (1000000000 * unit1) * 2 ^ 52) by ring. lia.
Qed.

Lemma Seconds_err d :
  0 <= d <= max_int64 ->
  (normal (-100) (Seconds d) /\ (0 < d -> 0 < units (Seconds d))) /\
  units (Seconds d) * 1000000000 * 2 ^ 104 <= (2 ^ 52 + 1) * (2 ^ 52 + 1) * (d * unit1).
Proof.
  intros Hd. unfold Seconds, second, max_int64 in *. rewrite Z.quot_div_nonneg, Z.rem_mod_nonneg by lia.
  pose proof (Z.div_mod d 1000000000 ltac:(lia)) as Hdm.
  pose proof (Z.mod_pos_bound d 1000000000 ltac:(lia)) as Hmod.
  pose proof (Z.div_pos d 1000000000 ltac:(lia) ltac:(lia)) as Hdp.
  set (s := d / 1000000000) in *. set (n := d mod 1000000000) in *.
  assert (s < 2 ^ 53) as Hs by lia.
  destruct (of_Z_normal s ltac:(lia)) as [Hsn Hsu].
  destruct (nanoseconds_err n ltac:(lia)) as [[Hnn Hnp] Hnu].
  set (f := f_div _ _) in *.
  assert (0 < unit1) as H1 by (unfold unit1; lia).
  pose proof (units_nonneg f).
  assert (units f <= 2 * unit1) as Hf2 by nia.
  destruct (f_add_err (-100) (of_Z s) f) as [[Hn Hp] Hu].
  - eapply normal_mono; [exact Hsn|lia].
  - done.
  - rewrite Hsu. apply (Z.le_lt_trans _ (2 ^ 54 * unit1)); [nia|]. vm_compute. reflexivity.
  - split.
    { split; [exact Hn|]. intros Hd0. apply Hp. rewrite Hsu.
      assert (0 < s \/ 0 < n) as [Hs0|Hn0] by lia; [nia|]. specialize (Hnp Hn0). nia. }
    set (u := units (f_add _ _)) in *. rewrite Hsu in Hu.
    assert (u * 2 ^ 52 * (1000000000 * 2 ^ 52) <= (2 ^ 52 + 1) * (s * unit1 + units f) * (1000000000 * 2 ^ 52))
      by (apply Z.mul_le_mono_nonneg_r; lia).
    assert (s * unit1 * (1000000000 * 2 ^ 52) + units f * 1000000000 * 2 ^ 52 <= (2 ^ 52 + 1) * (d * unit1)).
    { assert (0 <= s * unit1) by (apply Z.mul_nonneg_nonneg; lia).
      replace (d * unit1) with (1000000000 * (s * unit1) + n * unit1) by (rewrite Hdm; ring).
      generalize dependent (s * unit1). generalize dependent (n * unit1). intros. lia. }
    replace (2 ^ 104) with (2 ^ 52 * 2 ^ 52) by done.
    transitivity ((2 ^ 52 + 1) * (s * unit1 + units f) * (1000000000 * 2 ^ 52)); [lia|]. lia.
Qed.

Lemma f_ltb_zero k x : normal k x -> f_ltb f_zero x = true <-> 0 < units x.
Proof.
  intros Hx. unfold f_ltb, SFltb. destruct x as [s| | |s m e]; try done.
  destruct Hx as (-> & _ & He). pose proof (units_pos m e ltac:(lia)). by split.
Qed.
