(* ===== verification/Dates.v ===== *)
(** Civil dates: [time.Parse] and [time.Time.Format] with the layout
    ["2006-01-02"], [AddDate] of a day, in UTC; and the date of an instant, [Year],
    [Month] and [Day] of a [time.Time] and [Truncate(24*time.Hour)], as the inverse of
    the day numbers. *)
From S2P Require Import Prelude GoLists GoBase.
Local Open Scope Z_scope.

Definition day : duration := 24 * hour.

(** * The proleptic Gregorian calendar *)

Definition is_leap (y : Z) : bool :=
  (y mod 4 =? 0) && (negb (y mod 100 =? 0) || (y mod 400 =? 0)).

Definition days_in (m y : Z) : Z :=
  if m =? 2 then (if is_leap y then 29 else 28)
  else if (m =? 4) || (m =? 6) || (m =? 9) || (m =? 11) then 30 else 31.

(** Days in the months of the year [y] before the month [m]. *)
Definition days_before_month (y m : Z) : Z :=
  foldl (fun n i => n + days_in (Z.of_nat i) y) 0 (seq 1 (Z.to_nat (m - 1))).

(** Days from the first day of year 0 to the first day of year [y >= 0]. *)
Definition days_before_year (y : Z) : Z :=
  365 * y + (y + 3) / 4 - (y + 99) / 100 + (y + 399) / 400.

(** The day number of a date, with 0 for 1970-01-01. *)
Definition day_number (y m d : Z) : Z :=
  days_before_year y + days_before_month y m + (d - 1) - 719528.

Example epoch_day : day_number 1970 1 1 = 0.
Proof. reflexivity. Qed.

Example leap_day : day_number 2024 3 1 - day_number 2024 2 28 = 2.
Proof. reflexivity. Qed.

Definition valid_date (y m d : Z) : bool :=
  (0 <=? y) && (y <=? 9999) && (1 <=? m) && (m <=? 12) && (1 <=? d) && (d <=? days_in m y).

(** * Parsing and formatting *)

Definition digit_value (c : ascii) : option Z :=
  if in_range 48 57 c then Some (byte_val c - 48) else None.

Definition digit_char (z : Z) : ascii := byte (z + 48).

(** [time.Parse("2006-01-02", s)]: four digits, two digits, two digits, with
    dashes between them and nothing after; then the ranges of the month and of
    the day. *)
Definition parse_date (s : string) : option (Z * Z * Z) :=
  match bytes_of s with
  | [y3; y2; y1; y0; s1; m1; m0; s2; d1; d0] =>
      y3 ← digit_value y3; y2 ← digit_value y2; y1 ← digit_value y1; y0 ← digit_value y0;
      m1 ← digit_value m1; m0 ← digit_value m0; d1 ← digit_value d1; d0 ← digit_value d0;
      let y := 1000 * y3 + 100 * y2 + 10 * y1 + y0 in
      let m := 10 * m1 + m0 in
      let d := 10 * d1 + d0 in
      if bool_decide (s1 = "-"%char) && bool_decide (s2 = "-"%char) && valid_date y m d
      then Some (y, m, d) else None
  | _ => None
  end.

Definition format_date (y m d : Z) : string :=
  of_bytes [digit_char (y / 1000); digit_char (y / 100 mod 10); digit_char (y / 10 mod 10);
            digit_char (y mod 10); "-"%char;
            digit_char (m / 10); digit_char (m mod 10); "-"%char;
            digit_char (d / 10); digit_char (d mod 10)].

(** The instant [time.Parse] returns: midnight UTC. *)
Definition ParseDate (s : string) : option time :=
  (fun p => let '(y, m, d) := p in day_number y m d * day) <$> parse_date s.

(** [t.AddDate(0, 0, 1)] of a time in UTC. *)
Definition add_one_day (t : time) : time := t + day.

(** * Laws *)

Lemma bytes_of_of_bytes l : bytes_of (of_bytes l) = l.
Proof. induction l; simpl; congruence. Qed.

Lemma of_bytes_bytes_of s : of_bytes (bytes_of s) = s.
Proof. induction s; simpl; congruence. Qed.


Lemma byte_byte_val c : byte (byte_val c) = c.
Proof. unfold byte_val, byte. rewrite N2Z.id. apply ascii_N_embedding. Qed.


Lemma digit_value_char z : 0 <= z <= 9 -> digit_value (digit_char z) = Some z.
Proof.
  intros Hz. unfold digit_value, digit_char, in_range. rewrite byte_val_byte by lia.
  rewrite (proj2 (Z.leb_le _ _)), (proj2 (Z.leb_le _ _)) by lia. simpl. f_equal. lia.
Qed.

Lemma digit_value_Some c z : digit_value c = Some z -> c = digit_char z /\ 0 <= z <= 9.
Proof.
  unfold digit_value, digit_char, in_range. destruct (_ && _) eqn:E; [|done].
  intros [= <-]. bool_facts. split; [|lia].
  replace (byte_val c - 48 + 48) with (byte_val c) by lia. by rewrite byte_byte_val.
Qed.

Lemma days_in_bounds m y : 28 <= days_in m y <= 31.
Proof. unfold days_in. repeat case_if; lia. Qed.

Lemma valid_date_spec y m d :
  valid_date y m d = true <-> 0 <= y <= 9999 /\ 1 <= m <= 12 /\ 1 <= d <= days_in m y.
Proof. unfold valid_date. rewrite !andb_true_iff, !Z.leb_le. lia. Qed.

Lemma parse_format y m d : valid_date y m d = true -> parse_date (format_date y m d) = Some (y, m, d).
Proof.
  intros Hv. pose proof (proj1 (valid_date_spec y m d) Hv) as (Hy & Hm & Hd).
  pose proof (days_in_bounds m y).
  unfold parse_date, format_date. rewrite bytes_of_of_bytes.
  repeat (rewrite digit_value_char by (Z.to_euclidean_division_equations; lia);
          cbn [mbind option_bind]).
  replace (1000 * (y / 1000) + 100 * (y / 100 mod 10) + 10 * (y / 10 mod 10) + y mod 10) with y
    by (Z.to_euclidean_division_equations; lia).
  rewrite <- (Z.div_mod m 10), <- (Z.div_mod d 10) by lia.
  by rewrite Hv, !bool_decide_eq_true_2.
Qed.

Lemma parse_date_Some s y m d :
  parse_date s = Some (y, m, d) -> s = format_date y m d /\ valid_date y m d = true.
Proof.
  unfold parse_date. intros Hp. rewrite <- (of_bytes_bytes_of s).
  destruct (bytes_of s) as [|y3 [|y2 [|y1 [|y0 [|s1 [|m1 [|m0 [|s2 [|d1 [|d0 [|]]]]]]]]]]]; try done.
  repeat match goal with
  | H : (digit_value ?c ≫= _) = Some _ |- _ =>
      let z := fresh "z" in let E := fresh "E" in
      destruct (digit_value c) as [z|] eqn:E; [|done]; apply digit_value_Some in E as [-> ?];
      cbn [mbind option_bind] in H
  end.
  destruct (_ && _) eqn:E; [|done]. injection Hp as <- <- <-.
  apply andb_true_iff in E as [E Hv]. bool_facts. subst. split; [|done].
  unfold format_date. repeat f_equal; Z.to_euclidean_division_equations; lia.
Qed.

Lemma day_number_next y m d :
  day_number y m (d + 1) = day_number y m d + 1.
Proof. unfold day_number. lia. Qed.

Lemma ParseDate_Some s t :
  ParseDate s = Some t ->
  exists y m d, s = format_date y m d /\ valid_date y m d = true /\ t = day_number y m d * day.
Proof.
  unfold ParseDate. intros Hp. apply fmap_Some in Hp as ([[y m] d] & Hp & ->).
  apply parse_date_Some in Hp as [-> Hv]. by exists y, m, d.
Qed.

(** ** The date of an instant: [Year], [Month] and [Day] of a [time.Time] in UTC, [Truncate(24*time.Hour)], and [Format("2006-01-02")], as the inverse of the day numbers of [Dates]. *)

(** The day number of an instant. *)
Definition day_of (t : time) : Z := t / day.

(** The year of the [n]-th day from the first day of year 0: an estimate from the
    mean length of a year, corrected by one. *)
Definition year_of (n : Z) : Z :=
  let y := 400 * n / 146097 in
  if days_before_year (y + 1) <=? n then y + 1
  else if n <? days_before_year y then y - 1
  else y.

(** The month of the [r]-th day of the year [y]. *)
Definition month_of (y r : Z) : Z :=
  default 1 (List.find (fun m => days_before_month y m <=? r) [12; 11; 10; 9; 8; 7; 6; 5; 4; 3; 2]).

(** The date with a day number. *)
Definition date_of_day (d : Z) : Z * Z * Z :=
  let n := d + 719528 in
  let y := year_of n in
  let r := n - days_before_year y in
  let m := month_of y r in
  (y, m, r - days_before_month y m + 1).

Definition format_day (d : Z) : string :=
  let '(y, m, dd) := date_of_day d in format_date y m dd.

Example dates_of_days :
  map date_of_day [0; 59; 19782; -1; 11016; day_number 9999 12 31]
  = [(1970, 1, 1); (1970, 3, 1); (2024, 2, 29); (1969, 12, 31); (2000, 2, 29); (9999, 12, 31)].
Proof. vm_compute. reflexivity. Qed.

(** * Laws *)

Lemma year_of_spec n :
  0 <= n -> days_before_year (year_of n) <= n < days_before_year (year_of n + 1).
Proof.
  intros Hn. unfold year_of. set (y := 400 * n / 146097).
  assert (Hy : 146097 * y <= 400 * n < 146097 * (y + 1))
    by (subst y; Z.to_euclidean_division_equations; lia).
  clearbody y.
  destruct (days_before_year (y + 1) <=? n) eqn:E1; bool_facts;
    [|destruct (n <? days_before_year y) eqn:E2; bool_facts];
    unfold days_before_year in *; Z.to_euclidean_division_equations; lia.
Qed.

Lemma year_length y :
  days_before_year (y + 1) - days_before_year y = if is_leap y then 366 else 365.
Proof.
  unfold days_before_year, is_leap.
  destruct (y mod 4 =? 0) eqn:E4; destruct (y mod 100 =? 0) eqn:E100;
    destruct (y mod 400 =? 0) eqn:E400; bool_facts; simpl;
    Z.to_euclidean_division_equations; lia.
Qed.

Lemma month_of_spec y r :
  0 <= r < (if is_leap y then 366 else 365) ->
  1 <= month_of y r <= 12 /\
  1 <= r - days_before_month y (month_of y r) + 1 <= days_in (month_of y r) y.
Proof.
  intros Hr.
  assert (Hb : forall m, 1 <= m <= 12 -> days_before_month y m =
    match m with
    | 1 => 0 | 2 => 31 | 3 => 59 | 4 => 90 | 5 => 120 | 6 => 151 | 7 => 181 | 8 => 212
    | 9 => 243 | 10 => 273 | 11 => 304 | _ => 334
    end + if (3 <=? m) && is_leap y then 1 else 0).
  { intros m Hm.
    assert (m ∈ [1; 2; 3; 4; 5; 6; 7; 8; 9; 10; 11; 12]) as Hin.
    { rewrite !elem_of_cons. lia. }
    rewrite !elem_of_cons, elem_of_nil in Hin.
    destruct_or! Hin; subst; try done; unfold days_before_month, days_in; simpl;
      destruct (is_leap y); reflexivity. }
  unfold month_of. simpl List.find. rewrite !Hb by lia. simpl.
  repeat match goal with
  | |- context [if ?b then Some _ else _] => destruct b eqn:?
  end; simpl; bool_facts; rewrite Hb by lia; unfold days_in; simpl;
    destruct (is_leap y); lia.
Qed.

(** A day from year 0 on has a date in the calendar, and its day number is the
    day. *)
Lemma date_of_day_spec d y m dd :
  - 719528 <= d -> date_of_day d = (y, m, dd) ->
  day_number y m dd = d /\ 1 <= m <= 12 /\ 1 <= dd <= days_in m y.
Proof.
  intros Hd. unfold date_of_day. intros [= <- <- <-].
  pose proof (year_of_spec (d + 719528) ltac:(lia)) as Hy.
  set (y := year_of _) in *. pose proof (year_length y).
  destruct (month_of_spec y (d + 719528 - days_before_year y) ltac:(lia)) as [Hm Hdd].
  split; [|done]. unfold day_number. lia.
Qed.

Lemma year_of_nonneg n : 0 <= n -> 0 <= year_of n.
Proof.
  intros Hn. pose proof (year_of_spec n Hn) as [_ Hy].
  unfold days_before_year in Hy. Z.to_euclidean_division_equations; lia.
Qed.

Lemma year_of_bound n : 0 <= n < days_before_year 10000 -> year_of n <= 9999.
Proof.
  intros Hn. pose proof (year_of_spec n ltac:(lia)) as [Hy _].
  unfold days_before_year in *. Z.to_euclidean_division_equations; lia.
Qed.

(** Formatting a day and parsing it gives its first instant, for the days of the
    years 0 to 9999. *)
Lemma ParseDate_format_day d :
  - 719528 <= d < day_number 10000 1 1 -> ParseDate (format_day d) = Some (d * day).
Proof.
  intros Hd. unfold format_day. destruct (date_of_day d) as [[y m] dd] eqn:E.
  destruct (date_of_day_spec d y m dd ltac:(lia) E) as (Hn & Hm & Hdd).
  unfold date_of_day in E. injection E as Ey _ _.
  assert (0 <= y <= 9999).
  { subst y. split; [apply year_of_nonneg; lia|apply year_of_bound].
    change (day_number 10000 1 1) with (days_before_year 10000 - 719528) in Hd. lia. }
  unfold ParseDate. rewrite parse_format; [simpl; by rewrite Hn|].
  apply valid_date_spec. lia.
Qed.

Lemma day_of_mono t u : t <= u -> day_of t <= day_of u.
Proof. unfold day_of. intros. apply Z.div_le_mono; [done|lia]. Qed.
