(* ===== verification/Strconv.v ===== *)
(** The readers of text that the configuration and the commands use:
    [time.ParseDuration], [strconv.ParseInt], [strconv.ParseFloat] and
    [filepath.Clean], and some of [strings]; and [Duration.String]. *)
From S2P Require Import Prelude GoLists GoBase Float64 Dates.
Local Open Scope Z_scope.

(** * Strings *)

Fixpoint Contains (s sub : string) : bool :=
  HasPrefix s sub || match s with EmptyString => false | String _ s' => Contains s' sub end.

(** [strings.TrimRight] of one character. *)
Fixpoint drop_leading (c : ascii) (s : string) : string :=
  match s with
  | String a s' => if bool_decide (a = c) then drop_leading c s' else s
  | EmptyString => EmptyString
  end.

Definition TrimRight (s : string) (c : ascii) : string := String.rev (drop_leading c (String.rev s)).

(** * Paths *)

(** [filepath.Clean] where the separator is a slash; the elements are kept last
    first. *)
Definition clean_element (rooted : bool) (stack : list string) (part : string) : list string :=
  if is_empty part || bool_decide (part = ".") then stack
  else if bool_decide (part = "..") then
    match stack with
    | [] => if rooted then [] else [".."]
    | top :: stack' => if bool_decide (top = "..") then ".." :: stack else stack'
    end
  else part :: stack.

Definition Clean (path : string) : string :=
  let rooted := HasPrefix path "/" in
  let out := String.concat "/" (rev (fold_left (clean_element rooted) (Split path "/") [])) in
  if rooted then "/" +:+ out else if is_empty out then "." else out.

(** * Durations *)

(** Every operation is on [uint64]; the checks keep the others below [2^64]. *)
Definition two63 : Z := 2 ^ 63.

Fixpoint leadingInt (s : string) (x : Z) : option (Z * string) :=
  match s with
  | String c s' =>
      match digit_value c with
      | Some d =>
          if two63 / 10 <? x then None
          else let x := x * 10 + d in if two63 <? x then None else leadingInt s' x
      | None => Some (x, s)
      end
  | EmptyString => Some (x, s)
  end.

(** The digits after the point as far as they fit, and the power of ten they
    stand over. *)
Fixpoint leadingFraction (s : string) (x : Z) (scale : float64) (overflow : bool) : Z * float64 * string :=
  match s with
  | String c s' =>
      match digit_value c with
      | Some d =>
          if overflow then leadingFraction s' x scale true
          else if max_int64 / 10 <? x then leadingFraction s' x scale true
          else
            let y := x * 10 + d in
            if two63 <? y then leadingFraction s' x scale true else leadingFraction s' y (f_mul scale (of_Z 10)) false
      | None => (x, scale, s)
      end
  | EmptyString => (x, scale, s)
  end.

(** The unit: what precedes the next digit or point. *)
Fixpoint leadingUnit (s : string) : string * string :=
  match s with
  | String c s' =>
      if bool_decide (c = "."%char) || bool_decide (is_Some (digit_value c)) then (EmptyString, s)
      else let '(u, rest) := leadingUnit s' in (String c u, rest)
  | EmptyString => (EmptyString, EmptyString)
  end.

Definition unitMap (u : string) : option Z :=
  if bool_decide (u = "ns") then Some 1
  else if bool_decide (u ∈ ["us"; of_bytes (map byte [194; 181; 115]); of_bytes (map byte [206; 188; 115])]) then Some 1000
  else if bool_decide (u = "ms") then Some 1000000
  else if bool_decide (u = "s") then Some second
  else if bool_decide (u = "m") then Some minute
  else if bool_decide (u = "h") then Some hour
  else None.

(** [value] [unit]: a number with its unit, and what follows. *)
Definition duration_term (s : string) : option (Z * string) :=
  '(v, s1) ← leadingInt s 0;
  let pre := negb (bool_decide (s1 = s)) in
  let '(f, scale, s2, post) :=
    match s1 with
    | String c s1' =>
        if bool_decide (c = "."%char)
        then let '(f, scale, s2) := leadingFraction s1' 0 (of_Z 1) false in (f, scale, s2, negb (bool_decide (s2 = s1')))
        else (0, of_Z 1, s1, false)
    | EmptyString => (0, of_Z 1, s1, false)
    end in
  if negb (pre || post) then None else
  let '(u, s3) := leadingUnit s2 in
  unit ← unitMap u;
  if two63 / unit <? v then None else
  let v := v * unit in
  let v := if 0 <? f then v + to_int64 (integral trunc_of (f_mul (of_Z f) (f_div (of_Z unit) scale))) else v in
  if two63 <? v then None else Some (v, s3).

(** The sum of the terms, in [uint64]. *)
Fixpoint duration_terms (n : nat) (s : string) (d : Z) : option Z :=
  match n, s with
  | _, EmptyString => Some d
  | O, _ => None
  | S n', _ =>
      '(v, rest) ← duration_term s;
      let d := (d + v) mod 2 ^ 64 in
      if two63 <? d then None else duration_terms n' rest d
  end.

Definition time_ParseDuration (s : string) : option duration :=
  let '(neg, s) := match s with
    | String c s' =>
        if bool_decide (c = "-"%char) then (true, s')
        else if bool_decide (c = "+"%char) then (false, s') else (false, s)
    | EmptyString => (false, s) end in
  if bool_decide (s = "0") then Some 0
  else if is_empty s then None
  else
    d ← duration_terms (String.length s) s 0;
    if neg : bool then Some (wrap64 (- d)) else if max_int64 <? d then None else Some d.

(** A duration that is read fits its type. *)
Lemma time_ParseDuration_int64 s d : time_ParseDuration s = Some d -> in_int64 d.
Proof.
  unfold time_ParseDuration. destruct (match s with EmptyString => _ | String _ _ => _ end) as [neg t].
  destruct (bool_decide _); [intros [= <-]; done|]. destruct (is_empty t); [done|].
  assert (forall n u a b, duration_terms n u a = Some b -> 0 <= a -> 0 <= b) as Hpos.
  { induction n as [|n IH]; intros u a b; simpl; [destruct u; [by intros [= <-]|done]|].
    destruct u as [|c u]; [by intros [= <-]|]. destruct (duration_term _) as [[v rest]|]; simpl; [|done].
    destruct (two63 <? _); [done|]. intros Hb Ha. eapply IH; [exact Hb|]. apply Z.mod_pos_bound. lia. }
  destruct (duration_terms _ _ _) as [x|] eqn:E; simpl; [|done]. apply Hpos in E; [|lia].
  destruct neg; [intros [= <-]; apply wrap64_range|].
  destruct (max_int64 <? x) eqn:Hx; [done|]. intros [= <-]. unfold in_int64. bool_facts. unfold min_int64 in *. lia.
Qed.

(** [Duration.String]: the digits of a fraction without the zeros at its end, and
    the whole part; the digits are taken from the last to the first. *)
Fixpoint fmtFrac (prec : nat) (v : Z) (print : bool) (acc : string) : string * Z :=
  match prec with
  | O => (if print then "." +:+ acc else acc, v)
  | S prec' =>
      let digit := v mod 10 in
      let print := print || negb (digit =? 0) in
      fmtFrac prec' (v / 10) print (if print then FormatInt digit +:+ acc else acc)
  end.

Definition micro_sign : string := of_bytes (map byte [194; 181]).

Definition Duration_String (d : duration) : string :=
  let u := Z.abs d in
  let text :=
    if u <? second then
      if u =? 0 then "0s"
      else
        let '(prec, unit) :=
          if u <? 1000 then (0%nat, "ns") else if u <? 1000000 then (3%nat, micro_sign +:+ "s") else (6%nat, "ms") in
        let '(frac, whole) := fmtFrac prec u false EmptyString in
        FormatInt whole +:+ frac +:+ unit
    else
      let '(frac, seconds) := fmtFrac 9 u false EmptyString in
      let minutes := seconds / 60 in
      (if 0 <? minutes
       then (if 0 <? minutes / 60 then FormatInt (minutes / 60) +:+ "h" else EmptyString)
            +:+ FormatInt (minutes mod 60) +:+ "m"
       else EmptyString)
      +:+ FormatInt (seconds mod 60) +:+ frac +:+ "s" in
  if d <? 0 then "-" +:+ text else text.

(** * Times *)

(** [Time.Format] with [time.RFC3339Nano], of an instant in UTC whose year has four
    digits. *)
Definition format_two (n : Z) : string := of_bytes [Dates.digit_char (n / 10); Dates.digit_char (n mod 10)].

Definition FormatRFC3339Nano (t : time) : string :=
  let clock := t mod day / second in
  format_day (day_of t) +:+ "T" +:+ format_two (clock / 3600) +:+ ":" +:+ format_two (clock / 60 mod 60) +:+ ":"
  +:+ format_two (clock mod 60) +:+ fst (fmtFrac 9 (t mod second) false EmptyString) +:+ "Z".

(** * Floats *)

(** [underscoreOK]: an underscore is between digits, or between the prefix of a
    base and a digit; [prev] is the kind of what precedes: a digit, an underscore,
    or anything else. *)
Inductive literal_kind := KDigit | KUnderscore | KOther.

Definition hex_value (c : ascii) : option Z :=
  let c := lower_byte c in
  if in_range 97 102 c then Some (byte_val c - 87) else None.

Fixpoint underscores_ok (hex : bool) (prev : literal_kind) (s : string) : bool :=
  match s with
  | EmptyString => match prev with KUnderscore => false | _ => true end
  | String c s' =>
      if bool_decide (is_Some (digit_value c)) || (hex && bool_decide (is_Some (hex_value c)))
      then underscores_ok hex KDigit s'
      else if bool_decide (c = "_"%char)
      then match prev with KDigit => underscores_ok hex KUnderscore s' | _ => false end
      else match prev with KUnderscore => false | _ => underscores_ok hex KOther s' end
  end.

Definition underscoreOK (s : string) : bool :=
  let s := match s with
    | String c s' => if bool_decide (c = "-"%char) || bool_decide (c = "+"%char) then s' else s
    | EmptyString => s end in
  match s with
  | String "0"%char (String c s') =>
      let c := lower_byte c in
      if bool_decide (c = "x"%char) then underscores_ok true KDigit s'
      else if bool_decide (c = "b"%char) || bool_decide (c = "o"%char) then underscores_ok false KDigit s'
      else underscores_ok false KOther s
  | _ => underscores_ok false KOther s
  end.

(** * Integers with the prefixes of their bases *)

(** A digit, or a letter as a digit, below the base. *)
Definition digit_of (base : Z) (c : ascii) : option Z :=
  d ← (match digit_value c with
       | Some d => Some d
       | None => let c := lower_byte c in if in_range 97 122 c then Some (byte_val c - 87) else None
       end);
  if d <? base then Some d else None.

(** The value of digits between which underscores may stand. *)
Fixpoint digits_value (base : Z) (acc : Z) (s : string) : option Z :=
  match s with
  | EmptyString => Some acc
  | String c s' =>
      if bool_decide (c = "_"%char) then digits_value base acc s'
      else d ← digit_of base c; digits_value base (base * acc + d) s'
  end.

(** [strconv.ParseInt(s, 0, w)]. *)
Definition ParseUint0 (s : string) : option Z :=
  let '(base, digits) :=
    match s with
    | String "0"%char s' =>
        match s' with
        | String c (String a s'') =>
            let l := lower_byte c in
            if bool_decide (l = "b"%char) then (2, String a s'')
            else if bool_decide (l = "o"%char) then (8, String a s'')
            else if bool_decide (l = "x"%char) then (16, String a s'')
            else (8, s')
        | _ => (8, s')
        end
    | _ => (10, s)
    end in
  if is_empty s then None else
  n ← digits_value base 0 digits;
  if existsb (fun c => bool_decide (c = "_"%char)) (bytes_of digits) && negb (underscoreOK s) then None else Some n.

Definition ParseInt0 (lo hi : Z) (s : string) : option Z :=
  let '(neg, u) := match s with
    | String c s' =>
        if bool_decide (c = "-"%char) then (true, s')
        else if bool_decide (c = "+"%char) then (false, s') else (false, s)
    | EmptyString => (false, s) end in
  n ← ParseUint0 u;
  let n := if neg : bool then - n else n in
  if (lo <=? n) && (n <=? hi) then Some n else None.

(** The digits of a mantissa: their value, how many follow the point, whether there
    is one at all, and whether an underscore was met. *)
Record mantissa_text := { mt_value : Z; mt_frac : Z; mt_digits : bool; mt_under : bool; mt_rest : string }.

Fixpoint read_mantissa (hex dot : bool) (s : string) (m : mantissa_text) : mantissa_text :=
  let stop := {| mt_value := mt_value m; mt_frac := mt_frac m; mt_digits := mt_digits m; mt_under := mt_under m; mt_rest := s |} in
  match s with
  | EmptyString => stop
  | String c s' =>
      if bool_decide (c = "_"%char)
      then read_mantissa hex dot s' {| mt_value := mt_value m; mt_frac := mt_frac m; mt_digits := mt_digits m; mt_under := true; mt_rest := s' |}
      else if bool_decide (c = "."%char) then if dot then stop else read_mantissa hex true s' m
      else
        match (match digit_value c with Some d => Some d | None => if hex then hex_value c else None end) with
        | Some d =>
            read_mantissa hex dot s'
              {| mt_value := (if hex then 16 else 10) * mt_value m + d; mt_frac := if dot then mt_frac m + 1 else mt_frac m;
                 mt_digits := true; mt_under := mt_under m; mt_rest := s' |}
        | None => stop
        end
  end.

(** The digits of an exponent, which is not read beyond 10000. *)
Fixpoint read_exponent (s : string) (e : Z) (under : bool) : Z * bool * string :=
  match s with
  | String c s' =>
      if bool_decide (c = "_"%char) then read_exponent s' e true
      else match digit_value c with
           | Some d => read_exponent s' (if e <? 10000 then e * 10 + d else e) under
           | None => (e, under, s)
           end
  | EmptyString => (e, under, s)
  end.

Definition signed_exponent (s : string) : option (Z * bool * string) :=
  let '(neg, s) := match s with
    | String c s' =>
        if bool_decide (c = "+"%char) then (false, s')
        else if bool_decide (c = "-"%char) then (true, s') else (false, s)
    | EmptyString => (false, s) end in
  match s with
  | String c _ =>
      if bool_decide (is_Some (digit_value c)) then
        let '(e, under, rest) := read_exponent s 0 false in Some (if neg : bool then - e else e, under, rest)
      else None
  | EmptyString => None
  end.

(** [m * 2^e] in [float64]; [None] when it overflows. *)
Definition hex_float (neg : bool) (m e : Z) : option float64 :=
  let f := binary_normalize prec64 emax64 m e false in
  if IsInf f then None else Some (if neg then SFopp f else f).

Definition read_float (text : string) : option float64 :=
  let '(neg, s) := match text with
    | String c s' =>
        if bool_decide (c = "+"%char) then (false, s')
        else if bool_decide (c = "-"%char) then (true, s') else (false, text)
    | EmptyString => (false, text) end in
  let '(hex, s) := match s with
    | String "0"%char (String c (String a s'')) =>
        if bool_decide (lower_byte c = "x"%char) then (true, String a s'') else (false, s)
    | _ => (false, s) end in
  let m := read_mantissa hex false s {| mt_value := 0; mt_frac := 0; mt_digits := false; mt_under := false; mt_rest := s |} in
  if negb (mt_digits m) then None else
  '(e, under, rest) ←
    match mt_rest m with
    | String c s' =>
        if bool_decide (lower_byte c = if hex then "p"%char else "e"%char) then signed_exponent s'
        else if hex then None else Some (0, false, mt_rest m)
    | EmptyString => if hex then None else Some (0, false, EmptyString)
    end;
  if (mt_under m || under) && negb (underscoreOK text) then None
  else if negb (is_empty rest) then None
  else if hex : bool then hex_float neg (mt_value m) (e - 4 * mt_frac m)
  else decimal_float neg (mt_value m) (e - mt_frac m).

(** [strconv.ParseFloat(s, 64)], with the values that are not numbers. *)
Definition strconv_ParseFloat (text : string) : option float64 :=
  let '(signed, neg, s) := match text with
    | String c s' =>
        if bool_decide (c = "+"%char) then (true, false, s')
        else if bool_decide (c = "-"%char) then (true, true, s') else (false, false, text)
    | EmptyString => (false, false, text) end in
  let word := str_map lower_byte s in
  if bool_decide (word ∈ ["inf"; "infinity"]) then Some (S754_infinity neg)
  else if bool_decide (word = "nan") && negb signed then Some S754_nan
  else read_float text.

Example durations :
  map time_ParseDuration
    ["1h15m30.918273645s"; "-1.5h"; "0"; "250ms"; "1.000000000000000000000001s"; "5"; ".s"; "10 m"; "1d"; EmptyString;
     "9223372036854775807ns"; "9223372036854775808ns"; "-9223372036854775808ns"; "1" +:+ of_bytes (map byte [194; 181; 115])]
  = [Some 4530918273645; Some (-5400000000000); Some 0; Some 250000000; Some 1000000000; None; None; None; None; None;
     Some max_int64; None; Some min_int64; Some 1000].
Proof. vm_compute. reflexivity. Qed.

Example duration_texts :
  map Duration_String [0; 7; 1500; 20000000; 90 * second + 250; 25 * hour; - 5400 * second; max_int64; min_int64]
  = ["0s"; "7ns"; "1.5" +:+ micro_sign +:+ "s"; "20ms"; "1m30.00000025s"; "25h0m0s"; "-1h30m0s"; "2562047h47m16.854775807s";
     "-2562047h47m16.854775808s"].
Proof. vm_compute. reflexivity. Qed.

Example based_integers :
  map (ParseInt0 min_int64 max_int64)
    ["100"; "0x1F"; "-0b101"; "017"; "0o17"; "1_000"; "0_7"; "0"; "0x"; "08"; "1__0"; "_1"; "+5"; "-+5"; EmptyString; "9223372036854775808"]
  = [Some 100; Some 31; Some (-5); Some 15; Some 15; Some 1000; Some 7; Some 0; None; None; None; None; Some 5; None; None; None].
Proof. vm_compute. reflexivity. Qed.

Example floats :
  map strconv_ParseFloat ["20"; "1_000.5e-1"; "0x1.8p1"; "-Inf"; "1__0"; "_1"; "1e"; "0x1"; "1e400"; "+nan"]
  = [Some (of_Z 20); Some (f_lit "100.05"); Some (of_Z 3); Some (S754_infinity true); None; None; None; None; None; None].
Proof. vm_compute. reflexivity. Qed.

Example float_nan : strconv_ParseFloat "NaN" = Some S754_nan.
Proof. vm_compute. reflexivity. Qed.

Example paths :
  map Clean ["/run/secrets/../../etc/passwd"; "/run//secrets/./token"; "a/../.."; EmptyString; "/.."; "run/secrets/"]
  = ["/etc/passwd"; "/run/secrets/token"; ".."; "."; "/"; "run/secrets"].
Proof. vm_compute. reflexivity. Qed.
