(* ===== verification/Domain.v ===== *)
(** The data the services exchange: [internal/domain/market.go].

    A pointer field is an [option]; [int16], [int64] and [int] fields are
    integers; a [time.Time] is its instant. *)
From S2P Require Import Prelude GoBase.
Local Open Scope Z_scope.

(** [type Server string]: any string, three of which are supported. *)
Abbreviation Server := string (only parsing).
Definition ServerWest : Server := "west".
Definition ServerEast : Server := "east".
Definition ServerEurope : Server := "europe".

(** ** Price ingestion *)

Record PriceIngest := {
  pi_ObservedAt : time;
  pi_LocationID : Z;
  pi_ItemKey : string;
  pi_Quality : Z;
  pi_SellPriceMin : option Z;
  pi_SellPriceMinAt : option time;
  pi_BuyPriceMax : option Z;
  pi_BuyPriceMaxAt : option time;
}.

Record IngestPricesRequest := {
  ip_RequestID : string;
  ip_Server : Server;
  ip_Entries : list PriceIngest;
}.

Record IngestPersistenceTiming := {
  Transaction : duration;
  Commit : duration;
  TransactionMeasured : bool;
  CommitMeasured : bool;
}.

Record IngestPricesResult := {
  Accepted : Z;
  CurrentRowsTouched : Z;
  Duplicate : bool;
  PersistenceTiming : IngestPersistenceTiming;
}.

Record IngestPricesResponse := {
  ipr_RequestID : string;
  ipr_Accepted : Z;
  ipr_CurrentRowsTouched : Z;
  ipr_Duplicate : bool;
  ipr_PersistenceTiming : IngestPersistenceTiming;
}.

(** ** History ingestion *)

Record HistoryBucketIngest := {
  hb_Timestamp : time;
  hb_ItemCount : Z;
  hb_AverageUnitPrice : option Z;
}.

Record HistoryIngest := {
  hi_ObservedAt : time;
  hi_LocationID : Z;
  hi_ItemKey : string;
  hi_Quality : Z;
  hi_History : list HistoryBucketIngest;
}.

Record IngestHistoryRequest := {
  ih_RequestID : string;
  ih_Server : Server;
  ih_Entries : list HistoryIngest;
}.

Record IngestHistoryResult := {
  AcceptedEntries : Z;
  AcceptedBuckets : Z;
  HistoryRowsTouched : Z;
  h_Duplicate : bool;
  h_PersistenceTiming : IngestPersistenceTiming;
}.

Record IngestHistoryResponse := {
  ihr_RequestID : string;
  ihr_AcceptedEntries : Z;
  ihr_AcceptedBuckets : Z;
  ihr_HistoryRowsTouched : Z;
  ihr_Duplicate : bool;
  ihr_PersistenceTiming : IngestPersistenceTiming;
}.

(** ** Catalog *)

Inductive MarketType := MarketTypeRegular | MarketTypeBlackMarket.

Record MarketDefinition := {
  md_Key : string;
  md_Name : string;
  md_Type : MarketType;
  md_Enabled : bool;
}.

Record MarketCatalogResponse := {
  mc_SchemaVersion : Z;
  mc_Count : Z;
  mc_Data : list MarketDefinition;
}.

(** ** Price queries *)

Record PriceQueryEntry := { pq_ItemKey : string; pq_Quality : Z }.

Record PriceQueryRequest := {
  pqr_Server : Server;
  pqr_MarketKeys : list string;
  pqr_Entries : list PriceQueryEntry;
}.

Record CurrentPriceLookup := {
  cl_Server : Server;
  cl_LocationIDs : list Z;
  cl_Entries : list PriceQueryEntry;
}.

Record CurrentPrice := {
  cp_Server : Server;
  cp_MarketKey : string;
  cp_LocationID : Z;
  cp_ItemKey : string;
  cp_Quality : Z;
  cp_SellPriceMin : option Z;
  cp_SellPriceMinAt : option time;
  cp_BuyPriceMax : option Z;
  cp_BuyPriceMaxAt : option time;
  cp_UpdatedAt : time;
  cp_HistoryObservations7D : Z;
  cp_HistoryVolume7D : Z;
  cp_MedianPrice7D : option Z;
}.

Record PriceQueryResponse := {
  pqs_RequestedAt : time;
  pqs_Count : Z;
  pqs_Data : list CurrentPrice;
}.

(** ** History queries *)

Record HistoryQueryEntry := { hq_ItemKey : string; hq_Quality : Z }.

Record HistoryQueryRequest := {
  hqr_Server : Server;
  hqr_MarketKeys : list string;
  hqr_Entries : list HistoryQueryEntry;
  hqr_RangeStart : string;
  hqr_RangeEnd : string;
}.

Record MarketHistoryLookup := {
  hl_Server : Server;
  hl_LocationIDs : list Z;
  hl_Entries : list HistoryQueryEntry;
  hl_RangeStart : time;
  hl_RangeEndExclusive : time;
}.

Record MarketHistoryPoint := {
  hp_Timestamp : time;
  hp_ItemCount : Z;
  hp_AverageUnitPrice : option Z;
}.

Record MarketHistorySeries := {
  hs_Server : Server;
  hs_MarketKey : string;
  hs_LocationID : Z;
  hs_ItemKey : string;
  hs_Quality : Z;
  hs_History : list MarketHistoryPoint;
}.

Record HistoryQueryResponse := {
  hqs_RequestedAt : time;
  hqs_RangeStart : string;
  hqs_RangeEnd : string;
  hqs_Count : Z;
  hqs_BucketCount : Z;
  hqs_Data : list MarketHistorySeries;
}.

#[export] Instance PriceIngest_eq_dec : EqDecision PriceIngest.
Proof. solve_decision. Defined.
#[export] Instance IngestPricesRequest_eq_dec : EqDecision IngestPricesRequest.
Proof. solve_decision. Defined.
#[export] Instance MarketType_eq_dec : EqDecision MarketType.
Proof. solve_decision. Defined.
#[export] Instance MarketDefinition_eq_dec : EqDecision MarketDefinition.
Proof. solve_decision. Defined.
#[export] Instance PriceQueryEntry_eq_dec : EqDecision PriceQueryEntry.
Proof. solve_decision. Defined.
#[export] Instance HistoryQueryEntry_eq_dec : EqDecision HistoryQueryEntry.
Proof. solve_decision. Defined.
#[export] Instance HistoryBucketIngest_eq_dec : EqDecision HistoryBucketIngest.
Proof. solve_decision. Defined.
#[export] Instance HistoryIngest_eq_dec : EqDecision HistoryIngest.
Proof. solve_decision. Defined.
#[export] Instance IngestHistoryRequest_eq_dec : EqDecision IngestHistoryRequest.
Proof. solve_decision. Defined.
