(* ===== verification/Catalog.v ===== *)
(** The market catalog: [internal/marketcatalog/catalog.go]. *)
From S2P Require Import Prelude GoLists GoBase Domain.
Local Open Scope Z_scope.

Definition SchemaVersion : Z := 1.

Record record := { definition : MarketDefinition; locationID : option Z }.

Record Catalog := {
  records : list record;
  byKey : gmap string record;
  byLocation : gmap Z string;
}.

(** The loop of [NewDefault] that fills the two indexes. *)
Definition index_record (c : Catalog) (item : record) : Catalog :=
  {| records := records c;
     byKey := <[md_Key (definition item) := item]> (byKey c);
     byLocation :=
       match locationID item with
       | Some l => <[l := md_Key (definition item)]> (byLocation c)
       | None => byLocation c
       end |}.

Definition new_catalog (rs : list record) : Catalog :=
  foldl index_record {| records := rs; byKey := ∅; byLocation := ∅ |} rs.

Definition regular (key name : string) (location : Z) : record :=
  {| definition := {| md_Key := key; md_Name := name;
                      md_Type := MarketTypeRegular; md_Enabled := true |};
     locationID := Some location |}.

Definition default_records : list record := [
  regular "bridgewatch" "Bridgewatch" 2004;
  regular "martlock" "Martlock" 3008;
  regular "lymhurst" "Lymhurst" 1002;
  regular "fort_sterling" "Fort Sterling" 4002;
  regular "thetford" "Thetford" 7;
  regular "caerleon" "Caerleon" 3005;
  regular "brecilien" "Brecilien" 5003;
  {| definition := {| md_Key := "black_market"; md_Name := "Black Market";
                      md_Type := MarketTypeBlackMarket; md_Enabled := false |};
     locationID := None |} ].

Definition NewDefault : Catalog := new_catalog default_records.

Definition name_less (a b : MarketDefinition) : bool := str_ltb (md_Name a) (md_Name b).

(** [c.List]: a nil catalog lists nothing. *)
Definition ListMarkets (c : option Catalog) (includeDisabled : bool) : list MarketDefinition :=
  match c with
  | None => []
  | Some c =>
      slice_stable name_less
        (List.filter (fun m => includeDisabled || md_Enabled m)
           (map definition (records c)))
  end.

Inductive catalog_error :=
  | CatalogNotConfigured
  | EmptyMarketKey
  | UnsupportedMarketKey (key : string)
  | DisabledMarketKey (key : string).

Section catalog.
Context `{Unicode}.

Definition NormalizeKey (value : string) : string := ToLower (TrimSpace value).

(** The loop of [ResolveEnabled]: [seen] and the two results being built. *)
Fixpoint resolve_from (c : Catalog) (seen : list string)
    (locs : list Z) (byLoc : gmap Z string) (keys : list string)
    : result catalog_error (list Z * gmap Z string) :=
  match keys with
  | [] => Ok (locs, byLoc)
  | rawKey :: keys' =>
      let key := NormalizeKey rawKey in
      fail_if is_empty key with EmptyMarketKey else
      if bool_decide (key ∈ seen) then resolve_from c seen locs byLoc keys' else
      match byKey c !! key with
      | None => Err (UnsupportedMarketKey key)
      | Some item =>
          match locationID item with
          | Some l =>
              fail_if negb (md_Enabled (definition item)) with DisabledMarketKey key else
              resolve_from c (key :: seen) (locs ++ [l]) (<[l := key]> byLoc) keys'
          | None => Err (DisabledMarketKey key)
          end
      end
  end.

Definition ResolveEnabled (c : option Catalog) (keys : list string)
    : result catalog_error (list Z * gmap Z string) :=
  match c with
  | None => Err CatalogNotConfigured
  | Some c => resolve_from c [] [] ∅ keys
  end.
End catalog.

Definition KeyForLocation (c : option Catalog) (l : Z) : option string :=
  match c with None => None | Some c => byLocation c !! l end.

(** * Well-formed catalogs

    The indexes agree with the records, and no location belongs to two
    records. *)
Record catalog_wf (c : Catalog) : Prop := {
  wf_byKey k r : byKey c !! k = Some r <-> r ∈ records c /\ md_Key (definition r) = k;
  wf_location r1 r2 l :
    r1 ∈ records c -> r2 ∈ records c ->
    locationID r1 = Some l -> locationID r2 = Some l -> r1 = r2;
  wf_byLocation l k :
    byLocation c !! l = Some k <->
    exists r, r ∈ records c /\ locationID r = Some l /\ md_Key (definition r) = k;
}.

Definition record_key (r : record) : string := md_Key (definition r).

Lemma index_record_records l c : records (foldl index_record c l) = records c.
Proof. revert c; induction l as [|r l IH]; intros c; simpl; [done|by rewrite IH]. Qed.

Lemma index_byKey rs c k r :
  NoDup (map record_key rs) ->
  (forall r', r' ∈ rs -> byKey c !! record_key r' = None) ->
  byKey (foldl index_record c rs) !! k = Some r <->
  byKey c !! k = Some r \/ r ∈ rs /\ record_key r = k.
Proof.
  revert c; induction rs as [|r' rs IH]; intros c; simpl.
  { intros _ _. set_solver. }
  intros [Hr' Hnd]%NoDup_cons Hfresh. rewrite IH; simpl; [|done|].
  - rewrite elem_of_cons, lookup_insert. unfold record_key in *.
    case_decide as Hk; [|naive_solver]. subst k.
    specialize (Hfresh r' ltac:(set_solver)). split.
    + intros [[= ->]|[Hin Hk]]; [naive_solver|]. naive_solver.
    + intros [?|[[->|Hin] Hk]]; [congruence|naive_solver|naive_solver].
  - intros r'' Hin. rewrite lookup_insert_ne; [apply Hfresh; set_solver|].
    intros Heq. apply Hr'. change (map _ rs) with (record_key <$> rs).
    apply list_elem_of_fmap. exists r''. split; [|done]. symmetry. done.
Qed.

Lemma index_byLocation rs c l k :
  NoDup (omap locationID rs) ->
  (forall r l', r ∈ rs -> locationID r = Some l' -> byLocation c !! l' = None) ->
  byLocation (foldl index_record c rs) !! l = Some k <->
  byLocation c !! l = Some k \/
  exists r, r ∈ rs /\ locationID r = Some l /\ record_key r = k.
Proof.
  revert c; induction rs as [|r' rs IH]; intros c.
  { intros _ _. set_solver. }
  intros Hnd Hfresh. change (omap locationID (r' :: rs)) with
    (match locationID r' with Some l => l :: omap locationID rs | None => omap locationID rs end) in Hnd.
  simpl. destruct (locationID r') as [l'|] eqn:El'.
  - apply NoDup_cons in Hnd as [Hl' Hnd]. rewrite IH; simpl; rewrite ?El'; [|done|].
    + rewrite lookup_insert. case_decide as Hl; [subst l'|].
      * pose proof (Hfresh r' l ltac:(set_solver) El') as Hnone. split.
        -- intros [[= <-]|(r & Hin & Hr & Hk)]; right; [exists r'|exists r]; set_solver.
        -- intros [?|(r & [->|Hin]%elem_of_cons & Hr & Hk)]; [congruence|by left; f_equal|].
           right; eauto.
      * split; [intros [?|(r & ? & ? & ?)]; [by left|right; exists r; set_solver]|].
        intros [?|(r & [->|Hin]%elem_of_cons & Hr & Hk)]; [by left|congruence|right; eauto].
    + intros r l2 Hin Hr. rewrite lookup_insert_ne; [apply (Hfresh r); set_solver|].
      intros <-. apply Hl'. apply list_elem_of_omap. eauto.
  - rewrite IH; simpl; rewrite ?El'; [|done|].
    + split; [intros [?|(r & ? & ? & ?)]; [by left|right; exists r; set_solver]|].
      intros [?|(r & [->|Hin]%elem_of_cons & Hr & Hk)]; [by left|congruence|right; eauto].
    + intros r l2 Hin Hr. apply (Hfresh r); [set_solver|done].
Qed.

Lemma new_catalog_wf rs :
  NoDup (map record_key rs) -> NoDup (omap locationID rs) -> catalog_wf (new_catalog rs).
Proof.
  intros Hk Hl. unfold new_catalog. split.
  - intros k r. rewrite index_record_records. simpl. rewrite index_byKey; [|done|done].
    simpl. rewrite lookup_empty. naive_solver.
  - intros r1 r2 l. rewrite index_record_records. simpl. clear Hk.
    induction rs as [|r rs IH]; [set_solver|].
    change (omap locationID (r :: rs)) with
      (match locationID r with Some l => l :: omap locationID rs | None => omap locationID rs end) in Hl.
    assert (NoDup (omap locationID rs)) as Hnd.
    { destruct (locationID r); [by apply NoDup_cons in Hl as [_ ?]|done]. }
    intros [->|H1]%elem_of_cons [->|H2]%elem_of_cons E1 E2; [done| | |auto];
      exfalso; [rewrite E1 in Hl|rewrite E2 in Hl]; apply NoDup_cons in Hl as [Hl _];
      apply Hl, list_elem_of_omap; eauto.
  - intros l k. rewrite index_record_records. simpl. rewrite index_byLocation; [|done|done].
    simpl. rewrite lookup_empty. unfold record_key. naive_solver.
Qed.

Lemma NewDefault_wf : catalog_wf NewDefault.
Proof. apply new_catalog_wf; apply (bool_decide_unpack _); vm_compute; exact I. Qed.

(** * Resolving public keys *)

(** What a key resolves to, read off the catalog. *)
Definition key_location (c : Catalog) (key : string) : option Z :=
  if is_empty key then None else
  match byKey c !! key with
  | Some item => if md_Enabled (definition item) then locationID item else None
  | None => None
  end.

(** The error a key that does not resolve is rejected with. *)
Definition key_error (c : Catalog) (key : string) : catalog_error :=
  if is_empty key then EmptyMarketKey else
  match byKey c !! key with
  | None => UnsupportedMarketKey key
  | Some _ => DisabledMarketKey key
  end.

Definition add_pair (m : gmap Z string) (p : string * Z) : gmap Z string := <[p.2 := p.1]> m.

Section resolve.
Context `{Unicode}.

Lemma resolve_from_step c seen locs m k keys :
  EmptyString ∉ seen ->
  resolve_from c seen locs m (k :: keys) =
  let key := NormalizeKey k in
  if bool_decide (key ∈ seen) then resolve_from c seen locs m keys else
  match key_location c key with
  | Some l => resolve_from c (key :: seen) (locs ++ [l]) (<[l := key]> m) keys
  | None => Err (key_error c key)
  end.
Proof.
  intros Hs. simpl. unfold key_location, key_error.
  destruct (is_empty (NormalizeKey k)) eqn:E.
  { apply is_empty_true in E. rewrite E in *. by rewrite bool_decide_eq_false_2. }
  case_bool_decide; [done|].
  destruct (byKey c !! NormalizeKey k) as [r|]; [|done].
  by destruct (locationID r), (md_Enabled (definition r)).
Qed.

Lemma key_location_nonempty c k l : key_location c k = Some l -> k <> EmptyString.
Proof. unfold key_location. by intros ? ->. Qed.

Lemma resolve_from_ok c seen locs m keys locs' m' :
  EmptyString ∉ seen ->
  resolve_from c seen locs m keys = Ok (locs', m') <->
  exists ls,
    mapM (key_location c) (dedup_from seen (map NormalizeKey keys)) = Some ls /\
    locs' = locs ++ ls /\
    m' = foldl add_pair m (zip (dedup_from seen (map NormalizeKey keys)) ls).
Proof.
  revert seen locs m; induction keys as [|k keys IH]; intros seen locs m Hs.
  { simpl. split; [intros [= <- <-]|intros (ls & [= <-] & -> & ->)];
      [exists []|]; by rewrite ?app_nil_r. }
  rewrite resolve_from_step by done. simpl.
  case_bool_decide as Hin; [by apply IH|]. simpl.
  destruct (key_location c (NormalizeKey k)) as [l|] eqn:El; simpl.
  - rewrite IH by (apply key_location_nonempty in El; set_solver).
    destruct (mapM _ (dedup_from (_ :: seen) _)) as [ls|]; simpl.
    + split.
      * intros (? & [= <-] & -> & ->). exists (l :: ls). by rewrite <- app_assoc.
      * intros (? & [= <-] & -> & ->). exists ls. by rewrite <- app_assoc.
    + naive_solver.
  - naive_solver.
Qed.

Lemma resolve_from_err c seen locs m keys e :
  EmptyString ∉ seen ->
  resolve_from c seen locs m keys = Err e ->
  exists pre k post, keys = pre ++ k :: post /\
    Forall (fun k' => NormalizeKey k' ∈ seen \/ is_Some (key_location c (NormalizeKey k'))) pre /\
    key_location c (NormalizeKey k) = None /\ e = key_error c (NormalizeKey k).
Proof.
  revert seen locs m; induction keys as [|k keys IH]; intros seen locs m Hs; [done|].
  rewrite resolve_from_step by done. simpl. case_bool_decide as Hin.
  - intros (pre & k' & post & -> & Hpre & ?)%IH; [|done].
    exists (k :: pre), k', post. split; [done|]. split; [constructor; auto|done].
  - destruct (key_location c (NormalizeKey k)) as [l|] eqn:El.
    + intros (pre & k' & post & -> & Hpre & ?)%IH;
        [|apply key_location_nonempty in El; set_solver].
      exists (k :: pre), k', post. split; [done|]. split; [|done].
      constructor; [right; eauto|]. eapply Forall_impl; [done|].
      intros x [[->|?]%elem_of_cons|?]; [right; rewrite El; eauto|auto..].
    + intros [= <-]. exists [], k, keys. repeat split; [constructor|done].
Qed.

Lemma key_location_inj c k1 k2 l :
  catalog_wf c -> key_location c k1 = Some l -> key_location c k2 = Some l -> k1 = k2.
Proof.
  unfold key_location. intros Hwf.
  destruct (is_empty k1), (is_empty k2); try done.
  destruct (byKey c !! k1) as [r1|] eqn:E1; [|done].
  destruct (byKey c !! k2) as [r2|] eqn:E2; [|done].
  apply (wf_byKey c Hwf) in E1 as [H1 <-]. apply (wf_byKey c Hwf) in E2 as [H2 <-].
  destruct (md_Enabled (definition r1)), (md_Enabled (definition r2)); try done.
  intros L1 L2. by rewrite (wf_location c Hwf r1 r2 l).
Qed.

Lemma foldl_add_pair m ks ls l k :
  length ks = length ls -> NoDup ls ->
  foldl add_pair m (zip ks ls) !! l = Some k <->
  (k, l) ∈ zip ks ls \/ ((l ∉ ls) /\ m !! l = Some k).
Proof.
  revert m ls; induction ks as [|k' ks IH]; intros m [|l' ls] Hlen Hnd; simplify_eq/=.
  { set_solver. }
  apply NoDup_cons in Hnd as [Hl' Hnd]. rewrite IH by done. unfold add_pair; simpl.
  rewrite lookup_insert. case_decide; [subst l'|]; set_solver.
Qed.

Lemma resolve_pairs c ks ls :
  catalog_wf c -> NoDup ks -> mapM (key_location c) ks = Some ls ->
  NoDup ls /\ length ks = length ls /\
  forall k l, (k, l) ∈ zip ks ls <-> k ∈ ks /\ key_location c k = Some l.
Proof.
  intros Hwf Hks HM. apply mapM_Some in HM. revert Hks.
  induction HM as [|k l ks ls Hkl HM IH]; intros Hks; [split_and!; [constructor|done|set_solver]|].
  apply NoDup_cons in Hks as [Hk Hks]. destruct (IH Hks) as (Hnd & Hlen & Hz).
  split_and!; [|simpl; lia|].
  - constructor; [|done]. intros Hl.
    apply list_elem_of_lookup in Hl as [i Hl].
    destruct (Forall2_lookup_r _ _ _ _ _ HM Hl) as (k' & Hk' & E').
    rewrite (key_location_inj c k k' l) in Hk by done.
    by apply Hk, list_elem_of_lookup; eauto.
  - intros k2 l2. simpl. rewrite !elem_of_cons, Hz.
    split; [intros [[= -> ->]|?]; set_solver|].
    intros [[->|?] ?]; [left; congruence|right; done].
Qed.

(** [ResolveEnabled] accepts a list of keys exactly when every distinct
    normalised key names an enabled market with a location, and then it
    returns one location per distinct key, in the order the keys were first
    given, without repetitions, with a map that sends each returned location
    back to the key it was asked by. *)
Theorem ResolveEnabled_correct (c : Catalog) keys :
  catalog_wf c ->
  let ks := dedup (map NormalizeKey keys) in
  (is_ok (ResolveEnabled (Some c) keys) = true <->
   (forall k, k ∈ ks -> is_Some (key_location c k))) /\
  forall locs m, ResolveEnabled (Some c) keys = Ok (locs, m) ->
    Forall2 (fun k l => key_location c k = Some l) ks locs /\ NoDup locs /\
    forall l k, m !! l = Some k <-> k ∈ ks /\ key_location c k = Some l.
Proof.
  intros Hwf ks. split.
  - rewrite is_ok_true. split.
    + intros ([locs m] & Hok) k Hk.
      apply resolve_from_ok in Hok as (ls & HM & _); [|set_solver].
      apply mapM_Some in HM. apply list_elem_of_lookup in Hk as [i Hk].
      destruct (Forall2_lookup_l _ _ _ _ _ HM Hk) as (l & _ & ?). eauto.
    + intros Hk.
      assert (is_Some (mapM (key_location c) ks)) as [ls HM].
      { by apply mapM_is_Some, Forall_forall. }
      eexists (_, _). apply resolve_from_ok; [set_solver|]. eauto.
  - intros locs m Hok. apply resolve_from_ok in Hok as (ls & HM & -> & ->); [|set_solver].
    pose proof (resolve_pairs c _ _ Hwf (NoDup_dedup _) HM) as (Hnd & Hlen & Hz).
    split_and!; [by apply mapM_Some|done|]. intros l k.
    fold (dedup (map NormalizeKey keys)). rewrite foldl_add_pair by done.
    rewrite Hz, lookup_empty. naive_solver.
Qed.

(** A rejected list of keys is rejected for its first key that does not
    resolve: every key before it resolves, and the error says whether that
    key is empty, unknown or disabled. *)
Theorem ResolveEnabled_rejects (c : Catalog) keys e :
  ResolveEnabled (Some c) keys = Err e ->
  exists pre k post, keys = pre ++ k :: post /\
    Forall (fun k' => is_Some (key_location c (NormalizeKey k'))) pre /\
    key_location c (NormalizeKey k) = None /\ e = key_error c (NormalizeKey k).
Proof.
  intros Herr. apply resolve_from_err in Herr as (pre & k & post & ? & Hpre & ?); [|set_solver].
  exists pre, k, post. split; [done|]. split; [|done].
  eapply Forall_impl; [exact Hpre|]. intros ? [?%elem_of_nil|?]; done.
Qed.
End resolve.

Lemma ResolveEnabled_correct_witness :
  let U := plain_unicode in
  ResolveEnabled (Some NewDefault) [" Martlock"; "caerleon"; "MARTLOCK "]
  = Ok ([3008; 3005], <[3005 := "caerleon"]> {[3008 := "martlock"]}) /\
  NoDup [3008; 3005].
Proof.
  split; [vm_compute; reflexivity|].
  eapply (ResolveEnabled_correct (H := plain_unicode) NewDefault
            [" Martlock"; "caerleon"; "MARTLOCK "] NewDefault_wf).
  vm_compute. reflexivity.
Defined.

Lemma ResolveEnabled_rejects_witness :
  exists pre k post, ["lymhurst"; "Black_Market"; "nowhere"] = pre ++ k :: post /\
    Forall (fun k' => is_Some (key_location NewDefault
                                 (NormalizeKey (H := plain_unicode) k'))) pre /\
    key_location NewDefault (NormalizeKey (H := plain_unicode) k) = None /\
    DisabledMarketKey "black_market" = key_error NewDefault (NormalizeKey (H := plain_unicode) k).
Proof.
  apply (ResolveEnabled_rejects (H := plain_unicode) NewDefault).
  vm_compute. reflexivity.
Defined.

Lemma default_record_resolves r :
  r ∈ default_records -> md_Enabled (definition r) = true ->
  exists l, (forall U : Unicode,
    ResolveEnabled (Some NewDefault) [record_key r] = Ok ([l], {[l := record_key r]})) /\
    KeyForLocation (Some NewDefault) l = Some (record_key r).
Proof.
  intros Hr Hen. exists (default 0 (locationID r)). revert r Hr Hen. refine (proj1 (Forall_forall _ default_records) _).
  repeat (apply Forall_cons_2; [intros Hen; first [discriminate Hen|
    split; [intros U|]; vm_compute; reflexivity]|]).
  apply Forall_nil_2.
Qed.

(** The public listing is sorted by name and holds exactly the records
    asked for; in the default catalog every enabled market it shows resolves,
    whatever the Unicode tables, to one location, and that location maps back
    to the listed key. *)
Theorem ListMarkets_roundtrip (c : Catalog) incl :
  StronglySorted (not_after name_less) (ListMarkets (Some c) incl) /\
  ListMarkets (Some c) incl ≡ₚ
    List.filter (fun m => incl || md_Enabled m) (map definition (records c)) /\
  Forall (fun m => md_Enabled m = true ->
    exists l, (forall U : Unicode,
      ResolveEnabled (Some NewDefault) [md_Key m] = Ok ([l], {[l := md_Key m]})) /\
      KeyForLocation (Some NewDefault) l = Some (md_Key m))
    (ListMarkets (Some NewDefault) incl).
Proof.
  split_and!.
  - apply slice_stable_sorted, (less_on_strict_weak str_ltb md_Name).
  - apply slice_stable_Permutation.
  - unfold ListMarkets. rewrite slice_stable_Permutation.
    apply Forall_forall. intros m Hm Hen.
    apply list_elem_of_In, List.filter_In in Hm as [Hm _].
    apply in_map_iff in Hm as (r & <- & Hr%list_elem_of_In).
    by apply default_record_resolves.
Qed.
