(* ===== verification/IngestAuth.v ===== *)
(** Bearer authentication of the ingest endpoints:
    [internal/ingestauth/authenticator.go]. *)
From S2P Require Import Prelude GoLists GoBase.
Local Open Scope Z_scope.

Definition maxBearerTokenLength : Z := Z.shiftl 16 10.

Record Credential := { ID : string; Token : string }.

Record Options := { RequireHTTPS : bool; TrustProxyHeaders : bool }.

Inductive FailureReason :=
  | FailureNone
  | FailureMissingHeader
  | FailureMalformedHeader
  | FailureInvalidToken
  | FailureInsecureTransport.

Record Result := { Authenticated : bool; KeyID : string; Failure : FailureReason }.

Record storedCredential := { id : string; digest : string }.

Record Authenticator := {
  credentials : list storedCredential;
  requireHTTPS : bool;
  trustProxyHeaders : bool;
}.

Inductive auth_config_error :=
  | NoCredentials
  | CredentialIDRequired
  | CredentialTokenRequired (id : string)
  | DuplicateCredentialID (id : string)
  | SharedCredentialToken.

(** What the authenticator reads of an [http.Request]: whether the connection
    is TLS, and the headers. *)
Record Request := { req_TLS : bool; req_Header : string -> string }.

Definition fail_with (f : FailureReason) : Result :=
  {| Authenticated := false; KeyID := EmptyString; Failure := f |}.

Section ingestauth.
Context `{Unicode} `{Sha256}.

(** The loop of [New]; [seenIDs] and [seenDigests] are the two maps. *)
Fixpoint store_credentials (seenIDs seenDigests : list string)
    (stored : list storedCredential) (l : list Credential)
    : result auth_config_error (list storedCredential) :=
  match l with
  | [] => Ok stored
  | c :: l' =>
      let i := TrimSpace (ID c) in
      let token := TrimSpace (Token c) in
      fail_if is_empty i with CredentialIDRequired else
      fail_if is_empty token with CredentialTokenRequired i else
      fail_if bool_decide (i ∈ seenIDs) with DuplicateCredentialID i else
      let d := sha256 token in
      fail_if bool_decide (d ∈ seenDigests) with SharedCredentialToken else
      store_credentials (i :: seenIDs) (d :: seenDigests)
        (stored ++ [{| id := i; digest := d |}]) l'
  end.

Definition NewAuthenticator (l : list Credential) (options : Options)
    : result auth_config_error Authenticator :=
  fail_if bool_decide (l = []) with NoCredentials else
  let! stored := store_credentials [] [] [] l in
  Ok {| credentials := stored;
        requireHTTPS := RequireHTTPS options;
        trustProxyHeaders := TrustProxyHeaders options |}.

Definition requestUsesHTTPS (r : option Request) (trust : bool) : bool :=
  match r with
  | Some r =>
      if req_TLS r then true
      else if negb trust then false
      else EqualFold
             (TrimSpace (hd EmptyString (Split (req_Header r "X-Forwarded-Proto") ",")))
             "https"
  | None => false
  end.

(** [subtle.ConstantTimeCompare] and [subtle.ConstantTimeSelect]. *)
Definition ConstantTimeCompare (x y : string) : Z := if bool_decide (x = y) then 1 else 0.
Definition ConstantTimeSelect (v x y : Z) : Z := if v =? 1 then x else y.

(** The loop over the credentials: it visits all of them and keeps the index
    of the last match. *)
Fixpoint match_loop (provided : string) (index matched matchedIndex : Z)
    (l : list storedCredential) : Z * Z :=
  match l with
  | [] => (matched, matchedIndex)
  | c :: l' =>
      let equal := ConstantTimeCompare provided (digest c) in
      match_loop provided (index + 1) (Z.lor matched equal)
        (ConstantTimeSelect equal index matchedIndex) l'
  end.

Definition Authenticate (a : option Authenticator) (r : Request) : Result :=
  match a with
  | None => fail_with FailureInvalidToken
  | Some a =>
      if requireHTTPS a && negb (requestUsesHTTPS (Some r) (trustProxyHeaders a))
      then fail_with FailureInsecureTransport else
      let header := TrimSpace (req_Header r "Authorization") in
      if is_empty header then fail_with FailureMissingHeader else
      match Fields header with
      | [scheme; provided] =>
          if negb (EqualFold scheme "Bearer") then fail_with FailureMalformedHeader else
          if is_empty provided || (maxBearerTokenLength <? str_len provided)
          then fail_with FailureMalformedHeader else
          let '(matched, matchedIndex) :=
            match_loop (sha256 provided) 0 0 0 (credentials a) in
          if negb (matched =? 1) then fail_with FailureInvalidToken else
          match credentials a !! Z.to_nat matchedIndex with
          | Some c => {| Authenticated := true; KeyID := id c; Failure := FailureNone |}
          | None => fail_with FailureInvalidToken (* an index the loop never returns *)
          end
      | _ => fail_with FailureMalformedHeader
      end
  end.

(** * Reference definitions *)

Definition transport_ok (o : Options) (r : Request) : bool :=
  negb (RequireHTTPS o) || requestUsesHTTPS (Some r) (TrustProxyHeaders o).

(** The token a well-formed Authorization header carries. *)
Definition bearer_token (r : Request) : option string :=
  match Fields (TrimSpace (req_Header r "Authorization")) with
  | [scheme; token] =>
      if EqualFold scheme "Bearer" && negb (is_empty token)
         && (str_len token <=? maxBearerTokenLength)
      then Some token else None
  | _ => None
  end.

Definition stored_of (c : Credential) : storedCredential :=
  {| id := TrimSpace (ID c); digest := sha256 (TrimSpace (Token c)) |}.

Lemma store_credentials_ok ids ds acc l stored :
  NoDup ids -> NoDup ds ->
  store_credentials ids ds acc l = Ok stored ->
  stored = acc ++ map stored_of l /\
  NoDup (rev (map (fun c => id (stored_of c)) l) ++ ids) /\
  NoDup (rev (map (fun c => digest (stored_of c)) l) ++ ds) /\
  Forall (fun c => id (stored_of c) <> EmptyString) l.
Proof.
  revert ids ds acc; induction l as [|c l IH]; intros ids ds acc Hi Hd; simpl.
  { intros [= ->]. rewrite app_nil_r. split_and!; [done..|constructor]. }
  intros Hok. inv_ok. bool_facts. apply is_empty_false in Hg.
  apply IH in Hok as (-> & Hids & Hds & Hne); [|by constructor..].
  rewrite <- !app_assoc. split_and!; [done|exact Hids|exact Hds|by constructor].
Qed.

Lemma match_loop_matched p i m mi l :
  m = 0 \/ m = 1 ->
  fst (match_loop p i m mi l) =
  if bool_decide (p ∈ map digest l) then 1 else m.
Proof.
  revert i m mi; induction l as [|c l IH]; intros i m mi Hm; simpl; [done|].
  unfold ConstantTimeCompare. rewrite IH.
  { destruct Hm as [-> | ->]; repeat case_bool_decide; simpl; try done;
      exfalso; set_solver. }
  destruct Hm as [-> | ->], (bool_decide (p = digest c)); simpl; auto.
Qed.

Lemma match_loop_index p i m mi l k c :
  NoDup (map digest l) -> l !! k = Some c -> digest c = p ->
  snd (match_loop p i m mi l) = i + Z.of_nat k.
Proof.
  revert i m mi k; induction l as [|c' l IH]; intros i m mi k Hnd Hk Hc; [done|].
  simpl in Hnd. apply NoDup_cons in Hnd as [Hc' Hnd].
  assert (forall i m mi, p ∉ map digest l -> snd (match_loop p i m mi l) = mi) as Hskip.
  { clear. induction l as [|c l IH]; intros i m mi Hp; simpl; [done|].
    rewrite IH by set_solver. unfold ConstantTimeSelect, ConstantTimeCompare.
    rewrite bool_decide_eq_false_2; [done|]. set_solver. }
  destruct k as [|k]; simplify_eq/=.
  - rewrite Hskip by done. unfold ConstantTimeSelect, ConstantTimeCompare.
    rewrite bool_decide_eq_true_2 by done. simpl. lia.
  - rewrite (IH _ _ _ k) by done. lia.
Qed.

Lemma NewAuthenticator_ok creds opts a :
  NewAuthenticator creds opts = Ok a ->
  a = {| credentials := map stored_of creds; requireHTTPS := RequireHTTPS opts;
         trustProxyHeaders := TrustProxyHeaders opts |} /\
  NoDup (map id (credentials a)) /\ NoDup (map digest (credentials a)) /\
  Forall (fun c => id c <> EmptyString) (credentials a).
Proof.
  unfold NewAuthenticator. intros Hok. inv_ok. simpl.
  apply store_credentials_ok in Hr as (-> & Hids & Hds & Hne); [|constructor..].
  rewrite app_nil_r in Hids, Hds. simpl. rewrite !map_map.
  split_and!; [done| | |].
  - rewrite (Permutation_rev (map _ _)). exact Hids.
  - rewrite (Permutation_rev (map _ _)). exact Hds.
  - by apply Forall_fmap.
Qed.

(** The decision of [Authenticate] as one expression. *)
Lemma Authenticate_eq creds opts a r :
  NewAuthenticator creds opts = Ok a ->
  Authenticate (Some a) r =
  if negb (transport_ok opts r) then fail_with FailureInsecureTransport else
  if is_empty (TrimSpace (req_Header r "Authorization")) then fail_with FailureMissingHeader else
  match bearer_token r with
  | None => fail_with FailureMalformedHeader
  | Some token =>
      match List.find (fun c => bool_decide (sha256 token = sha256 (TrimSpace (Token c)))) creds with
      | Some c => {| Authenticated := true; KeyID := TrimSpace (ID c); Failure := FailureNone |}
      | None => fail_with FailureInvalidToken
      end
  end.
Proof.
  intros Hnew. apply NewAuthenticator_ok in Hnew as (Ha & _ & Hds & _).
  unfold Authenticate, transport_ok, bearer_token. rewrite Ha in Hds |- *. simpl in Hds. cbn [credentials requireHTTPS trustProxyHeaders].
  rewrite negb_orb, negb_involutive.
  case_if; [done|]. case_if; [done|].
  destruct (Fields _) as [|scheme [|token [|]]]; try done.
  destruct (EqualFold scheme "Bearer"); simpl; [|done].
  rewrite Z.leb_antisym. destruct (is_empty token); simpl; [done|].
  destruct (maxBearerTokenLength <? str_len token); simpl; [done|].
  destruct (match_loop _ _ _ _ _) as [matched index] eqn:E.
  pose proof (match_loop_matched (sha256 token) 0 0 0 (map stored_of creds)
                (or_introl eq_refl)) as Hm.
  rewrite E in Hm. simpl in Hm. subst matched.
  destruct (List.find _ creds) as [c|] eqn:F.
  - apply List.find_some in F as [Hc Heq]. bool_facts.
    apply list_elem_of_In, list_elem_of_lookup in Hc as [k Hc].
    rewrite bool_decide_eq_true_2; simpl.
    + pose proof (match_loop_index (sha256 token) 0 0 0 (map stored_of creds) k (stored_of c)) as Hi.
      rewrite E in Hi. cbn [snd] in Hi. rewrite Z.add_0_l in Hi.
      rewrite Hi; [|done|by rewrite list_lookup_fmap, Hc|done].
      rewrite Nat2Z.id, list_lookup_fmap, Hc. done.
    + rewrite Heq. apply list_elem_of_lookup. exists k.
      by rewrite map_map, list_lookup_fmap, Hc.
  - rewrite bool_decide_eq_false_2; [done|].
    rewrite map_map. intros (c & Hc & Hin)%list_elem_of_fmap.
    pose proof (List.find_none _ _ F c (proj1 (list_elem_of_In _ _) Hin)) as Hn.
    cbn beta in Hn. by bool_facts.
Qed.

(** A request is authenticated exactly when its transport is acceptable
    under the configuration, its header is one [Bearer] scheme and one token
    of admissible length, and the digest of that token is the digest of a
    configured token; the key it is attributed to is the identifier of that
    credential, and no other credential could have matched. *)
Theorem Authenticate_correct creds opts a r :
  NewAuthenticator creds opts = Ok a ->
  (Authenticated (Authenticate (Some a) r) = true <->
   transport_ok opts r = true /\
   exists tok c, bearer_token r = Some tok /\ c ∈ creds /\
     sha256 (TrimSpace (Token c)) = sha256 tok) /\
  (forall tok c, Authenticated (Authenticate (Some a) r) = true ->
    bearer_token r = Some tok -> c ∈ creds -> sha256 (TrimSpace (Token c)) = sha256 tok ->
    Authenticate (Some a) r =
    {| Authenticated := true; KeyID := TrimSpace (ID c); Failure := FailureNone |}) /\
  (Authenticated (Authenticate (Some a) r) = false ->
   KeyID (Authenticate (Some a) r) = EmptyString /\
   Failure (Authenticate (Some a) r) <> FailureNone).
Proof.
  intros Hnew. rewrite (Authenticate_eq creds opts a r Hnew).
  apply NewAuthenticator_ok in Hnew as (-> & _ & Hds & _). simpl in Hds.
  assert (is_empty (TrimSpace (req_Header r "Authorization")) = true -> bearer_token r = None)
    as Hempty.
  { unfold bearer_token. by intros ->%is_empty_true. }
  destruct (transport_ok opts r); simpl; [|naive_solver].
  destruct (is_empty _); simpl; [rewrite Hempty by done; naive_solver|].
  destruct (bearer_token r) as [tok|]; [|naive_solver].
  destruct (List.find _ creds) as [c|] eqn:F; simpl.
  - apply List.find_some in F as [Hc%list_elem_of_In Heq]. bool_facts.
    split_and!; [naive_solver| |done].
    intros tok' c' _ [= <-] Hc' Heq'. f_equal.
    apply list_elem_of_lookup in Hc as [i Hi]. apply list_elem_of_lookup in Hc' as [j Hj].
    assert (i = j) as ->; [|by simplify_eq].
    apply (NoDup_lookup _ _ _ (sha256 tok) Hds);
      rewrite map_map, list_lookup_fmap; [by rewrite Hi, Heq|by rewrite Hj; simpl; rewrite Heq'].
  - assert (forall c, c ∈ creds -> sha256 (TrimSpace (Token c)) <> sha256 tok) as Hn.
    { intros c Hc Heq. pose proof (List.find_none _ _ F c (proj1 (list_elem_of_In _ _) Hc)).
      simpl in *. bool_facts. congruence. }
    naive_solver.
Qed.
End ingestauth.

Definition example_request (auth : string) : Request :=
  {| req_TLS := false;
     req_Header h := if bool_decide (h = "Authorization") then auth else
                     if bool_decide (h = "X-Forwarded-Proto") then "HTTPS, http" else EmptyString |}.

Lemma Authenticate_correct_witness :
  let U := plain_unicode in let S := plain_sha256 in
  let creds := [{| ID := "a"; Token := "one" |}; {| ID := " b "; Token := "two" |}] in
  let opts := {| RequireHTTPS := true; TrustProxyHeaders := true |} in
  match NewAuthenticator creds opts with
  | Ok a => Authenticate (Some a) (example_request "bearer  two") =
      {| Authenticated := true; KeyID := "b"; Failure := FailureNone |}
  | Err _ => False
  end.
Proof.
  eapply (Authenticate_correct (H := plain_unicode) (H0 := plain_sha256)
    [{| ID := "a"; Token := "one" |}; {| ID := " b "; Token := "two" |}]
    {| RequireHTTPS := true; TrustProxyHeaders := true |} _ (example_request "bearer  two")
    eq_refl) with (tok := "two") (c := {| ID := " b "; Token := "two" |});
    [vm_compute; reflexivity..|set_solver|vm_compute; reflexivity].
Defined.
