(* ===== verification/Tx.v ===== *)
(** Database transactions as the repositories use them: the statements that
    can fail, the outcomes of a commit, and the request ledger both ingest
    pipelines keep. *)
From S2P Require Import Prelude GoLists GoBase Domain.
Local Open Scope Z_scope.

(** The statements of an ingest transaction, in the order they are sent. *)
Inductive db_step :=
  | StepBegin
  | StepRegister
  | StepExisting
  | StepCopy
  | StepUpsert
  | StepComplete
  | StepCommit
  | StepQuery.

(** A commit is acknowledged, refused, or applied with the acknowledgement
    lost: in the last case the caller sees an error although the transaction
    took effect. *)
Inductive commit_outcome := CommitOk | CommitFailed | CommitAckLost.

(** What the network and the server do to one call. *)
Record faults := { fails : db_step -> bool; commit : commit_outcome }.

Definition no_faults : faults := {| fails := fun _ => false; commit := CommitOk |}.

(** Wall-clock measurements of one call. *)
Record elapsed := { el_transaction : duration; el_commit : duration }.

(** The errors of package [repository]. *)
Inductive repo_error :=
  | InvalidServer (s : string)
  | HashRequest
  | InvalidRequestID
  | DatabaseFailed (step : db_step)
  | ConstraintViolated
  | CopiedRows (copied expected : Z)
  | RequestAlreadyProcessing
  | RequestPayloadConflict
  | UnsupportedStatus (status : string).

(** What the repositories take from other packages: the JSON encoding of a
    request (hashed into its fingerprint) and the parser of [pgtype.UUID]. *)
Class RequestEncoding := {
  marshal_prices : IngestPricesRequest -> option string;
  marshal_history : IngestHistoryRequest -> option string;
  scanUUID : string -> option string;
}.

(** A stand-in for the examples: a request is written as its server and its
    items, an identifier parses to itself. *)
Definition plain_encoding : RequestEncoding := {|
  marshal_prices req :=
    Some (ip_Server req +:+ foldr (fun e s => pi_ItemKey e +:+ "," +:+ s) EmptyString (ip_Entries req));
  marshal_history req :=
    Some (ih_Server req +:+ foldr (fun e s => hi_ItemKey e +:+ "," +:+ s) EmptyString (ih_Entries req));
  scanUUID id := if is_empty id then None else Some id;
|}.

(** The collation of the [text] columns: a deterministic collation is a strict
    order. *)
Class Collation := {
  collate : string -> string -> bool;
  collate_strict_weak :: StrictWeak collate;
  collate_eq s t : collate s t = false -> collate t s = false -> s = t;
}.

(** The "C" collation. *)
Definition c_collation : Collation := {|
  collate := str_ltb;
  collate_strict_weak := str_ltb_strict_weak;
  collate_eq := str_ltb_eq;
|}.

Definition mapServer (s : Server) : result repo_error Z :=
  if bool_decide (s = ServerWest) then Ok 1 else
  if bool_decide (s = ServerEast) then Ok 2 else
  if bool_decide (s = ServerEurope) then Ok 3 else
  Err (InvalidServer s).

Definition unmapServer (v : Z) : Server :=
  if v =? 1 then ServerWest else
  if v =? 2 then ServerEast else
  if v =? 3 then ServerEurope else
  ServerWest.

Lemma unmapServer_mapServer s v : mapServer s = Ok v -> unmapServer v = s.
Proof. unfold mapServer. repeat case_bool_decide; by intros [= <-]. Qed.

Lemma mapServer_range s v : mapServer s = Ok v -> 1 <= v <= 3.
Proof. unfold mapServer. repeat case_bool_decide; intros [= <-]; lia. Qed.

(** [equalHashes]: lengths first, then byte by byte. *)
Fixpoint equal_bytes (a b : list ascii) : bool :=
  match a, b with
  | x :: a', y :: b' => if bool_decide (x <> y) then false else equal_bytes a' b'
  | _, _ => true
  end.

Definition equalHashes (a b : string) : bool :=
  if negb (str_len a =? str_len b) then false else equal_bytes (bytes_of a) (bytes_of b).

Lemma equalHashes_eq a b : equalHashes a b = true <-> a = b.
Proof.
  unfold equalHashes, str_len. revert b.
  induction a as [|x a IH]; intros [|y b]; try done.
  specialize (IH b). simpl bytes_of. cbn [String.length].
  destruct (Z.eqb_spec (Z.of_nat (S (String.length a))) (Z.of_nat (S (String.length b)))) as [Hl|Hl];
    simpl.
  - rewrite (proj2 (Z.eqb_eq (Z.of_nat (String.length a)) _)) in IH by lia. simpl in IH.
    case_bool_decide as Hxy; [naive_solver|].
    subst y. rewrite IH. naive_solver.
  - split; [done|]. intros [= -> ->]. lia.
Qed.

Lemma equalHashes_refl a : equalHashes a a = true.
Proof. by apply equalHashes_eq. Qed.

(** * [is distinct from], and the maximum of nullable columns *)

Definition is_distinct_from (a b : option Z) : bool := bool_decide (a <> b).

(** [count] of the positions where a boolean test holds. *)
Definition count_if {A} (p : A -> bool) (l : list A) : Z :=
  Z.of_nat (length (List.filter p l)).

Lemma count_if_app {A} (p : A -> bool) l1 l2 :
  count_if p (l1 ++ l2) = count_if p l1 + count_if p l2.
Proof. unfold count_if. rewrite List.filter_app, length_app. lia. Qed.

Lemma count_if_bounds {A} (p : A -> bool) l : 0 <= count_if p l <= Z.of_nat (length l).
Proof. unfold count_if. pose proof (List.filter_length_le p l). lia. Qed.

Lemma count_if_ext {A} (p q : A -> bool) l :
  (forall x, x ∈ l -> p x = q x) -> count_if p l = count_if q l.
Proof.
  intros H. unfold count_if. f_equal. f_equal. apply List.filter_ext_in.
  intros x Hx. by apply H, list_elem_of_In.
Qed.
