(* ===== verification/Lww.v ===== *)
(** Last-write-wins registers: the abstract specification of both read models.
    A register holds the newest observation of a value, with its time; writing
    an observation replaces the value unless the stored one is newer. *)
From S2P Require Import Prelude GoLists GoBase.
Local Open Scope Z_scope.

Section lww.
Context {V : Type}.
Implicit Types a b : option (time * V).

Definition lww (cur new : option (time * V)) : option (time * V) :=
  match new, cur with
  | None, _ => cur
  | Some _, None => new
  | Some (t, _), Some (c, _) => if c <=? t then new else cur
  end.

Lemma lww_None_r r : lww r None = r.
Proof. by destruct r as [[]|]. Qed.

Lemma lww_None_l r : lww None r = r.
Proof. by destruct r as [[]|]. Qed.

Lemma lww_assoc a b (c : option (time * V)) : lww (lww a b) c = lww a (lww b c).
Proof.
  destruct a as [[ta pa]|], b as [[tb pb]|], c as [[tc pc]|]; simpl; try done;
    repeat (case_if; simpl in *); try done; bool_facts; lia.
Qed.

(** Two registers written at the same time agree. *)
Definition no_tie a b : Prop := forall t p q, a = Some (t, p) -> b = Some (t, q) -> p = q.

Lemma lww_comm a b : no_tie a b -> lww a b = lww b a.
Proof.
  intros H. destruct a as [[ta pa]|], b as [[tb pb]|]; simpl; try done.
  destruct (Z.lt_trichotomy ta tb) as [Hl|[->|Hl]].
  - by rewrite (proj2 (Z.leb_le ta tb)), (proj2 (Z.leb_gt tb ta)) by lia.
  - rewrite Z.leb_refl. by rewrite (H tb pa pb).
  - by rewrite (proj2 (Z.leb_gt ta tb)), (proj2 (Z.leb_le tb ta)) by lia.
Qed.

Lemma lww_swap a b (c : option (time * V)) : no_tie b c -> lww (lww a b) c = lww (lww a c) b.
Proof. intros H. by rewrite !lww_assoc, (lww_comm b c). Qed.

(** The time of a register never goes back. *)
Lemma lww_monotone a b t p : a = Some (t, p) -> exists t' p', lww a b = Some (t', p') /\ t <= t'.
Proof.
  intros ->. destruct b as [[tb pb]|]; simpl; [|eauto with lia].
  case_if; bool_facts; eauto with lia.
Qed.

(** [lww a b] keeps [a] exactly when [b] brings nothing newer or different. *)
Lemma lww_changes a b :
  lww a b <> a <-> exists t p, b = Some (t, p) /\
    (a = None \/ exists u q, a = Some (u, q) /\ (u < t \/ u = t /\ p <> q)).
Proof.
  destruct a as [[c q]|], b as [[t p]|]; simpl.
  - destruct (Z.leb_spec c t) as [Hle|Hlt].
    + split.
      * intros Hne. exists t, p. split; [done|]. right. exists c, q. split; [done|].
        destruct (decide (c = t)) as [->|]; [right; split; [done|congruence]|left; lia].
      * intros (? & ? & [= <- <-] & [?|(? & ? & [= <- <-] & [?|[? ?]])]); [done| |congruence].
        intros [= ? ?]. lia.
    + split; [done|]. intros (? & ? & [= <- <-] & [?|(? & ? & [= <- <-] & ?)]); [done|]. lia.
  - split; [done|]. by intros (? & ? & ? & _).
  - split; [|done]. intros _. exists t, p. auto.
  - split; [done|]. by intros (? & ? & ? & _).
Qed.
End lww.

(** The registers a set of rows determines: what [latest] selects, written as a
    property of the rows. *)
Section newest.
Context {R K V : Type} (key : R -> K) (at_ : R -> option time) (value : R -> V).

(** [v] is the maximum of the observations of [k] among [rows]. *)
Definition is_newest (rows : list R) (k : K) (v : option (time * V)) : Prop :=
  match v with
  | None => forall r, r ∈ rows -> key r = k -> at_ r = None
  | Some (t, p) =>
      (exists r, r ∈ rows /\ key r = k /\ at_ r = Some t /\ value r = p) /\
      forall r t', r ∈ rows -> key r = k -> at_ r = Some t' -> t' <= t
  end.

(** Merging the newest of the new rows into the newest of the old rows gives
    the newest of all of them. *)
Lemma is_newest_app old new k v w :
  is_newest old k v -> is_newest new k w -> is_newest (old ++ new) k (lww v w).
Proof.
  intros Hold Hnew. destruct v as [[t p]|], w as [[u q]|]; simpl in *.
  - destruct Hold as [(ro & ? & ?) Hold], Hnew as [(rn & ? & ?) Hnew].
    destruct (Z.leb_spec t u); (split; [|intros r t' [Hin|Hin]%elem_of_app Hk Ht';
      [specialize (Hold _ _ Hin Hk Ht')|specialize (Hnew _ _ Hin Hk Ht')]; lia]).
    + exists rn. rewrite elem_of_app. tauto.
    + exists ro. rewrite elem_of_app. tauto.
  - destruct Hold as [(ro & ? & ?) Hold]. split; [exists ro; rewrite elem_of_app; tauto|].
    intros r t' [Hin|Hin]%elem_of_app Hk Ht'; [eauto|]. specialize (Hnew _ Hin Hk). congruence.
  - destruct Hnew as [(rn & ? & ?) Hnew]. split; [exists rn; rewrite elem_of_app; tauto|].
    intros r t' [Hin|Hin]%elem_of_app Hk Ht'; [|eauto]. specialize (Hold _ Hin Hk). congruence.
  - intros r [Hin|Hin]%elem_of_app Hk; eauto.
Qed.

Lemma is_newest_nil k : is_newest [] k None.
Proof. intros r Hr. by apply elem_of_nil in Hr. Qed.
End newest.
