(* ===== verification/PriceRepo.v ===== *)
(** Price ingestion and the current-price read model:
    [internal/repository/market_repository.go], with the tables of
    [migrations/000001_init.sql] and [000002_ingest_request_idempotency.sql]. *)
From S2P Require Import Prelude GoLists GoBase Domain Tx.
Local Open Scope Z_scope.

(** * Tables *)

(** [market_ingest_requests], by [request_id]. *)
Record request_row := {
  q_request_sha256 : string;
  q_server : Z;
  q_accepted_count : Z;
  q_current_rows_touched : Z;
  q_status : string;
  q_created_at : time;
  q_completed_at : option time;
}.

(** [market_ingest_raw]. *)
Record raw_row := {
  r_id : Z;
  r_request_id : string;
  r_received_at : time;
  r_server : Z;
  r_observed_at : time;
  r_location_id : Z;
  r_item_key : string;
  r_quality : Z;
  r_sell_price_min : option Z;
  r_sell_price_min_at : option time;
  r_buy_price_max : option Z;
  r_buy_price_max_at : option time;
}.

(** The primary key of [current_market_prices], and its other columns. *)
Abbreviation price_key := (Z * Z * string * Z)%type (only parsing).

Record current_row := {
  c_sell_price_min : option Z;
  c_sell_price_min_at : option time;
  c_buy_price_max : option Z;
  c_buy_price_max_at : option time;
  c_updated_at : time;
}.

Record DB := {
  ingest_requests : gmap string request_row;
  ingest_raw : list raw_row;
  next_raw_id : Z;
  current_prices : gmap price_key current_row;
}.

Definition empty_db : DB :=
  {| ingest_requests := ∅; ingest_raw := []; next_raw_id := 1; current_prices := ∅ |}.

Definition row_key (r : raw_row) : price_key :=
  (r_server r, r_location_id r, r_item_key r, r_quality r).

(** * The copy source *)

(** [values] without the two constant columns, which [cs_request_id] and
    [cs_server] hold. *)
Record rawPriceCopySource := {
  cs_request_id : string;
  cs_server : Z;
  cs_entries : list PriceIngest;
  cs_index : Z;
}.

Definition newRawPriceCopySource (requestID : string) (serverID : Z)
    (entries : list PriceIngest) : rawPriceCopySource :=
  {| cs_request_id := requestID; cs_server := serverID; cs_entries := entries; cs_index := 0 |}.

Definition Next (s : rawPriceCopySource) : bool * rawPriceCopySource :=
  if Z.of_nat (length (cs_entries s)) <=? cs_index s then (false, s)
  else (true, {| cs_request_id := cs_request_id s; cs_server := cs_server s;
                 cs_entries := cs_entries s; cs_index := cs_index s + 1 |}).

(** The ten columns of a row. *)
Record price_values := {
  v_request_id : string;
  v_server : Z;
  v_entry : PriceIngest;
}.

Definition Values (s : rawPriceCopySource) : option price_values :=
  if (cs_index s =? 0) || (Z.of_nat (length (cs_entries s)) <? cs_index s) then None
  else
    match cs_entries s !! Z.to_nat (cs_index s - 1) with
    | Some e => Some {| v_request_id := cs_request_id s; v_server := cs_server s; v_entry := e |}
    | None => None
    end.

(** What [CopyFrom] does with a source: [Next] until it is exhausted, [Values]
    after each.  [None] is an error of the source, or a source that outlives
    the fuel. *)
Fixpoint copy_from (fuel : nat) (s : rawPriceCopySource) : option (list price_values) :=
  match fuel with
  | O => None
  | S fuel' =>
      let '(more, s') := Next s in
      if more then
        v ← Values s';
        vs ← copy_from fuel' s';
        Some (v :: vs)
      else Some []
  end.

(** The stored row: [id] and [received_at] are the column defaults, and
    [timestamptz] keeps microseconds. *)
Definition raw_row_of (now : time) (i : Z) (v : price_values) : raw_row :=
  let e := v_entry v in
  {| r_id := i;
     r_request_id := v_request_id v;
     r_received_at := now;
     r_server := v_server v;
     r_observed_at := pg_time (pi_ObservedAt e);
     r_location_id := pi_LocationID e;
     r_item_key := pi_ItemKey e;
     r_quality := pi_Quality e;
     r_sell_price_min := pi_SellPriceMin e;
     r_sell_price_min_at := pg_time <$> pi_SellPriceMinAt e;
     r_buy_price_max := pi_BuyPriceMax e;
     r_buy_price_max_at := pg_time <$> pi_BuyPriceMaxAt e |}.

Fixpoint number_rows (now : time) (i : Z) (vs : list price_values) : list raw_row :=
  match vs with
  | [] => []
  | v :: vs' => raw_row_of now i v :: number_rows now (i + 1) vs'
  end.

(** * The set-wise upsert *)

(** The [order by] of [latest_sell] and [latest_buy], read upwards. *)
Definition sell_less : raw_row -> raw_row -> bool :=
  then_less (fun a b => default 0 (r_sell_price_min_at a) <? default 0 (r_sell_price_min_at b))
    (then_less (fun a b => r_observed_at a <? r_observed_at b) (fun a b => r_id a <? r_id b)).

Definition buy_less : raw_row -> raw_row -> bool :=
  then_less (fun a b => default 0 (r_buy_price_max_at a) <? default 0 (r_buy_price_max_at b))
    (then_less (fun a b => r_observed_at a <? r_observed_at b) (fun a b => r_id a <? r_id b)).

Definition request_keys (rows : list raw_row) : list price_key := dedup (map row_key rows).

Definition latest_sell (rows : list raw_row) (k : price_key) : option raw_row :=
  best sell_less
    (List.filter (fun r => bool_decide (row_key r = k) && bool_decide (is_Some (r_sell_price_min_at r))) rows).

Definition latest_buy (rows : list raw_row) (k : price_key) : option raw_row :=
  best buy_less
    (List.filter (fun r => bool_decide (row_key r = k) && bool_decide (is_Some (r_buy_price_max_at r))) rows).

(** One row of the [select ... left join ... left join ...]. *)
Definition excluded_row (now : time) (rows : list raw_row) (k : price_key) : current_row :=
  let s := latest_sell rows k in
  let b := latest_buy rows k in
  {| c_sell_price_min := s ≫= r_sell_price_min;
     c_sell_price_min_at := s ≫= r_sell_price_min_at;
     c_buy_price_max := b ≫= r_buy_price_max;
     c_buy_price_max_at := b ≫= r_buy_price_max_at;
     c_updated_at := now |}.

(** [excluded.at is not null and (cur.at is null or excluded.at >= cur.at)] *)
Definition newer_or_equal (excluded_at current_at : option time) : bool :=
  match excluded_at with
  | None => false
  | Some e => match current_at with None => true | Some c => c <=? e end
  end.

(** The [where] of the [do update], for one side. *)
Definition side_changes (excluded_at current_at : option time)
    (excluded_price current_price : option Z) : bool :=
  match excluded_at with
  | None => false
  | Some e =>
      match current_at with
      | None => true
      | Some c => (c <? e) || ((e =? c) && is_distinct_from excluded_price current_price)
      end
  end.

Definition merge_row (now : time) (cur excl : current_row) : current_row :=
  let sell := newer_or_equal (c_sell_price_min_at excl) (c_sell_price_min_at cur) in
  let buy := newer_or_equal (c_buy_price_max_at excl) (c_buy_price_max_at cur) in
  {| c_sell_price_min := if sell then c_sell_price_min excl else c_sell_price_min cur;
     c_sell_price_min_at := if sell then c_sell_price_min_at excl else c_sell_price_min_at cur;
     c_buy_price_max := if buy then c_buy_price_max excl else c_buy_price_max cur;
     c_buy_price_max_at := if buy then c_buy_price_max_at excl else c_buy_price_max_at cur;
     c_updated_at := now |}.

Definition row_changes (cur excl : current_row) : bool :=
  side_changes (c_sell_price_min_at excl) (c_sell_price_min_at cur)
    (c_sell_price_min excl) (c_sell_price_min cur)
  || side_changes (c_buy_price_max_at excl) (c_buy_price_max_at cur)
       (c_buy_price_max excl) (c_buy_price_max cur).

(** [insert ... on conflict do update ... where ...] of one row: the table and
    the rows affected. *)
Definition upsert_one (now : time) (rows : list raw_row)
    (acc : gmap price_key current_row * Z) (k : price_key) : gmap price_key current_row * Z :=
  let '(m, n) := acc in
  let excl := excluded_row now rows k in
  match m !! k with
  | None => (<[k := excl]> m, n + 1)
  | Some cur =>
      if row_changes cur excl then (<[k := merge_row now cur excl]> m, n + 1) else (m, n)
  end.

Definition upsertCurrent (now : time) (uuid : string) (db : DB) : DB * Z :=
  let rows := List.filter (fun r => bool_decide (r_request_id r = uuid)) (ingest_raw db) in
  let '(m, n) := foldl (upsert_one now rows) (current_prices db, 0) (request_keys rows) in
  ({| ingest_requests := ingest_requests db; ingest_raw := ingest_raw db;
      next_raw_id := next_raw_id db; current_prices := m |}, n).

(** * The transaction *)

Section ingest.
Context `{Sha256} `{RequestEncoding}.

Definition canonicalRequestHash (req : IngestPricesRequest) : result repo_error string :=
  match marshal_prices req with
  | Some encoded => Ok (sha256 encoded)
  | None => Err HashRequest
  end.

(** [insert ... on conflict (request_id) do nothing]; the boolean is whether a
    row was inserted. *)
Definition registerRequest (now : time) (uuid hash : string) (serverID accepted : Z) (db : DB)
    : DB * bool :=
  match ingest_requests db !! uuid with
  | Some _ => (db, false)
  | None =>
      let row :=
        {| q_request_sha256 := hash; q_server := serverID; q_accepted_count := accepted;
           q_current_rows_touched := 0; q_status := "processing"; q_created_at := now;
           q_completed_at := None |} in
      ({| ingest_requests := <[uuid := row]> (ingest_requests db);
          ingest_raw := ingest_raw db; next_raw_id := next_raw_id db;
          current_prices := current_prices db |}, true)
  end.

Definition existingIngestResult (fs : faults) (uuid expectedHash : string) (db : DB)
    : result repo_error IngestPricesResult :=
  fail_if fails fs StepExisting with DatabaseFailed StepExisting else
  match ingest_requests db !! uuid with
  | None => Err (DatabaseFailed StepExisting)
  | Some row =>
      fail_if negb (equalHashes (q_request_sha256 row) expectedHash) with RequestPayloadConflict else
      if bool_decide (q_status row = "completed") then
        Ok {| Accepted := q_accepted_count row;
              CurrentRowsTouched := q_current_rows_touched row;
              Duplicate := true;
              PersistenceTiming := {| Transaction := 0; Commit := 0;
                TransactionMeasured := false; CommitMeasured := false |} |}
      else if bool_decide (q_status row = "processing") then Err RequestAlreadyProcessing
      else Err (UnsupportedStatus (q_status row))
  end.

(** [CopyFrom] and the check of the number of rows. *)
Definition copy_raw (fs : faults) (now : time) (uuid : string) (serverID : Z)
    (entries : list PriceIngest) (db : DB) : result repo_error DB :=
  match copy_from (S (length entries)) (newRawPriceCopySource uuid serverID entries) with
  | None => Err (DatabaseFailed StepCopy)
  | Some vs =>
      fail_if fails fs StepCopy with DatabaseFailed StepCopy else
      let copied := Z.of_nat (length vs) in
      fail_if negb (copied =? Z.of_nat (length entries))
        with CopiedRows copied (Z.of_nat (length entries)) else
      Ok {| ingest_requests := ingest_requests db;
            ingest_raw := ingest_raw db ++ number_rows now (next_raw_id db) vs;
            next_raw_id := next_raw_id db + copied;
            current_prices := current_prices db |}
  end.

Definition completeRequest (now : time) (uuid : string) (touched : Z) (db : DB) : DB :=
  {| ingest_requests :=
       alter (fun row => {| q_request_sha256 := q_request_sha256 row; q_server := q_server row;
                            q_accepted_count := q_accepted_count row;
                            q_current_rows_touched := touched; q_status := "completed";
                            q_created_at := q_created_at row; q_completed_at := Some now |})
         uuid (ingest_requests db);
     ingest_raw := ingest_raw db; next_raw_id := next_raw_id db;
     current_prices := current_prices db |}.

(** The statements between [Begin] and [Commit]: the result of a request that
    is already known, or the rows touched and the database to commit. *)
Definition ingest_tx (fs : faults) (now : time) (uuid hash : string) (serverID : Z)
    (entries : list PriceIngest) (db : DB) : result repo_error (IngestPricesResult + Z * DB) :=
  fail_if fails fs StepBegin with DatabaseFailed StepBegin else
  fail_if fails fs StepRegister with DatabaseFailed StepRegister else
  let '(db1, registered) :=
    registerRequest now uuid hash serverID (Z.of_nat (length entries)) db in
  if negb registered then
    let! r := existingIngestResult fs uuid hash db1 in Ok (inl r)
  else
    let! db2 := copy_raw fs now uuid serverID entries db1 in
    fail_if fails fs StepUpsert with DatabaseFailed StepUpsert else
    let '(db3, touched) := upsertCurrent now uuid db2 in
    fail_if fails fs StepComplete with DatabaseFailed StepComplete else
    Ok (inr (touched, completeRequest now uuid touched db3)).

(** The deferred function that stamps the transaction time on the result. *)
Definition stamp (el : elapsed) (r : IngestPricesResult) : IngestPricesResult :=
  {| Accepted := Accepted r; CurrentRowsTouched := CurrentRowsTouched r;
     Duplicate := Duplicate r;
     PersistenceTiming :=
       {| Transaction := el_transaction el; Commit := Commit (PersistenceTiming r);
          TransactionMeasured := true; CommitMeasured := CommitMeasured (PersistenceTiming r) |} |}.

(** [IngestPrices].  Every return before the commit runs the deferred
    rollback, which leaves the database as it was; [now] is the start time of
    the transaction, which SQL's [now()] returns. *)
Definition IngestPrices (fs : faults) (el : elapsed) (now : time) (req : IngestPricesRequest)
    (db : DB) : result repo_error IngestPricesResult * DB :=
  match mapServer (ip_Server req) with
  | Err e => (Err e, db)
  | Ok serverID =>
  match canonicalRequestHash req with
  | Err e => (Err e, db)
  | Ok requestHash =>
  match scanUUID (ip_RequestID req) with
  | None => (Err InvalidRequestID, db)
  | Some uuid =>
      match ingest_tx fs now uuid requestHash serverID (ip_Entries req) db with
      | Err e => (Err e, db)
      | Ok (inl r) => (Ok (stamp el r), db)
      | Ok (inr (touched, db')) =>
          match commit fs with
          | CommitOk =>
              (Ok (stamp el
                 {| Accepted := Z.of_nat (length (ip_Entries req));
                    CurrentRowsTouched := touched; Duplicate := false;
                    PersistenceTiming := {| Transaction := 0; Commit := el_commit el;
                      TransactionMeasured := false; CommitMeasured := true |} |}), db')
          | CommitFailed => (Err (DatabaseFailed StepCommit), db)
          | CommitAckLost => (Err (DatabaseFailed StepCommit), db')
          end
      end
  end end end.
End ingest.

(** * Reading the current prices *)

Section query.
Context `{Collation}.

Definition stored_price (k : price_key) (row : current_row) : CurrentPrice :=
  let '(s, l, i, q) := k in
  {| cp_Server := unmapServer s; cp_MarketKey := EmptyString; cp_LocationID := l;
     cp_ItemKey := i; cp_Quality := q;
     cp_SellPriceMin := c_sell_price_min row; cp_SellPriceMinAt := c_sell_price_min_at row;
     cp_BuyPriceMax := c_buy_price_max row; cp_BuyPriceMaxAt := c_buy_price_max_at row;
     cp_UpdatedAt := c_updated_at row; cp_HistoryObservations7D := 0; cp_HistoryVolume7D := 0;
     cp_MedianPrice7D := None |}.

(** [order by location_id, item_key, quality] *)
Definition location_item_quality (a b : price_key) : bool :=
  let '(_, l1, i1, q1) := a in let '(_, l2, i2, q2) := b in
  if negb (l1 =? l2) then l1 <? l2 else
  if negb (bool_decide (i1 = i2)) then collate i1 i2 else q1 <? q2.

(** The [where] of the query. *)
Definition selects (serverID : Z) (lookup : CurrentPriceLookup) (k : price_key) : bool :=
  let '(s, l, i, q) := k in
  (s =? serverID) && bool_decide (l ∈ cl_LocationIDs lookup)
  && bool_decide ({| pq_ItemKey := i; pq_Quality := q |} ∈ cl_Entries lookup).

Definition QueryCurrentPrices (fs : faults) (lookup : CurrentPriceLookup) (db : DB)
    : result repo_error (list CurrentPrice) :=
  let! serverID := mapServer (cl_Server lookup) in
  if bool_decide (cl_LocationIDs lookup = []) || bool_decide (cl_Entries lookup = [])
  then Ok [] else
  fail_if fails fs StepQuery with DatabaseFailed StepQuery else
  Ok (map (fun kr => stored_price kr.1 kr.2)
        (slice_stable (fun a b => location_item_quality a.1 b.1)
           (List.filter (fun kr => selects serverID lookup kr.1)
              (map_to_list (current_prices db))))).
End query.
