(* ===== verification/PriceRepoSpec.v ===== *)
(** What price ingestion promises: a last-write-wins register per key and
    side, fed by an append-only audit trail and made exactly-once by the
    request ledger.  Proved of the definitions of [PriceRepo]. *)
From S2P Require Import Prelude GoLists GoBase Domain Tx Lww PriceRepo.
Local Open Scope Z_scope.

(** The time and the price of the newest observation. *)
Abbreviation register := (option (time * option Z)) (only parsing).

(** * The two sides of a price *)

Inductive side := Sell | Buy.

Definition row_at (sd : side) (r : raw_row) : option time :=
  match sd with Sell => r_sell_price_min_at r | Buy => r_buy_price_max_at r end.
Definition row_price (sd : side) (r : raw_row) : option Z :=
  match sd with Sell => r_sell_price_min r | Buy => r_buy_price_max r end.
Definition cur_at (sd : side) (r : current_row) : option time :=
  match sd with Sell => c_sell_price_min_at r | Buy => c_buy_price_max_at r end.
Definition cur_price (sd : side) (r : current_row) : option Z :=
  match sd with Sell => c_sell_price_min r | Buy => c_buy_price_max r end.
Definition side_less (sd : side) : raw_row -> raw_row -> bool :=
  match sd with Sell => sell_less | Buy => buy_less end.
Definition latest (sd : side) (rows : list raw_row) (k : price_key) : option raw_row :=
  match sd with Sell => latest_sell rows k | Buy => latest_buy rows k end.

Definition row_register (sd : side) (r : raw_row) : register :=
  t ← row_at sd r; Some (t, row_price sd r).
Definition cur_register (sd : side) (r : current_row) : register :=
  t ← cur_at sd r; Some (t, cur_price sd r).

(** What a database says of a key: nothing, or a register per side. *)
Definition db_view (db : DB) (k : price_key) : option (register * register) :=
  (fun r => (cur_register Sell r, cur_register Buy r)) <$> current_prices db !! k.

Definition db_register (sd : side) (db : DB) (k : price_key) : register :=
  current_prices db !! k ≫= cur_register sd.

(** The rows of a key that carry a side. *)
Definition observes (sd : side) (k : price_key) (r : raw_row) : bool :=
  bool_decide (row_key r = k) && bool_decide (is_Some (row_at sd r)).

Lemma observes_spec sd k r :
  observes sd k r = true <-> row_key r = k /\ is_Some (row_at sd r).
Proof. unfold observes. by rewrite andb_true_iff, !bool_decide_eq_true. Qed.

(** [register] is the newest observation of [k] among [rows]: by the time of
    the price, then the time of the capture, then the insertion order. *)
Definition is_latest (sd : side) (rows : list raw_row) (k : price_key) (v : register) : Prop :=
  match v with
  | None => forall r, r ∈ rows -> row_key r = k -> row_at sd r = None
  | Some (t, p) =>
      exists r, r ∈ rows /\ row_key r = k /\ row_at sd r = Some t /\ row_price sd r = p /\
      forall r' t', r' ∈ rows -> row_key r' = k -> row_at sd r' = Some t' ->
        t' < t \/ t' = t /\ (r_observed_at r' < r_observed_at r \/
                             r_observed_at r' = r_observed_at r /\ r_id r' <= r_id r)
  end.

Definition request_register (sd : side) (rows : list raw_row) (k : price_key) : register :=
  latest sd rows k ≫= row_register sd.

#[export] Instance side_less_strict_weak sd : StrictWeak (side_less sd).
Proof.
  destruct sd; simpl; unfold sell_less, buy_less.
  - apply @then_less_strict_weak; [apply (less_on_strict_weak Z.ltb (fun a => default 0 (r_sell_price_min_at a)))|].
    apply @then_less_strict_weak; [apply (less_on_strict_weak Z.ltb r_observed_at)|apply (less_on_strict_weak Z.ltb r_id)].
  - apply @then_less_strict_weak; [apply (less_on_strict_weak Z.ltb (fun a => default 0 (r_buy_price_max_at a)))|].
    apply @then_less_strict_weak; [apply (less_on_strict_weak Z.ltb r_observed_at)|apply (less_on_strict_weak Z.ltb r_id)].
Qed.

Lemma latest_eq sd rows k :
  latest sd rows k = best (side_less sd) (List.filter (observes sd k) rows).
Proof. by destruct sd. Qed.

Lemma side_less_false sd a b t u :
  row_at sd a = Some t -> row_at sd b = Some u ->
  side_less sd a b = false <->
  u < t \/ u = t /\ (r_observed_at b < r_observed_at a \/
                     r_observed_at b = r_observed_at a /\ r_id b <= r_id a).
Proof.
  intros Ha Hb.
  assert (side_less sd a b =
    then_less (fun a b => default 0 (row_at sd a) <? default 0 (row_at sd b))
    (then_less (fun a b => r_observed_at a <? r_observed_at b) (fun a b => r_id a <? r_id b)) a b)
    as -> by by destruct sd.
  unfold then_less. rewrite Ha, Hb. simpl.
  rewrite !orb_false_iff, !andb_false_iff, !orb_false_iff, !andb_false_iff, !negb_false_iff,
    !Z.ltb_ge, !Z.ltb_lt. lia.
Qed.

Lemma request_register_latest sd rows k :
  is_latest sd rows k (request_register sd rows k).
Proof.
  unfold request_register. rewrite latest_eq.
  destruct (best _ _) as [r|] eqn:E; simpl.
  - pose proof (best_elem _ _ _ E) as Hr%list_elem_of_In.
    apply List.filter_In in Hr as [Hr%list_elem_of_In [Hk [t Ht]]%observes_spec].
    unfold row_register. rewrite Ht. simpl. exists r. split_and!; try done.
    intros r' t' Hr' Hk' Ht'. apply (side_less_false sd r r' t t'); [done..|].
    eapply best_max; [apply _|done|]. apply list_elem_of_In, List.filter_In.
    split; [by apply list_elem_of_In|]. apply observes_spec; eauto.
  - apply best_None in E. intros r Hr Hk. destruct (row_at sd r) as [t|] eqn:Ht; [|done].
    assert (r ∈ List.filter (observes sd k) rows) as Hin.
    { apply list_elem_of_In, List.filter_In. split; [by apply list_elem_of_In|].
      apply observes_spec; eauto. }
    rewrite E in Hin. by apply elem_of_nil in Hin.
Qed.

Lemma excluded_register sd now rows k :
  cur_register sd (excluded_row now rows k) = request_register sd rows k.
Proof.
  unfold request_register. pose proof (latest_eq sd rows k) as Hl.
  assert (forall r, latest sd rows k = Some r -> is_Some (row_at sd r)) as Hs.
  { intros r. rewrite Hl. intros Hr%best_elem%list_elem_of_In.
    apply List.filter_In in Hr as [_ [_ ?]%observes_spec]. done. }
  destruct sd; unfold cur_register, excluded_row; simpl in *;
    [destruct (latest_sell rows k)|destruct (latest_buy rows k)]; done.
Qed.

(** * One upsert *)

Definition row_view (r : current_row) : register * register :=
  (cur_register Sell r, cur_register Buy r).

Definition merge_view (cur excl : register * register) : register * register :=
  (lww cur.1 excl.1, lww cur.2 excl.2).

Lemma merge_row_view now cur excl :
  row_view (merge_row now cur excl) = merge_view (row_view cur) (row_view excl).
Proof.
  unfold row_view, merge_view, cur_register, merge_row, newer_or_equal; simpl.
  f_equal.
  - destruct (c_sell_price_min_at excl), (c_sell_price_min_at cur); simpl; try done.
    by destruct (_ <=? _).
  - destruct (c_buy_price_max_at excl), (c_buy_price_max_at cur); simpl; try done.
    by destruct (_ <=? _).
Qed.

Lemma side_changes_spec (ea ca : option time) (ep cp : option Z) :
  side_changes ea ca ep cp = true <->
  lww (t ← ca; Some (t, cp)) (t ← ea; Some (t, ep)) <> (t ← ca; Some (t, cp)).
Proof.
  destruct ea as [e|], ca as [c|]; simpl; try naive_solver.
  unfold is_distinct_from.
  destruct (Z.ltb_spec c e), (Z.leb_spec c e), (Z.eqb_spec e c); simpl; try lia;
    [naive_solver lia| |naive_solver].
  subst. rewrite bool_decide_eq_true. naive_solver.
Qed.

(** The [where] of the upsert tests whether the merge changes a register. *)
Lemma row_changes_spec cur excl :
  row_changes cur excl = true <-> merge_view (row_view cur) (row_view excl) <> row_view cur.
Proof.
  unfold row_changes. rewrite orb_true_iff, !side_changes_spec.
  unfold row_view, merge_view, cur_register; simpl.
  split; [naive_solver|]. intros Hne.
  match goal with |- ?a <> ?b \/ _ => destruct (decide (a = b)) as [E1|]; [|by left] end.
  match goal with |- _ \/ ?a <> ?b => destruct (decide (a = b)) as [E2|]; [|by right] end.
  exfalso. apply Hne. congruence.
Qed.

Definition upserted (now : time) (rows : list raw_row) (old : option current_row) (k : price_key)
    : option current_row :=
  match old with
  | None => Some (excluded_row now rows k)
  | Some cur =>
      if row_changes cur (excluded_row now rows k)
      then Some (merge_row now cur (excluded_row now rows k)) else Some cur
  end.

Definition request_view (rows : list raw_row) (k : price_key) : register * register :=
  (request_register Sell rows k, request_register Buy rows k).

Definition merged_view (old : option (register * register)) (new : register * register)
    : register * register :=
  match old with None => new | Some v => merge_view v new end.

Lemma excluded_view now rows k : row_view (excluded_row now rows k) = request_view rows k.
Proof. unfold row_view, request_view. by rewrite !excluded_register. Qed.

Lemma upserted_view now rows old k :
  row_view <$> upserted now rows old k
  = Some (merged_view (row_view <$> old) (request_view rows k)).
Proof.
  unfold upserted. destruct old as [cur|]; simpl; [|by rewrite excluded_view].
  destruct (row_changes cur _) eqn:E; simpl.
  - by rewrite merge_row_view, excluded_view.
  - f_equal. rewrite <- (excluded_view now).
    destruct (decide (merge_view (row_view cur) (row_view (excluded_row now rows k)) = row_view cur))
      as [->|Hne]; [done|].
    by apply row_changes_spec in Hne; rewrite E in Hne.
Qed.

(** Whether the upsert counts the key as affected. *)
Definition touches (now : time) (rows : list raw_row) (m : gmap price_key current_row)
    (k : price_key) : bool :=
  match m !! k with
  | None => true
  | Some cur => row_changes cur (excluded_row now rows k)
  end.

Lemma upsert_fold now rows m n ks :
  NoDup ks ->
  let '(m', n') := foldl (upsert_one now rows) (m, n) ks in
  (forall k, m' !! k = if bool_decide (k ∈ ks) then upserted now rows (m !! k) k else m !! k) /\
  n' = n + count_if (touches now rows m) ks.
Proof.
  intros Hnd. revert m n. induction Hnd as [|k ks Hk Hnd IH]; intros m n.
  { simpl. split; [done|]. unfold count_if; simpl; lia. }
  cbn [foldl].
  assert (exists m1, upsert_one now rows (m, n) k
    = (m1, n + count_if (touches now rows m) [k]) /\
    m1 !! k = upserted now rows (m !! k) k /\ forall k', k' <> k -> m1 !! k' = m !! k')
    as (m1 & -> & Hk1 & Hne).
  { unfold upsert_one, count_if, touches, upserted. simpl.
    destruct (m !! k) as [cur|] eqn:E; [destruct (row_changes _ _)|]; simpl;
      eexists; (split; [f_equal; lia|]); (split; [by rewrite ?lookup_insert_eq|]);
      intros k' Hk'; by rewrite ?lookup_insert_ne. }
  specialize (IH m1 (n + count_if (touches now rows m) [k])).
  destruct (foldl _ _ ks) as [m' n']. destruct IH as [Hm' ->]. split.
  - intros k'. rewrite Hm'. destruct (decide (k' = k)) as [->|Hkk].
    + rewrite bool_decide_eq_false_2 by done. by rewrite bool_decide_eq_true_2 by set_solver.
    + rewrite Hne by done. by rewrite (bool_decide_ext (k' ∈ k :: ks) (k' ∈ ks)) by set_solver.
  - change (k :: ks) with ([k] ++ ks). rewrite count_if_app, Z.add_assoc. f_equal.
    apply count_if_ext. intros k' Hk'. unfold touches. rewrite Hne; [done|]. by intros ->.
Qed.

(** Keys of rows that have the same registers are in the same state for every
    reader and for every later merge. *)
Definition same_prices (db1 db2 : DB) : Prop := forall k, db_view db1 k = db_view db2 k.

#[export] Instance same_prices_equiv : Equivalence same_prices.
Proof.
  split.
  - intros x k. done.
  - intros x y H k. by rewrite H.
  - intros x y z H1 H2 k. by rewrite H1.
Qed.

Lemma touches_view now rows m k :
  touches now rows m k = true <->
  Some (merged_view (row_view <$> m !! k) (request_view rows k)) <> (row_view <$> m !! k).
Proof.
  unfold touches. destruct (m !! k) as [cur|]; simpl; [|done].
  rewrite row_changes_spec, excluded_view. split; intros Hn He; apply Hn; congruence.
Qed.

Lemma upsertCurrent_spec now uuid db :
  let rows := List.filter (fun r => bool_decide (r_request_id r = uuid)) (ingest_raw db) in
  let '(db', n) := upsertCurrent now uuid db in
  ingest_requests db' = ingest_requests db /\ ingest_raw db' = ingest_raw db /\
  next_raw_id db' = next_raw_id db /\
  (forall k, db_view db' k =
    if bool_decide (k ∈ map row_key rows)
    then Some (merged_view (db_view db k) (request_view rows k)) else db_view db k) /\
  n = count_if (fun k => bool_decide (db_view db' k <> db_view db k)) (request_keys rows).
Proof.
  intros rows. unfold upsertCurrent. fold rows.
  pose proof (upsert_fold now rows (current_prices db) 0 (request_keys rows) (NoDup_dedup _)) as Hf.
  destruct (foldl _ _ _) as [m n]. destruct Hf as [Hm ->].
  assert (forall k, db_view {| ingest_requests := ingest_requests db; ingest_raw := ingest_raw db;
      next_raw_id := next_raw_id db; current_prices := m |} k =
    if bool_decide (k ∈ map row_key rows)
    then Some (merged_view (db_view db k) (request_view rows k)) else db_view db k) as Hview.
  { intros k. unfold db_view. simpl. rewrite Hm.
    rewrite (bool_decide_ext (k ∈ request_keys rows) (k ∈ map row_key rows))
      by apply elem_of_dedup.
    case_bool_decide; [|done]. apply upserted_view. }
  split_and!; [done..|].
  rewrite Z.add_0_l. apply count_if_ext. intros k Hk. unfold request_keys in Hk.
  rewrite elem_of_dedup in Hk. rewrite Hview.
  rewrite (bool_decide_eq_true_2 (k ∈ map row_key rows)) by done. apply eq_true_iff_eq.
  rewrite touches_view, bool_decide_eq_true. done.
Qed.

(** * The copy source *)

Definition values_of (uuid : string) (serverID : Z) (entries : list PriceIngest)
    : list price_values :=
  map (fun e => {| v_request_id := uuid; v_server := serverID; v_entry := e |}) entries.

Lemma copy_from_index uuid s entries i fuel :
  (i <= length entries)%nat -> (length entries < fuel + i)%nat ->
  copy_from fuel {| cs_request_id := uuid; cs_server := s; cs_entries := entries;
                    cs_index := Z.of_nat i |}
  = Some (values_of uuid s (drop i entries)).
Proof.
  revert i; induction fuel as [|fuel IH]; intros i Hi Hf; [lia|].
  cbn [copy_from]. unfold Next. cbn [cs_entries cs_index].
  destruct (Z.leb_spec (Z.of_nat (length entries)) (Z.of_nat i)) as [Hle|Hlt].
  - by rewrite drop_ge by lia.
  - destruct (lookup_lt_is_Some_2 entries i ltac:(lia)) as [e He].
    unfold Values. cbn [cs_entries cs_index cs_request_id cs_server].
    rewrite (proj2 (Z.eqb_neq _ _)), (proj2 (Z.ltb_ge _ _)) by lia. cbn [orb].
    replace (Z.of_nat i + 1 - 1) with (Z.of_nat i) by lia. rewrite Nat2Z.id, He.
    replace (Z.of_nat i + 1) with (Z.of_nat (S i)) by lia.
    cbn [mbind option_bind]. rewrite IH by lia. cbn [mbind option_bind].
    by rewrite (drop_S entries e i He).
Qed.

Lemma number_rows_app now i vs ws :
  number_rows now i (vs ++ ws)
  = number_rows now i vs ++ number_rows now (i + Z.of_nat (length vs)) ws.
Proof.
  revert i; induction vs as [|v vs IH]; intros i; simpl; [by rewrite Z.add_0_r|].
  rewrite IH. f_equal. f_equal. f_equal. lia.
Qed.

Lemma length_number_rows now i vs : length (number_rows now i vs) = length vs.
Proof. revert i; induction vs; intros i; simpl; congruence. Qed.

Lemma number_rows_lookup now i vs n r :
  number_rows now i vs !! n = Some r <->
  exists v, vs !! n = Some v /\ r = raw_row_of now (i + Z.of_nat n) v.
Proof.
  revert i n; induction vs as [|v vs IH]; intros i n; simpl; [naive_solver|].
  destruct n as [|n]; simpl.
  - rewrite Z.add_0_r. naive_solver.
  - rewrite IH. by replace (i + 1 + Z.of_nat n) with (i + Z.of_nat (S n)) by lia.
Qed.

Lemma elem_of_number_rows now i vs r :
  r ∈ number_rows now i vs ->
  exists n v, vs !! n = Some v /\ r = raw_row_of now (i + Z.of_nat n) v /\ (n < length vs)%nat.
Proof.
  intros [n Hn]%list_elem_of_lookup. apply number_rows_lookup in Hn as (v & Hv & ->).
  exists n, v. split_and!; [done..|]. by apply lookup_lt_Some in Hv.
Qed.

Lemma values_of_request uuid s entries v :
  v ∈ values_of uuid s entries -> v_request_id v = uuid /\ v_server v = s.
Proof. intros (e & -> & _)%list_elem_of_fmap. done. Qed.

(** The raw rows an accepted request adds. *)
Definition new_rows (now : time) (uuid : string) (s : Z) (entries : list PriceIngest) (db : DB)
    : list raw_row :=
  number_rows now (next_raw_id db) (values_of uuid s entries).

Lemma length_new_rows now uuid s entries db :
  length (new_rows now uuid s entries db) = length entries.
Proof. unfold new_rows, values_of. by rewrite length_number_rows, length_map. Qed.

Lemma new_rows_spec now uuid s entries db r :
  r ∈ new_rows now uuid s entries db ->
  r_request_id r = uuid /\ r_server r = s /\
  next_raw_id db <= r_id r < next_raw_id db + Z.of_nat (length entries).
Proof.
  intros (n & v & Hv & -> & Hn)%elem_of_number_rows.
  unfold values_of in Hn. rewrite length_map in Hn.
  apply list_elem_of_lookup_2, values_of_request in Hv as [<- <-]. simpl. split_and!; [done..|lia|lia].
Qed.

(** * What one request does *)

Definition completed_row (now : time) (hash : string) (s accepted touched : Z) : request_row :=
  {| q_request_sha256 := hash; q_server := s; q_accepted_count := accepted;
     q_current_rows_touched := touched; q_status := "completed"; q_created_at := now;
     q_completed_at := Some now |}.

Section effect.
Context `{Sha256} `{RequestEncoding}.

(** The rows touched and the database after the statements of the
    transaction. *)
Definition effect (now : time) (uuid hash : string) (s : Z) (entries : list PriceIngest) (db : DB)
    : Z * DB :=
  let db1 := (registerRequest now uuid hash s (Z.of_nat (length entries)) db).1 in
  let db2 := {| ingest_requests := ingest_requests db1;
                ingest_raw := ingest_raw db1 ++ new_rows now uuid s entries db1;
                next_raw_id := next_raw_id db1 + Z.of_nat (length entries);
                current_prices := current_prices db1 |} in
  let '(db3, n) := upsertCurrent now uuid db2 in
  (n, completeRequest now uuid n db3).

Lemma ingest_tx_eq fs now uuid hash s entries db :
  ingest_tx fs now uuid hash s entries db =
  fail_if fails fs StepBegin with DatabaseFailed StepBegin else
  fail_if fails fs StepRegister with DatabaseFailed StepRegister else
  match ingest_requests db !! uuid with
  | Some _ => let! r := existingIngestResult fs uuid hash db in Ok (inl r)
  | None =>
      fail_if fails fs StepCopy with DatabaseFailed StepCopy else
      fail_if fails fs StepUpsert with DatabaseFailed StepUpsert else
      fail_if fails fs StepComplete with DatabaseFailed StepComplete else
      Ok (inr (effect now uuid hash s entries db))
  end.
Proof.
  unfold ingest_tx, effect. case_if; [done|]. case_if; [done|].
  unfold registerRequest. destruct (ingest_requests db !! uuid) as [q|] eqn:E; simpl; [done|].
  unfold copy_raw. pose proof (copy_from_index uuid s entries 0 (S (length entries))) as Hc.
  change (Z.of_nat 0) with 0 in Hc. unfold newRawPriceCopySource. rewrite Hc by lia. clear Hc.
  rewrite drop_0. destruct (fails fs StepCopy); [done|].
  assert (length (values_of uuid s entries) = length entries) as ->
    by apply length_map.
  rewrite Z.eqb_refl. cbn [negb rbind]. destruct (fails fs StepUpsert); [done|].
  by destruct (upsertCurrent _ _ _).
Qed.

(** * The invariant *)

(** The read model agrees with the audit trail, and the ledger with both. *)
Record db_inv (db : DB) : Prop := {
  inv_completed u q :
    ingest_requests db !! u = Some q ->
    q_status q = "completed" /\ is_Some (q_completed_at q) /\
    0 <= q_current_rows_touched q <= q_accepted_count q /\
    q_accepted_count q = count_if (fun r => bool_decide (r_request_id r = u)) (ingest_raw db);
  inv_raw r :
    r ∈ ingest_raw db ->
    is_Some (ingest_requests db !! r_request_id r) /\ r_id r < next_raw_id db;
  inv_ids : NoDup (map r_id (ingest_raw db));
  inv_dom k :
    is_Some (current_prices db !! k) <-> exists r, r ∈ ingest_raw db /\ row_key r = k;
  inv_register sd k :
    is_newest row_key (row_at sd) (row_price sd) (ingest_raw db) k (db_register sd db k);
}.

Lemma db_inv_empty : db_inv empty_db.
Proof.
  split; simpl.
  - intros u q Hq. by rewrite lookup_empty in Hq.
  - intros r Hr. by apply elem_of_nil in Hr.
  - constructor.
  - intros k. rewrite lookup_empty. split; [by intros []|]. intros (r & Hr & _).
    by apply elem_of_nil in Hr.
  - intros sd k. unfold db_register. simpl. rewrite lookup_empty. simpl.
    intros r Hr. by apply elem_of_nil in Hr.
Qed.

Lemma fresh_filter now uuid s entries db :
  db_inv db -> ingest_requests db !! uuid = None ->
  List.filter (fun r => bool_decide (r_request_id r = uuid))
    (ingest_raw db ++ new_rows now uuid s entries db)
  = new_rows now uuid s entries db.
Proof.
  intros Hinv Hu. rewrite List.filter_app, filter_none, filter_all; [done| |].
  - intros r Hr. apply bool_decide_eq_true. by apply new_rows_spec in Hr as [? _].
  - intros r Hr. apply bool_decide_eq_false. intros <-.
    apply (inv_raw db Hinv) in Hr as [[q Hq] _]. congruence.
Qed.

Lemma effect_spec now uuid hash s entries db :
  db_inv db -> ingest_requests db !! uuid = None ->
  let rows := new_rows now uuid s entries db in
  let '(n, db') := effect now uuid hash s entries db in
  ingest_requests db' =
    <[uuid := completed_row now hash s (Z.of_nat (length entries)) n]> (ingest_requests db) /\
  ingest_raw db' = ingest_raw db ++ rows /\
  next_raw_id db' = next_raw_id db + Z.of_nat (length entries) /\
  (forall k, db_view db' k =
    if bool_decide (k ∈ map row_key rows)
    then Some (merged_view (db_view db k) (request_view rows k)) else db_view db k) /\
  n = count_if (fun k => bool_decide (db_view db' k <> db_view db k)) (request_keys rows).
Proof.
  intros Hinv Hu rows. unfold effect, registerRequest. rewrite Hu.
  cbn [fst ingest_requests ingest_raw next_raw_id current_prices].
  change (new_rows now uuid s entries _) with rows.
  match goal with |- context [upsertCurrent _ _ ?d] => set (db2 := d) end.
  pose proof (upsertCurrent_spec now uuid db2) as Hup. simpl in Hup.
  replace (List.filter _ _) with rows in Hup by (symmetry; by apply fresh_filter).
  destruct (upsertCurrent now uuid db2) as [db3 n].
  destruct Hup as (Hreq & Hraw & Hnext & Hview & Hn).
  unfold completeRequest. simpl. split_and!; [|done|done|exact Hview|exact Hn].
  rewrite Hreq. simpl. rewrite alter_insert_eq. simpl. by rewrite ?insert_insert_eq.
Qed.

Lemma db_register_view sd db k :
  db_register sd db k = db_view db k ≫= (fun v => match sd with Sell => v.1 | Buy => v.2 end).
Proof. unfold db_register, db_view. by destruct (current_prices db !! k), sd. Qed.

Lemma request_register_None sd rows k :
  k ∉ map row_key rows -> request_register sd rows k = None.
Proof.
  intros Hk. unfold request_register. rewrite latest_eq, filter_none; [done|].
  intros r Hr. destruct (observes sd k r) eqn:E; [|done].
  apply observes_spec in E as [<- _]. exfalso. by apply Hk, list_elem_of_fmap_2.
Qed.

Lemma effect_register now uuid hash s entries db sd k :
  db_inv db -> ingest_requests db !! uuid = None ->
  db_register sd (effect now uuid hash s entries db).2 k
  = lww (db_register sd db k) (request_register sd (new_rows now uuid s entries db) k).
Proof.
  intros Hinv Hu. pose proof (effect_spec now uuid hash s entries db Hinv Hu) as He.
  destruct (effect _ _ _ _ _ _) as [n db']. destruct He as (_ & _ & _ & Hview & _).
  rewrite !db_register_view. simpl. rewrite Hview. case_bool_decide as Hk.
  - destruct (db_view db k) as [[]|]; simpl; destruct sd; simpl; by rewrite ?lww_None_l.
  - by rewrite request_register_None, lww_None_r.
Qed.

Lemma request_register_newest sd rows k :
  is_newest row_key (row_at sd) (row_price sd) rows k (request_register sd rows k).
Proof.
  pose proof (request_register_latest sd rows k) as Hl.
  destruct (request_register sd rows k) as [[t p]|]; simpl in *; [|exact Hl].
  destruct Hl as (r & Hr & Hk & Ht & Hp & Hmax). split; [eauto|].
  intros r' t' H1 H2 H3. specialize (Hmax r' t' H1 H2 H3). lia.
Qed.

Lemma new_rows_ids now uuid s entries db : NoDup (map r_id (new_rows now uuid s entries db)).
Proof.
  apply NoDup_alt. intros i j x Hi Hj.
  rewrite list_lookup_fmap in Hi. rewrite list_lookup_fmap in Hj.
  apply fmap_Some in Hi as (r1 & H1 & ->). apply fmap_Some in Hj as (r2 & H2 & Heq).
  apply number_rows_lookup in H1 as (? & _ & ->). apply number_rows_lookup in H2 as (? & _ & ->).
  simpl in Heq. lia.
Qed.

Lemma effect_touched_bounds now uuid hash s entries db :
  db_inv db -> ingest_requests db !! uuid = None ->
  0 <= (effect now uuid hash s entries db).1 <= Z.of_nat (length entries).
Proof.
  intros Hinv Hu. pose proof (effect_spec now uuid hash s entries db Hinv Hu) as He.
  destruct (effect _ _ _ _ _ _) as [n db']. destruct He as (_ & _ & _ & _ & ->). simpl.
  match goal with |- _ <= count_if ?p ?l <= _ => pose proof (count_if_bounds p l) end.
  pose proof (length_dedup_from [] (map row_key (new_rows now uuid s entries db))) as Hl.
  rewrite length_map, length_new_rows in Hl. unfold request_keys, dedup in *. lia.
Qed.

Lemma effect_inv now uuid hash s entries db :
  db_inv db -> ingest_requests db !! uuid = None ->
  db_inv (effect now uuid hash s entries db).2.
Proof.
  intros Hinv Hu.
  pose proof (effect_spec now uuid hash s entries db Hinv Hu) as He.
  pose proof (effect_touched_bounds now uuid hash s entries db Hinv Hu) as Hn.
  pose proof (fun sd k => effect_register now uuid hash s entries db sd k Hinv Hu) as Hreg.
  destruct (effect _ _ _ _ _ _) as [n db']. simpl in *.
  destruct He as (Hreq & Hraw & Hnext & Hview & _).
  split.
  - intros u q. rewrite Hreq, Hraw, lookup_insert, count_if_app. case_decide as E.
    + intros [= <-]. simpl. split_and!; [done|eauto|lia|lia|]. subst u.
      rewrite <- count_if_app. unfold count_if. rewrite fresh_filter by done.
      by rewrite length_new_rows.
    + intros Hq. destruct (inv_completed db Hinv u q Hq) as (? & ? & ? & Hc).
      split_and!; [done|done|lia|lia|]. rewrite Hc at 1. unfold count_if at 3.
      rewrite filter_none; [simpl; lia|].
      intros r Hr. apply new_rows_spec in Hr as [-> _]. by apply bool_decide_eq_false.
  - intros r. rewrite Hraw, Hreq, Hnext. intros [Hr|Hr]%elem_of_app.
    + destruct (inv_raw db Hinv r Hr) as [? ?]. split; [|lia].
      destruct (decide (uuid = r_request_id r)) as [->|]; [by rewrite lookup_insert_eq|].
      by rewrite lookup_insert_ne.
    + apply new_rows_spec in Hr as (-> & _ & ?). rewrite lookup_insert_eq. split; [eauto|lia].
  - rewrite Hraw, map_app. apply NoDup_app. split_and!;
      [apply (inv_ids db Hinv)| |apply new_rows_ids].
    intros i (r & -> & Hr)%list_elem_of_fmap (r' & Heq & Hr')%list_elem_of_fmap.
    apply (inv_raw db Hinv) in Hr as [_ ?]. apply new_rows_spec in Hr' as (_ & _ & ?). lia.
  - intros k. transitivity (is_Some (db_view db' k)); [unfold db_view; by rewrite fmap_is_Some|].
    rewrite Hview, Hraw. case_bool_decide as Hk.
    + split; [intros _|eauto]. apply list_elem_of_fmap in Hk as (r & -> & Hr).
      exists r. set_solver.
    + unfold db_view. rewrite fmap_is_Some, (inv_dom db Hinv). split.
      * intros (r & ? & ?). exists r. set_solver.
      * intros (r & [Hr|Hr]%elem_of_app & <-); [eauto|]. exfalso. by apply Hk, list_elem_of_fmap_2.
  - intros sd k. rewrite Hreg, Hraw.
    apply is_newest_app; [apply (inv_register db Hinv)|apply request_register_newest].
Qed.

(** * Requests *)

(** A request the repository can start a transaction for. *)
Record prepared (req : IngestPricesRequest) (s : Z) (hash uuid : string) : Prop := {
  prep_server : mapServer (ip_Server req) = Ok s;
  prep_hash : canonicalRequestHash req = Ok hash;
  prep_uuid : scanUUID (ip_RequestID req) = Some uuid;
}.

Definition statement_fails (fs : faults) : option db_step :=
  List.find (fails fs) [StepBegin; StepRegister; StepCopy; StepUpsert; StepComplete].

Definition fresh_result (el : elapsed) (accepted touched : Z) : IngestPricesResult :=
  {| Accepted := accepted; CurrentRowsTouched := touched; Duplicate := false;
     PersistenceTiming :=
       {| Transaction := el_transaction el; Commit := el_commit el;
          TransactionMeasured := true; CommitMeasured := true |} |}.

Definition replay_result (el : elapsed) (q : request_row) : IngestPricesResult :=
  {| Accepted := q_accepted_count q; CurrentRowsTouched := q_current_rows_touched q;
     Duplicate := true;
     PersistenceTiming :=
       {| Transaction := el_transaction el; Commit := 0;
          TransactionMeasured := true; CommitMeasured := false |} |}.

Lemma IngestPrices_new fs el now req s hash uuid db :
  prepared req s hash uuid -> ingest_requests db !! uuid = None ->
  IngestPrices fs el now req db =
  match statement_fails fs with
  | Some st => (Err (DatabaseFailed st), db)
  | None =>
      let '(n, db') := effect now uuid hash s (ip_Entries req) db in
      match commit fs with
      | CommitOk => (Ok (fresh_result el (Z.of_nat (length (ip_Entries req))) n), db')
      | CommitFailed => (Err (DatabaseFailed StepCommit), db)
      | CommitAckLost => (Err (DatabaseFailed StepCommit), db')
      end
  end.
Proof.
  intros [Hs Hh Hu] Hnew. unfold IngestPrices. rewrite Hs, Hh, Hu, ingest_tx_eq, Hnew.
  unfold statement_fails. simpl.
  destruct (fails fs StepBegin); [done|]. destruct (fails fs StepRegister); [done|].
  destruct (fails fs StepCopy); [done|]. destruct (fails fs StepUpsert); [done|].
  destruct (fails fs StepComplete); [done|]. by destruct (effect _ _ _ _ _ _).
Qed.

Lemma IngestPrices_known fs el now req s hash uuid db q :
  prepared req s hash uuid -> ingest_requests db !! uuid = Some q -> q_status q = "completed" ->
  IngestPrices fs el now req db =
  (match List.find (fails fs) [StepBegin; StepRegister; StepExisting] with
   | Some st => Err (DatabaseFailed st)
   | None => if bool_decide (q_request_sha256 q = hash) then Ok (replay_result el q)
             else Err RequestPayloadConflict
   end, db).
Proof.
  intros [Hs Hh Hu] Hq Hst. unfold IngestPrices. rewrite Hs, Hh, Hu, ingest_tx_eq, Hq.
  simpl. destruct (fails fs StepBegin); [done|]. destruct (fails fs StepRegister); [done|].
  unfold existingIngestResult. destruct (fails fs StepExisting); [done|].
  rewrite Hq, Hst. destruct (decide (q_request_sha256 q = hash)) as [E|E].
  - rewrite (bool_decide_eq_true_2 _ E). by rewrite (proj2 (equalHashes_eq _ _) E).
  - rewrite (bool_decide_eq_false_2 _ E). destruct (equalHashes _ _) eqn:E2; [by apply equalHashes_eq in E2|done].
Qed.

(** A call leaves the database alone or performs the whole effect. *)
Lemma IngestPrices_atomic fs el now req db :
  db_inv db ->
  (IngestPrices fs el now req db).2 = db \/
  exists s hash uuid, prepared req s hash uuid /\ ingest_requests db !! uuid = None /\
    (IngestPrices fs el now req db).2 = (effect now uuid hash s (ip_Entries req) db).2.
Proof.
  intros Hinv.
  destruct (mapServer (ip_Server req)) as [s|e] eqn:Hs; [|left; unfold IngestPrices; by rewrite Hs].
  destruct (canonicalRequestHash req) as [hash|e] eqn:Hh;
    [|left; unfold IngestPrices; by rewrite Hs, Hh].
  destruct (scanUUID (ip_RequestID req)) as [uuid|] eqn:Hu;
    [|left; unfold IngestPrices; by rewrite Hs, Hh, Hu].
  assert (prepared req s hash uuid) as Hp by done.
  destruct (ingest_requests db !! uuid) as [q|] eqn:Hq.
  - left. destruct (inv_completed db Hinv uuid q Hq) as [Hst _].
    by rewrite (IngestPrices_known fs el now req s hash uuid db q Hp Hq Hst).
  - rewrite (IngestPrices_new fs el now req s hash uuid db Hp Hq).
    destruct (statement_fails fs); [by left|].
    destruct (effect _ _ _ _ _ _) as [n db'] eqn:E.
    destruct (commit fs); [right|by left|right]; exists s, hash, uuid; by rewrite E.
Qed.

Inductive ingest_step (db : DB) : DB -> Prop :=
  | run_ingest fs el now req : ingest_step db (IngestPrices fs el now req db).2.

Lemma ingest_step_inv db db' : ingest_step db db' -> db_inv db -> db_inv db'.
Proof.
  intros [fs el now req] Hinv.
  destruct (IngestPrices_atomic fs el now req db Hinv) as [->|(s & hash & uuid & _ & Hu & ->)];
    [done|]. by apply effect_inv.
Qed.

(** C3. A new request that meets no failure is answered with the number of
    its entries; the ledger gains one completed row; the audit trail gains one
    row per entry, in order; each key of the request is merged, side by side,
    with the newest observation the request has for it, the other keys are
    untouched; and the number of rows touched is the number of keys whose
    prices actually changed. *)
Theorem IngestPrices_effect el now req s hash uuid db :
  db_inv db -> prepared req s hash uuid -> ingest_requests db !! uuid = None ->
  let rows := new_rows now uuid s (ip_Entries req) db in
  let n := Z.of_nat (length (ip_Entries req)) in
  exists touched db',
    IngestPrices no_faults el now req db = (Ok (fresh_result el n touched), db') /\
    ingest_requests db' = <[uuid := completed_row now hash s n touched]> (ingest_requests db) /\
    ingest_raw db' = ingest_raw db ++ rows /\
    (forall k, db_view db' k =
       if bool_decide (k ∈ map row_key rows)
       then Some (merged_view (db_view db k) (request_view rows k)) else db_view db k) /\
    (forall sd k, is_latest sd rows k (request_register sd rows k)) /\
    touched = count_if (fun k => bool_decide (db_view db' k <> db_view db k)) (request_keys rows).
Proof.
  intros Hinv Hp Hu rows n. rewrite (IngestPrices_new no_faults el now req s hash uuid db Hp Hu).
  pose proof (effect_spec now uuid hash s (ip_Entries req) db Hinv Hu) as He. simpl.
  destruct (effect _ _ _ _ _ _) as [touched db'].
  destruct He as (Hreq & Hraw & _ & Hview & Hn).
  exists touched, db'. split_and!; try done. intros. apply request_register_latest.
Qed.

(** C5. Whatever requests are sent, whatever fails and whenever, the database
    reached from the empty one is consistent: the ledger holds only completed
    requests, with as many audit rows as the request had entries; every audit
    row belongs to a request and no identifier is used twice; a key has a
    current price exactly when it has an audit row; and each side of the
    current price is that of an audit row none of the others is newer than. *)
Theorem ingest_reachable_consistent db : rtc ingest_step empty_db db -> db_inv db.
Proof.
  apply (rtc_ind_r db_inv empty_db); [apply db_inv_empty|].
  intros y z _ Hstep Hinv. by apply (ingest_step_inv y z).
Qed.

(** The attempts a client makes at one request. *)
Definition attempt : Type := faults * elapsed * time.

Definition try_ingest (req : IngestPricesRequest) (db : DB) (a : attempt) : DB :=
  let '(fs, el, now) := a in (IngestPrices fs el now req db).2.

Lemma known_attempts req s hash uuid q attempts db :
  prepared req s hash uuid -> ingest_requests db !! uuid = Some q -> q_status q = "completed" ->
  foldl (try_ingest req) db attempts = db.
Proof.
  intros Hp Hq Hst. induction attempts as [|[[fs el] now] l IH]; simpl; [done|].
  by rewrite (IngestPrices_known fs el now req s hash uuid db q Hp Hq Hst).
Qed.

Lemma effect_known now uuid hash s entries db :
  db_inv db -> ingest_requests db !! uuid = None ->
  ingest_requests (effect now uuid hash s entries db).2 !! uuid
  = Some (completed_row now hash s (Z.of_nat (length entries)) (effect now uuid hash s entries db).1).
Proof.
  intros Hinv Hu. pose proof (effect_spec now uuid hash s entries db Hinv Hu) as He.
  destruct (effect _ _ _ _ _ _). destruct He as (Hr & _). simpl.
  rewrite Hr. apply lookup_insert_eq.
Qed.

Lemma attempts_effect req s hash uuid attempts db :
  db_inv db -> prepared req s hash uuid -> ingest_requests db !! uuid = None ->
  foldl (try_ingest req) db attempts = db \/
  exists now, now ∈ map snd attempts /\
    foldl (try_ingest req) db attempts = (effect now uuid hash s (ip_Entries req) db).2.
Proof.
  intros Hinv Hp Hu. induction attempts as [|[[fs el] now] l IH]; [by left|].
  cbn [foldl try_ingest]. rewrite (IngestPrices_new fs el now req s hash uuid db Hp Hu).
  assert (forall db', db' = (effect now uuid hash s (ip_Entries req) db).2 ->
    foldl (try_ingest req) db' l = db') as Hdone.
  { intros db' ->. eapply known_attempts; [done|by apply effect_known|done]. }
  assert (foldl (try_ingest req) db l = db \/
    exists now', now' ∈ map snd ((fs, el, now) :: l) /\
      foldl (try_ingest req) db l = (effect now' uuid hash s (ip_Entries req) db).2) as Hskip.
  { destruct IH as [?|(now' & ? & ?)]; [by left|right]. exists now'. set_solver. }
  destruct (statement_fails fs); [exact Hskip|].
  destruct (effect now uuid hash s (ip_Entries req) db) as [n db'] eqn:E.
  destruct (commit fs); [|exact Hskip|]; right; exists now; (split; [set_solver|]);
    simpl; rewrite Hdone by done; by rewrite E.
Qed.

(** Ingestion is exactly-once under retries.  After any number of attempts
    at a request, each of which may fail at any statement, be refused at the
    commit or lose its acknowledgement, the database is the original one or
    the result of one effect; and a final attempt without failures succeeds,
    reports the counts of that one effect, and says it is a duplicate exactly
    when an earlier attempt had taken effect. *)
Theorem IngestPrices_exactly_once req s hash uuid attempts el now db :
  db_inv db -> prepared req s hash uuid -> ingest_requests db !! uuid = None ->
  let db1 := foldl (try_ingest req) db attempts in
  exists now' res, now' ∈ now :: map snd attempts /\
    IngestPrices no_faults el now req db1
    = (Ok res, (effect now' uuid hash s (ip_Entries req) db).2) /\
    Accepted res = Z.of_nat (length (ip_Entries req)) /\
    CurrentRowsTouched res = (effect now' uuid hash s (ip_Entries req) db).1 /\
    (Duplicate res = true <-> db1 <> db).
Proof.
  intros Hinv Hp Hu db1.
  destruct (attempts_effect req s hash uuid attempts db Hinv Hp Hu) as [E|(now' & Hin & E)];
    fold db1 in E.
  - exists now. rewrite E, (IngestPrices_new no_faults el now req s hash uuid db Hp Hu). simpl.
    destruct (effect _ _ _ _ _ _) as [n db']. eexists. split_and!; try done. set_solver.
  - pose proof (effect_known now' uuid hash s (ip_Entries req) db Hinv Hu) as Hk.
    exists now'. rewrite E.
    rewrite (IngestPrices_known no_faults el now req s hash uuid _ _ Hp Hk eq_refl). simpl.
    rewrite bool_decide_eq_true_2 by done. eexists. split_and!; try done; [set_solver|].
    split; [|done]. intros _ Heq. rewrite Heq in Hk. congruence.
Qed.

(** A request identifier that is already in the ledger never changes the
    database again.  With the same payload the stored counts are returned and
    marked as a duplicate; with another payload the request is a conflict;
    and the states [processing] and anything unknown are never met. *)
Theorem IngestPrices_replay fs el now req s hash uuid q db :
  db_inv db -> prepared req s hash uuid -> ingest_requests db !! uuid = Some q ->
  (IngestPrices fs el now req db).2 = db /\
  (Forall (fun st => fails fs st = false) [StepBegin; StepRegister; StepExisting] ->
   (IngestPrices fs el now req db).1 =
     if bool_decide (q_request_sha256 q = hash) then Ok (replay_result el q)
     else Err RequestPayloadConflict) /\
  (forall e, (IngestPrices fs el now req db).1 = Err e ->
     e = RequestPayloadConflict \/ exists st, e = DatabaseFailed st).
Proof.
  intros Hinv Hp Hq. destruct (inv_completed db Hinv uuid q Hq) as [Hst _].
  rewrite (IngestPrices_known fs el now req s hash uuid db q Hp Hq Hst). simpl.
  split_and!; [done| |].
  - intros Hf. rewrite !Forall_cons in Hf. by destruct Hf as (-> & -> & -> & _).
  - intros e. destruct (fails fs StepBegin); [intros [= <-]; eauto|].
    destruct (fails fs StepRegister); [intros [= <-]; eauto|].
    destruct (fails fs StepExisting); [intros [= <-]; eauto|].
    case_bool_decide; [done|]. intros [= <-]. by left.
Qed.

(** * Independence of the order of requests *)

(** The observations of a request, apart from the identifiers the database
    gives them. *)
Definition entry_rows (s : Z) (entries : list PriceIngest) : list raw_row :=
  number_rows 0 1 (values_of EmptyString s entries).

Definition rename_row (now : time) (uuid : string) (d : Z) (r : raw_row) : raw_row :=
  {| r_id := d + r_id r; r_request_id := uuid; r_received_at := now; r_server := r_server r;
     r_observed_at := r_observed_at r; r_location_id := r_location_id r;
     r_item_key := r_item_key r; r_quality := r_quality r;
     r_sell_price_min := r_sell_price_min r; r_sell_price_min_at := r_sell_price_min_at r;
     r_buy_price_max := r_buy_price_max r; r_buy_price_max_at := r_buy_price_max_at r |}.

Lemma new_rows_rename now uuid s entries db :
  new_rows now uuid s entries db
  = map (rename_row now uuid (next_raw_id db - 1)) (entry_rows s entries).
Proof.
  unfold new_rows, entry_rows. replace (next_raw_id db) with (next_raw_id db - 1 + 1) at 1 by lia.
  generalize 1 at 2 4 as i. generalize (next_raw_id db - 1) as d.
  induction entries as [|e entries IH]; intros d i; simpl; [done|].
  rewrite <- Z.add_assoc, IH. done.
Qed.

Lemma request_register_rename sd now uuid d rows k :
  request_register sd (map (rename_row now uuid d) rows) k = request_register sd rows k.
Proof.
  unfold request_register. rewrite !latest_eq, list_filter_map.
  assert (List.filter (fun x => observes sd k (rename_row now uuid d x)) rows
    = List.filter (observes sd k) rows) as ->
    by (apply List.filter_ext; intros; by destruct sd).
  rewrite (best_fmap (side_less sd)).
  - destruct (best _ _); [|done]. by destruct sd.
  - intros x y _ _. destruct sd; simpl; unfold sell_less, buy_less, then_less; simpl;
      (replace (d + r_id x <? d + r_id y) with (r_id x <? r_id y); [done|]);
      destruct (Z.ltb_spec (r_id x) (r_id y)), (Z.ltb_spec (d + r_id x) (d + r_id y)); lia.
Qed.

Lemma new_rows_register sd now uuid s entries db k :
  request_register sd (new_rows now uuid s entries db) k
  = request_register sd (entry_rows s entries) k.
Proof. by rewrite new_rows_rename, request_register_rename. Qed.

Lemma new_rows_keys now uuid s entries db :
  map row_key (new_rows now uuid s entries db) = map row_key (entry_rows s entries).
Proof. rewrite new_rows_rename, map_map. done. Qed.

(** What a request does to the view of a key. *)
Definition view_after (s : Z) (entries : list PriceIngest) (k : price_key)
    (v : option (register * register)) : option (register * register) :=
  if bool_decide (k ∈ map row_key (entry_rows s entries))
  then Some (merged_view v (request_view (entry_rows s entries) k)) else v.

Lemma effect_view now uuid hash s entries db k :
  db_inv db -> ingest_requests db !! uuid = None ->
  db_view (effect now uuid hash s entries db).2 k = view_after s entries k (db_view db k).
Proof.
  intros Hinv Hu. pose proof (effect_spec now uuid hash s entries db Hinv Hu) as He.
  destruct (effect _ _ _ _ _ _). destruct He as (_ & _ & _ & Hview & _). simpl.
  unfold view_after, request_view in *. rewrite Hview, new_rows_keys.
  by rewrite !new_rows_register.
Qed.

#[export] Instance db_view_proper : Proper (same_prices ==> (=) ==> (=)) db_view.
Proof. intros db1 db2 Heq k ? <-. apply Heq. Qed.

#[export] Instance db_register_proper sd : Proper (same_prices ==> (=) ==> (=)) (db_register sd).
Proof. intros db1 db2 Heq k ? <-. by rewrite !db_register_view, Heq. Qed.

(** Two requests never disagree about a price at one instant. *)
Definition compatible (s1 s2 : Z) (e1 e2 : list PriceIngest) : Prop :=
  forall sd k, no_tie (request_register sd (entry_rows s1 e1) k)
                      (request_register sd (entry_rows s2 e2) k).

Lemma view_after_comm s1 s2 e1 e2 k v :
  compatible s1 s2 e1 e2 ->
  view_after s2 e2 k (view_after s1 e1 k v) = view_after s1 e1 k (view_after s2 e2 k v).
Proof.
  intros Hc. unfold view_after. repeat case_bool_decide; try done. f_equal.
  destruct v as [[v1 v2]|]; unfold merged_view, merge_view, request_view; simpl; f_equal;
    first [apply lww_swap, Hc|apply lww_comm, Hc].
Qed.

(** C28. The order in which two compatible requests arrive does not matter:
    both orders are accepted and give every key the same prices at the same
    times. *)
Theorem IngestPrices_commute el1 el2 el3 el4 now1 now2 now3 now4
    req1 req2 s1 s2 h1 h2 u1 u2 db :
  db_inv db -> prepared req1 s1 h1 u1 -> prepared req2 s2 h2 u2 -> u1 <> u2 ->
  ingest_requests db !! u1 = None -> ingest_requests db !! u2 = None ->
  compatible s1 s2 (ip_Entries req1) (ip_Entries req2) ->
  let db12 := (IngestPrices no_faults el2 now2 req2 (IngestPrices no_faults el1 now1 req1 db).2).2 in
  let db21 := (IngestPrices no_faults el4 now4 req1 (IngestPrices no_faults el3 now3 req2 db).2).2 in
  same_prices db12 db21 /\
  ingest_requests db12 !! u1 <> None /\ ingest_requests db12 !! u2 <> None /\
  ingest_requests db21 !! u1 <> None /\ ingest_requests db21 !! u2 <> None.
Proof.
  intros Hinv Hp1 Hp2 Hne H1 H2 Hc.
  assert (forall el now req s h u d, db_inv d -> prepared req s h u -> ingest_requests d !! u = None ->
    (IngestPrices no_faults el now req d).2 = (effect now u h s (ip_Entries req) d).2) as Hrun.
  { intros * Hd Hp Hu. rewrite (IngestPrices_new _ _ _ _ _ _ _ _ Hp Hu). simpl.
    by destruct (effect _ _ _ _ _ _). }
  assert (forall now u h s e d u', db_inv d -> ingest_requests d !! u = None -> u' <> u ->
    ingest_requests (effect now u h s e d).2 !! u' = ingest_requests d !! u') as Hother.
  { intros * Hd Hu Hu'. pose proof (effect_spec now u h s e d Hd Hu) as He.
    destruct (effect _ _ _ _ _ _). destruct He as (Hr & _). simpl. rewrite Hr.
    by apply lookup_insert_ne. }
  intros db12 db21. unfold db12, db21.
  rewrite (Hrun el1 now1 req1 s1 h1 u1 db), (Hrun el3 now3 req2 s2 h2 u2 db) by done.
  rewrite (Hrun el2 now2 req2 s2 h2 u2), (Hrun el4 now4 req1 s1 h1 u1);
    rewrite ?Hother by done; try done; try by apply effect_inv.
  split_and!.
  - intros k. rewrite !effect_view; rewrite ?Hother by done; try done; try by apply effect_inv.
    by apply view_after_comm.
  - rewrite Hother, effect_known; rewrite ?Hother; try done. by apply effect_inv.
  - rewrite effect_known; rewrite ?Hother; try done. by apply effect_inv.
  - rewrite effect_known; rewrite ?Hother; try done. by apply effect_inv.
  - rewrite Hother, effect_known; rewrite ?Hother; try done. by apply effect_inv.
Qed.
End effect.

(** Feeding [COPY] terminates: for every amount of fuel above the number
    of entries the source yields exactly the entries, in order, each with the
    identifier and the server of the request; and it never hands out a row
    when it is not positioned on one. *)
Theorem copy_source_complete uuid s entries fuel :
  (length entries < fuel)%nat ->
  copy_from fuel (newRawPriceCopySource uuid s entries) = Some (values_of uuid s entries) /\
  Values (newRawPriceCopySource uuid s entries) = None.
Proof.
  intros Hf. split; [|done]. apply (copy_from_index uuid s entries 0 fuel); lia.
Qed.

(** * Queries *)

Section query.
Context `{Collation}.

Definition key_location (k : price_key) : Z := k.1.1.2.
Definition key_item (k : price_key) : string := k.1.2.
Definition key_quality (k : price_key) : Z := k.2.

Lemma collate_irreflexive a : collate a a = false.
Proof. destruct (collate a a) eqn:E; [|done]. by rewrite (less_asym _ _ E) in E. Qed.

Lemma location_item_quality_eq a b :
  location_item_quality a b =
  then_less (fun a b => key_location a <? key_location b)
    (then_less (fun a b => collate (key_item a) (key_item b))
       (fun a b => key_quality a <? key_quality b)) a b.
Proof.
  destruct a as [[[s1 l1] i1] q1], b as [[[s2 l2] i2] q2].
  unfold location_item_quality, then_less, key_location, key_item, key_quality; simpl.
  destruct (Z.eqb_spec l1 l2) as [->|Hl]; simpl.
  - rewrite Z.ltb_irrefl. simpl. case_bool_decide as Hi; simpl.
    + subst. by rewrite collate_irreflexive.
    + destruct (collate i1 i2) eqn:E1; [done|]. destruct (collate i2 i1) eqn:E2; [done|].
      exfalso. eauto using collate_eq.
  - destruct (Z.ltb_spec l1 l2), (Z.ltb_spec l2 l1); try lia; done.
Qed.

#[export] Instance location_item_quality_strict_weak : StrictWeak location_item_quality.
Proof.
  eapply strict_weak_ext; [apply location_item_quality_eq|].
  apply @then_less_strict_weak; [apply (less_on_strict_weak Z.ltb key_location)|].
  apply @then_less_strict_weak; [apply (less_on_strict_weak collate key_item)|].
  apply (less_on_strict_weak Z.ltb key_quality).
Qed.

Lemma location_item_quality_ties a b :
  location_item_quality a b = false -> location_item_quality b a = false ->
  key_location a = key_location b /\ key_item a = key_item b /\ key_quality a = key_quality b.
Proof.
  rewrite !location_item_quality_eq. unfold then_less. intros H1 H2.
  apply orb_false_iff in H1 as [H1 H1'], H2 as [H2 H2'].
  rewrite H2 in H1'. rewrite H1 in H2'. simpl in *.
  apply orb_false_iff in H1' as [H3 H3'], H2' as [H4 H4'].
  rewrite H4 in H3'. rewrite H3 in H4'. simpl in *. bool_facts.
  split_and!; [lia|by apply collate_eq|lia].
Qed.

(** The position of an answer in the order of the query. *)
Definition answer_key (p : CurrentPrice) : price_key :=
  (0, cp_LocationID p, cp_ItemKey p, cp_Quality p).

(** A query for a supported server returns exactly the stored rows of
    that server whose location and whose item and quality were asked for, each
    once, labelled with the server asked for, and strictly ordered by
    location, item and quality; so the answer is a function of the table and
    of the sets of locations and entries in the query. *)
Theorem QueryCurrentPrices_exact lookup s db :
  mapServer (cl_Server lookup) = Ok s ->
  exists prices, QueryCurrentPrices no_faults lookup db = Ok prices /\
    (forall p, p ∈ prices <->
       exists k row, current_prices db !! k = Some row /\ k.1.1.1 = s /\
         key_location k ∈ cl_LocationIDs lookup /\
         {| pq_ItemKey := key_item k; pq_Quality := key_quality k |} ∈ cl_Entries lookup /\
         p = stored_price k row) /\
    Forall (fun p => cp_Server p = cl_Server lookup) prices /\
    StronglySorted (fun p q => location_item_quality (answer_key p) (answer_key q) = true) prices.
Proof.
  intros Hs. unfold QueryCurrentPrices. rewrite Hs. cbn [rbind].
  assert (forall kr : price_key * current_row, selects s lookup kr.1 = true <->
    kr.1.1.1.1 = s /\ key_location kr.1 ∈ cl_LocationIDs lookup /\
    {| pq_ItemKey := key_item kr.1; pq_Quality := key_quality kr.1 |} ∈ cl_Entries lookup) as Hsel.
  { intros [[[[s' l] i] q] row]. unfold selects, key_location, key_item, key_quality; simpl.
    rewrite !andb_true_iff, Z.eqb_eq, !bool_decide_eq_true. tauto. }
  destruct (bool_decide (cl_LocationIDs lookup = []) || bool_decide (cl_Entries lookup = [])) eqn:E.
  { exists []. split_and!; [done| |constructor|constructor].
    intros p. rewrite elem_of_nil. split; [done|]. intros (k & row & _ & _ & Hl & He & _).
    apply orb_true_iff in E as [E|E]; bool_facts; [rewrite E in Hl|rewrite E in He];
      by eapply elem_of_nil. }
  simpl. eexists. split; [done|].
  set (l := List.filter _ _).
  assert (forall kr, kr ∈ l <-> current_prices db !! kr.1 = Some kr.2 /\ selects s lookup kr.1 = true)
    as Hl.
  { intros [k row]. unfold l. rewrite list_elem_of_In, List.filter_In, <- list_elem_of_In.
    by rewrite elem_of_map_to_list. }
  assert (StronglySorted (fun a b : price_key * current_row => location_item_quality a.1 b.1 = true)
    (slice_stable (fun a b : price_key * current_row => location_item_quality a.1 b.1) l)) as Hsorted.
  { apply slice_stable_strict.
    - apply (less_on_strict_weak location_item_quality (fun kr : price_key * current_row => kr.1)).
    - unfold l. apply NoDup_ListNoDup, List.NoDup_filter, NoDup_ListNoDup, NoDup_map_to_list.
    - intros [[[[s1 l1] i1] q1] r1] [[[[s2 l2] i2] q2] r2] H1%Hl H2%Hl Hlt1 Hlt2.
      destruct (location_item_quality_ties _ _ Hlt1 Hlt2) as (Hk1 & Hk2 & Hk3).
      destruct H1 as [H1 [Hs1 _]%Hsel], H2 as [H2 [Hs2 _]%Hsel].
      unfold key_location, key_item, key_quality in *. simpl in *. subst. congruence. }
  split_and!.
  - intros p. change (map ?f ?l) with (f <$> l). rewrite list_elem_of_fmap. split.
    + intros ([k row] & -> & Hin). rewrite elem_of_slice_stable, Hl in Hin.
      destruct Hin as [? (? & ? & ?)%Hsel]. exists k, row. done.
    + intros (k & row & Hk & Hks & Hloc & Hent & ->). exists (k, row). split; [done|].
      rewrite elem_of_slice_stable, Hl. split; [done|]. by apply Hsel.
  - apply Forall_forall. intros p ([k row] & -> & Hin)%list_elem_of_fmap.
    rewrite elem_of_slice_stable, Hl in Hin. destruct Hin as [_ (Hk & _)%Hsel].
    destruct k as [[[s' lo] i] q]. simpl in *. subst. by apply unmapServer_mapServer.
  - clear Hl. induction Hsorted as [|[[[[s1 l1] i1] q1] r1] l' Hsorted IH Hx]; simpl; constructor; [done|].
    apply Forall_forall. intros p ([[[[s2 l2] i2] q2] r2] & -> & Hin)%list_elem_of_fmap.
    rewrite Forall_forall in Hx. exact (Hx _ Hin).
Qed.
End query.

(** * Examples *)

Definition example_entry (item : string) (sell at_ : Z) : PriceIngest :=
  {| pi_ObservedAt := 1000 * at_; pi_LocationID := 3008; pi_ItemKey := item; pi_Quality := 1;
     pi_SellPriceMin := Some sell; pi_SellPriceMinAt := Some (1000 * at_);
     pi_BuyPriceMax := None; pi_BuyPriceMaxAt := None |}.

Definition example_prices (id : string) (entries : list PriceIngest) : IngestPricesRequest :=
  {| ip_RequestID := id; ip_Server := ServerWest; ip_Entries := entries |}.

Definition example_batch : list PriceIngest :=
  [example_entry "T4_BAG" 120 7; example_entry "T4_BAG" 100 9; example_entry "T5_BAG" 400 8].

Definition example_elapsed : elapsed := {| el_transaction := 5; el_commit := 2 |}.

Definition ack_lost : faults := {| fails := fun _ => false; commit := CommitAckLost |}.
Definition copy_fails : faults :=
  {| fails st := match st with StepCopy => true | _ => false end; commit := CommitOk |}.

Lemma example_prepared id entries :
  id <> EmptyString ->
  prepared (H := plain_sha256) (H0 := plain_encoding) (example_prices id entries) 1
    ("west" +:+ foldr (fun e s => pi_ItemKey e +:+ "," +:+ s) EmptyString entries) id.
Proof.
  intros Hid. split; [done|done|]. simpl. by rewrite (proj2 (is_empty_false id)).
Qed.

Lemma IngestPrices_effect_witness : exists touched db',
  IngestPrices (H := plain_sha256) (H0 := plain_encoding) no_faults example_elapsed 50000
    (example_prices "r1" example_batch) empty_db
  = (Ok (fresh_result example_elapsed 3 touched), db') /\ touched = 2.
Proof.
  destruct (IngestPrices_effect (H := plain_sha256) (H0 := plain_encoding) example_elapsed 50000
    (example_prices "r1" example_batch) 1 _ "r1" empty_db db_inv_empty
    (example_prepared "r1" example_batch ltac:(done)) eq_refl)
    as (touched & db' & Hrun & _).
  exists touched, db'. split; [exact Hrun|].
  vm_compute in Hrun. injection Hrun as Hn _. by rewrite Hn.
Defined.

Lemma ingest_reachable_consistent_witness :
  db_inv (IngestPrices (H := plain_sha256) (H0 := plain_encoding) ack_lost example_elapsed 50000
            (example_prices "r1" example_batch) empty_db).2.
Proof.
  apply (ingest_reachable_consistent (H := plain_sha256) (H0 := plain_encoding)).
  apply rtc_once. apply run_ingest.
Defined.

Lemma IngestPrices_exactly_once_witness :
  exists now' res, now' ∈ [90; 60; 70] /\
  (IngestPrices (H := plain_sha256) (H0 := plain_encoding) no_faults example_elapsed 90
    (example_prices "r1" example_batch)
    (foldl (try_ingest (H := plain_sha256) (H0 := plain_encoding) (example_prices "r1" example_batch))
       empty_db [(copy_fails, example_elapsed, 60); (ack_lost, example_elapsed, 70)])).1 = Ok res /\
  CurrentRowsTouched res = 2.
Proof.
  destruct (IngestPrices_exactly_once (H := plain_sha256) (H0 := plain_encoding)
    (example_prices "r1" example_batch) 1 _ "r1"
    [(copy_fails, example_elapsed, 60); (ack_lost, example_elapsed, 70)] example_elapsed 90
    empty_db db_inv_empty (example_prepared "r1" example_batch ltac:(done)) eq_refl)
    as (now' & res & Hin & Hrun & _ & _ & _).
  exists now', res. split; [exact Hin|]. split; [by rewrite Hrun|].
  vm_compute in Hrun. by injection Hrun as <- _.
Defined.

Definition example_db : DB :=
  (effect 40000 "r1" "west" 1 example_batch empty_db).2.

Lemma IngestPrices_replay_witness :
  (IngestPrices (H := plain_sha256) (H0 := plain_encoding) no_faults example_elapsed 50000
     (example_prices "r1" example_batch) example_db).2 = example_db.
Proof.
  eapply (IngestPrices_replay (H := plain_sha256) (H0 := plain_encoding) no_faults
    example_elapsed 50000 (example_prices "r1" example_batch) 1 _ "r1" _ example_db).
  - by apply effect_inv; [apply db_inv_empty|].
  - by apply example_prepared.
  - vm_compute. reflexivity.
Defined.

Lemma IngestPrices_commute_witness :
  let run id e now db := (IngestPrices (H := plain_sha256) (H0 := plain_encoding) no_faults
    example_elapsed now (example_prices id e) db).2 in
  same_prices (run "r2" [example_entry "T4_BAG" 90 11] 60 (run "r1" example_batch 50 empty_db))
              (run "r1" example_batch 80 (run "r2" [example_entry "T4_BAG" 90 11] 70 empty_db)).
Proof.
  eapply (IngestPrices_commute (H := plain_sha256) (H0 := plain_encoding) example_elapsed
    example_elapsed example_elapsed example_elapsed 50 60 70 80
    (example_prices "r1" example_batch) (example_prices "r2" [example_entry "T4_BAG" 90 11])
    1 1 _ _ "r1" "r2" empty_db);
    [apply db_inv_empty|by apply example_prepared|by apply example_prepared|done|done|done|].
  intros sd k t p q. unfold request_register.
  destruct (decide (k = (1, 3008, "T4_BAG", 1))) as [->|Hk].
  - destruct sd; vm_compute; [|done]. congruence.
  - intros _ Hq. exfalso. revert Hq. rewrite latest_eq, filter_none; [done|].
    intros r [->|Hr%elem_of_nil]%elem_of_cons; [|done].
    unfold observes. rewrite bool_decide_eq_false_2; [done|]. intros <-. by apply Hk.
Defined.

Lemma copy_source_complete_witness :
  copy_from 4 (newRawPriceCopySource "r1" 1 example_batch) = Some (values_of "r1" 1 example_batch).
Proof. apply (copy_source_complete "r1" 1 example_batch 4). simpl. lia. Defined.

Lemma QueryCurrentPrices_exact_witness :
  exists prices,
    QueryCurrentPrices (H := c_collation) no_faults
      {| cl_Server := ServerWest; cl_LocationIDs := [3008];
         cl_Entries := [{| pq_ItemKey := "T4_BAG"; pq_Quality := 1 |}] |} example_db = Ok prices /\
    map cp_SellPriceMin prices = [Some 100].
Proof.
  destruct (QueryCurrentPrices_exact (H := c_collation)
    {| cl_Server := ServerWest; cl_LocationIDs := [3008];
       cl_Entries := [{| pq_ItemKey := "T4_BAG"; pq_Quality := 1 |}] |} 1 example_db eq_refl)
    as (prices & Hq & _).
  exists prices. split; [exact Hq|]. vm_compute in Hq. by injection Hq as <-.
Defined.
