(* ===== verification/HistoryRepo.v ===== *)
(** History ingestion and the bucket read model:
    [internal/repository/history_repository.go], with the tables of
    [migrations/000004_market_history.sql]; and the enriched price query of
    [internal/repository/market_trust_repository.go]. *)
From S2P Require Import Prelude GoLists GoBase Utf8 Domain Tx Lww PriceRepo.
Local Open Scope Z_scope.

(** * Tables *)

(** [market_history_ingest_requests], by [request_id]. *)
Record history_request_row := {
  hq_request_sha256 : string;
  hq_server : Z;
  hq_accepted_entries : Z;
  hq_accepted_buckets : Z;
  hq_history_rows_touched : Z;
  hq_status : string;
  hq_created_at : time;
  hq_completed_at : option time;
}.

(** [market_history_ingest_raw]. *)
Record history_raw_row := {
  hr_id : Z;
  hr_request_id : string;
  hr_received_at : time;
  hr_server : Z;
  hr_observed_at : time;
  hr_location_id : Z;
  hr_item_key : string;
  hr_quality : Z;
  hr_bucket_at : time;
  hr_item_count : Z;
  hr_average_unit_price : option Z;
}.

(** The primary key of [market_history_buckets], and its other columns. *)
Abbreviation bucket_key := (Z * Z * string * Z * Z)%type (only parsing).

Record bucket_row := {
  b_item_count : Z;
  b_average_unit_price : option Z;
  b_observed_at : time;
  b_updated_at : time;
}.

Record HistoryDB := {
  history_requests : gmap string history_request_row;
  history_raw : list history_raw_row;
  next_history_id : Z;
  buckets : gmap bucket_key bucket_row;
}.

Definition empty_history_db : HistoryDB :=
  {| history_requests := ∅; history_raw := []; next_history_id := 1; buckets := ∅ |}.

Definition bucket_of (r : history_raw_row) : bucket_key :=
  (hr_server r, hr_location_id r, hr_item_key r, hr_quality r, hr_bucket_at r).

(** The [check] constraints of [market_history_ingest_raw], and what its column of type
    [text] can hold: the character 0 is refused although a JSON string may have it. *)
Definition raw_history_check (r : history_raw_row) : bool :=
  (1 <=? hr_server r) && (hr_server r <=? 3)
  && (0 <? hr_location_id r) && sql_text (hr_item_key r) && negb (is_empty (hr_item_key r))
  && (1 <=? hr_quality r) && (hr_quality r <=? 5)
  && (0 <=? hr_item_count r)
  && match hr_average_unit_price r with None => true | Some p => 0 <? p end.

(** * The copy source *)

Record rawHistoryCopySource := {
  hs_request_id : string;
  hs_server_id : Z;
  hs_entries : list HistoryIngest;
  entryIndex : Z;
  bucketIndex : Z;
  currentEntry : Z;
  currentBucket : Z;
  positioned : bool;
}.

Definition newRawHistoryCopySource (requestID : string) (serverID : Z)
    (entries : list HistoryIngest) : rawHistoryCopySource :=
  {| hs_request_id := requestID; hs_server_id := serverID; hs_entries := entries;
     entryIndex := 0; bucketIndex := 0; currentEntry := 0; currentBucket := 0;
     positioned := false |}.

(** The [for] loop of [Next]; each round that does not return moves to the
    next entry. *)
Fixpoint next_bucket (fuel : nat) (s : rawHistoryCopySource) : bool * rawHistoryCopySource :=
  let unpositioned :=
    {| hs_request_id := hs_request_id s; hs_server_id := hs_server_id s;
       hs_entries := hs_entries s; entryIndex := entryIndex s; bucketIndex := bucketIndex s;
       currentEntry := currentEntry s; currentBucket := currentBucket s;
       positioned := false |} in
  match fuel with
  | O => (false, unpositioned)
  | S fuel' =>
      match hs_entries s !! Z.to_nat (entryIndex s) with
      | None => (false, unpositioned)
      | Some entry =>
          if bucketIndex s <? Z.of_nat (length (hi_History entry)) then
            (true,
             {| hs_request_id := hs_request_id s; hs_server_id := hs_server_id s;
                hs_entries := hs_entries s; entryIndex := entryIndex s;
                bucketIndex := bucketIndex s + 1;
                currentEntry := entryIndex s; currentBucket := bucketIndex s;
                positioned := true |})
          else
            next_bucket fuel'
              {| hs_request_id := hs_request_id s; hs_server_id := hs_server_id s;
                 hs_entries := hs_entries s; entryIndex := entryIndex s + 1;
                 bucketIndex := 0; currentEntry := currentEntry s;
                 currentBucket := currentBucket s; positioned := positioned s |}
      end
  end.

(** One round more than there are entries ends the loop. *)
Definition HistoryNext (s : rawHistoryCopySource) : bool * rawHistoryCopySource :=
  next_bucket (S (length (hs_entries s))) s.

(** The nine columns of a row. *)
Record history_values := {
  hv_request_id : string;
  hv_server : Z;
  hv_entry : HistoryIngest;
  hv_bucket : HistoryBucketIngest;
}.

Definition HistoryValues (s : rawHistoryCopySource) : option history_values :=
  if negb (positioned s) || (Z.of_nat (length (hs_entries s)) <=? currentEntry s) then None else
  match hs_entries s !! Z.to_nat (currentEntry s) with
  | None => None
  | Some entry =>
      match hi_History entry !! Z.to_nat (currentBucket s) with
      | None => None
      | Some bucket =>
          Some {| hv_request_id := hs_request_id s; hv_server := hs_server_id s;
                  hv_entry := entry; hv_bucket := bucket |}
      end
  end.

Fixpoint copy_history_from (fuel : nat) (s : rawHistoryCopySource)
    : option (list history_values) :=
  match fuel with
  | O => None
  | S fuel' =>
      let '(more, s') := HistoryNext s in
      if more then
        v ← HistoryValues s';
        vs ← copy_history_from fuel' s';
        Some (v :: vs)
      else Some []
  end.

Fixpoint countHistoryBuckets (entries : list HistoryIngest) : Z :=
  match entries with
  | [] => 0
  | e :: entries' => Z.of_nat (length (hi_History e)) + countHistoryBuckets entries'
  end.

Definition history_raw_of (now : time) (i : Z) (v : history_values) : history_raw_row :=
  let e := hv_entry v in
  let b := hv_bucket v in
  {| hr_id := i;
     hr_request_id := hv_request_id v;
     hr_received_at := now;
     hr_server := hv_server v;
     hr_observed_at := pg_time (hi_ObservedAt e);
     hr_location_id := hi_LocationID e;
     hr_item_key := hi_ItemKey e;
     hr_quality := hi_Quality e;
     hr_bucket_at := pg_time (hb_Timestamp b);
     hr_item_count := hb_ItemCount b;
     hr_average_unit_price := hb_AverageUnitPrice b |}.

Fixpoint number_history (now : time) (i : Z) (vs : list history_values) : list history_raw_row :=
  match vs with
  | [] => []
  | v :: vs' => history_raw_of now i v :: number_history now (i + 1) vs'
  end.

(** * The set-wise upsert *)

(** [order by ..., observed_at desc, id desc], read upwards. *)
Definition capture_less : history_raw_row -> history_raw_row -> bool :=
  then_less (fun a b => hr_observed_at a <? hr_observed_at b) (fun a b => hr_id a <? hr_id b).

Definition latest_bucket (rows : list history_raw_row) (k : bucket_key) : option history_raw_row :=
  best capture_less (List.filter (fun r => bool_decide (bucket_of r = k)) rows).

Definition bucket_row_of (now : time) (r : history_raw_row) : bucket_row :=
  {| b_item_count := hr_item_count r; b_average_unit_price := hr_average_unit_price r;
     b_observed_at := hr_observed_at r; b_updated_at := now |}.

(** The [where] of the [do update]. *)
Definition bucket_changes (cur excl : bucket_row) : bool :=
  (b_observed_at cur <? b_observed_at excl)
  || ((b_observed_at excl =? b_observed_at cur)
      && (bool_decide (b_item_count excl <> b_item_count cur)
          || is_distinct_from (b_average_unit_price excl) (b_average_unit_price cur))).

Definition upsert_bucket (now : time) (rows : list history_raw_row)
    (acc : gmap bucket_key bucket_row * Z) (k : bucket_key) : gmap bucket_key bucket_row * Z :=
  let '(m, n) := acc in
  match latest_bucket rows k with
  | None => (m, n)
  | Some r =>
      let excl := bucket_row_of now r in
      match m !! k with
      | None => (<[k := excl]> m, n + 1)
      | Some cur => if bucket_changes cur excl then (<[k := excl]> m, n + 1) else (m, n)
      end
  end.

Definition upsertHistory (now : time) (uuid : string) (db : HistoryDB) : HistoryDB * Z :=
  let rows := List.filter (fun r => bool_decide (hr_request_id r = uuid)) (history_raw db) in
  let '(m, n) := foldl (upsert_bucket now rows) (buckets db, 0) (dedup (map bucket_of rows)) in
  ({| history_requests := history_requests db; history_raw := history_raw db;
      next_history_id := next_history_id db; buckets := m |}, n).

(** * The transaction *)

Section ingest.
Context `{Sha256} `{RequestEncoding}.

Definition canonicalHistoryRequestHash (req : IngestHistoryRequest) : result repo_error string :=
  match marshal_history req with
  | Some encoded => Ok (sha256 encoded)
  | None => Err HashRequest
  end.

Definition registerHistoryRequest (now : time) (uuid hash : string)
    (serverID acceptedEntries acceptedBuckets : Z) (db : HistoryDB) : HistoryDB * bool :=
  match history_requests db !! uuid with
  | Some _ => (db, false)
  | None =>
      let row :=
        {| hq_request_sha256 := hash; hq_server := serverID;
           hq_accepted_entries := acceptedEntries; hq_accepted_buckets := acceptedBuckets;
           hq_history_rows_touched := 0; hq_status := "processing"; hq_created_at := now;
           hq_completed_at := None |} in
      ({| history_requests := <[uuid := row]> (history_requests db);
          history_raw := history_raw db; next_history_id := next_history_id db;
          buckets := buckets db |}, true)
  end.

Definition no_timing : IngestPersistenceTiming :=
  {| Transaction := 0; Commit := 0; TransactionMeasured := false; CommitMeasured := false |}.

Definition existingHistoryIngestResult (fs : faults) (uuid expectedHash : string)
    (db : HistoryDB) : result repo_error IngestHistoryResult :=
  fail_if fails fs StepExisting with DatabaseFailed StepExisting else
  match history_requests db !! uuid with
  | None => Err (DatabaseFailed StepExisting)
  | Some row =>
      fail_if negb (equalHashes (hq_request_sha256 row) expectedHash)
        with RequestPayloadConflict else
      if bool_decide (hq_status row = "completed") then
        Ok {| AcceptedEntries := hq_accepted_entries row;
              AcceptedBuckets := hq_accepted_buckets row;
              HistoryRowsTouched := hq_history_rows_touched row;
              h_Duplicate := true; h_PersistenceTiming := no_timing |}
      else if bool_decide (hq_status row = "processing") then Err RequestAlreadyProcessing
      else Err (UnsupportedStatus (hq_status row))
  end.

Definition copy_history (fs : faults) (now : time) (uuid : string) (serverID acceptedBuckets : Z)
    (entries : list HistoryIngest) (db : HistoryDB) : result repo_error HistoryDB :=
  match copy_history_from (S (Z.to_nat (countHistoryBuckets entries)))
          (newRawHistoryCopySource uuid serverID entries) with
  | None => Err (DatabaseFailed StepCopy)
  | Some vs =>
      fail_if fails fs StepCopy with DatabaseFailed StepCopy else
      let rows := number_history now (next_history_id db) vs in
      fail_if negb (forallb raw_history_check rows) with ConstraintViolated else
      let copied := Z.of_nat (length vs) in
      fail_if negb (copied =? acceptedBuckets) with CopiedRows copied acceptedBuckets else
      Ok {| history_requests := history_requests db;
            history_raw := history_raw db ++ rows;
            next_history_id := next_history_id db + copied;
            buckets := buckets db |}
  end.

Definition completeHistoryRequest (now : time) (uuid : string) (touched : Z) (db : HistoryDB)
    : HistoryDB :=
  {| history_requests :=
       alter (fun row =>
           {| hq_request_sha256 := hq_request_sha256 row; hq_server := hq_server row;
              hq_accepted_entries := hq_accepted_entries row;
              hq_accepted_buckets := hq_accepted_buckets row;
              hq_history_rows_touched := touched; hq_status := "completed";
              hq_created_at := hq_created_at row; hq_completed_at := Some now |})
         uuid (history_requests db);
     history_raw := history_raw db; next_history_id := next_history_id db;
     buckets := buckets db |}.

Definition ingest_history_tx (fs : faults) (now : time) (uuid hash : string) (serverID : Z)
    (entries : list HistoryIngest) (db : HistoryDB)
    : result repo_error (IngestHistoryResult + Z * HistoryDB) :=
  let acceptedBuckets := countHistoryBuckets entries in
  fail_if fails fs StepBegin with DatabaseFailed StepBegin else
  fail_if fails fs StepRegister with DatabaseFailed StepRegister else
  let '(db1, registered) :=
    registerHistoryRequest now uuid hash serverID (Z.of_nat (length entries)) acceptedBuckets db in
  if negb registered then
    let! r := existingHistoryIngestResult fs uuid hash db1 in Ok (inl r)
  else
    let! db2 := copy_history fs now uuid serverID acceptedBuckets entries db1 in
    fail_if fails fs StepUpsert with DatabaseFailed StepUpsert else
    let '(db3, touched) := upsertHistory now uuid db2 in
    fail_if fails fs StepComplete with DatabaseFailed StepComplete else
    Ok (inr (touched, completeHistoryRequest now uuid touched db3)).

Definition stamp_history (el : elapsed) (r : IngestHistoryResult) : IngestHistoryResult :=
  {| AcceptedEntries := AcceptedEntries r; AcceptedBuckets := AcceptedBuckets r;
     HistoryRowsTouched := HistoryRowsTouched r; h_Duplicate := h_Duplicate r;
     h_PersistenceTiming :=
       {| Transaction := el_transaction el; Commit := Commit (h_PersistenceTiming r);
          TransactionMeasured := true;
          CommitMeasured := CommitMeasured (h_PersistenceTiming r) |} |}.

Definition IngestHistory (fs : faults) (el : elapsed) (now : time) (req : IngestHistoryRequest)
    (db : HistoryDB) : result repo_error IngestHistoryResult * HistoryDB :=
  match mapServer (ih_Server req) with
  | Err e => (Err e, db)
  | Ok serverID =>
  match canonicalHistoryRequestHash req with
  | Err e => (Err e, db)
  | Ok requestHash =>
  match scanUUID (ih_RequestID req) with
  | None => (Err InvalidRequestID, db)
  | Some uuid =>
      match ingest_history_tx fs now uuid requestHash serverID (ih_Entries req) db with
      | Err e => (Err e, db)
      | Ok (inl r) => (Ok (stamp_history el r), db)
      | Ok (inr (touched, db')) =>
          match commit fs with
          | CommitOk =>
              (Ok (stamp_history el
                 {| AcceptedEntries := Z.of_nat (length (ih_Entries req));
                    AcceptedBuckets := countHistoryBuckets (ih_Entries req);
                    HistoryRowsTouched := touched; h_Duplicate := false;
                    h_PersistenceTiming :=
                      {| Transaction := 0; Commit := el_commit el;
                         TransactionMeasured := false; CommitMeasured := true |} |}), db')
          | CommitFailed => (Err (DatabaseFailed StepCommit), db)
          | CommitAckLost => (Err (DatabaseFailed StepCommit), db')
          end
      end
  end end end.
End ingest.

(** * Reading the history *)

Section query.
Context `{Collation}.

(** [order by location_id, item_key, quality, bucket_at] *)
Definition bucket_order (a b : bucket_key) : bool :=
  let '(ka, ta) := a in let '(kb, tb) := b in
  if location_item_quality ka kb then true
  else if location_item_quality kb ka then false
  else ta <? tb.

Definition selects_bucket (serverID : Z) (lookup : MarketHistoryLookup) (k : bucket_key) : bool :=
  let '(s, l, i, q, t) := k in
  (s =? serverID) && bool_decide (l ∈ hl_LocationIDs lookup)
  && bool_decide ({| hq_ItemKey := i; hq_Quality := q |} ∈ hl_Entries lookup)
  && (pg_time (hl_RangeStart lookup) <=? t) && (t <? pg_time (hl_RangeEndExclusive lookup)).

(** The rows of the query, in order. *)
Definition history_rows (serverID : Z) (lookup : MarketHistoryLookup) (db : HistoryDB)
    : list (bucket_key * bucket_row) :=
  slice_stable (fun a b => bucket_order a.1 b.1)
    (List.filter (fun kr => selects_bucket serverID lookup kr.1) (map_to_list (buckets db))).

Definition history_point (kr : bucket_key * bucket_row) : MarketHistoryPoint :=
  {| hp_Timestamp := kr.1.2; hp_ItemCount := b_item_count kr.2;
     hp_AverageUnitPrice := b_average_unit_price kr.2 |}.

(** The loop over the rows: [histories] is built from the front, with the
    series being filled last. *)
Definition add_point (histories : list MarketHistorySeries) (kr : bucket_key * bucket_row)
    : list MarketHistorySeries :=
  let '(s, l, i, q, _) := kr.1 in
  let fresh :=
    {| hs_Server := unmapServer s; hs_MarketKey := EmptyString; hs_LocationID := l;
       hs_ItemKey := i; hs_Quality := q; hs_History := [history_point kr] |} in
  match last histories with
  | None => histories ++ [fresh]
  | Some cur =>
      if negb (hs_LocationID cur =? l) || negb (bool_decide (hs_ItemKey cur = i))
         || negb (hs_Quality cur =? q)
      then histories ++ [fresh]
      else removelast histories ++
             [{| hs_Server := hs_Server cur; hs_MarketKey := hs_MarketKey cur;
                 hs_LocationID := hs_LocationID cur; hs_ItemKey := hs_ItemKey cur;
                 hs_Quality := hs_Quality cur;
                 hs_History := hs_History cur ++ [history_point kr] |}]
  end.

Definition QueryMarketHistory (fs : faults) (lookup : MarketHistoryLookup) (db : HistoryDB)
    : result repo_error (list MarketHistorySeries) :=
  let! serverID := mapServer (hl_Server lookup) in
  if bool_decide (hl_LocationIDs lookup = []) || bool_decide (hl_Entries lookup = [])
  then Ok [] else
  fail_if fails fs StepQuery with DatabaseFailed StepQuery else
  Ok (foldl add_point [] (history_rows serverID lookup db)).

(** * Prices with trust evidence *)

(** [percentile_cont(0.5) within group (order by ...)], rounded: computed by
    the database over a non-empty list of prices. *)
Context (median : list Z -> Z).

Definition seven_days : duration := 7 * 24 * hour.

(** The rows [h join requested_entries e using (item_key, quality)] of one
    group: an entry that is asked for twice joins twice. *)
Definition joined_buckets (now : time) (lookup : CurrentPriceLookup) (k : price_key)
    (hdb : HistoryDB) : list bucket_row :=
  let '(s, l, i, q) := k in
  if bool_decide (l ∈ cl_LocationIDs lookup) then
    flat_map (fun e : PriceQueryEntry =>
        if bool_decide (pq_ItemKey e = i) && (pq_Quality e =? q) then
          omap (fun kr => let '(k', t) := kr.1 in
                  if bool_decide (k' = k) && (now - seven_days <=? t) then Some kr.2 else None)
            (map_to_list (buckets hdb))
        else [])
      (cl_Entries lookup)
  else [].

Definition trust_price (now : time) (lookup : CurrentPriceLookup) (hdb : HistoryDB)
    (k : price_key) (row : current_row) : CurrentPrice :=
  let rows := joined_buckets now lookup k hdb in
  let prices := omap b_average_unit_price rows in
  let p := stored_price k row in
  {| cp_Server := cp_Server p; cp_MarketKey := cp_MarketKey p; cp_LocationID := cp_LocationID p;
     cp_ItemKey := cp_ItemKey p; cp_Quality := cp_Quality p;
     cp_SellPriceMin := cp_SellPriceMin p; cp_SellPriceMinAt := cp_SellPriceMinAt p;
     cp_BuyPriceMax := cp_BuyPriceMax p; cp_BuyPriceMaxAt := cp_BuyPriceMaxAt p;
     cp_UpdatedAt := cp_UpdatedAt p;
     cp_HistoryObservations7D := Z.of_nat (length rows);
     cp_HistoryVolume7D := foldr (fun r n => b_item_count r + n) 0 rows;
     cp_MedianPrice7D := if bool_decide (prices = []) then None else Some (median prices) |}.

(** The rows of [current_market_prices c join requested_entries e]. *)
Definition joined_prices (serverID : Z) (lookup : CurrentPriceLookup) (db : DB)
    : list (price_key * current_row) :=
  flat_map (fun kr : price_key * current_row =>
      let '(s, l, i, q) := kr.1 in
      if (s =? serverID) && bool_decide (l ∈ cl_LocationIDs lookup)
      then omap (fun e : PriceQueryEntry =>
                   if bool_decide (pq_ItemKey e = i) && (pq_Quality e =? q) then Some kr else None)
             (cl_Entries lookup)
      else [])
    (map_to_list (current_prices db)).

(** The casts to [bigint] fail when a sum does not fit. *)
Definition QueryCurrentPricesWithTrust (fs : faults) (now : time) (lookup : CurrentPriceLookup)
    (db : DB) (hdb : HistoryDB) : result repo_error (list CurrentPrice) :=
  let! serverID := mapServer (cl_Server lookup) in
  if bool_decide (cl_LocationIDs lookup = []) || bool_decide (cl_Entries lookup = [])
  then Ok [] else
  fail_if fails fs StepQuery with DatabaseFailed StepQuery else
  let prices :=
    map (fun kr => trust_price now lookup hdb kr.1 kr.2)
      (slice_stable (fun a b => location_item_quality a.1 b.1) (joined_prices serverID lookup db)) in
  fail_if existsb (fun p => max_int64 <? cp_HistoryVolume7D p) prices
    with DatabaseFailed StepQuery else
  Ok prices.
End query.
