(* ===== verification/HistoryRepoSpec.v ===== *)
(** What history ingestion promises, and the grouping of the history query:
    proved of the definitions of [HistoryRepo]. *)
From S2P Require Import Prelude GoLists GoBase Domain Tx Lww PriceRepo PriceRepoSpec HistoryRepo.
Local Open Scope Z_scope.

(** * The copy source *)

Definition bucket_values (uuid : string) (s : Z) (e : HistoryIngest) (bs : list HistoryBucketIngest)
    : list history_values :=
  map (fun b => {| hv_request_id := uuid; hv_server := s; hv_entry := e; hv_bucket := b |}) bs.

(** The rows of a request: its buckets, entry by entry. *)
Definition history_values_of (uuid : string) (s : Z) (entries : list HistoryIngest)
    : list history_values :=
  flat_map (fun e => bucket_values uuid s e (hi_History e)) entries.

Lemma length_history_values_of uuid s entries :
  Z.of_nat (length (history_values_of uuid s entries)) = countHistoryBuckets entries.
Proof.
  induction entries as [|e entries IH]; simpl; [done|].
  rewrite length_app. unfold bucket_values. rewrite length_map. lia.
Qed.

Record source_at (uuid : string) (sv : Z) (entries : list HistoryIngest) (i j : nat)
    (s : rawHistoryCopySource) : Prop := {
  at_uuid : hs_request_id s = uuid;
  at_server : hs_server_id s = sv;
  at_entries : hs_entries s = entries;
  at_entry : entryIndex s = Z.of_nat i;
  at_bucket : bucketIndex s = Z.of_nat j;
}.

(** What is left to copy from the [j]-th bucket of the [i]-th entry. *)
Definition remaining uuid sv (entries : list HistoryIngest) (i j : nat) : list history_values :=
  match entries !! i with
  | None => []
  | Some e => bucket_values uuid sv e (drop j (hi_History e))
              ++ history_values_of uuid sv (drop (S i) entries)
  end.

Lemma remaining_start uuid sv entries i :
  remaining uuid sv entries i 0 = history_values_of uuid sv (drop i entries).
Proof.
  unfold remaining. destruct (entries !! i) as [e|] eqn:E.
  - by rewrite (drop_S entries e i E).
  - apply lookup_ge_None in E. by rewrite drop_ge.
Qed.

Lemma next_bucket_spec uuid sv entries i j s fuel :
  source_at uuid sv entries i j s -> (length entries < fuel + i)%nat ->
  match remaining uuid sv entries i j with
  | [] => fst (next_bucket fuel s) = false
  | v :: vs =>
      exists i' j' s', next_bucket fuel s = (true, s') /\ HistoryValues s' = Some v /\
        source_at uuid sv entries i' j' s' /\ remaining uuid sv entries i' j' = vs
  end.
Proof.
  revert i j s; induction fuel as [|fuel IH]; intros i j s Hs Hf.
  { unfold remaining. rewrite lookup_ge_None_2 by lia. done. }
  destruct Hs as [Hu Hsv He Hi Hj]. unfold remaining. cbn [next_bucket].
  rewrite He, Hi, Nat2Z.id. destruct (entries !! i) as [e|] eqn:E; [|done].
  rewrite Hj. destruct (Z.ltb_spec (Z.of_nat j) (Z.of_nat (length (hi_History e)))) as [Hlt|Hge].
  - destruct (lookup_lt_is_Some_2 (hi_History e) j ltac:(lia)) as [b Hb].
    rewrite (drop_S _ b j Hb). simpl. exists i, (S j). eexists. split_and!; [done| | |].
    + unfold HistoryValues. simpl. pose proof (lookup_lt_Some _ _ _ E).
      rewrite (proj2 (Z.leb_gt _ _)) by lia. by rewrite !Nat2Z.id, E, Hb, Hu, Hsv.
    + split; simpl; try done; lia.
    + unfold remaining. by rewrite E.
  - rewrite drop_ge by lia. simpl. rewrite <- remaining_start.
    apply (IH (S i) 0%nat); [|lia]. split; simpl; try done. lia.
Qed.

Lemma copy_history_position uuid sv entries i j s fuel :
  source_at uuid sv entries i j s ->
  (length (remaining uuid sv entries i j) < fuel)%nat ->
  copy_history_from fuel s = Some (remaining uuid sv entries i j).
Proof.
  revert i j s; induction fuel as [|fuel IH]; intros i j s Hs Hf; [lia|].
  cbn [copy_history_from]. unfold HistoryNext.
  pose proof (next_bucket_spec uuid sv entries i j s (S (length (hs_entries s))) Hs) as Hn.
  rewrite (at_entries _ _ _ _ _ _ Hs) in Hn |- *. specialize (Hn ltac:(lia)).
  destruct (remaining uuid sv entries i j) as [|v vs].
  - destruct (next_bucket _ _) as [more s']. simpl in Hn. by subst more.
  - destruct Hn as (i' & j' & s' & -> & -> & Hs' & Hrem). simpl.
    rewrite (IH i' j' s' Hs'); [by rewrite Hrem|]. rewrite Hrem. simpl in Hf. lia.
Qed.

Lemma copy_history_all uuid sv entries fuel :
  (Z.to_nat (countHistoryBuckets entries) < fuel)%nat ->
  copy_history_from fuel (newRawHistoryCopySource uuid sv entries)
  = Some (history_values_of uuid sv entries).
Proof.
  intros Hf. rewrite (copy_history_position uuid sv entries 0 0); [by rewrite remaining_start|done|].
  rewrite remaining_start, drop_0, <- (Nat2Z.id (length _)), length_history_values_of. done.
Qed.

(** C34. Feeding [COPY] from nested history entries terminates: with fuel
    above the number of buckets, the walk over entries and buckets yields the
    flattened list of buckets, entry by entry, skipping the entries that have
    none; and the number of rows is the count registered in the ledger. *)
Theorem history_copy_source_flattens uuid sv entries fuel :
  (Z.to_nat (countHistoryBuckets entries) < fuel)%nat ->
  exists vs, copy_history_from fuel (newRawHistoryCopySource uuid sv entries) = Some vs /\
    vs = history_values_of uuid sv entries /\
    Z.of_nat (length vs) = countHistoryBuckets entries /\
    HistoryValues (newRawHistoryCopySource uuid sv entries) = None.
Proof.
  intros Hf. eexists. split_and!; [by apply copy_history_all|done| |done].
  apply length_history_values_of.
Qed.

(** * Rows *)

Lemma length_number_history now i vs : length (number_history now i vs) = length vs.
Proof. revert i; induction vs; intros i; simpl; congruence. Qed.

Lemma number_history_lookup now i vs n r :
  number_history now i vs !! n = Some r <->
  exists v, vs !! n = Some v /\ r = history_raw_of now (i + Z.of_nat n) v.
Proof.
  revert i n; induction vs as [|v vs IH]; intros i n; simpl; [naive_solver|].
  destruct n as [|n]; simpl.
  - rewrite Z.add_0_r. naive_solver.
  - rewrite IH. by replace (i + 1 + Z.of_nat n) with (i + Z.of_nat (S n)) by lia.
Qed.

Definition new_history_rows (now : time) (uuid : string) (s : Z) (entries : list HistoryIngest)
    (db : HistoryDB) : list history_raw_row :=
  number_history now (next_history_id db) (history_values_of uuid s entries).

Lemma new_history_rows_spec now uuid s entries db r :
  r ∈ new_history_rows now uuid s entries db ->
  hr_request_id r = uuid /\ hr_server r = s /\
  next_history_id db <= hr_id r < next_history_id db + countHistoryBuckets entries.
Proof.
  intros [n Hn]%list_elem_of_lookup. apply number_history_lookup in Hn as (v & Hv & ->).
  pose proof (lookup_lt_Some _ _ _ Hv) as Hlt.
  pose proof (length_history_values_of uuid s entries).
  apply list_elem_of_lookup_2 in Hv. unfold history_values_of in Hv.
  apply list_elem_of_In, in_flat_map in Hv as (e & _ & Hv%list_elem_of_In).
  apply list_elem_of_fmap in Hv as (b & -> & _). simpl. split_and!; [done|done|lia|lia].
Qed.

Lemma new_history_rows_ids now uuid s entries db :
  NoDup (map hr_id (new_history_rows now uuid s entries db)).
Proof.
  apply NoDup_alt. intros i j x Hi Hj.
  rewrite list_lookup_fmap in Hi. rewrite list_lookup_fmap in Hj.
  apply fmap_Some in Hi as (r1 & H1 & ->). apply fmap_Some in Hj as (r2 & H2 & Heq).
  apply number_history_lookup in H1 as (? & _ & ->).
  apply number_history_lookup in H2 as (? & _ & ->). simpl in Heq. lia.
Qed.

(** * Registers *)

Abbreviation bucket_register := (option (time * (Z * option Z))) (only parsing).

Definition capture_at (r : history_raw_row) : option time := Some (hr_observed_at r).
Definition capture_value (r : history_raw_row) : Z * option Z :=
  (hr_item_count r, hr_average_unit_price r).

Definition row_bucket (r : bucket_row) : time * (Z * option Z) :=
  (b_observed_at r, (b_item_count r, b_average_unit_price r)).

(** What a database says of a bucket. *)
Definition bucket_view (db : HistoryDB) (k : bucket_key) : bucket_register :=
  row_bucket <$> buckets db !! k.

Definition request_bucket (rows : list history_raw_row) (k : bucket_key) : bucket_register :=
  (fun r => (hr_observed_at r, capture_value r)) <$> latest_bucket rows k.

#[export] Instance capture_less_strict_weak : StrictWeak capture_less.
Proof.
  apply @then_less_strict_weak; [apply (less_on_strict_weak Z.ltb hr_observed_at)|].
  apply (less_on_strict_weak Z.ltb hr_id).
Qed.

Lemma capture_less_false a b :
  capture_less a b = false ->
  hr_observed_at b < hr_observed_at a \/
  hr_observed_at b = hr_observed_at a /\ hr_id b <= hr_id a.
Proof.
  unfold capture_less, then_less.
  rewrite orb_false_iff, andb_false_iff, negb_false_iff, !Z.ltb_ge, Z.ltb_lt. lia.
Qed.

Lemma latest_bucket_Some rows k r :
  latest_bucket rows k = Some r ->
  r ∈ rows /\ bucket_of r = k /\
  forall r', r' ∈ rows -> bucket_of r' = k ->
    hr_observed_at r' < hr_observed_at r \/
    hr_observed_at r' = hr_observed_at r /\ hr_id r' <= hr_id r.
Proof.
  intros Hb. pose proof (best_elem _ _ _ Hb) as Hr%list_elem_of_In.
  apply List.filter_In in Hr as [Hr%list_elem_of_In Hk]. bool_facts.
  split_and!; [done|done|]. intros r' Hr' Hk'. apply capture_less_false.
  eapply best_max; [apply _|done|]. apply list_elem_of_In, List.filter_In.
  split; [by apply list_elem_of_In|]. by apply bool_decide_eq_true.
Qed.

Lemma latest_bucket_None rows k : latest_bucket rows k = None <-> k ∉ map bucket_of rows.
Proof.
  unfold latest_bucket. rewrite best_None. split.
  - intros Hnil (r & -> & Hr)%list_elem_of_fmap.
    assert (r ∈ List.filter (fun r' => bool_decide (bucket_of r' = bucket_of r)) rows) as Hin.
    { apply list_elem_of_In, List.filter_In. split; [by apply list_elem_of_In|].
      by apply bool_decide_eq_true. }
    rewrite Hnil in Hin. by apply elem_of_nil in Hin.
  - intros Hk. apply filter_none. intros r Hr. apply bool_decide_eq_false.
    intros <-. by apply Hk, list_elem_of_fmap_2.
Qed.

Lemma request_bucket_newest rows k :
  is_newest bucket_of capture_at capture_value rows k (request_bucket rows k).
Proof.
  unfold request_bucket. destruct (latest_bucket rows k) as [r|] eqn:E; simpl.
  - apply latest_bucket_Some in E as (Hr & Hk & Hmax). split; [by exists r|].
    intros r' t' Hr' Hk' [= <-]. destruct (Hmax r' Hr' Hk'); lia.
  - apply latest_bucket_None in E. intros r Hr <-. exfalso. by apply E, list_elem_of_fmap_2.
Qed.

(** * One upsert *)

Lemma bucket_changes_spec now cur r :
  bucket_changes cur (bucket_row_of now r) = true <->
  lww (Some (row_bucket cur)) (Some (hr_observed_at r, capture_value r)) <> Some (row_bucket cur).
Proof.
  rewrite lww_changes. unfold bucket_changes, is_distinct_from, row_bucket, capture_value. simpl.
  rewrite orb_true_iff, andb_true_iff, orb_true_iff, Z.ltb_lt, Z.eqb_eq, !bool_decide_eq_true.
  split.
  - intros Hc. eexists _, _. split; [done|]. right. eexists _, _. split; [done|].
    destruct Hc as [?|[-> [?|?]]]; [by left|right; split; [done|congruence]..].
  - intros (? & ? & [= <- <-] & [?|(? & ? & [= <- <-] & [?|[-> Hne]])]); [done|by left|].
    right. split; [done|].
    destruct (decide (hr_item_count r = b_item_count cur)) as [E1|]; [|by left].
    destruct (decide (hr_average_unit_price r = b_average_unit_price cur)) as [E2|]; [|by right].
    congruence.
Qed.

Lemma upsert_bucket_fold now rows m n ks :
  NoDup ks ->
  let '(m', n') := foldl (upsert_bucket now rows) (m, n) ks in
  (forall k, row_bucket <$> m' !! k =
    if bool_decide (k ∈ ks) then lww (row_bucket <$> m !! k) (request_bucket rows k)
    else row_bucket <$> m !! k) /\
  n' = n + count_if (fun k => bool_decide (row_bucket <$> m' !! k <> row_bucket <$> m !! k)) ks.
Proof.
  intros Hnd. revert m n. induction Hnd as [|k ks Hk Hnd IH]; intros m n.
  { simpl. split; [done|]. unfold count_if; simpl; lia. }
  cbn [foldl].
  assert (exists m1 d, upsert_bucket now rows (m, n) k = (m1, n + d) /\
    row_bucket <$> m1 !! k = lww (row_bucket <$> m !! k) (request_bucket rows k) /\
    d = (if bool_decide (row_bucket <$> m1 !! k <> row_bucket <$> m !! k) then 1 else 0) /\
    forall k', k' <> k -> m1 !! k' = m !! k') as (m1 & d & -> & Hk1 & Hd & Hne).
  { cbn [upsert_bucket]. unfold request_bucket. destruct (latest_bucket rows k) as [r|];
      cbn [fmap option_fmap option_map].
    - destruct (m !! k) as [cur|] eqn:E; cbn [fmap option_fmap option_map].
      + destruct (bucket_changes cur (bucket_row_of now r)) eqn:Ec.
        * pose proof (proj1 (bucket_changes_spec now cur r) Ec) as Hc.
          exists (<[k := bucket_row_of now r]> m), 1.
          rewrite lookup_insert_eq. split_and!; [done| | |].
          -- simpl in *. unfold row_bucket, capture_value in *. simpl in *.
             destruct (_ <=? _); [done|]. by destruct Hc.
          -- rewrite bool_decide_eq_true_2; [done|]. intros Heq. apply Hc.
             simpl in *. unfold row_bucket, capture_value in *. simpl in *.
             destruct (_ <=? _); [exact Heq|done].
          -- intros. by apply lookup_insert_ne.
        * assert (lww (Some (row_bucket cur)) (Some (hr_observed_at r, capture_value r))
            = Some (row_bucket cur)) as Hc.
          { destruct (decide (lww (Some (row_bucket cur)) (Some (hr_observed_at r, capture_value r))
              = Some (row_bucket cur))) as [|Hne]; [done|].
            apply (bucket_changes_spec now) in Hne. congruence. }
          exists m, 0. rewrite E. cbn [fmap option_fmap option_map].
          split_and!; [f_equal; lia|by rewrite Hc| |done].
          by rewrite bool_decide_eq_false_2 by tauto.
      + exists (<[k := bucket_row_of now r]> m), 1. rewrite lookup_insert_eq.
        split_and!; [done..|]. intros. by apply lookup_insert_ne.
    - exists m, 0. split_and!; [f_equal; lia|by rewrite lww_None_r| |done].
      by rewrite bool_decide_eq_false_2 by tauto. }
  specialize (IH m1 (n + d)). destruct (foldl _ _ ks) as [m' n']. destruct IH as [Hm' ->].
  assert (row_bucket <$> m' !! k = row_bucket <$> m1 !! k) as Hk'.
  { rewrite Hm'. by rewrite bool_decide_eq_false_2. }
  split.
  - intros k'. destruct (decide (k' = k)) as [->|Hkk].
    + rewrite (bool_decide_eq_true_2 (k ∈ k :: ks)) by set_solver. by rewrite Hk', Hk1.
    + rewrite Hm', Hne by done.
      by rewrite (bool_decide_ext (k' ∈ k :: ks) (k' ∈ ks)) by set_solver.
  - change (k :: ks) with ([k] ++ ks). rewrite count_if_app, Z.add_assoc. f_equal.
    + unfold count_if. simpl. rewrite Hk', Hd. by destruct (bool_decide _).
    + apply count_if_ext. intros k' Hin. rewrite Hne; [done|]. by intros ->.
Qed.

Lemma upsertHistory_spec now uuid db :
  let rows := List.filter (fun r => bool_decide (hr_request_id r = uuid)) (history_raw db) in
  let '(db', n) := upsertHistory now uuid db in
  history_requests db' = history_requests db /\ history_raw db' = history_raw db /\
  next_history_id db' = next_history_id db /\
  (forall k, bucket_view db' k = lww (bucket_view db k) (request_bucket rows k)) /\
  n = count_if (fun k => bool_decide (bucket_view db' k <> bucket_view db k))
        (dedup (map bucket_of rows)).
Proof.
  intros rows. unfold upsertHistory. fold rows.
  pose proof (upsert_bucket_fold now rows (buckets db) 0 (dedup (map bucket_of rows))
                (NoDup_dedup _)) as Hf.
  destruct (foldl _ _ _) as [m n]. destruct Hf as [Hm ->].
  split_and!; [done..| |by rewrite Z.add_0_l].
  intros k. unfold bucket_view. simpl. rewrite Hm.
  case_bool_decide as Hk; [done|]. rewrite elem_of_dedup in Hk.
  unfold request_bucket. rewrite (proj2 (latest_bucket_None rows k) Hk).
  cbn [fmap option_fmap option_map]. by rewrite lww_None_r.
Qed.

(** * What one request does *)

Definition completed_history_row (now : time) (hash : string) (s entries accepted touched : Z)
    : history_request_row :=
  {| hq_request_sha256 := hash; hq_server := s; hq_accepted_entries := entries;
     hq_accepted_buckets := accepted; hq_history_rows_touched := touched;
     hq_status := "completed"; hq_created_at := now; hq_completed_at := Some now |}.

Definition history_effect (now : time) (uuid hash : string) (s : Z) (entries : list HistoryIngest)
    (db : HistoryDB) : Z * HistoryDB :=
  let db1 := (registerHistoryRequest now uuid hash s (Z.of_nat (length entries))
                (countHistoryBuckets entries) db).1 in
  let db2 := {| history_requests := history_requests db1;
                history_raw := history_raw db1 ++ new_history_rows now uuid s entries db1;
                next_history_id := next_history_id db1 + countHistoryBuckets entries;
                buckets := buckets db1 |} in
  let '(db3, n) := upsertHistory now uuid db2 in
  (n, completeHistoryRequest now uuid n db3).

(** Whether the rows of a request satisfy the constraints of the tables. *)
Definition storable (s : Z) (entries : list HistoryIngest) : bool :=
  forallb (fun v => raw_history_check (history_raw_of 0 0 v)) (history_values_of EmptyString s entries).

Lemma storable_rows now uuid s entries i :
  forallb raw_history_check (number_history now i (history_values_of uuid s entries))
  = storable s entries.
Proof.
  unfold storable, history_values_of. revert i.
  induction entries as [|e entries IH]; intros i; simpl; [done|].
  rewrite forallb_app, <- (IH (i + Z.of_nat (length (hi_History e)))). clear IH.
  revert i. induction (hi_History e) as [|b bs IHb]; intros i; simpl.
  - by rewrite Z.add_0_r.
  - replace (i + Z.of_nat (S (length bs))) with (i + 1 + Z.of_nat (length bs)) by lia.
    rewrite IHb. by rewrite andb_assoc.
Qed.

Lemma ingest_history_tx_eq fs now uuid hash s entries db :
  ingest_history_tx fs now uuid hash s entries db =
  fail_if fails fs StepBegin with DatabaseFailed StepBegin else
  fail_if fails fs StepRegister with DatabaseFailed StepRegister else
  match history_requests db !! uuid with
  | Some _ => let! r := existingHistoryIngestResult fs uuid hash db in Ok (inl r)
  | None =>
      fail_if fails fs StepCopy with DatabaseFailed StepCopy else
      fail_if negb (storable s entries) with ConstraintViolated else
      fail_if fails fs StepUpsert with DatabaseFailed StepUpsert else
      fail_if fails fs StepComplete with DatabaseFailed StepComplete else
      Ok (inr (history_effect now uuid hash s entries db))
  end.
Proof.
  unfold ingest_history_tx, history_effect. case_if; [done|]. case_if; [done|].
  unfold registerHistoryRequest.
  destruct (history_requests db !! uuid) as [q|] eqn:E; simpl; [done|].
  unfold copy_history. rewrite copy_history_all by lia.
  destruct (fails fs StepCopy); [done|]. rewrite storable_rows.
  destruct (storable s entries); [|done]. rewrite length_history_values_of, Z.eqb_refl.
  cbn [negb rbind]. destruct (fails fs StepUpsert); [done|].
  by destruct (upsertHistory _ _ _).
Qed.

(** * The invariant *)

Record history_inv (db : HistoryDB) : Prop := {
  hinv_completed u q :
    history_requests db !! u = Some q ->
    hq_status q = "completed" /\ is_Some (hq_completed_at q) /\
    0 <= hq_history_rows_touched q <= hq_accepted_buckets q /\
    hq_accepted_buckets q =
      count_if (fun r => bool_decide (hr_request_id r = u)) (history_raw db);
  hinv_raw r :
    r ∈ history_raw db ->
    is_Some (history_requests db !! hr_request_id r) /\ hr_id r < next_history_id db /\
    raw_history_check r = true;
  hinv_ids : NoDup (map hr_id (history_raw db));
  hinv_bucket k :
    is_newest bucket_of capture_at capture_value (history_raw db) k (bucket_view db k);
}.

Lemma history_inv_empty : history_inv empty_history_db.
Proof.
  split; simpl.
  - intros u q Hq. by rewrite lookup_empty in Hq.
  - intros r Hr. by apply elem_of_nil in Hr.
  - constructor.
  - intros k. unfold bucket_view. simpl. rewrite lookup_empty. apply is_newest_nil.
Qed.

Lemma fresh_history_filter now uuid s entries db :
  history_inv db -> history_requests db !! uuid = None ->
  List.filter (fun r => bool_decide (hr_request_id r = uuid))
    (history_raw db ++ new_history_rows now uuid s entries db)
  = new_history_rows now uuid s entries db.
Proof.
  intros Hinv Hu. rewrite List.filter_app, filter_none, filter_all; [done| |].
  - intros r Hr. apply bool_decide_eq_true. by apply new_history_rows_spec in Hr as [? _].
  - intros r Hr. apply bool_decide_eq_false. intros <-.
    apply (hinv_raw db Hinv) in Hr as [[q Hq] _]. congruence.
Qed.

Lemma history_effect_spec now uuid hash s entries db :
  history_inv db -> history_requests db !! uuid = None ->
  let rows := new_history_rows now uuid s entries db in
  let '(n, db') := history_effect now uuid hash s entries db in
  history_requests db' =
    <[uuid := completed_history_row now hash s (Z.of_nat (length entries))
                (countHistoryBuckets entries) n]> (history_requests db) /\
  history_raw db' = history_raw db ++ rows /\
  next_history_id db' = next_history_id db + countHistoryBuckets entries /\
  (forall k, bucket_view db' k = lww (bucket_view db k) (request_bucket rows k)) /\
  n = count_if (fun k => bool_decide (bucket_view db' k <> bucket_view db k))
        (dedup (map bucket_of rows)).
Proof.
  intros Hinv Hu rows. unfold history_effect, registerHistoryRequest. rewrite Hu.
  cbn [fst history_requests history_raw next_history_id buckets].
  change (new_history_rows now uuid s entries _) with rows.
  match goal with |- context [upsertHistory _ _ ?d] => set (db2 := d) end.
  pose proof (upsertHistory_spec now uuid db2) as Hup. simpl in Hup.
  replace (List.filter _ _) with rows in Hup by (symmetry; by apply fresh_history_filter).
  destruct (upsertHistory now uuid db2) as [db3 n].
  destruct Hup as (Hreq & Hraw & Hnext & Hview & Hn).
  unfold completeHistoryRequest. simpl. split_and!; [|done|done|exact Hview|exact Hn].
  rewrite Hreq. simpl. rewrite alter_insert_eq. simpl. by rewrite ?insert_insert_eq.
Qed.

Lemma new_history_length now uuid s entries db :
  Z.of_nat (length (new_history_rows now uuid s entries db)) = countHistoryBuckets entries.
Proof.
  unfold new_history_rows. rewrite length_number_history. apply length_history_values_of.
Qed.

Lemma history_effect_inv now uuid hash s entries db :
  history_inv db -> history_requests db !! uuid = None -> storable s entries = true ->
  history_inv (history_effect now uuid hash s entries db).2.
Proof.
  intros Hinv Hu Hst.
  pose proof (history_effect_spec now uuid hash s entries db Hinv Hu) as He.
  destruct (history_effect _ _ _ _ _ _) as [n db']. simpl in *.
  destruct He as (Hreq & Hraw & Hnext & Hview & Hn).
  pose proof (new_history_length now uuid s entries db) as Hlen.
  split.
  - intros u q. rewrite Hreq, Hraw, lookup_insert. case_decide as E.
    + intros [= <-]. simpl. subst u.
      assert (0 <= n <= countHistoryBuckets entries) as Hb.
      { rewrite Hn, <- Hlen.
        match goal with |- _ <= count_if ?p ?l <= _ => pose proof (count_if_bounds p l) end.
        pose proof (length_dedup_from [] (map bucket_of (new_history_rows now uuid s entries db))) as Hl.
        rewrite length_map in Hl. unfold dedup in *. lia. }
      split_and!; [done|eauto|lia|lia|].
      unfold count_if. rewrite fresh_history_filter by done. by rewrite Hlen.
    + intros Hq. destruct (hinv_completed db Hinv u q Hq) as (? & ? & ? & Hc).
      split_and!; [done|done|lia|lia|]. rewrite Hc at 1. rewrite count_if_app.
      unfold count_if at 3. rewrite filter_none; [simpl; lia|].
      intros r Hr. apply new_history_rows_spec in Hr as [-> _]. by apply bool_decide_eq_false.
  - intros r. rewrite Hraw, Hreq, Hnext. intros [Hr|Hr]%elem_of_app.
    + destruct (hinv_raw db Hinv r Hr) as (? & ? & ?).
      assert (0 <= countHistoryBuckets entries) by (rewrite <- Hlen; lia).
      split_and!; [|lia|done].
      destruct (decide (uuid = hr_request_id r)) as [->|]; [by rewrite lookup_insert_eq|].
      by rewrite lookup_insert_ne.
    + assert (raw_history_check r = true) as Hchk.
      { pose proof (storable_rows now uuid s entries (next_history_id db)) as Hs.
        rewrite Hst in Hs.
        assert (number_history now (next_history_id db) (history_values_of uuid s entries)
          = new_history_rows now uuid s entries db) as Heq by done.
        rewrite Heq in Hs. rewrite forallb_forall in Hs. by apply Hs, list_elem_of_In. }
      apply new_history_rows_spec in Hr as (-> & _ & ?). rewrite lookup_insert_eq.
      split_and!; [eauto|lia|done].
  - rewrite Hraw, map_app. apply NoDup_app. split_and!;
      [apply (hinv_ids db Hinv)| |apply new_history_rows_ids].
    intros i (r & -> & Hr)%list_elem_of_fmap (r' & Heq & Hr')%list_elem_of_fmap.
    apply (hinv_raw db Hinv) in Hr as (_ & ? & _).
    apply new_history_rows_spec in Hr' as (_ & _ & ?). lia.
  - intros k. rewrite Hview, Hraw.
    apply is_newest_app; [apply (hinv_bucket db Hinv)|apply request_bucket_newest].
Qed.

(** * Requests *)

Section requests.
Context `{Sha256} `{RequestEncoding}.

Record history_prepared (req : IngestHistoryRequest) (s : Z) (hash uuid : string) : Prop := {
  hprep_server : mapServer (ih_Server req) = Ok s;
  hprep_hash : canonicalHistoryRequestHash req = Ok hash;
  hprep_uuid : scanUUID (ih_RequestID req) = Some uuid;
}.

(** The first thing that stops a new request, if any. *)
Definition history_stops (fs : faults) (s : Z) (entries : list HistoryIngest) : option repo_error :=
  if fails fs StepBegin then Some (DatabaseFailed StepBegin) else
  if fails fs StepRegister then Some (DatabaseFailed StepRegister) else
  if fails fs StepCopy then Some (DatabaseFailed StepCopy) else
  if negb (storable s entries) then Some ConstraintViolated else
  if fails fs StepUpsert then Some (DatabaseFailed StepUpsert) else
  if fails fs StepComplete then Some (DatabaseFailed StepComplete) else None.

Definition history_fresh_result (el : elapsed) (entries accepted touched : Z) : IngestHistoryResult :=
  {| AcceptedEntries := entries; AcceptedBuckets := accepted; HistoryRowsTouched := touched;
     h_Duplicate := false;
     h_PersistenceTiming :=
       {| Transaction := el_transaction el; Commit := el_commit el;
          TransactionMeasured := true; CommitMeasured := true |} |}.

Definition history_replay_result (el : elapsed) (q : history_request_row) : IngestHistoryResult :=
  {| AcceptedEntries := hq_accepted_entries q; AcceptedBuckets := hq_accepted_buckets q;
     HistoryRowsTouched := hq_history_rows_touched q; h_Duplicate := true;
     h_PersistenceTiming :=
       {| Transaction := el_transaction el; Commit := 0;
          TransactionMeasured := true; CommitMeasured := false |} |}.

Lemma IngestHistory_new fs el now req s hash uuid db :
  history_prepared req s hash uuid -> history_requests db !! uuid = None ->
  IngestHistory fs el now req db =
  match history_stops fs s (ih_Entries req) with
  | Some e => (Err e, db)
  | None =>
      let '(n, db') := history_effect now uuid hash s (ih_Entries req) db in
      match commit fs with
      | CommitOk =>
          (Ok (history_fresh_result el (Z.of_nat (length (ih_Entries req)))
                 (countHistoryBuckets (ih_Entries req)) n), db')
      | CommitFailed => (Err (DatabaseFailed StepCommit), db)
      | CommitAckLost => (Err (DatabaseFailed StepCommit), db')
      end
  end.
Proof.
  intros [Hs Hh Hu] Hnew. unfold IngestHistory. rewrite Hs, Hh, Hu, ingest_history_tx_eq, Hnew.
  unfold history_stops. repeat (case_if; [done|]). by destruct (history_effect _ _ _ _ _ _).
Qed.

Lemma IngestHistory_known fs el now req s hash uuid db q :
  history_prepared req s hash uuid -> history_requests db !! uuid = Some q ->
  hq_status q = "completed" ->
  IngestHistory fs el now req db =
  (match List.find (fails fs) [StepBegin; StepRegister; StepExisting] with
   | Some st => Err (DatabaseFailed st)
   | None => if bool_decide (hq_request_sha256 q = hash) then Ok (history_replay_result el q)
             else Err RequestPayloadConflict
   end, db).
Proof.
  intros [Hs Hh Hu] Hq Hst. unfold IngestHistory. rewrite Hs, Hh, Hu, ingest_history_tx_eq, Hq.
  simpl. destruct (fails fs StepBegin); [done|]. destruct (fails fs StepRegister); [done|].
  unfold existingHistoryIngestResult. destruct (fails fs StepExisting); [done|].
  rewrite Hq, Hst. destruct (decide (hq_request_sha256 q = hash)) as [E|E].
  - rewrite (bool_decide_eq_true_2 _ E). by rewrite (proj2 (equalHashes_eq _ _) E).
  - rewrite (bool_decide_eq_false_2 _ E).
    destruct (equalHashes _ _) eqn:E2; [by apply equalHashes_eq in E2|done].
Qed.

Lemma IngestHistory_atomic fs el now req db :
  history_inv db ->
  (IngestHistory fs el now req db).2 = db \/
  exists s hash uuid, history_prepared req s hash uuid /\ history_requests db !! uuid = None /\
    storable s (ih_Entries req) = true /\
    (IngestHistory fs el now req db).2 = (history_effect now uuid hash s (ih_Entries req) db).2.
Proof.
  intros Hinv.
  destruct (mapServer (ih_Server req)) as [s|e] eqn:Hs; [|left; unfold IngestHistory; by rewrite Hs].
  destruct (canonicalHistoryRequestHash req) as [hash|e] eqn:Hh;
    [|left; unfold IngestHistory; by rewrite Hs, Hh].
  destruct (scanUUID (ih_RequestID req)) as [uuid|] eqn:Hu;
    [|left; unfold IngestHistory; by rewrite Hs, Hh, Hu].
  assert (history_prepared req s hash uuid) as Hp by done.
  destruct (history_requests db !! uuid) as [q|] eqn:Hq.
  - left. destruct (hinv_completed db Hinv uuid q Hq) as [Hst _].
    by rewrite (IngestHistory_known fs el now req s hash uuid db q Hp Hq Hst).
  - rewrite (IngestHistory_new fs el now req s hash uuid db Hp Hq).
    destruct (history_stops fs s (ih_Entries req)) eqn:Hstop; [by left|].
    assert (storable s (ih_Entries req) = true) as Hst.
    { unfold history_stops in Hstop. destruct (storable s (ih_Entries req)); [done|].
      simpl in Hstop.
      by destruct (fails fs StepBegin), (fails fs StepRegister), (fails fs StepCopy). }
    destruct (history_effect _ _ _ _ _ _) as [n db'] eqn:E.
    destruct (commit fs); [right|by left|right]; exists s, hash, uuid; by rewrite E.
Qed.

Inductive history_step (db : HistoryDB) : HistoryDB -> Prop :=
  | run_history fs el now req : history_step db (IngestHistory fs el now req db).2.

Lemma history_step_inv db db' : history_step db db' -> history_inv db -> history_inv db'.
Proof.
  intros [fs el now req] Hinv.
  destruct (IngestHistory_atomic fs el now req db Hinv)
    as [->|(s & hash & uuid & _ & Hu & Hst & ->)]; [done|]. by apply history_effect_inv.
Qed.

(** C30. In every reachable database the history read model is the newest
    capture of the audit trail, bucket by bucket; the audit trail holds, for
    each request of the ledger, the number of buckets registered for it; all
    requests of the ledger are completed; and every stored row satisfies the
    constraints of its table. *)
Theorem history_reachable_consistent db : rtc history_step empty_history_db db -> history_inv db.
Proof.
  apply (rtc_ind_r history_inv empty_history_db); [apply history_inv_empty|].
  intros y z _ Hstep Hinv. by apply (history_step_inv y z).
Qed.

(** A history request is applied at most once and reports what it did.
    A new one that meets no failure and whose rows are storable is answered
    with its counts, and each bucket is merged with the newest capture of the
    request; one with a row the tables refuse changes nothing; and when the
    acknowledgement of the commit is lost, the retry reports the same counts
    as a duplicate and changes nothing. *)
Theorem IngestHistory_once el el2 now now2 req s hash uuid db :
  history_inv db -> history_prepared req s hash uuid -> history_requests db !! uuid = None ->
  let rows := new_history_rows now uuid s (ih_Entries req) db in
  let lost := {| fails := fails no_faults; commit := CommitAckLost |} in
  if storable s (ih_Entries req) then
    exists touched db',
      IngestHistory no_faults el now req db
      = (Ok (history_fresh_result el (Z.of_nat (length (ih_Entries req)))
               (countHistoryBuckets (ih_Entries req)) touched), db') /\
      history_raw db' = history_raw db ++ rows /\
      (forall k, bucket_view db' k = lww (bucket_view db k) (request_bucket rows k)) /\
      touched = count_if (fun k => bool_decide (bucket_view db' k <> bucket_view db k))
                  (dedup (map bucket_of rows)) /\
      IngestHistory lost el now req db = (Err (DatabaseFailed StepCommit), db') /\
      exists q, IngestHistory no_faults el2 now2 req db' = (Ok (history_replay_result el2 q), db') /\
        hq_accepted_buckets q = countHistoryBuckets (ih_Entries req) /\
        hq_history_rows_touched q = touched
  else IngestHistory no_faults el now req db = (Err ConstraintViolated, db).
Proof.
  intros Hinv Hp Hu rows lost. destruct (storable s (ih_Entries req)) eqn:Hst.
  - rewrite (IngestHistory_new no_faults el now req s hash uuid db Hp Hu).
    rewrite (IngestHistory_new lost el now req s hash uuid db Hp Hu).
    unfold history_stops. rewrite Hst. cbn [fails no_faults lost negb commit].
    pose proof (history_effect_spec now uuid hash s (ih_Entries req) db Hinv Hu) as He.
    destruct (history_effect _ _ _ _ _ _) as [n db'].
    destruct He as (Hreq & Hraw & _ & Hview & Hn).
    exists n, db'. split_and!; try done.
    assert (history_requests db' !! uuid = Some (completed_history_row now hash s
      (Z.of_nat (length (ih_Entries req))) (countHistoryBuckets (ih_Entries req)) n)) as Hq
      by (rewrite Hreq; apply lookup_insert_eq).
    eexists. rewrite (IngestHistory_known no_faults el2 now2 req s hash uuid db' _ Hp Hq eq_refl).
    simpl. rewrite bool_decide_eq_true_2 by done. done.
  - rewrite (IngestHistory_new no_faults el now req s hash uuid db Hp Hu).
    unfold history_stops. by rewrite Hst.
Qed.
End requests.

(** * Grouping the rows of a query into series *)

Section query.
Context `{Collation}.

Definition series_key (h : MarketHistorySeries) : price_key :=
  (0, hs_LocationID h, hs_ItemKey h, hs_Quality h).

#[local] Arguments location_item_quality : simpl never.

(** A point together with the series it belongs to. *)
Definition tagged (k : price_key) (p : MarketHistoryPoint) : Z * string * Z * MarketHistoryPoint :=
  (k.1.1.2, k.1.2, k.2, p).

Definition row_tag (kr : bucket_key * bucket_row) : Z * string * Z * MarketHistoryPoint :=
  tagged kr.1.1 (history_point kr).

Definition flatten (hs : list MarketHistorySeries) : list (Z * string * Z * MarketHistoryPoint) :=
  flat_map (fun h => map (tagged (series_key h)) (hs_History h)) hs.

Lemma flatten_app hs hs' : flatten (hs ++ hs') = flatten hs ++ flatten hs'.
Proof. apply flat_map_app. Qed.

Definition key_less (a b : price_key) : Prop := location_item_quality a b = true.

#[export] Instance key_less_trans : Transitive key_less.
Proof.
  intros a b c Hab Hbc. unfold key_less in *.
  destruct (location_item_quality a c) eqn:E; [done|].
  assert (location_item_quality a b = false); [|congruence].
  eapply less_neg_trans; [exact E|]. by apply less_asym.
Qed.

Lemma same_position a b c :
  key_location a = key_location b -> key_item a = key_item b -> key_quality a = key_quality b ->
  location_item_quality a c = location_item_quality b c /\
  location_item_quality c a = location_item_quality c b.
Proof. rewrite !location_item_quality_eq. unfold then_less. by intros -> -> ->. Qed.

Definition row_less (a b : bucket_key * bucket_row) : Prop := bucket_order a.1 b.1 = true.

(** The state of the loop after the rows [rows]. *)
Record grouped (server : Server) (rows : list (bucket_key * bucket_row))
    (hs : list MarketHistorySeries) : Prop := {
  gr_flatten : flatten hs = map row_tag rows;
  gr_nonempty : Forall (fun h => hs_History h <> [] /\ hs_Server h = server) hs;
  gr_keys : StronglySorted (fun a b => key_less (series_key a) (series_key b)) hs;
  gr_times : Forall (fun h => StronglySorted (fun p q => hp_Timestamp p < hp_Timestamp q)
                                (hs_History h)) hs;
}.

Lemma flatten_elem h p hs :
  h ∈ hs -> p ∈ hs_History h -> tagged (series_key h) p ∈ flatten hs.
Proof.
  intros Hh Hp. apply list_elem_of_In, in_flat_map. exists h.
  split; [by apply list_elem_of_In|]. by apply list_elem_of_In, list_elem_of_fmap_2.
Qed.

(** A series that is already there came from an earlier row. *)
Lemma grouped_point server rows hs h p :
  grouped server rows hs -> h ∈ hs -> p ∈ hs_History h ->
  exists kr, kr ∈ rows /\ tagged (series_key h) p = row_tag kr.
Proof.
  intros Hg Hh Hp. pose proof (flatten_elem h p hs Hh Hp) as Hin.
  rewrite (gr_flatten _ _ _ Hg) in Hin. apply list_elem_of_fmap in Hin as (kr & ? & ?). eauto.
Qed.

Lemma StronglySorted_snoc {A} (R : A -> A -> Prop) l x :
  StronglySorted R l -> (forall y, y ∈ l -> R y x) -> StronglySorted R (l ++ [x]).
Proof.
  induction 1 as [|y l Hl IH Hy]; intros Hx; simpl; [repeat constructor|].
  constructor; [apply IH; set_solver|]. apply Forall_app. split; [done|].
  constructor; [apply Hx; set_solver|constructor].
Qed.

Lemma StronglySorted_snoc_inv {A} (R : A -> A -> Prop) l x :
  StronglySorted R (l ++ [x]) -> StronglySorted R l /\ forall y, y ∈ l -> R y x.
Proof.
  induction l as [|y l IH]; simpl; intros Hs; [split; [constructor|set_solver]|].
  inversion Hs as [|? ? Hl Hy]; subst. destruct (IH Hl) as [? Hx]. apply Forall_app in Hy as [? Hyx].
  split; [by constructor|]. intros z [->|?]%elem_of_cons; [|auto].
  by apply Forall_cons in Hyx as [? _].
Qed.

(** Rows sorted by the query relate to the series keys and the times. *)
Lemma grouped_before server rows hs h kr :
  grouped server rows hs -> h ∈ hs -> (forall kr', kr' ∈ rows -> row_less kr' kr) ->
  key_less (series_key h) kr.1.1 \/
  (key_location (series_key h) = key_location kr.1.1 /\
   key_item (series_key h) = key_item kr.1.1 /\
   key_quality (series_key h) = key_quality kr.1.1 /\
   forall p, p ∈ hs_History h -> hp_Timestamp p < kr.1.2).
Proof.
  intros Hg Hh Hlt.
  assert (forall p, p ∈ hs_History h ->
    exists kr', row_less kr' kr /\ tagged (series_key h) p = row_tag kr') as Hpts.
  { intros p Hp. destruct (grouped_point _ _ _ _ _ Hg Hh Hp) as (kr' & Hin & Ht). eauto. }
  assert (exists p, p ∈ hs_History h) as [p Hp].
  { pose proof (gr_nonempty _ _ _ Hg) as Hne. rewrite Forall_forall in Hne.
    destruct (Hne h Hh) as [Hn _]. destruct (hs_History h) as [|p l]; [done|]. exists p. set_solver. }
  assert (forall kr' p', row_less kr' kr -> tagged (series_key h) p' = row_tag kr' ->
    key_less (series_key h) kr.1.1 \/
    (location_item_quality (series_key h) kr.1.1 = false /\
     location_item_quality kr.1.1 (series_key h) = false /\ hp_Timestamp p' < kr.1.2)) as Hcase.
  { intros [[k' t'] row'] p' Hless Htag. destruct kr as [[k t] row].
    unfold row_tag, tagged in Htag. simpl in Htag. injection Htag as E1 E2 E3 E4.
    destruct (same_position (series_key h) k' k) as [H1 H2]; [exact E1|exact E2|exact E3|].
    unfold row_less, bucket_order in Hless. simpl in *. rewrite <- H1, <- H2 in Hless.
    unfold key_less. subst p'. simpl.
    destruct (location_item_quality (series_key h) k); [by left|].
    destruct (location_item_quality k (series_key h)); [done|]. right. bool_facts. done. }
  destruct (Hpts p Hp) as (kr1 & Hl1 & Ht1).
  destruct (Hcase _ _ Hl1 Ht1) as [?|(Hk1 & Hk2 & _)]; [by left|right].
  destruct (location_item_quality_ties _ _ Hk1 Hk2) as (? & ? & ?). split_and!; try done.
  intros p' Hp'. destruct (Hpts p' Hp') as (kr2 & Hl2 & Ht2).
  destruct (Hcase _ _ Hl2 Ht2) as [Hk|(_ & _ & ?)]; [unfold key_less in Hk; congruence|done].
Qed.

Lemma add_point_grouped s rows hs kr :
  grouped (unmapServer s) rows hs -> kr.1.1.1.1.1 = s ->
  (forall kr', kr' ∈ rows -> row_less kr' kr) ->
  grouped (unmapServer s) (rows ++ [kr]) (add_point hs kr).
Proof.
  intros Hg Hs Hlt. pose proof (fun h Hh => grouped_before _ _ _ h kr Hg Hh Hlt) as Hb.
  destruct Hg as [Hf Hne Hk Ht]. destruct kr as [[[[[s' l] i] q] t] row]. simpl in Hs. subst s'.
  set (kr := (s, l, i, q, t, row)) in *.
  assert (forall hs0 fresh, fresh = {| hs_Server := unmapServer s; hs_MarketKey := EmptyString;
      hs_LocationID := l; hs_ItemKey := i; hs_Quality := q; hs_History := [history_point kr] |} ->
    hs0 = hs -> (forall h, h ∈ hs -> key_less (series_key h) (s, l, i, q)) ->
    grouped (unmapServer s) (rows ++ [kr]) (hs0 ++ [fresh])) as Hfresh.
  { intros hs0 fresh -> -> Hless. split.
    - rewrite flatten_app, Hf, map_app. done.
    - apply Forall_app. split; [done|]. by repeat constructor.
    - apply StronglySorted_snoc; [done|]. intros h Hh. apply Hless in Hh. exact Hh.
    - apply Forall_app. split; [done|]. repeat constructor. }
  unfold add_point. change kr.1 with (s, l, i, q, t).
  destruct (last hs) as [cur|] eqn:El.
  2:{ apply last_None in El as ->. apply Hfresh; [done..|]. intros h Hh.
      by apply elem_of_nil in Hh. }
  apply last_Some in El as [hs' ->].
  apply StronglySorted_snoc_inv in Hk as [Hk Hkcur].
  pose proof (Hb cur ltac:(set_solver)) as Hcur.
  destruct (negb (hs_LocationID cur =? l) || _ || _) eqn:E.
  - apply Hfresh; [done..|].
    assert (key_less (series_key cur) (s, l, i, q)) as Hlast.
    { destruct Hcur as [?|(E1 & E2 & E3 & _)]; [done|exfalso].
      unfold key_location, key_item, key_quality in *. simpl in *. subst.
      rewrite !Z.eqb_refl, bool_decide_eq_true_2 in E by done. done. }
    intros h [Hh|Hh%list_elem_of_singleton]%elem_of_app; [|by subst].
    specialize (Hkcur h Hh). by trans (series_key cur).
  - bool_facts.
    destruct Hcur as [Hless|(_ & _ & _ & Hcur)].
    { exfalso. unfold key_less in Hless. change kr.1.1 with (s, l, i, q) in Hless.
      destruct (same_position (series_key cur) (s, l, i, q) (s, l, i, q)) as [Heq _];
        [unfold key_location, key_item, key_quality; simpl; congruence..|]. rewrite Hless in Heq. symmetry in Heq.
      by rewrite (less_asym _ _ Heq) in Heq. }
    rewrite removelast_last.
    apply Forall_app in Hne as [Hne Hnc], Ht as [Ht Htc].
    rewrite Forall_singleton in Hnc. rewrite Forall_singleton in Htc.
    set (cur' := {| hs_Server := _; hs_MarketKey := _; hs_LocationID := _; hs_ItemKey := _;
                    hs_Quality := _; hs_History := _ |}).
    assert (series_key cur' = series_key cur) as Hkey by done.
    split.
    + rewrite map_app, <- Hf, !flatten_app, <- app_assoc. f_equal. simpl.
      rewrite !app_nil_r, Hkey, map_app. f_equal. simpl. unfold row_tag, tagged. simpl. by subst.
    + apply Forall_app. split; [done|]. constructor; [|constructor]. unfold cur'; simpl.
      destruct Hnc as [_ Hsrv]. split; [by destruct (hs_History cur)|done].
    + apply StronglySorted_snoc; [done|]. intros h Hh. rewrite Hkey. by apply Hkcur.
    + apply Forall_app. split; [done|]. constructor; [|constructor]. unfold cur'; simpl.
      apply StronglySorted_snoc; [done|]. intros p Hp. simpl. by apply Hcur.
Qed.

Lemma add_points_grouped s rows :
  StronglySorted row_less rows -> Forall (fun kr => kr.1.1.1.1.1 = s) rows ->
  grouped (unmapServer s) rows (foldl add_point [] rows).
Proof.
  induction rows as [|kr rows IH] using rev_ind; intros Hs Hf.
  { split; simpl; [done|constructor..]. }
  rewrite foldl_app. simpl. apply StronglySorted_snoc_inv in Hs as [Hs Hlt].
  apply Forall_app in Hf as [Hf Hkr]. rewrite Forall_singleton in Hkr.
  by apply add_point_grouped; [apply IH| |].
Qed.

Lemma bucket_order_eq a b :
  bucket_order a b =
  then_less (fun a b => location_item_quality a.1 b.1) (fun a b => a.2 <? b.2) a b.
Proof.
  destruct a as [ka ta], b as [kb tb]. unfold bucket_order, then_less. simpl.
  destruct (location_item_quality ka kb); [done|]. by destruct (location_item_quality kb ka).
Qed.

#[export] Instance bucket_order_strict_weak : StrictWeak bucket_order.
Proof.
  eapply strict_weak_ext; [apply bucket_order_eq|].
  apply @then_less_strict_weak.
  - apply (less_on_strict_weak location_item_quality (fun k : bucket_key => k.1)).
  - apply (less_on_strict_weak Z.ltb (fun k : bucket_key => k.2)).
Qed.

Lemma bucket_order_ties a b :
  a.1.1.1.1 = b.1.1.1.1 -> bucket_order a b = false -> bucket_order b a = false -> a = b.
Proof.
  rewrite !bucket_order_eq. unfold then_less. intros Hs H1 H2.
  apply orb_false_iff in H1 as [H1 H1'], H2 as [H2 H2'].
  rewrite H2 in H1'. rewrite H1 in H2'. simpl in *. bool_facts.
  destruct (location_item_quality_ties _ _ H1 H2) as (E1 & E2 & E3).
  destruct a as [[[[s1 l1] i1] q1] t1], b as [[[[s2 l2] i2] q2] t2].
  unfold key_location, key_item, key_quality in *. simpl in *. subst.
  by assert (t1 = t2) as -> by lia.
Qed.

Lemma history_rows_spec s lookup db :
  (forall kr, kr ∈ history_rows s lookup db <->
     buckets db !! kr.1 = Some kr.2 /\ selects_bucket s lookup kr.1 = true) /\
  StronglySorted row_less (history_rows s lookup db) /\
  Forall (fun kr => kr.1.1.1.1.1 = s) (history_rows s lookup db).
Proof.
  assert (forall kr, kr ∈ List.filter (fun kr => selects_bucket s lookup kr.1)
      (map_to_list (buckets db)) <->
    buckets db !! kr.1 = Some kr.2 /\ selects_bucket s lookup kr.1 = true) as Hl.
  { intros [k row]. rewrite list_elem_of_In, List.filter_In, <- list_elem_of_In.
    by rewrite elem_of_map_to_list. }
  assert (forall kr : bucket_key * bucket_row, selects_bucket s lookup kr.1 = true ->
    kr.1.1.1.1.1 = s) as Hs.
  { intros [[[[[s' l] i] q] t] row]. simpl. rewrite !andb_true_iff, Z.eqb_eq. tauto. }
  unfold history_rows. split_and!.
  - intros kr. by rewrite elem_of_slice_stable.
  - apply slice_stable_strict.
    + apply (less_on_strict_weak bucket_order (fun kr : bucket_key * bucket_row => kr.1)).
    + apply NoDup_ListNoDup, List.NoDup_filter, NoDup_ListNoDup, NoDup_map_to_list.
    + intros [k1 r1] [k2 r2] [H1 Hs1]%Hl [H2 Hs2]%Hl Hb1 Hb2. simpl in *.
      pose proof (Hs (k1, r1) Hs1) as E1. pose proof (Hs (k2, r2) Hs2) as E2. simpl in *.
      assert (k1 = k2) as -> by (apply bucket_order_ties; [congruence|done..]).
      congruence.
  - apply Forall_forall. intros kr. rewrite elem_of_slice_stable, Hl. intros [_ ?]. auto.
Qed.

(** A history query for a supported server returns the stored buckets of
    the requested locations, items, qualities and range, grouped: reading the
    series one after the other gives exactly the rows of the query in their
    order; no series is empty and all carry the server asked for; each
    location, item and quality has one series; and the times of a series are
    strictly increasing. *)
Theorem QueryMarketHistory_groups lookup s db :
  mapServer (hl_Server lookup) = Ok s ->
  exists hs, QueryMarketHistory no_faults lookup db = Ok hs /\
    (forall kr, kr ∈ history_rows s lookup db <->
       buckets db !! kr.1 = Some kr.2 /\ selects_bucket s lookup kr.1 = true) /\
    flatten hs = map row_tag (history_rows s lookup db) /\
    Forall (fun h => hs_History h <> [] /\ hs_Server h = hl_Server lookup) hs /\
    StronglySorted (fun a b => location_item_quality (series_key a) (series_key b) = true) hs /\
    Forall (fun h => StronglySorted (fun p q => hp_Timestamp p < hp_Timestamp q) (hs_History h)) hs.
Proof.
  intros Hs. destruct (history_rows_spec s lookup db) as (Hin & Hsorted & Hserver).
  destruct (add_points_grouped s _ Hsorted Hserver) as [Hf Hne Hk Ht].
  rewrite (unmapServer_mapServer _ _ Hs) in Hne.
  unfold QueryMarketHistory. rewrite Hs. cbn [rbind].
  destruct (bool_decide (hl_LocationIDs lookup = []) || bool_decide (hl_Entries lookup = [])) eqn:E.
  - exists []. split_and!; [done|done| |constructor..].
    destruct (history_rows s lookup db) as [|kr l]; [done|exfalso].
    destruct (proj1 (Hin kr) ltac:(set_solver)) as [_ Hsel].
    destruct kr as [[[[[s' lo] i] q] t] row]. simpl in Hsel.
    rewrite !andb_true_iff, !bool_decide_eq_true in Hsel.
    destruct Hsel as [[[[_ Hl] He] _] _]. apply orb_true_iff in E as [E|E]; bool_facts;
      [rewrite E in Hl|rewrite E in He]; by eapply elem_of_nil.
  - eexists. split; [done|]. done.
Qed.
End query.

(** * Examples *)

Definition example_capture (item : string) (observed count : Z) : HistoryIngest :=
  {| hi_ObservedAt := 1000 * observed; hi_LocationID := 3008; hi_ItemKey := item; hi_Quality := 1;
     hi_History :=
       [{| hb_Timestamp := 1000; hb_ItemCount := count; hb_AverageUnitPrice := Some 10 |};
        {| hb_Timestamp := 2000; hb_ItemCount := count + 1; hb_AverageUnitPrice := None |}] |}.

Definition example_history (id : string) : IngestHistoryRequest :=
  {| ih_RequestID := id; ih_Server := ServerWest;
     ih_Entries := [example_capture "T4_BAG" 9 5; example_capture "T5_BAG" 8 3;
                    example_capture "T4_BAG" 7 4] |}.

Lemma history_copy_source_flattens_witness :
  exists vs, copy_history_from 7 (newRawHistoryCopySource "h1" 1 (ih_Entries (example_history "h1")))
    = Some vs /\ length vs = 6%nat.
Proof.
  destruct (history_copy_source_flattens "h1" 1 (ih_Entries (example_history "h1")) 7)
    as (vs & Hvs & -> & _); [simpl; lia|]. eexists. split; [exact Hvs|reflexivity].
Defined.

Lemma example_history_prepared id :
  id <> EmptyString ->
  history_prepared (H := plain_sha256) (H0 := plain_encoding) (example_history id) 1
    "westT4_BAG,T5_BAG,T4_BAG," id.
Proof.
  intros Hid. split; [done|done|]. simpl. by rewrite (proj2 (is_empty_false id)).
Qed.

Lemma history_reachable_consistent_witness :
  history_inv (IngestHistory (H := plain_sha256) (H0 := plain_encoding) ack_lost example_elapsed
                 50000 (example_history "h1") empty_history_db).2.
Proof.
  apply (history_reachable_consistent (H := plain_sha256) (H0 := plain_encoding)).
  apply rtc_once. apply run_history.
Defined.

Lemma IngestHistory_once_witness :
  (IngestHistory (H := plain_sha256) (H0 := plain_encoding) no_faults example_elapsed 50000
    (example_history "h1") empty_history_db).1
  = Ok (history_fresh_result example_elapsed 3 6 4).
Proof.
  pose proof (IngestHistory_once (H := plain_sha256) (H0 := plain_encoding) example_elapsed
    example_elapsed 50000 60000 (example_history "h1") 1 _ "h1" empty_history_db
    history_inv_empty (example_history_prepared "h1" ltac:(done)) eq_refl) as Hrun.
  change (storable 1 (ih_Entries (example_history "h1"))) with true in Hrun.
  destruct Hrun as (touched & db' & Hrun & _). rewrite Hrun.
  vm_compute in Hrun. by injection Hrun as <- _.
Defined.

Definition example_history_db : HistoryDB :=
  (history_effect 40000 "h1" "westT4_BAG" 1 (ih_Entries (example_history "h1")) empty_history_db).2.

Lemma QueryMarketHistory_groups_witness :
  exists hs,
    QueryMarketHistory (H := c_collation) no_faults
      {| hl_Server := ServerWest; hl_LocationIDs := [3008];
         hl_Entries := [{| hq_ItemKey := "T4_BAG"; hq_Quality := 1 |};
                        {| hq_ItemKey := "T5_BAG"; hq_Quality := 1 |}];
         hl_RangeStart := 0; hl_RangeEndExclusive := 5000 |} example_history_db = Ok hs /\
    map (fun h => (hs_ItemKey h, map hp_ItemCount (hs_History h))) hs
    = [("T4_BAG", [5; 6]); ("T5_BAG", [3; 4])].
Proof.
  destruct (QueryMarketHistory_groups (H := c_collation)
    {| hl_Server := ServerWest; hl_LocationIDs := [3008];
       hl_Entries := [{| hq_ItemKey := "T4_BAG"; hq_Quality := 1 |};
                      {| hq_ItemKey := "T5_BAG"; hq_Quality := 1 |}];
       hl_RangeStart := 0; hl_RangeEndExclusive := 5000 |} 1 example_history_db eq_refl)
    as (hs & Hq & _).
  exists hs. split; [exact Hq|]. vm_compute in Hq. by injection Hq as <-.
Defined.
