(* ===== verification/MarketService.v ===== *)
(** The price service: [internal/service/market_service.go], against the
    repository as an interface. *)
From S2P Require Import Prelude GoLists GoBase Domain Catalog Tx PriceRepo HistoryRepo.
Local Open Scope Z_scope.

Definition maxPriceQueryMarkets : Z := 32.
Definition maxPriceQueryEntries : Z := 2000.

(** * Errors *)

(** What makes a request invalid. *)
Inductive invalid_reason :=
  | RequestIDRequired
  | RequestIDNotUUID
  | ServerRequired
  | UnsupportedServer (server : string)
  | EntriesRequired
  | TooManyEntries
  | MarketKeysRequired
  | TooManyMarketKeys
  | CatalogRejected (e : catalog_error)
  | EntryItemRequired (index : Z)
  | EntryQuality (index : Z)
  | EntryObservedAt (index : Z)
  | EntryLocation (index : Z)
  | EntryHistory (index : Z)
  | TooManyBuckets
  | BucketTimestamp (entry bucket : Z)
  | BucketItemCount (entry bucket : Z)
  | BucketPrice (entry bucket : Z)
  | RangeStartRequired
  | RangeEndRequired
  | RangeStartFormat
  | RangeEndFormat
  | RangeReversed
  | RangeTooLong.

Inductive service_error :=
  | InvalidIngestRequest (why : invalid_reason)
  | InvalidPriceQuery (why : invalid_reason)
  | InvalidHistoryIngestRequest (why : invalid_reason)
  | InvalidHistoryQuery (why : invalid_reason)
  | IngestRequestAlreadyProcessing
  | IngestRequestPayloadConflict
  | UnmappedLocation (location : Z)
  | RepositoryError (e : repo_error).

(** The [switch] on a repository error. *)
Definition ingest_error (e : repo_error) : service_error :=
  match e with
  | RequestAlreadyProcessing => IngestRequestAlreadyProcessing
  | RequestPayloadConflict => IngestRequestPayloadConflict
  | e => RepositoryError e
  end.

Definition validateServer (server : Server) : result invalid_reason unit :=
  if bool_decide (server = ServerWest) || bool_decide (server = ServerEast)
     || bool_decide (server = ServerEurope) then Ok tt
  else if is_empty server then Err ServerRequired
  else Err (UnsupportedServer server).

(** * The repository *)

(** [repository.MarketRepository], over the state [S] of the database, with
    the optional [QueryCurrentPricesWithTrust] the service looks for. *)
Class MarketRepository (S : Type) := {
  repo_IngestPrices : IngestPricesRequest -> S -> result repo_error IngestPricesResult * S;
  repo_IngestHistory : IngestHistoryRequest -> S -> result repo_error IngestHistoryResult * S;
  repo_QueryCurrentPrices : CurrentPriceLookup -> S -> result repo_error (list CurrentPrice);
  repo_QueryMarketHistory : MarketHistoryLookup -> S -> result repo_error (list MarketHistorySeries);
  repo_QueryCurrentPricesWithTrust :
    option (CurrentPriceLookup -> S -> result repo_error (list CurrentPrice));
}.

(** What a price is identified by in an answer. *)
Definition price_id (p : CurrentPrice) : Z * string * Z :=
  (cp_LocationID p, cp_ItemKey p, cp_Quality p).

Definition series_id (h : MarketHistorySeries) : Z * string * Z :=
  (hs_LocationID h, hs_ItemKey h, hs_Quality h).

(** The query the service sends. *)
Definition repo_query {S} `{MarketRepository S} (lookup : CurrentPriceLookup) (st : S)
    : result repo_error (list CurrentPrice) :=
  match repo_QueryCurrentPricesWithTrust with
  | Some query => query lookup st
  | None => repo_QueryCurrentPrices lookup st
  end.

(** What the service relies on: answers only for the locations asked for, and
    one answer per location, item and quality. *)
Class LawfulRepository (S : Type) `{MarketRepository S} : Prop := {
  law_prices lookup st ps :
    NoDup (cl_Entries lookup) -> repo_query lookup st = Ok ps ->
    Forall (fun p => cp_LocationID p ∈ cl_LocationIDs lookup) ps /\ NoDup (map price_id ps);
  law_history lookup st hs :
    repo_QueryMarketHistory lookup st = Ok hs ->
    Forall (fun h => hs_LocationID h ∈ hl_LocationIDs lookup) hs /\ NoDup (map series_id hs);
}.

(** * Normalising the entries of a query *)

(** Both queries run the same loop over their entries. *)
Section entries.
Context `{Unicode} {E : Type} (item : E -> string) (quality : E -> Z) (mk : string -> Z -> E).

(** [fmt.Sprintf("%s\x00%d", itemKey, quality)] *)
Definition dedupe_key (itemKey : string) (q : Z) : string :=
  itemKey +:+ String (byte 0) (FormatInt q).

Fixpoint normalize_entries (index : Z) (seen : list string) (acc entries : list E)
    : result invalid_reason (list E) :=
  match entries with
  | [] => Ok acc
  | entry :: entries' =>
      let itemKey := TrimSpace (item entry) in
      fail_if is_empty itemKey with EntryItemRequired index else
      fail_if (quality entry <? 1) || (5 <? quality entry) with EntryQuality index else
      let dedupeKey := dedupe_key itemKey (quality entry) in
      if bool_decide (dedupeKey ∈ seen) then normalize_entries (index + 1) seen acc entries'
      else normalize_entries (index + 1) (dedupeKey :: seen)
             (acc ++ [mk itemKey (quality entry)]) entries'
  end.
End entries.

(** The loop that ranks the market keys by their first appearance. *)
Fixpoint market_order (order : gmap string Z) (rank : Z) (keys : list string) : gmap string Z :=
  match keys with
  | [] => order
  | key :: keys' =>
      match order !! key with
      | Some _ => market_order order rank keys'
      | None => market_order (<[key := rank]> order) (rank + 1) keys'
      end
  end.

(** * The service *)

Section service.
Context `{Unicode} {S : Type} `{MarketRepository S} (catalog : Catalog).

Definition IngestPrices (req : IngestPricesRequest) (st : S)
    : result service_error IngestPricesResponse * S :=
  if is_empty (ip_RequestID req) then (Err (InvalidIngestRequest RequestIDRequired), st) else
  if is_empty (ip_Server req) then (Err (InvalidIngestRequest ServerRequired), st) else
  if bool_decide (ip_Entries req = []) then (Err (InvalidIngestRequest EntriesRequired), st) else
  match validateServer (ip_Server req) with
  | Err why => (Err (InvalidIngestRequest why), st)
  | Ok _ =>
      match repo_IngestPrices req st with
      | (Err e, st') => (Err (ingest_error e), st')
      | (Ok r, st') =>
          (Ok {| ipr_RequestID := ip_RequestID req; ipr_Accepted := Accepted r;
                 ipr_CurrentRowsTouched := CurrentRowsTouched r; ipr_Duplicate := Duplicate r;
                 ipr_PersistenceTiming := PersistenceTiming r |}, st')
      end
  end.

Definition Markets (includeDisabled : bool) : MarketCatalogResponse :=
  let markets := ListMarkets (Some catalog) includeDisabled in
  {| mc_SchemaVersion := SchemaVersion; mc_Count := Z.of_nat (length markets); mc_Data := markets |}.

Record normalizedPriceQuery := {
  np_lookup : CurrentPriceLookup;
  np_marketOrder : gmap string Z;
  np_keysByLocation : gmap Z string;
}.

Definition normalizePriceQuery (req : PriceQueryRequest)
    : result service_error normalizedPriceQuery :=
  let! _ := rmap_err InvalidPriceQuery (validateServer (pqr_Server req)) in
  fail_if bool_decide (pqr_MarketKeys req = []) with InvalidPriceQuery MarketKeysRequired else
  fail_if maxPriceQueryMarkets <? Z.of_nat (length (pqr_MarketKeys req))
    with InvalidPriceQuery TooManyMarketKeys else
  fail_if bool_decide (pqr_Entries req = []) with InvalidPriceQuery EntriesRequired else
  fail_if maxPriceQueryEntries <? Z.of_nat (length (pqr_Entries req))
    with InvalidPriceQuery TooManyEntries else
  let! (locationIDs, keysByLocation) :=
    rmap_err (fun e => InvalidPriceQuery (CatalogRejected e))
      (ResolveEnabled (Some catalog) (pqr_MarketKeys req)) in
  let! entries := rmap_err InvalidPriceQuery
    (normalize_entries pq_ItemKey pq_Quality
       (fun i q => {| pq_ItemKey := i; pq_Quality := q |}) 0 [] [] (pqr_Entries req)) in
  Ok {| np_lookup := {| cl_Server := pqr_Server req; cl_LocationIDs := locationIDs;
                        cl_Entries := entries |};
        np_marketOrder := market_order ∅ 0 (map NormalizeKey (pqr_MarketKeys req));
        np_keysByLocation := keysByLocation |}.

Definition with_market (key : string) (p : CurrentPrice) : CurrentPrice :=
  {| cp_Server := cp_Server p; cp_MarketKey := key; cp_LocationID := cp_LocationID p;
     cp_ItemKey := cp_ItemKey p; cp_Quality := cp_Quality p;
     cp_SellPriceMin := cp_SellPriceMin p; cp_SellPriceMinAt := cp_SellPriceMinAt p;
     cp_BuyPriceMax := cp_BuyPriceMax p; cp_BuyPriceMaxAt := cp_BuyPriceMaxAt p;
     cp_UpdatedAt := cp_UpdatedAt p;
     cp_HistoryObservations7D := cp_HistoryObservations7D p;
     cp_HistoryVolume7D := cp_HistoryVolume7D p; cp_MedianPrice7D := cp_MedianPrice7D p |}.

(** The loop that fills [MarketKey]. *)
Fixpoint label_prices (keys : gmap Z string) (prices : list CurrentPrice)
    : result service_error (list CurrentPrice) :=
  match prices with
  | [] => Ok []
  | p :: prices' =>
      match keys !! cp_LocationID p with
      | None => Err (UnmappedLocation (cp_LocationID p))
      | Some key => let! rest := label_prices keys prices' in Ok (with_market key p :: rest)
      end
  end.

(** The comparison of the sort; a key that is not in the map ranks 0. *)
Definition price_less (order : gmap string Z) (a b : CurrentPrice) : bool :=
  let leftRank := default 0 (order !! cp_MarketKey a) in
  let rightRank := default 0 (order !! cp_MarketKey b) in
  if bool_decide (leftRank <> rightRank) then leftRank <? rightRank
  else if bool_decide (cp_ItemKey a <> cp_ItemKey b) then str_ltb (cp_ItemKey a) (cp_ItemKey b)
  else cp_Quality a <? cp_Quality b.

Definition QueryCurrentPrices (now : time) (req : PriceQueryRequest) (st : S)
    : result service_error PriceQueryResponse :=
  let! normalized := normalizePriceQuery req in
  let! prices := rmap_err RepositoryError (repo_query (np_lookup normalized) st) in
  let! labelled := label_prices (np_keysByLocation normalized) prices in
  let data := slice_stable (price_less (np_marketOrder normalized)) labelled in
  Ok {| pqs_RequestedAt := now; pqs_Count := Z.of_nat (length data); pqs_Data := data |}.
End service.
