(* ===== verification/MarketServiceSpec.v ===== *)
(** Properties of the price service of [MarketService], against any lawful
    repository; and the laws of the repository of [PriceRepo]. *)
From S2P Require Import Prelude GoLists GoBase Domain Catalog Tx Lww PriceRepo PriceRepoSpec HistoryRepo HistoryRepoSpec MarketService.
Local Open Scope Z_scope.

(** * The deduplication key *)

Lemma string_length_app s t : String.length (s +:+ t) = (String.length s + String.length t)%nat.
Proof.
  induction s as [|c s IH]; [done|].
  change (S (String.length (s +:+ t)) = S (String.length s + String.length t))%nat. by rewrite IH.
Qed.

Lemma string_app_cons c s t : String c s +:+ t = String c (s +:+ t).
Proof. done. Qed.

Lemma string_app_inj_length s1 s2 t1 t2 :
  s1 +:+ t1 = s2 +:+ t2 -> String.length t1 = String.length t2 -> s1 = s2 /\ t1 = t2.
Proof.
  revert s2; induction s1 as [|c s1 IH]; intros [|c2 s2] Heq Hlen.
  - done.
  - change (EmptyString +:+ t1) with t1 in Heq. subst t1.
    rewrite string_length_app in Hlen. simpl in Hlen. lia.
  - change (EmptyString +:+ t2) with t2 in Heq. subst t2.
    rewrite string_length_app in Hlen. simpl in Hlen. lia.
  - rewrite !string_app_cons in Heq. injection Heq as -> Heq.
    destruct (IH s2 Heq Hlen). by subst.
Qed.

Definition valid_quality (q : Z) : Prop := 1 <= q <= 5.

Lemma dedupe_key_inj i1 i2 q1 q2 :
  valid_quality q1 -> valid_quality q2 ->
  dedupe_key i1 q1 = dedupe_key i2 q2 -> i1 = i2 /\ q1 = q2.
Proof.
  unfold valid_quality, dedupe_key. intros H1 H2 Heq.
  assert (forall q, 1 <= q <= 5 -> String.length (FormatInt q) = 1%nat) as Hlen.
  { intros q Hq. assert (q = 1 \/ q = 2 \/ q = 3 \/ q = 4 \/ q = 5) as Hc by lia.
    destruct Hc as [-> | [-> | [-> | [-> | ->]]]]; vm_compute; reflexivity. }
  apply string_app_inj_length in Heq as [-> Hq]; [|simpl; by rewrite !Hlen].
  split; [done|]. apply FormatInt_inj. congruence.
Qed.

(** * The entries of a query *)

Section entries.
Context `{Unicode} {E : Type} `{EqDecision E}.
Context (item : E -> string) (quality : E -> Z) (mk : string -> Z -> E).
Context (item_mk : forall i q, item (mk i q) = i) (quality_mk : forall i q, quality (mk i q) = q).

Definition valid_entry (e : E) : Prop :=
  TrimSpace (item e) <> EmptyString /\ valid_quality (quality e).

Definition trimmed (e : E) : E := mk (TrimSpace (item e)) (quality e).

Definition entry_key (e : E) : string := dedupe_key (item e) (quality e).

Lemma normalize_entries_step index seen acc e entries :
  normalize_entries item quality mk index seen acc (e :: entries) =
  fail_if is_empty (TrimSpace (item e)) with EntryItemRequired index else
  fail_if (quality e <? 1) || (5 <? quality e) with EntryQuality index else
  if bool_decide (entry_key (trimmed e) ∈ seen)
  then normalize_entries item quality mk (index + 1) seen acc entries
  else normalize_entries item quality mk (index + 1) (entry_key (trimmed e) :: seen)
         (acc ++ [trimmed e]) entries.
Proof. unfold entry_key, trimmed. simpl. by rewrite item_mk, quality_mk. Qed.

Lemma entry_key_inj e1 e2 :
  valid_quality (quality e1) -> valid_quality (quality e2) ->
  entry_key (trimmed e1) = entry_key (trimmed e2) -> trimmed e1 = trimmed e2.
Proof.
  unfold entry_key, trimmed. rewrite !item_mk, !quality_mk. intros H1 H2 Hk.
  by apply dedupe_key_inj in Hk as [-> ->].
Qed.

Lemma normalize_entries_ok index seen acc entries es :
  (forall e, e ∈ seen -> exists e0, valid_entry e0 /\ e = trimmed e0) ->
  normalize_entries item quality mk index (map entry_key seen) acc entries = Ok es <->
  Forall valid_entry entries /\ es = acc ++ dedup_from seen (map trimmed entries).
Proof.
  revert index seen acc; induction entries as [|e entries IH]; intros index seen acc Hseen.
  { simpl. rewrite app_nil_r. split; [intros [= ->]; by split; [constructor|]|].
    by intros [_ ->]. }
  rewrite normalize_entries_step. simpl. rewrite Forall_cons.
  destruct (is_empty (TrimSpace (item e))) eqn:Ei.
  { apply is_empty_true in Ei. split; [done|]. intros [[[? _] _] _]. done. }
  apply is_empty_false in Ei.
  destruct ((quality e <? 1) || (5 <? quality e)) eqn:Eq.
  { split; [done|]. intros [[[_ Hq] _] _]. unfold valid_quality in Hq.
    apply orb_true_iff in Eq as [?|?]; bool_facts; lia. }
  bool_facts. assert (valid_entry e) as He by by split; [|unfold valid_quality; lia].
  assert (entry_key (trimmed e) ∈ map entry_key seen <-> trimmed e ∈ seen) as Hin.
  { split; [|by apply list_elem_of_fmap_2].
    intros (e' & Hk & Hin)%list_elem_of_fmap.
    destruct (Hseen e' Hin) as (e0 & [_ Hq0] & ->). destruct He as [_ Hq].
    by rewrite (entry_key_inj e e0). }
  rewrite (bool_decide_ext _ _ Hin). case_bool_decide as Hs.
  - rewrite IH by done. tauto.
  - change (entry_key (trimmed e) :: map entry_key seen) with (map entry_key (trimmed e :: seen)).
    rewrite IH.
    + rewrite <- app_assoc. simpl. tauto.
    + intros e' [->|?]%elem_of_cons; eauto.
Qed.

Lemma normalize_entries_spec entries es :
  normalize_entries item quality mk 0 [] [] entries = Ok es <->
  Forall valid_entry entries /\ es = dedup (map trimmed entries).
Proof. apply (normalize_entries_ok 0 []). intros e He. by apply elem_of_nil in He. Qed.

(** The first entry that is not valid is the one reported. *)
Lemma normalize_entries_err index seen acc entries why :
  normalize_entries item quality mk index seen acc entries = Err why ->
  exists pre e post, entries = pre ++ e :: post /\ Forall valid_entry pre /\ ~ valid_entry e /\
    why = (if is_empty (TrimSpace (item e)) then EntryItemRequired else EntryQuality)
            (index + Z.of_nat (length pre)).
Proof.
  revert index seen acc; induction entries as [|e entries IH]; intros index seen acc; [done|].
  rewrite normalize_entries_step.
  destruct (is_empty (TrimSpace (item e))) eqn:Ei.
  { intros [= <-]. exists [], e, entries. rewrite Ei. simpl. rewrite Z.add_0_r.
    split_and!; [done|constructor| |done]. apply is_empty_true in Ei. by intros [? _]. }
  destruct ((quality e <? 1) || (5 <? quality e)) eqn:Eq.
  { intros [= <-]. exists [], e, entries. rewrite Ei. simpl. rewrite Z.add_0_r.
    split_and!; [done|constructor| |done]. intros [_ Hq]. unfold valid_quality in Hq.
    apply orb_true_iff in Eq as [?|?]; bool_facts; lia. }
  intros Herr. bool_facts.
  assert (exists index' seen' acc', index' = index + 1 /\
    normalize_entries item quality mk index' seen' acc' entries = Err why)
    as (index' & seen' & acc' & -> & Herr') by (destruct (bool_decide (entry_key (trimmed e) ∈ seen)); eauto 6).
  apply IH in Herr' as (pre & e' & post & -> & Hpre & He' & ->).
  exists (e :: pre), e', post. split_and!; [done| |done|].
  - constructor; [|done]. split; [by apply is_empty_false|unfold valid_quality; lia].
  - f_equal. simpl. lia.
Qed.
End entries.

(** * The rank of a market *)


Lemma market_order_from order seen keys k i :
  NoDup seen ->
  (forall k i, order !! k = Some i <-> 0 <= i /\ seen !! Z.to_nat i = Some k) ->
  market_order order (Z.of_nat (length seen)) keys !! k = Some i <->
  0 <= i /\ (seen ++ dedup_from seen keys) !! Z.to_nat i = Some k.
Proof.
  revert order seen; induction keys as [|key keys IH]; intros order seen Hnd Ho; simpl.
  { by rewrite app_nil_r. }
  destruct (order !! key) as [j|] eqn:Ek.
  - apply Ho in Ek as [_ Hj]. apply list_elem_of_lookup_2 in Hj.
    rewrite bool_decide_eq_true_2 by done. by apply IH.
  - assert (key ∉ seen) as Hk.
    { intros [n Hn]%list_elem_of_lookup.
      assert (order !! key = Some (Z.of_nat n)) by (apply Ho; rewrite Nat2Z.id; split; [lia|done]).
      congruence. }
    rewrite bool_decide_eq_false_2 by done.
    replace (Z.of_nat (length seen) + 1) with (Z.of_nat (length (seen ++ [key])))
      by (rewrite length_app; simpl; lia).
    rewrite IH.
    + rewrite <- app_assoc. simpl.
      by rewrite (dedup_from_ext (seen ++ [key]) (key :: seen)) by set_solver.
    + apply NoDup_app. split_and!; [done|set_solver|apply NoDup_singleton].
    + intros k' i'. rewrite lookup_insert. case_decide as Hkk.
      * subst k'. split.
        -- intros [= <-]. split; [lia|]. rewrite Nat2Z.id, lookup_app_r by lia.
           by rewrite Nat.sub_diag.
        -- intros [Hi Hl]. f_equal. apply lookup_app_Some in Hl as [Hl|[Hlen Hl]].
           ++ exfalso. apply Hk. by apply list_elem_of_lookup_2 in Hl.
           ++ apply list_lookup_singleton_Some in Hl as [Hz _]. lia.
      * rewrite Ho. split; intros [Hi Hl]; (split; [done|]).
        -- by apply lookup_app_l_Some.
        -- apply lookup_app_Some in Hl as [?|[_ Hl]]; [done|].
           apply list_lookup_singleton_Some in Hl as [_ ?]. congruence.
Qed.

(** The rank of a key is its position among the distinct keys. *)
Lemma market_order_spec keys k i :
  market_order ∅ 0 keys !! k = Some i <-> 0 <= i /\ dedup keys !! Z.to_nat i = Some k.
Proof.
  apply (market_order_from ∅ []); [constructor|]. intros k' i'.
  rewrite lookup_empty. split; [done|]. by intros [_ ?].
Qed.

(** * The query *)

Lemma Zltb_separates a b : (a <? b) = false -> (b <? a) = false -> a = b.
Proof. intros. bool_facts. lia. Qed.

Lemma Zltb_asym a b : (a <? b) = true -> (b <? a) = false.
Proof. intros. bool_facts. apply Z.ltb_ge. lia. Qed.

Lemma str_ltb_irreflexive a : str_ltb a a = false.
Proof. destruct (str_ltb a a) eqn:E; [|done]. by rewrite (less_asym _ _ E) in E. Qed.

(** The comparison both services sort by: a rank, an item, a quality. *)
Section by_rank.
Context {A : Type} (rank : A -> Z) (item : A -> string) (quality : A -> Z).

Definition rank_less (a b : A) : bool :=
  if bool_decide (rank a <> rank b) then rank a <? rank b
  else if bool_decide (item a <> item b) then str_ltb (item a) (item b)
  else quality a <? quality b.

Lemma rank_less_eq a b :
  rank_less a b =
  then_less (fun a b => rank a <? rank b)
    (then_less (fun a b => str_ltb (item a) (item b)) (fun a b => quality a <? quality b)) a b.
Proof.
  unfold rank_less. etransitivity.
  2:{ apply (then_less_if Z.ltb rank (then_less (fun a b => str_ltb (item a) (item b))
        (fun a b => quality a <? quality b)));
        [apply Z.ltb_irrefl|apply Zltb_separates|apply Zltb_asym]. }
  case_if; [done|].
  apply (then_less_if str_ltb item (fun a b => quality a <? quality b));
    [apply str_ltb_irreflexive|apply str_ltb_eq|intros; by apply less_asym].
Qed.

#[export] Instance rank_less_strict_weak : StrictWeak rank_less.
Proof.
  eapply strict_weak_ext; [apply rank_less_eq|].
  apply @then_less_strict_weak; [apply (less_on_strict_weak Z.ltb rank)|].
  apply @then_less_strict_weak; [apply (less_on_strict_weak str_ltb item)|].
  apply (less_on_strict_weak Z.ltb quality).
Qed.

Lemma rank_less_ties a b :
  rank_less a b = false -> rank_less b a = false ->
  rank a = rank b /\ item a = item b /\ quality a = quality b.
Proof.
  rewrite !rank_less_eq. unfold then_less. intros H1 H2.
  apply orb_false_iff in H1 as [H1 H1'], H2 as [H2 H2'].
  rewrite H2 in H1'. rewrite H1 in H2'. simpl in *.
  apply orb_false_iff in H1' as [H3 H3'], H2' as [H4 H4'].
  rewrite H4 in H3'. rewrite H3 in H4'. simpl in *.
  split_and!; [by apply Zltb_separates|by apply str_ltb_eq|by apply Zltb_separates].
Qed.
End by_rank.

Definition price_rank (order : gmap string Z) (p : CurrentPrice) : Z :=
  default 0 (order !! cp_MarketKey p).

Lemma price_less_rank order : price_less order = rank_less (price_rank order) cp_ItemKey cp_Quality.
Proof. done. Qed.

Definition supported (server : Server) : Prop := server ∈ [ServerWest; ServerEast; ServerEurope].

Lemma validateServer_ok server : validateServer server = Ok tt <-> supported server.
Proof.
  unfold validateServer, supported. rewrite !elem_of_cons, elem_of_nil.
  repeat case_bool_decide; simpl; try tauto. destruct (is_empty server); split; try done; tauto.
Qed.

Lemma validateServer_mapServer server :
  is_ok (validateServer server) = is_ok (mapServer server).
Proof.
  unfold validateServer, mapServer. repeat case_bool_decide; simpl; try done.
  by destruct (is_empty server).
Qed.

Section queries.
Context `{Unicode} {S : Type} `{MarketRepository S} (catalog : Catalog) (Hwf : catalog_wf catalog).

Definition price_entry (i : string) (q : Z) : PriceQueryEntry :=
  {| pq_ItemKey := i; pq_Quality := q |}.

(** The keys of a query, normalised, in the order of their first appearance. *)
Definition query_keys (keys : list string) : list string := dedup (map NormalizeKey keys).

Lemma ResolveEnabled_ok keys locs m :
  ResolveEnabled (Some catalog) keys = Ok (locs, m) <->
  mapM (Catalog.key_location catalog) (query_keys keys) = Some locs /\
  m = foldl add_pair ∅ (zip (query_keys keys) locs).
Proof.
  unfold ResolveEnabled. rewrite resolve_from_ok by (intros ?%elem_of_nil; done).
  unfold query_keys, dedup. split; [intros (ls & HM & -> & ->)|intros [HM ->]]; eauto.
Qed.

(** What it takes for a query to be accepted. *)
Definition query_accepted {E} (item : E -> string) (quality : E -> Z) (server : Server)
    (keys : list string) (entries : list E) : Prop :=
  supported server /\ (1 <= length keys <= 32)%nat /\ (1 <= length entries <= 2000)%nat /\
  (forall k, k ∈ query_keys keys -> is_Some (Catalog.key_location catalog k)) /\
  Forall (valid_entry item quality) entries.

Lemma length_nonempty {A} (l : list A) : l <> [] <-> (1 <= length l)%nat.
Proof. destruct l; simpl; split; intros; try done; lia. Qed.

Lemma normalizePriceQuery_ok req n :
  normalizePriceQuery catalog req = Ok n <->
  query_accepted pq_ItemKey pq_Quality (pqr_Server req) (pqr_MarketKeys req) (pqr_Entries req) /\
  exists locs,
    mapM (Catalog.key_location catalog) (query_keys (pqr_MarketKeys req)) = Some locs /\
    n = {| np_lookup := {| cl_Server := pqr_Server req; cl_LocationIDs := locs;
             cl_Entries := dedup (map (trimmed pq_ItemKey pq_Quality price_entry) (pqr_Entries req)) |};
           np_marketOrder := market_order ∅ 0 (map NormalizeKey (pqr_MarketKeys req));
           np_keysByLocation := foldl add_pair ∅ (zip (query_keys (pqr_MarketKeys req)) locs) |}.
Proof.
  unfold query_accepted. split.
  - unfold normalizePriceQuery. intros Hok. inv_ok. bool_facts.
    destruct r. apply validateServer_ok in Hr.
    apply ResolveEnabled_ok in Hr0 as [HM ->].
    apply (normalize_entries_spec pq_ItemKey pq_Quality price_entry) in Hr1 as [Hv ->]; [|done..].
    apply length_nonempty in Hg, Hg1. unfold maxPriceQueryMarkets, maxPriceQueryEntries in *.
    split; [|eauto]. split_and!; [done|lia|lia|lia|lia| |done].
    intros k Hk. apply mapM_Some in HM. apply list_elem_of_lookup in Hk as [i Hk].
    destruct (Forall2_lookup_l _ _ _ _ _ HM Hk) as (loc & _ & ?). eauto.
  - intros ((Hs & Hk & He & Hres & Hv) & locs & HM & ->).
    unfold normalizePriceQuery.
    change (fun i q => {| pq_ItemKey := i; pq_Quality := q |}) with price_entry.
    apply validateServer_ok in Hs. rewrite Hs. cbn [rmap_err rbind].
    rewrite bool_decide_eq_false_2 by (apply length_nonempty; lia).
    rewrite (proj2 (Z.ltb_ge _ _)) by (unfold maxPriceQueryMarkets; lia).
    rewrite bool_decide_eq_false_2 by (apply length_nonempty; lia).
    rewrite (proj2 (Z.ltb_ge _ _)) by (unfold maxPriceQueryEntries; lia).
    rewrite (proj2 (ResolveEnabled_ok _ locs _)) by (split; [done|reflexivity]).
    cbn [rmap_err rbind].
    rewrite (proj2 (normalize_entries_spec pq_ItemKey pq_Quality price_entry ltac:(done) ltac:(done)
      (pqr_Entries req) _)) by (split; [done|reflexivity]).
    done.
Qed.

(** A price query is accepted exactly when its server is supported, it
    asks for 1 to 32 markets that all resolve and for 1 to 2000 entries that
    all have an item and a quality between 1 and 5.  The lookup then has one
    location per distinct market, and the trimmed entries without repetitions,
    and each market is ranked by its position among the distinct ones. *)
Theorem normalizePriceQuery_correct req :
  (is_ok (normalizePriceQuery catalog req) = true <->
   query_accepted pq_ItemKey pq_Quality (pqr_Server req) (pqr_MarketKeys req) (pqr_Entries req)) /\
  forall n, normalizePriceQuery catalog req = Ok n ->
    cl_Server (np_lookup n) = pqr_Server req /\
    Forall2 (fun k l => Catalog.key_location catalog k = Some l)
      (query_keys (pqr_MarketKeys req)) (cl_LocationIDs (np_lookup n)) /\
    NoDup (cl_LocationIDs (np_lookup n)) /\ NoDup (cl_Entries (np_lookup n)) /\
    (forall e, e ∈ cl_Entries (np_lookup n) <->
       exists e0, e0 ∈ pqr_Entries req /\ e = trimmed pq_ItemKey pq_Quality price_entry e0) /\
    (forall k i, np_marketOrder n !! k = Some i <->
       0 <= i /\ query_keys (pqr_MarketKeys req) !! Z.to_nat i = Some k) /\
    (forall l k, np_keysByLocation n !! l = Some k <->
       k ∈ query_keys (pqr_MarketKeys req) /\ Catalog.key_location catalog k = Some l).
Proof.
  split.
  - rewrite is_ok_true. split.
    + intros [n Hn]. by apply normalizePriceQuery_ok in Hn as [? _].
    + intros Hacc.
      assert (is_Some (mapM (Catalog.key_location catalog) (query_keys (pqr_MarketKeys req))))
        as [locs HM] by (apply mapM_is_Some, Forall_forall, Hacc).
      eexists. apply normalizePriceQuery_ok. split; [done|]. eauto.
  - intros n Hn. apply normalizePriceQuery_ok in Hn as (_ & locs & HM & ->). simpl.
    destruct (resolve_pairs catalog _ _ Hwf (NoDup_dedup _) HM) as (Hnd & Hlen & Hz).
    split_and!; try done.
    + by apply mapM_Some.
    + apply NoDup_dedup.
    + intros e. rewrite elem_of_dedup. change (map ?f ?l) with (f <$> l).
      rewrite list_elem_of_fmap. naive_solver.
    + apply market_order_spec.
    + intros l k. rewrite foldl_add_pair by done. rewrite Hz, lookup_empty. naive_solver.
Qed.

(** ** Labels and ranks *)

(** The label of a location is the market that was asked for there. *)
Definition labelled_by (keys : list string) (key : string) (location : Z) : Prop :=
  key ∈ query_keys keys /\ Catalog.key_location catalog key = Some location.

Lemma keys_by_location_spec keys locs l k :
  mapM (Catalog.key_location catalog) (query_keys keys) = Some locs ->
  (foldl add_pair ∅ (zip (query_keys keys) locs) : gmap Z string) !! l = Some k <->
  labelled_by keys k l.
Proof.
  intros HM. destruct (resolve_pairs catalog _ _ Hwf (NoDup_dedup _) HM) as (Hnd & Hlen & Hz).
  rewrite foldl_add_pair, Hz, lookup_empty by done. unfold labelled_by. naive_solver.
Qed.

(** Labelled rows with distinct identities are separated by the sort. *)
Lemma ranked_ties {A} (location : A -> Z) (item : A -> string) (quality : A -> Z)
    (key : A -> string) keys (l : list A) :
  NoDup (map (fun p => (location p, item p, quality p)) l) ->
  Forall (fun p => labelled_by keys (key p) (location p)) l ->
  let less := rank_less (fun p => default 0 (market_order ∅ 0 (map NormalizeKey keys) !! key p))
                item quality in
  forall p q, p ∈ l -> q ∈ l -> less p q = false -> less q p = false -> p = q.
Proof.
  intros Hnd Hlab less p q Hp Hq H1 H2.
  destruct (rank_less_ties _ _ _ _ _ H1 H2) as (Hr & Hi & Hqu).
  rewrite Forall_forall in Hlab.
  assert (forall p, p ∈ l -> exists i, 0 <= i /\ query_keys keys !! Z.to_nat i = Some (key p) /\
    market_order ∅ 0 (map NormalizeKey keys) !! key p = Some i) as Hrank.
  { intros p' Hin. destruct (Hlab p' Hin) as [[i Hk]%list_elem_of_lookup _].
    exists (Z.of_nat i). rewrite Nat2Z.id. split_and!; [lia|done|].
    apply market_order_spec. rewrite Nat2Z.id. split; [lia|done]. }
  destruct (Hrank p Hp) as (ip & _ & Hkp & Hop), (Hrank q Hq) as (iq & _ & Hkq & Hoq).
  rewrite Hop, Hoq in Hr. simpl in Hr. subst iq. assert (key p = key q) as Hkey by congruence.
  destruct (Hlab p Hp) as [_ Hlp], (Hlab q Hq) as [_ Hlq].
  apply list_elem_of_lookup in Hp as [a Ha], Hq as [b Hb].
  assert (a = b) as ->; [|congruence].
  apply (NoDup_lookup _ _ _ (location p, item p, quality p) Hnd); rewrite list_lookup_fmap;
    [by rewrite Ha|]. rewrite Hb. simpl. congruence.
Qed.

(** ** The answer *)

Lemma label_prices_ok keys ps ps' :
  label_prices keys ps = Ok ps' <->
  Forall2 (fun p p' => exists k, keys !! cp_LocationID p = Some k /\ p' = with_market k p) ps ps'.
Proof.
  revert ps'; induction ps as [|p ps IH]; intros ps'; simpl.
  { split; [intros [= <-]; constructor|]. by inversion 1. }
  destruct (keys !! cp_LocationID p) as [k|] eqn:E.
  - rewrite rbind_ok. split.
    + intros (rest & Hr & [= <-]). constructor; [eauto|by apply IH].
    + inversion 1 as [|? p' ? rest (k' & Hk' & ->) Hr]; subst.
      exists rest. split; [by apply IH|]. congruence.
  - split; [done|]. inversion 1 as [|? ? ? ? (? & ? & _)]; congruence.
Qed.

Lemma label_prices_total keys ps :
  Forall (fun p => is_Some (keys !! cp_LocationID p)) ps -> exists ps', label_prices keys ps = Ok ps'.
Proof.
  induction 1 as [|p ps [k Hk] _ [ps' IH]]; simpl; [eauto|]. rewrite Hk, IH. simpl. eauto.
Qed.

Lemma label_prices_perm keys ps1 ps2 l1 l2 :
  ps1 ≡ₚ ps2 -> label_prices keys ps1 = Ok l1 -> label_prices keys ps2 = Ok l2 -> l1 ≡ₚ l2.
Proof.
  intros Hp H1 H2. apply label_prices_ok in H1, H2.
  assert (forall ps l, Forall2 (fun p p' => exists k, keys !! cp_LocationID p = Some k /\
    p' = with_market k p) ps l -> l = map (fun p => with_market (default EmptyString (keys !! cp_LocationID p)) p) ps) as He.
  { induction 1 as [|? ? ? ? (k & Hk & ->)]; simpl; [done|]. rewrite Hk. simpl. congruence. }
  rewrite (He _ _ H1), (He _ _ H2). change (map ?f ?l) with (f <$> l). by rewrite Hp.
Qed.

Context `{!LawfulRepository S}.

Lemma labelled_prices req n ps l :
  normalizePriceQuery catalog req = Ok n -> label_prices (np_keysByLocation n) ps = Ok l ->
  map price_id l = map price_id ps /\
  Forall (fun p => labelled_by (pqr_MarketKeys req) (cp_MarketKey p) (cp_LocationID p)) l.
Proof.
  intros Hn Hl. apply normalizePriceQuery_ok in Hn as (_ & locs & HM & Hneq).
  apply label_prices_ok in Hl. rewrite Hneq in Hl. simpl in Hl. clear Hneq. split.
  - induction Hl as [|? ? ? ? (? & _ & ->) _ IH]; [done|]. cbn [map]. by rewrite IH.
  - induction Hl as [|? ? ? ? (k & Hk & ->) _ IH]; [done|]. constructor; [|done].
    by apply (keys_by_location_spec _ locs).
Qed.

(** With one price per location, item and quality, labelled prices that tie
    are equal. *)
Lemma labelled_ties req n ps l :
  normalizePriceQuery catalog req = Ok n -> NoDup (map price_id ps) ->
  label_prices (np_keysByLocation n) ps = Ok l ->
  NoDup l /\
  forall p q, p ∈ l -> q ∈ l ->
    price_less (np_marketOrder n) p q = false -> price_less (np_marketOrder n) q p = false -> p = q.
Proof.
  intros Hn Hnd Hl. destruct (labelled_prices req n ps l Hn Hl) as [Hids Hlab].
  rewrite <- Hids in Hnd. split; [by apply (NoDup_fmap_1 price_id)|].
  apply normalizePriceQuery_ok in Hn as (_ & locs & _ & ->). rewrite price_less_rank. simpl.
  by apply (ranked_ties cp_LocationID cp_ItemKey cp_Quality cp_MarketKey).
Qed.

(** C33. Against a lawful repository an accepted price query is answered with
    all the prices the repository returned, each labelled with the market that
    was asked for at its location, strictly ordered by the rank of the market,
    the item and the quality.  The answer does not depend on the order of the
    rows of the repository, and no row has an unmapped location. *)
Theorem QueryCurrentPrices_correct now req n ps (st : S) :
  normalizePriceQuery catalog req = Ok n -> repo_query (np_lookup n) st = Ok ps ->
  exists resp, QueryCurrentPrices catalog now req st = Ok resp /\
    pqs_Count resp = Z.of_nat (length ps) /\
    StronglySorted (fun p q => price_less (np_marketOrder n) p q = true) (pqs_Data resp) /\
    (forall p', p' ∈ pqs_Data resp <->
       exists p k, p ∈ ps /\ p' = with_market k p /\ k ∈ query_keys (pqr_MarketKeys req) /\
         Catalog.key_location catalog k = Some (cp_LocationID p)) /\
    (forall ps' l, ps ≡ₚ ps' -> label_prices (np_keysByLocation n) ps' = Ok l ->
       slice_stable (price_less (np_marketOrder n)) l = pqs_Data resp).
Proof.
  intros Hn Hq. pose proof (normalizePriceQuery_ok req n) as [Hok _].
  destruct (Hok Hn) as (_ & locs & HM & Hneq).
  destruct (resolve_pairs catalog _ _ Hwf (NoDup_dedup _) HM) as (Hndl & Hlen & Hz).
  assert (NoDup (cl_Entries (np_lookup n))) as Hnde by (rewrite Hneq; apply NoDup_dedup).
  destruct (law_prices _ _ _ Hnde Hq) as [Hlocs Hnd].
  assert (forall l k, np_keysByLocation n !! l = Some k <->
    k ∈ query_keys (pqr_MarketKeys req) /\ Catalog.key_location catalog k = Some l) as Hkeys.
  { intros l k. rewrite Hneq. simpl. rewrite foldl_add_pair, Hz, lookup_empty by done. naive_solver. }
  assert (exists l, label_prices (np_keysByLocation n) ps = Ok l) as [l Hl].
  { apply label_prices_total. eapply Forall_impl; [exact Hlocs|]. intros p Hp.
    rewrite Hneq in Hp. simpl in Hp. apply list_elem_of_lookup in Hp as [i Hi].
    apply mapM_Some in HM. destruct (Forall2_lookup_r _ _ _ _ _ HM Hi) as (k & Hk & Hkl).
    exists k. apply Hkeys. split; [by apply list_elem_of_lookup_2 in Hk|done]. }
  destruct (labelled_ties req n ps l Hn Hnd Hl) as [Hndl' Hties].
  unfold QueryCurrentPrices. rewrite Hn. cbn [rbind]. rewrite Hq. cbn [rmap_err rbind].
  rewrite Hl. cbn [rbind]. eexists. split; [reflexivity|]. simpl.
  split_and!.
  - rewrite length_slice_stable. apply label_prices_ok, Forall2_length in Hl. by rewrite Hl.
  - apply slice_stable_strict; [rewrite price_less_rank; apply _|done|done].
  - intros p'. rewrite elem_of_slice_stable. apply label_prices_ok in Hl. split.
    + intros [j Hj]%list_elem_of_lookup.
      destruct (Forall2_lookup_r _ _ _ _ _ Hl Hj) as (p & Hp & k & Hk & ->).
      apply Hkeys in Hk. exists p, k. split; [by apply list_elem_of_lookup_2 in Hp|]. tauto.
    + intros (p & k & [j Hj]%list_elem_of_lookup & -> & Hk & Hkl).
      destruct (Forall2_lookup_l _ _ _ _ _ Hl Hj) as (p' & Hp' & k' & Hk' & ->).
      assert (np_keysByLocation n !! cp_LocationID p = Some k) as Hk2 by by apply Hkeys.
      rewrite Hk2 in Hk'. injection Hk' as <-. by apply list_elem_of_lookup_2 in Hp'.
  - intros ps' l' Hp Hl'. symmetry.
    apply slice_stable_unique; [rewrite price_less_rank; apply _| |exact Hties].
    by eapply label_prices_perm.
Qed.
End queries.

Definition example_price_query : PriceQueryRequest :=
  {| pqr_Server := ServerWest; pqr_MarketKeys := ["Caerleon"; "martlock"; "caerleon "];
     pqr_Entries := [{| pq_ItemKey := " T4_BAG"; pq_Quality := 1 |};
                     {| pq_ItemKey := "T4_BAG"; pq_Quality := 1 |}] |}.

Definition example_normalized : normalizedPriceQuery :=
  {| np_lookup := {| cl_Server := ServerWest; cl_LocationIDs := [3005; 3008];
                     cl_Entries := [{| pq_ItemKey := "T4_BAG"; pq_Quality := 1 |}] |};
     np_marketOrder := <["martlock" := 1]> {["caerleon" := 0]};
     np_keysByLocation := <[3008 := "martlock"]> {[3005 := "caerleon"]} |}.

Lemma normalizePriceQuery_correct_witness :
  normalizePriceQuery (H := plain_unicode) NewDefault example_price_query = Ok example_normalized /\
  NoDup (cl_LocationIDs (np_lookup example_normalized)).
Proof.
  assert (normalizePriceQuery (H := plain_unicode) NewDefault example_price_query
          = Ok example_normalized) as Hn by (vm_compute; reflexivity).
  split; [exact Hn|].
  apply (proj2 (normalizePriceQuery_correct (H := plain_unicode) NewDefault NewDefault_wf
    example_price_query) example_normalized Hn).
Defined.
