(* ===== verification/HistoryService.v ===== *)
(** The history service: [internal/service/history_service.go]. *)
From S2P Require Import Prelude GoLists GoBase Dates Domain Catalog Tx PriceRepo HistoryRepo MarketService.
Local Open Scope Z_scope.

Definition maxHistoryIngestEntries : Z := 2000.
Definition maxHistoryIngestBuckets : Z := 100000.
Definition maxHistoryQueryMarkets : Z := 32.
Definition maxHistoryQueryEntries : Z := 2000.
Definition maxHistoryQueryDays : Z := 366.

(** * Identifiers *)

Definition is_hex (c : ascii) : bool :=
  in_range 48 57 c || in_range 97 102 c || in_range 65 70 c.

(** [hex.Decode] of 32 digits into 16 bytes fails on the first byte that is
    not a digit. *)
Definition hex_decodes (l : list ascii) : bool := forallb is_hex l.

Definition isUUID (value : string) : bool :=
  let b := bytes_of value in
  let dash := "-"%char in
  if (length b =? 36)%nat then
    if negb (bool_decide (b !! 8%nat = Some dash)) || negb (bool_decide (b !! 13%nat = Some dash))
       || negb (bool_decide (b !! 18%nat = Some dash)) || negb (bool_decide (b !! 23%nat = Some dash))
    then false
    else hex_decodes (take 8 b ++ take 4 (drop 9 b) ++ take 4 (drop 14 b)
                      ++ take 4 (drop 19 b) ++ drop 24 b)
  else if (length b =? 32)%nat then hex_decodes b
  else false.

(** * Ingestion *)

(** The inner loop over the buckets of an entry. *)
Fixpoint normalize_buckets (entryIndex bucketIndex : Z) (bs : list HistoryBucketIngest)
    : result invalid_reason (list HistoryBucketIngest) :=
  match bs with
  | [] => Ok []
  | b :: bs' =>
      fail_if is_zero (hb_Timestamp b) with BucketTimestamp entryIndex bucketIndex else
      fail_if hb_ItemCount b <? 0 with BucketItemCount entryIndex bucketIndex else
      let! price :=
        match hb_AverageUnitPrice b with
        | None => Ok None
        | Some p =>
            fail_if p <? 0 with BucketPrice entryIndex bucketIndex else
            Ok (if p =? 0 then None else Some p)
        end in
      let! rest := normalize_buckets entryIndex (bucketIndex + 1) bs' in
      Ok ({| hb_Timestamp := hb_Timestamp b; hb_ItemCount := hb_ItemCount b;
             hb_AverageUnitPrice := price |} :: rest)
  end.

(** The loop over the entries; [totalBuckets] counts the buckets so far. *)
Fixpoint normalize_history (entryIndex totalBuckets : Z) (entries : list HistoryIngest)
    : result invalid_reason (list HistoryIngest) :=
  match entries with
  | [] => Ok []
  | e :: entries' =>
      let itemKey := TrimSpace (hi_ItemKey e) in
      fail_if is_zero (hi_ObservedAt e) with EntryObservedAt entryIndex else
      fail_if hi_LocationID e <=? 0 with EntryLocation entryIndex else
      fail_if is_empty itemKey with EntryItemRequired entryIndex else
      fail_if (hi_Quality e <? 1) || (5 <? hi_Quality e) with EntryQuality entryIndex else
      fail_if bool_decide (hi_History e = []) with EntryHistory entryIndex else
      let total := totalBuckets + Z.of_nat (length (hi_History e)) in
      fail_if maxHistoryIngestBuckets <? total with TooManyBuckets else
      let! history := normalize_buckets entryIndex 0 (hi_History e) in
      let! rest := normalize_history (entryIndex + 1) total entries' in
      Ok ({| hi_ObservedAt := hi_ObservedAt e; hi_LocationID := hi_LocationID e;
             hi_ItemKey := itemKey; hi_Quality := hi_Quality e; hi_History := history |} :: rest)
  end.

Definition normalizeHistoryIngestRequest (req : IngestHistoryRequest)
    : result service_error IngestHistoryRequest :=
  let requestID := TrimSpace (ih_RequestID req) in
  fail_if is_empty requestID with InvalidHistoryIngestRequest RequestIDRequired else
  fail_if negb (isUUID requestID) with InvalidHistoryIngestRequest RequestIDNotUUID else
  let! _ := rmap_err InvalidHistoryIngestRequest (validateServer (ih_Server req)) in
  fail_if bool_decide (ih_Entries req = []) with InvalidHistoryIngestRequest EntriesRequired else
  fail_if maxHistoryIngestEntries <? Z.of_nat (length (ih_Entries req))
    with InvalidHistoryIngestRequest TooManyEntries else
  let! entries := rmap_err InvalidHistoryIngestRequest (normalize_history 0 0 (ih_Entries req)) in
  Ok {| ih_RequestID := requestID; ih_Server := ih_Server req; ih_Entries := entries |}.

Definition IngestHistory {S} `{MarketRepository S} (req : IngestHistoryRequest) (st : S)
    : result service_error IngestHistoryResponse * S :=
  match normalizeHistoryIngestRequest req with
  | Err e => (Err e, st)
  | Ok normalized =>
      match repo_IngestHistory normalized st with
      | (Err e, st') => (Err (ingest_error e), st')
      | (Ok r, st') =>
          (Ok {| ihr_RequestID := ih_RequestID normalized;
                 ihr_AcceptedEntries := AcceptedEntries r;
                 ihr_AcceptedBuckets := AcceptedBuckets r;
                 ihr_HistoryRowsTouched := HistoryRowsTouched r;
                 ihr_Duplicate := h_Duplicate r;
                 ihr_PersistenceTiming := h_PersistenceTiming r |}, st')
      end
  end.
(** * Queries *)

Section query.
Context `{Unicode}.

(** [parseHistoryRange]: the range of instants, and the two trimmed strings. *)
Definition parseHistoryRange (rawStart rawEnd : string)
    : result service_error (time * time * string * string) :=
  let startString := TrimSpace rawStart in
  let endString := TrimSpace rawEnd in
  fail_if is_empty startString with InvalidHistoryQuery RangeStartRequired else
  fail_if is_empty endString with InvalidHistoryQuery RangeEndRequired else
  let! start := of_option (InvalidHistoryQuery RangeStartFormat) (ParseDate startString) in
  let! end_ := of_option (InvalidHistoryQuery RangeEndFormat) (ParseDate endString) in
  fail_if end_ <? start with InvalidHistoryQuery RangeReversed else
  let days := Z.quot (time_sub end_ start) (24 * hour) + 1 in
  fail_if maxHistoryQueryDays <? days with InvalidHistoryQuery RangeTooLong else
  Ok (start, add_one_day end_, startString, endString).

Record normalizedHistoryQuery := {
  nh_lookup : MarketHistoryLookup;
  nh_marketOrder : gmap string Z;
  nh_keysByLocation : gmap Z string;
  nh_rangeStart : string;
  nh_rangeEnd : string;
}.

Context {S : Type} `{MarketRepository S} (catalog : Catalog).

Definition normalizeHistoryQuery (req : HistoryQueryRequest)
    : result service_error normalizedHistoryQuery :=
  let! _ := rmap_err InvalidHistoryQuery (validateServer (hqr_Server req)) in
  fail_if bool_decide (hqr_MarketKeys req = []) with InvalidHistoryQuery MarketKeysRequired else
  fail_if maxHistoryQueryMarkets <? Z.of_nat (length (hqr_MarketKeys req))
    with InvalidHistoryQuery TooManyMarketKeys else
  fail_if bool_decide (hqr_Entries req = []) with InvalidHistoryQuery EntriesRequired else
  fail_if maxHistoryQueryEntries <? Z.of_nat (length (hqr_Entries req))
    with InvalidHistoryQuery TooManyEntries else
  let! (locationIDs, keysByLocation) :=
    rmap_err (fun e => InvalidHistoryQuery (CatalogRejected e))
      (ResolveEnabled (Some catalog) (hqr_MarketKeys req)) in
  let! entries := rmap_err InvalidHistoryQuery
    (normalize_entries hq_ItemKey hq_Quality
       (fun i q => {| hq_ItemKey := i; hq_Quality := q |}) 0 [] [] (hqr_Entries req)) in
  let! (start, endExclusive, startString, endString) :=
    parseHistoryRange (hqr_RangeStart req) (hqr_RangeEnd req) in
  Ok {| nh_lookup := {| hl_Server := hqr_Server req; hl_LocationIDs := locationIDs;
                        hl_Entries := entries; hl_RangeStart := start;
                        hl_RangeEndExclusive := endExclusive |};
        nh_marketOrder := market_order ∅ 0 (map NormalizeKey (hqr_MarketKeys req));
        nh_keysByLocation := keysByLocation;
        nh_rangeStart := startString; nh_rangeEnd := endString |}.

Definition series_with_market (key : string) (h : MarketHistorySeries) : MarketHistorySeries :=
  {| hs_Server := hs_Server h; hs_MarketKey := key; hs_LocationID := hs_LocationID h;
     hs_ItemKey := hs_ItemKey h; hs_Quality := hs_Quality h; hs_History := hs_History h |}.

(** The loop that fills [MarketKey] and counts the buckets. *)
Fixpoint label_series (keys : gmap Z string) (bucketCount : Z) (histories : list MarketHistorySeries)
    : result service_error (list MarketHistorySeries * Z) :=
  match histories with
  | [] => Ok ([], bucketCount)
  | h :: histories' =>
      match keys !! hs_LocationID h with
      | None => Err (UnmappedLocation (hs_LocationID h))
      | Some key =>
          let! (rest, count) :=
            label_series keys (bucketCount + Z.of_nat (length (hs_History h))) histories' in
          Ok (series_with_market key h :: rest, count)
      end
  end.

Definition series_less (order : gmap string Z) (a b : MarketHistorySeries) : bool :=
  let leftRank := default 0 (order !! hs_MarketKey a) in
  let rightRank := default 0 (order !! hs_MarketKey b) in
  if bool_decide (leftRank <> rightRank) then leftRank <? rightRank
  else if bool_decide (hs_ItemKey a <> hs_ItemKey b) then str_ltb (hs_ItemKey a) (hs_ItemKey b)
  else hs_Quality a <? hs_Quality b.

Definition QueryMarketHistory (now : time) (req : HistoryQueryRequest) (st : S)
    : result service_error HistoryQueryResponse :=
  let! normalized := normalizeHistoryQuery req in
  let! histories := rmap_err RepositoryError (repo_QueryMarketHistory (nh_lookup normalized) st) in
  let! (labelled, bucketCount) := label_series (nh_keysByLocation normalized) 0 histories in
  let data := slice_stable (series_less (nh_marketOrder normalized)) labelled in
  Ok {| hqs_RequestedAt := now; hqs_RangeStart := nh_rangeStart normalized;
        hqs_RangeEnd := nh_rangeEnd normalized; hqs_Count := Z.of_nat (length data);
        hqs_BucketCount := bucketCount; hqs_Data := data |}.
End query.
