(* ===== verification/HistoryServiceSpec.v ===== *)
(** Properties of the history service of [HistoryService]. *)
From S2P Require Import Prelude GoLists GoBase Utf8 Dates Domain Catalog Tx Lww PriceRepo HistoryRepo HistoryRepoSpec MarketService MarketServiceSpec HistoryService.
Local Open Scope Z_scope.

(** * The range of a query *)

Lemma day_pos : 0 < day.
Proof. unfold day, hour, minute, second. lia. Qed.

(** Saturation does not let a long range through. *)
Lemma range_days n1 n2 :
  n1 <= n2 ->
  (maxHistoryQueryDays <? Z.quot (time_sub (n2 * day) (n1 * day)) (24 * hour) + 1) = false <->
  n2 - n1 < 366.
Proof.
  intros Hn. fold day. unfold maxHistoryQueryDays. rewrite Z.ltb_ge.
  assert (Z.max min_int64 (Z.min max_int64 ((n2 - n1) * day))
          = Z.min max_int64 ((n2 - n1) * day)) as Hmax.
  { apply Z.max_r. unfold min_int64, max_int64. pose proof day_pos. nia. }
  unfold time_sub. replace (n2 * day - n1 * day) with ((n2 - n1) * day) by lia. rewrite Hmax.
  assert (366 * day <= max_int64) as H366 by (vm_compute; discriminate).
  pose proof day_pos as Hday. set (dd := day) in *. clearbody dd.
  rewrite Z.quot_div_nonneg by (unfold max_int64 in *; nia).
  destruct (Z.le_gt_cases ((n2 - n1) * dd) max_int64) as [Hle|Hgt].
  - rewrite Z.min_r by done. rewrite Z.div_mul by lia. lia.
  - rewrite Z.min_l by lia.
    assert (366 <= max_int64 / dd) by (apply Z.div_le_lower_bound; lia).
    split; [lia|]. intros. nia.
Qed.

(** A range is accepted exactly when both ends are dates in the form
    YYYY-MM-DD, the end is not before the start, and the range, both ends
    included, has at most 366 days; the lookup then covers midnight of the
    first day up to midnight after the last one, and the dates are echoed in
    their canonical form. *)
Theorem parseHistoryRange_correct rawStart rawEnd s e ss es :
  parseHistoryRange rawStart rawEnd = Ok (s, e, ss, es) <->
  exists y1 m1 d1 y2 m2 d2,
    parse_date (TrimSpace rawStart) = Some (y1, m1, d1) /\
    parse_date (TrimSpace rawEnd) = Some (y2, m2, d2) /\
    ss = format_date y1 m1 d1 /\ es = format_date y2 m2 d2 /\
    s = day_number y1 m1 d1 * day /\ e = (day_number y2 m2 d2 + 1) * day /\
    0 <= day_number y2 m2 d2 - day_number y1 m1 d1 < 366.
Proof.
  pose proof day_pos as Hday. unfold parseHistoryRange.
  assert (forall n1 n2, n1 <= n2 ->
    (maxHistoryQueryDays <? Z.quot (time_sub (n2 * day) (n1 * day)) (24 * hour) + 1) = false <->
    n2 - n1 < 366) as Hdays.
  { exact range_days. }
  split.
  - intros Hok. inv_ok. bool_facts.
    unfold ParseDate in *.
    apply fmap_Some in Hr as ([[y1 m1] d1] & Hp1 & ->).
    apply fmap_Some in Hr0 as ([[y2 m2] d2] & Hp2 & ->).
    destruct (parse_date_Some _ _ _ _ Hp1) as [E1 _].
    destruct (parse_date_Some _ _ _ _ Hp2) as [E2 _].
    exists y1, m1, d1, y2, m2, d2.
    assert (day_number y1 m1 d1 <= day_number y2 m2 d2)
      by (apply (Z.mul_le_mono_pos_r _ _ day); done).
    assert (day_number y2 m2 d2 - day_number y1 m1 d1 < 366) by
      (apply Hdays; [done|]; by apply Z.ltb_ge).
    split_and!; try done; unfold add_one_day; lia.
  - intros (y1 & m1 & d1 & y2 & m2 & d2 & Hp1 & Hp2 & -> & -> & -> & -> & H0 & H1).
    assert (forall x y m d, parse_date x = Some (y, m, d) -> is_empty x = false) as Hne
      by by intros [].
    rewrite (Hne _ _ _ _ Hp1), (Hne _ _ _ _ Hp2). unfold ParseDate. rewrite Hp1, Hp2. simpl.
    rewrite (proj2 (Z.ltb_ge _ _)) by (apply Z.mul_le_mono_pos_r; lia).
    rewrite (proj2 (Hdays (day_number y1 m1 d1) (day_number y2 m2 d2) ltac:(lia)) ltac:(lia)).
    destruct (parse_date_Some _ _ _ _ Hp1) as [<- _].
    destruct (parse_date_Some _ _ _ _ Hp2) as [<- _].
    unfold add_one_day. do 4 f_equal. lia.
Qed.

(** * Identifiers *)

(** [isUUID] accepts 32 hexadecimal digits, either in one run or in groups
    of 8, 4, 4, 4 and 12 separated by dashes, and nothing else. *)
Theorem isUUID_correct v :
  isUUID v = true <->
  exists g1 g2 g3 g4 g5,
    length g1 = 8%nat /\ length g2 = 4%nat /\ length g3 = 4%nat /\ length g4 = 4%nat /\
    length g5 = 12%nat /\ Forall (fun c => is_hex c = true) (g1 ++ g2 ++ g3 ++ g4 ++ g5) /\
    (bytes_of v = g1 ++ g2 ++ g3 ++ g4 ++ g5 \/
     bytes_of v = g1 ++ ["-"%char] ++ g2 ++ ["-"%char] ++ g3 ++ ["-"%char] ++ g4 ++ ["-"%char] ++ g5).
Proof.
  unfold isUUID, hex_decodes. set (b := bytes_of v). clearbody b.
  assert (forall l, forallb is_hex l = true <-> Forall (fun c => is_hex c = true) l) as Hall.
  { intros l. rewrite forallb_forall, Forall_forall. setoid_rewrite list_elem_of_In. done. }
  split.
  - destruct (Nat.eqb_spec (length b) 36) as [H36|_]; [|destruct (Nat.eqb_spec (length b) 32) as [H32|]; [|done]].
    + destruct (_ || _) eqn:E; [done|]. bool_facts. intros Hx%Hall.
      exists (take 8 b), (take 4 (drop 9 b)), (take 4 (drop 14 b)), (take 4 (drop 19 b)), (drop 24 b).
      rewrite !length_take, !length_drop, H36. split_and!; try done. right.
      rewrite <- (take_drop 8 b) at 1. f_equal. rewrite (drop_S b "-"%char 8) by done. simpl. f_equal.
      rewrite <- (take_drop 4 (drop 9 b)) at 1. f_equal. rewrite drop_drop. simpl.
      rewrite (drop_S b "-"%char 13) by done. f_equal.
      rewrite <- (take_drop 4 (drop 14 b)) at 1. f_equal. rewrite drop_drop. simpl.
      rewrite (drop_S b "-"%char 18) by done. f_equal.
      rewrite <- (take_drop 4 (drop 19 b)) at 1. f_equal. rewrite drop_drop. simpl.
      by rewrite (drop_S b "-"%char 23) by done.
    + intros Hx%Hall.
      exists (take 8 b), (take 4 (drop 8 b)), (take 4 (drop 12 b)), (take 4 (drop 16 b)), (drop 20 b).
      assert (b = take 8 b ++ take 4 (drop 8 b) ++ take 4 (drop 12 b) ++ take 4 (drop 16 b) ++ drop 20 b) as Hb.
      { rewrite <- (take_drop 8 b) at 1. f_equal.
        rewrite <- (take_drop 4 (drop 8 b)) at 1. f_equal. rewrite drop_drop.
        rewrite <- (take_drop 4 (drop _ b)) at 1. simpl. f_equal. rewrite drop_drop. simpl.
        rewrite <- (take_drop 4 (drop 16 b)) at 1. f_equal. by rewrite drop_drop. }
      rewrite <- Hb, !length_take, !length_drop, H32. split_and!; try done. by left.
  - intros (g1 & g2 & g3 & g4 & g5 & H1 & H2 & H3 & H4 & H5 & Hx & [->| ->]).
    + rewrite !length_app, H1, H2, H3, H4, H5. simpl. by apply Hall.
    + do 9 (destruct g1 as [|? g1]; try discriminate H1).
      do 5 (destruct g2 as [|? g2]; try discriminate H2).
      do 5 (destruct g3 as [|? g3]; try discriminate H3).
      do 5 (destruct g4 as [|? g4]; try discriminate H4).
      rewrite !length_app. cbn [length app]. rewrite H5.
      apply Hall in Hx. simpl in Hx |- *. by rewrite drop_0.
Qed.

(** * Normalising an ingest request *)

Definition valid_bucket (b : HistoryBucketIngest) : Prop :=
  hb_Timestamp b <> zero_time /\ 0 <= hb_ItemCount b /\
  (forall p, hb_AverageUnitPrice b = Some p -> 0 <= p).

(** A price of zero stands for no price. *)
Definition normal_bucket (b : HistoryBucketIngest) : HistoryBucketIngest :=
  {| hb_Timestamp := hb_Timestamp b; hb_ItemCount := hb_ItemCount b;
     hb_AverageUnitPrice :=
       match hb_AverageUnitPrice b with
       | Some p => if p =? 0 then None else Some p
       | None => None
       end |}.

Definition valid_history (e : HistoryIngest) : Prop :=
  hi_ObservedAt e <> zero_time /\ 0 < hi_LocationID e /\
  TrimSpace (hi_ItemKey e) <> EmptyString /\ valid_quality (hi_Quality e) /\
  hi_History e <> [] /\ Forall valid_bucket (hi_History e).

Definition normal_history (e : HistoryIngest) : HistoryIngest :=
  {| hi_ObservedAt := hi_ObservedAt e; hi_LocationID := hi_LocationID e;
     hi_ItemKey := TrimSpace (hi_ItemKey e); hi_Quality := hi_Quality e;
     hi_History := map normal_bucket (hi_History e) |}.

Lemma normalize_buckets_ok i j bs bs' :
  normalize_buckets i j bs = Ok bs' <-> Forall valid_bucket bs /\ bs' = map normal_bucket bs.
Proof.
  revert j bs'; induction bs as [|b bs IH]; intros j bs'; simpl.
  { split; [intros [= <-]; by split|]. by intros [_ ->]. }
  rewrite Forall_cons. split.
  - intros Hok. inv_ok. apply IH in Hr0 as [Hv ->]. unfold is_zero in *. bool_facts.
    unfold valid_bucket, normal_bucket.
    destruct (hb_AverageUnitPrice b) as [p|]; inv_ok; bool_facts.
    + split; [|done]. split_and!; try done. by intros ? [= <-].
    + split; [|done]. by split_and!.
  - intros [[(Ht & Hc & Hp) Hv] ->]. unfold is_zero.
    rewrite (proj2 (Z.eqb_neq _ _)), (proj2 (Z.ltb_ge _ _)) by done.
    rewrite (proj2 (IH (j + 1) _)) by (by split). unfold normal_bucket at 2.
    destruct (hb_AverageUnitPrice b) as [p|]; simpl; [|done].
    by rewrite (proj2 (Z.ltb_ge _ _)) by (by apply Hp).
Qed.

Lemma countHistoryBuckets_nonneg entries : 0 <= countHistoryBuckets entries.
Proof. induction entries; simpl; lia. Qed.

Lemma normalize_history_ok i total entries es :
  normalize_history i total entries = Ok es <->
  Forall valid_history entries /\
  (entries = [] \/ total + countHistoryBuckets entries <= maxHistoryIngestBuckets) /\
  es = map normal_history entries.
Proof.
  revert i total es; induction entries as [|e entries IH]; intros i total es; simpl.
  { split; [intros [= <-]|intros (_ & _ & ->)]; [|done]. split_and!; [constructor|by left|done]. }
  rewrite Forall_cons. split.
  - intros Hok. inv_ok. apply normalize_buckets_ok in Hr as [Hb ->].
    apply IH in Hr0 as (Hv & Htot & ->). unfold is_zero in *. bool_facts.
    apply is_empty_false in Hg1. unfold valid_history, valid_quality, normal_history.
    split_and!; try done; try lia.
    right. destruct Htot as [->|]; simpl; lia.
  - intros ((( Ho & Hl & Hi & [Hq1 Hq2] & Hne & Hb) & Hv) & Htot & ->). unfold is_zero.
    rewrite (proj2 (Z.eqb_neq _ _)), (proj2 (Z.leb_gt _ _)) by done.
    rewrite (proj2 (is_empty_false _) Hi).
    rewrite (proj2 (Z.ltb_ge _ 1)), (proj2 (Z.ltb_ge 5 _)) by lia. simpl.
    rewrite bool_decide_eq_false_2 by done.
    destruct Htot as [?|Htot]; [done|]. pose proof (countHistoryBuckets_nonneg entries).
    rewrite (proj2 (Z.ltb_ge _ _)) by lia.
    rewrite (proj2 (normalize_buckets_ok _ _ _ _)) by (split; [exact Hb|reflexivity]). simpl.
    rewrite (proj2 (IH (i + 1) _ _)) by (split_and!; [exact Hv|right; lia|reflexivity]). done.
Qed.

Lemma countHistoryBuckets_normal entries :
  countHistoryBuckets (map normal_history entries) = countHistoryBuckets entries.
Proof. induction entries as [|e entries IH]; simpl; [done|]. by rewrite IH, length_map. Qed.

Lemma normalizeHistoryIngestRequest_ok req req' :
  normalizeHistoryIngestRequest req = Ok req' <->
  isUUID (TrimSpace (ih_RequestID req)) = true /\ supported (ih_Server req) /\
  (1 <= length (ih_Entries req) <= 2000)%nat /\
  Forall valid_history (ih_Entries req) /\ countHistoryBuckets (ih_Entries req) <= 100000 /\
  req' = {| ih_RequestID := TrimSpace (ih_RequestID req); ih_Server := ih_Server req;
            ih_Entries := map normal_history (ih_Entries req) |}.
Proof.
  unfold normalizeHistoryIngestRequest. split.
  - intros Hok. inv_ok. bool_facts. destruct r. apply validateServer_ok in Hr.
    apply normalize_history_ok in Hr0 as (Hv & Htot & ->).
    apply length_nonempty in Hg1. unfold maxHistoryIngestEntries, maxHistoryIngestBuckets in *.
    split_and!; try done; try lia. destruct Htot as [E|]; [|lia]. rewrite E in Hg1. simpl in Hg1. lia.
  - intros (Hu & Hs & Hlen & Hv & Htot & ->). apply validateServer_ok in Hs.
    rewrite (proj2 (is_empty_false _)) by (intros E; rewrite E in Hu; discriminate Hu).
    rewrite Hu, Hs. cbn [negb rmap_err rbind].
    rewrite bool_decide_eq_false_2 by (apply length_nonempty; lia).
    rewrite (proj2 (Z.ltb_ge _ _)) by (unfold maxHistoryIngestEntries; lia).
    rewrite (proj2 (normalize_history_ok 0 0 (ih_Entries req) (map normal_history (ih_Entries req))))
      by (split_and!; [done|right; unfold maxHistoryIngestBuckets; lia|done]).
    done.
Qed.

Lemma normalize_err_invalid req e :
  normalizeHistoryIngestRequest req = Err e -> exists why, e = InvalidHistoryIngestRequest why.
Proof. unfold normalizeHistoryIngestRequest. intros He. inv_err; eauto. Qed.

(** The item keys of entries are texts the database can hold. *)
Definition text_keys (entries : list HistoryIngest) : bool := forallb (fun e => sql_text (hi_ItemKey e)) entries.

Lemma normal_storable s entries :
  1 <= s <= 3 -> Forall valid_history entries ->
  storable s (map normal_history entries) = text_keys (map normal_history entries).
Proof.
  intros Hs Hv. unfold storable, text_keys, history_values_of. apply eq_true_iff_eq. rewrite !forallb_forall.
  rewrite Forall_forall in Hv. split.
  { intros Hall e He. apply in_map_iff in He as (e0 & <- & He0).
    pose proof He0 as (_ & _ & _ & _ & Hne & _)%list_elem_of_In%Hv. destruct (hi_History e0) as [|b bs] eqn:Hb; [done|].
    specialize (Hall {| hv_request_id := EmptyString; hv_server := s; hv_entry := normal_history e0; hv_bucket := normal_bucket b |}).
    unfold raw_history_check in Hall. simpl in Hall. rewrite !andb_true_iff in Hall. apply Hall.
    apply in_flat_map. exists (normal_history e0). split; [by apply in_map|]. simpl. rewrite Hb. by left. }
  intros Hk v Hin. apply in_flat_map in Hin as (e & He & Hin). pose proof (Hk e He) as Htext.
  apply in_map_iff in He as (e0 & <- & He0).
  apply list_elem_of_In, Hv in He0 as (_ & Hl & Hi & Hq & _ & Hb).
  apply in_map_iff in Hin as (b & <- & Hin). simpl in Hin.
  apply in_map_iff in Hin as (b0 & <- & Hb0).
  rewrite Forall_forall in Hb. apply list_elem_of_In, Hb in Hb0 as (_ & Hc & Hp).
  unfold raw_history_check. simpl in *. unfold valid_quality in Hq.
  rewrite (proj2 (is_empty_false _) Hi), !andb_true_iff, !Z.leb_le, Z.ltb_lt.
  split_and!; try done; try lia.
  destruct (hb_AverageUnitPrice b0) as [p|]; [|done]. specialize (Hp p eq_refl).
  destruct (Z.eqb_spec p 0); [done|]. apply Z.ltb_lt. lia.
Qed.

(** A history request is accepted exactly when its trimmed identifier is
    a UUID, its server is supported, it has 1 to 2000 valid entries and at
    most 100000 buckets in all; what is passed on has the same entries with
    trimmed items and with prices of zero turned into no price, keeps the
    number of buckets, and satisfies every constraint of the tables it will be
    copied to, but for item keys with the character 0, which the database refuses. *)
Theorem normalizeHistoryIngestRequest_correct req :
  (is_ok (normalizeHistoryIngestRequest req) = true <->
   isUUID (TrimSpace (ih_RequestID req)) = true /\ supported (ih_Server req) /\
   (1 <= length (ih_Entries req) <= 2000)%nat /\
   Forall valid_history (ih_Entries req) /\ countHistoryBuckets (ih_Entries req) <= 100000) /\
  forall req' s, normalizeHistoryIngestRequest req = Ok req' -> mapServer (ih_Server req') = Ok s ->
    ih_Entries req' = map normal_history (ih_Entries req) /\
    countHistoryBuckets (ih_Entries req') = countHistoryBuckets (ih_Entries req) /\
    storable s (ih_Entries req') = text_keys (ih_Entries req').
Proof.
  split.
  - rewrite is_ok_true. split.
    + intros [req' Hok]. apply normalizeHistoryIngestRequest_ok in Hok. tauto.
    + intros ?. eexists. apply normalizeHistoryIngestRequest_ok. split_and!; try reflexivity; tauto.
  - intros req' s Hok Hs. apply normalizeHistoryIngestRequest_ok in Hok as (_ & _ & _ & Hv & _ & ->).
    simpl in *. split_and!; [done|apply countHistoryBuckets_normal|].
    apply normal_storable; [by eapply mapServer_range|done].
Qed.
(** * The query *)

Section queries.
Context `{Unicode} {S : Type} `{MarketRepository S} (catalog : Catalog) (Hwf : catalog_wf catalog).

Definition history_entry (i : string) (q : Z) : HistoryQueryEntry :=
  {| hq_ItemKey := i; hq_Quality := q |}.

Lemma normalizeHistoryQuery_ok req n :
  normalizeHistoryQuery catalog req = Ok n <->
  query_accepted catalog hq_ItemKey hq_Quality (hqr_Server req) (hqr_MarketKeys req)
    (hqr_Entries req) /\
  exists locs s e ss es,
    mapM (Catalog.key_location catalog) (query_keys (hqr_MarketKeys req)) = Some locs /\
    parseHistoryRange (hqr_RangeStart req) (hqr_RangeEnd req) = Ok (s, e, ss, es) /\
    n = {| nh_lookup := {| hl_Server := hqr_Server req; hl_LocationIDs := locs;
             hl_Entries := dedup (map (trimmed hq_ItemKey hq_Quality history_entry) (hqr_Entries req));
             hl_RangeStart := s; hl_RangeEndExclusive := e |};
           nh_marketOrder := market_order ∅ 0 (map NormalizeKey (hqr_MarketKeys req));
           nh_keysByLocation := foldl add_pair ∅ (zip (query_keys (hqr_MarketKeys req)) locs);
           nh_rangeStart := ss; nh_rangeEnd := es |}.
Proof.
  unfold query_accepted. split.
  - unfold normalizeHistoryQuery. intros Hok. inv_ok. bool_facts.
    destruct r. apply validateServer_ok in Hr.
    apply ResolveEnabled_ok in Hr0 as [HM ->].
    apply (normalize_entries_spec hq_ItemKey hq_Quality history_entry) in Hr1 as [Hv ->]; [|done..].
    apply length_nonempty in Hg, Hg1. unfold maxHistoryQueryMarkets, maxHistoryQueryEntries in *.
    split; [|do 5 eexists; split_and!; [done|done|reflexivity]].
    split_and!; [done|lia|lia|lia|lia| |done].
    intros k Hk. apply mapM_Some in HM. apply list_elem_of_lookup in Hk as [i Hk].
    destruct (Forall2_lookup_l _ _ _ _ _ HM Hk) as (loc & _ & ?). eauto.
  - intros ((Hs & Hk & He & Hres & Hv) & locs & s & e & ss & es & HM & Hrange & ->).
    unfold normalizeHistoryQuery.
    change (fun i q => {| hq_ItemKey := i; hq_Quality := q |}) with history_entry.
    apply validateServer_ok in Hs. rewrite Hs. cbn [rmap_err rbind].
    rewrite bool_decide_eq_false_2 by (apply length_nonempty; lia).
    rewrite (proj2 (Z.ltb_ge _ _)) by (unfold maxHistoryQueryMarkets; lia).
    rewrite bool_decide_eq_false_2 by (apply length_nonempty; lia).
    rewrite (proj2 (Z.ltb_ge _ _)) by (unfold maxHistoryQueryEntries; lia).
    rewrite (proj2 (ResolveEnabled_ok _ _ locs _)) by (split; [done|reflexivity]).
    cbn [rmap_err rbind].
    rewrite (proj2 (normalize_entries_spec hq_ItemKey hq_Quality history_entry ltac:(done) ltac:(done)
      (hqr_Entries req) _)) by (split; [done|reflexivity]).
    cbn [rmap_err rbind]. by rewrite Hrange.
Qed.

Definition count_points (hs : list MarketHistorySeries) : Z :=
  foldr (fun h n => Z.of_nat (length (hs_History h)) + n) 0 hs.

Lemma label_series_ok keys n hs hs' c :
  label_series keys n hs = Ok (hs', c) <->
  Forall2 (fun h h' => exists k, keys !! hs_LocationID h = Some k /\ h' = series_with_market k h) hs hs'
  /\ c = n + count_points hs.
Proof.
  revert n hs' c; induction hs as [|h hs IH]; intros n hs' c; simpl.
  { split; [intros [= <- <-]; split; [constructor|lia]|]. intros [Hl ->]. inversion Hl. do 2 f_equal. lia. }
  destruct (keys !! hs_LocationID h) as [k|] eqn:E.
  - rewrite rbind_ok. split.
    + intros ([rest c'] & Hr & [= <- <-]). apply IH in Hr as [Hr ->].
      split; [constructor; eauto|lia].
    + intros [Hl ->]. inversion Hl as [|? p' ? rest (k' & Hk' & ->) Hr]; subst.
      eexists (rest, _). split; [apply IH; split; [done|reflexivity]|].
      assert (k' = k) as -> by congruence. do 2 f_equal. lia.
  - split; [done|]. intros [Hl _]. inversion Hl as [|? ? ? ? (? & ? & _)]; congruence.
Qed.

Lemma label_series_total keys n hs :
  Forall (fun h => is_Some (keys !! hs_LocationID h)) hs -> is_ok (label_series keys n hs) = true.
Proof.
  intros Hall. revert n. induction Hall as [|h hs [k Hk] _ IH]; intros n; simpl; [done|].
  rewrite Hk. specialize (IH (n + Z.of_nat (length (hs_History h)))).
  by destruct (label_series _ _ hs) as [[]|].
Qed.

Definition series_rank (order : gmap string Z) (h : MarketHistorySeries) : Z :=
  default 0 (order !! hs_MarketKey h).

Lemma series_less_rank order : series_less order = rank_less (series_rank order) hs_ItemKey hs_Quality.
Proof. done. Qed.

Context `{!LawfulRepository S}.

(** Against a lawful repository an accepted history query is answered
    with all the series the repository returned, each labelled with the market
    that was asked for at its location, strictly ordered by the rank of the
    market, the item and the quality, and with the number of points of all
    the series. *)
Theorem QueryMarketHistory_correct now req n hs (st : S) :
  normalizeHistoryQuery catalog req = Ok n -> repo_QueryMarketHistory (nh_lookup n) st = Ok hs ->
  exists resp, QueryMarketHistory catalog now req st = Ok resp /\
    hqs_Count resp = Z.of_nat (length hs) /\ hqs_BucketCount resp = count_points hs /\
    StronglySorted (fun a b => series_less (nh_marketOrder n) a b = true) (hqs_Data resp) /\
    forall h', h' ∈ hqs_Data resp <->
      exists h k, h ∈ hs /\ h' = series_with_market k h /\
        labelled_by catalog (hqr_MarketKeys req) k (hs_LocationID h).
Proof.
  intros Hn Hq. pose proof (proj1 (normalizeHistoryQuery_ok req n) Hn)
    as (_ & locs & s & e & ss & es & HM & _ & Hneq).
  destruct (law_history _ _ _ Hq) as [Hlocs Hnd].
  assert (forall l k, nh_keysByLocation n !! l = Some k <->
    labelled_by catalog (hqr_MarketKeys req) k l) as Hkeys.
  { intros l k. rewrite Hneq. by apply (keys_by_location_spec catalog Hwf). }
  assert (is_ok (label_series (nh_keysByLocation n) 0 hs) = true) as Htot.
  { apply label_series_total. eapply Forall_impl; [exact Hlocs|]. intros h Hh.
    rewrite Hneq in Hh. simpl in Hh. apply list_elem_of_lookup in Hh as [i Hi].
    apply mapM_Some in HM. destruct (Forall2_lookup_r _ _ _ _ _ HM Hi) as (k & Hk & Hkl).
    exists k. apply Hkeys. split; [by apply list_elem_of_lookup_2 in Hk|done]. }
  apply is_ok_true in Htot as [[l c] Hl]. unfold QueryMarketHistory. rewrite Hn. cbn [rbind].
  rewrite Hq. cbn [rmap_err rbind]. rewrite Hl. cbn [rbind].
  apply label_series_ok in Hl as [Hl ->]. eexists. split; [reflexivity|]. simpl.
  assert (map series_id l = map series_id hs) as Hids.
  { clear -Hl. induction Hl as [|? ? ? ? (? & _ & ->) _ IH]; [done|]. cbn [map]. by rewrite IH. }
  rewrite <- Hids in Hnd.
  assert (Forall (fun h => labelled_by catalog (hqr_MarketKeys req) (hs_MarketKey h) (hs_LocationID h)) l)
    as Hlab.
  { clear -Hl Hkeys. induction Hl as [|? ? ? ? (k & Hk & ->) _ IH]; constructor; [|done].
    by apply Hkeys. }
  split_and!.
  - rewrite length_slice_stable. apply Forall2_length in Hl. by rewrite Hl.
  - lia.
  - apply slice_stable_strict; [rewrite series_less_rank; apply _|by apply (NoDup_fmap_1 series_id)|].
    rewrite series_less_rank, Hneq. simpl.
    by apply (ranked_ties catalog hs_LocationID hs_ItemKey hs_Quality hs_MarketKey).
  - intros h'. rewrite elem_of_slice_stable. split.
    + intros [j Hj]%list_elem_of_lookup.
      destruct (Forall2_lookup_r _ _ _ _ _ Hl Hj) as (h & Hh & k & Hk & ->).
      apply Hkeys in Hk. exists h, k. by apply list_elem_of_lookup_2 in Hh.
    + intros (h & k & [j Hj]%list_elem_of_lookup & -> & Hk).
      destruct (Forall2_lookup_l _ _ _ _ _ Hl Hj) as (h' & Hh' & k' & Hk' & ->).
      apply Hkeys in Hk. assert (k' = k) as -> by congruence.
      by apply list_elem_of_lookup_2 in Hh'.
Qed.
End queries.

Definition example_uuid : string := "00112233-4455-6677-8899-aabbccddeeff".

Definition example_history_request : IngestHistoryRequest :=
  {| ih_RequestID := " 00112233-4455-6677-8899-aabbccddeeff "; ih_Server := ServerWest;
     ih_Entries :=
       [{| hi_ObservedAt := 5000; hi_LocationID := 3008; hi_ItemKey := "T4_BAG "; hi_Quality := 1;
           hi_History := [{| hb_Timestamp := 1000; hb_ItemCount := 4;
                             hb_AverageUnitPrice := Some 0 |}] |}] |}.

Lemma normalizeHistoryIngestRequest_correct_witness :
  exists req', normalizeHistoryIngestRequest example_history_request = Ok req' /\
    storable 1 (ih_Entries req') = true.
Proof.
  eexists. split; [vm_compute; reflexivity|].
  refine (proj2 (proj2 (proj2 (normalizeHistoryIngestRequest_correct
    example_history_request) _ 1 _ _))); vm_compute; reflexivity.
Defined.
