(* ===== verification/PgxRepository.v ===== *)
(** The PostgreSQL repository as an implementation of the interface the
    services use: [repository.PgxMarketRepository].  Its laws are discharged
    here, and the enriched price query is related to the plain one. *)
From S2P Require Import Prelude GoLists GoBase Dates Domain Catalog Tx Lww PriceRepo PriceRepoSpec HistoryRepo HistoryRepoSpec MarketService MarketServiceSpec HistoryService HistoryServiceSpec.
Local Open Scope Z_scope.

Section pgx.
Context `{Sha256} `{RequestEncoding} `{Collation}.
Context (median : list Z -> Z) (fs : faults) (el : elapsed) (now : time).

(** [PgxMarketRepository] over the two groups of tables; it implements
    [QueryCurrentPricesWithTrust], which the price service therefore uses. *)
Definition PgxMarketRepository : MarketRepository (DB * HistoryDB) := {|
  repo_IngestPrices req st :=
    let '(r, db) := PriceRepo.IngestPrices fs el now req st.1 in (r, (db, st.2));
  repo_IngestHistory req st :=
    let '(r, hdb) := HistoryRepo.IngestHistory fs el now req st.2 in (r, (st.1, hdb));
  repo_QueryCurrentPrices lookup st := PriceRepo.QueryCurrentPrices fs lookup st.1;
  repo_QueryMarketHistory lookup st := HistoryRepo.QueryMarketHistory fs lookup st.2;
  repo_QueryCurrentPricesWithTrust :=
    Some (fun lookup st => QueryCurrentPricesWithTrust median fs now lookup st.1 st.2);
|}.

#[local] Existing Instance PgxMarketRepository.

(** Entries without repetitions match a key at most once. *)
Lemma match_entries {A} (entries : list PriceQueryEntry) (i : string) (q : Z) (x : A) :
  NoDup entries ->
  omap (fun e : PriceQueryEntry =>
          if bool_decide (pq_ItemKey e = i) && (pq_Quality e =? q) then Some x else None) entries
  = if bool_decide ({| pq_ItemKey := i; pq_Quality := q |} ∈ entries) then [x] else [].
Proof.
  induction 1 as [|e es He Hnd IH]; [done|].
  change (omap ?f (e :: es)) with (match f e with Some y => y :: omap f es | None => omap f es end).
  cbv beta. destruct e as [i' q']. simpl.
  destruct (decide (i' = i /\ q' = q)) as [[-> ->]|Hne].
  - rewrite bool_decide_eq_true_2, Z.eqb_refl by done. simpl.
    rewrite (bool_decide_eq_true_2 (_ ∈ _ :: _)) by set_solver.
    rewrite IH, bool_decide_eq_false_2; done.
  - assert (bool_decide (i' = i) && (q' =? q) = false) as ->.
    { apply andb_false_iff. destruct (decide (i' = i)) as [->|].
      - right. apply Z.eqb_neq. tauto.
      - left. by apply bool_decide_eq_false. }
    rewrite IH. erewrite (bool_decide_ext (_ ∈ _ :: _) (_ ∈ es)); [done|].
    rewrite elem_of_cons. naive_solver.
Qed.

Lemma joined_prices_filter s lookup db :
  NoDup (cl_Entries lookup) ->
  joined_prices s lookup db
  = List.filter (fun kr => selects s lookup kr.1) (map_to_list (current_prices db)).
Proof.
  intros Hnd. unfold joined_prices.
  induction (map_to_list (current_prices db)) as [|[[[[s' l'] i] q] row] l IH]; simpl; [done|].
  rewrite match_entries, IH by done.
  destruct ((s' =? s) && bool_decide (l' ∈ cl_LocationIDs lookup)); simpl;
    [by case_bool_decide|done].
Qed.

Lemma joined_prices_spec s lookup db :
  NoDup (cl_Entries lookup) ->
  (forall kr, kr ∈ joined_prices s lookup db <->
     current_prices db !! kr.1 = Some kr.2 /\ selects s lookup kr.1 = true) /\
  NoDup (joined_prices s lookup db).
Proof.
  intros Hnd. rewrite joined_prices_filter by done. split.
  - intros [k row]. rewrite list_elem_of_In, List.filter_In, <- list_elem_of_In.
    by rewrite elem_of_map_to_list.
  - apply NoDup_ListNoDup, List.NoDup_filter, NoDup_ListNoDup, NoDup_map_to_list.
Qed.

(** The repository keeps the promises the services rely on. *)
#[export] Instance PgxMarketRepository_lawful : LawfulRepository (DB * HistoryDB).
Proof.
  split.
  - intros lookup [db hdb] ps Hnd Hq. unfold repo_query in Hq. simpl in Hq.
    unfold QueryCurrentPricesWithTrust in Hq.
    destruct (mapServer (cl_Server lookup)) as [s|]; [cbn [rbind] in Hq|done].
    destruct (bool_decide (cl_LocationIDs lookup = []) || _) eqn:E.
    { injection Hq as <-. split; constructor. }
    inv_ok. set (rows := slice_stable _ _) in *.
    destruct (joined_prices_spec s lookup db Hnd) as [Hin Hnd'].
    assert (forall kr, kr ∈ rows -> current_prices db !! kr.1 = Some kr.2 /\
      selects s lookup kr.1 = true) as Hrows by (intros kr; unfold rows; by rewrite elem_of_slice_stable, Hin).
    split.
    + apply Forall_forall. intros p (kr & -> & Hkr)%list_elem_of_fmap.
      apply Hrows in Hkr as [_ Hsel]. destruct kr as [[[[s' l] i] q] row]. simpl in *.
      rewrite !andb_true_iff, !bool_decide_eq_true in Hsel. tauto.
    + assert (NoDup rows) as Hndr by (unfold rows; by rewrite slice_stable_Permutation).
      clearbody rows. clear Hg0. induction Hndr as [|kr rows Hkr Hndr IH]; [constructor|].
      simpl. constructor; [|apply IH; set_solver].
      intros (p & Hp & (kr' & -> & Hkr')%list_elem_of_fmap)%list_elem_of_fmap.
      apply Hkr. destruct (Hrows kr ltac:(set_solver)) as [L1 S1].
      destruct (Hrows kr' ltac:(set_solver)) as [L2 S2].
      destruct kr as [[[[s1 l1] i1] q1] r1], kr' as [[[[s2 l2] i2] q2] r2]. simpl in *.
      injection Hp as -> -> ->. rewrite !andb_true_iff, !Z.eqb_eq in S1, S2.
      destruct S1 as [[-> _] _], S2 as [[-> _] _]. congruence.
  - intros lookup [db hdb] hs Hq. simpl in Hq. unfold HistoryRepo.QueryMarketHistory in Hq.
    destruct (mapServer (hl_Server lookup)) as [s|]; [cbn [rbind] in Hq|done].
    destruct (bool_decide (hl_LocationIDs lookup = []) || _) eqn:E.
    { injection Hq as <-. split; constructor. }
    inv_ok. destruct (history_rows_spec s lookup hdb) as (Hin & Hsorted & Hserver).
    pose proof (add_points_grouped s _ Hsorted Hserver) as Hg'. split.
    + apply Forall_forall. intros h Hh.
      assert (exists p, p ∈ hs_History h) as [p Hp].
      { pose proof (gr_nonempty _ _ _ Hg') as Hne. rewrite Forall_forall in Hne.
        destruct (Hne h Hh) as [Hn _]. destruct (hs_History h) as [|p l]; [done|]. exists p. set_solver. }
      destruct (grouped_point _ _ _ _ _ Hg' Hh Hp) as (kr & Hkr & Htag).
      apply Hin in Hkr as [_ Hsel]. destruct kr as [[[[[s' l] i] q] t] row].
      unfold tagged, row_tag in Htag. simpl in *. injection Htag as -> _ _ _.
      rewrite !andb_true_iff, !bool_decide_eq_true in Hsel. tauto.
    + pose proof (gr_keys _ _ _ Hg') as Hk. clear -Hk.
      induction Hk as [|h l Hl IH Hh]; [constructor|]. simpl. constructor; [|done].
      intros (h' & Heq & Hin)%list_elem_of_fmap. rewrite Forall_forall in Hh.
      specialize (Hh h' Hin). unfold key_less in Hh.
      assert (series_key h = series_key h') as E.
      { unfold series_id in Heq. unfold series_key. congruence. }
      rewrite E in Hh. by rewrite (less_asym _ _ Hh) in Hh.
Qed.

(** ** Trust evidence *)

(** The buckets of a key in the last seven days. *)
Definition recent_buckets (k : price_key) (hdb : HistoryDB) : list bucket_row :=
  omap (fun kr : bucket_key * bucket_row =>
          let '(k', t) := kr.1 in
          if bool_decide (k' = k) && (now - seven_days <=? t) then Some kr.2 else None)
    (map_to_list (buckets hdb)).

Lemma joined_buckets_recent s lookup k hdb :
  NoDup (cl_Entries lookup) -> selects s lookup k = true ->
  joined_buckets now lookup k hdb = recent_buckets k hdb.
Proof.
  intros Hnd Hsel. destruct k as [[[s' l] i] q]. simpl in Hsel.
  rewrite !andb_true_iff, !bool_decide_eq_true in Hsel. destruct Hsel as [[_ Hl] He].
  unfold joined_buckets. rewrite bool_decide_eq_true_2 by done.
  fold (recent_buckets (s', l, i, q) hdb). generalize (recent_buckets (s', l, i, q) hdb) as rows.
  intros rows. pose proof (match_entries (cl_Entries lookup) i q tt Hnd) as Hm.
  rewrite bool_decide_eq_true_2 in Hm by done.
  assert (forall es (n : nat),
    omap (fun e : PriceQueryEntry =>
            if bool_decide (pq_ItemKey e = i) && (pq_Quality e =? q) then Some tt else None) es
    = repeat tt n ->
    flat_map (fun e : PriceQueryEntry =>
      if bool_decide (pq_ItemKey e = i) && (pq_Quality e =? q) then rows else []) es
    = concat (repeat rows n)) as Hgen.
  { induction es as [|e es IH]; intros n Hes.
    - by destruct n.
    - change (omap ?f (e :: es)) with (match f e with Some y => y :: omap f es | None => omap f es end) in Hes.
      cbv beta in Hes. simpl. destruct (_ && _).
      + destruct n as [|n]; [done|]. injection Hes as Hes. simpl. by rewrite (IH n).
      + by apply IH. }
  rewrite (Hgen _ 1%nat Hm). simpl. by rewrite app_nil_r.
Qed.

(** A price without its trust columns. *)
Definition untrusted (p : CurrentPrice) : CurrentPrice :=
  {| cp_Server := cp_Server p; cp_MarketKey := cp_MarketKey p; cp_LocationID := cp_LocationID p;
     cp_ItemKey := cp_ItemKey p; cp_Quality := cp_Quality p;
     cp_SellPriceMin := cp_SellPriceMin p; cp_SellPriceMinAt := cp_SellPriceMinAt p;
     cp_BuyPriceMax := cp_BuyPriceMax p; cp_BuyPriceMaxAt := cp_BuyPriceMaxAt p;
     cp_UpdatedAt := cp_UpdatedAt p; cp_HistoryObservations7D := 0; cp_HistoryVolume7D := 0;
     cp_MedianPrice7D := None |}.

Definition price_key_of (s : Z) (p : CurrentPrice) : price_key :=
  (s, cp_LocationID p, cp_ItemKey p, cp_Quality p).

(** For a lookup without repeated entries the enriched query returns the
    rows of the plain query, in the same order, and adds to each the number,
    the volume and the median price of the buckets of exactly that server,
    location, item and quality in the last seven days: joining with the
    requested entries duplicates nothing. *)
Theorem trust_query_enriches lookup s db hdb ps :
  NoDup (cl_Entries lookup) -> mapServer (cl_Server lookup) = Ok s ->
  QueryCurrentPricesWithTrust median no_faults now lookup db hdb = Ok ps ->
  PriceRepo.QueryCurrentPrices no_faults lookup db = Ok (map untrusted ps) /\
  Forall (fun p =>
    let rows := recent_buckets (price_key_of s p) hdb in
    cp_HistoryObservations7D p = Z.of_nat (length rows) /\
    cp_HistoryVolume7D p = foldr (fun r n => b_item_count r + n) 0 rows /\
    cp_HistoryVolume7D p <= max_int64 /\
    (cp_MedianPrice7D p = None <-> omap b_average_unit_price rows = []) /\
    (forall m, cp_MedianPrice7D p = Some m -> m = median (omap b_average_unit_price rows))) ps.
Proof.
  intros Hnd Hs. unfold QueryCurrentPricesWithTrust, PriceRepo.QueryCurrentPrices.
  rewrite Hs. cbn [rbind].
  destruct (bool_decide (cl_LocationIDs lookup = []) || _) eqn:E; [by intros [= <-]|].
  cbn [fails no_faults]. rewrite joined_prices_filter by done.
  set (rows := slice_stable _ _).
  destruct (existsb _ _) eqn:Hov; [done|]. intros [= <-].
  assert (forall kr, kr ∈ rows -> selects s lookup kr.1 = true) as Hrows.
  { intros kr. unfold rows. rewrite elem_of_slice_stable, list_elem_of_In, List.filter_In. tauto. }
  clearbody rows. split.
  - f_equal. rewrite map_map. apply map_ext. intros [[[[s' l] i] q] row]. done.
  - apply Forall_forall. intros p Hin. pose proof Hin as (kr & -> & Hkr)%list_elem_of_fmap.
    pose proof (Hrows kr Hkr) as Hsel.
    assert (cp_HistoryVolume7D (trust_price median now lookup hdb kr.1 kr.2) <= max_int64) as Hmax.
    { destruct (Z.ltb_spec max_int64 (cp_HistoryVolume7D (trust_price median now lookup hdb kr.1 kr.2)))
        as [Hlt|]; [|done].
      assert (existsb (fun p => max_int64 <? cp_HistoryVolume7D p)
        (map (fun kr => trust_price median now lookup hdb kr.1 kr.2) rows) = true) as Hex.
      { apply existsb_exists. eexists. split; [apply list_elem_of_In; exact Hin|]. by apply Z.ltb_lt. }
      congruence. }
    assert (price_key_of s (trust_price median now lookup hdb kr.1 kr.2) = kr.1) as Hk.
    { destruct kr as [[[[s' l] i] q] row]. simpl in Hsel. rewrite !andb_true_iff, Z.eqb_eq in Hsel.
      destruct Hsel as [[-> _] _]. done. }
    rewrite Hk. rewrite <- (joined_buckets_recent s lookup kr.1 hdb Hnd Hsel).
    unfold trust_price in *. simpl in *. split_and!; try done.
    + case_bool_decide; naive_solver.
    + intros m. case_bool_decide; naive_solver.
Qed.

(** ** History requests: the repository of the histories alone *)

Lemma pgx_IngestHistory req (st : DB * HistoryDB) :
  repo_IngestHistory req st =
  ((HistoryRepo.IngestHistory fs el now req st.2).1,
   (st.1, (HistoryRepo.IngestHistory fs el now req st.2).2)).
Proof. simpl. by destruct (HistoryRepo.IngestHistory _ _ _ _ _). Qed.
End pgx.

(** * Examples *)

Definition example_median (l : list Z) : Z := hd 0 l.

Lemma QueryCurrentPrices_correct_witness :
  let R := PgxMarketRepository (H := plain_sha256) (H0 := plain_encoding) (H1 := c_collation)
             example_median no_faults example_elapsed 50000 in
  exists resp,
    QueryCurrentPrices (H := plain_unicode) (H0 := R) NewDefault 77 example_price_query
      (example_db, example_history_db) = Ok resp /\ pqs_Count resp = 1.
Proof.
  intros R.
  destruct (QueryCurrentPrices_correct (H := plain_unicode) (H0 := R) NewDefault NewDefault_wf
    (LawfulRepository0 := PgxMarketRepository_lawful (H := plain_sha256) (H0 := plain_encoding)
       (H1 := c_collation) example_median no_faults example_elapsed 50000)
    77 example_price_query example_normalized
    match repo_query (H := R) (np_lookup example_normalized) (example_db, example_history_db) with
    | Ok ps => ps | Err _ => [] end (example_db, example_history_db)) as (resp & Hq & Hc & _);
    [vm_compute; reflexivity..|].
  exists resp. split; [exact Hq|]. rewrite Hc. vm_compute. reflexivity.
Defined.

Definition example_history_query : HistoryQueryRequest :=
  {| hqr_Server := ServerWest; hqr_MarketKeys := ["martlock"];
     hqr_Entries := [{| hq_ItemKey := "T5_BAG"; hq_Quality := 1 |};
                     {| hq_ItemKey := "T4_BAG"; hq_Quality := 1 |}];
     hqr_RangeStart := "1970-01-01"; hqr_RangeEnd := " 1970-01-02" |}.

Definition example_history_normalized : normalizedHistoryQuery :=
  {| nh_lookup :=
       {| hl_Server := ServerWest; hl_LocationIDs := [3008];
          hl_Entries := [{| hq_ItemKey := "T5_BAG"; hq_Quality := 1 |};
                         {| hq_ItemKey := "T4_BAG"; hq_Quality := 1 |}];
          hl_RangeStart := 0; hl_RangeEndExclusive := 2 * day |};
     nh_marketOrder := {["martlock" := 0]}; nh_keysByLocation := {[3008 := "martlock"]};
     nh_rangeStart := "1970-01-01"; nh_rangeEnd := "1970-01-02" |}.

Lemma QueryMarketHistory_correct_witness :
  let R := PgxMarketRepository (H := plain_sha256) (H0 := plain_encoding) (H1 := c_collation)
             example_median no_faults example_elapsed 50000 in
  exists resp,
    HistoryService.QueryMarketHistory (H := plain_unicode) (H0 := R) NewDefault 77
      example_history_query (example_db, example_history_db) = Ok resp /\
    hqs_BucketCount resp = 4.
Proof.
  intros R.
  destruct (QueryMarketHistory_correct (H := plain_unicode) (H0 := R) NewDefault NewDefault_wf
    (LawfulRepository0 := PgxMarketRepository_lawful (H := plain_sha256) (H0 := plain_encoding)
       (H1 := c_collation) example_median no_faults example_elapsed 50000)
    77 example_history_query example_history_normalized
    match repo_QueryMarketHistory (MarketRepository := R) (nh_lookup example_history_normalized)
            (example_db, example_history_db) with
    | Ok hs => hs | Err _ => [] end (example_db, example_history_db)) as (resp & Hq & _ & Hc & _);
    [vm_compute; reflexivity..|].
  exists resp. split; [exact Hq|]. rewrite Hc. vm_compute. reflexivity.
Defined.

Lemma trust_query_enriches_witness :
  exists ps,
    QueryCurrentPricesWithTrust (H := c_collation) example_median no_faults 50000
      (np_lookup example_normalized) example_db example_history_db = Ok ps /\
    PriceRepo.QueryCurrentPrices (H := c_collation) no_faults (np_lookup example_normalized) example_db
    = Ok (map untrusted ps) /\ map cp_HistoryVolume7D ps = [11].
Proof.
  eexists. split; [vm_compute; reflexivity|]. split; [|reflexivity].
  eapply (trust_query_enriches (H1 := c_collation) example_median 50000
    (np_lookup example_normalized) 1 example_db example_history_db).
  - repeat constructor; set_solver.
  - reflexivity.
  - vm_compute. reflexivity.
Defined.
