(* ===== verification/Webhook.v ===== *)
(** The billing webhooks of [internal/billing]: their payload, what is accepted
    for the queue and what is kept of it, the scope a payload must belong to,
    and the access a provider status gives ([webhook_types.go],
    [webhook_queue.go], [webhook_subscription.go], [service.go]). *)
From S2P Require Import Prelude GoLists GoBase HistoryService.
Local Open Scope Z_scope.

(** * Payloads *)

(** A value of [map[string]any] decoded with [UseNumber]; the code looks at
    strings and numbers only. *)
Inductive json_value :=
  | JString (s : string)
  | JNumber (text : string)
  | JOther.

Record productionWebhookAttributes := {
  wa_StoreID : Z;
  wa_CustomerID : Z;
  wa_OrderID : Z;
  wa_SubscriptionID : Z;
  wa_VariantID : Z;
  wa_Status : string;
  wa_Cancelled : bool;
  wa_RenewsAt : string;
  wa_EndsAt : string;
  wa_CreatedAt : string;
  wa_UpdatedAt : string;
  wa_TestMode : bool;
  wa_FirstOrderItemVariantID : Z;
}.

Record productionWebhookEnvelope := {
  we_EventName : string;
  we_CustomData : gmap string json_value;
  we_Type : string;
  we_ID : string;
  we_Attributes : productionWebhookAttributes;
}.

(** The payload of the older, synchronous path. *)
Record lemonSubscriptionAttributes := {
  la_StoreID : Z;
  la_CustomerID : Z;
  la_VariantID : Z;
  la_Status : string;
  la_Cancelled : bool;
  la_RenewsAt : string;
  la_EndsAt : string;
  la_UpdatedAt : string;
  la_TestMode : bool;
}.

Record lemonWebhookEnvelope := {
  le_EventName : string;
  le_CustomData : gmap string json_value;
  le_Type : string;
  le_ID : string;
  le_Attributes : lemonSubscriptionAttributes;
}.

Definition zero_attributes : productionWebhookAttributes :=
  {| wa_StoreID := 0; wa_CustomerID := 0; wa_OrderID := 0; wa_SubscriptionID := 0;
     wa_VariantID := 0; wa_Status := EmptyString; wa_Cancelled := false;
     wa_RenewsAt := EmptyString; wa_EndsAt := EmptyString; wa_CreatedAt := EmptyString;
     wa_UpdatedAt := EmptyString; wa_TestMode := false; wa_FirstOrderItemVariantID := 0 |}.

Definition zero_envelope : productionWebhookEnvelope :=
  {| we_EventName := EmptyString; we_CustomData := ∅; we_Type := EmptyString;
     we_ID := EmptyString; we_Attributes := zero_attributes |}.

(** What the package takes from [encoding/json], from [time.Parse] with
    [time.RFC3339Nano], and from the database: the text a [jsonb] column gives
    back for a text it is given ([None] when it refuses it), and the canonical
    form of an identifier sent as [uuid]. *)
Class WebhookEncoding := {
  decode_envelope : string -> option (productionWebhookEnvelope * string);
  decode_lemon : string -> option lemonWebhookEnvelope;
  decode_eof : string -> bool;
  marshal_envelope : productionWebhookEnvelope -> option string;
  jsonb_text : string -> option string;
  parse_rfc3339 : string -> option time;
  uuid_text : string -> option string;
}.

(** * Errors *)

(** Why a webhook is invalid: the errors that wrap [ErrInvalidWebhook]. *)
Inductive webhook_reason :=
  | DecodePayload
  | TrailingContent
  | EventHeaderMismatch
  | UnsupportedEvent
  | InvalidDataIdentity
  | InvalidCheckoutUser
  | ScopeMismatch
  | InvalidOrderWebhook
  | InvalidInvoiceWebhook
  | InvalidSubscriptionWebhook
  | InvalidEventIdentity
  | NotEnqueued
  | UnknownCheckoutUser
  | NoAssociatedUser
  | UnsupportedSubscriptionStatus
  | AccessDateMissing
  | MissingEventName.

(** Why a statement failed. *)
Inductive db_failure :=
  | DeadlineExceeded
  | Canceled
  | ConstraintViolation
  | NoRows
  | OtherFailure.

(** The statements of the billing package. *)
Inductive billing_step :=
  | BInsertEvent
  | BTouchDuplicate
  | BClaim
  | BAttempts
  | BFinalize
  | BBegin
  | BRecordEvent
  | BLockEvent
  | BUserExists
  | BExistingUser
  | BUpsertOrder
  | BProvisional
  | BNotification
  | BResolvePayment
  | BMarkPastDue
  | BRecoverPayment
  | BRemoveProvisional
  | BUpsertSubscription
  | BFinish
  | BCommit
  | BExistingSubscription
  | BLatestSubscription.

Inductive billing_error :=
  | InvalidWebhook (why : webhook_reason)
  | SanitizeFailed
  | StatementFailed (step : billing_step) (cause : db_failure)
  | NotSynchronized
  | AlreadySubscribed
  | SubscriptionMissing.

(** [errors.Is(err, ErrInvalidWebhook)] *)
Definition is_invalid_webhook (e : billing_error) : bool :=
  match e with InvalidWebhook _ => true | _ => false end.

Definition safeProcessingError (e : option billing_error) : string :=
  match e with
  | None => EmptyString
  | Some (StatementFailed _ DeadlineExceeded) => "processing_timeout"
  | Some (StatementFailed _ Canceled) => "processing_cancelled"
  | Some (InvalidWebhook _) => "invalid_webhook"
  | Some _ => "processing_failed"
  end.

(** * Helpers *)

Definition customString (values : gmap string json_value) (key : string) : string :=
  match values !! key with
  | None => EmptyString
  | Some (JString typed) => TrimSpace typed
  | Some (JNumber typed) => typed
  | Some JOther => EmptyString
  end.

(** [value[:2000]], byte-wise. *)
Definition truncateError (value : string) : string :=
  let value := TrimSpace value in
  if str_len value <=? 2000 then value else of_bytes (take 2000 (bytes_of value)).

Definition isSupportedWebhookEvent (eventName : string) : bool :=
  bool_decide (TrimSpace eventName ∈
    ["order_created"; "subscription_created"; "subscription_updated"; "subscription_cancelled";
     "subscription_resumed"; "subscription_expired"; "subscription_paused";
     "subscription_unpaused"; "subscription_payment_failed"; "subscription_payment_recovered";
     "subscription_payment_success"]).

Definition isSupportedSubscriptionEvent (eventName : string) : bool :=
  bool_decide (eventName ∈
    ["subscription_created"; "subscription_updated"; "subscription_cancelled";
     "subscription_resumed"; "subscription_expired"; "subscription_paused";
     "subscription_unpaused"]).

(** The loop over the characters of [value]; a character outside ASCII is not
    a digit, whatever the number of its bytes. *)
Fixpoint uuid_characters (index : nat) (l : list ascii) : bool :=
  match l with
  | [] => true
  | c :: l' =>
      (bool_decide (index ∈ [8; 13; 18; 23]%nat)
       || in_range 48 57 c || in_range 97 102 c || in_range 65 70 c)
      && uuid_characters (S index) l'
  end.

Definition looksLikeUUID (value : string) : bool :=
  let b := bytes_of (TrimSpace value) in
  let dash := Some "-"%char in
  if negb (length b =? 36)%nat
     || negb (bool_decide (b !! 8%nat = dash)) || negb (bool_decide (b !! 13%nat = dash))
     || negb (bool_decide (b !! 18%nat = dash)) || negb (bool_decide (b !! 23%nat = dash))
  then false
  else uuid_characters 0 b.

(** [len(value)] seconds with the six decimals of [%f], as the database reads
    them: an interval in microseconds. *)
Definition postgresInterval (value : duration) : duration :=
  let value := if value <? 0 then 0 else value in
  (value + 500) / 1000 * 1000.

Section encoding.
Context `{Unicode, WebhookEncoding}.

(** * Provider times *)

Definition productionProviderTime (value : string) : time :=
  match parse_rfc3339 (TrimSpace value) with
  | None => zero_time
  | Some parsed => parsed
  end.

Definition productionOptionalProviderTime (value : string) : option time :=
  let parsed := productionProviderTime value in
  if is_zero parsed then None else Some parsed.

Definition parseProviderTime (value : string) : time :=
  match parse_rfc3339 (TrimSpace value) with
  | None => zero_time
  | Some parsed => parsed
  end.

Definition parseOptionalProviderTime (value : string) : option time :=
  let parsed := parseProviderTime value in
  if is_zero parsed then None else Some parsed.

(** * The service and its scope *)

(** [ServiceConfig]. *)
Record ServiceConfig := {
  sc_ProviderName : string;
  sc_StoreID : string;
  sc_VariantID : string;
  sc_ExpectedTestMode : bool;
  sc_PastDueGracePeriod : duration;
}.

(** [Service], without its database, its clock and the services it calls. *)
Record Service := {
  providerName : string;
  storeID : string;
  variantID : string;
  expectedTestMode : bool;
  pastDueGracePeriod : duration;
}.

Definition lemonSqueezyProvider : string := "lemonsqueezy".

Definition NewService (cfg : ServiceConfig) : Service :=
  let providerName := ToLower (TrimSpace (sc_ProviderName cfg)) in
  let providerName := if is_empty providerName then lemonSqueezyProvider else providerName in
  {| providerName := providerName;
     storeID := TrimSpace (sc_StoreID cfg);
     variantID := TrimSpace (sc_VariantID cfg);
     expectedTestMode := sc_ExpectedTestMode cfg;
     pastDueGracePeriod := sc_PastDueGracePeriod cfg |}.

Definition validateWebhookScope (s : Service) (envelope : productionWebhookEnvelope)
    : result billing_error unit :=
  let attributes := we_Attributes envelope in
  fail_if negb (bool_decide (FormatInt (wa_StoreID attributes) = storeID s))
          || negb (Bool.eqb (wa_TestMode attributes) (expectedTestMode s))
    with InvalidWebhook ScopeMismatch else
  let name := we_EventName envelope in
  if bool_decide (name = "order_created") then
    fail_if negb (bool_decide (we_Type envelope = "orders"))
            || negb (bool_decide (wa_Status attributes = "paid"))
            || negb (bool_decide (FormatInt (wa_FirstOrderItemVariantID attributes) = variantID s))
      with InvalidWebhook InvalidOrderWebhook else
    Ok tt
  else if bool_decide (name ∈ ["subscription_payment_failed"; "subscription_payment_recovered";
                              "subscription_payment_success"]) then
    fail_if negb (bool_decide (we_Type envelope = "subscription-invoices"))
            || (wa_SubscriptionID attributes <=? 0)
      with InvalidWebhook InvalidInvoiceWebhook else
    Ok tt
  else if bool_decide (name = "subscription_created") then
    fail_if negb (bool_decide (we_Type envelope = "subscriptions"))
            || negb (bool_decide (FormatInt (wa_VariantID attributes) = variantID s))
      with InvalidWebhook InvalidSubscriptionWebhook else
    Ok tt
  else
    fail_if negb (bool_decide (we_Type envelope = "subscriptions"))
            || (wa_VariantID attributes <=? 0)
      with InvalidWebhook InvalidSubscriptionWebhook else
    Ok tt.

(** [sanitizedEnvelope]: the identity of the buyer is all that is kept of the
    custom data. *)
Definition sanitize_envelope (envelope : productionWebhookEnvelope) : productionWebhookEnvelope :=
  let userID := customString (we_CustomData envelope) "user_id" in
  {| we_EventName := we_EventName envelope;
     we_CustomData := if is_empty userID then ∅ else {["user_id" := JString userID]};
     we_Type := we_Type envelope;
     we_ID := we_ID envelope;
     we_Attributes := we_Attributes envelope |}.

Definition validateAndSanitizeWebhook (raw headerEventName : string)
    : result billing_error (productionWebhookEnvelope * string) :=
  match decode_envelope raw with
  | None => Err (InvalidWebhook DecodePayload)
  | Some (envelope, rest) =>
      fail_if negb (decode_eof rest) with InvalidWebhook TrailingContent else
      fail_if is_empty (TrimSpace (we_EventName envelope))
              || negb (bool_decide (we_EventName envelope = TrimSpace headerEventName))
        with InvalidWebhook EventHeaderMismatch else
      fail_if negb (isSupportedWebhookEvent (we_EventName envelope))
        with InvalidWebhook UnsupportedEvent else
      fail_if is_empty (TrimSpace (we_Type envelope)) || is_empty (TrimSpace (we_ID envelope))
              || (128 <? str_len (we_ID envelope))
        with InvalidWebhook InvalidDataIdentity else
      let userID := customString (we_CustomData envelope) "user_id" in
      fail_if negb (is_empty userID) && negb (looksLikeUUID userID)
        with InvalidWebhook InvalidCheckoutUser else
      match marshal_envelope (sanitize_envelope envelope) with
      | None => Err SanitizeFailed
      | Some sanitized => Ok (envelope, sanitized)
      end
  end.

(** * Access *)

Definition resolveProductionAccess (attributes : productionWebhookAttributes)
    (updatedAt : time) (gracePeriod : duration)
    : result billing_error (string * option time) :=
  let providerStatus := ToLower (TrimSpace (wa_Status attributes)) in
  let renewsAt := productionOptionalProviderTime (wa_RenewsAt attributes) in
  let endsAt := productionOptionalProviderTime (wa_EndsAt attributes) in
  let! (status, accessUntil) :=
    if bool_decide (providerStatus = "on_trial") then Ok ("trialing", renewsAt)
    else if bool_decide (providerStatus = "active") then Ok ("active", renewsAt)
    else if bool_decide (providerStatus ∈ ["paused"; "past_due"; "unpaid"]) then
      let base :=
        match renewsAt with
        | Some r => if updatedAt <? r then r else updatedAt
        | None => updatedAt
        end in
      Ok ("past_due", Some (base + gracePeriod))
    else if bool_decide (providerStatus = "cancelled") then
      Ok ("canceled", match endsAt with Some _ => endsAt | None => renewsAt end)
    else if bool_decide (providerStatus = "expired") then
      Ok ("expired", match endsAt with Some _ => endsAt | None => Some updatedAt end)
    else Err (InvalidWebhook UnsupportedSubscriptionStatus) in
  fail_if negb (bool_decide (status = "expired")) && bool_decide (accessUntil = None)
    with InvalidWebhook AccessDateMissing else
  Ok (status, accessUntil).

Definition resolveAccess (s : Service) (attributes : lemonSubscriptionAttributes)
    (updatedAt : time) : result billing_error (string * option time) :=
  let providerStatus := ToLower (TrimSpace (la_Status attributes)) in
  let renewsAt := parseOptionalProviderTime (la_RenewsAt attributes) in
  let endsAt := parseOptionalProviderTime (la_EndsAt attributes) in
  let! (status, accessUntil) :=
    if bool_decide (providerStatus = "on_trial") then Ok ("trialing", renewsAt)
    else if bool_decide (providerStatus = "active") then Ok ("active", renewsAt)
    else if bool_decide (providerStatus ∈ ["paused"; "past_due"; "unpaid"]) then
      let base :=
        match renewsAt with
        | Some r => if updatedAt <? r then r else updatedAt
        | None => updatedAt
        end in
      Ok ("past_due", Some (base + pastDueGracePeriod s))
    else if bool_decide (providerStatus = "cancelled") then
      Ok ("canceled", match endsAt with Some _ => endsAt | None => renewsAt end)
    else if bool_decide (providerStatus = "expired") then
      Ok ("expired", match endsAt with Some _ => endsAt | None => Some updatedAt end)
    else Err (InvalidWebhook UnsupportedSubscriptionStatus) in
  fail_if negb (bool_decide (status = "expired")) && bool_decide (accessUntil = None)
    with InvalidWebhook AccessDateMissing else
  Ok (status, accessUntil).
End encoding.
