(* ===== verification/BillingDB.v ===== *)
(** The tables of the billing package (migrations 0007 to 0010 and 0018) and the
    statements its handlers send. *)
From S2P Require Import Prelude GoLists GoBase Utf8 Webhook.
Local Open Scope Z_scope.

(** * Tables *)

(** [billing_webhook_events.status]. *)
Inductive event_status := Pending | Processing | Processed | Failed | Ignored | DeadLetter.

#[export] Instance event_status_eq_dec : EqDecision event_status.
Proof. solve_decision. Defined.

Definition status_text (s : event_status) : string :=
  match s with
  | Pending => "pending"
  | Processing => "processing"
  | Processed => "processed"
  | Failed => "failed"
  | Ignored => "ignored"
  | DeadLetter => "dead_letter"
  end.

(** [billing_webhook_events], by [(provider, provider_event_id)]. *)
Record event_row := {
  ev_Type : string;
  ev_Hash : string;
  ev_Payload : string;
  ev_ObjectType : option string;
  ev_ObjectID : option string;
  ev_Status : event_status;
  ev_Error : option string;
  ev_CreatedAt : time;
  ev_ProcessedAt : option time;
  ev_Attempts : Z;
  ev_LastAttemptAt : option time;
  ev_Deliveries : Z;
  ev_LastReceivedAt : time;
  ev_NextAttemptAt : option time;
  ev_LockedAt : option time;
  ev_LockedBy : option string;
  ev_DeadLetterAt : option time;
}.

(** [billing_orders], by [(provider, provider_order_id)]. *)
Record order_row := {
  or_UserID : string;
  or_CustomerID : string;
  or_VariantID : string;
  or_Status : string;
  or_ProviderUpdatedAt : option time;
  or_CreatedAt : time;
  or_UpdatedAt : time;
}.

(** [subscriptions]. *)
Record subscription_row := {
  sr_UserID : string;
  sr_Provider : string;
  sr_CustomerID : option string;
  sr_SubscriptionID : option string;
  sr_OrderID : option string;
  sr_VariantID : option string;
  sr_ProviderStatus : option string;
  sr_ProviderUpdatedAt : option time;
  sr_PlanCode : string;
  sr_Status : string;
  sr_PeriodStart : option time;
  sr_PeriodEnd : option time;
  sr_CancelAtPeriodEnd : bool;
  sr_AccessUntil : option time;
  sr_CreatedAt : time;
  sr_UpdatedAt : time;
}.

(** [billing_notification_outbox], by [(provider, provider_event_id,
    notification_type)]. *)
Record outbox_row := {
  ob_UserID : string;
  ob_Status : string;
  ob_NextAttemptAt : option time;
  ob_CreatedAt : time;
}.

Abbreviation event_key := (string * string)%type (only parsing).

Record BillingDB := {
  app_users : gset string;
  webhook_events : gmap event_key event_row;
  billing_orders : gmap (string * string) order_row;
  subscriptions : list subscription_row;
  outbox : gmap (string * string * string) outbox_row;
}.

Definition set_events (m : gmap event_key event_row) (d : BillingDB) : BillingDB :=
  {| app_users := app_users d; webhook_events := m; billing_orders := billing_orders d;
     subscriptions := subscriptions d; outbox := outbox d |}.

Definition set_orders (m : gmap (string * string) order_row) (d : BillingDB) : BillingDB :=
  {| app_users := app_users d; webhook_events := webhook_events d; billing_orders := m;
     subscriptions := subscriptions d; outbox := outbox d |}.

Definition set_subscriptions (l : list subscription_row) (d : BillingDB) : BillingDB :=
  {| app_users := app_users d; webhook_events := webhook_events d;
     billing_orders := billing_orders d; subscriptions := l; outbox := outbox d |}.

Definition set_outbox (m : gmap (string * string * string) outbox_row) (d : BillingDB) : BillingDB :=
  {| app_users := app_users d; webhook_events := webhook_events d;
     billing_orders := billing_orders d; subscriptions := subscriptions d; outbox := m |}.

(** * Constraints *)

Definition null_or {A} (p : A -> bool) (o : option A) : bool :=
  match o with None => true | Some x => p x end.

(** The checks on [status] that the migrations leave on the table.
    [billing_webhook_events_status_allowed] comes from
    [0008_account_integrity_constraints.sql] and
    [billing_webhook_events_status_check] from [0018_billing_webhook_queue.sql]. *)
Class EventConstraints := status_constraints : list (event_status -> bool).

Definition status_allowed_0008 (s : event_status) : bool :=
  bool_decide (s ∈ [Pending; Processed; Failed; Ignored]).

Definition status_check_0018 (s : event_status) : bool :=
  bool_decide (s ∈ [Pending; Processing; Processed; Failed; Ignored; DeadLetter]).

(** The table after every migration, and the table 0018 describes. *)
Definition migrated_constraints : EventConstraints := [status_allowed_0008; status_check_0018].
Definition queue_constraints : EventConstraints := [status_check_0018].

Definition status_permitted `{EventConstraints} (s : event_status) : bool :=
  forallb (fun check => check s) status_constraints.

Definition subscription_checks (r : subscription_row) : bool :=
  bool_decide (sr_Status r ∈ ["trialing"; "active"; "past_due"; "canceled"; "expired"])
  && match sr_PeriodStart r, sr_PeriodEnd r with
     | Some s, Some e => s <=? e
     | _, _ => true
     end
  && length_between 1 40 (sr_Provider r)
  && null_or (length_between 1 80) (sr_VariantID r)
  && null_or (length_between 1 80) (sr_ProviderStatus r)
  && null_or (length_between 1 128) (sr_OrderID r).

Definition order_checks (provider order : string) (r : order_row) : bool :=
  length_between 1 40 provider && length_between 1 128 order
  && length_between 1 128 (or_CustomerID r) && length_between 1 80 (or_VariantID r)
  && length_between 1 80 (or_Status r).

Definition event_checks `{EventConstraints} (k : event_key) (r : event_row) : bool :=
  length_between 1 40 (fst k) && length_between 1 255 (snd k)
  && length_between 1 160 (ev_Type r)
  && status_permitted (ev_Status r)
  && null_or (length_between 0 2000) (ev_Error r)
  && (0 <=? ev_Attempts r) && (1 <=? ev_Deliveries r)
  && null_or (length_between 1 80) (ev_ObjectType r)
  && null_or (length_between 1 128) (ev_ObjectID r)
  && null_or (length_between 1 160) (ev_LockedBy r).

(** [subscriptions_provider_order_unique]. *)
Definition same_order (r1 r2 : subscription_row) : bool :=
  bool_decide (is_Some (sr_OrderID r1))
  && bool_decide (sr_Provider r1 = sr_Provider r2) && bool_decide (sr_OrderID r1 = sr_OrderID r2).

(** [subscriptions_provider_subscription_unique], which is also the conflict
    target of the upserts. *)
Definition same_subscription (r1 r2 : subscription_row) : bool :=
  bool_decide (is_Some (sr_SubscriptionID r1))
  && bool_decide (sr_Provider r1 = sr_Provider r2)
  && bool_decide (sr_SubscriptionID r1 = sr_SubscriptionID r2).

(** [nullif($1, '')] *)
Definition nullif_empty (v : string) : option string :=
  if is_empty v then None else Some v.

(** * Statements on subscriptions *)

(** [provider = $1 and provider_subscription_id = $2] *)
Definition has_subscription (provider subscription : string) (r : subscription_row) : bool :=
  bool_decide (sr_Provider r = provider) && bool_decide (sr_SubscriptionID r = Some subscription).

(** [provider = $1 and provider_order_id = $2] *)
Definition has_order (provider order : string) (r : subscription_row) : bool :=
  bool_decide (sr_Provider r = provider) && bool_decide (sr_OrderID r = Some order).

(** [update subscriptions set ... where ...]: the rows after the update, or a
    violated check. *)
Definition update_where (p : subscription_row -> bool) (f : subscription_row -> subscription_row)
    (l : list subscription_row) : result db_failure (list subscription_row) :=
  if forallb subscription_checks (map f (List.filter p l))
  then Ok (map (fun r => if p r then f r else r) l)
  else Err ConstraintViolation.

Definition delete_where (p : subscription_row -> bool) (l : list subscription_row)
    : list subscription_row :=
  List.filter (fun r => negb (p r)) l.

(** A row inserted without a conflict clause. *)
Definition insert_row (r : subscription_row) (l : list subscription_row)
    : result db_failure (list subscription_row) :=
  if subscription_checks r && negb (existsb (same_order r) l) && negb (existsb (same_subscription r) l)
  then Ok (l ++ [r])
  else Err ConstraintViolation.

(** [provider_updated_at is null or excluded.provider_updated_at >=
    provider_updated_at] *)
Definition not_older (current excluded : option time) : bool :=
  match current, excluded with
  | None, _ => true
  | Some c, Some e => c <=? e
  | Some _, None => false
  end.

(** [insert ... on conflict (provider, provider_subscription_id) do update set
    ... where ...]: the rows, and the rows affected.  The other unique index
    still holds for the row that results. *)
Definition upsert_where (allowed : subscription_row -> subscription_row -> bool)
    (merge : subscription_row -> subscription_row -> subscription_row)
    (excluded : subscription_row) (l : list subscription_row)
    : result db_failure (list subscription_row * Z) :=
  if negb (subscription_checks excluded) then Err ConstraintViolation else
  match List.filter (same_subscription excluded) l with
  | [] => let! l' := insert_row excluded l in Ok (l', 1)
  | cur :: _ =>
      if allowed cur excluded then
        let r := merge cur excluded in
        if subscription_checks r
           && negb (existsb (fun o => negb (same_subscription excluded o) && same_order r o) l)
        then Ok (map (fun o => if same_subscription excluded o then r else o) l, 1)
        else Err ConstraintViolation
      else Ok (l, 0)
  end.

(** The upsert of a webhook. *)
Definition upsert_row : (subscription_row -> subscription_row -> subscription_row) ->
    subscription_row -> list subscription_row -> result db_failure (list subscription_row * Z) :=
  upsert_where (fun cur excluded => not_older (sr_ProviderUpdatedAt cur) (sr_ProviderUpdatedAt excluded)).

(** The unique indexes and the checks, as an invariant of the table. *)
Definition unique_by {A} (same : A -> A -> bool) (l : list A) : Prop :=
  List.ForallOrdPairs (fun x y => same x y = false) l.

Definition subscriptions_wf (l : list subscription_row) : Prop :=
  unique_by same_subscription l /\ unique_by same_order l /\
  Forall (fun r => subscription_checks r = true) l.
