(* ===== verification/Json.v ===== *)
(** JSON as [encoding/json] reads it: the scanner on the bytes of a stream, the
    decoding of values into Go data with [DisallowUnknownFields], and the
    readers that bound a request body.

    A decoder receives the value its destination holds, as the package does: a
    [null] leaves it alone and a repeated key decodes into it again.  A slice
    that is decoded a second time starts from the elements it holds. *)
From S2P Require Import Prelude GoLists GoBase Float64 Dates Utf8.
Local Open Scope Z_scope.

(** * Values

    A number keeps its literal, and a member of an object its text, which is what
    a [json.RawMessage] receives. *)
Inductive json :=
  | JNull
  | JBool (b : bool)
  | JNumber (literal : string)
  | JString (s : string)
  | JArray (l : list (json * string))
  | JObject (l : list (string * (json * string))).

(** What scanning finds: a value and the rest of the input, an error in the
    syntax, or that more input is needed. *)
Inductive scan (A : Type) :=
  | Scanned (a : A) (rest : string)
  | Malformed
  | Unfinished.
Arguments Scanned {A} a rest.
Arguments Malformed {A}.
Arguments Unfinished {A}.

Definition sbind {A B} (m : scan A) (k : A -> string -> scan B) : scan B :=
  match m with Scanned a rest => k a rest | Malformed => Malformed | Unfinished => Unfinished end.

Notation "'scan!' ( x , s ) ':=' m 'in' k" := (sbind m (fun x s => k))
  (at level 10, x name, s name, m at level 100, k at level 200,
   format "'[v' 'scan!'  ( x ,  s )  ':='  m  'in' '//' k ']'") : go_scope.

Definition is_json_space (c : ascii) : bool :=
  in_range 9 10 c || in_range 13 13 c || in_range 32 32 c.

Fixpoint skip_spaces (s : string) : string :=
  match s with
  | String c s' => if is_json_space c then skip_spaces s' else s
  | EmptyString => s
  end.

(** ** Strings *)

Definition hex_value (c : ascii) : option Z :=
  if in_range 48 57 c then Some (byte_val c - 48)
  else if in_range 97 102 c then Some (byte_val c - 87)
  else if in_range 65 70 c then Some (byte_val c - 55)
  else None.

(** The escapes of one letter, and the bytes they stand for. *)
Definition simple_escape (c : ascii) : option ascii :=
  snd <$> List.find (fun p => bool_decide (fst p = c))
    [("034"%char, "034"%char); ("\"%char, "\"%char); ("/"%char, "/"%char);
     ("b"%char, byte 8); ("f"%char, byte 12); ("n"%char, byte 10); ("r"%char, byte 13);
     ("t"%char, byte 9)].

(** The bytes between the quotes. *)
Fixpoint scan_string (s : string) : scan string :=
  match s with
  | EmptyString => Unfinished
  | String c s1 =>
      if bool_decide (c = "034"%char) then Scanned EmptyString s1
      else if in_range 0 31 c then Malformed
      else if bool_decide (c = "\"%char) then
        match s1 with
        | EmptyString => Unfinished
        | String d s2 =>
            if bool_decide (d = "u"%char) then
              match s2 with
              | String h3 (String h2 (String h1 (String h0 s3))) =>
                  if forallb (fun h => bool_decide (is_Some (hex_value h))) [h3; h2; h1; h0] then
                    scan! (t, rest) := scan_string s3 in
                    Scanned (String c (String d (String h3 (String h2 (String h1 (String h0 t))))))
                      rest
                  else Malformed
              | _ =>
                  if str_all (fun h => bool_decide (is_Some (hex_value h))) s2 then Unfinished
                  else Malformed
              end
            else
              match simple_escape d with
              | Some _ => scan! (t, rest) := scan_string s2 in Scanned (String c (String d t)) rest
              | None => Malformed
              end
        end
      else scan! (t, rest) := scan_string s1 in Scanned (String c t) rest
  end.

(** The value of the four digits of a [\u] escape at the front of a string, for
    the escape itself included. *)
Definition escape_unit (s : string) : option (Z * string) :=
  match s with
  | String b (String u (String h3 (String h2 (String h1 (String h0 rest))))) =>
      if bool_decide (b = "\"%char) && bool_decide (u = "u"%char) then
        h3 ← hex_value h3; h2 ← hex_value h2; h1 ← hex_value h1; h0 ← hex_value h0;
        Some (((h3 * 16 + h2) * 16 + h1) * 16 + h0, rest)
      else None
  | _ => None
  end.

(** [unquoteBytes]: escapes are replaced, surrogates that do not pair and bytes
    that are not UTF-8 become [RuneError]. *)
Fixpoint unquote_fuel (n : nat) (s : string) : string :=
  match n, s with
  | S n', String a s1 =>
      match escape_unit s with
      | Some (u, rest) =>
          if is_surrogate u then
            match escape_unit rest with
            | Some (v, rest') =>
                if (u <? 56320) && (56320 <=? v) && (v <=? 57343) then
                  encode_rune ((u - 55296) * 1024 + (v - 56320) + 65536) +:+ unquote_fuel n' rest'
                else encode_rune RuneError +:+ unquote_fuel n' rest
            | None => encode_rune RuneError +:+ unquote_fuel n' rest
            end
          else encode_rune u +:+ unquote_fuel n' rest
      | None =>
          match bool_decide (a = "\"%char), s1 with
          | true, String d s2 => String (default d (simple_escape d)) (unquote_fuel n' s2)
          | _, _ =>
              let '(r, _, rest) := decode_rune a s1 in encode_rune r +:+ unquote_fuel n' rest
          end
      end
  | _, _ => EmptyString
  end.

Definition unquote (s : string) : string := unquote_fuel (String.length s) s.

(** ** Numbers *)

Fixpoint scan_digits (s : string) : string * string :=
  match s with
  | String c s' =>
      if in_range 48 57 c then let '(t, rest) := scan_digits s' in (String c t, rest)
      else (EmptyString, s)
  | EmptyString => (EmptyString, s)
  end.

(** At least one digit. *)
Definition scan_digits1 (s : string) : scan string :=
  match s with
  | EmptyString => Unfinished
  | String c _ => if in_range 48 57 c then let '(t, rest) := scan_digits s in Scanned t rest else Malformed
  end.

Definition scan_integer (s : string) : scan string :=
  match s with
  | EmptyString => Unfinished
  | String c s' =>
      if bool_decide (c = "0"%char) then Scanned "0" s' else scan_digits1 s
  end.

Definition scan_fraction (s : string) : scan string :=
  match s with
  | String c s' =>
      if bool_decide (c = "."%char) then
        scan! (t, rest) := scan_digits1 s' in Scanned (String c t) rest
      else Scanned EmptyString s
  | EmptyString => Scanned EmptyString s
  end.

Definition scan_exponent (s : string) : scan string :=
  match s with
  | String c s' =>
      if bool_decide (c = "e"%char) || bool_decide (c = "E"%char) then
        match s' with
        | String d s'' =>
            if bool_decide (d = "+"%char) || bool_decide (d = "-"%char) then
              scan! (t, rest) := scan_digits1 s'' in Scanned (String c (String d t)) rest
            else scan! (t, rest) := scan_digits1 s' in Scanned (String c t) rest
        | EmptyString => Unfinished
        end
      else Scanned EmptyString s
  | EmptyString => Scanned EmptyString s
  end.

Definition scan_number (s : string) : scan string :=
  let '(sign, s) := match s with
    | String c s' => if bool_decide (c = "-"%char) then ("-", s') else (EmptyString, s)
    | EmptyString => (EmptyString, s) end in
  scan! (i, s) := scan_integer s in
  scan! (f, s) := scan_fraction s in
  scan! (e, s) := scan_exponent s in
  Scanned (sign +:+ i +:+ f +:+ e) s.

(** ** Literals *)
Fixpoint scan_word (w s : string) : scan unit :=
  match w, s with
  | EmptyString, _ => Scanned tt s
  | String _ _, EmptyString => Unfinished
  | String a w', String b s' => if bool_decide (a = b) then scan_word w' s' else Malformed
  end.

(** ** Values

    [depth] counts the arrays and objects that are open: [maxNestingDepth] is
    10000. *)
Definition maxNestingDepth : Z := 10000.

(** The text of [s] up to its suffix [rest]. *)
Definition text_before (s rest : string) : string :=
  String.substring 0 (String.length s - String.length rest) s.

Definition scan_char (c : ascii) (s : string) : scan unit :=
  match skip_spaces s with
  | EmptyString => Unfinished
  | String d s' => if bool_decide (d = c) then Scanned tt s' else Malformed
  end.

Fixpoint scan_value (fuel : nat) (depth : Z) (s : string) : scan (json * string) :=
  match fuel with
  | O => Unfinished
  | S fuel =>
      let s := skip_spaces s in
      match s with
      | EmptyString => Unfinished
      | String c s1 =>
          let value (m : scan json) : scan (json * string) :=
            scan! (v, rest) := m in Scanned (v, text_before s rest) rest in
          if bool_decide (c = "{"%char) then
            if maxNestingDepth <=? depth then Malformed else
            value (match skip_spaces s1 with
              | EmptyString => Unfinished
              | String d s2 =>
                  if bool_decide (d = "}"%char) then Scanned (JObject []) s2
                  else scan! (l, rest) := scan_members fuel (depth + 1) s1 in Scanned (JObject l) rest
              end)
          else if bool_decide (c = "["%char) then
            if maxNestingDepth <=? depth then Malformed else
            value (match skip_spaces s1 with
              | EmptyString => Unfinished
              | String d s2 =>
                  if bool_decide (d = "]"%char) then Scanned (JArray []) s2
                  else scan! (l, rest) := scan_elements fuel (depth + 1) s1 in Scanned (JArray l) rest
              end)
          else if bool_decide (c = "034"%char) then
            value (scan! (t, rest) := scan_string s1 in Scanned (JString (unquote t)) rest)
          else if bool_decide (c = "t"%char) then
            value (scan! (_u, rest) := scan_word "true" s in Scanned (JBool true) rest)
          else if bool_decide (c = "f"%char) then
            value (scan! (_u, rest) := scan_word "false" s in Scanned (JBool false) rest)
          else if bool_decide (c = "n"%char) then
            value (scan! (_u, rest) := scan_word "null" s in Scanned JNull rest)
          else if bool_decide (c = "-"%char) || in_range 48 57 c then
            value (scan! (t, rest) := scan_number s in Scanned (JNumber t) rest)
          else Malformed
      end
  end
with scan_elements (fuel : nat) (depth : Z) (s : string) : scan (list (json * string)) :=
  match fuel with
  | O => Unfinished
  | S fuel =>
      scan! (v, s) := scan_value fuel depth s in
      match skip_spaces s with
      | EmptyString => Unfinished
      | String c s' =>
          if bool_decide (c = "]"%char) then Scanned [v] s'
          else if bool_decide (c = ","%char) then
            scan! (l, rest) := scan_elements fuel depth s' in Scanned (v :: l) rest
          else Malformed
      end
  end
with scan_members (fuel : nat) (depth : Z) (s : string) : scan (list (string * (json * string))) :=
  match fuel with
  | O => Unfinished
  | S fuel =>
      scan! (_u, s) := scan_char "034" s in
      scan! (key, s) := scan_string s in
      scan! (_u, s) := scan_char ":" s in
      scan! (v, s) := scan_value fuel depth s in
      match skip_spaces s with
      | EmptyString => Unfinished
      | String c s' =>
          if bool_decide (c = "}"%char) then Scanned [(unquote key, v)] s'
          else if bool_decide (c = ","%char) then
            scan! (l, rest) := scan_members fuel depth s' in Scanned ((unquote key, v) :: l) rest
          else Malformed
      end
  end.

(** Each call consumes a byte or is followed by one that does: twice the length
    of the input is fuel enough ([scan_value_fuel]). *)
Definition value_fuel (s : string) : nat := 2 * String.length s + 2.

Definition scan_json (s : string) : scan (json * string) := scan_value (value_fuel s) 0 s.

(** ** The fuel is enough *)

Definition rest_le {A} (n : nat) (m : scan A) : Prop :=
  match m with Scanned _ rest => (String.length rest <= n)%nat | _ => True end.

Lemma rest_le_bind {A B} n n' (m : scan A) (k : A -> string -> scan B) :
  rest_le n' m ->
  (forall a rest, (String.length rest <= n')%nat -> rest_le n (k a rest)) ->
  rest_le n (sbind m k).
Proof. destruct m as [a rest| |]; simpl; auto. Qed.

Lemma rest_le_mono {A} n n' (m : scan A) : rest_le n' m -> (n' <= n)%nat -> rest_le n m.
Proof. destruct m; simpl; [lia|done..]. Qed.

Lemma skip_spaces_length s : (String.length (skip_spaces s) <= String.length s)%nat.
Proof. induction s as [|c s IH]; simpl; [done|]. case_if; simpl; lia. Qed.

Lemma scan_string_rest s : rest_le (String.length s) (scan_string s).
Proof.
  induction s as [s IH] using (induction_ltof1 _ String.length).
  assert (Hrec : forall t (k : string -> string),
    (String.length t < String.length s)%nat ->
    rest_le (String.length s) (sbind (scan_string t) (fun u rest => Scanned (k u) rest))).
  { intros t k Ht. eapply rest_le_bind; [exact (IH t Ht)|]. simpl. intros; lia. }
  destruct s as [|c s1]; [done|]. cbn [scan_string].
  destruct (bool_decide _); [simpl; lia|]. destruct (in_range 0 31 c); [done|].
  destruct (bool_decide _).
  - destruct s1 as [|d s2]; [done|]. destruct (bool_decide _); [|destruct (simple_escape d)].
    + destruct s2 as [|h3 [|h2 [|h1 [|h0 s3]]]]; try (by destruct (str_all _ _)).
      destruct (forallb _ _); [|done]. apply Hrec. simpl; lia.
    + apply Hrec. simpl; lia.
    + done.
  - apply Hrec. simpl; lia.
Qed.

Lemma scan_digits_rest s : (String.length (snd (scan_digits s)) <= String.length s)%nat.
Proof.
  induction s as [|c s IH]; simpl; [done|]. case_if; [|done].
  destruct (scan_digits s) as [t rest]. simpl in *. lia.
Qed.

(** A number of at least one digit is shorter than the input. *)
Lemma scan_digits1_rest s : rest_le (pred (String.length s)) (scan_digits1 s).
Proof.
  unfold scan_digits1. destruct s as [|c s]; [done|]. destruct (in_range 48 57 c) eqn:Hc; [|done].
  simpl. rewrite Hc. pose proof (scan_digits_rest s). by destruct (scan_digits s).
Qed.

Lemma scan_integer_rest s : rest_le (pred (String.length s)) (scan_integer s).
Proof.
  unfold scan_integer. destruct s as [|c s]; [done|]. case_if; [simpl; lia|].
  apply scan_digits1_rest.
Qed.

Lemma scan_fraction_rest s : rest_le (String.length s) (scan_fraction s).
Proof.
  unfold scan_fraction. destruct s as [|c s]; [simpl; lia|]. case_if; [|simpl; lia].
  eapply rest_le_bind; [apply scan_digits1_rest|]. simpl. lia.
Qed.

Lemma scan_exponent_rest s : rest_le (String.length s) (scan_exponent s).
Proof.
  unfold scan_exponent. destruct s as [|c s]; [simpl; lia|]. case_if; [|simpl; lia].
  destruct s as [|d s]; [done|]. case_if;
    (eapply rest_le_bind; [apply scan_digits1_rest|]; simpl; lia).
Qed.

Lemma scan_number_rest s : rest_le (pred (String.length s)) (scan_number s).
Proof.
  unfold scan_number.
  assert (Htail : forall sign t, rest_le (pred (String.length t))
    (sbind (scan_integer t) (fun i s => sbind (scan_fraction s) (fun f s =>
      sbind (scan_exponent s) (fun e s => Scanned (sign +:+ i +:+ f +:+ e) s))))).
  { intros sign t. eapply rest_le_bind; [apply scan_integer_rest|]. intros i r Hi.
    eapply rest_le_bind; [apply scan_fraction_rest|]. intros f r' Hf.
    eapply rest_le_bind; [apply scan_exponent_rest|]. intros e r'' He. simpl in *. lia. }
  destruct s as [|c s]; [apply Htail|]. case_if; [|apply Htail].
  eapply rest_le_mono; [apply Htail|]. simpl. lia.
Qed.

Lemma scan_word_rest w s :
  rest_le (String.length s - String.length w) (scan_word w s).
Proof.
  revert s; induction w as [|a w IH]; intros [|b s]; simpl; try done. case_if; [apply IH|done].
Qed.

Lemma scan_char_rest c s : rest_le (pred (String.length s)) (scan_char c s).
Proof.
  unfold scan_char. pose proof (skip_spaces_length s). destruct (skip_spaces s) as [|d s']; [done|].
  simpl in *. case_if; simpl; [lia|done].
Qed.

(** What follows a value is shorter than the input of the value. *)
Lemma scan_rest n : forall d s,
  rest_le (pred (String.length s)) (scan_value n d s)
  /\ rest_le (pred (String.length s)) (scan_elements n d s)
  /\ rest_le (pred (String.length s)) (scan_members n d s).
Proof.
  induction n as [|n IH]; intros d s; [done|].
  assert (Hv : forall d t, rest_le (pred (String.length t)) (scan_value n d t)) by apply IH.
  assert (He : forall d t, rest_le (pred (String.length t)) (scan_elements n d t)) by apply IH.
  assert (Hm : forall d t, rest_le (pred (String.length t)) (scan_members n d t)) by apply IH.
  clear IH. split; [|split].
  - cbn [scan_value]. pose proof (skip_spaces_length s) as Hs.
    destruct (skip_spaces s) as [|c s1]; [done|]. simpl in Hs.
    assert (Hval : forall m : scan json, rest_le (String.length s1) m ->
      rest_le (pred (String.length s))
        (sbind m (fun v rest => Scanned (v, text_before (String c s1) rest) rest))).
    { intros m H. eapply rest_le_bind; [exact H|]. simpl. lia. }
    pose proof (skip_spaces_length s1) as Hs1.
    repeat case_if; try done; apply Hval.
    + destruct (skip_spaces s1) as [|e s2]; [done|]. simpl in Hs1. case_if; [simpl; lia|].
      eapply rest_le_bind; [apply Hm|]. simpl. lia.
    + destruct (skip_spaces s1) as [|e s2]; [done|]. simpl in Hs1. case_if; [simpl; lia|].
      eapply rest_le_bind; [apply He|]. simpl. lia.
    + eapply rest_le_bind; [apply scan_string_rest|]. simpl. lia.
    + eapply rest_le_bind; [apply scan_word_rest|]. simpl. lia.
    + eapply rest_le_bind; [apply scan_word_rest|]. simpl. lia.
    + eapply rest_le_bind; [apply scan_word_rest|]. simpl. lia.
    + eapply rest_le_bind; [apply scan_number_rest|]. simpl. lia.
  - cbn [scan_elements]. eapply rest_le_bind; [apply Hv|]. intros v t Ht.
    pose proof (skip_spaces_length t) as Hst. destruct (skip_spaces t) as [|c t']; [done|].
    simpl in *. repeat case_if; simpl; try done; [lia|].
    eapply rest_le_bind; [apply He|]. simpl. lia.
  - cbn [scan_members]. eapply rest_le_bind; [apply scan_char_rest|]. intros _ t1 Ht1.
    eapply rest_le_bind; [apply scan_string_rest|]. intros key t2 Ht2.
    eapply rest_le_bind; [apply scan_char_rest|]. intros _ t3 Ht3.
    eapply rest_le_bind; [apply Hv|]. intros v t Ht.
    pose proof (skip_spaces_length t) as Hst. destruct (skip_spaces t) as [|c t']; [done|].
    simpl in *. repeat case_if; simpl; try done; [lia|].
    eapply rest_le_bind; [apply Hm|]. simpl. lia.
Qed.

Lemma scan_rest_value n d s v rest :
  scan_value n d s = Scanned v rest -> (String.length rest <= pred (String.length s))%nat.
Proof. intros H. pose proof (proj1 (scan_rest n d s)) as Hr. by rewrite H in Hr. Qed.

Lemma sbind_ext {A B} (m m' : scan A) (k k' : A -> string -> scan B) :
  m = m' -> (forall a rest, m = Scanned a rest -> k a rest = k' a rest) -> sbind m k = sbind m' k'.
Proof. intros <- H. destruct m; simpl; auto. Qed.

(** More fuel than twice the length of the input changes nothing. *)
Lemma scan_fuel n : forall m d s, (n <= m)%nat ->
  ((2 * String.length s + 1 <= n)%nat -> scan_value m d s = scan_value n d s)
  /\ ((2 * String.length s + 2 <= n)%nat -> scan_elements m d s = scan_elements n d s)
  /\ ((2 * String.length s + 2 <= n)%nat -> scan_members m d s = scan_members n d s).
Proof.
  induction n as [|n IH]; intros [|m] d s Hnm; try (repeat split; intros; lia).
  assert (Hv : forall d t, (2 * String.length t + 1 <= n)%nat ->
    scan_value m d t = scan_value n d t) by (intros; apply IH; lia).
  assert (He : forall d t, (2 * String.length t + 2 <= n)%nat ->
    scan_elements m d t = scan_elements n d t) by (intros; apply IH; lia).
  assert (Hm : forall d t, (2 * String.length t + 2 <= n)%nat ->
    scan_members m d t = scan_members n d t) by (intros; apply IH; lia).
  clear IH. split; [|split]; intros Hn.
  - cbn [scan_value]. pose proof (skip_spaces_length s) as Hs.
    destruct (skip_spaces s) as [|c s1]; [done|]. simpl in Hs.
    rewrite He, Hm by lia. done.
  - cbn [scan_elements]. apply sbind_ext; [apply Hv; lia|]. intros v t Ht.
    rewrite Hv in Ht by lia. apply scan_rest_value in Ht. pose proof (skip_spaces_length t) as Hst.
    destruct (skip_spaces t) as [|c t']; [done|]. simpl in Hst. by rewrite He by lia.
  - cbn [scan_members]. apply sbind_ext; [done|]. intros u1 t1 Ht1.
    pose proof (scan_char_rest "034" s) as L1. rewrite Ht1 in L1. simpl in L1.
    apply sbind_ext; [done|]. intros key t2 Ht2.
    pose proof (scan_string_rest t1) as L2. rewrite Ht2 in L2. simpl in L2.
    apply sbind_ext; [done|]. intros u3 t3 Ht3.
    pose proof (scan_char_rest ":" t2) as L3. rewrite Ht3 in L3. simpl in L3.
    apply sbind_ext; [apply Hv; lia|]. intros v t Ht.
    rewrite Hv in Ht by lia. apply scan_rest_value in Ht. pose proof (skip_spaces_length t) as Hst.
    destruct (skip_spaces t) as [|c t']; [done|]. simpl in Hst. by rewrite Hm by lia.
Qed.

(** [scan_json] is the scanner: no amount of fuel finds more. *)
Lemma scan_value_fuel n s : (value_fuel s <= n)%nat -> scan_value n 0 s = scan_json s.
Proof. intros Hn. apply scan_fuel; [done|]. unfold value_fuel. lia. Qed.

(** * Streams

    What a reader delivers, and how it ends: at the end of the body, because the
    body is larger than an [http.MaxBytesReader] allows, or with another error of
    the reader below. *)
Inductive stream_end := AtEOF | TooLarge | ReadError.

Record stream := { st_bytes : string; st_end : stream_end }.

(** [http.MaxBytesReader(w, body, limit)] and [io.LimitReader(body, limit)]. *)
Definition MaxBytesReader (limit : Z) (body : stream) : stream :=
  if str_len (st_bytes body) <=? limit then body
  else {| st_bytes := String.substring 0 (Z.to_nat limit) (st_bytes body); st_end := TooLarge |}.

Definition LimitReader (limit : Z) (body : stream) : stream :=
  if str_len (st_bytes body) <? limit then body
  else {| st_bytes := String.substring 0 (Z.to_nat limit) (st_bytes body); st_end := AtEOF |}.

(** What [Decoder.Decode] reports. *)
Inductive decode_error := DEOF | DSyntax | DType | DReader (e : stream_end).

(** The next value of a stream: [Decoder.readValue].  A number that is not
    followed by anything is complete only at the end of the body. *)
Definition next_value (st : stream) : result decode_error ((json * string) * stream) :=
  let out (v : json * string) (rest : string) := Ok (v, {| st_bytes := rest; st_end := st_end st |}) in
  let short (e : decode_error) :=
    Err (match st_end st with AtEOF => e | other => DReader other end) in
  match scan_json (st_bytes st) with
  | Malformed => Err DSyntax
  | Unfinished => short (if is_empty (skip_spaces (st_bytes st)) then DEOF else DSyntax)
  | Scanned (JNumber _, _) EmptyString as m =>
      match st_end st, m with
      | AtEOF, Scanned v rest => out v rest
      | _, _ => short DSyntax
      end
  | Scanned v rest => out v rest
  end.

(** [ensureJSONEOF] and its copies: whether nothing but space follows. *)
Definition at_eof (st : stream) : bool :=
  match next_value st with Err DEOF => true | _ => false end.

(** [json.Valid]. *)
Definition Valid (text : string) : bool :=
  match scan_json text with
  | Scanned _ rest => is_empty (skip_spaces rest)
  | _ => false
  end.

(** * Decoding into Go data *)

(** A decoder from the value the destination holds, the JSON value and its
    text; [None] is an error of [Unmarshal]. *)
Definition decoder (A : Type) := A -> json -> string -> option A.

Definition dec_string : decoder string := fun cur v _ =>
  match v with JString s => Some s | JNull => Some cur | _ => None end.

Definition dec_bool : decoder bool := fun cur v _ =>
  match v with JBool b => Some b | JNull => Some cur | _ => None end.

(** [strconv.ParseInt(literal, 10, w)] of a JSON number: only digits. *)
Definition parse_int_literal (s : string) : option Z :=
  let '(neg, ds) := match s with
    | String c s' => if bool_decide (c = "-"%char) then (true, s') else (false, s)
    | EmptyString => (false, s) end in
  let '(n, _, rest) := decimal_digits ds 0 0 in
  if is_empty rest && negb (is_empty ds) then Some (if neg : bool then - n else n) else None.

Definition dec_int (lo hi : Z) : decoder Z := fun cur v _ =>
  match v with
  | JNumber s =>
      match parse_int_literal s with
      | Some n => if (lo <=? n) && (n <=? hi) then Some n else None
      | None => None
      end
  | JNull => Some cur
  | _ => None
  end.

Definition dec_int64 : decoder Z := dec_int min_int64 max_int64.
Definition dec_int16 : decoder Z := dec_int (- 2 ^ 15) (2 ^ 15 - 1).

Definition dec_float64 : decoder float64 := fun cur v _ =>
  match v with JNumber s => ParseFloat s | JNull => Some cur | _ => None end.

(** [json.RawMessage]. *)
Definition dec_raw : decoder string := fun _ _ raw => Some raw.

(** A pointer: a [null] clears it. *)
Definition dec_pointer {A} (zero : A) (d : decoder A) : decoder (option A) := fun cur v raw =>
  match v with JNull => Some None | _ => Some <$> d (default zero cur) v raw end.

Fixpoint dec_elements {A} (zero : A) (d : decoder A) (cur : list A) (l : list (json * string))
    : option (list A) :=
  match l with
  | [] => Some []
  | (v, raw) :: l' =>
      a ← d (default zero (head cur)) v raw; (cons a) <$> dec_elements zero d (tail cur) l'
  end.

Definition dec_slice {A} (zero : A) (d : decoder A) : decoder (list A) := fun cur v _ =>
  match v with
  | JNull => Some []
  | JArray l => dec_elements zero d cur l
  | _ => None
  end.

(** The fields of a struct: their keys and how to decode into them. *)
Definition fields (A : Type) := list (string * decoder A).

Definition field {A B} (get : A -> B) (set : B -> A -> A) (d : decoder B) : decoder A :=
  fun cur v raw => (fun b => set b cur) <$> d (get cur) v raw.

Section decode.
Context `{Unicode}.

(** A key matches the field of that name, or else one whose name is equal under
    case folding. *)
Definition find_field {A} (fs : fields A) (key : string) : option (decoder A) :=
  match List.find (fun f => bool_decide (fst f = key)) fs with
  | Some f => Some (snd f)
  | None => snd <$> List.find (fun f => EqualFold (fst f) key) fs
  end.

Fixpoint dec_members {A} (fs : fields A) (cur : A) (l : list (string * (json * string)))
    : option A :=
  match l with
  | [] => Some cur
  | (key, (v, raw)) :: l' =>
      d ← find_field fs key; cur' ← d cur v raw; dec_members fs cur' l'
  end.

Definition dec_struct {A} (fs : fields A) : decoder A := fun cur v _ =>
  match v with
  | JNull => Some cur
  | JObject l => dec_members fs cur l
  | _ => None
  end.

(** [decoder.Decode(&v)] with [DisallowUnknownFields]. *)
Definition decode_next {A} (d : decoder A) (zero : A) (st : stream)
    : result decode_error (A * stream) :=
  let! (value, rest) := next_value st in
  let! a := of_option DType (d zero (fst value) (snd value)) in
  Ok (a, rest).

(** [json.Unmarshal]: one value and nothing but space; unknown fields are skipped. *)
Fixpoint dec_known_members {A} (fs : fields A) (cur : A) (l : list (string * (json * string))) : option A :=
  match l with
  | [] => Some cur
  | (key, (v, raw)) :: l' =>
      match find_field fs key with
      | Some d => cur' ← d cur v raw; dec_known_members fs cur' l'
      | None => dec_known_members fs cur l'
      end
  end.

Definition dec_known {A} (fs : fields A) : decoder A := fun cur v _ =>
  match v with JNull => Some cur | JObject l => dec_known_members fs cur l | _ => None end.

Definition Unmarshal {A} (d : decoder A) (zero : A) (text : string) : option A :=
  match scan_json text with
  | Scanned (v, raw) rest => if is_empty (skip_spaces rest) then d zero v raw else None
  | _ => None
  end.
End decode.

(** ** Times

    [time.Time.UnmarshalJSON]: the text between the quotes, read with the layout
    [time.RFC3339]. *)
Definition two_digits (a b : ascii) : option Z :=
  a ← digit_value a; b ← digit_value b; Some (10 * a + b).

(** The digits of a fraction of a second, of which nine count. *)
Definition nanoseconds (s : string) : Z * string :=
  match s with
  | String c s' =>
      let '(ds, rest) := scan_digits s' in
      if (bool_decide (c = "."%char) || bool_decide (c = ","%char)) && negb (is_empty ds) then
        let ds := String.substring 0 9 ds in
        (fst (fst (decimal_digits ds 0 0)) * 10 ^ (9 - str_len ds), rest)
      else (0, s)
  | EmptyString => (0, s)
  end.

(** The offset of a time zone, in seconds. *)
Definition zone_offset (s : string) : option Z :=
  match bytes_of s with
  | [z] => if bool_decide (z = "Z"%char) then Some 0 else None
  | [sign; h1; h0; colon; m1; m0] =>
      h ← two_digits h1 h0; m ← two_digits m1 m0;
      if bool_decide (colon = ":"%char) && (h <=? 24) && (m <=? 60) then
        let offset := (h * 60 + m) * 60 in
        if bool_decide (sign = "+"%char) then Some offset
        else if bool_decide (sign = "-"%char) then Some (- offset)
        else None
      else None
  | _ => None
  end.

(** The hour has one digit or two. *)
Definition hour_of (s : string) : option (Z * string) :=
  match s with
  | String a (String b s') =>
      match digit_value a, digit_value b with
      | Some x, Some y => Some (10 * x + y, s')
      | Some x, None => Some (x, String b s')
      | None, _ => None
      end
  | _ => None
  end.

Definition parse_clock (s : string) : option (Z * string) :=
  '(h, s) ← hour_of s;
  match s with
  | String c1 (String m1 (String m0 (String c2 (String s1 (String s0 rest))))) =>
      m ← two_digits m1 m0; sec ← two_digits s1 s0;
      if bool_decide (c1 = ":"%char) && bool_decide (c2 = ":"%char)
         && (h <=? 23) && (m <=? 59) && (sec <=? 59)
      then Some (((h * 60 + m) * 60 + sec), rest) else None
  | _ => None
  end.

Definition ParseRFC3339 (s : string) : option time :=
  date ← ParseDate (String.substring 0 10 s);
  match String.substring 10 (String.length s - 10) s with
  | String t s =>
      if bool_decide (t = "T"%char) then
        '(clock, s) ← parse_clock s;
        let '(ns, s) := nanoseconds s in
        offset ← zone_offset s;
        Some (date + (clock - offset) * second + ns)
      else None
  | EmptyString => None
  end.

(** The text without its quotes. *)
Definition inner_text (raw : string) : string :=
  String.substring 1 (String.length raw - 2) raw.

Definition dec_time : decoder time := fun cur v raw =>
  match v with
  | JNull => Some cur
  | JString _ => ParseRFC3339 (inner_text raw)
  | _ => None
  end.

(** Texts for the examples, with quotes written as apostrophes. *)
Definition quoted (s : string) : string :=
  str_map (fun c => if bool_decide (c = "'"%char) then "034"%char else c) s.

Example scan_example :
  scan_json (quoted " {'a' : [1, -2.5e3, true, null], 'b\u0041': 'x\ny'} tail")
  = Scanned (JObject [("a", (JArray [(JNumber "1", "1"); (JNumber "-2.5e3", "-2.5e3");
                                      (JBool true, "true"); (JNull, "null")],
                             "[1, -2.5e3, true, null]"));
                      ("bA", (JString ("x" +:+ String (byte 10) "y"), quoted "'x\ny'"))],
             quoted "{'a' : [1, -2.5e3, true, null], 'b\u0041': 'x\ny'}") " tail".
Proof. vm_compute. reflexivity. Qed.

Example scan_errors :
  (scan_json (quoted "{'a':1,}"), scan_json "[1 2]", scan_json "01", scan_json (quoted "{'a':"),
   scan_json "tru", scan_json "nul1")
  = (Malformed, Malformed, Scanned (JNumber "0", "0") "1", Unfinished, Unfinished, Malformed).
Proof. vm_compute. reflexivity. Qed.

Example time_examples :
  map ParseRFC3339 ["1970-01-02T00:00:01Z"; "1970-01-01T05:30:00.25+05:30"; "1970-01-01T1:00:00Z";
                    "1970-02-30T00:00:00Z"; "1970-01-01T00:00:00"]
  = [Some (day + second); Some 250000000; Some hour; None; None].
Proof. vm_compute. reflexivity. Qed.
