(* ===== verification/Billing.v ===== *)
(** The processing of queued billing webhooks: [webhook_processing.go],
    [webhook_order.go], [webhook_payment.go], [webhook_subscription.go] and
    [webhook_user.go] of [internal/billing]. *)
From S2P Require Import Prelude GoLists GoBase Webhook BillingDB.
Local Open Scope Z_scope.

(** * The environment of a call *)

(** What becomes of a statement or a commit: done; refused, without effect; or
    applied with its acknowledgement lost, which the caller cannot tell from
    the second.  Inside a transaction the last two are the same, since the
    transaction is rolled back.  The causes are those of the network and of the
    context, not of the data. *)
Inductive outage := OutDeadline | OutCanceled | OutOther.

Definition outage_failure (o : outage) : db_failure :=
  match o with
  | OutDeadline => DeadlineExceeded
  | OutCanceled => Canceled
  | OutOther => OtherFailure
  end.

Inductive outcome :=
  | Done
  | Refused (cause : outage)
  | AckLost (cause : outage).

(** [c_now] is the clock of the service, [c_tx_now] the [now()] of the database
    for the transaction. *)
Record call := {
  c_now : time;
  c_tx_now : time;
  c_outcome : billing_step -> outcome;
}.

(** A statement inside a transaction. *)
Definition exec {A} (c : call) (st : billing_step) (r : result db_failure A)
    : result billing_error A :=
  match c_outcome c st with
  | Done => rmap_err (StatementFailed st) r
  | Refused cause | AckLost cause => Err (StatementFailed st (outage_failure cause))
  end.

(** A statement that is its own transaction, and a transaction whose changes
    [d'] are committed by the step [st]. *)
Definition autocommit {A} (c : call) (st : billing_step) (d : BillingDB)
    (r : result db_failure (A * BillingDB)) : result billing_error A * BillingDB :=
  match c_outcome c st with
  | Refused cause => (Err (StatementFailed st (outage_failure cause)), d)
  | AckLost cause =>
      match r with
      | Ok (_, d') => (Err (StatementFailed st (outage_failure cause)), d')
      | Err e => (Err (StatementFailed st e), d)
      end
  | Done =>
      match r with
      | Ok (a, d') => (Ok a, d')
      | Err e => (Err (StatementFailed st e), d)
      end
  end.

Record WebhookResult := { wr_Status : string; wr_Duplicate : bool }.

Definition provisionalOrderAccess : duration := 15 * minute.

Section billing.
Context `{Unicode, WebhookEncoding, EventConstraints}.
Variable s : Service.

(** * The buyer *)

(** [$1::uuid], then the foreign key to [app_users]. *)
Definition user_reference (d : BillingDB) (userID : string) : result db_failure string :=
  match uuid_text userID with
  | None => Err OtherFailure
  | Some u => if bool_decide (u ∈ app_users d) then Ok u else Err ConstraintViolation
  end.

(** [select exists (select 1 from app_users where id = $1::uuid)] *)
Definition user_exists (d : BillingDB) (userID : string) : result db_failure bool :=
  match uuid_text userID with
  | None => Err OtherFailure
  | Some u => Ok (bool_decide (u ∈ app_users d))
  end.

(** [select user_id::text from subscriptions where provider = $1 and
    provider_subscription_id = $2 limit 1] *)
Definition subscription_user (d : BillingDB) (subscription : string) : result db_failure string :=
  match List.filter (has_subscription (providerName s) subscription) (subscriptions d) with
  | [] => Err NoRows
  | r :: _ => Ok (sr_UserID r)
  end.

(** The two error paths of the second query: no row, and anything else. *)
Definition existing_user (c : call) (d : BillingDB) (id : string) : result billing_error string :=
  match exec c BExistingUser (subscription_user d id) with
  | Err (StatementFailed _ NoRows) => Err (InvalidWebhook NoAssociatedUser)
  | r => r
  end.

Definition resolve_user (c : call) (d : BillingDB) (custom : gmap string json_value) (id : string)
    : result billing_error string :=
  let userID := customString custom "user_id" in
  if negb (is_empty userID) then
    match exec c BUserExists (user_exists d userID) with
    | Ok true => Ok userID
    | _ => Err (InvalidWebhook UnknownCheckoutUser)
    end
  else existing_user c d id.

Definition resolveProductionWebhookUser (c : call) (d : BillingDB)
    (envelope : productionWebhookEnvelope) : result billing_error string :=
  resolve_user c d (we_CustomData envelope) (we_ID envelope).

(** * Orders *)

Definition upsertOrder (now : time) (order : string) (excluded : order_row) (d : BillingDB)
    : result db_failure BillingDB :=
  let k := (providerName s, order) in
  fail_if negb (order_checks (providerName s) order excluded) with ConstraintViolation else
  match billing_orders d !! k with
  | None => Ok (set_orders (<[k := excluded]> (billing_orders d)) d)
  | Some cur =>
      if not_older (or_ProviderUpdatedAt cur) (or_ProviderUpdatedAt excluded) then
        Ok (set_orders
              (<[k := {| or_UserID := or_UserID excluded;
                         or_CustomerID := or_CustomerID excluded;
                         or_VariantID := or_VariantID excluded;
                         or_Status := or_Status excluded;
                         or_ProviderUpdatedAt := or_ProviderUpdatedAt excluded;
                         or_CreatedAt := or_CreatedAt cur;
                         or_UpdatedAt := now |}]> (billing_orders d)) d)
      else Ok d
  end.

Definition provisional_row (now : time) (user order : string)
    (attributes : productionWebhookAttributes) (providerUpdatedAt accessUntil : time)
    : subscription_row :=
  {| sr_UserID := user;
     sr_Provider := providerName s;
     sr_CustomerID := Some (FormatInt (wa_CustomerID attributes));
     sr_SubscriptionID := None;
     sr_OrderID := Some order;
     sr_VariantID := Some (FormatInt (wa_FirstOrderItemVariantID attributes));
     sr_ProviderStatus := Some "order_created";
     sr_ProviderUpdatedAt := Some (pg_time providerUpdatedAt);
     sr_PlanCode := "pro";
     sr_Status := "active";
     sr_PeriodStart := Some now;
     sr_PeriodEnd := Some (pg_time accessUntil);
     sr_CancelAtPeriodEnd := false;
     sr_AccessUntil := Some (pg_time accessUntil);
     sr_CreatedAt := now;
     sr_UpdatedAt := now |}.

(** [insert ... select ... where not exists ...] *)
Definition insert_provisional (r : subscription_row) (order : string) (d : BillingDB)
    : result db_failure BillingDB :=
  if existsb (has_order (providerName s) order) (subscriptions d) then Ok d
  else
    let! l := insert_row r (subscriptions d) in
    Ok (set_subscriptions l d).

Definition enqueue_notification (now : time) (user eventID notificationType : string)
    (d : BillingDB) : BillingDB :=
  let k := (providerName s, eventID, notificationType) in
  match outbox d !! k with
  | Some _ => d
  | None =>
      set_outbox (<[k := {| ob_UserID := user; ob_Status := "pending";
                            ob_NextAttemptAt := Some now; ob_CreatedAt := now |}]> (outbox d)) d
  end.

Definition enqueueProductionNotification (c : call) (userID eventID notificationType : string)
    (d : BillingDB) : result billing_error BillingDB :=
  exec c BNotification
    (let! user := user_reference d userID in
     Ok (enqueue_notification (c_tx_now c) user eventID notificationType d)).

(** The time the provider gives an order, or the clock. *)
Definition order_time (c : call) (attributes : productionWebhookAttributes) : time :=
  let t := productionProviderTime (wa_UpdatedAt attributes) in
  let t := if is_zero t then productionProviderTime (wa_CreatedAt attributes) else t in
  if is_zero t then c_now c else t.

Definition processProductionOrder (c : call) (eventID : string)
    (envelope : productionWebhookEnvelope) (d : BillingDB)
    : result billing_error (event_status * BillingDB) :=
  let! userID := resolveProductionWebhookUser c d envelope in
  let attributes := we_Attributes envelope in
  let providerUpdatedAt := order_time c attributes in
  let! d := exec c BUpsertOrder
    (let! user := user_reference d userID in
     upsertOrder (c_tx_now c) (we_ID envelope)
       {| or_UserID := user;
          or_CustomerID := FormatInt (wa_CustomerID attributes);
          or_VariantID := FormatInt (wa_FirstOrderItemVariantID attributes);
          or_Status := wa_Status attributes;
          or_ProviderUpdatedAt := Some (pg_time providerUpdatedAt);
          or_CreatedAt := c_tx_now c;
          or_UpdatedAt := c_tx_now c |} d) in
  let accessUntil := c_now c + provisionalOrderAccess in
  let! d := exec c BProvisional
    (let! user := user_reference d userID in
     insert_provisional
       (provisional_row (c_tx_now c) user (we_ID envelope) attributes providerUpdatedAt accessUntil)
       (we_ID envelope) d) in
  let! d := enqueueProductionNotification c userID eventID "order_confirmed" d in
  Ok (Processed, d).

(** * Payments *)

Definition past_due_row (now : time) (grace : duration) (r : subscription_row) : subscription_row :=
  {| sr_UserID := sr_UserID r; sr_Provider := sr_Provider r; sr_CustomerID := sr_CustomerID r;
     sr_SubscriptionID := sr_SubscriptionID r; sr_OrderID := sr_OrderID r;
     sr_VariantID := sr_VariantID r; sr_ProviderStatus := Some "past_due";
     sr_ProviderUpdatedAt := sr_ProviderUpdatedAt r; sr_PlanCode := sr_PlanCode r;
     sr_Status := "past_due"; sr_PeriodStart := sr_PeriodStart r; sr_PeriodEnd := sr_PeriodEnd r;
     sr_CancelAtPeriodEnd := sr_CancelAtPeriodEnd r;
     sr_AccessUntil := Some (Z.max (default now (sr_PeriodEnd r)) now + grace);
     sr_CreatedAt := sr_CreatedAt r; sr_UpdatedAt := now |}.

Definition recovered_row (now : time) (r : subscription_row) : subscription_row :=
  {| sr_UserID := sr_UserID r; sr_Provider := sr_Provider r; sr_CustomerID := sr_CustomerID r;
     sr_SubscriptionID := sr_SubscriptionID r; sr_OrderID := sr_OrderID r;
     sr_VariantID := sr_VariantID r; sr_ProviderStatus := Some "active";
     sr_ProviderUpdatedAt := sr_ProviderUpdatedAt r; sr_PlanCode := sr_PlanCode r;
     sr_Status := "active"; sr_PeriodStart := sr_PeriodStart r; sr_PeriodEnd := sr_PeriodEnd r;
     sr_CancelAtPeriodEnd := sr_CancelAtPeriodEnd r;
     sr_AccessUntil :=
       Some (Z.max (Z.max (default now (sr_AccessUntil r)) (default now (sr_PeriodEnd r))) now);
     sr_CreatedAt := sr_CreatedAt r; sr_UpdatedAt := now |}.

(** [update subscriptions set ... where provider = $1 and
    provider_subscription_id = $2] *)
Definition update_subscription (f : subscription_row -> subscription_row) (subscription : string)
    (d : BillingDB) : result db_failure BillingDB :=
  let! l := update_where (has_subscription (providerName s) subscription) f (subscriptions d) in
  Ok (set_subscriptions l d).

Definition processProductionPayment (c : call) (eventID : string)
    (envelope : productionWebhookEnvelope) (d : BillingDB)
    : result billing_error (event_status * BillingDB) :=
  let subscriptionID := FormatInt (wa_SubscriptionID (we_Attributes envelope)) in
  let! userID :=
    match exec c BResolvePayment (subscription_user d subscriptionID) with
    | Err (StatementFailed _ NoRows) => Err NotSynchronized
    | r => r
    end in
  let name := we_EventName envelope in
  let! d :=
    if bool_decide (name = "subscription_payment_failed") then
      let! d := exec c BMarkPastDue
        (update_subscription
           (past_due_row (c_tx_now c) (postgresInterval (pastDueGracePeriod s))) subscriptionID d) in
      enqueueProductionNotification c userID eventID "payment_failed" d
    else if bool_decide (name = "subscription_payment_recovered") then
      let! d := exec c BRecoverPayment
        (update_subscription (recovered_row (c_tx_now c)) subscriptionID d) in
      enqueueProductionNotification c userID eventID "payment_recovered" d
    else if bool_decide (name = "subscription_payment_success") then
      enqueueProductionNotification c userID eventID "payment_success" d
    else Ok d in
  Ok (Processed, d).

(** * Subscriptions *)

(** The [do update set] of the upsert. *)
Definition merge_subscription (now : time) (cur excluded : subscription_row) : subscription_row :=
  {| sr_UserID := sr_UserID excluded; sr_Provider := sr_Provider cur;
     sr_CustomerID := sr_CustomerID excluded; sr_SubscriptionID := sr_SubscriptionID cur;
     sr_OrderID := sr_OrderID excluded; sr_VariantID := sr_VariantID excluded;
     sr_ProviderStatus := sr_ProviderStatus excluded;
     sr_ProviderUpdatedAt := sr_ProviderUpdatedAt excluded;
     sr_PlanCode := sr_PlanCode excluded; sr_Status := sr_Status excluded;
     sr_PeriodStart :=
       match sr_PeriodStart excluded with Some t => Some t | None => sr_PeriodStart cur end;
     sr_PeriodEnd := sr_PeriodEnd excluded;
     sr_CancelAtPeriodEnd := sr_CancelAtPeriodEnd excluded;
     sr_AccessUntil := sr_AccessUntil excluded;
     sr_CreatedAt := sr_CreatedAt cur; sr_UpdatedAt := now |}.

(** The values of the upsert. *)
Definition subscription_values (c : call) (user : string) (envelope : productionWebhookEnvelope)
    (providerUpdatedAt : time) (orderID planCode status : string) (accessUntil : option time)
    : subscription_row :=
  let attributes := we_Attributes envelope in
  {| sr_UserID := user;
     sr_Provider := providerName s;
     sr_CustomerID := Some (FormatInt (wa_CustomerID attributes));
     sr_SubscriptionID := Some (we_ID envelope);
     sr_OrderID := nullif_empty orderID;
     sr_VariantID := Some (FormatInt (wa_VariantID attributes));
     sr_ProviderStatus := Some (wa_Status attributes);
     sr_ProviderUpdatedAt := Some (pg_time providerUpdatedAt);
     sr_PlanCode := planCode;
     sr_Status := status;
     sr_PeriodStart := pg_time <$> productionOptionalProviderTime (wa_CreatedAt attributes);
     sr_PeriodEnd := pg_time <$> productionOptionalProviderTime (wa_RenewsAt attributes);
     sr_CancelAtPeriodEnd := wa_Cancelled attributes || bool_decide (status = "canceled");
     sr_AccessUntil := pg_time <$> accessUntil;
     sr_CreatedAt := c_tx_now c;
     sr_UpdatedAt := c_tx_now c |}.

(** [removeProvisional] *)
Definition remove_provisional (orderID : string) (d : BillingDB) : BillingDB :=
  set_subscriptions
    (delete_where (fun r => has_order (providerName s) orderID r && bool_decide (sr_SubscriptionID r = None))
       (subscriptions d)) d.

(** The time the provider gives a subscription, or the clock. *)
Definition subscription_time (c : call) (attributes : productionWebhookAttributes) : time :=
  let t := productionProviderTime (wa_UpdatedAt attributes) in
  if is_zero t then c_now c else t.

(** The plan, status and access of a payload: another variant than the
    configured one is not Pro. *)
Definition production_access (attributes : productionWebhookAttributes) (providerUpdatedAt : time)
    : result billing_error (string * string * option time) :=
  let! (status, accessUntil) :=
    resolveProductionAccess attributes providerUpdatedAt (pastDueGracePeriod s) in
  if negb (bool_decide (FormatInt (wa_VariantID attributes) = variantID s))
  then Ok ("free", "expired", Some providerUpdatedAt)
  else Ok ("pro", status, accessUntil).

Definition processProductionSubscription (c : call) (envelope : productionWebhookEnvelope)
    (d : BillingDB) : result billing_error (event_status * BillingDB) :=
  let! userID := resolveProductionWebhookUser c d envelope in
  let attributes := we_Attributes envelope in
  let providerUpdatedAt := subscription_time c attributes in
  let! (planCode, status, accessUntil) := production_access attributes providerUpdatedAt in
  let! (orderID, d) :=
    if 0 <? wa_OrderID attributes then
      let orderID := FormatInt (wa_OrderID attributes) in
      let! d := exec c BRemoveProvisional (Ok (remove_provisional orderID d)) in
      Ok (orderID, d)
    else Ok (EmptyString, d) in
  let! (l, affected) := exec c BUpsertSubscription
    (let! user := user_reference d userID in
     upsert_row (merge_subscription (c_tx_now c))
       (subscription_values c user envelope providerUpdatedAt orderID planCode status accessUntil)
       (subscriptions d)) in
  let d := set_subscriptions l d in
  if affected =? 0 then Ok (Ignored, d) else Ok (Processed, d).

(** * A queued event *)

(** The row [finishProductionWebhook] leaves: [raw_payload = '{}'] *)
Definition empty_payload : string := "{}".

Definition finished_row (now : time) (status : event_status) (r : event_row) : event_row :=
  {| ev_Type := ev_Type r; ev_Hash := ev_Hash r; ev_Payload := empty_payload;
     ev_ObjectType := ev_ObjectType r; ev_ObjectID := ev_ObjectID r;
     ev_Status := status; ev_Error := None; ev_CreatedAt := ev_CreatedAt r;
     ev_ProcessedAt := Some now; ev_Attempts := ev_Attempts r;
     ev_LastAttemptAt := ev_LastAttemptAt r; ev_Deliveries := ev_Deliveries r;
     ev_LastReceivedAt := ev_LastReceivedAt r; ev_NextAttemptAt := None;
     ev_LockedAt := None; ev_LockedBy := None; ev_DeadLetterAt := ev_DeadLetterAt r |}.

(** [update billing_webhook_events set ... where provider = $1 and
    provider_event_id = $2] *)
Definition update_event (f : event_row -> event_row) (eventID : string) (d : BillingDB)
    : result db_failure BillingDB :=
  let k := (providerName s, eventID) in
  match webhook_events d !! k with
  | None => Ok d
  | Some r =>
      if event_checks k (f r) then Ok (set_events (<[k := f r]> (webhook_events d)) d)
      else Err ConstraintViolation
  end.

(** [finishProductionWebhook] up to the commit. *)
Definition finishProductionWebhook (c : call) (eventID : string) (status : event_status)
    (d : BillingDB) : result billing_error BillingDB :=
  exec c BFinish (update_event (finished_row (c_tx_now c) status) eventID d).

Definition process_event (c : call) (eventID eventName : string)
    (envelope : productionWebhookEnvelope) (d : BillingDB)
    : result billing_error (event_status * BillingDB) :=
  if bool_decide (eventName = "order_created") then processProductionOrder c eventID envelope d
  else if bool_decide (eventName ∈ ["subscription_payment_failed"; "subscription_payment_recovered";
                                   "subscription_payment_success"])
  then processProductionPayment c eventID envelope d
  else processProductionSubscription c envelope d.

(** The checks before the transaction. *)
Definition decode_event (eventID raw : string)
    : result billing_error (productionWebhookEnvelope * string) :=
  fail_if negb (HasPrefix eventID "sha256:") || negb (str_len eventID =? 7 + 64)
    with InvalidWebhook InvalidEventIdentity else
  match decode_envelope raw with
  | None => Err (InvalidWebhook DecodePayload)
  | Some (envelope, _) =>
      let eventName := TrimSpace (we_EventName envelope) in
      fail_if negb (isSupportedWebhookEvent eventName) with InvalidWebhook UnsupportedEvent else
      let! _ := validateWebhookScope s envelope in
      Ok (envelope, eventName)
  end.

(** [select status from billing_webhook_events where ... for update] *)
Definition lock_event (d : BillingDB) (eventID : string) : result db_failure event_status :=
  match webhook_events d !! (providerName s, eventID) with
  | None => Err NoRows
  | Some r => Ok (ev_Status r)
  end.

(** The transaction up to its commit: the answer and the database it leaves. *)
Definition process_tx (c : call) (eventID raw : string) (d : BillingDB)
    : result billing_error (WebhookResult * BillingDB) :=
  let! (envelope, eventName) := decode_event eventID raw in
  let! _ := exec c BBegin (Ok tt) in
  let! eventStatus :=
    match exec c BLockEvent (lock_event d eventID) with
    | Err (StatementFailed _ NoRows) => Err (InvalidWebhook NotEnqueued)
    | r => r
    end in
  if bool_decide (eventStatus = Processed) || bool_decide (eventStatus = Ignored)
  then Ok ({| wr_Status := status_text eventStatus; wr_Duplicate := true |}, d)
  else
    let! (finalStatus, d) := process_event c eventID eventName envelope d in
    let! d := finishProductionWebhook c eventID finalStatus d in
    Ok ({| wr_Status := status_text finalStatus; wr_Duplicate := false |}, d).

Definition ProcessWebhookEvent (c : call) (eventID raw : string) (d : BillingDB)
    : result billing_error WebhookResult * BillingDB :=
  match process_tx c eventID raw d with
  | Err e => (Err e, d)
  | Ok (r, d') => autocommit c BCommit d (Ok (r, d'))
  end.
End billing.
