(* ===== verification/BillingQueue.v ===== *)
(** The durable webhook queue: [webhook_queue.go] of [internal/billing], and the
    queries of the checkout and of the customer portal ([service.go]). *)
From S2P Require Import Prelude GoLists GoBase Webhook BillingDB Billing.
Local Open Scope Z_scope.

Record WebhookWorkerConfig := {
  PollInterval : duration;
  JobTimeout : duration;
  LeaseDuration : duration;
  BaseRetryDelay : duration;
  MaxRetryDelay : duration;
  BatchSize : Z;
  MaxAttempts : Z;
}.

Record queuedWebhook := {
  qw_EventID : string;
  qw_EventType : string;
  qw_Payload : string;
  qw_AttemptCount : Z;
}.

(** [%x] of a digest. *)
Definition hex_digit (z : Z) : ascii := byte (if z <? 10 then 48 + z else 87 + z).
Fixpoint hex_of (s : string) : string :=
  match s with
  | EmptyString => EmptyString
  | String c s' =>
      String (hex_digit (byte_val c / 16)) (String (hex_digit (byte_val c mod 16)) (hex_of s'))
  end.

Section queue.
Context `{Unicode, WebhookEncoding, EventConstraints, Sha256}.
Variable s : Service.

(** * Reception *)

Definition event_id (raw : string) : string := "sha256:" +:+ hex_of (sha256 raw).

Definition new_event (now : time) (raw : string) (envelope : productionWebhookEnvelope)
    (payload : string) : event_row :=
  {| ev_Type := we_EventName envelope; ev_Hash := sha256 raw; ev_Payload := payload;
     ev_ObjectType := Some (we_Type envelope); ev_ObjectID := Some (we_ID envelope);
     ev_Status := Pending; ev_Error := None; ev_CreatedAt := now; ev_ProcessedAt := None;
     ev_Attempts := 0; ev_LastAttemptAt := None; ev_Deliveries := 1; ev_LastReceivedAt := now;
     ev_NextAttemptAt := Some now; ev_LockedAt := None; ev_LockedBy := None;
     ev_DeadLetterAt := None |}.

(** [insert ... on conflict do nothing]: the rows affected. *)
Definition insert_event (now : time) (raw : string) (envelope : productionWebhookEnvelope)
    (sanitized : string) (d : BillingDB) : result db_failure (Z * BillingDB) :=
  let k := (providerName s, event_id raw) in
  match jsonb_text sanitized with
  | None => Err ConstraintViolation
  | Some payload =>
      let r := new_event now raw envelope payload in
      if negb (event_checks k r) then Err ConstraintViolation else
      match webhook_events d !! k with
      | Some _ => Ok (0, d)
      | None => Ok (1, set_events (<[k := r]> (webhook_events d)) d)
      end
  end.

Definition touched_row (now : time) (r : event_row) : event_row :=
  {| ev_Type := ev_Type r; ev_Hash := ev_Hash r; ev_Payload := ev_Payload r;
     ev_ObjectType := ev_ObjectType r; ev_ObjectID := ev_ObjectID r;
     ev_Status := ev_Status r; ev_Error := ev_Error r; ev_CreatedAt := ev_CreatedAt r;
     ev_ProcessedAt := ev_ProcessedAt r; ev_Attempts := ev_Attempts r;
     ev_LastAttemptAt := ev_LastAttemptAt r; ev_Deliveries := ev_Deliveries r + 1;
     ev_LastReceivedAt := now;
     ev_NextAttemptAt :=
       if bool_decide (ev_Status r = Failed)
       then Some (Z.min (default now (ev_NextAttemptAt r)) now)
       else ev_NextAttemptAt r;
     ev_LockedAt := ev_LockedAt r; ev_LockedBy := ev_LockedBy r;
     ev_DeadLetterAt := ev_DeadLetterAt r |}.

Definition touch_duplicate (now : time) (eventID : string) (d : BillingDB)
    : result db_failure (event_status * BillingDB) :=
  let k := (providerName s, eventID) in
  match webhook_events d !! k with
  | None => Err NoRows
  | Some r =>
      let r' := touched_row now r in
      if event_checks k r' then Ok (ev_Status r', set_events (<[k := r']> (webhook_events d)) d)
      else Err ConstraintViolation
  end.

Definition EnqueueWebhook (c : call) (raw headerEventName : string) (d : BillingDB)
    : result billing_error WebhookResult * BillingDB :=
  match validateAndSanitizeWebhook raw headerEventName with
  | Err e => (Err e, d)
  | Ok (envelope, sanitized) =>
      match validateWebhookScope s envelope with
      | Err e => (Err e, d)
      | Ok _ =>
          match autocommit c BInsertEvent d (insert_event (c_tx_now c) raw envelope sanitized d) with
          | (Err e, d) => (Err e, d)
          | (Ok affected, d) =>
              if affected =? 1 then (Ok {| wr_Status := "queued"; wr_Duplicate := false |}, d) else
              match autocommit c BTouchDuplicate d
                      (touch_duplicate (c_tx_now c) (event_id raw) d) with
              | (Err e, d) => (Err e, d)
              | (Ok status, d) => (Ok {| wr_Status := status_text status; wr_Duplicate := true |}, d)
              end
          end
      end
  end.

(** * The worker *)

Variable cfg : WebhookWorkerConfig.

(** [coalesce(next_attempt_at, created_at)] *)
Definition due_at (r : event_row) : time := default (ev_CreatedAt r) (ev_NextAttemptAt r).

(** The [where] of the claim; [locked_at < now() - lease] is null for a null. *)
Definition claimable (now : time) (k : event_key) (r : event_row) : bool :=
  bool_decide (fst k = providerName s)
  && (ev_Attempts r <? MaxAttempts cfg)
  && ((bool_decide (ev_Status r = Pending \/ ev_Status r = Failed) && (due_at r <=? now))
      || (bool_decide (ev_Status r = Processing)
          && match ev_LockedAt r with
             | None => false
             | Some t => t <? now - postgresInterval (LeaseDuration cfg)
             end)).

(** The [order by], read downwards: the candidate to take is the greatest.  The
    database may break a tie in any way; here it goes by the order of the map. *)
Definition claim_less : event_key * event_row -> event_key * event_row -> bool :=
  then_less (fun a b => due_at (snd b) <? due_at (snd a))
    (fun a b => ev_CreatedAt (snd b) <? ev_CreatedAt (snd a)).

(** [candidate]: [skip locked] leaves out the rows other transactions hold. *)
Definition candidate (now : time) (locked : list event_key) (d : BillingDB)
    : option (event_key * event_row) :=
  best claim_less
    (List.filter (fun '(k, r) => claimable now k r && negb (bool_decide (k ∈ locked)))
       (map_to_list (webhook_events d))).

Definition claimed_row (now : time) (owner : string) (r : event_row) : event_row :=
  {| ev_Type := ev_Type r; ev_Hash := ev_Hash r; ev_Payload := ev_Payload r;
     ev_ObjectType := ev_ObjectType r; ev_ObjectID := ev_ObjectID r;
     ev_Status := Processing; ev_Error := ev_Error r; ev_CreatedAt := ev_CreatedAt r;
     ev_ProcessedAt := ev_ProcessedAt r; ev_Attempts := ev_Attempts r + 1;
     ev_LastAttemptAt := Some now; ev_Deliveries := ev_Deliveries r;
     ev_LastReceivedAt := ev_LastReceivedAt r; ev_NextAttemptAt := ev_NextAttemptAt r;
     ev_LockedAt := Some now; ev_LockedBy := Some owner; ev_DeadLetterAt := ev_DeadLetterAt r |}.

Definition job_of (k : event_key) (r : event_row) : queuedWebhook :=
  {| qw_EventID := snd k; qw_EventType := ev_Type r; qw_Payload := ev_Payload r;
     qw_AttemptCount := ev_Attempts r |}.

Definition claim_statement (now : time) (owner : string) (locked : list event_key) (d : BillingDB)
    : result db_failure (option queuedWebhook * BillingDB) :=
  match candidate now locked d with
  | None => Ok (None, d)
  | Some (k, r) =>
      let r' := claimed_row now owner r in
      if event_checks k r'
      then Ok (Some (job_of k r'), set_events (<[k := r']> (webhook_events d)) d)
      else Err ConstraintViolation
  end.

Definition claim (c : call) (owner : string) (locked : list event_key) (d : BillingDB)
    : result billing_error (option queuedWebhook) * BillingDB :=
  autocommit c BClaim d (claim_statement (c_tx_now c) owner locked d).

(** [digest[0]] *)
Definition first_byte (digest : string) : Z :=
  match digest with EmptyString => 0 | String c _ => byte_val c end.

Definition retryDelay (attempt : Z) (eventID : string) : duration :=
  let attempt := if attempt <? 1 then 1 else attempt in
  let shift := attempt - 1 in
  let shift := if 20 <? shift then 20 else shift in
  let delay := wrap64 (BaseRetryDelay cfg * 2 ^ shift) in
  let delay := if (delay <=? 0) || (MaxRetryDelay cfg <? delay) then MaxRetryDelay cfg else delay in
  if delay <=? 0 then second else
  let digest := sha256 (eventID +:+ ":" +:+ FormatInt attempt) in
  let jitterPercent := first_byte digest mod 21 in
  let jitter := Z.quot (wrap64 (delay * jitterPercent)) 100 in
  if (MaxRetryDelay cfg <? wrap64 (delay + jitter)) && (0 <? MaxRetryDelay cfg)
  then MaxRetryDelay cfg
  else wrap64 (delay + jitter).

Definition failed_row (now : time) (deadLetter : bool) (message : string) (delay : duration)
    (r : event_row) : event_row :=
  {| ev_Type := ev_Type r; ev_Hash := ev_Hash r; ev_Payload := ev_Payload r;
     ev_ObjectType := ev_ObjectType r; ev_ObjectID := ev_ObjectID r;
     ev_Status := if deadLetter then DeadLetter else Failed; ev_Error := Some message;
     ev_CreatedAt := ev_CreatedAt r; ev_ProcessedAt := ev_ProcessedAt r;
     ev_Attempts := ev_Attempts r; ev_LastAttemptAt := ev_LastAttemptAt r;
     ev_Deliveries := ev_Deliveries r; ev_LastReceivedAt := ev_LastReceivedAt r;
     ev_NextAttemptAt := if deadLetter then None else Some (now + delay);
     ev_LockedAt := None; ev_LockedBy := None;
     ev_DeadLetterAt := if deadLetter then Some now else None |}.

(** [select attempt_count ...] *)
Definition current_attempts (eventID : string) (d : BillingDB) : result db_failure (Z * BillingDB) :=
  match webhook_events d !! (providerName s, eventID) with
  | None => Err NoRows
  | Some r => Ok (ev_Attempts r, d)
  end.

Definition finalizeFailure (c : call) (eventID : string) (permanent : bool)
    (processingErr : billing_error) (d : BillingDB) : result billing_error unit * BillingDB :=
  match autocommit c BAttempts d (current_attempts eventID d) with
  | (Err e, d) => (Err e, d)
  | (Ok attempts, d) =>
      let deadLetter := permanent || (MaxAttempts cfg <=? attempts) in
      let delay := retryDelay attempts eventID in
      autocommit c BFinalize d
        (let! d' := update_event s
           (failed_row (c_tx_now c) deadLetter (safeProcessingError (Some processingErr))
              (postgresInterval delay)) eventID d in
         Ok (tt, d'))
  end.

(** What [processOne] logs. *)
Inductive job_report :=
  | WebhookProcessed (r : WebhookResult)
  | ProcessingFailed (e : billing_error) (permanent : bool)
  | FinalizeFailed (e : billing_error).

(** [c1] is the processing, under the timeout of the job; [c2] the finalization,
    under the context of the worker. *)
Definition processOne (c1 c2 : call) (job : queuedWebhook) (d : BillingDB)
    : job_report * BillingDB :=
  match ProcessWebhookEvent s c1 (qw_EventID job) (qw_Payload job) d with
  | (Ok r, d) => (WebhookProcessed r, d)
  | (Err e, d) =>
      let permanent := is_invalid_webhook e in
      match finalizeFailure c2 (qw_EventID job) permanent e d with
      | (Err e', d) => (FinalizeFailed e', d)
      | (Ok _, d) => (ProcessingFailed e permanent, d)
      end
  end.

(** The calls of one iteration, and the rows other transactions hold then. *)
Record iteration := {
  it_claim : call;
  it_locked : list event_key;
  it_process : call;
  it_finalize : call;
}.

(** [processBatch]: the loop ends on an error of the claim, on an empty queue,
    or after [BatchSize] jobs. *)
Fixpoint batch_loop (owner : string) (n : nat) (its : nat -> iteration) (index : nat)
    (d : BillingDB) : list job_report * BillingDB :=
  match n with
  | O => ([], d)
  | S n' =>
      let it := its index in
      match claim (it_claim it) owner (it_locked it) d with
      | (Err _, d) => ([], d)
      | (Ok None, d) => ([], d)
      | (Ok (Some job), d) =>
          let '(report, d) := processOne (it_process it) (it_finalize it) job d in
          let '(reports, d) := batch_loop owner n' its (S index) d in
          (report :: reports, d)
      end
  end.

Definition processBatch (owner : string) (its : nat -> iteration) (d : BillingDB)
    : list job_report * BillingDB :=
  batch_loop owner (Z.to_nat (BatchSize cfg)) its 0 d.

(** The guard of [Run]. *)
Definition worker_runs : bool :=
  (0 <? PollInterval cfg) && (0 <? JobTimeout cfg) && (0 <? LeaseDuration cfg)
  && (0 <? BatchSize cfg) && (0 <? MaxAttempts cfg).

(** * Checkout and portal *)

(** The [where] of [CreateCheckout]. *)
Definition subscribed (now : time) (user : string) (r : subscription_row) : bool :=
  bool_decide (sr_UserID r = user) && bool_decide (sr_Provider r = providerName s)
  && bool_decide (is_Some (sr_SubscriptionID r))
  && (bool_decide (sr_Status r ∈ ["trialing"; "active"; "past_due"])
      || (bool_decide (sr_Status r = "canceled")
          && match sr_AccessUntil r with Some t => now <? t | None => false end)).

(** [CreateCheckout] after the account is known: whether the provider is asked
    for a session. *)
Definition checkout_allowed (c : call) (user : string) (d : BillingDB) : result billing_error unit :=
  let! alreadySubscribed :=
    exec c BExistingSubscription (Ok (existsb (subscribed (c_tx_now c) user) (subscriptions d))) in
  fail_if alreadySubscribed with AlreadySubscribed else Ok tt.

(** [CustomerPortal]: the latest subscription of the user. *)
Definition portal_candidates (user : string) (d : BillingDB) : list subscription_row :=
  List.filter (fun r => bool_decide (sr_UserID r = user) && bool_decide (sr_Provider r = providerName s)
                        && bool_decide (is_Some (sr_SubscriptionID r))) (subscriptions d).

Definition portal_subscription (c : call) (user : string) (d : BillingDB)
    : result billing_error string :=
  match exec c BLatestSubscription
          (of_option NoRows
             (best (fun a b => sr_UpdatedAt a <? sr_UpdatedAt b) (portal_candidates user d)
              ≫= sr_SubscriptionID)) with
  | Err (StatementFailed _ NoRows) => Err SubscriptionMissing
  | r => r
  end.
End queue.
