(* ===== verification/BillingSamples.v ===== *)
(** Concrete webhooks for the examples and the witnesses of the billing files: a
    codec for a few payloads, a service, a worker and a database with one
    user. *)
From S2P Require Import Prelude GoLists GoBase Dates Webhook BillingDB Billing BillingQueue.
Local Open Scope Z_scope.

#[export] Instance json_value_eq_dec : EqDecision json_value.
Proof. solve_decision. Defined.
#[export] Instance attributes_eq_dec : EqDecision productionWebhookAttributes.
Proof. solve_decision. Defined.
#[export] Instance envelope_eq_dec : EqDecision productionWebhookEnvelope.
Proof. solve_decision. Defined.

Definition sample_user : string := "5f31c2a6-4c51-4e25-8d81-9550134b637b".

(** Times are written as their seconds. *)
Fixpoint decimal (acc : Z) (l : list ascii) : option Z :=
  match l with
  | [] => Some acc
  | c :: l' => d ← digit_value c; decimal (10 * acc + d) l'
  end.

Definition sample_time (value : string) : option time :=
  if is_empty value then None else z ← decimal 0 (bytes_of value); Some (z * second).

Definition sample_custom : gmap string json_value :=
  {["user_id" := JString (sample_user +:+ " "); "email" := JString "private@example.com"]}.

Definition order_created : productionWebhookEnvelope :=
  {| we_EventName := "order_created"; we_CustomData := sample_custom;
     we_Type := "orders"; we_ID := "100";
     we_Attributes :=
       {| wa_StoreID := 11; wa_CustomerID := 22; wa_OrderID := 0; wa_SubscriptionID := 0;
          wa_VariantID := 0; wa_Status := "paid"; wa_Cancelled := false;
          wa_RenewsAt := EmptyString; wa_EndsAt := EmptyString; wa_CreatedAt := "1000";
          wa_UpdatedAt := EmptyString; wa_TestMode := false; wa_FirstOrderItemVariantID := 33 |} |}.

(** A subscription of the given event, variant, status and time. *)
Definition subscription_event (name : string) (custom : gmap string json_value) (variant : Z)
    (status updated : string) : productionWebhookEnvelope :=
  {| we_EventName := name; we_CustomData := custom; we_Type := "subscriptions"; we_ID := "9001";
     we_Attributes :=
       {| wa_StoreID := 11; wa_CustomerID := 22; wa_OrderID := 100; wa_SubscriptionID := 0;
          wa_VariantID := variant; wa_Status := status; wa_Cancelled := false;
          wa_RenewsAt := "2600"; wa_EndsAt := EmptyString; wa_CreatedAt := "1000";
          wa_UpdatedAt := updated; wa_TestMode := false; wa_FirstOrderItemVariantID := 0 |} |}.

Definition subscription_created : productionWebhookEnvelope :=
  subscription_event "subscription_created" sample_custom 33 "active" "1010".
Definition subscription_moved : productionWebhookEnvelope :=
  subscription_event "subscription_updated" ∅ 44 "active" "1500".

Definition payment_failed : productionWebhookEnvelope :=
  {| we_EventName := "subscription_payment_failed"; we_CustomData := ∅;
     we_Type := "subscription-invoices"; we_ID := "inv-1";
     we_Attributes :=
       {| wa_StoreID := 11; wa_CustomerID := 22; wa_OrderID := 0; wa_SubscriptionID := 9001;
          wa_VariantID := 0; wa_Status := "pending"; wa_Cancelled := false;
          wa_RenewsAt := EmptyString; wa_EndsAt := EmptyString; wa_CreatedAt := EmptyString;
          wa_UpdatedAt := EmptyString; wa_TestMode := false; wa_FirstOrderItemVariantID := 0 |} |}.

Definition sample_payloads : list (string * productionWebhookEnvelope) :=
  [("order", order_created); ("created", subscription_created);
   ("moved", subscription_moved); ("payment", payment_failed)].

(** What the payloads are stored as. *)
Definition stored_payloads : list (string * productionWebhookEnvelope) :=
  (empty_payload, zero_envelope)
  :: map (fun '(t, e) => (t +:+ "!", sanitize_envelope e)) sample_payloads.

#[export] Instance sample_encoding : WebhookEncoding := {|
  decode_envelope raw :=
    '(_, e) ← List.find (fun '(t, _) => bool_decide (t = raw)) (sample_payloads ++ stored_payloads);
    Some (e, EmptyString);
  decode_lemon _ := None;
  decode_eof := is_empty;
  marshal_envelope e :=
    fst <$> List.find (fun '(_, e') => bool_decide (e' = e)) stored_payloads;
  jsonb_text t := Some t;
  parse_rfc3339 := sample_time;
  uuid_text u := Some u;
|}.

#[export] Instance sample_unicode : Unicode := plain_unicode.

(** 32 bytes: the text, padded. *)
#[export] Instance sample_sha256 : Sha256 :=
  fun s => of_bytes (take 32 (bytes_of s ++ replicate 32 "0"%char)).

Definition sample_service : Service :=
  {| providerName := lemonSqueezyProvider; storeID := "11"; variantID := "33";
     expectedTestMode := false; pastDueGracePeriod := 100 * second |}.

Definition sample_worker : WebhookWorkerConfig :=
  {| PollInterval := second; JobTimeout := 10 * second; LeaseDuration := 60 * second;
     BaseRetryDelay := 5 * second; MaxRetryDelay := 900 * second; BatchSize := 10; MaxAttempts := 3 |}.

Definition sample_db : BillingDB :=
  {| app_users := {[ sample_user ]}; webhook_events := ∅; billing_orders := ∅;
     subscriptions := []; outbox := ∅ |}.

(** A call at an instant without failures, and one whose step [st] ends as
    given. *)
Definition quiet (now : time) : call :=
  {| c_now := now; c_tx_now := now; c_outcome := fun _ => Done |}.

Definition failing (now : time) (failed : billing_step -> bool) (o : outcome) : call :=
  {| c_now := now; c_tx_now := now; c_outcome := fun st => if failed st then o else Done |}.

Definition at_commit (st : billing_step) : bool := match st with BCommit => true | _ => false end.

Lemma sample_decode_empty : exists rest, decode_envelope empty_payload = Some (zero_envelope, rest).
Proof. exists EmptyString. vm_compute. reflexivity. Qed.

(** The laws the theorems take from the encoding and from SHA-256 hold of the
    samples. *)
Lemma sample_sha256_length t : str_len (sha256 t) = 32.
Proof.
  unfold str_len, sha256, sample_sha256. generalize (bytes_of t). intros l.
  assert (forall k, String.length (of_bytes k) = length k) as Hlen.
  { induction k as [|c k IH]; simpl; congruence. }
  rewrite Hlen, length_take, length_app, length_replicate. lia.
Qed.

Definition sample_roundtrip (p : string * productionWebhookEnvelope) : bool :=
  match marshal_envelope (sanitize_envelope (snd p)) with
  | None => false
  | Some t =>
      match jsonb_text t with
      | None => false
      | Some u =>
          match decode_envelope u with
          | Some (e, _) => bool_decide (e = sanitize_envelope (snd p))
          | None => false
          end
      end
  end.

Lemma sample_stored_roundtrip raw env rest t u :
  decode_envelope raw = Some (env, rest) ->
  marshal_envelope (sanitize_envelope env) = Some t -> jsonb_text t = Some u ->
  exists rest', decode_envelope u = Some (sanitize_envelope env, rest').
Proof.
  assert (forallb sample_roundtrip (sample_payloads ++ stored_payloads) = true) as Hall
    by (vm_compute; reflexivity).
  intros Hd Ht Hu.
  assert (exists t0, In (t0, env) (sample_payloads ++ stored_payloads)) as [t0 Hin].
  { unfold decode_envelope, sample_encoding in Hd.
    destruct (List.find _ _) as [[t0 e]|] eqn:Hf; [|done]. injection Hd as <- _.
    apply List.find_some in Hf as [Hf _]. eauto. }
  rewrite forallb_forall in Hall. specialize (Hall _ Hin). unfold sample_roundtrip in Hall.
  cbn [snd] in Hall. rewrite Ht, Hu in Hall.
  destruct (decode_envelope u) as [[e rest']|]; [|done]. bool_facts. subst. by exists rest'.
Qed.
