(* ===== verification/BillingSpec.v ===== *)
(** What the processing of a webhook does to the subscriptions: the indexes and
    checks hold, updates are last-write-wins, and provisional access is
    bounded. *)
From S2P Require Import Prelude GoLists GoBase Lww Webhook BillingDB Billing BillingSamples.
Local Open Scope Z_scope.

(** * The unique indexes *)

Section unique.
Context {A : Type} (same : A -> A -> bool).

Lemma unique_by_snoc l x :
  unique_by same l -> (forall y, y ∈ l -> same y x = false) -> unique_by same (l ++ [x]).
Proof.
  unfold unique_by. induction 1 as [|y l Hy Hl IH]; simpl; intros Hx.
  { constructor; constructor. }
  constructor; [|apply IH; intros z Hz; apply Hx; by right].
  apply List.Forall_app. split; [done|]. constructor; [|constructor]. apply Hx. by left.
Qed.

Lemma unique_by_filter p l : unique_by same l -> unique_by same (List.filter p l).
Proof.
  unfold unique_by. induction 1 as [|y l Hy Hl IH]; simpl; [constructor|].
  destruct (p y); [|done]. constructor; [|done].
  rewrite List.Forall_forall in *. intros z [Hz _]%List.filter_In. auto.
Qed.

Lemma unique_by_map f l :
  (forall x y, x ∈ l -> y ∈ l -> same x y = false -> same (f x) (f y) = false) ->
  unique_by same l -> unique_by same (map f l).
Proof.
  unfold unique_by. intros Hf Hu. induction Hu as [|y l Hy Hl IH]; simpl; [constructor|].
  constructor.
  - rewrite List.Forall_forall in *. intros z (x & <- & Hx)%List.in_map_iff.
    apply Hf; [by left|right; by apply list_elem_of_In|auto].
  - apply IH. intros x z Hx Hz. apply Hf; by right.
Qed.

(** Two rows of a symmetric index. *)
Lemma unique_by_pair l x y :
  (forall a b, same a b = same b a) -> unique_by same l ->
  x ∈ l -> y ∈ l -> x <> y -> same x y = false.
Proof.
  unfold unique_by. intros Hsym Hu. induction Hu as [|z l Hz Hl IH]; intros Hx Hy Hne.
  { by apply elem_of_nil in Hx. }
  rewrite List.Forall_forall in Hz. apply elem_of_cons in Hx, Hy.
  destruct Hx as [->|Hx], Hy as [->|Hy]; [done| | |auto].
  - by apply Hz, list_elem_of_In.
  - rewrite Hsym. by apply Hz, list_elem_of_In.
Qed.
End unique.

Lemma existsb_false_elem {A} (p : A -> bool) l :
  existsb p l = false <-> forall x, x ∈ l -> p x = false.
Proof.
  induction l as [|x l IH]; simpl.
  { split; [|done]. intros _ x Hx. by apply elem_of_nil in Hx. }
  rewrite orb_false_iff, IH. split.
  - intros [Hx Hl] y [->|Hy]%elem_of_cons; auto.
  - intros Hl. split; [apply Hl; by left|]. intros y Hy. apply Hl. by right.
Qed.

Lemma same_subscription_true r1 r2 :
  same_subscription r1 r2 = true <->
  is_Some (sr_SubscriptionID r1) /\ sr_Provider r1 = sr_Provider r2 /\
  sr_SubscriptionID r1 = sr_SubscriptionID r2.
Proof. unfold same_subscription. rewrite !andb_true_iff, !bool_decide_eq_true. tauto. Qed.

Lemma same_order_true r1 r2 :
  same_order r1 r2 = true <->
  is_Some (sr_OrderID r1) /\ sr_Provider r1 = sr_Provider r2 /\ sr_OrderID r1 = sr_OrderID r2.
Proof. unfold same_order. rewrite !andb_true_iff, !bool_decide_eq_true. tauto. Qed.

Lemma same_subscription_sym r1 r2 : same_subscription r1 r2 = same_subscription r2 r1.
Proof. apply eq_true_iff_eq. rewrite !same_subscription_true. intuition congruence. Qed.

Lemma same_order_sym r1 r2 : same_order r1 r2 = same_order r2 r1.
Proof. apply eq_true_iff_eq. rewrite !same_order_true. intuition congruence. Qed.

(** [same_subscription] and [same_order] depend on their columns only. *)
Lemma same_subscription_cols r1 r2 q1 q2 :
  sr_Provider r1 = sr_Provider q1 -> sr_SubscriptionID r1 = sr_SubscriptionID q1 ->
  sr_Provider r2 = sr_Provider q2 -> sr_SubscriptionID r2 = sr_SubscriptionID q2 ->
  same_subscription r1 r2 = same_subscription q1 q2.
Proof. unfold same_subscription. by intros -> -> -> ->. Qed.

Lemma same_order_cols r1 r2 q1 q2 :
  sr_Provider r1 = sr_Provider q1 -> sr_OrderID r1 = sr_OrderID q1 ->
  sr_Provider r2 = sr_Provider q2 -> sr_OrderID r2 = sr_OrderID q2 ->
  same_order r1 r2 = same_order q1 q2.
Proof. unfold same_order. by intros -> -> -> ->. Qed.

(** * The statements keep the table well formed *)

Lemma insert_row_wf r l l' :
  insert_row r l = Ok l' -> subscriptions_wf l -> subscriptions_wf l' /\ l' = l ++ [r].
Proof.
  unfold insert_row. destruct (_ && _) eqn:Hb; [|done]. intros [= <-] (Hs & Ho & Hc).
  bool_facts. rewrite !existsb_false_elem in *. split; [|done].
  split_and!.
  - apply unique_by_snoc; [done|]. intros y Hy. rewrite same_subscription_sym. auto.
  - apply unique_by_snoc; [done|]. intros y Hy. rewrite same_order_sym. auto.
  - apply Forall_app. split; [done|]. by constructor.
Qed.

Lemma delete_where_wf p l : subscriptions_wf l -> subscriptions_wf (delete_where p l).
Proof.
  intros (Hs & Ho & Hc). unfold delete_where. split_and!; [by apply unique_by_filter..|].
  rewrite Forall_forall in *. intros x Hx%list_elem_of_In. apply List.filter_In in Hx as [Hx _].
  by apply Hc, list_elem_of_In.
Qed.

Lemma update_where_wf p f l l' :
  (forall r, sr_Provider (f r) = sr_Provider r /\ sr_SubscriptionID (f r) = sr_SubscriptionID r /\
             sr_OrderID (f r) = sr_OrderID r) ->
  update_where p f l = Ok l' -> subscriptions_wf l -> subscriptions_wf l'.
Proof.
  unfold update_where. intros Hf. destruct (forallb _ _) eqn:Hb; [|done]. intros [= <-] (Hs & Ho & Hc).
  assert (forall r, exists q, q = (if p r then f r else r) /\ sr_Provider q = sr_Provider r /\
    sr_SubscriptionID q = sr_SubscriptionID r /\ sr_OrderID q = sr_OrderID r) as Hg.
  { intros r. eexists. split; [done|]. destruct (p r); [apply Hf|done]. }
  split_and!.
  - apply unique_by_map; [|done]. intros x y _ _ <-.
    destruct (Hg x) as (? & <- & ? & ? & ?), (Hg y) as (? & <- & ? & ? & ?).
    by apply same_subscription_cols.
  - apply unique_by_map; [|done]. intros x y _ _ <-.
    destruct (Hg x) as (? & <- & ? & ? & ?), (Hg y) as (? & <- & ? & ? & ?).
    by apply same_order_cols.
  - rewrite forallb_forall in Hb. rewrite Forall_forall in *.
    intros q (r & -> & Hr)%list_elem_of_fmap. destruct (p r) eqn:Hp; [|auto].
    apply Hb, List.in_map_iff. exists r. split; [done|]. apply List.filter_In.
    split; [by apply list_elem_of_In|done].
Qed.

(** The upsert of a merge that keeps the identity of the row. *)
Lemma upsert_where_wf allowed merge x l l' n :
  (forall cur, sr_Provider (merge cur x) = sr_Provider cur /\
               sr_SubscriptionID (merge cur x) = sr_SubscriptionID cur) ->
  upsert_where allowed merge x l = Ok (l', n) -> subscriptions_wf l -> subscriptions_wf l'.
Proof.
  intros Hm. unfold upsert_where. destruct (negb _); [done|].
  destruct (List.filter _ _) as [|cur rest] eqn:Hfil.
  { intros Hi Hw. inv_ok. by eapply insert_row_wf. }
  assert (In cur (List.filter (same_subscription x) l)) as Hcur by (rewrite Hfil; by left).
  apply List.filter_In in Hcur as [Hin Hsame%same_subscription_true].
  destruct (allowed _ _); [|by intros [= <- <-]].
  destruct (_ && _) eqn:Hb; [|done]. intros [= <- <-] (Hs & Ho & Hc). bool_facts.
  set (r := merge cur x) in *. destruct (Hm cur) as [Hrp Hrs]. fold r in Hrp, Hrs.
  destruct Hsame as (Hx & Hxp & Hxs).
  match goal with X : existsb _ l = false |- _ => rewrite existsb_false_elem in X; rename X into Hother end.
  assert (forall o, same_subscription x o = true ->
    sr_Provider r = sr_Provider o /\ sr_SubscriptionID r = sr_SubscriptionID o) as Hr.
  { intros o (_ & ? & ?)%same_subscription_true. split; congruence. }
  split_and!.
  - apply unique_by_map; [|done]. intros a b _ _ <-.
    destruct (same_subscription x a) eqn:Ha, (same_subscription x b) eqn:Hb';
      try destruct (Hr a Ha); try destruct (Hr b Hb'); by apply same_subscription_cols.
  - assert (forall o, o ∈ l -> same_subscription x o = false -> same_order r o = false) as Hro.
    { intros o Ho' Hxo. specialize (Hother o Ho'). by rewrite Hxo in Hother. }
    assert (unique_by (fun a b => same_order a b || same_subscription a b) l) as Hboth.
    { clear -Hs Ho. unfold unique_by in *. induction Hs as [|y l Hy Hl IH]; [constructor|].
      inversion Ho; subst. constructor; [|auto]. rewrite List.Forall_forall in *.
      intros z Hz. apply orb_false_iff. auto. }
    cut (unique_by same_order (map (fun o => if same_subscription x o then r else o) l)); [done|].
    clear -Hboth Hro. unfold unique_by in *. induction Hboth as [|y l Hy Hl IH]; simpl; [constructor|].
    constructor.
    + rewrite List.Forall_forall in *. intros z (o & <- & Hz)%List.in_map_iff.
      specialize (Hy o Hz). apply orb_false_iff in Hy as [Hyo Hys].
      assert (y ∈ y :: l /\ o ∈ y :: l) as [Hy' Ho'].
      { split; [by left|right; by apply list_elem_of_In]. }
      destruct (same_subscription x y) eqn:Hxy, (same_subscription x o) eqn:Hxo; [| | |done].
      * apply same_subscription_true in Hxy, Hxo. exfalso.
        assert (same_subscription y o = true) as Hyo'.
        { apply same_subscription_true. destruct Hxy as (? & ? & Hxy), Hxo as (? & ? & ?).
          rewrite <- Hxy. split_and!; [done|congruence|congruence]. }
        congruence.
      * by apply Hro.
      * rewrite same_order_sym. by apply Hro.
    + apply IH. intros o Ho'. apply Hro. by right.
  - rewrite Forall_forall in *. intros q (o & -> & Hq)%list_elem_of_fmap. case_if; auto.
Qed.

(** * The abstract state of a subscription *)

(** What a payload says of a subscription. *)
Record subscription_state := {
  ss_Plan : string;
  ss_Status : string;
  ss_VariantID : option string;
  ss_ProviderStatus : option string;
  ss_PeriodEnd : option time;
  ss_CancelAtPeriodEnd : bool;
  ss_AccessUntil : option time;
}.

Definition state_of (r : subscription_row) : subscription_state :=
  {| ss_Plan := sr_PlanCode r; ss_Status := sr_Status r; ss_VariantID := sr_VariantID r;
     ss_ProviderStatus := sr_ProviderStatus r; ss_PeriodEnd := sr_PeriodEnd r;
     ss_CancelAtPeriodEnd := sr_CancelAtPeriodEnd r; ss_AccessUntil := sr_AccessUntil r |}.

Section billing_spec.
Context `{Unicode, WebhookEncoding, EventConstraints}.
Variable s : Service.

Definition find_subscription (d : BillingDB) (id : string) : option subscription_row :=
  List.find (has_subscription (providerName s) id) (subscriptions d).

(** The newest state the provider has reported, with its time. *)
Definition subscription_register (d : BillingDB) (id : string) : option (time * subscription_state) :=
  r ← find_subscription d id; t ← sr_ProviderUpdatedAt r; Some (t, state_of r).

(** What an event reports. *)
Definition reported (c : call) (envelope : productionWebhookEnvelope)
    : option (time * subscription_state) :=
  let attributes := we_Attributes envelope in
  let t := subscription_time c attributes in
  match production_access s attributes t with
  | Ok (plan, status, until) =>
      Some (pg_time t, state_of (subscription_values s c EmptyString envelope t EmptyString plan status until))
  | Err _ => None
  end.

Lemma exec_ok {A} c st (r : result db_failure A) a :
  exec c st r = Ok a <-> c_outcome c st = Done /\ r = Ok a.
Proof.
  unfold exec. destruct (c_outcome c st).
  - rewrite rmap_err_ok. tauto.
  - split; [done|by intros [? _]].
  - split; [done|by intros [? _]].
Qed.

Lemma has_subscription_true p id r :
  has_subscription p id r = true <-> sr_Provider r = p /\ sr_SubscriptionID r = Some id.
Proof. unfold has_subscription. by rewrite andb_true_iff, !bool_decide_eq_true. Qed.

Lemma has_order_true p id r :
  has_order p id r = true <-> sr_Provider r = p /\ sr_OrderID r = Some id.
Proof. unfold has_order. by rewrite andb_true_iff, !bool_decide_eq_true. Qed.

(** The conflict target of an upsert. *)
Lemma same_subscription_has x r :
  is_Some (sr_SubscriptionID x) ->
  same_subscription x r = has_subscription (sr_Provider x) (default EmptyString (sr_SubscriptionID x)) r.
Proof.
  intros [id Hid]. apply eq_true_iff_eq. rewrite same_subscription_true, has_subscription_true, Hid.
  simpl. naive_solver.
Qed.

Lemma find_filter {A} (p : A -> bool) l : List.find p l = head (List.filter p l).
Proof. induction l as [|x l IH]; simpl; [done|]. by destruct (p x). Qed.

Lemma find_map_replace {A} (p : A -> bool) (r x : A) l :
  p r = true -> List.find p l = Some x -> List.find p (map (fun o => if p o then r else o) l) = Some r.
Proof.
  intros Hr. induction l as [|y l IH]; simpl; [done|]. destruct (p y) eqn:Hy.
  - intros _. by rewrite Hr.
  - rewrite Hy. auto.
Qed.

Lemma find_app_none {A} (p : A -> bool) l1 l2 :
  List.find p l1 = None -> List.find p (l1 ++ l2) = List.find p l2.
Proof. induction l1 as [|x l1 IH]; simpl; [done|]. by destruct (p x). Qed.

(** What the upsert does to the row it is about. *)
Lemma upsert_row_find x l l' n p id :
  sr_Provider x = p -> sr_SubscriptionID x = Some id ->
  upsert_row (merge_subscription (sr_UpdatedAt x)) x l = Ok (l', n) ->
  (n = 0 <-> exists cur, List.find (has_subscription p id) l = Some cur /\
     not_older (sr_ProviderUpdatedAt cur) (sr_ProviderUpdatedAt x) = false) /\
  (n = 0 -> l' = l) /\
  (n <> 0 -> exists r, List.find (has_subscription p id) l' = Some r /\
     sr_ProviderUpdatedAt r = sr_ProviderUpdatedAt x /\ state_of r = state_of x /\
     sr_UserID r = sr_UserID x /\
     (forall o, has_subscription p id o = false -> (o ∈ l' <-> o ∈ l))).
Proof.
  intros Hp Hid. unfold upsert_row, upsert_where. destruct (negb _); [done|].
  assert (forall r, same_subscription x r = has_subscription p id r) as Hsame.
  { intros r. rewrite same_subscription_has by (by rewrite Hid). by rewrite Hp, Hid. }
  assert (List.filter (same_subscription x) l = List.filter (has_subscription p id) l) as ->.
  { apply List.filter_ext. intros r. apply Hsame. }
  rewrite find_filter. destruct (List.filter (has_subscription p id) l) as [|cur rest] eqn:Hfil; simpl.
  - intros Hi. apply rbind_ok in Hi as (l1 & Hi & [= <- <-]). unfold insert_row in Hi.
    destruct (_ && _); [|done]. injection Hi as <-.
    split_and!; [split; [done|by intros (? & ? & _)]|done|]. intros _. exists x.
    assert (has_subscription p id x = true) as Hx by (by apply has_subscription_true).
    rewrite find_app_none by (by rewrite find_filter, Hfil). simpl. rewrite Hx.
    split_and!; [done..|]. intros o Ho. rewrite elem_of_app, list_elem_of_singleton.
    split; [|by left]. intros [?| ->]; [done|congruence].
  - destruct (not_older _ _) eqn:Hn.
    + destruct (_ && _); [|done]. intros [= <- <-].
      split_and!; [split; [done|intros (? & [= <-] & ?); congruence]|done|]. intros _.
      set (r := merge_subscription _ cur x).
      assert (has_subscription p id cur = true) as Hc.
      { assert (In cur (List.filter (has_subscription p id) l)) as Hin by (rewrite Hfil; by left).
        by apply List.filter_In in Hin as [_ ?]. }
      assert (has_subscription p id r = true) as Hr.
      { apply has_subscription_true in Hc as [? ?]. by apply has_subscription_true. }
      exists r. split_and!; [|done..|].
      * rewrite (List.map_ext _ (fun o => if has_subscription p id o then r else o))
          by (intros o; by rewrite Hsame).
        eapply find_map_replace; [done|]. by rewrite find_filter, Hfil.
      * intros o Ho. rewrite list_elem_of_fmap. split.
        -- intros (o' & -> & Ho'). rewrite Hsame in *. revert Ho. by destruct (has_subscription p id o') eqn:E;
             [rewrite ?E in *; congruence|].
        -- intros Hin. exists o. by rewrite Hsame, Ho.
    + intros [= <- <-]. split_and!; [|done..]. split; [|done]. intros _. by exists cur.
Qed.

(** A row is provisional access to an order: it has no subscription yet. *)
Definition provisional_for (order : string) (r : subscription_row) : Prop :=
  sr_Provider r = providerName s /\ sr_OrderID r = Some order /\ sr_SubscriptionID r = None.

(** The rows an event deletes before its upsert. *)
Definition replaced_by (attributes : productionWebhookAttributes) (r : subscription_row) : Prop :=
  0 < wa_OrderID attributes /\ provisional_for (FormatInt (wa_OrderID attributes)) r.

Lemma remove_provisional_elem o d r :
  r ∈ subscriptions (remove_provisional s o d) <-> r ∈ subscriptions d /\ ~ provisional_for o r.
Proof.
  unfold remove_provisional, delete_where, provisional_for. simpl.
  rewrite !list_elem_of_In, List.filter_In, negb_true_iff, andb_false_iff, bool_decide_eq_false.
  destruct (has_order (providerName s) o r) eqn:Ho.
  - apply has_order_true in Ho. intuition congruence.
  - assert (~ (sr_Provider r = providerName s /\ sr_OrderID r = Some o)) as Hn.
    { intros Hh%has_order_true. congruence. }
    tauto.
Qed.

Lemma find_subscription_elem d id r :
  find_subscription d id = Some r ->
  r ∈ subscriptions d /\ sr_Provider r = providerName s /\ sr_SubscriptionID r = Some id.
Proof.
  intros [Hin Hh]%List.find_some. apply has_subscription_true in Hh. by rewrite list_elem_of_In.
Qed.

Lemma find_filter_keep {A} (p q : A -> bool) l :
  (forall x, p x = true -> q x = true) -> List.find p (List.filter q l) = List.find p l.
Proof.
  intros Hpq. induction l as [|x l IH]; simpl; [done|].
  destruct (q x) eqn:Hq; simpl; [by rewrite IH|]. destruct (p x) eqn:Hp; [|done].
  rewrite Hpq in Hq by done. done.
Qed.

(** Removing provisional access does not touch subscriptions. *)
Lemma remove_provisional_find o d id :
  find_subscription (remove_provisional s o d) id = find_subscription d id.
Proof.
  unfold find_subscription, remove_provisional, delete_where. simpl.
  apply find_filter_keep. intros r [_ Hr]%has_subscription_true.
  apply negb_true_iff, andb_false_iff. right. apply bool_decide_eq_false. congruence.
Qed.

(** The steps of [processProductionSubscription]. *)
Lemma subscription_steps c env d st d' :
  processProductionSubscription s c env d = Ok (st, d') ->
  exists userID user plan status until orderID d1 l n,
    resolveProductionWebhookUser s c d env = Ok userID /\
    user_reference d1 userID = Ok user /\
    production_access s (we_Attributes env) (subscription_time c (we_Attributes env))
      = Ok (plan, status, until) /\
    (0 < wa_OrderID (we_Attributes env) /\ orderID = FormatInt (wa_OrderID (we_Attributes env)) /\
       d1 = remove_provisional s orderID d \/
     wa_OrderID (we_Attributes env) <= 0 /\ orderID = EmptyString /\ d1 = d) /\
    upsert_row (merge_subscription (c_tx_now c))
      (subscription_values s c user env (subscription_time c (we_Attributes env)) orderID plan status until)
      (subscriptions d1) = Ok (l, n) /\
    d' = set_subscriptions l d1 /\ st = (if n =? 0 then Ignored else Processed).
Proof.
  unfold processProductionSubscription. intros Hp.
  apply rbind_ok in Hp as (userID & Hu & Hp). apply rbind_ok in Hp as ([[plan status] until] & Ha & Hp).
  apply rbind_ok in Hp as ([orderID d1] & Ho & Hp). apply rbind_ok in Hp as ([l n] & Hx & Hp).
  apply exec_ok in Hx as [_ Hx]. apply rbind_ok in Hx as (user & Hur & Hx).
  exists userID, user, plan, status, until, orderID, d1, l, n. split_and!; try done.
  - destruct (Z.ltb_spec 0 (wa_OrderID (we_Attributes env))).
    + left. apply rbind_ok in Ho as (d2 & Hd2 & Ho). apply exec_ok in Hd2 as [_ Hd2]. by inv_ok.
    + right. by inv_ok.
  - revert Hp. case_if; intros Hp; by inv_ok.
  - revert Hp. case_if; intros Hp; by inv_ok.
Qed.

(** Another variant than the configured one is never Pro. *)
Lemma production_access_plan attributes t plan status until :
  production_access s attributes t = Ok (plan, status, until) ->
  if bool_decide (FormatInt (wa_VariantID attributes) = variantID s)
  then plan = "pro" /\ resolveProductionAccess attributes t (pastDueGracePeriod s) = Ok (status, until)
  else plan = "free" /\ status = "expired" /\ until = Some t.
Proof.
  unfold production_access. intros Hp. apply rbind_ok in Hp as ([st u] & Hr & Hp).
  destruct (bool_decide _); simpl in Hp; by inv_ok.
Qed.

(** A last-write-wins write. *)
Lemma subscription_write c env d st d' :
  processProductionSubscription s c env d = Ok (st, d') ->
  subscription_register d' (we_ID env) = lww (subscription_register d (we_ID env)) (reported c env) /\
  (st = Ignored /\ (exists cur, find_subscription d (we_ID env) = Some cur /\
      not_older (sr_ProviderUpdatedAt cur)
        (Some (pg_time (subscription_time c (we_Attributes env)))) = false) \/
   st = Processed /\ (exists r, find_subscription d' (we_ID env) = Some r /\
      Some (default 0 (sr_ProviderUpdatedAt r), state_of r) = reported c env)).
Proof.
  intros (userID & user & plan & status & until & orderID & d1 & l & n & _ & _ & Ha & Ho & Hx & -> & ->)%subscription_steps.
  assert (find_subscription d1 (we_ID env) = find_subscription d (we_ID env)) as Hfind.
  { destruct Ho as [(_ & _ & ->)|(_ & _ & ->)]; [apply remove_provisional_find|done]. }
  set (v := subscription_values _ _ _ _ _ _ _ _ _) in Hx.
  assert (reported c env = Some (pg_time (subscription_time c (we_Attributes env)), state_of v)) as Hrep.
  { unfold reported. by rewrite Ha. }
  apply (upsert_row_find v _ _ _ (providerName s) (we_ID env)) in Hx as (Hz & Hsame & Hnew); [|done..].
  rewrite Hrep. unfold subscription_register in *. rewrite <- Hfind.
  destruct (decide (n = 0)) as [Hn|Hn].
  - specialize (Hsame Hn). subst l. destruct (proj1 Hz Hn) as (cur & Hcur & Hold). rewrite Hn.
    unfold find_subscription in *. simpl. rewrite Hcur. simpl. split; [|left; eauto].
    destruct (sr_ProviderUpdatedAt cur) as [t|] eqn:Ht; [|done]. simpl in *. by rewrite Hold.
  - destruct (Hnew Hn) as (r & Hr & Hrt & Hrs & _). rewrite (proj2 (Z.eqb_neq n 0)) by done.
    unfold find_subscription in *. simpl. rewrite Hr. simpl. rewrite Hrt, Hrs. simpl.
    split; [|right; split; [done|]; exists r; by rewrite Hrt, Hrs].
    destruct (List.find _ (subscriptions d1)) as [cur|] eqn:Hcur; [|done]. simpl.
    destruct (sr_ProviderUpdatedAt cur) as [t|] eqn:Ht; [|done]. simpl.
    case_if; [done|]. exfalso. apply Hn, Hz. exists cur. rewrite Ht. done.
Qed.

(** The rows of other subscriptions. *)
Lemma subscription_frame c env d st d' o :
  processProductionSubscription s c env d = Ok (st, d') ->
  has_subscription (providerName s) (we_ID env) o = false ->
  (o ∈ subscriptions d' <-> o ∈ subscriptions d /\ ~ replaced_by (we_Attributes env) o).
Proof.
  intros (userID & user & plan & status & until & orderID & d1 & l & n & _ & _ & Ha & Ho & Hx & -> & ->)%subscription_steps Hno.
  set (v := subscription_values _ _ _ _ _ _ _ _ _) in Hx.
  apply (upsert_row_find v _ _ _ (providerName s) (we_ID env)) in Hx as (Hz & Hsame & Hnew); [|done..].
  assert (o ∈ l <-> o ∈ subscriptions d1) as Hl.
  { destruct (decide (n = 0)) as [Hn|Hn]; [by rewrite (Hsame Hn)|].
    destruct (Hnew Hn) as (r & _ & _ & _ & _ & Hfr). by apply Hfr. }
  simpl. rewrite Hl. unfold replaced_by.
  destruct Ho as [(Hpos & -> & ->)|(Hneg & _ & ->)].
  - rewrite remove_provisional_elem. tauto.
  - split; [|tauto]. intros Hin. split; [done|]. intros [? _]. lia.
Qed.

(** C4. Processing a subscription event refines a last-write-wins write of the
    state the provider reports, ties going to the event; the event is ignored
    exactly when the stored state is newer.  Another variant than the configured
    one leaves no Pro plan.  No other row changes, except that provisional
    access to the same order is removed. *)
Theorem processProductionSubscription_refines c env d st d' :
  processProductionSubscription s c env d = Ok (st, d') ->
  subscription_register d' (we_ID env) = lww (subscription_register d (we_ID env)) (reported c env) /\
  (st = Ignored <-> exists t u, subscription_register d (we_ID env) = Some (t, u) /\
     pg_time (subscription_time c (we_Attributes env)) < t) /\
  (st = Processed -> exists r, find_subscription d' (we_ID env) = Some r /\
     (FormatInt (wa_VariantID (we_Attributes env)) <> variantID s ->
      sr_PlanCode r = "free" /\ sr_Status r = "expired")) /\
  (forall o, has_subscription (providerName s) (we_ID env) o = false ->
     (o ∈ subscriptions d' <-> o ∈ subscriptions d /\ ~ replaced_by (we_Attributes env) o)).
Proof.
  intros Hp. destruct (subscription_write c env d st d' Hp) as [Hreg Hst].
  split_and!; [done| | |intros o; by apply (subscription_frame c env d st)].
  - unfold subscription_register. split.
    + intros ->. destruct Hst as [[_ (cur & Hcur & Hold)]|[? _]]; [|done]. rewrite Hcur. simpl in *.
      destruct (sr_ProviderUpdatedAt cur) as [t|]; [|done]. simpl in *. bool_facts. eauto.
    + intros (t & u & Hr & Hlt). destruct Hst as [[? _]|[-> (r & Hr' & Hrep)]]; [done|]. exfalso.
      unfold subscription_register in Hreg. rewrite Hr, Hr' in Hreg. simpl in Hreg.
      pose proof Hrep as Hrep'. unfold reported in Hrep'.
      destruct (production_access _ _ _) as [[[plan status] until]|]; [|done].
      injection Hrep' as Hrt _. rewrite <- Hrep in Hreg. simpl in Hreg. rewrite Hrt in Hreg.
      rewrite (proj2 (Z.leb_gt _ _)) in Hreg by done.
      destruct (sr_ProviderUpdatedAt r) as [t'|]; simpl in *; [|done]. injection Hreg as ? _. lia.
  - intros ->. destruct Hst as [[? _]|[_ (r & Hr & Hrep)]]; [done|]. exists r. split; [done|].
    intros Hv. unfold reported in Hrep.
    destruct (production_access s _ _) as [[[plan status] until]|] eqn:Ha; [|done].
    apply production_access_plan in Ha. rewrite bool_decide_eq_false_2 in Ha by done.
    injection Hrep as _ Hplan Hstatus _. destruct Ha as (-> & -> & _). done.
Qed.

(** C31. Two events of one subscription that report different times leave the
    same state in either order: a late or repeated delivery cannot undo a newer
    one. *)
Theorem subscription_events_commute c1 c2 e1 e2 d st1 d1 st12 d12 st2 d2 st21 d21 :
  we_ID e1 = we_ID e2 ->
  fst <$> reported c1 e1 <> fst <$> reported c2 e2 ->
  processProductionSubscription s c1 e1 d = Ok (st1, d1) ->
  processProductionSubscription s c2 e2 d1 = Ok (st12, d12) ->
  processProductionSubscription s c2 e2 d = Ok (st2, d2) ->
  processProductionSubscription s c1 e1 d2 = Ok (st21, d21) ->
  subscription_register d12 (we_ID e1) = subscription_register d21 (we_ID e1).
Proof.
  intros He Hne H1'%subscription_write H2'%subscription_write H3'%subscription_write H4'%subscription_write.
  destruct H1' as [H1' _], H2' as [H2' _], H3' as [H3' _], H4' as [H4' _].
  rewrite <- He in H2', H3'. rewrite H2', H4', H1', H3'. apply lww_swap.
  intros t p q Hp Hq. exfalso. apply Hne. by rewrite Hp, Hq.
Qed.

(** * Orders *)

(** What an order adds. *)
Lemma order_steps c id env d st d' :
  processProductionOrder s c id env d = Ok (st, d') ->
  exists userID user,
    resolveProductionWebhookUser s c d env = Ok userID /\ uuid_text userID = Some user /\
    st = Processed /\
    is_Some (billing_orders d' !! (providerName s, we_ID env)) /\
    is_Some (outbox d' !! (providerName s, id, "order_confirmed")) /\
    (existsb (has_order (providerName s) (we_ID env)) (subscriptions d) = true /\
       subscriptions d' = subscriptions d \/
     existsb (has_order (providerName s) (we_ID env)) (subscriptions d) = false /\
       subscriptions d' = subscriptions d
         ++ [provisional_row s (c_tx_now c) user (we_ID env) (we_Attributes env)
               (order_time c (we_Attributes env)) (c_now c + provisionalOrderAccess)]).
Proof.
  unfold processProductionOrder. intros Hp.
  apply rbind_ok in Hp as (userID & Hu & Hp). apply rbind_ok in Hp as (d1 & Ho & Hp).
  apply rbind_ok in Hp as (d2 & Hprov & Hp). apply rbind_ok in Hp as (d3 & Hn & Hp). inv_ok.
  apply exec_ok in Ho as [_ Ho]. apply rbind_ok in Ho as (u1 & _ & Ho).
  apply exec_ok in Hprov as [_ Hprov]. apply rbind_ok in Hprov as (user & Huser & Hprov).
  unfold enqueueProductionNotification in Hn. apply exec_ok in Hn as [_ Hn].
  apply rbind_ok in Hn as (u3 & _ & Hn).
  assert (subscriptions d1 = subscriptions d /\ is_Some (billing_orders d1 !! (providerName s, we_ID env)))
    as [Hs1 Ho1].
  { unfold upsertOrder in Ho. inv_ok. destruct (billing_orders d !! _) as [cur|] eqn:Hcur.
    - destruct (not_older _ _); inv_ok; simpl; [by rewrite lookup_insert_eq|by rewrite Hcur].
    - inv_ok. simpl. by rewrite lookup_insert_eq. }
  assert (subscriptions d' = subscriptions d2 /\ billing_orders d' = billing_orders d2 /\
          is_Some (outbox d' !! (providerName s, id, "order_confirmed"))) as (Hs3 & Ho3 & Hn3).
  { unfold enqueue_notification in Hn. destruct (outbox d2 !! _) eqn:Hk; inv_ok; simpl.
    - by rewrite Hk.
    - by rewrite lookup_insert_eq. }
  exists userID, user. rewrite Hs3, Ho3.
  assert (uuid_text userID = Some user) as Huser'.
  { unfold user_reference in Huser. destruct (uuid_text userID); [|done]. revert Huser.
    case_if; intros Huser; by inv_ok. }
  unfold insert_provisional in Hprov. rewrite Hs1 in Hprov.
  destruct (existsb _ (subscriptions d)) eqn:Hex.
  - inv_ok. rewrite Hs1. split_and!; try done. by left.
  - apply rbind_ok in Hprov as (l & Hl & Hd). inv_ok. simpl. split_and!; try done. right. split; [done|].
    unfold insert_row in Hl. destruct (_ && _); by inv_ok.
Qed.

(** Processing an order leaves every row of the table, and adds at most one:
    Pro access to an order that had no row, for no more than fifteen minutes
    from the clock of the service, and with no subscription.  The order is then
    known, and a confirmation is queued for its buyer. *)
Theorem processProductionOrder_bounded c id env d st d' :
  processProductionOrder s c id env d = Ok (st, d') ->
  st = Processed /\
  (exists r, r ∈ subscriptions d' /\ has_order (providerName s) (we_ID env) r = true) /\
  is_Some (billing_orders d' !! (providerName s, we_ID env)) /\
  is_Some (outbox d' !! (providerName s, id, "order_confirmed")) /\
  (subscriptions d' = subscriptions d \/
   (forall r, r ∈ subscriptions d -> has_order (providerName s) (we_ID env) r = false) /\
   exists p until, subscriptions d' = subscriptions d ++ [p] /\
     provisional_for (we_ID env) p /\ sr_PlanCode p = "pro" /\ sr_Status p = "active" /\
     sr_AccessUntil p = Some until /\ until <= c_now c + 15 * minute).
Proof.
  intros (userID & user & _ & _ & -> & Ho & Hn & Hs)%order_steps. split; [done|].
  destruct Hs as [[Hex ->]|[Hex ->]].
  - split_and!; [|done..|by left].
    apply existsb_exists in Hex as (r & Hr & Hh). exists r. by rewrite list_elem_of_In.
  - set (p := provisional_row _ _ _ _ _ _ _). split_and!; [|done..|].
    + exists p. split; [apply elem_of_app; right; by apply list_elem_of_singleton|].
      by apply has_order_true.
    + right. rewrite existsb_false_elem in Hex. split; [done|].
      exists p, (pg_time (c_now c + provisionalOrderAccess)). split_and!; try done. apply pg_time_le.
Qed.

(** * Payments *)

(** A payment event is processed only for a known subscription and notifies
    its user.  A failed payment makes the subscription past due with access for
    at least the grace period; a recovered one makes it active and never
    shortens its access; a successful one changes no subscription.  Other
    subscriptions are left alone. *)
Theorem processProductionPayment_correct c id env d st d' :
  processProductionPayment s c id env d = Ok (st, d') ->
  let sub := FormatInt (wa_SubscriptionID (we_Attributes env)) in
  let this := has_subscription (providerName s) sub in
  st = Processed /\ is_Some (find_subscription d sub) /\
  (exists f, subscriptions d' = map (fun r => if this r then f r else r) (subscriptions d) /\
     (forall r, sr_PlanCode (f r) = sr_PlanCode r) /\
     (we_EventName env = "subscription_payment_failed" ->
        is_Some (outbox d' !! (providerName s, id, "payment_failed")) /\
        forall r, sr_Status (f r) = "past_due" /\
          exists u, sr_AccessUntil (f r) = Some u /\
            c_tx_now c + postgresInterval (pastDueGracePeriod s) <= u) /\
     (we_EventName env = "subscription_payment_recovered" ->
        is_Some (outbox d' !! (providerName s, id, "payment_recovered")) /\
        forall r, sr_Status (f r) = "active" /\
          exists u, sr_AccessUntil (f r) = Some u /\ c_tx_now c <= u /\
            forall a, sr_AccessUntil r = Some a -> a <= u) /\
     (we_EventName env = "subscription_payment_success" ->
        is_Some (outbox d' !! (providerName s, id, "payment_success")) /\ forall r, f r = r)).
Proof.
  assert (forall c u id ty da da', enqueueProductionNotification s c u id ty da = Ok da' ->
    subscriptions da' = subscriptions da /\ is_Some (outbox da' !! (providerName s, id, ty))) as Hnote.
  { clear. intros c u id ty da da'. unfold enqueueProductionNotification, enqueue_notification.
    intros (_ & (v & _ & Hd)%rbind_ok)%exec_ok. destruct (outbox da !! _) eqn:Hk; inv_ok; simpl.
    - by rewrite Hk.
    - by rewrite lookup_insert_eq. }
  assert (forall f sub da da', update_subscription s f sub da = Ok da' ->
    subscriptions da' = map (fun r => if has_subscription (providerName s) sub r then f r else r) (subscriptions da))
    as Hupd.
  { clear. intros f sub da da'. unfold update_subscription, update_where. intros (l & Hl & Hd)%rbind_ok.
    destruct (forallb _ _); by inv_ok. }
  intros Hp sub this. unfold processProductionPayment in Hp. fold sub in Hp.
  apply rbind_ok in Hp as (userID & Hu & Hp). apply rbind_ok in Hp as (d1 & Hd & Hp). inv_ok.
  split; [done|]. split.
  { unfold find_subscription. rewrite find_filter.
    destruct (exec c BResolvePayment _) as [|[]] eqn:He; try (destruct cause); try done.
    apply exec_ok in He as [_ He]. unfold subscription_user in He.
    destruct (List.filter (has_subscription (providerName s) sub) (subscriptions d)) as [|x l]; [done|].
    by exists x. }
  assert (subscriptions d = map (fun r => if this r then r else r) (subscriptions d)) as Hid.
  { symmetry. etransitivity; [|apply List.map_id]. apply List.map_ext. intros r. by case_if. }
  revert Hd. case_bool_decide as H1'; [|case_bool_decide as H2'; [|case_bool_decide as H3']]; intros Hd.
  - apply rbind_ok in Hd as (d2 & H4' & Hd). apply exec_ok in H4' as [_ H4'].
    apply Hupd in H4'. apply Hnote in Hd as [-> Hd]. exists (past_due_row (c_tx_now c) (postgresInterval (pastDueGracePeriod s))).
    split_and!; [done|done| | |]; try (rewrite H1'; done). intros _. split; [done|]. intros r. split; [done|].
    eexists. split; [reflexivity|]. lia.
  - apply rbind_ok in Hd as (d2 & H4' & Hd). apply exec_ok in H4' as [_ H4'].
    apply Hupd in H4'. apply Hnote in Hd as [-> Hd]. exists (recovered_row (c_tx_now c)).
    split_and!; [done|done| | |]; try (rewrite H2'; done). intros _. split; [done|]. intros r. split; [done|].
    eexists. split; [reflexivity|]. split; [lia|]. intros a Ha. rewrite Ha. simpl. lia.
  - apply Hnote in Hd as [-> Hd]. exists (fun r => r). split_and!; try done; by rewrite H3'.
  - inv_ok. exists (fun r => r). split_and!; done.
Qed.

(** * The tables stay well formed *)

Lemma subscription_wf c env d st d' :
  processProductionSubscription s c env d = Ok (st, d') ->
  subscriptions_wf (subscriptions d) -> subscriptions_wf (subscriptions d').
Proof.
  intros (userID & user & plan & status & until & orderID & d1 & l & n & _ & _ & Ha & Ho & Hx & -> & ->)%subscription_steps Hw.
  simpl. eapply upsert_where_wf; [|exact Hx|].
  - intros cur. by split_and!.
  - destruct Ho as [(_ & _ & ->)|(_ & _ & ->)]; [|done]. by apply delete_where_wf.
Qed.

Lemma process_event_wf c id name env d st d' :
  process_event s c id name env d = Ok (st, d') ->
  subscriptions_wf (subscriptions d) -> subscriptions_wf (subscriptions d').
Proof.
  assert (forall c u id ty da da', enqueueProductionNotification s c u id ty da = Ok da' ->
    subscriptions da' = subscriptions da) as Hnote.
  { clear. intros c u id ty da da'. unfold enqueueProductionNotification, enqueue_notification.
    intros (_ & (v & _ & Hd)%rbind_ok)%exec_ok. destruct (outbox da !! _); by inv_ok. }
  assert (forall f sub da da',
    (forall r, sr_Provider (f r) = sr_Provider r /\ sr_SubscriptionID (f r) = sr_SubscriptionID r /\
               sr_OrderID (f r) = sr_OrderID r) ->
    update_subscription s f sub da = Ok da' ->
    subscriptions_wf (subscriptions da) -> subscriptions_wf (subscriptions da')) as Hupd.
  { clear. intros f sub da da' Hf. unfold update_subscription. intros (l & Hl & Hd)%rbind_ok. inv_ok.
    by eapply update_where_wf. }
  unfold process_event. intros Hp Hw. revert Hp. case_if; [|case_if]; intros Hp.
  - unfold processProductionOrder in Hp.
    apply rbind_ok in Hp as (userID & _ & Hp). apply rbind_ok in Hp as (d1 & Ho & Hp).
    apply rbind_ok in Hp as (d2 & Hprov & Hp). apply rbind_ok in Hp as (d3 & Hn & Hp). inv_ok.
    rewrite (Hnote _ _ _ _ _ _ Hn).
    apply exec_ok in Ho as [_ Ho]. apply rbind_ok in Ho as (u1 & _ & Ho).
    apply exec_ok in Hprov as [_ Hprov]. apply rbind_ok in Hprov as (u2 & _ & Hprov).
    assert (subscriptions d1 = subscriptions d) as Hs1.
    { unfold upsertOrder in Ho. inv_ok. destruct (billing_orders d !! _) as [cur|]; [|by inv_ok].
      destruct (not_older _ _); by inv_ok. }
    unfold insert_provisional in Hprov. rewrite Hs1 in Hprov.
    destruct (existsb _ _); [inv_ok; by rewrite Hs1|].
    apply rbind_ok in Hprov as (l & Hl & Hd). inv_ok. by eapply insert_row_wf.
  - unfold processProductionPayment in Hp.
    apply rbind_ok in Hp as (userID & _ & Hp). apply rbind_ok in Hp as (d1 & Hd & Hp). inv_ok.
    revert Hd. repeat case_if; intros Hd; inv_ok; try done.
    all: repeat match goal with
    | X : exec _ _ _ = Ok _ |- _ => apply exec_ok in X as [_ X]
    | X : enqueueProductionNotification _ _ _ _ _ _ = Ok _ |- _ => apply Hnote in X; rewrite X; clear X
    end; try done; (eapply Hupd; [|eassumption|done]; intros ?; by split_and!).
  - by eapply subscription_wf.
Qed.
End billing_spec.

(** * Witnesses *)

Definition after_event {A} (r : result billing_error (A * BillingDB)) : BillingDB :=
  match r with Ok (_, d) => d | Err _ => sample_db end.

(** The sample database once the subscription exists. *)
Definition sample_created : BillingDB :=
  after_event (processProductionSubscription sample_service (quiet (1020 * second)) subscription_created sample_db).

Definition subscription_cancelled : productionWebhookEnvelope :=
  subscription_event "subscription_cancelled" ∅ 33 "cancelled" "1400".

Lemma processProductionSubscription_refines_witness :
  exists st d',
    processProductionSubscription sample_service (quiet (1600 * second)) subscription_moved sample_created
      = Ok (st, d') /\
    (st = Processed -> exists r, find_subscription sample_service d' "9001" = Some r /\
       (FormatInt 44 <> "33" -> sr_PlanCode r = "free" /\ sr_Status r = "expired")).
Proof.
  destruct (processProductionSubscription sample_service (quiet (1600 * second)) subscription_moved sample_created)
    as [[st d']|e] eqn:E; [|by vm_compute in E].
  exists st, d'. split; [reflexivity|].
  apply (processProductionSubscription_refines sample_service _ _ _ _ _ E).
Defined.

(** The two events in one order and in the other. *)
Definition process_moved (d : BillingDB) : result billing_error (event_status * BillingDB) :=
  processProductionSubscription sample_service (quiet (1600 * second)) subscription_moved d.
Definition process_cancelled (d : BillingDB) : result billing_error (event_status * BillingDB) :=
  processProductionSubscription sample_service (quiet (1700 * second)) subscription_cancelled d.

Lemma subscription_events_commute_witness :
  let moved := after_event (process_moved sample_created) in
  let cancelled := after_event (process_cancelled sample_created) in
  subscription_register sample_service (after_event (process_cancelled moved)) "9001"
  = subscription_register sample_service (after_event (process_moved cancelled)) "9001".
Proof.
  intros moved cancelled.
  assert (process_moved sample_created = Ok (Processed, moved)) as E1 by (vm_compute; reflexivity).
  assert (process_cancelled moved = Ok (Ignored, after_event (process_cancelled moved))) as E2
    by (vm_compute; reflexivity).
  assert (process_cancelled sample_created = Ok (Processed, cancelled)) as E3 by (vm_compute; reflexivity).
  assert (process_moved cancelled = Ok (Processed, after_event (process_moved cancelled))) as E4
    by (vm_compute; reflexivity).
  assert (fst <$> reported sample_service (quiet (1600 * second)) subscription_moved
          <> fst <$> reported sample_service (quiet (1700 * second)) subscription_cancelled) as Hne
    by (vm_compute; discriminate).
  exact (subscription_events_commute sample_service _ _ subscription_moved subscription_cancelled
    _ _ _ _ _ _ _ _ _ eq_refl Hne E1 E2 E3 E4).
Defined.

Lemma processProductionOrder_bounded_witness :
  exists st d',
    processProductionOrder sample_service (quiet (1010 * second)) "sha256:order" order_created sample_db = Ok (st, d') /\
    st = Processed.
Proof.
  destruct (processProductionOrder sample_service (quiet (1010 * second)) "sha256:order" order_created sample_db)
    as [[st d']|e] eqn:E; [|by vm_compute in E].
  exists st, d'. split; [reflexivity|].
  apply (processProductionOrder_bounded sample_service _ _ _ _ _ _ E).
Defined.

Lemma processProductionPayment_correct_witness :
  exists st d',
    processProductionPayment sample_service (quiet (1600 * second)) "sha256:payment" payment_failed sample_created
      = Ok (st, d') /\ st = Processed.
Proof.
  destruct (processProductionPayment sample_service (quiet (1600 * second)) "sha256:payment" payment_failed sample_created)
    as [[st d']|e] eqn:E; [|by vm_compute in E].
  exists st, d'. split; [reflexivity|].
  apply (processProductionPayment_correct sample_service _ _ _ _ _ _ E).
Defined.
