(* ===== verification/BillingQueueSpec.v ===== *)
(** What the calls of the webhook queue do to an event: what each operation leaves of it,
    that processing is one transaction, that retries are bounded, and that what is queued
    is processable. *)
From S2P Require Import Prelude GoLists GoBase Webhook BillingDB Billing BillingQueue BillingSamples BillingSpec.
Local Open Scope Z_scope.

Section events.
Context `{Unicode, WebhookEncoding, EventConstraints, Sha256}.
Variable s : Service.
Variable cfg : WebhookWorkerConfig.

Abbreviation key_of id := (providerName s, id) (only parsing).

(** * What the operations do to the events *)

Lemma autocommit_cases {A} c st d (r : result db_failure (A * BillingDB)) res d' :
  autocommit c st d r = (res, d') ->
  (d' = d /\ is_ok res = false) \/
  exists a, r = Ok (a, d') /\ (res = Ok a \/ is_ok res = false).
Proof.
  unfold autocommit. destruct (c_outcome c st), r as [[a d0]|]; intros [= <- <-]; simpl; eauto 6.
Qed.

(** The three things a delivery can do. *)
Inductive delivered (now : time) (id : string) (m m' : gmap (string * string) event_row) : Prop :=
  | delivered_nothing : m' = m -> delivered now id m m'
  | delivered_new r : m !! key_of id = None -> ev_Attempts r = 0 -> ev_Status r = Pending ->
      m' = <[key_of id := r]> m -> delivered now id m m'
  | delivered_again r : m !! key_of id = Some r ->
      m' = <[key_of id := touched_row now r]> m -> delivered now id m m'.

Lemma EnqueueWebhook_events c raw h d :
  delivered (c_tx_now c) (event_id raw) (webhook_events d)
    (webhook_events (snd (EnqueueWebhook s c raw h d))).
Proof.
  unfold EnqueueWebhook.
  destruct (validateAndSanitizeWebhook raw h) as [[env san]|]; [|by apply delivered_nothing].
  destruct (validateWebhookScope s env); [|by apply delivered_nothing].
  assert (forall a d1, insert_event s (c_tx_now c) raw env san d = Ok (a, d1) ->
    (a = 0 /\ d1 = d) \/ (a = 1 /\ delivered (c_tx_now c) (event_id raw) (webhook_events d) (webhook_events d1)))
    as Hins.
  { unfold insert_event. intros a1 d1 Hi. destruct (jsonb_text san); [|done].
    destruct (negb _); [done|]. destruct (webhook_events d !! _) eqn:Hk; inv_ok.
    { by left. }
    right. split; [done|]. eapply delivered_new; [exact Hk|..|reflexivity]; done. }
  destruct (autocommit c BInsertEvent d _) as [res d1] eqn:E1.
  apply autocommit_cases in E1 as [[-> Hr]|(n & Hn & Hr)].
  { destruct res; [done|]. by apply delivered_nothing. }
  apply Hins in Hn as [[-> ->]|[-> Hd]].
  - destruct Hr as [->|Hr]; [|destruct res; [done|by apply delivered_nothing]]. simpl.
    destruct (autocommit c BTouchDuplicate d _) as [res2 d2] eqn:E2.
    apply autocommit_cases in E2 as [[-> Hr]|(st & Hst & Hr)].
    { destruct res2; [done|]. by apply delivered_nothing. }
    unfold touch_duplicate in Hst. destruct (webhook_events d !! _) as [r|] eqn:Hk; [|done].
    destruct (event_checks _ _); [|done]. inv_ok.
    destruct res2; simpl; by eapply delivered_again.
  - destruct Hr as [->|Hr]; [done|]. by destruct res.
Qed.

(** The business handlers leave the events alone. *)
Ltac inv_exec :=
  repeat (inv_ok; match goal with
  | H : exec _ _ _ = Ok _ |- _ => apply exec_ok in H as [_ H]
  end); inv_ok.

Lemma upsertOrder_events now o x d d' :
  upsertOrder s now o x d = Ok d' -> webhook_events d' = webhook_events d.
Proof. unfold upsertOrder. intros Hu. inv_ok. destruct (_ !! _); revert Hu; simpl; [case_if|]; intros Hu; by inv_ok. Qed.

Lemma insert_provisional_events r o d d' :
  insert_provisional s r o d = Ok d' -> webhook_events d' = webhook_events d.
Proof. unfold insert_provisional. case_if; intros Hi; by inv_ok. Qed.

Lemma notification_events c u id ty d d' :
  enqueueProductionNotification s c u id ty d = Ok d' -> webhook_events d' = webhook_events d.
Proof.
  unfold enqueueProductionNotification, enqueue_notification. intros Hn. inv_exec.
  by destruct (outbox d !! _).
Qed.

Lemma update_subscription_events f sub d d' :
  update_subscription s f sub d = Ok d' -> webhook_events d' = webhook_events d.
Proof. unfold update_subscription. intros Hu. by inv_ok. Qed.

Lemma process_event_events c id name env d st d' :
  process_event s c id name env d = Ok (st, d') ->
  webhook_events d' = webhook_events d /\ (st = Processed \/ st = Ignored).
Proof.
  unfold process_event. case_if; [|case_if].
  - unfold processProductionOrder. intros Hp. inv_exec.
    repeat match goal with
    | X : upsertOrder _ _ _ _ _ = Ok _ |- _ => apply upsertOrder_events in X
    | X : insert_provisional _ _ _ _ = Ok _ |- _ => apply insert_provisional_events in X
    | X : enqueueProductionNotification _ _ _ _ _ _ = Ok _ |- _ => apply notification_events in X
    end. split; [congruence|by left].
  - unfold processProductionPayment. intros Hp.
    apply rbind_ok in Hp as (u & _ & Hp). apply rbind_ok in Hp as (d1 & Hd & Hp). inv_ok.
    split; [|by left]. revert Hd. repeat case_if; intros Hd; inv_exec;
    repeat match goal with
    | X : update_subscription _ _ _ _ = Ok _ |- _ => apply update_subscription_events in X
    | X : enqueueProductionNotification _ _ _ _ _ _ = Ok _ |- _ => apply notification_events in X
    end; congruence.
  - unfold processProductionSubscription. intros Hp.
    apply rbind_ok in Hp as (u & _ & Hp). apply rbind_ok in Hp as ([[pc stt] au] & _ & Hp).
    apply rbind_ok in Hp as ([oid d1] & Hd & Hp). apply rbind_ok in Hp as ([l n] & _ & Hp).
    assert (webhook_events d1 = webhook_events d) as Hd1.
    { revert Hd. case_if; intros Hd; inv_exec; done. }
    revert Hp. case_if; intros Hp; inv_ok; eauto.
Qed.

Definition event_finished (r : event_row) : Prop := ev_Status r = Processed \/ ev_Status r = Ignored.

(** The whole effect of an event: what its processing does to the orders, the
    subscriptions and the notifications, with the status it gives, and the row of the
    event finished with that status. *)
Definition event_effect (c : call) (id raw : string) (d : BillingDB) (st : event_status) (d' : BillingDB) : Prop :=
  exists row env name d1,
    webhook_events d !! key_of id = Some row /\ ~ event_finished row /\
    decode_event s id raw = Ok (env, name) /\ process_event s c id name env d = Ok (st, d1) /\
    d' = set_events (<[key_of id := finished_row (c_tx_now c) st row]> (webhook_events d)) d1.

Lemma process_tx_effect c id raw d r d' :
  process_tx s c id raw d = Ok (r, d') ->
  if wr_Duplicate r
  then d' = d /\ exists row, webhook_events d !! key_of id = Some row /\ event_finished row /\ wr_Status r = status_text (ev_Status row)
  else exists st, (st = Processed \/ st = Ignored) /\ wr_Status r = status_text st /\ event_effect c id raw d st d'.
Proof.
  unfold process_tx. intros Hp.
  apply rbind_ok in Hp as ([env name] & Hdec & Hp). apply rbind_ok in Hp as (? & _ & Hp).
  apply rbind_ok in Hp as (est & Hl & Hp).
  assert (exists row, webhook_events d !! key_of id = Some row /\ ev_Status row = est) as (row & Hr & <-).
  { destruct (exec c BLockEvent _) as [e|[]] eqn:He; try (destruct cause); try done. inv_ok.
    apply exec_ok in He as [_ He]. unfold lock_event in He.
    destruct (webhook_events d !! _) as [row|] eqn:Hr; [|done]. inv_ok. eauto. }
  destruct (_ || _) eqn:Ho.
  - inv_ok. simpl. split; [done|]. exists row. split_and!; [done| |done].
    apply orb_true_iff in Ho as [Ho|Ho]; bool_facts; [by left|by right].
  - apply rbind_ok in Hp as ([st d1] & Hev & Hp). apply rbind_ok in Hp as (d2 & Hf & Hp). inv_ok. bool_facts. simpl.
    pose proof (process_event_events _ _ _ _ _ _ _ Hev) as [Hsame Hst]. exists st. split_and!; [done|done|].
    unfold finishProductionWebhook in Hf. apply exec_ok in Hf as [_ Hf]. unfold update_event in Hf. rewrite Hsame, Hr in Hf.
    destruct (event_checks _ _); [|done]. inv_ok. exists row, env, name, d1. split_and!; try done. unfold event_finished. naive_solver.
Qed.

(** The transaction of an event finishes its row, or finds it finished. *)
Lemma process_tx_events c id raw d res d' :
  process_tx s c id raw d = Ok (res, d') ->
  exists r, webhook_events d !! key_of id = Some r /\
    if wr_Duplicate res then d' = d /\ (ev_Status r = Processed \/ ev_Status r = Ignored)
    else (ev_Status r <> Processed /\ ev_Status r <> Ignored) /\
      exists st, (st = Processed \/ st = Ignored) /\
        webhook_events d' = <[key_of id := finished_row (c_tx_now c) st r]> (webhook_events d).
Proof.
  intros Hp%process_tx_effect. destruct (wr_Duplicate res).
  - destruct Hp as [-> (row & Hrow & Hfin & _)]. by exists row.
  - destruct Hp as (st & Hst & _ & row & env & name & d1 & Hrow & Hfin & _ & _ & ->).
    exists row. unfold event_finished in Hfin. split; [done|]. split; [tauto|]. by exists st.
Qed.

(** Whether a call commits the business changes of an event. *)
Definition commits_effect (c : call) (id raw : string) (d : BillingDB) : bool :=
  match process_tx s c id raw d with
  | Ok (r, _) =>
      negb (wr_Duplicate r) && match c_outcome c BCommit with Refused _ => false | _ => true end
  | Err _ => false
  end.

Lemma ProcessWebhookEvent_events c id raw d res d' :
  ProcessWebhookEvent s c id raw d = (res, d') ->
  if commits_effect c id raw d
  then exists r st, webhook_events d !! key_of id = Some r /\
    ev_Status r <> Processed /\ ev_Status r <> Ignored /\ (st = Processed \/ st = Ignored) /\
    webhook_events d' = <[key_of id := finished_row (c_tx_now c) st r]> (webhook_events d)
  else d' = d.
Proof.
  unfold ProcessWebhookEvent, commits_effect.
  destruct (process_tx s c id raw d) as [[r d1]|] eqn:E; [|by intros [= <- <-]].
  pose proof (process_tx_events _ _ _ _ _ _ E) as (row & Hrow & Hp).
  unfold autocommit. destruct (wr_Duplicate r) eqn:Hd; simpl.
  - destruct Hp as [-> _]. destruct (c_outcome c BCommit); by intros [= _ <-].
  - destruct Hp as [[? ?] (st & ? & ?)].
    destruct (c_outcome c BCommit); intros [= <- <-]; try done; exists row, st; done.
Qed.

Lemma finalizeFailure_events c id perm e d res d' :
  finalizeFailure s cfg c id perm e d = (res, d') ->
  d' = d \/ exists r dead msg delay, webhook_events d !! key_of id = Some r /\
    d' = set_events (<[key_of id := failed_row (c_tx_now c) dead msg delay r]> (webhook_events d)) d.
Proof.
  unfold finalizeFailure. destruct (autocommit c BAttempts d _) as [a d1] eqn:E.
  assert (d1 = d) as ->.
  { apply autocommit_cases in E as [[-> _]|(n & Hn & _)]; [done|].
    unfold current_attempts in Hn. destruct (_ !! _); by inv_ok. }
  destruct a as [n|]; [|intros [= <- <-]; by left].
  intros [[-> _]|(? & Hu & _)]%autocommit_cases; [by left|].
  apply rbind_ok in Hu as (d2 & Hu & Hok). inv_ok. unfold update_event in Hu.
  destruct (webhook_events d !! _) as [r|] eqn:Hr; [|inv_ok; by left].
  destruct (event_checks _ _); [|done]. inv_ok. right. eauto 8.
Qed.

(** C24. A webhook is processed as one transaction.  On success, unless the event had
    been finished before and nothing changes, everything happens: the database is the one
    its processing leaves - orders, subscriptions and notifications included - with the
    row of the event finished: the status that is answered, the payload erased, the other
    events as they were.  On an error nothing at all changes, unless the acknowledgement of
    the commit was lost: then, again, all of it may have happened, never a part. *)
Theorem ProcessWebhookEvent_atomic c id raw d res d' :
  ProcessWebhookEvent s c id raw d = (res, d') ->
  match res with
  | Ok r =>
      if wr_Duplicate r
      then d' = d /\ exists row, webhook_events d !! key_of id = Some row /\ event_finished row /\
             wr_Status r = status_text (ev_Status row)
      else exists st row', wr_Status r = status_text st /\ event_effect c id raw d st d' /\
             webhook_events d' !! key_of id = Some row' /\ ev_Status row' = st /\ event_finished row' /\
             ev_Payload row' = empty_payload /\
             (forall k, k <> key_of id -> webhook_events d' !! k = webhook_events d !! k)
  | Err e => d' = d \/ exists cause st, c_outcome c BCommit = AckLost cause /\
               e = StatementFailed BCommit (outage_failure cause) /\ event_effect c id raw d st d'
  end.
Proof.
  unfold ProcessWebhookEvent. destruct (process_tx s c id raw d) as [[r d1]|e] eqn:E;
    [|intros [= <- <-]; by left].
  apply process_tx_effect in E. unfold autocommit.
  destruct (c_outcome c BCommit) as [|cause|cause] eqn:Hc; intros [= <- <-]; [|by left|];
    destruct (wr_Duplicate r); [done| |left; by destruct E|right; destruct E as (st & _ & _ & E); eauto].
  destruct E as (st & Hst & Htext & Heff). pose proof Heff as (row & env & name & d2 & Hrow & _ & _ & _ & ->).
  exists st, (finished_row (c_tx_now c) st row). split_and!; try done.
  - simpl. by rewrite lookup_insert_eq.
  - intros k Hk. simpl. by rewrite lookup_insert_ne.
Qed.

(** * Retries *)

(** With the delays the configuration accepts, a retry waits at least the
    smaller of the base delay and the maximum, at most the maximum, and no
    product of the computation leaves the 64 bits of a duration. *)
Theorem retryDelay_bounds attempt id :
  second <= BaseRetryDelay cfg <= hour ->
  BaseRetryDelay cfg <= MaxRetryDelay cfg <= 24 * hour ->
  BaseRetryDelay cfg <= retryDelay cfg attempt id <= MaxRetryDelay cfg /\
  forall shift, 0 <= shift <= 20 -> in_int64 (BaseRetryDelay cfg * 2 ^ shift).
Proof.
  unfold second, hour, minute, second. intros Hb Hm.
  assert (forall shift, 0 <= shift <= 20 ->
    BaseRetryDelay cfg <= BaseRetryDelay cfg * 2 ^ shift <= 3600000000000 * 1048576) as Hpow.
  { intros sh Hsh. assert (1 <= 2 ^ sh <= 1048576).
    { change 1 with (2 ^ 0). change 1048576 with (2 ^ 20). split; apply Z.pow_le_mono_r; lia. }
    nia. }
  split; [|intros sh Hsh; specialize (Hpow sh Hsh); unfold in_int64, min_int64, max_int64; lia].
  unfold retryDelay. set (at1 := if attempt <? 1 then 1 else attempt).
  assert (1 <= at1) by (unfold at1; case_if; bool_facts; lia).
  set (sh := if 20 <? at1 - 1 then 20 else at1 - 1).
  assert (0 <= sh <= 20) by (unfold sh; case_if; bool_facts; lia).
  pose proof (Hpow sh ltac:(done)) as Hp. rewrite (wrap64_id (_ * _)) by (unfold in_int64, min_int64, max_int64; lia).
  set (delay := if _ || _ then _ else _).
  assert (BaseRetryDelay cfg <= delay <= MaxRetryDelay cfg) as Hd.
  { unfold delay. destruct (_ || _) eqn:E; [lia|]. bool_facts. lia. }
  rewrite (proj2 (Z.leb_gt delay 0)) by lia.
  set (pc := first_byte _ mod 21). assert (0 <= pc < 21) by (apply Z.mod_pos_bound; lia).
  assert (0 <= delay * pc <= 86400000000000 * 20) by nia.
  rewrite (wrap64_id (delay * pc)) by (unfold in_int64, min_int64, max_int64; lia).
  assert (0 <= Z.quot (delay * pc) 100 <= 86400000000000 * 20).
  { rewrite Z.quot_div_nonneg by lia. split; [apply Z.div_pos; lia|].
    apply Z.div_le_upper_bound; lia. }
  rewrite (wrap64_id (delay + _)) by (unfold in_int64, min_int64, max_int64; lia).
  destruct (_ && _) eqn:E; [lia|]. apply andb_false_iff in E as [E|E]; bool_facts; lia.
Qed.

(** * From the door to the worker *)

Lemma hex_of_length t : str_len (hex_of t) = 2 * str_len t.
Proof. unfold str_len. induction t as [|ch t IH]; [done|]. simpl String.length. lia. Qed.

Lemma supported_trim name :
  isSupportedWebhookEvent name = true -> isSupportedWebhookEvent (TrimSpace name) = true.
Proof.
  unfold isSupportedWebhookEvent. rewrite !bool_decide_eq_true. generalize (TrimSpace name). intros t Ht.
  repeat (apply elem_of_cons in Ht as [->|Ht]; [apply (bool_decide_unpack _); vm_compute; exact I|]).
  by apply elem_of_nil in Ht.
Qed.

Hypothesis sha256_length : forall t, str_len (sha256 t) = 32.
Hypothesis stored_roundtrip : forall raw env rest t u,
  decode_envelope raw = Some (env, rest) ->
  marshal_envelope (sanitize_envelope env) = Some t -> jsonb_text t = Some u ->
  exists rest', decode_envelope u = Some (sanitize_envelope env, rest').

(** What [EnqueueWebhook] queues, the worker can take: the stored payload is
    the sanitized one, it is due at once, and it passes the checks that precede
    the transaction, so that it is never rejected as malformed. *)
Theorem queued_event_accepted c raw h d d' :
  EnqueueWebhook s c raw h d = (Ok {| wr_Status := "queued"; wr_Duplicate := false |}, d') ->
  exists env rest r, decode_envelope raw = Some (env, rest) /\
    webhook_events d !! key_of (event_id raw) = None /\
    webhook_events d' = <[key_of (event_id raw) := r]> (webhook_events d) /\
    (0 < MaxAttempts cfg -> claimable s cfg (c_tx_now c) (key_of (event_id raw)) r = true) /\
    decode_event s (event_id raw) (ev_Payload r) = Ok (sanitize_envelope env, TrimSpace (we_EventName env)).
Proof.
  unfold EnqueueWebhook. destruct (validateAndSanitizeWebhook raw h) as [[env san]|] eqn:Hv; [|done].
  destruct (validateWebhookScope s env) eqn:Hscope; [|done].
  destruct (autocommit c BInsertEvent d _) as [[n|] d1] eqn:E1; [|done].
  destruct (Z.eqb_spec n 1) as [->|Hn].
  2:{ destruct (autocommit c BTouchDuplicate _ _) as [[]]; done. }
  intros [= <-]. unfold validateAndSanitizeWebhook in Hv.
  destruct (decode_envelope raw) as [[env0 rest]|] eqn:Hdec; [|done]. inv_ok. bool_facts.
  exists env, rest.
  apply autocommit_cases in E1 as [[_ Hf]|(a1 & Hi & Ha)]; [done|]. destruct Ha as [[= <-]|]; [|done].
  unfold insert_event in Hi. destruct (jsonb_text _) as [u|] eqn:Hj; [|done]. inv_ok.
  destruct (webhook_events d !! _) eqn:Hk; [by inv_ok|]. inv_ok.
  eexists. split_and!; [done|done|reflexivity| |].
  - intros Hpos. unfold claimable, due_at. cbn [ev_Attempts ev_Status ev_NextAttemptAt new_event fst default].
    rewrite (bool_decide_eq_true_2 (providerName s = _)) by done.
    rewrite (proj2 (Z.ltb_lt _ _)) by lia. rewrite bool_decide_eq_true_2 by (by left).
    by rewrite Z.leb_refl.
  - destruct (stored_roundtrip raw env rest _ u Hdec ltac:(eassumption) Hj) as [rest' Hdec'].
    unfold decode_event. cbn [ev_Payload new_event]. rewrite Hdec'.
    assert (str_len (event_id raw) = 71) as Hlen.
    { unfold event_id. change (str_len ("sha256:" +:+ hex_of (sha256 raw))) with
        (Z.of_nat (7 + String.length (hex_of (sha256 raw)))).
      pose proof (hex_of_length (sha256 raw)) as Hh. rewrite sha256_length in Hh. unfold str_len in *. lia. }
    rewrite Hlen. change (HasPrefix (event_id raw) "sha256:") with true. cbn [negb orb Z.eqb].
    change (we_EventName (sanitize_envelope env)) with (we_EventName env). rewrite supported_trim by done.
    unfold validateWebhookScope in *. simpl in *. by rewrite Hscope.
Qed.
End events.

(** * Witnesses *)

Section witnesses.
#[local] Existing Instance queue_constraints.

(** The sample database once the creation of the subscription is queued, and the
    lease of that event. *)
Definition sample_queued : result billing_error WebhookResult * BillingDB :=
  EnqueueWebhook sample_service (quiet (1000 * second)) "created" "subscription_created" sample_db.

(** A subscription that is created. *)
Lemma ProcessWebhookEvent_atomic_witness :
  exists r d', ProcessWebhookEvent sample_service (quiet (1001 * second)) (event_id "created") "created!"
                 (snd sample_queued) = (Ok r, d') /\ wr_Duplicate r = false /\
    exists st, event_effect sample_service (quiet (1001 * second)) (event_id "created") "created!" (snd sample_queued) st d'.
Proof.
  assert (match (ProcessWebhookEvent sample_service (quiet (1001 * second)) (event_id "created") "created!" (snd sample_queued)).1 with
          | Ok r => negb (wr_Duplicate r) | Err _ => false end = true) as Hok by (vm_compute; reflexivity).
  destruct (ProcessWebhookEvent sample_service (quiet (1001 * second)) (event_id "created") "created!"
    (snd sample_queued)) as [[r|e] d'] eqn:E; [|discriminate Hok]. apply negb_true_iff in Hok.
  exists r, d'. split; [reflexivity|]. split; [exact Hok|].
  pose proof (ProcessWebhookEvent_atomic sample_service _ _ _ _ _ _ E) as Hx. cbv beta iota in Hx. rewrite Hok in Hx.
  destruct Hx as (st & _ & _ & Heff & _). exists st. exact Heff.
Defined.

Lemma retryDelay_bounds_witness :
  5 * second <= retryDelay sample_worker 3 "sha256:abc" <= 900 * second.
Proof.
  refine (proj1 (retryDelay_bounds sample_worker 3 "sha256:abc" _ _));
    vm_compute; split; discriminate.
Defined.

Lemma queued_event_accepted_witness :
  exists env rest r, decode_envelope "created" = Some (env, rest) /\
    decode_event sample_service (event_id "created") (ev_Payload r)
      = Ok (sanitize_envelope env, TrimSpace (we_EventName env)).
Proof.
  assert (sample_queued = (Ok {| wr_Status := "queued"; wr_Duplicate := false |}, snd sample_queued)) as E
    by (vm_compute; reflexivity).
  destruct (queued_event_accepted sample_service sample_worker sample_sha256_length sample_stored_roundtrip
    _ _ _ _ _ E) as (env & rest & r & Hd & _ & _ & _ & Hr).
  exists env, rest, r. split; [exact Hd|exact Hr].
Defined.
End witnesses.
