(* ===== verification/DirectWebhook.v ===== *)
(** The older, synchronous processing of a webhook ([ProcessWebhook] of
    [internal/billing/service.go]), which no route calls any more, and what holds of it:
    one transaction per call, and at most one change of the subscriptions for a payload
    however often it is delivered. *)
From S2P Require Import Prelude GoLists GoBase Webhook BillingDB Utf8 Billing BillingQueue BillingSamples BillingSpec BillingQueueSpec.
Local Open Scope Z_scope.

(** * The code *)

(** The texts of the errors that wrap [ErrInvalidWebhook]. *)
Definition reason_text (why : webhook_reason) : string :=
  "invalid billing webhook: " +:+
  match why with
  | DecodePayload => "decode payload"
  | TrailingContent => "trailing JSON content"
  | EventHeaderMismatch => "event header mismatch"
  | UnsupportedEvent => "unsupported event"
  | InvalidDataIdentity => "invalid data identity"
  | InvalidCheckoutUser => "invalid checkout user"
  | ScopeMismatch => "webhook scope mismatch"
  | InvalidOrderWebhook => "invalid order webhook"
  | InvalidInvoiceWebhook => "invalid subscription invoice webhook"
  | InvalidSubscriptionWebhook => "invalid subscription webhook"
  | InvalidEventIdentity => "invalid event identity"
  | NotEnqueued => "webhook was not durably enqueued"
  | UnknownCheckoutUser => "unknown checkout user"
  | NoAssociatedUser => "webhook cannot be associated with a user"
  | UnsupportedSubscriptionStatus => "unsupported subscription status"
  | AccessDateMissing => "subscription access date is missing"
  | MissingEventName => "missing event name"
  end.

(** Why the processing of an event ends: it is not acceptable, and the transaction can go
    on; or a statement failed, and the database takes nothing but a rollback.  The error
    that is reported may be the same. *)
Inductive tx_failure :=
  | Rejected (why : webhook_reason)
  | Broken (e : billing_error).

Definition failure_error (f : tx_failure) : billing_error :=
  match f with Rejected why => InvalidWebhook why | Broken e => e end.

Definition access_failure (e : billing_error) : tx_failure :=
  match e with InvalidWebhook why => Rejected why | _ => Broken e end.

Section direct.
Context `{Unicode, WebhookEncoding, EventConstraints, Sha256}.
Variable s : Service.

Definition text_param (t : string) : result db_failure string :=
  if sql_text t then Ok t else Err OtherFailure.

(** [recordEvent]: the columns that are not named have their defaults. *)
Definition recorded_row (now : time) (raw eventName : string) : event_row :=
  {| ev_Type := eventName; ev_Hash := sha256 raw; ev_Payload := empty_payload;
     ev_ObjectType := None; ev_ObjectID := None;
     ev_Status := Pending; ev_Error := None; ev_CreatedAt := now; ev_ProcessedAt := None;
     ev_Attempts := 1; ev_LastAttemptAt := Some now; ev_Deliveries := 1; ev_LastReceivedAt := now;
     ev_NextAttemptAt := None; ev_LockedAt := None; ev_LockedBy := None; ev_DeadLetterAt := None |}.

Definition attempted_row (now : time) (r : event_row) : event_row :=
  {| ev_Type := ev_Type r; ev_Hash := ev_Hash r; ev_Payload := ev_Payload r;
     ev_ObjectType := ev_ObjectType r; ev_ObjectID := ev_ObjectID r;
     ev_Status := ev_Status r; ev_Error := ev_Error r; ev_CreatedAt := ev_CreatedAt r;
     ev_ProcessedAt := ev_ProcessedAt r; ev_Attempts := ev_Attempts r + 1;
     ev_LastAttemptAt := Some now; ev_Deliveries := ev_Deliveries r;
     ev_LastReceivedAt := ev_LastReceivedAt r; ev_NextAttemptAt := ev_NextAttemptAt r;
     ev_LockedAt := ev_LockedAt r; ev_LockedBy := ev_LockedBy r;
     ev_DeadLetterAt := ev_DeadLetterAt r |}.

(** The largest [integer]. *)
Definition max_attempt_count : Z := 2147483647.

Definition record_event (now : time) (raw eventName : string) (d : BillingDB)
    : result db_failure (event_status * BillingDB) :=
  let k := (providerName s, event_id raw) in
  let! eventName := text_param eventName in
  let r := recorded_row now raw eventName in
  fail_if negb (event_checks k r) with ConstraintViolation else
  match webhook_events d !! k with
  | None => Ok (ev_Status r, set_events (<[k := r]> (webhook_events d)) d)
  | Some cur =>
      let r := attempted_row now cur in
      fail_if max_attempt_count <? ev_Attempts r with OtherFailure else
      fail_if negb (event_checks k r) with ConstraintViolation else
      Ok (ev_Status r, set_events (<[k := r]> (webhook_events d)) d)
  end.

(** The identifier is a [text] parameter of the second query. *)
Definition resolveWebhookUser (c : call) (d : BillingDB) (envelope : lemonWebhookEnvelope)
    : result tx_failure string :=
  let userID := customString (le_CustomData envelope) "user_id" in
  if negb (is_empty userID) then
    match exec c BUserExists (user_exists d userID) with
    | Ok true => Ok userID
    | Ok false => Err (Rejected UnknownCheckoutUser)
    | Err _ => Err (Broken (InvalidWebhook UnknownCheckoutUser))
    end
  else
    match exec c BExistingUser (let! id := text_param (le_ID envelope) in subscription_user s d id) with
    | Ok userID => Ok userID
    | Err (StatementFailed _ NoRows) => Err (Rejected NoAssociatedUser)
    | Err e => Err (Broken e)
    end.

Definition webhook_time (c : call) (attributes : lemonSubscriptionAttributes) : time :=
  let t := parseProviderTime (la_UpdatedAt attributes) in
  if is_zero t then c_now c else t.

(** The values of [upsertSubscription], and its [do update set]. *)
Definition direct_values (c : call) (user : string) (envelope : lemonWebhookEnvelope)
    (providerUpdatedAt : time) (status : string) (accessUntil : option time) : subscription_row :=
  let attributes := le_Attributes envelope in
  {| sr_UserID := user;
     sr_Provider := providerName s;
     sr_CustomerID := Some (FormatInt (la_CustomerID attributes));
     sr_SubscriptionID := Some (le_ID envelope);
     sr_OrderID := None;
     sr_VariantID := Some (FormatInt (la_VariantID attributes));
     sr_ProviderStatus := Some (la_Status attributes);
     sr_ProviderUpdatedAt := Some (pg_time providerUpdatedAt);
     sr_PlanCode := "pro";
     sr_Status := status;
     sr_PeriodStart := None;
     sr_PeriodEnd := pg_time <$> parseOptionalProviderTime (la_RenewsAt attributes);
     sr_CancelAtPeriodEnd := la_Cancelled attributes || bool_decide (status = "canceled");
     sr_AccessUntil := pg_time <$> accessUntil;
     sr_CreatedAt := c_tx_now c;
     sr_UpdatedAt := c_tx_now c |}.

Definition direct_merge (now : time) (cur excluded : subscription_row) : subscription_row :=
  {| sr_UserID := sr_UserID excluded; sr_Provider := sr_Provider cur;
     sr_CustomerID := sr_CustomerID excluded; sr_SubscriptionID := sr_SubscriptionID cur;
     sr_OrderID := sr_OrderID cur; sr_VariantID := sr_VariantID excluded;
     sr_ProviderStatus := sr_ProviderStatus excluded;
     sr_ProviderUpdatedAt := sr_ProviderUpdatedAt excluded;
     sr_PlanCode := sr_PlanCode excluded; sr_Status := sr_Status excluded;
     sr_PeriodStart := sr_PeriodStart cur; sr_PeriodEnd := sr_PeriodEnd excluded;
     sr_CancelAtPeriodEnd := sr_CancelAtPeriodEnd excluded;
     sr_AccessUntil := sr_AccessUntil excluded;
     sr_CreatedAt := sr_CreatedAt cur; sr_UpdatedAt := now |}.

(** From the buyer to the upsert. *)
Definition apply_webhook (c : call) (envelope : lemonWebhookEnvelope) (d : BillingDB)
    : result tx_failure (event_status * BillingDB) :=
  let! userID := resolveWebhookUser c d envelope in
  let attributes := le_Attributes envelope in
  let providerUpdatedAt := webhook_time c attributes in
  let! (status, accessUntil) := rmap_err access_failure (resolveAccess s attributes providerUpdatedAt) in
  let! (l, affected) := rmap_err Broken (exec c BUpsertSubscription
    (let! user := user_reference d userID in
     let! _ := text_param (le_ID envelope) in
     let! _ := text_param (la_Status attributes) in
     upsert_row (direct_merge (c_tx_now c))
       (direct_values c user envelope providerUpdatedAt status accessUntil) (subscriptions d))) in
  Ok (if affected =? 0 then Ignored else Processed, set_subscriptions l d).

(** The rows of [finishWebhook], which gets no message, and of [failWebhook]. *)
Definition direct_finished_row (now : time) (status : event_status) (r : event_row) : event_row :=
  {| ev_Type := ev_Type r; ev_Hash := ev_Hash r; ev_Payload := ev_Payload r;
     ev_ObjectType := ev_ObjectType r; ev_ObjectID := ev_ObjectID r;
     ev_Status := status; ev_Error := None; ev_CreatedAt := ev_CreatedAt r;
     ev_ProcessedAt := Some now; ev_Attempts := ev_Attempts r;
     ev_LastAttemptAt := ev_LastAttemptAt r; ev_Deliveries := ev_Deliveries r;
     ev_LastReceivedAt := ev_LastReceivedAt r; ev_NextAttemptAt := ev_NextAttemptAt r;
     ev_LockedAt := ev_LockedAt r; ev_LockedBy := ev_LockedBy r;
     ev_DeadLetterAt := ev_DeadLetterAt r |}.

Definition direct_failed_row (message : string) (r : event_row) : event_row :=
  {| ev_Type := ev_Type r; ev_Hash := ev_Hash r; ev_Payload := ev_Payload r;
     ev_ObjectType := ev_ObjectType r; ev_ObjectID := ev_ObjectID r;
     ev_Status := Failed; ev_Error := Some message; ev_CreatedAt := ev_CreatedAt r;
     ev_ProcessedAt := ev_ProcessedAt r; ev_Attempts := ev_Attempts r;
     ev_LastAttemptAt := ev_LastAttemptAt r; ev_Deliveries := ev_Deliveries r;
     ev_LastReceivedAt := ev_LastReceivedAt r; ev_NextAttemptAt := ev_NextAttemptAt r;
     ev_LockedAt := ev_LockedAt r; ev_LockedBy := ev_LockedBy r;
     ev_DeadLetterAt := ev_DeadLetterAt r |}.

(** [committed] is the database before the transaction, [d] the one it sees. *)
Definition finishWebhook (c : call) (eventID : string) (status : event_status) (committed d : BillingDB)
    : result billing_error WebhookResult * BillingDB :=
  match exec c BFinish (update_event s (direct_finished_row (c_tx_now c) status) eventID d) with
  | Err e => (Err e, committed)
  | Ok d' => autocommit c BCommit committed (Ok ({| wr_Status := status_text status; wr_Duplicate := false |}, d'))
  end.

(** What becomes of the update and of its commit is ignored. *)
Definition failWebhook (c : call) (eventID : string) (f : tx_failure) (committed d : BillingDB) : BillingDB :=
  match f with
  | Broken _ => committed
  | Rejected why =>
      match exec c BFinish (update_event s (direct_failed_row (truncateError (reason_text why))) eventID d) with
      | Err _ => committed
      | Ok d' => snd (autocommit c BCommit committed (Ok (tt, d')))
      end
  end.

(** The events that are for this service. *)
Definition concerns_service (eventName : string) (envelope : lemonWebhookEnvelope) : bool :=
  let attributes := le_Attributes envelope in
  isSupportedSubscriptionEvent eventName && bool_decide (le_Type envelope = "subscriptions")
  && negb (is_empty (le_ID envelope))
  && bool_decide (FormatInt (la_StoreID attributes) = storeID s)
  && bool_decide (FormatInt (la_VariantID attributes) = variantID s)
  && bool_decide (la_TestMode attributes = expectedTestMode s).

Definition ProcessWebhook (c : call) (raw : string) (d : BillingDB)
    : result billing_error WebhookResult * BillingDB :=
  match decode_lemon raw with
  | None => (Err (InvalidWebhook DecodePayload), d)
  | Some envelope =>
      let eventName := TrimSpace (le_EventName envelope) in
      if is_empty eventName then (Err (InvalidWebhook MissingEventName), d) else
      let eventID := event_id raw in
      match (let! _ := exec c BBegin (Ok tt) in
             exec c BRecordEvent (record_event (c_tx_now c) raw eventName d)) with
      | Err e => (Err e, d)
      | Ok (eventStatus, d1) =>
          if bool_decide (eventStatus = Processed) || bool_decide (eventStatus = Ignored)
          then autocommit c BCommit d (Ok ({| wr_Status := status_text eventStatus; wr_Duplicate := true |}, d1))
          else if negb (concerns_service eventName envelope) then finishWebhook c eventID Ignored d d1
          else
            match apply_webhook c envelope d1 with
            | Err f => (Err (failure_error f), failWebhook c eventID f d d1)
            | Ok (finalStatus, d2) => finishWebhook c eventID finalStatus d d2
            end
      end
  end.

(** * One transaction *)

Lemma upsert_row_ignored merge x l l' : upsert_row merge x l = Ok (l', 0) -> l' = l.
Proof.
  unfold upsert_row, upsert_where. destruct (negb _); [done|]. destruct (List.filter _ _); [intros Hu; by inv_ok|].
  destruct (not_older _ _); [|by intros [= <-]]. by destruct (_ && _).
Qed.

Definition finished (st : event_status) : Prop := st = Processed \/ st = Ignored.

Abbreviation event_of raw := (providerName s, event_id raw) (only parsing).

(** The row an attempt leaves before its verdict, for an event that is not finished. *)
Definition attempted (c : call) (raw : string) (d : BillingDB) (r : event_row) : Prop :=
  match webhook_events d !! event_of raw with
  | None => exists name, r = recorded_row (c_tx_now c) raw name
  | Some cur => ~ finished (ev_Status cur) /\ r = attempted_row (c_tx_now c) cur
  end.

(** What the caller is told of a commit that is done. *)
Definition told (c : call) (r : WebhookResult) (res : result billing_error WebhookResult) : Prop :=
  res = Ok r \/
  exists cause, c_outcome c BCommit = AckLost cause /\ res = Err (StatementFailed BCommit (outage_failure cause)).

(** The effects a call may have. *)
Inductive direct_effect (c : call) (raw : string) (d : BillingDB)
    : result billing_error WebhookResult -> BillingDB -> Prop :=
  | direct_nothing e : direct_effect c raw d (Err e) d
  | direct_repeated r res :
      webhook_events d !! event_of raw = Some r -> finished (ev_Status r) ->
      told c {| wr_Status := status_text (ev_Status r); wr_Duplicate := true |} res ->
      direct_effect c raw d res (set_events (<[event_of raw := attempted_row (c_tx_now c) r]> (webhook_events d)) d)
  | direct_rejected why r :
      attempted c raw d r ->
      direct_effect c raw d (Err (InvalidWebhook why))
        (set_events (<[event_of raw := direct_failed_row (truncateError (reason_text why)) r]> (webhook_events d)) d)
  | direct_finished status r l res :
      attempted c raw d r -> finished status ->
      (status = Ignored -> l = subscriptions d) ->
      (status = Processed -> exists x, sr_PlanCode x = "pro" /\ sr_Provider x = providerName s /\
         upsert_row (direct_merge (c_tx_now c)) x (subscriptions d) = Ok (l, 1)) ->
      told c {| wr_Status := status_text status; wr_Duplicate := false |} res ->
      direct_effect c raw d res
        (set_subscriptions l (set_events (<[event_of raw := direct_finished_row (c_tx_now c) status r]> (webhook_events d)) d)).

Lemma record_event_rows c raw name d st d1 :
  record_event (c_tx_now c) raw name d = Ok (st, d1) ->
  exists r, d1 = set_events (<[event_of raw := r]> (webhook_events d)) d /\ st = ev_Status r /\
    match webhook_events d !! event_of raw with
    | None => r = recorded_row (c_tx_now c) raw name
    | Some cur => r = attempted_row (c_tx_now c) cur
    end.
Proof.
  unfold record_event, text_param. destruct (sql_text name); [|done]. cbn [rbind]. destruct (negb _); [done|].
  destruct (webhook_events d !! _) as [cur|].
  - destruct (max_attempt_count <? _); [done|]. destruct (negb _); [done|]. intros Hr. inv_ok. eexists. by split_and!.
  - intros Hr. inv_ok. eexists. by split_and!.
Qed.

(** An update of the event in the transaction. *)
Lemma update_recorded f raw r d d' :
  update_event s f (event_id raw) (set_events (<[event_of raw := r]> (webhook_events d)) d) = Ok d' ->
  d' = set_events (<[event_of raw := f r]> (webhook_events d)) d.
Proof.
  unfold update_event. cbn [webhook_events set_events]. rewrite lookup_insert_eq. destruct (event_checks _ _); [|done].
  intros Hu. inv_ok. by rewrite insert_insert_eq.
Qed.

Lemma commit_told {A} c (committed : BillingDB) (a : A) d' res d2 :
  autocommit c BCommit committed (Ok (a, d')) = (res, d2) ->
  (d2 = committed /\ is_ok res = false) \/
  d2 = d' /\ (res = Ok a \/ exists cause, c_outcome c BCommit = AckLost cause /\ res = Err (StatementFailed BCommit (outage_failure cause))).
Proof. unfold autocommit. destruct (c_outcome c BCommit); intros [= <- <-]; eauto 6. Qed.

Lemma apply_webhook_rows c envelope d st d2 :
  apply_webhook c envelope d = Ok (st, d2) ->
  exists x l, sr_PlanCode x = "pro" /\ sr_Provider x = providerName s /\ d2 = set_subscriptions l d /\ finished st /\
    (st = Ignored -> l = subscriptions d) /\
    (st = Processed -> upsert_row (direct_merge (c_tx_now c)) x (subscriptions d) = Ok (l, 1)).
Proof.
  unfold apply_webhook. intros Ha.
  apply rbind_ok in Ha as (user & _ & Ha). apply rbind_ok in Ha as ([status until] & _ & Ha).
  apply rbind_ok in Ha as ([l n] & Hu & [= <- <-]).
  apply rmap_err_ok, exec_ok in Hu as [_ Hu]. apply rbind_ok in Hu as (u & _ & Hu).
  apply rbind_ok in Hu as (? & _ & Hu). apply rbind_ok in Hu as (? & _ & Hu).
  eexists _, l. split_and!; [..|reflexivity| | |]; [| |destruct (n =? 0); [by right|by left]|..|].
  - instantiate (1 := direct_values c u envelope (webhook_time c (le_Attributes envelope)) status until). done.
  - done.
  - destruct (Z.eqb_spec n 0) as [->|]; [|done]. intros _. by apply upsert_row_ignored in Hu.
  - destruct (Z.eqb_spec n 0) as [|Hn]; [done|]. intros _. rewrite Hu. do 2 f_equal.
    revert Hu. unfold upsert_row, upsert_where. destruct (negb _); [done|].
    destruct (List.filter _ _); [intros Hu; by inv_ok|]. destruct (not_older _ _); [destruct (_ && _)|]; congruence.
Qed.

Lemma finishWebhook_effect c raw d r l st res d' :
  attempted c raw d r -> finished st -> (st = Ignored -> l = subscriptions d) ->
  (st = Processed -> exists x, sr_PlanCode x = "pro" /\ sr_Provider x = providerName s /\
     upsert_row (direct_merge (c_tx_now c)) x (subscriptions d) = Ok (l, 1)) ->
  finishWebhook c (event_id raw) st d (set_subscriptions l (set_events (<[event_of raw := r]> (webhook_events d)) d)) = (res, d') ->
  direct_effect c raw d res d'.
Proof.
  intros Hr Hst Hi Hp. unfold finishWebhook. destruct (exec c BFinish _) as [d3|e] eqn:He; [|intros [= <- <-]; constructor].
  apply exec_ok in He as [_ He].
  assert (d3 = set_subscriptions l (set_events (<[event_of raw := direct_finished_row (c_tx_now c) st r]> (webhook_events d)) d)) as ->.
  { revert He. unfold update_event. cbn [webhook_events set_events set_subscriptions]. rewrite lookup_insert_eq.
    destruct (event_checks _ _); [|done]. intros He. inv_ok. by rewrite insert_insert_eq. }
  intros Hc. apply commit_told in Hc as [[-> Hres]|[-> Ht]]; [destruct res; [done|constructor]|]. by eapply direct_finished.
Qed.

(** What a call does: nothing that is not committed with the verdict on the event. *)
Lemma ProcessWebhook_effect c raw d res d' : ProcessWebhook c raw d = (res, d') -> direct_effect c raw d res d'.
Proof.
  unfold ProcessWebhook. destruct (decode_lemon raw) as [envelope|]; [|intros [= <- <-]; constructor].
  destruct (is_empty _); [intros [= <- <-]; constructor|].
  destruct (rbind _ _) as [[st d1]|e] eqn:Hrec; [|intros [= <- <-]; constructor].
  apply rbind_ok in Hrec as (? & _ & Hrec). apply exec_ok in Hrec as [_ Hrec].
  apply record_event_rows in Hrec as (r & -> & -> & Hr).
  destruct (bool_decide (ev_Status r = Processed) || bool_decide (ev_Status r = Ignored)) eqn:Hfin.
  { assert (finished (ev_Status r)) as Hf by (apply orb_true_iff in Hfin as [?%bool_decide_eq_true|?%bool_decide_eq_true]; [by left|by right]).
    destruct (webhook_events d !! _) as [cur|] eqn:Hcur; subst r; [|by destruct Hf].
    intros Hc. apply commit_told in Hc as [[-> Hres]|[-> Ht]]; [destruct res; [done|constructor]|]. by eapply direct_repeated. }
  assert (attempted c raw d r) as Hatt.
  { unfold attempted. destruct (webhook_events d !! _) as [cur|]; [|eauto]. split; [|done]. subst r. cbn [attempted_row ev_Status] in Hfin.
    apply orb_false_iff in Hfin as [?%bool_decide_eq_false ?%bool_decide_eq_false]. by intros [|]. }
  destruct (negb _).
  { intros Hf. assert (d = set_subscriptions (subscriptions d) d) as Hd by (by destruct d).
    eapply finishWebhook_effect; [exact Hatt|by right|reflexivity|done|]. exact Hf. }
  destruct (apply_webhook _ _ _) as [[st d2]|f] eqn:Ha.
  - apply apply_webhook_rows in Ha as (row & l & Hplan & Hprov & -> & Hst & Hi & Hp). cbn [set_events subscriptions] in *.
    apply finishWebhook_effect; eauto.
  - intros [= <- <-]. unfold failWebhook. destruct f as [why|e]; [|constructor].
    destruct (exec c BFinish _) as [d3|e] eqn:He; [|constructor]. apply exec_ok in He as [_ He%update_recorded]. subst d3.
    destruct (autocommit _ _ _ _) as [res2 d2] eqn:Hc. apply commit_told in Hc as [[-> _]|[-> _]]; [constructor|]. by constructor.
Qed.

(** * Repeated deliveries *)

Definition unfinished_row (r : option event_row) : Prop :=
  match r with Some r => ~ finished (ev_Status r) | None => True end.

Lemma effect_status c raw d res d' :
  direct_effect c raw d res d' ->
  (** nothing but the number of attempts changes once an event is finished *)
  (forall r, webhook_events d !! event_of raw = Some r -> finished (ev_Status r) ->
     subscriptions d' = subscriptions d /\
        exists r', webhook_events d' !! event_of raw = Some r' /\ ev_Status r' = ev_Status r) /\
     (** and what changes the subscriptions finishes it *)
  (subscriptions d' <> subscriptions d ->
     exists r', webhook_events d' !! event_of raw = Some r' /\ ev_Status r' = Processed).
Proof.
  intros [e|r res' Hr Hf Ht|why r Hr|status r l res' Hr Hf Hi Hp Ht]; cbn [set_subscriptions set_events subscriptions webhook_events];
    rewrite ?lookup_insert_eq.
  - split; [|done]. intros r Hr _. eauto.
  - split; [|done]. intros r0 Hr0 _. rewrite Hr in Hr0. injection Hr0 as ->. eauto.
  - split; [|done]. intros r0 Hr0 Hf0. unfold attempted in Hr. rewrite Hr0 in Hr. by destruct Hr.
  - split.
    + intros r0 Hr0 Hf0. unfold attempted in Hr. rewrite Hr0 in Hr. by destruct Hr.
    + intros Hl. eexists. split; [reflexivity|]. destruct Hf as [->| ->]; [done|]. by destruct Hl, Hi.
Qed.

#[local] Instance subscription_row_eq_dec : EqDecision subscription_row.
Proof. solve_decision. Defined.

(** The number of calls that change the subscriptions. *)
Fixpoint subscription_changes (raw : string) (cs : list call) (d : BillingDB) : nat :=
  match cs with
  | [] => 0
  | c :: cs =>
      let d' := snd (ProcessWebhook c raw d) in
      (if bool_decide (subscriptions d' = subscriptions d) then 0 else 1) + subscription_changes raw cs d'
  end.

Lemma no_more_changes raw cs d r :
  webhook_events d !! event_of raw = Some r -> finished (ev_Status r) -> subscription_changes raw cs d = 0%nat.
Proof.
  revert d r. induction cs as [|c cs IH]; intros d r Hr Hf; [done|]. cbn [subscription_changes].
  destruct (ProcessWebhook c raw d) as [res d'] eqn:E. apply ProcessWebhook_effect, effect_status in E as [Hfin _].
  destruct (Hfin r Hr Hf) as (Hs & r' & Hr' & Hst). cbn [snd]. rewrite bool_decide_eq_true_2 by done.
  apply (IH d' r'); [done|]. by rewrite Hst.
Qed.

(** However often a payload is delivered, and whatever statements, commits and
    acknowledgements fail, it changes the subscriptions at most once. *)
Theorem direct_effects_at_most_once raw cs d : (subscription_changes raw cs d <= 1)%nat.
Proof.
  revert d. induction cs as [|c cs IH]; intros d; [simpl; lia|]. cbn [subscription_changes].
  destruct (ProcessWebhook c raw d) as [res d'] eqn:E. apply ProcessWebhook_effect, effect_status in E as [_ Hch]. cbn [snd].
  case_bool_decide as Hs; [apply (IH d')|]. destruct (Hch Hs) as (r & Hr & Hst).
  rewrite (no_more_changes _ _ _ _ Hr); [lia|by left].
Qed.

(** A call is one transaction: what it tells is what it has committed.  It changes one
    event and, when it answers that the event is processed, one subscription, of the plan
    Pro; orders, notifications and the other events stay, and the unique indexes and the
    checks of the subscriptions hold afterwards. *)
Theorem ProcessWebhook_atomic c raw d res d' :
  ProcessWebhook c raw d = (res, d') ->
  (forall r, res = Ok r -> exists row, webhook_events d' !! event_of raw = Some row /\
        wr_Status r = status_text (ev_Status row) /\ finished (ev_Status row) /\
        (wr_Duplicate r = true \/ ev_Status row = Ignored -> subscriptions d' = subscriptions d)) /\
     (forall k, k <> event_of raw -> webhook_events d' !! k = webhook_events d !! k) /\
     billing_orders d' = billing_orders d /\ outbox d' = outbox d /\ app_users d' = app_users d /\
     (subscriptions d' = subscriptions d \/ exists x, sr_PlanCode x = "pro" /\ sr_Provider x = providerName s /\
        upsert_row (direct_merge (c_tx_now c)) x (subscriptions d) = Ok (subscriptions d', 1)) /\
     (subscriptions_wf (subscriptions d) -> subscriptions_wf (subscriptions d')).
Proof.
  assert (forall k r (d0 : BillingDB), k <> event_of raw -> <[event_of raw := r]> (webhook_events d0) !! k = webhook_events d0 !! k) as Hother
    by (intros; by rewrite lookup_insert_ne).
  intros [e|r res' Hr Hf Ht|why r Hr|status r l res' Hr Hf Hi Hp Ht]%ProcessWebhook_effect;
    cbn [set_subscriptions set_events subscriptions webhook_events billing_orders outbox app_users];
    (split; [|split; [by auto|split_and!; try done]]).
  - done.
  - by left.
  - intros r0 Hr0. rewrite lookup_insert_eq. eexists. split; [reflexivity|]. destruct Ht as [->|(? & _ & ->)]; [|done]. by injection Hr0 as <-.
  - by left.
  - done.
  - by left.
  - intros r0 Hr0. rewrite lookup_insert_eq. eexists. split; [reflexivity|]. destruct Ht as [->|(? & _ & ->)]; [|done]. injection Hr0 as <-.
    split_and!; [done|done|]. intros [|Hst]; [done|]. by apply Hi.
  - destruct Hf as [Hst|Hst]; [right; by apply Hp|left; by apply Hi].
  - destruct Hf as [Hst|Hst]; [|by rewrite (Hi Hst)]. destruct (Hp Hst) as (x & _ & _ & Hu). eapply upsert_where_wf; [|exact Hu]. by intros.
Qed.

(** The access is resolved as on the path of the queue. *)
Theorem same_access (a : lemonSubscriptionAttributes) (b : productionWebhookAttributes) t :
  la_Status a = wa_Status b -> la_RenewsAt a = wa_RenewsAt b -> la_EndsAt a = wa_EndsAt b ->
  resolveAccess s a t = resolveProductionAccess b t (pastDueGracePeriod s).
Proof. intros Hs Hr He. unfold resolveAccess, resolveProductionAccess. by rewrite Hs, Hr, He. Qed.
End direct.

(** * Examples *)

Definition lemon_sample (name : string) (custom : gmap string json_value) (status : string) : lemonWebhookEnvelope :=
  {| le_EventName := name; le_CustomData := custom; le_Type := "subscriptions"; le_ID := "9001";
     le_Attributes :=
       {| la_StoreID := 11; la_CustomerID := 22; la_VariantID := 33; la_Status := status; la_Cancelled := false;
          la_RenewsAt := "2600"; la_EndsAt := EmptyString; la_UpdatedAt := "1010"; la_TestMode := false |} |}.

(** The samples, with payloads of this path. *)
#[local] Instance lemon_encoding : WebhookEncoding := {|
  decode_envelope := decode_envelope;
  decode_lemon raw :=
    if bool_decide (raw = "new") then Some (lemon_sample " subscription_created " sample_custom "active")
    else if bool_decide (raw = "unknown") then Some (lemon_sample "subscription_created" {["user_id" := JString "nobody"]} "active")
    else if bool_decide (raw = "status") then Some (lemon_sample "subscription_created" sample_custom "strange")
    else if bool_decide (raw = "order") then Some (lemon_sample "order_created" sample_custom "active")
    else None;
  decode_eof := decode_eof;
  marshal_envelope := marshal_envelope;
  jsonb_text := jsonb_text;
  parse_rfc3339 := parse_rfc3339;
  uuid_text := uuid_text;
|}.

#[local] Existing Instance queue_constraints.

Definition direct_runs (runs : list (string * call)) : list (result billing_error WebhookResult) * BillingDB :=
  foldl (fun '(l, d) '(raw, c) => let '(r, d) := ProcessWebhook sample_service c raw d in (l ++ [r], d)) ([], sample_db) runs.

(** A lost acknowledgement is found out by the next delivery; a rejected event is marked
    and tried again by the next one, a failed statement leaves nothing. *)
Example delivered_directly :
  let '(answers, d) := direct_runs
    [("x", quiet (1000 * second)); ("new", failing (1011 * second) at_commit (AckLost OutOther)); ("new", quiet (1012 * second));
     ("unknown", quiet (1013 * second)); ("unknown", quiet (1014 * second)); ("order", quiet (1015 * second));
     ("status", failing (1016 * second) (fun st => match st with BUserExists => true | _ => false end) (Refused OutOther))] in
  answers =
    [Err (InvalidWebhook DecodePayload); Err (StatementFailed BCommit OtherFailure); Ok {| wr_Status := "processed"; wr_Duplicate := true |};
     Err (InvalidWebhook UnknownCheckoutUser); Err (InvalidWebhook UnknownCheckoutUser); Ok {| wr_Status := "ignored"; wr_Duplicate := false |};
     Err (InvalidWebhook UnknownCheckoutUser)] /\
     map (fun r => (sr_UserID r, sr_Status r, sr_AccessUntil r)) (subscriptions d) = [(sample_user, "active", Some (2600 * second))] /\
     map (fun raw => (fun r => (ev_Status r, ev_Attempts r, ev_Error r)) <$> webhook_events d !! (lemonSqueezyProvider, event_id raw))
    ["new"; "unknown"; "order"; "status"]
  = [Some (Processed, 2, None); Some (Failed, 2, Some "invalid billing webhook: unknown checkout user"); Some (Ignored, 1, None); None].
Proof. vm_compute. repeat split. Qed.
