(* ===== verification/BillingSystem.v ===== *)
(** The webhook queue as a transition system: deliveries by the provider, any
    number of workers that lease, process and finalize events, crashes, and the
    passing of time.  One statement or transaction is one step, at the instant
    the database gives it.  At the end, concrete runs: the witnesses, and the runs
    that show where the queue does not do what it means to. *)
From S2P Require Import Prelude GoLists GoBase Tx Webhook BillingDB Billing BillingQueue BillingSamples BillingSpec BillingQueueSpec.
Local Open Scope Z_scope.

(** A job a worker holds: when it was leased, and the error of its processing
    once it has failed. *)
Record inflight := {
  if_job : queuedWebhook;
  if_claimed : time;
  if_error : option billing_error;
}.

Definition if_id (j : inflight) : string := qw_EventID (if_job j).

(** [sy_effects] records the events whose business changes were committed, and
    [sy_leases] the events leased, one entry each time. *)
Record system := {
  sy_db : BillingDB;
  sy_now : time;
  sy_jobs : list inflight;
  sy_effects : list string;
  sy_leases : list string;
}.

Section system.
Context `{Unicode, WebhookEncoding, EventConstraints, Sha256}.
Variable s : Service.
Variable cfg : WebhookWorkerConfig.

Abbreviation key_of id := (providerName s, id) (only parsing).

(** The job still has its lease. *)
Definition live (now : time) (j : inflight) : bool :=
  now <=? if_claimed j + postgresInterval (LeaseDuration cfg).

(** The event a lease was taken of, if one was. *)
Definition leased (c : call) (owner : string) (locked : list event_key) (d : BillingDB)
    : list string :=
  match candidate s cfg (c_tx_now c) locked d with
  | Some (k, r) =>
      if event_checks k (claimed_row (c_tx_now c) owner r)
         && match c_outcome c BClaim with Refused _ => false | _ => true end
      then [snd k] else []
  | None => []
  end.

(** With [timely], a worker processes and finalizes a job within its lease.
    The timeout of the job, which the configuration keeps below the lease, ends
    the processing in time; nothing in the code bounds the finalization. *)
Inductive step (timely : bool) : system -> system -> Prop :=
  | step_tick st t :
      sy_now st <= t ->
      step timely st
        {| sy_db := sy_db st; sy_now := t; sy_jobs := sy_jobs st;
           sy_effects := sy_effects st; sy_leases := sy_leases st |}
  | step_receive st c raw header :
      c_tx_now c = sy_now st ->
      step timely st
        {| sy_db := snd (EnqueueWebhook s c raw header (sy_db st)); sy_now := sy_now st;
           sy_jobs := sy_jobs st; sy_effects := sy_effects st; sy_leases := sy_leases st |}
  | step_claim st c owner locked :
      c_tx_now c = sy_now st ->
      step timely st
        {| sy_db := snd (claim s cfg c owner locked (sy_db st)); sy_now := sy_now st;
           sy_jobs :=
             match fst (claim s cfg c owner locked (sy_db st)) with
             | Ok (Some job) =>
                 {| if_job := job; if_claimed := sy_now st; if_error := None |} :: sy_jobs st
             | _ => sy_jobs st
             end;
           sy_effects := sy_effects st;
           sy_leases := leased c owner locked (sy_db st) ++ sy_leases st |}
  | step_process st c j before after :
      sy_jobs st = before ++ j :: after ->
      if_error j = None ->
      c_tx_now c = sy_now st ->
      (timely = true -> live (sy_now st) j = true) ->
      step timely st
        {| sy_db := snd (ProcessWebhookEvent s c (if_id j) (qw_Payload (if_job j)) (sy_db st));
           sy_now := sy_now st;
           sy_jobs :=
             match fst (ProcessWebhookEvent s c (if_id j) (qw_Payload (if_job j)) (sy_db st)) with
             | Ok _ => before ++ after
             | Err e =>
                 before ++ {| if_job := if_job j; if_claimed := if_claimed j; if_error := Some e |}
                   :: after
             end;
           sy_effects :=
             (if commits_effect s c (if_id j) (qw_Payload (if_job j)) (sy_db st)
              then [if_id j] else []) ++ sy_effects st;
           sy_leases := sy_leases st |}
  | step_finalize st c j e before after :
      sy_jobs st = before ++ j :: after ->
      if_error j = Some e ->
      c_tx_now c = sy_now st ->
      (timely = true -> live (sy_now st) j = true) ->
      step timely st
        {| sy_db := snd (finalizeFailure s cfg c (if_id j) (is_invalid_webhook e) e (sy_db st));
           sy_now := sy_now st; sy_jobs := before ++ after;
           sy_effects := sy_effects st; sy_leases := sy_leases st |}
  | step_crash st j before after :
      sy_jobs st = before ++ j :: after ->
      step timely st
        {| sy_db := sy_db st; sy_now := sy_now st; sy_jobs := before ++ after;
           sy_effects := sy_effects st; sy_leases := sy_leases st |}.

(** A database in which the provider has no event yet. *)
Definition fresh (d : BillingDB) : Prop := forall id, webhook_events d !! key_of id = None.

Definition initial (d : BillingDB) (now : time) : system :=
  {| sy_db := d; sy_now := now; sy_jobs := []; sy_effects := []; sy_leases := [] |}.

Definition reachable (timely : bool) (d : BillingDB) (now : time) (st : system) : Prop :=
  rtc (step timely) (initial d now) st.

(** Runs given by their steps; a job is named by its position. *)
Inductive label :=
  | Tick (t : time)
  | Receive (c : call) (raw header : string)
  | Claim (c : call) (owner : string) (locked : list event_key)
  | Process (c : call) (i : nat)
  | Finalize (c : call) (i : nat)
  | Crash (i : nat).

Definition with_job (timely : bool) (st : system) (c : call) (i : nat)
    (k : list inflight -> inflight -> list inflight -> option system) : option system :=
  match sy_jobs st !! i with
  | None => None
  | Some j =>
      if bool_decide (c_tx_now c = sy_now st) && (negb timely || live (sy_now st) j)
      then k (take i (sy_jobs st)) j (drop (S i) (sy_jobs st)) else None
  end.

Definition perform (timely : bool) (l : label) (st : system) : option system :=
  match l with
  | Tick t =>
      if sy_now st <=? t then
        Some {| sy_db := sy_db st; sy_now := t; sy_jobs := sy_jobs st;
                sy_effects := sy_effects st; sy_leases := sy_leases st |}
      else None
  | Receive c raw header =>
      if bool_decide (c_tx_now c = sy_now st) then
        Some {| sy_db := snd (EnqueueWebhook s c raw header (sy_db st)); sy_now := sy_now st;
                sy_jobs := sy_jobs st; sy_effects := sy_effects st; sy_leases := sy_leases st |}
      else None
  | Claim c owner locked =>
      if bool_decide (c_tx_now c = sy_now st) then
        Some
          {| sy_db := snd (claim s cfg c owner locked (sy_db st)); sy_now := sy_now st;
             sy_jobs :=
               match fst (claim s cfg c owner locked (sy_db st)) with
               | Ok (Some job) =>
                   {| if_job := job; if_claimed := sy_now st; if_error := None |} :: sy_jobs st
               | _ => sy_jobs st
               end;
             sy_effects := sy_effects st;
             sy_leases := leased c owner locked (sy_db st) ++ sy_leases st |}
      else None
  | Process c i =>
      with_job timely st c i (fun before j after =>
        if bool_decide (if_error j = None) then
          Some
            {| sy_db := snd (ProcessWebhookEvent s c (if_id j) (qw_Payload (if_job j)) (sy_db st));
               sy_now := sy_now st;
               sy_jobs :=
                 match fst (ProcessWebhookEvent s c (if_id j) (qw_Payload (if_job j)) (sy_db st)) with
                 | Ok _ => before ++ after
                 | Err e =>
                     before ++ {| if_job := if_job j; if_claimed := if_claimed j; if_error := Some e |}
                       :: after
                 end;
               sy_effects :=
                 (if commits_effect s c (if_id j) (qw_Payload (if_job j)) (sy_db st)
                  then [if_id j] else []) ++ sy_effects st;
               sy_leases := sy_leases st |}
        else None)
  | Finalize c i =>
      with_job timely st c i (fun before j after =>
        match if_error j with
        | Some e =>
            Some
              {| sy_db := snd (finalizeFailure s cfg c (if_id j) (is_invalid_webhook e) e (sy_db st));
                 sy_now := sy_now st; sy_jobs := before ++ after;
                 sy_effects := sy_effects st; sy_leases := sy_leases st |}
        | None => None
        end)
  | Crash i =>
      match sy_jobs st !! i with
      | None => None
      | Some _ =>
          Some {| sy_db := sy_db st; sy_now := sy_now st;
                  sy_jobs := take i (sy_jobs st) ++ drop (S i) (sy_jobs st);
                  sy_effects := sy_effects st; sy_leases := sy_leases st |}
      end
  end.

Fixpoint run (timely : bool) (ls : list label) (st : system) : option system :=
  match ls with
  | [] => Some st
  | l :: ls' => st' ← perform timely l st; run timely ls' st'
  end.

Lemma with_job_Some timely st c i k st' :
  with_job timely st c i k = Some st' ->
  exists j, sy_jobs st = take i (sy_jobs st) ++ j :: drop (S i) (sy_jobs st) /\
    c_tx_now c = sy_now st /\ (timely = true -> live (sy_now st) j = true) /\
    k (take i (sy_jobs st)) j (drop (S i) (sy_jobs st)) = Some st'.
Proof.
  unfold with_job. destruct (sy_jobs st !! i) as [j|] eqn:Hj; [|done].
  destruct (_ && _) eqn:Hb; [|done]. intros Hk. exists j. bool_facts.
  split_and!; [symmetry; by apply take_drop_middle|done| |done].
  intros ->. done.
Qed.

Lemma perform_step timely l st st' : perform timely l st = Some st' -> step timely st st'.
Proof.
  destruct l; simpl.
  - destruct (Z.leb_spec (sy_now st) t); intros [= <-]. by apply step_tick.
  - case_bool_decide; intros [= <-]. by apply step_receive.
  - case_bool_decide; intros [= <-]. by apply step_claim.
  - intros (j & Hj & Hc & Hl & Hk)%with_job_Some. revert Hk. case_bool_decide; intros [= <-].
    by eapply step_process.
  - intros (j & Hj & Hc & Hl & Hk)%with_job_Some. destruct (if_error j) eqn:He; [|done].
    injection Hk as <-. by eapply step_finalize.
  - destruct (sy_jobs st !! i) as [j|] eqn:Hj; [|done]. intros [= <-].
    eapply (step_crash _ _ j). symmetry. by apply take_drop_middle.
Qed.

Lemma run_steps timely ls st st' : run timely ls st = Some st' -> rtc (step timely) st st'.
Proof.
  revert st. induction ls as [|l ls IH]; intros st; simpl; [by intros [= <-]|].
  destruct (perform timely l st) as [st1|] eqn:E; simpl; [|done].
  intros Hr. eapply rtc_l; [by eapply perform_step|by apply IH].
Qed.

(** * Leases are bounded *)

Definition count_id (id : string) (l : list string) : Z := count_if (fun x => bool_decide (x = id)) l.

Definition attempts (d : BillingDB) (id : string) : Z :=
  match webhook_events d !! key_of id with Some r => ev_Attempts r | None => 0 end.

(** A lease: the row was claimable, and it is marked as taken whether or not
    the worker hears of it. *)
Lemma claim_leased c owner locked d :
  (leased c owner locked d = [] /\ snd (claim s cfg c owner locked d) = d /\
   forall job, fst (claim s cfg c owner locked d) <> Ok (Some job)) \/
  exists id r, leased c owner locked d = [id] /\ webhook_events d !! key_of id = Some r /\
    claimable s cfg (c_tx_now c) (key_of id) r = true /\
    snd (claim s cfg c owner locked d)
    = set_events (<[key_of id := claimed_row (c_tx_now c) owner r]> (webhook_events d)) d /\
    (fst (claim s cfg c owner locked d) = Ok (Some (job_of (key_of id) (claimed_row (c_tx_now c) owner r)))
     \/ is_ok (fst (claim s cfg c owner locked d)) = false).
Proof.
  unfold leased, claim, claim_statement.
  destruct (candidate s cfg _ locked d) as [[k r]|] eqn:Hc.
  - apply best_elem in Hc. apply list_elem_of_In, List.filter_In in Hc as [Hin Hc].
    apply list_elem_of_In, elem_of_map_to_list in Hin. bool_facts.
    assert (exists id, k = key_of id) as [id ->].
    { unfold claimable in *. bool_facts. exists (snd k). by destruct k; simplify_eq/=. }
    unfold autocommit. destruct (event_checks _ _); simpl.
    + destruct (c_outcome c BClaim); simpl; [right|left|right].
      * exists id, r. split_and!; try done. by left.
      * split_and!; done.
      * exists id, r. split_and!; try done. by right.
    + left. destruct (c_outcome c BClaim); done.
  - left. unfold autocommit. destruct (c_outcome c BClaim); done.
Qed.

Lemma attempts_insert d k r id :
  attempts (set_events (<[key_of k := r]> (webhook_events d)) d) id
  = if bool_decide (k = id) then ev_Attempts r else attempts d id.
Proof.
  unfold attempts. simpl. case_bool_decide as Hk.
  - subst. by rewrite lookup_insert_eq.
  - rewrite lookup_insert_ne by congruence. done.
Qed.

(** Only a lease changes the number of attempts. *)
Lemma attempts_same d d' id0 f :
  (forall r, ev_Attempts (f r) = ev_Attempts r) ->
  (webhook_events d' = webhook_events d \/
   exists r, webhook_events d !! key_of id0 = Some r /\
     webhook_events d' = <[key_of id0 := f r]> (webhook_events d)) ->
  forall id, attempts d' id = attempts d id.
Proof.
  intros Hf [He|(r & Hr & He)] id; unfold attempts; rewrite He; [done|].
  destruct (decide (id0 = id)) as [->|Hne].
  - rewrite lookup_insert_eq, Hr. apply Hf.
  - by rewrite lookup_insert_ne by congruence.
Qed.

Lemma EnqueueWebhook_attempts c raw h d id :
  attempts (snd (EnqueueWebhook s c raw h d)) id = attempts d id.
Proof.
  destruct (EnqueueWebhook_events s c raw h d) as [He|r Hn Ha _ He|r Hr He].
  - unfold attempts. by rewrite He.
  - unfold attempts. rewrite He. destruct (decide (event_id raw = id)) as [<-|Hne].
    + by rewrite lookup_insert_eq, Hn.
    + by rewrite lookup_insert_ne by congruence.
  - eapply (attempts_same _ _ (event_id raw) (touched_row (c_tx_now c))); eauto.
Qed.

Lemma ProcessWebhookEvent_attempts c eid raw d id :
  attempts (snd (ProcessWebhookEvent s c eid raw d)) id = attempts d id.
Proof.
  destruct (ProcessWebhookEvent s c eid raw d) as [res d'] eqn:E. simpl.
  apply ProcessWebhookEvent_events in E. destruct (commits_effect _ _ _ _ _); [|by subst].
  destruct E as (r & st & Hr & _ & _ & _ & He).
  eapply (attempts_same _ _ eid (finished_row (c_tx_now c) st)); eauto.
Qed.

Lemma finalizeFailure_attempts c eid perm e d id :
  attempts (snd (finalizeFailure s cfg c eid perm e d)) id = attempts d id.
Proof.
  destruct (finalizeFailure s cfg c eid perm e d) as [res d'] eqn:E. simpl.
  apply finalizeFailure_events in E as [->|(r & dead & msg & delay & Hr & ->)]; [done|].
  eapply (attempts_same _ _ eid (failed_row (c_tx_now c) dead msg delay)); eauto.
Qed.

Lemma claim_attempts c owner locked d id :
  attempts (snd (claim s cfg c owner locked d)) id
  = count_id id (leased c owner locked d) + attempts d id /\
  (0 < count_id id (leased c owner locked d) -> attempts d id < MaxAttempts cfg).
Proof.
  destruct (claim_leased c owner locked d) as [(-> & -> & _)|(k & r & -> & Hr & Hc & -> & _)].
  { split; [done|]. intros Hl. by vm_compute in Hl. }
  rewrite attempts_insert. unfold count_id, count_if, claimable in *. simpl. apply andb_true_iff in Hc as [Hc _].
  bool_facts. case_bool_decide as Hk; simpl; [|split; [done|lia]]. subst.
  unfold attempts. rewrite Hr. lia.
Qed.

(** * At most one business effect *)

(** The row of a job that has its lease is the one it was leased with, until
    its processing commits. *)
Definition job_row_ok (d : BillingDB) (j : inflight) : Prop :=
  exists r, webhook_events d !! key_of (if_id j) = Some r /\
    ((ev_Status r = Processing /\ ev_LockedAt r = Some (if_claimed j) /\
      (if_error j = None -> ev_Payload r = qw_Payload (if_job j))) \/
     (is_Some (if_error j) /\ (ev_Status r = Processed \/ ev_Status r = Ignored))).

Record queue_inv (st : system) : Prop := {
  qi_rows : forall j, j ∈ sy_jobs st -> live (sy_now st) j = true -> job_row_ok (sy_db st) j;
  qi_unique : NoDup (map if_id (List.filter (live (sy_now st)) (sy_jobs st)));
  qi_erased : forall id, id ∈ sy_effects st ->
    exists r, webhook_events (sy_db st) !! key_of id = Some r /\ ev_Payload r = empty_payload;
  qi_once : NoDup (sy_effects st);
}.

(** A change of one row that keeps what matters of it. *)
Lemma job_row_ok_other d d' id r j :
  webhook_events d' = <[key_of id := r]> (webhook_events d) -> if_id j <> id ->
  job_row_ok d j -> job_row_ok d' j.
Proof.
  intros He Hne (r0 & Hr0 & Hj). exists r0. split; [|done].
  rewrite He, lookup_insert_ne; [done|congruence].
Qed.

Lemma erased_preserved d d' id r r' id0 :
  webhook_events d !! key_of id = Some r ->
  webhook_events d' = <[key_of id := r']> (webhook_events d) ->
  (ev_Payload r = empty_payload -> ev_Payload r' = empty_payload) ->
  (exists q, webhook_events d !! key_of id0 = Some q /\ ev_Payload q = empty_payload) ->
  exists q, webhook_events d' !! key_of id0 = Some q /\ ev_Payload q = empty_payload.
Proof.
  intros Hr He Hp (q & Hq & Hqp). rewrite He. destruct (decide (id = id0)) as [->|Hne].
  - rewrite lookup_insert_eq. assert (q = r) as -> by congruence. eauto.
  - rewrite lookup_insert_ne by congruence. eauto.
Qed.

(** Time passes: fewer jobs have their lease. *)
Lemma live_mono now t j : now <= t -> live t j = true -> live now j = true.
Proof. unfold live. intros Hle Hl. bool_facts. apply Z.leb_le. lia. Qed.

Lemma NoDup_live_mono now t l :
  now <= t -> NoDup (map if_id (List.filter (live now) l)) ->
  NoDup (map if_id (List.filter (live t) l)).
Proof.
  intros Hle. induction l as [|j l IH]; simpl; [done|].
  destruct (live t j) eqn:Ht.
  - rewrite (live_mono now t j) by done. simpl. rewrite !NoDup_cons.
    intros [Hj Hn]. split; [|auto]. intros Hin. apply Hj.
    apply list_elem_of_fmap in Hin as (j' & -> & Hj'). apply list_elem_of_fmap. exists j'.
    split; [done|]. apply list_elem_of_In, List.filter_In in Hj' as [Hin Hl].
    apply list_elem_of_In, List.filter_In. split; [done|]. by apply (live_mono now t).
  - destruct (live now j); simpl; [rewrite NoDup_cons; intros [_ ?]|intros ?]; auto.
Qed.

(** The other jobs with a lease are for other events. *)
Lemma other_live_ids st j before after j' :
  queue_inv st -> sy_jobs st = before ++ j :: after -> live (sy_now st) j = true ->
  j' ∈ before ++ after -> live (sy_now st) j' = true -> if_id j' <> if_id j.
Proof.
  intros Hi Hj Hl Hin Hl' He. pose proof (qi_unique _ Hi) as Hn. rewrite Hj in Hn.
  rewrite List.filter_app in Hn. simpl in Hn. rewrite Hl, map_app in Hn. simpl in Hn.
  apply NoDup_app in Hn as (_ & Hb & Hn). apply NoDup_cons in Hn as [Ha _].
  assert (forall l, j' ∈ l -> if_id j ∈ map if_id (List.filter (live (sy_now st)) l)) as Hm.
  { intros l Hjl. rewrite <- He. apply list_elem_of_fmap. exists j'. split; [done|].
    apply list_elem_of_In, List.filter_In. split; [by apply list_elem_of_In|done]. }
  apply elem_of_app in Hin as [Hin|Hin].
  - apply (Hb (if_id j)); [by apply Hm|]. by left.
  - by apply Ha, Hm.
Qed.

Lemma NoDup_live_remove now j before after :
  NoDup (map if_id (List.filter (live now) (before ++ j :: after))) ->
  NoDup (map if_id (List.filter (live now) (before ++ after))).
Proof.
  rewrite !List.filter_app, !map_app. simpl. destruct (live now j); simpl; [|done].
  intros Hn. apply NoDup_app in Hn as (H1' & H2' & H3'). apply NoDup_cons in H3' as [_ H3'].
  apply NoDup_app. split_and!; [done| |done]. intros x Hx Hx'. apply (H2' x Hx). by right.
Qed.

Lemma NoDup_live_same now j j' before after :
  if_id j = if_id j' -> if_claimed j = if_claimed j' ->
  NoDup (map if_id (List.filter (live now) (before ++ j :: after))) ->
  NoDup (map if_id (List.filter (live now) (before ++ j' :: after))).
Proof.
  intros He Hc. rewrite !List.filter_app, !map_app. simpl.
  assert (live now j = live now j') as -> by (unfold live; by rewrite Hc).
  destruct (live now j'); simpl; [by rewrite He|done].
Qed.

(** A row under a lease, or finished, cannot be leased. *)
Lemma live_not_claimable st j r :
  queue_inv st -> j ∈ sy_jobs st -> live (sy_now st) j = true ->
  webhook_events (sy_db st) !! key_of (if_id j) = Some r ->
  claimable s cfg (sy_now st) (key_of (if_id j)) r = false.
Proof.
  intros Hi Hin Hl Hr. destruct (qi_rows _ Hi j Hin Hl) as (r0 & Hr0 & Hj).
  assert (r0 = r) as -> by congruence. unfold claimable.
  destruct Hj as [(-> & -> & _)|(_ & [-> | ->])]; unfold live in Hl; bool_facts;
    rewrite ?(bool_decide_eq_false_2 (_ \/ _)) by (by intros [?|?]); simpl;
    rewrite ?(proj2 (Z.ltb_ge (if_claimed j) _)) by lia; rewrite ?andb_false_r; done.
Qed.

(** C7. However the workers run, crash and lose acknowledgements, an event is
    leased exactly as often as its row says, and never more than [MaxAttempts]
    times. *)
Theorem leases_bounded timely d now st :
  fresh d -> 0 <= MaxAttempts cfg -> reachable timely d now st ->
  forall id, count_id id (sy_leases st) = attempts (sy_db st) id /\
             attempts (sy_db st) id <= MaxAttempts cfg.
Proof.
  intros Hf Hmax Hr. revert st Hr. refine (rtc_ind_r _ _ _ _).
  { intros id. unfold attempts. simpl. by rewrite Hf. }
  intros st st' _ Hs IH id. specialize (IH id).
  destruct Hs as [| | |st c j before after ? ? ? ?|st c j e before after ? ? ? ?|]; simpl; try done.
  - by rewrite EnqueueWebhook_attempts.
  - unfold count_id in *. rewrite count_if_app.
    destruct (claim_attempts c owner locked (sy_db st) id) as [-> Hlt]. unfold count_id in Hlt.
    pose proof (count_if_bounds (fun x => bool_decide (x = id)) (leased c owner locked (sy_db st))).
    assert (count_if (fun x => bool_decide (x = id)) (leased c owner locked (sy_db st)) <= 1).
    { destruct (claim_leased c owner locked (sy_db st)) as [(-> & _)|(k & r & -> & _)]; simpl in *;
        unfold count_if; simpl; [lia|]. case_bool_decide; simpl; lia. }
    unfold count_id in *. lia.
  - by rewrite ProcessWebhookEvent_attempts.
  - by rewrite finalizeFailure_attempts.
Qed.

(** * The tables stay well formed *)

Lemma EnqueueWebhook_subscriptions c raw h d :
  subscriptions (snd (EnqueueWebhook s c raw h d)) = subscriptions d.
Proof.
  unfold EnqueueWebhook. destruct (validateAndSanitizeWebhook raw h) as [[env san]|]; [|done].
  destruct (validateWebhookScope s env); [|done].
  assert (forall n d1, insert_event s (c_tx_now c) raw env san d = Ok (n, d1) ->
    subscriptions d1 = subscriptions d) as Hins.
  { unfold insert_event. intros n d1 Hi. destruct (jsonb_text san); [|done].
    destruct (negb _); [done|]. destruct (webhook_events d !! _); by inv_ok. }
  destruct (autocommit c BInsertEvent d _) as [res d1] eqn:E1.
  apply autocommit_cases in E1 as [[-> Hr]|(n & Hn & Hr)]; [by destruct res|].
  apply Hins in Hn. destruct res as [n'|]; [|done]. destruct (n' =? 1); [done|].
  destruct (autocommit c BTouchDuplicate d1 _) as [res2 d2] eqn:E2.
  apply autocommit_cases in E2 as [[-> Hr2]|(st & Hst & Hr2)]; [by destruct res2|].
  unfold touch_duplicate in Hst. destruct (webhook_events d1 !! _); [|done].
  destruct (event_checks _ _); [|done]. inv_ok. by destruct res2.
Qed.

Lemma ProcessWebhookEvent_wf c id raw d :
  subscriptions_wf (subscriptions d) ->
  subscriptions_wf (subscriptions (snd (ProcessWebhookEvent s c id raw d))).
Proof.
  intros Hw. unfold ProcessWebhookEvent. destruct (process_tx s c id raw d) as [[r d1]|] eqn:E; [|done].
  assert (subscriptions_wf (subscriptions d1)) as Hw1.
  { unfold process_tx in E.
    apply rbind_ok in E as ([env name] & _ & E). apply rbind_ok in E as (? & _ & E).
    apply rbind_ok in E as (est & _ & E). destruct (_ || _); [by inv_ok|].
    apply rbind_ok in E as ([st d2] & Hev & E). apply rbind_ok in E as (d3 & Hf & E). inv_ok.
    apply process_event_wf in Hev; [|done].
    unfold finishProductionWebhook in Hf. apply exec_ok in Hf as [_ Hf]. unfold update_event in Hf.
    destruct (webhook_events d2 !! _); [destruct (event_checks _ _); [|done]|]; by inv_ok. }
  unfold autocommit. by destruct (c_outcome c BCommit).
Qed.

(** In every state the queue reaches, in time or not, the subscriptions have
    one row per provider subscription, one row per order, and satisfy the checks
    of their table. *)
Theorem subscriptions_stay_wf timely d now st :
  subscriptions_wf (subscriptions d) -> reachable timely d now st ->
  subscriptions_wf (subscriptions (sy_db st)).
Proof.
  intros Hd Hr. revert st Hr. refine (rtc_ind_r _ _ _ _); [done|].
  intros st st' _ Hs IH.
  destruct Hs as [| |st c owner locked Hc|st c j before after ? ? ? ?|st c j e before after ? ? ? ?|]; simpl; try done.
  - by rewrite EnqueueWebhook_subscriptions.
  - destruct (claim_leased c owner locked (sy_db st)) as [(_ & -> & _)|(id & r & _ & _ & _ & -> & _)]; done.
  - by apply ProcessWebhookEvent_wf.
  - destruct (finalizeFailure s cfg c _ _ e (sy_db st)) as [res d'] eqn:E.
    apply finalizeFailure_events in E as [->|(r & dead & msg & delay & Hr & ->)]; done.
Qed.

(** * Events that stay behind *)

(** No worker holds the event, which has used all its attempts. *)
Definition exhausted (id : string) (st : system) : Prop :=
  (exists r, webhook_events (sy_db st) !! key_of id = Some r /\ ev_Status r = Processing /\
     MaxAttempts cfg <= ev_Attempts r) /\
  forall j, j ∈ sy_jobs st -> if_id j <> id.

Lemma elem_of_remove {A} (l before after : list A) x y :
  l = before ++ x :: after -> y ∈ before ++ after -> y ∈ l.
Proof. intros ->. rewrite !elem_of_app, elem_of_cons. tauto. Qed.

Lemma step_exhausted timely id st st' : step timely st st' -> exhausted id st -> exhausted id st'.
Proof.
  assert (forall d d' id' r', webhook_events d' = <[key_of id' := r']> (webhook_events d) ->
    id' <> id -> (exists r, webhook_events d !! key_of id = Some r /\ ev_Status r = Processing /\
      MaxAttempts cfg <= ev_Attempts r) ->
    exists r, webhook_events d' !! key_of id = Some r /\ ev_Status r = Processing /\
      MaxAttempts cfg <= ev_Attempts r) as Hother.
  { intros d d' id' r' He Hne (q & Hq & Hrest). exists q. split; [|done].
    rewrite He, lookup_insert_ne; [done|congruence]. }
  intros Hs [(r & Hr & Hst & Ha) Hj].
  assert (exists r, webhook_events (sy_db st) !! key_of id = Some r /\ ev_Status r = Processing /\
    MaxAttempts cfg <= ev_Attempts r) as Hrow by eauto.
  destruct Hs as [st t Ht|st c raw header Hc|st c owner locked Hc
    |st c j before after Hjs He Hc Hl|st c j e before after Hjs He Hc Hl|st j before after Hjs];
    split; simpl; try done.
  - destruct (EnqueueWebhook_events s c raw header (sy_db st)) as [He|r' Hn _ _ He|r' Hr' He].
    + by rewrite He.
    + eapply Hother; [done| |done]. intros <-. congruence.
    + destruct (decide (event_id raw = id)) as [<-|Hne]; [|by eapply Hother].
      assert (r' = r) as -> by congruence. rewrite He, lookup_insert_eq. eexists. split; [done|]. done.
  - destruct (claim_leased c owner locked (sy_db st)) as [(_ & -> & _)|(id' & r' & _ & Hr' & Hcl & -> & _)]; [done|].
    eapply Hother; [done| |done]. intros <-. assert (r' = r) as -> by congruence.
    unfold claimable in Hcl. bool_facts. lia.
  - intros j. destruct (claim_leased c owner locked (sy_db st)) as [(_ & _ & Hno)|(id' & r' & _ & Hr' & Hcl & _ & Hres)].
    + destruct (fst _) as [[job|]|]; [by destruct (Hno job)|apply Hj|apply Hj].
    + destruct Hres as [-> |Herr]; [|destruct (fst _); [done|apply Hj]].
      intros [->|Hin]%elem_of_cons; [|by apply Hj]. unfold if_id. simpl. intros ->.
      assert (r' = r) as -> by congruence. unfold claimable in Hcl. bool_facts. lia.
  - destruct (ProcessWebhookEvent s c _ _ (sy_db st)) as [res d'] eqn:E.
    apply ProcessWebhookEvent_events in E. destruct (commits_effect _ _ _ _ _); [|by subst].
    destruct E as (r0 & st0 & Hr0 & _ & _ & _ & E). eapply Hother; [done| |done].
    apply Hj. rewrite Hjs. apply elem_of_app. right. by left.
  - assert (forall j', j' ∈ before ++ after -> if_id j' <> id) as Hrem.
    { intros j' Hj'. by eapply Hj, elem_of_remove. }
    assert (if_id j <> id) as Hjid by (apply Hj; rewrite Hjs; apply elem_of_app; right; by left).
    destruct (fst _); [done|]. intros j'. rewrite elem_of_app, elem_of_cons.
    intros [?|[->|?]]; [|done|]; apply Hrem, elem_of_app; auto.
  - destruct (finalizeFailure s cfg c _ _ e (sy_db st)) as [res d'] eqn:E.
    apply finalizeFailure_events in E as [->|(r0 & dead & msg & delay & Hr0 & ->)]; [done|].
    eapply Hother; [done| |done]. apply Hj. rewrite Hjs. apply elem_of_app. right. by left.
  - intros j' Hj'. by eapply Hj, elem_of_remove.
  - intros j' Hj'. by eapply Hj, elem_of_remove.
Qed.

(** An event whose worker is lost during its last attempt stays in processing
    for ever: it is never leased again, and never reported as dead. *)
Theorem exhausted_event_stuck timely id st st' :
  exhausted id st -> rtc (step timely) st st' ->
  exists r, webhook_events (sy_db st') !! key_of id = Some r /\ ev_Status r = Processing.
Proof.
  intros He Hr. assert (exhausted id st') as [(r & Hrow & Hst & _) _]; [|eauto].
  induction Hr as [|x y z Hxy _ IH]; [done|]. apply IH. by eapply step_exhausted.
Qed.

Hypothesis decode_empty : exists rest, decode_envelope empty_payload = Some (zero_envelope, rest).

(** An erased payload is not an event. *)
Lemma empty_payload_rejected c id d e :
  process_tx s c id empty_payload d = e -> is_ok e = false.
Proof.
  intros <-. unfold process_tx, decode_event. destruct decode_empty as [rest ->].
  destruct (_ || _); [done|]. simpl.
  change (isSupportedWebhookEvent (TrimSpace EmptyString)) with false. done.
Qed.

(** Deliveries. *)
Lemma delivered_keeps now id d d' :
  delivered s now id (webhook_events d) (webhook_events d') ->
  (forall j, job_row_ok d j -> job_row_ok d' j) /\
  (forall id0, (exists q, webhook_events d !! key_of id0 = Some q /\ ev_Payload q = empty_payload) ->
     exists q, webhook_events d' !! key_of id0 = Some q /\ ev_Payload q = empty_payload).
Proof.
  intros [He|r Hn _ _ He|r Hr He]; split.
  - intros j (r & Hj). exists r. by rewrite He.
  - intros id0 Hq. by rewrite He.
  - intros j Hj. destruct (decide (if_id j = id)) as [<-|Hne]; [|by eapply job_row_ok_other].
    destruct Hj as (r0 & Hr0 & _). congruence.
  - intros id0 (q & Hq & Hp). exists q. split; [|done]. rewrite He, lookup_insert_ne; [done|congruence].
  - intros j Hj. destruct (decide (if_id j = id)) as [<-|Hne]; [|by eapply job_row_ok_other].
    destruct Hj as (r0 & Hr0 & Hj). assert (r0 = r) as -> by congruence.
    exists (touched_row now r). split; [by rewrite He, lookup_insert_eq|done].
  - intros id0. by eapply erased_preserved.
Qed.

(** Leases. *)
Lemma claim_queue_inv st c owner locked :
  c_tx_now c = sy_now st -> queue_inv st ->
  queue_inv
    {| sy_db := snd (claim s cfg c owner locked (sy_db st)); sy_now := sy_now st;
       sy_jobs :=
         match fst (claim s cfg c owner locked (sy_db st)) with
         | Ok (Some job) =>
             {| if_job := job; if_claimed := sy_now st; if_error := None |} :: sy_jobs st
         | _ => sy_jobs st
         end;
       sy_effects := sy_effects st;
       sy_leases := leased c owner locked (sy_db st) ++ sy_leases st |}.
Proof.
  intros Hc Hi. destruct (claim_leased c owner locked (sy_db st))
    as [(-> & -> & Hno)|(id & r & -> & Hr & Hcl & Hd & Hres)].
  { destruct Hi as [Hrows Hu He Ho].
    destruct (fst _) as [[job|]|]; [by destruct (Hno job)|done|done]. }
  rewrite Hc in *.
  assert (forall j, j ∈ sy_jobs st -> live (sy_now st) j = true -> if_id j <> id) as Hfresh.
  { intros j Hj Hl <-. by rewrite (live_not_claimable st j r) in Hcl. }
  set (r' := claimed_row (sy_now st) owner r) in *.
  set (d' := snd (claim s cfg c owner locked (sy_db st))) in *.
  assert (webhook_events d' = <[key_of id := r']> (webhook_events (sy_db st))) as Hd' by (by rewrite Hd).
  assert (forall j, j ∈ sy_jobs st -> live (sy_now st) j = true -> job_row_ok d' j) as Hold.
  { intros j Hj Hl. eapply job_row_ok_other; [done|by apply Hfresh|by apply (qi_rows _ Hi)]. }
  assert (forall id0, id0 ∈ sy_effects st ->
    exists q, webhook_events d' !! key_of id0 = Some q /\ ev_Payload q = empty_payload) as Her.
  { intros id0 H0'. eapply erased_preserved; [done..| |by apply (qi_erased _ Hi)]. done. }
  destruct Hres as [-> |Herr].
  - split; simpl; [| |done|apply (qi_once _ Hi)].
    + intros j [->|Hj]%elem_of_cons Hl; [|by apply Hold].
      exists r'. unfold if_id. simpl. rewrite Hd', lookup_insert_eq. split; [done|]. by left.
    + set (j := {| if_job := _; if_claimed := _; if_error := _ |}).
      destruct (live (sy_now st) j); [|apply (qi_unique _ Hi)]. simpl. apply NoDup_cons.
      split; [|apply (qi_unique _ Hi)]. intros Hin. apply list_elem_of_fmap in Hin as (j' & Hid & Hj').
      apply list_elem_of_In, List.filter_In in Hj' as [Hj' Hl']. apply list_elem_of_In in Hj'.
      by apply (Hfresh j' Hj' Hl').
  - destruct (fst _) as [[job|]|]; [done..|].
    split; simpl; [done|apply (qi_unique _ Hi)|done|apply (qi_once _ Hi)].
Qed.

(** Processing within the lease. *)
Lemma process_queue_inv st c j before after :
  sy_jobs st = before ++ j :: after -> if_error j = None ->
  live (sy_now st) j = true -> queue_inv st ->
  queue_inv
    {| sy_db := snd (ProcessWebhookEvent s c (if_id j) (qw_Payload (if_job j)) (sy_db st));
       sy_now := sy_now st;
       sy_jobs :=
         match fst (ProcessWebhookEvent s c (if_id j) (qw_Payload (if_job j)) (sy_db st)) with
         | Ok _ => before ++ after
         | Err e =>
             before ++ {| if_job := if_job j; if_claimed := if_claimed j; if_error := Some e |} :: after
         end;
       sy_effects :=
         (if commits_effect s c (if_id j) (qw_Payload (if_job j)) (sy_db st)
          then [if_id j] else []) ++ sy_effects st;
       sy_leases := sy_leases st |}.
Proof.
  intros Hj He Hl Hi.
  assert (j ∈ sy_jobs st) as Hin by (rewrite Hj; apply elem_of_app; right; by left).
  assert (forall j', j' ∈ before ++ after -> j' ∈ sy_jobs st) as Hsub.
  { intros j'. rewrite Hj, !elem_of_app, elem_of_cons. tauto. }
  pose proof (other_live_ids st j before after) as Hother.
  destruct (qi_rows _ Hi j Hin Hl) as (r & Hr & Hrow).
  destruct Hrow as [(Hst & Hlock & Hpay)|[[] _]]; [|congruence]. specialize (Hpay He).
  destruct (ProcessWebhookEvent s c _ _ (sy_db st)) as [res d'] eqn:E. simpl.
  pose proof (ProcessWebhookEvent_events s c _ _ _ _ _ E) as Hev.
  set (j1 := fun e => {| if_job := if_job j; if_claimed := if_claimed j; if_error := Some e |}).
  assert (forall d1, (forall j', j' ∈ before ++ after -> live (sy_now st) j' = true -> job_row_ok d1 j') ->
    (forall e, job_row_ok d1 (j1 e)) -> d1 = d' ->
    forall j', j' ∈ match res with Ok _ => before ++ after | Err e => before ++ j1 e :: after end ->
      live (sy_now st) j' = true -> job_row_ok d' j') as Hcomb.
  { intros d1 H1' H2' <- j'. destruct res; [auto|]. rewrite elem_of_app, elem_of_cons.
    intros [?|[->|?]] ?; [apply H1'; [apply elem_of_app|]; tauto|auto|apply H1'; [apply elem_of_app|]; tauto]. }
  assert (NoDup (map if_id (List.filter (live (sy_now st))
    match res with Ok _ => before ++ after | Err e => before ++ j1 e :: after end))) as Hu.
  { pose proof (qi_unique _ Hi) as Hu. rewrite Hj in Hu. destruct res as [|e].
    - by apply NoDup_live_remove in Hu.
    - by apply (NoDup_live_same _ j (j1 e)) in Hu. }
  destruct (commits_effect _ _ _ _ _) eqn:Hce.
  - destruct Hev as (r0 & st0 & Hr0 & _ & _ & Hst0 & Hd'). assert (r0 = r) as -> by congruence.
    split; simpl; [|done| |].
    + eapply Hcomb; [| |done].
      * intros j' Hj' Hl'. eapply job_row_ok_other; [done|by apply Hother|by apply (qi_rows _ Hi); auto].
      * intros e. exists (finished_row (c_tx_now c) st0 r). unfold if_id. simpl.
        rewrite Hd', lookup_insert_eq. split; [done|]. right. simpl. split; [done|]. naive_solver.
    + intros id [->|Hid]%elem_of_cons.
      * rewrite Hd', lookup_insert_eq. eauto.
      * eapply erased_preserved; [done..| |by apply (qi_erased _ Hi)]. done.
    + apply NoDup_cons. split; [|apply (qi_once _ Hi)]. intros Hid.
      destruct (qi_erased _ Hi _ Hid) as (q & Hq & Hqp). assert (q = r) as -> by congruence.
      unfold commits_effect in Hce. rewrite <- Hpay, Hqp in Hce.
      pose proof (empty_payload_rejected c (if_id j) (sy_db st) _ eq_refl) as Hrej.
      by destruct (process_tx s c (if_id j) empty_payload (sy_db st)).
  - subst d'. split; simpl; [|done|apply (qi_erased _ Hi)|apply (qi_once _ Hi)].
    eapply Hcomb; [| |done].
    + intros j' Hj' Hl'. apply (qi_rows _ Hi); auto.
    + intros e. exists r. split; [done|]. left. done.
Qed.

(** Finalization within the lease. *)
Lemma finalize_queue_inv st c j before after e :
  sy_jobs st = before ++ j :: after -> live (sy_now st) j = true -> queue_inv st ->
  queue_inv
    {| sy_db := snd (finalizeFailure s cfg c (if_id j) (is_invalid_webhook e) e (sy_db st));
       sy_now := sy_now st; sy_jobs := before ++ after;
       sy_effects := sy_effects st; sy_leases := sy_leases st |}.
Proof.
  intros Hj Hl Hi.
  assert (forall j', j' ∈ before ++ after -> j' ∈ sy_jobs st) as Hsub.
  { intros j'. rewrite Hj, !elem_of_app, elem_of_cons. tauto. }
  assert (NoDup (map if_id (List.filter (live (sy_now st)) (before ++ after)))) as Hu.
  { pose proof (qi_unique _ Hi) as Hu. rewrite Hj in Hu. by apply NoDup_live_remove in Hu. }
  destruct (finalizeFailure s cfg c _ _ e (sy_db st)) as [res d'] eqn:E. simpl.
  apply finalizeFailure_events in E as [->|(r & dead & msg & delay & Hr & ->)].
  - split; simpl; [|done|apply (qi_erased _ Hi)|apply (qi_once _ Hi)].
    intros j' Hj' Hl'. apply (qi_rows _ Hi); auto.
  - split; simpl; [|done| |apply (qi_once _ Hi)].
    + intros j' Hj' Hl'. eapply job_row_ok_other; [done| |by apply (qi_rows _ Hi); auto].
      by apply (other_live_ids st j before after).
    + intros id Hid. set (r' := failed_row _ _ _ _ r).
      refine (erased_preserved (sy_db st)
        (set_events (<[key_of (if_id j) := r']> (webhook_events (sy_db st))) (sy_db st))
        (if_id j) r r' id Hr eq_refl (fun He => He) _).
      by apply (qi_erased _ Hi).
Qed.

Lemma step_queue_inv st st' : step true st st' -> queue_inv st -> queue_inv st'.
Proof.
  intros Hs Hi. destruct Hs as [st t Ht|st c raw header Hc|st c owner locked Hc
    |st c j before after Hj He Hc Hl|st c j e before after Hj He Hc Hl|st j before after Hj].
  - split; simpl; [|by eapply NoDup_live_mono, (qi_unique _ Hi)|apply (qi_erased _ Hi)|apply (qi_once _ Hi)].
    intros j Hj Hl. apply (qi_rows _ Hi); [done|]. by apply (live_mono _ t).
  - destruct (delivered_keeps _ _ _ _ (EnqueueWebhook_events s c raw header (sy_db st))) as [H1' H2'].
    split; simpl; [|apply (qi_unique _ Hi)| |apply (qi_once _ Hi)].
    + intros j Hj Hl. by apply H1', (qi_rows _ Hi).
    + intros id Hid. by apply H2', (qi_erased _ Hi).
  - by apply claim_queue_inv.
  - apply process_queue_inv; auto.
  - by apply finalize_queue_inv; auto.
  - split; simpl; [| |apply (qi_erased _ Hi)|apply (qi_once _ Hi)].
    + intros j' Hj' Hl. apply (qi_rows _ Hi); [|done]. rewrite Hj.
      apply elem_of_app in Hj' as [?|?]; apply elem_of_app; [by left|right; by right].
    + pose proof (qi_unique _ Hi) as Hu. rewrite Hj in Hu. by apply NoDup_live_remove in Hu.
Qed.

(** C2. If workers keep to their leases, the business changes of an event are
    committed at most once, whatever the number of workers, and whatever they
    lose: statements, commits, acknowledgements, or themselves. *)
Theorem effects_at_most_once d now st :
  reachable true d now st -> NoDup (sy_effects st).
Proof.
  intros Hr. apply qi_once. revert st Hr. refine (rtc_ind_r _ _ _ _).
  - split; simpl; try constructor; intros ? Hin; by apply elem_of_nil in Hin.
  - intros st st' _ Hs Hi. by apply (step_queue_inv st st').
Qed.
End system.

(** ** Concrete runs of the webhook queue: the witnesses of [BillingSystem], and the runs that show where the queue does not do what it means to. *)

#[local] Instance run_constraints : EventConstraints := queue_constraints.

Definition second_of (z : Z) : time := z * second.

(** The event a raw payload is stored as. *)
Definition id_of (raw : string) : string := event_id raw.

(** A subscription is created; then a failed payment is leased by a worker whose
    commit is applied but not acknowledged. *)
Definition lost_acknowledgement : list label :=
  [Receive (quiet (second_of 1000)) "created" "subscription_created";
   Claim (quiet (second_of 1000)) "a" [];
   Process (quiet (second_of 1000)) 0;
   Receive (quiet (second_of 1000)) "payment" "subscription_payment_failed";
   Claim (quiet (second_of 1000)) "a" [];
   Tick (second_of 1001);
   Process (failing (second_of 1001) at_commit (AckLost OutOther)) 0;
   Finalize (quiet (second_of 1001)) 0;
   Tick (second_of 1100);
   Claim (quiet (second_of 1100)) "a" [];
   Process (quiet (second_of 1100)) 0;
   Finalize (quiet (second_of 1100)) 0].

(** The same event, with a worker [a] that finalizes after its lease. *)
Definition late_finalization : list label :=
  [Receive (quiet (second_of 1000)) "created" "subscription_created";
   Claim (quiet (second_of 1000)) "a" [];
   Process (quiet (second_of 1000)) 0;
   Receive (quiet (second_of 1000)) "payment" "subscription_payment_failed";
   Claim (quiet (second_of 1000)) "a" [];
   Process (failing (second_of 1000) at_commit (Refused OutOther)) 0;
   Tick (second_of 1061);
   Claim (quiet (second_of 1061)) "b" [];
   Finalize (quiet (second_of 1061)) 1;
   Tick (second_of 1080);
   Claim (quiet (second_of 1080)) "c" [];
   Process (failing (second_of 1080) at_commit (AckLost OutOther)) 1;
   Finalize (quiet (second_of 1080)) 1;
   Process (quiet (second_of 1080)) 0].

Definition start : system := initial sample_db (second_of 1000).

(** The run of a worker that is lost during the last of its attempts. *)
Definition lost_worker : list label :=
  [Receive (quiet (second_of 1000)) "created" "subscription_created";
   Claim (quiet (second_of 1000)) "a" []; Crash 0;
   Tick (second_of 1100); Claim (quiet (second_of 1100)) "a" []; Crash 0;
   Tick (second_of 1200); Claim (quiet (second_of 1200)) "a" []; Crash 0].

(** A checkout user that cannot be looked up for a moment. *)
Definition lookup_outage : list label :=
  [Receive (quiet (second_of 1000)) "created" "subscription_created";
   Claim (quiet (second_of 1000)) "a" [];
   Process (failing (second_of 1000)
              (fun st => match st with BUserExists => true | _ => false end) (Refused OutOther)) 0;
   Finalize (quiet (second_of 1000)) 0].

(** The state at the end of a run. *)
Definition final (timely : bool) (ls : list label) : system :=
  default start (run sample_service sample_worker timely ls start).

(** What one looks at in a state: the status and the attempts of an event, and
    how often it had an effect. *)
Definition summary (st : system) (raw : string) : option (event_status * Z * Z) :=
  r ← webhook_events (sy_db st) !! (providerName sample_service, id_of raw);
  Some (ev_Status r, ev_Attempts r, count_id (id_of raw) (sy_effects st)).

Lemma final_reachable timely ls :
  is_Some (run sample_service sample_worker timely ls start) ->
  reachable sample_service sample_worker timely sample_db (second_of 1000) (final timely ls).
Proof. unfold final. intros [st Hst]. rewrite Hst. exact (run_steps _ _ _ ls _ _ Hst). Qed.

Lemma sample_fresh : fresh sample_service sample_db.
Proof. intros id. apply lookup_empty. Qed.

(** [is_Some] of a run, by evaluation. *)
Ltac runs := apply (bool_decide_unpack _); vm_compute; exact I.

(** * Where the queue falls short *)

(** A commit that is applied without being acknowledged makes the worker
    mark a processed event as failed; the retry finds the erased payload, and
    the event ends as a dead letter although its changes were made, once. *)
Theorem lost_acknowledgement_dead_letter :
  exists st, reachable sample_service sample_worker true sample_db (second_of 1000) st /\
    summary st "payment" = Some (DeadLetter, 2, 1).
Proof.
  exists (final true lost_acknowledgement).
  split; [apply final_reachable; runs|vm_compute; reflexivity].
Qed.

(** Nothing keeps a worker from finalizing after its lease, and the
    finalization does not look whose lease it ends: with one late finalization
    and one lost acknowledgement, the changes of an event are made twice. *)
Theorem late_finalization_repeats_effects :
  exists st, reachable sample_service sample_worker false sample_db (second_of 1000) st /\
    summary st "payment" = Some (Processed, 3, 2) /\ ~ NoDup (sy_effects st).
Proof.
  exists (final false late_finalization).
  split; [apply final_reachable; runs|]. split; [vm_compute; reflexivity|].
  intros Hn. apply (bool_decide_pack _) in Hn. by vm_compute in Hn.
Qed.

(** A failure of the query that looks the buyer up is taken for an unknown
    buyer: the event is given up at once, with attempts to spare, although the
    same event is processed when the query works. *)
Theorem lookup_outage_dead_letter :
  exists st st', reachable sample_service sample_worker true sample_db (second_of 1000) st /\
    summary st "created" = Some (DeadLetter, 1, 0) /\ 1 < MaxAttempts sample_worker /\
    reachable sample_service sample_worker true sample_db (second_of 1000) st' /\
    summary st' "created" = Some (Processed, 1, 1).
Proof.
  exists (final true lookup_outage), (final true lost_acknowledgement).
  split; [apply final_reachable; runs|]. split; [vm_compute; reflexivity|]. split; [done|].
  split; [apply final_reachable; runs|vm_compute; reflexivity].
Qed.

(** * With the constraints the migrations leave *)

(** Migration 0018 replaces the check of 0007 but not that of 0008, which
    knows no lease: every claim violates it, so that under all the migrations no
    event is ever leased or processed, whatever is queued. *)
Theorem migrated_claim_blocked `{Unicode, WebhookEncoding, Sha256} s cfg c owner locked d :
  snd (claim (H1 := migrated_constraints) s cfg c owner locked d) = d /\
  forall job, fst (claim (H1 := migrated_constraints) s cfg c owner locked d) <> Ok (Some job).
Proof.
  unfold claim, claim_statement.
  destruct (candidate s cfg _ locked d) as [[k r]|].
  - assert (event_checks (H := migrated_constraints) k (claimed_row (c_tx_now c) owner r) = false) as ->.
    { unfold event_checks. change (status_permitted (ev_Status (claimed_row (c_tx_now c) owner r))) with false.
      by rewrite !andb_false_r. }
    unfold autocommit. destruct (c_outcome c BClaim); done.
  - unfold autocommit. destruct (c_outcome c BClaim); done.
Qed.

(** * Witnesses of [BillingSystem] *)

Lemma leases_bounded_witness :
  count_id (id_of "payment") (sy_leases (final true lost_acknowledgement))
  = attempts sample_service (sy_db (final true lost_acknowledgement)) (id_of "payment") /\
  attempts sample_service (sy_db (final true lost_acknowledgement)) (id_of "payment") <= 3.
Proof.
  refine (leases_bounded sample_service sample_worker true sample_db (second_of 1000) _ sample_fresh _ _ _);
    [vm_compute; discriminate|apply final_reachable; runs].
Defined.

Lemma effects_at_most_once_witness :
  NoDup (sy_effects (final true lost_acknowledgement)) /\
  length (sy_effects (final true lost_acknowledgement)) = 2%nat.
Proof.
  split; [|vm_compute; reflexivity].
  refine (effects_at_most_once sample_service sample_worker sample_decode_empty sample_db (second_of 1000) _ _).
  apply final_reachable; runs.
Defined.

Lemma subscriptions_stay_wf_witness :
  subscriptions_wf (subscriptions (sy_db (final false late_finalization))) /\
  length (subscriptions (sy_db (final false late_finalization))) = 1%nat.
Proof.
  split; [|vm_compute; reflexivity].
  refine (subscriptions_stay_wf sample_service sample_worker false sample_db (second_of 1000) _ _ _).
  - split; [constructor|split; constructor].
  - apply final_reachable; runs.
Defined.

Lemma exhausted_event_stuck_witness :
  exists r, webhook_events (sy_db (final true lost_worker)) !! (providerName sample_service, id_of "created")
              = Some r /\ ev_Status r = Processing.
Proof.
  refine (exhausted_event_stuck sample_service sample_worker true (id_of "created")
    (final true lost_worker) _ _ (rtc_refl _ _)).
  split; [|intros j Hj; vm_compute in Hj; by apply elem_of_nil in Hj].
  eexists. split; [vm_compute; reflexivity|]. split; [reflexivity|vm_compute; discriminate].
Defined.
