(* ===== verification/Accounts.v ===== *)
(** Accounts: [internal/accounts/accounts.go], with the tables of
    [migrations/0007_accounts_entitlements.sql] and the length checks of
    [0008_account_integrity_constraints.sql].  The subscriptions are those of
    [BillingDB]. *)
From S2P Require Import Prelude GoLists GoBase Utf8 Webhook BillingDB Billing.
From Stdlib Require Export QArith.QArith_base.
Local Open Scope Z_scope.

(** * Tables *)

(** [app_users], by [auth_subject]. *)
Record user_row := {
  us_ID : string;
  us_Email : option string;
  us_DisplayName : option string;
  us_CreatedAt : time;
  us_UpdatedAt : time;
  us_LastLoginAt : option time;
}.

(** [user_entitlement_overrides], by user and key. *)
Record override_row := { ov_Value : string; ov_ExpiresAt : option time }.

(** [plan_entitlements] is kept by plan and key. *)
Record AccountsDB := {
  users : gmap string user_row;
  account_subscriptions : list subscription_row;
  plan_entitlements : gmap (string * string) string;
  overrides : gmap (string * string) override_row;
}.

Definition set_users (m : gmap string user_row) (d : AccountsDB) : AccountsDB :=
  {| users := m; account_subscriptions := account_subscriptions d;
     plan_entitlements := plan_entitlements d; overrides := overrides d |}.

(** * Answers *)

(** A decoded entitlement: the code asks for booleans and for numbers, which are
    finite [float64] values, hence rationals. *)
Inductive any_value :=
  | VBool (b : bool)
  | VNumber (q : Q)
  | VOther.

Record User := {
  u_ID : string;
  u_Email : option string;
  u_DisplayName : option string;
  u_CreatedAt : time;
  u_UpdatedAt : time;
  u_LastLoginAt : option time;
}.

Record Subscription := {
  s_Plan : string;
  s_Status : string;
  s_AccessUntil : option time;
}.

Record Access := {
  a_User : User;
  a_Subscription : Subscription;
  a_Entitlements : gmap string any_value;
}.

(** [authn.Identity]. *)
Record Identity := { id_Subject : string; id_Email : string; id_DisplayName : string }.

(** The statements of [Current], and its errors. *)
Inductive account_step := ASyncUser | AActiveSubscription | APermissions.
Inductive account_error :=
  | AccountNotConfigured
  | AccountStatement (step : account_step) (cause : db_failure)
  | EntitlementDecode.

(** The environment of a call: the [now()] of each statement, which are three
    transactions, the identifier the database generates, and what becomes of
    each statement. *)
Record account_call := {
  ac_now : account_step -> time;
  ac_new_id : string;
  ac_outcome : account_step -> outcome;
}.

(** [json.Unmarshal] of an entitlement. *)
Class EntitlementEncoding := decode_entitlement : string -> option any_value.

(** * The effective subscription *)

(** The [where] of [activeSubscription]; a comparison with a null is not
    true. *)
Definition grants_access (now : time) (r : subscription_row) : bool :=
  (bool_decide (sr_Status r ∈ ["trialing"; "active"])
   || (bool_decide (sr_Status r ∈ ["past_due"; "canceled"])
       && match sr_AccessUntil r with Some t => now <? t | None => false end))
  && match sr_AccessUntil r with Some t => now <? t | None => true end.

(** [case status when 'active' then 1 ... else 4 end] *)
Definition status_rank (status : string) : Z :=
  if bool_decide (status = "active") then 1
  else if bool_decide (status = "trialing") then 2
  else if bool_decide (status = "past_due") then 3
  else 4.

(** [coalesce(access_until, 'infinity')] *)
Definition until_ltb (a b : option time) : bool :=
  match a, b with
  | Some s, Some t => s <? t
  | Some _, None => true
  | None, _ => false
  end.

(** The [order by], read downwards. *)
Definition access_less : subscription_row -> subscription_row -> bool :=
  then_less (fun a b => status_rank (sr_Status b) <? status_rank (sr_Status a))
    (then_less (fun a b => until_ltb (sr_AccessUntil a) (sr_AccessUntil b))
       (fun a b => sr_UpdatedAt a <? sr_UpdatedAt b)).

Definition effective_row (now : time) (user : string) (l : list subscription_row)
    : option subscription_row :=
  best access_less (List.filter (fun r => bool_decide (sr_UserID r = user) && grants_access now r) l).

Definition free_subscription : Subscription :=
  {| s_Plan := "free"; s_Status := "none"; s_AccessUntil := None |}.

Definition effective_subscription (now : time) (user : string) (l : list subscription_row)
    : Subscription :=
  match effective_row now user l with
  | None => free_subscription
  | Some r =>
      {| s_Plan := sr_PlanCode r; s_Status := sr_Status r; s_AccessUntil := sr_AccessUntil r |}
  end.

(** * Synchronisation of the user *)

Definition or_else {A} (a b : option A) : option A :=
  match a with Some _ => a | None => b end.

Definition user_checks (subject : string) (r : user_row) : bool :=
  length_between 3 255 subject
  && null_or (length_between 0 320) (us_Email r)
  && null_or (length_between 0 160) (us_DisplayName r).

Definition sync_user (now : time) (new_id : string) (identity : Identity) (d : AccountsDB)
    : result db_failure (user_row * AccountsDB) :=
  let subject := id_Subject identity in
  let inserted :=
    {| us_ID := new_id; us_Email := nullif_empty (id_Email identity);
       us_DisplayName := nullif_empty (id_DisplayName identity);
       us_CreatedAt := now; us_UpdatedAt := now; us_LastLoginAt := Some now |} in
  if negb (user_checks subject inserted) then Err ConstraintViolation else
  let r :=
    match users d !! subject with
    | None => inserted
    | Some cur =>
        {| us_ID := us_ID cur;
           us_Email := or_else (us_Email inserted) (us_Email cur);
           us_DisplayName := or_else (us_DisplayName inserted) (us_DisplayName cur);
           us_CreatedAt := us_CreatedAt cur; us_UpdatedAt := now; us_LastLoginAt := Some now |}
    end in
  if user_checks subject r then Ok (r, set_users (<[subject := r]> (users d)) d)
  else Err ConstraintViolation.

(** * Entitlements *)

Definition unexpired (now : time) (o : override_row) : bool :=
  match ov_ExpiresAt o with None => true | Some t => now <? t end.

(** The rows of [permissions]: the entitlements of the plan with priority 0, the
    overrides of the user with priority 1. *)
Definition permission_rows (now : time) (plan user : string) (d : AccountsDB)
    : list (string * Z * string) :=
  map (fun '((_, key), v) => (key, 0, v))
    (List.filter (fun '((p, _), _) => bool_decide (p = plan)) (map_to_list (plan_entitlements d)))
  ++ map (fun '((_, key), o) => (key, 1, ov_Value o))
       (List.filter (fun '((u, _), o) => bool_decide (u = user) && unexpired now o)
          (map_to_list (overrides d))).

(** [order by entitlement_key, priority]; the collation of the keys does not
    matter to the map that is filled. *)
Definition permission_less : string * Z * string -> string * Z * string -> bool :=
  then_less (fun a b => str_ltb (fst (fst a)) (fst (fst b))) (fun a b => snd (fst a) <? snd (fst b)).

(** The loop that fills [entitlements]. *)
Fixpoint fill_entitlements `{EntitlementEncoding} (rows : list (string * Z * string))
    (m : gmap string any_value) : result account_error (gmap string any_value) :=
  match rows with
  | [] => Ok m
  | (key, _, raw) :: rows' =>
      match decode_entitlement raw with
      | None => Err EntitlementDecode
      | Some value => fill_entitlements rows' (<[key := value]> m)
      end
  end.

Section current.
Context `{EntitlementEncoding}.

Definition query {A} (c : account_call) (st : account_step) (a : A) : result account_error A :=
  match ac_outcome c st with
  | Done => Ok a
  | Refused cause | AckLost cause => Err (AccountStatement st (outage_failure cause))
  end.

Definition user_of (r : user_row) : User :=
  {| u_ID := us_ID r; u_Email := us_Email r; u_DisplayName := us_DisplayName r;
     u_CreatedAt := us_CreatedAt r; u_UpdatedAt := us_UpdatedAt r;
     u_LastLoginAt := us_LastLoginAt r |}.

(** The two queries after the synchronisation. *)
Definition resolve_access (c : account_call) (r : user_row) (d : AccountsDB)
    : result account_error Access :=
  let! subscription :=
    query c AActiveSubscription
      (effective_subscription (ac_now c AActiveSubscription) (us_ID r) (account_subscriptions d)) in
  let! rows :=
    query c APermissions
      (slice_stable permission_less
         (permission_rows (ac_now c APermissions) (s_Plan subscription) (us_ID r) d)) in
  let! entitlements := fill_entitlements rows ∅ in
  Ok {| a_User := user_of r; a_Subscription := subscription; a_Entitlements := entitlements |}.

Definition Current (c : account_call) (identity : Identity) (d : AccountsDB)
    : result account_error Access * AccountsDB :=
  if is_empty (TrimSpace (id_Subject identity)) then (Err AccountNotConfigured, d) else
  let synced := sync_user (ac_now c ASyncUser) (ac_new_id c) identity d in
  match ac_outcome c ASyncUser, synced with
  | Refused cause, _ => (Err (AccountStatement ASyncUser (outage_failure cause)), d)
  | AckLost cause, Ok (_, d') => (Err (AccountStatement ASyncUser (outage_failure cause)), d')
  | _, Err e => (Err (AccountStatement ASyncUser e), d)
  | Done, Ok (r, d') => (resolve_access c r d', d')
  end.

(** * Requirements *)

Definition BoolEnabled (value : any_value) : bool :=
  match value with VBool enabled => enabled | _ => false end.

Definition NumberAtLeast (minimum : Q) (value : any_value) : bool :=
  match value with VNumber number => Qle_bool minimum number | _ => false end.

(** What [RequireEntitlement] answers, or that it calls the next handler. *)
Inductive gate := GateUnauthorized | GateError | GateForbidden | GatePass.

Definition RequireEntitlement (c : account_call) (key : string)
    (requirement : option (any_value -> bool)) (identity : option Identity) (d : AccountsDB)
    : gate * AccountsDB :=
  match identity with
  | None => (GateUnauthorized, d)
  | Some identity =>
      match Current c identity d with
      | (Err _, d) => (GateError, d)
      | (Ok access, d) =>
          (match a_Entitlements access !! key, requirement with
           | Some value, Some requirement => if requirement value then GatePass else GateForbidden
           | _, _ => GateForbidden
           end, d)
      end
  end.

(** What [Me] and [Entitlements] answer. *)
Inductive account_answer :=
  | AMethodNotAllowed
  | AUnauthorized
  | AInternalError
  | AAccess (a : Access)
  | AEntitlements (s : Subscription) (m : gmap string any_value).

Definition respond (c : account_call) (method : string) (identity : option Identity)
    (entitlementsOnly : bool) (d : AccountsDB) : account_answer * AccountsDB :=
  if negb (bool_decide (method = "GET")) then (AMethodNotAllowed, d) else
  match identity with
  | None => (AUnauthorized, d)
  | Some identity =>
      match Current c identity d with
      | (Err _, d) => (AInternalError, d)
      | (Ok access, d) =>
          (if entitlementsOnly then AEntitlements (a_Subscription access) (a_Entitlements access)
           else AAccess access, d)
      end
  end.
End current.
