(* ===== verification/DomainJson.v ===== *)
(** How the requests of [internal/domain/market.go] are decoded: the keys of
    the [json] tags and the decoder of each field. *)
From S2P Require Import Prelude GoLists GoBase Dates Domain Json.
Local Open Scope Z_scope.

Definition zero_PriceIngest : PriceIngest :=
  {| pi_ObservedAt := zero_time; pi_LocationID := 0; pi_ItemKey := EmptyString; pi_Quality := 0;
     pi_SellPriceMin := None; pi_SellPriceMinAt := None; pi_BuyPriceMax := None;
     pi_BuyPriceMaxAt := None |}.

Definition zero_bucket : HistoryBucketIngest :=
  {| hb_Timestamp := zero_time; hb_ItemCount := 0; hb_AverageUnitPrice := None |}.

Definition zero_HistoryIngest : HistoryIngest :=
  {| hi_ObservedAt := zero_time; hi_LocationID := 0; hi_ItemKey := EmptyString; hi_Quality := 0;
     hi_History := [] |}.

Definition zero_price_request : IngestPricesRequest :=
  {| ip_RequestID := EmptyString; ip_Server := EmptyString; ip_Entries := [] |}.

Definition zero_history_request : IngestHistoryRequest :=
  {| ih_RequestID := EmptyString; ih_Server := EmptyString; ih_Entries := [] |}.

Definition opt_int64 : decoder (option Z) := dec_pointer 0 dec_int64.
Definition opt_time : decoder (option time) := dec_pointer zero_time dec_time.

(** The constructors, as patterns of the field updates below. *)
#[local] Abbreviation PI := Build_PriceIngest.
#[local] Abbreviation HB := Build_HistoryBucketIngest.
#[local] Abbreviation HI := Build_HistoryIngest.

Section decoders.
Context `{Unicode}.

Definition dec_PriceIngest : decoder PriceIngest :=
  dec_struct
    [("observed_at", field pi_ObservedAt (fun x '(PI _ l i q s sa b ba) => PI x l i q s sa b ba)
                       dec_time);
     ("location_id", field pi_LocationID (fun x '(PI o _ i q s sa b ba) => PI o x i q s sa b ba)
                       dec_int16);
     ("item_key", field pi_ItemKey (fun x '(PI o l _ q s sa b ba) => PI o l x q s sa b ba) dec_string);
     ("quality", field pi_Quality (fun x '(PI o l i _ s sa b ba) => PI o l i x s sa b ba) dec_int16);
     ("sell_price_min", field pi_SellPriceMin (fun x '(PI o l i q _ sa b ba) => PI o l i q x sa b ba)
                          opt_int64);
     ("sell_price_min_at", field pi_SellPriceMinAt
                             (fun x '(PI o l i q s _ b ba) => PI o l i q s x b ba) opt_time);
     ("buy_price_max", field pi_BuyPriceMax (fun x '(PI o l i q s sa _ ba) => PI o l i q s sa x ba)
                         opt_int64);
     ("buy_price_max_at", field pi_BuyPriceMaxAt
                            (fun x '(PI o l i q s sa b _) => PI o l i q s sa b x) opt_time)].

Definition dec_IngestPricesRequest : decoder IngestPricesRequest :=
  dec_struct
    [("request_id", field ip_RequestID
        (fun x r => {| ip_RequestID := x; ip_Server := ip_Server r; ip_Entries := ip_Entries r |})
        dec_string);
     ("server", field ip_Server
        (fun x r => {| ip_RequestID := ip_RequestID r; ip_Server := x; ip_Entries := ip_Entries r |})
        dec_string);
     ("entries", field ip_Entries
        (fun x r => {| ip_RequestID := ip_RequestID r; ip_Server := ip_Server r; ip_Entries := x |})
        (dec_slice zero_PriceIngest dec_PriceIngest))].

Definition dec_HistoryBucketIngest : decoder HistoryBucketIngest :=
  dec_struct
    [("timestamp", field hb_Timestamp (fun x '(HB _ n p) => HB x n p) dec_time);
     ("item_count", field hb_ItemCount (fun x '(HB t _ p) => HB t x p) dec_int64);
     ("average_unit_price", field hb_AverageUnitPrice (fun x '(HB t n _) => HB t n x) opt_int64)].

Definition dec_HistoryIngest : decoder HistoryIngest :=
  dec_struct
    [("observed_at", field hi_ObservedAt (fun x '(HI _ l i q h) => HI x l i q h) dec_time);
     ("location_id", field hi_LocationID (fun x '(HI o _ i q h) => HI o x i q h) dec_int16);
     ("item_key", field hi_ItemKey (fun x '(HI o l _ q h) => HI o l x q h) dec_string);
     ("quality", field hi_Quality (fun x '(HI o l i _ h) => HI o l i x h) dec_int16);
     ("history", field hi_History (fun x '(HI o l i q _) => HI o l i q x)
                   (dec_slice zero_bucket dec_HistoryBucketIngest))].

Definition dec_IngestHistoryRequest : decoder IngestHistoryRequest :=
  dec_struct
    [("request_id", field ih_RequestID
        (fun x r => {| ih_RequestID := x; ih_Server := ih_Server r; ih_Entries := ih_Entries r |})
        dec_string);
     ("server", field ih_Server
        (fun x r => {| ih_RequestID := ih_RequestID r; ih_Server := x; ih_Entries := ih_Entries r |})
        dec_string);
     ("entries", field ih_Entries
        (fun x r => {| ih_RequestID := ih_RequestID r; ih_Server := ih_Server r; ih_Entries := x |})
        (dec_slice zero_HistoryIngest dec_HistoryIngest))].

(** ** Queries *)

Definition zero_price_query : PriceQueryRequest :=
  {| pqr_Server := EmptyString; pqr_MarketKeys := []; pqr_Entries := [] |}.

Definition dec_PriceQueryEntry : decoder PriceQueryEntry :=
  dec_struct
    [("itemIdentifier", field pq_ItemKey
        (fun x e => {| pq_ItemKey := x; pq_Quality := pq_Quality e |}) dec_string);
     ("quality", field pq_Quality
        (fun x e => {| pq_ItemKey := pq_ItemKey e; pq_Quality := x |}) dec_int16)].

Definition dec_PriceQueryRequest : decoder PriceQueryRequest :=
  dec_struct
    [("server", field pqr_Server
        (fun x r => {| pqr_Server := x; pqr_MarketKeys := pqr_MarketKeys r;
                       pqr_Entries := pqr_Entries r |}) dec_string);
     ("marketKeys", field pqr_MarketKeys
        (fun x r => {| pqr_Server := pqr_Server r; pqr_MarketKeys := x;
                       pqr_Entries := pqr_Entries r |}) (dec_slice EmptyString dec_string));
     ("entries", field pqr_Entries
        (fun x r => {| pqr_Server := pqr_Server r; pqr_MarketKeys := pqr_MarketKeys r;
                       pqr_Entries := x |})
        (dec_slice {| pq_ItemKey := EmptyString; pq_Quality := 0 |} dec_PriceQueryEntry))].
End decoders.

(** Requests as they arrive. *)
Definition sample_price_body : string := quoted
  "{'request_id':'00112233-4455-6677-8899-aabbccddeeff','server':'west','entries':[{'observed_at':'2026-06-26T12:00:00Z','location_id':4002,'item_key':'T4_BAG','quality':1,'sell_price_min':4500,'sell_price_min_at':'2026-06-26T11:59:00.5Z','buy_price_max':null,'buy_price_max_at':null}]}".

Definition sample_price_entry : PriceIngest :=
  {| pi_ObservedAt := 1782475200 * second; pi_LocationID := 4002; pi_ItemKey := "T4_BAG";
     pi_Quality := 1; pi_SellPriceMin := Some 4500;
     pi_SellPriceMinAt := Some (1782475140 * second + second / 2);
     pi_BuyPriceMax := None; pi_BuyPriceMaxAt := None |}.

Definition sample_price_request : IngestPricesRequest :=
  {| ip_RequestID := "00112233-4455-6677-8899-aabbccddeeff"; ip_Server := "west";
     ip_Entries := [sample_price_entry] |}.

Example decode_price_request :
  let U := plain_unicode in
  decode_next dec_IngestPricesRequest zero_price_request
    {| st_bytes := sample_price_body; st_end := AtEOF |}
  = Ok (sample_price_request, {| st_bytes := EmptyString; st_end := AtEOF |}).
Proof. vm_compute. reflexivity. Qed.

(** An unknown field, a number where a string is expected, and a field whose name
    differs in case only. *)
Example decode_variants :
  let U := plain_unicode in
  map (fun s => rmap_err (fun e => match e with DType => true | _ => false end)
                  (decode_next dec_IngestPricesRequest zero_price_request
                     {| st_bytes := quoted s; st_end := AtEOF |}))
    ["{'extra':1}"; "{'server':5}"; "{'SERVER':'east'} "]
  = [Err true; Err true;
     Ok ({| ip_RequestID := EmptyString; ip_Server := "east"; ip_Entries := [] |},
         {| st_bytes := " "; st_end := AtEOF |})].
Proof. vm_compute. reflexivity. Qed.
