(* ===== verification/Http.v ===== *)
(** What the handlers read of an [http.Request] and what they write, with the
    parts of [mime] and [strconv] they use, and the helpers of package
    [internal/handlers] on them. *)
From S2P Require Import Prelude GoLists GoBase Float64 Dates IngestAuth Webhook BillingDB Billing Accounts Json.
Local Open Scope Z_scope.

(** * Requests and responses

    A header is looked up by its name, a parameter of the query by its key, and a
    part of the path by the name the route gives it; what is absent is the empty
    string.  The identity and the correlation identifier are those of the context
    of the request. *)
Record HttpRequest := {
  hr_Method : string;
  hr_TLS : bool;
  hr_Header : string -> string;
  hr_Query : string -> string;
  hr_PathValue : string -> string;
  hr_Body : stream;
  hr_Identity : option Identity;
  hr_CorrelationID : string;
}.

(** The part of a request the authenticator of the ingestion reads. *)
Definition auth_request (r : HttpRequest) : Request :=
  {| req_TLS := hr_TLS r; req_Header := hr_Header r |}.

(** A response: its status, the headers the handler sets, and its body. *)
Record Response (A : Type) := {
  rs_Status : Z;
  rs_Headers : list (string * string);
  rs_Body : A;
}.
Arguments Build_Response {A} _ _ _.
Arguments rs_Status {A} _.
Arguments rs_Headers {A} _.
Arguments rs_Body {A} _.

Definition StatusOK : Z := 200.
Definition StatusCreated : Z := 201.
Definition StatusAccepted : Z := 202.
Definition StatusNoContent : Z := 204.
Definition StatusBadRequest : Z := 400.
Definition StatusUnauthorized : Z := 401.
Definition StatusForbidden : Z := 403.
Definition StatusNotFound : Z := 404.
Definition StatusMethodNotAllowed : Z := 405.
Definition StatusConflict : Z := 409.
Definition StatusRequestEntityTooLarge : Z := 413.
Definition StatusUnsupportedMediaType : Z := 415.
Definition StatusUpgradeRequired : Z := 426.
Definition StatusTooManyRequests : Z := 429.
Definition StatusInternalServerError : Z := 500.
Definition StatusBadGateway : Z := 502.
Definition StatusServiceUnavailable : Z := 503.

Definition no_store : string * string := ("Cache-Control", "no-store").
Definition json_type : string * string := ("Content-Type", "application/json; charset=utf-8").

(** * Media types: [mime.ParseMediaType] *)

(** [isTSpecial] and [isTokenChar]. *)
Definition is_tspecial (c : ascii) : bool :=
  bool_decide (c ∈ bytes_of "()<>@,;:\/[]?=") || bool_decide (c = "034"%char).

Definition is_token_char (c : ascii) : bool := in_range 33 126 c && negb (is_tspecial c).

Fixpoint consume_token (s : string) : string * string :=
  match s with
  | String c s' =>
      if is_token_char c then let '(t, rest) := consume_token s' in (String c t, rest)
      else (EmptyString, s)
  | EmptyString => (EmptyString, s)
  end.

(** The text of a quoted string after its first quote; nothing when it does not
    end or holds a line break. *)
Fixpoint consume_quoted (s : string) : option (string * string) :=
  match s with
  | EmptyString => None
  | String c s1 =>
      if bool_decide (c = "034"%char) then Some (EmptyString, s1)
      else
        match bool_decide (c = "\"%char), s1 with
        | true, String d s2 =>
            if is_tspecial d then
              '(t, rest) ← consume_quoted s2; Some (String d t, rest)
            else '(t, rest) ← consume_quoted s1; Some (String c t, rest)
        | _, _ =>
            if in_range 10 10 c || in_range 13 13 c then None
            else '(t, rest) ← consume_quoted s1; Some (String c t, rest)
        end
  end.

Definition consume_value (s : string) : string * string :=
  match s with
  | EmptyString => (EmptyString, EmptyString)
  | String c s' =>
      if bool_decide (c = "034"%char) then
        match consume_quoted s' with Some p => p | None => (EmptyString, s) end
      else consume_token s
  end.

Section mime.
Context `{Unicode}.

(** [consumeMediaParam]: the parameter, its value and the rest, or nothing. *)
Definition consume_media_param (s : string) : option (string * string * string) :=
  match TrimLeftSpace s with
  | String c rest =>
      if bool_decide (c = ";"%char) then
        let '(param, rest) := consume_token (TrimLeftSpace rest) in
        if is_empty param then None else
        match TrimLeftSpace rest with
        | String d rest =>
            if bool_decide (d = "="%char) then
              let rest := TrimLeftSpace rest in
              let '(value, rest2) := consume_value rest in
              if is_empty value && bool_decide (rest2 = rest) then None
              else Some (ToLower param, value, rest2)
            else None
        | EmptyString => None
        end
      else None
  | EmptyString => None
  end.

(** The loop over the parameters: whether they are well formed. *)
Fixpoint media_params (fuel : nat) (seen : gmap string string) (s : string) : bool :=
  match fuel with
  | O => false
  | S fuel =>
      let s := TrimLeftSpace s in
      if is_empty s then true else
      match consume_media_param s with
      | None => bool_decide (TrimSpace s = ";")
      | Some (param, value, rest) =>
          match seen !! param with
          | Some v => if bool_decide (v = value) then media_params fuel seen rest else false
          | None => media_params fuel (<[param := value]> seen) rest
          end
      end
  end.

(** The part before the first [;]. *)
Fixpoint cut_semicolon (s : string) : string * string :=
  match s with
  | String c s' =>
      if bool_decide (c = ";"%char) then (EmptyString, s)
      else let '(base, rest) := cut_semicolon s' in (String c base, rest)
  | EmptyString => (EmptyString, s)
  end.

(** [checkMediaTypeDisposition]. *)
Definition check_media_type (s : string) : bool :=
  let '(typ, rest) := consume_token s in
  negb (is_empty typ) &&
  match rest with
  | EmptyString => true
  | String c rest =>
      bool_decide (c = "/"%char) &&
      (let '(subtype, rest) := consume_token rest in negb (is_empty subtype) && is_empty rest)
  end.

(** The media type, when [err == nil].  A parameter takes at least three bytes,
    so the length of the header is fuel enough. *)
Definition ParseMediaType (v : string) : option string :=
  let '(base, rest) := cut_semicolon v in
  let mediatype := TrimSpace (ToLower base) in
  if check_media_type mediatype && media_params (S (String.length v)) ∅ rest
  then Some mediatype else None.

Definition isJSONContentType (value : string) : bool :=
  let value := TrimSpace value in
  if is_empty value then true
  else bool_decide (ParseMediaType value = Some "application/json").

End mime.

(** * Numbers and lists in parameters *)

(** [strconv.ParseInt(s, 10, w)]. *)
Definition ParseInt (lo hi : Z) (s : string) : option Z :=
  let '(neg, ds) := match s with
    | String c s' =>
        if bool_decide (c = "-"%char) then (true, s')
        else if bool_decide (c = "+"%char) then (false, s') else (false, s)
    | EmptyString => (false, s) end in
  let '(n, _, rest) := decimal_digits ds 0 0 in
  if is_empty ds || negb (is_empty rest) then None else
  let n := if neg : bool then - n else n in
  if (lo <=? n) && (n <=? hi) then Some n else None.

Definition ParseInt16 : string -> option Z := ParseInt (- 2 ^ 15) (2 ^ 15 - 1).
Definition Atoi : string -> option Z := ParseInt min_int64 max_int64.

(** [strconv.ParseBool]. *)
Definition ParseBool (s : string) : option bool :=
  if bool_decide (s ∈ ["1"; "t"; "T"; "TRUE"; "true"; "True"]) then Some true
  else if bool_decide (s ∈ ["0"; "f"; "F"; "FALSE"; "false"; "False"]) then Some false
  else None.

Definition splitCommaSeparated (value : string) : list string :=
  List.filter (fun part => negb (is_empty part)) (map TrimSpace (Split value ",")).

Example content_types :
  let U := plain_unicode in
  map isJSONContentType
    ["application/json"; EmptyString; " Application/JSON ; charset=utf-8"; "text/plain";
     "application/json; charset"; "application/json;"; quoted "application/json; a='x;y'; a=z";
     quoted "application/json; a='\/'"; "application / json"; "application/json; a=b c"]
  = [true; true; true; false; false; true; false; true; false; false].
Proof. vm_compute. reflexivity. Qed.

Example numbers :
  map ParseInt16 ["5"; "-7"; "+3"; "32768"; "x"; EmptyString; "1_0"; "-"]
  = [Some 5; Some (-7); Some 3; None; None; None; None; None].
Proof. vm_compute. reflexivity. Qed.

Example commas : splitCommaSeparated " a, ,b ,," = ["a"; "b"].
Proof. vm_compute. reflexivity. Qed.

(** * Laws *)

Lemma ParseInt_range lo hi s n : ParseInt lo hi s = Some n -> lo <= n <= hi.
Proof.
  unfold ParseInt. destruct (match s with EmptyString => _ | String _ _ => _ end) as [neg ds].
  destruct (decimal_digits ds 0 0) as [[m k] rest]. case_if; [done|].
  destruct ((lo <=? _) && _) eqn:E; [|done]. intros [= <-]. bool_facts. lia.
Qed.

Lemma splitCommaSeparated_nonempty value x : x ∈ splitCommaSeparated value -> x <> EmptyString.
Proof.
  unfold splitCommaSeparated. intros Hx. apply list_elem_of_In, filter_In in Hx as [_ Hx].
  bool_facts. by apply is_empty_false.
Qed.
