(* ===== verification/ObsMetrics.v ===== *)
(** The counters: of the ingestion, [internal/observability/ingest_metrics.go] and
    [history_ingest_metrics.go], and of HTTP requests and database operations,
    [internal/observability/metrics.go] (its exposition is in [Exposition]).  A counter
    is a [uint64], which wraps; the operations run under a mutex, so they are steps. *)
From S2P Require Import Prelude GoLists GoBase Float64.
From stdpp Require Export relations.
Local Open Scope Z_scope.

(** [uint64] arithmetic. *)
Definition wrapU64 (z : Z) : Z := z mod 2 ^ 64.

Definition u64_add (a b : Z) : Z := wrapU64 (a + b).

(** [uint64(max(n, 0))] of an [int]. *)
Definition count (n : Z) : Z := Z.max n 0.

Definition success_status (status : Z) : bool := (200 <=? status) && (status <? 300).

(** [total / time.Duration(completed)]. *)
Definition average_duration (total completed : Z) : duration :=
  if completed =? 0 then 0 else Z.quot total (wrap64 completed).

(** * Prices *)
Module Ingest.

Record IngestObservation := {
  CompletedAt : time;
  Duration : duration;
  StatusCode : Z;
  Received : Z;
  Accepted : Z;
  Stored : Z;
  Rejected : Z;
  DuplicateEntries : Z;
  CurrentRowsTouched : Z;
  Duplicate : bool;
  ErrorKind : string;
}.

Record IngestMetrics := {
  requestsTotal : Z;
  inFlight : Z;
  succeededTotal : Z;
  duplicatesTotal : Z;
  errorsTotal : Z;
  receivedEntriesTotal : Z;
  acceptedEntriesTotal : Z;
  storedEntriesTotal : Z;
  rejectedEntriesTotal : Z;
  duplicateEntriesTotal : Z;
  currentRowsTouchedTotal : Z;
  durationTotal : duration;
  lastDuration : duration;
  maxDuration : duration;
  lastRequestAt : option time;
  lastSuccessAt : option time;
  lastErrorAt : option time;
  lastErrorKind : string;
}.

Definition NewIngestMetrics : IngestMetrics := {|
  requestsTotal := 0; inFlight := 0; succeededTotal := 0; duplicatesTotal := 0; errorsTotal := 0;
  receivedEntriesTotal := 0; acceptedEntriesTotal := 0; storedEntriesTotal := 0;
  rejectedEntriesTotal := 0; duplicateEntriesTotal := 0; currentRowsTouchedTotal := 0;
  durationTotal := 0; lastDuration := 0; maxDuration := 0;
  lastRequestAt := None; lastSuccessAt := None; lastErrorAt := None; lastErrorKind := EmptyString;
|}.

Definition RequestStarted (at_ : time) (m : IngestMetrics) : IngestMetrics := {|
  requestsTotal := u64_add (requestsTotal m) 1; inFlight := u64_add (inFlight m) 1;
  succeededTotal := succeededTotal m; duplicatesTotal := duplicatesTotal m;
  errorsTotal := errorsTotal m; receivedEntriesTotal := receivedEntriesTotal m;
  acceptedEntriesTotal := acceptedEntriesTotal m; storedEntriesTotal := storedEntriesTotal m;
  rejectedEntriesTotal := rejectedEntriesTotal m;
  duplicateEntriesTotal := duplicateEntriesTotal m;
  currentRowsTouchedTotal := currentRowsTouchedTotal m;
  durationTotal := durationTotal m; lastDuration := lastDuration m; maxDuration := maxDuration m;
  lastRequestAt := Some at_; lastSuccessAt := lastSuccessAt m; lastErrorAt := lastErrorAt m;
  lastErrorKind := lastErrorKind m;
|}.

(** [RequestFinished]: the counters of the outcome, [success] being a status of
    the 2xx class and [fresh] a success that is not a duplicate. *)
Definition RequestFinished (o : IngestObservation) (m : IngestMetrics) : IngestMetrics :=
  let success := success_status (StatusCode o) in
  let duplicate := success && Duplicate o in
  let fresh := success && negb (Duplicate o) in
  let add (b : bool) (total n : Z) := if b then u64_add total n else total in
  {| requestsTotal := requestsTotal m;
     inFlight := if 0 <? inFlight m then inFlight m - 1 else inFlight m;
     succeededTotal := add success (succeededTotal m) 1;
     duplicatesTotal := add duplicate (duplicatesTotal m) 1;
     errorsTotal := add (negb success) (errorsTotal m) 1;
     receivedEntriesTotal := u64_add (receivedEntriesTotal m) (count (Received o));
     acceptedEntriesTotal := add fresh (acceptedEntriesTotal m) (count (Accepted o));
     storedEntriesTotal := add fresh (storedEntriesTotal m) (count (Stored o));
     rejectedEntriesTotal := u64_add (rejectedEntriesTotal m) (count (Rejected o));
     duplicateEntriesTotal := add duplicate (duplicateEntriesTotal m) (count (DuplicateEntries o));
     currentRowsTouchedTotal :=
       add fresh (currentRowsTouchedTotal m) (count (CurrentRowsTouched o));
     durationTotal := wrap64 (durationTotal m + Duration o);
     lastDuration := Duration o;
     maxDuration := if maxDuration m <? Duration o then Duration o else maxDuration m;
     lastRequestAt := lastRequestAt m;
     lastSuccessAt := if success then Some (CompletedAt o) else lastSuccessAt m;
     lastErrorAt := if success then lastErrorAt m else Some (CompletedAt o);
     lastErrorKind := if success then lastErrorKind m else ErrorKind o; |}.

(** [Snapshot]: a copy of the counters with the average duration. *)
Record IngestMetricsSnapshot := {
  metrics : IngestMetrics;
  AverageDuration : duration;
}.

Definition Snapshot (m : IngestMetrics) : IngestMetricsSnapshot :=
  {| metrics := m;
     AverageDuration :=
       average_duration (durationTotal m) (u64_add (succeededTotal m) (errorsTotal m)) |}.
End Ingest.

(** * History *)
Module History.

Record HistoryIngestObservation := {
  CompletedAt : time;
  Duration : duration;
  StatusCode : Z;
  ReceivedEntries : Z;
  ReceivedBuckets : Z;
  AcceptedEntries : Z;
  AcceptedBuckets : Z;
  StoredBuckets : Z;
  RejectedEntries : Z;
  RejectedBuckets : Z;
  DuplicateEntries : Z;
  DuplicateBuckets : Z;
  HistoryRowsTouched : Z;
  Duplicate : bool;
  ErrorKind : string;
}.

Record HistoryIngestMetrics := {
  requestsTotal : Z;
  inFlight : Z;
  succeededTotal : Z;
  duplicatesTotal : Z;
  errorsTotal : Z;
  receivedEntriesTotal : Z;
  receivedBucketsTotal : Z;
  acceptedEntriesTotal : Z;
  acceptedBucketsTotal : Z;
  storedBucketsTotal : Z;
  rejectedEntriesTotal : Z;
  rejectedBucketsTotal : Z;
  duplicateEntriesTotal : Z;
  duplicateBucketsTotal : Z;
  historyRowsTouchedTotal : Z;
  durationTotal : duration;
  lastDuration : duration;
  maxDuration : duration;
  lastRequestAt : option time;
  lastSuccessAt : option time;
  lastErrorAt : option time;
  lastErrorKind : string;
}.

Definition NewHistoryIngestMetrics : HistoryIngestMetrics := {|
  requestsTotal := 0; inFlight := 0; succeededTotal := 0; duplicatesTotal := 0; errorsTotal := 0;
  receivedEntriesTotal := 0; receivedBucketsTotal := 0; acceptedEntriesTotal := 0;
  acceptedBucketsTotal := 0; storedBucketsTotal := 0; rejectedEntriesTotal := 0;
  rejectedBucketsTotal := 0; duplicateEntriesTotal := 0; duplicateBucketsTotal := 0;
  historyRowsTouchedTotal := 0; durationTotal := 0; lastDuration := 0; maxDuration := 0;
  lastRequestAt := None; lastSuccessAt := None; lastErrorAt := None; lastErrorKind := EmptyString;
|}.

Definition RequestStarted (at_ : time) (m : HistoryIngestMetrics) : HistoryIngestMetrics := {|
  requestsTotal := u64_add (requestsTotal m) 1; inFlight := u64_add (inFlight m) 1;
  succeededTotal := succeededTotal m; duplicatesTotal := duplicatesTotal m;
  errorsTotal := errorsTotal m; receivedEntriesTotal := receivedEntriesTotal m;
  receivedBucketsTotal := receivedBucketsTotal m; acceptedEntriesTotal := acceptedEntriesTotal m;
  acceptedBucketsTotal := acceptedBucketsTotal m; storedBucketsTotal := storedBucketsTotal m;
  rejectedEntriesTotal := rejectedEntriesTotal m; rejectedBucketsTotal := rejectedBucketsTotal m;
  duplicateEntriesTotal := duplicateEntriesTotal m;
  duplicateBucketsTotal := duplicateBucketsTotal m;
  historyRowsTouchedTotal := historyRowsTouchedTotal m;
  durationTotal := durationTotal m; lastDuration := lastDuration m; maxDuration := maxDuration m;
  lastRequestAt := Some at_; lastSuccessAt := lastSuccessAt m; lastErrorAt := lastErrorAt m;
  lastErrorKind := lastErrorKind m;
|}.

Definition RequestFinished (o : HistoryIngestObservation) (m : HistoryIngestMetrics)
    : HistoryIngestMetrics :=
  let success := success_status (StatusCode o) in
  let duplicate := success && Duplicate o in
  let fresh := success && negb (Duplicate o) in
  let add (b : bool) (total n : Z) := if b then u64_add total n else total in
  {| requestsTotal := requestsTotal m;
     inFlight := if 0 <? inFlight m then inFlight m - 1 else inFlight m;
     succeededTotal := add success (succeededTotal m) 1;
     duplicatesTotal := add duplicate (duplicatesTotal m) 1;
     errorsTotal := add (negb success) (errorsTotal m) 1;
     receivedEntriesTotal := u64_add (receivedEntriesTotal m) (count (ReceivedEntries o));
     receivedBucketsTotal := u64_add (receivedBucketsTotal m) (count (ReceivedBuckets o));
     acceptedEntriesTotal := add fresh (acceptedEntriesTotal m) (count (AcceptedEntries o));
     acceptedBucketsTotal := add fresh (acceptedBucketsTotal m) (count (AcceptedBuckets o));
     storedBucketsTotal := add fresh (storedBucketsTotal m) (count (StoredBuckets o));
     rejectedEntriesTotal := u64_add (rejectedEntriesTotal m) (count (RejectedEntries o));
     rejectedBucketsTotal := u64_add (rejectedBucketsTotal m) (count (RejectedBuckets o));
     duplicateEntriesTotal := add duplicate (duplicateEntriesTotal m) (count (DuplicateEntries o));
     duplicateBucketsTotal := add duplicate (duplicateBucketsTotal m) (count (DuplicateBuckets o));
     historyRowsTouchedTotal :=
       add fresh (historyRowsTouchedTotal m) (count (HistoryRowsTouched o));
     durationTotal := wrap64 (durationTotal m + Duration o);
     lastDuration := Duration o;
     maxDuration := if maxDuration m <? Duration o then Duration o else maxDuration m;
     lastRequestAt := lastRequestAt m;
     lastSuccessAt := if success then Some (CompletedAt o) else lastSuccessAt m;
     lastErrorAt := if success then lastErrorAt m else Some (CompletedAt o);
     lastErrorKind := if success then lastErrorKind m else ErrorKind o; |}.

Record HistoryIngestMetricsSnapshot := {
  metrics : HistoryIngestMetrics;
  AverageDuration : duration;
}.

Definition Snapshot (m : HistoryIngestMetrics) : HistoryIngestMetricsSnapshot :=
  {| metrics := m;
     AverageDuration :=
       average_duration (durationTotal m) (u64_add (succeededTotal m) (errorsTotal m)) |}.
End History.

(** ** The counters of HTTP requests and of database operations: [internal/observability/metrics.go] without the exposition. *)

(** * Histograms *)

Definition defaultDurationBuckets : list float64 :=
  map f_lit ["0.005"; "0.010"; "0.025"; "0.050"; "0.100"; "0.250"; "0.500"; "1"; "2.5"; "5"; "10"].

Record durationHistogram := {
  dh_Count : Z;
  dh_Sum : float64;
  dh_Buckets : list Z;
}.

Definition zero_histogram : durationHistogram :=
  {| dh_Count := 0; dh_Sum := f_zero; dh_Buckets := map (fun _ => 0) defaultDurationBuckets |}.

Definition observe (h : durationHistogram) (d : duration) : durationHistogram :=
  let seconds := Seconds d in
  {| dh_Count := u64_add (dh_Count h) 1;
     dh_Sum := f_add (dh_Sum h) seconds;
     dh_Buckets := zip_with (fun upperBound n => if f_leb seconds upperBound then u64_add n 1 else n)
                     defaultDurationBuckets (dh_Buckets h) |}.

Section metrics.
Context `{Unicode}.

(** * Labels *)

Definition normalizeMetricLabel (value fallback : string) : string :=
  let value := TrimSpace value in if is_empty value then fallback else value.

Definition http_methods : list string :=
  ["GET"; "HEAD"; "POST"; "PUT"; "PATCH"; "DELETE"; "OPTIONS"; "CONNECT"; "TRACE"].

Definition normalizeHTTPMethod (method : string) : string :=
  let upper := ToUpper (TrimSpace method) in
  if bool_decide (upper ∈ http_methods) then upper else "OTHER".

Definition database_operations : list string :=
  ["copy_raw_history"; "copy_raw_prices"; "commit_history"; "commit_prices"; "ingest_history";
   "ingest_prices"; "ping"; "query_current_prices"; "query_market_history"; "readiness_acquire";
   "readiness_ping"; "readiness_schema"; "transaction_history"; "transaction_prices";
   "upsert_current_prices"; "upsert_market_history"].

Definition normalizeDatabaseOperation (operation : string) : string :=
  let operation := TrimSpace operation in
  if bool_decide (operation ∈ database_operations) then operation else "unknown".

(** * HTTP

    The keys are method, route and status, method, route and class of the error,
    and method and route. *)
Record HTTPMetrics := {
  hm_inFlight : Z;
  hm_requests : gmap (string * string * string) Z;
  hm_errors : gmap (string * string * string) Z;
  hm_durations : gmap (string * string) durationHistogram;
}.

Definition NewHTTPMetrics : HTTPMetrics :=
  {| hm_inFlight := 0; hm_requests := ∅; hm_errors := ∅; hm_durations := ∅ |}.

Definition bump {K} `{Countable K} (key : K) (m : gmap K Z) : gmap K Z :=
  <[key := u64_add (default 0 (m !! key)) 1]> m.

Definition RequestStarted (m : HTTPMetrics) : HTTPMetrics :=
  {| hm_inFlight := wrap64 (hm_inFlight m + 1); hm_requests := hm_requests m; hm_errors := hm_errors m;
     hm_durations := hm_durations m |}.

Definition RequestFinished (method route : string) (status : Z) (d : duration) (m : HTTPMetrics)
    : HTTPMetrics :=
  let method := normalizeHTTPMethod method in
  let route := normalizeMetricLabel route "unmatched" in
  {| hm_inFlight := if 0 <? hm_inFlight m then hm_inFlight m - 1 else hm_inFlight m;
     hm_requests := bump (method, route, FormatInt status) (hm_requests m);
     hm_errors :=
       if (400 <=? status) && (status <=? 599)
       then bump (method, route, FormatInt (Z.quot status 100) +:+ "xx") (hm_errors m)
       else hm_errors m;
     hm_durations :=
       <[(method, route) := observe (default zero_histogram (hm_durations m !! (method, route))) d]>
         (hm_durations m) |}.

(** * Database operations

    The keys are operation and result. *)
Record DatabaseMetrics := {
  dm_operations : gmap (string * string) Z;
  dm_durations : gmap string durationHistogram;
}.

Definition NewDatabaseMetrics : DatabaseMetrics := {| dm_operations := ∅; dm_durations := ∅ |}.

Definition Observe (operation : string) (d : duration) (failed : bool) (m : DatabaseMetrics)
    : DatabaseMetrics :=
  let operation := normalizeDatabaseOperation operation in
  {| dm_operations := bump (operation, if failed then "error" else "success") (dm_operations m);
     dm_durations :=
       <[operation := observe (default zero_histogram (dm_durations m !! operation)) d]> (dm_durations m) |}.
End metrics.

(** * The counters of HTTP requests count

    Each is the number of the finished requests with its labels, and the labels are from a
    fixed set but for the routes the server passes. *)

Section spec.
Context `{Unicode}.

(** What the server reports, in the order in which it takes the lock. *)
Inductive http_event :=
  | Started
  | Finished (method route : string) (status : Z) (d : duration).

Definition http_apply (m : HTTPMetrics) (e : http_event) : HTTPMetrics :=
  match e with
  | Started => RequestStarted m
  | Finished method route status d => RequestFinished method route status d m
  end.

Definition http_run (events : list http_event) : HTTPMetrics := foldl http_apply NewHTTPMetrics events.

Definition number (p : http_event -> bool) (events : list http_event) : Z :=
  Z.of_nat (length (List.filter p events)).

Lemma number_app p l e : number p (l ++ [e]) = number p l + (if p e then 1 else 0).
Proof. unfold number. rewrite List.filter_app, length_app. simpl. destruct (p e); simpl; lia. Qed.

Lemma number_bounds p l : 0 <= number p l <= Z.of_nat (length l).
Proof. unfold number. pose proof (filter_length_le p l). lia. Qed.

(** The labels a finished request is counted under. *)
Definition request_label (e : http_event) : option (string * string * string) :=
  match e with
  | Started => None
  | Finished method route status _ =>
      Some (normalizeHTTPMethod method, normalizeMetricLabel route "unmatched", FormatInt status)
  end.

Definition error_label (e : http_event) : option (string * string * string) :=
  match e with
  | Finished method route status _ =>
      if (400 <=? status) && (status <=? 599)
      then Some (normalizeHTTPMethod method, normalizeMetricLabel route "unmatched",
                 FormatInt (Z.quot status 100) +:+ "xx")
      else None
  | Started => None
  end.

Definition duration_label (e : http_event) : option (string * string * duration) :=
  match e with
  | Started => None
  | Finished method route _ d =>
      Some (normalizeHTTPMethod method, normalizeMetricLabel route "unmatched", d)
  end.

Definition has {K} `{EqDecision K} (label : http_event -> option K) (key : K) (e : http_event) : bool :=
  bool_decide (label e = Some key).

Definition within (key : string * string) (bound : float64) (e : http_event) : bool :=
  match duration_label e with
  | Some (key', d) => bool_decide (key' = key) && f_leb (Seconds d) bound
  | None => false
  end.

Definition timed (key : string * string) (e : http_event) : bool :=
  match duration_label e with Some (key', _) => bool_decide (key' = key) | None => false end.

Definition is_started (e : http_event) : bool := match e with Started => true | _ => false end.
Definition is_finished (e : http_event) : bool := negb (is_started e).

(** Requests finish after they have started. *)
Definition well_ordered (events : list http_event) : Prop :=
  forall before after, events = before ++ after -> number is_finished before <= number is_started before.

(** What the maps hold for a sequence of reports. *)
Record http_counts (events : list http_event) (m : HTTPMetrics) : Prop := {
  hc_inFlight : hm_inFlight m = number is_started events - number is_finished events;
  hc_requests key : default 0 (hm_requests m !! key) = number (has request_label key) events;
  hc_errors key : default 0 (hm_errors m !! key) = number (has error_label key) events;
  hc_durations key :
    let h := default zero_histogram (hm_durations m !! key) in
    dh_Count h = number (timed key) events /\
    dh_Buckets h = map (fun bound => number (within key bound) events) defaultDurationBuckets;
}.

Lemma u64_add_one n : 0 <= n < 2 ^ 64 - 1 -> u64_add n 1 = n + 1.
Proof. intros Hn. unfold u64_add, wrapU64. apply Z.mod_small. lia. Qed.

Lemma bump_lookup {K} `{Countable K} (key key' : K) (m : gmap K Z) :
  0 <= default 0 (m !! key) < 2 ^ 64 - 1 ->
  default 0 (bump key m !! key') = default 0 (m !! key') + (if bool_decide (key = key') then 1 else 0).
Proof.
  intros Hm. unfold bump. case_bool_decide as Hk; [subst key'; rewrite lookup_insert_eq|rewrite lookup_insert_ne by done; lia].
  simpl. by apply u64_add_one.
Qed.

(** The label of one more event. *)
Lemma bump_counts {K} `{Countable K} (label : http_event -> option K) key key' (m : gmap K Z) events e :
  Z.of_nat (length events) < 2 ^ 63 ->
  (forall k, default 0 (m !! k) = number (has label k) events) -> label e = Some key ->
  default 0 (bump key m !! key') = number (has label key') (events ++ [e]).
Proof.
  intros Hlen Hm He. rewrite bump_lookup, Hm, number_app.
  - unfold has. rewrite He. f_equal. destruct (bool_decide (key = key')) eqn:E; bool_facts;
      [subst; by rewrite bool_decide_eq_true_2|]. rewrite bool_decide_eq_false_2; [done|]. by intros [= ?].
  - rewrite Hm. pose proof (number_bounds (has label key) events). lia.
Qed.

Lemma observe_counts key events e h d :
  Z.of_nat (length events) < 2 ^ 63 ->
  dh_Count h = number (timed key) events ->
  dh_Buckets h = map (fun bound => number (within key bound) events) defaultDurationBuckets ->
  duration_label e = Some (key, d) ->
  dh_Count (observe h d) = number (timed key) (events ++ [e]) /\
  dh_Buckets (observe h d) = map (fun bound => number (within key bound) (events ++ [e])) defaultDurationBuckets.
Proof.
  intros Hlen Hc Hb He. unfold observe. cbn [dh_Count dh_Buckets]. rewrite Hc, Hb. split.
  - rewrite u64_add_one by (pose proof (number_bounds (timed key) events); lia).
    assert (timed key e = true) as Ht by (unfold timed; rewrite He; by apply bool_decide_eq_true_2).
    by rewrite number_app, Ht.
  - generalize defaultDurationBuckets. intros bounds. induction bounds as [|b bounds IH]; [done|]. simpl.
    f_equal; [|exact IH]. assert (within key b e = f_leb (Seconds d) b) as Hw
      by (unfold within; rewrite He; by rewrite bool_decide_eq_true_2).
    rewrite number_app, Hw.
    destruct (f_leb (Seconds d) b); [|lia].
    apply u64_add_one. pose proof (number_bounds (within key b) events). lia.
Qed.

Lemma http_counts_step events e m :
  Z.of_nat (length (events ++ [e])) < 2 ^ 63 ->
  number is_finished (events ++ [e]) <= number is_started (events ++ [e]) ->
  http_counts events m -> http_counts (events ++ [e]) (http_apply m e).
Proof.
  intros Hlen Hord [Hf Hr He Hd]. rewrite length_app in Hlen. simpl in Hlen.
  pose proof (number_bounds is_started events) as Hs. pose proof (number_bounds is_finished events).
  rewrite !number_app in Hord. destruct e as [|method route status d]; simpl in Hord.
  - split; cbn [http_apply RequestStarted hm_inFlight hm_requests hm_errors hm_durations].
    + rewrite !number_app. simpl. rewrite wrap64_id by (unfold in_int64, min_int64, max_int64; lia). lia.
    + intros key. by rewrite Hr, number_app, Z.add_0_r.
    + intros key. by rewrite He, number_app, Z.add_0_r.
    + intros key. destruct (Hd key) as [-> ->]. rewrite number_app, Z.add_0_r. split; [done|].
      apply map_ext. intros b. by rewrite number_app, Z.add_0_r.
  - split; cbn [http_apply RequestFinished hm_inFlight hm_requests hm_errors hm_durations].
    + rewrite !number_app. simpl. rewrite (proj2 (Z.ltb_lt _ _)) by lia. lia.
    + intros key. apply bump_counts; [lia|exact Hr|done].
    + intros key. destruct (_ && _) eqn:E.
      * apply bump_counts; [lia|exact He|]. simpl. by rewrite E.
      * rewrite He, number_app.
        assert (has error_label key (Finished method route status d) = false) as -> by (unfold has; simpl; rewrite E; by apply bool_decide_eq_false_2).
        lia.
    + intros key. set (key' := (normalizeHTTPMethod method, normalizeMetricLabel route "unmatched")).
      destruct (decide (key' = key)) as [<-|Hne].
      * rewrite lookup_insert_eq. simpl. destruct (Hd key') as [Hc Hb]. by apply observe_counts; [lia|..].
      * rewrite lookup_insert_ne by done. destruct (Hd key) as [-> ->]. split.
        -- assert (timed key (Finished method route status d) = false) as Ht by (by apply bool_decide_eq_false_2).
           rewrite number_app, Ht. lia.
        -- apply map_ext. intros b.
           assert (within key b (Finished method route status d) = false) as Hw
             by (unfold within; simpl; fold key'; by rewrite bool_decide_eq_false_2).
           rewrite number_app, Hw. lia.
Qed.

(** The metrics of HTTP requests are exact: after any sequence of reports in
    which requests finish after they start, the gauge is the number of requests in
    flight, each counter is the number of finished requests with its labels, each
    error counter that of the failed ones of its class, and each histogram counts
    the requests of its method and route, in each bucket those within its bound. *)
Theorem http_metrics_exact events :
  well_ordered events -> Z.of_nat (length events) < 2 ^ 63 -> http_counts events (http_run events).
Proof.
  induction events as [|e events IH] using rev_ind; intros Hord Hlen.
  { split; try done; intros key; by split. }
  unfold http_run. rewrite foldl_snoc. fold (http_run events). apply http_counts_step; [done| |].
  - by apply (Hord _ []); rewrite app_nil_r.
  - rewrite length_app in Hlen. simpl in Hlen. apply IH; [|lia].
    intros before after ->. apply (Hord before (after ++ [e])). by rewrite app_assoc.
Qed.

(** A client does not choose what methods are counted. *)
Lemma normalizeHTTPMethod_bounded method : normalizeHTTPMethod method ∈ "OTHER" :: http_methods.
Proof. unfold normalizeHTTPMethod. case_bool_decide; [by right|by left]. Qed.
End spec.

#[local] Existing Instance plain_unicode.

Definition sample_events : list http_event :=
  [Started; Started; Finished " get" "/api/v1/prices" 200 (20 * 1000000);
   Finished "BREW" EmptyString 503 (3 * second)].

Lemma sample_events_ordered : well_ordered sample_events.
Proof.
  intros before after Hb. unfold sample_events in Hb.
  do 5 (destruct before as [|? before]; [vm_compute; discriminate|]; injection Hb as <- Hb || discriminate Hb).
Qed.

Lemma http_metrics_exact_witness :
  default 0 (hm_errors (http_run sample_events) !! ("OTHER", "unmatched", "5xx")) = 1.
Proof.
  rewrite (hc_errors _ _ (http_metrics_exact sample_events sample_events_ordered ltac:(by vm_compute))).
  vm_compute. reflexivity.
Defined.
