(* ===== verification/IngestHandler.v ===== *)
(** The ingestion handlers: [internal/handlers/ingest_handler.go] and
    [history_ingest_handler.go], from the HTTP request to the response, the
    counters and the log entry. *)
From S2P Require Import Prelude GoLists GoBase Dates Domain IngestAuth Tx PriceRepo MarketService HistoryService Json DomainJson Http ObsMetrics.
Local Open Scope Z_scope.

(** [compress/gzip]: the stream that [gzip.NewReader] makes of a compressed one,
    or nothing when the header is not one of gzip. *)
Class Gzip := gzip_reader : stream -> option stream.

Record IngestHandler := {
  authenticator : option Authenticator;
  maxRequestBodySize : Z;
}.

(** [NewIngestHandler]: the default bound of a body is 5 MiB. *)
Definition NewIngestHandler (a : option Authenticator) (size : Z) : IngestHandler :=
  {| authenticator := a;
     maxRequestBodySize := if size <=? 0 then Z.shiftl 5 20 else size |}.

(** * Rejections

    The detail of an error: a text, the reason of a validation error, or the
    error of a service. *)
Inductive error_detail :=
  | Text (s : string)
  | Reason (why : invalid_reason)
  | ServiceDetail (e : service_error).

(** A request that is answered before a service is called. *)
Record rejection := {
  rj_Status : Z;
  rj_Kind : string;
  rj_Detail : string;
  rj_KeyID : string;
  rj_Headers : list (string * string);
}.

(** What the handlers write: an error, with the identifier of the request when it
    is known, or the answer of the service. *)
Inductive ingest_body (A : Type) :=
  | ErrorBody (error : error_detail) (request_id : string)
  | AnswerBody (answer : A).
Arguments ErrorBody {A} _ _.
Arguments AnswerBody {A} _.

Definition failure_kind (f : FailureReason) : string :=
  match f with
  | FailureNone => EmptyString
  | FailureMissingHeader => "missing_authorization"
  | FailureMalformedHeader => "malformed_authorization"
  | FailureInvalidToken => "invalid_token"
  | FailureInsecureTransport => "https_required"
  end.

Definition writeAuthenticationFailure (f : FailureReason) : rejection :=
  match f with
  | FailureInsecureTransport =>
      {| rj_Status := StatusUpgradeRequired; rj_Kind := failure_kind f;
         rj_Detail := "https required"; rj_KeyID := "-"; rj_Headers := [("Upgrade", "TLS/1.2")] |}
  | _ =>
      {| rj_Status := StatusUnauthorized; rj_Kind := failure_kind f; rj_Detail := "unauthorized";
         rj_KeyID := "-"; rj_Headers := [("WWW-Authenticate", quoted "Bearer realm='ingest'")] |}
  end.

Definition reject (status : Z) (kind detail key : string) : rejection :=
  {| rj_Status := status; rj_Kind := kind; rj_Detail := detail; rj_KeyID := key; rj_Headers := [] |}.

Definition not_a_post : rejection :=
  {| rj_Status := StatusMethodNotAllowed; rj_Kind := "method_not_allowed";
     rj_Detail := "method not allowed"; rj_KeyID := "-"; rj_Headers := [("Allow", "POST")] |}.

Section receive.
Context `{Unicode} `{Sha256} `{Gzip}.

Inductive body_error := UnsupportedEncoding | InvalidGzip.

Definition requestBodyReader (h : IngestHandler) (r : HttpRequest) : result body_error stream :=
  let compressedBody := MaxBytesReader (maxRequestBodySize h) (hr_Body r) in
  let encoding := TrimSpace (ToLower (hr_Header r "Content-Encoding")) in
  if bool_decide (encoding ∈ [EmptyString; "identity"]) then Ok compressedBody
  else if bool_decide (encoding = "gzip") then
    match gzip_reader compressedBody with
    | None => Err InvalidGzip
    | Some body => Ok (MaxBytesReader (maxRequestBodySize h) body)
    end
  else Err UnsupportedEncoding.

Definition body_rejection (key : string) (e : body_error) : rejection :=
  match e with
  | UnsupportedEncoding =>
      reject StatusUnsupportedMediaType "unsupported_content_encoding" "unsupported content encoding" key
  | InvalidGzip => reject StatusBadRequest "invalid_content_encoding" "invalid gzip body" key
  end.

Definition invalid_json (key : string) : rejection :=
  reject StatusBadRequest "invalid_json" "invalid json" key.

Definition decode_rejection (key : string) (e : decode_error) : rejection :=
  match e with
  | DReader TooLarge =>
      reject StatusRequestEntityTooLarge "payload_too_large" "request body too large" key
  | _ => invalid_json key
  end.

(** The part of a handler before the service: the method, the authentication,
    the content type, the body and its decoding.  It gives the identifier of the
    credential and the request. *)
Definition receive {A} (d : decoder A) (zero : A) (h : IngestHandler) (r : HttpRequest)
    : result rejection (string * A) :=
  fail_if negb (bool_decide (hr_Method r = "POST")) with not_a_post else
  let auth := Authenticate (authenticator h) (auth_request r) in
  fail_if negb (Authenticated auth) with writeAuthenticationFailure (Failure auth) else
  let key := KeyID auth in
  fail_if negb (isJSONContentType (hr_Header r "Content-Type"))
    with reject StatusUnsupportedMediaType "unsupported_content_type"
           "content type must be application/json" key else
  let! body := rmap_err (body_rejection key) (requestBodyReader h r) in
  let! (req, rest) := rmap_err (decode_rejection key) (decode_next d zero body) in
  fail_if negb (at_eof rest) with invalid_json key else
  Ok (key, req).
End receive.

(** * Outcomes *)

(** The response to an error of a service: status, kind, and the text of the
    body. *)
Definition service_failure (e : service_error) : Z * string * error_detail :=
  match e with
  | InvalidIngestRequest why | InvalidHistoryIngestRequest why =>
      (StatusBadRequest, "validation_error", Reason why)
  | IngestRequestAlreadyProcessing =>
      (StatusConflict, "request_already_processing", ServiceDetail e)
  | IngestRequestPayloadConflict =>
      (StatusConflict, "request_payload_conflict", ServiceDetail e)
  | _ => (StatusInternalServerError, "internal_error", Text "internal server error")
  end.

(** [durationMilliseconds] with the format [%.3f]: the microseconds, with three
    decimals. *)
Definition pad3 (n : Z) : string :=
  (if n <? 100 then "0" else EmptyString) +:+ (if n <? 10 then "0" else EmptyString) +:+ FormatInt n.

Definition format_milliseconds (d : duration) : string :=
  let us := Z.abs (Z.quot d 1000) in
  (if Z.quot d 1000 <? 0 then "-" else EmptyString)
  +:+ FormatInt (us / 1000) +:+ "." +:+ pad3 (us mod 1000).

Definition setIngestServerTiming (elapsed : duration) (timing : IngestPersistenceTiming) : string :=
  "api;dur=" +:+ format_milliseconds elapsed
  +:+ (if TransactionMeasured timing
       then ", postgres-tx;dur=" +:+ format_milliseconds (Transaction timing) else EmptyString)
  +:+ (if CommitMeasured timing
       then ", postgres-commit;dur=" +:+ format_milliseconds (Commit timing) else EmptyString).

(** The clock of a call: when it starts, when the response is timed, when it
    completes and how long it took. *)
Record handler_clock := {
  hc_started : time;
  hc_elapsed : duration;
  hc_completed : time;
  hc_duration : duration;
}.

(** ** The log *)

Inductive log_level := LogError | LogWarn | LogDuplicate | LogSuccess.
Inductive log_value := LText (s : string) | LInt (n : Z) | LBool (b : bool) | LMillis (d : duration)
  | LDetail (d : error_detail).

Record log_entry := {
  lg_level : log_level;
  lg_event : string;
  lg_fields : list (string * log_value);
}.

Definition dash_if_empty (s : string) : string := if is_empty s then "-" else s.

(** The level and the event of an outcome, and the fields of an error. *)
Definition outcome_entry (failed rejected duplicated completed : string) (status : Z)
    (duplicate : bool) (kind : string) (detail : error_detail) (fields : list (string * log_value))
    : log_entry :=
  let error := [("error_kind", LText kind); ("error", LDetail detail)] in
  if 500 <=? status then {| lg_level := LogError; lg_event := failed; lg_fields := fields ++ error |}
  else if 400 <=? status then
    {| lg_level := LogWarn; lg_event := rejected; lg_fields := fields ++ error |}
  else if duplicate then {| lg_level := LogDuplicate; lg_event := duplicated; lg_fields := fields |}
  else {| lg_level := LogSuccess; lg_event := completed; lg_fields := fields |}.

(** * Prices *)

(** The variables the deferred function of [IngestPrices] reads. *)
Record price_outcome := {
  po_statusCode : Z;
  po_requestID : string;
  po_serverName : string;
  po_entries : Z;
  po_accepted : Z;
  po_currentRowsTouched : Z;
  po_duplicate : bool;
  po_errorKind : string;
  po_errorDetail : error_detail;
  po_authKeyID : string;
}.

Definition price_observation (c : handler_clock) (o : price_outcome) : Ingest.IngestObservation :=
  let success := success_status (po_statusCode o) in
  {| Ingest.CompletedAt := hc_completed c; Ingest.Duration := hc_duration c;
     Ingest.StatusCode := po_statusCode o; Ingest.Received := po_entries o;
     Ingest.Accepted := po_accepted o;
     Ingest.Stored := if po_duplicate o then 0 else if success then po_accepted o else 0;
     Ingest.Rejected :=
       if po_duplicate o then 0
       else if success then Z.max (po_entries o - po_accepted o) 0
       else if 0 <? po_entries o then po_entries o else 0;
     Ingest.DuplicateEntries := if po_duplicate o then po_accepted o else 0;
     Ingest.CurrentRowsTouched := po_currentRowsTouched o;
     Ingest.Duplicate := po_duplicate o; Ingest.ErrorKind := po_errorKind o |}.

Definition logOutcome (correlationID : string) (duration : duration) (o : price_outcome)
    : log_entry :=
  outcome_entry "ingest.failed" "ingest.rejected" "ingest.duplicate" "ingest.completed"
    (po_statusCode o) (po_duplicate o) (po_errorKind o) (po_errorDetail o)
    [("correlation_id", LText correlationID);
     ("request_id", LText (dash_if_empty (po_requestID o)));
     ("server", LText (dash_if_empty (po_serverName o)));
     ("entries", LInt (po_entries o)); ("accepted", LInt (po_accepted o));
     ("current_rows_touched", LInt (po_currentRowsTouched o));
     ("duplicate", LBool (po_duplicate o)); ("status", LInt (po_statusCode o));
     ("duration_ms", LMillis duration); ("auth_key_id", LText (po_authKeyID o))].

Definition rejected_prices (j : rejection) : price_outcome :=
  {| po_statusCode := rj_Status j; po_requestID := EmptyString; po_serverName := EmptyString;
     po_entries := 0; po_accepted := 0; po_currentRowsTouched := 0; po_duplicate := false;
     po_errorKind := rj_Kind j; po_errorDetail := Text (rj_Detail j); po_authKeyID := rj_KeyID j |}.

Definition rejection_response {A} (j : rejection) : Response (ingest_body A) :=
  {| rs_Status := rj_Status j; rs_Headers := no_store :: rj_Headers j ++ [json_type];
     rs_Body := ErrorBody (Text (rj_Detail j)) EmptyString |}.

Section handlers.
Context `{Unicode} `{Sha256} `{Gzip}.
Context {S : Type} `{MarketRepository S}.

(** The body of [IngestPrices], without the deferred function. *)
Definition serve_prices (h : IngestHandler) (c : handler_clock) (r : HttpRequest) (st : S)
    : Response (ingest_body IngestPricesResponse) * price_outcome * S :=
  match receive dec_IngestPricesRequest zero_price_request h r with
  | Err j => (rejection_response j, rejected_prices j, st)
  | Ok (key, req) =>
      let entries := Z.of_nat (length (ip_Entries req)) in
      match MarketService.IngestPrices req st with
      | (Err e, st') =>
          let '(status, kind, body) := service_failure e in
          ({| rs_Status := status; rs_Headers := [no_store; json_type];
              rs_Body := ErrorBody body (ip_RequestID req) |},
           {| po_statusCode := status; po_requestID := ip_RequestID req;
              po_serverName := ip_Server req; po_entries := entries; po_accepted := 0;
              po_currentRowsTouched := 0; po_duplicate := false; po_errorKind := kind;
              po_errorDetail := match body with Reason why => Reason why | _ => ServiceDetail e end;
              po_authKeyID := key |}, st')
      | (Ok resp, st') =>
          let status := if ipr_Duplicate resp then StatusOK else StatusAccepted in
          let timing := setIngestServerTiming (hc_elapsed c) (ipr_PersistenceTiming resp) in
          ({| rs_Status := status; rs_Headers := [no_store; ("Server-Timing", timing); json_type];
              rs_Body := AnswerBody resp |},
           {| po_statusCode := status; po_requestID := ip_RequestID req;
              po_serverName := ip_Server req; po_entries := entries;
              po_accepted := ipr_Accepted resp;
              po_currentRowsTouched := ipr_CurrentRowsTouched resp;
              po_duplicate := ipr_Duplicate resp; po_errorKind := EmptyString;
              po_errorDetail := Text EmptyString; po_authKeyID := key |}, st')
      end
  end.

(** [IngestPrices]: the counters are updated before and after. *)
Definition IngestPrices (h : IngestHandler) (c : handler_clock) (r : HttpRequest)
    (m : Ingest.IngestMetrics) (st : S)
    : Response (ingest_body IngestPricesResponse) * log_entry * Ingest.IngestMetrics * S :=
  let m := Ingest.RequestStarted (hc_started c) m in
  let '(resp, o, st) := serve_prices h c r st in
  (resp, logOutcome (hr_CorrelationID r) (hc_duration c) o,
   Ingest.RequestFinished (price_observation c o) m, st).
End handlers.

(** * History *)

Record history_outcome := {
  ho_statusCode : Z;
  ho_requestID : string;
  ho_serverName : string;
  ho_entries : Z;
  ho_buckets : Z;
  ho_acceptedEntries : Z;
  ho_acceptedBuckets : Z;
  ho_historyRowsTouched : Z;
  ho_duplicate : bool;
  ho_errorKind : string;
  ho_errorDetail : error_detail;
  ho_authKeyID : string;
}.

Definition history_observation (c : handler_clock) (o : history_outcome)
    : History.HistoryIngestObservation :=
  let success := success_status (ho_statusCode o) in
  let duplicate := ho_duplicate o in
  let received := (0 <? ho_entries o) || (0 <? ho_buckets o) in
  {| History.CompletedAt := hc_completed c; History.Duration := hc_duration c;
     History.StatusCode := ho_statusCode o;
     History.ReceivedEntries := ho_entries o; History.ReceivedBuckets := ho_buckets o;
     History.AcceptedEntries := ho_acceptedEntries o;
     History.AcceptedBuckets := ho_acceptedBuckets o;
     History.StoredBuckets :=
       if duplicate then 0 else if success then ho_acceptedBuckets o else 0;
     History.RejectedEntries :=
       if duplicate then 0
       else if success then Z.max (ho_entries o - ho_acceptedEntries o) 0
       else if received then ho_entries o else 0;
     History.RejectedBuckets :=
       if duplicate then 0
       else if success then Z.max (ho_buckets o - ho_acceptedBuckets o) 0
       else if received then ho_buckets o else 0;
     History.DuplicateEntries := if duplicate then ho_acceptedEntries o else 0;
     History.DuplicateBuckets := if duplicate then ho_acceptedBuckets o else 0;
     History.HistoryRowsTouched := ho_historyRowsTouched o;
     History.Duplicate := duplicate; History.ErrorKind := ho_errorKind o |}.

Definition logHistoryOutcome (correlationID : string) (duration : duration) (o : history_outcome)
    : log_entry :=
  outcome_entry "ingest.history_failed" "ingest.history_rejected" "ingest.history_duplicate"
    "ingest.history_completed"
    (ho_statusCode o) (ho_duplicate o) (ho_errorKind o) (ho_errorDetail o)
    [("correlation_id", LText correlationID);
     ("request_id", LText (dash_if_empty (ho_requestID o)));
     ("server", LText (dash_if_empty (ho_serverName o)));
     ("entries", LInt (ho_entries o)); ("buckets", LInt (ho_buckets o));
     ("accepted_entries", LInt (ho_acceptedEntries o));
     ("accepted_buckets", LInt (ho_acceptedBuckets o));
     ("history_rows_touched", LInt (ho_historyRowsTouched o));
     ("duplicate", LBool (ho_duplicate o)); ("status", LInt (ho_statusCode o));
     ("duration_ms", LMillis duration); ("auth_key_id", LText (ho_authKeyID o))].

Definition rejected_history (j : rejection) : history_outcome :=
  {| ho_statusCode := rj_Status j; ho_requestID := EmptyString; ho_serverName := EmptyString;
     ho_entries := 0; ho_buckets := 0; ho_acceptedEntries := 0; ho_acceptedBuckets := 0;
     ho_historyRowsTouched := 0; ho_duplicate := false; ho_errorKind := rj_Kind j;
     ho_errorDetail := Text (rj_Detail j); ho_authKeyID := rj_KeyID j |}.

Definition request_buckets (req : IngestHistoryRequest) : Z :=
  foldl (fun n entry => n + Z.of_nat (length (hi_History entry))) 0 (ih_Entries req).

Section history_handlers.
Context `{Unicode} `{Sha256} `{Gzip}.
Context {S : Type} `{MarketRepository S}.

Definition serve_history (h : IngestHandler) (c : handler_clock) (r : HttpRequest) (st : S)
    : Response (ingest_body IngestHistoryResponse) * history_outcome * S :=
  match receive dec_IngestHistoryRequest zero_history_request h r with
  | Err j => (rejection_response j, rejected_history j, st)
  | Ok (key, req) =>
      let entries := Z.of_nat (length (ih_Entries req)) in
      let buckets := request_buckets req in
      match HistoryService.IngestHistory req st with
      | (Err e, st') =>
          let '(status, kind, body) := service_failure e in
          ({| rs_Status := status; rs_Headers := [no_store; json_type];
              rs_Body := ErrorBody body (ih_RequestID req) |},
           {| ho_statusCode := status; ho_requestID := ih_RequestID req;
              ho_serverName := ih_Server req; ho_entries := entries; ho_buckets := buckets;
              ho_acceptedEntries := 0; ho_acceptedBuckets := 0; ho_historyRowsTouched := 0;
              ho_duplicate := false; ho_errorKind := kind;
              ho_errorDetail := match body with Reason why => Reason why | _ => ServiceDetail e end;
              ho_authKeyID := key |}, st')
      | (Ok resp, st') =>
          let status := if ihr_Duplicate resp then StatusOK else StatusAccepted in
          let timing := setIngestServerTiming (hc_elapsed c) (ihr_PersistenceTiming resp) in
          ({| rs_Status := status; rs_Headers := [no_store; ("Server-Timing", timing); json_type];
              rs_Body := AnswerBody resp |},
           {| ho_statusCode := status; ho_requestID := ih_RequestID req;
              ho_serverName := ih_Server req; ho_entries := entries; ho_buckets := buckets;
              ho_acceptedEntries := ihr_AcceptedEntries resp;
              ho_acceptedBuckets := ihr_AcceptedBuckets resp;
              ho_historyRowsTouched := ihr_HistoryRowsTouched resp;
              ho_duplicate := ihr_Duplicate resp; ho_errorKind := EmptyString;
              ho_errorDetail := Text EmptyString; ho_authKeyID := key |}, st')
      end
  end.

Definition IngestHistory (h : IngestHandler) (c : handler_clock) (r : HttpRequest)
    (m : History.HistoryIngestMetrics) (st : S)
    : Response (ingest_body IngestHistoryResponse) * log_entry * History.HistoryIngestMetrics * S :=
  let m := History.RequestStarted (hc_started c) m in
  let '(resp, o, st) := serve_history h c r st in
  (resp, logHistoryOutcome (hr_CorrelationID r) (hc_duration c) o,
   History.RequestFinished (history_observation c o) m, st).
End history_handlers.

Example server_timing :
  setIngestServerTiming 1234567 {| Transaction := 999999; Commit := 50000000;
                                   TransactionMeasured := true; CommitMeasured := true |}
  = "api;dur=1.234, postgres-tx;dur=0.999, postgres-commit;dur=50.000".
Proof. vm_compute. reflexivity. Qed.
