(* ===== verification/IngestHandlerSpec.v ===== *)
(** The contract of the ingestion handlers: what reaches a service, what is
    answered, and what the counters say of it. *)
From S2P Require Import Prelude GoLists GoBase Dates Domain Catalog IngestAuth Tx Lww PriceRepo PriceRepoSpec HistoryRepo HistoryRepoSpec MarketService MarketServiceSpec HistoryService HistoryServiceSpec PgxRepository Json DomainJson Http ObsMetrics IngestHandler.
Local Open Scope Z_scope.

(** * Bodies *)

Lemma substring_length n s : (String.length (String.substring 0 n s) <= n)%nat.
Proof. revert s; induction n as [|n IH]; intros [|c s]; simpl; try lia. specialize (IH s). lia. Qed.

Lemma MaxBytesReader_bounded limit body :
  str_len (st_bytes (MaxBytesReader limit body)) <= Z.max limit 0.
Proof.
  unfold MaxBytesReader. case_if; bool_facts; simpl; [lia|].
  unfold str_len. pose proof (substring_length (Z.to_nat limit) (st_bytes body)). lia.
Qed.

(** A body that the bounded reader delivers up to its end is the whole body. *)
Lemma MaxBytesReader_whole limit body :
  st_end (MaxBytesReader limit body) = AtEOF ->
  MaxBytesReader limit body = body /\ str_len (st_bytes body) <= limit.
Proof. unfold MaxBytesReader. case_if; [bool_facts; done|done]. Qed.

Lemma next_value_end st v rest : next_value st = Ok (v, rest) -> st_end rest = st_end st.
Proof.
  unfold next_value. intros Hn.
  destruct (scan_json (st_bytes st)) as [[[| | | | |] raw] [|c r]| |]; simpl in Hn;
    repeat match type of Hn with
    | context [match st_end st with _ => _ end] => destruct (st_end st) eqn:?
    | (if ?b then _ else _) = _ => destruct b
    end; inv_ok; simpl; congruence.
Qed.

(** The decoder meets the end of its input only at the end of the body. *)
Lemma at_eof_end st : at_eof st = true -> st_end st = AtEOF.
Proof.
  unfold at_eof, next_value. intros Ha. destruct (st_end st) eqn:E; [done|exfalso..];
  destruct (scan_json (st_bytes st)) as [[[| | | | |] raw] [|c r]| |]; simpl in Ha; discriminate.
Qed.

Lemma decode_next_whole {A} (d : decoder A) zero st a rest :
  decode_next d zero st = Ok (a, rest) -> at_eof rest = true -> st_end st = AtEOF.
Proof.
  unfold decode_next. intros Hd Ha.
  destruct (next_value st) as [[v r]|] eqn:Hn; simpl in Hd; [|discriminate].
  destruct (d _ _ _); simpl in Hd; [|discriminate]. injection Hd as <- <-.
  rewrite <- (next_value_end _ _ _ Hn). by apply at_eof_end.
Qed.

Section receive.
Context `{Unicode} `{Sha256} `{Gzip}.

(** What a handler has checked when it calls a service: the method, the
    credential, the content type, and a body that was read to its end within the
    bound and is one JSON value of the type of the request. *)
Record received {A} (d : decoder A) (zero : A) (h : IngestHandler) (r : HttpRequest)
    (key : string) (req : A) : Prop := {
  rv_method : hr_Method r = "POST";
  rv_credential :
    Authenticate (authenticator h) (auth_request r)
    = {| Authenticated := true; KeyID := key; Failure := FailureNone |};
  rv_type : isJSONContentType (hr_Header r "Content-Type") = true;
  rv_body : exists body rest, requestBodyReader h r = Ok body /\ st_end body = AtEOF /\
    str_len (st_bytes body) <= Z.max (maxRequestBodySize h) 0 /\
    decode_next d zero body = Ok (req, rest) /\ at_eof rest = true;
}.

Lemma Authenticate_failure a r :
  Authenticated (Authenticate a r) = true ->
  Authenticate a r = {| Authenticated := true; KeyID := KeyID (Authenticate a r);
                        Failure := FailureNone |}.
Proof.
  unfold Authenticate. destruct a as [a|]; [|done]. case_if; [done|]. case_if; [done|].
  destruct (Fields _) as [|scheme [|provided [|]]]; try done.
  case_if; [done|]. case_if; [done|].
  destruct (match_loop _ _ _ _ _) as [m i]. case_if; [done|].
  by destruct (credentials a !! Z.to_nat i).
Qed.

Lemma requestBodyReader_bounded h r body :
  requestBodyReader h r = Ok body ->
  str_len (st_bytes body) <= Z.max (maxRequestBodySize h) 0.
Proof.
  unfold requestBodyReader. intros Hb.
  destruct (bool_decide _); [injection Hb as <-; apply MaxBytesReader_bounded|].
  destruct (bool_decide _); [|discriminate].
  destruct (gzip_reader _); [|discriminate]. injection Hb as <-. apply MaxBytesReader_bounded.
Qed.

Lemma receive_ok {A} (d : decoder A) zero h r key req :
  receive d zero h r = Ok (key, req) <-> received d zero h r key req.
Proof.
  split.
  - unfold receive. intros Hr.
    destruct (bool_decide (hr_Method r = "POST")) eqn:Hm; [|discriminate]. simpl in Hr.
    apply bool_decide_eq_true in Hm.
    destruct (Authenticated (Authenticate _ _)) eqn:Ha; [|discriminate].
    destruct (isJSONContentType _) eqn:Hc; [|discriminate]. simpl in Hr.
    destruct (requestBodyReader h r) as [body|] eqn:Hb; [|discriminate]. simpl in Hr.
    destruct (decode_next d zero body) as [[req' rest]|] eqn:Hd; [|discriminate]. simpl in Hr.
    destruct (at_eof rest) eqn:He; [|discriminate]. injection Hr as <- <-.
    split; [done|by apply Authenticate_failure|done|].
    exists body, rest. split_and!; try done.
    + by apply (decode_next_whole d zero body req' rest).
    + by apply requestBodyReader_bounded in Hb.
  - intros [Hm Ha Hc (body & rest & Hb & _ & _ & Hd & He)]. unfold receive.
    rewrite bool_decide_eq_true_2, Ha, Hc, Hb by done. simpl. rewrite Hd. simpl. by rewrite He.
Qed.

(** The statuses of a rejection. *)
Lemma receive_err {A} (d : decoder A) zero h r j :
  receive d zero h r = Err j ->
  rj_Status j ∈ [StatusBadRequest; StatusUnauthorized; StatusMethodNotAllowed;
                 StatusRequestEntityTooLarge; StatusUnsupportedMediaType; StatusUpgradeRequired].
Proof.
  unfold receive. intros Hr.
  destruct (bool_decide (hr_Method r = "POST")); simpl in Hr; [|by injection Hr as <-; vm_compute; repeat constructor].
  destruct (Authenticated _); simpl in Hr;
    [|injection Hr as <-; unfold writeAuthenticationFailure; case_match; apply list_elem_of_In; simpl; tauto].
  destruct (isJSONContentType _); simpl in Hr; [|injection Hr as <-; apply list_elem_of_In; simpl; tauto].
  destruct (requestBodyReader h r) as [body|[|]]; simpl in Hr;
    [|injection Hr as <-; apply list_elem_of_In; simpl; tauto..].
  destruct (decode_next d zero body) as [[req rest]|e]; simpl in Hr.
  - destruct (at_eof rest); [discriminate|]. injection Hr as <-. apply list_elem_of_In; simpl; tauto.
  - injection Hr as <-. destruct e as [| | |[]]; apply list_elem_of_In; simpl; tauto.
Qed.
End receive.

(** * Prices *)
Section prices.
Context `{Unicode} `{Sha256} `{Gzip}.
Context {S : Type} `{MarketRepository S}.

Lemma serve_prices_received h c r st resp o st' :
  serve_prices h c r st = (resp, o, st') ->
  (exists key req, received dec_IngestPricesRequest zero_price_request h r key req /\
     st' = (MarketService.IngestPrices req st).2 /\
     match (MarketService.IngestPrices req st).1 with
     | Ok a => rs_Status resp = (if ipr_Duplicate a then StatusOK else StatusAccepted) /\
               rs_Body resp = AnswerBody a /\ po_accepted o = ipr_Accepted a
     | Err e => rs_Status resp = fst (fst (service_failure e)) /\
                rs_Body resp = ErrorBody (snd (service_failure e)) (ip_RequestID req) /\
                po_accepted o = 0
     end /\
     po_entries o = Z.of_nat (length (ip_Entries req)) /\
     po_statusCode o = rs_Status resp /\
     po_duplicate o = match (MarketService.IngestPrices req st).1 with
                      | Ok a => ipr_Duplicate a | Err _ => false end)
  \/ (exists j, receive dec_IngestPricesRequest zero_price_request h r = Err j /\
        st' = st /\ resp = rejection_response j /\ o = rejected_prices j).
Proof.
  unfold serve_prices. destruct (receive _ _ h r) as [[key req]|j] eqn:Hr; intros Hs.
  - left. exists key, req. split; [by apply receive_ok|].
    destruct (MarketService.IngestPrices req st) as [[a|e] st1]; simpl.
    + injection Hs as <- <- <-. done.
    + destruct (service_failure e) as [[status kind] body]. injection Hs as <- <- <-. done.
  - right. exists j. by injection Hs as <- <- <-.
Qed.

Lemma service_failure_status e :
  fst (fst (service_failure e)) ∈ [StatusBadRequest; StatusConflict; StatusInternalServerError].
Proof. destruct e; apply list_elem_of_In; simpl; tauto. Qed.

Lemma error_status (status : Z) (l : list Z) :
  status ∈ l -> forallb (fun s => negb (success_status s)) l = true -> success_status status = false.
Proof.
  intros Hin Hall. rewrite forallb_forall in Hall. apply list_elem_of_In in Hin.
  apply Hall in Hin. by apply negb_true_iff in Hin.
Qed.

Lemma rejection_status {A} (d : decoder A) zero h r j :
  receive d zero h r = Err j -> success_status (rj_Status j) = false.
Proof. intros Hr. apply receive_err in Hr. by eapply error_status. Qed.

(** C21. No call of the price ingestion changes the store, or is answered with
    success, unless it is a [POST] that carries the token of a configured
    credential and a JSON content type, and its body was read to its end within
    the limit - before and after decompression - and is exactly one value of the
    request type without unknown fields; what is stored is then what the
    service does with that request, and 200 is answered for a duplicate and 202
    otherwise. *)
Theorem ingest_requires_valid_request h c r m st resp log m' st' :
  IngestHandler.IngestPrices h c r m st = (resp, log, m', st') ->
  st' <> st \/ success_status (rs_Status resp) = true ->
  exists key req, received dec_IngestPricesRequest zero_price_request h r key req /\
    st' = (MarketService.IngestPrices req st).2 /\
    (success_status (rs_Status resp) = true <->
     exists a, (MarketService.IngestPrices req st).1 = Ok a /\ rs_Body resp = AnswerBody a /\
       rs_Status resp = if ipr_Duplicate a then StatusOK else StatusAccepted).
Proof.
  unfold IngestHandler.IngestPrices. destruct (serve_prices h c r st) as [[resp0 o] st0] eqn:Hs.
  intros [= -> _ _ ->] Hwhy.
  destruct (serve_prices_received h c r st resp o st' Hs)
    as [(key & req & Hrv & Hst & Hans & _)|(j & Hj & -> & -> & _)].
  - exists key, req. split_and!; [done..|].
    destruct (MarketService.IngestPrices req st) as [[a|e] st1]; simpl in *.
    + destruct Hans as (Hstatus & Hbody & _). rewrite Hstatus.
      split; [|by destruct (ipr_Duplicate a)]. intros _. by exists a.
    + destruct Hans as (Hstatus & _). rewrite Hstatus.
      rewrite (error_status _ _ (service_failure_status e) eq_refl).
      split; [done|]. by intros (? & ? & _).
  - destruct Hwhy as [Hne|Hsucc]; [done|]. simpl in Hsucc.
    by rewrite (rejection_status _ _ _ _ _ Hj) in Hsucc.
Qed.
End prices.

(** * Retries over HTTP

    The handler over the service and the PostgreSQL repository. *)
Section retries.
Context `{Unicode} `{Sha256} `{Gzip} `{RequestEncoding} `{Collation}.
Context (median : list Z -> Z) (h : IngestHandler) (r : HttpRequest).

(** An attempt: the failures of its database calls, their durations, its [now()]
    and the clock of the handler. *)
Definition http_attempt : Type := faults * elapsed * time * handler_clock.

Definition post (a : http_attempt) (m : Ingest.IngestMetrics) (st : DB * HistoryDB) :=
  let '(fs, el, now, c) := a in
  IngestHandler.IngestPrices (H2 := PgxMarketRepository median fs el now) h c r m st.

Definition try_post (s : Ingest.IngestMetrics * (DB * HistoryDB)) (a : http_attempt) :=
  let '(_, _, m, st) := post a s.1 s.2 in (m, st).

(** The request identifier and the entries the service asks for. *)
Definition well_formed (req : IngestPricesRequest) : Prop :=
  ip_RequestID req <> EmptyString /\ ip_Entries req <> [].

Lemma service_prices {St} `{MarketRepository St} req s (st : St) :
  well_formed req -> mapServer (ip_Server req) = Ok s ->
  MarketService.IngestPrices req st =
  match repo_IngestPrices req st with
  | (Err e, st') => (Err (ingest_error e), st')
  | (Ok res, st') =>
      (Ok {| ipr_RequestID := ip_RequestID req; ipr_Accepted := Accepted res;
             ipr_CurrentRowsTouched := CurrentRowsTouched res; ipr_Duplicate := Duplicate res;
             ipr_PersistenceTiming := PersistenceTiming res |}, st')
  end.
Proof.
  intros [Hid Hentries] Hserver. unfold MarketService.IngestPrices.
  rewrite (proj2 (is_empty_false _) Hid), bool_decide_eq_false_2 by done.
  pose proof (validateServer_mapServer (ip_Server req)) as Hv. rewrite Hserver in Hv. simpl in Hv.
  apply is_ok_true in Hv as [[] ->]. destruct (is_empty (ip_Server req)) eqn:E; [|done].
  apply is_empty_true in E. by rewrite E in Hserver.
Qed.

Section request.
Context (key : string) (req : IngestPricesRequest) (s : Z) (hash uuid : string).
Hypothesis Hrv : received dec_IngestPricesRequest zero_price_request h r key req.
Hypothesis Hwf : well_formed req.
Hypothesis Hp : prepared req s hash uuid.

(** The store after a request is the store after the transaction. *)
Lemma post_store a m db hdb :
  exists resp log m', post a m (db, hdb) = (resp, log, m', (try_ingest req db (fst a), hdb)).
Proof.
  destruct a as [[[fs el] now] c]. unfold post, IngestHandler.IngestPrices, serve_prices.
  rewrite (proj2 (receive_ok _ _ _ _ _ _) Hrv).
  rewrite (service_prices req s) by (done || apply Hp). simpl.
  destruct (PriceRepo.IngestPrices fs el now req db) as [[res|e] db']; simpl; [by eauto|].
  destruct (service_failure (ingest_error e)) as [[status kind] body]. eauto.
Qed.

Lemma try_posts attempts m db hdb :
  exists m', foldl try_post (m, (db, hdb)) attempts
             = (m', (foldl (try_ingest req) db (map fst attempts), hdb)).
Proof.
  revert m db; induction attempts as [|a l IH]; intros m db; [by exists m|].
  cbn [foldl map]. unfold try_post at 2. simpl.
  destruct (post_store a m db hdb) as (resp & log & m' & ->). apply IH.
Qed.

(** C1. Ingestion over HTTP is exactly-once under retries.  After any number of
    attempts at a valid request, each of which may fail at any statement, be
    refused at the commit or lose its acknowledgement, an attempt without
    failures is answered 202, or 200 when an earlier one had taken effect; the
    body reports the entries of the request and the rows that its one effect
    touched, and the store is the original one after that one effect. *)
Theorem http_ingest_exactly_once attempts m db hdb el now c :
  db_inv db -> ingest_requests db !! uuid = None ->
  let '(m1, (db1, hdb1)) := foldl try_post (m, (db, hdb)) attempts in
  exists now' touched db' dup log m' headers timing,
    now' ∈ now :: map (fun a : http_attempt => snd (fst a)) attempts /\
    effect now' uuid hash s (ip_Entries req) db = (touched, db') /\
    post (no_faults, el, now, c) m1 (db1, hdb1) =
    ({| rs_Status := if dup : bool then StatusOK else StatusAccepted;
        rs_Headers := headers;
        rs_Body := AnswerBody
          {| ipr_RequestID := ip_RequestID req; ipr_Accepted := Z.of_nat (length (ip_Entries req));
             ipr_CurrentRowsTouched := touched; ipr_Duplicate := dup;
             ipr_PersistenceTiming := timing |} |}, log, m', (db', hdb)) /\
    (dup = true <-> db1 <> db).
Proof.
  intros Hinv Hu. destruct (try_posts attempts m db hdb) as [m1 E]. rewrite E. clear E.
  destruct (IngestPrices_exactly_once req s hash uuid (map fst attempts) el now db Hinv Hp Hu)
    as (now' & res & Hin & Hrun & Hacc & Htouched & Hdup).
  exists now', (effect now' uuid hash s (ip_Entries req) db).1,
    (effect now' uuid hash s (ip_Entries req) db).2, (Duplicate res).
  unfold post, IngestHandler.IngestPrices, serve_prices.
  rewrite (proj2 (receive_ok _ _ _ _ _ _) Hrv).
  rewrite (service_prices req s) by (done || apply Hp). simpl. rewrite Hrun. simpl.
  rewrite Hacc, Htouched. do 4 eexists.
  split_and!; [by rewrite map_map in Hin|by destruct (effect _ _ _ _ _ _)|reflexivity|done].
Qed.
End request.
End retries.

(** * The counters

    Requests run concurrently: one arrives and is counted, is served at some
    later time, and its outcome is counted when its deferred function runs, in
    any order with the others. *)
Section counters.
Context `{Unicode} `{Sha256} `{Gzip} {S : Type}.

Record ingest_system := {
  sy_arrived : nat;
  sy_open : nat;
  sy_answered : list (handler_clock * price_outcome);
  sy_metrics : Ingest.IngestMetrics;
  sy_store : S;
}.

(** The repositories that may answer, and the stores they keep. *)
Context (lawful : MarketRepository S -> Prop) (consistent : S -> Prop).

Inductive ingest_system_step (y : ingest_system) : ingest_system -> Prop :=
  | arrives t :
      ingest_system_step y
        {| sy_arrived := Datatypes.S (sy_arrived y); sy_open := Datatypes.S (sy_open y);
           sy_answered := sy_answered y; sy_metrics := Ingest.RequestStarted t (sy_metrics y);
           sy_store := sy_store y |}
  | is_served (R : MarketRepository S) n h c r resp o st :
      lawful R -> sy_open y = Datatypes.S n -> serve_prices h c r (sy_store y) = (resp, o, st) ->
      ingest_system_step y
        {| sy_arrived := sy_arrived y; sy_open := n; sy_answered := sy_answered y ++ [(c, o)];
           sy_metrics := sy_metrics y; sy_store := st |}
  | is_counted l1 c o l2 :
      sy_answered y = l1 ++ (c, o) :: l2 ->
      ingest_system_step y
        {| sy_arrived := sy_arrived y; sy_open := sy_open y; sy_answered := l1 ++ l2;
           sy_metrics := Ingest.RequestFinished (price_observation c o) (sy_metrics y);
           sy_store := sy_store y |}.

Definition idle_system (st : S) : ingest_system :=
  {| sy_arrived := 0; sy_open := 0; sy_answered := []; sy_metrics := Ingest.NewIngestMetrics;
     sy_store := st |}.

(** What the service promises: it accepts all the entries of a request or
    none, also when it answers a duplicate. *)
Definition accepts_all : Prop := forall (R : MarketRepository S) req st,
  lawful R -> consistent st ->
  consistent (MarketService.IngestPrices req st).2 /\
  forall a, (MarketService.IngestPrices req st).1 = Ok a ->
    ipr_Accepted a = Z.of_nat (length (ip_Entries req)).

(** An outcome whose entries are all stored, rejected or duplicates. *)
Definition balanced (o : Ingest.IngestObservation) : Prop :=
  let success := success_status (Ingest.StatusCode o) in
  0 <= Ingest.Received o /\ 0 <= Ingest.Rejected o /\
  Ingest.Received o = Ingest.Rejected o
    + (if success && Ingest.Duplicate o then Ingest.DuplicateEntries o else 0)
    + (if success && negb (Ingest.Duplicate o) then Ingest.Stored o else 0) /\
  (success = true -> 0 <= Ingest.Stored o /\ 0 <= Ingest.DuplicateEntries o).

Lemma serve_prices_balanced (R : MarketRepository S) h c r st resp o st' :
  accepts_all -> lawful R -> consistent st -> serve_prices h c r st = (resp, o, st') ->
  consistent st' /\ balanced (price_observation c o).
Proof.
  intros Hall HR Hst Hs.
  destruct (serve_prices_received h c r st resp o st' Hs)
    as [(key & req & _ & -> & Hans & Hent & Hstatus & Hdup)|(j & Hj & -> & _ & ->)].
  - destruct (Hall R req st HR Hst) as [Hc Hacc]. split; [done|].
    unfold balanced, price_observation. simpl. rewrite Hstatus, Hdup, Hent.
    destruct ((MarketService.IngestPrices req st).1) as [a|e]; simpl in *.
    + destruct Hans as (-> & _ & ->). rewrite (Hacc a eq_refl).
      destruct (ipr_Duplicate a); simpl; lia.
    + destruct Hans as (-> & _ & ->).
      rewrite (error_status _ _ (service_failure_status e) eq_refl).
      destruct (0 <? _) eqn:E; bool_facts; simpl; lia.
  - split; [done|]. unfold balanced, price_observation. simpl.
    rewrite (rejection_status _ _ _ _ _ Hj). simpl. lia.
Qed.

(** The invariant: the counters agree with the requests and with each other. *)
Record counters_ok (y : ingest_system) : Prop := {
  co_store : consistent (sy_store y);
  co_balanced : Forall (fun co => balanced (price_observation co.1 co.2)) (sy_answered y);
  co_pending : (sy_open y + length (sy_answered y) <= sy_arrived y)%nat;
  co_requests : Z.of_nat (sy_arrived y) < 2 ^ 64 ->
    Ingest.requestsTotal (sy_metrics y) = Z.of_nat (sy_arrived y) /\
    Ingest.inFlight (sy_metrics y) = Z.of_nat (sy_open y + length (sy_answered y)) /\
    Ingest.succeededTotal (sy_metrics y) + Ingest.errorsTotal (sy_metrics y)
      + Ingest.inFlight (sy_metrics y) = Ingest.requestsTotal (sy_metrics y) /\
    0 <= Ingest.duplicatesTotal (sy_metrics y) <= Ingest.succeededTotal (sy_metrics y) /\
    0 <= Ingest.errorsTotal (sy_metrics y);
  co_entries :
    Ingest.receivedEntriesTotal (sy_metrics y)
    = wrapU64 (Ingest.storedEntriesTotal (sy_metrics y)
               + Ingest.rejectedEntriesTotal (sy_metrics y)
               + Ingest.duplicateEntriesTotal (sy_metrics y));
}.

Lemma wrapU64_small z : 0 <= z < 2 ^ 64 -> wrapU64 z = z.
Proof. intros. unfold wrapU64. by apply Z.mod_small. Qed.

Lemma wrapU64_range z : 0 <= wrapU64 z < 2 ^ 64.
Proof. unfold wrapU64. apply Z.mod_pos_bound. lia. Qed.

(** Counters are added modulo [2^64]. *)
Lemma wrapU64_spec z : exists k, wrapU64 z = z + k * 2 ^ 64.
Proof. exists (- (z / 2 ^ 64)). unfold wrapU64. pose proof (Z_div_mod_eq_full z (2 ^ 64)). lia. Qed.

Lemma wrapU64_congr k a b : a = b + k * 2 ^ 64 -> wrapU64 a = wrapU64 b.
Proof. intros ->. unfold wrapU64. apply Z_mod_plus_full. Qed.

Lemma finished_entries o m :
  balanced o ->
  Ingest.receivedEntriesTotal m
  = wrapU64 (Ingest.storedEntriesTotal m + Ingest.rejectedEntriesTotal m
             + Ingest.duplicateEntriesTotal m) ->
  Ingest.receivedEntriesTotal (Ingest.RequestFinished o m)
  = wrapU64 (Ingest.storedEntriesTotal (Ingest.RequestFinished o m)
             + Ingest.rejectedEntriesTotal (Ingest.RequestFinished o m)
             + Ingest.duplicateEntriesTotal (Ingest.RequestFinished o m)).
Proof.
  intros (Hr & Hj & Hsum & Hpos) Hm. unfold Ingest.RequestFinished, count, u64_add. simpl.
  rewrite Hm. set (s := Ingest.storedEntriesTotal m). set (j := Ingest.rejectedEntriesTotal m).
  set (d := Ingest.duplicateEntriesTotal m).
  destruct (wrapU64_spec (s + j + d)) as [k1 E1].
  destruct (wrapU64_spec (j + Z.max (Ingest.Rejected o) 0)) as [k2 E2].
  destruct (success_status (Ingest.StatusCode o)); simpl in *.
  - destruct (Hpos eq_refl) as [Hs Hd]. destruct (Ingest.Duplicate o); simpl in *.
    + destruct (wrapU64_spec (d + Z.max (Ingest.DuplicateEntries o) 0)) as [k3 E3].
      apply (wrapU64_congr (k1 - k2 - k3)). lia.
    + destruct (wrapU64_spec (s + Z.max (Ingest.Stored o) 0)) as [k3 E3].
      apply (wrapU64_congr (k1 - k2 - k3)). lia.
  - apply (wrapU64_congr (k1 - k2)). lia.
Qed.

Lemma counters_ok_step y y' :
  accepts_all -> ingest_system_step y y' -> counters_ok y -> counters_ok y'.
Proof.
  intros Hall Hstep [Hst Hbal Hpend Hreq Hent].
  destruct Hstep as [t|R n h c r resp o st HR Hn Hs|l1 c o l2 Hl].
  - split; simpl; [done|done|lia| |done]. intros Hlt. destruct Hreq as (E1 & E2 & E3 & E4 & E5); [lia|].
    unfold u64_add. rewrite E1, E2, !wrapU64_small by lia. lia.
  - destruct (serve_prices_balanced R h c r _ resp o st Hall HR Hst Hs) as [Hst' Ho].
    split; simpl; [done| | |intros Hlt|done].
    + apply Forall_app; split; [done|]. by constructor.
    + rewrite length_app. simpl. lia.
    + destruct Hreq as (E1 & E2 & E3 & E4 & E5); [done|]. split_and!; try done; try lia.
      rewrite E2, length_app. simpl. lia.
  - assert (Hlen : length (sy_answered y) = Datatypes.S (length (l1 ++ l2)))
      by (rewrite Hl, !length_app; simpl; lia).
    rewrite Hl in Hbal. apply Forall_app in Hbal as [Hb1 Hb2]. apply Forall_cons in Hb2 as [Ho Hb2].
    split; simpl; [done| |lia|intros Hlt|].
    + by apply Forall_app.
    + destruct Hreq as (E1 & E2 & E3 & E4 & E5); [done|].
      rewrite Hlen in E2. unfold u64_add. rewrite E1, E2.
      assert ((0 <? Z.of_nat (sy_open y + Datatypes.S (length (l1 ++ l2)))) = true) as ->
        by (apply Z.ltb_lt; lia).
      destruct (success_status (po_statusCode o)); simpl;
        [destruct (po_duplicate o); simpl|]; rewrite ?wrapU64_small by lia; lia.
    + exact (finished_entries _ _ Ho Hent).
Qed.

(** Whatever the order in which concurrent requests arrive, are served and
    are counted, and however their database calls fail: while fewer than [2^64]
    requests have arrived, the counter of requests is their number, the gauge is
    the number of those that have not been counted yet, the others are either
    successes or errors, and duplicates are successes; and, as [uint64] values,
    the entries received are those stored, rejected or recognised as
    duplicates. *)
Theorem ingest_counters_balance st y :
  accepts_all -> consistent st -> rtc ingest_system_step (idle_system st) y -> counters_ok y.
Proof.
  intros Hall Hst Hr. assert (counters_ok (idle_system st)) as Hidle
    by (split; simpl; [done|by constructor|lia|intros; lia|reflexivity]).
  revert Hidle. induction Hr as [x|x y z Hstep Hr IH]; [done|].
  intros Hx. apply IH. by eapply counters_ok_step.
Qed.
End counters.

(** The PostgreSQL repository accepts all the entries of a request: a ledger row
    counts the entries of the request whose hash it holds, provided that requests
    with different numbers of entries have different hashes. *)
Section pgx_accepts.
Context `{Sha256} `{RequestEncoding} `{Collation}.

Definition counts_determined : Prop := forall r1 r2 hash,
  canonicalRequestHash r1 = Ok hash -> canonicalRequestHash r2 = Ok hash ->
  length (ip_Entries r1) = length (ip_Entries r2).

(** The repository, with any failures and at any time. *)
Definition pgx_lawful (R : MarketRepository (DB * HistoryDB)) : Prop :=
  exists median fs el now, R = PgxMarketRepository median fs el now.

(** The invariant of the tables, and what a ledger row counts. *)
Definition pgx_consistent (st : DB * HistoryDB) : Prop :=
  db_inv st.1 /\
  forall u q req, ingest_requests st.1 !! u = Some q ->
    canonicalRequestHash req = Ok (q_request_sha256 q) ->
    q_accepted_count q = Z.of_nat (length (ip_Entries req)).

Lemma IngestPrices_accepted fs el now req db res db' :
  db_inv db ->
  (forall u q, ingest_requests db !! u = Some q ->
     canonicalRequestHash req = Ok (q_request_sha256 q) ->
     q_accepted_count q = Z.of_nat (length (ip_Entries req))) ->
  PriceRepo.IngestPrices fs el now req db = (Ok res, db') ->
  Accepted res = Z.of_nat (length (ip_Entries req)).
Proof.
  intros Hinv Hled Hrun.
  destruct (mapServer (ip_Server req)) as [s|e] eqn:Hs; [|by unfold PriceRepo.IngestPrices in Hrun; rewrite Hs in Hrun].
  destruct (canonicalRequestHash req) as [hash|e] eqn:Hh;
    [|by unfold PriceRepo.IngestPrices in Hrun; rewrite Hs, Hh in Hrun].
  destruct (scanUUID (ip_RequestID req)) as [uuid|] eqn:Hu;
    [|by unfold PriceRepo.IngestPrices in Hrun; rewrite Hs, Hh, Hu in Hrun].
  assert (prepared req s hash uuid) as Hp by done.
  destruct (ingest_requests db !! uuid) as [q|] eqn:Hq.
  - destruct (inv_completed db Hinv uuid q Hq) as [Hst _].
    rewrite (IngestPrices_known fs el now req s hash uuid db q Hp Hq Hst) in Hrun.
    destruct (List.find _ _); [done|]. case_bool_decide as Hqh; [|done].
    injection Hrun as <- _. simpl. apply (Hled uuid); [done|]. by rewrite Hqh.
  - rewrite (IngestPrices_new fs el now req s hash uuid db Hp Hq) in Hrun.
    destruct (statement_fails fs); [done|]. destruct (effect _ _ _ _ _ _).
    destruct (commit fs); [by injection Hrun as <- _|discriminate..].
Qed.

Lemma IngestPrices_consistent fs el now req db (hdb : HistoryDB) :
  counts_determined -> pgx_consistent (db, hdb) ->
  pgx_consistent ((PriceRepo.IngestPrices fs el now req db).2, hdb).
Proof.
  intros Hcd [Hinv Hled]. split; simpl in *; [by eapply ingest_step_inv; [apply run_ingest|]|].
  destruct (IngestPrices_atomic fs el now req db Hinv) as [->|(s & hash & uuid & [Hs Hh Hu] & Hnew & ->)];
    [done|].
  intros u q req' Hq Hhash.
  pose proof (effect_spec now uuid hash s (ip_Entries req) db Hinv Hnew) as He.
  destruct (effect now uuid hash s (ip_Entries req) db) as [n db']. destruct He as (Hr & _).
  simpl in Hq. rewrite Hr in Hq. apply lookup_insert_Some in Hq as [[-> <-]|[_ Hq]].
  - simpl in *. by rewrite (Hcd _ _ _ Hh Hhash).
  - by apply (Hled u).
Qed.

Lemma pgx_accepts_all : counts_determined -> accepts_all pgx_lawful pgx_consistent.
Proof.
  intros Hcd R req [db hdb] (median & fs & el & now & ->) Hst.
  unfold MarketService.IngestPrices.
  destruct (is_empty (ip_RequestID req)); [done|]. destruct (is_empty (ip_Server req)); [done|].
  destruct (bool_decide _); [done|]. destruct (validateServer _); [|done]. simpl.
  pose proof (IngestPrices_consistent fs el now req db hdb Hcd Hst) as Hc.
  destruct (PriceRepo.IngestPrices fs el now req db) as [[res|e] db'] eqn:Hrun; simpl in *; [|done].
  split; [done|]. intros ans [= <-]. simpl. destruct Hst as [Hinv Hled].
  eapply IngestPrices_accepted; [done| |exact Hrun]. intros u q Hq. by apply (Hled u).
Qed.
End pgx_accepts.

(** * Examples *)

Definition no_gzip : Gzip := fun _ => None.

#[local] Existing Instance plain_unicode.
#[local] Existing Instance plain_sha256.

Definition sample_headers (h : string) : string :=
  if bool_decide (h = "Authorization") then "Bearer secret"
  else if bool_decide (h = "Content-Type") then "application/json; charset=utf-8" else EmptyString.

Definition sample_post (body : string) : HttpRequest :=
  {| hr_Method := "POST"; hr_TLS := true; hr_Header := sample_headers; hr_Query _ := EmptyString;
     hr_PathValue _ := EmptyString; hr_Body := {| st_bytes := body; st_end := AtEOF |};
     hr_Identity := None; hr_CorrelationID := "c1" |}.

Definition sample_handler : IngestHandler :=
  NewIngestHandler
    (Some {| credentials := [{| id := "current"; digest := "secret" |}];
             requireHTTPS := true; trustProxyHeaders := false |}) 0.

Definition sample_clock : handler_clock :=
  {| hc_started := 10; hc_elapsed := 2000000; hc_completed := 20; hc_duration := 3000000 |}.

(** An encoding that tells requests of different numbers of entries apart. *)
Definition counting_encoding : RequestEncoding := {|
  marshal_prices req := Some (FormatInt (Z.of_nat (length (ip_Entries req))));
  marshal_history req := Some (FormatInt (Z.of_nat (length (ih_Entries req))));
  scanUUID id := if is_empty id then None else Some id;
|}.

Definition sample_repository : MarketRepository (DB * HistoryDB) :=
  PgxMarketRepository (H := plain_sha256) (H0 := counting_encoding) (H1 := c_collation)
    example_median no_faults example_elapsed 50000.

Definition sample_run :=
  IngestHandler.IngestPrices (H := plain_unicode) (H0 := plain_sha256) (H1 := no_gzip)
    (H2 := sample_repository) sample_handler sample_clock (sample_post sample_price_body)
    Ingest.NewIngestMetrics (empty_db, empty_history_db).

(** The bodies that are refused: one with an unknown field, one with a second
    value, and one larger than the limit. *)
Example refused_bodies :
  map (fun b => rmap_err rj_Kind
         (receive (H := plain_unicode) (H0 := plain_sha256) (H1 := no_gzip)
            dec_IngestPricesRequest zero_price_request
            {| authenticator := authenticator sample_handler; maxRequestBodySize := 40 |}
            (sample_post (quoted b))))
    ["{'unknown':1}"; "{} {}"; "{'request_id':'0123456789012345678901234567890123456789'}"; "{} "]
  = [Err "invalid_json"; Err "invalid_json"; Err "payload_too_large";
     Ok ("current", zero_price_request)].
Proof. vm_compute. reflexivity. Qed.

Lemma ingest_requires_valid_request_witness :
  success_status (rs_Status sample_run.1.1.1) = true /\
  exists key req, received (H := plain_unicode) (H0 := plain_sha256) (H1 := no_gzip)
    dec_IngestPricesRequest zero_price_request sample_handler (sample_post sample_price_body) key req.
Proof.
  split; [vm_compute; reflexivity|].
  destruct (ingest_requires_valid_request (H := plain_unicode) (H0 := plain_sha256) (H1 := no_gzip)
    (H2 := sample_repository) sample_handler sample_clock (sample_post sample_price_body)
    Ingest.NewIngestMetrics (empty_db, empty_history_db) sample_run.1.1.1 sample_run.1.1.2
    sample_run.1.2 sample_run.2) as (key & req & Hrv & _).
  - unfold sample_run. by destruct (IngestHandler.IngestPrices _ _ _ _ _) as [[[? ?] ?] ?].
  - right. vm_compute. reflexivity.
  - by exists key, req.
Defined.

Definition sample_received :
  received (H := plain_unicode) (H0 := plain_sha256) (H1 := no_gzip)
    dec_IngestPricesRequest zero_price_request sample_handler (sample_post sample_price_body)
    "current" sample_price_request.
Proof. apply receive_ok. vm_compute. reflexivity. Qed.

Lemma http_ingest_exactly_once_witness :
  let post := post (H := plain_unicode) (H0 := plain_sha256) (H1 := no_gzip)
    (H2 := counting_encoding) (H3 := c_collation) example_median sample_handler
    (sample_post sample_price_body) in
  let '(m1, st1) := foldl (try_post (H := plain_unicode) (H0 := plain_sha256) (H1 := no_gzip)
    (H2 := counting_encoding) (H3 := c_collation) example_median sample_handler
    (sample_post sample_price_body)) (Ingest.NewIngestMetrics, (empty_db, empty_history_db))
    [(copy_fails, example_elapsed, 60, sample_clock); (ack_lost, example_elapsed, 70, sample_clock)] in
  exists dup : bool,
    rs_Status (post (no_faults, example_elapsed, 90, sample_clock) m1 st1).1.1.1
    = (if dup then StatusOK else StatusAccepted) /\ (dup = true <-> st1.1 <> empty_db).
Proof.
  intros post.
  pose proof (http_ingest_exactly_once (H := plain_unicode) (H0 := plain_sha256) (H1 := no_gzip)
    (H2 := counting_encoding) (H3 := c_collation) example_median sample_handler
    (sample_post sample_price_body) "current" sample_price_request 1 "1"
    "00112233-4455-6677-8899-aabbccddeeff" sample_received
    ltac:(split; vm_compute; discriminate)
    ltac:(split; vm_compute; reflexivity)
    [(copy_fails, example_elapsed, 60, sample_clock); (ack_lost, example_elapsed, 70, sample_clock)]
    Ingest.NewIngestMetrics empty_db empty_history_db example_elapsed 90 sample_clock
    db_inv_empty eq_refl) as H.
  destruct (foldl _ _ _) as [m1 [db1 hdb1]].
  destruct H as (now' & touched & db' & dup & log & m' & headers & timing & _ & _ & Hpost & Hdup).
  exists dup. split; [|exact Hdup]. unfold post. by rewrite Hpost.
Defined.

Lemma counting_determined : counts_determined (H := plain_sha256) (H0 := counting_encoding).
Proof.
  intros r1 r2 hash H1 H2. unfold canonicalRequestHash in *. simpl in *.
  injection H1 as <-. injection H2 as H2. apply FormatInt_inj in H2. lia.
Qed.

(** One request, counted twice in a row when it is sent twice. *)
Lemma ingest_counters_balance_witness :
  let lawful := pgx_lawful (H := plain_sha256) (H0 := counting_encoding) (H1 := c_collation) in
  let consistent := pgx_consistent (H := plain_sha256) (H0 := counting_encoding) in
  let '(resp, o, st) := serve_prices (H := plain_unicode) (H0 := plain_sha256) (H1 := no_gzip)
    (H2 := sample_repository) sample_handler sample_clock (sample_post sample_price_body)
    (empty_db, empty_history_db) in
  let m := Ingest.RequestFinished (price_observation sample_clock o)
             (Ingest.RequestStarted 10 Ingest.NewIngestMetrics) in
  Ingest.succeededTotal m = 1 /\
  counters_ok consistent
    {| sy_arrived := 1; sy_open := 0; sy_answered := []; sy_metrics := m; sy_store := st |}.
Proof.
  intros lawful consistent.
  destruct (serve_prices _ _ _ _) as [[resp o] st] eqn:E. cbv zeta.
  split.
  - assert (o = (serve_prices (H := plain_unicode) (H0 := plain_sha256) (H1 := no_gzip)
      (H2 := sample_repository) sample_handler sample_clock (sample_post sample_price_body)
      (empty_db, empty_history_db)).1.2) as -> by by rewrite E.
    vm_compute. reflexivity.
  - apply (ingest_counters_balance (H := plain_unicode) (H0 := plain_sha256) (H1 := no_gzip)
      lawful consistent (empty_db, empty_history_db)).
    + apply pgx_accepts_all, counting_determined.
    + split; [apply db_inv_empty|]. intros u q req Hq. simpl in Hq. by rewrite lookup_empty in Hq.
    + eapply rtc_l; [apply (arrives lawful _ 10)|].
      eapply rtc_l; [eapply (is_served lawful _ sample_repository 0); [|reflexivity|exact E]|].
      { by exists example_median, no_faults, example_elapsed, 50000. }
      apply rtc_once. simpl. by apply (is_counted lawful
        {| sy_arrived := 1; sy_open := 0; sy_answered := [(sample_clock, o)]; sy_metrics := _; sy_store := st |}
        [] sample_clock o []).
Defined.
