(* ===== verification/QueryHandlers.v ===== *)
(** The public read handlers: [internal/handlers/prices_handler.go],
    [history_handler.go] and [health_handler.go]; then their contract. *)
From S2P Require Import Prelude GoLists GoBase Dates Domain Catalog MarketService MarketServiceSpec HistoryService HistoryServiceSpec Json DomainJson Http IngestHandler IngestHandlerSpec.
Local Open Scope Z_scope.

Definition defaultPublicQueryBodyBytes : Z := Z.shiftl 1 20.

(** [NewPricesHandler] and [NewHistoryHandler]: the bound of a body. *)
Definition query_body_limit (bodyLimits : list Z) : Z :=
  match bodyLimits with
  | limit :: _ => if 0 <? limit then limit else defaultPublicQueryBodyBytes
  | [] => defaultPublicQueryBodyBytes
  end.

(** What the handlers write: an error or the answer of the service. *)
Inductive query_body (A : Type) := QueryError (error : error_detail) | QueryAnswer (answer : A).
Arguments QueryError {A} _.
Arguments QueryAnswer {A} _.

Definition write_error {A} (status : Z) (e : error_detail) (headers : list (string * string))
    : Response (query_body A) :=
  {| rs_Status := status; rs_Headers := headers ++ [json_type]; rs_Body := QueryError e |}.

Definition write_answer {A} (status : Z) (a : A) : Response (query_body A) :=
  {| rs_Status := status; rs_Headers := [json_type]; rs_Body := QueryAnswer a |}.

Definition method_not_allowed {A} (allow : string) : Response (query_body A) :=
  write_error StatusMethodNotAllowed (Text "method not allowed") [("Allow", allow)].

Definition zero_history_query : HistoryQueryRequest :=
  {| hqr_Server := EmptyString; hqr_MarketKeys := []; hqr_Entries := [];
     hqr_RangeStart := EmptyString; hqr_RangeEnd := EmptyString |}.

#[local] Abbreviation HQ := Build_HistoryQueryRequest.

Section decoders.
Context `{Unicode}.

Definition dec_HistoryQueryEntry : decoder HistoryQueryEntry :=
  dec_struct
    [("itemIdentifier", field hq_ItemKey
        (fun x e => {| hq_ItemKey := x; hq_Quality := hq_Quality e |}) dec_string);
     ("quality", field hq_Quality
        (fun x e => {| hq_ItemKey := hq_ItemKey e; hq_Quality := x |}) dec_int16)].

Definition dec_HistoryQueryRequest : decoder HistoryQueryRequest :=
  dec_struct
    [("server", field hqr_Server (fun x '(HQ _ k e s f) => HQ x k e s f) dec_string);
     ("marketKeys", field hqr_MarketKeys (fun x '(HQ v _ e s f) => HQ v x e s f)
                      (dec_slice EmptyString dec_string));
     ("entries", field hqr_Entries (fun x '(HQ v k _ s f) => HQ v k x s f)
                   (dec_slice {| hq_ItemKey := EmptyString; hq_Quality := 0 |} dec_HistoryQueryEntry));
     ("rangeStart", field hqr_RangeStart (fun x '(HQ v k e _ f) => HQ v k e x f) dec_string);
     ("rangeEnd", field hqr_RangeEnd (fun x '(HQ v k e s _) => HQ v k e s x) dec_string)].

(** The decoding both batch handlers share. *)
Definition read_query {A R} (d : decoder A) (zero : A) (limit : Z) (r : HttpRequest)
    : result (Response (query_body R)) A :=
  fail_if negb (bool_decide (hr_Method r = "POST")) with method_not_allowed "POST" else
  fail_if negb (isJSONContentType (hr_Header r "Content-Type"))
    with write_error StatusUnsupportedMediaType (Text "content type must be application/json") [] else
  match decode_next d zero (MaxBytesReader limit (hr_Body r)) with
  | Err (DReader TooLarge) =>
      Err (write_error StatusRequestEntityTooLarge (Text "request body too large") [])
  | Err _ => Err (write_error StatusBadRequest (Text "invalid json") [])
  | Ok (req, rest) =>
      if at_eof rest then Ok req
      else Err (write_error StatusBadRequest (Text "invalid json") [])
  end.
End decoders.

(** * Prices *)
Section prices.
Context `{Unicode} {S : Type} `{MarketRepository S} (catalog : Catalog) (limit : Z) (now : time).

Definition ListMarkets (r : HttpRequest) : Response (query_body MarketCatalogResponse) :=
  if negb (bool_decide (hr_Method r = "GET")) then method_not_allowed "GET" else
  let raw := TrimSpace (hr_Query r "includeDisabled") in
  if is_empty raw then write_answer StatusOK (Markets catalog false) else
  match ParseBool raw with
  | None => write_error StatusBadRequest (Text "includeDisabled must be true or false") []
  | Some includeDisabled => write_answer StatusOK (Markets catalog includeDisabled)
  end.

Definition price_query (req : PriceQueryRequest) (st : S)
    : Response (query_body PriceQueryResponse) :=
  match QueryCurrentPrices catalog now req st with
  | Ok resp => write_answer StatusOK resp
  | Err (InvalidPriceQuery why) => write_error StatusBadRequest (Reason why) []
  | Err _ => write_error StatusInternalServerError (Text "internal server error") []
  end.

Definition GetCurrentPrices (r : HttpRequest) (st : S) : Response (query_body PriceQueryResponse) :=
  if negb (bool_decide (hr_Method r = "GET")) then method_not_allowed "GET" else
  match ParseInt16 (TrimSpace (hr_Query r "quality")) with
  | None => write_error StatusBadRequest (Text "quality must be an integer between 1 and 5") []
  | Some quality =>
      let itemIDs := splitCommaSeparated (hr_Query r "itemIds") in
      price_query
        {| pqr_Server := TrimSpace (hr_Query r "server");
           pqr_MarketKeys := [hr_Query r "marketKey"];
           pqr_Entries := map (fun i => {| pq_ItemKey := i; pq_Quality := quality |}) itemIDs |} st
  end.

Definition PostCurrentPrices (r : HttpRequest) (st : S) : Response (query_body PriceQueryResponse) :=
  match read_query dec_PriceQueryRequest zero_price_query limit r with
  | Err resp => resp
  | Ok req => price_query req st
  end.
End prices.

(** * History *)

Inductive range_error := RangeTogether | UnknownPeriod.

Definition range_error_text (e : range_error) : string :=
  match e with
  | RangeTogether => "rangeStart and rangeEnd must be provided together"
  | UnknownPeriod => "period must be 7-days or 4-weeks"
  end.

(** [resolveHistoryGETRange]: the range given, or the period that ends on the
    day before [now]. *)
Definition resolveHistoryGETRange (values : string -> string) (now : time)
    : result range_error (string * string) :=
  let rangeStart := TrimSpace (values "rangeStart") in
  let rangeEnd := TrimSpace (values "rangeEnd") in
  if negb (is_empty rangeStart) || negb (is_empty rangeEnd) then
    fail_if is_empty rangeStart || is_empty rangeEnd with RangeTogether else
    Ok (rangeStart, rangeEnd)
  else
    let period := TrimSpace (values "period") in
    let period := if is_empty period then "4-weeks" else period in
    let! days :=
      (if bool_decide (period = "7-days") then Ok 7
       else if bool_decide (period = "4-weeks") then Ok 28 else Err UnknownPeriod) in
    let end_ := day_of now - 1 in
    let start := end_ - (days - 1) in
    Ok (format_day start, format_day end_).

Section history.
Context `{Unicode} {S : Type} `{MarketRepository S} (catalog : Catalog) (limit : Z) (now : time).

Definition history_query (req : HistoryQueryRequest) (st : S)
    : Response (query_body HistoryQueryResponse) :=
  match QueryMarketHistory catalog now req st with
  | Ok resp => write_answer StatusOK resp
  | Err (InvalidHistoryQuery why) => write_error StatusBadRequest (Reason why) []
  | Err _ => write_error StatusInternalServerError (Text "internal server error") []
  end.

Definition GetMarketHistory (r : HttpRequest) (st : S) : Response (query_body HistoryQueryResponse) :=
  if negb (bool_decide (hr_Method r = "GET")) then method_not_allowed "GET" else
  match ParseInt16 (TrimSpace (hr_Query r "quality")) with
  | None => write_error StatusBadRequest (Text "quality must be an integer between 1 and 5") []
  | Some quality =>
      match resolveHistoryGETRange (hr_Query r) now with
      | Err e => write_error StatusBadRequest (Text (range_error_text e)) []
      | Ok (rangeStart, rangeEnd) =>
          let rawLimit := TrimSpace (hr_Query r "limit") in
          if negb (is_empty rawLimit)
             && match Atoi rawLimit with Some n => n <=? 0 | None => true end
          then write_error StatusBadRequest (Text "limit must be a positive integer") []
          else
            history_query
              {| hqr_Server := TrimSpace (hr_Query r "server");
                 hqr_MarketKeys := [hr_Query r "marketKey"];
                 hqr_Entries := [{| hq_ItemKey := TrimSpace (hr_Query r "itemId");
                                    hq_Quality := quality |}];
                 hqr_RangeStart := rangeStart; hqr_RangeEnd := rangeEnd |} st
      end
  end.

Definition PostMarketHistory (r : HttpRequest) (st : S)
    : Response (query_body HistoryQueryResponse) :=
  match read_query dec_HistoryQueryRequest zero_history_query limit r with
  | Err resp => resp
  | Ok req => history_query req st
  end.
End history.

(** * Health

    [Readyz] asks the readiness checker, which is absent when the handler has
    none; its answer is whether the check found the service ready. *)
Definition health_error (allow : string) : Response (query_body string) :=
  {| rs_Status := StatusMethodNotAllowed; rs_Headers := [no_store; ("Allow", allow); json_type];
     rs_Body := QueryError (Text "method not allowed") |}.

Definition Healthz (r : HttpRequest) : Response (query_body string) :=
  if negb (bool_decide (hr_Method r = "GET")) then health_error "GET" else
  {| rs_Status := StatusOK; rs_Headers := [no_store; json_type]; rs_Body := QueryAnswer "ok" |}.

Definition Readyz (readiness : option bool) (r : HttpRequest) : Response (query_body string) :=
  if negb (bool_decide (hr_Method r = "GET")) then health_error "GET" else
  match readiness with
  | Some true =>
      {| rs_Status := StatusOK; rs_Headers := [no_store; json_type]; rs_Body := QueryAnswer "ok" |}
  | _ =>
      {| rs_Status := StatusServiceUnavailable; rs_Headers := [no_store; json_type];
         rs_Body := QueryError (Text "service unavailable") |}
  end.

(** The limit of a history query is checked and then not used: the request has
    no place for it. *)
Example history_limit_unused :
  let U := plain_unicode in
  let get limit := {| hr_Method := "GET"; hr_TLS := true; hr_Header _ := EmptyString;
    hr_Query k := if bool_decide (k = "limit") then limit
                  else if bool_decide (k = "quality") then "1" else EmptyString;
    hr_PathValue _ := EmptyString; hr_Body := {| st_bytes := EmptyString; st_end := AtEOF |};
    hr_Identity := None; hr_CorrelationID := EmptyString |} in
  forall S (R : MarketRepository S) catalog now st,
    GetMarketHistory catalog now (get "1") st = GetMarketHistory catalog now (get "500") st
    /\ rs_Status (GetMarketHistory catalog now (get "0") st) = StatusBadRequest.
Proof. split; reflexivity. Qed.

(** ** The contract of the public read handlers. *)

(** * Dates need no trimming *)

(** A string that starts with a digit does not start with a space, read from
    either end. *)
Lemma digit_not_space z s :
  0 <= z <= 9 ->
  strip_first space_encodings (String (digit_char z) s) = None
  /\ strip_first space_encodings_rev (String (digit_char z) s) = None.
Proof.
  intros Hz.
  assert (z ∈ [0; 1; 2; 3; 4; 5; 6; 7; 8; 9]) as Hin by (rewrite !elem_of_cons; lia).
  rewrite !elem_of_cons, elem_of_nil in Hin. destruct_or! Hin; subst; try done; by split.
Qed.

Lemma trim_left_digit ps n z s :
  strip_first ps (String (digit_char z) s) = None ->
  trim_left_fuel ps n (String (digit_char z) s) = String (digit_char z) s.
Proof. destruct n; simpl; [done|]. by intros ->. Qed.

Lemma trim_digits z1 c2 c3 c4 c5 c6 c7 c8 c9 z10 :
  0 <= z1 <= 9 -> 0 <= z10 <= 9 ->
  let s := of_bytes [digit_char z1; c2; c3; c4; c5; c6; c7; c8; c9; digit_char z10] in
  TrimSpace s = s.
Proof.
  intros Hfirst Hlast s.
  assert (TrimLeftSpace s = s) as Hl.
  { unfold TrimLeftSpace. generalize (String.length s). intros n.
    exact (trim_left_digit space_encodings n z1 _ (proj1 (digit_not_space z1 _ Hfirst))). }
  unfold TrimSpace. rewrite Hl. unfold TrimRightSpace. generalize (String.length s). intros n.
  assert (String.rev s = of_bytes [digit_char z10; c9; c8; c7; c6; c5; c4; c3; c2; digit_char z1])
    as Hr by reflexivity.
  rewrite Hr. cbn [of_bytes].
  rewrite (trim_left_digit space_encodings_rev n z10 _ (proj2 (digit_not_space z10 _ Hlast))).
  reflexivity.
Qed.

Lemma trim_format_date y m d :
  valid_date y m d = true -> TrimSpace (format_date y m d) = format_date y m d.
Proof.
  intros Hv. apply valid_date_spec in Hv as (Hy & _ & _). apply trim_digits.
  - split; [apply Z.div_pos; lia|apply Z.lt_succ_r, Z.div_lt_upper_bound; lia].
  - pose proof (Z.mod_pos_bound d 10). lia.
Qed.

Lemma format_day_valid d :
  - 719528 <= d < day_number 10000 1 1 ->
  exists y m dd, format_day d = format_date y m dd /\ valid_date y m dd = true
    /\ day_number y m dd = d.
Proof.
  intros Hd. pose proof (ParseDate_format_day d Hd) as Hp.
  apply ParseDate_Some in Hp as (y & m & dd & Hs & Hv & Ht).
  exists y, m, dd. split_and!; [done|done|]. unfold day, hour, minute, second in Ht. lia.
Qed.

(** * The default range *)

(** The periods a [GET] may ask for, and their days. *)
Definition period_days (period : string) : option Z :=
  if bool_decide (period = "7-days") then Some 7
  else if bool_decide (period = "4-weeks") || is_empty period then Some 28
  else None.

(** A history request without explicit dates is never refused for its
    range: it asks for the seven or twenty-eight whole days before the day of
    [now], from midnight to the midnight that starts that day, so for complete
    days only, and another period is refused before the service is called. *)
Theorem history_period_complete_days values now :
  TrimSpace (values "rangeStart") = EmptyString -> TrimSpace (values "rangeEnd") = EmptyString ->
  - 719499 < day_of now <= day_number 10000 1 1 ->
  match period_days (TrimSpace (values "period")) with
  | None => resolveHistoryGETRange values now = Err UnknownPeriod
  | Some n => exists ss es,
      resolveHistoryGETRange values now = Ok (ss, es) /\
      parseHistoryRange ss es = Ok ((day_of now - n) * day, day_of now * day, ss, es)
  end.
Proof.
  intros Hs He Hnow. unfold resolveHistoryGETRange, period_days. rewrite Hs, He. simpl.
  set (period := TrimSpace (values "period")).
  assert (Hrange : forall n, 1 <= n <= 28 -> exists ss es,
    Ok (E := range_error) (format_day (day_of now - 1 - (n - 1)), format_day (day_of now - 1))
    = Ok (ss, es) /\
    parseHistoryRange ss es = Ok ((day_of now - n) * day, day_of now * day, ss, es)).
  { intros n Hn. do 2 eexists. split; [reflexivity|].
    destruct (format_day_valid (day_of now - 1 - (n - 1)) ltac:(lia)) as (y1 & m1 & d1 & -> & Hv1 & Hd1).
    destruct (format_day_valid (day_of now - 1) ltac:(lia)) as (y2 & m2 & d2 & -> & Hv2 & Hd2).
    apply parseHistoryRange_correct. exists y1, m1, d1, y2, m2, d2.
    rewrite !trim_format_date, !parse_format by done. rewrite Hd1, Hd2.
    split_and!; try done; lia. }
  generalize dependent period; intros period.
  destruct (decide (period = "7-days")) as [->|H7]; [apply (Hrange 7); lia|].
  destruct (decide (period = EmptyString)) as [->|H0]; [apply (Hrange 28); lia|].
  destruct (decide (period = "4-weeks")) as [->|H4]; [apply (Hrange 28); lia|].
  rewrite !(bool_decide_eq_false_2 _ H7), !(bool_decide_eq_false_2 _ H4).
  rewrite (proj2 (is_empty_false period)) by done. simpl.
  by rewrite !(bool_decide_eq_false_2 _ H7), !(bool_decide_eq_false_2 _ H4).
Qed.

Lemma history_period_complete_days_witness :
  exists ss es,
    resolveHistoryGETRange (fun k => if bool_decide (k = "period") then "7-days" else EmptyString)
      (day_number 2026 3 2 * day + hour) = Ok (ss, es) /\ ss = "2026-02-23" /\ es = "2026-03-01".
Proof.
  pose proof (history_period_complete_days
    (fun k => if bool_decide (k = "period") then "7-days" else EmptyString)
    (day_number 2026 3 2 * day + hour) eq_refl eq_refl
    ltac:(split; [by vm_compute|by vm_compute])) as (ss & es & Hr & _).
  exists ss, es. split; [exact Hr|]. vm_compute in Hr. by injection Hr as <- <-.
Defined.
