(* ===== verification/AccountsSpec.v ===== *)
(** What an account is told: its effective subscription, its entitlements, and
    what the billing webhooks make of them. *)
From S2P Require Import Prelude GoLists GoBase Webhook BillingDB Billing BillingSamples BillingSpec Accounts.
Local Open Scope Z_scope.

(** * The orders of the queries *)

#[export] Instance until_ltb_strict_weak : StrictWeak until_ltb.
Proof.
  split.
  - intros [x|] [y|]; simpl; try done. intros ?. bool_facts. apply Z.ltb_ge. lia.
  - intros [x|] [y|] [z|]; simpl; try done. intros. bool_facts. apply Z.ltb_ge. lia.
Qed.

#[export] Instance access_less_strict_weak : StrictWeak access_less.
Proof.
  unfold access_less. repeat apply then_less_strict_weak.
  - exact (@flip_strict_weak _ _ (less_on_strict_weak Z.ltb (fun r => status_rank (sr_Status r)))).
  - apply (less_on_strict_weak until_ltb sr_AccessUntil).
  - apply (less_on_strict_weak Z.ltb sr_UpdatedAt).
Qed.

#[export] Instance permission_less_strict_weak : StrictWeak permission_less.
Proof.
  unfold permission_less. apply then_less_strict_weak.
  - apply (less_on_strict_weak str_ltb (fun a : string * Z * string => fst (fst a))).
  - apply (less_on_strict_weak Z.ltb (fun a : string * Z * string => snd (fst a))).
Qed.

(** * The effective subscription *)

(** A row that gives [user] access at [now]. *)
Definition active_for (now : time) (user : string) (l : list subscription_row) (r : subscription_row) : Prop :=
  r ∈ l /\ sr_UserID r = user /\ grants_access now r = true.

Lemma effective_row_Some now user l r :
  effective_row now user l = Some r ->
  active_for now user l r /\ forall r', active_for now user l r' -> access_less r r' = false.
Proof.
  unfold effective_row, active_for. intros Hb. split.
  - apply best_elem, list_elem_of_In, List.filter_In in Hb as [Hin Hg]. bool_facts.
    by rewrite list_elem_of_In.
  - intros r' (Hin & Hu & Hg). eapply best_max; [apply _|done|].
    apply list_elem_of_In, List.filter_In. rewrite bool_decide_eq_true_2, Hg by done.
    by rewrite <- list_elem_of_In.
Qed.

Lemma effective_row_None now user l :
  effective_row now user l = None <-> forall r, ~ active_for now user l r.
Proof.
  unfold effective_row, active_for. rewrite best_None. split.
  - intros Hn r (Hin & Hu & Hg). apply (List.in_nil (a := r)). rewrite <- Hn.
    apply List.filter_In. rewrite bool_decide_eq_true_2, Hg by done. by rewrite <- list_elem_of_In.
  - intros Hn. apply filter_none. intros r Hin. destruct (bool_decide _) eqn:Hu; [|done]. simpl.
    bool_facts. destruct (grants_access now r) eqn:Hg; [|done]. by destruct (Hn r).
Qed.

(** Access never outlives its date, and an ended subscription gives none. *)
Lemma grants_access_until now r t :
  grants_access now r = true -> sr_AccessUntil r = Some t -> now < t.
Proof. unfold grants_access. intros Hg Ht. rewrite Ht in Hg. bool_facts. done. Qed.

Lemma expired_grants_nothing now r : sr_Status r = "expired" -> grants_access now r = false.
Proof. unfold grants_access. intros ->. done. Qed.

(** * Entitlements *)

Section entitlements.
Context `{EntitlementEncoding}.

Definition of_key (key : string) (row : string * Z * string) : bool :=
  bool_decide (fst (fst row) = key).

(** The loop keeps the last row of each key. *)
Lemma fill_entitlements_lookup rows m m' key :
  fill_entitlements rows m = Ok m' ->
  m' !! key = match last (List.filter (of_key key) rows) with
              | Some row => decode_entitlement (snd row)
              | None => m !! key
              end.
Proof.
  revert m. induction rows as [|[[k p] raw] rows IH]; intros m; simpl.
  { by intros [= ->]. }
  destruct (decode_entitlement raw) as [v|] eqn:Hd; [|done]. intros Hf. rewrite (IH _ Hf).
  unfold of_key at 2. simpl. case_bool_decide as Hk; simpl.
  - subst k. destruct (List.filter (of_key key) rows) as [|y l]; simpl; [by rewrite lookup_insert_eq|].
    destruct (last (y :: l)) eqn:Hl; [done|]. by apply last_None in Hl.
  - destruct (last _); [done|]. by rewrite lookup_insert_ne.
Qed.

Lemma StronglySorted_last {A} (R : A -> A -> Prop) l x y :
  StronglySorted R l -> last l = Some x -> y ∈ l -> y = x \/ R y x.
Proof.
  intros Hs. induction Hs as [|z l Hs IH Hz]; intros Hl Hy; [done|].
  destruct l as [|z' l].
  - injection Hl as <-. left. by apply list_elem_of_singleton in Hy.
  - assert (last (z' :: l) = Some x) as Hl' by done.
    apply elem_of_cons in Hy as [->|Hy]; [|auto]. right.
    rewrite Forall_forall in Hz. apply Hz. by apply last_Some_elem_of.
Qed.

Lemma StronglySorted_filter {A} (R : A -> A -> Prop) p l :
  StronglySorted R l -> StronglySorted R (List.filter p l).
Proof.
  induction 1 as [|x l Hs IH Hx]; simpl; [constructor|]. destruct (p x); [|done].
  constructor; [done|]. rewrite Forall_forall in *. intros y Hy%list_elem_of_In.
  apply List.filter_In in Hy as [Hy _]. by apply Hx, list_elem_of_In.
Qed.

(** The raw value of a key: the override if there is one in force, else the
    plan's. *)
Definition raw_entitlement (now : time) (plan user key : string) (d : AccountsDB) : option string :=
  match overrides d !! (user, key) with
  | Some o => if unexpired now o then Some (ov_Value o) else plan_entitlements d !! (plan, key)
  | None => plan_entitlements d !! (plan, key)
  end.

Lemma permission_rows_elem now plan user d key p raw :
  (key, p, raw) ∈ permission_rows now plan user d <->
  (p = 0 /\ plan_entitlements d !! (plan, key) = Some raw) \/
  (p = 1 /\ exists o, overrides d !! (user, key) = Some o /\ unexpired now o = true /\ ov_Value o = raw).
Proof.
  unfold permission_rows. rewrite elem_of_app, !list_elem_of_fmap. split.
  - intros [([[p' k'] v] & [= -> -> ->] & Hin)|([[u' k'] o] & [= -> -> ->] & Hin)];
      apply list_elem_of_In, List.filter_In in Hin as [Hin Hb]; bool_facts; subst;
      apply list_elem_of_In, elem_of_map_to_list in Hin; [by left|right; eauto].
  - intros [[-> Hp]|(-> & o & Ho & Hu & <-)]; [left|right].
    + exists ((plan, key), raw). split; [done|]. apply list_elem_of_In, List.filter_In.
      rewrite bool_decide_eq_true_2 by done. split; [|done].
      by apply list_elem_of_In, elem_of_map_to_list.
    + exists ((user, key), o). split; [done|]. apply list_elem_of_In, List.filter_In.
      rewrite bool_decide_eq_true_2, Hu by done. split; [|done].
      by apply list_elem_of_In, elem_of_map_to_list.
Qed.

Lemma last_permission now plan user d key :
  snd <$> last (List.filter (of_key key) (slice_stable permission_less (permission_rows now plan user d)))
  = raw_entitlement now plan user key d.
Proof.
  set (L := List.filter _ _).
  assert (forall k p raw, (k, p, raw) ∈ L <-> k = key /\ (k, p, raw) ∈ permission_rows now plan user d) as HL.
  { intros k p raw. unfold L. rewrite list_elem_of_In, List.filter_In, <- list_elem_of_In,
      elem_of_slice_stable. unfold of_key. simpl. rewrite bool_decide_eq_true. tauto. }
  assert (StronglySorted (not_after permission_less) L) as Hs.
  { apply StronglySorted_filter, slice_stable_sorted. apply _. }
  assert (forall o, overrides d !! (user, key) = Some o -> unexpired now o = true ->
    snd <$> last L = Some (ov_Value o)) as Hover.
  { intros o Ho Hu. assert ((key, 1, ov_Value o) ∈ L) as Hin.
    { apply HL. split; [done|]. apply permission_rows_elem. right. eauto. }
    destruct (last L) as [[[k p] raw]|] eqn:Hl; [|apply last_None in Hl; rewrite Hl in Hin; by apply elem_of_nil in Hin].
    pose proof (last_Some_elem_of _ _ Hl) as Hin'. apply HL in Hin' as [-> Hrow].
    apply permission_rows_elem in Hrow as [[-> Hp]|(-> & o' & Ho' & _ & <-)]; [|simpl; congruence].
    exfalso. destruct (StronglySorted_last _ _ _ _ Hs Hl Hin) as [?|Hn]; [done|].
    unfold not_after, permission_less, then_less in Hn. simpl in Hn.
    destruct (str_ltb key key) eqn:E; [|done]. by rewrite (less_asym _ _ E) in E. }
  assert ((forall o, overrides d !! (user, key) = Some o -> unexpired now o = false) ->
    snd <$> last L = plan_entitlements d !! (plan, key)) as Hplan.
  { intros Hno. destruct (last L) as [[[k p] raw]|] eqn:Hl; simpl.
    - pose proof (last_Some_elem_of _ _ Hl) as Hin. apply HL in Hin as [-> Hrow].
      apply permission_rows_elem in Hrow as [[-> Hp]|(-> & o & Ho & Hu & _)]; [done|].
      rewrite (Hno _ Ho) in Hu. done.
    - apply last_None in Hl. destruct (plan_entitlements d !! (plan, key)) as [raw|] eqn:Hp; [|done].
      assert ((key, 0, raw) ∈ L) as Hin.
      { apply HL. split; [done|]. apply permission_rows_elem. by left. }
      rewrite Hl in Hin. by apply elem_of_nil in Hin. }
  unfold raw_entitlement. destruct (overrides d !! (user, key)) as [o|] eqn:Ho.
  - destruct (unexpired now o) eqn:Hu; [by apply Hover|]. apply Hplan. by intros o' [= <-].
  - by apply Hplan.
Qed.

(** * The account *)

(** The synchronised row. *)
Lemma sync_user_steps now new_id identity d row d' :
  sync_user now new_id identity d = Ok (row, d') ->
  d' = set_users (<[id_Subject identity := row]> (users d)) d /\
  (forall old, users d !! id_Subject identity = Some old ->
     us_ID row = us_ID old /\ us_CreatedAt row = us_CreatedAt old /\
     (is_Some (us_Email old) -> is_Some (us_Email row)) /\
     (is_Some (us_DisplayName old) -> is_Some (us_DisplayName row))).
Proof.
  unfold sync_user. destruct (negb _); [done|]. destruct (user_checks _ _); [|done].
  intros [= Hrow <-]. split; [by rewrite Hrow|]. intros old Hold. rewrite Hold in Hrow. subst row. simpl.
  split_and!; [done|done| |].
  - by destruct (nullif_empty (id_Email identity)).
  - by destruct (nullif_empty (id_DisplayName identity)).
Qed.

(** C22. A successful [Current] tells the user one of its subscriptions that
    gives access now and that no other such subscription precedes, or the free
    plan when there is none; and, for every key, the override in force if there
    is one, else the entitlement of that plan.  It changes nothing but the row of
    the user, whose identifier and creation are kept and whose name and address
    are not erased. *)
Theorem Current_correct c identity d access d' :
  Current c identity d = (Ok access, d') ->
  let now := ac_now c AActiveSubscription in
  let user := u_ID (a_User access) in
  (exists row, d' = set_users (<[id_Subject identity := row]> (users d)) d /\ us_ID row = user /\
     (forall old, users d !! id_Subject identity = Some old ->
        us_ID row = us_ID old /\ us_CreatedAt row = us_CreatedAt old /\
        (is_Some (us_Email old) -> is_Some (us_Email row)) /\
        (is_Some (us_DisplayName old) -> is_Some (us_DisplayName row)))) /\
  ((exists r, active_for now user (account_subscriptions d) r /\
      (forall r', active_for now user (account_subscriptions d) r' -> access_less r r' = false) /\
      a_Subscription access = {| s_Plan := sr_PlanCode r; s_Status := sr_Status r;
                                 s_AccessUntil := sr_AccessUntil r |}) \/
   (forall r, ~ active_for now user (account_subscriptions d) r) /\
      a_Subscription access = free_subscription) /\
  (forall key, a_Entitlements access !! key =
     raw_entitlement (ac_now c APermissions) (s_Plan (a_Subscription access)) user key d
       ≫= decode_entitlement).
Proof.
  intros Hc now user. unfold Current in Hc. destruct (is_empty _); [done|].
  destruct (ac_outcome c ASyncUser); [|done|destruct (sync_user _ _ _ _) as [[]|]; done].
  destruct (sync_user _ _ _ _) as [[row d1]|] eqn:Hsync; [|done].
  injection Hc as Hr <-. unfold resolve_access, query in Hr.
  destruct (ac_outcome c AActiveSubscription), (ac_outcome c APermissions); try done. simpl in Hr.
  destruct (fill_entitlements _ _) as [m|] eqn:Hf; [|done]. simpl in Hr. injection Hr as <-.
  apply sync_user_steps in Hsync as [-> Hold]. simpl in *.
  split_and!.
  - exists row. by split_and!.
  - unfold effective_subscription. fold now user.
    destruct (effective_row now user (account_subscriptions d)) as [r|] eqn:He.
    + left. apply effective_row_Some in He as [? ?]. by exists r.
    + right. split; [|done]. by apply effective_row_None.
  - intros key. rewrite (fill_entitlements_lookup _ _ _ key Hf), <- last_permission.
    by destruct (last _).
Qed.
End entitlements.

(** * What the webhooks give and take *)

Section billing.
Context `{Unicode, WebhookEncoding}.
Variable s : Service.

(** A paid order gives its buyer, who has no other access, Pro until fifteen
    minutes after it is processed, and no longer: from then on the account is
    free, unless another event has arrived. *)
Theorem provisional_access_expires c id env d st d' :
  processProductionOrder s c id env d = Ok (st, d') ->
  (forall r, r ∈ subscriptions d -> has_order (providerName s) (we_ID env) r = false) ->
  exists userID user, resolveProductionWebhookUser s c d env = Ok userID /\ uuid_text userID = Some user /\
  forall now, (forall r, ~ active_for now user (subscriptions d) r) ->
    let until := pg_time (c_now c + 15 * minute) in
    effective_subscription now user (subscriptions d')
    = if now <? until
      then {| s_Plan := "pro"; s_Status := "active"; s_AccessUntil := Some until |}
      else free_subscription.
Proof.
  intros (userID & user & Hu & Hid & -> & _ & _ & Hs)%order_steps Hnew.
  exists userID, user. split_and!; [done..|]. intros now Hno until.
  destruct Hs as [[Hex _]|[_ ->]].
  { apply existsb_exists in Hex as (r & Hr%list_elem_of_In & Hh). by rewrite Hnew in Hh. }
  unfold effective_subscription, effective_row. rewrite List.filter_app.
  rewrite (filter_none _ (subscriptions d)).
  2:{ intros r Hr. destruct (bool_decide _) eqn:Hb; [|done]. simpl. bool_facts.
      destruct (grants_access now r) eqn:Hg; [|done]. by destruct (Hno r). }
  cbn [app List.filter]. rewrite bool_decide_eq_true_2 by done. cbn [andb].
  set (p := provisional_row _ _ _ _ _ _ _).
  assert (grants_access now p = (now <? until)) as ->.
  { unfold grants_access. by rewrite bool_decide_eq_true_2 by (simpl; set_solver). }
  by destruct (now <? until).
Qed.

(** When the provider moves a subscription to another variant, the users
    who had no other access are on the free plan from then on. *)
Theorem moved_subscription_is_free c env d d' now user :
  processProductionSubscription s c env d = Ok (Processed, d') ->
  subscriptions_wf (subscriptions d) ->
  FormatInt (wa_VariantID (we_Attributes env)) <> variantID s ->
  (forall r, active_for now user (subscriptions d) r ->
     has_subscription (providerName s) (we_ID env) r = true \/ replaced_by s (we_Attributes env) r) ->
  effective_subscription now user (subscriptions d') = free_subscription.
Proof.
  intros Hp Hw Hv Hothers. pose proof (subscription_wf s c env d _ d' Hp Hw) as (Hu & _ & _).
  destruct (subscription_write s c env d _ d' Hp) as [_ [[? _]|[_ (r & Hr & Hrep)]]]; [done|].
  assert (sr_Status r = "expired") as Hexp.
  { unfold reported in Hrep. destruct (production_access s _ _) as [[[plan status] until]|] eqn:Ha; [|done].
    apply production_access_plan in Ha. rewrite bool_decide_eq_false_2 in Ha by done.
    injection Hrep as _ _ Hst _. destruct Ha as (_ & -> & _). done. }
  unfold effective_subscription.
  assert (effective_row now user (subscriptions d') = None) as ->; [|done].
  apply effective_row_None. intros q (Hin & Huser & Hg).
  destruct (has_subscription (providerName s) (we_ID env) q) eqn:Hq.
  - apply find_subscription_elem in Hr as (Hrin & Hrp & Hrs). apply has_subscription_true in Hq as [Hqp Hqs].
    destruct (decide (sr_Status q = "expired")) as [He|He]; [by rewrite expired_grants_nothing in Hg|].
    assert (same_subscription q r = false) as Hne.
    { apply (unique_by_pair same_subscription (subscriptions d')); try done;
        [apply same_subscription_sym|congruence]. }
    assert (same_subscription q r = true) as Hsame; [|congruence].
    apply same_subscription_true. rewrite Hqs, Hrs, Hqp, Hrp. eauto.
  - rewrite (subscription_frame s c env d _ d' q Hp Hq) in Hin. destruct Hin as [Hin Hnr].
    destruct (Hothers q) as [Hh|Hh]; [done|congruence|done].
Qed.
End billing.

(** * Witnesses *)

(** Entitlements written as [true], [false] or a decimal. *)
Definition sample_entitlements : EntitlementEncoding := fun raw =>
  if bool_decide (raw = "true") then Some (VBool true)
  else if bool_decide (raw = "false") then Some (VBool false)
  else z ← decimal 0 (bytes_of raw); Some (VNumber (z # 1)).

Definition sample_accounts : AccountsDB :=
  {| users := {["auth0|buyer" := {| us_ID := sample_user; us_Email := None; us_DisplayName := None;
                                    us_CreatedAt := 0; us_UpdatedAt := 0; us_LastLoginAt := None |}]};
     account_subscriptions := subscriptions sample_created;
     plan_entitlements :=
       {[("free", "history.max_days") := "7"; ("pro", "history.max_days") := "28";
         ("pro", "exports.csv") := "true"]};
     overrides :=
       {[(sample_user, "exports.csv") := {| ov_Value := "false"; ov_ExpiresAt := None |};
         (sample_user, "history.max_days") :=
           {| ov_Value := "90"; ov_ExpiresAt := Some (1100 * second) |}]} |}.

Definition account_quiet (now : time) : account_call :=
  {| ac_now := fun _ => now; ac_new_id := "new"; ac_outcome := fun _ => Done |}.

Definition sample_identity : Identity :=
  {| id_Subject := "auth0|buyer"; id_Email := "buyer@example.com"; id_DisplayName := EmptyString |}.

Lemma Current_correct_witness :
  exists access d',
    Current (H := sample_entitlements) (account_quiet (1200 * second)) sample_identity sample_accounts
      = (Ok access, d') /\
    a_Entitlements access !! "exports.csv"
    = raw_entitlement (1200 * second) (s_Plan (a_Subscription access)) (u_ID (a_User access))
        "exports.csv" sample_accounts ≫= sample_entitlements.
Proof.
  destruct (Current (H := sample_entitlements) (account_quiet (1200 * second)) sample_identity sample_accounts)
    as [[access|] d'] eqn:E; [|by vm_compute in E].
  exists access, d'. split; [reflexivity|].
  exact (proj2 (proj2 (Current_correct (H := sample_entitlements) _ _ _ _ _ E)) "exports.csv").
Defined.

Lemma provisional_access_expires_witness :
  exists st d' userID user,
    processProductionOrder sample_service (quiet (1010 * second)) "sha256:order" order_created sample_db = Ok (st, d') /\
    resolveProductionWebhookUser sample_service (quiet (1010 * second)) sample_db order_created = Ok userID /\
    uuid_text userID = Some user.
Proof.
  destruct (processProductionOrder sample_service (quiet (1010 * second)) "sha256:order" order_created sample_db)
    as [[st d']|e] eqn:E; [|by vm_compute in E].
  destruct (provisional_access_expires sample_service _ _ _ _ _ _ E) as (userID & user & Hu & Hid & _).
  - intros r Hr. by apply elem_of_nil in Hr.
  - exists st, d', userID, user. split; [reflexivity|]. split; [exact Hu|exact Hid].
Defined.

Lemma moved_subscription_is_free_witness :
  effective_subscription (1700 * second) sample_user
    (subscriptions (after_event (process_moved sample_created))) = free_subscription.
Proof.
  assert (process_moved sample_created = Ok (Processed, after_event (process_moved sample_created))) as E
    by (vm_compute; reflexivity).
  apply (moved_subscription_is_free sample_service _ _ _ _ _ _ E).
  - assert (process_created_wf : subscriptions_wf (subscriptions sample_created)).
    { apply (subscription_wf sample_service (quiet (1020 * second)) subscription_created sample_db Processed).
      - vm_compute. reflexivity.
      - split; [constructor|split; constructor]. }
    exact process_created_wf.
  - vm_compute. discriminate.
  - intros r (Hr & _ & _). left. vm_compute in Hr. apply list_elem_of_singleton in Hr as ->. reflexivity.
Defined.
