(* ===== verification/AccountAdmin.v ===== *)
(** The administration of manual Pro grants: [internal/accountadmin]
    ([service.go] and [postgres.go]), with the audit table of
    [migrations/0011_account_admin_audit.sql]. *)
From S2P Require Import Prelude GoLists GoBase Utf8 Dates Strconv Webhook BillingDB Billing Accounts.
Local Open Scope Z_scope.

Definition ProductionConfirmation : string := "PRODUCTION".

(** * Errors *)

(** The statements of the repository. *)
Inductive admin_step :=
  | DBegin
  | DResolveUser
  | DBefore
  | DManual
  | DWithoutManual
  | DUpsert
  | DRevoke
  | DAfter
  | DAudit
  | DCommit
  | DList
  | DCreateUser
  | DEntitlement
  | DCount
  | DRollback.

Inductive admin_error :=
  | SelectorCount
  | SelectorUserID
  | SelectorEmail
  | SelectorSubject
  | InvalidActor
  | InvalidReason
  | DurationNotPositive
  | DurationTooLong
  | ConfirmationRequired
  | LimitOutOfRange
  | DurationOutOfRange
  | DurationInvalid
  | UserNotFound
  | AmbiguousUser
  | EmptySelector
  | LifecycleUnexpected (plan : string)
  | EntitlementUnexpected
  | AuditCount (n : Z)
  | AdminStatement (step : admin_step) (cause : db_failure)
  | RepositoryRequired
  | MaximumNotPositive.

(** * Requests and answers *)

Record Selector := { sl_UserID : string; sl_Email : string; sl_AuthSubject : string }.

Record AdminUser := {
  au_ID : string;
  au_AuthSubject : string;
  au_Email : option string;
  au_DisplayName : option string;
}.

(** [AccessSnapshot] has the fields of [accounts.Subscription]. *)
Abbreviation AccessSnapshot := Subscription (only parsing).

Record ManualGrant := {
  mg_SubscriptionID : string;
  mg_Status : string;
  mg_AccessUntil : option time;
  mg_UpdatedAt : time;
}.

Record OperationResult := {
  op_Action : string;
  op_Changed : bool;
  op_DryRun : bool;
  op_User : AdminUser;
  op_Before : AccessSnapshot;
  op_After : AccessSnapshot;
  op_ManualGrant : option ManualGrant;
}.

Record StatusResult := {
  st_User : AdminUser;
  st_Effective : AccessSnapshot;
  st_ManualGrant : option ManualGrant;
}.

Record LifecycleVerification := {
  lv_FreeBefore : AccessSnapshot;
  lv_ProGranted : AccessSnapshot;
  lv_FreeAfter : AccessSnapshot;
  lv_AuditEvents : Z;
  lv_RolledBack : bool;
}.

Record GrantRequest := {
  gr_Selector : Selector;
  gr_Duration : duration;
  gr_Actor : string;
  gr_Reason : string;
  gr_DryRun : bool;
  gr_Confirmation : string;
}.

Record RevokeRequest := {
  rr_Selector : Selector;
  rr_Actor : string;
  rr_Reason : string;
  rr_DryRun : bool;
  rr_Confirmation : string;
}.

(** * Validation *)

Definition containsLineBreak (value : string) : bool :=
  ContainsAny value (of_bytes [byte 13; byte 10]).

Definition is_hex_byte (c : ascii) : bool :=
  in_range 48 57 c || in_range 97 102 c || in_range 65 70 c.
Definition is_dash (c : ascii) : bool := bool_decide (c = "-"%char).

(** [uuidPattern], one class per byte. *)
Definition uuid_classes : list (ascii -> bool) :=
  replicate 8 is_hex_byte ++ [is_dash] ++ replicate 4 is_hex_byte ++ [is_dash]
  ++ [in_range 49 53] ++ replicate 3 is_hex_byte ++ [is_dash]
  ++ [(fun c => bool_decide (c ∈ bytes_of "89abAB"))] ++ replicate 3 is_hex_byte ++ [is_dash]
  ++ replicate 12 is_hex_byte.

Fixpoint match_classes (ps : list (ascii -> bool)) (l : list ascii) : bool :=
  match ps, l with
  | [], [] => true
  | p :: ps', c :: l' => p c && match_classes ps' l'
  | _, _ => false
  end.

Definition uuidPattern (value : string) : bool := match_classes uuid_classes (bytes_of value).

(** What the package takes from elsewhere: [lower] of the database, and the
    canonical form of an identifier sent as [uuid]. *)
Class AdminEncoding := {
  pg_lower : string -> string;
  admin_uuid : string -> option string;
}.

Section validation.
Context `{Unicode, AdminEncoding}.

Definition Normalize (s : Selector) : Selector :=
  {| sl_UserID := TrimSpace (sl_UserID s);
     sl_Email := ToLower (TrimSpace (sl_Email s));
     sl_AuthSubject := TrimSpace (sl_AuthSubject s) |}.

Definition Validate (s : Selector) : result admin_error unit :=
  let s := Normalize s in
  let count := length (List.filter (fun v => negb (is_empty v))
                         [sl_UserID s; sl_Email s; sl_AuthSubject s]) in
  fail_if negb (count =? 1)%nat with SelectorCount else
  fail_if negb (is_empty (sl_UserID s)) && negb (uuidPattern (sl_UserID s)) with SelectorUserID else
  fail_if negb (is_empty (sl_Email s))
          && ((320 <? str_len (sl_Email s)) || negb (bool_decide ("@"%char ∈ bytes_of (sl_Email s))))
    with SelectorEmail else
  fail_if negb (is_empty (sl_AuthSubject s))
          && ((512 <? str_len (sl_AuthSubject s)) || containsLineBreak (sl_AuthSubject s))
    with SelectorSubject else
  Ok tt.

Definition validateActorAndReason (actor reason : string) : result admin_error unit :=
  fail_if (str_len actor <? 3) || (200 <? str_len actor) || containsLineBreak actor
    with InvalidActor else
  fail_if (str_len reason <? 3) || (500 <? str_len reason) || containsLineBreak reason
    with InvalidReason else
  Ok tt.

(** [strconv.ParseInt] of a string of digits. *)
Definition parse_digits (l : list ascii) : option Z :=
  let v := foldl (fun acc c => acc ≫= fun v => d ← digit_value c; Some (10 * v + d)) (Some 0) l in
  v ≫= fun v => if v <=? max_int64 then Some v else None.

(** [wholeDaysPattern]: the digits of a match. *)
Definition whole_days (value : string) : option (list ascii) :=
  match rev (bytes_of value) with
  | c :: ds =>
      match rev ds with
      | d :: ds' =>
          if bool_decide (c = "d"%char) && in_range 49 57 d && forallb (in_range 48 57) ds'
          then Some (d :: ds') else None
      | [] => None
      end
  | [] => None
  end.

Definition ParseDuration (value : string) : result admin_error duration :=
  let value := ToLower (TrimSpace value) in
  match whole_days value with
  | Some digits =>
      match parse_digits digits with
      | None => Err DurationOutOfRange
      | Some days =>
          fail_if 3650 <? days with DurationOutOfRange else
          Ok (wrap64 (wrap64 (days * 24) * hour))
      end
  | None =>
      match time_ParseDuration value with
      | None => Err DurationInvalid
      | Some d => if d <=? 0 then Err DurationInvalid else Ok d
      end
  end.

Definition FormatDuration (d : duration) : string :=
  if (0 <? d) && (Z.rem d (24 * hour) =? 0) then FormatInt (Z.quot d (24 * hour)) +:+ "d"
  else Duration_String d.

Definition activeManualGrant (grant : option ManualGrant) (now : time) : bool :=
  match grant with
  | None => false
  | Some g =>
      if negb (bool_decide (mg_Status g = "active")) && negb (bool_decide (mg_Status g = "trialing"))
      then false
      else match mg_AccessUntil g with None => true | Some t => now <? t end
  end.

Definition manualSubscriptionID (userID : string) : string := "manual:" +:+ userID.

(** * The repository *)

(** [account_admin_audit_events]; the rules of the table ignore updates and
    deletions. *)
Record audit_row := {
  ae_UserID : string;
  ae_Actor : string;
  ae_Action : string;
  ae_Reason : string;
  ae_Before : AccessSnapshot;
  ae_After : AccessSnapshot;
  ae_CreatedAt : time;
}.

Record AdminDB := { accounts : AccountsDB; audit : list audit_row }.

Definition set_accounts (a : AccountsDB) (d : AdminDB) : AdminDB :=
  {| accounts := a; audit := audit d |}.

Definition set_account_subscriptions (l : list subscription_row) (d : AdminDB) : AdminDB :=
  set_accounts
    {| users := users (accounts d); account_subscriptions := l;
       plan_entitlements := plan_entitlements (accounts d); overrides := overrides (accounts d) |} d.

Definition admin_subscriptions (d : AdminDB) : list subscription_row :=
  account_subscriptions (accounts d).

(** The environment of a call: the two readings of the clock of the repository,
    the [now()] of the transaction, the identifier of a new user, and what
    becomes of each statement. *)
Record admin_call := {
  dc_check_now : time;
  dc_now : time;
  dc_tx_now : time;
  dc_new_id : string;
  dc_outcome : admin_step -> outcome;
}.

Definition run_step {A} (c : admin_call) (st : admin_step) (r : result db_failure A)
    : result admin_error A :=
  match dc_outcome c st with
  | Done => rmap_err (AdminStatement st) r
  | Refused cause | AckLost cause => Err (AdminStatement st (outage_failure cause))
  end.

(** [tx.Commit] of a transaction that leaves [d']. *)
Definition commit {A} (c : admin_call) (d : AdminDB) (r : result admin_error (A * AdminDB))
    : result admin_error A * AdminDB :=
  match r with
  | Err e => (Err e, d)
  | Ok (a, d') =>
      match dc_outcome c DCommit with
      | Done => (Ok a, d')
      | Refused cause => (Err (AdminStatement DCommit (outage_failure cause)), d)
      | AckLost cause => (Err (AdminStatement DCommit (outage_failure cause)), d')
      end
  end.

Definition admin_user (subject : string) (r : user_row) : AdminUser :=
  {| au_ID := us_ID r; au_AuthSubject := subject; au_Email := us_Email r;
     au_DisplayName := us_DisplayName r |}.

(** The users the query of a selector returns. *)
Definition matching_users (s : Selector) (d : AdminDB) : result db_failure (list AdminUser) :=
  let all := map (fun '(subject, r) => admin_user subject r) (map_to_list (users (accounts d))) in
  if negb (is_empty (sl_UserID s)) then
    match admin_uuid (sl_UserID s) with
    | None => Err OtherFailure
    | Some u => Ok (List.filter (fun x => bool_decide (au_ID x = u)) all)
    end
  else if negb (is_empty (sl_AuthSubject s)) then
    Ok (List.filter (fun x => bool_decide (au_AuthSubject x = sl_AuthSubject s)) all)
  else
    Ok (take 2 (List.filter
                  (fun x => match au_Email x with
                            | Some e => bool_decide (pg_lower e = pg_lower (sl_Email s))
                            | None => false
                            end) all)).

Definition resolveUser (c : admin_call) (s : Selector) (d : AdminDB) : result admin_error AdminUser :=
  let s := Normalize s in
  fail_if is_empty (sl_UserID s) && is_empty (sl_AuthSubject s) && is_empty (sl_Email s)
    with EmptySelector else
  let! found := run_step c DResolveUser (matching_users s d) in
  match found with
  | [] => Err UserNotFound
  | [u] => Ok u
  | _ => Err AmbiguousUser
  end.

(** [$2 = '' or provider_subscription_id is distinct from $2] *)
Definition not_excluded (excluded : string) (r : subscription_row) : bool :=
  is_empty excluded || negb (bool_decide (sr_SubscriptionID r = Some excluded)).

Definition resolveEffectiveAccess (now : time) (userID excluded : string) (d : AdminDB) : AccessSnapshot :=
  effective_subscription now userID (List.filter (not_excluded excluded) (admin_subscriptions d)).

(** [user_id = $1::uuid and provider = 'manual'] *)
Definition is_manual (userID : string) (r : subscription_row) : bool :=
  bool_decide (sr_UserID r = userID) && bool_decide (sr_Provider r = "manual").

(** A null identifier cannot be scanned into a string. *)
Definition grant_of (r : subscription_row) : result db_failure ManualGrant :=
  match sr_SubscriptionID r with
  | None => Err OtherFailure
  | Some id =>
      Ok {| mg_SubscriptionID := id; mg_Status := sr_Status r;
            mg_AccessUntil := sr_AccessUntil r; mg_UpdatedAt := sr_UpdatedAt r |}
  end.

Definition resolveManualGrant (userID : string) (d : AdminDB) : result db_failure (option ManualGrant) :=
  match List.find (is_manual userID) (admin_subscriptions d) with
  | None => Ok None
  | Some r => let! g := grant_of r in Ok (Some g)
  end.

Definition manual_values (tx_now : time) (userID : string) (now accessUntil : time) : subscription_row :=
  {| sr_UserID := userID; sr_Provider := "manual"; sr_CustomerID := None;
     sr_SubscriptionID := Some (manualSubscriptionID userID); sr_OrderID := None;
     sr_VariantID := None; sr_ProviderStatus := None; sr_ProviderUpdatedAt := None;
     sr_PlanCode := "pro"; sr_Status := "active"; sr_PeriodStart := Some (pg_time now);
     sr_PeriodEnd := Some (pg_time accessUntil); sr_CancelAtPeriodEnd := false;
     sr_AccessUntil := Some (pg_time accessUntil); sr_CreatedAt := tx_now; sr_UpdatedAt := tx_now |}.

(** The [do update set] of the grant. *)
Definition merge_manual (now : time) (cur excluded : subscription_row) : subscription_row :=
  {| sr_UserID := sr_UserID cur; sr_Provider := sr_Provider cur; sr_CustomerID := sr_CustomerID cur;
     sr_SubscriptionID := sr_SubscriptionID cur; sr_OrderID := sr_OrderID cur;
     sr_VariantID := sr_VariantID cur; sr_ProviderStatus := sr_ProviderStatus cur;
     sr_ProviderUpdatedAt := sr_ProviderUpdatedAt cur;
     sr_PlanCode := sr_PlanCode excluded; sr_Status := sr_Status excluded;
     sr_PeriodStart := sr_PeriodStart excluded; sr_PeriodEnd := sr_PeriodEnd excluded;
     sr_CancelAtPeriodEnd := false; sr_AccessUntil := sr_AccessUntil excluded;
     sr_CreatedAt := sr_CreatedAt cur; sr_UpdatedAt := pg_time now |}.

(** The row is returned by its identity. *)
Definition upsertManualGrant (tx_now : time) (userID : string) (now accessUntil : time) (d : AdminDB)
    : result db_failure (ManualGrant * AdminDB) :=
  let v := manual_values tx_now userID now accessUntil in
  let! (l, _) := upsert_where (fun _ _ => true) (merge_manual now) v (admin_subscriptions d) in
  match List.find (same_subscription v) l with
  | Some r => let! g := grant_of r in Ok (g, set_account_subscriptions l d)
  | None => Err NoRows
  end.

Definition audit_checks (r : audit_row) : bool :=
  length_between 3 200 (ae_Actor r)
  && bool_decide (ae_Action r ∈ ["grant_pro"; "revoke_pro"])
  && length_between 3 500 (ae_Reason r).

Definition insertAudit (tx_now : time) (userID actor action reason : string)
    (before after : AccessSnapshot) (d : AdminDB) : result db_failure AdminDB :=
  let r := {| ae_UserID := userID; ae_Actor := actor; ae_Action := action; ae_Reason := reason;
              ae_Before := before; ae_After := after; ae_CreatedAt := tx_now |} in
  if audit_checks r then Ok {| accounts := accounts d; audit := audit d ++ [r] |}
  else Err ConstraintViolation.

Definition grant_tx (c : admin_call) (request : GrantRequest) (d : AdminDB)
    : result admin_error (OperationResult * AdminDB) :=
  let! _ := run_step c DBegin (Ok tt) in
  let! user := resolveUser c (gr_Selector request) d in
  let! before := run_step c DBefore (Ok (resolveEffectiveAccess (dc_tx_now c) (au_ID user) EmptyString d)) in
  let! manual := run_step c DManual (resolveManualGrant (au_ID user) d) in
  let answer changed after grant :=
    {| op_Action := "grant_pro"; op_Changed := changed; op_DryRun := gr_DryRun request;
       op_User := user; op_Before := before; op_After := after; op_ManualGrant := grant |} in
  if activeManualGrant manual (dc_check_now c) then Ok (answer false before manual, d) else
  let now := dc_now c in
  let accessUntil := now + gr_Duration request in
  if gr_DryRun request then
    Ok (answer true {| s_Plan := "pro"; s_Status := "active"; s_AccessUntil := Some accessUntil |}
          (Some {| mg_SubscriptionID := manualSubscriptionID (au_ID user); mg_Status := "active";
                   mg_AccessUntil := Some accessUntil; mg_UpdatedAt := now |}), d)
  else
    let! (grant, d) := run_step c DUpsert (upsertManualGrant (dc_tx_now c) (au_ID user) now accessUntil d) in
    let! after := run_step c DAfter (Ok (resolveEffectiveAccess (dc_tx_now c) (au_ID user) EmptyString d)) in
    let! d := run_step c DAudit
      (insertAudit (dc_tx_now c) (au_ID user) (gr_Actor request) "grant_pro" (gr_Reason request) before after d) in
    Ok (answer true after (Some grant), d).

Definition repo_GrantPro (c : admin_call) (request : GrantRequest) (d : AdminDB)
    : result admin_error OperationResult * AdminDB :=
  commit c d (grant_tx c request d).

Definition revoked_row (now : time) (r : subscription_row) : subscription_row :=
  {| sr_UserID := sr_UserID r; sr_Provider := sr_Provider r; sr_CustomerID := sr_CustomerID r;
     sr_SubscriptionID := sr_SubscriptionID r; sr_OrderID := sr_OrderID r;
     sr_VariantID := sr_VariantID r; sr_ProviderStatus := sr_ProviderStatus r;
     sr_ProviderUpdatedAt := sr_ProviderUpdatedAt r; sr_PlanCode := sr_PlanCode r;
     sr_Status := "expired"; sr_PeriodStart := sr_PeriodStart r;
     sr_PeriodEnd := Some (pg_time now); sr_CancelAtPeriodEnd := false;
     sr_AccessUntil := Some (pg_time now); sr_CreatedAt := sr_CreatedAt r; sr_UpdatedAt := pg_time now |}.

(** [revoke]: the first returned row, and the table. *)
Definition revoke_manual (userID : string) (now : time) (d : AdminDB)
    : result db_failure (ManualGrant * AdminDB) :=
  let! l := update_where (is_manual userID) (revoked_row now) (admin_subscriptions d) in
  match List.find (is_manual userID) l with
  | Some r => let! g := grant_of r in Ok (g, set_account_subscriptions l d)
  | None => Err NoRows
  end.

Definition revoke_tx (c : admin_call) (request : RevokeRequest) (d : AdminDB)
    : result admin_error (OperationResult * AdminDB) :=
  let! _ := run_step c DBegin (Ok tt) in
  let! user := resolveUser c (rr_Selector request) d in
  let! before := run_step c DBefore (Ok (resolveEffectiveAccess (dc_tx_now c) (au_ID user) EmptyString d)) in
  let! manual := run_step c DManual (resolveManualGrant (au_ID user) d) in
  let answer changed after grant :=
    {| op_Action := "revoke_pro"; op_Changed := changed; op_DryRun := rr_DryRun request;
       op_User := user; op_Before := before; op_After := after; op_ManualGrant := grant |} in
  match manual with
  | Some g =>
      if negb (activeManualGrant manual (dc_check_now c)) then Ok (answer false before manual, d) else
      let! afterWithoutManual := run_step c DWithoutManual
        (Ok (resolveEffectiveAccess (dc_tx_now c) (au_ID user) (mg_SubscriptionID g) d)) in
      if rr_DryRun request then Ok (answer true afterWithoutManual manual, d) else
      let! (revoked, d) := run_step c DRevoke (revoke_manual (au_ID user) (dc_now c) d) in
      let! after := run_step c DAfter (Ok (resolveEffectiveAccess (dc_tx_now c) (au_ID user) EmptyString d)) in
      let! d := run_step c DAudit
        (insertAudit (dc_tx_now c) (au_ID user) (rr_Actor request) "revoke_pro" (rr_Reason request) before after d) in
      Ok (answer true after (Some revoked), d)
  | None => Ok (answer false before manual, d)
  end.

Definition repo_RevokePro (c : admin_call) (request : RevokeRequest) (d : AdminDB)
    : result admin_error OperationResult * AdminDB :=
  commit c d (revoke_tx c request d).

Definition repo_Status (c : admin_call) (s : Selector) (d : AdminDB) : result admin_error StatusResult :=
  let! _ := run_step c DBegin (Ok tt) in
  let! user := resolveUser c s d in
  let! effective := run_step c DBefore (Ok (resolveEffectiveAccess (dc_tx_now c) (au_ID user) EmptyString d)) in
  let! manual := run_step c DManual (resolveManualGrant (au_ID user) d) in
  let! _ := run_step c DCommit (Ok tt) in
  Ok {| st_User := user; st_Effective := effective; st_ManualGrant := manual |}.

(** The rows of [ListActiveManualGrants], before the order and the limit. *)
Definition active_manual_rows (now : time) (d : AdminDB) : list (AdminUser * subscription_row) :=
  flat_map
    (fun r =>
       if bool_decide (sr_Provider r = "manual")
          && bool_decide (sr_Status r ∈ ["trialing"; "active"])
          && match sr_AccessUntil r with None => true | Some t => now <? t end
       then map (fun '(subject, u) => (admin_user subject u, r))
              (List.filter (fun '(_, u) => bool_decide (us_ID u = sr_UserID r))
                 (map_to_list (users (accounts d))))
       else [])
    (admin_subscriptions d).

Definition manual_less : AdminUser * subscription_row -> AdminUser * subscription_row -> bool :=
  then_less (fun a b => until_ltb (sr_AccessUntil (snd a)) (sr_AccessUntil (snd b)))
    (fun a b => str_ltb (au_ID (fst a)) (au_ID (fst b))).

Fixpoint scan_manual (rows : list (AdminUser * subscription_row)) : result db_failure (list StatusResult) :=
  match rows with
  | [] => Ok []
  | (u, r) :: rows' =>
      let! g := grant_of r in
      let! rest := scan_manual rows' in
      Ok ({| st_User := u;
             st_Effective := {| s_Plan := "pro"; s_Status := mg_Status g; s_AccessUntil := mg_AccessUntil g |};
             st_ManualGrant := Some g |} :: rest)
  end.

Definition repo_ListActiveManualGrants (c : admin_call) (limit : Z) (d : AdminDB)
    : result admin_error (list StatusResult) :=
  run_step c DList
    (scan_manual (take (Z.to_nat limit) (slice_stable manual_less (active_manual_rows (dc_tx_now c) d)))).

(** [assertEntitlement] *)
Definition assertEntitlement (c : admin_call) (plan key expected : string) (d : AdminDB)
    : result admin_error unit :=
  let! value := run_step c DEntitlement
    (of_option NoRows (plan_entitlements (accounts d) !! (plan, key))) in
  fail_if negb (bool_decide (value = expected)) with EntitlementUnexpected else Ok tt.

Definition create_lifecycle_user (c : admin_call) (d : AdminDB) : result db_failure AdminDB :=
  let subject := "account-admin-e2e:" +:+ FormatInt (dc_now c) in
  match users (accounts d) !! subject with
  | Some _ => Err ConstraintViolation
  | None =>
      let a := accounts d in
      Ok (set_accounts
            (set_users
               (<[subject := {| us_ID := dc_new_id c; us_Email := None;
                                us_DisplayName := Some "Account Admin E2E";
                                us_CreatedAt := dc_tx_now c; us_UpdatedAt := dc_tx_now c;
                                us_LastLoginAt := Some (pg_time (dc_now c)) |}]> (users a)) a) d)
  end.

(** The [revoke] of the verification keeps [cancel_at_period_end]. *)
Definition lifecycle_revoked_row (now : time) (r : subscription_row) : subscription_row :=
  {| sr_UserID := sr_UserID r; sr_Provider := sr_Provider r; sr_CustomerID := sr_CustomerID r;
     sr_SubscriptionID := sr_SubscriptionID r; sr_OrderID := sr_OrderID r;
     sr_VariantID := sr_VariantID r; sr_ProviderStatus := sr_ProviderStatus r;
     sr_ProviderUpdatedAt := sr_ProviderUpdatedAt r; sr_PlanCode := sr_PlanCode r;
     sr_Status := "expired"; sr_PeriodStart := sr_PeriodStart r;
     sr_PeriodEnd := Some (pg_time now); sr_CancelAtPeriodEnd := sr_CancelAtPeriodEnd r;
     sr_AccessUntil := Some (pg_time now); sr_CreatedAt := sr_CreatedAt r; sr_UpdatedAt := pg_time now |}.

(** [VerifyLifecycle]: the transaction is always rolled back, so that the answer
    is all there is. *)
Definition repo_VerifyLifecycle (c : admin_call) (actor reason : string) (d : AdminDB)
    : result admin_error LifecycleVerification :=
  let! _ := run_step c DBegin (Ok tt) in
  let now := dc_now c in
  let userID := dc_new_id c in
  let effective := resolveEffectiveAccess (dc_tx_now c) userID EmptyString in
  let! d := run_step c DCreateUser (create_lifecycle_user c d) in
  let! freeBefore := run_step c DBefore (Ok (effective d)) in
  fail_if negb (bool_decide (s_Plan freeBefore = "free")) with LifecycleUnexpected (s_Plan freeBefore) else
  let accessUntil := now + 24 * hour in
  let! (_, d) := run_step c DUpsert (upsertManualGrant (dc_tx_now c) userID now accessUntil d) in
  let! proGranted := run_step c DAfter (Ok (effective d)) in
  fail_if negb (bool_decide (s_Plan proGranted = "pro")) || negb (bool_decide (s_Status proGranted = "active"))
    with LifecycleUnexpected (s_Plan proGranted) else
  let! _ := assertEntitlement c "pro" "optimizer.liquidity" "true" d in
  let! d := run_step c DAudit (insertAudit (dc_tx_now c) userID actor "grant_pro" reason freeBefore proGranted d) in
  let! d := run_step c DRevoke
    (let! l := update_where (is_manual userID) (lifecycle_revoked_row (now + second)) (admin_subscriptions d) in
     Ok (set_account_subscriptions l d)) in
  let! freeAfter := run_step c DWithoutManual (Ok (effective d)) in
  fail_if negb (bool_decide (s_Plan freeAfter = "free")) with LifecycleUnexpected (s_Plan freeAfter) else
  let! _ := assertEntitlement c "free" "optimizer.liquidity" "false" d in
  let! d := run_step c DAudit (insertAudit (dc_tx_now c) userID actor "revoke_pro" reason proGranted freeAfter d) in
  let! count := run_step c DCount
    (Ok (Z.of_nat (length (List.filter (fun r => bool_decide (ae_UserID r = userID)) (audit d))))) in
  fail_if negb (count =? 2) with AuditCount count else
  let! _ := run_step c DRollback (Ok tt) in
  Ok {| lv_FreeBefore := freeBefore; lv_ProGranted := proGranted; lv_FreeAfter := freeAfter;
        lv_AuditEvents := count; lv_RolledBack := true |}.

(** * The service *)

Record AdminService := { environment : string; maxDuration : duration }.

(** [NewService] with a repository. *)
Definition NewAdminService (env : string) (maxDuration : duration) : result admin_error AdminService :=
  let env := ToLower (TrimSpace env) in
  let env := if is_empty env then "development" else env in
  fail_if maxDuration <=? 0 with MaximumNotPositive else
  Ok {| environment := env; maxDuration := maxDuration |}.

Definition requireProductionConfirmation (s : AdminService) (dryRun : bool) (confirmation : string)
    : result admin_error unit :=
  if negb (bool_decide (environment s = "production")) || dryRun then Ok tt
  else if negb (bool_decide (TrimSpace confirmation = ProductionConfirmation)) then Err ConfirmationRequired
  else Ok tt.

Definition validate_grant (s : AdminService) (request : GrantRequest) : result admin_error GrantRequest :=
  let request :=
    {| gr_Selector := Normalize (gr_Selector request); gr_Duration := gr_Duration request;
       gr_Actor := TrimSpace (gr_Actor request); gr_Reason := TrimSpace (gr_Reason request);
       gr_DryRun := gr_DryRun request; gr_Confirmation := gr_Confirmation request |} in
  let! _ := Validate (gr_Selector request) in
  let! _ := validateActorAndReason (gr_Actor request) (gr_Reason request) in
  fail_if gr_Duration request <=? 0 with DurationNotPositive else
  fail_if maxDuration s <? gr_Duration request with DurationTooLong else
  let! _ := requireProductionConfirmation s (gr_DryRun request) (gr_Confirmation request) in
  Ok request.

Definition GrantPro (s : AdminService) (c : admin_call) (request : GrantRequest) (d : AdminDB)
    : result admin_error OperationResult * AdminDB :=
  match validate_grant s request with
  | Err e => (Err e, d)
  | Ok request => repo_GrantPro c request d
  end.

Definition validate_revoke (s : AdminService) (request : RevokeRequest) : result admin_error RevokeRequest :=
  let request :=
    {| rr_Selector := Normalize (rr_Selector request);
       rr_Actor := TrimSpace (rr_Actor request); rr_Reason := TrimSpace (rr_Reason request);
       rr_DryRun := rr_DryRun request; rr_Confirmation := rr_Confirmation request |} in
  let! _ := Validate (rr_Selector request) in
  let! _ := validateActorAndReason (rr_Actor request) (rr_Reason request) in
  let! _ := requireProductionConfirmation s (rr_DryRun request) (rr_Confirmation request) in
  Ok request.

Definition RevokePro (s : AdminService) (c : admin_call) (request : RevokeRequest) (d : AdminDB)
    : result admin_error OperationResult * AdminDB :=
  match validate_revoke s request with
  | Err e => (Err e, d)
  | Ok request => repo_RevokePro c request d
  end.

Definition AdminStatus (c : admin_call) (selector : Selector) (d : AdminDB)
    : result admin_error StatusResult :=
  let selector := Normalize selector in
  let! _ := Validate selector in
  repo_Status c selector d.

Definition ListActiveManualGrants (c : admin_call) (limit : Z) (d : AdminDB)
    : result admin_error (list StatusResult) :=
  fail_if (limit <? 1) || (1000 <? limit) with LimitOutOfRange else
  repo_ListActiveManualGrants c limit d.

Definition VerifyLifecycle (s : AdminService) (c : admin_call) (actor reason confirmation : string)
    (d : AdminDB) : result admin_error LifecycleVerification :=
  let actor := TrimSpace actor in
  let reason := TrimSpace reason in
  let! _ := validateActorAndReason actor reason in
  let! _ := requireProductionConfirmation s false confirmation in
  repo_VerifyLifecycle c actor reason d.
End validation.
