(* ===== verification/AccountAdminSpec.v ===== *)
(** What a grant and a revocation of manual Pro do, and what their dry runs
    predict. *)
From S2P Require Import Prelude GoLists GoBase Utf8 Dates Webhook BillingDB Billing BillingSamples BillingSpec Accounts AccountsSpec AccountAdmin.
Local Open Scope Z_scope.

Section admin.
Context `{Unicode, AdminEncoding}.

Lemma run_step_ok {A} c st (r : result db_failure A) a : run_step c st r = Ok a -> r = Ok a.
Proof. unfold run_step. destruct (dc_outcome c st); [|done..]. by rewrite rmap_err_ok. Qed.

Lemma commit_ok {A} c d (r : result admin_error (A * AdminDB)) a d' :
  commit c d r = (Ok a, d') -> r = Ok (a, d').
Proof. unfold commit. destruct r as [[b d1]|]; [|done]. destruct (dc_outcome c DCommit); by intros [= -> ->]. Qed.

(** Nothing is written by a call that fails, unless the acknowledgement of its
    commit is lost. *)
Lemma commit_err {A} c d (r : result admin_error (A * AdminDB)) e d' :
  commit c d r = (Err e, d') -> d' = d \/ exists cause, dc_outcome c DCommit = AckLost cause.
Proof.
  unfold commit. destruct r as [[b d1]|]; [|intros [= _ ->]; by left].
  destruct (dc_outcome c DCommit); intros [= _ ->]; eauto.
Qed.

(** The row of a manual grant. *)
Lemma upsertManualGrant_steps tx_now u now until d g d' :
  upsertManualGrant tx_now u now until d = Ok (g, d') ->
  exists l r, d' = set_account_subscriptions l d /\ r ∈ l /\
    sr_Provider r = "manual" /\ sr_SubscriptionID r = Some (manualSubscriptionID u) /\
    sr_PlanCode r = "pro" /\ sr_Status r = "active" /\ sr_AccessUntil r = Some (pg_time until) /\
    grant_of r = Ok g /\
    (subscriptions_wf (admin_subscriptions d) -> subscriptions_wf l) /\
    (forall o, has_subscription "manual" (manualSubscriptionID u) o = false ->
       (o ∈ l <-> o ∈ admin_subscriptions d)).
Proof.
  unfold upsertManualGrant. set (v := manual_values _ _ _ _). intros Hu.
  apply rbind_ok in Hu as ([l n] & Hl & Hu). destruct (List.find _ l) as [r|] eqn:Hf; [|done].
  apply rbind_ok in Hu as (g0 & Hg & Hu). inv_ok.
  assert (forall o, same_subscription v o = has_subscription "manual" (manualSubscriptionID u) o) as Hsame.
  { intros o. by rewrite same_subscription_has. }
  exists l, r. split; [done|].
  assert (r ∈ l /\ sr_PlanCode r = "pro" /\ sr_Status r = "active" /\ sr_AccessUntil r = Some (pg_time until) /\
    (forall o, has_subscription "manual" (manualSubscriptionID u) o = false ->
       (o ∈ l <-> o ∈ admin_subscriptions d))) as (Hin & Hplan & Hst & Hun & Hfr).
  { pose proof (List.find_some _ _ Hf) as [Hin Hsr]. rewrite list_elem_of_In. split; [done|].
    unfold upsert_where in Hl. destruct (negb _); [done|].
    destruct (List.filter _ _) as [|cur rest] eqn:Hfil.
    - apply rbind_ok in Hl as (l1 & Hi & [= <- <-]). unfold insert_row in Hi.
      destruct (_ && _); [|done]. injection Hi as <-.
      apply List.in_app_iff in Hin as [Hin|[<-|[]]].
      { exfalso. apply (List.in_nil (a := r)). rewrite <- Hfil. by apply List.filter_In. }
      split_and!; try done. intros o Ho. rewrite elem_of_app, list_elem_of_singleton.
      split; [|by left]. intros [?| ->]; [done|]. rewrite <- Hsame in Ho.
      assert (same_subscription v v = true) as Hvv; [|congruence]. apply same_subscription_true. simpl. eauto.
    - simpl in Hl. destruct (_ && _); [|done]. injection Hl as <- <-.
      apply List.in_map_iff in Hin as (o & Hro & Hin). split_and!.
      + subst r. destruct (same_subscription v o) eqn:E; [done|]. congruence.
      + subst r. destruct (same_subscription v o) eqn:E; [done|]. congruence.
      + subst r. destruct (same_subscription v o) eqn:E; [done|]. congruence.
      + intros o' Ho'. rewrite list_elem_of_fmap. split.
        * intros (q & -> & Hq). destruct (same_subscription v q) eqn:E; [|done]. exfalso.
          assert (In cur (List.filter (same_subscription v) (admin_subscriptions d))) as Hc by (rewrite Hfil; by left).
          apply List.filter_In in Hc as [_ Hc]. rewrite Hsame in Hc.
          apply has_subscription_true in Hc as [Hc1 Hc2].
          assert (has_subscription "manual" (manualSubscriptionID u) (merge_manual now cur v) = true) as Hm
            by (by apply has_subscription_true). congruence.
        * intros Hq. exists o'. by rewrite Hsame, Ho'. }
  pose proof (List.find_some _ _ Hf) as [_ Hsr]. rewrite Hsame in Hsr.
  apply has_subscription_true in Hsr as [? ?]. split_and!; try done.
  intros Hw. by eapply upsert_where_wf; [|exact Hl|].
Qed.

(** A successful grant is within the limits of the service, confirmed in
    production, and made to the one user selected.  A dry run, and a grant to a
    user who has an active one, change nothing.  Any other grant leaves that
    user a Pro row until the time asked for, changes no other subscription, and
    adds one audit event with the effective access before and after it. *)
Theorem GrantPro_correct s c req d res d' :
  GrantPro s c req d = (Ok res, d') ->
  let user := au_ID (op_User res) in
  let effective := resolveEffectiveAccess (dc_tx_now c) user EmptyString in
  0 < gr_Duration req <= maxDuration s /\
  (environment s = "production" -> gr_DryRun req = false ->
     TrimSpace (gr_Confirmation req) = ProductionConfirmation) /\
  op_Before res = effective d /\ op_DryRun res = gr_DryRun req /\
  if op_Changed res && negb (gr_DryRun req)
  then
    exists l r entry, d' = {| accounts := accounts (set_account_subscriptions l d); audit := audit d ++ [entry] |} /\
      r ∈ l /\ has_subscription "manual" (manualSubscriptionID user) r = true /\
      sr_PlanCode r = "pro" /\ sr_Status r = "active" /\
      sr_AccessUntil r = Some (pg_time (dc_now c + gr_Duration req)) /\
      (forall o, has_subscription "manual" (manualSubscriptionID user) o = false ->
         (o ∈ l <-> o ∈ admin_subscriptions d)) /\
      op_After res = effective d' /\
      ae_UserID entry = user /\ ae_Action entry = "grant_pro" /\ ae_Actor entry = TrimSpace (gr_Actor req) /\
      ae_Before entry = op_Before res /\ ae_After entry = op_After res
  else d' = d.
Proof.
  intros Hg user effective. unfold GrantPro in Hg.
  destruct (validate_grant s req) as [req'|] eqn:Hv; [|done].
  unfold validate_grant in Hv. inv_ok. bool_facts. simpl in *.
  split; [lia|]. split.
  { intros Hprod Hdry. match goal with X : requireProductionConfirmation _ _ _ = Ok _ |- _ => rename X into Hc end.
    unfold requireProductionConfirmation in Hc. simpl in Hc. rewrite Hdry in Hc.
    rewrite bool_decide_eq_true_2 in Hc by done. simpl in Hc. inv_ok. by bool_facts. }
  apply commit_ok in Hg. unfold grant_tx in Hg.
  apply rbind_ok in Hg as (? & _ & Hg). apply rbind_ok in Hg as (u & Hu & Hg).
  apply rbind_ok in Hg as (before & Hb%run_step_ok & Hg). injection Hb as <-.
  apply rbind_ok in Hg as (manual & _ & Hg).
  destruct (activeManualGrant manual _); [by inv_ok|]. simpl in Hg.
  destruct (gr_DryRun req) eqn:Hdry; [by inv_ok|].
  apply rbind_ok in Hg as ([g d1] & Hup%run_step_ok & Hg).
  apply rbind_ok in Hg as (after & Ha%run_step_ok & Hg). injection Ha as <-.
  apply rbind_ok in Hg as (d2 & Haud%run_step_ok & Hg). inv_ok. simpl.
  unfold insertAudit in Haud. destruct (audit_checks _); [|done]. injection Haud as <-.
  apply upsertManualGrant_steps in Hup as (l & row & -> & Hin & Hp & Hid & Hplan & Hst & Hun & _ & _ & Hfr).
  split_and!; try done. eexists l, row, _. split_and!; try done. by apply has_subscription_true.
Qed.

(** The rows of a user that carry the identifier of its manual grant are its
    manual rows. *)
Definition manual_ids (u : string) (l : list subscription_row) : Prop :=
  forall r, r ∈ l -> sr_UserID r = u ->
    (sr_Provider r = "manual" <-> sr_SubscriptionID r = Some (manualSubscriptionID u)).

(** A revocation that succeeds does what its dry run announced: the effective
    access afterwards is the one predicted, namely the best of the other
    subscriptions of the user, which the revocation leaves alone. *)
Theorem RevokePro_preview_exact s c req d dry_res dry_d res d' :
  RevokePro s c
    {| rr_Selector := rr_Selector req; rr_Actor := rr_Actor req; rr_Reason := rr_Reason req;
       rr_DryRun := true; rr_Confirmation := rr_Confirmation req |} d = (Ok dry_res, dry_d) ->
  RevokePro s c
    {| rr_Selector := rr_Selector req; rr_Actor := rr_Actor req; rr_Reason := rr_Reason req;
       rr_DryRun := false; rr_Confirmation := rr_Confirmation req |} d = (Ok res, d') ->
  manual_ids (au_ID (op_User res)) (admin_subscriptions d) ->
  dry_d = d /\ op_User dry_res = op_User res /\ op_Changed dry_res = op_Changed res /\
  op_Before dry_res = op_Before res /\ op_After dry_res = op_After res /\
  op_After res = resolveEffectiveAccess (dc_tx_now c) (au_ID (op_User res)) EmptyString d' /\
  (forall o, is_manual (au_ID (op_User res)) o = false -> (o ∈ admin_subscriptions d' <-> o ∈ admin_subscriptions d)).
Proof.
  unfold RevokePro. destruct (validate_revoke s _) as [q1|] eqn:Hv1; [|done]. intros Hd.
  destruct (validate_revoke s {| rr_DryRun := false |}) as [q2|] eqn:Hv2; [|done]. intros Hr Hids.
  unfold validate_revoke in Hv1, Hv2. inv_ok. simpl in *.
  apply commit_ok in Hd, Hr. unfold revoke_tx in Hd, Hr. simpl in Hd, Hr.
  apply rbind_ok in Hd as (? & _ & Hd). apply rbind_ok in Hr as (? & _ & Hr).
  apply rbind_ok in Hd as (u & Hu & Hd). apply rbind_ok in Hr as (u' & Hu' & Hr).
  rewrite Hu in Hu'. injection Hu' as <-.
  apply rbind_ok in Hd as (before & Hb%run_step_ok & Hd). injection Hb as <-.
  apply rbind_ok in Hr as (before & Hb%run_step_ok & Hr). injection Hb as <-.
  apply rbind_ok in Hd as (manual & Hm%run_step_ok & Hd).
  apply rbind_ok in Hr as (manual' & Hm'%run_step_ok & Hr).
  rewrite Hm in Hm'. injection Hm' as <-.
  destruct manual as [g|]; [|by inv_ok]. destruct (negb _); [by inv_ok|].
  apply rbind_ok in Hd as (aft & Ha%run_step_ok & Hd). injection Ha as <-.
  apply rbind_ok in Hr as (aft & Ha%run_step_ok & Hr). injection Ha as <-.
  injection Hd as <- <-.
  apply rbind_ok in Hr as ([rev d1] & Hrev%run_step_ok & Hr).
  apply rbind_ok in Hr as (aft & Ha%run_step_ok & Hr). injection Ha as <-.
  apply rbind_ok in Hr as (d2 & Haud%run_step_ok & Hr). injection Hr as <- <-. simpl in *.
  unfold insertAudit in Haud. destruct (audit_checks _); [|done]. injection Haud as <-.
  unfold revoke_manual in Hrev. apply rbind_ok in Hrev as (l & Hl & Hrev).
  destruct (List.find _ l) as [row|]; [|done]. apply rbind_ok in Hrev as (g' & _ & Hrev).
  injection Hrev as _ <-.
  unfold update_where in Hl. destruct (forallb _ _); [|done]. injection Hl as <-.
  assert (exists m, m ∈ admin_subscriptions d /\ is_manual (au_ID u) m = true /\
    mg_SubscriptionID g = default EmptyString (sr_SubscriptionID m) /\ is_Some (sr_SubscriptionID m)) as (m & Hmin & Hmm & Hmg & Hms).
  { unfold resolveManualGrant in Hm. destruct (List.find _ _) as [m|] eqn:Hf; [|done].
    apply rbind_ok in Hm as (g0 & Hg & [= <-]). apply List.find_some in Hf as [Hin Hf].
    exists m. rewrite list_elem_of_In. unfold grant_of in Hg. destruct (sr_SubscriptionID m); [|done].
    injection Hg as <-. eauto. }
  assert (mg_SubscriptionID g = manualSubscriptionID (au_ID u)) as Hgid.
  { unfold is_manual in Hmm. bool_facts. rewrite Hmg. by rewrite (proj1 (Hids m Hmin ltac:(done))) by done. }
  split_and!; try done.
  - unfold resolveEffectiveAccess, effective_subscription, effective_row. rewrite Hgid.
    match goal with |- context [best _ ?L1] => match goal with |- _ = match best _ ?L2 with _ => _ end =>
      assert (L1 = L2) as ->; [|done] end end.
    clear -Hids. unfold admin_subscriptions in *. simpl.
    assert (forall r, not_excluded EmptyString r = true) as Hne by done.
    rewrite (filter_all (not_excluded EmptyString)) by (intros; apply Hne).
    induction (account_subscriptions (accounts d)) as [|r l IH]; [done|].
    assert (manual_ids (au_ID u) l) as Hl by (intros q Hq; apply Hids; by right).
    specialize (Hids r ltac:(by left)). specialize (IH Hl). cbn [map List.filter].
    destruct (is_manual (au_ID u) r) eqn:Hr.
    + pose proof Hr as Hr'. unfold is_manual in Hr'. bool_facts.
      assert (not_excluded (manualSubscriptionID (au_ID u)) r = false) as ->.
      { unfold not_excluded. rewrite (proj1 (Hids ltac:(done))) by done. by rewrite bool_decide_eq_true_2. }
      assert (grants_access (dc_tx_now c) (revoked_row (dc_now c) r) = false) as ->
        by (by apply expired_grants_nothing).
      rewrite andb_false_r. exact IH.
    + destruct (not_excluded (manualSubscriptionID (au_ID u)) r) eqn:Hx.
      * cbn [List.filter]. destruct (_ && _); [f_equal|]; exact IH.
      * assert (bool_decide (sr_UserID r = au_ID u) = false) as ->; [|exact IH].
        apply bool_decide_eq_false. intros Hu. unfold not_excluded in Hx. bool_facts.
        unfold is_manual in Hr. rewrite (bool_decide_eq_true_2 _ Hu) in Hr. simpl in Hr. bool_facts.
        apply Hr. by apply Hids.
  - intros o Ho. unfold admin_subscriptions. simpl. rewrite list_elem_of_fmap. split.
    + intros (q & -> & Hq). destruct (is_manual (au_ID u) q) eqn:E; [|done].
      exfalso. assert (is_manual (au_ID u) (revoked_row (dc_now c) q) = true) as Hq'; [|congruence].
      exact E.
    + intros Hin. exists o. by rewrite Ho.
Qed.
End admin.

(** * Durations *)

Section durations.
Context `{AdminEncoding}.

(** Every whole number of days the parser accepts, checked one by one. *)
Lemma whole_days_checked :
  forallb (fun n => let d := Z.of_nat n * day in
             match ParseDuration (H := plain_unicode) (FormatDuration d) with
             | Ok d' => d' =? d | Err _ => false end) (seq 1 3650) = true.
Proof. vm_compute. reflexivity. Qed.

(** A duration of one to 3650 whole days is printed as a number of days and
    parsed back, within the 64 bits of a duration. *)
Theorem whole_days_roundtrip n :
  1 <= n <= 3650 ->
  ParseDuration (H := plain_unicode) (FormatDuration (n * day)) = Ok (n * day) /\ in_int64 (n * day).
Proof.
  intros Hn. pose proof whole_days_checked as Hall. rewrite forallb_forall in Hall.
  specialize (Hall (Z.to_nat n)). cbv zeta in Hall. rewrite Z2Nat.id in Hall by lia.
  split; [|unfold in_int64, min_int64, max_int64, day, hour, minute, second; lia].
  destruct (ParseDuration _) as [d'|]; [|discriminate Hall; apply List.in_seq; lia].
  f_equal. apply Z.eqb_eq, Hall, List.in_seq. lia.
Qed.
End durations.

(** * Witnesses *)

Section witnesses.
#[local] Instance sample_admin : AdminEncoding := {|
  pg_lower s := s; admin_uuid u := Some u |}.

Definition sample_admin_db : AdminDB := {| accounts := sample_accounts; audit := [] |}.

Definition sample_production : AdminService :=
  {| environment := "production"; maxDuration := 365 * day |}.

Definition admin_quiet (now : time) : admin_call :=
  {| dc_check_now := now; dc_now := now; dc_tx_now := now; dc_new_id := "new"; dc_outcome := fun _ => Done |}.

Definition sample_selector : Selector :=
  {| sl_UserID := EmptyString; sl_Email := EmptyString; sl_AuthSubject := "auth0|buyer" |}.

Definition sample_grant (dry : bool) (d : duration) : GrantRequest :=
  {| gr_Selector := sample_selector; gr_Duration := d; gr_Actor := "ops"; gr_Reason := "support case";
     gr_DryRun := dry; gr_Confirmation := "PRODUCTION" |}.

Definition sample_revoke : RevokeRequest :=
  {| rr_Selector := sample_selector; rr_Actor := "ops"; rr_Reason := "support case";
     rr_DryRun := false; rr_Confirmation := "PRODUCTION" |}.

(** The sample database after a grant of a day. *)
Definition sample_granted : AdminDB :=
  snd (GrantPro sample_production (admin_quiet (1200 * second)) (sample_grant false day) sample_admin_db).

Lemma GrantPro_correct_witness :
  exists res d', GrantPro sample_production (admin_quiet (1200 * second)) (sample_grant false day) sample_admin_db
                   = (Ok res, d') /\
    0 < day <= 365 * day /\ op_DryRun res = false.
Proof.
  destruct (GrantPro sample_production (admin_quiet (1200 * second)) (sample_grant false day) sample_admin_db)
    as [[res|] d'] eqn:E; [|by vm_compute in E].
  exists res, d'. split; [reflexivity|].
  destruct (GrantPro_correct _ _ _ _ _ _ E) as (Hd & _ & _ & Hdry & _). split; [exact Hd|exact Hdry].
Defined.

Lemma sample_manual_ids : manual_ids sample_user (admin_subscriptions sample_granted).
Proof.
  assert (forallb (fun r => Bool.eqb (bool_decide (sr_Provider r = "manual"))
    (bool_decide (sr_SubscriptionID r = Some (manualSubscriptionID sample_user))))
    (admin_subscriptions sample_granted) = true) as Hall by (vm_compute; reflexivity).
  rewrite forallb_forall in Hall. intros r Hr _. rewrite list_elem_of_In in Hr.
  specialize (Hall r Hr). apply eqb_prop in Hall.
  rewrite <- (bool_decide_eq_true (sr_Provider r = _)), Hall. apply bool_decide_eq_true.
Qed.

Lemma RevokePro_preview_exact_witness :
  exists dry_res dry_d res d',
    RevokePro sample_production (admin_quiet (1300 * second))
      {| rr_Selector := sample_selector; rr_Actor := "ops"; rr_Reason := "support case";
         rr_DryRun := true; rr_Confirmation := "PRODUCTION" |} sample_granted = (Ok dry_res, dry_d) /\
    RevokePro sample_production (admin_quiet (1300 * second)) sample_revoke sample_granted = (Ok res, d') /\
    op_After dry_res = op_After res.
Proof.
  destruct (RevokePro sample_production (admin_quiet (1300 * second))
      {| rr_Selector := sample_selector; rr_Actor := "ops"; rr_Reason := "support case";
         rr_DryRun := true; rr_Confirmation := "PRODUCTION" |} sample_granted) as [[dry_res|] dry_d] eqn:E1;
    [|by vm_compute in E1].
  destruct (RevokePro sample_production (admin_quiet (1300 * second)) sample_revoke sample_granted)
    as [[res|] d'] eqn:E2; [|by vm_compute in E2].
  exists dry_res, dry_d, res, d'. split; [reflexivity|]. split; [reflexivity|].
  assert (au_ID (op_User res) = sample_user) as Hu.
  { assert (fst (RevokePro sample_production (admin_quiet (1300 * second)) sample_revoke sample_granted) = Ok res)
      as E3 by (by rewrite E2).
    vm_compute in E3. injection E3 as <-. reflexivity. }
  refine (proj1 (proj2 (proj2 (proj2 (proj2 (RevokePro_preview_exact _ _ sample_revoke _ _ _ _ _ E1 E2 _)))))).
  rewrite Hu. exact sample_manual_ids.
Defined.

Lemma whole_days_roundtrip_witness :
  ParseDuration (H := plain_unicode) (FormatDuration (30 * day)) = Ok (30 * day).
Proof. refine (proj1 (whole_days_roundtrip 30 _)). split; vm_compute; discriminate. Defined.

(** The dry run of a grant announces the access of the grant itself, not the
    effective one: for a buyer whose subscription lasts longer, the two answers
    differ. *)
Theorem grant_preview_misleads :
  exists dry_res res,
    fst (GrantPro sample_production (admin_quiet (1200 * second)) (sample_grant true minute) sample_admin_db)
      = Ok dry_res /\
    fst (GrantPro sample_production (admin_quiet (1200 * second)) (sample_grant false minute) sample_admin_db)
      = Ok res /\
    s_AccessUntil (op_After dry_res) = Some (1260 * second) /\
    s_AccessUntil (op_After res) = Some (2600 * second).
Proof. do 2 eexists. split_and!; vm_compute; reflexivity. Qed.

(** The service counts bytes where its message, and the table, say characters:
    an actor of one character passes the first and fails the second. *)
Theorem actor_length_in_bytes :
  let actor := of_bytes (map byte [226; 130; 172]) in
  validateActorAndReason actor "support case" = Ok tt /\
  char_length actor = 1 /\
  fst (GrantPro sample_production (admin_quiet (1200 * second))
         {| gr_Selector := sample_selector; gr_Duration := day; gr_Actor := actor;
            gr_Reason := "support case"; gr_DryRun := false; gr_Confirmation := "PRODUCTION" |}
         sample_admin_db) = Err (AdminStatement DAudit ConstraintViolation).
Proof. split_and!; vm_compute; reflexivity. Qed.
End witnesses.
