(* ===== verification/BlackMarket.v ===== *)
(** The analysis of one item on the black market:
    [internal/blackmarket/blackmarket.go]. *)
From S2P Require Import Prelude GoLists GoBase Float64 Dates Domain Catalog PriceRepo HistoryRepo Json Http.
Local Open Scope Z_scope.

Definition blackMarketLocation : Z := 3003.
Definition defaultHistoryDays : Z := 28.
Definition maximumHistoryDays : Z := 90.
Definition defaultSalesTaxRate : float64 := Eval vm_compute in f_lit "0.04".
Definition maximumRequestBody : Z := 32 * 1024.
Definition freshPriceWindow : duration := 24 * hour.

(** * Data *)

Record AnalysisRequest := {
  an_Server : Server;
  an_PurchaseMarketKey : string;
  an_ItemIdentifier : string;
  an_Quality : Z;
  an_Quantity : Z;
  an_SaleUnitPriceOverride : option Z;
  an_SalesTaxRate : option float64;
  an_TransportCost : Z;
  an_HistoryDays : Z;
}.

Record PriceSnapshot := {
  sn_MarketKey : string;
  sn_UnitPrice : option Z;
  sn_PriceDate : option time;
  sn_UpdatedAt : option time;
  sn_Freshness : string;
}.

Record HistoryPoint := {
  pt_Timestamp : time;
  pt_ItemCount : Z;
  pt_AverageUnitPrice : option Z;
}.

Record HistorySummary := {
  su_RangeDays : Z;
  su_BucketCount : Z;
  su_SoldUnits : Z;
  su_WeightedAverage : option Z;
  su_LowestAverage : option Z;
  su_HighestAverage : option Z;
  su_LastObservedAt : option time;
  su_Points : list HistoryPoint;
}.

(** The fields that are set together once the economics are ready. *)
Record EconomicFigures := {
  ef_PurchaseCost : Z;
  ef_GrossRevenue : Z;
  ef_SalesTax : Z;
  ef_NetRevenue : Z;
  ef_Profit : Z;
  ef_ProfitPerUnit : Z;
  ef_MarginPercent : float64;
  ef_ReturnOnCostPercent : float64;
  ef_BreakEvenUnitPrice : Z;
}.

Record Economics := {
  ec_Quantity : Z;
  ec_PurchaseUnitPrice : option Z;
  ec_SaleUnitPrice : option Z;
  ec_SalePriceSource : string;
  ec_TransportCost : Z;
  ec_Ready : option EconomicFigures;
}.

Record AnalysisResponse := {
  ar_RequestedAt : time;
  ar_Server : Server;
  ar_ItemIdentifier : string;
  ar_Quality : Z;
  ar_PurchaseMarketKey : string;
  ar_BlackMarketKey : string;
  ar_Purchase : PriceSnapshot;
  ar_BlackMarket : PriceSnapshot;
  ar_History : HistorySummary;
  ar_Economics : Economics;
  ar_Warnings : list string;
}.

(** The tables of the queries. *)
Record MarketDB := { mk_prices : gmap price_key current_row; mk_buckets : gmap bucket_key bucket_row }.

(** The readings of the clock of one call, and whether its queries fail. *)
Record analysis_call := {
  an_now_purchase : time;
  an_now_black_market : time;
  an_now_history : time;
  an_now_answer : time;
  an_prices_fail : bool;
  an_history_fails : bool;
}.

(** A [ValidationError] carries a message, or the text of an error of the
    catalog; the other errors are internal. *)
Inductive analysis_error :=
  | Invalid (message : string)
  | InvalidMarkets (e : catalog_error)
  | InvalidServerID
  | PricesFailed
  | HistoryFailed.

(** * Arithmetic *)

Definition multiply (left right : Z) : Z * bool :=
  if (left <? 0) || (right <? 0) || ((0 <? left) && (Z.quot max_int64 left <? right))
  then (0, false) else (wrap64 (left * right), true).

Definition positive_price (value : option Z) : option Z :=
  match value with Some v => if v <=? 0 then None else Some v | None => None end.

Definition freshness (now : time) (at_ : option time) : string :=
  match at_ with
  | None => "missing"
  | Some at_ =>
      if is_zero at_ then "missing"
      else if time_sub now at_ <=? freshPriceWindow then "fresh" else "stale"
  end.

Definition serverID (server : Server) : option Z :=
  if bool_decide (server = ServerWest) then Some 1
  else if bool_decide (server = ServerEast) then Some 2
  else if bool_decide (server = ServerEurope) then Some 3
  else None.

Definition percent (part whole : Z) : float64 := f_mul (f_div (of_Z part) (of_Z whole)) (of_Z 100).

(** [int64(math.Round(f))] and [int64(math.Ceil(f))]. *)
Definition int_round (f : float64) : Z := to_int64 (integral round_of f).
Definition int_ceil (f : float64) : Z := to_int64 (integral ceil_of f).

(** What [calculateEconomics] computes from the two products. *)
Definition economic_figures (quantity purchaseCost grossRevenue : Z) (taxRate : float64)
    (transportCost : Z) : EconomicFigures :=
  let tax := int_round (f_mul (of_Z grossRevenue) taxRate) in
  let netRevenue := wrap64 (wrap64 (grossRevenue - tax) - transportCost) in
  let profit := wrap64 (netRevenue - purchaseCost) in
  let cost := wrap64 (purchaseCost + transportCost) in
  {| ef_PurchaseCost := purchaseCost;
     ef_GrossRevenue := grossRevenue;
     ef_SalesTax := tax;
     ef_NetRevenue := netRevenue;
     ef_Profit := profit;
     ef_ProfitPerUnit := Z.quot profit quantity;
     ef_MarginPercent := if 0 <? grossRevenue then percent profit grossRevenue else f_zero;
     ef_ReturnOnCostPercent := if 0 <? cost then percent profit cost else f_zero;
     ef_BreakEvenUnitPrice :=
       int_ceil (f_div (f_div (of_Z cost) (of_Z quantity)) (f_sub (of_Z 1) taxRate)) |}.

Definition calculateEconomics (quantity : Z) (purchaseUnitPrice saleUnitPrice : option Z)
    (saleSource : string) (taxRate : float64) (transportCost : Z) : Economics :=
  let with_figures ready :=
    {| ec_Quantity := quantity; ec_PurchaseUnitPrice := purchaseUnitPrice;
       ec_SaleUnitPrice := saleUnitPrice; ec_SalePriceSource := saleSource;
       ec_TransportCost := transportCost; ec_Ready := ready |} in
  match purchaseUnitPrice, saleUnitPrice with
  | Some purchase, Some sale =>
      let '(purchaseCost, ok) := multiply purchase quantity in
      if negb ok then with_figures None else
      let '(grossRevenue, ok) := multiply sale quantity in
      if negb ok then with_figures None else
      with_figures (Some (economic_figures quantity purchaseCost grossRevenue taxRate transportCost))
  | _, _ => with_figures None
  end.

(** * The queries *)

Definition no_snapshot (key : string) : PriceSnapshot :=
  {| sn_MarketKey := key; sn_UnitPrice := None; sn_PriceDate := None; sn_UpdatedAt := None;
     sn_Freshness := "missing" |}.

(** The rows of the query: a location has one at most. *)
Definition price_rows (server purchaseLocation : Z) (request : AnalysisRequest) (d : MarketDB)
    : list (Z * current_row) :=
  omap (fun l => pair l <$> mk_prices d !! (server, l, an_ItemIdentifier request, an_Quality request))
    (dedup [purchaseLocation; blackMarketLocation]).

(** One round of the loop over the rows. *)
Definition take_snapshot (c : analysis_call) (purchaseLocation : Z)
    (s : PriceSnapshot * PriceSnapshot) (lr : Z * current_row) : PriceSnapshot * PriceSnapshot :=
  let '(purchase, blackMarket) := s in
  let '(l, row) := lr in
  (if l =? purchaseLocation then
     {| sn_MarketKey := sn_MarketKey purchase; sn_UnitPrice := positive_price (c_sell_price_min row);
        sn_PriceDate := c_sell_price_min_at row; sn_UpdatedAt := Some (c_updated_at row);
        sn_Freshness := freshness (an_now_purchase c) (c_sell_price_min_at row) |}
   else purchase,
   if l =? blackMarketLocation then
     {| sn_MarketKey := sn_MarketKey blackMarket; sn_UnitPrice := positive_price (c_buy_price_max row);
        sn_PriceDate := c_buy_price_max_at row; sn_UpdatedAt := Some (c_updated_at row);
        sn_Freshness := freshness (an_now_black_market c) (c_buy_price_max_at row) |}
   else blackMarket).

Definition loadPrices (c : analysis_call) (server purchaseLocation : Z) (request : AnalysisRequest)
    (d : MarketDB) : result analysis_error (PriceSnapshot * PriceSnapshot) :=
  fail_if an_prices_fail c with PricesFailed else
  Ok (foldl (take_snapshot c purchaseLocation)
        (no_snapshot (an_PurchaseMarketKey request), no_snapshot "black_market")
        (price_rows server purchaseLocation request d)).

(** [s.now().UTC().Truncate(24*time.Hour).AddDate(0, 0, -(historyDays-1))]. *)
Definition history_from (now : time) (historyDays : Z) : time :=
  now / day * day - (historyDays - 1) * day.

Definition selects_history (server : Z) (request : AnalysisRequest) (from : time) (k : bucket_key) : bool :=
  let '(s, l, i, q, t) := k in
  (s =? server) && (l =? blackMarketLocation) && bool_decide (i = an_ItemIdentifier request)
  && (q =? an_Quality request) && (pg_time from <=? t).

(** The rows of the query, by [bucket_at]. *)
Definition item_history (server : Z) (request : AnalysisRequest) (from : time) (d : MarketDB)
    : list (time * bucket_row) :=
  slice_stable (fun a b => fst a <? fst b)
    (map (fun kr : bucket_key * bucket_row => (snd (fst kr), snd kr))
       (List.filter (fun kr => selects_history server request from (fst kr))
          (map_to_list (mk_buckets d)))).

(** The variables of the loop: the summary, [weightedTotal] and [weightedUnits]. *)
Record history_loop := { lo_summary : HistorySummary; lo_total : Z; lo_units : Z }.

Definition min_opt (cur : option Z) (price : Z) : option Z :=
  match cur with Some c => if price <? c then Some price else cur | None => Some price end.
Definition max_opt (cur : option Z) (price : Z) : option Z :=
  match cur with Some c => if c <? price then Some price else cur | None => Some price end.

(** The price of a bucket that counts: one that is known and positive. *)
Definition bucket_price (row : bucket_row) : option Z := positive_price (b_average_unit_price row).

(** The product of a bucket that counts towards the weighted average. *)
Definition weighable (row : bucket_row) (price : Z) : bool :=
  (0 <? b_item_count row) && (price <=? Z.quot max_int64 (b_item_count row)).

Definition add_bucket (st : history_loop) (tr : time * bucket_row) : history_loop :=
  let '(t, row) := tr in
  let s := lo_summary st in
  let price := bucket_price row in
  {| lo_summary :=
       {| su_RangeDays := su_RangeDays s;
          su_BucketCount := su_BucketCount s + 1;
          su_SoldUnits := wrap64 (su_SoldUnits s + b_item_count row);
          su_WeightedAverage := su_WeightedAverage s;
          su_LowestAverage := match price with Some p => min_opt (su_LowestAverage s) p | None => su_LowestAverage s end;
          su_HighestAverage := match price with Some p => max_opt (su_HighestAverage s) p | None => su_HighestAverage s end;
          su_LastObservedAt := max_opt (su_LastObservedAt s) (b_observed_at row);
          su_Points := su_Points s ++
            [{| pt_Timestamp := t; pt_ItemCount := b_item_count row;
                pt_AverageUnitPrice := b_average_unit_price row |}] |};
     lo_total :=
       match price with
       | Some p => if weighable row p then wrap64 (lo_total st + wrap64 (p * b_item_count row)) else lo_total st
       | None => lo_total st
       end;
     lo_units :=
       match price with
       | Some p => if weighable row p then wrap64 (lo_units st + b_item_count row) else lo_units st
       | None => lo_units st
       end |}.

Definition empty_summary (historyDays : Z) : HistorySummary :=
  {| su_RangeDays := historyDays; su_BucketCount := 0; su_SoldUnits := 0; su_WeightedAverage := None;
     su_LowestAverage := None; su_HighestAverage := None; su_LastObservedAt := None; su_Points := [] |}.

Definition summarize (historyDays : Z) (rows : list (time * bucket_row)) : HistorySummary :=
  let st := foldl add_bucket {| lo_summary := empty_summary historyDays; lo_total := 0; lo_units := 0 |} rows in
  let s := lo_summary st in
  {| su_RangeDays := su_RangeDays s; su_BucketCount := su_BucketCount s; su_SoldUnits := su_SoldUnits s;
     su_WeightedAverage :=
       if 0 <? lo_units st then Some (Z.quot (lo_total st) (lo_units st)) else su_WeightedAverage s;
     su_LowestAverage := su_LowestAverage s; su_HighestAverage := su_HighestAverage s;
     su_LastObservedAt := su_LastObservedAt s; su_Points := su_Points s |}.

Definition loadHistory (c : analysis_call) (server : Z) (request : AnalysisRequest) (historyDays : Z)
    (d : MarketDB) : result analysis_error HistorySummary :=
  fail_if an_history_fails c with HistoryFailed else
  Ok (summarize historyDays (item_history server request (history_from (an_now_history c) historyDays) d)).

(** * The analysis *)

Definition supported_server (server : Server) : bool :=
  bool_decide (server = ServerWest) || bool_decide (server = ServerEast)
  || bool_decide (server = ServerEurope).

(** A tax rate that is a number of [[0, 1)]. *)
Definition bad_rate (rate : float64) : bool :=
  IsNaN rate || IsInf rate || f_ltb rate f_zero || f_leb (of_Z 1) rate.

Definition warning_purchase : string :=
  "No existe un precio de venta vigente en el mercado de compra seleccionado.".
Definition warning_black_market : string :=
  "No existe una orden de compra vigente del Black Market en la base central; puedes ingresar un precio esperado manual.".
Definition warning_stale : string :=
  "Uno o más precios tienen más de 24 horas y deben verificarse dentro del juego antes de transportar.".
Definition warning_history : string :=
  "Todavía no hay historial central del Black Market para este objeto y calidad.".

(** A warning that applies. *)
Definition warn (applies : bool) (warning : string) : list string := if applies then [warning] else [].

Definition is_stale (s : PriceSnapshot) : bool := bool_decide (sn_Freshness s = "stale").

Definition analysis_warnings (purchase blackMarket : PriceSnapshot) (history : HistorySummary) : list string :=
  warn (bool_decide (sn_UnitPrice purchase = None)) warning_purchase
  ++ warn (bool_decide (sn_UnitPrice blackMarket = None)) warning_black_market
  ++ warn (is_stale purchase || is_stale blackMarket) warning_stale
  ++ warn (su_BucketCount history =? 0) warning_history.

(** The price of the sale and where it comes from. *)
Definition sale_price (blackMarket : PriceSnapshot) (override : option Z) : option Z * string :=
  match override with
  | Some price => (Some price, "manual")
  | None =>
      match sn_UnitPrice blackMarket with
      | Some price => (Some price, "black-market-buy-order")
      | None => (None, "missing")
      end
  end.

(** What the handlers write: an error or the answer of the service. *)
Inductive market_body (A : Type) :=
  | MarketError (message : string)
  | MarketCatalogError (e : catalog_error)
  | MarketAnswer (answer : A).
Arguments MarketError {A} _.
Arguments MarketCatalogError {A} _.
Arguments MarketAnswer {A} _.

#[local] Abbreviation AN := Build_AnalysisRequest.

Section analysis.
Context `{Unicode} (catalog : Catalog).

Definition normalize_analysis (r : AnalysisRequest) : AnalysisRequest :=
  let '(AN s m i q n o t c h) := r in AN s (NormalizeKey m) (ToUpper (TrimSpace i)) q n o t c h.

(** The checks of [Analyze], on the normalized request: the number of days, the
    tax rate, the server and the location of the purchase. *)
Definition check_analysis (request : AnalysisRequest)
    : result analysis_error (Z * float64 * Z * Z) :=
  fail_if negb (supported_server (an_Server request))
    with Invalid "server must be west, east or europe" else
  fail_if is_empty (an_ItemIdentifier request) || (160 <? str_len (an_ItemIdentifier request))
    with Invalid "itemIdentifier is required" else
  fail_if (an_Quality request <? 1) || (5 <? an_Quality request)
    with Invalid "quality must be between 1 and 5" else
  fail_if (an_Quantity request <? 1) || (1000000 <? an_Quantity request)
    with Invalid "quantity must be between 1 and 1000000" else
  fail_if an_TransportCost request <? 0 with Invalid "transportCost cannot be negative" else
  fail_if match an_SaleUnitPriceOverride request with Some p => p <=? 0 | None => false end
    with Invalid "saleUnitPriceOverride must be positive" else
  let historyDays := if an_HistoryDays request =? 0 then defaultHistoryDays else an_HistoryDays request in
  fail_if (historyDays <? 1) || (maximumHistoryDays <? historyDays)
    with Invalid "historyDays must be between 1 and 90" else
  let taxRate := default defaultSalesTaxRate (an_SalesTaxRate request) in
  fail_if bad_rate taxRate with Invalid "salesTaxRate must be at least 0 and below 1" else
  match ResolveEnabled (Some catalog) [an_PurchaseMarketKey request] with
  | Ok ([location], _) =>
      let! server := of_option InvalidServerID (serverID (an_Server request)) in
      Ok (historyDays, taxRate, server, location)
  | _ => Err (Invalid "purchaseMarketKey must reference an enabled regular market")
  end.

Definition Analyze (c : analysis_call) (r : AnalysisRequest) (d : MarketDB)
    : result analysis_error AnalysisResponse :=
  let request := normalize_analysis r in
  let! (historyDays, taxRate, server, location) := check_analysis request in
  let! (purchase, blackMarket) := loadPrices c server location request d in
  let! history := loadHistory c server request historyDays d in
  let '(salePrice, saleSource) := sale_price blackMarket (an_SaleUnitPriceOverride request) in
  Ok {| ar_RequestedAt := an_now_answer c;
        ar_Server := an_Server request;
        ar_ItemIdentifier := an_ItemIdentifier request;
        ar_Quality := an_Quality request;
        ar_PurchaseMarketKey := an_PurchaseMarketKey request;
        ar_BlackMarketKey := "black_market";
        ar_Purchase := purchase;
        ar_BlackMarket := blackMarket;
        ar_History := history;
        ar_Economics :=
          calculateEconomics (an_Quantity request) (sn_UnitPrice purchase) salePrice saleSource taxRate
            (an_TransportCost request);
        ar_Warnings := analysis_warnings purchase blackMarket history |}.

(** * The handler *)

Definition zero_analysis : AnalysisRequest :=
  AN EmptyString EmptyString EmptyString 0 0 None None 0 0.

Definition dec_AnalysisRequest : decoder AnalysisRequest :=
  dec_struct
    [("server", field an_Server (fun x '(AN _ m i q n o t c h) => AN x m i q n o t c h) dec_string);
     ("purchaseMarketKey", field an_PurchaseMarketKey (fun x '(AN s _ i q n o t c h) => AN s x i q n o t c h) dec_string);
     ("itemIdentifier", field an_ItemIdentifier (fun x '(AN s m _ q n o t c h) => AN s m x q n o t c h) dec_string);
     ("quality", field an_Quality (fun x '(AN s m i _ n o t c h) => AN s m i x n o t c h) dec_int16);
     ("quantity", field an_Quantity (fun x '(AN s m i q _ o t c h) => AN s m i q x o t c h) dec_int64);
     ("saleUnitPriceOverride", field an_SaleUnitPriceOverride
        (fun x '(AN s m i q n _ t c h) => AN s m i q n x t c h) (dec_pointer 0 dec_int64));
     ("salesTaxRate", field an_SalesTaxRate
        (fun x '(AN s m i q n o _ c h) => AN s m i q n o x c h) (dec_pointer f_zero dec_float64));
     ("transportCost", field an_TransportCost (fun x '(AN s m i q n o t _ h) => AN s m i q n o t x h) dec_int64);
     ("historyDays", field an_HistoryDays (fun x '(AN s m i q n o t c _) => AN s m i q n o t c x) dec_int64)].

(** [NewHandler]: the bound of a body. *)
Definition black_market_body_limit (maxBodyBytes : list Z) : Z :=
  match maxBodyBytes with
  | limit :: _ => if 0 <? limit then limit else maximumRequestBody
  | [] => maximumRequestBody
  end.

Definition market_write {A} (status : Z) (headers : list (string * string)) (body : market_body A)
    : Response (market_body A) :=
  {| rs_Status := status; rs_Headers := no_store :: headers ++ [json_type]; rs_Body := body |}.

(** What both handlers of the package do: one value is decoded, whatever
    follows it, and the service is asked. *)
Definition market_handler {A B} (d : decoder A) (zero : A) (limit : Z)
    (service : A -> result analysis_error B) (r : HttpRequest) : Response (market_body B) :=
  if negb (bool_decide (hr_Method r = "POST")) then
    market_write StatusMethodNotAllowed [("Allow", "POST")] (MarketError "method not allowed")
  else
    match decode_next d zero (MaxBytesReader limit (hr_Body r)) with
    | Err _ => market_write StatusBadRequest [] (MarketError "invalid request body")
    | Ok (request, _) =>
        match service request with
        | Ok answer => market_write StatusOK [] (MarketAnswer answer)
        | Err (Invalid message) => market_write StatusBadRequest [] (MarketError message)
        | Err (InvalidMarkets e) => market_write StatusBadRequest [] (MarketCatalogError e)
        | Err _ => market_write StatusInternalServerError [] (MarketError "internal server error")
        end
    end.

Definition AnalyzeHandler (limit : Z) (c : analysis_call) (d : MarketDB) : HttpRequest -> Response (market_body AnalysisResponse) :=
  market_handler dec_AnalysisRequest zero_analysis limit (fun request => Analyze c request d).
End analysis.
