(* ===== verification/BlackMarketSpec.v ===== *)
(** What an analysis of the black market answers: the figures it computes, the
    bounds under which they are exact, and the summary of the history. *)
From S2P Require Import Prelude GoLists GoBase Float64 Float64Spec Dates Domain Catalog PriceRepo HistoryRepo Json Http BlackMarket.
Local Open Scope Z_scope.

(** * Prices *)

Lemma positive_price_Some v p : positive_price v = Some p <-> v = Some p /\ 0 < p.
Proof. destruct v as [v|]; simpl; [|naive_solver]. case_if; bool_facts; naive_solver lia. Qed.

Lemma multiply_ok l r p :
  multiply l r = (p, true) <-> 0 <= l /\ 0 <= r /\ l * r <= max_int64 /\ p = l * r.
Proof.
  unfold multiply. destruct (Z.ltb_spec l 0), (Z.ltb_spec r 0); simpl; try (split; [done|lia]).
  destruct (Z.ltb_spec 0 l); simpl.
  - rewrite Z.quot_div_nonneg by (unfold max_int64; lia).
    pose proof (Z.mul_div_le max_int64 l ltac:(lia)) as Hd.
    destruct (Z.ltb_spec (max_int64 / l) r) as [Hlt|Hle]; simpl.
    + split; [done|]. intros (_ & _ & Hm & _). exfalso.
      pose proof (Z.div_le_lower_bound max_int64 l r ltac:(lia) Hm). lia.
    + assert (l * r <= max_int64) by nia.
      rewrite wrap64_id by (unfold in_int64, min_int64; nia). naive_solver.
  - assert (l = 0) as -> by lia. rewrite wrap64_id by (unfold in_int64, min_int64, max_int64; lia).
    unfold max_int64. simpl. naive_solver lia.
Qed.

Lemma multiply_false l r : (multiply l r).2 = false <-> ~ (0 <= l /\ 0 <= r /\ l * r <= max_int64).
Proof.
  destruct (multiply l r) as [p ok] eqn:E. simpl. split.
  - intros -> H. assert (multiply l r = (l * r, true)) as E' by (apply multiply_ok; naive_solver). congruence.
  - intros Hn. destruct ok; [|done]. apply multiply_ok in E. destruct Hn. naive_solver.
Qed.

(** The rates the checks let through. *)
Definition good_rate (rate : float64) : Prop :=
  valid_binary prec64 emax64 rate = true /\ bad_rate rate = false.

Lemma tax_bounds g rate :
  good_rate rate -> 0 <= g < 2 ^ 53 -> 0 <= int_round (f_mul (of_Z g) rate) <= g.
Proof.
  intros [Hv Hb] Hg. unfold bad_rate in Hb. bool_facts.
  destruct (at_most_floor g (f_mul (of_Z g) rate)) as (z & Hz & Hzg); [by apply f_mul_rate|lia|].
  unfold int_round. rewrite Hz. simpl. rewrite (proj2 (Z.leb_le _ _)), (proj2 (Z.leb_le _ _)); [done|..];
    unfold min_int64, max_int64; lia.
Qed.

(** The figures without overflow. *)
Lemma economic_figures_exact quantity cost gross rate transport :
  good_rate rate -> 1 <= quantity -> 0 <= gross < 2 ^ 53 -> 0 <= cost -> 0 <= transport ->
  cost + transport <= max_int64 ->
  let f := economic_figures quantity cost gross rate transport in
  0 <= ef_SalesTax f <= gross /\
  ef_NetRevenue f = gross - ef_SalesTax f - transport /\
  ef_Profit f = ef_NetRevenue f - cost /\
  ef_ProfitPerUnit f = Z.quot (ef_Profit f) quantity.
Proof.
  intros Hr Hq Hg Hc Ht Hct f. pose proof (tax_bounds gross rate Hr Hg) as Htax.
  unfold f, economic_figures. simpl. set (tax := int_round _) in *.
  assert (wrap64 (gross - tax) = gross - tax) as H1 by (apply wrap64_id; unfold in_int64, min_int64, max_int64; lia).
  assert (wrap64 (wrap64 (gross - tax) - transport) = gross - tax - transport) as H2.
  { rewrite H1. apply wrap64_id. unfold in_int64, min_int64, max_int64 in *. lia. }
  split_and!; [lia|lia|done| |done]. rewrite H2. apply wrap64_id.
  unfold in_int64, min_int64, max_int64 in *. lia.
Qed.

(** When the figures are computed. *)
Lemma calculateEconomics_ready quantity purchase sale source rate transport f :
  ec_Ready (calculateEconomics quantity purchase sale source rate transport) = Some f <->
  exists p s, purchase = Some p /\ sale = Some s /\ 0 <= quantity /\
    0 <= p /\ p * quantity <= max_int64 /\ 0 <= s /\ s * quantity <= max_int64 /\
    f = economic_figures quantity (p * quantity) (s * quantity) rate transport.
Proof.
  unfold calculateEconomics. destruct purchase as [p|], sale as [s|]; simpl; try naive_solver.
  destruct (multiply p quantity) as [pc []] eqn:Ep; simpl.
  - apply multiply_ok in Ep as (? & ? & ? & ->).
    destruct (multiply s quantity) as [gr []] eqn:Es; simpl.
    + apply multiply_ok in Es as (? & ? & ? & ->). naive_solver.
    + pose proof (proj1 (multiply_false s quantity) ltac:(by rewrite Es)). naive_solver.
  - pose proof (proj1 (multiply_false p quantity) ltac:(by rewrite Ep)). naive_solver.
Qed.

(** * History *)

(** The product and the units a row adds to the weighted average. *)
Definition weight (r : bucket_row) : Z * Z :=
  match bucket_price r with
  | Some p => if weighable r p then (p * b_item_count r, b_item_count r) else (0, 0)
  | None => (0, 0)
  end.

Definition total_of (f : bucket_row -> Z) (rows : list (time * bucket_row)) : Z :=
  foldr (fun tr n => f (snd tr) + n) 0 rows.

Lemma total_of_app f l1 l2 : total_of f (l1 ++ l2) = total_of f l1 + total_of f l2.
Proof. induction l1 as [|x l IH]; simpl; [done|]. rewrite IH. lia. Qed.

Lemma total_of_nonneg f rows : (forall tr, tr ∈ rows -> 0 <= f (snd tr)) -> 0 <= total_of f rows.
Proof.
  induction rows as [|x l IH]; simpl; [done|]. intros Hf.
  pose proof (Hf x ltac:(by left)). pose proof (IH ltac:(intros; apply Hf; by right)). lia.
Qed.

Definition known_prices (rows : list (time * bucket_row)) : list Z :=
  omap (fun tr => bucket_price (snd tr)) rows.

(** The least and the greatest of a list. *)
Definition least (l : list Z) : option Z := foldl (fun a p => min_opt a p) None l.
Definition greatest (l : list Z) : option Z := foldl (fun a p => max_opt a p) None l.

Lemma min_opt_spec a p : exists m, min_opt a p = Some m /\ m <= p /\ (forall q, a = Some q -> m <= q) /\ (m = p \/ a = Some m).
Proof.
  destruct a as [q|]; simpl; [case_if; bool_facts|]; eexists; split_and!; try done; intros; simplify_eq; auto; lia.
Qed.
Lemma max_opt_spec a p : exists m, max_opt a p = Some m /\ p <= m /\ (forall q, a = Some q -> q <= m) /\ (m = p \/ a = Some m).
Proof.
  destruct a as [q|]; simpl; [case_if; bool_facts|]; eexists; split_and!; try done; intros; simplify_eq; auto; lia.
Qed.

Lemma least_spec l m : least l = Some m <-> m ∈ l /\ forall p, p ∈ l -> m <= p.
Proof.
  assert (forall l, match least l with
          | Some m => m ∈ l /\ forall p, p ∈ l -> m <= p | None => l = [] end) as H.
  { clear. intros l. unfold least. induction l as [|x l IH] using rev_ind; [done|]. rewrite foldl_app. simpl.
    destruct (min_opt_spec (foldl (fun a p => min_opt a p) None l) x) as (m & -> & Hx & Hq & Hm).
    split.
    - rewrite elem_of_app, list_elem_of_singleton. destruct Hm as [->|Hm]; [by right|]. rewrite Hm in IH. left. by destruct IH.
    - intros p [Hp|Hp]%elem_of_app; [|apply list_elem_of_singleton in Hp; lia].
      destruct (foldl _ None l) as [q|]; [|subst l; by apply elem_of_nil in Hp].
      specialize (Hq q eq_refl). destruct IH as [_ IH]. specialize (IH p Hp). lia. }
  specialize (H l). destruct (least l) as [q|]; split; try done.
  - by intros [= <-].
  - intros [Hm Hl]. f_equal. destruct H as [Hq Hql]. specialize (Hl q Hq). specialize (Hql m Hm). lia.
  - intros [Hm _]. subst l. by apply elem_of_nil in Hm.
Qed.

Lemma greatest_spec l m : greatest l = Some m <-> m ∈ l /\ forall p, p ∈ l -> p <= m.
Proof.
  assert (forall l, match greatest l with
          | Some m => m ∈ l /\ forall p, p ∈ l -> p <= m | None => l = [] end) as H.
  { clear. intros l. unfold greatest. induction l as [|x l IH] using rev_ind; [done|]. rewrite foldl_app. simpl.
    destruct (max_opt_spec (foldl (fun a p => max_opt a p) None l) x) as (m & -> & Hx & Hq & Hm).
    split.
    - rewrite elem_of_app, list_elem_of_singleton. destruct Hm as [->|Hm]; [by right|]. rewrite Hm in IH. left. by destruct IH.
    - intros p [Hp|Hp]%elem_of_app; [|apply list_elem_of_singleton in Hp; lia].
      destruct (foldl _ None l) as [q|]; [|subst l; by apply elem_of_nil in Hp].
      specialize (Hq q eq_refl). destruct IH as [_ IH]. specialize (IH p Hp). lia. }
  specialize (H l). destruct (greatest l) as [q|]; split; try done.
  - by intros [= <-].
  - intros [Hm Hl]. f_equal. destruct H as [Hq Hql]. specialize (Hl q Hq). specialize (Hql m Hm). lia.
  - intros [Hm _]. subst l. by apply elem_of_nil in Hm.
Qed.

Lemma least_snoc l x : least (l ++ [x]) = min_opt (least l) x.
Proof. unfold least. by rewrite foldl_app. Qed.
Lemma greatest_snoc l x : greatest (l ++ [x]) = max_opt (greatest l) x.
Proof. unfold greatest. by rewrite foldl_app. Qed.

(** What the sums of the loop have to fit. *)
Record summable (rows : list (time * bucket_row)) : Prop := {
  sm_counts : forall tr, tr ∈ rows -> 0 <= b_item_count (snd tr);
  sm_units : total_of b_item_count rows <= max_int64;
  sm_total : total_of (fun r => fst (weight r)) rows <= max_int64;
}.

Lemma weight_bounds r : 0 <= b_item_count r -> 0 <= (weight r).1 /\ 0 <= (weight r).2 <= b_item_count r.
Proof.
  intros Hc. unfold weight. destruct (bucket_price r) as [p|] eqn:E; [|simpl; lia].
  apply positive_price_Some in E as [_ Hp]. case_if; simpl; nia.
Qed.

Lemma weight_weighable r p :
  bucket_price r = Some p -> weighable r p = true -> p * b_item_count r <= max_int64.
Proof.
  intros [_ Hp]%positive_price_Some Hw. unfold weighable in Hw. bool_facts.
  rewrite Z.quot_div_nonneg in H0 by (unfold max_int64; lia).
  pose proof (Z.mul_div_le max_int64 (b_item_count r)). nia.
Qed.

Lemma summable_app l1 l2 : summable (l1 ++ l2) -> summable l1.
Proof.
  intros [Hc Hu Ht]. rewrite total_of_app in Hu, Ht.
  assert (forall tr, tr ∈ l1 -> 0 <= b_item_count tr.2) as Hc1 by (intros; apply Hc; set_solver).
  assert (forall tr, tr ∈ l2 -> 0 <= b_item_count tr.2) as Hc2 by (intros; apply Hc; set_solver).
  pose proof (total_of_nonneg b_item_count l2 Hc2).
  pose proof (total_of_nonneg (fun r => (weight r).1) l2 ltac:(intros tr Htr; by apply weight_bounds, Hc2)).
  split; [done|lia|lia].
Qed.

Definition point_of (tr : time * bucket_row) : HistoryPoint :=
  {| pt_Timestamp := tr.1; pt_ItemCount := b_item_count tr.2;
     pt_AverageUnitPrice := b_average_unit_price tr.2 |}.

(** The state of the loop after some rows. *)
Definition loop_after (historyDays : Z) (rows : list (time * bucket_row)) : history_loop :=
  {| lo_summary :=
       {| su_RangeDays := historyDays; su_BucketCount := Z.of_nat (length rows);
          su_SoldUnits := total_of b_item_count rows; su_WeightedAverage := None;
          su_LowestAverage := least (known_prices rows);
          su_HighestAverage := greatest (known_prices rows);
          su_LastObservedAt := greatest (map (fun tr => b_observed_at tr.2) rows);
          su_Points := map point_of rows |};
     lo_total := total_of (fun r => (weight r).1) rows;
     lo_units := total_of (fun r => (weight r).2) rows |}.

Lemma total_of_le f g rows :
  (forall tr, tr ∈ rows -> f tr.2 <= g tr.2) -> total_of f rows <= total_of g rows.
Proof.
  induction rows as [|x l IH]; simpl; [done|]. intros Hf.
  pose proof (Hf x ltac:(by left)). pose proof (IH ltac:(intros; apply Hf; by right)). lia.
Qed.

Lemma add_bucket_loop historyDays rows :
  summable rows ->
  foldl add_bucket {| lo_summary := empty_summary historyDays; lo_total := 0; lo_units := 0 |} rows
  = loop_after historyDays rows.
Proof.
  induction rows as [|tr rows IH] using rev_ind; [done|]. intros Hs. pose proof (summable_app _ _ Hs) as Hs'.
  rewrite foldl_app, IH by done. simpl. clear IH.
  destruct Hs' as [Hc' Hu' Ht']. destruct Hs as [Hc Hu Ht]. rewrite total_of_app in Hu, Ht. simpl in Hu, Ht.
  pose proof (total_of_nonneg _ _ Hc') as Hn.
  assert (0 <= total_of (fun r => (weight r).1) rows) as Hnt
    by (apply total_of_nonneg; intros x Hx; by apply weight_bounds, Hc').
  assert (0 <= total_of (fun r => (weight r).2) rows <= total_of b_item_count rows) as Hnu.
  { split; [apply total_of_nonneg|apply total_of_le]; intros x Hx; apply weight_bounds; by apply Hc'. }
  assert (0 <= b_item_count tr.2) as Hct by (apply Hc, elem_of_app; right; by left).
  destruct tr as [t r]. simpl in *. unfold loop_after, known_prices.
  rewrite length_app, !map_app, omap_app, !total_of_app. simpl. rewrite greatest_snoc.
  rewrite (wrap64_id (total_of b_item_count rows + b_item_count r)) by (unfold in_int64, min_int64; lia).
  pose proof (weight_weighable r) as Hww. unfold weight in *.
  destruct (bucket_price r) as [p|] eqn:Ep; simpl in *.
  - rewrite least_snoc, greatest_snoc. specialize (Hww p eq_refl).
    apply positive_price_Some in Ep as [_ Hp].
    destruct (weighable r p) eqn:Ew; simpl in *.
    + specialize (Hww eq_refl). rewrite (wrap64_id (p * b_item_count r)) by (unfold in_int64, min_int64; nia).
      rewrite !wrap64_id by (unfold in_int64, min_int64; nia).
      f_equal; [f_equal|..]; lia.
    + f_equal; [f_equal|..]; lia.
  - rewrite !app_nil_r. f_equal; [f_equal|..]; lia.
Qed.

(** The weighted total lies between the extreme prices. *)
Lemma weighted_between rows lo hi :
  (forall tr, tr ∈ rows -> 0 <= b_item_count tr.2) ->
  (forall p, p ∈ known_prices rows -> lo <= p <= hi) ->
  lo * total_of (fun r => (weight r).2) rows <= total_of (fun r => (weight r).1) rows
  <= hi * total_of (fun r => (weight r).2) rows.
Proof.
  induction rows as [|[t r] rows IH]; simpl; [lia|]. intros Hc Hp.
  assert (forall p, bucket_price r = Some p -> lo <= p <= hi) as Hr.
  { intros p Hb. apply Hp. unfold known_prices. simpl. rewrite Hb. by left. }
  specialize (IH ltac:(intros; apply Hc; by right)).
  assert (forall p, p ∈ known_prices rows -> lo <= p <= hi) as Hp'.
  { intros p Hk. apply Hp. unfold known_prices. simpl. destruct (bucket_price r); [by right|done]. }
  specialize (IH Hp'). pose proof (Hc (t, r) ltac:(by left)) as Hcr. simpl in Hcr.
  assert (lo * (weight r).2 <= (weight r).1 <= hi * (weight r).2); [|lia].
  unfold weight. destruct (bucket_price r) as [p|]; [|simpl; lia].
  specialize (Hr p eq_refl). case_if; simpl; nia.
Qed.

(** The summary of a history whose sums fit in 64 bits: it counts the rows
    and the units sold, lists the points in order, and its lowest and highest
    averages are the least and greatest of the known prices; the weighted average
    is the mean price per unit sold, rounded down, and lies between them. *)
Theorem summarize_correct historyDays rows :
  summable rows ->
  let s := summarize historyDays rows in
  su_BucketCount s = Z.of_nat (length rows) /\
  su_SoldUnits s = total_of b_item_count rows /\
  su_Points s = map point_of rows /\
  (forall m, su_LowestAverage s = Some m <->
     m ∈ known_prices rows /\ forall p, p ∈ known_prices rows -> m <= p) /\
  (forall m, su_HighestAverage s = Some m <->
     m ∈ known_prices rows /\ forall p, p ∈ known_prices rows -> p <= m) /\
  (forall a, su_WeightedAverage s = Some a ->
     a = total_of (fun r => (weight r).1) rows / total_of (fun r => (weight r).2) rows /\
     exists lo hi, su_LowestAverage s = Some lo /\ su_HighestAverage s = Some hi /\ lo <= a <= hi) /\
  (su_WeightedAverage s = None <-> total_of (fun r => (weight r).2) rows = 0).
Proof.
  intros Hs s. unfold s, summarize. rewrite add_bucket_loop by done. simpl.
  destruct Hs as [Hc Hu Ht].
  assert (0 <= total_of (fun r => (weight r).1) rows) as Hnt
    by (apply total_of_nonneg; intros x Hx; by apply weight_bounds, Hc).
  assert (0 <= total_of (fun r => (weight r).2) rows) as Hnu
    by (apply total_of_nonneg; intros x Hx; by apply weight_bounds, Hc).
  split_and!; [done..|apply least_spec|apply greatest_spec| |].
  - intros a Ha. destruct (0 <? _) eqn:E; [|done]. injection Ha as <-. bool_facts.
    rewrite Z.quot_div_nonneg by lia. split; [done|].
    assert (known_prices rows <> []) as Hne.
    { intros Hk. pose proof (weighted_between rows 0 0 Hc) as Hb. rewrite Hk in Hb.
      assert (forall p, p ∈ ([] : list Z) -> 0 <= p <= 0) as Hv by (intros p Hp; by apply elem_of_nil in Hp).
      pose proof (weighted_between rows 1 0 Hc) as Hb'. rewrite Hk in Hb'.
      assert (forall p, p ∈ ([] : list Z) -> 1 <= p <= 0) as Hv' by (intros p Hp; by apply elem_of_nil in Hp).
      specialize (Hb Hv). specialize (Hb' Hv'). lia. }
    destruct (least (known_prices rows)) as [lo|] eqn:El; [|exfalso].
    2:{ destruct (known_prices rows) as [|x l] using rev_ind; [done|].
        rewrite least_snoc in El. by destruct (min_opt_spec (least l) x) as (m & Hm & _); rewrite Hm in El. }
    destruct (greatest (known_prices rows)) as [hi|] eqn:Eh; [|exfalso].
    2:{ destruct (known_prices rows) as [|x l] using rev_ind; [done|].
        rewrite greatest_snoc in Eh. by destruct (max_opt_spec (greatest l) x) as (m & Hm & _); rewrite Hm in Eh. }
    exists lo, hi. split_and!; [done..| |]; apply least_spec in El as [_ El]; apply greatest_spec in Eh as [_ Eh];
      pose proof (weighted_between rows lo hi Hc ltac:(auto)) as [Hlo Hhi].
    + apply Z.div_le_lower_bound; lia.
    + apply Z.div_le_upper_bound; lia.
  - case_if; bool_facts; split; try done; lia.
Qed.

(** * The analysis *)
Section analysis.
Context `{Unicode} (catalog : Catalog).

Lemma check_analysis_ok request days rate server location :
  check_analysis catalog request = Ok (days, rate, server, location) ->
  bad_rate rate = false /\ 1 <= days <= maximumHistoryDays /\ 1 <= an_Quantity request <= 1000000 /\
  0 <= an_TransportCost request /\
  (forall p, an_SaleUnitPriceOverride request = Some p -> 0 < p) /\
  serverID (an_Server request) = Some server /\
  exists m, ResolveEnabled (Some catalog) [an_PurchaseMarketKey request] = Ok ([location], m).
Proof.
  unfold check_analysis. intros Hc.
  do 8 (match type of Hc with (if ?b then Err _ else _) = _ => destruct b eqn:?; [discriminate|] end).
  destruct (ResolveEnabled _ _) as [[[|l [|]] m]|] eqn:Er; try discriminate.
  inv_ok. simplify_eq. split_and!; try done.
  - bool_facts. lia.
  - bool_facts. lia.
  - bool_facts. lia.
  - bool_facts. lia.
  - bool_facts. lia.
  - intros p Hp. rewrite Hp in *. bool_facts. lia.
  - by exists m.
Qed.

(** The row of a location in the tables. *)
Definition row_at (d : MarketDB) (server location : Z) (request : AnalysisRequest) : option current_row :=
  mk_prices d !! (server, location, an_ItemIdentifier request, an_Quality request).

Lemma loadPrices_rows c server location request d purchase blackMarket :
  location <> blackMarketLocation ->
  loadPrices c server location request d = Ok (purchase, blackMarket) ->
  sn_UnitPrice purchase = (row_at d server location request ≫= fun row => positive_price (c_sell_price_min row)) /\
  sn_UnitPrice blackMarket =
    (row_at d server blackMarketLocation request ≫= fun row => positive_price (c_buy_price_max row)).
Proof.
  intros Hne. unfold loadPrices. intros Hl. inv_ok. revert Hl. unfold price_rows, row_at.
  assert (dedup [location; blackMarketLocation] = [location; blackMarketLocation]) as ->.
  { apply dedup_NoDup. apply NoDup_cons. split; [by rewrite list_elem_of_singleton|apply NoDup_singleton]. }
  unfold blackMarketLocation in *. cbn [omap list_omap].
  destruct (mk_prices d !! (server, location, _, _)) as [rp|];
    destruct (mk_prices d !! (server, 3003, _, _)) as [rb|];
    cbn [fmap option_fmap option_map foldl take_snapshot no_snapshot]; unfold blackMarketLocation;
    rewrite ?Z.eqb_refl, ?(proj2 (Z.eqb_neq location 3003) Hne),
      ?(proj2 (Z.eqb_neq 3003 location) (not_eq_sym Hne)); intros [= <- <-]; done.
Qed.

(** C32. An answered analysis: the purchase price is the positive sell price of
    the chosen market and the sale price the override, or else the positive buy
    price of the black market; the figures are given exactly when both prices are
    known and their products with the quantity fit in 64 bits; and when these stay
    in the range in which a [float64] is exact, the tax is between nothing and
    the revenue, and the net revenue and the profit are what remains after tax,
    transport and purchase, without overflow. *)
Theorem Analyze_correct c r d resp :
  Analyze catalog c r d = Ok resp ->
  let request := normalize_analysis r in
  let e := ar_Economics resp in
  let quantity := an_Quantity request in
  exists days rate server location,
    check_analysis catalog request = Ok (days, rate, server, location) /\
    ec_SaleUnitPrice e = match an_SaleUnitPriceOverride request with
                         | Some p => Some p | None => sn_UnitPrice (ar_BlackMarket resp) end /\
    (location <> blackMarketLocation ->
     ec_PurchaseUnitPrice e =
       (row_at d server location request ≫= fun row => positive_price (c_sell_price_min row)) /\
     sn_UnitPrice (ar_BlackMarket resp) =
       (row_at d server blackMarketLocation request ≫= fun row => positive_price (c_buy_price_max row))) /\
    (forall f, ec_Ready e = Some f <->
       exists p s, ec_PurchaseUnitPrice e = Some p /\ ec_SaleUnitPrice e = Some s /\
         0 <= p /\ p * quantity <= max_int64 /\ 0 <= s /\ s * quantity <= max_int64 /\
         f = economic_figures quantity (p * quantity) (s * quantity) rate (an_TransportCost request)) /\
    (forall f p s, ec_Ready e = Some f -> ec_PurchaseUnitPrice e = Some p -> ec_SaleUnitPrice e = Some s ->
       valid_binary prec64 emax64 rate = true -> s * quantity < 2 ^ 53 ->
       p * quantity + an_TransportCost request <= max_int64 ->
       0 <= ef_SalesTax f <= s * quantity /\
       ef_NetRevenue f = s * quantity - ef_SalesTax f - an_TransportCost request /\
       ef_Profit f = ef_NetRevenue f - p * quantity /\
       ef_ProfitPerUnit f = Z.quot (ef_Profit f) quantity).
Proof.
  unfold Analyze. intros Ha. cbv zeta in *.
  destruct (check_analysis catalog (normalize_analysis r)) as [[[[days rate] server] location]|] eqn:Hc; [|discriminate].
  simpl in Ha.
  destruct (loadPrices c server location (normalize_analysis r) d) as [[purchase blackMarket]|] eqn:Hl; [|discriminate].
  simpl in Ha. destruct (loadHistory _ _ _ _ _) as [history|]; [|discriminate]. simpl in Ha.
  destruct (check_analysis_ok _ _ _ _ _ Hc) as (Hrate & _ & Hq & Ht & _).
  destruct (sale_price blackMarket _) as [sale source] eqn:Hs. injection Ha as <-. simpl.
  exists days, rate, server, location.
  match goal with |- context [calculateEconomics ?q ?p ?s ?src ?rt ?t] =>
    pose proof (calculateEconomics_ready q p s src rt t) as Hready;
    assert (ec_PurchaseUnitPrice (calculateEconomics q p s src rt t) = p /\
            ec_SaleUnitPrice (calculateEconomics q p s src rt t) = s) as [Hep Hes]
  end.
  { unfold calculateEconomics. destruct (sn_UnitPrice purchase), sale; try done.
    destruct (multiply _ _) as [? []]; try done. simpl. by destruct (multiply _ _) as [? []]. }
  rewrite Hep, Hes. split_and!.
  - done.
  - unfold sale_price in Hs. destruct (an_SaleUnitPriceOverride _), (sn_UnitPrice blackMarket); by injection Hs as <- <-.
  - intros Hne. by apply (loadPrices_rows c server location _ d).
  - intros f. rewrite Hready. split.
    + intros (p & s & ? & ? & ? & ? & ? & ? & ? & ->). by exists p, s.
    + intros (p & s & ? & ? & ? & ? & ? & ? & ->). exists p, s. split_and!; try done. lia.
  - intros f p s Hf Hp Hsl Hv Hg Hct. apply Hready in Hf as (p' & s' & Hp' & Hs' & ? & ? & ? & ? & ? & ->).
    rewrite Hp' in Hp. injection Hp as <-. rewrite Hs' in Hsl. injection Hsl as <-.
    apply economic_figures_exact; first [done|lia|nia].
Qed.
End analysis.

(** * Examples *)
#[local] Existing Instance plain_unicode.

Definition market_row (sell buy : Z) (at_ : time) : current_row :=
  {| c_sell_price_min := Some sell; c_sell_price_min_at := Some at_; c_buy_price_max := Some buy;
     c_buy_price_max_at := Some at_; c_updated_at := at_ |}.

Definition sample_market : MarketDB :=
  {| mk_prices := {[(1, 4002, "T4_BAG", 1) := market_row 1000 900 (90000 * second);
                    (1, 3003, "T4_BAG", 1) := market_row 1600 1500 (91000 * second)]};
     mk_buckets := {[(1, 3003, "T4_BAG", 1, 86400 * second) :=
                       {| b_item_count := 3; b_average_unit_price := Some 1400; b_observed_at := 5; b_updated_at := 6 |};
                     (1, 3003, "T4_BAG", 1, 90000 * second) :=
                       {| b_item_count := 1; b_average_unit_price := Some 1503; b_observed_at := 7; b_updated_at := 7 |}]} |}.

Definition analysis_at (now : time) : analysis_call :=
  {| an_now_purchase := now; an_now_black_market := now; an_now_history := now; an_now_answer := now;
     an_prices_fail := false; an_history_fails := false |}.

Definition analysis_body (transport : string) : HttpRequest :=
  {| hr_Method := "POST"; hr_TLS := true; hr_Header := fun _ => EmptyString;
     hr_Query := fun _ => EmptyString; hr_PathValue := fun _ => EmptyString;
     hr_Body := {| st_bytes := quoted ("{'server':'west','purchaseMarketKey':'fort_sterling','itemIdentifier':'t4_bag','quality':1,'quantity':10,'salesTaxRate':0.04,'transportCost':" +:+ transport +:+ "}");
                   st_end := AtEOF |};
     hr_Identity := None; hr_CorrelationID := EmptyString |}.

(** The figures of an answer, as integers. *)
Definition answer_figures (r : Response (market_body AnalysisResponse)) : option (list Z) :=
  match rs_Body r with
  | MarketAnswer a =>
      (fun f => [ef_PurchaseCost f; ef_GrossRevenue f; ef_SalesTax f; ef_NetRevenue f; ef_Profit f;
                 ef_ProfitPerUnit f; ef_BreakEvenUnitPrice f]) <$> ec_Ready (ar_Economics a)
  | _ => None
  end.

Example analysis_figures :
  answer_figures (AnalyzeHandler NewDefault 32768 (analysis_at (100000 * second)) sample_market (analysis_body "500"))
  = Some [10000; 15000; 600; 13900; 3900; 390; 1094].
Proof. vm_compute. reflexivity. Qed.

(** A transport cost is accepted up to the largest integer, and the sum with
    the purchase cost overflows: the break-even price that is answered is
    negative. *)
Theorem transport_cost_overflows :
  exists figures breakEven,
    answer_figures (AnalyzeHandler NewDefault 32768 (analysis_at (100000 * second)) sample_market
                      (analysis_body "9223372036854775807")) = Some (figures ++ [breakEven]) /\
    breakEven < 0.
Proof.
  exists [10000; 15000; 600; 14400 - max_int64; 4400 - max_int64; Z.quot (4400 - max_int64) 10], (-960767920505704832).
  split; [vm_compute; reflexivity|done].
Qed.

(** Nothing bounds the sum of the products either. *)
Example weighted_average_overflows :
  let row := (0, {| b_item_count := 1; b_average_unit_price := Some (2 ^ 62); b_observed_at := 0; b_updated_at := 0 |}) in
  su_WeightedAverage (summarize 28 [row; row]) = Some (- 2 ^ 62).
Proof. vm_compute. reflexivity. Qed.

Lemma summarize_correct_witness :
  let rows := item_history 1 (normalize_analysis {| an_Server := "west"; an_PurchaseMarketKey := "fort_sterling";
      an_ItemIdentifier := "T4_BAG"; an_Quality := 1; an_Quantity := 10; an_SaleUnitPriceOverride := None;
      an_SalesTaxRate := None; an_TransportCost := 0; an_HistoryDays := 0 |})
      (history_from (100000 * second) 28) sample_market in
  su_BucketCount (summarize 28 rows) = 2 /\ su_WeightedAverage (summarize 28 rows) = Some 1425.
Proof.
  intros rows. assert (summable rows) as Hs.
  { split; [|vm_compute; discriminate..]. intros tr Htr. apply list_elem_of_In in Htr. vm_compute in Htr.
    destruct Htr as [<-|[<-|[]]]; vm_compute; discriminate. }
  split; [|vm_compute; reflexivity].
  rewrite (proj1 (summarize_correct 28 rows Hs)). vm_compute. reflexivity.
Defined.

Lemma Analyze_correct_witness :
  let r := {| an_Server := "west"; an_PurchaseMarketKey := "fort_sterling"; an_ItemIdentifier := " t4_bag ";
              an_Quality := 1; an_Quantity := 10; an_SaleUnitPriceOverride := None; an_SalesTaxRate := None;
              an_TransportCost := 500; an_HistoryDays := 0 |} in
  exists resp f, Analyze NewDefault (analysis_at (100000 * second)) r sample_market = Ok resp /\
    ec_Ready (ar_Economics resp) = Some f /\ 0 <= ef_SalesTax f <= 15000 /\ ef_Profit f = 3900.
Proof.
  intros r.
  destruct (Analyze NewDefault (analysis_at (100000 * second)) r sample_market) as [resp|] eqn:E; [|by vm_compute in E].
  destruct (Analyze_correct NewDefault _ r _ _ E) as (days & rate & server & location & Hc & _ & _ & _ & Hf).
  vm_compute in Hc. injection Hc as <- <- <- <-.
  exists resp. destruct (ec_Ready (ar_Economics resp)) as [f|] eqn:Ef; [|vm_compute in E; injection E as <-; discriminate].
  exists f. split; [done|]. split; [done|].
  destruct (Hf f 1000 1500 eq_refl) as (Ht & _).
  - vm_compute in E. injection E as <-. reflexivity.
  - vm_compute in E. injection E as <-. reflexivity.
  - reflexivity.
  - reflexivity.
  - vm_compute. discriminate.
  - split; [exact Ht|]. vm_compute in E. injection E as <-. injection Ef as <-. reflexivity.
Defined.
