(* ===== verification/Opportunities.v ===== *)
(** The search for profitable trades to the black market:
    [internal/blackmarket/opportunities.go], [opportunities_helpers.go] and
    [opportunities_types.go]. *)
From S2P Require Import Prelude GoLists GoBase Float64 Dates Domain Catalog PriceRepo HistoryRepo Json Http BlackMarket.
Local Open Scope Z_scope.

Definition defaultOpportunityLimit : Z := 100.
Definition maximumOpportunityLimit : Z := 500.
Definition maximumOpportunityOffset : Z := 10000.
Definition defaultMaximumCityAgeMinutes : Z := 30.
Definition defaultMaximumBlackMarketAgeMinutes : Z := 20.
Definition maximumOpportunityAgeMinutes : Z := 10080.
Definition maximumOpportunityTransportCost : Z := 1000000000000.
Definition maximumOpportunityMinimumProfit : Z := 1000000000000.
Definition maximumOpportunityReturnOnCostPercent : float64 := Eval vm_compute in of_Z 100000.
Definition caerleonLocation : Z := 3005.

Definition defaultOpportunityMarkets : list string :=
  ["bridgewatch"; "martlock"; "lymhurst"; "fort_sterling"; "thetford"; "caerleon"].
Definition defaultOpportunityTiers : list Z := [4; 5; 6; 7; 8].
Definition defaultOpportunityEnchantments : list Z := [0; 1; 2; 3; 4].
Definition defaultOpportunityQualities : list Z := [1; 2; 3; 4; 5].
Definition defaultOpportunityCategories : list string := ["weapon"; "armor"; "offhand"; "accessory"].

(** * Data *)

Record OpportunitiesRequest := {
  oq_Server : Server;
  oq_PurchaseMarketKeys : list string;
  oq_Tiers : list Z;
  oq_Enchantments : list Z;
  oq_Qualities : list Z;
  oq_Categories : list string;
  oq_MinimumProfit : Z;
  oq_MinimumReturnOnCostPercent : float64;
  oq_MaximumCityAgeMinutes : Z;
  oq_MaximumBlackMarketAgeMinutes : Z;
  oq_SalesTaxRate : option float64;
  oq_TransportCostPerUnit : Z;
  oq_Sort : string;
  oq_Limit : Z;
  oq_Offset : Z;
}.

Record normalizedOpportunitiesRequest := {
  nq_server : Server;
  nq_serverID : Z;
  nq_purchaseMarketKeys : list string;
  nq_purchaseLocationIDs : list Z;
  nq_marketKeysByLocation : gmap Z string;
  nq_tiers : list Z;
  nq_enchantments : list Z;
  nq_qualities : list Z;
  nq_categories : list string;
  nq_minimumProfit : Z;
  nq_minimumReturnOnCostPercent : float64;
  nq_maximumCityAgeMinutes : Z;
  nq_maximumBlackMarketAgeMinutes : Z;
  nq_salesTaxRate : float64;
  nq_transportCostPerUnit : Z;
  nq_sort : string;
  nq_limit : Z;
  nq_offset : Z;
  nq_includeWeapon : bool;
  nq_includeArmor : bool;
  nq_includeOffhand : bool;
  nq_includeAccessory : bool;
}.

(** A row of the query, without [total_matching]. *)
Record opportunityRow := {
  ow_locationID : Z;
  ow_itemIdentifier : string;
  ow_purchaseQuality : Z;
  ow_purchaseUnitPrice : Z;
  ow_purchasePriceDate : time;
  ow_purchaseBuyUnitPrice : option Z;
  ow_purchaseHistoryObservations7D : Z;
  ow_purchaseHistoryVolume7D : Z;
  ow_purchaseMedianPrice7D : option Z;
  ow_blackMarketQuality : Z;
  ow_blackMarketBuyUnitPrice : Z;
  ow_blackMarketBuyPriceDate : time;
  ow_blackMarketHistoryObservations7D : Z;
  ow_blackMarketHistoryVolume7D : Z;
  ow_blackMarketMedianPrice7D : option Z;
  ow_blackMarketSellUnitPrice : option Z;
  ow_blackMarketSellPriceDate : option time;
  ow_estimatedSalesTax : Z;
  ow_netUnitRevenue : Z;
  ow_profit : Z;
  ow_marginPercent : float64;
  ow_returnOnCostPercent : float64;
  ow_breakEvenUnitPrice : Z;
  ow_caerleonPurchaseUnitPrice : option Z;
  ow_caerleonPurchaseQuality : option Z;
  ow_caerleonPurchasePriceDate : option time;
  ow_caerleonProfit : option Z;
}.

Record OpportunityCompetition := {
  oc_Available : bool;
  oc_PurchaseUnitPrice : option Z;
  oc_PurchaseQuality : option Z;
  oc_PurchasePriceDate : option time;
  oc_AgeMinutes : option Z;
  oc_Profit : option Z;
  oc_CanFillProfitably : bool;
}.

(** An [Opportunity]: the row it is made of, and what is added to it. *)
Record Opportunity := {
  op_row : opportunityRow;
  op_ID : string;
  op_Tier : Z;
  op_Enchantment : Z;
  op_Category : string;
  op_PurchaseMarketKey : string;
  op_PurchaseAgeMinutes : Z;
  op_BlackMarketAgeMinutes : Z;
  op_BlackMarketOrderDifference : option Z;
  op_TransportCostPerUnit : Z;
  op_CaerleonCompetition : OpportunityCompetition;
  op_Risk : string;
  op_RiskReasons : list string;
}.

Record OpportunityCoverage := {
  cv_BlackMarketRows : Z;
  cv_SourceMarketRows : Z;
  cv_LatestBlackMarketAt : option time;
  cv_LatestSourceMarketAt : option time;
  cv_SelectedMarketKeys : list string;
}.

Record OpportunitiesResponse := {
  or_RequestedAt : time;
  or_Server : Server;
  or_TotalMatching : Z;
  or_Returned : Z;
  or_Limit : Z;
  or_Offset : Z;
  or_Sort : string;
  or_Coverage : OpportunityCoverage;
  or_Data : list Opportunity;
  or_Warnings : list string;
}.

(** * Items *)

(** The rest of an item after [^T[4-8]_], and the tier. *)
Definition tiered (item : string) : option (Z * string) :=
  match item with
  | String t (String d (String u body)) =>
      if bool_decide (t = "T"%char) && in_range 52 56 d && bool_decide (u = "_"%char)
      then Some (byte_val d - 48, body) else None
  | _ => None
  end.

Definition sql_tier (item : string) : Z := match tiered item with Some (d, _) => d | None => 0 end.

(** [@[0-4]$]. *)
Fixpoint sql_enchantment (item : string) : Z :=
  match item with
  | String a (String d EmptyString) =>
      if bool_decide (a = "@"%char) && in_range 48 52 d then byte_val d - 48 else 0
  | String _ item' => sql_enchantment item'
  | EmptyString => 0
  end.

Definition starts_with_any (ps : list string) (s : string) : bool := existsb (HasPrefix s) ps.

Definition sql_category (q : normalizedOpportunitiesRequest) (item : string) : bool :=
  match tiered item with
  | Some (_, body) =>
      (nq_includeWeapon q && starts_with_any ["MAIN_"; "2H_"] body)
      || (nq_includeArmor q && starts_with_any ["HEAD_"; "ARMOR_"; "SHOES_"] body)
      || (nq_includeOffhand q && starts_with_any ["OFF_"] body)
      || (nq_includeAccessory q && starts_with_any ["CAPE_"; "BAG_"] body)
  | None => false
  end.

(** The conditions every part of the query puts on an item. *)
Definition sql_item (q : normalizedOpportunitiesRequest) (item : string) : bool :=
  bool_decide (sql_tier item ∈ nq_tiers q) && bool_decide (sql_enchantment item ∈ nq_enchantments q)
  && sql_category q item.

(** [strings.LastIndexByte(s, '@')], and the bytes of [opportunityTierAndEnchantment]. *)
Fixpoint last_at (s : string) : option (string) :=
  match s with
  | EmptyString => None
  | String c s' =>
      match last_at s' with
      | Some rest => Some rest
      | None => if bool_decide (c = "@"%char) then Some s' else None
      end
  end.

Definition opportunityTierAndEnchantment (item : string) : Z * Z :=
  (match item with
   | String t (String d _) =>
       if bool_decide (t = "T"%char) && in_range 48 57 d then byte_val d - 48 else 0
   | _ => 0
   end,
   match last_at item with
   | Some (String d EmptyString) => if in_range 48 52 d then byte_val d - 48 else 0
   | _ => 0
   end).

(** What follows the first [_]. *)
Fixpoint after_underscore (s : string) : option string :=
  match s with
  | EmptyString => None
  | String c s' => if bool_decide (c = "_"%char) then Some s' else after_underscore s'
  end.

Definition category_of_body (body : string) : string :=
  if starts_with_any ["MAIN_"; "2H_"] body then "weapon"
  else if starts_with_any ["HEAD_"; "ARMOR_"; "SHOES_"] body then "armor"
  else if starts_with_any ["OFF_"] body then "offhand"
  else if starts_with_any ["CAPE_"; "BAG"] body then "accessory"
  else EmptyString.

Section opportunities.
Context `{Unicode} (catalog : Catalog) (median : list Z -> Z).

Definition opportunityCategory (item : string) : string :=
  match after_underscore (ToUpper item) with
  | Some body => if is_empty body then EmptyString else category_of_body body
  | None => EmptyString
  end.

(** * Requests *)

Definition normalizeUniqueStrings (values : list string) : list string :=
  dedup (List.filter (fun key => negb (is_empty key)) (map NormalizeKey values)).

Definition unsupported_value (field_ : string) : analysis_error :=
  Invalid (field_ +:+ " contains an unsupported value").

Definition normalizeInt16Filter (values defaults : list Z) (minimum maximum : Z) (field_ : string)
    : result analysis_error (list Z) :=
  if bool_decide (values = []) then Ok defaults else
  fail_if existsb (fun v => (v <? minimum) || (maximum <? v)) values with unsupported_value field_ else
  Ok (slice_stable Z.ltb (dedup values)).

(** The categories, sorted, and the four flags. *)
Definition normalizeOpportunityCategories (values : list string)
    : result analysis_error (list string * bool * bool * bool * bool) :=
  let values := if bool_decide (values = []) then defaultOpportunityCategories else values in
  let categories := normalizeUniqueStrings values in
  fail_if bool_decide (categories = []) || (4 <? Z.of_nat (length categories))
    with Invalid "categories must contain between 1 and 4 values" else
  fail_if existsb (fun c => negb (bool_decide (c ∈ defaultOpportunityCategories))) categories
    with unsupported_value "categories" else
  Ok (slice_stable str_ltb categories,
      bool_decide ("weapon" ∈ categories), bool_decide ("armor" ∈ categories),
      bool_decide ("offhand" ∈ categories), bool_decide ("accessory" ∈ categories)).

Definition or_default (value dflt : Z) : Z := if value =? 0 then dflt else value.
Definition outside (lo hi v : Z) : bool := (v <? lo) || (hi <? v).

Definition bad_return (f : float64) : bool :=
  IsNaN f || IsInf f || f_ltb f f_zero || f_ltb maximumOpportunityReturnOnCostPercent f.

Definition normalizeOpportunitiesRequest (r : OpportunitiesRequest)
    : result analysis_error normalizedOpportunitiesRequest :=
  fail_if negb (supported_server (oq_Server r)) with Invalid "server must be west, east or europe" else
  let! server := of_option InvalidServerID (serverID (oq_Server r)) in
  let marketKeys := normalizeUniqueStrings
    (if bool_decide (oq_PurchaseMarketKeys r = []) then defaultOpportunityMarkets
     else oq_PurchaseMarketKeys r) in
  fail_if bool_decide (marketKeys = []) || (7 <? Z.of_nat (length marketKeys))
    with Invalid "purchaseMarketKeys must contain between 1 and 7 markets" else
  let! (locations, keysByLocation) :=
    rmap_err InvalidMarkets (ResolveEnabled (Some catalog) marketKeys) in
  let! tiers := normalizeInt16Filter (oq_Tiers r) defaultOpportunityTiers 4 8 "tiers" in
  let! enchantments :=
    normalizeInt16Filter (oq_Enchantments r) defaultOpportunityEnchantments 0 4 "enchantments" in
  let! qualities := normalizeInt16Filter (oq_Qualities r) defaultOpportunityQualities 1 5 "qualities" in
  let! (categories, weapon, armor, offhand, accessory) :=
    normalizeOpportunityCategories (oq_Categories r) in
  fail_if outside 0 maximumOpportunityMinimumProfit (oq_MinimumProfit r)
    with Invalid "minimumProfit must be between 0 and 1000000000000" else
  fail_if bad_return (oq_MinimumReturnOnCostPercent r)
    with Invalid "minimumReturnOnCostPercent must be between 0 and 100000" else
  let cityAge := or_default (oq_MaximumCityAgeMinutes r) defaultMaximumCityAgeMinutes in
  let blackMarketAge :=
    or_default (oq_MaximumBlackMarketAgeMinutes r) defaultMaximumBlackMarketAgeMinutes in
  fail_if outside 1 maximumOpportunityAgeMinutes cityAge
    with Invalid "maximumCityAgeMinutes must be between 1 and 10080" else
  fail_if outside 1 maximumOpportunityAgeMinutes blackMarketAge
    with Invalid "maximumBlackMarketAgeMinutes must be between 1 and 10080" else
  let taxRate := default defaultSalesTaxRate (oq_SalesTaxRate r) in
  fail_if bad_rate taxRate with Invalid "salesTaxRate must be at least 0 and below 1" else
  fail_if outside 0 maximumOpportunityTransportCost (oq_TransportCostPerUnit r)
    with Invalid "transportCostPerUnit must be between 0 and 1000000000000" else
  let sortKey := ToLower (TrimSpace (oq_Sort r)) in
  let sortKey := if is_empty sortKey then "profit" else sortKey in
  fail_if negb (bool_decide (sortKey ∈ ["profit"; "roi"; "freshness"]))
    with Invalid "sort must be profit, roi or freshness" else
  let limit := or_default (oq_Limit r) defaultOpportunityLimit in
  fail_if outside 1 maximumOpportunityLimit limit with Invalid "limit must be between 1 and 500" else
  fail_if outside 0 maximumOpportunityOffset (oq_Offset r)
    with Invalid "offset must be between 0 and 10000" else
  Ok {| nq_server := oq_Server r; nq_serverID := server;
        nq_purchaseMarketKeys := map (fun l => default EmptyString (keysByLocation !! l)) locations;
        nq_purchaseLocationIDs := locations; nq_marketKeysByLocation := keysByLocation;
        nq_tiers := tiers; nq_enchantments := enchantments; nq_qualities := qualities;
        nq_categories := categories; nq_minimumProfit := oq_MinimumProfit r;
        nq_minimumReturnOnCostPercent := oq_MinimumReturnOnCostPercent r;
        nq_maximumCityAgeMinutes := cityAge; nq_maximumBlackMarketAgeMinutes := blackMarketAge;
        nq_salesTaxRate := taxRate; nq_transportCostPerUnit := oq_TransportCostPerUnit r;
        nq_sort := sortKey; nq_limit := limit; nq_offset := oq_Offset r;
        nq_includeWeapon := weapon; nq_includeArmor := armor; nq_includeOffhand := offhand;
        nq_includeAccessory := accessory |}.

(** * The query *)

(** What the database refuses to compute: a [bigint] out of range. *)
Definition bigint (z : Z) : option Z := if (min_int64 <=? z) && (z <=? max_int64) then Some z else None.
(** [f::bigint] of an integral double. *)
Definition float_bigint (f : option Z) : option Z := f ≫= bigint.

(** The rows of [history_stats] for one key: the count, the volume and the median
    of its buckets of the last seven days. *)
Record history_stats := { hs7_observations : Z; hs7_volume : Z; hs7_median : option Z }.

Definition stats_rows (pg_now : time) (d : MarketDB) (k : price_key) : list bucket_row :=
  omap (fun kr : bucket_key * bucket_row =>
          if bool_decide (fst (fst kr) = k) && (pg_now - seven_days <=? snd (fst kr)) then Some (snd kr) else None)
    (map_to_list (mk_buckets d)).

Definition stats_of (pg_now : time) (d : MarketDB) (k : price_key) : option history_stats :=
  let rows := stats_rows pg_now d k in
  let prices := omap b_average_unit_price rows in
  volume ← bigint (foldr (fun r n => b_item_count r + n) 0 rows);
  Some {| hs7_observations := Z.of_nat (length rows); hs7_volume := volume;
          hs7_median := if bool_decide (prices = []) then None else Some (median prices) |}.

(** The entries of [current_market_prices] of the server that a condition on the
    location, the item, the quality and the row selects. *)
Definition market_rows (d : MarketDB) (server : Z) (p : Z -> string -> Z -> current_row -> bool)
    : list (Z * string * Z * current_row) :=
  omap (fun kr : price_key * current_row =>
          let '(s, l, i, q) := fst kr in
          if (s =? server) && p l i q (snd kr) then Some (l, i, q, snd kr) else None)
    (map_to_list (mk_prices d)).

Definition observed_since (price : option Z) (at_ : option time) (cutoff : time) : bool :=
  match price, at_ with Some p, Some t => (0 <? p) && (pg_time cutoff <=? t) | _, _ => false end.

Definition minutes_before (now : time) (minutes : Z) : time := now - minutes * minute.

(** [source_market] and [black_market]. *)
Definition is_source (q : normalizedOpportunitiesRequest) (now : time) (l : Z) (i : string) (quality : Z)
    (r : current_row) : bool :=
  bool_decide (l ∈ nq_purchaseLocationIDs q)
  && observed_since (c_sell_price_min r) (c_sell_price_min_at r)
       (minutes_before now (nq_maximumCityAgeMinutes q))
  && sql_item q i && bool_decide (quality ∈ nq_qualities q).

Definition is_black_market (q : normalizedOpportunitiesRequest) (now : time) (l : Z) (i : string)
    (quality : Z) (r : current_row) : bool :=
  (l =? blackMarketLocation)
  && observed_since (c_buy_price_max r) (c_buy_price_max_at r)
       (minutes_before now (nq_maximumBlackMarketAgeMinutes q))
  && sql_item q i.

(** The lateral join: the cheapest offer of Caerleon that fills the order. *)
Definition caerleon_less : Z * current_row -> Z * current_row -> bool :=
  then_less (fun a b => default 0 (c_sell_price_min (snd a)) <? default 0 (c_sell_price_min (snd b)))
    (fun a b => fst a <? fst b).

Definition caerleon_offer (d : MarketDB) (server : Z) (now : time) (item : string) (quality : Z)
    : option (Z * current_row) :=
  head (slice_stable caerleon_less
    (map (fun r : Z * string * Z * current_row => let '(_, _, q, row) := r in (q, row))
       (market_rows d server (fun l i q r =>
          (l =? caerleonLocation) && bool_decide (i = item) && (quality <=? q)
          && observed_since (c_sell_price_min r) (c_sell_price_min_at r) (now - 7 * 24 * hour))))).

(** [round(price::double precision * rate)::bigint]. *)
Definition sales_tax (rate : float64) (price : Z) : option Z :=
  float_bigint (integral round_even_of (f_mul (of_Z price) rate)).

(** [buy - tax - sell - transport], each step within [bigint]. *)
Definition profit_of (buy tax sell transport : Z) : option Z :=
  a ← bigint (buy - tax); b ← bigint (a - sell); bigint (b - transport).

(** One row of [candidate], when all its columns can be computed. *)
Definition candidate (q : normalizedOpportunitiesRequest) (now pg_now : time) (d : MarketDB)
    (s : Z * string * Z * current_row) (bm : Z * string * Z * current_row) : option opportunityRow :=
  let '(location, item, quality, source) := s in
  let '(_, _, bmQuality, order) := bm in
  let server := nq_serverID q in
  let transport := nq_transportCostPerUnit q in
  sell ← c_sell_price_min source;
  sellAt ← c_sell_price_min_at source;
  buy ← c_buy_price_max order;
  buyAt ← c_buy_price_max_at order;
  sourceStats ← stats_of pg_now d (server, location, item, quality);
  orderStats ← stats_of pg_now d (server, blackMarketLocation, item, bmQuality);
  tax ← sales_tax (nq_salesTaxRate q) buy;
  net ← bigint (buy - tax);
  profit ← profit_of buy tax sell transport;
  cost ← bigint (sell + transport);
  breakEven ← float_bigint (integral ceil_of (f_div (of_Z cost) (f_sub (of_Z 1) (nq_salesTaxRate q))));
  let offer := caerleon_offer d server now item bmQuality in
  let offerPrice := offer ≫= fun o => c_sell_price_min (snd o) in
  caerleonProfit ← match offerPrice with
                   | Some price => Some <$> profit_of buy tax price transport
                   | None => Some None
                   end;
  Some {| ow_locationID := location; ow_itemIdentifier := item; ow_purchaseQuality := quality;
          ow_purchaseUnitPrice := sell; ow_purchasePriceDate := sellAt;
          ow_purchaseBuyUnitPrice := c_buy_price_max source;
          ow_purchaseHistoryObservations7D := hs7_observations sourceStats;
          ow_purchaseHistoryVolume7D := hs7_volume sourceStats;
          ow_purchaseMedianPrice7D := hs7_median sourceStats;
          ow_blackMarketQuality := bmQuality; ow_blackMarketBuyUnitPrice := buy;
          ow_blackMarketBuyPriceDate := buyAt;
          ow_blackMarketHistoryObservations7D := hs7_observations orderStats;
          ow_blackMarketHistoryVolume7D := hs7_volume orderStats;
          ow_blackMarketMedianPrice7D := hs7_median orderStats;
          ow_blackMarketSellUnitPrice := c_sell_price_min order;
          ow_blackMarketSellPriceDate := c_sell_price_min_at order;
          ow_estimatedSalesTax := tax; ow_netUnitRevenue := net; ow_profit := profit;
          ow_marginPercent := if 0 <? buy then percent profit buy else f_zero;
          ow_returnOnCostPercent := if 0 <? cost then percent profit cost else f_zero;
          ow_breakEvenUnitPrice := breakEven;
          ow_caerleonPurchaseUnitPrice := offerPrice;
          ow_caerleonPurchaseQuality := fst <$> offer;
          ow_caerleonPurchasePriceDate := offer ≫= fun o => c_sell_price_min_at (snd o);
          ow_caerleonProfit := caerleonProfit |}.

(** The join of the two: the same item, of at least the quality of the order. *)
Definition joins (s bm : Z * string * Z * current_row) : bool :=
  let '(_, i, quality, _) := s in let '(_, i', bmQuality, _) := bm in
  bool_decide (i' = i) && (bmQuality <=? quality).

(** [where profit >= $17 and return_on_cost_percent >= $18], of a computed row... *)
Definition eligible (q : normalizedOpportunitiesRequest) (r : opportunityRow) : bool :=
  (nq_minimumProfit q <=? ow_profit r)
  && f_leb (nq_minimumReturnOnCostPercent q) (ow_returnOnCostPercent r).

(** ... and as it is decided, from left to right and before the other columns of the row
    are computed; [None] is a figure that does not fit. *)
Definition meets (q : normalizedOpportunitiesRequest) (s bm : Z * string * Z * current_row) : option bool :=
  let '(_, _, _, source) := s in
  let '(_, _, _, order) := bm in
  sell ← c_sell_price_min source;
  buy ← c_buy_price_max order;
  tax ← sales_tax (nq_salesTaxRate q) buy;
  profit ← profit_of buy tax sell (nq_transportCostPerUnit q);
  if profit <? nq_minimumProfit q then Some false
  else
    cost ← bigint (sell + nq_transportCostPerUnit q);
    Some (f_leb (nq_minimumReturnOnCostPercent q) (if 0 <? cost then percent profit cost else f_zero)).

(** A pair of the join that is looked at: the aggregates of its keys are there before
    the condition is decided. *)
Definition marked (q : normalizedOpportunitiesRequest) (pg_now : time) (d : MarketDB)
    (p : (Z * string * Z * current_row) * (Z * string * Z * current_row))
    : option ((Z * string * Z * current_row) * (Z * string * Z * current_row) * bool) :=
  let '(s, bm) := p in
  let '(location, item, quality, _) := s in
  let '(_, _, bmQuality, _) := bm in
  _ ← stats_of pg_now d (nq_serverID q, location, item, quality);
  _ ← stats_of pg_now d (nq_serverID q, blackMarketLocation, item, bmQuality);
  kept ← meets q s bm;
  Some (p, kept).

(** The rows of [eligible].  The other columns are computed for the rows that are kept:
    [candidate] and [eligible] are subqueries of a select, whose columns PostgreSQL
    computes after its condition.  What cannot be computed fails the query. *)
Definition eligible_rows (q : normalizedOpportunitiesRequest) (now pg_now : time) (d : MarketDB)
    : option (list opportunityRow) :=
  pairs ← mapM (marked q pg_now d)
    (List.filter (fun p => joins (fst p) (snd p))
       (list_prod (market_rows d (nq_serverID q) (is_source q now))
                  (market_rows d (nq_serverID q) (is_black_market q now))));
  mapM (fun p => candidate q now pg_now d (fst (fst p)) (snd (fst p))) (List.filter snd pairs).

(** [row_number() over (partition by location_id, item_key order by profit desc,
    purchase_quality asc, black_market_quality desc) = 1] *)
Definition trade (r : opportunityRow) : Z * string := (ow_locationID r, ow_itemIdentifier r).

Definition rank_less : opportunityRow -> opportunityRow -> bool :=
  then_less (fun a b => ow_profit b <? ow_profit a)
    (then_less (fun a b => ow_purchaseQuality a <? ow_purchaseQuality b)
       (fun a b => ow_blackMarketQuality b <? ow_blackMarketQuality a)).

Definition first_ranked (l : list opportunityRow) (k : Z * string) : option opportunityRow :=
  head (slice_stable rank_less (List.filter (fun r => bool_decide (trade r = k)) l)).

Definition filtered (l : list opportunityRow) : list opportunityRow :=
  omap (first_ranked l) (dedup (map trade l)).

(** The [order by] of each sort. *)
Definition profit_desc (a b : opportunityRow) : bool := ow_profit b <? ow_profit a.
Definition return_desc (a b : opportunityRow) : bool :=
  f_ltb (ow_returnOnCostPercent b) (ow_returnOnCostPercent a).
Definition order_desc (a b : opportunityRow) : bool :=
  ow_blackMarketBuyPriceDate b <? ow_blackMarketBuyPriceDate a.
Definition newest (r : opportunityRow) : time := Z.max (ow_purchasePriceDate r) (ow_blackMarketBuyPriceDate r).

Definition sort_less (sort : string) : opportunityRow -> opportunityRow -> bool :=
  if bool_decide (sort = "roi") then then_less return_desc (then_less profit_desc order_desc)
  else if bool_decide (sort = "freshness") then
    then_less (fun a b => newest b <? newest a) profit_desc
  else then_less profit_desc (then_less return_desc order_desc).

Definition page {A} (limit offset : Z) (l : list A) : list A :=
  take (Z.to_nat limit) (drop (Z.to_nat offset) l).

(** The ordered rows before the page is cut. *)
Definition matching (q : normalizedOpportunitiesRequest) (now pg_now : time) (d : MarketDB)
    : option (list opportunityRow) :=
  (fun l => slice_stable (sort_less (nq_sort q)) (filtered l)) <$> eligible_rows q now pg_now d.

(** What becomes of the two queries. *)
Record opportunities_call := {
  oc_now : time;
  oc_pg_now : time;
  oc_rows_fail : bool;
  oc_coverage_fails : bool;
}.

(** [total_matching] is read from the rows, so that an empty page has none. *)
Definition loadOpportunities (c : opportunities_call) (q : normalizedOpportunitiesRequest) (d : MarketDB)
    : result analysis_error (list opportunityRow * Z) :=
  fail_if oc_rows_fail c with PricesFailed else
  match matching q (oc_now c) (oc_pg_now c) d with
  | None => Err PricesFailed
  | Some l =>
      let rows := page (nq_limit q) (nq_offset q) l in
      Ok (rows, if bool_decide (rows = []) then 0 else Z.of_nat (length l))
  end.

(** [max(...) filter (...)]. *)
Definition latest (l : list time) : option time := foldl (fun a t => max_opt a t) None l.

Definition positive_opt (v : option Z) : bool := match v with Some p => 0 <? p | None => false end.

Definition loadOpportunityCoverage (c : opportunities_call) (q : normalizedOpportunitiesRequest)
    (d : MarketDB) : result analysis_error OpportunityCoverage :=
  fail_if oc_coverage_fails c with HistoryFailed else
  let bm := market_rows d (nq_serverID q) (fun l _ _ r =>
    (l =? blackMarketLocation) && positive_opt (c_buy_price_max r)) in
  let source := market_rows d (nq_serverID q) (fun l _ _ r =>
    bool_decide (l ∈ nq_purchaseLocationIDs q) && positive_opt (c_sell_price_min r)) in
  let bm_times := omap (fun r : Z * string * Z * current_row => c_buy_price_max_at (snd r)) bm in
  let source_times := omap (fun r : Z * string * Z * current_row => c_sell_price_min_at (snd r)) source in
  Ok {| cv_BlackMarketRows := Z.of_nat (length bm_times);
        cv_SourceMarketRows := Z.of_nat (length source_times);
        cv_LatestBlackMarketAt := latest bm_times;
        cv_LatestSourceMarketAt := latest source_times;
        cv_SelectedMarketKeys := nq_purchaseMarketKeys q |}.

(** * Presentation *)

(** [int(d.Minutes())]. *)
Definition whole_minutes (d : duration) : Z :=
  to_int64 (integral trunc_of
    (f_add (of_Z (Z.quot d minute)) (f_div (of_Z (Z.rem d minute)) (of_Z (60 * 1000000000))))).

Definition ageMinutes (now observedAt : time) : Z :=
  if now <? observedAt then 0 else whole_minutes (time_sub now observedAt).

Definition no_competition : OpportunityCompetition :=
  {| oc_Available := false; oc_PurchaseUnitPrice := None; oc_PurchaseQuality := None;
     oc_PurchasePriceDate := None; oc_AgeMinutes := None; oc_Profit := None; oc_CanFillProfitably := false |}.

Definition buildOpportunityCompetition (now : time) (r : opportunityRow) : OpportunityCompetition :=
  match ow_caerleonPurchaseUnitPrice r, ow_caerleonPurchaseQuality r, ow_caerleonPurchasePriceDate r with
  | Some price, Some quality, Some date =>
      {| oc_Available := true; oc_PurchaseUnitPrice := Some price; oc_PurchaseQuality := Some quality;
         oc_PurchasePriceDate := Some date; oc_AgeMinutes := Some (ageMinutes now date);
         oc_Profit := ow_caerleonProfit r;
         oc_CanFillProfitably := match ow_caerleonProfit r with Some p => 0 <? p | None => false end |}
  | _, _, _ => no_competition
  end.

Definition reason_city_old : string :=
  "El precio de compra está cerca del límite máximo de antigüedad.".
Definition reason_city_half : string :=
  "El precio de compra ya consumió más de la mitad de su ventana de frescura.".
Definition reason_order_old : string :=
  "La orden del Black Market está cerca del límite máximo de antigüedad.".
Definition reason_order_half : string :=
  "La orden del Black Market ya consumió más de la mitad de su ventana de frescura.".
Definition reason_caerleon : string :=
  "La misma orden puede completarse rentablemente desde el mercado de Caerleon.".
Definition reason_crossed : string :=
  "Las órdenes observadas del Black Market están cruzadas o desactualizadas.".
Definition reason_none : string :=
  "Ambas capturas están dentro de la ventana fresca y no se detectó competencia inmediata desde Caerleon.".

(** A test of [opportunityRisk]: what it adds to the score, and its reason. *)
Definition age_risk (age maximum : Z) (old half : string) : Z * list string :=
  if maximum * 3 <=? age * 4 then (2, [old])
  else if maximum <=? age * 2 then (1, [half])
  else (0, []).

Definition crossed (sell : option Z) (buy : Z) : bool :=
  match sell with Some s => (0 <? s) && (s <=? buy) | None => false end.

Definition risk_level (score : Z) : string :=
  if 4 <=? score then "high" else if 2 <=? score then "medium" else "low".

Definition opportunityRisk (marketKey : string) (purchaseAge blackMarketAge maximumCityAge maximumBlackMarketAge : Z)
    (blackMarketSellPrice : option Z) (blackMarketBuyPrice : Z) (competition : OpportunityCompetition)
    : string * list string :=
  let '(s1, r1) := age_risk purchaseAge maximumCityAge reason_city_old reason_city_half in
  let '(s2, r2) := age_risk blackMarketAge maximumBlackMarketAge reason_order_old reason_order_half in
  let caerleon := negb (bool_decide (marketKey = "caerleon")) && oc_CanFillProfitably competition in
  let crossed_ := crossed blackMarketSellPrice blackMarketBuyPrice in
  let score := s1 + s2 + (if caerleon then 2 else 0) + (if crossed_ then 2 else 0) in
  let reasons := r1 ++ r2 ++ warn caerleon reason_caerleon ++ warn crossed_ reason_crossed in
  (risk_level score, if bool_decide (reasons = []) then [reason_none] else reasons).

Definition warning_no_orders : string :=
  "No hay órdenes de compra del Black Market almacenadas para este servidor.".
Definition warning_no_offers : string :=
  "No hay precios de venta almacenados para los mercados de compra seleccionados.".
Definition warning_orders_old : string :=
  "La captura más reciente del Black Market queda fuera del límite de antigüedad seleccionado.".
Definition warning_offers_old : string :=
  "La captura más reciente de las ciudades queda fuera del límite de antigüedad seleccionado.".
Definition warning_none_found : string :=
  "No se encontraron cruces rentables y frescos con los filtros actuales.".
Definition warning_more : string :=
  "Hay más oportunidades disponibles; avanza a la siguiente página para continuar.".

Definition older_than (now : time) (at_ : option time) (minutes : Z) : bool :=
  match at_ with Some t => minutes <? ageMinutes now t | None => false end.

Definition opportunityWarnings (coverage : OpportunityCoverage) (returned totalMatching : Z)
    (q : normalizedOpportunitiesRequest) (now : time) : list string :=
  warn (cv_BlackMarketRows coverage =? 0) warning_no_orders
  ++ warn (cv_SourceMarketRows coverage =? 0) warning_no_offers
  ++ warn (older_than now (cv_LatestBlackMarketAt coverage) (nq_maximumBlackMarketAgeMinutes q)) warning_orders_old
  ++ warn (older_than now (cv_LatestSourceMarketAt coverage) (nq_maximumCityAgeMinutes q)) warning_offers_old
  ++ warn ((returned =? 0) && (0 <? cv_BlackMarketRows coverage) && (0 <? cv_SourceMarketRows coverage))
       warning_none_found
  ++ warn (nq_offset q + returned <? totalMatching) warning_more.

(** [%s:%s:q%d:bmq%d] *)
Definition opportunityID (item marketKey : string) (purchaseQuality blackMarketQuality : Z) : string :=
  item +:+ ":" +:+ marketKey +:+ ":q" +:+ FormatInt purchaseQuality +:+ ":bmq" +:+ FormatInt blackMarketQuality.

(** One round of the loop over the rows; a row whose market or category is not
    known is left out. *)
Definition present (q : normalizedOpportunitiesRequest) (now : time) (r : opportunityRow) : option Opportunity :=
  marketKey ← nq_marketKeysByLocation q !! ow_locationID r;
  let category := opportunityCategory (ow_itemIdentifier r) in
  if is_empty category then None else
  let '(tier, enchantment) := opportunityTierAndEnchantment (ow_itemIdentifier r) in
  let purchaseAge := ageMinutes now (ow_purchasePriceDate r) in
  let blackMarketAge := ageMinutes now (ow_blackMarketBuyPriceDate r) in
  let competition := buildOpportunityCompetition now r in
  let '(risk, reasons) :=
    opportunityRisk marketKey purchaseAge blackMarketAge (nq_maximumCityAgeMinutes q)
      (nq_maximumBlackMarketAgeMinutes q) (ow_blackMarketSellUnitPrice r) (ow_blackMarketBuyUnitPrice r)
      competition in
  Some {| op_row := r;
          op_ID := opportunityID (ow_itemIdentifier r) marketKey (ow_purchaseQuality r) (ow_blackMarketQuality r);
          op_Tier := tier; op_Enchantment := enchantment; op_Category := category;
          op_PurchaseMarketKey := marketKey; op_PurchaseAgeMinutes := purchaseAge;
          op_BlackMarketAgeMinutes := blackMarketAge;
          op_BlackMarketOrderDifference :=
            match ow_blackMarketSellUnitPrice r with
            | Some s => if 0 <? s then Some (wrap64 (s - ow_blackMarketBuyUnitPrice r)) else None
            | None => None
            end;
          op_TransportCostPerUnit := nq_transportCostPerUnit q;
          op_CaerleonCompetition := competition; op_Risk := risk; op_RiskReasons := reasons |}.

Definition Opportunities (c : opportunities_call) (r : OpportunitiesRequest) (d : MarketDB)
    : result analysis_error OpportunitiesResponse :=
  let! q := normalizeOpportunitiesRequest r in
  let now := oc_now c in
  let! (rows, totalMatching) := loadOpportunities c q d in
  let! coverage := loadOpportunityCoverage c q d in
  let data := omap (present q now) rows in
  let returned := Z.of_nat (length data) in
  Ok {| or_RequestedAt := now; or_Server := nq_server q; or_TotalMatching := totalMatching;
        or_Returned := returned; or_Limit := nq_limit q; or_Offset := nq_offset q; or_Sort := nq_sort q;
        or_Coverage := coverage; or_Data := data;
        or_Warnings := opportunityWarnings coverage returned totalMatching q now |}.

(** * The handler *)

#[local] Abbreviation OQ := Build_OpportunitiesRequest.

Definition zero_opportunities : OpportunitiesRequest :=
  OQ EmptyString [] [] [] [] [] 0 f_zero 0 0 None 0 EmptyString 0 0.

Definition dec_OpportunitiesRequest : decoder OpportunitiesRequest :=
  dec_struct
    [("server", field oq_Server (fun x '(OQ _ b c d e f g h i j k l m n o) => OQ x b c d e f g h i j k l m n o) dec_string);
     ("purchaseMarketKeys", field oq_PurchaseMarketKeys
        (fun x '(OQ a _ c d e f g h i j k l m n o) => OQ a x c d e f g h i j k l m n o) (dec_slice EmptyString dec_string));
     ("tiers", field oq_Tiers
        (fun x '(OQ a b _ d e f g h i j k l m n o) => OQ a b x d e f g h i j k l m n o) (dec_slice 0 dec_int16));
     ("enchantments", field oq_Enchantments
        (fun x '(OQ a b c _ e f g h i j k l m n o) => OQ a b c x e f g h i j k l m n o) (dec_slice 0 dec_int16));
     ("qualities", field oq_Qualities
        (fun x '(OQ a b c d _ f g h i j k l m n o) => OQ a b c d x f g h i j k l m n o) (dec_slice 0 dec_int16));
     ("categories", field oq_Categories
        (fun x '(OQ a b c d e _ g h i j k l m n o) => OQ a b c d e x g h i j k l m n o) (dec_slice EmptyString dec_string));
     ("minimumProfit", field oq_MinimumProfit
        (fun x '(OQ a b c d e f _ h i j k l m n o) => OQ a b c d e f x h i j k l m n o) dec_int64);
     ("minimumReturnOnCostPercent", field oq_MinimumReturnOnCostPercent
        (fun x '(OQ a b c d e f g _ i j k l m n o) => OQ a b c d e f g x i j k l m n o) dec_float64);
     ("maximumCityAgeMinutes", field oq_MaximumCityAgeMinutes
        (fun x '(OQ a b c d e f g h _ j k l m n o) => OQ a b c d e f g h x j k l m n o) dec_int64);
     ("maximumBlackMarketAgeMinutes", field oq_MaximumBlackMarketAgeMinutes
        (fun x '(OQ a b c d e f g h i _ k l m n o) => OQ a b c d e f g h i x k l m n o) dec_int64);
     ("salesTaxRate", field oq_SalesTaxRate
        (fun x '(OQ a b c d e f g h i j _ l m n o) => OQ a b c d e f g h i j x l m n o) (dec_pointer f_zero dec_float64));
     ("transportCostPerUnit", field oq_TransportCostPerUnit
        (fun x '(OQ a b c d e f g h i j k _ m n o) => OQ a b c d e f g h i j k x m n o) dec_int64);
     ("sort", field oq_Sort
        (fun x '(OQ a b c d e f g h i j k l _ n o) => OQ a b c d e f g h i j k l x n o) dec_string);
     ("limit", field oq_Limit
        (fun x '(OQ a b c d e f g h i j k l m _ o) => OQ a b c d e f g h i j k l m x o) dec_int64);
     ("offset", field oq_Offset
        (fun x '(OQ a b c d e f g h i j k l m n _) => OQ a b c d e f g h i j k l m n x) dec_int64)].

Definition OpportunitiesHandler (limit : Z) (c : opportunities_call) (d : MarketDB)
    : HttpRequest -> Response (market_body OpportunitiesResponse) :=
  market_handler dec_OpportunitiesRequest zero_opportunities limit (fun request => Opportunities c request d).
End opportunities.

Example item_classification :
  let U := plain_unicode in
  map (fun i => (opportunityTierAndEnchantment i, opportunityCategory i, sql_tier i, sql_enchantment i))
    ["T8_2H_HALBERD@2"; "T6_ARMOR_PLATE_ROYAL"; "T5_OFF_SHIELD@1"; "T4_BAG"; "T4_BAG_INSIGHT@7"; "T9_MAIN_X"; "@3"]
  = [(8, 2, "weapon", 8, 2); (6, 0, "armor", 6, 0); (5, 1, "offhand", 5, 1); (4, 0, "accessory", 4, 0);
     (4, 0, "accessory", 4, 0); (9, 0, "weapon", 0, 0); (0, 3, EmptyString, 0, 3)].
Proof. vm_compute. reflexivity. Qed.

Example ages :
  (map (fun m => ageMinutes 0 (- m)) [0; 59 * second; minute; 95 * minute - 1; -5], ageMinutes 0 (- (10080 * minute)))
  = ([0; 0; 1; 94; 0], 10080).
Proof. vm_compute. reflexivity. Qed.
