(* ===== verification/OpportunitiesSpec.v ===== *)
(** What a search for opportunities answers: only trades the tables support, the
    best one of each market and item, described as the query selected them. *)
From S2P Require Import Prelude GoLists GoBase Utf8 Float64 Float64Spec Dates Domain Catalog PriceRepo HistoryRepo Json Http BlackMarket BlackMarketSpec Opportunities.
Local Open Scope Z_scope.

(** * Rows of the tables *)

Lemma market_rows_elem d server p l i q r :
  (l, i, q, r) ∈ market_rows d server p <->
  mk_prices d !! (server, l, i, q) = Some r /\ p l i q r = true.
Proof.
  unfold market_rows. rewrite list_elem_of_omap. split.
  - intros ([[[[s l'] i'] q'] r'] & Hin & Hs). apply elem_of_map_to_list in Hin. simpl in Hs.
    destruct (s =? server) eqn:Es; [|done]. simpl in Hs. destruct (p l' i' q' r') eqn:Ep; [|done].
    bool_facts. simplify_eq. done.
  - intros [Hl Hp]. exists ((server, l, i, q), r). rewrite elem_of_map_to_list. split; [done|].
    simpl. by rewrite Z.eqb_refl, Hp.
Qed.

Lemma observed_since_spec price at_ cutoff :
  observed_since price at_ cutoff = true <->
  exists p t, price = Some p /\ at_ = Some t /\ 0 < p /\ pg_time cutoff <= t.
Proof.
  unfold observed_since. destruct price as [p|], at_ as [t|]; try naive_solver.
  rewrite andb_true_iff, Z.ltb_lt, Z.leb_le. naive_solver.
Qed.

Lemma bigint_Some z y : bigint z = Some y <-> y = z /\ in_int64 z.
Proof.
  unfold bigint, in_int64. case_if; bool_facts; [naive_solver|]. split; [done|]. intros [-> ?].
  apply andb_false_iff in Heqb as [?|?]; bool_facts; lia.
Qed.

Lemma profit_of_Some buy tax sell transport p :
  profit_of buy tax sell transport = Some p -> p = buy - tax - sell - transport.
Proof.
  unfold profit_of. intros Hp. destruct (bigint (buy - tax)) as [a|] eqn:Ea; [|done]. simpl in Hp.
  destruct (bigint (a - sell)) as [b|] eqn:Eb; [|done]. simpl in Hp.
  apply bigint_Some in Ea as [-> _], Eb as [-> _], Hp as [-> _]. done.
Qed.

Lemma sales_tax_bounds rate price tax :
  good_rate rate -> 0 <= price < 2 ^ 53 -> sales_tax rate price = Some tax -> 0 <= tax <= price.
Proof.
  intros [Hv Hb] Hp. unfold sales_tax, float_bigint. unfold bad_rate in Hb. bool_facts.
  destruct (at_most_even price (f_mul (of_Z price) rate)) as (z & -> & Hz); [by apply f_mul_rate|lia|].
  simpl. by intros [-> _]%bigint_Some.
Qed.

Section opportunities.
Context `{Unicode} (catalog : Catalog) (median : list Z -> Z).
#[local] Abbreviation candidate := (candidate median).
#[local] Abbreviation eligible_rows := (eligible_rows median).
#[local] Abbreviation marked := (marked median).
#[local] Abbreviation matching := (matching median).

(** ** One candidate *)

(** The offer and the order a row is about, and the figures made of them. *)
Record supported (q : normalizedOpportunitiesRequest) (now : time) (d : MarketDB) (r : opportunityRow)
    : Prop := {
  sp_source : exists source,
    mk_prices d !! (nq_serverID q, ow_locationID r, ow_itemIdentifier r, ow_purchaseQuality r) = Some source /\
    c_sell_price_min source = Some (ow_purchaseUnitPrice r) /\
    c_sell_price_min_at source = Some (ow_purchasePriceDate r);
  sp_order : exists order,
    mk_prices d !! (nq_serverID q, blackMarketLocation, ow_itemIdentifier r, ow_blackMarketQuality r) = Some order /\
    c_buy_price_max order = Some (ow_blackMarketBuyUnitPrice r) /\
    c_buy_price_max_at order = Some (ow_blackMarketBuyPriceDate r);
  sp_location : ow_locationID r ∈ nq_purchaseLocationIDs q;
  sp_quality : ow_blackMarketQuality r <= ow_purchaseQuality r /\ ow_purchaseQuality r ∈ nq_qualities q;
  sp_item : sql_item q (ow_itemIdentifier r) = true;
  sp_positive : 0 < ow_purchaseUnitPrice r /\ 0 < ow_blackMarketBuyUnitPrice r;
  sp_fresh : pg_time (minutes_before now (nq_maximumCityAgeMinutes q)) <= ow_purchasePriceDate r /\
    pg_time (minutes_before now (nq_maximumBlackMarketAgeMinutes q)) <= ow_blackMarketBuyPriceDate r;
  sp_tax : sales_tax (nq_salesTaxRate q) (ow_blackMarketBuyUnitPrice r) = Some (ow_estimatedSalesTax r);
  sp_net : ow_netUnitRevenue r = ow_blackMarketBuyUnitPrice r - ow_estimatedSalesTax r;
  sp_profit : ow_profit r = ow_netUnitRevenue r - ow_purchaseUnitPrice r - nq_transportCostPerUnit q;
}.

Lemma candidate_facts q now pg_now d location item quality source l' i' bmQuality order r :
  candidate q now pg_now d (location, item, quality, source) (l', i', bmQuality, order) = Some r ->
  ow_locationID r = location /\ ow_itemIdentifier r = item /\ ow_purchaseQuality r = quality /\
  ow_blackMarketQuality r = bmQuality /\
  c_sell_price_min source = Some (ow_purchaseUnitPrice r) /\
  c_sell_price_min_at source = Some (ow_purchasePriceDate r) /\
  c_buy_price_max order = Some (ow_blackMarketBuyUnitPrice r) /\
  c_buy_price_max_at order = Some (ow_blackMarketBuyPriceDate r) /\
  sales_tax (nq_salesTaxRate q) (ow_blackMarketBuyUnitPrice r) = Some (ow_estimatedSalesTax r) /\
  ow_netUnitRevenue r = ow_blackMarketBuyUnitPrice r - ow_estimatedSalesTax r /\
  ow_profit r = ow_netUnitRevenue r - ow_purchaseUnitPrice r - nq_transportCostPerUnit q.
Proof.
  unfold Opportunities.candidate. intros Hc.
  repeat (match type of Hc with
          | mbind _ ?o = Some _ => let E := fresh "E" in destruct o eqn:E; [cbn [mbind option_bind] in Hc|discriminate]
          end).
  injection Hc as <-. simpl.
  repeat match goal with E : bigint _ = Some _ |- _ => apply bigint_Some in E as [? _] end.
  match goal with E : profit_of _ _ _ _ = Some _ |- _ => apply profit_of_Some in E end.
  split_and!; try done; lia.
Qed.

(** The condition is decided as on the row, when there is one. *)
Lemma candidate_meets q now pg_now d s bm r :
  candidate q now pg_now d s bm = Some r -> meets q s bm = Some (eligible q r).
Proof.
  destruct s as [[[location item] quality] source], bm as [[[l' i'] bmQuality] order].
  unfold Opportunities.candidate, meets. intros Hc.
  repeat (match type of Hc with
          | mbind _ ?o = Some _ => let E := fresh "E" in destruct o eqn:E; [cbn [mbind option_bind] in Hc|discriminate]
          end).
  injection Hc as <-. unfold eligible. cbn [ow_profit ow_returnOnCostPercent].
  cbn [mbind option_bind]. repeat match goal with E : ?o = Some _ |- context [?o] => rewrite E; cbn [mbind option_bind] end.
  rewrite Z.leb_antisym. by destruct (_ <? nq_minimumProfit q).
Qed.

(** The pairs that are looked at, and whether they are kept. *)
Lemma marked_Some q pg_now d p x : marked q pg_now d p = Some x -> x.1 = p /\ meets q p.1 p.2 = Some x.2.
Proof.
  destruct p as [[[[location item] quality] source] [[[l' i'] bmQuality] order]]. unfold Opportunities.marked.
  destruct (stats_of _ _ _ (_, location, _, _)); [cbn [mbind option_bind]|done].
  destruct (stats_of _ _ _ _); [cbn [mbind option_bind]|done]. cbn [fst snd].
  destruct (meets _ _ _); [|done]. by intros [= <-].
Qed.

Lemma mapM_origin {A B} (f : A -> option B) l l' y : mapM f l = Some l' -> y ∈ l' -> exists x, x ∈ l /\ f x = Some y.
Proof.
  intros Hl%mapM_Some_1 [n Hn]%list_elem_of_lookup. destruct (Forall2_lookup_r _ _ _ _ _ Hl Hn) as (x & Hx & Hf).
  exists x. split; [by eapply list_elem_of_lookup_2|done].
Qed.

Lemma mapM_image {A B} (f : A -> option B) l l' x : mapM f l = Some l' -> x ∈ l -> exists y, f x = Some y /\ y ∈ l'.
Proof.
  intros Hl%mapM_Some_1 Hx. apply list_elem_of_lookup in Hx as [n Hn].
  destruct (Forall2_lookup_l _ _ _ _ _ Hl Hn) as (y & Hy & Hf). exists y. split; [done|by eapply list_elem_of_lookup_2].
Qed.

(** Where the rows come from. *)
Lemma eligible_rows_elem q now pg_now d l r :
  eligible_rows q now pg_now d = Some l -> r ∈ l ->
  eligible q r = true /\
  exists location item quality source bmQuality order,
    mk_prices d !! (nq_serverID q, location, item, quality) = Some source /\
    is_source q now location item quality source = true /\
    mk_prices d !! (nq_serverID q, blackMarketLocation, item, bmQuality) = Some order /\
    is_black_market q now blackMarketLocation item bmQuality order = true /\
    bmQuality <= quality /\
    candidate q now pg_now d (location, item, quality, source) (blackMarketLocation, item, bmQuality, order) = Some r.
Proof.
  unfold Opportunities.eligible_rows. intros (pairs & Hpairs & Hl)%bind_Some Hr.
  apply (mapM_origin _ _ _ _ Hl) in Hr as ([p kept] & Hp & Hc). apply list_elem_of_In, filter_In in Hp as [Hp Hk]. simpl in Hk. subst kept.
  rewrite <- list_elem_of_In in Hp. apply (mapM_origin _ _ _ _ Hpairs) in Hp as (p' & Hp & [<- Hm]%marked_Some). cbn [fst snd] in *.
  split; [pose proof (candidate_meets _ _ _ _ _ _ _ Hc); congruence|].
  destruct p as [s bm]. apply list_elem_of_In, filter_In in Hp as [Hin Hj].
  apply in_prod_iff in Hin as [Hs Hb]. rewrite <- !list_elem_of_In in *.
  destruct s as [[[location item] quality] source], bm as [[[l' i'] bmQuality] order].
  apply market_rows_elem in Hs as [Hs1 Hs2], Hb as [Hb1 Hb2]. simpl in Hj. bool_facts. subst i'.
  pose proof Hb2 as Hb3. unfold is_black_market in Hb2. bool_facts. subst l'.
  exists location, item, quality, source, bmQuality, order. by split_and!.
Qed.

Lemma eligible_rows_complete q now pg_now d l location item quality source bmQuality order r :
  eligible_rows q now pg_now d = Some l ->
  mk_prices d !! (nq_serverID q, location, item, quality) = Some source ->
  is_source q now location item quality source = true ->
  mk_prices d !! (nq_serverID q, blackMarketLocation, item, bmQuality) = Some order ->
  is_black_market q now blackMarketLocation item bmQuality order = true ->
  bmQuality <= quality ->
  candidate q now pg_now d (location, item, quality, source) (blackMarketLocation, item, bmQuality, order) = Some r ->
  eligible q r = true -> r ∈ l.
Proof.
  unfold Opportunities.eligible_rows. intros (pairs & Hpairs & Hl)%bind_Some Hs Hs2 Hb Hb2 Hq Hc He.
  destruct (mapM_image _ _ _ ((location, item, quality, source), (blackMarketLocation, item, bmQuality, order)) Hpairs)
    as ([p kept] & Hmark & Hp).
  { apply list_elem_of_In, filter_In. split.
    - apply in_prod_iff. rewrite <- !list_elem_of_In. split; by apply market_rows_elem.
    - simpl. rewrite bool_decide_eq_true_2 by done. by apply Z.leb_le. }
  apply marked_Some in Hmark as [Hpe Hm]. cbn [fst snd] in Hpe, Hm. rewrite (candidate_meets _ _ _ _ _ _ _ Hc), He in Hm.
  injection Hm as <-. subst p.
  destruct (mapM_image _ _ _ (((location, item, quality, source), (blackMarketLocation, item, bmQuality, order)), true) Hl)
    as (r' & Hr' & Hin); [apply list_elem_of_In, filter_In; by rewrite <- list_elem_of_In|].
  cbn [fst snd] in Hr'. rewrite Hc in Hr'. by injection Hr' as <-.
Qed.

Lemma eligible_rows_supported q now pg_now d l r :
  eligible_rows q now pg_now d = Some l -> r ∈ l -> supported q now d r.
Proof.
  intros Hl Hr. destruct (eligible_rows_elem _ _ _ _ _ _ Hl Hr)
    as (_ & location & item & quality & source & bmQuality & order & Hs & Hs2 & Hb & Hb2 & Hq & Hc).
  apply candidate_facts in Hc as (Hloc & Hi & Hqu & Hbq & Hsell & HsellAt & Hbuy & HbuyAt & Htax & Hnet & Hp).
  subst location item quality bmQuality. unfold is_source in Hs2. unfold is_black_market in Hb2.
  bool_facts. rewrite observed_since_spec in *.
  repeat match goal with H : exists p t, _ |- _ => destruct H as (? & ? & ? & ? & ? & ?) end. simplify_eq.
  split; try done; try (by eexists; split_and!; done); naive_solver.
Qed.

(** ** The best row of each market and item *)

#[local] Instance rank_less_strict_weak : StrictWeak rank_less.
Proof.
  unfold rank_less. repeat apply then_less_strict_weak.
  - exact (@flip_strict_weak _ _ (less_on_strict_weak Z.ltb ow_profit)).
  - apply (less_on_strict_weak Z.ltb ow_purchaseQuality).
  - exact (@flip_strict_weak _ _ (less_on_strict_weak Z.ltb ow_blackMarketQuality)).
Qed.

Lemma first_ranked_Some l k r :
  first_ranked l k = Some r ->
  r ∈ l /\ trade r = k /\ forall r', r' ∈ l -> trade r' = k -> ow_profit r' <= ow_profit r.
Proof.
  unfold first_ranked. set (l' := List.filter _ l). intros Hh.
  assert (forall x, x ∈ slice_stable rank_less l' <-> x ∈ l /\ trade x = k) as Hin.
  { intros x. rewrite slice_stable_Permutation. unfold l'. rewrite !list_elem_of_In, filter_In.
    by rewrite bool_decide_eq_true. }
  destruct (slice_stable rank_less l') as [|x rest] eqn:E; [done|]. injection Hh as ->.
  destruct (proj1 (Hin r) ltac:(by left)) as [Hr Hk]. split_and!; [done..|].
  intros r' Hr' Hk'. pose proof (proj2 (Hin r') (conj Hr' Hk')) as Hx.
  apply elem_of_cons in Hx as [->|Hx]; [done|].
  pose proof (slice_stable_sorted rank_less l') as Hs. rewrite E in Hs.
  inversion Hs as [|? ? _ Hall]. rewrite Forall_forall in Hall. specialize (Hall _ Hx).
  unfold not_after, rank_less, then_less in Hall. apply orb_false_iff in Hall as [Hp _]. bool_facts. done.
Qed.

Lemma first_ranked_None l k : first_ranked l k = None -> forall r, r ∈ l -> trade r <> k.
Proof.
  unfold first_ranked. intros Hh r Hr Hk.
  destruct (slice_stable rank_less _) as [|x rest] eqn:E; [|done].
  assert (r ∈ slice_stable rank_less (List.filter (fun r => bool_decide (trade r = k)) l)) as Hin.
  { rewrite slice_stable_Permutation, list_elem_of_In, filter_In, <- list_elem_of_In.
    by rewrite bool_decide_eq_true. }
  rewrite E in Hin. by apply elem_of_nil in Hin.
Qed.

Lemma filtered_elem l r :
  r ∈ filtered l ->
  r ∈ l /\ forall r', r' ∈ l -> trade r' = trade r -> ow_profit r' <= ow_profit r.
Proof.
  unfold filtered. intros (k & _ & Hk)%list_elem_of_omap. apply first_ranked_Some in Hk as (Hr & <- & Hm). done.
Qed.

Lemma filtered_complete l r : r ∈ l -> exists r', r' ∈ filtered l /\ trade r' = trade r.
Proof.
  intros Hr. destruct (first_ranked l (trade r)) as [r'|] eqn:E.
  - exists r'. split; [|by apply first_ranked_Some in E as (_ & ? & _)]. unfold filtered.
    apply list_elem_of_omap. exists (trade r). split; [|done]. apply elem_of_dedup.
    apply list_elem_of_In, in_map, list_elem_of_In, Hr.
  - by apply first_ranked_None with (r := r) in E.
Qed.

Lemma filtered_trades l : NoDup (map trade (filtered l)).
Proof.
  unfold filtered. pose proof (NoDup_dedup (map trade l)) as Hn. revert Hn.
  generalize (dedup (map trade l)) as ks. induction ks as [|k ks IH]; simpl; [constructor|].
  intros [Hk Hn]%NoDup_cons. destruct (first_ranked l k) as [r|] eqn:E; simpl; [|auto].
  constructor; [|auto]. intros Hin. apply Hk.
  apply first_ranked_Some in E as (_ & <- & _). apply list_elem_of_In, in_map_iff in Hin as (x & Hx & Hin).
  apply list_elem_of_In, list_elem_of_omap in Hin as (k' & Hk' & Hf). apply first_ranked_Some in Hf as (_ & Hf & _).
  congruence.
Qed.

(** The ordered rows of the search. *)
Lemma matching_spec q now pg_now d l :
  matching q now pg_now d = Some l ->
  exists cs, eligible_rows q now pg_now d = Some cs /\ l ≡ₚ filtered cs.
Proof.
  unfold Opportunities.matching. destruct (eligible_rows q now pg_now d) as [cs|]; [|done]. intros [= <-].
  exists cs. split; [done|]. apply slice_stable_Permutation.
Qed.

(** * Classification *)

Lemma sql_enchantment_eq item : sql_enchantment item = (opportunityTierAndEnchantment item).2.
Proof.
  unfold opportunityTierAndEnchantment. simpl. induction item as [|a s IH]; [done|].
  destruct s as [|d s]; [simpl; by destruct (bool_decide _)|].
  destruct s as [|e s].
  - simpl. destruct (bool_decide (d = "@"%char)) eqn:Ed; bool_facts.
    + subst d. simpl. by rewrite andb_false_r.
    + by destruct (bool_decide (a = "@"%char)).
  - change (sql_enchantment (String a (String d (String e s)))) with (sql_enchantment (String d (String e s))).
    rewrite IH. change (last_at (String a (String d (String e s)))) with
      (match last_at (String d (String e s)) with Some rest => Some rest
       | None => if bool_decide (a = "@"%char) then Some (String d (String e s)) else None end).
    destruct (last_at (String d (String e s))); [done|]. by destruct (bool_decide _).
Qed.

Lemma upper_prefix p body rest :
  strip_prefix p body = Some rest -> str_map upper_byte p = p ->
  strip_prefix p (str_map upper_byte body) = Some (str_map upper_byte rest).
Proof.
  revert body; induction p as [|c p IH]; intros body; simpl.
  - by intros [= ->] _.
  - destruct body as [|b body]; [done|]. destruct (bool_decide (c = b)) eqn:E; [|done]. bool_facts. subst b.
    intros Hs [= Hc Hp]. simpl. rewrite Hc, bool_decide_eq_true_2 by done. by apply IH.
Qed.

(** The category of a body from the prefix it has. *)
Lemma category_prefix cat ps body :
  (cat, ps) ∈ [("weapon", ["MAIN_"; "2H_"]); ("armor", ["HEAD_"; "ARMOR_"; "SHOES_"]);
               ("offhand", ["OFF_"]); ("accessory", ["CAPE_"; "BAG_"])] ->
  starts_with_any ps body = true ->
  is_empty (str_map upper_byte body) = false /\ category_of_body (str_map upper_byte body) = cat.
Proof.
  intros Hin Hs. unfold starts_with_any in Hs. apply existsb_exists in Hs as (p & Hp & Hs).
  unfold HasPrefix in Hs. destruct (strip_prefix p body) as [rest|] eqn:E; [|done].
  assert (str_map upper_byte p = p) as Hup.
  { apply list_elem_of_In in Hin. simpl in Hin. naive_solver. }
  apply upper_prefix in E; [|done]. apply strip_prefix_app in E. rewrite E.
  apply list_elem_of_In in Hin. simpl in Hin.
  repeat match goal with
  | H : _ \/ _ |- _ => destruct H
  | H : False |- _ => done
  | H : (_, _) = (_, _) |- _ => injection H as <- <-; simpl in Hp
  end; subst p; done.
Qed.

(** The flag of a category. *)
Definition included (q : normalizedOpportunitiesRequest) (category : string) : bool :=
  (bool_decide (category = "weapon") && nq_includeWeapon q)
  || (bool_decide (category = "armor") && nq_includeArmor q)
  || (bool_decide (category = "offhand") && nq_includeOffhand q)
  || (bool_decide (category = "accessory") && nq_includeAccessory q).

(** The classification of the query agrees with that of the code: an item the
    query selects is described with the tier and the enchantment it was selected
    for, which are among those asked for, and with a category asked for. *)
Theorem classification_agrees q item :
  is_ascii item = true -> sql_item q item = true ->
  opportunityTierAndEnchantment item = (sql_tier item, sql_enchantment item) /\
  sql_tier item ∈ nq_tiers q /\ sql_enchantment item ∈ nq_enchantments q /\
  included q (opportunityCategory item) = true.
Proof.
  intros Ha Hi. unfold sql_item in Hi.
  apply andb_true_iff in Hi as [[Ht He]%andb_true_iff Hcat]. apply bool_decide_eq_true in Ht, He.
  unfold sql_category in Hcat. unfold sql_tier in *. 
  destruct (tiered item) as [[d body]|] eqn:Hti; [|done].
  unfold tiered in Hti. destruct item as [|t [|d' [|u s]]]; try done.
  destruct (bool_decide (t = "T"%char) && _ && _) eqn:E; [|done]. injection Hti as <- <-. bool_facts. subst t u.
  split_and!; [|done..|].
  - rewrite (surjective_pairing (opportunityTierAndEnchantment _)), sql_enchantment_eq. f_equal. simpl.
    replace (in_range 48 57 d') with true; [done|]. symmetry. unfold in_range in *. bool_facts.
    apply andb_true_iff. split; apply Z.leb_le; lia.
  - unfold opportunityCategory, ToUpper. rewrite Ha.
    assert (upper_byte d' = d') as Hd.
    { unfold upper_byte. unfold in_range in *. bool_facts.
      destruct ((97 <=? _) && _) eqn:E97; [|done]. bool_facts. lia. }
    assert (bool_decide (d' = "_"%char) = false) as Hd2.
    { apply bool_decide_eq_false_2. intros ->. by vm_compute in H2. }
    simpl. rewrite Hd, Hd2. simpl.
    apply orb_true_iff in Hcat as [Hcat|Hcat]; [apply orb_true_iff in Hcat as [Hcat|Hcat];
      [apply orb_true_iff in Hcat as [Hcat|Hcat]|]|];
      apply andb_true_iff in Hcat as [Hf Hcat];
      [destruct (category_prefix "weapon" ["MAIN_"; "2H_"] s) as [-> ->]
      |destruct (category_prefix "armor" ["HEAD_"; "ARMOR_"; "SHOES_"] s) as [-> ->]
      |destruct (category_prefix "offhand" ["OFF_"] s) as [-> ->]
      |destruct (category_prefix "accessory" ["CAPE_"; "BAG_"] s) as [-> ->]];
      try done; try (apply list_elem_of_In; simpl; tauto); unfold included; rewrite Hf; done.
Qed.

(** * The answer *)

Lemma or_default_bounds lo hi v dflt : outside lo hi (or_default v dflt) = false -> lo <= or_default v dflt <= hi.
Proof. unfold outside. intros ?. bool_facts. lia. Qed.

Lemma normalizeOpportunitiesRequest_ok r q :
  normalizeOpportunitiesRequest catalog r = Ok q ->
  1 <= nq_limit q <= maximumOpportunityLimit /\ 0 <= nq_offset q <= maximumOpportunityOffset /\
  bad_rate (nq_salesTaxRate q) = false /\ 0 <= nq_transportCostPerUnit q /\ 0 <= nq_minimumProfit q /\
  1 <= nq_maximumCityAgeMinutes q <= maximumOpportunityAgeMinutes /\
  1 <= nq_maximumBlackMarketAgeMinutes q <= maximumOpportunityAgeMinutes.
Proof.
  unfold normalizeOpportunitiesRequest. intros Hn.
  destruct (negb (supported_server (oq_Server r))); [discriminate|].
  apply rbind_ok in Hn as (server & _ & Hn). cbv zeta in Hn.
  match type of Hn with (if ?b then _ else _) = _ => destruct b; [discriminate|] end.
  apply rbind_ok in Hn as ([locations keys] & _ & Hn).
  apply rbind_ok in Hn as (tiers & _ & Hn). apply rbind_ok in Hn as (ench & _ & Hn).
  apply rbind_ok in Hn as (qual & _ & Hn).
  apply rbind_ok in Hn as ([[[[cats w] a] o] ac] & _ & Hn).
  do 9 (match type of Hn with (if ?b then _ else _) = _ => destruct b eqn:?; [discriminate|] end).
  injection Hn as <-. simpl. repeat match goal with H : outside _ _ _ = false |- _ => apply or_default_bounds in H || (unfold outside in H; bool_facts) end.
  split_and!; try done; lia.
Qed.

(** The pages of a list, one after the other, are the list. *)
Fixpoint pages {A} (n : nat) (limit : Z) (offset : Z) (l : list A) : list A :=
  match n with
  | O => []
  | S n => page limit offset l ++ pages n limit (offset + limit) l
  end.

Lemma pages_all {A} n limit offset (l : list A) :
  1 <= limit -> 0 <= offset -> Z.of_nat (length l) <= offset + Z.of_nat n * limit ->
  pages n limit offset l = drop (Z.to_nat offset) l.
Proof.
  intros Hl. revert offset; induction n as [|n IH]; intros offset Ho Hn; simpl.
  { symmetry. apply drop_ge. lia. }
  rewrite IH by lia. unfold page.
  replace (Z.to_nat (offset + limit)) with (Z.to_nat offset + Z.to_nat limit)%nat by lia.
  rewrite <- drop_drop. apply take_drop.
Qed.

(** C25. An answered search: every opportunity is a trade the tables support, with
    an offer and an order of the item that are fresh, of a quality that fills the
    order, and that meet the filters; its profit is what remains of the order
    after a tax of at most its price, purchase and transport, is at least the one asked for, and no
    other pair of that market and item yields more; there is one per market and
    item, and at most [limit] of them, in the order of the query. *)
Theorem Opportunities_sound c r d resp q l :
  normalizeOpportunitiesRequest catalog r = Ok q ->
  matching q (oc_now c) (oc_pg_now c) d = Some l ->
  Opportunities catalog median c r d = Ok resp ->
  sublist (map op_row (or_Data resp)) (page (nq_limit q) (nq_offset q) l) /\
  NoDup (map (fun o => trade (op_row o)) (or_Data resp)) /\
  or_Returned resp = Z.of_nat (length (or_Data resp)) /\ or_Returned resp <= or_Limit resp <= 500 /\
  forall o, o ∈ or_Data resp ->
    let row := op_row o in
    supported q (oc_now c) d row /\ eligible q row = true /\
    (valid_binary prec64 emax64 (nq_salesTaxRate q) = true -> ow_blackMarketBuyUnitPrice row < 2 ^ 53 ->
     0 <= ow_estimatedSalesTax row <= ow_blackMarketBuyUnitPrice row) /\
    nq_marketKeysByLocation q !! ow_locationID row = Some (op_PurchaseMarketKey o) /\
    forall quality source bmQuality order row',
      mk_prices d !! (nq_serverID q, ow_locationID row, ow_itemIdentifier row, quality) = Some source ->
      is_source q (oc_now c) (ow_locationID row) (ow_itemIdentifier row) quality source = true ->
      mk_prices d !! (nq_serverID q, blackMarketLocation, ow_itemIdentifier row, bmQuality) = Some order ->
      is_black_market q (oc_now c) blackMarketLocation (ow_itemIdentifier row) bmQuality order = true ->
      bmQuality <= quality ->
      candidate q (oc_now c) (oc_pg_now c) d (ow_locationID row, ow_itemIdentifier row, quality, source)
        (blackMarketLocation, ow_itemIdentifier row, bmQuality, order) = Some row' ->
      eligible q row' = true -> ow_profit row' <= ow_profit row.
Proof.
  intros Hn Hm Ho. unfold Opportunities in Ho. rewrite Hn in Ho. simpl in Ho.
  unfold loadOpportunities in Ho. rewrite Hm in Ho. destruct (oc_rows_fail c); [discriminate|]. simpl in Ho.
  destruct (loadOpportunityCoverage c q d) as [coverage|]; [|discriminate]. cbn [rbind] in Ho. injection Ho as <-.
  cbn [or_Data or_Returned or_Limit].
  destruct (normalizeOpportunitiesRequest_ok _ _ Hn) as ([Hl1 Hl2] & _ & Hrate & _).
  set (rows := page (nq_limit q) (nq_offset q) l).
  assert (Hrow : forall x o, present q (oc_now c) x = Some o ->
    op_row o = x /\ nq_marketKeysByLocation q !! ow_locationID x = Some (op_PurchaseMarketKey o)).
  { intros x o. unfold present. destruct (nq_marketKeysByLocation q !! _) as [key|] eqn:Ek; [|done].
    cbn [mbind option_bind]. cbv zeta. case_if; [done|]. destruct (opportunityTierAndEnchantment _) as [tier enchantment].
    match goal with |- context [opportunityRisk ?a ?b ?c ?d ?e ?f ?g ?h] =>
      destruct (opportunityRisk a b c d e f g h) as [risk reasons] end.
    by intros [= <-]. }
  assert (Hsub : forall xs, sublist (map op_row (omap (present q (oc_now c)) xs)) xs).
  { induction xs as [|x xs IH]; simpl; [constructor|].
    destruct (present q (oc_now c) x) as [o|] eqn:E; simpl; [|by constructor].
    destruct (Hrow _ _ E) as [-> _]. by constructor. }
  assert (Hpage : sublist rows l).
  { unfold rows, page. etrans; [apply sublist_take|apply sublist_drop]. }
  destruct (matching_spec _ _ _ _ _ Hm) as (cs & Hcs & Hperm).
  assert (Hnd : NoDup (map trade l)).
  { rewrite (Permutation_map trade Hperm). apply filtered_trades. }
  split_and!.
  - apply Hsub.
  - rewrite <- (map_map op_row trade). eapply sublist_NoDup; [exact Hnd|].
    apply (fmap_sublist trade). etrans; [apply Hsub|exact Hpage].
  - done.
  - pose proof (sublist_length _ _ (Hsub rows)) as Hlen. rewrite length_map in Hlen.
    unfold rows, page in Hlen. rewrite length_take in Hlen. unfold rows, page. lia.
  - unfold maximumOpportunityLimit in *. lia.
  - intros o Hin. apply list_elem_of_omap in Hin as (x & Hx & Hp).
    destruct (Hrow _ _ Hp) as [-> Hkey].
    assert (x ∈ filtered cs) as Hf.
    { rewrite <- Hperm. by apply (elem_of_sublist rows l). }
    apply filtered_elem in Hf as [Hel Hmax].
    pose proof (eligible_rows_supported q _ (oc_pg_now c) d cs x Hcs Hel) as Hsup.
    destruct (eligible_rows_elem _ _ _ _ _ _ Hcs Hel) as [Heli _].
    split_and!; [done|done| |done|].
    { intros Hv Hbuy. apply (sales_tax_bounds (nq_salesTaxRate q)); [by split| |apply Hsup].
      pose proof (sp_positive _ _ _ _ Hsup). lia. }
    intros quality source bmQuality order row' Hs Hs2 Hb Hb2 Hq Hc He.
    apply Hmax.
    + by eapply (eligible_rows_complete _ _ _ _ _ _ _ _ _ _ _ _ Hcs Hs Hs2 Hb Hb2 Hq Hc).
    + apply candidate_facts in Hc as (Hl & Hi & _). unfold trade. by rewrite Hl, Hi.
Qed.

(** A page that starts past the last match is answered as if nothing
    matched, although the pages before it hold every match once. *)
Theorem page_past_end c q d l :
  matching q (oc_now c) (oc_pg_now c) d = Some l -> oc_rows_fail c = false -> 1 <= nq_limit q ->
  (Z.of_nat (length l) <= nq_offset q -> loadOpportunities median c q d = Ok ([], 0)) /\
  (0 <= nq_offset q < Z.of_nat (length l) ->
     loadOpportunities median c q d = Ok (page (nq_limit q) (nq_offset q) l, Z.of_nat (length l))) /\
  pages (length l) (nq_limit q) 0 l = l.
Proof.
  intros Hm Hf Hl. unfold loadOpportunities. rewrite Hf, Hm. split_and!.
  - intros Ho. assert (page (nq_limit q) (nq_offset q) l = []) as ->; [|done].
    unfold page. rewrite drop_ge by lia. apply take_nil.
  - intros Ho. rewrite bool_decide_eq_false_2; [done|]. unfold page. intros He.
    apply (f_equal length) in He. rewrite length_take, length_drop in He. simpl in He. lia.
  - rewrite pages_all; [done|done|done|]. nia.
Qed.
End opportunities.

(** * Examples *)
#[local] Existing Instance plain_unicode.

Definition sample_opportunities_request : OpportunitiesRequest :=
  {| oq_Server := "west"; oq_PurchaseMarketKeys := []; oq_Tiers := []; oq_Enchantments := [];
     oq_Qualities := []; oq_Categories := []; oq_MinimumProfit := 1; oq_MinimumReturnOnCostPercent := f_zero;
     oq_MaximumCityAgeMinutes := 0; oq_MaximumBlackMarketAgeMinutes := 0; oq_SalesTaxRate := None;
     oq_TransportCostPerUnit := 0; oq_Sort := EmptyString; oq_Limit := 0; oq_Offset := 0 |}.

(** Two swords of different quality in one city, a cape, and a plain bag. *)
Definition trade_market : MarketDB :=
  {| mk_prices := {[(1, 4002, "T4_MAIN_SWORD", 1) := market_row 1000 900 (100000 * second);
                    (1, 4002, "T4_MAIN_SWORD", 2) := market_row 800 700 (100000 * second);
                    (1, 3003, "T4_MAIN_SWORD", 1) := market_row 1600 1500 (100000 * second);
                    (1, 3005, "T4_MAIN_SWORD", 3) := market_row 1400 10 (90000 * second);
                    (1, 4002, "T4_BAG", 1) := market_row 100 90 (100000 * second);
                    (1, 3003, "T4_BAG", 1) := market_row 1600 1500 (100000 * second)]};
     mk_buckets := ∅ |}.

Definition search_at (now : time) : opportunities_call :=
  {| oc_now := now; oc_pg_now := now; oc_rows_fail := false; oc_coverage_fails := false |}.

Definition middle (l : list Z) : Z := nth (length l / 2) l 0.

(** The cheaper sword is offered; the plain bag, an accessory to the code, is not
    among the items of the query. *)
Example opportunities_found :
  match Opportunities NewDefault middle (search_at (100060 * second)) sample_opportunities_request trade_market with
  | Ok resp =>
      (or_TotalMatching resp,
       map (fun o => (op_ID o, ow_estimatedSalesTax (op_row o), ow_profit (op_row o), ow_breakEvenUnitPrice (op_row o),
                      op_Risk o, oc_Profit (op_CaerleonCompetition o))) (or_Data resp))
      = (1, [("T4_MAIN_SWORD:fort_sterling:q2:bmq1", 60, 640, 834, "medium", Some 40)])
  | Err _ => False
  end.
Proof. vm_compute. reflexivity. Qed.

(** A tax rate close to one is accepted: nothing is found, although the break-even price
    of a pair would not fit a [bigint], since no row is kept.  An offer at the largest
    price a row can have, however, fails every search it takes part in: the condition
    itself cannot be computed. *)
Definition search_request (rate : float64) (transport : Z) : OpportunitiesRequest :=
  {| oq_Server := "west"; oq_PurchaseMarketKeys := []; oq_Tiers := []; oq_Enchantments := [];
     oq_Qualities := []; oq_Categories := []; oq_MinimumProfit := 0; oq_MinimumReturnOnCostPercent := f_zero;
     oq_MaximumCityAgeMinutes := 0; oq_MaximumBlackMarketAgeMinutes := 0; oq_SalesTaxRate := Some rate;
     oq_TransportCostPerUnit := transport; oq_Sort := EmptyString; oq_Limit := 0; oq_Offset := 0 |}.

Example high_tax_rate_finds_nothing :
  match Opportunities NewDefault middle (search_at (100060 * second)) (search_request (f_lit "0.9999999999999999") 10000) trade_market with
  | Ok resp => Some (or_TotalMatching resp)
  | Err _ => None
  end = Some 0.
Proof. vm_compute. reflexivity. Qed.

Theorem absurd_price_fails :
  exists q,
    normalizeOpportunitiesRequest NewDefault (search_request (f_lit "0.04") 10000) = Ok q /\
    Opportunities NewDefault middle (search_at (100060 * second)) (search_request (f_lit "0.04") 10000)
      {| mk_prices := <[(1, 4002, "T4_MAIN_SWORD", 1) := market_row max_int64 900 (100000 * second)]> (mk_prices trade_market);
         mk_buckets := ∅ |} = Err PricesFailed.
Proof. eexists. split; vm_compute; reflexivity. Qed.

(** The two rounding rules for the tax: [math.Round] and [round] of the
    database. *)
Example tax_rounding :
  (int_round (f_mul (of_Z 10) (f_lit "0.05")), sales_tax (f_lit "0.05") 10) = (1, Some 0).
Proof. vm_compute. reflexivity. Qed.

Lemma classification_agrees_witness :
  match normalizeOpportunitiesRequest NewDefault sample_opportunities_request with
  | Ok q => opportunityTierAndEnchantment "T8_2H_HALBERD@2" = (8, 2) /\
            included q (opportunityCategory "T8_2H_HALBERD@2") = true
  | Err _ => False
  end.
Proof.
  destruct (normalizeOpportunitiesRequest NewDefault sample_opportunities_request) as [q|] eqn:E; [|by vm_compute in E].
  destruct (classification_agrees q "T8_2H_HALBERD@2") as (Ht & _ & _ & Hc); [done| |by split].
  vm_compute in E. injection E as <-. vm_compute. reflexivity.
Defined.

Lemma Opportunities_sound_witness :
  exists resp o, Opportunities NewDefault middle (search_at (100060 * second)) sample_opportunities_request trade_market = Ok resp /\
    or_Data resp = [o] /\ or_Returned resp <= or_Limit resp <= 500.
Proof.
  destruct (normalizeOpportunitiesRequest NewDefault sample_opportunities_request) as [q|] eqn:En; [|by vm_compute in En].
  destruct (matching middle q (100060 * second) (100060 * second) trade_market) as [l|] eqn:Em;
    [|vm_compute in En; injection En as <-; by vm_compute in Em].
  destruct (Opportunities NewDefault middle (search_at (100060 * second)) sample_opportunities_request trade_market)
    as [resp|] eqn:Eo; [|by vm_compute in Eo].
  destruct (Opportunities_sound NewDefault middle (search_at (100060 * second)) _ _ _ _ _ En Em Eo) as (_ & _ & _ & Hl & _).
  exists resp. vm_compute in Eo. injection Eo as <-. eexists. split_and!; [done|done|apply Hl..].
Defined.

Lemma page_past_end_witness :
  exists q l, matching middle q (100060 * second) (100060 * second) trade_market = Some l /\
    length l = 1%nat /\ loadOpportunities middle (search_at (100060 * second)) q trade_market = Ok ([], 0).
Proof.
  destruct (normalizeOpportunitiesRequest NewDefault
    {| oq_Server := "west"; oq_PurchaseMarketKeys := []; oq_Tiers := []; oq_Enchantments := [];
     oq_Qualities := []; oq_Categories := []; oq_MinimumProfit := 1; oq_MinimumReturnOnCostPercent := f_zero;
     oq_MaximumCityAgeMinutes := 0; oq_MaximumBlackMarketAgeMinutes := 0; oq_SalesTaxRate := None;
     oq_TransportCostPerUnit := 0; oq_Sort := EmptyString; oq_Limit := 0; oq_Offset := 1 |}) as [q|] eqn:En;
    [|by vm_compute in En].
  vm_compute in En. injection En as En. exists q. subst q.
  match goal with |- exists l, matching _ ?q _ _ _ = _ /\ _ =>
    destruct (matching middle q (100060 * second) (100060 * second) trade_market) as [l|] eqn:Em;
      [|by vm_compute in Em];
    assert (length l = 1%nat) as Hlen by (vm_compute in Em; injection Em as <-; reflexivity);
    exists l; split; [done|]; split; [done|];
    apply (proj1 (page_past_end middle (search_at (100060 * second)) q trade_market l Em eq_refl ltac:(vm_compute; discriminate)))
  end.
  rewrite Hlen. vm_compute. discriminate.
Defined.
