(* ===== verification/SavedData.v ===== *)
(** Saved presets and calculations: [internal/saveddata/saveddata.go], with the
    tables of [migrations/0016_cloud_saved_data.sql]; the service, then the HTTP
    handlers. *)
From S2P Require Import Prelude GoLists GoBase Float64 Webhook BillingDB Utf8 Json Billing Accounts Http.
Local Open Scope Z_scope.

Definition PresetLimitEntitlement : string := "saved_configurations.max".
Definition CalculationLimitEntitlement : string := "saved_calculations.max".
Definition defaultPresetLimit : Z := 3.
Definition defaultCalculationLimit : Z := 20.
Definition maxListLimit : Z := 100.

(** [kindPattern]: [^[a-z][a-z0-9_-]{0,31}$]. *)
Definition kind_first (c : ascii) : bool := in_range 97 122 c.
Definition kind_rest (c : ascii) : bool :=
  in_range 97 122 c || in_range 48 57 c || bool_decide (c = "_"%char) || bool_decide (c = "-"%char).

Definition kindPattern (s : string) : bool :=
  match s with
  | String c s' => kind_first c && str_all kind_rest s' && (str_len s' <=? 31)
  | EmptyString => false
  end.

(** * Data *)

Record Preset := {
  ps_ID : string;
  ps_Name : string;
  ps_Payload : string;
  ps_IsDefault : bool;
  ps_CreatedAt : time;
  ps_UpdatedAt : time;
}.

Record Calculation := {
  ca_ID : string;
  ca_Name : option string;
  ca_Kind : string;
  ca_Snapshot : string;
  ca_CreatedAt : time;
}.

Record PresetInput := { pin_Name : string; pin_Payload : string; pin_IsDefault : bool }.

Record CalculationInput := {
  cin_Name : option string;
  cin_Kind : string;
  cin_Snapshot : string;
}.

(** The rows: a preset or calculation and the user it belongs to. *)
Record SavedDB := {
  sv_accounts : AccountsDB;
  sv_presets : list (string * Preset);
  sv_calculations : list (string * Calculation);
}.

(** What PostgreSQL makes of texts: [jsonb] of a JSON text, when it accepts it, its
    [jsonb_typeof], and [lower]. *)
Class SavedEncoding := {
  to_jsonb : string -> option string;
  jsonb_typeof : string -> string;
  sql_lower : string -> string;
}.

(** * Errors *)

Inductive saved_step := SBegin | SCount | SClear | SInsert | SUpdate | SDelete | SList | SCommit.

(** A statement fails with a violation of a unique index ([23505]), without a row
    to return, or otherwise. *)
Inductive saved_failure := UniqueViolation | NoSuchRow | Failure (e : db_failure).

Inductive saved_error :=
  | ErrLimitReached
  | ErrNotFound
  | ErrConflict
  | ErrInvalid
  | AccessError (e : account_error)
  | StatementError (st : saved_step) (e : saved_failure).

Definition normalizeDatabaseError (st : saved_step) (e : saved_failure) : saved_error :=
  match e with
  | NoSuchRow => ErrNotFound
  | UniqueViolation => ErrConflict
  | Failure _ => StatementError st e
  end.

(** The environment of a call: the account queries, the [now()] of the
    transaction, the identifier the database generates, and what becomes of the
    statements. *)
Record saved_call := {
  sv_account : account_call;
  sv_now : time;
  sv_new_id : string;
  sv_outcome : saved_step -> outcome;
}.

Definition set_saved_accounts (a : AccountsDB) (d : SavedDB) : SavedDB :=
  {| sv_accounts := a; sv_presets := sv_presets d; sv_calculations := sv_calculations d |}.
Definition set_presets (l : list (string * Preset)) (d : SavedDB) : SavedDB :=
  {| sv_accounts := sv_accounts d; sv_presets := l; sv_calculations := sv_calculations d |}.
Definition set_calculations (l : list (string * Calculation)) (d : SavedDB) : SavedDB :=
  {| sv_accounts := sv_accounts d; sv_presets := sv_presets d; sv_calculations := l |}.

(** * Validation *)

(** [isJSONObject]: a JSON text whose value is an object. *)
Definition isJSONObject (value : string) : bool :=
  match scan_json value with
  | Scanned (JObject _, _) rest => is_empty (skip_spaces rest)
  | _ => false
  end.

Definition validatePresetInput (input : PresetInput) : result saved_error unit :=
  let name := TrimSpace (pin_Name input) in
  fail_if is_empty name || (80 <? RuneCount name) || negb (isJSONObject (pin_Payload input))
    with ErrInvalid else
  Ok tt.

Definition validateCalculationInput (input : CalculationInput) : result saved_error unit :=
  fail_if match cin_Name input with Some n => 120 <? RuneCount (TrimSpace n) | None => false end
    with ErrInvalid else
  let kind := TrimSpace (cin_Kind input) in
  fail_if negb (is_empty kind) && negb (kindPattern kind) with ErrInvalid else
  fail_if negb (isJSONObject (cin_Snapshot input)) with ErrInvalid else
  Ok tt.

(** [entitlementLimit]: a number is truncated by [int(typed)]; anything else, and
    an entitlement that is absent, gives the fallback. *)
Definition entitlementLimit (entitlements : gmap string any_value) (key : string) (fallback : Z) : Z :=
  match entitlements !! key with
  | Some (VNumber q) => to_int64 (Some (Z.quot (Qnum q) (Z.pos (Qden q))))
  | _ => fallback
  end.

(** * Tables *)
Section saved.
Context `{Unicode} `{EntitlementEncoding} `{SavedEncoding}.

(** [saved_presets_user_name_unique] and [saved_presets_one_default_per_user]. *)
Definition same_name (r1 r2 : string * Preset) : bool :=
  bool_decide (r1.1 = r2.1)
  && bool_decide (sql_lower (btrim (ps_Name r1.2)) = sql_lower (btrim (ps_Name r2.2))).
Definition both_default (r1 r2 : string * Preset) : bool :=
  bool_decide (r1.1 = r2.1) && ps_IsDefault r1.2 && ps_IsDefault r2.2.

(** The [check] constraints. *)
Definition preset_checks (p : Preset) : bool :=
  length_between 1 80 (btrim (ps_Name p)) && bool_decide (jsonb_typeof (ps_Payload p) = "object").
Definition calculation_checks (c : Calculation) : bool :=
  null_or (fun n => length_between 1 120 (btrim n)) (ca_Name c)
  && kindPattern (ca_Kind c) && bool_decide (jsonb_typeof (ca_Snapshot c) = "object").

(** Adding or changing a row checks the row and then the unique indexes. *)
Definition admit_preset (r : string * Preset) (others : list (string * Preset))
    : result saved_failure unit :=
  fail_if negb (preset_checks r.2) with Failure ConstraintViolation else
  fail_if existsb (same_name r) others || existsb (both_default r) others with UniqueViolation else
  Ok tt.

(** [update ... set is_default = false, updated_at = now() where user_id = $1 and
    is_default], which [UpdatePreset] restricts to the other presets. *)
Definition clear_default (now : time) (user : string) (keep : Preset -> bool)
    (l : list (string * Preset)) : list (string * Preset) :=
  map (fun '(u, p) =>
    if bool_decide (u = user) && ps_IsDefault p && negb (keep p) then
      (u, {| ps_ID := ps_ID p; ps_Name := ps_Name p; ps_Payload := ps_Payload p;
             ps_IsDefault := false; ps_CreatedAt := ps_CreatedAt p; ps_UpdatedAt := now |})
    else (u, p)) l.

Definition insert_preset (r : string * Preset) (l : list (string * Preset))
    : result saved_failure (Preset * list (string * Preset)) :=
  fail_if existsb (fun r' => bool_decide (ps_ID r'.2 = ps_ID r.2)) l with UniqueViolation else
  let! _ := admit_preset r l in Ok (r.2, l ++ [r]).

(** The rows of the [where] of an update or a deletion. *)
Definition is_preset (user id : string) (r : string * Preset) : bool :=
  bool_decide (r.1 = user) && bool_decide (ps_ID r.2 = id).
Definition is_calculation (user id : string) (r : string * Calculation) : bool :=
  bool_decide (r.1 = user) && bool_decide (ca_ID r.2 = id).

(** The identifier is a primary key, so at most one row is updated. *)
Definition update_preset (now : time) (user id name payload : string) (default : bool)
    (l : list (string * Preset)) : result saved_failure (Preset * list (string * Preset)) :=
  match List.find (is_preset user id) l with
  | None => Err NoSuchRow
  | Some (_, p) =>
      let p' := {| ps_ID := ps_ID p; ps_Name := name; ps_Payload := payload; ps_IsDefault := default;
                   ps_CreatedAt := ps_CreatedAt p; ps_UpdatedAt := now |} in
      let! _ := admit_preset (user, p') (List.filter (fun r => negb (is_preset user id r)) l) in
      Ok (p', map (fun r => if is_preset user id r then (user, p') else r) l)
  end.

Definition jsonb_param (text : string) : result saved_failure string :=
  of_option (Failure OtherFailure) (to_jsonb text).

Definition text_param (text : string) : result saved_failure string :=
  if sql_text text then Ok text else Err (Failure OtherFailure).

(** * Statements *)

Definition stmt {A} (c : saved_call) (st : saved_step) (wrap : saved_failure -> saved_error)
    (r : result saved_failure A) : result saved_error A :=
  match sv_outcome c st with
  | Done => rmap_err wrap r
  | Refused cause | AckLost cause => Err (wrap (Failure (outage_failure cause)))
  end.

Definition query_stmt {A} (c : saved_call) (st : saved_step) (a : A) : result saved_error A :=
  stmt c st (StatementError st) (Ok a).

(** [tx.Commit]: the changes of [d'] over [d]. *)
Definition commit_saved {A} (c : saved_call) (d : SavedDB) (r : result saved_error (A * SavedDB))
    : result saved_error A * SavedDB :=
  match r with
  | Err e => (Err e, d)
  | Ok (a, d') =>
      match sv_outcome c SCommit with
      | Done => (Ok a, d')
      | Refused cause => (Err (StatementError SCommit (Failure (outage_failure cause))), d)
      | AckLost cause => (Err (StatementError SCommit (Failure (outage_failure cause))), d')
      end
  end.

(** A statement that is its own transaction, with one [text] parameter. *)
Definition autocommit_saved {A} (c : saved_call) (st : saved_step) (text : string) (d : SavedDB)
    (a : A) (d' : SavedDB) : result saved_error A * SavedDB :=
  match sv_outcome c st, text_param text with
  | Refused cause, _ => (Err (StatementError st (Failure (outage_failure cause))), d)
  | _, Err e => (Err (StatementError st e), d)
  | Done, Ok _ => (Ok a, d')
  | AckLost cause, Ok _ => (Err (StatementError st (Failure (outage_failure cause))), d')
  end.

(** [access]: the account is synchronised, whatever follows. *)
Definition with_access {A} (c : saved_call) (identity : Identity) (d : SavedDB)
    (k : Access -> SavedDB -> result saved_error A * SavedDB) : result saved_error A * SavedDB :=
  match Current (sv_account c) identity (sv_accounts d) with
  | (Err e, a) => (Err (AccessError e), set_saved_accounts a d)
  | (Ok access, a) => k access (set_saved_accounts a d)
  end.

Definition user_id (access : Access) : string := u_ID (a_User access).

Definition rows_of {A} (user : string) (l : list (string * A)) : list A :=
  map snd (List.filter (fun r => bool_decide (fst r = user)) l).

Definition count_rows {A} (user : string) (l : list (string * A)) : Z :=
  Z.of_nat (length (rows_of user l)).

(** * Presets *)

(** [order by is_default desc, updated_at desc, created_at desc] *)
Definition preset_less : Preset -> Preset -> bool :=
  then_less (fun a b => ps_IsDefault a && negb (ps_IsDefault b))
    (then_less (fun a b => ps_UpdatedAt b <? ps_UpdatedAt a)
       (fun a b => ps_CreatedAt b <? ps_CreatedAt a)).

Definition ListPresets (c : saved_call) (identity : Identity) (d : SavedDB)
    : result saved_error (list Preset) * SavedDB :=
  with_access c identity d (fun access d =>
    (query_stmt c SList (slice_stable preset_less (rows_of (user_id access) (sv_presets d))), d)).

(** The transaction of [CreatePreset]: the count is read from the committed
    state, and the writes apply to what the state has become by then. *)
Definition create_preset_tx (c : saved_call) (user : string) (limit : Z) (input : PresetInput)
    (d : SavedDB) (others : SavedDB -> SavedDB) : result saved_error Preset * SavedDB :=
  let d1 := others d in
  commit_saved c d1
    (let! _ := query_stmt c SBegin tt in
     let! count := query_stmt c SCount (count_rows user (sv_presets d)) in
     fail_if limit <=? count with ErrLimitReached else
     let! l := (if pin_IsDefault input
                then query_stmt c SClear (clear_default (sv_now c) user (fun _ => false) (sv_presets d1))
                else Ok (sv_presets d1)) in
     let! (preset, l) := stmt c SInsert (normalizeDatabaseError SInsert)
       (let! name := text_param (TrimSpace (pin_Name input)) in
        let! payload := jsonb_param (pin_Payload input) in
        insert_preset
          (user, {| ps_ID := sv_new_id c; ps_Name := name; ps_Payload := payload;
                    ps_IsDefault := pin_IsDefault input; ps_CreatedAt := sv_now c;
                    ps_UpdatedAt := sv_now c |}) l) in
     Ok (preset, set_presets l d1)).

(** [CreatePreset], with what other transactions commit between its count and
    its writes. *)
Definition CreatePresetAmid (others : SavedDB -> SavedDB) (c : saved_call) (identity : Identity)
    (input : PresetInput) (d : SavedDB) : result saved_error Preset * SavedDB :=
  match validatePresetInput input with
  | Err e => (Err e, d)
  | Ok _ =>
      with_access c identity d (fun access d =>
        let limit := entitlementLimit (a_Entitlements access) PresetLimitEntitlement
                       defaultPresetLimit in
        if limit <=? 0 then (Err ErrLimitReached, d)
        else create_preset_tx c (user_id access) limit input d others)
  end.

Definition CreatePreset : saved_call -> Identity -> PresetInput -> SavedDB ->
    result saved_error Preset * SavedDB := CreatePresetAmid (fun d => d).

Definition UpdatePreset (c : saved_call) (identity : Identity) (presetID : string)
    (input : PresetInput) (d : SavedDB) : result saved_error Preset * SavedDB :=
  if is_empty (TrimSpace presetID) then (Err ErrInvalid, d) else
  match validatePresetInput input with
  | Err e => (Err e, d)
  | Ok _ =>
      with_access c identity d (fun access d =>
        let user := user_id access in
        commit_saved c d
          (let! _ := query_stmt c SBegin tt in
           let! l := (if pin_IsDefault input
                      then stmt c SClear (StatementError SClear)
                             (let! id := text_param presetID in
                              Ok (clear_default (sv_now c) user
                                    (fun p => bool_decide (ps_ID p = id)) (sv_presets d)))
                      else Ok (sv_presets d)) in
           let! (preset, l) := stmt c SUpdate (normalizeDatabaseError SUpdate)
             (let! id := text_param presetID in
              let! name := text_param (TrimSpace (pin_Name input)) in
              let! payload := jsonb_param (pin_Payload input) in
              update_preset (sv_now c) user id name payload (pin_IsDefault input) l) in
           Ok (preset, set_presets l d)))
  end.

Definition DeletePreset (c : saved_call) (identity : Identity) (presetID : string) (d : SavedDB)
    : result saved_error unit * SavedDB :=
  with_access c identity d (fun access d =>
    let gone := is_preset (user_id access) (TrimSpace presetID) in
    let l := List.filter (fun r => negb (gone r)) (sv_presets d) in
    match autocommit_saved c SDelete (TrimSpace presetID) d
            (Z.of_nat (length (List.filter gone (sv_presets d))))
            (set_presets l d) with
    | (Ok affected, d) => (if affected =? 0 then Err ErrNotFound else Ok tt, d)
    | (Err e, d) => (Err e, d)
    end).

(** * Calculations *)

Definition calculation_less (a b : Calculation) : bool := ca_CreatedAt b <? ca_CreatedAt a.

(** The limit of a listing: the one asked for, or at most 20, within the
    entitlement and [maxListLimit]. *)
Definition list_limit (entitlementMax requestedLimit : Z) : Z :=
  let limit := if requestedLimit <=? 0 then Z.min entitlementMax 20 else requestedLimit in
  Z.min (Z.min limit entitlementMax) maxListLimit.

Definition ListCalculations (c : saved_call) (identity : Identity) (requestedLimit : Z) (d : SavedDB)
    : result saved_error (list Calculation) * SavedDB :=
  with_access c identity d (fun access d =>
    let limit := list_limit (entitlementLimit (a_Entitlements access) CalculationLimitEntitlement
                               defaultCalculationLimit) requestedLimit in
    if limit <=? 0 then (Ok [], d)
    else
      (query_stmt c SList
         (take (Z.to_nat limit)
            (slice_stable calculation_less (rows_of (user_id access) (sv_calculations d)))), d)).

Definition insert_calculation (r : string * Calculation) (l : list (string * Calculation))
    : result saved_failure (Calculation * list (string * Calculation)) :=
  fail_if existsb (fun r' => bool_decide (ca_ID r'.2 = ca_ID r.2)) l with UniqueViolation else
  fail_if negb (calculation_checks r.2) with Failure ConstraintViolation else
  Ok (r.2, l ++ [r]).

Definition calculation_kind (input : CalculationInput) : string :=
  let kind := TrimSpace (cin_Kind input) in if is_empty kind then "craft" else kind.

Definition calculation_name (input : CalculationInput) : option string :=
  match cin_Name input with
  | Some name => if is_empty (TrimSpace name) then None else Some (TrimSpace name)
  | None => None
  end.

Definition create_calculation_tx (c : saved_call) (user : string) (limit : Z)
    (input : CalculationInput) (d : SavedDB) (others : SavedDB -> SavedDB)
    : result saved_error Calculation * SavedDB :=
  let d1 := others d in
  commit_saved c d1
    (let! _ := query_stmt c SBegin tt in
     let! count := query_stmt c SCount (count_rows user (sv_calculations d)) in
     fail_if limit <=? count with ErrLimitReached else
     let! (calculation, l) := stmt c SInsert (normalizeDatabaseError SInsert)
       (let! name := match calculation_name input with
                     | Some name => let! name := text_param name in Ok (Some name)
                     | None => Ok None
                     end in
        let! snapshot := jsonb_param (cin_Snapshot input) in
        insert_calculation
          (user, {| ca_ID := sv_new_id c; ca_Name := name;
                    ca_Kind := calculation_kind input; ca_Snapshot := snapshot;
                    ca_CreatedAt := sv_now c |}) (sv_calculations d1)) in
     Ok (calculation, set_calculations l d1)).

Definition CreateCalculationAmid (others : SavedDB -> SavedDB) (c : saved_call) (identity : Identity)
    (input : CalculationInput) (d : SavedDB) : result saved_error Calculation * SavedDB :=
  match validateCalculationInput input with
  | Err e => (Err e, d)
  | Ok _ =>
      with_access c identity d (fun access d =>
        let limit := entitlementLimit (a_Entitlements access) CalculationLimitEntitlement
                       defaultCalculationLimit in
        if limit <=? 0 then (Err ErrLimitReached, d)
        else create_calculation_tx c (user_id access) limit input d others)
  end.

Definition CreateCalculation : saved_call -> Identity -> CalculationInput -> SavedDB ->
    result saved_error Calculation * SavedDB := CreateCalculationAmid (fun d => d).

Definition DeleteCalculation (c : saved_call) (identity : Identity) (calculationID : string)
    (d : SavedDB) : result saved_error unit * SavedDB :=
  with_access c identity d (fun access d =>
    let gone := is_calculation (user_id access) (TrimSpace calculationID) in
    let l := List.filter (fun r => negb (gone r)) (sv_calculations d) in
    match autocommit_saved c SDelete (TrimSpace calculationID) d
            (Z.of_nat (length (List.filter gone (sv_calculations d))))
            (set_calculations l d) with
    | (Ok affected, d) => (if affected =? 0 then Err ErrNotFound else Ok tt, d)
    | (Err e, d) => (Err e, d)
    end).
End saved.

(** ** The HTTP handlers of [internal/saveddata/saveddata.go]. *)

(** What the handlers write. *)
Inductive saved_body :=
  | SavedError (message : string)
  | SavedPresets (presets : list Preset)
  | SavedPreset (preset : Preset)
  | SavedCalculations (calculations : list Calculation)
  | SavedCalculation (calculation : Calculation)
  | NoBody.

Definition saved_response := Response saved_body.

Definition saved_write (status : Z) (headers : list (string * string)) (body : saved_body)
    : saved_response :=
  {| rs_Status := status; rs_Headers := headers ++ [json_type; no_store]; rs_Body := body |}.

Definition saved_writeError (status : Z) (message : string) : saved_response :=
  saved_write status [] (SavedError message).

Definition saved_no_content : saved_response :=
  {| rs_Status := StatusNoContent; rs_Headers := []; rs_Body := NoBody |}.

Definition saved_unauthorized : saved_response := saved_writeError StatusUnauthorized "unauthorized".

Definition saved_not_allowed (allow : string) : saved_response :=
  saved_write StatusMethodNotAllowed [("Allow", allow)] (SavedError "method not allowed").

Definition handleError (e : saved_error) : saved_response :=
  match e with
  | ErrInvalid => saved_writeError StatusBadRequest "invalid saved data"
  | ErrLimitReached => saved_writeError StatusConflict "saved data limit reached"
  | ErrConflict => saved_writeError StatusConflict "a saved item with that name already exists"
  | ErrNotFound => saved_writeError StatusNotFound "saved data not found"
  | AccessError _ | StatementError _ _ =>
      saved_writeError StatusInternalServerError "internal server error"
  end.

(** [NewHandler]: the bound of a body. *)
Definition saved_body_limit (maxBodyBytes : Z) : Z :=
  if maxBodyBytes <=? 0 then Z.shiftl 256 10 else maxBodyBytes.

(** * Decoding *)

Definition zero_preset_input : PresetInput :=
  {| pin_Name := EmptyString; pin_Payload := EmptyString; pin_IsDefault := false |}.
Definition zero_calculation_input : CalculationInput :=
  {| cin_Name := None; cin_Kind := EmptyString; cin_Snapshot := EmptyString |}.

#[local] Abbreviation PIN := Build_PresetInput.
#[local] Abbreviation CIN := Build_CalculationInput.

Section handlers.
Context `{Unicode} `{EntitlementEncoding} `{SavedEncoding}.

Definition dec_PresetInput : decoder PresetInput :=
  dec_struct
    [("name", field pin_Name (fun x '(PIN _ p d) => PIN x p d) dec_string);
     ("payload", field pin_Payload (fun x '(PIN n _ d) => PIN n x d) dec_raw);
     ("isDefault", field pin_IsDefault (fun x '(PIN n p _) => PIN n p x) dec_bool)].

Definition dec_CalculationInput : decoder CalculationInput :=
  dec_struct
    [("name", field cin_Name (fun x '(CIN _ k s) => CIN x k s) (dec_pointer EmptyString dec_string));
     ("kind", field cin_Kind (fun x '(CIN n _ s) => CIN n x s) dec_string);
     ("snapshot", field cin_Snapshot (fun x '(CIN n k _) => CIN n k x) dec_raw)].

(** [decode]: one value and nothing but space within the first
    [maxBodyBytes + 1] bytes. *)
Definition saved_decode {A} (d : decoder A) (zero : A) (maxBodyBytes : Z) (r : HttpRequest) : option A :=
  match decode_next d zero (LimitReader (wrap64 (maxBodyBytes + 1)) (hr_Body r)) with
  | Ok (a, rest) => if at_eof rest then Some a else None
  | Err _ => None
  end.

Definition saved_invalid : saved_response := saved_writeError StatusBadRequest "invalid request".

(** What a handler makes of the answer of the service. *)
Definition saved_answer {A} (status : Z) (body : A -> saved_body)
    (r : result saved_error A * SavedDB) : saved_response * SavedDB :=
  (match r.1 with Ok a => saved_write status [] (body a) | Err e => handleError e end, r.2).

Definition saved_deleted (r : result saved_error unit * SavedDB) : saved_response * SavedDB :=
  (match r.1 with Ok _ => saved_no_content | Err e => handleError e end, r.2).

(** * Handlers *)
Section handler.
Context (maxBodyBytes : Z) (c : saved_call).

Definition Presets (r : HttpRequest) (d : SavedDB) : saved_response * SavedDB :=
  match hr_Identity r with
  | None => (saved_unauthorized, d)
  | Some identity =>
      if bool_decide (hr_Method r = "GET") then
        saved_answer StatusOK SavedPresets (ListPresets c identity d)
      else if bool_decide (hr_Method r = "POST") then
        match saved_decode dec_PresetInput zero_preset_input maxBodyBytes r with
        | None => (saved_invalid, d)
        | Some input => saved_answer StatusCreated SavedPreset (CreatePreset c identity input d)
        end
      else (saved_not_allowed "GET, POST", d)
  end.

Definition PresetByID (r : HttpRequest) (d : SavedDB) : saved_response * SavedDB :=
  match hr_Identity r with
  | None => (saved_unauthorized, d)
  | Some identity =>
      let presetID := hr_PathValue r "presetId" in
      if bool_decide (hr_Method r = "PUT") then
        match saved_decode dec_PresetInput zero_preset_input maxBodyBytes r with
        | None => (saved_invalid, d)
        | Some input => saved_answer StatusOK SavedPreset (UpdatePreset c identity presetID input d)
        end
      else if bool_decide (hr_Method r = "DELETE") then
        saved_deleted (DeletePreset c identity presetID d)
      else (saved_not_allowed "PUT, DELETE", d)
  end.

(** [strconv.Atoi] with its error dropped: a number out of range is the nearest
    one in range, and what is not a number is 0. *)
Definition atoi_or_zero (s : string) : Z :=
  match ParseInt (- 10 ^ str_len s) (10 ^ str_len s) s with
  | Some n => Z.max min_int64 (Z.min max_int64 n)
  | None => 0
  end.

Definition Calculations (r : HttpRequest) (d : SavedDB) : saved_response * SavedDB :=
  match hr_Identity r with
  | None => (saved_unauthorized, d)
  | Some identity =>
      if bool_decide (hr_Method r = "GET") then
        saved_answer StatusOK SavedCalculations
          (ListCalculations c identity (atoi_or_zero (hr_Query r "limit")) d)
      else if bool_decide (hr_Method r = "POST") then
        match saved_decode dec_CalculationInput zero_calculation_input maxBodyBytes r with
        | None => (saved_invalid, d)
        | Some input =>
            saved_answer StatusCreated SavedCalculation (CreateCalculation c identity input d)
        end
      else (saved_not_allowed "GET, POST", d)
  end.

Definition CalculationByID (r : HttpRequest) (d : SavedDB) : saved_response * SavedDB :=
  match hr_Identity r with
  | None => (saved_unauthorized, d)
  | Some identity =>
      if bool_decide (hr_Method r = "DELETE") then
        saved_deleted (DeleteCalculation c identity (hr_PathValue r "calculationId") d)
      else (saved_not_allowed "DELETE", d)
  end.
End handler.
End handlers.
