(* ===== verification/SavedDataSpec.v ===== *)
(** What the saved data service promises: names and defaults stay unique, a
    user's calls touch the rows of that user only, a refused call changes
    nothing, and how far the limits hold. *)
From S2P Require Import Prelude GoLists GoBase Webhook BillingDB Billing BillingSamples BillingSpec Utf8 Json Accounts AccountsSpec Http SavedData.
Local Open Scope Z_scope.

(** * Tables *)

Section saved.
Context `{Unicode} `{EntitlementEncoding} `{SavedEncoding}.

(** The unique indexes and checks of the two tables. *)
Definition same_preset_id (r1 r2 : string * Preset) : bool := bool_decide (ps_ID r1.2 = ps_ID r2.2).
Definition same_calculation_id (r1 r2 : string * Calculation) : bool :=
  bool_decide (ca_ID r1.2 = ca_ID r2.2).

Definition presets_wf (l : list (string * Preset)) : Prop :=
  unique_by same_preset_id l /\ unique_by same_name l /\ unique_by both_default l /\
  Forall (fun r => preset_checks r.2 = true) l.

Definition saved_wf (d : SavedDB) : Prop :=
  presets_wf (sv_presets d) /\
  unique_by same_calculation_id (sv_calculations d) /\
  Forall (fun r => calculation_checks r.2 = true) (sv_calculations d).

Lemma same_name_sym r1 r2 : same_name r1 r2 = same_name r2 r1.
Proof. unfold same_name. f_equal; apply bool_decide_ext; naive_solver. Qed.
Lemma same_preset_id_sym r1 r2 : same_preset_id r1 r2 = same_preset_id r2 r1.
Proof. apply bool_decide_ext. naive_solver. Qed.
Lemma both_default_sym r1 r2 : both_default r1 r2 = both_default r2 r1.
Proof.
  unfold both_default. rewrite <- !andb_assoc. f_equal; [apply bool_decide_ext; naive_solver|].
  apply andb_comm.
Qed.

Lemma rows_of_app {A} (user : string) (l1 l2 : list (string * A)) :
  rows_of user (l1 ++ l2) = rows_of user l1 ++ rows_of user l2.
Proof. unfold rows_of. by rewrite List.filter_app, map_app. Qed.

Lemma rows_of_single {A} (user u : string) (a : A) :
  rows_of user [(u, a)] = if bool_decide (u = user) then [a] else [].
Proof. unfold rows_of. simpl. by destruct (bool_decide _). Qed.

(** A map of the rows that keeps the users changes the rows of each user. *)
Lemma rows_of_map {A} (user : string) (f : string * A -> string * A) l :
  (forall r, (f r).1 = r.1) -> (forall r, r.1 = user -> f r = r) ->
  rows_of user (map f l) = rows_of user l.
Proof.
  intros Hu Hf. unfold rows_of. induction l as [|r l IH]; [done|]. simpl. rewrite Hu.
  destruct (bool_decide _) eqn:E; simpl; [|done]. bool_facts. by rewrite Hf, IH.
Qed.

Lemma rows_of_filter_other {A} (user : string) (p : string * A -> bool) l :
  (forall r, r.1 = user -> p r = true) -> rows_of user (List.filter p l) = rows_of user l.
Proof.
  intros Hp. unfold rows_of. induction l as [|r l IH]; [done|]. simpl.
  destruct (p r) eqn:E; simpl; destruct (bool_decide (r.1 = user)) eqn:E2; simpl; rewrite ?IH; try done.
  bool_facts. by rewrite Hp in E.
Qed.

(** ** Clearing a default *)

Lemma clear_default_other now user u keep l :
  u <> user -> rows_of u (clear_default now user keep l) = rows_of u l.
Proof.
  intros Hu. unfold clear_default. apply rows_of_map; intros [v p]; simpl; [by case_if|].
  intros ->. by rewrite bool_decide_eq_false_2.
Qed.

Lemma clear_default_length now user u keep l :
  length (rows_of u (clear_default now user keep l)) = length (rows_of u l).
Proof.
  unfold clear_default, rows_of. induction l as [|[v p] l IH]; [done|]. simpl.
  destruct (bool_decide (v = user) && _ && _); simpl; destruct (bool_decide (v = u)); simpl; by rewrite ?IH.
Qed.

(** What clearing makes of a row: only [is_default] and the date change. *)
Definition clear_row (now : time) (user : string) (keep : Preset -> bool) (r : string * Preset)
    : string * Preset :=
  let '(u, p) := r in
  if bool_decide (u = user) && ps_IsDefault p && negb (keep p) then
    (u, {| ps_ID := ps_ID p; ps_Name := ps_Name p; ps_Payload := ps_Payload p;
           ps_IsDefault := false; ps_CreatedAt := ps_CreatedAt p; ps_UpdatedAt := now |})
  else (u, p).

Lemma clear_row_facts now user keep r :
  let r' := clear_row now user keep r in
  r'.1 = r.1 /\ ps_ID r'.2 = ps_ID r.2 /\ ps_Name r'.2 = ps_Name r.2 /\ ps_Payload r'.2 = ps_Payload r.2 /\
  (ps_IsDefault r'.2 = true -> ps_IsDefault r.2 = true) /\
  (r.1 = user -> ps_IsDefault r'.2 = true -> keep r.2 = true) /\
  (ps_IsDefault r.2 = false -> r' = r).
Proof.
  destruct r as [u p]. simpl. destruct (bool_decide (u = user)) eqn:E1, (ps_IsDefault p) eqn:E2, (keep p) eqn:E3;
    simpl; bool_facts; split_and!; intros; congruence.
Qed.

Lemma clear_default_wf now user keep l : presets_wf l -> presets_wf (clear_default now user keep l).
Proof.
  change (clear_default now user keep l) with (map (clear_row now user keep) l).
  intros (Hid & Hn & Hd & Hc). split_and!.
  - apply unique_by_map; [|done]. intros x y _ _. unfold same_preset_id.
    destruct (clear_row_facts now user keep x) as (_ & -> & _), (clear_row_facts now user keep y) as (_ & -> & _). done.
  - apply unique_by_map; [|done]. intros x y _ _. unfold same_name.
    destruct (clear_row_facts now user keep x) as (-> & _ & -> & _), (clear_row_facts now user keep y) as (-> & _ & -> & _). done.
  - apply unique_by_map; [|done]. intros x y _ _. unfold both_default.
    destruct (clear_row_facts now user keep x) as (-> & _ & _ & _ & Hx & _), (clear_row_facts now user keep y) as (-> & _ & _ & _ & Hy & _).
    intros Hxy. apply not_true_iff_false. intros Ht. bool_facts.
    rewrite (Hx H4), (Hy H3), bool_decide_eq_true_2 in Hxy by done. done.
  - apply Forall_map. eapply Forall_impl; [exact Hc|]. intros x. unfold preset_checks, compose. simpl.
    destruct (clear_row_facts now user keep x) as (_ & _ & -> & -> & _). done.
Qed.

(** ** Adding and changing rows *)

Lemma unique_by_or {A} (s1 s2 : A -> A -> bool) l :
  unique_by (fun a b => s1 a b || s2 a b) l <-> unique_by s1 l /\ unique_by s2 l.
Proof.
  unfold unique_by. split.
  - intros Hl. split; induction Hl as [|x l Hx Hl IH]; constructor; try done;
      (eapply List.Forall_impl; [|exact Hx]); intros y ?; simpl in *; by bool_facts.
  - intros [H1' H2']. induction H1' as [|x l Hx Hl IH]; [constructor|].
    inversion H2'; subst. constructor; [|by apply IH].
    rewrite List.Forall_forall in *. intros y Hy. apply orb_false_iff. auto.
Qed.

(** One relation for the three indexes. *)
Definition clash (r1 r2 : string * Preset) : bool :=
  same_preset_id r1 r2 || (same_name r1 r2 || both_default r1 r2).

Lemma clash_sym r1 r2 : clash r1 r2 = clash r2 r1.
Proof. unfold clash. by rewrite same_preset_id_sym, same_name_sym, both_default_sym. Qed.

Lemma presets_wf_clash l :
  presets_wf l <-> unique_by clash l /\ Forall (fun r => preset_checks r.2 = true) l.
Proof. unfold presets_wf, clash. rewrite !unique_by_or. tauto. Qed.

Lemma admit_preset_ok r l :
  admit_preset r l = Ok tt <->
  preset_checks r.2 = true /\ forall r', r' ∈ l -> same_name r r' = false /\ both_default r r' = false.
Proof.
  unfold admit_preset. split.
  - intros Ha. inv_ok. bool_facts. split; [done|].
    intros r' Hr'. split; [by apply (existsb_false_elem (same_name r) l)|].
    by apply (existsb_false_elem (both_default r) l).
  - intros [-> Hl]. simpl.
    rewrite (proj2 (existsb_false_elem (same_name r) l)), (proj2 (existsb_false_elem (both_default r) l));
      [done| |]; intros r' Hr'; by apply Hl.
Qed.

Lemma insert_preset_ok r l p l' :
  insert_preset r l = Ok (p, l') -> p = r.2 /\ l' = l ++ [r] /\ (presets_wf l -> presets_wf l').
Proof.
  unfold insert_preset. intros Hi. inv_ok. destruct r0. apply admit_preset_ok in Hr as [Hc Hl].
  simplify_eq. split_and!; [done..|]. rewrite !presets_wf_clash. intros [Hu Hf]. split.
  - apply unique_by_snoc; [done|]. intros y Hy. rewrite clash_sym. unfold clash.
    destruct (Hl _ Hy) as [-> ->]. rewrite orb_false_r. rewrite same_preset_id_sym.
    exact (proj1 (existsb_false_elem _ l) Hg y Hy).
  - apply Forall_app. split; [done|]. by constructor.
Qed.

Lemma is_preset_true user id r : is_preset user id r = true <-> r.1 = user /\ ps_ID r.2 = id.
Proof. unfold is_preset. rewrite andb_true_iff, !bool_decide_eq_true. done. Qed.

Lemma update_preset_ok now user id name payload default l p' l' :
  update_preset now user id name payload default l = Ok (p', l') ->
  (exists p, (user, p) ∈ l /\ ps_ID p = id /\ p' = {| ps_ID := id; ps_Name := name; ps_Payload := payload;
     ps_IsDefault := default; ps_CreatedAt := ps_CreatedAt p; ps_UpdatedAt := now |}) /\
  l' = map (fun r => if is_preset user id r then (user, p') else r) l /\
  (presets_wf l -> presets_wf l').
Proof.
  unfold update_preset. destruct (List.find _ l) as [[u p]|] eqn:Hf; [|discriminate].
  apply find_some in Hf as [Hin Hp]. apply is_preset_true in Hp as [Hu Hid]. simpl in Hu, Hid. subst u id.
  intros Hup. cbv zeta in Hup. apply rbind_ok in Hup as ([] & Ha & Hup).
  apply admit_preset_ok in Ha as [Hc Hl]. injection Hup as Hp' Hl'. rewrite <- Hl'. clear Hl'.
  rewrite Hp' in *. split_and!.
  { exists p. by rewrite list_elem_of_In. }
  { done. }
  assert (ps_ID p' = ps_ID p) as Hid by by subst.
  rewrite !presets_wf_clash. intros [Hu Hf]. split.
  - apply unique_by_map; [|done].
    assert (forall y, y ∈ l -> is_preset user (ps_ID p) y = false -> clash (user, p) y = false ->
              clash (user, p') y = false) as Hout.
    { intros y Hy Hny Hcl. unfold clash in *. bool_facts. unfold same_preset_id in *. simpl in *. rewrite Hid.
      destruct (Hl y) as [-> ->]; [|by rewrite orb_false_r].
      apply list_elem_of_In, filter_In. rewrite Hny. by rewrite <- list_elem_of_In. }
    assert (forall y, y ∈ l -> is_preset user (ps_ID p) y = false -> clash (user, p) y = false) as Hne.
    { intros y Hy Hny. apply (unique_by_pair clash l); [apply clash_sym|done|by apply list_elem_of_In|done|].
      intros <-. by rewrite (proj2 (is_preset_true user (ps_ID p) (user, p))) in Hny. }
    intros x y Hx Hy Hxy. destruct (is_preset user (ps_ID p) x) eqn:Ex, (is_preset user (ps_ID p) y) eqn:Ey.
    + apply is_preset_true in Ex as [_ Ex], Ey as [_ Ey]. unfold clash, same_preset_id in Hxy.
      rewrite bool_decide_eq_true_2 in Hxy by congruence. done.
    + auto.
    + rewrite clash_sym. auto.
    + done.
  - apply Forall_map. eapply Forall_impl; [exact Hf|]. intros r Hr. unfold compose.
    by destruct (is_preset _ _ _).
Qed.

(** * Calls *)

Definition same_tables (d d' : SavedDB) : Prop :=
  sv_presets d' = sv_presets d /\ sv_calculations d' = sv_calculations d.

(** A change to the rows of [user] only. *)
Definition change_of (user : string) (d d' : SavedDB) : Prop :=
  (saved_wf d -> saved_wf d') /\
  forall u, u <> user -> rows_of u (sv_presets d') = rows_of u (sv_presets d) /\
                         rows_of u (sv_calculations d') = rows_of u (sv_calculations d).

(** What a call does: nothing to the tables, or a change to the rows of its
    user, which it reports unless an acknowledgement was lost. *)
Definition call_effect {A} (c : saved_call) (identity : Identity) (d : SavedDB)
    (res : result saved_error A * SavedDB) : Prop :=
  same_tables d res.2 \/
  exists access a, Current (sv_account c) identity (sv_accounts d) = (Ok access, a) /\
    change_of (user_id access) d res.2 /\
    (is_ok res.1 = true \/ exists st cause, sv_outcome c st = AckLost cause).

Lemma same_tables_refl d : same_tables d d.
Proof. done. Qed.
Lemma same_tables_wf d d' : same_tables d d' -> saved_wf d -> saved_wf d'.
Proof. unfold saved_wf. by intros [-> ->]. Qed.

Lemma call_effect_same {A} c identity d (res : result saved_error A * SavedDB) :
  same_tables d res.2 -> call_effect c identity d res.
Proof. by left. Qed.

Lemma with_access_effect {A} c identity d (k : Access -> SavedDB -> result saved_error A * SavedDB) :
  (forall access d1, same_tables d d1 -> same_tables d1 (k access d1).2 \/
     (change_of (user_id access) d1 (k access d1).2 /\
      (is_ok (k access d1).1 = true \/ exists st cause, sv_outcome c st = AckLost cause))) ->
  call_effect c identity d (with_access c identity d k).
Proof.
  intros Hk. unfold with_access.
  destruct (Current (sv_account c) identity (sv_accounts d)) as [[access|e] a] eqn:E; [|by left].
  destruct (Hk access (set_saved_accounts a d) (same_tables_refl _)) as [Hs|[[Hwf Hr] Ho]]; [by left|].
  right. exists access, a. split_and!; [done| |done]. split; [exact Hwf|exact Hr].
Qed.

Lemma commit_saved_effect {A} c user d (r : result saved_error (A * SavedDB)) :
  (forall a d', r = Ok (a, d') -> change_of user d d') ->
  same_tables d (commit_saved c d r).2 \/
  (change_of user d (commit_saved c d r).2 /\
   (is_ok (commit_saved c d r).1 = true \/ exists st cause, sv_outcome c st = AckLost cause)).
Proof.
  intros Hr. unfold commit_saved. destruct r as [[a d']|e]; [|by left].
  destruct (sv_outcome c SCommit) eqn:E; [right|by left|right]; (split; [by eapply Hr|eauto]).
Qed.

Lemma stmt_ok {A} c st wrap (r : result saved_failure A) a :
  stmt c st wrap r = Ok a -> sv_outcome c st = Done /\ r = Ok a.
Proof. unfold stmt. destruct (sv_outcome c st) eqn:E; [|discriminate..]. intros Hs. by inv_ok. Qed.

Lemma query_stmt_ok {A} c st (a b : A) : query_stmt c st a = Ok b -> a = b.
Proof. intros [_ Hq]%stmt_ok. by injection Hq. Qed.

(** ** Presets *)

Lemma set_presets_change user d l :
  (presets_wf (sv_presets d) -> presets_wf l) ->
  (forall u, u <> user -> rows_of u l = rows_of u (sv_presets d)) ->
  change_of user d (set_presets l d).
Proof. intros Hwf Hr. split; [|by auto]. intros (Hp & Hc). split; [by apply Hwf|done]. Qed.

Lemma rows_of_app_other {A} (u user : string) (l : list (string * A)) a :
  u <> user -> rows_of u (l ++ [(user, a)]) = rows_of u l.
Proof. intros Hu. rewrite rows_of_app, rows_of_single, bool_decide_eq_false_2 by done. by rewrite app_nil_r. Qed.

Lemma cleared_wf c now user st (b : bool) (r : result saved_failure (list (string * Preset))) l l' :
  (forall x, r = Ok x -> exists keep, x = clear_default now user keep l) ->
  (if b then stmt c st (StatementError st) r else Ok l) = Ok l' ->
  (presets_wf l -> presets_wf l') /\ (forall u, u <> user -> rows_of u l' = rows_of u l).
Proof.
  intros Hr. destruct b; [intros [_ Hc]%stmt_ok; destruct (Hr _ Hc) as [keep ->]|intros [= <-]; done].
  split; [apply clear_default_wf|]. intros u. apply clear_default_other.
Qed.

Lemma create_preset_tx_effect c user limit input d :
  same_tables d (create_preset_tx c user limit input d (fun d => d)).2 \/
  (change_of user d (create_preset_tx c user limit input d (fun d => d)).2 /\
   (is_ok (create_preset_tx c user limit input d (fun d => d)).1 = true
    \/ exists st cause, sv_outcome c st = AckLost cause)).
Proof.
  unfold create_preset_tx. apply commit_saved_effect. intros p d' Hp. inv_ok.
  apply stmt_ok in Hr2 as [_ Hi]. inv_ok. apply insert_preset_ok in Hi as (_ & -> & Hwf).
  unfold query_stmt in Hr1.
  eapply (cleared_wf c (sv_now c) user SClear) in Hr1 as [Hwf1 Hu]; [|intros x [= <-]; by eexists].
  apply set_presets_change; [auto|]. intros u Hne. by rewrite rows_of_app_other, Hu.
Qed.

Lemma CreatePreset_effect c identity input d :
  call_effect c identity d (CreatePreset c identity input d).
Proof.
  unfold CreatePreset, CreatePresetAmid. destruct (validatePresetInput input); [|by left].
  apply with_access_effect. intros access d1 _. case_if; [by left|]. apply create_preset_tx_effect.
Qed.

Lemma UpdatePreset_effect c identity id input d :
  call_effect c identity d (UpdatePreset c identity id input d).
Proof.
  unfold UpdatePreset. case_if; [by left|]. destruct (validatePresetInput input); [|by left].
  apply with_access_effect. intros access d1 _. apply commit_saved_effect. intros p d' Hp. inv_ok.
  apply stmt_ok in Hr1 as [_ Hi]. inv_ok. apply update_preset_ok in Hi as (_ & -> & Hwf).
  eapply (cleared_wf c (sv_now c) (user_id access) SClear) in Hr0 as [Hwf1 Hu];
    [|intros x Hx; inv_ok; by eexists].
  apply set_presets_change; [auto|]. intros u Hne. rewrite <- Hu by done. apply rows_of_map.
  - intros x. destruct (is_preset _ _ x) eqn:E; [|done]. apply is_preset_true in E. by destruct E.
  - intros x <-. destruct (is_preset _ _ x) eqn:E; [|done]. apply is_preset_true in E. by destruct E.
Qed.

Lemma filter_presets_wf p l : presets_wf l -> presets_wf (List.filter p l).
Proof.
  rewrite !presets_wf_clash. intros [Hu Hf]. split; [by apply unique_by_filter|].
  rewrite Forall_forall in *. intros r Hr. apply Hf.
  apply list_elem_of_In, filter_In in Hr as [Hr _]. by apply list_elem_of_In.
Qed.

(** The deletions: a statement of its own whose count of rows is the answer. *)
Lemma delete_effect c user text d n d' :
  change_of user d d' ->
  let res := match autocommit_saved c SDelete text d n d' with
             | (Ok affected, d0) => (if affected =? 0 then Err ErrNotFound else Ok tt, d0)
             | (Err e, d0) => (Err e, d0)
             end in
  (n = 0 -> same_tables d d') ->
  same_tables d res.2 \/
  (change_of user d res.2 /\ (is_ok res.1 = true \/ exists st cause, sv_outcome c st = AckLost cause)).
Proof.
  intros Hc res Hn. unfold res, autocommit_saved.
  destruct (sv_outcome c SDelete) eqn:E; simpl; [|by left|]; destruct (text_param text); simpl;
    try (by left); [|right; eauto].
  destruct (n =? 0) eqn:E0; bool_facts; simpl; [left; auto|right; eauto].
Qed.

Lemma filter_negb_none {A} (p : A -> bool) l :
  length (List.filter p l) = 0%nat -> List.filter (fun r => negb (p r)) l = l.
Proof.
  intros Hl. apply filter_all. intros x Hx. destruct (p x) eqn:E; [|done].
  apply length_zero_iff_nil in Hl. exfalso. apply (List.in_nil (a := x)). rewrite <- Hl.
  apply filter_In. by rewrite <- list_elem_of_In.
Qed.

Lemma DeletePreset_effect c identity id d : call_effect c identity d (DeletePreset c identity id d).
Proof.
  unfold DeletePreset. apply with_access_effect. intros access d1 _. apply delete_effect.
  - apply set_presets_change; [apply filter_presets_wf|]. intros u Hu. apply rows_of_filter_other.
    intros r <-. unfold is_preset. by rewrite bool_decide_eq_false_2.
  - intros Hn. split; [|done]. simpl. apply filter_negb_none. lia.
Qed.

(** ** Calculations *)

Lemma insert_calculation_ok r l x l' :
  insert_calculation r l = Ok (x, l') ->
  x = r.2 /\ l' = l ++ [r] /\ calculation_checks r.2 = true /\
  (unique_by same_calculation_id l -> unique_by same_calculation_id l').
Proof.
  unfold insert_calculation. intros Hi. inv_ok. bool_facts. split_and!; [done..|].
  intros Hu. apply unique_by_snoc; [done|]. intros y Hy. exact (proj1 (existsb_false_elem _ l) Hg y Hy).
Qed.

Lemma CreateCalculation_effect c identity input d :
  call_effect c identity d (CreateCalculation c identity input d).
Proof.
  unfold CreateCalculation, CreateCalculationAmid. destruct (validateCalculationInput input); [|by left].
  apply with_access_effect. intros access d1 _. case_if; [by left|].
  unfold create_calculation_tx. apply commit_saved_effect. intros x d' Hp. inv_ok.
  apply stmt_ok in Hr1 as [_ Hi]. inv_ok. apply insert_calculation_ok in Hi as (_ & -> & Hc & Hu).
  split; [|intros u Hne; split; [done|by apply rows_of_app_other]].
  intros (Hp & Hq & Hf). split_and!; [done|by apply Hu|]. apply Forall_app. split; [done|]. by constructor.
Qed.

Lemma DeleteCalculation_effect c identity id d :
  call_effect c identity d (DeleteCalculation c identity id d).
Proof.
  unfold DeleteCalculation. apply with_access_effect. intros access d1 _. apply delete_effect.
  - split; [|intros u Hu; split; [done|apply rows_of_filter_other]].
    + intros (Hp & Hq & Hf). split_and!; [done|by apply unique_by_filter|].
      rewrite Forall_forall in *. intros r Hr. apply Hf.
      apply list_elem_of_In, filter_In in Hr as [Hr _]. by apply list_elem_of_In.
    + intros r <-. unfold is_calculation. by rewrite bool_decide_eq_false_2.
  - intros Hn. split; [done|]. simpl. apply filter_negb_none. lia.
Qed.

Lemma ListPresets_effect c identity d : call_effect c identity d (ListPresets c identity d).
Proof. unfold ListPresets. apply with_access_effect. by left. Qed.

Lemma ListCalculations_effect c identity n d : call_effect c identity d (ListCalculations c identity n d).
Proof. unfold ListCalculations. apply with_access_effect. intros access d1 _. case_if; by left. Qed.

(** * Requests *)

(** The four handlers. *)
Inductive saved_served (maxBodyBytes : Z) (c : saved_call) (r : HttpRequest) (d : SavedDB) :
    saved_response * SavedDB -> Prop :=
  | ServedPresets : saved_served maxBodyBytes c r d (Presets maxBodyBytes c r d)
  | ServedPreset : saved_served maxBodyBytes c r d (PresetByID maxBodyBytes c r d)
  | ServedCalculations : saved_served maxBodyBytes c r d (Calculations maxBodyBytes c r d)
  | ServedCalculation : saved_served maxBodyBytes c r d (CalculationByID c r d).

(** What a request does, for each of them. *)
Definition request_effect (c : saved_call) (r : HttpRequest) (d : SavedDB)
    (res : saved_response * SavedDB) : Prop :=
  same_tables d res.2 \/
  exists identity access a, hr_Identity r = Some identity /\
    Current (sv_account c) identity (sv_accounts d) = (Ok access, a) /\
    change_of (user_id access) d res.2 /\
    (rs_Status res.1 < 400 \/ exists st cause, sv_outcome c st = AckLost cause).

Lemma saved_answer_effect {A} c r identity d status (body : A -> saved_body) res :
  hr_Identity r = Some identity -> status < 400 -> call_effect c identity d res ->
  request_effect c r d (saved_answer status body res).
Proof.
  intros Hi Hs [Ht|(access & a & Hc & Hch & Ho)]; [by left|right].
  exists identity, access, a. split_and!; [done..|]. destruct res as [[x|e] d']; simpl in *; naive_solver.
Qed.

Lemma saved_deleted_effect c r identity d res :
  hr_Identity r = Some identity -> call_effect c identity d res ->
  request_effect c r d (saved_deleted res).
Proof.
  intros Hi [Ht|(access & a & Hc & Hch & Ho)]; [by left|right].
  exists identity, access, a. split_and!; [done..|]. destruct res as [[x|e] d']; simpl in *; naive_solver.
Qed.

Lemma saved_served_effect maxBodyBytes c r d res :
  saved_served maxBodyBytes c r d res -> request_effect c r d res.
Proof.
  destruct 1; unfold Presets, PresetByID, Calculations, CalculationByID;
    destruct (hr_Identity r) as [identity|] eqn:Hi; try (by left);
    repeat case_if; try (by left);
    try (destruct (saved_decode _ _ _ _); [|by left]);
    first [apply (saved_deleted_effect c r identity) | apply (saved_answer_effect c r identity)];
    try done;
    auto using ListPresets_effect, CreatePreset_effect, UpdatePreset_effect, DeletePreset_effect,
      ListCalculations_effect, CreateCalculation_effect, DeleteCalculation_effect.
Qed.

(** C26. A request for saved data, whatever becomes of its statements, keeps the
    tables well formed (no two presets of a user with one name, at most one
    default each, every row within its checks), and changes no row of a user
    other than the one its identity is resolved to: without an identity it
    changes nothing. *)
Theorem saved_requests_isolated maxBodyBytes c r d resp d' :
  saved_served maxBodyBytes c r d (resp, d') ->
  (saved_wf d -> saved_wf d') /\
  forall u,
    (forall identity access a, hr_Identity r = Some identity ->
       Current (sv_account c) identity (sv_accounts d) = (Ok access, a) -> user_id access <> u) ->
    rows_of u (sv_presets d') = rows_of u (sv_presets d) /\
    rows_of u (sv_calculations d') = rows_of u (sv_calculations d).
Proof.
  intros Hs. destruct (saved_served_effect _ _ _ _ _ Hs) as [Ht|(i & x & a & Hi & Hc & [Hwf Hr] & _)]; simpl in *.
  - split; [by apply same_tables_wf|]. intros u _. by destruct Ht as [-> ->].
  - split; [done|]. intros u Hu. apply Hr. intros ->. by apply (Hu i x a).
Qed.

(** C27. A request that is answered with an error leaves presets and calculations
    as they were, so that the old default survives a failed update, unless the
    acknowledgement of a statement was lost. *)
Theorem saved_refusal_changes_nothing maxBodyBytes c r d resp d' :
  saved_served maxBodyBytes c r d (resp, d') -> 400 <= rs_Status resp ->
  (forall st cause, sv_outcome c st <> AckLost cause) ->
  sv_presets d' = sv_presets d /\ sv_calculations d' = sv_calculations d.
Proof.
  intros Hs Hst Ho. destruct (saved_served_effect _ _ _ _ _ Hs) as [Ht|(i & x & a & Hi & Hc & _ & [H'|H'])];
    simpl in *; [done|lia|]. destruct H' as (st & cause & H'). by destruct (Ho st cause).
Qed.

(** * Creation *)

(** The preset a creation stores. *)
Definition new_preset (c : saved_call) (input : PresetInput) (payload : string) : Preset :=
  {| ps_ID := sv_new_id c; ps_Name := TrimSpace (pin_Name input); ps_Payload := payload;
     ps_IsDefault := pin_IsDefault input; ps_CreatedAt := sv_now c; ps_UpdatedAt := sv_now c |}.

(** Whether a preset of the rows has the name, up to case. *)
Definition name_taken (name : string) (l : list Preset) : bool :=
  existsb (fun p => bool_decide (sql_lower (btrim name) = sql_lower (btrim (ps_Name p)))) l.

(** What [CreatePreset] stores the preset in. *)
Definition without_default (c : saved_call) (user : string) (input : PresetInput)
    (l : list (string * Preset)) : list (string * Preset) :=
  if pin_IsDefault input then clear_default (sv_now c) user (fun _ => false) l else l.

Lemma existsb_same_name user p l :
  existsb (same_name (user, p)) l = name_taken (ps_Name p) (rows_of user l).
Proof.
  unfold name_taken, rows_of. induction l as [|[u q] l IH]; [done|]. simpl. unfold same_name at 1. simpl.
  destruct (bool_decide (u = user)) eqn:E; bool_facts; simpl.
  - subst. rewrite bool_decide_eq_true_2 by done. by rewrite <- IH.
  - by rewrite bool_decide_eq_false_2, IH by done.
Qed.

Lemma name_taken_clear name now user keep l :
  name_taken name (rows_of user (clear_default now user keep l)) = name_taken name (rows_of user l).
Proof.
  unfold name_taken, clear_default, rows_of. induction l as [|[u q] l IH]; [done|]. simpl.
  destruct (bool_decide (u = user) && ps_IsDefault q && negb (keep q)); simpl;
    destruct (bool_decide (u = user)); simpl; by rewrite ?IH.
Qed.

Lemma existsb_default_clear now user p l :
  existsb (both_default (user, p)) (clear_default now user (fun _ => false) l) = false.
Proof.
  apply existsb_false_elem. intros r Hr. change (r ∈ map (clear_row now user (fun _ => false)) l) in Hr.
  apply list_elem_of_In, in_map_iff in Hr as (r0 & <- & _).
  destruct (clear_row_facts now user (fun _ => false) r0) as (Hu & _ & _ & _ & _ & Hd & _).
  unfold both_default. apply not_true_iff_false. intros Ht. bool_facts. simpl in *.
  assert (false = true) by (apply Hd; congruence). done.
Qed.

Lemma existsb_id_clear id now user keep l :
  existsb (fun r => bool_decide (ps_ID r.2 = id)) (clear_default now user keep l)
  = existsb (fun r => bool_decide (ps_ID r.2 = id)) l.
Proof.
  unfold clear_default. induction l as [|[u q] l IH]; [done|]. simpl.
  destruct (bool_decide (u = user) && ps_IsDefault q && negb (keep q)); simpl; by rewrite IH.
Qed.

(** A validated name passes the check of the table. *)
Lemma valid_name_check input :
  is_ok (validatePresetInput input) = true -> sql_text (TrimSpace (pin_Name input)) = true ->
  length_between 1 80 (btrim (TrimSpace (pin_Name input))) = true.
Proof.
  unfold validatePresetInput. destruct (is_empty _ || _ || _) eqn:E; [done|].
  intros _ [Hs _]%andb_true_iff. rewrite btrim_TrimSpace. apply orb_false_iff in E as [E _]. apply orb_false_iff in E as [He Hn].
  apply is_empty_false, RuneCount_pos in He. bool_facts.
  unfold length_between. rewrite <- RuneCount_char_length by done. apply andb_true_iff. split; by apply Z.leb_le.
Qed.

Record storable (c : saved_call) (input : PresetInput) (payload : string) : Prop := {
  so_quiet : forall st, sv_outcome c st = Done;
  so_valid : is_ok (validatePresetInput input) = true;
  so_text : sql_text (TrimSpace (pin_Name input)) = true;
  so_jsonb : to_jsonb (pin_Payload input) = Some payload;
  so_object : jsonb_typeof payload = "object";
}.

Lemma create_preset_tx_quiet c user limit input payload d others :
  storable c input payload ->
  (forall r, r ∈ sv_presets (others d) -> ps_ID r.2 <> sv_new_id c) ->
  create_preset_tx c user limit input d others =
  let d1 := others d in
  if limit <=? count_rows user (sv_presets d) then (Err ErrLimitReached, d1)
  else if name_taken (TrimSpace (pin_Name input)) (rows_of user (sv_presets d1)) then (Err ErrConflict, d1)
  else (Ok (new_preset c input payload),
        set_presets (without_default c user input (sv_presets d1) ++ [(user, new_preset c input payload)]) d1).
Proof.
  intros [Hq Hv Hs Hj Ho] Hid. unfold create_preset_tx, query_stmt, stmt. rewrite !Hq. cbv zeta.
  unfold rbind at 1. unfold rbind at 1. unfold rmap_err at 1 2.
  destruct (limit <=? _); [done|].
  assert (existsb (fun r => bool_decide (ps_ID r.2 = sv_new_id c)) (without_default c user input (sv_presets (others d))) = false) as Hf.
  { unfold without_default. case_if; rewrite ?existsb_id_clear; apply existsb_false_elem; intros r Hr;
      apply bool_decide_eq_false_2; auto. }
  assert (existsb (both_default (user, new_preset c input payload))
            (without_default c user input (sv_presets (others d))) = false) as Hd.
  { unfold without_default. destruct (pin_IsDefault input) eqn:E; [apply existsb_default_clear|].
    apply existsb_false_elem. intros r _. unfold both_default. simpl. rewrite E. by rewrite andb_false_r. }
  assert (name_taken (TrimSpace (pin_Name input)) (rows_of user (sv_presets (others d))) =
          existsb (same_name (user, new_preset c input payload)) (without_default c user input (sv_presets (others d)))) as ->.
  { rewrite existsb_same_name. unfold without_default. case_if; by rewrite ?name_taken_clear. }
  replace (if pin_IsDefault input then _ else _)
    with (Ok (E := saved_error) (without_default c user input (sv_presets (others d))))
    by (unfold without_default; by destruct (pin_IsDefault input)).
  unfold text_param, jsonb_param. rewrite Hs, Hj. simpl. unfold insert_preset.
  match goal with |- context [if existsb ?f ?l then Err UniqueViolation else _] =>
    replace (existsb f l) with false by exact (eq_sym Hf) end.
  unfold admit_preset. fold (new_preset c input payload). rewrite Hd, orb_false_r.
  assert (preset_checks (new_preset c input payload) = true) as Hc.
  { unfold preset_checks. simpl. rewrite valid_name_check, Ho, bool_decide_eq_true_2 by done. done. }
  change ((user, new_preset c input payload).2) with (new_preset c input payload). rewrite Hc. simpl.
  destruct (existsb (same_name _) _); simpl; [done|]. by rewrite Hq.
Qed.

(** * Listing *)

#[local] Instance default_first_strict_weak :
  StrictWeak (fun a b => ps_IsDefault a && negb (ps_IsDefault b)).
Proof.
  split.
  - intros x y. by destruct (ps_IsDefault x), (ps_IsDefault y).
  - intros x y z. by destruct (ps_IsDefault x), (ps_IsDefault y), (ps_IsDefault z).
Qed.

#[local] Instance preset_less_strict_weak : StrictWeak preset_less.
Proof.
  unfold preset_less. repeat apply then_less_strict_weak.
  - apply default_first_strict_weak.
  - exact (@flip_strict_weak _ _ (less_on_strict_weak Z.ltb ps_UpdatedAt)).
  - exact (@flip_strict_weak _ _ (less_on_strict_weak Z.ltb ps_CreatedAt)).
Qed.

#[local] Instance preset_eq_dec : EqDecision Preset.
Proof. solve_decision. Defined.

(** [ListPresets] answers the presets of the user, each once, and a default
    preset comes first. *)
Theorem ListPresets_default_first c identity d presets d' access a :
  ListPresets c identity d = (Ok presets, d') ->
  Current (sv_account c) identity (sv_accounts d) = (Ok access, a) -> saved_wf d ->
  presets ≡ₚ rows_of (user_id access) (sv_presets d) /\
  forall p, p ∈ presets -> ps_IsDefault p = true -> head presets = Some p.
Proof.
  unfold ListPresets, with_access. intros Hl Hc [(_ & _ & Hwf & _) _]. rewrite Hc in Hl. injection Hl as Hl _.
  apply query_stmt_ok in Hl as <-. simpl.
  set (l := rows_of (user_id access) (sv_presets d)).
  split; [apply slice_stable_Permutation|]. intros p Hp Hd.
  destruct (slice_stable preset_less l) as [|q rest] eqn:E; [by apply elem_of_nil in Hp|].
  simpl. f_equal. apply elem_of_cons in Hp as [->|Hp]; [done|].
  pose proof (slice_stable_sorted preset_less l) as Hs. rewrite E in Hs.
  inversion Hs as [|? ? Hrest Hq]. rewrite Forall_forall in Hq. specialize (Hq _ Hp).
  assert (forall x, x ∈ q :: rest -> (user_id access, x) ∈ sv_presets d) as Hin.
  { intros x. rewrite <- E, slice_stable_Permutation. unfold l, rows_of.
    rewrite list_elem_of_In, in_map_iff. intros ([u y] & <- & Hy). apply filter_In in Hy as [Hy Hu].
    bool_facts. simpl in *. subst. by apply list_elem_of_In. }
  assert (ps_IsDefault q = true) as Hdq.
  { unfold not_after, preset_less, then_less in Hq. apply orb_false_iff in Hq as [Hq _].
    rewrite Hd in Hq. by destruct (ps_IsDefault q). }
  destruct (decide (q = p)) as [|Hne]; [done|exfalso].
  pose proof (Hin q ltac:(by left)) as H1'. pose proof (Hin p ltac:(by right)) as H2'.
  assert (both_default (user_id access, q) (user_id access, p) = false) as Hb.
  { apply (unique_by_pair both_default (sv_presets d)); [apply both_default_sym|done..|].
    by intros [= ->]. }
  unfold both_default in Hb. simpl in Hb. by rewrite bool_decide_eq_true_2, Hdq, Hd in Hb.
Qed.

(** [access] and the presets of its user. *)
Definition preset_limit (access : Access) : Z :=
  entitlementLimit (a_Entitlements access) PresetLimitEntitlement defaultPresetLimit.

Lemma CreatePresetAmid_access others c identity input payload d access a :
  storable c input payload ->
  Current (sv_account c) identity (sv_accounts d) = (Ok access, a) ->
  (forall r, r ∈ sv_presets (others (set_saved_accounts a d)) -> ps_ID r.2 <> sv_new_id c) ->
  CreatePresetAmid others c identity input d =
  let user := user_id access in
  let d1 := others (set_saved_accounts a d) in
  if preset_limit access <=? 0 then (Err ErrLimitReached, set_saved_accounts a d)
  else if preset_limit access <=? count_rows user (sv_presets d) then (Err ErrLimitReached, d1)
  else if name_taken (TrimSpace (pin_Name input)) (rows_of user (sv_presets d1)) then (Err ErrConflict, d1)
  else (Ok (new_preset c input payload),
        set_presets (without_default c user input (sv_presets d1) ++ [(user, new_preset c input payload)]) d1).
Proof.
  intros Hs Hc Hid. unfold CreatePresetAmid.
  destruct (validatePresetInput input) eqn:Hv; [|by destruct Hs as [_ Hv' _ _ _]; rewrite Hv in Hv'].
  unfold with_access. rewrite Hc. fold (preset_limit access). cbv zeta.
  destruct (preset_limit access <=? 0); [done|].
  by rewrite (create_preset_tx_quiet c (user_id access) (preset_limit access) input payload).
Qed.

(** [CreatePreset], when the statements go through: an input the validation
    accepts never trips a check or the index of defaults of the table; it is
    refused exactly when the user has the presets the entitlement allows, or one
    of the same name; otherwise it is appended, and is the only default of the
    user if it is to be one. *)
Theorem CreatePreset_correct c identity input payload d access a :
  storable c input payload ->
  Current (sv_account c) identity (sv_accounts d) = (Ok access, a) ->
  (forall r, r ∈ sv_presets d -> ps_ID r.2 <> sv_new_id c) ->
  let user := user_id access in
  let d1 := set_saved_accounts a d in
  CreatePreset c identity input d =
  if preset_limit access <=? count_rows user (sv_presets d) then (Err ErrLimitReached, d1)
  else if name_taken (TrimSpace (pin_Name input)) (rows_of user (sv_presets d)) then (Err ErrConflict, d1)
  else (Ok (new_preset c input payload),
        set_presets (without_default c user input (sv_presets d) ++ [(user, new_preset c input payload)]) d1).
Proof.
  intros Hs Hc Hid user d1. unfold CreatePreset.
  rewrite (CreatePresetAmid_access _ c identity input payload d access a) by done. cbv zeta.
  fold d1 user. destruct (preset_limit access <=? 0) eqn:E0; [|done]. bool_facts.
  replace (preset_limit access <=? count_rows user (sv_presets d)) with true; [done|].
  symmetry. apply Z.leb_le. unfold count_rows. lia.
Qed.

(** Two creations whose counts both precede their inserts both succeed: a
    user one preset short of the limit ends with one preset more than the
    limit. *)
Theorem concurrent_creates_exceed_limit c1 c2 identity input1 input2 payload1 payload2 d access1 access2 a1 a2 :
  storable c1 input1 payload1 -> storable c2 input2 payload2 ->
  Current (sv_account c1) identity (sv_accounts d) = (Ok access1, a1) ->
  Current (sv_account c2) identity a1 = (Ok access2, a2) ->
  user_id access2 = user_id access1 -> preset_limit access2 = preset_limit access1 ->
  (forall r, r ∈ sv_presets d -> ps_ID r.2 <> sv_new_id c1 /\ ps_ID r.2 <> sv_new_id c2) ->
  sv_new_id c1 <> sv_new_id c2 ->
  pin_IsDefault input2 = false ->
  name_taken (TrimSpace (pin_Name input2)) (rows_of (user_id access1) (sv_presets d)) = false ->
  name_taken (TrimSpace (pin_Name input1))
    (rows_of (user_id access1) (sv_presets d) ++ [new_preset c2 input2 payload2]) = false ->
  1 <= preset_limit access1 ->
  count_rows (user_id access1) (sv_presets d) = preset_limit access1 - 1 ->
  let second d := (CreatePreset c2 identity input2 d).2 in
  let '(r1, d') := CreatePresetAmid second c1 identity input1 d in
  r1 = Ok (new_preset c1 input1 payload1) /\
  (CreatePreset c2 identity input2 (set_saved_accounts a1 d)).1 = Ok (new_preset c2 input2 payload2) /\
  count_rows (user_id access1) (sv_presets d') = preset_limit access1 + 1.
Proof.
  intros Hs1 Hs2 Hc1 Hc2 Hu Hl Hid Hne Hd2 Hn2 Hn1 Hpos Hcount second.
  set (user := user_id access1) in *. set (l := sv_presets d) in *.
  assert (CreatePreset c2 identity input2 (set_saved_accounts a1 d)
    = (Ok (new_preset c2 input2 payload2),
       set_presets (l ++ [(user, new_preset c2 input2 payload2)])
         (set_saved_accounts a2 (set_saved_accounts a1 d)))) as H2.
  { unfold CreatePreset. rewrite (CreatePresetAmid_access _ c2 identity input2 payload2 _ access2 a2); try done.
    - cbv zeta. rewrite Hu, Hl. fold user. simpl. fold l.
      rewrite (proj2 (Z.leb_gt _ _)), (proj2 (Z.leb_gt _ _)) by lia. rewrite Hn2.
      unfold without_default. by rewrite Hd2.
    - intros r Hr. by destruct (Hid r Hr). }
  rewrite (CreatePresetAmid_access second c1 identity input1 payload1 d access1 a1); try done.
  - unfold second. rewrite !H2. cbv zeta. fold user. simpl. fold l.
    rewrite (proj2 (Z.leb_gt _ _)), (proj2 (Z.leb_gt _ _)) by lia.
    rewrite rows_of_app, rows_of_single, bool_decide_eq_true_2, Hn1 by done. simpl.
    split_and!; [done..|]. unfold count_rows, without_default in *.
    case_if; rewrite rows_of_app, rows_of_single, bool_decide_eq_true_2 by done; rewrite length_app;
      rewrite ?clear_default_length, rows_of_app, rows_of_single, bool_decide_eq_true_2, length_app by done;
      simpl; lia.
  - unfold second. rewrite H2. simpl. intros r [Hr|Hr]%elem_of_app; [by destruct (Hid r Hr)|].
    apply list_elem_of_singleton in Hr as ->. simpl. congruence.
Qed.
End saved.

(** * Examples *)

Definition sample_saved_encoding : SavedEncoding := {|
  to_jsonb := Some;
  jsonb_typeof text := if isJSONObject text then "object" else "other";
  sql_lower := str_map lower_byte;
|}.

#[local] Existing Instance plain_unicode.
#[local] Existing Instance sample_entitlements.
#[local] Existing Instance sample_saved_encoding.

(** One account without a subscription, and no entitlements. *)
Definition one_account : AccountsDB :=
  {| users := {["auth0|buyer" := {| us_ID := sample_user; us_Email := None; us_DisplayName := None;
                                    us_CreatedAt := 0; us_UpdatedAt := 0; us_LastLoginAt := None |}]};
     account_subscriptions := []; plan_entitlements := ∅; overrides := ∅ |}.

Definition access_of (d : AccountsDB) : Access :=
  match (Current (account_quiet (1200 * second)) sample_identity d).1 with
  | Ok access => access
  | Err _ => {| a_User := {| u_ID := EmptyString; u_Email := None; u_DisplayName := None;
                             u_CreatedAt := 0; u_UpdatedAt := 0; u_LastLoginAt := None |};
                a_Subscription := free_subscription; a_Entitlements := ∅ |}
  end.
Definition synced (d : AccountsDB) : AccountsDB :=
  (Current (account_quiet (1200 * second)) sample_identity d).2.

Definition stored_preset (id name : string) (default : bool) (at_ : time) : string * Preset :=
  (sample_user, {| ps_ID := id; ps_Name := name; ps_Payload := "{}"; ps_IsDefault := default;
                   ps_CreatedAt := at_; ps_UpdatedAt := at_ |}).

Definition sample_saved : SavedDB :=
  {| sv_accounts := one_account;
     sv_presets := [stored_preset "p1" "Armour" false 1; stored_preset "p2" "Bags" true 2];
     sv_calculations := [] |}.

Definition saved_quiet (id : string) : saved_call :=
  {| sv_account := account_quiet (1200 * second); sv_now := 1200 * second; sv_new_id := id;
     sv_outcome := fun _ => Done |}.

Definition saved_request (method : string) (body : string) : HttpRequest :=
  {| hr_Method := method; hr_TLS := true; hr_Header := fun _ => EmptyString;
     hr_Query := fun _ => EmptyString; hr_PathValue := fun _ => "p9";
     hr_Body := {| st_bytes := quoted body; st_end := AtEOF |};
     hr_Identity := Some sample_identity; hr_CorrelationID := EmptyString |}.

Definition cape_input : PresetInput :=
  {| pin_Name := " Capes "; pin_Payload := "{}"; pin_IsDefault := true |}.
Definition boots_input : PresetInput :=
  {| pin_Name := "Boots"; pin_Payload := "{}"; pin_IsDefault := false |}.

(** A creation through the handler, a name that is taken, a payload that is not
    an object, and an update of a preset that does not exist. *)
Example saved_responses :
  let served f body := rs_Status (f (saved_quiet "p3") (saved_request body.1 body.2) sample_saved).1 in
  map (served (Presets 1000))
    [("POST", "{'name':' Capes ','payload':{},'isDefault':true}");
     ("POST", "{'name':'BAGS','payload':{'a':[1]}}");
     ("POST", "{'name':'Boots','payload':[]}");
     ("POST", "{'name':'Boots','payload':{},'x':1}");
     ("GET", EmptyString); ("PATCH", EmptyString)] = [201; 409; 400; 400; 200; 405]
  /\ served (PresetByID 1000) ("PUT", "{'name':'Boots','payload':{},'isDefault':true}") = 404.
Proof. split; vm_compute; reflexivity. Qed.

(** What follows the first [maxBodyBytes + 1] bytes is not read: a body that
    is not one JSON value is accepted when the value and blanks fill the limit. *)
Example saved_body_cut :
  let body := "{'name':'Boots','payload':{}}   trailing" in
  (rs_Status (Presets 1000 (saved_quiet "p3") (saved_request "POST" body) sample_saved).1,
   rs_Status (Presets 30 (saved_quiet "p3") (saved_request "POST" body) sample_saved).1) = (400, 201).
Proof. vm_compute. reflexivity. Qed.

(** An identifier that [DeletePreset] trims, [UpdatePreset] does not. *)
Example update_keeps_spaces :
  ((UpdatePreset (saved_quiet "p3") sample_identity " p1" boots_input sample_saved).1,
   (DeletePreset (saved_quiet "p3") sample_identity " p1" sample_saved).1) = (Err ErrNotFound, Ok tt).
Proof. vm_compute. reflexivity. Qed.

Lemma sample_saved_wf : saved_wf sample_saved.
Proof. split_and!; simpl; repeat constructor. Qed.

Lemma sample_ids r : r ∈ sv_presets sample_saved -> ps_ID r.2 = "p1" \/ ps_ID r.2 = "p2".
Proof.
  unfold sample_saved. simpl. rewrite list_elem_of_In. intros [<-|[<-|[]]]; [by left|by right].
Qed.

Lemma storable_sample id input :
  is_ok (validatePresetInput input) && sql_text (TrimSpace (pin_Name input))
  && bool_decide (pin_Payload input = "{}") = true -> storable (saved_quiet id) input "{}".
Proof.
  intros Hi. apply andb_true_iff in Hi as [[Hv Hs]%andb_true_iff Hp]. bool_facts.
  split; try done. simpl. by rewrite Hp.
Qed.

Lemma saved_requests_isolated_witness :
  let r := saved_request "POST" "{'name':'Capes','payload':{}}" in
  saved_wf (Presets 1000 (saved_quiet "p3") r sample_saved).2.
Proof.
  intros r.
  destruct (Presets 1000 (saved_quiet "p3") r sample_saved) as [resp d'] eqn:E.
  apply (saved_requests_isolated 1000 (saved_quiet "p3") r sample_saved resp d').
  - rewrite <- E. constructor.
  - apply sample_saved_wf.
Defined.

Lemma saved_refusal_changes_nothing_witness :
  let r := saved_request "PUT" "{'name':'Boots','payload':{},'isDefault':true}" in
  sv_presets (PresetByID 1000 (saved_quiet "p3") r sample_saved).2 = sv_presets sample_saved.
Proof.
  intros r.
  assert (400 <= rs_Status (PresetByID 1000 (saved_quiet "p3") r sample_saved).1) as Hs by (vm_compute; discriminate).
  destruct (PresetByID 1000 (saved_quiet "p3") r sample_saved) as [resp d'] eqn:E.
  apply (saved_refusal_changes_nothing 1000 (saved_quiet "p3") r sample_saved resp d'); [|done|done].
  rewrite <- E. constructor.
Defined.

Lemma sample_access :
  Current (account_quiet (1200 * second)) sample_identity one_account
  = (Ok (access_of one_account), synced one_account).
Proof. vm_compute. reflexivity. Qed.

Lemma sample_access_again :
  Current (account_quiet (1200 * second)) sample_identity (synced one_account)
  = (Ok (access_of (synced one_account)), synced (synced one_account)).
Proof. vm_compute. reflexivity. Qed.

Lemma ListPresets_default_first_witness :
  let p := snd (stored_preset "p2" "Bags" true 2) in
  exists presets d', ListPresets (saved_quiet "p3") sample_identity sample_saved = (Ok presets, d') /\
    head presets = Some p.
Proof.
  intros p. exists [p; snd (stored_preset "p1" "Armour" false 1)], (set_saved_accounts (synced one_account) sample_saved).
  assert (ListPresets (saved_quiet "p3") sample_identity sample_saved
    = (Ok [p; snd (stored_preset "p1" "Armour" false 1)], set_saved_accounts (synced one_account) sample_saved)) as E
    by (vm_compute; reflexivity).
  split; [exact E|].
  apply (proj2 (ListPresets_default_first _ _ _ _ _ _ _ E sample_access sample_saved_wf)); [by left|done].
Defined.

Lemma CreatePreset_correct_witness :
  is_ok (CreatePreset (saved_quiet "p3") sample_identity cape_input sample_saved).1 = true.
Proof.
  rewrite (CreatePreset_correct (saved_quiet "p3") sample_identity cape_input "{}" sample_saved _ _
    (storable_sample "p3" cape_input eq_refl) sample_access).
  - vm_compute. reflexivity.
  - intros r Hr. by destruct (sample_ids r Hr) as [-> | ->].
Defined.

Lemma concurrent_creates_exceed_limit_witness :
  let second d := (CreatePreset (saved_quiet "p4") sample_identity boots_input d).2 in
  let '(r1, d') := CreatePresetAmid second (saved_quiet "p3") sample_identity cape_input sample_saved in
  r1 = Ok (new_preset (saved_quiet "p3") cape_input "{}") /\
  (CreatePreset (saved_quiet "p4") sample_identity boots_input
     (set_saved_accounts (synced one_account) sample_saved)).1
  = Ok (new_preset (saved_quiet "p4") boots_input "{}") /\
  count_rows sample_user (sv_presets d') = defaultPresetLimit + 1.
Proof.
  refine (concurrent_creates_exceed_limit (saved_quiet "p3") (saved_quiet "p4") sample_identity
    cape_input boots_input "{}" "{}" sample_saved _ _ _ _
    (storable_sample "p3" cape_input eq_refl) (storable_sample "p4" boots_input eq_refl)
    sample_access sample_access_again eq_refl eq_refl _ _ eq_refl eq_refl eq_refl _ eq_refl).
  - intros r Hr. by destruct (sample_ids r Hr) as [-> | ->].
  - discriminate.
  - vm_compute. discriminate.
Defined.
