(* ===== verification/RateLimiter.v ===== *)
(** The rate limiter of [internal/server/security.go]: a bucket of tokens per
    client address, in [float64]; with what the source uses of package [net]:
    [ParseIP], as whether it accepts an address, and the host of [SplitHostPort]. *)
From S2P Require Import Prelude GoLists GoBase Float64 Json Http.
Local Open Scope Z_scope.

(** * IPv4: [netip.parseIPv4Fields]

    [val] and [digLen] are the value and the digits of the current field, [pos]
    the fields before it, [last_dot] whether the byte before was a dot. *)
Fixpoint ipv4_fields (val : Z) (digLen pos : nat) (last_dot : bool) (s : string) : bool :=
  match s with
  | EmptyString => Nat.eqb pos 3
  | String c s' =>
      if in_range 48 57 c then
        if Nat.eqb digLen 1 && (val =? 0) then false else
        let val' := val * 10 + (byte_val c - 48) in
        if 255 <? val' then false else ipv4_fields val' (S digLen) pos false s'
      else if bool_decide (c = "."%char) then
        if last_dot || is_empty s' || Nat.eqb pos 3 then false
        else ipv4_fields 0 0 (S pos) true s'
      else false
  end.

(** The first byte is treated as the one after a dot. *)
Definition parse_ipv4 (s : string) : bool := ipv4_fields 0 0 0 true s.

(** * IPv6: [netip.parseIPv6] *)

(** The hexadecimal digits at the front: how many, and what follows. *)
Fixpoint hex_digits (n : nat) (s : string) : nat * string :=
  match s with
  | String c s' => match hex_value c with Some _ => hex_digits (S n) s' | None => (n, s) end
  | EmptyString => (n, s)
  end.

(** The loop over the groups: [i] bytes are read, [ellipsis] tells whether [::]
    was.  The fuel is the length of the string: each round consumes a digit. *)
Fixpoint ipv6_groups (fuel : nat) (i : Z) (ellipsis : bool) (s : string) : bool :=
  let finish (i : Z) (ellipsis : bool) (s : string) :=
    is_empty s && (if i <? 16 then ellipsis else negb ellipsis) in
  match fuel with
  | O => false
  | S fuel' =>
      if 16 <=? i then finish i ellipsis s else
      let '(off, rest) := hex_digits 0 s in
      if Nat.eqb off 0 || Nat.ltb 4 off then false else
      match rest with
      | String c rest' =>
          if bool_decide (c = "."%char) then
            if (negb ellipsis && negb (i =? 12)) || (16 <? i + 4) || negb (parse_ipv4 s) then false
            else finish (i + 4) ellipsis EmptyString
          else if negb (bool_decide (c = ":"%char)) || is_empty rest' then false
          else
            match rest' with
            | String c2 rest2 =>
                if bool_decide (c2 = ":"%char) then
                  if ellipsis then false
                  else if is_empty rest2 then finish (i + 2) true EmptyString
                  else ipv6_groups fuel' (i + 2) true rest2
                else ipv6_groups fuel' (i + 2) ellipsis rest'
            | EmptyString => false
            end
      | EmptyString => finish (i + 2) ellipsis EmptyString
      end
  end.

(** An address with a zone is not accepted by [net.ParseIP]. *)
Definition parse_ipv6 (s : string) : bool :=
  if ContainsAny s "%" then false else
  match strip_prefix "::" s with
  | Some s' => is_empty s' || ipv6_groups (S (String.length s')) 0 true s'
  | None => ipv6_groups (S (String.length s)) 0 false s
  end.

(** [net.ParseIP(s) != nil]: the first of the three bytes decides. *)
Fixpoint ip_kind (s : string) : option ascii :=
  match s with
  | String c s' => if bool_decide (c ∈ ["."%char; ":"%char; "%"%char]) then Some c else ip_kind s'
  | EmptyString => None
  end.

Definition ParseIP (s : string) : bool :=
  match ip_kind s with
  | Some c => if bool_decide (c = "."%char) then parse_ipv4 s
              else if bool_decide (c = ":"%char) then parse_ipv6 s else false
  | None => false
  end.

(** * [net.SplitHostPort] *)

(** What precedes and what follows the first [c], and the last one. *)
Fixpoint cut_first (c : ascii) (s : string) : option (string * string) :=
  match s with
  | EmptyString => None
  | String a s' =>
      if bool_decide (a = c) then Some (EmptyString, s')
      else '(before, after) ← cut_first c s'; Some (String a before, after)
  end.

Definition cut_last (c : ascii) (s : string) : option (string * string) :=
  '(after, before) ← cut_first c (String.rev s); Some (String.rev before, String.rev after).

Definition SplitHostPort (hostport : string) : option string :=
  '(host, port) ← cut_last ":" hostport;
  match hostport with
  | String "["%char inside =>
      '(host, rest) ← cut_first "]" inside;
      match rest with
      | String ":"%char port =>
          if ContainsAny port ":" || ContainsAny (host +:+ rest) "[" || ContainsAny rest "]"
          then None else Some host
      | _ => None
      end
  | _ => if ContainsAny host ":" || ContainsAny hostport "[]" then None else Some host
  end.

Example parse_ip_examples :
  map ParseIP ["127.0.0.1"; "1.2.3"; "1.2.3.04"; "256.1.1.1"; "::"; "::1"; "2001:db8::8a2e:370:7334"; "1::2::3";
               "::ffff:1.2.3.4"; "1:2:3:4:5:6:7:8"; "1:2:3:4:5:6:7"; "fe80::1%eth0"; EmptyString; "host"; "1:2:3:4:5:6:7::"; "12345::"]
  = [true; false; false; false; true; true; true; false; true; true; false; false; false; false; true; false].
Proof. vm_compute. reflexivity. Qed.

Example split_host_port_examples :
  map SplitHostPort ["127.0.0.1:80"; "[::1]:443"; "::1:80"; "host"; ":80"; "[::1]"; "[::1]x:80"; "a[b:80"]
  = [Some "127.0.0.1"; Some "::1"; None; None; Some EmptyString; None; None; None].
Proof. vm_compute. reflexivity. Qed.

(** ** The rate limiter of [internal/server/security.go]: a bucket of tokens per client address, in [float64]. *)

Record RateLimitOptions := {
  ro_Enabled : bool;
  ro_RequestsPerSecond : float64;
  ro_Burst : Z;
  ro_ClientTTL : duration;
  ro_TrustProxyHeaders : bool;
}.

Record clientBucket := {
  bk_tokens : float64;
  bk_updated : time;
  bk_lastSeen : time;
}.

Record ipRateLimiter := {
  rl_clients : gmap string clientBucket;
  rl_requestsPerSecond : float64;
  rl_burst : float64;
  rl_clientTTL : duration;
  rl_trustProxyHeaders : bool;
  rl_lastCleanup : time;
}.

Definition newIPRateLimiter (options : RateLimitOptions) (now : time) : ipRateLimiter :=
  {| rl_clients := ∅;
     rl_requestsPerSecond := ro_RequestsPerSecond options;
     rl_burst := of_Z (ro_Burst options);
     rl_clientTTL := if ro_ClientTTL options <=? 0 then 10 * minute else ro_ClientTTL options;
     rl_trustProxyHeaders := ro_TrustProxyHeaders options;
     rl_lastCleanup := now |}.

Definition set_clients (m : gmap string clientBucket) (cleanup : time) (l : ipRateLimiter) : ipRateLimiter :=
  {| rl_clients := m; rl_requestsPerSecond := rl_requestsPerSecond l; rl_burst := rl_burst l;
     rl_clientTTL := rl_clientTTL l; rl_trustProxyHeaders := rl_trustProxyHeaders l;
     rl_lastCleanup := cleanup |}.

(** [math.Min] *)
Definition f_min (x y : float64) : float64 :=
  match x, y with
  | S754_infinity true, _ | _, S754_infinity true => S754_infinity true
  | S754_nan, _ | _, S754_nan => S754_nan
  | S754_zero s, S754_zero _ => if s then x else y
  | _, _ => if f_ltb x y then x else y
  end.

(** The clients that have not been seen for the time to live are forgotten, when
    that time has passed since this was last done. *)
Definition cleanup (now : time) (l : ipRateLimiter) : ipRateLimiter :=
  if rl_clientTTL l <=? time_sub now (rl_lastCleanup l) then
    set_clients
      (filter (fun '(_, b) => time_sub now (bk_lastSeen b) < rl_clientTTL l) (rl_clients l)) now l
  else l.

(** The tokens of a bucket at [now]. *)
Definition refilled (l : ipRateLimiter) (now : time) (b : clientBucket) : clientBucket :=
  let elapsed := Seconds (time_sub now (bk_updated b)) in
  if f_ltb f_zero elapsed then
    {| bk_tokens := f_min (rl_burst l) (f_add (bk_tokens b) (f_mul elapsed (rl_requestsPerSecond l)));
       bk_updated := now; bk_lastSeen := now |}
  else {| bk_tokens := bk_tokens b; bk_updated := bk_updated b; bk_lastSeen := now |}.

Definition bucket_of (l : ipRateLimiter) (client : string) (now : time) : clientBucket :=
  default {| bk_tokens := rl_burst l; bk_updated := now; bk_lastSeen := now |} (rl_clients l !! client).

Definition take_token (b : clientBucket) : clientBucket :=
  {| bk_tokens := f_sub (bk_tokens b) (of_Z 1); bk_updated := bk_updated b; bk_lastSeen := bk_lastSeen b |}.

(** [allow]: whether the request may pass, the tokens that remain, and how long
    to wait otherwise. *)
Definition allow (l : ipRateLimiter) (client : string) (now : time)
    : (bool * Z * duration) * ipRateLimiter :=
  let l := cleanup now l in
  let b := refilled l now (bucket_of l client now) in
  if f_leb (of_Z 1) (bk_tokens b) then
    let b' := take_token b in
    ((true, to_int64 (integral floor_of (bk_tokens b')), 0),
     set_clients (<[client := b']> (rl_clients l)) (rl_lastCleanup l) l)
  else
    let missing := f_sub (of_Z 1) (bk_tokens b) in
    let retryAfter :=
      to_int64 (integral trunc_of (f_mul (f_div missing (rl_requestsPerSecond l)) (of_Z second))) in
    ((false, 0, retryAfter), set_clients (<[client := b]> (rl_clients l)) (rl_lastCleanup l) l).

(** * The client *)

(** [clientIdentifier]: the first address of a trusted proxy header, or else the
    host of the connection. *)
Definition clientIdentifier (remoteAddr : string) (header : string -> string) (trustProxyHeaders : bool)
    : string :=
  let forwarded :=
    if trustProxyHeaders then
      match List.find ParseIP (map TrimSpace (Split (header "X-Forwarded-For") ",")) with
      | Some candidate => Some candidate
      | None =>
          let candidate := TrimSpace (header "X-Real-IP") in
          if ParseIP candidate then Some candidate else None
      end
    else None in
  match forwarded with
  | Some candidate => candidate
  | None =>
      match SplitHostPort (TrimSpace remoteAddr) with
      | Some host =>
          if negb (is_empty host) then host
          else if negb (is_empty remoteAddr) then remoteAddr else "unknown"
      | None => if negb (is_empty remoteAddr) then remoteAddr else "unknown"
      end
  end.

(** * Examples *)

Definition test_limiter : ipRateLimiter :=
  newIPRateLimiter
    {| ro_Enabled := true; ro_RequestsPerSecond := of_Z 2; ro_Burst := 1; ro_ClientTTL := minute;
       ro_TrustProxyHeaders := false |} (1000 * second).

(** The test of the repository: one request passes, the next does not, and half a
    second later one does again. *)
Example token_bucket_test :
  let '(r1, l1) := allow test_limiter "127.0.0.1" (1000 * second) in
  let '(r2, l2) := allow l1 "127.0.0.1" (1000 * second) in
  let '(r3, _) := allow l2 "127.0.0.1" (1000 * second + 500000000) in
  (r1, r2, r3) = ((true, 0, 0), (false, 0, 500000000), (true, 0, 0)).
Proof. vm_compute. reflexivity. Qed.

(** A rate that is not a number, which the configuration accepts, refuses every
    request of a client after its first moment. *)
Example nan_rate :
  let l := newIPRateLimiter
    {| ro_Enabled := true; ro_RequestsPerSecond := S754_nan; ro_Burst := 40; ro_ClientTTL := minute;
       ro_TrustProxyHeaders := false |} 0 in
  let '(r1, l1) := allow l "127.0.0.1" 0 in
  let '(r2, l2) := allow l1 "127.0.0.1" second in
  let '(r3, _) := allow l2 "127.0.0.1" (30 * second) in
  (r1, r2.1.1, r3.1.1) = ((true, 39, 0), false, false).
Proof. vm_compute. reflexivity. Qed.
