(* ===== verification/RateLimiterSpec.v ===== *)
(** The rate limiter admits, over any period, the burst plus the rate at which a bucket
    can be refilled times the period, up to the rounding of [float64]; that rate is the
    configured one when the time to live of a bucket is long enough to fill it. *)
From S2P Require Import Prelude GoLists GoBase Float64 Float64Spec Json Http RateLimiter.
From Stdlib Require Import QArith.
Local Open Scope Z_scope.

(** The minimum of two nonnegative normal numbers. *)
Lemma f_min_units k x y :
  normal k x -> normal k y -> normal k (f_min x y) /\ units (f_min x y) = Z.min (units x) (units y).
Proof.
  intros Hx Hy.
  destruct x as [sx| | |sx mx ex], y as [sy| | |sy my ey]; try done.
  - simpl. by destruct sx.
  - destruct Hy as (-> & Hm & He). pose proof (units_pos my ey ltac:(lia)). simpl in *. split; [done|lia].
  - destruct Hx as (-> & Hm & He). pose proof (units_pos mx ex ltac:(lia)). simpl in *.
    split; [by destruct sy|]. destruct sy; simpl; lia.
  - unfold f_min. set (x := S754_finite sx mx ex) in *. set (y := S754_finite sy my ey) in *.
    pose proof (f_leb_units k y x Hy Hx) as Hle.
    rewrite f_ltb_negb by done. destruct (f_leb y x) eqn:E; cbn [negb].
    + split; [done|]. pose proof (proj1 Hle eq_refl). lia.
    + split; [done|]. assert (~ units y <= units x) by (intros Hc; by apply Hle in Hc). lia.
Qed.

Section limiter.

(** The configuration: the burst, the rate and the time to live; and a rate, at least
    the configured one, at which a bucket is refilled in the time to live. *)
Context (burst : Z) (rate : float64) (ttl : duration) (refill : Z).
Hypothesis Hburst : 0 < burst < 2 ^ 53.
Hypothesis Hrate : normal (-100) rate /\ 0 < units rate /\ units rate <= 2 ^ 53 * unit1.
Hypothesis Hrefill : units rate <= refill <= 2 ^ 90 * unit1.
Hypothesis Httl : burst * unit1 * 1000000000 <= refill * ttl.

Definition burst_units : Z := burst * unit1.

(** What the limiter holds at [t]; [start] is a time before all those of the
    requests that are considered, by less than the range of a [Duration]. *)
Definition bucket_ok (start t : time) (b : clientBucket) : Prop :=
  normal (-200) (bk_tokens b) /\ units (bk_tokens b) <= burst_units /\
  start <= bk_updated b <= bk_lastSeen b /\ bk_lastSeen b <= t.

Definition limiter_ok (start t : time) (l : ipRateLimiter) : Prop :=
  rl_burst l = of_Z burst /\ rl_requestsPerSecond l = rate /\ rl_clientTTL l = ttl /\
  map_Forall (fun _ b => bucket_ok start t b) (rl_clients l).

Lemma limiter_ok_later start t t' l : limiter_ok start t l -> t <= t' -> limiter_ok start t' l.
Proof.
  intros (Hb & Hr & Ht & Hm) Hle. split_and!; [done..|].
  eapply map_Forall_impl; [exact Hm|]. intros c b (? & ? & ? & ?). split_and!; try done; lia.
Qed.

(** ** Potential

    The tokens of a client, with what it is owed since its bucket was updated,
    as multiples of [2^-1074 * 10^-9 * 2^-156]. *)
Definition scale : Z := 1000000000 * 2 ^ 156.
Definition per_ns : Z := (2 ^ 52 + 1) * (2 ^ 52 + 1) * (2 ^ 52 + 1) * refill.
Definition slack : Z := 1000000000 * 2 ^ 104 * burst_units.

Definition tokens_at (t : time) (b : clientBucket) : Z :=
  Z.min (scale * burst_units) (scale * units (bk_tokens b) + per_ns * (t - bk_updated b)).

Definition potential (l : ipRateLimiter) (client : string) (t : time) : Z :=
  match rl_clients l !! client with None => scale * burst_units | Some b => tokens_at t b end.

Lemma per_ns_pos : 0 < per_ns.
Proof. unfold per_ns. lia. Qed.

Lemma potential_later l client t t' :
  t <= t' -> potential l client t' <= potential l client t + per_ns * (t' - t).
Proof.
  intros Ht. pose proof per_ns_pos. unfold potential, tokens_at. destruct (rl_clients l !! client); nia.
Qed.

Lemma potential_burst l client t : potential l client t <= scale * burst_units.
Proof. unfold potential, tokens_at. destruct (rl_clients l !! client); lia. Qed.

Lemma one_pos : 0 < unit1.
Proof. unfold unit1. lia. Qed.

Lemma burst_normal : normal (-200) (of_Z burst) /\ units (of_Z burst) = burst_units.
Proof.
  destruct (of_Z_normal burst) as [Hn Hu]; [lia|]. split; [eapply normal_mono; [exact Hn|lia]|exact Hu].
Qed.

(** What is added for [d] nanoseconds. *)
Lemma refill_err d :
  0 <= d <= max_int64 ->
  let r := f_mul (Seconds d) rate in
  normal (-200) r /\ scale * units r <= per_ns * d.
Proof.
  intros Hd r. destruct Hrate as (Hrn & _ & Hru). destruct (Seconds_err d Hd) as [[Hsn _] Hsu].
  pose proof one_pos as H1. pose proof (units_nonneg (Seconds d)) as Hs0.
  assert (units (Seconds d) <= 2 ^ 64 * unit1) as Hsb.
  { unfold max_int64 in Hd. assert (d * unit1 <= 2 ^ 63 * unit1) by (apply Z.mul_le_mono_nonneg_r; lia). lia. }
  destruct (f_mul_err (-100) (Seconds d) rate Hsn Hrn) as [Hn Hu]; [lia| | |].
  { apply (Z.le_lt_trans _ _ _ Hsb). vm_compute. reflexivity. }
  { apply (Z.le_lt_trans _ _ _ Hru). vm_compute. reflexivity. }
  split; [exact Hn|]. fold r in Hu. unfold scale, per_ns.
  pose proof (units_nonneg rate) as Hr0.
  transitivity ((2 ^ 52 + 1) * (2 ^ 52 + 1) * (2 ^ 52 + 1) * units rate * d).
  2: { apply Z.mul_le_mono_nonneg_r; [lia|]. apply Z.mul_le_mono_nonneg_l; lia. }
  set (s := units (Seconds d)) in *. set (u := units r) in *. set (v := units rate) in *.
  apply (Z.mul_le_mono_pos_r _ _ unit1); [done|].
  transitivity ((2 ^ 52 + 1) * (s * v) * (1000000000 * 2 ^ 104)).
  { replace (1000000000 * 2 ^ 156 * u * unit1) with (u * unit1 * 2 ^ 52 * (1000000000 * 2 ^ 104)) by ring.
    apply Z.mul_le_mono_nonneg_r; [lia|exact Hu]. }
  replace ((2 ^ 52 + 1) * (s * v) * (1000000000 * 2 ^ 104))
    with (s * 1000000000 * 2 ^ 104 * ((2 ^ 52 + 1) * v)) by ring.
  replace ((2 ^ 52 + 1) * (2 ^ 52 + 1) * (2 ^ 52 + 1) * v * d * unit1)
    with ((2 ^ 52 + 1) * (2 ^ 52 + 1) * (d * unit1) * ((2 ^ 52 + 1) * v)) by ring.
  apply Z.mul_le_mono_nonneg_r; [lia|exact Hsu].
Qed.

(** The sum with it, at most the burst, against the exact one. *)
Lemma refill_capped t r x :
  normal (-200) t -> normal (-200) r -> units t <= burst_units -> scale * units r <= x ->
  x < 2 ^ 1900 ->
  let t' := f_min (of_Z burst) (f_add t r) in
  normal (-200) t' /\ units t' <= burst_units /\
  scale * units t' <= Z.min (scale * burst_units) (scale * units t + x) + slack.
Proof.
  intros Ht Hr Htb Hrx Hx t'. destruct burst_normal as [Hbn Hbu].
  pose proof (units_nonneg t). pose proof (units_nonneg r).
  assert (burst_units < 2 ^ 1200) as Hb2.
  { apply (Z.lt_trans _ (2 ^ 53 * unit1)); [|vm_compute; reflexivity].
    apply Z.mul_lt_mono_pos_r; [apply one_pos|lia]. }
  assert (units r <= x) by (unfold scale in Hrx; lia).
  assert (2 ^ 1200 + 2 ^ 1900 < 2 ^ 2000) as Hbig by (vm_compute; reflexivity).
  destruct (f_add_err (-200) t r Ht Hr) as [[Hsn _] Hsu]; [lia|].
  destruct (f_min_units (-200) (of_Z burst) (f_add t r) Hbn Hsn) as [Hn Hu].
  fold t' in Hn, Hu. rewrite Hbu in Hu. split_and!; [done|lia|].
  unfold scale, slack in *. set (u := units (f_add t r)) in *.
  generalize dependent burst_units. intros B. generalize dependent (2 ^ 1200). generalize dependent (2 ^ 1900).
  intros. lia.
Qed.

Lemma refilled_ok start t l now b :
  limiter_ok start t l -> bucket_ok start t b -> t <= now -> now - start <= max_int64 ->
  let b' := refilled l now b in
  bucket_ok start now b' /\ bk_updated b' = now /\
  scale * units (bk_tokens b') <= tokens_at now b + slack.
Proof.
  intros (Hlb & Hlr & _) (Hn & Hu & Hup & Hls) Ht Hnow b'. unfold b', refilled. rewrite Hlb, Hlr.
  set (d := now - bk_updated b).
  assert (0 <= d <= max_int64) as Hd by (unfold d; lia).
  rewrite time_sub_small by (unfold in_int64, min_int64, max_int64 in *; lia). fold d.
  destruct (Seconds_err d Hd) as [[Hsn Hsp] _].
  assert (f_ltb f_zero (Seconds d) = bool_decide (0 < d)) as ->.
  { destruct (Z.eq_dec d 0) as [->|]; [done|]. rewrite bool_decide_eq_true_2 by lia.
    apply (f_ltb_zero (-100)); [done|]. apply Hsp. lia. }
  unfold bucket_ok. case_bool_decide as Hd0; cbn [bk_tokens bk_updated bk_lastSeen].
  - destruct (refill_err d Hd) as [Hrn Hru].
    assert (per_ns * d < 2 ^ 1900) as Hx.
    { destruct Hrate as (_ & Hr0 & _). unfold per_ns, max_int64 in *.
      apply (Z.le_lt_trans _ ((2 ^ 52 + 1) * (2 ^ 52 + 1) * (2 ^ 52 + 1) * (2 ^ 90 * unit1) * 2 ^ 63)); [|by vm_compute].
      apply Z.mul_le_mono_nonneg; lia. }
    destruct (refill_capped (bk_tokens b) _ _ Hn Hrn Hu Hru Hx) as (Hn' & Hu' & Hs').
    split; [split; [exact Hn'|lia]|]. split; [reflexivity|exact Hs'].
  - assert (d = 0) as Hd1 by lia. split; [split; [exact Hn|lia]|]. split; [unfold d in Hd1; lia|].
    unfold tokens_at. fold d. rewrite Hd1, Z.mul_0_r, Z.add_0_r. unfold slack, scale.
    pose proof (units_nonneg (bk_tokens b)). lia.
Qed.

(** Forgetting a client gives it nothing: at the rate of refilling its bucket would be
    full. *)
Lemma cleanup_ok start t l now :
  limiter_ok start t l -> t <= now -> now - start <= max_int64 ->
  limiter_ok start now (cleanup now l) /\
  forall client, potential (cleanup now l) client now <= potential l client now.
Proof.
  intros Hok Ht Hnow. pose proof (limiter_ok_later _ _ _ _ Hok Ht) as (Hb & Hr & Htl & Hm).
  unfold cleanup. case_if; [|by split].
  split.
  { split_and!; [done..|]. simpl. intros c b. rewrite map_lookup_filter_Some. intros [Hc _]. by apply (Hm c). }
  intros client. unfold potential. simpl.
  destruct (rl_clients l !! client) as [b|] eqn:Hc.
  - destruct (Hm _ _ Hc) as (_ & _ & Hup & Hls).
    destruct (decide (now - bk_lastSeen b < rl_clientTTL l)) as [Hlt|Hge].
    + rewrite (proj2 (map_lookup_filter_Some _ _ client b)); [done|].
      rewrite time_sub_small by (unfold in_int64, min_int64, max_int64 in *; lia). done.
    + rewrite (proj2 (map_lookup_filter_None _ _ client)).
      * rewrite Htl in Hge. unfold tokens_at. apply Z.min_glb; [done|].
        assert (scale * burst_units <= per_ns * (now - bk_updated b)); [|pose proof (units_nonneg (bk_tokens b)); unfold scale in *; lia].
        destruct Hrate as (_ & Hv & _).
        transitivity (2 ^ 156 * (refill * ttl)); [unfold scale, burst_units; lia|].
        unfold per_ns. transitivity (2 ^ 156 * (refill * (now - bk_updated b))).
        { apply Z.mul_le_mono_nonneg_l; [lia|]. apply Z.mul_le_mono_nonneg_l; lia. }
        assert (0 <= refill * (now - bk_updated b)) by (apply Z.mul_nonneg_nonneg; lia). lia.
      * right. intros b' Hb' Hlt. simplify_eq.
        rewrite time_sub_small in Hlt by (unfold in_int64, min_int64, max_int64 in *; lia). lia.
  - rewrite (proj2 (map_lookup_filter_None _ _ client)); [done|]. by left.
Qed.

Lemma bucket_of_ok start t l client :
  limiter_ok start t l -> start <= t ->
  bucket_ok start t (bucket_of l client t) /\ tokens_at t (bucket_of l client t) <= potential l client t.
Proof.
  intros (Hb & _ & _ & Hm) Ht. unfold bucket_of, potential.
  destruct (rl_clients l !! client) as [b|] eqn:Hc; simpl; [by split; [apply (Hm client)|]|].
  destruct burst_normal as [Hn Hu]. rewrite Hb. split; [unfold bucket_ok; simpl; rewrite Hu; split_and!; [exact Hn|lia..]|].
  unfold tokens_at. simpl. rewrite Hu. lia.
Qed.

(** One request: what a client holds and what it has just used are paid for. *)
Lemma allow_step start t l c now :
  limiter_ok start t l -> start <= t -> t <= now -> now - start <= max_int64 ->
  let r := allow l c now in
  limiter_ok start now r.2 /\
  forall client,
    potential r.2 client now + (if bool_decide (client = c) && r.1.1.1 then scale * unit1 else 0)
    <= potential l client now + (if bool_decide (client = c) then slack else 0).
Proof.
  intros Hok Hst Ht Hnow r.
  destruct (cleanup_ok _ _ _ _ Hok Ht Hnow) as [Hok1 Hp1]. unfold r, allow. set (l1 := cleanup now l) in *.
  destruct (bucket_of_ok start now l1 c Hok1 ltac:(lia)) as [Hbk Hbp].
  destruct (refilled_ok start now l1 now _ Hok1 Hbk ltac:(lia) Hnow) as (Hb' & Hup & Hs).
  set (b := refilled l1 now (bucket_of l1 c now)) in *. destruct Hb' as (Hn & Hu & Hlu & Hls).
  assert (forall b2 : clientBucket, bucket_ok start now b2 -> limiter_ok start now
            (set_clients (<[c := b2]> (rl_clients l1)) (rl_lastCleanup l1) l1)) as Hins.
  { intros b2 Hb2. destruct Hok1 as (? & ? & ? & Hm). split_and!; [done..|]. by apply map_Forall_insert_2. }
  pose proof (Hp1 c) as Hpc. pose proof one_pos.
  assert (forall b2 : clientBucket, bk_updated b2 = now -> tokens_at now b2 <= scale * units (bk_tokens b2)) as Htok.
  { intros b2 Hb2. unfold tokens_at. rewrite Hb2. lia. }
  assert (unit1 = units (of_Z 1)) as H1u by (vm_compute; reflexivity).
  assert (f_leb (of_Z 1) (bk_tokens b) = true -> unit1 <= units (bk_tokens b)) as Hle.
  { rewrite H1u. apply (f_leb_units (-200)); [|done]. vm_compute. split; [done|]. split; [split|]; congruence. }
  destruct (f_leb (of_Z 1) (bk_tokens b)); cbn [fst snd].
  - specialize (Hle eq_refl).
    assert (burst_units < 2 ^ 53 * unit1) by (apply Z.mul_lt_mono_pos_r; lia).
    destruct (f_sub_one (bk_tokens b)) as [Hn' Hu']; [eapply normal_mono; [exact Hn|lia]|lia|].
    split.
    { apply Hins. unfold bucket_ok, take_token. cbn [bk_tokens bk_updated bk_lastSeen]. split; [exact Hn'|lia]. }
    intros client. unfold potential at 1. cbn [rl_clients set_clients].
    case_bool_decide as Hcl; simpl.
    + subst client. rewrite lookup_insert_eq. pose proof (Htok (take_token b) Hup) as Ht2. cbn [take_token bk_tokens] in Ht2.
      assert (scale * units (f_sub (bk_tokens b) (of_Z 1)) <= scale * units (bk_tokens b) - scale * unit1)
        by (unfold scale; lia). lia.
    + rewrite lookup_insert_ne by done. specialize (Hp1 client). unfold potential in Hp1 at 1. lia.
  - split; [apply Hins; unfold bucket_ok; split; [exact Hn|lia]|].
    intros client. rewrite andb_false_r, Z.add_0_r. unfold potential at 1. cbn [rl_clients set_clients].
    case_bool_decide as Hcl; simpl.
    + subst client. rewrite lookup_insert_eq. pose proof (Htok b Hup). lia.
    + rewrite lookup_insert_ne by done. specialize (Hp1 client). unfold potential in Hp1 at 1. lia.
Qed.

(** ** Runs *)

(** The requests in the order in which they take the lock, and the answers. *)
Fixpoint run (l : ipRateLimiter) (trace : list (string * time)) : list (string * bool) * ipRateLimiter :=
  match trace with
  | [] => ([], l)
  | (c, now) :: trace' =>
      let '(ok, _, _, l') := allow l c now in
      let '(answers, l'') := run l' trace' in
      ((c, ok) :: answers, l'')
  end.

(** The clock does not go back. *)
Fixpoint ordered (t : time) (trace : list (string * time)) : Prop :=
  match trace with [] => True | (_, now) :: trace' => t <= now /\ ordered now trace' end.

Definition count (p : string * bool -> bool) (answers : list (string * bool)) : Z :=
  Z.of_nat (length (List.filter p answers)).

Definition asked (client : string) (a : string * bool) : bool := bool_decide (a.1 = client).
Definition passed (client : string) (a : string * bool) : bool := asked client a && a.2.

Lemma count_cons p a answers : count p (a :: answers) = (if p a then 1 else 0) + count p answers.
Proof. unfold count. simpl. destruct (p a); simpl; lia. Qed.

Lemma run_potential start finish client trace : forall t l,
  limiter_ok start t l -> start <= t -> t <= finish -> ordered t trace ->
  Forall (fun r => r.2 <= finish) trace -> finish - start <= max_int64 ->
  let answers := (run l trace).1 in
  scale * unit1 * count (passed client) answers
    <= potential l client t + per_ns * (finish - t) + slack * count (asked client) answers.
Proof.
  induction trace as [|[c now] trace IH]; intros t l Hok Hst Htf Hord Hfin Hmax; simpl.
  { pose proof per_ns_pos. assert (0 <= potential l client t); [|unfold count; simpl; nia].
    unfold potential, tokens_at, scale, burst_units. pose proof one_pos.
    destruct Hok as (_ & _ & _ & Hm).
    destruct (rl_clients l !! client) as [b|] eqn:Hb; [|nia].
    destruct (Hm _ _ Hb) as (_ & _ & ? & ?). pose proof (units_nonneg (bk_tokens b)). nia. }
  destruct Hord as [Hle Hord]. inversion Hfin as [|? ? Hn Hfin']; subst. simpl in Hn.
  destruct (allow_step start t l c now Hok Hst Hle ltac:(lia)) as [Hok' Hstep]. specialize (Hstep client).
  destruct (allow l c now) as [[[ok rem] wait] l'] eqn:Ea. simpl in Hok', Hstep.
  specialize (IH now l' Hok' ltac:(lia) Hn Hord Hfin' Hmax).
  destruct (run l' trace) as [answers l''] eqn:Er. simpl in IH |- *. rewrite !count_cons.
  pose proof (potential_later l client t now Hle) as Hlater.
  change (passed client (c, ok)) with (bool_decide (c = client) && ok).
  change (asked client (c, ok)) with (bool_decide (c = client)).
  assert (bool_decide (c = client) = bool_decide (client = c)) as -> by (apply bool_decide_ext; naive_solver).
  assert (per_ns * (finish - t) = per_ns * (finish - now) + per_ns * (now - t)) by ring.
  destruct (bool_decide (client = c)), ok; cbn [andb] in *; lia.
Qed.

Lemma run_ok start finish trace : forall t l,
  limiter_ok start t l -> start <= t -> t <= finish -> ordered t trace ->
  Forall (fun r => r.2 <= finish) trace -> finish - start <= max_int64 ->
  limiter_ok start finish (run l trace).2.
Proof.
  induction trace as [|[c now] trace IH]; intros t l Hok Hst Htf Hord Hfin Hmax; simpl.
  { by eapply limiter_ok_later. }
  destruct Hord as [Hle Hord]. inversion Hfin as [|? ? Hn Hfin']; subst. simpl in Hn.
  destruct (allow_step start t l c now Hok Hst Hle ltac:(lia)) as [Hok' _].
  destruct (allow l c now) as [[[ok rem] wait] l'] eqn:Ea. simpl in Hok'.
  specialize (IH now l' Hok' ltac:(lia) Hn Hord Hfin' Hmax).
  by destruct (run l' trace) as [answers l''].
Qed.
End limiter.

(** * The bound *)

Definition eps : Q := (1 # 4503599627370496)%Q.
Definition value (f : float64) : Q := (units f # Z.to_pos unit1)%Q.
Definition in_seconds (d : duration) : Q := (d # 1000000000)%Q.

(** A rate between [2^-48] and [2^53] per second. *)
Definition rate_ok (rate : float64) : Prop :=
  normal (-100) rate /\ 0 < units rate /\ units rate <= 2 ^ 53 * unit1.

(** The time to live is enough to fill a bucket. *)
Definition ttl_ok (options : RateLimitOptions) : Prop :=
  ro_Burst options * unit1 * 1000000000 <= units (ro_RequestsPerSecond options) * ro_ClientTTL options.

Lemma bound_in_Q (a n b v T : Z) (p : positive) :
  1000000000 * 2 ^ 156 * Z.pos p * a
    <= 1000000000 * 2 ^ 156 * (b * Z.pos p) + (2 ^ 52 + 1) * (2 ^ 52 + 1) * (2 ^ 52 + 1) * v * T
       + 1000000000 * 2 ^ 104 * (b * Z.pos p) * n ->
  (inject_Z a <= inject_Z b * (1 + inject_Z n * eps)
     + (v # p) * in_seconds T * ((1 + eps) * (1 + eps) * (1 + eps)))%Q.
Proof.
  intros Hz. unfold Qle, Qplus, Qmult, inject_Z, eps, in_seconds. simpl.
  rewrite ?Pos2Z.inj_mul, ?Pos.mul_1_r, ?Z.mul_1_r. lia.
Qed.

Definition ceil_div (a b : Z) : Z := (a + b - 1) / b.

Lemma ceil_div_mul a b : 0 < b -> a <= ceil_div a b * b.
Proof. intros Hb. unfold ceil_div. pose proof (Z.div_mod (a + b - 1) b). pose proof (Z.mod_pos_bound (a + b - 1) b). lia. Qed.

Lemma ceil_div_least a b c : 0 < b -> a <= c * b -> ceil_div a b <= c.
Proof. intros Hb Hc. unfold ceil_div. apply Z.lt_succ_r, Z.div_lt_upper_bound; lia. Qed.

(** The rate at which a client can be refilled, in multiples of [1 / unit1]: the configured
    one or, if that is more, a burst in each time to live, since a client that was not
    seen for that long is forgotten and starts with a full bucket. *)
Definition refill_rate (options : RateLimitOptions) : Z :=
  Z.max (units (ro_RequestsPerSecond options))
    (ceil_div (ro_Burst options * unit1 * 1000000000) (ro_ClientTTL options)).

Lemma refill_rate_ttl options : 0 < ro_ClientTTL options -> ttl_ok options -> refill_rate options = units (ro_RequestsPerSecond options).
Proof. intros Ht Hok. apply Z.max_l. by apply ceil_div_least. Qed.

Lemma refill_rate_bound options : 0 < ro_Burst options < 2 ^ 53 -> 0 < ro_ClientTTL options -> rate_ok (ro_RequestsPerSecond options) ->
  units (ro_RequestsPerSecond options) <= refill_rate options <= 2 ^ 90 * unit1 /\
  ro_Burst options * unit1 * 1000000000 <= refill_rate options * ro_ClientTTL options.
Proof.
  intros Hb Ht (_ & _ & Hr). pose proof one_pos. unfold refill_rate. set (a := ro_Burst options * unit1 * 1000000000).
  assert (0 <= a <= 2 ^ 90 * unit1) as Ha by (unfold a; nia).
  assert (ceil_div a (ro_ClientTTL options) <= a) by (apply ceil_div_least; [done|nia]).
  pose proof (ceil_div_mul a (ro_ClientTTL options) Ht). split; [lia|].
  set (c := ceil_div a (ro_ClientTTL options)) in *. set (m := Z.max _ c). assert (c <= m) by apply Z.le_max_r. nia.
Qed.

(** C15. The rate limiter keeps its promise.  The clock does not go back between the
    requests in the order in which they take the lock, the rate is between [2^-48] and
    [2^53] per second and the burst under [2^53].  Then in any period from [t] to [finish],
    whatever requests came before and whatever other clients send, a client gets
    at most [burst + refill_rate * (finish - t)] requests through, up to the rounding of
    [float64]: a relative error of about [2^-50] of what the rate gives, and of
    [2^-52] of the burst for each request.  When the time to live is long enough to fill
    a bucket, [refill_rate] is the configured rate; a shorter one, which the configuration
    accepts, lets through a burst in each time to live ([short_ttl] below). *)
Theorem rate_limit_bound options start before t window finish client :
  0 < ro_Burst options < 2 ^ 53 -> 0 < ro_ClientTTL options ->
  rate_ok (ro_RequestsPerSecond options) ->
  start <= t <= finish -> finish - start <= max_int64 ->
  ordered start before -> Forall (fun r => r.2 <= t) before ->
  ordered t window -> Forall (fun r => r.2 <= finish) window ->
  let l := (run (newIPRateLimiter options start) before).2 in
  let answers := (run l window).1 in
  (inject_Z (count (passed client) answers)
   <= inject_Z (ro_Burst options) * (1 + inject_Z (count (asked client) answers) * eps)
      + (refill_rate options # Z.to_pos unit1) * in_seconds (finish - t)
        * ((1 + eps) * (1 + eps) * (1 + eps)))%Q /\
  (ttl_ok options -> (refill_rate options # Z.to_pos unit1)%Q = value (ro_RequestsPerSecond options)).
Proof.
  intros Hb Httl0 Hrate Ht Hmax Ho1 Hf1 Ho2 Hf2 l answers.
  split; [|by intros Httl; unfold value; rewrite refill_rate_ttl].
  destruct (refill_rate_bound options Hb Httl0 Hrate) as [Hrefill Httl].
  set (burst := ro_Burst options) in *. set (rate := ro_RequestsPerSecond options) in *.
  set (ttl := ro_ClientTTL options) in *. set (refill := refill_rate options) in *.
  assert (limiter_ok burst rate ttl start start (newIPRateLimiter options start)) as Hok0.
  { split_and!; [done|done| |apply map_Forall_empty]. simpl. fold ttl. by rewrite (proj2 (Z.leb_gt _ _)). }
  assert (limiter_ok burst rate ttl start t l) as Hok
    by (apply (run_ok burst rate ttl refill Hb Hrate Hrefill Httl start t before start); try done; lia).
  pose proof (run_potential burst rate ttl refill Hb Hrate Hrefill Httl start finish client window t l Hok
    ltac:(lia) ltac:(lia) Ho2 Hf2 Hmax) as Hp. cbv zeta in Hp. fold answers in Hp.
  pose proof (potential_burst burst refill l client t) as Hpb.
  apply bound_in_Q. rewrite Z2Pos.id by apply one_pos.
  unfold scale, slack, per_ns, burst_units in *. lia.
Qed.

(** * Examples *)

Definition sample_options : RateLimitOptions :=
  {| ro_Enabled := true; ro_RequestsPerSecond := of_Z 20; ro_Burst := 40; ro_ClientTTL := 10 * minute;
     ro_TrustProxyHeaders := false |}.

(** A hundred requests in one second. *)
Definition sample_window : list (string * time) :=
  map (fun n => ("10.0.0.1", Z.of_nat n * 10000000)) (seq 0 100).

Example sample_passed :
  count (passed "10.0.0.1") (run (newIPRateLimiter sample_options 0) sample_window).1 = 59.
Proof. vm_compute. reflexivity. Qed.

(** A time to live too short for the burst is accepted by the configuration and
    makes the rate void: forty requests each second, at a rate of one in a
    hundred seconds. *)
Example short_ttl :
  let options := {| ro_Enabled := true; ro_RequestsPerSecond := f_lit "0.01"; ro_Burst := 40;
                    ro_ClientTTL := second; ro_TrustProxyHeaders := false |} in
  let trace := flat_map (fun s => map (fun _ => ("10.0.0.1", Z.of_nat s * second)) (seq 0 40)) (seq 1 3) in
  count (passed "10.0.0.1") (run (newIPRateLimiter options 0) trace).1 = 120.
Proof. vm_compute. reflexivity. Qed.

Lemma sample_rate_ok : rate_ok (of_Z 20).
Proof.
  assert (bool_decide (0 < units (of_Z 20) /\ units (of_Z 20) <= 2 ^ 53 * unit1) = true) as Hu by (vm_compute; reflexivity).
  apply bool_decide_eq_true in Hu. split; [|exact Hu].
  apply (normal_mono (-52)); [|lia]. by apply of_Z_normal.
Qed.

Lemma rate_limit_bound_witness :
  let answers := (run (newIPRateLimiter sample_options 0) sample_window).1 in
  (inject_Z (count (passed "10.0.0.1") answers)
   <= inject_Z 40 * (1 + inject_Z (count (asked "10.0.0.1") answers) * eps)
      + value (of_Z 20) * in_seconds second * ((1 + eps) * (1 + eps) * (1 + eps)))%Q.
Proof.
  destruct (rate_limit_bound sample_options 0 [] 0 sample_window second "10.0.0.1") as [Hbound Hrate].
  - done.
  - done.
  - exact sample_rate_ok.
  - done.
  - done.
  - exact I.
  - constructor.
  - unfold sample_window. simpl. lia.
  - unfold sample_window. simpl. repeat constructor; done.
  - rewrite Hrate in Hbound by (apply Z.leb_le; vm_compute; reflexivity). exact Hbound.
Defined.
