(* ===== verification/EconomicProfile.v ===== *)
(** The economic profile of a player: [internal/economicprofile/economicprofile.go],
    with the table of [migrations/0017_player_economic_profiles.sql]; the service,
    then the HTTP handler. *)
From S2P Require Import Prelude GoLists GoBase Float64 Webhook BillingDB Utf8 Json Billing Accounts Http.
Local Open Scope Z_scope.

(** [branchKeyPattern]: [^[a-z0-9][a-z0-9_-]{0,63}$]. *)
Definition branch_first (c : ascii) : bool := in_range 97 122 c || in_range 48 57 c.
Definition branch_rest (c : ascii) : bool :=
  branch_first c || bool_decide (c = "_"%char) || bool_decide (c = "-"%char).

Definition branchKeyPattern (s : string) : bool :=
  match s with
  | String c s' => branch_first c && str_all branch_rest s' && (str_len s' <=? 63)
  | EmptyString => false
  end.

Definition validServers : list string := ["americas"; "europe"; "asia"].
Definition validCities : list string :=
  ["bridgewatch"; "caerleon"; "fort-sterling"; "lymhurst"; "martlock"; "thetford"; "brecilien"].

(** * Data *)

Record Specialization := {
  sz_BranchKey : string;
  sz_BranchName : string;
  sz_Level : Z;
  sz_FocusCostEfficiency : Z;
}.

Record Input := {
  in_Server : string;
  in_PremiumActive : bool;
  in_DailyFocusBalance : Z;
  in_HomeCity : string;
  in_GuildHasIsland : bool;
  in_SalesTaxRate : float64;
  in_TransportCost : Z;
  in_Specializations : list Specialization;
}.

(** A [Profile] has the fields of an [Input] and two dates. *)
Record Profile := {
  pf_Input : Input;
  pf_CreatedAt : time;
  pf_UpdatedAt : time;
}.

(** [player_economic_profiles]: the row of a user. *)
Record ProfileDB := {
  pr_accounts : AccountsDB;
  pr_profiles : gmap string Profile;
}.

Definition set_profile_accounts (a : AccountsDB) (d : ProfileDB) : ProfileDB :=
  {| pr_accounts := a; pr_profiles := pr_profiles d |}.
Definition set_profiles (m : gmap string Profile) (d : ProfileDB) : ProfileDB :=
  {| pr_accounts := pr_accounts d; pr_profiles := m |}.

(** The value of a [numeric(6,3)] column a double is stored into, read back as a
    double; [None] when it does not fit. *)
Class Numeric63 := numeric_6_3 : float64 -> option float64.

(** A stand-in for the examples: a column that rounds nothing. *)
Definition plain_numeric : Numeric63 := fun x =>
  if f_leb f_zero x && f_leb x (of_Z 100) then Some x else None.

(** * Errors *)

Inductive profile_step := PLoad | PSave | PDelete.

Inductive profile_error :=
  | ErrInvalid (why : string)
  | ErrNotFound
  | AccessFailed (e : account_error)
  | ProfileStatement (st : profile_step) (e : db_failure).

Record profile_call := {
  pc_account : account_call;
  pc_now : time;
  pc_outcome : profile_step -> outcome;
}.

(** * Validation *)
Section normalize.
Context `{Unicode}.

(** The loop over the specializations; [seen] are the keys before. *)
Fixpoint normalize_specializations (seen : list string) (l : list Specialization)
    : result profile_error (list Specialization) :=
  match l with
  | [] => Ok []
  | s :: l' =>
      let key := ToLower (TrimSpace (sz_BranchKey s)) in
      let name := TrimSpace (sz_BranchName s) in
      fail_if negb (branchKeyPattern key)
        with ErrInvalid "invalid specialization branch key" else
      fail_if (RuneCount name <? 1) || (80 <? RuneCount name)
        with ErrInvalid "invalid specialization branch name" else
      fail_if (sz_Level s <? 0) || (100 <? sz_Level s)
        with ErrInvalid "specialization level is out of range" else
      fail_if (sz_FocusCostEfficiency s <? 0) || (100000 <? sz_FocusCostEfficiency s)
        with ErrInvalid "focus cost efficiency is out of range" else
      fail_if bool_decide (key ∈ seen) with ErrInvalid "duplicate specialization branch" else
      let! rest := normalize_specializations (key :: seen) l' in
      Ok ({| sz_BranchKey := key; sz_BranchName := name; sz_Level := sz_Level s;
             sz_FocusCostEfficiency := sz_FocusCostEfficiency s |} :: rest)
  end.

Definition normalizeInput (input : Input) : result profile_error Input :=
  let server := ToLower (TrimSpace (in_Server input)) in
  let city := ToLower (TrimSpace (in_HomeCity input)) in
  fail_if negb (bool_decide (server ∈ validServers)) with ErrInvalid "unsupported server" else
  fail_if negb (bool_decide (city ∈ validCities)) with ErrInvalid "unsupported home city" else
  fail_if (in_DailyFocusBalance input <? 0) || (100000 <? in_DailyFocusBalance input)
    with ErrInvalid "daily focus balance is out of range" else
  fail_if f_ltb (in_SalesTaxRate input) f_zero || f_ltb (of_Z 100) (in_SalesTaxRate input)
    with ErrInvalid "sales tax rate is out of range" else
  fail_if (in_TransportCost input <? 0) || (1000000000000 <? in_TransportCost input)
    with ErrInvalid "transport cost is out of range" else
  fail_if 50 <? Z.of_nat (length (in_Specializations input))
    with ErrInvalid "too many specializations" else
  let! specializations := normalize_specializations [] (in_Specializations input) in
  Ok {| in_Server := server; in_PremiumActive := in_PremiumActive input;
        in_DailyFocusBalance := in_DailyFocusBalance input; in_HomeCity := city;
        in_GuildHasIsland := in_GuildHasIsland input; in_SalesTaxRate := in_SalesTaxRate input;
        in_TransportCost := in_TransportCost input; in_Specializations := specializations |}.
End normalize.

(** * Table *)
Section store.
Context `{Unicode} `{EntitlementEncoding} `{Numeric63}.

(** The [check] constraints. *)
Definition profile_checks (p : Input) : bool :=
  bool_decide (in_Server p ∈ validServers) && bool_decide (in_HomeCity p ∈ validCities)
  && (0 <=? in_DailyFocusBalance p) && (in_DailyFocusBalance p <=? 100000)
  && f_leb f_zero (in_SalesTaxRate p) && f_leb (in_SalesTaxRate p) (of_Z 100)
  && (0 <=? in_TransportCost p) && (in_TransportCost p <=? 1000000000000).

Definition no_nul (s : string) : bool := str_all (fun c => negb (in_range 0 0 c)) s.

(** [json.Marshal] writes a byte that is not UTF-8 as U+FFFD, and [jsonb] refuses
    U+0000; otherwise [json.Unmarshal] gives back what was encoded. *)
Definition jsonb_specializations (l : list Specialization) : option (list Specialization) :=
  if forallb (fun s => no_nul (sz_BranchKey s) && no_nul (sz_BranchName s)) l then
    Some (map (fun s =>
      {| sz_BranchKey := coerce_utf8 (sz_BranchKey s); sz_BranchName := coerce_utf8 (sz_BranchName s);
         sz_Level := sz_Level s; sz_FocusCostEfficiency := sz_FocusCostEfficiency s |}) l)
  else None.

(** The upsert of [Save], with the [now()] of its transaction. *)
Definition upsert_profile (now : time) (user : string) (p : Input) (m : gmap string Profile)
    : result db_failure (Profile * gmap string Profile) :=
  let! rate := of_option OtherFailure (numeric_6_3 (in_SalesTaxRate p)) in
  let! specializations := of_option OtherFailure (jsonb_specializations (in_Specializations p)) in
  let row :=
    {| pf_Input :=
         {| in_Server := in_Server p; in_PremiumActive := in_PremiumActive p;
            in_DailyFocusBalance := in_DailyFocusBalance p; in_HomeCity := in_HomeCity p;
            in_GuildHasIsland := in_GuildHasIsland p; in_SalesTaxRate := rate;
            in_TransportCost := in_TransportCost p; in_Specializations := specializations |};
       pf_CreatedAt := match m !! user with Some old => pf_CreatedAt old | None => now end;
       pf_UpdatedAt := now |} in
  fail_if negb (profile_checks (pf_Input row)) with ConstraintViolation else
  Ok (row, <[user := row]> m).

(** * Operations *)

Definition profile_failed {A} (st : profile_step) (cause : outage) : result profile_error A :=
  Err (ProfileStatement st (outage_failure cause)).

(** [access]: the account is synchronised, whatever follows. *)
Definition profile_access {A} (c : profile_call) (identity : Identity) (d : ProfileDB)
    (k : string -> ProfileDB -> result profile_error A * ProfileDB)
    : result profile_error A * ProfileDB :=
  match Accounts.Current (pc_account c) identity (pr_accounts d) with
  | (Err e, a) => (Err (AccessFailed e), set_profile_accounts a d)
  | (Ok access, a) => k (u_ID (a_User access)) (set_profile_accounts a d)
  end.

Definition Current (c : profile_call) (identity : Identity) (d : ProfileDB)
    : result profile_error (option Profile) * ProfileDB :=
  profile_access c identity d (fun user d =>
    (match pc_outcome c PLoad with
     | Done => Ok (pr_profiles d !! user)
     | Refused cause | AckLost cause => profile_failed PLoad cause
     end, d)).

Definition Save (c : profile_call) (identity : Identity) (input : Input) (d : ProfileDB)
    : result profile_error Profile * ProfileDB :=
  match normalizeInput input with
  | Err e => (Err e, d)
  | Ok normalized =>
      profile_access c identity d (fun user d =>
        match pc_outcome c PSave, upsert_profile (pc_now c) user normalized (pr_profiles d) with
        | Refused cause, _ => (profile_failed PSave cause, d)
        | _, Err e => (Err (ProfileStatement PSave e), d)
        | Done, Ok (p, m) => (Ok p, set_profiles m d)
        | AckLost cause, Ok (_, m) => (profile_failed PSave cause, set_profiles m d)
        end)
  end.

Definition Delete (c : profile_call) (identity : Identity) (d : ProfileDB)
    : result profile_error unit * ProfileDB :=
  profile_access c identity d (fun user d =>
    let d' := set_profiles (delete user (pr_profiles d)) d in
    match pc_outcome c PDelete with
    | Refused cause => (profile_failed PDelete cause, d)
    | Done => (match pr_profiles d !! user with Some _ => Ok tt | None => Err ErrNotFound end, d')
    | AckLost cause => (profile_failed PDelete cause, d')
    end).
End store.

(** ** The HTTP handler of [internal/economicprofile/economicprofile.go]. *)

Inductive profile_body :=
  | ProfileError (message : string)
  | ProfileAnswer (profile : option Profile)
  | NoContent.

Definition profile_response := Response profile_body.

(** [writeJSON]; the headers set before are written first. *)
Definition profile_write (status : Z) (headers : list (string * string)) (body : profile_body)
    : profile_response :=
  {| rs_Status := status; rs_Headers := headers ++ [json_type; no_store]; rs_Body := body |}.

(** [writeError], with the text of the error. *)
Definition writeError (e : profile_error) : profile_response :=
  match e with
  | ErrInvalid why =>
      profile_write StatusBadRequest [] (ProfileError ("invalid economic profile: " +:+ why))
  | ErrNotFound => profile_write StatusNotFound [] (ProfileError "economic profile not found")
  | AccessFailed _ | ProfileStatement _ _ =>
      profile_write StatusInternalServerError [] (ProfileError "internal server error")
  end.

(** [NewHandler]: the bound of a body. *)
Definition profile_body_limit (maxBodyBytes : Z) : Z :=
  if maxBodyBytes <=? 0 then Z.shiftl 64 10 else maxBodyBytes.

(** * Decoding *)

Definition zero_specialization : Specialization :=
  {| sz_BranchKey := EmptyString; sz_BranchName := EmptyString; sz_Level := 0;
     sz_FocusCostEfficiency := 0 |}.

Definition zero_input : Input :=
  {| in_Server := EmptyString; in_PremiumActive := false; in_DailyFocusBalance := 0;
     in_HomeCity := EmptyString; in_GuildHasIsland := false; in_SalesTaxRate := f_zero;
     in_TransportCost := 0; in_Specializations := [] |}.

#[local] Abbreviation SZ := Build_Specialization.
#[local] Abbreviation IN := Build_Input.

Section handler.
Context `{Unicode} `{EntitlementEncoding} `{Numeric63}.

Definition dec_Specialization : decoder Specialization :=
  dec_struct
    [("branchKey", field sz_BranchKey (fun x '(SZ _ n l f) => SZ x n l f) dec_string);
     ("branchName", field sz_BranchName (fun x '(SZ k _ l f) => SZ k x l f) dec_string);
     ("level", field sz_Level (fun x '(SZ k n _ f) => SZ k n x f) dec_int64);
     ("focusCostEfficiency", field sz_FocusCostEfficiency (fun x '(SZ k n l _) => SZ k n l x) dec_int64)].

Definition dec_Input : decoder Input :=
  dec_struct
    [("server", field in_Server (fun x '(IN _ p f c g r t l) => IN x p f c g r t l) dec_string);
     ("premiumActive", field in_PremiumActive (fun x '(IN s _ f c g r t l) => IN s x f c g r t l) dec_bool);
     ("dailyFocusBalance",
       field in_DailyFocusBalance (fun x '(IN s p _ c g r t l) => IN s p x c g r t l) dec_int64);
     ("homeCity", field in_HomeCity (fun x '(IN s p f _ g r t l) => IN s p f x g r t l) dec_string);
     ("guildHasIsland", field in_GuildHasIsland (fun x '(IN s p f c _ r t l) => IN s p f c x r t l) dec_bool);
     ("salesTaxRate", field in_SalesTaxRate (fun x '(IN s p f c g _ t l) => IN s p f c g x t l) dec_float64);
     ("transportCost", field in_TransportCost (fun x '(IN s p f c g r _ l) => IN s p f c g r x l) dec_int64);
     ("specializations",
       field in_Specializations (fun x '(IN s p f c g r t _) => IN s p f c g r t x)
         (dec_slice zero_specialization dec_Specialization))].

(** [decodeJSON]: one value and nothing but space within the first
    [maxBodyBytes] bytes. *)
Definition decodeJSON (maxBodyBytes : Z) (r : HttpRequest) : result string Input :=
  match decode_next dec_Input zero_input (LimitReader maxBodyBytes (hr_Body r)) with
  | Ok (input, rest) => if at_eof rest then Ok input else Err "request must contain one JSON object"
  | Err _ => Err "invalid JSON request"
  end.

(** [Handler.Profile] *)
Definition serve_profile (maxBodyBytes : Z) (c : profile_call) (r : HttpRequest) (d : ProfileDB)
    : profile_response * ProfileDB :=
  match hr_Identity r with
  | None => (profile_write StatusUnauthorized [] (ProfileError "unauthorized"), d)
  | Some identity =>
      if bool_decide (hr_Method r = "GET") then
        let '(answer, d') := Current c identity d in
        (match answer with
         | Ok p => profile_write StatusOK [] (ProfileAnswer p)
         | Err e => writeError e
         end, d')
      else if bool_decide (hr_Method r = "PUT") then
        match decodeJSON (profile_body_limit maxBodyBytes) r with
        | Err message => (profile_write StatusBadRequest [] (ProfileError message), d)
        | Ok input =>
            let '(answer, d') := Save c identity input d in
            (match answer with
             | Ok p => profile_write StatusOK [] (ProfileAnswer (Some p))
             | Err e => writeError e
             end, d')
        end
      else if bool_decide (hr_Method r = "DELETE") then
        let '(answer, d') := Delete c identity d in
        (match answer with
         | Ok _ => {| rs_Status := StatusNoContent; rs_Headers := [no_store]; rs_Body := NoContent |}
         | Err e => writeError e
         end, d')
      else (profile_write StatusMethodNotAllowed [("Allow", "GET, PUT, DELETE")]
              (ProfileError "method not allowed"), d)
  end.
End handler.
