(* ===== verification/EconomicProfileSpec.v ===== *)
(** What the economic profile promises: which inputs are accepted, that the
    table holds nothing else, and that what is saved is read and can be saved
    again as it is. *)
From S2P Require Import Prelude GoLists GoBase Float64 Float64Spec Utf8 Webhook BillingDB Json Billing BillingSamples Accounts AccountsSpec Http SavedDataSpec EconomicProfile.
Local Open Scope Z_scope.

(** * Accepted inputs *)

Definition specialization_ok (s : Specialization) : Prop :=
  branchKeyPattern (sz_BranchKey s) = true /\ 1 <= RuneCount (sz_BranchName s) <= 80 /\
  0 <= sz_Level s <= 100 /\ 0 <= sz_FocusCostEfficiency s <= 100000.

Definition specializations_ok (l : list Specialization) : Prop :=
  Z.of_nat (length l) <= 50 /\ Forall specialization_ok l /\ NoDup (map sz_BranchKey l).

Definition input_ok (p : Input) : Prop :=
  in_Server p ∈ validServers /\ in_HomeCity p ∈ validCities /\
  0 <= in_DailyFocusBalance p <= 100000 /\
  f_ltb (in_SalesTaxRate p) f_zero = false /\ f_ltb (of_Z 100) (in_SalesTaxRate p) = false /\
  0 <= in_TransportCost p <= 1000000000000 /\ specializations_ok (in_Specializations p).

Section spec.
Context `{Unicode}.

(** The spelling that is checked and stored. *)
Definition clean_specialization (s : Specialization) : Specialization :=
  {| sz_BranchKey := ToLower (TrimSpace (sz_BranchKey s)); sz_BranchName := TrimSpace (sz_BranchName s);
     sz_Level := sz_Level s; sz_FocusCostEfficiency := sz_FocusCostEfficiency s |}.

Definition clean_input (p : Input) : Input :=
  {| in_Server := ToLower (TrimSpace (in_Server p)); in_PremiumActive := in_PremiumActive p;
     in_DailyFocusBalance := in_DailyFocusBalance p; in_HomeCity := ToLower (TrimSpace (in_HomeCity p));
     in_GuildHasIsland := in_GuildHasIsland p; in_SalesTaxRate := in_SalesTaxRate p;
     in_TransportCost := in_TransportCost p;
     in_Specializations := map clean_specialization (in_Specializations p) |}.

Lemma out_of_range_false lo hi z : (z <? lo) || (hi <? z) = false <-> lo <= z <= hi.
Proof. rewrite orb_false_iff, !Z.ltb_ge. lia. Qed.

Lemma normalize_specializations_ok seen l out :
  normalize_specializations seen l = Ok out <->
  out = map clean_specialization l /\ Forall specialization_ok out /\
  NoDup (map sz_BranchKey out) /\ forall k, k ∈ map sz_BranchKey out -> k ∉ seen.
Proof.
  revert seen out. induction l as [|s l IH]; intros seen out; simpl.
  { split; [intros [= <-]; split_and!; [done|constructor|constructor|set_solver]|by intros [-> _]]. }
  split.
  - intros Hn. inv_ok. apply IH in Hr as (-> & Hf & Hd & Hs).
    rewrite negb_false_iff in Hg. apply out_of_range_false in Hg0, Hg1, Hg2.
    rewrite bool_decide_eq_false in Hg3. split; [reflexivity|].
    split; [constructor; [split; [exact Hg|auto]|exact Hf]|split].
    + simpl. constructor; [|done]. intros Hin. by apply (Hs _ Hin), list_elem_of_here.
    + simpl. intros k [->|Hk]%elem_of_cons; [done|]. specialize (Hs _ Hk). set_solver.
  - intros (-> & Hf & Hd & Hs). inversion Hf as [|? ? (Hk & Hn & Hl & Hc) Hf']; subst.
    simpl in *. inversion Hd; subst. rewrite Hk. simpl.
    rewrite !(proj2 (out_of_range_false _ _ _)) by lia.
    rewrite bool_decide_eq_false_2 by (apply Hs, list_elem_of_here).
    rewrite (proj2 (IH _ (map clean_specialization l))); [done|].
    split; [reflexivity|]. split; [exact Hf'|]. split; [assumption|].
    intros k Hk' Hin. apply elem_of_cons in Hin as [->|Hin]; [contradiction|].
    exact (Hs k (list_elem_of_further _ _ _ Hk') Hin).
Qed.

Lemma normalizeInput_ok p out :
  normalizeInput p = Ok out <-> out = clean_input p /\ input_ok out.
Proof.
  unfold normalizeInput. split.
  - intros Hn. inv_ok. apply normalize_specializations_ok in Hr as (-> & Hf & Hd & _).
    rewrite negb_false_iff, bool_decide_eq_true in Hg, Hg0.
    apply out_of_range_false in Hg1, Hg3. apply orb_false_iff in Hg2 as [? ?]. apply Z.ltb_ge in Hg4.
    split; [done|]. split_and!; try done; simpl; try lia.
    split_and!; [by rewrite length_map|done..].
  - intros [-> (Hs & Hc & Hf & Hr1 & Hr2 & Ht & Hl & Hsp & Hd)]. simpl in *.
    rewrite !bool_decide_eq_true_2 by done. simpl.
    rewrite !(proj2 (out_of_range_false _ _ _)) by done. rewrite Hr1, Hr2. simpl.
    rewrite length_map in Hl. rewrite (proj2 (Z.ltb_ge _ _)) by done.
    rewrite (proj2 (normalize_specializations_ok [] _ (map clean_specialization (in_Specializations p)))); [done|].
    split_and!; [done..|set_solver].
Qed.

(** Normalising twice changes nothing more. *)
Lemma branch_key_clean k : branchKeyPattern k = true ->
  ToLower (TrimSpace k) = k /\ is_ascii k = true.
Proof.
  intros Hk.
  assert (str_all branch_rest k = true) as Hall.
  { destruct k as [|c k]; [done|]. simpl in *. bool_facts. rewrite andb_true_iff. split; [|done].
    unfold branch_rest. by rewrite H0. }
  assert (forall c, branch_rest c = true -> in_range 33 126 c && negb (in_range 65 90 c) = true) as Hb.
  { intros [[] [] [] [] [] [] [] []]; vm_compute; done. }
  rewrite TrimSpace_graphic by (by eapply str_all_impl, Hall; intros c Hc%Hb; apply andb_true_iff in Hc as []).
  split.
  - apply ToLower_id. eapply str_all_impl, Hall. intros [[] [] [] [] [] [] [] []]; vm_compute; done.
  - eapply str_all_impl, Hall. intros [[] [] [] [] [] [] [] []]; vm_compute; done.
Qed.

Lemma valid_server_clean k : k ∈ validServers -> ToLower (TrimSpace k) = k.
Proof.
  unfold validServers. intros Hk. repeat (apply elem_of_cons in Hk as [->|Hk]; [vm_compute; reflexivity|]).
  by apply elem_of_nil in Hk.
Qed.

Lemma valid_city_clean k : k ∈ validCities -> ToLower (TrimSpace k) = k.
Proof.
  unfold validCities. intros Hk. repeat (apply elem_of_cons in Hk as [->|Hk]; [vm_compute; reflexivity|]).
  by apply elem_of_nil in Hk.
Qed.

Lemma clean_specializations_idemp l :
  Forall specialization_ok (map clean_specialization l) ->
  map clean_specialization (map clean_specialization l) = map clean_specialization l.
Proof.
  induction l as [|z l IH]; [done|]. simpl. intros Hf. inversion Hf as [|? ? (Hk & _) Hf']; subst.
  rewrite IH by done. f_equal.
  unfold clean_specialization at 1. simpl. simpl in Hk. by rewrite (proj1 (branch_key_clean _ Hk)), TrimSpace_idemp.
Qed.

(** An input spelled as it is stored is accepted as it is. *)
Lemma normalizeInput_stored p :
  input_ok p -> map clean_specialization (in_Specializations p) = in_Specializations p ->
  normalizeInput p = Ok p.
Proof.
  intros Hok Hl. apply normalizeInput_ok. split; [|done]. destruct Hok as (Hs & Hc & _).
  unfold clean_input. rewrite Hl, (valid_server_clean _ Hs), (valid_city_clean _ Hc). by destruct p.
Qed.
End spec.

(** * The table *)

Section table.
Context `{Unicode} `{EntitlementEncoding} `{Numeric63}.

(** What a row is, beyond the checks of the table: its array holds at most fifty
    specializations of distinct branches, each within its ranges and with a name
    that is text. *)
Definition profile_wf (p : Profile) : Prop :=
  profile_checks (pf_Input p) = true /\ specializations_ok (in_Specializations (pf_Input p)) /\
  Forall (fun s => ValidString (sz_BranchName s) = true) (in_Specializations (pf_Input p)).

Definition profiles_wf (d : ProfileDB) : Prop := map_Forall (fun _ p => profile_wf p) (pr_profiles d).

Definition coerce_specialization (s : Specialization) : Specialization :=
  {| sz_BranchKey := coerce_utf8 (sz_BranchKey s); sz_BranchName := coerce_utf8 (sz_BranchName s);
     sz_Level := sz_Level s; sz_FocusCostEfficiency := sz_FocusCostEfficiency s |}.

Lemma jsonb_specializations_ok l out :
  jsonb_specializations l = Some out -> specializations_ok l ->
  out = map coerce_specialization l /\ specializations_ok out /\
  Forall (fun s => ValidString (sz_BranchName s) = true) out.
Proof.
  unfold jsonb_specializations. destruct (forallb _ _); [|discriminate]. intros [= <-] (Hl & Hf & Hd).
  split; [done|]. split; [|by apply Forall_map, Forall_true; intros s; apply coerce_valid].
  rewrite Forall_forall in Hf.
  assert (map sz_BranchKey (map coerce_specialization l) = map sz_BranchKey l) as Hk.
  { rewrite map_map. apply map_ext_in. intros s Hs. simpl. apply coerce_utf8_valid, ascii_valid.
    by apply branch_key_clean, Hf, list_elem_of_In. }
  split_and!; [by rewrite length_map| |by change (NoDup (map sz_BranchKey (map coerce_specialization l))); rewrite Hk].
  apply Forall_map, Forall_forall. intros s Hs. destruct (Hf _ Hs) as (Hkey & Hn & Hlv & Hc).
  unfold specialization_ok. simpl. rewrite RuneCount_coerce.
  rewrite coerce_utf8_valid by (by apply ascii_valid, branch_key_clean). auto.
Qed.

Lemma upsert_profile_ok now user p m row m' :
  upsert_profile now user p m = Ok (row, m') -> input_ok p -> m' = <[user := row]> m /\ profile_wf row.
Proof.
  unfold upsert_profile. intros Hu (_ & _ & _ & _ & _ & _ & Hs). inv_ok.
  split; [done|]. apply negb_false_iff in Hg.
  destruct (jsonb_specializations (in_Specializations p)) as [l'|] eqn:E; [|discriminate].
  destruct (jsonb_specializations_ok _ _ E Hs) as (_ & Hok & Hv). simpl in Hr0. injection Hr0 as <-.
  by split_and!.
Qed.

(** A change to the row of one user, or none. *)
Definition profile_change (user : string) (d d' : ProfileDB) : Prop :=
  (profiles_wf d -> profiles_wf d') /\
  forall u, u <> user -> pr_profiles d' !! u = pr_profiles d !! u.

Definition profile_effect {A} (c : profile_call) (identity : Identity) (d : ProfileDB)
    (res : result profile_error A * ProfileDB) : Prop :=
  pr_profiles res.2 = pr_profiles d \/
  exists access a, Accounts.Current (pc_account c) identity (pr_accounts d) = (Ok access, a) /\
    profile_change (u_ID (a_User access)) d res.2 /\
    (is_ok res.1 = true \/ exists st cause, pc_outcome c st = AckLost cause).

Lemma profile_access_effect {A} c identity d (k : string -> ProfileDB -> result profile_error A * ProfileDB) :
  (forall user d1, pr_profiles (k user d1).2 = pr_profiles d1 \/
     (profile_change user d1 (k user d1).2 /\
      (is_ok (k user d1).1 = true \/ exists st cause, pc_outcome c st = AckLost cause))) ->
  profile_effect c identity d (profile_access c identity d k).
Proof.
  intros Hk. unfold profile_access.
  destruct (Accounts.Current (pc_account c) identity (pr_accounts d)) as [[access|e] a] eqn:E; [|by left].
  destruct (Hk (u_ID (a_User access)) (set_profile_accounts a d)) as [Hs|[[Hwf Hr] Ho]]; [by left|].
  right. exists access, a. split_and!; [done| |done]. split; [exact Hwf|exact Hr].
Qed.

Lemma Current_effect c identity d : profile_effect c identity d (Current c identity d).
Proof. apply profile_access_effect. by left. Qed.

Lemma insert_change d user row :
  profile_wf row -> profile_change user d (set_profiles (<[user := row]> (pr_profiles d)) d).
Proof.
  intros Hrow. split; [intros Hwf; by apply map_Forall_insert_2|].
  intros u Hu. simpl. by rewrite lookup_insert_ne.
Qed.

Lemma Save_effect c identity input d : profile_effect c identity d (Save c identity input d).
Proof.
  unfold Save. destruct (normalizeInput input) as [p|] eqn:En; [|by left].
  apply normalizeInput_ok in En as [_ Hok]. apply profile_access_effect. intros user d1.
  destruct (upsert_profile _ _ _ _) as [[row m]|e] eqn:Eu.
  - apply upsert_profile_ok in Eu as [-> Hrow]; [|done].
    destruct (pc_outcome c PSave) eqn:Eo; [right|by left|right]; (split; [by apply insert_change|eauto]).
  - destruct (pc_outcome c PSave); by left.
Qed.

Lemma Delete_effect c identity d : profile_effect c identity d (Delete c identity d).
Proof.
  apply profile_access_effect. intros user d1.
  assert (profile_change user d1 (set_profiles (delete user (pr_profiles d1)) d1)) as Hc.
  { split; [intros Hwf; by apply map_Forall_delete|]. intros u Hu. simpl. by rewrite lookup_delete_ne. }
  destruct (pc_outcome c PDelete) eqn:Eo; [|by left|right; eauto].
  destruct (pr_profiles d1 !! user) eqn:El; [right; eauto|left]. simpl. by apply delete_id.
Qed.

(** What a request does to the table, and when it is answered with an error. *)
Lemma serve_profile_effect maxBodyBytes c r d resp d' :
  serve_profile maxBodyBytes c r d = (resp, d') ->
  pr_profiles d' = pr_profiles d \/
  exists identity access a, hr_Identity r = Some identity /\
    Accounts.Current (pc_account c) identity (pr_accounts d) = (Ok access, a) /\
    profile_change (u_ID (a_User access)) d d' /\
    (rs_Status resp < 400 \/ exists st cause, pc_outcome c st = AckLost cause).
Proof.
  unfold serve_profile. destruct (hr_Identity r) as [identity|]; [|intros [= <- <-]; by left].
  assert (forall A (res : result profile_error A * ProfileDB) (answer : A -> profile_response),
    profile_effect c identity d res -> (forall a, rs_Status (answer a) < 400) ->
    (match res.1 with Ok a => answer a | Err e => writeError e end, res.2) = (resp, d') ->
    pr_profiles d' = pr_profiles d \/
    exists identity0 access a, Some identity = Some identity0 /\
      Accounts.Current (pc_account c) identity0 (pr_accounts d) = (Ok access, a) /\
      profile_change (u_ID (a_User access)) d d' /\
      (rs_Status resp < 400 \/ exists st cause, pc_outcome c st = AckLost cause)) as Hres.
  { intros A [[a|e] d2] answer He Ha [= <- <-]; destruct He as [?|(access & acc & HC & Hch & Ho)]; [by left| |by left|].
    - right. exists identity, access, acc. auto.
    - right. exists identity, access, acc. destruct Ho as [?|Ho]; [done|]. auto. }
  case_if.
  { pose proof (Current_effect c identity d) as He. destruct (Current c identity d) as [res d2].
    by apply (Hres _ (res, d2) (fun p => profile_write StatusOK [] (ProfileAnswer p))). }
  case_if.
  { destruct (decodeJSON _ _) as [input|]; [|intros [= <- <-]; by left].
    pose proof (Save_effect c identity input d) as He. destruct (Save c identity input d) as [res d2].
    by apply (Hres _ (res, d2) (fun p => profile_write StatusOK [] (ProfileAnswer (Some p)))). }
  case_if; [|intros [= <- <-]; by left].
  pose proof (Delete_effect c identity d) as He. destruct (Delete c identity d) as [res d2].
  by apply (Hres _ (res, d2) (fun _ => {| rs_Status := StatusNoContent; rs_Headers := [no_store]; rs_Body := NoContent |})).
Qed.

(** C38. Whatever a request for a profile contains and however its statements
    fail, every row of the table stays a well-formed profile - the checks of the
    table, and at most fifty specializations of distinct branches with a valid
    key, a name of one to eighty runes and levels in range - no row changes but
    that of the user the identity is resolved to, and none does when the answer is
    an error, unless an acknowledgement was lost. *)
Theorem profile_requests_typed maxBodyBytes c r d resp d' :
  serve_profile maxBodyBytes c r d = (resp, d') ->
  (profiles_wf d -> profiles_wf d') /\
  (forall u, (forall identity access a, hr_Identity r = Some identity ->
       Accounts.Current (pc_account c) identity (pr_accounts d) = (Ok access, a) -> u_ID (a_User access) <> u) ->
     pr_profiles d' !! u = pr_profiles d !! u) /\
  (400 <= rs_Status resp -> (forall st cause, pc_outcome c st <> AckLost cause) ->
     pr_profiles d' = pr_profiles d).
Proof.
  intros Hs. unfold profiles_wf.
  destruct (serve_profile_effect _ _ _ _ _ _ Hs) as [->|(identity & access & a & Hi & HC & [Hwf Hr] & Ho)]; [done|].
  split_and!; [exact Hwf| |].
  - intros u Hu. apply Hr. intros ->. by apply (Hu _ _ _ Hi HC).
  - intros Hst Hack. destruct Ho as [?|(st & cause & Ho)]; [lia|]. by destruct (Hack st cause).
Qed.
End table.

(** * What is saved is read *)

Section roundtrip.
Context `{Unicode} `{EntitlementEncoding} `{Numeric63}.

(** Storing what was read from the column stores the same. *)
Hypothesis numeric_stored : forall x y, numeric_6_3 x = Some y -> numeric_6_3 y = Some y.

(** One identity is one user. *)
Lemma Current_user c identity d access d' :
  Accounts.Current c identity d = (Ok access, d') ->
  exists row, users d' !! id_Subject identity = Some row /\ us_ID row = u_ID (a_User access) /\
    forall old, users d !! id_Subject identity = Some old -> us_ID row = us_ID old.
Proof.
  unfold Accounts.Current. destruct (is_empty _); [done|].
  destruct (ac_outcome c ASyncUser); [|done|destruct (sync_user _ _ _ _) as [[]|]; done].
  destruct (sync_user _ _ _ _) as [[row d1]|] eqn:Hsync; [|done].
  intros [= Hr <-]. apply sync_user_steps in Hsync as [-> Hold]. exists row.
  unfold resolve_access in Hr. inv_ok. simpl. rewrite lookup_insert_eq. split_and!; [done..|].
  intros old Ho. by apply Hold.
Qed.

Lemma Current_same_user c1 c2 identity d access1 d1 access2 d2 :
  Accounts.Current c1 identity d = (Ok access1, d1) ->
  Accounts.Current c2 identity d1 = (Ok access2, d2) -> u_ID (a_User access2) = u_ID (a_User access1).
Proof.
  intros (r1 & Hr1 & <- & _)%Current_user (r2 & _ & <- & Hold)%Current_user. by apply Hold.
Qed.

Definition valid_names (p : Input) : Prop :=
  Forall (fun s => ValidString (sz_BranchName s) = true) (in_Specializations p).

(** The specializations of an accepted input of valid names are stored as they
    are, or not at all. *)
Lemma jsonb_specializations_id l out :
  jsonb_specializations l = Some out -> Forall specialization_ok l ->
  Forall (fun s => ValidString (sz_BranchName s) = true) l -> out = l.
Proof.
  unfold jsonb_specializations. destruct (forallb _ _); [|discriminate]. intros [= <-] Hf Hv.
  induction l as [|s l IH]; [done|]. inversion Hf as [|? ? (Hk & _) Hf']; inversion Hv; subst. simpl.
  rewrite IH by done. f_equal. rewrite !coerce_utf8_valid; [by destruct s|done|].
  by apply ascii_valid, branch_key_clean.
Qed.

(** What the upsert stores can be upserted again, and is stored as it is. *)
Lemma upsert_profile_again now now' user p m row m' :
  upsert_profile now user p m = Ok (row, m') -> input_ok p -> valid_names p ->
  in_Specializations (pf_Input row) = in_Specializations p /\
  upsert_profile now' user (pf_Input row) m' =
  Ok ({| pf_Input := pf_Input row; pf_CreatedAt := pf_CreatedAt row; pf_UpdatedAt := now' |},
      <[user := {| pf_Input := pf_Input row; pf_CreatedAt := pf_CreatedAt row; pf_UpdatedAt := now' |}]> m').
Proof.
  unfold upsert_profile. intros Hu (_ & _ & _ & _ & _ & _ & _ & Hf & _) Hv.
  destruct (numeric_6_3 (in_SalesTaxRate p)) as [rate|] eqn:Er; [|discriminate]. simpl in Hu.
  destruct (jsonb_specializations (in_Specializations p)) as [l'|] eqn:El; [|discriminate]. simpl in Hu.
  pose proof (jsonb_specializations_id _ _ El Hf Hv) as ->.
  destruct (negb _) eqn:Ec; [discriminate|]. injection Hu as <- <-. simpl.
  rewrite (numeric_stored _ _ Er), El. simpl. rewrite lookup_insert_eq. simpl. by rewrite Ec.
Qed.

Lemma profile_checks_ok p :
  profile_checks p = true -> specializations_ok (in_Specializations p) -> input_ok p.
Proof. unfold profile_checks. intros Hc Hs. bool_facts. split_and!; by auto using f_leb_ltb. Qed.

(** What [Save] stores and answers is what [Current] reads, and it can be
    saved again: for an input whose names are valid UTF-8, as decoded JSON is, the
    answer has the specializations of the normalised input, the same user reads
    that profile, and saving it as it was read succeeds, keeps every field and the
    date of creation, and changes only the date of the update. *)
Theorem saved_profile_roundtrip c1 c2 c3 identity input d p d1 access2 a2 access3 a3 :
  valid_names (clean_input input) ->
  Save c1 identity input d = (Ok p, d1) ->
  Accounts.Current (pc_account c2) identity (pr_accounts d1) = (Ok access2, a2) ->
  Accounts.Current (pc_account c3) identity (pr_accounts d1) = (Ok access3, a3) ->
  pc_outcome c2 PLoad = Done -> pc_outcome c3 PSave = Done ->
  let again := {| pf_Input := pf_Input p; pf_CreatedAt := pf_CreatedAt p; pf_UpdatedAt := pc_now c3 |} in
  in_Specializations (pf_Input p) = in_Specializations (clean_input input) /\
  Current c2 identity d1 = (Ok (Some p), set_profile_accounts a2 d1) /\
  Save c3 identity (pf_Input p) d1 =
    (Ok again, set_profiles (<[u_ID (a_User access3) := again]> (pr_profiles d1)) (set_profile_accounts a3 d1)).
Proof.
  intros Hv Hs Ha2 Ha3 Ho2 Ho3 again. unfold Save in Hs at 1.
  destruct (normalizeInput input) as [q|] eqn:En; [|done]. unfold profile_access in Hs.
  destruct (Accounts.Current (pc_account c1) identity (pr_accounts d)) as [[access1|] a1] eqn:Ha1; [|done].
  set (user := u_ID (a_User access1)) in *. cbv zeta in Hs.
  destruct (upsert_profile _ user q _) as [[row m]|] eqn:Hu;
    destruct (pc_outcome c1 PSave); try done. injection Hs as -> <-.
  apply normalizeInput_ok in En as [-> Hok]. simpl in *.
  destruct (upsert_profile_again _ (pc_now c3) _ _ _ _ _ Hu Hok Hv) as [Hsp Hagain].
  pose proof (upsert_profile_ok _ _ _ _ _ _ Hu Hok) as [-> (Hck & Hspk & _)].
  pose proof (Current_same_user _ _ _ _ _ _ _ _ Ha1 Ha2) as Hu2.
  pose proof (Current_same_user _ _ _ _ _ _ _ _ Ha1 Ha3) as Hu3. fold user in Hu2, Hu3.
  split_and!; [exact Hsp| |].
  - unfold Current, profile_access. simpl. rewrite Ha2, Ho2. simpl. by rewrite Hu2, lookup_insert_eq.
  - unfold Save. rewrite normalizeInput_stored.
    + unfold profile_access. simpl. rewrite Ha3, Ho3. simpl. by rewrite Hu3, Hagain.
    + by apply profile_checks_ok.
    + rewrite Hsp. apply clean_specializations_idemp. by destruct Hok as (_ & _ & _ & _ & _ & _ & _ & Hf & _).
Qed.
End roundtrip.

(** * Examples *)

#[local] Existing Instance plain_unicode.
#[local] Existing Instance sample_entitlements.
#[local] Existing Instance plain_numeric.

Definition no_profiles : ProfileDB := {| pr_accounts := one_account; pr_profiles := ∅ |}.

Definition profile_quiet (now : time) : profile_call :=
  {| pc_account := account_quiet now; pc_now := now; pc_outcome := fun _ => Done |}.

Definition profile_request (method body : string) : HttpRequest :=
  {| hr_Method := method; hr_TLS := true; hr_Header := fun _ => EmptyString;
     hr_Query := fun _ => EmptyString; hr_PathValue := fun _ => EmptyString;
     hr_Body := {| st_bytes := quoted body; st_end := AtEOF |};
     hr_Identity := Some sample_identity; hr_CorrelationID := EmptyString |}.

Definition sample_profile : string :=
  "{'server':' Europe ','homeCity':'MARTLOCK','salesTaxRate':4.5,'transportCost':1000,'specializations':[{'branchKey':' Plate_Armor','branchName':'Plate armor ','level':80,'focusCostEfficiency':2000}]}".

(** A profile, one in a town that does not exist, one with a branch given twice,
    a name that [jsonb] refuses - which is an internal error although the
    validation accepts it -, a reading, and a deletion of nothing. *)
Example profile_responses :
  map (fun q => rs_Status (serve_profile 0 (profile_quiet (1200 * second))
                             (profile_request q.1 q.2) no_profiles).1)
    [("PUT", sample_profile);
     ("PUT", "{'server':'europe','homeCity':'Paris'}");
     ("PUT", "{'server':'asia','homeCity':'caerleon','specializations':[{'branchKey':'a','branchName':'A'},{'branchKey':'A ','branchName':'B'}]}");
     ("PUT", "{'server':'asia','homeCity':'caerleon','specializations':[{'branchKey':'a','branchName':'\u0000'}]}");
     ("GET", EmptyString); ("DELETE", EmptyString); ("POST", EmptyString)]
  = [200; 400; 400; 500; 200; 404; 405].
Proof. vm_compute. reflexivity. Qed.

(** What follows the first [maxBodyBytes] bytes is not read. *)
Example profile_body_cut :
  let body := "{'server':'europe','homeCity':'lymhurst'}  trailing" in
  map (fun limit => rs_Status (serve_profile limit (profile_quiet (1200 * second))
                                 (profile_request "PUT" body) no_profiles).1) [0; 42; 43; 44]
  = [400; 200; 200; 400].
Proof. vm_compute. reflexivity. Qed.

Lemma profile_requests_typed_witness :
  let r := profile_request "PUT" sample_profile in
  let res := serve_profile 0 (profile_quiet (1200 * second)) r no_profiles in
  profiles_wf res.2 /\ pr_profiles res.2 !! "another" = None.
Proof.
  intros r res. destruct res as [resp d'] eqn:E.
  destruct (profile_requests_typed 0 (profile_quiet (1200 * second)) r no_profiles resp d' E) as (Hwf & Hr & _).
  split; [by apply Hwf|]. simpl. rewrite Hr; [done|].
  intros identity access a [= <-] HC.
  assert (u_ID (a_User (access_of one_account)) = sample_user) as Hu by (vm_compute; reflexivity).
  change (Accounts.Current (account_quiet (1200 * second)) sample_identity one_account = (Ok access, a)) in HC.
  rewrite sample_access in HC. injection HC as <- _. by rewrite Hu.
Defined.

Definition sample_input : Input :=
  match decodeJSON 1000 (profile_request "PUT" sample_profile) with Ok p => p | Err _ => zero_input end.

Lemma plain_numeric_stored x y : plain_numeric x = Some y -> plain_numeric y = Some y.
Proof.
  unfold plain_numeric. destruct (f_leb f_zero x && f_leb x (of_Z 100)) eqn:E; [|discriminate].
  intros [= <-]. by rewrite E.
Qed.

Lemma saved_profile_roundtrip_witness :
  exists p d1, Save (profile_quiet (1200 * second)) sample_identity sample_input no_profiles = (Ok p, d1) /\
    in_HomeCity (pf_Input p) = "martlock" /\
    (Current (profile_quiet (1200 * second)) sample_identity d1).1 = Ok (Some p).
Proof.
  destruct (Save (profile_quiet (1200 * second)) sample_identity sample_input no_profiles) as [[p|] d1] eqn:E;
    [|vm_compute in E; discriminate].
  exists p, d1. split; [done|].
  assert (pr_accounts d1 = synced one_account) as Hd by (vm_compute in E; injection E as _ <-; vm_compute; reflexivity).
  split; [vm_compute in E; by injection E as <- _|].
  destruct (saved_profile_roundtrip
    plain_numeric_stored
    (profile_quiet (1200 * second)) (profile_quiet (1200 * second)) (profile_quiet (1200 * second))
    sample_identity sample_input no_profiles p d1 _ _ _ _
    ltac:(repeat constructor) E
    ltac:(rewrite Hd; exact sample_access_again) ltac:(rewrite Hd; exact sample_access_again)
    eq_refl eq_refl) as (_ & -> & _). done.
Defined.
