(* ===== verification/UserAuth.v ===== *)
(** Authentication of users: [internal/authn/authn.go] and [internal/authn/scope.go],
    with the parts of [encoding/base64] and [encoding/json] they use. *)
From S2P Require Import Prelude GoLists GoBase Float64 Webhook BillingDB Utf8 Json Billing Accounts Http.
Local Open Scope Z_scope.

(** * [base64.RawURLEncoding]

    The decoder skips line ends, takes no padding, and does not look at the bits
    that are left over. *)
Definition b64_digit (c : ascii) : option Z :=
  if in_range 65 90 c then Some (byte_val c - 65)
  else if in_range 97 122 c then Some (byte_val c - 97 + 26)
  else if in_range 48 57 c then Some (byte_val c - 48 + 52)
  else if bool_decide (c = "-"%char) then Some 62
  else if bool_decide (c = "_"%char) then Some 63
  else None.

Definition is_newline (c : ascii) : bool := in_range 10 10 c || in_range 13 13 c.

Fixpoint b64_digits (s : string) : option (list Z) :=
  match s with
  | EmptyString => Some []
  | String c s' =>
      if is_newline c then b64_digits s' else
      d ← b64_digit c; (cons d) <$> b64_digits s'
  end.

Fixpoint b64_bytes (l : list Z) : option (list Z) :=
  match l with
  | [] => Some []
  | [_] => None
  | [a; b] => Some [a * 4 + b / 16]
  | [a; b; c] => Some [a * 4 + b / 16; b mod 16 * 16 + c / 4]
  | a :: b :: c :: d :: l' =>
      (fun bs => [a * 4 + b / 16; b mod 16 * 16 + c / 4; c mod 4 * 64 + d] ++ bs) <$> b64_bytes l'
  end.

Definition DecodeString (s : string) : option (list Z) := ds ← b64_digits s; b64_bytes ds.

Definition text_of (bs : list Z) : string := of_bytes (map byte bs).

(** * Tokens *)

Record tokenHeader := { th_Algorithm : string; th_KeyID : string }.

Record tokenClaims := {
  tc_Issuer : string;
  tc_Subject : string;
  tc_Audience : list string;
  tc_ExpiresAt : Z;
  tc_NotBefore : Z;
  tc_IssuedAt : Z;
  tc_Email : string;
  tc_Name : string;
  tc_Nickname : string;
}.

Record scopeClaims := { sc_Scope : string; sc_Permissions : list string }.

Definition zero_header : tokenHeader := {| th_Algorithm := EmptyString; th_KeyID := EmptyString |}.
Definition zero_claims : tokenClaims :=
  {| tc_Issuer := EmptyString; tc_Subject := EmptyString; tc_Audience := []; tc_ExpiresAt := 0;
     tc_NotBefore := 0; tc_IssuedAt := 0; tc_Email := EmptyString; tc_Name := EmptyString;
     tc_Nickname := EmptyString |}.
Definition zero_scope : scopeClaims := {| sc_Scope := EmptyString; sc_Permissions := [] |}.

#[local] Abbreviation TH := Build_tokenHeader.
#[local] Abbreviation TC := Build_tokenClaims.
#[local] Abbreviation SC := Build_scopeClaims.

(** [audience.UnmarshalJSON]: a string, which [null] is too, or a list of them. *)
Definition dec_audience : decoder (list string) := fun _ v raw =>
  match dec_string EmptyString v raw with
  | Some single => Some [single]
  | None => dec_slice EmptyString dec_string [] v raw
  end.

(** [audience.contains] *)
Definition audience_contains (a : list string) (expected : string) : bool :=
  existsb (fun value => bool_decide (value = expected)) a.

Section decoders.
Context `{Unicode}.

Definition dec_tokenHeader : decoder tokenHeader :=
  dec_known
    [("alg", field th_Algorithm (fun x '(TH _ k) => TH x k) dec_string);
     ("kid", field th_KeyID (fun x '(TH a _) => TH a x) dec_string)].

Definition dec_tokenClaims : decoder tokenClaims :=
  dec_known
    [("iss", field tc_Issuer (fun x '(TC _ s a e n i m d k) => TC x s a e n i m d k) dec_string);
     ("sub", field tc_Subject (fun x '(TC r _ a e n i m d k) => TC r x a e n i m d k) dec_string);
     ("aud", field tc_Audience (fun x '(TC r s _ e n i m d k) => TC r s x e n i m d k) dec_audience);
     ("exp", field tc_ExpiresAt (fun x '(TC r s a _ n i m d k) => TC r s a x n i m d k) dec_int64);
     ("nbf", field tc_NotBefore (fun x '(TC r s a e _ i m d k) => TC r s a e x i m d k) dec_int64);
     ("iat", field tc_IssuedAt (fun x '(TC r s a e n _ m d k) => TC r s a e n x m d k) dec_int64);
     ("email", field tc_Email (fun x '(TC r s a e n i _ d k) => TC r s a e n i x d k) dec_string);
     ("name", field tc_Name (fun x '(TC r s a e n i m _ k) => TC r s a e n i m x k) dec_string);
     ("nickname", field tc_Nickname (fun x '(TC r s a e n i m d _) => TC r s a e n i m d x) dec_string)].

Definition dec_scopeClaims : decoder scopeClaims :=
  dec_known
    [("scope", field sc_Scope (fun x '(SC _ p) => SC x p) dec_string);
     ("permissions", field sc_Permissions (fun x '(SC s _) => SC s x) (dec_slice EmptyString dec_string))].

(** The [decode] of [Validate]. *)
Definition decode_part {A} (d : decoder A) (zero : A) (value : string) : option A :=
  raw ← DecodeString value; Unmarshal d zero (text_of raw).
End decoders.

(** * Keys *)

(** An [rsa.PublicKey]. *)
Record PublicKey := { pk_N : Z; pk_E : Z }.

(** [rsa.VerifyPKCS1v15] of a SHA-256 digest. *)
Class Rsa := VerifyPKCS1v15 : PublicKey -> string -> string -> bool.

Record jwk := {
  jk_KeyType : string;
  jk_KeyID : string;
  jk_Modulus : string;
  jk_Exponent : string;
}.

Definition zero_jwk : jwk :=
  {| jk_KeyType := EmptyString; jk_KeyID := EmptyString; jk_Modulus := EmptyString; jk_Exponent := EmptyString |}.

(** The cache of a [JWKSProvider]. *)
Record JWKSProvider := {
  jw_ttl : duration;
  jw_expires : time;
  jw_keys : gmap string PublicKey;
}.

(** What one call sees of the world: the clock when the cache is looked up, the
    answer to the request for the document if there is one, and the clock when it
    is stored. *)
Record key_env := {
  ke_now : time;
  ke_response : option (Z * stream);
  ke_stored_at : time;
}.

#[local] Abbreviation JK := Build_jwk.

Section keys.
Context `{Unicode}.

(** The fields that are not read, [use] and [alg], must be strings. *)
Definition dec_jwk : decoder jwk :=
  dec_known
    [("kty", field jk_KeyType (fun x '(JK _ i n e) => JK x i n e) dec_string);
     ("use", fun cur v raw => (fun _ => cur) <$> dec_string EmptyString v raw);
     ("alg", fun cur v raw => (fun _ => cur) <$> dec_string EmptyString v raw);
     ("kid", field jk_KeyID (fun x '(JK t _ n e) => JK t x n e) dec_string);
     ("n", field jk_Modulus (fun x '(JK t i _ e) => JK t i x e) dec_string);
     ("e", field jk_Exponent (fun x '(JK t i n _) => JK t i n x) dec_string)].

Definition dec_jwks : decoder (list jwk) :=
  dec_known [("keys", dec_slice zero_jwk dec_jwk)].

(** The exponent is collected in an [int], the modulus in a [big.Int]. *)
Definition exponent_of (bs : list Z) : Z :=
  fold_left (fun e b => wrap64 (wrap64 (Z.shiftl e 8) + b)) bs 0.

Definition modulus_of (bs : list Z) : Z := fold_left (fun n b => 256 * n + b) bs 0.

(** The key of an item of the document, unless it is skipped. *)
Definition usable_key (item : jwk) : option (string * PublicKey) :=
  if negb (bool_decide (jk_KeyType item = "RSA")) || is_empty (jk_KeyID item)
     || is_empty (jk_Modulus item) || is_empty (jk_Exponent item) then None else
  modulus ← DecodeString (jk_Modulus item);
  exponentBytes ← DecodeString (jk_Exponent item);
  let exponent := exponent_of exponentBytes in
  if exponent <? 3 then None
  else Some (jk_KeyID item, {| pk_N := modulus_of modulus; pk_E := exponent |}).

(** Later items replace earlier ones of the same identifier. *)
Definition usable_keys (items : list jwk) : gmap string PublicKey :=
  fold_left (fun m '(k, v) => <[k := v]> m) (omap usable_key items) ∅.

(** [refresh]: [None] is an error, which leaves the cache as it was. *)
Definition refresh (p : JWKSProvider) (env : key_env) : option JWKSProvider :=
  '(status, body) ← ke_response env;
  if negb (status =? StatusOK) then None else
  match next_value (LimitReader (Z.shiftl 1 20) body) with
  | Err _ => None
  | Ok ((v, raw), _) =>
      items ← dec_jwks [] v raw;
      let keys := usable_keys items in
      if bool_decide (keys = ∅) then None else
      let ttl := if (jw_ttl p <=? 0) then 15 * minute else jw_ttl p in
      Some {| jw_ttl := jw_ttl p; jw_expires := ke_stored_at env + ttl; jw_keys := keys |}
  end.

Definition Key (p : JWKSProvider) (env : key_env) (keyID : string) : option PublicKey * JWKSProvider :=
  match jw_keys p !! keyID, ke_now env <? jw_expires p with
  | Some key, true => (Some key, p)
  | _, _ =>
      match refresh p env with
      | None => (None, p)
      | Some p' => (jw_keys p' !! keyID, p')
      end
  end.
End keys.

(** * Validation *)

Record Validator := {
  vl_issuer : string;
  vl_audience : string;
  vl_clockSkew : duration;
}.

Section validate.
Context `{Unicode} `{Sha256} `{Rsa}.

(** The conditions on the claims at the second [now]. *)
Definition claims_rejected (v : Validator) (now : Z) (claims : tokenClaims) : bool :=
  let skew := to_int64 (integral trunc_of (Seconds (vl_clockSkew v))) in
  negb (bool_decide (tc_Issuer claims = vl_issuer v))
  || negb (audience_contains (tc_Audience claims) (vl_audience v))
  || is_empty (TrimSpace (tc_Subject claims)) || (tc_ExpiresAt claims =? 0)
  || (wrap64 (tc_ExpiresAt claims + skew) <? now)
  || (negb (tc_NotBefore claims =? 0) && (wrap64 (now + skew) <? tc_NotBefore claims))
  || (negb (tc_IssuedAt claims =? 0) && (wrap64 (now + skew) <? tc_IssuedAt claims)).

Definition identity_of (claims : tokenClaims) : Identity :=
  let name := TrimSpace (tc_Name claims) in
  {| id_Subject := TrimSpace (tc_Subject claims);
     id_Email := TrimSpace (tc_Email claims);
     id_DisplayName := if is_empty name then TrimSpace (tc_Nickname claims) else name |}.

(** Every failure is [ErrInvalidToken]. [now] is the clock in nanoseconds. *)
Definition Validate (v : Validator) (now : time) (env : key_env) (token : string) (p : JWKSProvider)
    : option Identity * JWKSProvider :=
  match Split (TrimSpace token) "." with
  | [part0; part1; part2] =>
      match decode_part dec_tokenHeader zero_header part0, decode_part dec_tokenClaims zero_claims part1 with
      | Some header, Some claims =>
          if negb (bool_decide (th_Algorithm header = "RS256")) || is_empty (th_KeyID header)
          then (None, p) else
          let '(key, p') := Key p env (th_KeyID header) in
          (match key, DecodeString part2 with
           | Some key, Some signature =>
               if negb (VerifyPKCS1v15 key (sha256 (part0 +:+ "." +:+ part1)) (text_of signature)) then None
               else if claims_rejected v (now / second) claims then None
               else Some (identity_of claims)
           | _, _ => None
           end, p')
      | _, _ => (None, p)
      end
  | _ => (None, p)
  end.

(** * Middleware *)

Definition strip_bearer (header : string) : option string :=
  if HasPrefix header "Bearer " then Some (TrimSpace (TrimPrefix header "Bearer ")) else None.

(** How [Require] and [RequireScope] answer instead of calling the next handler. *)
Inductive auth_refusal := AuthUnavailable | NotAuthorized | ScopeForbidden.

Definition refusal_status (e : auth_refusal) : Z :=
  match e with
  | AuthUnavailable => StatusServiceUnavailable
  | NotAuthorized => StatusUnauthorized
  | ScopeForbidden => StatusForbidden
  end.

Definition refusal_message (e : auth_refusal) : string :=
  match e with
  | AuthUnavailable => "authentication unavailable"
  | NotAuthorized => "unauthorized"
  | ScopeForbidden => "forbidden"
  end.

(** [Require]: the identity the next handler is called with.  [v] is absent when
    authentication is disabled. *)
Definition RequireIdentity (v : option Validator) (now : time) (env : key_env) (authorization : string)
    (p : JWKSProvider) : result auth_refusal Identity * JWKSProvider :=
  match v with
  | None => (Err AuthUnavailable, p)
  | Some v =>
      match strip_bearer (TrimSpace authorization) with
      | None => (Err NotAuthorized, p)
      | Some token =>
          let '(who, p') := Validate v now env token p in
          (of_option NotAuthorized who, p')
      end
  end.

Definition bearerTokenHasScope (authorization required : string) : bool :=
  match strip_bearer (TrimSpace authorization) with
  | None => false
  | Some token =>
      match Split token "." with
      | [_; part1; _] =>
          match decode_part dec_scopeClaims zero_scope part1 with
          | Some claims =>
              existsb (fun scope => bool_decide (scope = required)) (Fields (sc_Scope claims))
              || existsb (fun permission => bool_decide (TrimSpace permission = required))
                   (sc_Permissions claims)
          | None => false
          end
      | _ => false
      end
  end.

(** [RequireScope] *)
Definition RequireScopeIdentity (v : option Validator) (now : time) (env : key_env) (required : string)
    (authorization : string) (p : JWKSProvider) : result auth_refusal Identity * JWKSProvider :=
  let required := TrimSpace required in
  let '(r, p') := RequireIdentity v now env authorization p in
  if is_empty required then (r, p') else
  (let! who := r in
   fail_if negb (bearerTokenHasScope authorization required) with ScopeForbidden else
   Ok who, p').
End validate.
