(* ===== verification/UserAuthSpec.v ===== *)
(** What the authentication of users promises: which tokens are accepted and
    whose they are, that the scope is that of the token that was validated, and
    for how long a key is trusted. *)
From S2P Require Import Prelude GoLists GoBase Float64 Utf8 Webhook BillingDB Json Billing Accounts Http UserAuth.
Local Open Scope Z_scope.

Section spec.
Context `{Unicode} `{Sha256} `{Rsa}.

(** * Tokens *)

Definition skew_of (v : Validator) : Z := to_int64 (integral trunc_of (Seconds (vl_clockSkew v))).

(** The claims a token must make at the second [now]; the bounds leave room for
    the sums. *)
Record claims_ok (v : Validator) (now : Z) (c : tokenClaims) : Prop := {
  co_issuer : tc_Issuer c = vl_issuer v;
  co_audience : vl_audience v ∈ tc_Audience c;
  co_subject : TrimSpace (tc_Subject c) <> EmptyString;
  co_expires : tc_ExpiresAt c <> 0;
  co_alive : now <= tc_ExpiresAt c + skew_of v <= max_int64;
  co_started : tc_NotBefore c = 0 \/ tc_NotBefore c <= now + skew_of v;
  co_issued : tc_IssuedAt c = 0 \/ tc_IssuedAt c <= now + skew_of v;
}.

Lemma audience_contains_elem a x : audience_contains a x = true <-> x ∈ a.
Proof.
  unfold audience_contains. rewrite existsb_exists. split.
  - intros (y & Hy & E). bool_facts. subst. by apply list_elem_of_In.
  - intros Hx. exists x. split; [by apply list_elem_of_In|]. by apply bool_decide_eq_true_2.
Qed.

(** With a clock and a skew far from the ends of [int64], the sums are exact for
    the claims that are accepted. *)
Lemma claims_rejected_ok v now c :
  0 <= now < 2 ^ 61 -> 0 <= skew_of v < 2 ^ 61 -> in_int64 (tc_ExpiresAt c) ->
  claims_rejected v now c = false <-> claims_ok v now c.
Proof.
  intros Hn Hs He. unfold claims_rejected. fold (skew_of v).
  assert (wrap64 (now + skew_of v) = now + skew_of v) as -> by
    (apply wrap64_id; unfold in_int64, min_int64, max_int64; lia).
  assert ((wrap64 (tc_ExpiresAt c + skew_of v) <? now) = false <-> now <= tc_ExpiresAt c + skew_of v <= max_int64) as Hexp.
  { unfold in_int64, min_int64, max_int64 in *.
    destruct (Z.le_gt_cases (tc_ExpiresAt c + skew_of v) (2 ^ 63 - 1)) as [Hle|Hgt].
    - rewrite wrap64_id by (unfold in_int64, min_int64, max_int64; lia). rewrite Z.ltb_ge. lia.
    - assert (wrap64 (tc_ExpiresAt c + skew_of v) = tc_ExpiresAt c + skew_of v - 2 ^ 64) as ->.
      { unfold wrap64. rewrite <- (Z.mod_unique _ _ 1 (tc_ExpiresAt c + skew_of v + 2 ^ 63 - 2 ^ 64)); lia. }
      rewrite Z.ltb_ge. lia. }
  rewrite !orb_false_iff, !andb_false_iff, !negb_false_iff, bool_decide_eq_true, audience_contains_elem,
    is_empty_false, Z.eqb_neq, !Z.eqb_eq, !Z.ltb_ge, <- Z.ltb_ge, Hexp.
  split.
  - intros ((((((? & ?) & ?) & ?) & ?) & ?) & ?). by split.
  - intros []. tauto.
Qed.

(** What every field keeps, the decoding of a struct keeps. *)
Lemma dec_known_keeps {A} (P : A -> Prop) (fs : fields A) cur v raw a :
  Forall (fun f => forall c v raw c', P c -> snd f c v raw = Some c' -> P c') fs ->
  P cur -> dec_known fs cur v raw = Some a -> P a.
Proof.
  intros Hfs Hp. unfold dec_known. destruct v as [| | | | |l]; try done; [by intros [= <-]|].
  rewrite Forall_forall in Hfs. revert cur Hp. induction l as [|[key [v r]] l IH]; intros cur Hp; simpl.
  { by intros [= <-]. }
  destruct (find_field fs key) as [d|] eqn:Hf; [|by apply IH].
  destruct (d cur v r) as [cur'|] eqn:Hd; [|done]. simpl. apply IH.
  unfold find_field in Hf. destruct (List.find _ fs) as [f|] eqn:Hff.
  - injection Hf as <-. apply find_some in Hff as [Hin _]. apply (Hfs f) with (c := cur) (v := v) (raw := r); [|done..].
    by apply list_elem_of_In.
  - destruct (List.find (fun f => EqualFold _ _) fs) as [f|] eqn:Hff2; [|done]. injection Hf as <-.
    apply find_some in Hff2 as [Hin _]. apply (Hfs f) with (c := cur) (v := v) (raw := r); [|done..].
    by apply list_elem_of_In.
Qed.

Lemma claims_in_range payload claims :
  decode_part dec_tokenClaims zero_claims payload = Some claims -> in_int64 (tc_ExpiresAt claims).
Proof.
  unfold decode_part, Unmarshal. destruct (DecodeString payload) as [raw|]; [|done]. simpl.
  destruct (scan_json _) as [[v r] rest| |]; try done. case_match; [|done].
  apply (dec_known_keeps (fun c => in_int64 (tc_ExpiresAt c))); [|by vm_compute; split; discriminate].
  repeat apply Forall_cons_2; [..|by apply Forall_nil_2]; simpl; intros [] v' r' c' Hc; unfold field; simpl;
    try (destruct (dec_string _ _ _); [|done]; by intros [= <-]);
    try (destruct (dec_audience _ _ _); [|done]; by intros [= <-]);
    (destruct (dec_int64 _ _ _) as [n|] eqn:En; [|done]); intros [= <-]; try done.
  unfold dec_int64, dec_int in En. destruct v'; try done; [by simplify_eq|].
  destruct (parse_int_literal _); [|done]. destruct (_ && _) eqn:E; [|done]. injection En as <-.
  bool_facts. done.
Qed.

(** A bearer token of three parts whose payload makes claims under a signature
    by the key the provider gives for its header. *)
Record signed_token (v : Validator) (now : time) (env : key_env) (p : JWKSProvider) (token : string)
    (payload : string) (claims : tokenClaims) : Prop := {
  st_signed : exists part0 part2 header key signature,
    Split token "." = [part0; payload; part2] /\
    decode_part dec_tokenHeader zero_header part0 = Some header /\
    th_Algorithm header = "RS256" /\ th_KeyID header <> EmptyString /\
    (Key p env (th_KeyID header)).1 = Some key /\
    DecodeString part2 = Some signature /\
    VerifyPKCS1v15 key (sha256 (part0 +:+ "." +:+ payload)) (text_of signature) = true;
  st_claims : decode_part dec_tokenClaims zero_claims payload = Some claims;
  st_accepted : claims_rejected v (now / second) claims = false;
}.

Lemma Validate_iff v now env token p who :
  (Validate v now env token p).1 = Some who <->
  exists payload claims, signed_token v now env p (TrimSpace token) payload claims /\ who = identity_of claims.
Proof.
  unfold Validate. split.
  - destruct (Split (TrimSpace token) ".") as [|part0 [|part1 [|part2 [|]]]] eqn:Hsp; try done.
    destruct (decode_part dec_tokenHeader zero_header part0) as [header|] eqn:Hh; [|done].
    destruct (decode_part dec_tokenClaims zero_claims part1) as [claims|] eqn:Hc; [|done].
    destruct (negb _ || _) eqn:Ha; [done|].
    destruct (Key p env (th_KeyID header)) as [[key|] p'] eqn:Hk; [|done]. simpl.
    destruct (DecodeString part2) as [signature|] eqn:Hs; [|done].
    destruct (negb (VerifyPKCS1v15 _ _ _)) eqn:Hv; [done|].
    destruct (claims_rejected _ _ _) eqn:Hr; [done|]. intros [= <-].
    apply orb_false_iff in Ha as [Ha1 Ha2]. apply negb_false_iff in Ha1, Hv. apply bool_decide_eq_true in Ha1.
    apply is_empty_false in Ha2.
    exists part1, claims. split; [|done]. split; [|done|done].
    exists part0, part2, header, key, signature. rewrite Hk. by split_and!.
  - intros (payload & claims & [(part0 & part2 & header & key & signature & Hsp & Hh & Ha & Hk0 & Hk & Hs & Hv) Hc Hr] & ->).
    rewrite Hsp, Hh, Hc, Ha. rewrite bool_decide_eq_true_2 by done. simpl.
    rewrite (proj2 (is_empty_false _)) by done.
    destruct (Key p env (th_KeyID header)) as [k p'] eqn:E. simpl in Hk. subst k. simpl.
    by rewrite Hs, Hv, Hr.
Qed.

(** The scopes of a payload: the words of [scope] and the permissions. *)
Definition scopes_of (claims : scopeClaims) : list string :=
  Fields (sc_Scope claims) ++ map TrimSpace (sc_Permissions claims).

Lemma bearerTokenHasScope_iff authorization required token :
  strip_bearer (TrimSpace authorization) = Some token ->
  bearerTokenHasScope authorization required = true <->
  exists part0 payload part2 claims, Split token "." = [part0; payload; part2] /\
    decode_part dec_scopeClaims zero_scope payload = Some claims /\ required ∈ scopes_of claims.
Proof.
  intros Ht. unfold bearerTokenHasScope. rewrite Ht. split.
  - destruct (Split token ".") as [|part0 [|part1 [|part2 [|]]]] eqn:Hsp; try done.
    destruct (decode_part _ _ part1) as [claims|] eqn:Hc; [|done]. intros Ho.
    exists part0, part1, part2, claims. split_and!; [done..|]. unfold scopes_of. apply elem_of_app.
    apply orb_true_iff in Ho as [Ho|Ho]; apply existsb_exists in Ho as (x & Hx & E); bool_facts; subst;
      [left|right]; [by apply list_elem_of_In|]. apply list_elem_of_In, in_map_iff. by exists x.
  - intros (part0 & payload & part2 & claims & -> & -> & Hin). unfold scopes_of in Hin.
    apply orb_true_iff. rewrite !existsb_exists. apply elem_of_app in Hin as [Hin|Hin]; [left|right].
    + exists required. split; [by apply list_elem_of_In|]. by apply bool_decide_eq_true_2.
    + apply list_elem_of_In, in_map_iff in Hin as (x & <- & Hx). exists x. split; [done|].
      by apply bool_decide_eq_true_2.
Qed.

Lemma strip_bearer_trimmed authorization token : strip_bearer authorization = Some token -> TrimSpace token = token.
Proof. unfold strip_bearer. case_match; [|done]. intros [= <-]. apply TrimSpace_idemp. Qed.

(** C10. A protected handler is called for an identity exactly when the request
    bears a token of three parts that is signed, with RS256 and by the key the
    provider has for its header, over the very header and payload it carries, whose
    claims name the issuer and the audience, are in force up to the skew, and
    grant the scope - read from the payload that was validated, not from another -
    and the identity is the one they name. *)
Theorem RequireScope_correct v now env required authorization p who :
  0 <= now < 2 ^ 61 -> 0 <= skew_of v < 2 ^ 61 -> TrimSpace required <> EmptyString ->
  (RequireScopeIdentity (Some v) now env required authorization p).1 = Ok who <->
  exists token payload claims scopes,
    strip_bearer (TrimSpace authorization) = Some token /\
    signed_token v now env p token payload claims /\
    claims_ok v (now / second) claims /\
    decode_part dec_scopeClaims zero_scope payload = Some scopes /\
    TrimSpace required ∈ scopes_of scopes /\ who = identity_of claims.
Proof.
  intros Hnow Hskew Hreq. unfold RequireScopeIdentity, RequireIdentity.
  destruct (strip_bearer (TrimSpace authorization)) as [token|] eqn:Ht; [|split; [by simpl; destruct (is_empty _)|]].
  2: { by intros (? & ? & ? & ? & ? & _). }
  pose proof (strip_bearer_trimmed _ _ Ht) as Htr.
  pose proof (bearerTokenHasScope_iff authorization (TrimSpace required) token Ht) as Hscope.
  assert (0 <= now / second < 2 ^ 61) as Hsec.
  { unfold second. split; [apply Z.div_pos; lia|apply Z.div_lt_upper_bound; lia]. }
  destruct (Validate v now env token p) as [r p'] eqn:Ev. rewrite (proj2 (is_empty_false _)) by done. simpl.
  assert (r = (Validate v now env token p).1) as Hr by by rewrite Ev. split.
  - destruct r as [w|]; [|done]. simpl. destruct (bearerTokenHasScope _ _) eqn:Es; [|done]. intros [= <-].
    symmetry in Hr. apply Validate_iff in Hr as (payload & claims & Hs & ->). rewrite Htr in Hs.
    destruct (proj1 Hscope eq_refl) as (part0 & payload' & part2 & scopes & Hsp & Hd & Hin).
    assert (payload' = payload) as ->.
    { destruct (st_signed _ _ _ _ _ _ _ Hs) as (q0 & q2 & ? & ? & ? & Hsp' & _). rewrite Hsp in Hsp'. by injection Hsp'. }
    exists token, payload, claims, scopes. split_and!; try done.
    apply claims_rejected_ok; [done..| |by apply (st_accepted _ _ _ _ _ _ _ Hs)].
    by apply (claims_in_range payload), (st_claims _ _ _ _ _ _ _ Hs).
  - intros (token' & payload & claims & scopes & [= <-] & Hs & _ & Hd & Hin & ->).
    assert (r = Some (identity_of claims)) as ->.
    { rewrite Hr. apply Validate_iff. exists payload, claims. by rewrite Htr. }
    simpl. rewrite (proj2 Hscope); [done|].
    destruct (st_signed _ _ _ _ _ _ _ Hs) as (q0 & q2 & ? & ? & ? & Hsp & _).
    by exists q0, payload, q2, scopes.
Qed.

(** * Keys *)

(** The document a response carries lists a key. *)
Definition lists_key (env : key_env) (keyID : string) (key : PublicKey) : Prop :=
  exists body v raw rest items, ke_response env = Some (StatusOK, body) /\
    next_value (LimitReader (Z.shiftl 1 20) body) = Ok ((v, raw), rest) /\
    dec_jwks [] v raw = Some items /\ usable_keys items !! keyID = Some key.

Definition ttl_of (ttl : duration) : duration := if ttl <=? 0 then 15 * minute else ttl.

(** The cache is empty, or holds the keys of a document among [seen]. *)
Definition cache_from (ttl : duration) (seen : list key_env) (p : JWKSProvider) : Prop :=
  jw_ttl p = ttl /\
  (jw_keys p = ∅ \/ exists env, env ∈ seen /\ jw_expires p = ke_stored_at env + ttl_of ttl /\
     forall keyID key, jw_keys p !! keyID = Some key -> lists_key env keyID key).

Lemma refresh_from ttl p env p' :
  jw_ttl p = ttl -> refresh p env = Some p' ->
  jw_ttl p' = ttl /\ jw_expires p' = ke_stored_at env + ttl_of ttl /\
  forall keyID key, jw_keys p' !! keyID = Some key -> lists_key env keyID key.
Proof.
  unfold refresh. intros <- Hr. destruct (ke_response env) as [[status body]|] eqn:He; [|done]. simpl in Hr.
  destruct (status =? StatusOK) eqn:Hst; [|done]. apply Z.eqb_eq in Hst. subst status. simpl in Hr.
  destruct (next_value _) as [[[v raw] rest]|] eqn:Hn; [|done].
  destruct (dec_jwks [] v raw) as [items|] eqn:Hd; [|done]. simpl in Hr.
  case_bool_decide; [done|]. injection Hr as <-. simpl. split_and!; [done|done|].
  intros keyID key Hk. by exists body, v, raw, rest, items.
Qed.

(** One call. *)
Lemma Key_from ttl seen p env keyID :
  cache_from ttl seen p ->
  cache_from ttl (env :: seen) (Key p env keyID).2 /\
  forall key, (Key p env keyID).1 = Some key ->
    exists env', env' ∈ env :: seen /\ lists_key env' keyID key /\
      (env' = env \/ ke_now env < ke_stored_at env' + ttl_of ttl).
Proof.
  intros [Httl Hc]. assert (cache_from ttl (env :: seen) p) as Hkeep.
  { split; [done|]. destruct Hc as [?|(e & He & ? & ?)]; [by left|right; exists e; split_and!; [by right|done..]]. }
  assert (forall p', refresh p env = Some p' -> cache_from ttl (env :: seen) p' /\
    forall key, jw_keys p' !! keyID = Some key -> lists_key env keyID key) as Href.
  { intros p' Hr. destruct (refresh_from _ _ _ _ Httl Hr) as (Ht & Hx & Hk). split; [|intros; by apply Hk].
    split; [done|]. right. exists env. split_and!; [by left|done..]. }
  unfold Key. destruct (jw_keys p !! keyID) as [key|] eqn:Hk; [destruct (ke_now env <? jw_expires p) eqn:Hf|].
  - split; [exact Hkeep|]. intros key' [= <-]. destruct Hc as [Hc|(e & He & Hx & Hl)]; [by rewrite Hc in Hk|].
    exists e. split_and!; [by right|by apply Hl|]. right. rewrite <- Hx. by apply Z.ltb_lt.
  - destruct (refresh p env) as [p'|] eqn:Hr; [|by split]. destruct (Href _ eq_refl) as [? Hl]. split; [done|].
    intros key' Hk'. exists env. split_and!; [by left|by apply Hl|by left].
  - destruct (refresh p env) as [p'|] eqn:Hr; [|by split]. destruct (Href _ eq_refl) as [? Hl]. split; [done|].
    intros key' Hk'. exists env. split_and!; [by left|by apply Hl|by left].
Qed.

(** The provider after a sequence of calls, from an empty cache. *)
Fixpoint asked_keys (p : JWKSProvider) (calls : list (key_env * string)) : JWKSProvider :=
  match calls with [] => p | (env, keyID) :: calls' => asked_keys (Key p env keyID).2 calls' end.

Lemma asked_keys_from ttl calls : forall seen p,
  cache_from ttl seen p -> exists seen', seen' ⊆ map fst calls ++ seen /\ cache_from ttl seen' (asked_keys p calls).
Proof.
  induction calls as [|[env keyID] calls IH]; intros seen p Hp; simpl; [by exists seen|].
  destruct (IH _ _ (proj1 (Key_from _ _ _ env keyID Hp))) as (seen' & Hsub & Hc). exists seen'. split; [|done].
  intros e He. specialize (Hsub e He). set_solver.
Qed.

(** However many requests are made and whatever the key server answers, or
    does not: a key a token is checked with was listed, for the identifier of its
    header, in a document the server answered with 200, either to this very
    request or less than the time to live ago.  A key that is withdrawn is not
    trusted any longer than that. *)
Theorem keys_are_listed ttl calls env keyID key :
  let p := asked_keys {| jw_ttl := ttl; jw_expires := zero_time; jw_keys := ∅ |} calls in
  (Key p env keyID).1 = Some key ->
  lists_key env keyID key \/
  exists env', env' ∈ map fst calls /\ lists_key env' keyID key /\
    ke_now env < ke_stored_at env' + ttl_of ttl.
Proof.
  intros p Hk.
  destruct (asked_keys_from ttl calls [] {| jw_ttl := ttl; jw_expires := zero_time; jw_keys := ∅ |}) as (seen & Hsub & Hc).
  { split; [done|by left]. }
  destruct (proj2 (Key_from _ _ _ env keyID Hc) key Hk) as (e & He & Hl & [->|Ht]); [by left|].
  apply elem_of_cons in He as [->|He]; [by left|]. right. exists e. split_and!; [|done..].
  specialize (Hsub e He). by rewrite app_nil_r in Hsub.
Qed.
End spec.

(** * Examples *)

#[local] Existing Instance plain_unicode.
#[local] Existing Instance plain_sha256.

(** A stand-in for RSA: a signature is the text that is signed. *)
Definition plain_rsa : Rsa := fun _ digest signature => bool_decide (signature = digest).
#[local] Existing Instance plain_rsa.

Definition b64_char (d : Z) : ascii :=
  if d <? 26 then byte (65 + d) else if d <? 52 then byte (97 + d - 26)
  else if d <? 62 then byte (48 + d - 52) else if d =? 62 then "-"%char else "_"%char.

Fixpoint b64_encode (l : list Z) : string :=
  match l with
  | a :: b :: c :: l' =>
      String (b64_char (a / 4)) (String (b64_char (a mod 4 * 16 + b / 16))
        (String (b64_char (b mod 16 * 4 + c / 64)) (String (b64_char (c mod 64)) (b64_encode l'))))
  | [a; b] => String (b64_char (a / 4)) (String (b64_char (a mod 4 * 16 + b / 16))
                (String (b64_char (b mod 16 * 4)) EmptyString))
  | [a] => String (b64_char (a / 4)) (String (b64_char (a mod 4 * 16)) EmptyString)
  | [] => EmptyString
  end.

Definition encoded (text : string) : string := b64_encode (map byte_val (bytes_of (quoted text))).

Definition sample_signed (payload : string) : string :=
  let signed := encoded "{'alg':'RS256','kid':'k1','typ':'JWT'}" +:+ "." +:+ encoded payload in
  signed +:+ "." +:+ b64_encode (map byte_val (bytes_of signed)).

Definition sample_validator : Validator :=
  {| vl_issuer := "https://issuer/"; vl_audience := "api"; vl_clockSkew := 30 * second |}.

Definition sample_jwks : stream :=
  {| st_bytes := quoted "{'keys':[{'kty':'EC','kid':'k0'},{'kty':'RSA','use':'sig','alg':'RS256','kid':'k1','n':'AQAB','e':'AQAB'}]}";
     st_end := AtEOF |}.

Definition sample_env (now : time) : key_env :=
  {| ke_now := now; ke_response := Some (200, sample_jwks); ke_stored_at := now |}.
Definition cut_off (now : time) : key_env :=
  {| ke_now := now; ke_response := None; ke_stored_at := now |}.

Definition no_keys : JWKSProvider := {| jw_ttl := 15 * minute; jw_expires := zero_time; jw_keys := ∅ |}.

Definition sample_payload : string :=
  "{'iss':'https://issuer/','sub':' auth0|1 ','aud':['other','api'],'exp':1000,'scope':'openid read:account','azp':5}".

Definition tried (payload : string) (now : Z) : result auth_refusal Identity :=
  (RequireScopeIdentity (Some sample_validator) (now * second) (sample_env (now * second)) "read:account"
     ("Bearer " +:+ sample_signed payload) no_keys).1.

(** In force, in the skew, expired, without the scope, with a permission instead,
    for another audience, and without an audience. *)
Example scope_answers :
  map (fun q => match tried q.1 q.2 with Ok who => Ok (id_Subject who) | Err e => Err e end)
    [(sample_payload, 900); (sample_payload, 1030); (sample_payload, 1031);
     ("{'iss':'https://issuer/','sub':'a','aud':'api','exp':1000,'scope':'read:accounts'}", 900);
     ("{'iss':'https://issuer/','sub':'a','aud':'api','exp':1000,'permissions':['read:account']}", 900);
     ("{'iss':'https://issuer/','sub':'a','aud':'app','exp':1000,'scope':'read:account'}", 900);
     ("{'iss':'https://issuer/','sub':'a','aud':null,'exp':1000,'scope':'read:account'}", 900)]
  = [Ok "auth0|1"; Ok "auth0|1"; Err NotAuthorized; Err ScopeForbidden; Ok "a"; Err NotAuthorized; Err NotAuthorized].
Proof. vm_compute. reflexivity. Qed.

(** With the key server out of reach, a token is accepted as long as the document
    is fresh and refused afterwards, although its key is still in the cache. *)
Example outage :
  let p := (Key no_keys (sample_env 0) "k1").2 in
  map (fun t => bool_decide (is_Some (Key p (cut_off t) "k1").1)) [15 * minute - 1; 15 * minute]
  = [true; false].
Proof. vm_compute. reflexivity. Qed.

Lemma RequireScope_correct_witness :
  exists who, tried sample_payload 900 = Ok who /\ id_Subject who = "auth0|1" /\
  exists token payload claims scopes,
    strip_bearer (TrimSpace ("Bearer " +:+ sample_signed sample_payload)) = Some token /\
    signed_token sample_validator (900 * second) (sample_env (900 * second)) no_keys token payload claims /\
    claims_ok sample_validator (900 * second / second) claims /\
    decode_part dec_scopeClaims zero_scope payload = Some scopes /\
    TrimSpace "read:account" ∈ scopes_of scopes /\ who = identity_of claims.
Proof.
  destruct (tried sample_payload 900) as [who|e] eqn:E; [|vm_compute in E; discriminate].
  exists who. split; [done|]. split; [vm_compute in E; injection E as <-; reflexivity|].
  apply (RequireScope_correct sample_validator (900 * second) (sample_env (900 * second)) "read:account"
    ("Bearer " +:+ sample_signed sample_payload) no_keys who).
  - unfold second. lia.
  - assert (skew_of sample_validator = 30) as -> by (vm_compute; reflexivity). lia.
  - vm_compute. discriminate.
  - exact E.
Defined.

Lemma keys_are_listed_witness :
  exists key,
    (Key (asked_keys no_keys [(sample_env 0, "k1")]) (cut_off second) "k1").1 = Some key /\
    exists env', env' ∈ [sample_env 0] /\ lists_key env' "k1" key.
Proof.
  destruct (Key (asked_keys no_keys [(sample_env 0, "k1")]) (cut_off second) "k1").1 as [key|] eqn:E;
    [|vm_compute in E; discriminate].
  exists key. split; [done|].
  destruct (keys_are_listed (15 * minute) [(sample_env 0, "k1")] (cut_off second) "k1" key E)
    as [(body & v & raw & rest & items & Hr & _)|(env' & Hin & Hl & _)]; [discriminate|].
  by exists env'.
Defined.
