(* ===== verification/Server.v ===== *)
(** The HTTP server: the router and the middleware of [internal/server], with the
    wrappers of [internal/handlers] that authenticate the account endpoints.  The
    handlers of the endpoints are a parameter. *)
From S2P Require Import Prelude GoLists GoBase Float64 Webhook BillingDB Billing Json Accounts Http RateLimiter ObsMetrics UserAuth.
Local Open Scope Z_scope.

(** A request with what the server reads of it; paths are without escapes. *)
Record WebRequest := {
  wr_Path : string;
  wr_RemoteAddr : string;
  wr_Request : HttpRequest;
}.

Inductive endpoint :=
  | EHealthz | EReadyz | EMetrics
  | EIngestPrices | EIngestHistory
  | EListMarkets | EGetCurrentPrices | EQueryCurrentPrices
  | EGetMarketHistory | EQueryMarketHistory | EStatus
  | EPlayersSearch
  | EMe | EEntitlements
  | EAdminSession | EAdminUsers | EAdminUserDetail | EAdminGrantPro | EAdminRevokePro | EAdminAuditEvents
  | EProfileCurrent | EProfileLink | EProfileUnlink | EProfileRefresh
  | EEconomicProfile
  | EPresets | EPreset | ECalculations | ECalculation
  | ECheckout | EPortal | EWebhook
  | EBlackMarketAnalysis | EBlackMarketOpportunities.

#[global] Instance endpoint_eq_dec : EqDecision endpoint.
Proof. solve_decision. Defined.

(** Which parts of [AccountRoutes] are not [nil]. *)
Record AccountRoutes := {
  ar_Handler : bool;
  ar_AdminHandler : bool;
  ar_Service : bool;
  ar_BillingHandler : bool;
  ar_PlayerProfileHandler : bool;
  ar_EconomicProfileHandler : bool;
  ar_BlackMarketHandler : bool;
  ar_SavedDataHandler : bool;
  ar_Authenticator : bool;
}.

(** * Routing *)

Definition market_routes : list (string * endpoint) :=
  [("/healthz", EHealthz); ("/readyz", EReadyz); ("/metrics", EMetrics);
   ("/api/v1/ingest/prices", EIngestPrices); ("/api/v1/ingest/history", EIngestHistory);
   ("/api/v1/markets", EListMarkets); ("/api/v1/prices", EGetCurrentPrices);
   ("/api/v1/prices/query", EQueryCurrentPrices); ("/api/v1/history", EGetMarketHistory);
   ("/api/v1/history/query", EQueryMarketHistory); ("/api/v1/status", EStatus)].

Definition when (b : bool) (l : list (string * endpoint)) : list (string * endpoint) :=
  if b then l else [].

(** The patterns [NewRouter] registers. *)
Definition account_routes (a : AccountRoutes) : list (string * endpoint) :=
  when (ar_PlayerProfileHandler a) [("/api/v1/albion/players/search", EPlayersSearch)]
  ++ when (ar_Handler a && ar_Authenticator a)
       ([("/api/v1/me", EMe); ("/api/v1/me/entitlements", EEntitlements)]
        ++ when (ar_AdminHandler a)
             [("/api/v1/admin/session", EAdminSession);
              ("/api/v1/admin/users", EAdminUsers);
              ("/api/v1/admin/users/{userId}", EAdminUserDetail);
              ("/api/v1/admin/users/{userId}/grant-pro", EAdminGrantPro);
              ("/api/v1/admin/users/{userId}/revoke-pro", EAdminRevokePro);
              ("/api/v1/admin/audit-events", EAdminAuditEvents)])
  ++ when (ar_PlayerProfileHandler a && ar_Authenticator a)
       [("/api/v1/me/albion-profile", EProfileCurrent);
        ("/api/v1/me/albion-profile/link", EProfileLink);
        ("/api/v1/me/albion-profile/unlink", EProfileUnlink);
        ("/api/v1/me/albion-profile/refresh", EProfileRefresh)]
  ++ when (ar_EconomicProfileHandler a && ar_Authenticator a)
       [("/api/v1/me/economic-profile", EEconomicProfile)]
  ++ when (ar_SavedDataHandler a && ar_Authenticator a)
       [("/api/v1/me/presets", EPresets); ("/api/v1/me/presets/{presetId}", EPreset);
        ("/api/v1/me/calculations", ECalculations);
        ("/api/v1/me/calculations/{calculationId}", ECalculation)]
  ++ when (ar_BillingHandler a)
       [("/api/v1/billing/checkout", ECheckout); ("/api/v1/billing/portal", EPortal);
        ("/api/v1/webhooks/lemonsqueezy", EWebhook)]
  ++ when (ar_BlackMarketHandler a && ar_Service a && ar_Authenticator a)
       [("/api/v1/black-market/analysis", EBlackMarketAnalysis);
        ("/api/v1/black-market/opportunities", EBlackMarketOpportunities)].

Definition routes (a : option AccountRoutes) : list (string * endpoint) :=
  market_routes ++ match a with Some a => account_routes a | None => [] end.

(** [http.ServeMux]: a pattern matches a path segment by segment, and a segment in
    braces matches any that is not empty.  A path that is not clean is redirected
    to the clean one (the address is not kept). *)
Definition wildcard (segment : string) : option string :=
  s ← GoBase.strip_prefix "{" segment;
  q ← GoBase.strip_prefix "}" (String.rev s);
  Some (String.rev q).

Fixpoint match_segments (pattern path : list string) : option (list (string * string)) :=
  match pattern, path with
  | [], [] => Some []
  | p :: pattern', s :: path' =>
      match wildcard p with
      | Some name => if is_empty s then None else (cons (name, s)) <$> match_segments pattern' path'
      | None => if bool_decide (p = s) then match_segments pattern' path' else None
      end
  | _, _ => None
  end.

Definition match_route (path : string) (r : string * endpoint) : option (endpoint * list (string * string)) :=
  (fun values => (r.2, values)) <$> match_segments (Split r.1 "/") (Split path "/").

Fixpoint first_match (path : string) (l : list (string * endpoint)) : option (endpoint * list (string * string)) :=
  match l with
  | [] => None
  | r :: l' => match match_route path r with Some m => Some m | None => first_match path l' end
  end.

Definition StatusMovedPermanently : Z := 301.

Definition clean_segments (l : list string) : bool :=
  forallb (fun s => negb (bool_decide (s ∈ ["."; ".."]))) l
  && forallb (fun s => negb (is_empty s)) (removelast l).

Definition clean_path (path : string) : bool :=
  match Split path "/" with
  | first :: rest => is_empty first && negb (bool_decide (rest = [])) && clean_segments rest
  | [] => false
  end.

(** * Requests through the middleware *)

Inductive served (B : Type) :=
  | ServedError (message : string)
  | ServedText (text : string)
  | ServedEmpty
  | ServedRedirect
  | Served (body : B).
Arguments ServedError {B} _.
Arguments ServedText {B} _.
Arguments ServedEmpty {B}.
Arguments ServedRedirect {B}.
Arguments Served {B} _.

Record ServerState (S : Type) := {
  ss_limiter : ipRateLimiter;
  ss_metrics : HTTPMetrics;
  ss_keys : JWKSProvider;
  ss_state : S;
}.
Arguments Build_ServerState {S} _ _ _ _.
Arguments ss_limiter {S} _.
Arguments ss_metrics {S} _.
Arguments ss_keys {S} _.
Arguments ss_state {S} _.

Record ServerConfig := {
  sc_AllowedOrigins : list string;
  sc_RateLimitEnabled : bool;
  sc_Routes : option AccountRoutes;
  sc_Validator : option Validator;
}.

(** What a request meets: the clock of the limiter, of the token and of the key
    cache, the identifier the server would give it, and how long it takes. *)
Record server_env := {
  se_now : time;
  se_auth_now : time;
  se_keys : key_env;
  se_request_id : string;
  se_duration : duration;
}.

Definition accountReadScope : string := "read:account".

(** How an endpoint is protected: not at all, by the scope, or by the scope and
    an entitlement. *)
Inductive protection := Public | Scoped | Entitled (key : string).

Definition protection_of (e : endpoint) : protection :=
  match e with
  | EHealthz | EReadyz | EMetrics | EIngestPrices | EIngestHistory | EListMarkets | EGetCurrentPrices
  | EQueryCurrentPrices | EGetMarketHistory | EQueryMarketHistory | EStatus | EPlayersSearch | EWebhook => Public
  | EBlackMarketAnalysis | EBlackMarketOpportunities => Entitled "black_market.analytics"
  | _ => Scoped
  end.

(** The method a wrapper asks for before anything else, and whether it says so. *)
Definition wrapper_method (e : endpoint) : option (string * bool) :=
  match e with
  | EAdminSession | EAdminUsers | EAdminUserDetail | EAdminAuditEvents => Some ("GET", false)
  | EAdminGrantPro | EAdminRevokePro => Some ("POST", false)
  | EPlayersSearch | EProfileCurrent => Some ("GET", true)
  | EProfileLink => Some ("PUT", true)
  | EProfileUnlink => Some ("DELETE", true)
  | EProfileRefresh => Some ("POST", true)
  | _ => None
  end.

Section server.
Context `{Unicode} `{Sha256} `{Rsa} {S B : Type}.

(** The handler of each endpoint, and the check of an entitlement. *)
Context (handle : endpoint -> HttpRequest -> S -> Response B * S).
Context (require_entitlement : string -> option Identity -> S -> gate * S).

#[local] Abbreviation answer := (Response (served B)).

(** [writeServerJSON] and the [writeError] of package [authn]. *)
Definition server_error (status : Z) (headers : list (string * string)) (message : string) : answer :=
  {| rs_Status := status; rs_Headers := headers ++ [json_type]; rs_Body := ServedError message |}.

Definition with_headers (headers : list (string * string)) (r : answer) : answer :=
  {| rs_Status := rs_Status r; rs_Headers := headers ++ rs_Headers r; rs_Body := rs_Body r |}.

Definition inner_response (r : Response B) : answer :=
  {| rs_Status := rs_Status r; rs_Headers := rs_Headers r; rs_Body := Served (rs_Body r) |}.

Definition set_keys (p : JWKSProvider) (st : ServerState S) : ServerState S :=
  {| ss_limiter := ss_limiter st; ss_metrics := ss_metrics st; ss_keys := p; ss_state := ss_state st |}.
Definition set_state (s : S) (st : ServerState S) : ServerState S :=
  {| ss_limiter := ss_limiter st; ss_metrics := ss_metrics st; ss_keys := ss_keys st; ss_state := s |}.
Definition set_limiter (l : ipRateLimiter) (st : ServerState S) : ServerState S :=
  {| ss_limiter := l; ss_metrics := ss_metrics st; ss_keys := ss_keys st; ss_state := ss_state st |}.
Definition set_metrics (m : HTTPMetrics) (st : ServerState S) : ServerState S :=
  {| ss_limiter := ss_limiter st; ss_metrics := m; ss_keys := ss_keys st; ss_state := ss_state st |}.

(** The context and the path values of a request. *)
Definition with_identity (who : option Identity) (r : HttpRequest) : HttpRequest :=
  {| hr_Method := hr_Method r; hr_TLS := hr_TLS r; hr_Header := hr_Header r; hr_Query := hr_Query r;
     hr_PathValue := hr_PathValue r; hr_Body := hr_Body r; hr_Identity := who;
     hr_CorrelationID := hr_CorrelationID r |}.
Definition with_path_values (values : list (string * string)) (r : HttpRequest) : HttpRequest :=
  {| hr_Method := hr_Method r; hr_TLS := hr_TLS r; hr_Header := hr_Header r; hr_Query := hr_Query r;
     hr_PathValue := fun name =>
       match List.find (fun v => bool_decide (v.1 = name)) values with Some v => v.2 | None => EmptyString end;
     hr_Body := hr_Body r; hr_Identity := hr_Identity r; hr_CorrelationID := hr_CorrelationID r |}.
Definition with_correlation (id : string) (r : HttpRequest) : HttpRequest :=
  {| hr_Method := hr_Method r; hr_TLS := hr_TLS r; hr_Header := hr_Header r; hr_Query := hr_Query r;
     hr_PathValue := hr_PathValue r; hr_Body := hr_Body r; hr_Identity := hr_Identity r;
     hr_CorrelationID := id |}.

(** ** Endpoints *)

Definition call (e : endpoint) (r : HttpRequest) (st : ServerState S) : answer * ServerState S :=
  let '(resp, s) := handle e r (ss_state st) in (inner_response resp, set_state s st).

(** [accounts.RequireEntitlement], which answers with [no-store] itself. *)
Definition call_entitled (key : string) (e : endpoint) (r : HttpRequest) (st : ServerState S)
    : answer * ServerState S :=
  let '(g, s) := require_entitlement key (hr_Identity r) (ss_state st) in
  let st := set_state s st in
  match g with
  | GateUnauthorized => (server_error StatusUnauthorized [no_store] "unauthorized", st)
  | GateError => (server_error StatusInternalServerError [no_store] "internal server error", st)
  | GateForbidden => (server_error StatusForbidden [no_store] "entitlement required", st)
  | GatePass => call e r st
  end.

(** [Authenticator.RequireScope] around a handler. *)
Definition require_scope (c : ServerConfig) (env : server_env)
    (next : HttpRequest -> ServerState S -> answer * ServerState S) (r : HttpRequest) (st : ServerState S)
    : answer * ServerState S :=
  let '(res, p) := RequireScopeIdentity (sc_Validator c) (se_auth_now env) (se_keys env) accountReadScope
                     (hr_Header r "Authorization") (ss_keys st) in
  let st := set_keys p st in
  match res with
  | Err e => (server_error (refusal_status e) [no_store] (refusal_message e), st)
  | Ok who => let '(resp, st) := next (with_identity (Some who) r) st in (with_headers [no_store] resp, st)
  end.

Definition has_authenticator (c : ServerConfig) : bool :=
  match sc_Routes c with Some a => ar_Authenticator a | None => false end.

Definition serve_endpoint (c : ServerConfig) (env : server_env) (e : endpoint) (r : HttpRequest)
    (st : ServerState S) : answer * ServerState S :=
  match wrapper_method e with
  | Some (method, allow) =>
      if negb (bool_decide (hr_Method r = method)) then
        (if allow : bool then
           {| rs_Status := StatusMethodNotAllowed;
              rs_Headers := [("Allow", method); ("Content-Type", "text/plain; charset=utf-8");
                             ("X-Content-Type-Options", "nosniff")];
              rs_Body := ServedText "method not allowed" |}
         else {| rs_Status := StatusMethodNotAllowed; rs_Headers := []; rs_Body := ServedEmpty |}, st)
      else
        match protection_of e with
        | Public => call e r st
        | Scoped => require_scope c env (call e) r st
        | Entitled key => require_scope c env (call_entitled key e) r st
        end
  | None =>
      match protection_of e with
      | Public => call e r st
      | Scoped =>
          if bool_decide (e ∈ [ECheckout; EPortal]) && negb (has_authenticator c)
          then (server_error StatusServiceUnavailable [no_store] "billing unavailable", st)
          else require_scope c env (call e) r st
      | Entitled key => require_scope c env (call_entitled key e) r st
      end
  end.

(** The [mux] of [NewRouter]. *)
Definition serve_mux (c : ServerConfig) (env : server_env) (w : WebRequest) (st : ServerState S)
    : answer * ServerState S :=
  let path := wr_Path w in
  if negb (bool_decide (hr_Method (wr_Request w) = "CONNECT")) && negb (clean_path path)
  then ({| rs_Status := StatusMovedPermanently; rs_Headers := []; rs_Body := ServedRedirect |}, st) else
  match first_match path (routes (sc_Routes c)) with
  | None => ({| rs_Status := StatusNotFound; rs_Headers := [("Content-Type", "text/plain; charset=utf-8");
                                                            ("X-Content-Type-Options", "nosniff")];
                rs_Body := ServedText "404 page not found" |}, st)
  | Some (e, values) => serve_endpoint c env e (with_path_values values (wr_Request w)) st
  end.

(** ** Rate limit *)

Definition isRateLimitExemptPath (path : string) : bool :=
  bool_decide (path ∈ ["/healthz"; "/readyz"; "/metrics"; "/api/v1/webhooks/lemonsqueezy"]).

(** The headers of a limited request, and [Retry-After]. *)
Definition limit_headers (l : ipRateLimiter) (remaining : Z) : list (string * string) :=
  [("X-RateLimit-Limit", FormatInt (to_int64 (integral trunc_of (rl_burst l))));
   ("X-RateLimit-Remaining", FormatInt remaining)].

Definition retry_seconds (retryAfter : duration) : Z :=
  let seconds := to_int64 (integral ceil_of (Seconds retryAfter)) in
  if seconds <? 1 then 1 else seconds.

Definition withRateLimit (c : ServerConfig) (env : server_env)
    (next : WebRequest -> ServerState S -> answer * ServerState S) (w : WebRequest) (st : ServerState S)
    : answer * ServerState S :=
  let r := wr_Request w in
  if bool_decide (hr_Method r = "OPTIONS") || isRateLimitExemptPath (wr_Path w) then next w st else
  let client := clientIdentifier (wr_RemoteAddr w) (hr_Header r) (rl_trustProxyHeaders (ss_limiter st)) in
  let '(allowed, remaining, retryAfter, l) := allow (ss_limiter st) client (se_now env) in
  let st := set_limiter l st in
  let headers := limit_headers l remaining in
  if negb allowed then
    (server_error StatusTooManyRequests
       (headers ++ [("Retry-After", FormatInt (retry_seconds retryAfter))]) "rate limit exceeded", st)
  else let '(resp, st) := next w st in (with_headers headers resp, st).

(** ** Origins *)

Definition cors_origins (l : list string) : list string :=
  List.filter (fun o => negb (is_empty o)) (map TrimSpace l).

Definition vary_headers : list (string * string) :=
  [("Vary", "Origin"); ("Vary", "Access-Control-Request-Method"); ("Vary", "Access-Control-Request-Headers")].

Definition allow_headers (origin : string) : list (string * string) :=
  [("Access-Control-Allow-Origin", origin);
   ("Access-Control-Allow-Headers", "Authorization, Content-Type, X-Request-ID");
   ("Access-Control-Expose-Headers", "X-Request-ID");
   ("Access-Control-Allow-Methods", "GET, POST, PUT, DELETE, OPTIONS");
   ("Access-Control-Max-Age", "600")].

Definition withCORS (c : ServerConfig)
    (next : WebRequest -> ServerState S -> answer * ServerState S) (w : WebRequest) (st : ServerState S)
    : answer * ServerState S :=
  let origins := cors_origins (sc_AllowedOrigins c) in
  let allowAll := bool_decide ("*" ∈ origins) in
  let r := wr_Request w in
  let origin := TrimSpace (hr_Header r "Origin") in
  if is_empty origin then next w st else
  if negb allowAll && negb (bool_decide (origin ∈ origins) && negb (bool_decide (origin = "*")))
  then (server_error StatusForbidden vary_headers "origin not allowed", st) else
  let headers := vary_headers ++ allow_headers (if allowAll then "*" else origin) in
  if bool_decide (hr_Method r = "OPTIONS") then
    let requested := ToUpper (TrimSpace (hr_Header r "Access-Control-Request-Method")) in
    if bool_decide (requested ∈ [EmptyString; "GET"; "POST"; "PUT"; "DELETE"])
    then ({| rs_Status := StatusNoContent; rs_Headers := headers; rs_Body := ServedEmpty |}, st)
    else (server_error StatusMethodNotAllowed headers "method not allowed", st)
  else let '(resp, st) := next w st in (with_headers headers resp, st).

(** ** Security headers *)

Definition security_headers : list (string * string) :=
  [("Content-Security-Policy", "default-src 'none'; frame-ancestors 'none'; base-uri 'none'");
   ("Permissions-Policy", "camera=(), geolocation=(), microphone=()");
   ("Referrer-Policy", "no-referrer");
   ("X-Content-Type-Options", "nosniff");
   ("X-Frame-Options", "DENY");
   ("X-XSS-Protection", "0")].

Definition withSecurityHeaders (next : WebRequest -> ServerState S -> answer * ServerState S)
    (w : WebRequest) (st : ServerState S) : answer * ServerState S :=
  let '(resp, st) := next w st in (with_headers security_headers resp, st).

(** ** Observability *)

Definition request_id_char (c : ascii) : bool :=
  in_range 97 122 c || in_range 65 90 c || in_range 48 57 c
  || bool_decide (c ∈ ["-"%char; "_"%char; "."%char; ":"%char]).

Definition acceptedRequestID (value : string) : string :=
  let value := TrimSpace value in
  if (str_len value <? 1) || (128 <? str_len value) then EmptyString
  else if str_all request_id_char value then value else EmptyString.

Definition metricRoute (path : string) : string :=
  if bool_decide (path ∈ map fst market_routes) then path else "unmatched".

Definition withRequestObservability (env : server_env)
    (next : WebRequest -> ServerState S -> answer * ServerState S) (w : WebRequest) (st : ServerState S)
    : answer * ServerState S :=
  let accepted := acceptedRequestID (hr_Header (wr_Request w) "X-Request-ID") in
  let id := if is_empty accepted then se_request_id env else accepted in
  let w' := {| wr_Path := wr_Path w; wr_RemoteAddr := wr_RemoteAddr w;
               wr_Request := with_correlation id (wr_Request w) |} in
  let '(resp, st) := next w' (set_metrics (RequestStarted (ss_metrics st)) st) in
  (with_headers [("X-Request-ID", id)] resp,
   set_metrics (RequestFinished (hr_Method (wr_Request w)) (metricRoute (wr_Path w)) (rs_Status resp)
                  (se_duration env) (ss_metrics st)) st).

(** [NewRouter] *)
Definition serve (c : ServerConfig) (env : server_env) : WebRequest -> ServerState S -> answer * ServerState S :=
  let handler := serve_mux c env in
  let handler := if sc_RateLimitEnabled c then withRateLimit c env handler else handler in
  withRequestObservability env (withSecurityHeaders (withCORS c handler)).
End server.
