(* ===== verification/ServerSpec.v ===== *)
(** What the server promises: which requests reach a handler and as whom, that
    every other is refused without a handler running, and what every response
    carries and every request leaves in the metrics. *)
From S2P Require Import Prelude GoLists GoBase Float64 Utf8 Webhook BillingDB Billing Json Accounts Http RateLimiter ObsMetrics UserAuth UserAuthSpec Server.
Local Open Scope Z_scope.

(** * Routes *)

Lemma first_match_in path l e values : first_match path l = Some (e, values) -> exists p, (p, e) ∈ l.
Proof.
  induction l as [|r l IH]; [done|]. cbn [first_match]. destruct (match_route path r) as [m|] eqn:Hm.
  - intros [= ->]. unfold match_route in Hm. destruct (match_segments _ _); [|done]. simpl in Hm. simplify_eq.
    destruct r as [p e]. exists p. left.
  - intros Hl. destruct (IH Hl) as [p Hp]. exists p. by right.
Qed.

Lemma elem_of_when b l x : x ∈ when b l -> b = true /\ x ∈ l.
Proof. unfold when. destruct b; [done|]. by intros ?%not_elem_of_nil. Qed.

(** No protected endpoint but those of the billing is registered without an
    authenticator. *)
Lemma protected_routes c p e :
  (p, e) ∈ routes (sc_Routes c) -> protection_of e <> Public -> e ∉ [ECheckout; EPortal] ->
  has_authenticator c = true.
Proof.
  unfold routes, has_authenticator. intros Hin Hp Hb. apply elem_of_app in Hin as [Hin|Hin].
  - exfalso. apply Hp. unfold market_routes in Hin. apply list_elem_of_In in Hin. simpl in Hin.
    by repeat (destruct Hin as [[= <- <-]|Hin]; [done|]).
  - destruct (sc_Routes c) as [a|]; [|by apply not_elem_of_nil in Hin]. unfold account_routes in Hin.
    repeat (apply elem_of_app in Hin as [Hin|Hin]); apply elem_of_when in Hin as [Hw Hin];
      rewrite ?andb_true_iff in Hw; try (by destruct_and? Hw); exfalso; apply list_elem_of_In in Hin; simpl in Hin.
    + destruct Hin as [[= <- <-]|[]]. by apply Hp.
    + repeat (destruct Hin as [[= <- <-]|Hin]; [first [by apply Hp|apply Hb; set_solver]|]). done.
Qed.

Lemma billing_endpoint e : e ∈ [ECheckout; EPortal] -> wrapper_method e = None /\ protection_of e = Scoped.
Proof. intros Hb. repeat (apply elem_of_cons in Hb as [-> |Hb]; [done|]). by apply not_elem_of_nil in Hb. Qed.

(** How a path is protected, by its area. *)
Definition protection_by_path (path : string) : protection :=
  match Split path "/" !! 3%nat with
  | Some area =>
      if bool_decide (area ∈ ["me"; "admin"; "billing"]) then Scoped
      else if bool_decide (area = "black-market") then Entitled "black_market.analytics"
      else Public
  | None => Public
  end.

(** A path has the words of its pattern. *)
Lemma match_segments_lookup pattern : forall path values n x,
  match_segments pattern path = Some values -> pattern !! n = Some x -> wildcard x = None -> path !! n = Some x.
Proof.
  induction pattern as [|p pattern IH]; intros path values n x; [done|]. destruct path as [|s path]; [done|].
  cbn [match_segments]. destruct n as [|n]; cbn [lookup list_lookup].
  - intros Hm [= ->] Hw. rewrite Hw in Hm. case_bool_decide; [by subst|done].
  - intros Hm Hp Hw. destruct (wildcard p) as [name|].
    + destruct (is_empty s); [done|]. destruct (match_segments pattern path) as [v|] eqn:E; [|done]. by eapply IH.
    + case_bool_decide; [by eapply IH|done].
Qed.

Lemma match_segments_length pattern : forall path values,
  match_segments pattern path = Some values -> length pattern = length path.
Proof.
  induction pattern as [|p pattern IH]; intros [|s path] values; try done. cbn [match_segments length].
  destruct (wildcard p) as [name|].
  - destruct (is_empty s); [done|]. destruct (match_segments pattern path) as [v|] eqn:E; [|done]. intros _. f_equal.
    by eapply IH.
  - case_bool_decide; [|done]. intros Hm. f_equal. by eapply IH.
Qed.

Definition every_route : list (string * endpoint) :=
  routes (Some {| ar_Handler := true; ar_AdminHandler := true; ar_Service := true; ar_BillingHandler := true;
    ar_PlayerProfileHandler := true; ar_EconomicProfileHandler := true; ar_BlackMarketHandler := true;
    ar_SavedDataHandler := true; ar_Authenticator := true |}).

#[global] Instance protection_eq_dec : EqDecision protection.
Proof. solve_decision. Defined.

Definition route_protected (r : string * endpoint) : bool :=
  match Split r.1 "/" !! 3%nat with Some area => bool_decide (wildcard area = None) | None => true end
  && bool_decide (protection_of r.2 = protection_by_path r.1).

Lemma every_route_protected : forallb route_protected every_route = true.
Proof. vm_compute. reflexivity. Qed.

Lemma routes_every a r : r ∈ routes a -> r ∈ every_route.
Proof.
  unfold every_route, routes. intros Hin. apply elem_of_app in Hin as [Hin|Hin]; apply elem_of_app; [by left|right].
  destruct a as [a|]; [|by apply not_elem_of_nil in Hin]. unfold account_routes in *.
  repeat (apply elem_of_app in Hin as [Hin|Hin]; [apply elem_of_app; left|apply elem_of_app; right]);
    apply elem_of_when in Hin as [Hw Hin]; try exact Hin.
  apply elem_of_app in Hin as [Hin|Hin]; apply elem_of_app; [by left|right].
  by apply elem_of_when in Hin as [_ Hin].
Qed.

(** The endpoint of a path is protected as its area is. *)
Lemma protection_of_path path a e values :
  first_match path (routes a) = Some (e, values) -> protection_of e = protection_by_path path.
Proof.
  assert (forall r, r ∈ routes a -> route_protected r = true) as Hall.
  { intros r Hr%routes_every. apply list_elem_of_In in Hr. pose proof every_route_protected as Hf.
    rewrite forallb_forall in Hf. by apply Hf. }
  revert Hall. generalize (routes a). intros l Hall. induction l as [|r l IH]; [done|]. cbn [first_match].
  destruct (match_route path r) as [m|] eqn:Hm; [|by intros; apply IH; [intros; apply Hall; by right|]].
  intros [= ->]. unfold match_route in Hm. destruct (match_segments (Split r.1 "/") (Split path "/")) as [v|] eqn:Hs; [|done].
  simpl in Hm. simplify_eq. specialize (Hall r (list_elem_of_here _ _)). apply andb_true_iff in Hall as [Hw Hp].
  apply bool_decide_eq_true in Hp. rewrite Hp. unfold protection_by_path.
  destruct (Split r.1 "/" !! 3%nat) as [area|] eqn:Ha.
  - apply bool_decide_eq_true in Hw. by rewrite (match_segments_lookup _ _ _ _ _ Hs Ha Hw).
  - apply lookup_ge_None in Ha. rewrite (match_segments_length _ _ _ Hs) in Ha.
    by rewrite (proj2 (lookup_ge_None _ _) Ha).
Qed.

Section spec.
Context `{Unicode} `{Sha256} `{Rsa} {S B : Type}.
Context (handle : endpoint -> HttpRequest -> S -> Response B * S).
Context (require_entitlement : string -> option Identity -> S -> gate * S).

#[local] Abbreviation answer := (Response (served B)).
#[local] Abbreviation serve := (serve handle require_entitlement).
#[local] Abbreviation serve_mux := (serve_mux handle require_entitlement).
#[local] Abbreviation serve_endpoint := (serve_endpoint handle require_entitlement).

(** * Who is admitted, and as whom *)

Definition origin_of (w : WebRequest) : string := TrimSpace (hr_Header (wr_Request w) "Origin").

Definition accepted_origin (c : ServerConfig) (w : WebRequest) : Prop :=
  origin_of w = EmptyString \/ "*" ∈ cors_origins (sc_AllowedOrigins c) \/
  origin_of w ∈ cors_origins (sc_AllowedOrigins c).

(** The limiter counts the request and lets it pass. *)
Definition within_rate (c : ServerConfig) (env : server_env) (w : WebRequest) (st : ServerState S) : Prop :=
  sc_RateLimitEnabled c = false \/ hr_Method (wr_Request w) = "OPTIONS" \/
  isRateLimitExemptPath (wr_Path w) = true \/
  (allow (ss_limiter st)
     (clientIdentifier (wr_RemoteAddr w) (hr_Header (wr_Request w)) (rl_trustProxyHeaders (ss_limiter st)))
     (se_now env)).1.1.1 = true.

Definition request_id (env : server_env) (w : WebRequest) : string :=
  let accepted := acceptedRequestID (hr_Header (wr_Request w) "X-Request-ID") in
  if is_empty accepted then se_request_id env else accepted.

(** The identity a handler sees: that of the token, when the path is protected. *)
Definition acts_as (c : ServerConfig) (env : server_env) (w : WebRequest) (keys : JWKSProvider)
    (who : option Identity) : Prop :=
  match protection_by_path (wr_Path w) with
  | Public => who = hr_Identity (wr_Request w)
  | _ => has_authenticator c = true /\ exists i, who = Some i /\
      (RequireScopeIdentity (sc_Validator c) (se_auth_now env) (se_keys env) accountReadScope
         (hr_Header (wr_Request w) "Authorization") keys).1 = Ok i
  end.

(** The route of a request, its method and its caller. *)
Record routed (c : ServerConfig) (env : server_env) (w : WebRequest) (keys : JWKSProvider) (e : endpoint)
    (who : option Identity) (values : list (string * string)) : Prop := {
  ro_path : hr_Method (wr_Request w) = "CONNECT" \/ clean_path (wr_Path w) = true;
  ro_route : first_match (wr_Path w) (routes (sc_Routes c)) = Some (e, values);
  ro_method : forall m allow, wrapper_method e = Some (m, allow) -> hr_Method (wr_Request w) = m;
  ro_caller : acts_as c env w keys who;
}.

Record admitted (c : ServerConfig) (env : server_env) (w : WebRequest) (st : ServerState S) (e : endpoint)
    (request : HttpRequest) : Prop := {
  ad_origin : accepted_origin c w;
  ad_preflight : hr_Method (wr_Request w) = "OPTIONS" -> origin_of w = EmptyString;
  ad_rate : within_rate c env w st;
  ad_routed : exists who values, routed c env w (ss_keys st) e who values /\
    request = with_identity who (with_path_values values (with_correlation (request_id env w) (wr_Request w)));
}.

(** The answer of the check of an entitlement, where the path asks for one. *)
Definition entitlement (pr : protection) (request : HttpRequest) (s : S) : gate * S :=
  match pr with
  | Entitled key => require_entitlement key (hr_Identity request) s
  | _ => (GatePass, s)
  end.

Definition not_served (resp : answer) : Prop := forall b, rs_Body resp <> Served b.

(** What happens to a request for an endpoint. *)
Definition handled_as (pr : protection) (e : endpoint) (request : HttpRequest) (s : S) (resp : answer) (s' : S) : Prop :=
  match entitlement pr request s with
  | (GatePass, s0) =>
      let '(inner, s1) := handle e request s0 in
      s' = s1 /\ rs_Status resp = rs_Status inner /\ rs_Body resp = Served (rs_Body inner) /\
      rs_Headers inner ⊆ rs_Headers resp
  | (_, s0) => s' = s0 /\ not_served resp /\ rs_Status resp ∈ [401; 403; 500]
  end.

(** The cases of a layer, for the requests [adm] says it lets through. *)
Definition decided (pr : protection) (adm : endpoint -> HttpRequest -> Prop) (s : S) (resp : answer) (s' : S) : Prop :=
  (exists e request, adm e request /\ handled_as pr e request s resp s') \/
  ((forall e request, ~ adm e request) /\ s' = s /\ not_served resp).

Lemma decided_impl pr (adm adm' : endpoint -> HttpRequest -> Prop) s resp s' :
  (forall e request, adm e request <-> adm' e request) -> decided pr adm s resp s' -> decided pr adm' s resp s'.
Proof.
  intros Ha [(e & r & Hr & Hd)|(Hn & Hs)]; [left; exists e, r; by rewrite <- Ha|right].
  split; [|done]. intros e r. by rewrite <- Ha.
Qed.

Lemma decided_headers pr adm s resp s' headers :
  decided pr adm s resp s' -> decided pr adm s (with_headers headers resp) s'.
Proof.
  intros [(e & r & Hr & Hd)|Hn]; [left|by right]. exists e, r. split; [done|]. revert Hd. unfold handled_as.
  destruct (entitlement pr r s) as [[] s0]; try done. destruct (handle e r s0) as [inner s1].
  intros (? & ? & ? & Hh). split_and!; [done..|]. simpl. intros x Hx. apply elem_of_app. right. by apply Hh.
Qed.

Lemma call_handled pr e r st resp st' :
  pr = Public \/ pr = Scoped ->
  call handle e r st = (resp, st') -> handled_as pr e r (ss_state st) resp (ss_state st').
Proof.
  unfold call, handled_as, entitlement. intros Hp. destruct (handle e r (ss_state st)) as [inner s1] eqn:Hh.
  intros [= <- <-]. destruct Hp as [-> | ->]; rewrite Hh; by split_and!.
Qed.

Lemma call_entitled_handled key e r st resp st' :
  call_entitled handle require_entitlement key e r st = (resp, st') ->
  handled_as (Entitled key) e r (ss_state st) resp (ss_state st').
Proof.
  unfold call_entitled, handled_as, entitlement.
  destruct (require_entitlement key (hr_Identity r) (ss_state st)) as [g s0]. destruct g.
  1-3: intros [= <- <-]; split_and!; [done|by intros b|set_solver].
  unfold call. simpl. destruct (handle e r s0) as [inner s1]. intros [= <- <-]. by split_and!.
Qed.

(** * The layers *)

(** What the router lets through of the request [r]. *)
Definition mux_admits (c : ServerConfig) (env : server_env) (w : WebRequest) (keys : JWKSProvider)
    (e : endpoint) (request : HttpRequest) : Prop :=
  exists who values, routed c env w keys e who values /\
    request = with_identity who (with_path_values values (wr_Request w)).

(** A routed request that is refused before its handler. *)
Lemma not_admitted c env w keys e values :
  first_match (wr_Path w) (routes (sc_Routes c)) = Some (e, values) ->
  (forall who, routed c env w keys e who values -> False) ->
  forall e' request, ~ mux_admits c env w keys e' request.
Proof.
  intros Hroute Hno e' request (who & values' & Hr & _). pose proof (ro_route _ _ _ _ _ _ _ Hr) as Hr'.
  rewrite Hroute in Hr'. simplify_eq. by apply (Hno who).
Qed.

#[local] Abbreviation decided_path w := (decided (protection_by_path (wr_Path w))).

Lemma require_scope_decided c env w e st next resp st' values :
  let r := with_path_values values (wr_Request w) in
  (forall who st1 resp1 st1', next (with_identity who r) st1 = (resp1, st1') ->
     handled_as (protection_by_path (wr_Path w)) e (with_identity who r) (ss_state st1) resp1 (ss_state st1')) ->
  hr_Method (wr_Request w) = "CONNECT" \/ clean_path (wr_Path w) = true ->
  first_match (wr_Path w) (routes (sc_Routes c)) = Some (e, values) ->
  (forall m allow, wrapper_method e = Some (m, allow) -> hr_Method (wr_Request w) = m) ->
  protection_by_path (wr_Path w) <> Public -> has_authenticator c = true ->
  require_scope c env next r st = (resp, st') ->
  decided_path w (mux_admits c env w (ss_keys st)) (ss_state st) resp (ss_state st').
Proof.
  intros r Hnext Hpath Hroute Hmeth Hprot Hhas. unfold require_scope.
  change (hr_Header r) with (hr_Header (wr_Request w)).
  destruct (RequireScopeIdentity _ _ _ _ _ _) as [res p] eqn:Hres. destruct res as [who|err].
  - destruct (next _ _) as [resp1 st1] eqn:Hn. intros [= <- <-]. apply decided_headers. left.
    exists e, (with_identity (Some who) r). split; [|by apply (Hnext _ (set_keys p st))].
    exists (Some who), values. split; [|done]. split; [done..|]. unfold acts_as.
    destruct (protection_by_path _); [done| |]; (split; [done|]; exists who; split; [done|]); by rewrite Hres.
  - intros [= <- <-]. right. split; [|split; [done|by intros b]]. apply (not_admitted _ _ _ _ _ _ Hroute).
    intros who [_ _ _ Ha]. unfold acts_as in Ha.
    destruct (protection_by_path _); [done| |]; destruct Ha as (_ & i & _ & Hi); by rewrite Hres in Hi.
Qed.

Lemma with_same_identity r : with_identity (hr_Identity r) r = r.
Proof. by destruct r. Qed.

(** An endpoint whose wrapper does not refuse the method. *)
Lemma serve_protection_decided c env w e st resp st' values :
  let r := with_path_values values (wr_Request w) in
  hr_Method (wr_Request w) = "CONNECT" \/ clean_path (wr_Path w) = true ->
  first_match (wr_Path w) (routes (sc_Routes c)) = Some (e, values) ->
  (forall m allow, wrapper_method e = Some (m, allow) -> hr_Method (wr_Request w) = m) ->
  (protection_of e <> Public -> has_authenticator c = true) ->
  match protection_of e with
  | Public => call handle e r st
  | Scoped => require_scope c env (call handle e) r st
  | Entitled key => require_scope c env (call_entitled handle require_entitlement key e) r st
  end = (resp, st') ->
  decided_path w (mux_admits c env w (ss_keys st)) (ss_state st) resp (ss_state st').
Proof.
  intros r Hpath Hroute Hmeth Hhas. pose proof (protection_of_path _ _ _ _ Hroute) as Hpr. rewrite Hpr in Hhas |- *.
  destruct (protection_by_path (wr_Path w)) as [| |key] eqn:Hp; intros Hs; rewrite <- Hp.
  - left. exists e, r. split; [|rewrite Hp; apply call_handled; [by left|done]].
    exists (hr_Identity r), values. split; [|by rewrite with_same_identity].
    split; [done..|]. unfold acts_as. by rewrite Hp.
  - eapply require_scope_decided; try done; [|by rewrite Hp|by apply Hhas].
    intros who st1 resp1 st1'. rewrite Hp. apply call_handled. by right.
  - eapply require_scope_decided; try done; [|by rewrite Hp|by apply Hhas].
    intros who st1 resp1 st1'. rewrite Hp. by apply call_entitled_handled.
Qed.

Lemma serve_mux_decided c env w st resp st' :
  serve_mux c env w st = (resp, st') ->
  decided_path w (mux_admits c env w (ss_keys st)) (ss_state st) resp (ss_state st').
Proof.
  unfold Server.serve_mux. destruct (_ && _) eqn:Hpath.
  { intros [= <- <-]. right. split; [|split; [done|by intros b]]. intros e r (who & values & [Hp _ _ _] & _).
    apply andb_true_iff in Hpath as [Hc Hp']. apply negb_true_iff in Hc, Hp'. bool_facts.
    destruct Hp; congruence. }
  assert (hr_Method (wr_Request w) = "CONNECT" \/ clean_path (wr_Path w) = true) as Hp.
  { apply andb_false_iff in Hpath as [Hc|Hc]; apply negb_false_iff in Hc; [left|by right]. by bool_facts. }
  destruct (first_match _ _) as [[e values]|] eqn:Hroute.
  2: { intros [= <- <-]. right. split; [|split; [done|by intros b]].
       intros e r (who & values & [_ Hr _ _] & _). by rewrite Hroute in Hr. }
  unfold Server.serve_endpoint. change (hr_Method (with_path_values _ _)) with (hr_Method (wr_Request w)).
  assert (protection_of e <> Public -> e ∉ [ECheckout; EPortal] -> has_authenticator c = true) as Hhas.
  { intros. destruct (first_match_in _ _ _ _ Hroute) as [p Hin]. by apply (protected_routes c p e). }
  destruct (wrapper_method e) as [[m allow]|] eqn:Hm.
  - destruct (bool_decide (hr_Method (wr_Request w) = m)) eqn:Hmeth; bool_facts; simpl.
    + apply serve_protection_decided; [done..|by rewrite Hm; intros ? ? [= <- <-]|].
      intros Hpr. apply Hhas; [done|]. intros [Hb _]%billing_endpoint. by rewrite Hb in Hm.
    + intros Hr. right. split; [|destruct allow; simplify_eq; (split; [done|by intros b])].
      apply (not_admitted _ _ _ _ _ _ Hroute). intros who [_ _ Hw _]. by eapply Hmeth, Hw.
  - assert (forall m allow, wrapper_method e = Some (m, allow) -> hr_Method (wr_Request w) = m) as Hmeth
      by by rewrite Hm.
    destruct (protection_of e) eqn:Hpr.
    + intros Hr. eapply serve_protection_decided; [done..|by rewrite Hpr|by rewrite Hpr].
    + destruct (_ && negb (has_authenticator c)) eqn:Hb.
      * apply andb_true_iff in Hb as [_ Ha]. apply negb_true_iff in Ha.
        intros [= <- <-]. right. split; [|split; [done|by intros b]]. apply (not_admitted _ _ _ _ _ _ Hroute).
        intros who [_ _ _ Hacts]. unfold acts_as in Hacts. rewrite <- (protection_of_path _ _ _ _ Hroute), Hpr, Ha in Hacts.
        by destruct Hacts.
      * intros Hr. eapply serve_protection_decided; [done..| |by rewrite Hpr]. intros _.
        apply andb_false_iff in Hb as [Hb|Hb]; [|by apply negb_false_iff in Hb].
        bool_facts. by apply Hhas.
    + intros Hr. eapply serve_protection_decided; [done..| |by rewrite Hpr]. intros _.
      apply Hhas; [done|]. intros [_ Hb]%billing_endpoint. by rewrite Hb in Hpr.
Qed.

Lemma rate_limit_decided c env w st next pr adm resp st' :
  (forall st1 resp1 st1', ss_keys st1 = ss_keys st -> ss_state st1 = ss_state st -> next w st1 = (resp1, st1') ->
     decided pr adm (ss_state st) resp1 (ss_state st1')) ->
  (if sc_RateLimitEnabled c then withRateLimit c env next else next) w st = (resp, st') ->
  decided pr (fun e request => within_rate c env w st /\ adm e request) (ss_state st) resp (ss_state st').
Proof.
  intros Hnext. assert (forall st1 resp1 st1', within_rate c env w st -> ss_keys st1 = ss_keys st ->
    ss_state st1 = ss_state st -> next w st1 = (resp1, st1') ->
    decided pr (fun e request => within_rate c env w st /\ adm e request) (ss_state st) resp1 (ss_state st1')) as Hpass.
  { intros st1 resp1 st1' Hw ? ? ?. eapply decided_impl; [|by eapply Hnext]. intros e request. tauto. }
  destruct (sc_RateLimitEnabled c) eqn:Hen; [|by apply Hpass; [left|..]].
  unfold withRateLimit. destruct (_ || _) eqn:Hx.
  { apply Hpass; [|done..]. apply orb_true_iff in Hx as [Hx|Hx]; [right; left; by bool_facts|right; right; by left]. }
  destruct (allow _ _ _) as [[[ok remaining] retry] l] eqn:Ha. destruct ok; simpl.
  - destruct (next w _) as [resp1 st1] eqn:Hn. intros [= <- <-]. apply decided_headers.
    apply (Hpass (set_limiter l st)); [|done..]. right. right. right. by rewrite Ha.
  - intros [= <- <-]. right. split; [|split; [done|by intros b]]. intros e request [Hw _].
    apply orb_false_iff in Hx as [Hx1 Hx2]. unfold within_rate in Hw. rewrite Hen, Hx2, Ha in Hw. bool_facts.
    by destruct Hw as [?|[?|[?|?]]].
Qed.

Definition same_origin_policy (c : ServerConfig) (w : WebRequest) : Prop :=
  accepted_origin c w /\ (hr_Method (wr_Request w) = "OPTIONS" -> origin_of w = EmptyString).

Lemma cors_decided c w st next pr adm resp st' :
  (forall resp1 st1', next w st = (resp1, st1') -> decided pr adm (ss_state st) resp1 (ss_state st1')) ->
  withCORS c next w st = (resp, st') ->
  decided pr (fun e request => same_origin_policy c w /\ adm e request) (ss_state st) resp (ss_state st').
Proof.
  intros Hnext. assert (forall resp1 st1', same_origin_policy c w -> next w st = (resp1, st1') ->
    decided pr (fun e request => same_origin_policy c w /\ adm e request) (ss_state st) resp1 (ss_state st1')) as Hpass.
  { intros resp1 st1' Hw ?. eapply decided_impl; [|by eapply Hnext]. intros e request. tauto. }
  unfold withCORS. fold (origin_of w). destruct (is_empty (origin_of w)) eqn:Ho.
  { apply is_empty_true in Ho. apply Hpass. split; [by left|done]. }
  apply is_empty_false in Ho. destruct (_ && negb (_ && _)) eqn:Hf.
  { intros [= <- <-]. right. split; [|split; [done|by intros b]]. intros e request [[Ha _] _].
    apply andb_true_iff in Hf as [Hf1 Hf2]. apply negb_true_iff in Hf1, Hf2. apply bool_decide_eq_false in Hf1.
    apply andb_false_iff in Hf2. destruct Ha as [?|[?|Hin]]; [done|done|].
    destruct Hf2 as [Hf2|Hf2]; [by apply bool_decide_eq_false in Hf2|]. apply negb_false_iff in Hf2.
    apply bool_decide_eq_true in Hf2. congruence. }
  assert (accepted_origin c w) as Hacc.
  { right. apply andb_false_iff in Hf as [Hf|Hf]; apply negb_false_iff in Hf; [left; by bool_facts|right].
    apply andb_true_iff in Hf as [Hf _]. by bool_facts. }
  destruct (bool_decide (hr_Method (wr_Request w) = "OPTIONS")) eqn:Hm; bool_facts.
  - intros Hr. right. split; [intros e request [[_ Hp] _]; by apply Ho, Hp|].
    destruct (bool_decide (ToUpper _ ∈ _)); simplify_eq; (split; [done|by intros b]).
  - destruct (next w st) as [resp1 st1] eqn:Hn. intros [= <- <-]. apply decided_headers, Hpass; [|done].
    split; [exact Hacc|done].
Qed.

(** The request the inner layers see. *)
Definition correlated (env : server_env) (w : WebRequest) : WebRequest :=
  {| wr_Path := wr_Path w; wr_RemoteAddr := wr_RemoteAddr w;
     wr_Request := with_correlation (request_id env w) (wr_Request w) |}.

Lemma admitted_layers c env w st st1 e request :
  ss_keys st1 = ss_keys st -> ss_limiter st1 = ss_limiter st ->
  same_origin_policy c (correlated env w) /\ within_rate c env (correlated env w) st1 /\
    mux_admits c env (correlated env w) (ss_keys st1) e request <->
  admitted c env w st e request.
Proof.
  intros Hk Hl. unfold within_rate, mux_admits. rewrite Hk, Hl. split.
  - intros ([Ho Hp] & Hr & (who & values & [Hpath Hroute Hmeth Hcall] & ->)). split; [exact Ho|exact Hp|exact Hr|].
    exists who, values. split; [by split|done].
  - intros [Ho Hp Hr (who & values & [Hpath Hroute Hmeth Hcall] & ->)]. split; [by split|]. split; [exact Hr|].
    exists who, values. split; [by split|done].
Qed.

(** C8. A handler runs exactly for the requests that are admitted - from an
    accepted origin and no preflight, within the rate of the client, for a
    registered route, with the method of its wrapper, and, under [/api/v1/me],
    [/admin], [/billing] and [/black-market], with a token the authenticator accepts
    for the scope, the last also with the entitlement - and then it runs once, with the path values of the route and the
    identity of that token, and its answer is the response; every other request
    is answered without a handler and changes nothing the handlers keep. *)
Theorem serve_guards c env w st resp st' :
  serve c env w st = (resp, st') -> decided_path w (admitted c env w st) (ss_state st) resp (ss_state st').
Proof.
  unfold Server.serve, withRequestObservability, withSecurityHeaders. fold (request_id env w). fold (correlated env w).
  set (st0 := set_metrics _ st). destruct (withCORS _ _ _ _) as [resp1 st1] eqn:Hc. intros [= <- <-].
  apply decided_headers, decided_headers.
  eapply decided_impl; [intros e r; apply (admitted_layers c env w st st0); done|].
  change (decided_path w (fun e r => same_origin_policy c (correlated env w) /\
    within_rate c env (correlated env w) st0 /\ mux_admits c env (correlated env w) (ss_keys st0) e r)
    (ss_state st0) resp1 (ss_state st1)).
  eapply cors_decided; [|exact Hc]. intros resp2 st2 Hr.
  eapply rate_limit_decided; [|exact Hr]. intros st3 resp3 st3' Hk Hs Hm. rewrite <- Hs, <- Hk.
  change (wr_Path w) with (wr_Path (correlated env w)). by apply serve_mux_decided.
Qed.

(** * What every response carries, and what it leaves behind *)

(** Nothing inside the outermost layer touches the metrics. *)
Lemma serve_endpoint_metrics c env e r st : ss_metrics (serve_endpoint c env e r st).2 = ss_metrics st.
Proof.
  assert (forall r (st : ServerState S), ss_metrics (call handle e r st).2 = ss_metrics st) as Hcall.
  { intros r1 st1. unfold call. by destruct (handle _ _ _). }
  assert (forall key r (st : ServerState S), ss_metrics (call_entitled handle require_entitlement key e r st).2 = ss_metrics st) as Hent.
  { intros key r1 st1. unfold call_entitled. destruct (require_entitlement _ _ _) as [[] ?]; try done. by rewrite Hcall. }
  assert (forall (next : HttpRequest -> ServerState S -> answer * ServerState S) r st,
    (forall r st, ss_metrics (next r st).2 = ss_metrics st) ->
    ss_metrics (require_scope c env next r st).2 = ss_metrics st) as Hscope.
  { intros next r1 st1 Hn. unfold require_scope. destruct (RequireScopeIdentity _ _ _ _ _ _) as [[who|] p]; [|done].
    specialize (Hn (with_identity (Some who) r1) (set_keys p st1)). by destruct (next _ _). }
  unfold Server.serve_endpoint.
  assert (forall key, ss_metrics (require_scope c env (call_entitled handle require_entitlement key e) r st).2 = ss_metrics st)
    as Hse by (intros key; apply Hscope, Hent).
  assert (ss_metrics (require_scope c env (call handle e) r st).2 = ss_metrics st) as Hsc by apply Hscope, Hcall.
  destruct (wrapper_method e) as [[m []]|]; [destruct (bool_decide _); simpl|destruct (bool_decide _); simpl|];
    try done; destruct (protection_of e); try done; destruct (_ && _); done.
Qed.

Lemma inner_metrics c env w st :
  ss_metrics (withCORS c (if sc_RateLimitEnabled c then withRateLimit c env (serve_mux c env) else serve_mux c env) w st).2
  = ss_metrics st.
Proof.
  assert (forall st, ss_metrics (serve_mux c env w st).2 = ss_metrics st) as Hmux.
  { intros st1. unfold Server.serve_mux. destruct (_ && _); [done|]. destruct (first_match _ _) as [[e values]|]; [|done].
    apply serve_endpoint_metrics. }
  set (limited := if sc_RateLimitEnabled c then _ else _).
  assert (forall st, ss_metrics (limited w st).2 = ss_metrics st) as Hlim.
  { intros st1. unfold limited. destruct (sc_RateLimitEnabled c); [|apply Hmux]. unfold withRateLimit.
    destruct (_ || _); [apply Hmux|]. destruct (allow _ _ _) as [[[[] ?] ?] l]; [|done]. simpl.
    specialize (Hmux (set_limiter l st1)). by destruct (serve_mux c env w _). }
  unfold withCORS. destruct (is_empty _); [apply Hlim|]. destruct (_ && _); [done|].
  destruct (bool_decide (_ = _)); [by destruct (bool_decide (_ ∈ _))|].
  specialize (Hlim st). by destruct (limited w st).
Qed.

(** Whatever a request meets, its response carries the security headers and
    the identifier of the request, which is the one the server drew unless the
    client's is of at most 128 letters, digits and [-_.:], and the request is
    counted once, started and finished, under its method, the status of the
    response and a route the client cannot choose. *)
Theorem serve_marks c env w st resp st' :
  serve c env w st = (resp, st') ->
  (forall h, h ∈ security_headers -> h ∈ rs_Headers resp) /\
  (exists id, ("X-Request-ID", id) ∈ rs_Headers resp /\
     (id = se_request_id env \/
      id = TrimSpace (hr_Header (wr_Request w) "X-Request-ID") /\ 1 <= str_len id <= 128 /\
      str_all request_id_char id = true)) /\
  exists route, route ∈ "unmatched" :: map fst market_routes /\
    ss_metrics st' = http_apply (http_apply (ss_metrics st) Started)
      (Finished (hr_Method (wr_Request w)) route (rs_Status resp) (se_duration env)).
Proof.
  unfold Server.serve, withRequestObservability, withSecurityHeaders. fold (request_id env w). fold (correlated env w).
  set (st0 := set_metrics _ st). pose proof (inner_metrics c env (correlated env w) st0) as Hm.
  destruct (withCORS _ _ _ _) as [resp1 st1]. intros [= <- <-]. split_and!.
  - intros h Hh. cbn [rs_Headers with_headers]. apply elem_of_app. right. apply elem_of_app. by left.
  - exists (request_id env w). split; [by left|]. unfold request_id.
    destruct (is_empty _) eqn:Hid; [by left|right]. apply is_empty_false in Hid. revert Hid. unfold acceptedRequestID.
    destruct (_ || _) eqn:Hlen; [done|]. destruct (str_all _ _) eqn:Ha; [|done]. intros _.
    apply orb_false_iff in Hlen as [? ?]. split_and!; [done|bool_facts; lia..|done].
  - exists (metricRoute (wr_Path w)). split.
    + unfold metricRoute. case_bool_decide; [by right|by left].
    + cbn [ss_metrics set_metrics http_apply rs_Status with_headers]. simpl in Hm. by rewrite Hm.
Qed.
End spec.

(** * Examples *)

#[local] Existing Instance plain_unicode.
#[local] Existing Instance plain_sha256.
#[local] Existing Instance plain_rsa.

(** A server with all account routes, whose handlers note whom they serve. *)
Definition sample_log : Type := list (endpoint * string * option string).

Definition sample_handle (e : endpoint) (r : HttpRequest) (s : sample_log) : Response endpoint * sample_log :=
  ({| rs_Status := StatusOK; rs_Headers := []; rs_Body := e |},
   (e, hr_PathValue r "presetId", id_Subject <$> hr_Identity r) :: s).

Definition sample_entitlement (key : string) (who : option Identity) (s : sample_log) : gate * sample_log :=
  (GateForbidden, s).

Definition all_routes : AccountRoutes :=
  {| ar_Handler := true; ar_AdminHandler := true; ar_Service := true; ar_BillingHandler := true;
     ar_PlayerProfileHandler := true; ar_EconomicProfileHandler := true; ar_BlackMarketHandler := true;
     ar_SavedDataHandler := true; ar_Authenticator := true |}.

Definition sample_config : ServerConfig :=
  {| sc_AllowedOrigins := ["https://app"]; sc_RateLimitEnabled := true; sc_Routes := Some all_routes;
     sc_Validator := Some sample_validator |}.

Definition sample_server : ServerState sample_log :=
  {| ss_limiter := newIPRateLimiter
       {| ro_Enabled := true; ro_RequestsPerSecond := of_Z 20; ro_Burst := 2; ro_ClientTTL := 10 * minute;
          ro_TrustProxyHeaders := false |} 0;
     ss_metrics := NewHTTPMetrics; ss_keys := no_keys; ss_state := [] |}.

Definition sample_server_env : server_env :=
  {| se_now := 900 * second; se_auth_now := 900 * second; se_keys := sample_env (900 * second);
     se_request_id := "0a1b"; se_duration := 1000000 |}.

Definition sample_request (method path origin authorization : string) : WebRequest :=
  {| wr_Path := path; wr_RemoteAddr := "10.0.0.1:4711";
     wr_Request := {| hr_Method := method; hr_TLS := false;
       hr_Header := fun name => if bool_decide (name = "Origin") then origin
         else if bool_decide (name = "Authorization") then authorization else EmptyString;
       hr_Query := fun _ => EmptyString; hr_PathValue := fun _ => EmptyString;
       hr_Body := {| st_bytes := EmptyString; st_end := AtEOF |}; hr_Identity := None;
       hr_CorrelationID := EmptyString |} |}.

Definition sample_bearer : string := "Bearer " +:+ sample_signed sample_payload.

#[local] Abbreviation sample_serve := (serve sample_handle sample_entitlement sample_config sample_server_env).

(** A route that is not there, a foreign origin, a preflight, no token, a token for
    an analysis its user has not paid for, and one for a preset. *)
Example served_statuses :
  map (fun q => let '(resp, st) := sample_serve q sample_server in (rs_Status resp, ss_state st))
    [sample_request "GET" "/api/v1/me/presets/a/b" EmptyString sample_bearer;
     sample_request "GET" "/api/v1/me/presets/p7" "https://other" sample_bearer;
     sample_request "OPTIONS" "/api/v1/me/presets/p7" "https://app" EmptyString;
     sample_request "GET" "/api/v1/me/presets/p7" "https://app" EmptyString;
     sample_request "GET" "/api/v1/black-market/analysis" "https://app" sample_bearer;
     sample_request "GET" "/api/v1/me/presets/p7" "https://app" sample_bearer]
  = [(404, []); (403, []); (204, []); (401, []); (403, []); (200, [(EPreset, "p7", Some "auth0|1")])].
Proof. vm_compute. reflexivity. Qed.

(** The third request of a client with a bucket of two is refused. *)
Example third_is_limited :
  let '(r1, s1) := sample_serve (sample_request "GET" "/api/v1/markets" EmptyString EmptyString) sample_server in
  let '(r2, s2) := sample_serve (sample_request "GET" "/api/v1/markets" EmptyString EmptyString) s1 in
  let '(r3, s3) := sample_serve (sample_request "GET" "/api/v1/markets" EmptyString EmptyString) s2 in
  (map rs_Status [r1; r2; r3], length (ss_state s3), List.find (fun h => bool_decide (h.1 = "Retry-After")) (rs_Headers r3))
  = ([200; 200; 429], 2%nat, Some ("Retry-After", "1")).
Proof. vm_compute. reflexivity. Qed.

(** An [OPTIONS] request without an origin is no preflight: it is not limited and
    reaches the handlers. *)
Example bare_options :
  let '(r1, s1) := sample_serve (sample_request "OPTIONS" "/api/v1/markets" EmptyString EmptyString) sample_server in
  let '(r2, s2) := sample_serve (sample_request "OPTIONS" "/api/v1/markets" EmptyString EmptyString) s1 in
  let '(r3, s3) := sample_serve (sample_request "OPTIONS" "/api/v1/markets" EmptyString EmptyString) s2 in
  (map rs_Status [r1; r2; r3], length (ss_state s3)) = ([200; 200; 200], 3%nat).
Proof. vm_compute. reflexivity. Qed.

Definition sample_preset_request : WebRequest := sample_request "GET" "/api/v1/me/presets/p7" "https://app" sample_bearer.

Lemma serve_guards_witness :
  let '(resp, st') := sample_serve sample_preset_request sample_server in
  ss_state st' = [(EPreset, "p7", Some "auth0|1")] /\
  decided sample_handle sample_entitlement Scoped
    (admitted sample_config sample_server_env sample_preset_request sample_server)
    (ss_state sample_server) resp (ss_state st').
Proof.
  destruct (sample_serve sample_preset_request sample_server) as [resp st'] eqn:E. split.
  - assert (ss_state (sample_serve sample_preset_request sample_server).2 = [(EPreset, "p7", Some "auth0|1")]) as Hs
      by (vm_compute; reflexivity).
    by rewrite E in Hs.
  - exact (serve_guards sample_handle sample_entitlement sample_config sample_server_env sample_preset_request
      sample_server resp st' E).
Defined.

Lemma serve_marks_witness :
  let '(resp, st') := sample_serve sample_preset_request sample_server in
  rs_Status resp = 200 /\ (forall h, h ∈ security_headers -> h ∈ rs_Headers resp).
Proof.
  destruct (sample_serve sample_preset_request sample_server) as [resp st'] eqn:E. split.
  - assert (rs_Status (sample_serve sample_preset_request sample_server).1 = 200) as Hs by (vm_compute; reflexivity).
    by rewrite E in Hs.
  - exact (proj1 (serve_marks sample_handle sample_entitlement sample_config sample_server_env sample_preset_request
      sample_server resp st' E)).
Defined.
