(* ===== verification/AdminPanel.v ===== *)
(** The administration panel: [internal/adminpanel] ([service.go], [postgres.go]
    and [handler.go]), over [AccountAdmin], with the table of
    [migrations/0012_secure_admin_panel.sql]. *)
From S2P Require Import Prelude GoLists GoBase Float64 Tx Webhook BillingDB Utf8 Json Billing Accounts AccountAdmin Http.
Local Open Scope Z_scope.

Definition GrantConfirmation : string := "GRANT PRO".
Definition RevokeConfirmation : string := "REVOKE PRO".

(** * State *)

(** [app_admins], by user. *)
Record admin_row := {
  ad_ID : string;
  ad_Active : bool;
  ad_CreatedAt : time;
  ad_DisabledAt : option time;
}.

Record PanelDB := { panel_admins : gmap string admin_row; panel_accounts : AdminDB }.

Definition set_panel_accounts (a : AdminDB) (d : PanelDB) : PanelDB :=
  {| panel_admins := panel_admins d; panel_accounts := a |}.

(** * Answers and errors *)

Record Session := {
  se_AdminID : string;
  se_UserID : string;
  se_AuthSubject : string;
  se_Email : option string;
  se_DisplayName : option string;
  se_Active : bool;
  se_CreatedAt : time;
  se_DisabledAt : option time;
}.

Record UserSummary := {
  sm_User : AdminUser;
  sm_Effective : AccessSnapshot;
  sm_ManualGrant : option ManualGrant;
  sm_ActiveProviders : list string;
}.

(** A row of [subscriptions] with its identifier, which the table of [BillingDB]
    leaves out. *)
Record PanelSubscription := { ps_ID : string; ps_Row : subscription_row }.

Record UserDetail := {
  ud_Summary : UserSummary;
  ud_Subscriptions : list PanelSubscription;
  ud_Entitlements : gmap string any_value;
}.

(** The two states are kept decoded. *)
Record AuditEvent := { ev_ID : string; ev_User : AdminUser; ev_Row : audit_row }.

Inductive panel_step := PSession | PSearch | PSummary | PSubscriptions | PEntitlements | PAudit.

(** Why a request is an [ErrInvalidRequest]. *)
Inductive invalid_reason :=
  | SearchTooLong
  | SearchLimit
  | BadSelector (e : admin_error)
  | NoGrantConfirmation
  | NoRevokeConfirmation
  | BadDuration
  | BadReason
  | EventsLimit.

Inductive panel_error :=
  | ErrForbidden
  | ErrInvalidRequest (why : invalid_reason)
  | ErrUserNotFound
  | ErrAccount (e : admin_error)
  | PanelStatement (step : panel_step) (cause : db_failure)
  | PanelDecode.

(** The environment of a request: the [now()] and the fate of each statement, the
    call of [AccountAdmin] it may make, and the identifiers the database gave to
    the subscriptions and to the audit events, which are in the order in which they
    were inserted. *)
Record panel_call := {
  pc_now : panel_step -> time;
  pc_outcome : panel_step -> outcome;
  pc_admin : admin_call;
  pc_subscription_id : subscription_row -> string;
  pc_event_id : nat -> string;
}.

(** * [ilike] *)

(** [like] on characters: [%], [_] and the escape. *)
Fixpoint like (pattern : list Z) : list Z -> bool :=
  match pattern with
  | [] => fun s => match s with [] => true | _ => false end
  | p :: pattern' =>
      if p =? 37 then
        fix suffix (s : list Z) : bool :=
          like pattern' s || match s with [] => false | _ :: s' => suffix s' end
      else if p =? 95 then
        fun s => match s with [] => false | _ :: s' => like pattern' s' end
      else if p =? 92 then
        match pattern' with
        | [] => fun _ => false
        | q :: pattern'' =>
            fun s => match s with [] => false | c :: s' => (c =? q) && like pattern'' s' end
        end
      else
        fun s => match s with [] => false | c :: s' => (c =? p) && like pattern' s' end
  end.

Section panel.
Context `{Unicode, AdminEncoding, EntitlementEncoding, Collation}.

Definition ilike (s pattern : string) : bool := like (runes (pg_lower pattern)) (runes (pg_lower s)).

(** * The repository *)

Definition panel_query {A} (c : panel_call) (st : panel_step) (r : result db_failure A)
    : result panel_error A :=
  match pc_outcome c st with
  | Done => rmap_err (PanelStatement st) r
  | Refused cause | AckLost cause => Err (PanelStatement st (outage_failure cause))
  end.

(** A [text] parameter. *)
Definition text_param (s : string) : result db_failure string :=
  if sql_text s then Ok s else Err OtherFailure.

Definition session_of (subject : string) (u : user_row) (a : admin_row) : Session :=
  {| se_AdminID := ad_ID a; se_UserID := us_ID u; se_AuthSubject := subject; se_Email := us_Email u;
     se_DisplayName := us_DisplayName u; se_Active := ad_Active a; se_CreatedAt := ad_CreatedAt a;
     se_DisabledAt := ad_DisabledAt a |}.

(** The row of the join, if the administrator is active. *)
Definition active_admin (d : PanelDB) (subject : string) : option Session :=
  u ← users (accounts (panel_accounts d)) !! subject;
  a ← panel_admins d !! us_ID u;
  if ad_Active a then Some (session_of subject u a) else None.

Definition AdminSession (c : panel_call) (subject : string) (d : PanelDB) : result panel_error Session :=
  let! found := panel_query c PSession (let! s := text_param subject in Ok (active_admin d s)) in
  of_option ErrForbidden found.

(** [array_agg(distinct sx.provider order by sx.provider)] *)
Definition active_providers (now : time) (userID : string) (l : list subscription_row) : list string :=
  slice_stable collate
    (dedup (map sr_Provider
      (List.filter (fun r => bool_decide (sr_UserID r = userID) && grants_access now r) l))).

(** The [manual] of the summary: the row that was updated last. *)
Definition latest_manual (userID : string) (l : list subscription_row) : option subscription_row :=
  best (fun a b => sr_UpdatedAt a <? sr_UpdatedAt b) (List.filter (is_manual userID) l).

(** [scanUserSummary]: a grant needs an identifier. *)
Definition shown_grant (r : subscription_row) : option ManualGrant :=
  id ← sr_SubscriptionID r;
  Some {| mg_SubscriptionID := id; mg_Status := sr_Status r; mg_AccessUntil := sr_AccessUntil r;
          mg_UpdatedAt := sr_UpdatedAt r |}.

Definition summary_of (now : time) (d : PanelDB) (u : AdminUser) : UserSummary :=
  let l := admin_subscriptions (panel_accounts d) in
  {| sm_User := u;
     sm_Effective := effective_subscription now (au_ID u) l;
     sm_ManualGrant := latest_manual (au_ID u) l ≫= shown_grant;
     sm_ActiveProviders := active_providers now (au_ID u) l |}.

Definition all_users (d : PanelDB) : list (string * user_row) :=
  map_to_list (users (accounts (panel_accounts d))).

(** The [where] of [SearchUsers]. *)
Definition search_matches (q : string) (subject : string) (r : user_row) : bool :=
  let pattern := "%" +:+ q +:+ "%" in
  is_empty q || ilike (us_ID r) pattern || ilike subject pattern
  || ilike (default EmptyString (us_Email r)) pattern
  || ilike (default EmptyString (us_DisplayName r)) pattern.

(** [coalesce(u.last_login_at, u.updated_at, u.created_at) desc, u.id] *)
Definition last_seen (r : user_row) : time := default (us_UpdatedAt r) (us_LastLoginAt r).

Definition recent_less : string * user_row -> string * user_row -> bool :=
  then_less (fun a b => last_seen b.2 <? last_seen a.2) (fun a b => str_ltb (us_ID a.2) (us_ID b.2)).

Definition found_users (q : string) (d : PanelDB) : list (string * user_row) :=
  slice_stable recent_less (List.filter (fun '(subject, r) => search_matches q subject r) (all_users d)).

Definition repo_SearchUsers (c : panel_call) (q : string) (limit : Z) (d : PanelDB)
    : result panel_error (list UserSummary) :=
  panel_query c PSearch
    (let! q := text_param q in
     Ok (map (fun '(subject, r) => summary_of (pc_now c PSearch) d (admin_user subject r))
           (take (Z.to_nat limit) (found_users q d)))).

Definition user_by_id (userID : string) (d : PanelDB) : option AdminUser :=
  (fun '(subject, r) => admin_user subject r)
    <$> List.find (fun '(_, r) => bool_decide (us_ID r = userID)) (all_users d).

(** [order by updated_at desc, id] *)
Definition subscription_less (a b : PanelSubscription) : bool :=
  then_less (fun a b => sr_UpdatedAt (ps_Row b) <? sr_UpdatedAt (ps_Row a))
    (fun a b => str_ltb (ps_ID a) (ps_ID b)) a b.

Definition subscriptions_of (c : panel_call) (userID : string) (d : PanelDB) : list PanelSubscription :=
  slice_stable subscription_less
    (map (fun r => {| ps_ID := pc_subscription_id c r; ps_Row := r |})
       (List.filter (fun r => bool_decide (sr_UserID r = userID)) (admin_subscriptions (panel_accounts d)))).

Definition repo_UserDetail (c : panel_call) (userID : string) (d : PanelDB) : result panel_error UserDetail :=
  let! found := panel_query c PSummary
    (let! u := of_option OtherFailure (admin_uuid userID) in Ok (user_by_id u d)) in
  let! u := of_option ErrUserNotFound found in
  let summary := summary_of (pc_now c PSummary) d u in
  let! subscriptions := panel_query c PSubscriptions (Ok (subscriptions_of c (au_ID u) d)) in
  let! rows := panel_query c PEntitlements
    (Ok (slice_stable permission_less
           (permission_rows (pc_now c PEntitlements) (s_Plan (sm_Effective summary)) (au_ID u)
              (accounts (panel_accounts d))))) in
  let! entitlements := rmap_err (fun _ => PanelDecode) (fill_entitlements rows ∅) in
  Ok {| ud_Summary := summary; ud_Subscriptions := subscriptions; ud_Entitlements := entitlements |}.

(** [order by a.created_at desc, a.id desc] *)
Definition event_less : AuditEvent -> AuditEvent -> bool :=
  then_less (fun a b => ae_CreatedAt (ev_Row b) <? ae_CreatedAt (ev_Row a))
    (fun a b => str_ltb (ev_ID b) (ev_ID a)).

(** The join of the events with their users. *)
Definition audit_rows (c : panel_call) (d : PanelDB) : list AuditEvent :=
  omap id
    (imap (fun i row =>
             (fun u => {| ev_ID := pc_event_id c i; ev_User := u; ev_Row := row |})
               <$> user_by_id (ae_UserID row) d)
       (audit (panel_accounts d))).

Definition repo_AuditEvents (c : panel_call) (limit : Z) (d : PanelDB) : result panel_error (list AuditEvent) :=
  panel_query c PAudit (Ok (take (Z.to_nat limit) (slice_stable event_less (audit_rows c d)))).

(** * The service *)

(** [accounts.AdminHandler]: the service the panel calls. *)
Definition panel_accounts_service : AdminService :=
  {| environment := "production"; maxDuration := 365 * 24 * hour |}.

Definition authorize (c : panel_call) (who : Identity) (d : PanelDB) : result panel_error Session :=
  let subject := TrimSpace (id_Subject who) in
  if is_empty subject then Err ErrForbidden else AdminSession c subject d.

Definition invalid_if (b : bool) (why : invalid_reason) : result panel_error unit :=
  if b then Err (ErrInvalidRequest why) else Ok tt.

Definition bad_reason (reason : string) : bool :=
  (str_len reason <? 3) || (500 <? str_len reason) || containsLineBreak reason.

(** The selector of a user by its identifier. *)
Definition user_selector (userID : string) : result panel_error Selector :=
  let selector := {| sl_UserID := TrimSpace userID; sl_Email := EmptyString; sl_AuthSubject := EmptyString |} in
  let! _ := rmap_err (fun e => ErrInvalidRequest (BadSelector e)) (Validate selector) in
  Ok selector.

Definition SearchUsers (c : panel_call) (who : Identity) (q : string) (limit : Z) (d : PanelDB)
    : result panel_error (list UserSummary) :=
  let! _ := authorize c who d in
  let q := TrimSpace q in
  let! _ := invalid_if (200 <? str_len q) SearchTooLong in
  let! _ := invalid_if ((limit <? 1) || (100 <? limit)) SearchLimit in
  repo_SearchUsers c q limit d.

Definition UserDetailOf (c : panel_call) (who : Identity) (userID : string) (d : PanelDB)
    : result panel_error UserDetail :=
  let! _ := authorize c who d in
  let! selector := user_selector userID in
  repo_UserDetail c (sl_UserID selector) d.

Definition PanelAuditEvents (c : panel_call) (who : Identity) (limit : Z) (d : PanelDB)
    : result panel_error (list AuditEvent) :=
  let! _ := authorize c who d in
  let! _ := invalid_if ((limit <? 1) || (500 <? limit)) EventsLimit in
  repo_AuditEvents c limit d.

(** What [GrantPro] asks of [AccountAdmin]. *)
Definition panel_grant (c : panel_call) (who : Identity) (userID : string) (durationDays : Z)
    (reason confirmation : string) (d : PanelDB) : result panel_error GrantRequest :=
  let! _ := authorize c who d in
  let! _ := invalid_if (negb (bool_decide (TrimSpace confirmation = GrantConfirmation))) NoGrantConfirmation in
  let! _ := invalid_if ((durationDays <? 1) || (365 <? durationDays)) BadDuration in
  let reason := TrimSpace reason in
  let! _ := invalid_if (bad_reason reason) BadReason in
  let! selector := user_selector userID in
  Ok {| gr_Selector := selector; gr_Duration := wrap64 (wrap64 (durationDays * 24) * hour);
        gr_Actor := id_Subject who; gr_Reason := reason; gr_DryRun := false;
        gr_Confirmation := ProductionConfirmation |}.

(** The errors of [AccountAdmin] that the handler tells apart keep their names. *)
Definition account_result {A} (d : PanelDB) (r : result admin_error A * AdminDB)
    : result panel_error A * PanelDB :=
  (rmap_err ErrAccount r.1, set_panel_accounts r.2 d).

Definition PanelGrantPro (c : panel_call) (who : Identity) (userID : string) (durationDays : Z)
    (reason confirmation : string) (d : PanelDB) : result panel_error OperationResult * PanelDB :=
  match panel_grant c who userID durationDays reason confirmation d with
  | Err e => (Err e, d)
  | Ok request => account_result d (GrantPro panel_accounts_service (pc_admin c) request (panel_accounts d))
  end.

Definition panel_revoke (c : panel_call) (who : Identity) (userID reason confirmation : string) (d : PanelDB)
    : result panel_error RevokeRequest :=
  let! _ := authorize c who d in
  let! _ := invalid_if (negb (bool_decide (TrimSpace confirmation = RevokeConfirmation))) NoRevokeConfirmation in
  let reason := TrimSpace reason in
  let! _ := invalid_if (bad_reason reason) BadReason in
  let! selector := user_selector userID in
  Ok {| rr_Selector := selector; rr_Actor := id_Subject who; rr_Reason := reason; rr_DryRun := false;
        rr_Confirmation := ProductionConfirmation |}.

Definition PanelRevokePro (c : panel_call) (who : Identity) (userID reason confirmation : string) (d : PanelDB)
    : result panel_error OperationResult * PanelDB :=
  match panel_revoke c who userID reason confirmation d with
  | Err e => (Err e, d)
  | Ok request => account_result d (RevokePro panel_accounts_service (pc_admin c) request (panel_accounts d))
  end.

(** * The handlers *)

Inductive panel_body :=
  | PanelError (message : string)
  | PanelInvalid (why : invalid_reason)
  | PanelSession (s : Session)
  | PanelUsers (l : list UserSummary)
  | PanelUser (u : UserDetail)
  | PanelOperation (r : OperationResult)
  | PanelEvents (l : list AuditEvent).

Definition panel_response := Response panel_body.

Definition panel_write (status : Z) (headers : list (string * string)) (body : panel_body) : panel_response :=
  {| rs_Status := status; rs_Headers := headers ++ [json_type; no_store]; rs_Body := body |}.

Definition panel_not_allowed (allowed : string) : panel_response :=
  panel_write StatusMethodNotAllowed [("Allow", allowed)] (PanelError "method not allowed").

Definition writeServiceError (e : panel_error) : panel_response :=
  match e with
  | ErrForbidden => panel_write StatusForbidden [] (PanelError "forbidden")
  | ErrInvalidRequest why => panel_write StatusBadRequest [] (PanelInvalid why)
  | ErrUserNotFound | ErrAccount UserNotFound => panel_write StatusNotFound [] (PanelError "user not found")
  | ErrAccount AmbiguousUser => panel_write StatusConflict [] (PanelError "ambiguous user")
  | _ => panel_write StatusInternalServerError [] (PanelError "internal server error")
  end.

Definition panel_answer {A} (body : A -> panel_body) (r : result panel_error A) : panel_response :=
  match r with Ok a => panel_write StatusOK [] (body a) | Err e => writeServiceError e end.

Definition queryLimit (r : HttpRequest) (fallback : Z) : result string Z :=
  let value := TrimSpace (hr_Query r "limit") in
  if is_empty value then Ok fallback else of_option "limit must be an integer" (Atoi value).

Definition maxAdminRequestBodyBytes : Z := Z.shiftl 16 10.

(** [decodeJSON] *)
Definition panel_decode {A} (d : decoder A) (zero : A) (r : HttpRequest) : result string A :=
  match decode_next d zero (LimitReader maxAdminRequestBodyBytes (hr_Body r)) with
  | Ok (a, rest) => if at_eof rest then Ok a else Err "request must contain one JSON object"
  | Err _ => Err "invalid JSON request"
  end.

Record GrantBody := { gb_DurationDays : Z; gb_Reason : string; gb_Confirmation : string }.
Record RevokeBody := { rb_Reason : string; rb_Confirmation : string }.

Definition dec_GrantBody : decoder GrantBody :=
  dec_struct
    [("durationDays", field gb_DurationDays (fun x '(Build_GrantBody _ r c) => Build_GrantBody x r c) dec_int64);
     ("reason", field gb_Reason (fun x '(Build_GrantBody n _ c) => Build_GrantBody n x c) dec_string);
     ("confirmation", field gb_Confirmation (fun x '(Build_GrantBody n r _) => Build_GrantBody n r x) dec_string)].

Definition dec_RevokeBody : decoder RevokeBody :=
  dec_struct
    [("reason", field rb_Reason (fun x '(Build_RevokeBody _ c) => Build_RevokeBody x c) dec_string);
     ("confirmation", field rb_Confirmation (fun x '(Build_RevokeBody r _) => Build_RevokeBody r x) dec_string)].

(** The check of the method and of the identity that every handler starts with. *)
Definition with_admin_identity (method : string) (r : HttpRequest) (d : PanelDB)
    (k : Identity -> panel_response * PanelDB) : panel_response * PanelDB :=
  if negb (bool_decide (hr_Method r = method)) then (panel_not_allowed method, d) else
  match hr_Identity r with
  | None => (panel_write StatusUnauthorized [] (PanelError "unauthorized"), d)
  | Some who => k who
  end.

Definition bad_request (message : string) : panel_response := panel_write StatusBadRequest [] (PanelError message).

Definition serve_session (c : panel_call) (r : HttpRequest) (d : PanelDB) : panel_response * PanelDB :=
  with_admin_identity "GET" r d (fun who => (panel_answer PanelSession (authorize c who d), d)).

Definition serve_users (c : panel_call) (r : HttpRequest) (d : PanelDB) : panel_response * PanelDB :=
  with_admin_identity "GET" r d (fun who =>
    (match queryLimit r 50 with
     | Err message => bad_request message
     | Ok limit => panel_answer PanelUsers (SearchUsers c who (hr_Query r "q") limit d)
     end, d)).

Definition serve_user (c : panel_call) (r : HttpRequest) (d : PanelDB) : panel_response * PanelDB :=
  with_admin_identity "GET" r d (fun who =>
    (panel_answer PanelUser (UserDetailOf c who (hr_PathValue r "userId") d), d)).

Definition serve_grant (c : panel_call) (r : HttpRequest) (d : PanelDB) : panel_response * PanelDB :=
  with_admin_identity "POST" r d (fun who =>
    match panel_decode dec_GrantBody {| gb_DurationDays := 0; gb_Reason := EmptyString; gb_Confirmation := EmptyString |} r with
    | Err message => (bad_request message, d)
    | Ok b =>
        let '(res, d') := PanelGrantPro c who (hr_PathValue r "userId") (gb_DurationDays b) (gb_Reason b)
                            (gb_Confirmation b) d in
        (panel_answer PanelOperation res, d')
    end).

Definition serve_revoke (c : panel_call) (r : HttpRequest) (d : PanelDB) : panel_response * PanelDB :=
  with_admin_identity "POST" r d (fun who =>
    match panel_decode dec_RevokeBody {| rb_Reason := EmptyString; rb_Confirmation := EmptyString |} r with
    | Err message => (bad_request message, d)
    | Ok b =>
        let '(res, d') := PanelRevokePro c who (hr_PathValue r "userId") (rb_Reason b) (rb_Confirmation b) d in
        (panel_answer PanelOperation res, d')
    end).

Definition serve_audit (c : panel_call) (r : HttpRequest) (d : PanelDB) : panel_response * PanelDB :=
  with_admin_identity "GET" r d (fun who =>
    (match queryLimit r 100 with
     | Err message => bad_request message
     | Ok limit => panel_answer PanelEvents (PanelAuditEvents c who limit d)
     end, d)).
End panel.
