(* ===== verification/AdminPanelSpec.v ===== *)
(** What the administration panel promises: only active administrators see or
    change anything, and every change is in the audit trail under their name. *)
From S2P Require Import Prelude GoLists GoBase Float64 Tx Webhook BillingDB Utf8 Json Billing BillingSamples BillingSpec Accounts AccountsSpec AccountAdmin AccountAdminSpec Http AdminPanel.
Local Open Scope Z_scope.

(** * Changes to the accounts *)

(** The identifier of a manual grant is that of its user: the webhooks write
    rows of another provider. *)
Definition manual_owned (l : list subscription_row) : Prop :=
  forall r u, r ∈ l -> has_subscription "manual" (manualSubscriptionID u) r = true -> sr_UserID r = u.

(** A change of the subscriptions of one user, with its entry in the audit
    trail. *)
Record audited (d : AdminDB) (entry : audit_row) (d' : AdminDB) : Prop := {
  au_trail : audit d' = audit d ++ [entry];
  au_rest : exists l, accounts d' = accounts (set_account_subscriptions l d);
  au_others o : sr_UserID o <> ae_UserID entry -> (o ∈ admin_subscriptions d' <-> o ∈ admin_subscriptions d);
}.

(** What a call by [actor] leaves: the same accounts, or an audited change. *)
Definition accountable (actor : string) (d d' : AdminDB) : Prop :=
  manual_owned (admin_subscriptions d) ->
  manual_owned (admin_subscriptions d') /\
  (d' = d \/ exists entry, audited d entry d' /\ ae_Actor entry = actor).

Lemma accountable_same actor d : accountable actor d d.
Proof. split; [done|]. by left. Qed.

Lemma manualSubscriptionID_inj u v : manualSubscriptionID u = manualSubscriptionID v -> u = v.
Proof. unfold manualSubscriptionID. apply (inj (String.append "manual:")). Qed.

Section changes.
Context `{Unicode, AdminEncoding}.

Lemma upsertManualGrant_owned tx_now u now until d g d' :
  upsertManualGrant tx_now u now until d = Ok (g, d') ->
  exists l, d' = set_account_subscriptions l d /\
    (manual_owned (admin_subscriptions d) ->
     manual_owned l /\ forall o, sr_UserID o <> u -> (o ∈ l <-> o ∈ admin_subscriptions d)).
Proof.
  unfold upsertManualGrant. set (v := manual_values _ _ _ _). intros Hu.
  apply rbind_ok in Hu as ([l n] & Hl & Hu). destruct (List.find _ l) as [r|] eqn:Hf; [|done].
  apply rbind_ok in Hu as (g0 & Hg & Hu). inv_ok. exists l. split; [done|]. intros Hown.
  unfold upsert_where in Hl. destruct (negb _); [done|].
  destruct (List.filter _ _) as [|cur rest] eqn:Hfil.
  - apply rbind_ok in Hl as (l1 & Hi & [= <- <-]). unfold insert_row in Hi.
    destruct (_ && _); [|done]. injection Hi as <-. split.
    + intros r' u' Hin Hs. apply elem_of_app in Hin as [Hin|Hin]; [by apply Hown|].
      apply list_elem_of_singleton in Hin as ->. apply has_subscription_true in Hs as [_ Hs]. simpl in *.
      apply manualSubscriptionID_inj. congruence.
    + intros o Ho. rewrite elem_of_app, list_elem_of_singleton. split; [|by left]. by intros [?| ->].
  - simpl in Hl. destruct (_ && _); [|done]. injection Hl as <- <-.
    assert (In cur (List.filter (same_subscription v) (admin_subscriptions d))) as Hc by (rewrite Hfil; by left).
    apply List.filter_In in Hc as [Hcin Hcs]. 
    assert (forall o, same_subscription v o = has_subscription "manual" (manualSubscriptionID u) o) as Hsame
      by (intros o; by rewrite same_subscription_has).
    rewrite Hsame in Hcs.
    assert (sr_UserID cur = u) as Hcu by (apply Hown; [by apply list_elem_of_In|done]).
    split.
    + intros r' u' Hin Hs. apply list_elem_of_fmap in Hin as (q & -> & Hq). rewrite Hsame in *.
      destruct (has_subscription "manual" (manualSubscriptionID u) q) eqn:E; [|by apply Hown].
      apply has_subscription_true in Hcs as [_ Hcs], Hs as [_ Hs]. simpl in *. rewrite Hcu.
      apply manualSubscriptionID_inj. congruence.
    + intros o Ho. rewrite list_elem_of_fmap. split.
      * intros (q & -> & Hq). rewrite Hsame in *. by destruct (has_subscription _ _ q).
      * intros Hin. exists o. split; [|done]. rewrite Hsame. destruct (has_subscription _ _ o) eqn:E; [|done].
        by rewrite (Hown o u) in Ho.
Qed.

Lemma revoke_manual_owned u now d g d' :
  revoke_manual u now d = Ok (g, d') ->
  exists l, d' = set_account_subscriptions l d /\
    (manual_owned (admin_subscriptions d) -> manual_owned l) /\
    forall o, sr_UserID o <> u -> (o ∈ l <-> o ∈ admin_subscriptions d).
Proof.
  unfold revoke_manual. intros Hr. apply rbind_ok in Hr as (l & Hl & Hr).
  destruct (List.find _ l) as [row|]; [|done]. apply rbind_ok in Hr as (g' & _ & [= _ <-]).
  unfold update_where in Hl. destruct (forallb _ _); [|done]. injection Hl as <-. eexists. split_and!; [done|..].
  - intros Hown r' u' Hin Hs. apply list_elem_of_fmap in Hin as (q & -> & Hq).
    destruct (is_manual u q); [|by apply Hown]. simpl. by apply (Hown q).
  - intros o Ho. rewrite list_elem_of_fmap. split.
    + intros (q & -> & Hq). destruct (is_manual u q) eqn:E; [|done]. simpl in *. unfold is_manual in E. by bool_facts.
    + intros Hin. exists o. split; [|done]. destruct (is_manual u o) eqn:E; [|done]. unfold is_manual in E. by bool_facts.
Qed.

(** An audited statement sequence. *)
Lemma insertAudit_audited tx_now u actor action reason before after l d d' :
  insertAudit tx_now u actor action reason before after (set_account_subscriptions l d) = Ok d' ->
  admin_subscriptions d' = l /\
  ((forall o, sr_UserID o <> u -> (o ∈ l <-> o ∈ admin_subscriptions d)) ->
   exists entry, audited d entry d' /\ ae_Actor entry = actor).
Proof.
  unfold insertAudit. destruct (audit_checks _); [|done]. intros [= <-]. split; [done|]. intros Ho.
  eexists. split; [split|]; [done|by exists l|exact Ho|done].
Qed.

Lemma grant_tx_accountable c req d res d' :
  grant_tx c req d = Ok (res, d') -> accountable (gr_Actor req) d d'.
Proof.
  unfold grant_tx. intros Hg.
  apply rbind_ok in Hg as (? & _ & Hg). apply rbind_ok in Hg as (u & Hu & Hg).
  apply rbind_ok in Hg as (before & _ & Hg). apply rbind_ok in Hg as (manual & _ & Hg).
  destruct (activeManualGrant manual _); [inv_ok; apply accountable_same|]. simpl in Hg.
  destruct (gr_DryRun req); [inv_ok; apply accountable_same|].
  apply rbind_ok in Hg as ([g d1] & Hup%run_step_ok & Hg).
  apply rbind_ok in Hg as (after & _ & Hg).
  apply rbind_ok in Hg as (d2 & Haud%run_step_ok & Hg). inv_ok.
  apply upsertManualGrant_owned in Hup as (l & -> & Hl). apply insertAudit_audited in Haud as [Hs Ha].
  intros Hown. split; [rewrite Hs; by apply Hl|]. right. by apply Ha, Hl.
Qed.

Lemma revoke_tx_accountable c req d res d' :
  revoke_tx c req d = Ok (res, d') -> accountable (rr_Actor req) d d'.
Proof.
  unfold revoke_tx. intros Hg.
  apply rbind_ok in Hg as (? & _ & Hg). apply rbind_ok in Hg as (u & Hu & Hg).
  apply rbind_ok in Hg as (before & _ & Hg). apply rbind_ok in Hg as (manual & _ & Hg).
  destruct manual as [g|]; [|inv_ok; apply accountable_same].
  destruct (negb _); [inv_ok; apply accountable_same|]. apply rbind_ok in Hg as (without & _ & Hg).
  destruct (rr_DryRun req); [inv_ok; apply accountable_same|].
  apply rbind_ok in Hg as ([g' d1] & Hup%run_step_ok & Hg).
  apply rbind_ok in Hg as (after & _ & Hg).
  apply rbind_ok in Hg as (d2 & Haud%run_step_ok & Hg). inv_ok.
  apply revoke_manual_owned in Hup as (l & -> & Hl & Ho). apply insertAudit_audited in Haud as [Hs Ha].
  intros Hown. split; [rewrite Hs; by apply Hl|]. right. by apply Ha.
Qed.

Lemma commit_accountable {A} actor c d (r : result admin_error (A * AdminDB)) :
  (forall a d', r = Ok (a, d') -> accountable actor d d') -> accountable actor d (commit c d r).2.
Proof.
  intros Hr. unfold commit. destruct r as [[a d']|]; [|apply accountable_same].
  destruct (dc_outcome c DCommit); simpl; [by eapply Hr|apply accountable_same|by eapply Hr].
Qed.

Lemma GrantPro_accountable s c req d : accountable (TrimSpace (gr_Actor req)) d (GrantPro s c req d).2.
Proof.
  unfold GrantPro. destruct (validate_grant s req) as [req'|] eqn:Hv; [|apply accountable_same].
  assert (gr_Actor req' = TrimSpace (gr_Actor req)) as <- by (unfold validate_grant in Hv; by inv_ok).
  apply commit_accountable. intros a d'. apply grant_tx_accountable.
Qed.

Lemma RevokePro_accountable s c req d : accountable (TrimSpace (rr_Actor req)) d (RevokePro s c req d).2.
Proof.
  unfold RevokePro. destruct (validate_revoke s req) as [req'|] eqn:Hv; [|apply accountable_same].
  assert (rr_Actor req' = TrimSpace (rr_Actor req)) as <- by (unfold validate_revoke in Hv; by inv_ok).
  apply commit_accountable. intros a d'. apply revoke_tx_accountable.
Qed.
End changes.

(** * Requests *)

Section panel.
Context `{Unicode, AdminEncoding, EntitlementEncoding, Collation}.

Inductive panel_endpoint := PeSession | PeUsers | PeUser | PeGrant | PeRevoke | PeAudit.

Definition serve_panel (e : panel_endpoint) : panel_call -> HttpRequest -> PanelDB -> panel_response * PanelDB :=
  match e with
  | PeSession => serve_session
  | PeUsers => serve_users
  | PeUser => serve_user
  | PeGrant => serve_grant
  | PeRevoke => serve_revoke
  | PeAudit => serve_audit
  end.

(** An answer that says nothing about the accounts. *)
Definition refusal (resp : panel_response) : Prop :=
  (exists message, rs_Body resp = PanelError message) /\ rs_Status resp ∈ [400; 401; 403; 405; 500].

(** The subject of a user with an active entry in the table of administrators. *)
Definition is_admin (d : PanelDB) (subject : string) : Prop :=
  exists u a, users (accounts (panel_accounts d)) !! subject = Some u /\
    panel_admins d !! us_ID u = Some a /\ ad_Active a = true.

(** The identity of a request is that of an administrator. *)
Definition by_admin (r : HttpRequest) (d : PanelDB) : Prop :=
  exists who, hr_Identity r = Some who /\ is_admin d (TrimSpace (id_Subject who)).

Lemma active_admin_is d subject s : active_admin d subject = Some s -> is_admin d subject.
Proof.
  unfold active_admin. destruct (users _ !! subject) as [u|] eqn:Hu; [|done]. simpl.
  destruct (panel_admins d !! us_ID u) as [a|] eqn:Ha; [|done]. simpl. destruct (ad_Active a) eqn:E; [|done].
  intros _. by exists u, a.
Qed.

Definition guarded (r : HttpRequest) (d : PanelDB) (res : panel_response * PanelDB) : Prop :=
  by_admin r d \/ (res.2 = d /\ refusal res.1).

Lemma authorize_ok c who d s : authorize c who d = Ok s -> is_admin d (TrimSpace (id_Subject who)).
Proof.
  unfold authorize, AdminSession, panel_query, text_param. destruct (is_empty _); [done|].
  destruct (pc_outcome c PSession); [|done..]. destruct (sql_text _); [|done]. simpl.
  destruct (active_admin d _) as [s'|] eqn:Ha; [|done]. intros _. by eapply active_admin_is.
Qed.

Lemma authorize_refusal c who d e : authorize c who d = Err e -> refusal (writeServiceError e).
Proof.
  unfold authorize, AdminSession, panel_query. destruct (is_empty _); [intros [= <-]; split; [by eexists|set_solver]|].
  destruct (pc_outcome c PSession) as [|cause|cause].
  - destruct (text_param _) as [s|cause]; simpl; [|intros [= <-]; split; [by eexists|set_solver]].
    destruct (active_admin d _); [done|]. intros [= <-]. split; [by eexists|set_solver].
  - intros [= <-]. split; [by eexists|set_solver].
  - intros [= <-]. split; [by eexists|set_solver].
Qed.

(** What follows an authorisation is by an administrator. *)
Lemma authorized {A} c r who d (k : Session -> result panel_error A) :
  hr_Identity r = Some who ->
  by_admin r d \/ exists e, rbind (authorize c who d) k = Err e /\ refusal (writeServiceError e).
Proof.
  intros Hr. destruct (authorize c who d) as [s|e] eqn:Ha.
  - left. exists who. split; [done|]. by eapply authorize_ok.
  - right. exists e. split; [done|]. by eapply authorize_refusal.
Qed.

Lemma with_admin_guarded method r d k :
  (forall who, hr_Identity r = Some who -> guarded r d (k who)) -> guarded r d (with_admin_identity method r d k).
Proof.
  intros Hk. unfold with_admin_identity. destruct (negb _).
  { right. split; [done|]. split; [by eexists|set_solver]. }
  destruct (hr_Identity r) as [who|]; [by apply Hk|]. right. split; [done|]. split; [by eexists|set_solver].
Qed.

(** The handlers that only read. *)
Lemma read_guarded {A} c r who d (k : Session -> result panel_error A) body :
  hr_Identity r = Some who -> guarded r d (panel_answer body (rbind (authorize c who d) k), d).
Proof. intros Hr. destruct (authorized c r who d k Hr) as [?|(e & -> & Href)]; [by left|by right]. Qed.

Lemma bad_request_guarded message r d : guarded r d (bad_request message, d).
Proof. right. split; [done|]. split; [by eexists|set_solver]. Qed.

(** The handlers that change something: what [AccountAdmin] is asked is asked by
    an administrator. *)
Lemma panel_grant_authorized c r who userID n reason confirmation d :
  hr_Identity r = Some who ->
  by_admin r d \/ exists e, panel_grant c who userID n reason confirmation d = Err e /\ refusal (writeServiceError e).
Proof. intros Hr. unfold panel_grant. by apply authorized. Qed.

Lemma panel_revoke_authorized c r who userID reason confirmation d :
  hr_Identity r = Some who ->
  by_admin r d \/ exists e, panel_revoke c who userID reason confirmation d = Err e /\ refusal (writeServiceError e).
Proof. intros Hr. unfold panel_revoke. by apply authorized. Qed.

(** C12. Nobody but an active administrator sees or changes anything through the
    panel: whatever the request, its body, its parameters and the failures of the
    statements, it either bears the identity of a user with an active entry in the
    table of administrators, or it is answered with an error message and changes
    nothing. *)
Theorem panel_guarded e c r d resp d' :
  serve_panel e c r d = (resp, d') -> by_admin r d \/ (d' = d /\ refusal resp).
Proof.
  intros Hs. enough (guarded r d (serve_panel e c r d)) as Hg by by rewrite Hs in Hg.
  destruct e; apply with_admin_guarded; intros who Hr.
  - destruct (authorized c r who d (fun s => Ok s) Hr) as [?|(e & He & Href)]; [by left|right].
    assert (authorize c who d = Err e) as -> by (by destruct (authorize c who d)). by split.
  - destruct (queryLimit r 50); [by apply read_guarded|apply bad_request_guarded].
  - by apply read_guarded.
  - destruct (panel_decode _ _ _) as [b|message]; [|apply bad_request_guarded]. unfold PanelGrantPro.
    edestruct panel_grant_authorized as [?|(e & He & Href)]; [exact Hr|by left|right]. rewrite He. by split.
  - destruct (panel_decode _ _ _) as [b|message]; [|apply bad_request_guarded]. unfold PanelRevokePro.
    edestruct panel_revoke_authorized as [?|(e & He & Href)]; [exact Hr|by left|right]. rewrite He. by split.
  - destruct (queryLimit r 100); [by apply read_guarded|apply bad_request_guarded].
Qed.

(** * Accountability *)

Definition panel_subscriptions (d : PanelDB) : list subscription_row := admin_subscriptions (panel_accounts d).

(** Everything but the subscriptions and the trail is as it was, the trail has
    grown by entries of active administrators, and only subscriptions of users in
    these have changed. *)
Record accounted (d0 d : PanelDB) : Prop := {
  ac_admins : panel_admins d = panel_admins d0;
  ac_users : exists l, accounts (panel_accounts d) = accounts (set_account_subscriptions l (panel_accounts d0));
  ac_trail : exists entries, audit (panel_accounts d) = audit (panel_accounts d0) ++ entries /\
    Forall (fun entry => is_admin d0 (ae_Actor entry)) entries /\
    forall o, (o ∈ panel_subscriptions d <-> o ∈ panel_subscriptions d0) \/
      exists entry, entry ∈ entries /\ ae_UserID entry = sr_UserID o;
}.

Lemma accounted_refl d : accounted d d.
Proof.
  split; [done|by exists (panel_subscriptions d); destruct d as [? [[] ?]]|].
  exists []. rewrite app_nil_r. split_and!; [done|constructor|]. intros o. by left.
Qed.

Lemma accounted_admin d0 d subject : accounted d0 d -> is_admin d subject -> is_admin d0 subject.
Proof. intros [Ha (l & Hu) _]. unfold is_admin. by rewrite Ha, Hu. Qed.

Lemma accounted_step d0 d actor a :
  accounted d0 d -> is_admin d actor -> manual_owned (panel_subscriptions d) ->
  accountable actor (panel_accounts d) a ->
  accounted d0 (set_panel_accounts a d) /\ manual_owned (panel_subscriptions (set_panel_accounts a d)).
Proof.
  intros Hd Hactor%(accounted_admin d0 d) Hown Ha; [|done].
  destruct (Ha Hown) as [Hown' [-> |(entry & [Htrail (l & Hrest) Hothers] & Hae)]]; (split; [|exact Hown']).
  { by destruct d. }
  destruct Hd as [Hadm (l0 & Hu) (entries & Htr & Hall & Hsub)]. split; simpl; [done|..].
  - exists l. rewrite Hrest. unfold set_account_subscriptions. simpl. by rewrite Hu.
  - exists (entries ++ [entry]). split_and!; [by rewrite Htrail, Htr, app_assoc| |].
    + apply Forall_app. split; [done|]. apply Forall_singleton. by rewrite Hae.
    + intros o. destruct (decide (sr_UserID o = ae_UserID entry)) as [He|He].
      * right. exists entry. split; [apply elem_of_app; right; by left|done].
      * destruct (Hsub o) as [Ho|(entry' & Hin & He')]; [left|right].
        -- rewrite <- Ho. unfold panel_subscriptions. simpl. by apply Hothers.
        -- exists entry'. split; [apply elem_of_app; by left|done].
Qed.

(** What is asked of [AccountAdmin] is asked in the name of an administrator. *)
Lemma panel_grant_actor c who userID n reason confirmation d request :
  panel_grant c who userID n reason confirmation d = Ok request ->
  gr_Actor request = id_Subject who /\ is_admin d (TrimSpace (id_Subject who)).
Proof.
  unfold panel_grant. intros Hg. apply rbind_ok in Hg as (s & Hs%authorize_ok & Hg). inv_ok. by split.
Qed.

Lemma panel_revoke_actor c who userID reason confirmation d request :
  panel_revoke c who userID reason confirmation d = Ok request ->
  rr_Actor request = id_Subject who /\ is_admin d (TrimSpace (id_Subject who)).
Proof.
  unfold panel_revoke. intros Hg. apply rbind_ok in Hg as (s & Hs%authorize_ok & Hg). inv_ok. by split.
Qed.

Definition kept (d0 d d' : PanelDB) : Prop :=
  accounted d0 d -> manual_owned (panel_subscriptions d) -> accounted d0 d' /\ manual_owned (panel_subscriptions d').

Lemma with_admin_kept d0 method r d k :
  (forall who, kept d0 d (k who).2) -> kept d0 d (with_admin_identity method r d k).2.
Proof.
  intros Hk. unfold with_admin_identity. destruct (negb _); [by intros ? ?|].
  destruct (hr_Identity r) as [who|]; [by apply Hk|by intros ? ?].
Qed.

(** One request. *)
Lemma serve_panel_kept d0 e c r d : kept d0 d (serve_panel e c r d).2.
Proof.
  destruct e; apply with_admin_kept; intros who; try by intros ? ?.
  - destruct (panel_decode _ _ _) as [b|message]; [|by intros ? ?]. unfold PanelGrantPro.
    destruct (panel_grant _ _ _ _ _ _ _) as [request|] eqn:Hg; [|by intros ? ?].
    apply panel_grant_actor in Hg as [Ha Hadm]. intros Hd Hown. simpl.
    eapply accounted_step; [done|exact Hadm|done|]. rewrite <- Ha. apply GrantPro_accountable.
  - destruct (panel_decode _ _ _) as [b|message]; [|by intros ? ?]. unfold PanelRevokePro.
    destruct (panel_revoke _ _ _ _ _ _) as [request|] eqn:Hg; [|by intros ? ?].
    apply panel_revoke_actor in Hg as [Ha Hadm]. intros Hd Hown. simpl.
    eapply accounted_step; [done|exact Hadm|done|]. rewrite <- Ha. apply RevokePro_accountable.
Qed.

(** Requests one after the other. *)
Definition serve_panels (requests : list (panel_endpoint * panel_call * HttpRequest)) (d : PanelDB) : PanelDB :=
  foldl (fun d '(e, c, r) => (serve_panel e c r d).2) d requests.

(** C13. Every change through the panel is accounted for: after any sequence of
    requests, with any failures and lost acknowledgements, the administrators, the
    users and the entitlements are as they were, the audit trail has only grown,
    every new entry names an active administrator as its actor, and every user
    whose subscriptions differ has such an entry. *)
Theorem panel_changes_audited d requests :
  manual_owned (panel_subscriptions d) -> accounted d (serve_panels requests d).
Proof.
  intros Hown. enough (forall d1, accounted d d1 -> manual_owned (panel_subscriptions d1) ->
    accounted d (serve_panels requests d1)) as Hall by (apply Hall; [apply accounted_refl|done]).
  clear Hown. induction requests as [|[[e c] r] requests IH]; intros d1 Hd Hown; [done|].
  destruct (serve_panel_kept d e c r d1 Hd Hown) as [? ?]. by apply IH.
Qed.

(** * Searching *)

(** A pattern without wildcards and escapes matches itself only. *)
Definition plain_char (c : Z) : bool := negb ((c =? 37) || (c =? 95) || (c =? 92)).

Lemma like_plain q : forallb plain_char q = true ->
  forall rest s, like (q ++ rest) s = true <-> exists t, s = q ++ t /\ like rest t = true.
Proof.
  induction q as [|c q IH]; intros Hq rest s.
  { split; [intros Hl; by exists s|by intros (t & -> & Hl)]. }
  simpl in Hq. apply andb_true_iff in Hq as [Hc Hq]. unfold plain_char in Hc.
  apply negb_true_iff, orb_false_iff in Hc as [Hc Hc3]. apply orb_false_iff in Hc as [Hc1 Hc2].
  cbn [app like]. rewrite Hc1, Hc2, Hc3. destruct s as [|x s].
  { split; [done|]. by intros (t & ? & _). }
  rewrite andb_true_iff, Z.eqb_eq, (IH Hq). split.
  - intros [-> (t & -> & Hl)]. by exists t.
  - intros (t & [= -> ->] & Hl). eauto.
Qed.

Lemma like_any rest s : like (37 :: rest) s = true <-> exists a t, s = a ++ t /\ like rest t = true.
Proof.
  induction s as [|x s IH].
  - change (like (37 :: rest) []) with (like rest [] || false). rewrite orb_false_r. split; [intros Hl; by exists [], []|].
    intros (a & t & Ht & Hl). symmetry in Ht. apply app_nil in Ht as [_ ->]. done.
  - change (like (37 :: rest) (x :: s)) with (like rest (x :: s) || like (37 :: rest) s). rewrite orb_true_iff, IH. split.
    + intros [Hl|(a & t & -> & Hl)]; [by exists [], (x :: s)|by exists (x :: a), t].
    + intros (a & t & Ht & Hl). destruct a as [|y a]; simpl in Ht; [left; by subst|right]. injection Ht as <- ->. eauto.
Qed.

(** A search term without wildcards finds the texts that contain it. *)
Lemma like_contains q s : forallb plain_char q = true ->
  like (37 :: q ++ [37]) s = true <-> exists a b, s = a ++ q ++ b.
Proof.
  intros Hq. rewrite like_any. split.
  - intros (a & t & -> & Hl). apply (like_plain q Hq) in Hl as (b & -> & _). eauto.
  - intros (a & b & ->). exists a, (q ++ b). split; [done|]. apply (like_plain q Hq). exists b. split; [done|].
    apply like_any. exists b, []. by rewrite app_nil_r.
Qed.
End panel.

(** * Examples *)

Section witnesses.
#[local] Existing Instance plain_unicode.
#[local] Existing Instance sample_admin.
#[local] Existing Instance sample_entitlements.
#[local] Existing Instance c_collation.

Definition sample_boss : string := "0d1b2c3a-1111-4222-8333-444455556666".

(** The accounts of [AccountAdminSpec] with an administrator, and one who is no
    longer active. *)
Definition sample_panel : PanelDB :=
  {| panel_admins :=
       {[sample_boss := {| ad_ID := "a1"; ad_Active := true; ad_CreatedAt := 0; ad_DisabledAt := None |};
         "former" := {| ad_ID := "a2"; ad_Active := false; ad_CreatedAt := 0; ad_DisabledAt := Some second |}]};
     panel_accounts := set_accounts
       (set_users
          (<["auth0|boss" := {| us_ID := sample_boss; us_Email := Some "boss@example.com"; us_DisplayName := Some "Boss";
                                us_CreatedAt := 0; us_UpdatedAt := 0; us_LastLoginAt := Some second |}]>
          (<["auth0|former" := {| us_ID := "former"; us_Email := None; us_DisplayName := None;
                                us_CreatedAt := 0; us_UpdatedAt := 0; us_LastLoginAt := None |}]>
             (users sample_accounts))) sample_accounts) sample_admin_db |}.

Definition panel_quiet (now : time) : panel_call :=
  {| pc_now := fun _ => now; pc_outcome := fun _ => Done; pc_admin := admin_quiet now;
     pc_subscription_id := fun r => default EmptyString (sr_SubscriptionID r); pc_event_id := fun n => FormatInt (Z.of_nat n) |}.

Definition panel_request (method subject userId q body : string) : HttpRequest :=
  {| hr_Method := method; hr_TLS := true; hr_Header := fun _ => EmptyString;
     hr_Query := fun name => if bool_decide (name = "q") then q else EmptyString;
     hr_PathValue := fun _ => userId;
     hr_Body := {| st_bytes := quoted body; st_end := AtEOF |};
     hr_Identity := Some {| id_Subject := subject; id_Email := EmptyString; id_DisplayName := EmptyString |};
     hr_CorrelationID := EmptyString |}.

Definition grant_body : string := "{'durationDays':30,'reason':' refund agreed ','confirmation':'GRANT PRO'}".

Definition panel_status (e : panel_endpoint) (r : HttpRequest) : Z :=
  rs_Status (serve_panel e (panel_quiet (1200 * second)) r sample_panel).1.

(** An administrator, one who is no longer active, a buyer, a body with a field too
    many, no confirmation, an identifier that is no uuid, and a user that is not
    there. *)
Example panel_statuses :
  map (panel_status PeGrant)
    [panel_request "POST" "auth0|boss" sample_user EmptyString grant_body;
     panel_request "POST" "auth0|former" sample_user EmptyString grant_body;
     panel_request "POST" "auth0|buyer" sample_user EmptyString grant_body;
     panel_request "POST" "auth0|boss" sample_user EmptyString "{'durationDays':30,'dryRun':true}";
     panel_request "POST" "auth0|boss" sample_user EmptyString "{'durationDays':30,'reason':'refund'}";
     panel_request "POST" "auth0|boss" "42" EmptyString grant_body;
     panel_request "POST" "auth0|boss" "00000000-0000-4000-8000-000000000000" EmptyString grant_body]
  = [200; 403; 403; 400; 400; 400; 404].
Proof. vm_compute. reflexivity. Qed.

Definition found (q : string) : list string :=
  match rs_Body (serve_panel PeUsers (panel_quiet (1200 * second))
                   (panel_request "GET" "auth0|boss" EmptyString q EmptyString) sample_panel).1 with
  | PanelUsers l => map (fun s => au_AuthSubject (sm_User s)) l
  | _ => []
  end.

(** A term is searched for in all the texts of a user; its underscores are
    wildcards: [b_ss] finds the user [boss]. *)
Example searches :
  map found ["former"; "example.com"; "b_ss"; "b%r"; EmptyString]
  = [["auth0|former"]; ["auth0|boss"]; ["auth0|boss"]; ["auth0|buyer"];
     ["auth0|boss"; "auth0|buyer"; "auth0|former"]].
Proof. vm_compute. reflexivity. Qed.

Definition sample_panel_requests : list (panel_endpoint * panel_call * HttpRequest) :=
  [(PeGrant, panel_quiet (1200 * second), panel_request "POST" "auth0|buyer" sample_user EmptyString grant_body);
   (PeGrant, panel_quiet (1200 * second), panel_request "POST" "auth0|boss" sample_user EmptyString grant_body)].

Lemma sample_panel_owned : manual_owned (panel_subscriptions sample_panel).
Proof.
  assert (forallb (fun r => negb (bool_decide (sr_Provider r = "manual"))) (panel_subscriptions sample_panel) = true)
    as Hall by (vm_compute; reflexivity).
  rewrite forallb_forall in Hall. intros r u Hr Hs. apply list_elem_of_In in Hr. specialize (Hall r Hr).
  apply has_subscription_true in Hs as [Hs _]. by rewrite bool_decide_eq_true_2 in Hall.
Qed.

Lemma panel_changes_audited_witness :
  let d := serve_panels sample_panel_requests sample_panel in
  map ae_Actor (audit (panel_accounts d)) = ["auth0|boss"] /\ accounted sample_panel d.
Proof.
  split; [vm_compute; reflexivity|]. exact (panel_changes_audited sample_panel sample_panel_requests sample_panel_owned).
Defined.

Lemma panel_guarded_witness :
  exists resp d',
    serve_panel PeGrant (panel_quiet (1200 * second)) (panel_request "POST" "auth0|buyer" sample_user EmptyString grant_body)
      sample_panel = (resp, d') /\ d' = sample_panel /\ refusal resp.
Proof.
  destruct (serve_panel PeGrant (panel_quiet (1200 * second))
    (panel_request "POST" "auth0|buyer" sample_user EmptyString grant_body) sample_panel) as [resp d'] eqn:E.
  exists resp, d'. split; [reflexivity|].
  destruct (panel_guarded _ _ _ _ _ _ E) as [(who & Hw & u & a & Hu & Ha & _)|Hr]; [|exact Hr].
  injection Hw as <-. vm_compute in Hu. injection Hu as <-. vm_compute in Ha. discriminate Ha.
Defined.
End witnesses.
