(* ===== verification/PlayerProfile.v ===== *)
(** Player profiles: [internal/playerprofile] ([service.go], [repository.go],
    [repository_write.go] and [handler.go]), with the tables of
    [migrations/0013_albion_player_profiles.sql] and
    [0014_albion_player_event_equipment.sql]. *)
From S2P Require Import Prelude GoLists GoBase Float64 Webhook BillingDB Utf8 Json Billing Accounts Http EconomicProfile.
Local Open Scope Z_scope.

(** * Types *)

Definition PlayerServer := string.

Record SearchResult := {
  sr_Server : PlayerServer;
  sr_PlayerID : string;
  sr_PlayerName : string;
  sr_GuildName : option string;
  sr_AllianceName : option string;
  sr_Avatar : option string;
  sr_AvatarRing : option string;
  sr_KillFame : Z;
  sr_DeathFame : Z;
  sr_FameRatio : float64;
}.

Record Player := {
  pl_Server : PlayerServer;
  pl_PlayerID : string;
  pl_PlayerName : string;
  pl_GuildID : option string;
  pl_GuildName : option string;
  pl_AllianceID : option string;
  pl_AllianceName : option string;
  pl_Avatar : option string;
  pl_AvatarRing : option string;
  pl_KillFame : Z;
  pl_DeathFame : Z;
  pl_FameRatio : float64;
}.

Record Equipment := {
  eq_MainHand : option string;
  eq_OffHand : option string;
  eq_Head : option string;
  eq_Armor : option string;
  eq_Shoes : option string;
  eq_Bag : option string;
  eq_Cape : option string;
  eq_Mount : option string;
  eq_Potion : option string;
  eq_Food : option string;
}.

Record Event := {
  ev_EventID : Z;
  ev_OccurredAt : time;
  ev_Result : string;
  ev_OpponentID : option string;
  ev_OpponentName : string;
  ev_OpponentGuild : option string;
  ev_KillFame : Z;
  ev_PlayerItemPower : float64;
  ev_OpponentItemPower : float64;
  ev_WeaponType : option string;
  ev_PlayerEquipment : Equipment;
  ev_OpponentEquipment : Equipment;
  ev_ParticipantCount : Z;
  ev_GroupMemberCount : Z;
}.

(** * Answers of the provider *)

(** A [rawEquipment]: the [Type] of each slot that is not [null]. *)
Record rawEquipment := { re_slots : list (option string) }.

Record rawPlayer := {
  rp_ID : string;
  rp_Name : string;
  rp_GuildID : string;
  rp_GuildName : string;
  rp_AllianceID : string;
  rp_AllianceName : string;
  rp_Avatar : string;
  rp_AvatarRing : string;
  rp_KillFame : Z;
  rp_DeathFame : Z;
  rp_FameRatio : float64;
  rp_AverageItemPower : float64;
  rp_Equipment : rawEquipment;
}.

Record rawEvent := {
  rv_EventID : Z;
  rv_TimeStamp : time;
  rv_Killer : rawPlayer;
  rv_Victim : rawPlayer;
  rv_TotalVictimKillFame : Z;
  rv_NumberOfParticipants : Z;
  rv_GroupMemberCount : Z;
}.

Definition slot_names : list string :=
  ["MainHand"; "OffHand"; "Head"; "Armor"; "Shoes"; "Bag"; "Cape"; "Mount"; "Potion"; "Food"].

Definition zero_equipment : rawEquipment := {| re_slots := map (fun _ => None) slot_names |}.
Definition zero_player : rawPlayer :=
  {| rp_ID := EmptyString; rp_Name := EmptyString; rp_GuildID := EmptyString; rp_GuildName := EmptyString;
     rp_AllianceID := EmptyString; rp_AllianceName := EmptyString; rp_Avatar := EmptyString;
     rp_AvatarRing := EmptyString; rp_KillFame := 0; rp_DeathFame := 0; rp_FameRatio := f_zero;
     rp_AverageItemPower := f_zero; rp_Equipment := zero_equipment |}.
Definition zero_event : rawEvent :=
  {| rv_EventID := 0; rv_TimeStamp := zero_time; rv_Killer := zero_player; rv_Victim := zero_player;
     rv_TotalVictimKillFame := 0; rv_NumberOfParticipants := 0; rv_GroupMemberCount := 0 |}.

#[local] Abbreviation RP := Build_rawPlayer.
#[local] Abbreviation RV := Build_rawEvent.

Section provider.
Context `{Unicode}.

(** A slot: [null], or an object whose [Type] is read. *)
Definition dec_slot (i : nat) : decoder rawEquipment :=
  field (fun e => default None (re_slots e !! i)) (fun x e => {| re_slots := <[i := x]> (re_slots e) |})
    (dec_pointer EmptyString (dec_known [("Type", dec_string)])).

Definition dec_rawEquipment : decoder rawEquipment := dec_known (imap (fun i name => (name, dec_slot i)) slot_names).

Definition dec_rawPlayer : decoder rawPlayer :=
  dec_known
    [("Id", field rp_ID (fun x '(RP _ n gi g ai a v r k d f p e) => RP x n gi g ai a v r k d f p e) dec_string);
     ("Name", field rp_Name (fun x '(RP i _ gi g ai a v r k d f p e) => RP i x gi g ai a v r k d f p e) dec_string);
     ("GuildId", field rp_GuildID (fun x '(RP i n _ g ai a v r k d f p e) => RP i n x g ai a v r k d f p e) dec_string);
     ("GuildName", field rp_GuildName (fun x '(RP i n gi _ ai a v r k d f p e) => RP i n gi x ai a v r k d f p e) dec_string);
     ("AllianceId", field rp_AllianceID (fun x '(RP i n gi g _ a v r k d f p e) => RP i n gi g x a v r k d f p e) dec_string);
     ("AllianceName", field rp_AllianceName (fun x '(RP i n gi g ai _ v r k d f p e) => RP i n gi g ai x v r k d f p e) dec_string);
     ("Avatar", field rp_Avatar (fun x '(RP i n gi g ai a _ r k d f p e) => RP i n gi g ai a x r k d f p e) dec_string);
     ("AvatarRing", field rp_AvatarRing (fun x '(RP i n gi g ai a v _ k d f p e) => RP i n gi g ai a v x k d f p e) dec_string);
     ("KillFame", field rp_KillFame (fun x '(RP i n gi g ai a v r _ d f p e) => RP i n gi g ai a v r x d f p e) dec_int64);
     ("DeathFame", field rp_DeathFame (fun x '(RP i n gi g ai a v r k _ f p e) => RP i n gi g ai a v r k x f p e) dec_int64);
     ("FameRatio", field rp_FameRatio (fun x '(RP i n gi g ai a v r k d _ p e) => RP i n gi g ai a v r k d x p e) dec_float64);
     ("AverageItemPower", field rp_AverageItemPower
        (fun x '(RP i n gi g ai a v r k d f _ e) => RP i n gi g ai a v r k d f x e) dec_float64);
     ("Equipment", field rp_Equipment (fun x '(RP i n gi g ai a v r k d f p _) => RP i n gi g ai a v r k d f p x)
        dec_rawEquipment)].

Definition dec_rawEvent : decoder rawEvent :=
  dec_known
    [("EventId", field rv_EventID (fun x '(RV _ t k v f p g) => RV x t k v f p g) dec_int64);
     ("TimeStamp", field rv_TimeStamp (fun x '(RV i _ k v f p g) => RV i x k v f p g) dec_time);
     ("Killer", field rv_Killer (fun x '(RV i t _ v f p g) => RV i t x v f p g) dec_rawPlayer);
     ("Victim", field rv_Victim (fun x '(RV i t k _ f p g) => RV i t k x f p g) dec_rawPlayer);
     ("TotalVictimKillFame", field rv_TotalVictimKillFame (fun x '(RV i t k v _ p g) => RV i t k v x p g) dec_int64);
     ("numberOfParticipants", field rv_NumberOfParticipants (fun x '(RV i t k v f _ g) => RV i t k v f x g) dec_int64);
     ("groupMemberCount", field rv_GroupMemberCount (fun x '(RV i t k v f p _) => RV i t k v f p x) dec_int64)].

(** The answer to a search: its [players]. *)
Definition dec_search : decoder (list rawPlayer) := dec_known [("players", dec_slice zero_player dec_rawPlayer)].

(** * Normalisation *)

Definition optionalString (value : string) : option string :=
  let value := TrimSpace value in if is_empty value then None else Some value.

Definition equipmentItemType (item : option string) : option string := item ≫= optionalString.

Definition normalizeEquipment (raw : rawEquipment) : Equipment :=
  let slot i := equipmentItemType (default None (re_slots raw !! i)) in
  {| eq_MainHand := slot 0%nat; eq_OffHand := slot 1%nat; eq_Head := slot 2%nat; eq_Armor := slot 3%nat;
     eq_Shoes := slot 4%nat; eq_Bag := slot 5%nat; eq_Cape := slot 6%nat; eq_Mount := slot 7%nat;
     eq_Potion := slot 8%nat; eq_Food := slot 9%nat |}.

Definition normalizeEvent (result : string) (playerIsKiller : bool) (raw : rawEvent) : Event :=
  let player := if playerIsKiller then rv_Killer raw else rv_Victim raw in
  let opponent := if playerIsKiller then rv_Victim raw else rv_Killer raw in
  let playerEquipment := normalizeEquipment (rp_Equipment player) in
  {| ev_EventID := rv_EventID raw; ev_OccurredAt := rv_TimeStamp raw; ev_Result := result;
     ev_OpponentID := optionalString (rp_ID opponent); ev_OpponentName := TrimSpace (rp_Name opponent);
     ev_OpponentGuild := optionalString (rp_GuildName opponent); ev_KillFame := rv_TotalVictimKillFame raw;
     ev_PlayerItemPower := rp_AverageItemPower player; ev_OpponentItemPower := rp_AverageItemPower opponent;
     ev_WeaponType := eq_MainHand playerEquipment; ev_PlayerEquipment := playerEquipment;
     ev_OpponentEquipment := normalizeEquipment (rp_Equipment opponent);
     ev_ParticipantCount := rv_NumberOfParticipants raw; ev_GroupMemberCount := rv_GroupMemberCount raw |}.

(** * Requests *)

Definition serverBaseURLs : list (PlayerServer * string) :=
  [("americas", "https://gameinfo.albiononline.com/api/gameinfo");
   ("europe", "https://gameinfo-ams.albiononline.com/api/gameinfo");
   ("asia", "https://gameinfo-sgp.albiononline.com/api/gameinfo")].

Definition NormalizeServer (value : string) : option PlayerServer :=
  let server := ToLower (TrimSpace value) in
  if bool_decide (server ∈ map fst serverBaseURLs) then Some server else None.

Definition hex_digit (n : Z) : ascii := if n <? 10 then byte (48 + n) else byte (55 + n).

(** [url.PathEscape] and [url.QueryEscape]. *)
Definition url_unreserved (c : ascii) : bool :=
  in_range 97 122 c || in_range 65 90 c || in_range 48 57 c || bool_decide (c ∈ bytes_of "-_.~").

Fixpoint url_escape (keep : ascii -> bool) (plus : bool) (s : string) : string :=
  match s with
  | EmptyString => EmptyString
  | String c s' =>
      let rest := url_escape keep plus s' in
      if url_unreserved c || keep c then String c rest
      else if plus && bool_decide (c = " "%char) then String "+" rest
      else String "%" (String (hex_digit (byte_val c / 16)) (String (hex_digit (byte_val c mod 16)) rest))
  end.

Definition PathEscape : string -> string := url_escape (fun c => bool_decide (c ∈ bytes_of "$&+=:@")) false.
Definition QueryEscape : string -> string := url_escape (fun _ => false) true.

(** Why the provider fails. *)
Inductive provider_error :=
  | BadPlayerName
  | BadPlayerID
  | BadEventLimit
  | RequestFailed
  | IncompletePlayer.

(** What the provider answers to a [GET] of an address: a status and a body, or
    nothing. *)
Definition web := string -> option (Z * stream).

Definition maxProviderResponseBytes : Z := Z.shiftl 8 20.

(** [getJSON]: the first value of the body. *)
Definition getJSON {A} (net : web) (d : decoder A) (zero : A) (server : PlayerServer) (path : string)
    : result provider_error A :=
  let answer :=
    base ← snd <$> List.find (fun e => bool_decide (e.1 = server)) serverBaseURLs;
    '(status, body) ← net (base +:+ path);
    if negb (status =? StatusOK) then None else
    match next_value (LimitReader maxProviderResponseBytes body) with
    | Ok ((v, raw), _) => d zero v raw
    | Err _ => None
    end in
  of_option RequestFailed answer.

Definition bad_player_id (playerID : string) : bool :=
  is_empty playerID || (128 <? str_len playerID) || ContainsAny playerID (of_bytes [byte 47; byte 92; byte 13; byte 10]).

(** The loop that keeps the complete players of a search. *)
Definition search_result (server : PlayerServer) (player : rawPlayer) : option SearchResult :=
  if is_empty (TrimSpace (rp_ID player)) || is_empty (TrimSpace (rp_Name player)) then None else
  Some {| sr_Server := server; sr_PlayerID := TrimSpace (rp_ID player); sr_PlayerName := TrimSpace (rp_Name player);
          sr_GuildName := optionalString (rp_GuildName player); sr_AllianceName := optionalString (rp_AllianceName player);
          sr_Avatar := optionalString (rp_Avatar player); sr_AvatarRing := optionalString (rp_AvatarRing player);
          sr_KillFame := rp_KillFame player; sr_DeathFame := rp_DeathFame player; sr_FameRatio := rp_FameRatio player |}.

(** Names equal to the query first, then by fame. *)
Definition search_less (query : string) (a b : SearchResult) : bool :=
  let aExact := EqualFold (sr_PlayerName a) query in
  let bExact := EqualFold (sr_PlayerName b) query in
  if negb (Bool.eqb aExact bExact) then aExact else sr_KillFame b <? sr_KillFame a.

Definition provider_Search (net : web) (server : PlayerServer) (query : string)
    : result provider_error (list SearchResult) :=
  let query := TrimSpace query in
  fail_if (str_len query <? 3) || (32 <? str_len query) || ContainsAny query (of_bytes [byte 13; byte 10])
    with BadPlayerName else
  let! players := getJSON net dec_search [] server ("/search?q=" +:+ QueryEscape query) in
  Ok (take 20 (slice_stable (search_less query) (omap (search_result server) players))).

Definition provider_Player (net : web) (server : PlayerServer) (playerID : string) : result provider_error Player :=
  let playerID := TrimSpace playerID in
  fail_if bad_player_id playerID with BadPlayerID else
  let! raw := getJSON net dec_rawPlayer zero_player server ("/players/" +:+ PathEscape playerID) in
  fail_if is_empty (TrimSpace (rp_ID raw)) || is_empty (TrimSpace (rp_Name raw)) with IncompletePlayer else
  Ok {| pl_Server := server; pl_PlayerID := TrimSpace (rp_ID raw); pl_PlayerName := TrimSpace (rp_Name raw);
        pl_GuildID := optionalString (rp_GuildID raw); pl_GuildName := optionalString (rp_GuildName raw);
        pl_AllianceID := optionalString (rp_AllianceID raw); pl_AllianceName := optionalString (rp_AllianceName raw);
        pl_Avatar := optionalString (rp_Avatar raw); pl_AvatarRing := optionalString (rp_AvatarRing raw);
        pl_KillFame := rp_KillFame raw; pl_DeathFame := rp_DeathFame raw; pl_FameRatio := rp_FameRatio raw |}.

Definition later (a b : Event) : bool := ev_OccurredAt b <? ev_OccurredAt a.

Definition events_path (playerID kind : string) (limit : Z) : string :=
  "/players/" +:+ PathEscape playerID +:+ "/" +:+ kind +:+ "?limit=" +:+ FormatInt limit +:+ "&offset=0".

Definition provider_Events (net : web) (server : PlayerServer) (playerID : string) (limit : Z)
    : result provider_error (list Event) :=
  fail_if (limit <? 1) || (100 <? limit) with BadEventLimit else
  let playerID := TrimSpace playerID in
  fail_if bad_player_id playerID with BadPlayerID else
  let! kills := getJSON net (dec_slice zero_event dec_rawEvent) [] server (events_path playerID "kills" limit) in
  let! deaths := getJSON net (dec_slice zero_event dec_rawEvent) [] server (events_path playerID "deaths" limit) in
  let events := map (normalizeEvent "kill" true) kills ++ map (normalizeEvent "death" false) deaths in
  Ok (take (Z.to_nat limit) (slice_stable later events)).
End provider.

(** ** Player profiles: [internal/playerprofile] ([service.go], [repository.go], [repository_write.go] and [handler.go]), with the tables of [migrations/0013_albion_player_profiles.sql] and [0014_albion_player_event_equipment.sql]. *)

(** * Tables *)

(** [albion_player_profiles], by user. *)
Record player_row := {
  pw_ID : string;
  pw_Player : Player;
  pw_VerificationStatus : string;
  pw_LinkedAt : time;
  pw_LastRefreshedAt : option time;
  pw_LastRefreshAttempt : option time;
  pw_LastRefreshStatus : string;
  pw_LastRefreshError : option string;
}.

(** [albion_player_events] are kept in the order of their insertion, with the
    profile they belong to. *)
Record PlayerDB := {
  py_accounts : AccountsDB;
  py_profiles : gmap string player_row;
  py_events : list (string * Event);
}.

Definition set_player_accounts (a : AccountsDB) (d : PlayerDB) : PlayerDB :=
  {| py_accounts := a; py_profiles := py_profiles d; py_events := py_events d |}.

(** The columns of a profile are the fields of the answer. *)
Record Snapshot := { sn_Profile : player_row; sn_Events : list Event }.

Record Summary := {
  su_RecentKills : Z;
  su_RecentDeaths : Z;
  su_RecentFightCount : Z;
  su_KDRatio : option float64;
  su_KillFame : Z;
  su_DeathFame : Z;
  su_FameRatio : float64;
}.

Record CurrentResponse := { cr_Profile : player_row; cr_Summary : Summary; cr_Events : list Event }.

Record LinkRequest := { lr_Server : string; lr_PlayerID : string }.

(** * Errors and the environment *)

Inductive player_step :=
  | YGet | YEvents | YBegin | YUpsert | YClear | YInsert (i : nat) | YCommit | YGetAgain | YEventsAgain
  | YDelete | YMark.

Inductive player_error :=
  | PlayerInvalid (why : string)
  | PlayerUnavailable (e : provider_error)
  | PlayerNotLinked
  | PlayerAccount (e : account_error)
  | PlayerFetch (e : provider_error)
  | PlayerStatement (st : player_step) (cause : db_failure)
  | PlayerCooldown (retryAfter : duration).

(** A request meets: the clock of the service, once and once more, the [now()] of
    the transaction, the identifier of a new profile, the provider, the text of
    its error, and the fate of each statement. *)
Record player_call := {
  yc_account : account_call;
  yc_now : time;
  yc_later : time;
  yc_tx_now : time;
  yc_new_id : string;
  yc_net : web;
  yc_message : string;
  yc_outcome : player_step -> outcome;
}.

Definition player_stmt {A} (c : player_call) (st : player_step) (r : result db_failure A)
    : result player_error A :=
  match yc_outcome c st with
  | Done => rmap_err (PlayerStatement st) r
  | Refused cause | AckLost cause => Err (PlayerStatement st (outage_failure cause))
  end.

(** * The repository *)

Definition recent_event (a b : Event) : bool :=
  then_less (fun a b => ev_OccurredAt b <? ev_OccurredAt a) (fun a b => ev_EventID b <? ev_EventID a) a b.

Definition events_of (profileID : string) (d : PlayerDB) : list Event :=
  map snd (List.filter (fun e => bool_decide (e.1 = profileID)) (py_events d)).

(** [Get], by its two statements. *)
Definition repo_Get (get events : player_step) (c : player_call) (userID : string) (d : PlayerDB)
    : result player_error Snapshot :=
  let! found := player_stmt c get (Ok (py_profiles d !! userID)) in
  let! profile := of_option PlayerNotLinked found in
  let! rows := player_stmt c events (Ok (take 100 (slice_stable recent_event (events_of (pw_ID profile) d)))) in
  Ok {| sn_Profile := profile; sn_Events := rows |}.

Definition optional_text (s : option string) : bool := null_or sql_text s.

(** The parameters and the [check] constraints of a profile. *)
Definition player_texts (p : Player) : bool :=
  sql_text (pl_Server p) && sql_text (pl_PlayerID p) && sql_text (pl_PlayerName p)
  && forallb optional_text [pl_GuildID p; pl_GuildName p; pl_AllianceID p; pl_AllianceName p; pl_Avatar p; pl_AvatarRing p].

Definition player_checks (p : Player) : bool :=
  bool_decide (pl_Server p ∈ ["americas"; "europe"; "asia"])
  && length_between 1 128 (pl_PlayerID p) && length_between 1 64 (pl_PlayerName p).

(** The row of the upsert. *)
Definition upsert_player (c : player_call) (userID : string) (p : Player) (refreshedAt : time) (d : PlayerDB)
    : result db_failure player_row :=
  if negb (player_texts p) then Err OtherFailure
  else if negb (player_checks p) then Err ConstraintViolation
  else
    let old := py_profiles d !! userID in
    Ok {| pw_ID := match old with Some r => pw_ID r | None => yc_new_id c end;
          pw_Player := p; pw_VerificationStatus := "unverified";
          pw_LinkedAt := match old with Some r => pw_LinkedAt r | None => yc_tx_now c end;
          pw_LastRefreshedAt := Some (pg_time refreshedAt); pw_LastRefreshAttempt := Some (pg_time refreshedAt);
          pw_LastRefreshStatus := "ok"; pw_LastRefreshError := None |}.

Definition equipment_items (e : Equipment) : list (option string) :=
  [eq_MainHand e; eq_OffHand e; eq_Head e; eq_Armor e; eq_Shoes e; eq_Bag e; eq_Cape e; eq_Mount e; eq_Potion e;
   eq_Food e].

(** An equipment through [json.Marshal], [jsonb] and [json.Unmarshal]. *)
Definition jsonb_equipment (e : Equipment) : option Equipment :=
  if forallb (null_or no_nul) (equipment_items e) then
    let c := fmap coerce_utf8 in
    Some {| eq_MainHand := c (eq_MainHand e); eq_OffHand := c (eq_OffHand e); eq_Head := c (eq_Head e);
            eq_Armor := c (eq_Armor e); eq_Shoes := c (eq_Shoes e); eq_Bag := c (eq_Bag e); eq_Cape := c (eq_Cape e);
            eq_Mount := c (eq_Mount e); eq_Potion := c (eq_Potion e); eq_Food := c (eq_Food e) |}
  else None.

Definition in_int4 (n : Z) : bool := (- 2 ^ 31 <=? n) && (n <? 2 ^ 31).

(** The row of an event. *)
Definition stored_event (e : Event) : result db_failure Event :=
  let! player := of_option OtherFailure (jsonb_equipment (ev_PlayerEquipment e)) in
  let! opponent := of_option OtherFailure (jsonb_equipment (ev_OpponentEquipment e)) in
  if negb (sql_text (ev_OpponentName e) && sql_text (ev_Result e)
           && forallb optional_text [ev_OpponentID e; ev_OpponentGuild e; ev_WeaponType e]
           && in_int4 (ev_ParticipantCount e) && in_int4 (ev_GroupMemberCount e)) then Err OtherFailure
  else if negb (bool_decide (ev_Result e ∈ ["kill"; "death"]) && (0 <=? ev_ParticipantCount e) && (0 <=? ev_GroupMemberCount e))
  then Err ConstraintViolation
  else Ok {| ev_EventID := ev_EventID e; ev_OccurredAt := pg_time (ev_OccurredAt e); ev_Result := ev_Result e;
             ev_OpponentID := ev_OpponentID e; ev_OpponentName := ev_OpponentName e;
             ev_OpponentGuild := ev_OpponentGuild e; ev_KillFame := ev_KillFame e;
             ev_PlayerItemPower := ev_PlayerItemPower e; ev_OpponentItemPower := ev_OpponentItemPower e;
             ev_WeaponType := ev_WeaponType e; ev_PlayerEquipment := player; ev_OpponentEquipment := opponent;
             ev_ParticipantCount := ev_ParticipantCount e; ev_GroupMemberCount := ev_GroupMemberCount e |}.

Definition same_event (profileID : string) (e : Event) (row : string * Event) : bool :=
  bool_decide (row.1 = profileID) && (ev_EventID row.2 =? ev_EventID e) && bool_decide (ev_Result row.2 = ev_Result e).

(** The loop of inserts; an event that is there already is skipped. *)
Fixpoint insert_events (c : player_call) (i : nat) (profileID : string) (events : list Event) (l : list (string * Event))
    : result player_error (list (string * Event)) :=
  match events with
  | [] => Ok l
  | e :: events' =>
      let! row := player_stmt c (YInsert i) (stored_event e) in
      insert_events c (S i) profileID events' (if existsb (same_event profileID row) l then l else l ++ [(profileID, row)])
  end.

Definition save_tx (c : player_call) (userID : string) (p : Player) (events : list Event) (refreshedAt : time)
    (d : PlayerDB) : result player_error PlayerDB :=
  let! _ := player_stmt c YBegin (Ok tt) in
  let! row := player_stmt c YUpsert (upsert_player c userID p refreshedAt d) in
  let! kept := player_stmt c YClear
    (Ok (List.filter (fun e => negb (bool_decide (e.1 = pw_ID row))) (py_events d))) in
  let! l := insert_events c 0 (pw_ID row) events kept in
  Ok {| py_accounts := py_accounts d; py_profiles := <[userID := row]> (py_profiles d); py_events := l |}.

Definition repo_Save (c : player_call) (userID : string) (p : Player) (events : list Event) (refreshedAt : time)
    (d : PlayerDB) : result player_error Snapshot * PlayerDB :=
  match save_tx c userID p events refreshedAt d with
  | Err e => (Err e, d)
  | Ok d' =>
      match yc_outcome c YCommit with
      | Done => (repo_Get YGetAgain YEventsAgain c userID d', d')
      | Refused cause => (Err (PlayerStatement YCommit (outage_failure cause)), d)
      | AckLost cause => (Err (PlayerStatement YCommit (outage_failure cause)), d')
      end
  end.

(** One statement that changes the table, with the rows it affects. *)
Definition player_exec (c : player_call) (st : player_step) (r : result db_failure (Z * PlayerDB)) (d : PlayerDB)
    : result player_error unit * PlayerDB :=
  match yc_outcome c st, r with
  | Refused cause, _ => (Err (PlayerStatement st (outage_failure cause)), d)
  | _, Err e => (Err (PlayerStatement st e), d)
  | AckLost cause, Ok (_, d') => (Err (PlayerStatement st (outage_failure cause)), d')
  | Done, Ok (n, d') => (if n =? 0 then Err PlayerNotLinked else Ok tt, d')
  end.

(** The events of a deleted profile go with it. *)
Definition repo_Delete (c : player_call) (userID : string) (d : PlayerDB) : result player_error unit * PlayerDB :=
  player_exec c YDelete
    (Ok match py_profiles d !! userID with
        | None => (0, d)
        | Some row =>
            (1, {| py_accounts := py_accounts d; py_profiles := delete userID (py_profiles d);
                   py_events := List.filter (fun e => negb (bool_decide (e.1 = pw_ID row))) (py_events d) |})
        end) d.

Definition failed_row (attemptedAt : time) (message : string) (r : player_row) : player_row :=
  {| pw_ID := pw_ID r; pw_Player := pw_Player r; pw_VerificationStatus := pw_VerificationStatus r;
     pw_LinkedAt := pw_LinkedAt r; pw_LastRefreshedAt := pw_LastRefreshedAt r;
     pw_LastRefreshAttempt := Some (pg_time attemptedAt); pw_LastRefreshStatus := "error";
     pw_LastRefreshError := Some message |}.

(** The message is cut at 500 bytes. *)
Definition MarkRefreshFailure (c : player_call) (userID : string) (attemptedAt : time) (message : string) (d : PlayerDB)
    : result player_error unit * PlayerDB :=
  let message := if 500 <? str_len message then String.substring 0 500 message else message in
  player_exec c YMark
    (if sql_text message then
       Ok match py_profiles d !! userID with
          | None => (0, d)
          | Some row =>
              (1, {| py_accounts := py_accounts d;
                     py_profiles := <[userID := failed_row attemptedAt message row]> (py_profiles d);
                     py_events := py_events d |})
          end
     else Err OtherFailure) d.

(** * The service *)

Record PlayerService := { ps_cooldown : duration; ps_eventLimit : Z }.

Definition NewPlayerService (cooldown : duration) (eventLimit : Z) : option PlayerService :=
  if (cooldown <=? 0) || (eventLimit <? 1) || (100 <? eventLimit) then None
  else Some {| ps_cooldown := cooldown; ps_eventLimit := eventLimit |}.

Section service.
Context `{Unicode} `{EntitlementEncoding}.
Variable s : PlayerService.

Definition PlayerSearch (c : player_call) (serverValue name : string) : result player_error (list SearchResult) :=
  let! server := of_option (PlayerInvalid "server must be americas, europe or asia") (NormalizeServer serverValue) in
  rmap_err PlayerUnavailable (provider_Search (yc_net c) server name).

(** [userID]: the account is synchronised, whatever follows. *)
Definition with_user {A} (c : player_call) (who : Identity) (d : PlayerDB)
    (k : string -> PlayerDB -> result player_error A * PlayerDB) : result player_error A * PlayerDB :=
  match Accounts.Current (yc_account c) who (py_accounts d) with
  | (Err e, a) => (Err (PlayerAccount e), set_player_accounts a d)
  | (Ok access, a) => k (u_ID (a_User access)) (set_player_accounts a d)
  end.

Definition fetchSnapshot (c : player_call) (server : PlayerServer) (playerID : string)
    : result provider_error (Player * list Event) :=
  let! player := provider_Player (yc_net c) server playerID in
  let! events := provider_Events (yc_net c) server playerID (ps_eventLimit s) in
  Ok (player, events).

Definition refreshWindowElapsed (r : player_row) (now : time) : bool :=
  match pw_LastRefreshAttempt r with
  | None => true
  | Some t => negb (now <? t + ps_cooldown s)
  end.

Definition equipmentSlotCount (e : Equipment) : Z :=
  Z.of_nat (length (List.filter (fun item => match item with Some v => negb (is_empty (TrimSpace v)) | None => false end)
                      (equipment_items e))).

(** The loop over the events; [legacy] is the signal so far. *)
Fixpoint needs_refresh (legacy : bool) (events : list Event) : bool :=
  match events with
  | [] => legacy
  | e :: events' =>
      let playerSlots := equipmentSlotCount (ev_PlayerEquipment e) in
      let opponentSlots := equipmentSlotCount (ev_OpponentEquipment e) in
      if (1 <? playerSlots) || (0 <? opponentSlots) then false
      else needs_refresh (legacy || (playerSlots =? 1) || bool_decide (is_Some (ev_WeaponType e))) events'
  end.

Definition snapshotNeedsEquipmentRefresh (sn : Snapshot) : bool := needs_refresh false (sn_Events sn).

Definition count_result (result : string) (events : list Event) : Z :=
  Z.of_nat (length (List.filter (fun e => bool_decide (ev_Result e = result)) events)).

Definition responseFromSnapshot (sn : Snapshot) : CurrentResponse :=
  let p := pw_Player (sn_Profile sn) in
  let kills := count_result "kill" (sn_Events sn) in
  let deaths := count_result "death" (sn_Events sn) in
  {| cr_Profile := sn_Profile sn;
     cr_Summary :=
       {| su_RecentKills := kills; su_RecentDeaths := deaths;
          su_RecentFightCount := Z.of_nat (length (sn_Events sn));
          su_KDRatio := if 0 <? deaths then Some (f_div (of_Z kills) (of_Z deaths))
                        else if 0 <? kills then Some (of_Z kills) else None;
          su_KillFame := pl_KillFame p; su_DeathFame := pl_DeathFame p; su_FameRatio := pl_FameRatio p |};
     cr_Events := sn_Events sn |}.

(** The reading of a profile fetches it once more when it was stored without
    equipment. *)
Definition PlayerCurrent (c : player_call) (who : Identity) (d : PlayerDB)
    : result player_error CurrentResponse * PlayerDB :=
  with_user c who d (fun user d =>
    match repo_Get YGet YEvents c user d with
    | Err e => (Err e, d)
    | Ok snapshot =>
        let keep := (Ok (responseFromSnapshot snapshot), d) in
        if snapshotNeedsEquipmentRefresh snapshot && refreshWindowElapsed (sn_Profile snapshot) (yc_now c) then
          let p := pw_Player (sn_Profile snapshot) in
          match fetchSnapshot c (pl_Server p) (pl_PlayerID p) with
          | Err _ => keep
          | Ok (player, events) =>
              match repo_Save c user player events (yc_later c) d with
              | (Ok refreshed, d') => (Ok (responseFromSnapshot refreshed), d')
              | (Err _, d') => (Ok (responseFromSnapshot snapshot), d')
              end
          end
        else keep
    end).

Definition Link (c : player_call) (who : Identity) (request : LinkRequest) (d : PlayerDB)
    : result player_error CurrentResponse * PlayerDB :=
  match NormalizeServer (lr_Server request) with
  | None => (Err (PlayerInvalid "server must be americas, europe or asia"), d)
  | Some server =>
      let playerID := TrimSpace (lr_PlayerID request) in
      if bad_player_id playerID then (Err (PlayerInvalid "invalid player id"), d) else
      with_user c who d (fun user d =>
        match fetchSnapshot c server playerID with
        | Err e => (Err (PlayerFetch e), d)
        | Ok (player, events) =>
            if negb (bool_decide (pl_PlayerID player = playerID))
            then (Err (PlayerInvalid "provider returned a different player"), d)
            else
              let '(snapshot, d') := repo_Save c user player events (yc_now c) d in
              ((let! sn := snapshot in Ok (responseFromSnapshot sn)), d')
        end)
  end.

(** The rest of [Refresh]: the error of marking a failure is dropped. *)
Definition refresh_now (c : player_call) (user : string) (current : Snapshot) (now : time) (d : PlayerDB)
    : result player_error CurrentResponse * PlayerDB :=
  let p := pw_Player (sn_Profile current) in
  match fetchSnapshot c (pl_Server p) (pl_PlayerID p) with
  | Err e => (Err (PlayerFetch e), (MarkRefreshFailure c user now (yc_message c) d).2)
  | Ok (player, events) =>
      let '(snapshot, d') := repo_Save c user player events now d in
      ((let! sn := snapshot in Ok (responseFromSnapshot sn)), d')
  end.

(** How long a refresh still has to wait. *)
Definition cooldown_left (r : player_row) (now : time) : option duration :=
  match pw_LastRefreshAttempt r with
  | None => None
  | Some t => let next := t + ps_cooldown s in if now <? next then Some (time_sub next now) else None
  end.

Definition Refresh (c : player_call) (who : Identity) (d : PlayerDB)
    : result player_error CurrentResponse * PlayerDB :=
  with_user c who d (fun user d =>
    match repo_Get YGet YEvents c user d with
    | Err e => (Err e, d)
    | Ok current =>
        match cooldown_left (sn_Profile current) (yc_now c) with
        | Some retryAfter => (Err (PlayerCooldown retryAfter), d)
        | None => refresh_now c user current (yc_now c) d
        end
    end).

Definition DeleteProfile (c : player_call) (who : Identity) (d : PlayerDB) : result player_error unit * PlayerDB :=
  with_user c who d (fun user d => repo_Delete c user d).

(** * The handlers *)

Inductive player_body :=
  | PlayerMessage (message : string)
  | PlayerFound (players : list SearchResult)
  | PlayerAnswer (r : CurrentResponse)
  | PlayerNothing.

Definition player_response := Response player_body.

Definition player_write (status : Z) (headers : list (string * string)) (body : player_body) : player_response :=
  {| rs_Status := status; rs_Headers := headers ++ [json_type; no_store]; rs_Body := body |}.

(** [writeError]; the text of an [ErrInvalidRequest] is kept without its prefix. *)
Definition player_writeError (e : player_error) : player_response :=
  match e with
  | PlayerInvalid why => player_write StatusBadRequest [] (PlayerMessage why)
  | PlayerNotLinked => player_write StatusNotFound [] (PlayerMessage "Albion profile not linked")
  | PlayerUnavailable _ => player_write StatusBadGateway [] (PlayerMessage "Albion profile provider unavailable")
  | _ => player_write StatusInternalServerError [] (PlayerMessage "internal server error")
  end.

Definition player_answer {A} (body : A -> player_body) (r : result player_error A) : player_response :=
  match r with Ok a => player_write StatusOK [] (body a) | Err e => player_writeError e end.

Definition player_not_allowed (allowed : string) : player_response :=
  player_write StatusMethodNotAllowed [("Allow", allowed)] (PlayerMessage "method not allowed").

Definition player_unauthorized : player_response := player_write StatusUnauthorized [] (PlayerMessage "unauthorized").

Definition maxRequestBodyBytes : Z := Z.shiftl 16 10.

Definition dec_LinkRequest : decoder LinkRequest :=
  dec_struct
    [("server", field lr_Server (fun x '(Build_LinkRequest _ p) => Build_LinkRequest x p) dec_string);
     ("playerId", field lr_PlayerID (fun x '(Build_LinkRequest v _) => Build_LinkRequest v x) dec_string)].

Definition decode_link (r : HttpRequest) : result string LinkRequest :=
  match decode_next dec_LinkRequest {| lr_Server := EmptyString; lr_PlayerID := EmptyString |}
          (LimitReader maxRequestBodyBytes (hr_Body r)) with
  | Ok (a, rest) => if at_eof rest then Ok a else Err "request must contain one JSON object"
  | Err _ => Err "invalid JSON request"
  end.

(** [time.Duration.Round] *)
Definition Round (d m : duration) : duration :=
  if m <=? 0 then d else
  let r := Z.rem d m in
  if d <? 0 then
    let r := - r in
    if r + r <? m then d + r else let d1 := wrap64 (d - m + r) in if d1 <? d then d1 else min_int64
  else if r + r <? m then d - r
  else let d1 := wrap64 (d + m - r) in if d <? d1 then d1 else max_int64.

Definition cooldown_seconds (retryAfter : duration) : Z :=
  let seconds := to_int64 (integral trunc_of (Seconds (Round retryAfter second))) in
  if seconds <? 1 then 1 else seconds.

Definition serve_player_search (c : player_call) (r : HttpRequest) : player_response :=
  if negb (bool_decide (hr_Method r = "GET")) then player_not_allowed "GET"
  else player_answer PlayerFound (PlayerSearch c (hr_Query r "server") (hr_Query r "name")).

(** [Handler.Current] *)
Definition serve_player (c : player_call) (r : HttpRequest) (d : PlayerDB) : player_response * PlayerDB :=
  match hr_Identity r with
  | None => (player_unauthorized, d)
  | Some who =>
      if bool_decide (hr_Method r = "GET") then
        let '(res, d') := PlayerCurrent c who d in (player_answer PlayerAnswer res, d')
      else if bool_decide (hr_Method r = "PUT") then
        match decode_link r with
        | Err message => (player_write StatusBadRequest [] (PlayerMessage message), d)
        | Ok request => let '(res, d') := Link c who request d in (player_answer PlayerAnswer res, d')
        end
      else if bool_decide (hr_Method r = "DELETE") then
        let '(res, d') := DeleteProfile c who d in
        (match res with
         | Ok _ => {| rs_Status := StatusNoContent; rs_Headers := [no_store]; rs_Body := PlayerNothing |}
         | Err e => player_writeError e
         end, d')
      else (player_write StatusMethodNotAllowed [("Allow", "GET, PUT, DELETE")] (PlayerMessage "method not allowed"), d)
  end.

Definition serve_player_refresh (c : player_call) (r : HttpRequest) (d : PlayerDB) : player_response * PlayerDB :=
  if negb (bool_decide (hr_Method r = "POST")) then (player_not_allowed "POST", d) else
  match hr_Identity r with
  | None => (player_unauthorized, d)
  | Some who =>
      let '(res, d') := Refresh c who d in
      (match res with
       | Err (PlayerCooldown retryAfter) =>
           player_write StatusTooManyRequests [("Retry-After", FormatInt (cooldown_seconds retryAfter))]
             (PlayerMessage "profile refresh is on cooldown")
       | _ => player_answer PlayerAnswer res
       end, d')
  end.
End service.
