(* ===== verification/PlayerProfileSpec.v ===== *)
(** What the player profiles promise: the provider is asked at most once per
    cooldown, a request touches the profile of its user only, and what is linked is
    what is read back. *)
From S2P Require Import Prelude GoLists GoBase Float64 Webhook BillingDB Utf8 Json Billing BillingSamples Accounts AccountsSpec SavedDataSpec Http EconomicProfile PlayerProfile.
Local Open Scope Z_scope.

(** * The provider *)

#[export] Instance later_strict_weak : StrictWeak later.
Proof. split; unfold later; intros; bool_facts; apply Z.ltb_ge; lia. Qed.

#[export] Instance newer_event_strict_weak : StrictWeak (fun a b => ev_EventID b <? ev_EventID a).
Proof. split; intros; bool_facts; apply Z.ltb_ge; lia. Qed.

#[export] Instance recent_event_strict_weak : StrictWeak recent_event.
Proof. exact (then_less_strict_weak _ _). Qed.

Section provider.
Context `{Unicode}.

(** The activity of a player is the most recent part of his kills and deaths:
    no more events than asked for, newest first, each a kill in which he is the
    killer or a death in which he is the victim, and none that is left out is newer
    than one that is in. *)
Theorem provider_Events_correct net server playerID limit events :
  provider_Events net server playerID limit = Ok events ->
  exists kills deaths rest,
    getJSON net (dec_slice zero_event dec_rawEvent) [] server (events_path (TrimSpace playerID) "kills" limit) = Ok kills /\
    getJSON net (dec_slice zero_event dec_rawEvent) [] server (events_path (TrimSpace playerID) "deaths" limit) = Ok deaths /\
    let all := map (normalizeEvent "kill" true) kills ++ map (normalizeEvent "death" false) deaths in
    events ++ rest ≡ₚ all /\
    Z.of_nat (length events) = Z.min limit (Z.of_nat (length all)) /\
    StronglySorted (fun a b => ev_OccurredAt b <= ev_OccurredAt a) events /\
    (forall e e', e ∈ events -> e' ∈ rest -> ev_OccurredAt e' <= ev_OccurredAt e) /\
    forall e, e ∈ events -> exists raw,
      (ev_Result e = "kill" /\ raw ∈ kills /\ ev_OpponentName e = TrimSpace (rp_Name (rv_Victim raw)) /\
         ev_PlayerEquipment e = normalizeEquipment (rp_Equipment (rv_Killer raw))) \/
      (ev_Result e = "death" /\ raw ∈ deaths /\ ev_OpponentName e = TrimSpace (rp_Name (rv_Killer raw)) /\
         ev_PlayerEquipment e = normalizeEquipment (rp_Equipment (rv_Victim raw))).
Proof.
  unfold provider_Events. intros He. inv_ok. bool_facts.
  match goal with Hk : getJSON _ _ _ _ (events_path _ "kills" _) = Ok ?k, Hd : getJSON _ _ _ _ (events_path _ "deaths" _) = Ok ?d |- _ =>
    rename k into kills; rename d into deaths; exists kills, deaths end.
  set (all := map _ kills ++ map _ deaths). exists (drop (Z.to_nat limit) (slice_stable later all)).
  assert (StronglySorted (not_after later) (slice_stable later all)) as Hsorted by apply slice_stable_sorted, _.
  rewrite <- (take_drop (Z.to_nat limit) (slice_stable later all)) in Hsorted.
  apply StronglySorted_app in Hsorted as (Hcross & Hs & _).
  split_and!; try done.
  - rewrite take_drop. apply slice_stable_Permutation.
  - rewrite length_take, length_slice_stable. lia.
  - eapply StronglySorted_weaken; [|exact Hs]. intros a b Hab. unfold not_after, later in Hab. by bool_facts.
  - intros e e' Hin Hin'. specialize (Hcross e e' Hin Hin'). unfold not_after, later in Hcross. by bool_facts.
  - intros e Hin. assert (e ∈ slice_stable later all) as Hi by (rewrite <- (take_drop (Z.to_nat limit)); apply elem_of_app; by left).
    apply elem_of_slice_stable in Hi. unfold all in Hi. apply elem_of_app in Hi as [Hi|Hi];
      apply list_elem_of_fmap in Hi as (raw & -> & Hraw); exists raw; [left|right]; by split_and!.
Qed.
End provider.

(** * The cooldown *)

Section profile.
Context `{Unicode} `{EntitlementEncoding}.
Variable s : PlayerService.

Lemma player_stmt_ok {A} c st (r : result db_failure A) a : player_stmt c st r = Ok a -> r = Ok a.
Proof. unfold player_stmt. destruct (yc_outcome c st); [|done..]. by rewrite rmap_err_ok. Qed.

Lemma repo_Get_ok g e c user d sn :
  repo_Get g e c user d = Ok sn -> py_profiles d !! user = Some (sn_Profile sn) /\
  sn_Events sn = take 100 (slice_stable recent_event (events_of (pw_ID (sn_Profile sn)) d)).
Proof.
  unfold repo_Get. intros Hg. apply rbind_ok in Hg as (found & Hf%player_stmt_ok & Hg). injection Hf as <-.
  apply rbind_ok in Hg as (p & Hp & Hg). apply rbind_ok in Hg as (rows & Hr%player_stmt_ok & [= <-]).
  injection Hr as <-. destruct (py_profiles d !! user); [|done]. by injection Hp as ->.
Qed.

Lemma save_tx_ok c user p events at_ d d' :
  save_tx c user p events at_ d = Ok d' ->
  exists row, upsert_player c user p at_ d = Ok row /\ py_profiles d' = <[user := row]> (py_profiles d) /\
    py_accounts d' = py_accounts d /\
    insert_events c 0 (pw_ID row) events (List.filter (fun e => negb (bool_decide (e.1 = pw_ID row))) (py_events d))
      = Ok (py_events d').
Proof.
  unfold save_tx. intros Hs. apply rbind_ok in Hs as (? & _ & Hs). apply rbind_ok in Hs as (row & Hr%player_stmt_ok & Hs).
  apply rbind_ok in Hs as (kept & Hk%player_stmt_ok & Hs). injection Hk as <-.
  apply rbind_ok in Hs as (l & Hl & [= <-]). by exists row.
Qed.

(** The row a save writes was refreshed just now. *)
Lemma upsert_player_ok c user p at_ d row :
  upsert_player c user p at_ d = Ok row ->
  pw_Player row = p /\ pw_VerificationStatus row = "unverified" /\ pw_LastRefreshAttempt row = Some (pg_time at_) /\
  pw_LastRefreshStatus row = "ok" /\ player_checks p = true /\
  match py_profiles d !! user with
  | Some old => pw_ID row = pw_ID old /\ pw_LinkedAt row = pw_LinkedAt old
  | None => pw_ID row = yc_new_id c /\ pw_LinkedAt row = yc_tx_now c
  end.
Proof.
  unfold upsert_player. destruct (negb _); [done|]. destruct (player_checks p); [|done]. simpl. intros [= <-]. simpl.
  destruct (py_profiles d !! user); split_and!; try reflexivity.
Qed.

(** The profile of a user whose last attempt is at [t]. *)
Definition attempted (user : string) (t : time) (d : PlayerDB) : Prop :=
  exists r, py_profiles d !! user = Some r /\ pw_LastRefreshAttempt r = Some t.

(** Marking a failure succeeds when its statement does and its text is one. *)
Definition markable (c : player_call) : Prop :=
  yc_outcome c YMark = Done /\
  sql_text (if 500 <? str_len (yc_message c) then String.substring 0 500 (yc_message c) else yc_message c) = true.

Lemma MarkRefreshFailure_attempted c user now d :
  markable c -> is_Some (py_profiles d !! user) -> attempted user (pg_time now) (MarkRefreshFailure c user now (yc_message c) d).2.
Proof.
  intros [Ho Ht] [r Hr]. unfold MarkRefreshFailure, player_exec. rewrite Ho, Ht, Hr. simpl.
  eexists. split; [apply lookup_insert_eq|done].
Qed.

(** Whose request it is, and the tables it finds. *)
Definition account_of (c : player_call) (who : Identity) (d : PlayerDB) (user : string) : Prop :=
  exists access a, Accounts.Current (yc_account c) who (py_accounts d) = (Ok access, a) /\ u_ID (a_User access) = user.

Lemma with_user_of {A} c who d user (k : string -> PlayerDB -> result player_error A * PlayerDB) :
  account_of c who d user -> exists a, with_user c who d k = k user (set_player_accounts a d).
Proof. intros (access & a & Ha & Hu). exists a. unfold with_user. by rewrite Ha, Hu. Qed.

(** Neither the reading of a profile nor a save fails the way the provider does. *)
Definition not_fetch (e : player_error) : Prop := forall e', e <> PlayerFetch e'.

Lemma player_stmt_not_fetch {A} c st (r : result db_failure A) e : player_stmt c st r = Err e -> not_fetch e.
Proof. unfold player_stmt. intros Hs e' ->. destruct (yc_outcome c st); [|done..]. by destruct r. Qed.

Lemma rbind_not_fetch {A B} (r : result player_error A) (k : A -> result player_error B) e :
  (forall e, r = Err e -> not_fetch e) -> (forall a e, k a = Err e -> not_fetch e) -> rbind r k = Err e -> not_fetch e.
Proof. intros Hr Hk. destruct r as [a|e0]; simpl; [apply Hk|]. intros [= <-]. by apply Hr. Qed.

Lemma insert_events_not_fetch c i profile events l e : insert_events c i profile events l = Err e -> not_fetch e.
Proof.
  revert i l e. induction events as [|ev events IH]; intros i l e; simpl; [done|].
  apply rbind_not_fetch; [apply player_stmt_not_fetch|]. intros row e'. apply IH.
Qed.

Lemma repo_Get_not_fetch g ev c user d e : repo_Get g ev c user d = Err e -> not_fetch e.
Proof.
  apply rbind_not_fetch; [apply player_stmt_not_fetch|]. intros found e1.
  apply rbind_not_fetch; [by intros e2 He e' ->; destruct found|]. intros p e2.
  apply rbind_not_fetch; [apply player_stmt_not_fetch|]. done.
Qed.

Lemma save_tx_not_fetch c user p events at_ d e : save_tx c user p events at_ d = Err e -> not_fetch e.
Proof.
  do 3 (apply rbind_not_fetch; [apply player_stmt_not_fetch|]; intros ? ?).
  apply rbind_not_fetch; [apply insert_events_not_fetch|done].
Qed.

(** A save that did not fail like the provider, and took place, marks the attempt. *)
Lemma repo_Save_attempted c user p events at_ d sn d' :
  repo_Save c user p events at_ d = (sn, d') -> is_ok sn = true -> attempted user (pg_time at_) d'.
Proof.
  unfold repo_Save. destruct (save_tx _ _ _ _ _ _) as [d''|] eqn:Htx; [|by intros [= <- <-]].
  destruct (yc_outcome c YCommit); intros [= <- <-] Hok; try done.
  apply save_tx_ok in Htx as (row & Hup%upsert_player_ok & Hprof & _).
  exists row. rewrite Hprof, lookup_insert_eq. split; [done|]. tauto.
Qed.

Lemma repo_Save_not_fetch c user p events at_ d e d' : repo_Save c user p events at_ d = (Err e, d') -> not_fetch e.
Proof.
  unfold repo_Save. destruct (save_tx _ _ _ _ _ _) as [d''|] eqn:Htx.
  - destruct (yc_outcome c YCommit); intros [= He <-]; [by eapply repo_Get_not_fetch|by subst e..].
  - intros [= <- <-]. by eapply save_tx_not_fetch.
Qed.

Lemma Refresh_attempted c who d res d1 user :
  account_of c who d user -> Refresh s c who d = (res, d1) ->
  is_ok res = true \/ (exists e, res = Err (PlayerFetch e)) /\ markable c -> attempted user (pg_time (yc_now c)) d1.
Proof.
  intros Hu Hr Hres. unfold Refresh in Hr. edestruct (with_user_of (A := CurrentResponse) c who d user) as (a & Ha); [done|].
  rewrite Ha in Hr. clear Ha. revert Hr. generalize (set_player_accounts a d). intros d0 Hr.
  destruct (repo_Get YGet YEvents c user d0) as [current|e] eqn:Hg.
  2: { injection Hr as <- <-. apply repo_Get_not_fetch in Hg. destruct Hres as [?|[(e' & [= ->]) _]]; [done|]. by destruct (Hg e'). }
  destruct (cooldown_left s (sn_Profile current) (yc_now c)).
  { injection Hr as <- <-. by destruct Hres as [?|[(e & ?) _]]. }
  unfold refresh_now in Hr. destruct (fetchSnapshot _ _ _ _) as [[player events]|e].
  - destruct (repo_Save c user player events (yc_now c) d0) as [[sn|e] d'] eqn:Hs; injection Hr as <- <-.
    + by eapply repo_Save_attempted.
    + apply repo_Save_not_fetch in Hs. destruct Hres as [?|[(e' & [= ->]) _]]; [done|]. by destruct (Hs e').
  - injection Hr as <- <-. destruct Hres as [?|[_ Hm]]; [done|]. apply MarkRefreshFailure_attempted; [done|].
    apply repo_Get_ok in Hg as [Hp _]. by eexists.
Qed.

(** C35. The provider is asked at most once per cooldown.  After a refresh that
    succeeded, or that failed because the provider did and was marked, any refresh of
    the same user before the cooldown is over is refused, whatever the provider
    would answer, with the time that is left, and leaves the profile and its events as
    they are. *)
Theorem refresh_cooldown c1 c2 who1 who2 d res d1 d2 user :
  account_of c1 who1 d user -> Refresh s c1 who1 d = (res, d1) ->
  is_ok res = true \/ (exists e, res = Err (PlayerFetch e)) /\ markable c1 ->
  py_profiles d2 !! user = py_profiles d1 !! user -> account_of c2 who2 d2 user ->
  yc_outcome c2 YGet = Done -> yc_outcome c2 YEvents = Done ->
  yc_now c2 < pg_time (yc_now c1) + ps_cooldown s ->
  exists a, Refresh s c2 who2 d2
    = (Err (PlayerCooldown (time_sub (pg_time (yc_now c1) + ps_cooldown s) (yc_now c2))), set_player_accounts a d2).
Proof.
  intros Hu1 Hr Hres Hsame Hu2 Hget Hev Hnow.
  destruct (Refresh_attempted c1 who1 d res d1 user) as (r & Hrow & Hatt); try done.
  edestruct (with_user_of (A := CurrentResponse) c2 who2 d2 user) as (a & Ha); [exact Hu2|].
  exists a. unfold Refresh. rewrite Ha. unfold repo_Get, player_stmt. rewrite Hget. simpl. rewrite Hsame, Hrow. simpl.
  rewrite Hev. simpl. unfold cooldown_left. rewrite Hatt, (proj2 (Z.ltb_lt _ _)) by done. done.
Qed.
(** * The tables *)

Definition event_key (row : string * Event) : string * Z * string := (row.1, ev_EventID row.2, ev_Result row.2).

(** The [check] constraints of an event. *)
Definition event_checks (e : Event) : Prop :=
  ev_Result e ∈ ["kill"; "death"] /\ 0 <= ev_ParticipantCount e < 2 ^ 31 /\ 0 <= ev_GroupMemberCount e < 2 ^ 31.

(** Identifiers are unique, an event belongs to a profile and is there once, and no
    profile is verified. *)
Record player_wf (d : PlayerDB) : Prop := {
  wf_ids : forall u1 u2 r1 r2, py_profiles d !! u1 = Some r1 -> py_profiles d !! u2 = Some r2 ->
    pw_ID r1 = pw_ID r2 -> u1 = u2;
  wf_rows : forall u r, py_profiles d !! u = Some r ->
    player_checks (pw_Player r) = true /\ pw_VerificationStatus r = "unverified" /\ pw_LastRefreshStatus r ∈ ["ok"; "error"];
  wf_owned : forall e, e ∈ py_events d -> exists u r, py_profiles d !! u = Some r /\ pw_ID r = e.1;
  wf_keys : NoDup (map event_key (py_events d));
  wf_events : forall e, e ∈ py_events d -> event_checks e.2;
}.

(** Nothing but the profile of [user] and its events has changed. *)
Definition only_of (user : string) (d d' : PlayerDB) : Prop :=
  forall u, u <> user -> py_profiles d' !! u = py_profiles d !! u /\
    forall r, py_profiles d !! u = Some r -> events_of (pw_ID r) d' = events_of (pw_ID r) d.

Definition fresh_id (id : string) (d : PlayerDB) : Prop := forall u r, py_profiles d !! u = Some r -> pw_ID r <> id.

Lemma only_of_refl user d : only_of user d d.
Proof. by intros u _. Qed.

Lemma stored_event_checks e row : stored_event e = Ok row -> event_checks row.
Proof.
  unfold stored_event. intros Hs. inv_ok. unfold in_int4 in *. bool_facts. unfold event_checks. simpl. split_and!; try done; lia.
Qed.

Lemma stored_event_key profile e row : stored_event e = Ok row -> event_key (profile, row) = event_key (profile, e).
Proof. unfold stored_event. intros Hs. by inv_ok. Qed.

Lemma same_event_key profile e row : same_event profile e row = true <-> event_key row = event_key (profile, e).
Proof.
  unfold same_event, event_key. simpl. split; intros Hs.
  - bool_facts. by f_equal; [f_equal|].
  - injection Hs as H1 H2 H3. rewrite H1, H2, H3. by rewrite !bool_decide_eq_true_2, Z.eqb_refl.
Qed.

Lemma insert_events_ok c i profile events l l' :
  insert_events c i profile events l = Ok l' ->
  exists new, l' = l ++ map (pair profile) new /\ (length new <= length events)%nat /\
    (NoDup (map event_key l) -> NoDup (map event_key l')) /\
    (forall e, e ∈ events -> event_key (profile, e) ∈ map event_key l') /\
    forall x, x ∈ new -> exists e, e ∈ events /\ stored_event e = Ok x.
Proof.
  revert i l. induction events as [|e events IH]; intros i l; simpl; intros Hi.
  - injection Hi as <-. exists []. rewrite app_nil_r. split_and!; try done. intros e He. by apply not_elem_of_nil in He.
    intros e He. by apply not_elem_of_nil in He.
  - apply rbind_ok in Hi as (row & Hr%player_stmt_ok & Hi). apply IH in Hi as (new & -> & Hlen & Hnd & Hin & Hst).
    pose proof (stored_event_key profile _ _ Hr) as Hkey.
    destruct (existsb (same_event profile row) l) eqn:Hex.
    + apply existsb_exists in Hex as (x & Hx%list_elem_of_In & Hsame%same_event_key).
      exists new. split_and!; [done|lia|done| |].
      * intros e' [->|He]%elem_of_cons; [|by apply Hin]. rewrite map_app. apply elem_of_app. left.
        rewrite <- Hkey, <- Hsame. by apply list_elem_of_fmap_2.
      * intros x' Hx'. destruct (Hst x' Hx') as (e' & ? & ?). exists e'. split; [by right|done].
    + exists (row :: new). rewrite <- app_assoc. simpl. split_and!; [done|simpl; lia| | |].
      * intros Hl. rewrite <- app_assoc in Hnd. apply Hnd. rewrite map_app. apply NoDup_app. split_and!; [done| |apply NoDup_singleton].
        intros k (x & -> & Hx)%list_elem_of_fmap Hk. apply list_elem_of_singleton in Hk.
        rewrite (proj2 (existsb_exists _ _)) in Hex; [done|]. exists x. rewrite <- list_elem_of_In, same_event_key.
        by split.
      * intros e' [->|He]%elem_of_cons; rewrite <- app_assoc in Hin; [|by apply Hin]. rewrite !map_app. apply elem_of_app. right.
        simpl. rewrite <- Hkey. left.
      * intros x' [->|Hx']%elem_of_cons; [exists e; split; [left|done]|].
        destruct (Hst x' Hx') as (e' & ? & ?). exists e'. split; [by right|done].
Qed.

Definition without (profile : string) (l : list (string * Event)) : list (string * Event) :=
  List.filter (fun e => negb (bool_decide (e.1 = profile))) l.

Definition events_in (profile : string) (l : list (string * Event)) : list Event :=
  map snd (List.filter (fun e => bool_decide (e.1 = profile)) l).

Lemma events_in_app profile l l' : events_in profile (l ++ l') = events_in profile l ++ events_in profile l'.
Proof. unfold events_in. by rewrite List.filter_app, map_app. Qed.

Lemma events_in_own profile new : events_in profile (map (pair profile) new) = new.
Proof. unfold events_in. induction new as [|e new IH]; simpl; [done|]. rewrite bool_decide_eq_true_2 by done. simpl. by f_equal. Qed.

Lemma events_in_other profile profile' new : profile <> profile' -> events_in profile (map (pair profile') new) = [].
Proof. intros Hne. unfold events_in. induction new as [|e new IH]; simpl; [done|]. by rewrite bool_decide_eq_false_2. Qed.

Lemma events_in_without profile l : events_in profile (without profile l) = [].
Proof.
  unfold events_in, without. induction l as [|[p e] l IH]; simpl; [done|].
  destruct (bool_decide (p = profile)) eqn:Hp; simpl; [done|]. by rewrite Hp.
Qed.

Lemma events_in_without_other profile profile' l :
  profile <> profile' -> events_in profile (without profile' l) = events_in profile l.
Proof.
  intros Hne. unfold events_in, without. induction l as [|[p e] l IH]; simpl; [done|].
  destruct (decide (p = profile')) as [->|Hp].
  - rewrite bool_decide_eq_true_2, bool_decide_eq_false_2 by done. done.
  - rewrite (bool_decide_eq_false_2 (p = profile')) by done. simpl. destruct (bool_decide (p = profile)); simpl; by rewrite IH.
Qed.

Lemma elem_of_without profile l e : e ∈ without profile l <-> e ∈ l /\ e.1 <> profile.
Proof. unfold without. rewrite !list_elem_of_In, filter_In. rewrite negb_true_iff, bool_decide_eq_false. done. Qed.

Lemma NoDup_without profile l : NoDup (map event_key l) -> NoDup (map event_key (without profile l)).
Proof.
  unfold without. induction l as [|e l IH]; simpl; [done|]. intros [Hn Hd]%NoDup_cons. destruct (negb _); simpl; [|by apply IH].
  apply NoDup_cons. split; [|by apply IH]. intros (x & Hk & [Hx _]%elem_of_without)%list_elem_of_fmap. apply Hn.
  rewrite Hk. by apply list_elem_of_fmap_2.
Qed.

(** A save keeps the tables well formed, and the profiles of the others. *)
Lemma save_tx_isolated c user p events at_ d d' :
  player_wf d -> fresh_id (yc_new_id c) d -> save_tx c user p events at_ d = Ok d' -> player_wf d' /\ only_of user d d'.
Proof.
  intros Hwf Hfresh (row & Hup & Hprof & _ & Hins)%save_tx_ok.
  pose proof Hup as (Hp & Hv & _ & Hst & Hc & Hold)%upsert_player_ok.
  assert (forall u r, u <> user -> py_profiles d !! u = Some r -> pw_ID r <> pw_ID row) as Hother.
  { intros u r Hne Hr Heq. destruct (py_profiles d !! user) as [old|] eqn:Ho; destruct Hold as [Hid _].
    - apply Hne. eapply (wf_ids d Hwf); [exact Hr|exact Ho|]. by rewrite <- Hid.
    - apply (Hfresh _ _ Hr). by rewrite <- Hid. }
  apply insert_events_ok in Hins as (new & Hl & _ & Hnd & _ & Hnew).
  change (List.filter _ (py_events d)) with (without (pw_ID row) (py_events d)) in Hl, Hnd.
  split.
  - split.
    + intros u1 u2 r1 r2. rewrite Hprof. destruct (decide (u1 = user)) as [->|H1], (decide (u2 = user)) as [->|H2];
        rewrite ?lookup_insert_eq, ?lookup_insert_ne by done.
      * done.
      * intros [= <-] Hr2 Heq. by destruct (Hother u2 r2).
      * intros Hr1 [= <-] Heq. by destruct (Hother u1 r1).
      * apply (wf_ids d Hwf).
    + intros u r. rewrite Hprof. destruct (decide (u = user)) as [->|Hu]; rewrite ?lookup_insert_eq, ?lookup_insert_ne by done.
      * intros [= <-]. rewrite Hp, Hst. split_and!; [done|done|left].
      * apply (wf_rows d Hwf).
    + intros e He. rewrite Hl in He. apply elem_of_app in He as [[He Hid]%elem_of_without|(x & -> & Hx)%list_elem_of_fmap].
      * destruct (wf_owned d Hwf e He) as (u & r & Hr & Hre). exists u, r. split; [|done]. rewrite Hprof, lookup_insert_ne; [done|].
        intros <-. rewrite Hr in Hold. destruct Hold as [Hold _]. congruence.
      * exists user, row. split; [|done]. by rewrite Hprof, lookup_insert_eq.
    + apply Hnd, NoDup_without, (wf_keys d Hwf).
    + intros e He. rewrite Hl in He. apply elem_of_app in He as [[He Hid]%elem_of_without|(x & -> & Hx)%list_elem_of_fmap].
      * by apply (wf_events d Hwf).
      * destruct (Hnew x Hx) as (e' & _ & He'). by eapply stored_event_checks.
  - intros u Hu. rewrite Hprof, lookup_insert_ne by done. split; [done|]. intros r Hr.
    change (events_in (pw_ID r) (py_events d') = events_in (pw_ID r) (py_events d)).
    assert (pw_ID r <> pw_ID row) as Hne by by eapply Hother.
    rewrite Hl, events_in_app, events_in_other, app_nil_r, events_in_without_other by done. done.
Qed.

Lemma repo_Save_isolated c user p events at_ d :
  player_wf d -> fresh_id (yc_new_id c) d ->
  let d' := (repo_Save c user p events at_ d).2 in player_wf d' /\ only_of user d d'.
Proof.
  intros Hwf Hf. unfold repo_Save. destruct (save_tx _ _ _ _ _ _) as [d''|] eqn:Htx; [|by split; [|apply only_of_refl]].
  destruct (yc_outcome c YCommit); simpl; [by eapply save_tx_isolated|by split; [|apply only_of_refl]|by eapply save_tx_isolated].
Qed.

(** One statement that changes the row of one user. *)
Lemma player_exec_isolated c st r user d :
  player_wf d -> (forall n d', r = Ok (n, d') -> player_wf d' /\ only_of user d d') ->
  let d' := (player_exec c st r d).2 in player_wf d' /\ only_of user d d'.
Proof.
  intros Hwf Hr. unfold player_exec. assert (player_wf d /\ only_of user d d) as Hd by (split; [done|apply only_of_refl]).
  destruct (yc_outcome c st), r as [[n d']|]; simpl; try done; by eapply Hr.
Qed.

Lemma repo_Delete_isolated c user d : player_wf d -> let d' := (repo_Delete c user d).2 in player_wf d' /\ only_of user d d'.
Proof.
  intros Hwf. apply player_exec_isolated; [done|]. intros n d' Hd. injection Hd as Hd.
  destruct (py_profiles d !! user) as [row|] eqn:Hrow; injection Hd as <- <-.
  2: { split; [done|apply only_of_refl]. }
  simpl. fold (without (pw_ID row) (py_events d)). split.
  - split; simpl.
    + intros u1 u2 r1 r2 [_ H1]%lookup_delete_Some [_ H2]%lookup_delete_Some. by eapply (wf_ids d Hwf).
    + intros u r [_ Hr]%lookup_delete_Some. by eapply (wf_rows d Hwf).
    + intros e [He Hid]%elem_of_without. destruct (wf_owned d Hwf e He) as (u & r & Hr & Hre). exists u, r. split; [|done].
      apply lookup_delete_Some. split; [|done]. intros <-. congruence.
    + apply NoDup_without, (wf_keys d Hwf).
    + intros e [He _]%elem_of_without. by apply (wf_events d Hwf).
  - intros u Hu. simpl. rewrite lookup_delete_ne by done. split; [done|]. intros r Hr.
    apply events_in_without_other. intros Heq. apply Hu. by eapply (wf_ids d Hwf).
Qed.

Lemma MarkRefreshFailure_isolated c user at_ m d :
  player_wf d -> let d' := (MarkRefreshFailure c user at_ m d).2 in player_wf d' /\ only_of user d d'.
Proof.
  intros Hwf. apply player_exec_isolated; [done|]. intros n d'. destruct (sql_text _); [|done]. intros Hd. injection Hd as Hd.
  destruct (py_profiles d !! user) as [row|] eqn:Hrow; injection Hd as <- <-.
  2: { split; [done|apply only_of_refl]. }
  simpl. assert (forall u r, <[user := failed_row at_ (if 500 <? str_len m then String.substring 0 500 m else m) row]> (py_profiles d) !! u = Some r ->
    exists r', py_profiles d !! u = Some r' /\ pw_ID r = pw_ID r' /\ pw_Player r = pw_Player r' /\
      pw_VerificationStatus r = pw_VerificationStatus r' /\ (pw_LastRefreshStatus r = pw_LastRefreshStatus r' \/ pw_LastRefreshStatus r = "error")) as Hold.
  { intros u r [[<- <-]|[Hne Hr]]%lookup_insert_Some; [exists row; by split_and!; [..|right]|exists r; by split_and!; [..|left]]. }
  split; [split; simpl|].
  - intros u1 u2 r1 r2 (r1' & H1 & E1 & _)%Hold (r2' & H2 & E2 & _)%Hold He. eapply (wf_ids d Hwf); [done..|congruence].
  - intros u r (r' & Hr & _ & -> & -> & Hs)%Hold. destruct (wf_rows d Hwf u r' Hr) as (? & ? & ?). split_and!; [done..|].
    destruct Hs as [->| ->]; [done|set_solver].
  - intros e He. destruct (wf_owned d Hwf e He) as (u & r & Hr & Hre).
    destruct (decide (u = user)) as [->|Hne]; [eexists user, _; rewrite lookup_insert_eq; split; [done|]; simpl; congruence|].
    exists u, r. by rewrite lookup_insert_ne.
  - apply (wf_keys d Hwf).
  - apply (wf_events d Hwf).
  - intros u Hu. simpl. by rewrite lookup_insert_ne.
Qed.

Definition only_for (P : string -> Prop) (d d' : PlayerDB) : Prop :=
  forall u, ~ P u -> py_profiles d' !! u = py_profiles d !! u /\
    forall r, py_profiles d !! u = Some r -> events_of (pw_ID r) d' = events_of (pw_ID r) d.

Lemma with_user_isolated {A} c who d (k : string -> PlayerDB -> result player_error A * PlayerDB) :
  player_wf d -> fresh_id (yc_new_id c) d ->
  (forall user d0, player_wf d0 -> fresh_id (yc_new_id c) d0 -> let d' := (k user d0).2 in player_wf d' /\ only_of user d0 d') ->
  let d' := (with_user c who d k).2 in
  player_wf d' /\ only_for (account_of c who d) d d'.
Proof.
  intros Hwf Hf Hk. unfold with_user, account_of. destruct (Accounts.Current _ who _) as [[access|e] a].
  2: { simpl. split; [by destruct Hwf; split|done]. }
  destruct (Hk (u_ID (a_User access)) (set_player_accounts a d)) as [Hwf' Hown]; [by destruct Hwf; split|done|].
  split; [done|]. intros u Hu. apply (Hown u). intros ->. apply Hu. by exists access, a.
Qed.

Lemma Link_isolated c who request d :
  player_wf d -> fresh_id (yc_new_id c) d -> let d' := (Link s c who request d).2 in
  player_wf d' /\ only_for (account_of c who d) d d'.
Proof.
  intros Hwf Hf. unfold Link. destruct (NormalizeServer _); [|done]. destruct (bad_player_id _); [done|].
  apply with_user_isolated; [done..|]. intros user d0 Hwf0 Hf0.
  assert (player_wf d0 /\ only_of user d0 d0) by (split; [done|apply only_of_refl]).
  destruct (fetchSnapshot _ _ _ _) as [[player events]|]; [|done]. destruct (negb _); [done|].
  pose proof (repo_Save_isolated c user player events (yc_now c) d0 Hwf0 Hf0) as Hs. by destruct (repo_Save _ _ _ _ _ _).
Qed.

Lemma PlayerCurrent_isolated c who d :
  player_wf d -> fresh_id (yc_new_id c) d -> let d' := (PlayerCurrent s c who d).2 in
  player_wf d' /\ only_for (account_of c who d) d d'.
Proof.
  intros Hwf Hf. apply with_user_isolated; [done..|]. intros user d0 Hwf0 Hf0.
  assert (player_wf d0 /\ only_of user d0 d0) by (split; [done|apply only_of_refl]).
  destruct (repo_Get _ _ _ _ _) as [sn|]; [|done]. destruct (_ && _); [|done]. cbn zeta.
  destruct (fetchSnapshot _ _ _ _) as [[player events]|]; [|done].
  pose proof (repo_Save_isolated c user player events (yc_later c) d0 Hwf0 Hf0) as Hs.
  by destruct (repo_Save _ _ _ _ _ _) as [[|] ?].
Qed.

Lemma Refresh_isolated c who d :
  player_wf d -> fresh_id (yc_new_id c) d -> let d' := (Refresh s c who d).2 in
  player_wf d' /\ only_for (account_of c who d) d d'.
Proof.
  intros Hwf Hf. apply with_user_isolated; [done..|]. intros user d0 Hwf0 Hf0.
  assert (player_wf d0 /\ only_of user d0 d0) by (split; [done|apply only_of_refl]).
  destruct (repo_Get _ _ _ _ _) as [sn|]; [|done]. destruct (cooldown_left _ _ _); [done|]. unfold refresh_now. cbn zeta.
  destruct (fetchSnapshot _ _ _ _) as [[player events]|]; [|by apply MarkRefreshFailure_isolated].
  pose proof (repo_Save_isolated c user player events (yc_now c) d0 Hwf0 Hf0) as Hs. by destruct (repo_Save _ _ _ _ _ _).
Qed.

(** The request is made for the profile of [u]. *)
Definition acts_for (c : player_call) (r : HttpRequest) (d : PlayerDB) (u : string) : Prop :=
  exists who, hr_Identity r = Some who /\ account_of c who d u.

(** C37. Requests to the profile keep its tables well formed (identifiers are
    unique, an event belongs to a profile and is there once, no profile is verified)
    and change nothing of a user other than the one who makes them, whatever the
    method, the provider and the database do. *)
Theorem player_requests_isolated c r d rsp d' :
  player_wf d -> fresh_id (yc_new_id c) d ->
  serve_player s c r d = (rsp, d') \/ serve_player_refresh s c r d = (rsp, d') ->
  player_wf d' /\ only_for (acts_for c r d) d d'.
Proof.
  intros Hwf Hf Hr. unfold only_for, acts_for. destruct Hr as [Hr|Hr].
  - unfold serve_player in Hr. destruct (hr_Identity r) as [who|]; [|by simplify_eq].
    assert (forall u, ~ (exists who', Some who = Some who' /\ account_of c who' d u) -> ~ account_of c who d u) as Hno by naive_solver.
    destruct (bool_decide (hr_Method r = "GET")).
    { pose proof (PlayerCurrent_isolated c who d Hwf Hf) as [? ?]. destruct (PlayerCurrent _ _ _ _); simplify_eq; eauto. }
    destruct (bool_decide (hr_Method r = "PUT")).
    { destruct (decode_link r) as [request|]; [|by simplify_eq].
      pose proof (Link_isolated c who request d Hwf Hf) as [? ?]. destruct (Link _ _ _ _ _); simplify_eq; eauto. }
    destruct (bool_decide (hr_Method r = "DELETE")); [|by simplify_eq].
    destruct (with_user_isolated c who d (repo_Delete c) Hwf Hf) as [? ?]; [intros user d0 ? ?; by apply repo_Delete_isolated|].
    unfold DeleteProfile in Hr. destruct (with_user _ _ _ _); simplify_eq; eauto.
  - unfold serve_player_refresh in Hr. destruct (negb _); [by simplify_eq|].
    destruct (hr_Identity r) as [who|]; [|by simplify_eq].
    assert (forall u, ~ (exists who', Some who = Some who' /\ account_of c who' d u) -> ~ account_of c who d u) as Hno by naive_solver.
    pose proof (Refresh_isolated c who d Hwf Hf) as [? ?]. destruct (Refresh _ _ _ _); simplify_eq; eauto.
Qed.

(** * Linking *)

Lemma provider_Events_limit net server id limit events :
  provider_Events net server id limit = Ok events -> (length events <= 100)%nat.
Proof. unfold provider_Events. intros He. inv_ok. bool_facts. rewrite length_take. lia. Qed.

Lemma provider_Player_server net server id p : provider_Player net server id = Ok p -> pl_Server p = server.
Proof. unfold provider_Player. intros Hp. by inv_ok. Qed.

(** The counts of an answer. *)
Lemma responseFromSnapshot_counts sn :
  (forall e, e ∈ sn_Events sn -> ev_Result e ∈ ["kill"; "death"]) ->
  let r := responseFromSnapshot sn in
  su_RecentKills (cr_Summary r) + su_RecentDeaths (cr_Summary r) = su_RecentFightCount (cr_Summary r).
Proof.
  unfold responseFromSnapshot, count_result. simpl. generalize (sn_Events sn) as l. induction l as [|e l IH]; [done|].
  intros Hl. specialize (IH (fun e He => Hl e (list_elem_of_further _ _ _ He))). simpl.
  specialize (Hl e (list_elem_of_here _ _)). apply elem_of_cons in Hl as [Hl|Hl%list_elem_of_singleton]; rewrite Hl; simpl; lia.
Qed.

(** What a save that took place reads back. *)
Lemma repo_Save_reads c user p events at_ d sn d' :
  (length events <= 100)%nat ->
  repo_Save c user p events at_ d = (Ok sn, d') ->
  upsert_player c user p at_ d = Ok (sn_Profile sn) /\
  (forall e, e ∈ sn_Events sn -> exists e', e' ∈ events /\ stored_event e' = Ok e) /\
  (forall e', e' ∈ events -> exists e, e ∈ sn_Events sn /\ ev_EventID e = ev_EventID e' /\ ev_Result e = ev_Result e') /\
  StronglySorted (not_after recent_event) (sn_Events sn) /\
  forall c', yc_outcome c' YGet = Done -> yc_outcome c' YEvents = Done -> repo_Get YGet YEvents c' user d' = Ok sn.
Proof.
  unfold repo_Save. intros Hlen Hs. destruct (save_tx _ _ _ _ _ _) as [d''|] eqn:Htx; [|done].
  destruct (yc_outcome c YCommit); [|done..]. injection Hs as Hg <-.
  apply save_tx_ok in Htx as (row & Hup & Hprof & _ & Hins). apply repo_Get_ok in Hg as [Hrow Hev].
  rewrite Hprof, lookup_insert_eq in Hrow. injection Hrow as ->.
  apply insert_events_ok in Hins as (new & Hl & Hnew & _ & Hin & Hst).
  fold (without (pw_ID (sn_Profile sn)) (py_events d)) in Hl, Hin.
  assert (events_of (pw_ID (sn_Profile sn)) d'' = new) as Hof.
  { change (events_in (pw_ID (sn_Profile sn)) (py_events d'') = new).
    by rewrite Hl, events_in_app, events_in_without, events_in_own. }
  rewrite Hof, take_ge in Hev by (rewrite length_slice_stable; lia).
  split_and!; [done| | | |].
  - intros e. rewrite Hev, elem_of_slice_stable. apply Hst.
  - intros e' He'. destruct (list_elem_of_fmap_1 _ _ _ (Hin e' He')) as (x & Hk & Hx).
    rewrite Hl in Hx. injection Hk as Hk1 Hk2 Hk3. apply elem_of_app in Hx as [[_ Hx]%elem_of_without|(e & -> & Hx)%list_elem_of_fmap].
    + by destruct Hx.
    + exists e. by rewrite Hev, elem_of_slice_stable.
  - rewrite Hev. exact (slice_stable_sorted recent_event _).
  - intros c' H1 H2. unfold repo_Get, player_stmt. rewrite H1, H2, Hprof, lookup_insert_eq. simpl.
    rewrite Hof, take_ge by (rewrite length_slice_stable; lia). rewrite <- Hev. by destruct sn.
Qed.

(** C36. Linking a player stores what the provider says of him: the profile of the
    user becomes that player, the one asked for on the server asked for, never
    verified, and it keeps its identifier and the time it was first linked; its events
    are those of the provider as the table keeps them, none is missing, they come
    newest first and are all counted as kills or deaths; and the profile reads back as
    it was answered. *)
Theorem Link_correct c who d request r d' user :
  account_of c who d user -> Link s c who request d = (Ok r, d') ->
  exists server player events,
    NormalizeServer (lr_Server request) = Some server /\
    fetchSnapshot s c server (TrimSpace (lr_PlayerID request)) = Ok (player, events) /\
    pl_Server player = server /\ pl_PlayerID player = TrimSpace (lr_PlayerID request) /\
    let p := cr_Profile r in
    pw_Player p = player /\ pw_VerificationStatus p = "unverified" /\
    (forall old, py_profiles d !! user = Some old -> pw_ID p = pw_ID old /\ pw_LinkedAt p = pw_LinkedAt old) /\
    (forall e, e ∈ cr_Events r -> exists e', e' ∈ events /\ stored_event e' = Ok e) /\
    (forall e', e' ∈ events -> exists e, e ∈ cr_Events r /\ ev_EventID e = ev_EventID e' /\ ev_Result e = ev_Result e') /\
    StronglySorted (not_after recent_event) (cr_Events r) /\
    su_RecentKills (cr_Summary r) + su_RecentDeaths (cr_Summary r) = Z.of_nat (length (cr_Events r)) /\
    forall c', yc_outcome c' YGet = Done -> yc_outcome c' YEvents = Done ->
      repo_Get YGet YEvents c' user d' = Ok {| sn_Profile := p; sn_Events := cr_Events r |}.
Proof.
  intros Hu Hl. unfold Link in Hl. destruct (NormalizeServer _) as [server|] eqn:Hs; [|done].
  destruct (bad_player_id _); [done|].
  edestruct (with_user_of (A := CurrentResponse) c who d user) as (a & Ha); [exact Hu|]. rewrite Ha in Hl. clear Ha.
  destruct (fetchSnapshot _ _ _ _) as [[player events]|] eqn:Hf; [|done].
  pose proof Hf as Hf'. unfold fetchSnapshot in Hf'. apply rbind_ok in Hf' as (? & Hp%provider_Player_server & Hf').
  apply rbind_ok in Hf' as (? & He%provider_Events_limit & [= -> ->]).
  destruct (bool_decide (pl_PlayerID player = _)) eqn:Hid; [|done]. bool_facts.
  destruct (repo_Save _ _ _ _ _ _) as [[sn|] d''] eqn:Hsave; [|done]. injection Hl as <- <-.
  apply repo_Save_reads in Hsave as (Hup & Hstored & Hall & Hsorted & Hread); [|done].
  pose proof Hup as (Hpl & Hver & _ & _ & _ & Hold)%upsert_player_ok.
  exists server, player, events. cbn zeta. split_and!; try done.
  - intros old Ho. cbn in Hold. by rewrite Ho in Hold.
  - apply (responseFromSnapshot_counts sn). intros e (e' & _ & Hst%stored_event_checks)%Hstored. apply Hst.
  - intros c' H1 H2. rewrite (Hread c' H1 H2). by destruct sn.
Qed.

End profile.

(** * Examples *)

#[local] Existing Instance plain_unicode.
#[local] Existing Instance sample_entitlements.

Definition page (body : string) : option (Z * stream) := Some (200, {| st_bytes := quoted body; st_end := AtEOF |}).

(** A provider that knows one player, with a kill and a death. *)
Definition sample_web : web := fun url =>
  let base := "https://gameinfo-ams.albiononline.com/api/gameinfo" in
  if bool_decide (url = base +:+ "/players/p%201")
  then page "{'Id':' p 1 ','Name':'Nacho','GuildName':'','KillFame':900,'DeathFame':100,'FameRatio':9.0,'New':1}"
  else if bool_decide (url = base +:+ "/players/p%201/kills?limit=20&offset=0")
  then page "[{'EventId':7,'TimeStamp':'2024-05-01T10:00:00Z','Killer':{'Name':'Nacho','Equipment':{'MainHand':{'Type':'T8_BOW'},'Head':{'Type':'T8_HEAD'}}},'Victim':{'Name':' Ana '},'TotalVictimKillFame':50,'numberOfParticipants':1,'groupMemberCount':1}]"
  else if bool_decide (url = base +:+ "/players/p%201/deaths?limit=20&offset=0")
  then page "[{'EventId':8,'TimeStamp':'2024-05-02T10:00:00Z','Killer':{'Name':'Bo'},'Victim':{'Name':'Nacho'},'numberOfParticipants':2}]"
  else if bool_decide (url = base +:+ "/search?q=nacho")
  then page "{'players':[{'Id':'a','Name':'Nacho2','KillFame':5000},{'Id':'b','Name':'NACHO'},{'Id':'c','Name':' '}]}"
  else None.

Definition no_web : web := fun _ => None.

Definition player_quiet (net : web) (now : time) : player_call :=
  {| yc_account := account_quiet (1200 * second); yc_now := now; yc_later := now; yc_tx_now := now; yc_new_id := "n1";
     yc_net := net; yc_message := "Albion API returned status 503"; yc_outcome := fun _ => Done |}.

Definition sample_service : PlayerService := {| ps_cooldown := 600 * second; ps_eventLimit := 20 |}.

(** The profile of somebody else. *)
Definition other_player : Player :=
  {| pl_Server := "asia"; pl_PlayerID := "q"; pl_PlayerName := "Otto"; pl_GuildID := None; pl_GuildName := None;
     pl_AllianceID := None; pl_AllianceName := None; pl_Avatar := None; pl_AvatarRing := None; pl_KillFame := 0;
     pl_DeathFame := 0; pl_FameRatio := f_zero |}.

Definition other_row : player_row :=
  {| pw_ID := "n0"; pw_Player := other_player; pw_VerificationStatus := "unverified"; pw_LinkedAt := 0;
     pw_LastRefreshedAt := Some 0; pw_LastRefreshAttempt := Some 0; pw_LastRefreshStatus := "ok";
     pw_LastRefreshError := None |}.

Definition other_events : list (string * Event) :=
  match provider_Events sample_web "europe" "p 1" 20 with
  | Ok (e :: _) => [("n0", e)]
  | _ => []
  end.

Definition players (user : string) : PlayerDB :=
  {| py_accounts := one_account; py_profiles := {[user := other_row]}; py_events := other_events |}.

Definition player_request (method body : string) : HttpRequest :=
  {| hr_Method := method; hr_TLS := true; hr_Header := fun _ => EmptyString;
     hr_Query := fun _ => EmptyString; hr_PathValue := fun _ => EmptyString;
     hr_Body := {| st_bytes := quoted body; st_end := AtEOF |};
     hr_Identity := Some sample_identity; hr_CorrelationID := EmptyString |}.

Definition link_body : string := "{'server':' Europe ','playerId':'p 1'}".

#[local] Abbreviation linked := (serve_player sample_service (player_quiet sample_web (1200 * second)) (player_request "PUT" link_body) (players "other")).

(** A profile is linked; the requests that are refused: a server, an identifier and
    a body that are not accepted, a player the provider does not know - an internal
    error -, no profile to read, to refresh or to delete, and a method. *)
Example player_statuses :
  (map (fun q => rs_Status (serve_player sample_service (player_quiet sample_web (1200 * second))
                              (player_request q.1 q.2) (players "other")).1)
    [("PUT", link_body); ("PUT", "{'server':'oceania','playerId':'p 1'}"); ("PUT", "{'server':'asia','playerId':'a/b'}");
     ("PUT", "{'server':'asia','player':'p'}"); ("PUT", link_body +:+ "{}"); ("PUT", "{'server':'asia','playerId':'p 1'}");
     ("GET", EmptyString); ("DELETE", EmptyString); ("POST", EmptyString)],
   rs_Status (serve_player_refresh sample_service (player_quiet sample_web (1200 * second))
                (player_request "POST" EmptyString) (players "other")).1)
  = ([200; 400; 400; 400; 400; 500; 404; 404; 405], 404).
Proof. vm_compute. reflexivity. Qed.

(** The exact name comes first in a search, and a player without a name is left out;
    a name that is too short is reported as an unavailable provider. *)
Example player_searches :
  (match PlayerSearch (player_quiet sample_web 0) "europe" " nacho" with Ok l => map sr_PlayerID l | Err _ => [] end,
   rs_Status (serve_player_search (player_quiet sample_web 0)
     {| hr_Method := "GET"; hr_TLS := true; hr_Header := fun _ => EmptyString;
        hr_Query := fun key => if bool_decide (key = "name") then "ab" else "europe"; hr_PathValue := fun _ => EmptyString;
        hr_Body := {| st_bytes := EmptyString; st_end := AtEOF |};
        hr_Identity := None; hr_CorrelationID := EmptyString |}))
  = (["b"; "a"], 502).
Proof. vm_compute. reflexivity. Qed.

(** 1.4 s to wait are announced as one second. *)
Example cooldown_rounding : map cooldown_seconds [second / 2; 14 * (second / 10); 15 * (second / 10); 600 * second] = [1; 1; 2; 600].
Proof. vm_compute. reflexivity. Qed.

Lemma provider_Events_correct_witness :
  exists events, provider_Events sample_web "europe" "p 1" 20 = Ok events /\
    map ev_Result events = ["death"; "kill"] /\
    StronglySorted (fun a b => ev_OccurredAt b <= ev_OccurredAt a) events.
Proof.
  destruct (provider_Events sample_web "europe" "p 1" 20) as [events|] eqn:E; [|vm_compute in E; discriminate].
  exists events. destruct (provider_Events_correct _ _ _ _ _ E) as (kills & deaths & rest & _ & _ & _ & _ & Hs & _).
  split_and!; [done| |exact Hs]. vm_compute in E. injection E as <-. reflexivity.
Defined.

Lemma player_account d : py_accounts d = one_account -> account_of (player_quiet no_web 0) sample_identity d sample_user.
Proof. intros Hd. unfold account_of. rewrite Hd. eexists _, _. split; [exact sample_access|]. vm_compute. reflexivity. Qed.

(** The provider fails at 2000 s; the user has to wait until 2600 s. *)
Lemma refresh_cooldown_witness :
  let d1 := (Refresh sample_service (player_quiet no_web (2000 * second)) sample_identity (players sample_user)).2 in
  let d2 := set_player_accounts one_account d1 in
  (Refresh sample_service (player_quiet sample_web (2100 * second)) sample_identity d2).1 = Err (PlayerCooldown (500 * second)).
Proof.
  intros d1 d2.
  destruct (Refresh sample_service (player_quiet no_web (2000 * second)) sample_identity (players sample_user)) as [res d'] eqn:E.
  destruct (refresh_cooldown sample_service (player_quiet no_web (2000 * second)) (player_quiet sample_web (2100 * second))
    sample_identity sample_identity (players sample_user) res d1 d2 sample_user) as (a & Ha).
  - exact (player_account (players sample_user) eq_refl).
  - rewrite E. reflexivity.
  - right. split; [|split; reflexivity]. exists RequestFailed. vm_compute in E. by injection E as <- _.
  - reflexivity.
  - exact (player_account d2 eq_refl).
  - reflexivity.
  - reflexivity.
  - vm_compute. reflexivity.
  - rewrite Ha. vm_compute. reflexivity.
Defined.

Lemma players_wf user : player_wf (players user).
Proof.
  split; unfold players; simpl.
  - intros u1 u2 r1 r2 [<- _]%lookup_singleton_Some [<- _]%lookup_singleton_Some. done.
  - intros u r [_ <-]%lookup_singleton_Some. split_and!; [vm_compute; reflexivity|done|left].
  - intros e He. exists user, other_row. rewrite lookup_singleton_eq. split; [done|].
    vm_compute in He. apply list_elem_of_singleton in He as ->. reflexivity.
  - assert (length other_events = 1)%nat as Hl by (vm_compute; reflexivity). destruct other_events as [|e [|]]; try done. apply NoDup_singleton.
  - intros e He. vm_compute in He. apply list_elem_of_singleton in He as ->. split; [right; left|]. simpl. lia.
Qed.

(** Somebody else's profile survives the linking of one. *)
Lemma player_requests_isolated_witness :
  let d' := (serve_player sample_service (player_quiet sample_web (1200 * second)) (player_request "PUT" link_body) (players "other")).2 in
  py_profiles d' !! "other" = Some other_row /\ pw_ID <$> py_profiles d' !! sample_user = Some "n1".
Proof.
  intros d'.
  destruct (player_requests_isolated sample_service (player_quiet sample_web (1200 * second)) (player_request "PUT" link_body) (players "other")
    _ _ (players_wf "other") ltac:(intros u r Hr; cbn in Hr; by apply lookup_singleton_Some in Hr as [_ <-])
    (or_introl (surjective_pairing _))) as [_ Ho].
  split; [|vm_compute; reflexivity]. refine (eq_trans (proj1 (Ho "other" _)) eq_refl).
  intros (who & [= <-] & access & a & Ha & Hu). change (Accounts.Current (account_quiet (1200 * second)) sample_identity one_account = (Ok access, a)) in Ha.
  rewrite sample_access in Ha. injection Ha as <- _. vm_compute in Hu. discriminate.
Defined.

Lemma Link_correct_witness :
  exists r d', Link sample_service (player_quiet sample_web (1200 * second)) sample_identity
      {| lr_Server := " Europe "; lr_PlayerID := "p 1" |} (players sample_user) = (Ok r, d') /\
    pw_ID (cr_Profile r) = "n0" /\ pw_LinkedAt (cr_Profile r) = 0 /\ pl_PlayerID (pw_Player (cr_Profile r)) = "p 1".
Proof.
  destruct (Link sample_service (player_quiet sample_web (1200 * second)) sample_identity
      {| lr_Server := " Europe "; lr_PlayerID := "p 1" |} (players sample_user)) as [[r|] d'] eqn:E; [|vm_compute in E; discriminate].
  exists r, d'. split; [done|].
  destruct (Link_correct sample_service _ _ _ _ _ _ _ (player_account (players sample_user) eq_refl : account_of (player_quiet sample_web (1200 * second)) _ _ _) E)
    as (server & player & events & _ & _ & _ & Hp & Hpl & _ & Hold & _).
  destruct (Hold other_row eq_refl) as [H1 H2]. split_and!; [done|done|]. by rewrite Hpl, Hp.
Defined.
