(* ===== verification/BillingHandler.v ===== *)
(** The payment provider, [internal/billing/provider.go], whose HTTP client is a
    parameter; and the billing endpoints: [CreateCheckout] and [CustomerPortal] of
    [internal/billing/service.go], and [internal/billing/handler.go]. *)
From S2P Require Import Prelude GoLists GoBase Float64 Dates Strconv Webhook BillingDB Utf8 Json Billing BillingQueue Accounts Http PlayerProfile.
Local Open Scope Z_scope.

Record CheckoutRequest := { ck_UserID : string; ck_Email : string; ck_DisplayName : string }.

Record LemonProvider := {
  lp_apiBaseURL : string;
  lp_apiKey : string;
  lp_storeID : string;
  lp_variantID : string;
  lp_checkoutRedirectURL : string;
  lp_testMode : bool;
}.

Record LemonProviderConfig := { lc_Provider : LemonProvider; lc_HTTPTimeout : duration }.

Definition NewLemonProvider (cfg : LemonProviderConfig) : option LemonProvider :=
  let p := lc_Provider cfg in
  if existsb (fun v => is_empty (TrimSpace v))
       [lp_apiBaseURL p; lp_apiKey p; lp_storeID p; lp_variantID p; lp_checkoutRedirectURL p]
     || (lc_HTTPTimeout cfg <=? 0)
  then None
  else Some {| lp_apiBaseURL := TrimRight (lp_apiBaseURL p) "/"; lp_apiKey := lp_apiKey p; lp_storeID := lp_storeID p;
               lp_variantID := lp_variantID p; lp_checkoutRedirectURL := lp_checkoutRedirectURL p;
               lp_testMode := lp_testMode p |}.

(** * [mustParseID]

    [fmt.Sscan] reads the first integer of the text, with the prefixes of the bases:
    a leading zero means octal.  What cannot be read is 0. *)

(** The digits of the token, underscores included, as far as they go. *)
Fixpoint scan_digits (base : Z) (s : string) : string :=
  match s with
  | String c s' =>
      if bool_decide (c = "_"%char) || bool_decide (is_Some (digit_of base c)) then String c (scan_digits base s')
      else EmptyString
  | EmptyString => EmptyString
  end.

(** The prefix of the base, the base of the digits that follow, and the rest. *)
Definition scan_prefix (s : string) : string * Z * string :=
  match s with
  | String "0"%char s' =>
      match s' with
      | String c s'' =>
          let l := lower_byte c in
          if bool_decide (l = "b"%char) then (String "0" (String c EmptyString), 2, s'')
          else if bool_decide (l = "o"%char) then (String "0" (String c EmptyString), 8, s'')
          else if bool_decide (l = "x"%char) then (String "0" (String c EmptyString), 16, s'')
          else ("0", 8, s')
      | EmptyString => ("0", 8, s')
      end
  | _ => (EmptyString, 10, s)
  end.

Definition mustParseID (value : string) : Z :=
  let s := TrimLeftSpace value in
  let '(neg, s) := match s with
    | String c s' =>
        if bool_decide (c = "+"%char) then (false, s')
        else if bool_decide (c = "-"%char) then (true, s') else (false, s)
    | EmptyString => (false, s) end in
  let '(prefix, base, rest) := scan_prefix s in
  let digits := scan_digits base rest in
  (* the token is read again by ParseInt, for which a prefix of two characters is followed by a digit *)
  if is_empty digits && negb (bool_decide (prefix = "0")) then 0 else
  match digits_value base 0 digits with
  | Some n =>
      let n := if neg : bool then - n else n in
      if underscoreOK (prefix +:+ digits) && (min_int64 <=? n) && (n <=? max_int64) then n else 0
  | None => 0
  end.

(** * Requests *)

(** The parts of [lemonCheckoutRequest] that are not constants; the options of the
    page are fixed. *)
Record lemonCheckoutRequest := {
  lq_RedirectURL : string;
  lq_EnabledVariants : list Z;
  lq_Locale : string;
  lq_Email : string;
  lq_Name : string;
  lq_Custom : gmap string string;
  lq_TestMode : bool;
  lq_Store : string * string;
  lq_Variant : string * string;
}.

Record lemon_request := {
  lr_Method : string;
  lr_URL : string;
  lr_Authorization : string;
  lr_Payload : option lemonCheckoutRequest;
}.

(** The answer of the provider: a status and a body, or nothing. *)
Definition lemon_client := lemon_request -> option (Z * stream).

Definition billing_response_limit : Z := Z.shiftl 1 20.

Section provider.
Context `{Unicode}.
Variable p : LemonProvider.

(** Every failure but that of building the request is [ErrProviderUnavailable]. *)
Definition doJSON {A} (client : lemon_client) (d : decoder A) (zero : A) (method path : string)
    (payload : option lemonCheckoutRequest) : option A :=
  '(status, body) ← client {| lr_Method := method; lr_URL := lp_apiBaseURL p +:+ path;
                              lr_Authorization := "Bearer " +:+ lp_apiKey p; lr_Payload := payload |};
  let limited := LimitReader (billing_response_limit + 1) body in
  match st_end limited with
  | AtEOF =>
      if billing_response_limit <? str_len (st_bytes limited) then None
      else if (status <? 200) || (300 <=? status) then None
      else Unmarshal d zero (st_bytes limited)
  | _ => None
  end.

(** [lemonCheckoutResponse] and [lemonSubscriptionResponse]: the address, which keeps
    its value when a member is given twice. *)
Definition dec_checkout_url : decoder string :=
  dec_known [("data", dec_known [("attributes", dec_known [("url", dec_string)])])].

Definition dec_portal_url : decoder string :=
  dec_known [("data", dec_known [("attributes", dec_known [("urls", dec_known [("customer_portal", dec_string)])])])].

Definition checkout_payload (input : CheckoutRequest) : lemonCheckoutRequest :=
  {| lq_RedirectURL := lp_checkoutRedirectURL p;
     lq_EnabledVariants := [mustParseID (lp_variantID p)];
     lq_Locale := "es";
     lq_Email := TrimSpace (ck_Email input);
     lq_Name := TrimSpace (ck_DisplayName input);
     lq_Custom := {["user_id" := ck_UserID input]};
     lq_TestMode := lp_testMode p;
     lq_Store := ("stores", lp_storeID p);
     lq_Variant := ("variants", lp_variantID p) |}.

(** The address of the session. *)
Definition session_url (r : option string) : option string :=
  url ← r; let url := TrimSpace url in if is_empty url then None else Some url.

Definition provider_CreateCheckout (client : lemon_client) (input : CheckoutRequest) : option string :=
  if is_empty (TrimSpace (ck_UserID input)) then None
  else session_url (doJSON client dec_checkout_url EmptyString "POST" "/v1/checkouts" (Some (checkout_payload input))).

Definition provider_CustomerPortal (client : lemon_client) (providerSubscriptionID : string) : option string :=
  let providerSubscriptionID := TrimSpace providerSubscriptionID in
  if is_empty providerSubscriptionID then None
  else session_url (doJSON client dec_portal_url EmptyString "GET"
                      ("/v1/subscriptions/" +:+ PathEscape providerSubscriptionID) None).
End provider.

(** A leading zero makes a number octal. *)
Example parsed_ids :
  map mustParseID ["123"; "+123"; "0123"; "089"; "12a"; "0x10"; "1_000"; "_1"; EmptyString; "99999999999999999999"; "-5"]
  = [123; 123; 83; 0; 12; 16; 1000; 0; 0; 0; -5].
Proof. vm_compute. reflexivity. Qed.

(** ** The billing endpoints: [CreateCheckout] and [CustomerPortal] of [internal/billing/service.go] with the provider, and [internal/billing/handler.go]. *)

(** * State

    The tables of the webhooks and those of the accounts share the subscriptions and
    the users. *)
Record BillingState := {
  bs_db : BillingDB;
  bs_users : gmap string user_row;
  bs_plans : gmap (string * string) string;
  bs_overrides : gmap (string * string) override_row;
}.

Definition accounts_view (st : BillingState) : AccountsDB :=
  {| users := bs_users st; account_subscriptions := subscriptions (bs_db st);
     plan_entitlements := bs_plans st; overrides := bs_overrides st |}.

Definition user_ids (m : gmap string user_row) : gset string := map_to_set (fun _ r => us_ID r) m.

(** The accounts change the users only. *)
Definition with_accounts (a : AccountsDB) (st : BillingState) : BillingState :=
  let d := bs_db st in
  {| bs_db := {| app_users := user_ids (users a); webhook_events := webhook_events d; billing_orders := billing_orders d;
                 subscriptions := subscriptions d; outbox := outbox d |};
     bs_users := users a; bs_plans := bs_plans st; bs_overrides := bs_overrides st |}.

Definition set_billing (d : BillingDB) (st : BillingState) : BillingState :=
  {| bs_db := d; bs_users := bs_users st; bs_plans := bs_plans st; bs_overrides := bs_overrides st |}.

(** * Signatures *)

(** HMAC-SHA-256 of [crypto/hmac]: the secret and the message. *)
Class Hmac := hmac_sha256 : string -> string -> string.

Definition hex_digit_value (c : ascii) : option Z :=
  match digit_value c with Some d => Some d | None => hex_value c end.

(** [hex.DecodeString] *)
Fixpoint hex_decode (s : string) : option string :=
  match s with
  | EmptyString => Some EmptyString
  | String a (String b s') =>
      h ← hex_digit_value a; l ← hex_digit_value b; rest ← hex_decode s'; Some (String (byte (16 * h + l)) rest)
  | String _ EmptyString => None
  end.

Section billing.
Context `{Unicode, EntitlementEncoding, WebhookEncoding, EventConstraints, Sha256, Hmac}.

Definition validSignature (secret raw signature : string) : bool :=
  let signature := TrimSpace signature in
  if negb (str_len signature =? 64) then false else
  match hex_decode signature with
  | Some provided => if negb (str_len provided =? 32) then false else bool_decide (hmac_sha256 secret raw = provided)
  | None => false
  end.

(** * The service *)

Variable s : Service.
Variable provider : LemonProvider.

(** What a request meets: that of the accounts, that of the queries, and the
    provider. *)
Record billing_env := { be_account : account_call; be_call : call; be_client : lemon_client }.

Inductive checkout_error :=
  | CheckoutAccount (e : account_error)
  | CheckoutBilling (e : billing_error)
  | CheckoutProvider.

Definition with_access {A} (e : billing_env) (who : Identity) (st : BillingState)
    (k : User -> BillingState -> result checkout_error A) : result checkout_error A * BillingState :=
  let '(access, a) := Accounts.Current (be_account e) who (accounts_view st) in
  let st := with_accounts a st in
  (match access with
   | Err err => Err (CheckoutAccount err)
   | Ok access => k (a_User access) st
   end, st).

Definition CreateCheckout (e : billing_env) (who : Identity) (st : BillingState) : result checkout_error string * BillingState :=
  with_access e who st (fun user st =>
    let! _ := rmap_err CheckoutBilling (checkout_allowed s (be_call e) (u_ID user) (bs_db st)) in
    of_option CheckoutProvider
      (provider_CreateCheckout provider (be_client e)
         {| ck_UserID := u_ID user; ck_Email := default EmptyString (u_Email user);
            ck_DisplayName := default EmptyString (u_DisplayName user) |})).

Definition CustomerPortal (e : billing_env) (who : Identity) (st : BillingState) : result checkout_error string * BillingState :=
  with_access e who st (fun user st =>
    let! id := rmap_err CheckoutBilling (portal_subscription s (be_call e) (u_ID user) (bs_db st)) in
    of_option CheckoutProvider (provider_CustomerPortal provider (be_client e) id)).

(** * The handlers *)

Record BillingHandler := {
  bh_webhookSecret : string;
  bh_maxWebhookBodyBytes : Z;
  bh_webhookIngestTimeout : duration;
}.

Inductive billing_body :=
  | BillingMessage (message : string)
  | BillingURL (url : string)
  | BillingWebhook (r : WebhookResult).

Definition billing_reply (status : Z) (headers : list (string * string)) (body : billing_body) : Response billing_body :=
  {| rs_Status := status; rs_Headers := no_store :: headers ++ [json_type]; rs_Body := body |}.

Definition billing_not_allowed : Response billing_body :=
  billing_reply StatusMethodNotAllowed [("Allow", "POST")] (BillingMessage "method not allowed").

(** The error of a session; [conflict] is the one of its own. *)
Definition session_error (conflict : billing_error -> option (Z * string)) (e : checkout_error) : Response billing_body :=
  match e with
  | CheckoutBilling err =>
      match conflict err with
      | Some (status, message) => billing_reply status [] (BillingMessage message)
      | None => billing_reply StatusInternalServerError [] (BillingMessage "internal server error")
      end
  | CheckoutProvider => billing_reply StatusBadGateway [] (BillingMessage "billing provider unavailable")
  | CheckoutAccount _ => billing_reply StatusInternalServerError [] (BillingMessage "internal server error")
  end.

Definition checkout_conflict (e : billing_error) : option (Z * string) :=
  match e with AlreadySubscribed => Some (StatusConflict, "subscription already exists") | _ => None end.

Definition portal_conflict (e : billing_error) : option (Z * string) :=
  match e with SubscriptionMissing => Some (StatusNotFound, "subscription not found") | _ => None end.

Definition serve_session (action : billing_env -> Identity -> BillingState -> result checkout_error string * BillingState)
    (conflict : billing_error -> option (Z * string)) (created : Z) (e : billing_env) (r : HttpRequest) (st : BillingState)
    : Response billing_body * BillingState :=
  if negb (bool_decide (hr_Method r = "POST")) then (billing_not_allowed, st) else
  match hr_Identity r with
  | None => (billing_reply StatusUnauthorized [] (BillingMessage "unauthorized"), st)
  | Some who =>
      let '(res, st') := action e who st in
      (match res with
       | Ok url => billing_reply created [] (BillingURL url)
       | Err err => session_error conflict err
       end, st')
  end.

Definition serve_checkout : billing_env -> HttpRequest -> BillingState -> Response billing_body * BillingState :=
  serve_session CreateCheckout checkout_conflict StatusCreated.

Definition serve_portal : billing_env -> HttpRequest -> BillingState -> Response billing_body * BillingState :=
  serve_session CustomerPortal portal_conflict StatusOK.

Definition json_content_type (value : string) : bool :=
  match ParseMediaType (TrimSpace value) with Some m => EqualFold m "application/json" | None => false end.

(** [Webhook]: the rest of it once the body is read. *)
Definition accept_webhook (h : BillingHandler) (c : call) (eventName raw signature : string) (d : BillingDB)
    : Response billing_body * BillingDB :=
  if is_empty raw then (billing_reply StatusBadRequest [] (BillingMessage "request body is empty"), d)
  else if negb (validSignature (bh_webhookSecret h) raw signature)
  then (billing_reply StatusUnauthorized [] (BillingMessage "invalid webhook signature"), d)
  else
    let '(res, d') := EnqueueWebhook s c raw eventName d in
    (match res with
     | Ok result => billing_reply StatusOK [] (BillingWebhook result)
     | Err err =>
         if is_invalid_webhook err then billing_reply StatusBadRequest [] (BillingMessage "invalid webhook payload")
         else billing_reply StatusServiceUnavailable [] (BillingMessage "webhook queue unavailable")
     end, d').

Definition serve_webhook (h : BillingHandler) (c : call) (r : HttpRequest) (d : BillingDB)
    : Response billing_body * BillingDB :=
  if negb (bool_decide (hr_Method r = "POST")) then (billing_not_allowed, d)
  else if is_empty (bh_webhookSecret h) || (bh_maxWebhookBodyBytes h <=? 0) || (bh_webhookIngestTimeout h <=? 0)
  then (billing_reply StatusServiceUnavailable [] (BillingMessage "billing unavailable"), d)
  else if negb (json_content_type (hr_Header r "Content-Type"))
  then (billing_reply StatusUnsupportedMediaType [] (BillingMessage "content type must be application/json"), d)
  else
    let eventName := TrimSpace (hr_Header r "X-Event-Name") in
    if negb (isSupportedWebhookEvent eventName)
    then (billing_reply StatusBadRequest [] (BillingMessage "unsupported webhook event"), d)
    else
      let body := MaxBytesReader (bh_maxWebhookBodyBytes h) (hr_Body r) in
      match st_end body with
      | TooLarge => (billing_reply StatusRequestEntityTooLarge [] (BillingMessage "request body too large"), d)
      | ReadError => (billing_reply StatusBadRequest [] (BillingMessage "invalid request body"), d)
      | AtEOF => accept_webhook h c eventName (st_bytes body) (hr_Header r "X-Signature") d
      end.
End billing.
