(* ===== verification/BillingHandlerSpec.v ===== *)
(** What the billing endpoints promise: only signed bodies reach the queue, and a
    session is asked for in the name of the user who pays. *)
From S2P Require Import Prelude GoLists GoBase Float64 Dates Webhook BillingDB Utf8 Json Billing BillingQueue BillingSamples Accounts AccountsSpec SavedDataSpec Http BillingHandler.
Local Open Scope Z_scope.

(** * Webhooks *)

Section billing.
Context `{Unicode, EntitlementEncoding, WebhookEncoding, EventConstraints, Sha256, Hmac}.
Variable s : Service.

(** A delivery that is accepted for the queue: a [POST] of JSON for an event that is
    known, whose whole body, within the limit, is signed with the secret. *)
Record authentic (h : BillingHandler) (r : HttpRequest) : Prop := {
  au_method : hr_Method r = "POST";
  au_secret : bh_webhookSecret h <> EmptyString;
  au_limits : 0 < bh_maxWebhookBodyBytes h /\ 0 < bh_webhookIngestTimeout h;
  au_content : json_content_type (hr_Header r "Content-Type") = true;
  au_event : isSupportedWebhookEvent (TrimSpace (hr_Header r "X-Event-Name")) = true;
  au_body : st_end (hr_Body r) = AtEOF /\ 0 < str_len (st_bytes (hr_Body r)) <= bh_maxWebhookBodyBytes h;
  au_signature : exists signature,
    hex_decode (TrimSpace (hr_Header r "X-Signature")) = Some signature /\
    str_len (TrimSpace (hr_Header r "X-Signature")) = 64 /\
    signature = hmac_sha256 (bh_webhookSecret h) (st_bytes (hr_Body r));
}.

Lemma hex_decode_length t b : hex_decode t = Some b -> str_len t = 2 * str_len b.
Proof.
  revert b. unfold str_len. induction t as [t IH] using (induction_ltof1 _ String.length). unfold ltof in IH.
  intros b. destruct t as [|x [|y t]]; simpl; [by intros [= <-]|done|].
  destruct (hex_digit_value x); simpl; [|done]. destruct (hex_digit_value y); simpl; [|done].
  destruct (hex_decode t) as [b'|] eqn:E; simpl; [|done]. intros [= <-]. apply IH in E; [|simpl; lia]. simpl. lia.
Qed.

Lemma validSignature_spec secret raw signature :
  validSignature secret raw signature = true <->
  exists sig, hex_decode (TrimSpace signature) = Some sig /\ str_len (TrimSpace signature) = 64 /\ sig = hmac_sha256 secret raw.
Proof.
  unfold validSignature. split.
  - destruct (str_len _ =? 64) eqn:Hl; [|done]. simpl. destruct (hex_decode _) as [p|] eqn:Hd; [|done].
    destruct (negb _); [done|]. intros Hb. bool_facts. by exists p.
  - intros (sig & Hd & Hl & ->). rewrite Hl, Hd. simpl. pose proof (hex_decode_length _ _ Hd) as Hlen. rewrite Hl in Hlen.
    rewrite (proj2 (Z.eqb_eq _ 32)) by lia. simpl. by apply bool_decide_eq_true.
Qed.

(** C9. Only what the provider signed reaches the queue.  A delivery that is not
    authentic is refused without a trace; the bytes of an authentic one are enqueued
    as they were signed, and it is acknowledged with 200 exactly when they are
    queued. *)
Theorem webhook_authentic h c r d resp d' :
  serve_webhook s h c r d = (resp, d') ->
  (~ authentic h r -> d' = d /\ 400 <= rs_Status resp < 600) /\
  (authentic h r -> exists res,
     EnqueueWebhook s c (st_bytes (hr_Body r)) (TrimSpace (hr_Header r "X-Event-Name")) d = (res, d') /\
     rs_Status resp = match res with Ok _ => 200 | Err e => if is_invalid_webhook e then 400 else 503 end /\
     forall w, res = Ok w -> rs_Body resp = BillingWebhook w).
Proof.
  intros Hs. unfold serve_webhook in Hs.
  destruct (bool_decide (hr_Method r = "POST")) eqn:Hm; bool_facts.
  2: { injection Hs as <- <-. split; [done|intros []; congruence]. }
  destruct (is_empty (bh_webhookSecret h) || _ || _) eqn:Hc; cbn [negb] in Hs.
  { injection Hs as <- <-. split; [done|]. intros [_ Hsec [Hb Ht] _ _ _ _]. apply is_empty_false in Hsec.
    rewrite Hsec, (proj2 (Z.leb_gt _ _) Hb), (proj2 (Z.leb_gt _ _) Ht) in Hc. done. }
  apply orb_false_iff in Hc as [[Hsec Hb]%orb_false_iff Ht]. bool_facts.
  destruct (json_content_type _) eqn:Hj; cbn [negb] in Hs.
  2: { injection Hs as <- <-. split; [done|intros []; congruence]. }
  destruct (isSupportedWebhookEvent _) eqn:Hev; cbn [negb] in Hs.
  2: { injection Hs as <- <-. split; [done|intros []; congruence]. }
  unfold MaxBytesReader in Hs. destruct (str_len (st_bytes (hr_Body r)) <=? _) eqn:Hl; bool_facts.
  2: { simpl in Hs. injection Hs as <- <-. split; [done|]. intros [_ _ _ _ _ [_ ?] _]. lia. }
  destruct (st_end (hr_Body r)) eqn:He.
  2-3: injection Hs as <- <-; split; [done|]; intros [_ _ _ _ _ [? _] _]; congruence.
  unfold accept_webhook in Hs. destruct (is_empty (st_bytes (hr_Body r))) eqn:Hr.
  { injection Hs as <- <-. split; [done|]. intros [_ _ _ _ _ [_ [Hpos _]] _]. apply str_len_pos in Hpos. congruence. }
  apply str_len_pos in Hr.
  destruct (validSignature _ _ _) eqn:Hv; cbn [negb] in Hs.
  2: { injection Hs as <- <-. split; [done|]. intros [_ _ _ _ _ _ Hsig]. apply validSignature_spec in Hsig. congruence. }
  apply validSignature_spec in Hv. destruct (EnqueueWebhook _ _ _ _ _) as [res d''] eqn:Hq. injection Hs as <- <-.
  split.
  - intros []. split; try done. by apply is_empty_false.
  - intros _. exists res. split_and!; [done| |by intros w ->]. destruct res as [w|e]; [done|]. by destruct (is_invalid_webhook e).
Qed.

(** * Sessions *)

Variable provider : LemonProvider.

(** A row of a subscription of the user that stands in the way of another. *)
Definition in_the_way (now : time) (user : string) (r : subscription_row) : Prop :=
  sr_UserID r = user /\ sr_Provider r = providerName s /\ is_Some (sr_SubscriptionID r) /\
  (sr_Status r ∈ ["trialing"; "active"; "past_due"] \/
   sr_Status r = "canceled" /\ exists t, sr_AccessUntil r = Some t /\ now < t).

Lemma subscribed_spec now user r : subscribed s now user r = true <-> in_the_way now user r.
Proof.
  unfold subscribed, in_the_way. rewrite !andb_true_iff, orb_true_iff, andb_true_iff, !bool_decide_eq_true.
  destruct (sr_AccessUntil r) as [t|]; [rewrite Z.ltb_lt; naive_solver|]. naive_solver.
Qed.

Lemma session_url_ok r url : session_url r = Some url -> exists u, r = Some u /\ url = TrimSpace u /\ url <> EmptyString.
Proof.
  unfold session_url. destruct r as [u|]; simpl; [|done]. destruct (is_empty _) eqn:E; [done|]. intros [= <-].
  exists u. split_and!; [done..|]. by apply is_empty_false.
Qed.

(** What the provider was asked, when it gave an address. *)
Lemma doJSON_asked {A} client (d : decoder A) zero method path payload a :
  doJSON provider client d zero method path payload = Some a ->
  exists status body,
    client {| lr_Method := method; lr_URL := lp_apiBaseURL provider +:+ path;
              lr_Authorization := "Bearer " +:+ lp_apiKey provider; lr_Payload := payload |} = Some (status, body) /\
    200 <= status < 300.
Proof.
  unfold doJSON. destruct (client _) as [[status body]|]; simpl; [|done]. intros Ha. exists status, body. split; [done|].
  destruct (st_end _); [|done..]. destruct (_ <? _); [done|]. destruct (_ || _) eqn:E; [done|]. bool_facts. lia.
Qed.

(** C23. A checkout is for the user who asks for it: the address answered is one the
    provider gave, with a 2xx, for a request that names this user - the [user_id] the
    webhooks will bring back - and the store and the variant that are configured, and
    none of the user's subscriptions was in the way; otherwise the provider is not
    asked.  Nothing but the user's own row may change. *)
Theorem checkout_for_self e who st url st' :
  CreateCheckout s provider e who st = (Ok url, st') ->
  exists access a,
    Accounts.Current (be_account e) who (accounts_view st) = (Ok access, a) /\ st' = with_accounts a st /\
    let user := u_ID (a_User access) in
    (forall r, r ∈ subscriptions (bs_db st') -> ~ in_the_way (c_tx_now (be_call e)) user r) /\
    url <> EmptyString /\
    exists payload status body,
      be_client e {| lr_Method := "POST"; lr_URL := lp_apiBaseURL provider +:+ "/v1/checkouts";
                     lr_Authorization := "Bearer " +:+ lp_apiKey provider; lr_Payload := Some payload |}
        = Some (status, body) /\ 200 <= status < 300 /\
      lq_Custom payload = {["user_id" := user]} /\ lq_Store payload = ("stores", lp_storeID provider) /\
      lq_Variant payload = ("variants", lp_variantID provider) /\ lq_TestMode payload = lp_testMode provider.
Proof.
  unfold CreateCheckout, with_access. destruct (Accounts.Current _ _ _) as [[access|] a] eqn:Hc; [|done].
  intros Hk. injection Hk as Hk <-. exists access, a. split_and!; [done..| | |].
  all: apply rbind_ok in Hk as (u & Hallowed & Hk).
  all: apply rmap_err_ok in Hallowed; unfold checkout_allowed in Hallowed.
  all: apply rbind_ok in Hallowed as (already & Hex & Hallowed).
  all: unfold exec in Hex; destruct (c_outcome _ _); [|done..].
  all: apply of_option_ok in Hk; unfold provider_CreateCheckout in Hk; destruct (is_empty (TrimSpace _)); [done|].
  all: apply session_url_ok in Hk as (raw & Hdo & -> & Hne).
  - intros r Hr Hw%subscribed_spec. simpl in Hex. injection Hex as <-.
    rewrite (proj2 (existsb_exists _ _)) in Hallowed; [done|]. exists r. split; [by apply list_elem_of_In|done].
  - done.
  - apply doJSON_asked in Hdo as (status & body & Hcl & Hst). eexists _, status, body.
    split; [exact Hcl|]. split; [exact Hst|]. by split_and!.
Qed.
End billing.

(** * Examples *)

Section witnesses.
#[local] Existing Instance queue_constraints.
#[local] Existing Instance sample_entitlements.

(** The secret and the message, padded to 32 bytes. *)
#[local] Instance sample_hmac : Hmac :=
  fun secret m => of_bytes (take 32 (bytes_of secret ++ bytes_of m ++ replicate 32 "0"%char)).

Definition sample_handler : BillingHandler :=
  {| bh_webhookSecret := "whsec"; bh_maxWebhookBodyBytes := 1024; bh_webhookIngestTimeout := second |}.

Definition webhook_request (signed body event : string) : HttpRequest :=
  {| hr_Method := "POST"; hr_TLS := true;
     hr_Header := fun key =>
       if bool_decide (key = "Content-Type") then "application/json; charset=utf-8"
       else if bool_decide (key = "X-Event-Name") then event
       else if bool_decide (key = "X-Signature") then hex_of (hmac_sha256 "whsec" signed)
       else EmptyString;
     hr_Query := fun _ => EmptyString; hr_PathValue := fun _ => EmptyString;
     hr_Body := {| st_bytes := body; st_end := AtEOF |}; hr_Identity := None; hr_CorrelationID := EmptyString |}.

(** A delivery, the same with another body, an unknown event, a payload of another
    event, and a body that is not there. *)
Example webhook_statuses :
  map (fun q => rs_Status (serve_webhook sample_service sample_handler (quiet (1000 * second))
                             (webhook_request q.1.1 q.1.2 q.2) sample_db).1)
    [("created", "created", " subscription_created "); ("created", "moved", "subscription_created");
     ("created", "created", "subscription_exploded"); ("created", "created", "order_created");
     (EmptyString, EmptyString, "order_created")]
  = [200; 401; 400; 400; 400].
Proof. vm_compute. reflexivity. Qed.

Lemma webhook_authentic_witness :
  let d' := (serve_webhook sample_service sample_handler (quiet (1000 * second))
               (webhook_request "created" "created" "subscription_created") sample_db).2 in
  exists res, EnqueueWebhook sample_service (quiet (1000 * second)) "created" "subscription_created" sample_db = (res, d') /\
    is_ok res = true.
Proof.
  intros d'.
  destruct (webhook_authentic sample_service sample_handler (quiet (1000 * second))
    (webhook_request "created" "created" "subscription_created") sample_db _ _ (surjective_pairing _)) as [_ Ha].
  destruct Ha as (res & Hres & Hst & _).
  { constructor.
    - reflexivity.
    - discriminate.
    - split; reflexivity.
    - vm_compute. reflexivity.
    - vm_compute. reflexivity.
    - split; [reflexivity|]. vm_compute. split; [reflexivity|discriminate].
    - eexists. split; [vm_compute; reflexivity|]. split; vm_compute; reflexivity. }
  exists res. split; [exact Hres|]. destruct res as [w|e]; [done|]. exfalso. vm_compute in Hst. by destruct e.
Defined.

Definition sample_lemon : LemonProvider :=
  {| lp_apiBaseURL := "https://api.lemonsqueezy.com"; lp_apiKey := "key"; lp_storeID := "11"; lp_variantID := "33";
     lp_checkoutRedirectURL := "https://example.com/account"; lp_testMode := false |}.

Definition sample_client : lemon_client := fun q =>
  if bool_decide (lr_URL q = "https://api.lemonsqueezy.com/v1/checkouts")
  then Some (201, {| st_bytes := quoted "{'data':{'attributes':{'url':' https://pay.example.com/1 '}}}"; st_end := AtEOF |})
  else None.

Definition sample_env (client : lemon_client) : billing_env :=
  {| be_account := account_quiet (1200 * second); be_call := quiet (1200 * second); be_client := client |}.

Definition buyer_state (l : list subscription_row) : BillingState :=
  {| bs_db := set_subscriptions l sample_db; bs_users := users one_account; bs_plans := ∅; bs_overrides := ∅ |}.

Lemma checkout_for_self_witness :
  exists url st', CreateCheckout sample_service sample_lemon (sample_env sample_client) sample_identity (buyer_state [])
    = (Ok url, st') /\ url = "https://pay.example.com/1" /\
    exists payload status body, sample_client {| lr_Method := "POST"; lr_URL := "https://api.lemonsqueezy.com/v1/checkouts";
      lr_Authorization := "Bearer key"; lr_Payload := Some payload |} = Some (status, body) /\
      lq_Custom payload = {["user_id" := sample_user]}.
Proof.
  destruct (CreateCheckout sample_service sample_lemon (sample_env sample_client) sample_identity (buyer_state []))
    as [[url|] st'] eqn:E; [|vm_compute in E; discriminate].
  exists url, st'. split; [done|].
  destruct (checkout_for_self sample_service sample_lemon _ _ _ _ _ E) as (access & a & Ha & _ & _ & _ & payload & status & body & Hc & _ & Hu & _).
  split; [vm_compute in E; by injection E as <- _|]. exists payload, status, body. split; [exact Hc|].
  rewrite Hu. change (Accounts.Current (account_quiet (1200 * second)) sample_identity one_account = (Ok access, a)) in Ha.
  rewrite sample_access in Ha. injection Ha as <- _. vm_compute. reflexivity.
Defined.
End witnesses.
