(* ===== verification/Config.v ===== *)
(** The configuration: [internal/config] ([config.go], [auth.go] and [billing.go]).
    The environment, the files and the [.env] files are arguments. *)
From S2P Require Import Prelude GoLists GoBase Float64 Utf8 Http IngestAuth Strconv.
Local Open Scope Z_scope.

(** * The outside *)

(** The environment of the process. *)
Definition environ := gmap string string.

(** [os.Stat] and [os.ReadFile]. *)
Record file_info := { fi_IsDir : bool; fi_Size : Z; fi_Perm : Z }.

Record files := {
  fs_Stat : string -> option file_info;
  fs_ReadFile : string -> option string;
  fs_windows : bool;
}.

(** What [godotenv.Load] finds in a file: nothing if there is no such file or it is
    not well formed. *)
Definition dotenv := string -> environ.

(** What the package uses of a parsed address. *)
Record url := { url_Scheme : string; url_Host : string; url_String : string }.

Class Urls := url_Parse : string -> option url.

(** * Errors *)

Inductive credential_error := BadCredentialID | ShortToken | LongToken | BlankInToken | PlaceholderToken | KnownToken.

Inductive config_error :=
  | EnvInvalid (key : string)
  | EnvOutOfRange (key : string)
  | EnvRequired (key : string)
  | EnvProduction (key : string)
  | SecretExclusive (key : string)
  | SecretUnreadable (key : string)
  | SecretNotFile (key : string)
  | SecretTooLarge (key : string)
  | SecretTooBroad (key : string)
  | SecretEmpty (key : string)
  | CredentialError (which : string) (e : credential_error)
  | SameCredentialID
  | SameCredentialToken.

(** * Reading the environment *)

Definition maxSecretFileBytes : Z := Z.shiftl 16 10.

Section config.
Context `{Unicode}.

(** [os.Getenv] *)
Definition Getenv (env : environ) (key : string) : string := default EmptyString (env !! key).

Definition getEnv (env : environ) (key fallback : string) : string :=
  if is_empty (Getenv env key) then fallback else Getenv env key.

(** A variable that is read unless it is blank. *)
Definition read_env {A} (env : environ) (key : string) (fallback : A) (read : string -> option A) : result config_error A :=
  let value := TrimSpace (Getenv env key) in
  if is_empty value then Ok fallback else of_option (EnvInvalid key) (read value).

Definition durationEnv (env : environ) (key : string) (fallback : duration) : result config_error duration :=
  read_env env key fallback (fun value => d ← time_ParseDuration value; if d <=? 0 then None else Some d).

Definition int64Env (env : environ) (key : string) (fallback : Z) : result config_error Z :=
  read_env env key fallback (fun value => n ← ParseInt min_int64 max_int64 value; if n <=? 0 then None else Some n).

(** An [int] has 64 bits. *)
Definition intEnv (env : environ) (key : string) (fallback : Z) : result config_error Z :=
  int64Env env key fallback.

Definition float64Env (env : environ) (key : string) (fallback : float64) : result config_error float64 :=
  read_env env key fallback (fun value => f ← strconv_ParseFloat value; if f_leb f f_zero then None else Some f).

Definition boolEnv (env : environ) (key : string) (fallback : bool) : result config_error bool :=
  read_env env key fallback ParseBool.

Definition csv_entries (value : string) : list string :=
  dedup (List.filter (fun entry => negb (is_empty entry)) (map TrimSpace (Split value ","))).

Definition csvEnv (env : environ) (key : string) (fallback : list string) : list string :=
  match env !! key with None => fallback | Some value => csv_entries value end.

Definition is_production (appEnv : string) : bool := bool_decide (appEnv = "production").

Definition defaultCORSOrigins (appEnv : string) : list string :=
  if is_production appEnv then []
  else ["http://localhost:5173"; "http://127.0.0.1:5173"; "http://localhost:4173"; "http://127.0.0.1:4173"].

Definition defaultLogFormat (appEnv : string) : string := if is_production appEnv then "json" else "text".

(** * The files of the environment *)

(** [godotenv.Load] sets the variables that are not set. *)
Definition load_file (dot : dotenv) (env : environ) (name : string) : environ := env ∪ dot name.

Definition app_environment (env : environ) (fallback : string) : string :=
  ToLower (TrimSpace (getEnv env "APP_ENV" fallback)).

Definition loadDotEnvFiles (dot : dotenv) (env : environ) : result config_error environ :=
  let initialEnvironment := app_environment env "development" in
  let! loadFiles := boolEnv env "LOAD_DOTENV" (negb (is_production initialEnvironment)) in
  Ok (if loadFiles : bool then
        let env := load_file dot env ".env.local" in
        let environment := app_environment env initialEnvironment in
        let env :=
          if is_empty environment then env
          else load_file dot (load_file dot env (".env." +:+ environment +:+ ".local")) (".env." +:+ environment) in
        load_file dot env ".env"
      else env).

(** * Secrets *)

Definition validateSecretFilePermissions (fs : files) (filePath : string) (mode : Z) (appEnv fileEnv : string)
    : result config_error unit :=
  if negb (is_production appEnv) || fs_windows fs then Ok tt
  else
    let cleanPath := Clean filePath in
    if bool_decide (cleanPath = "/run/secrets") || HasPrefix cleanPath "/run/secrets/" then Ok tt
    else if negb (Z.land mode 63 =? 0) then Err (SecretTooBroad fileEnv)
    else Ok tt.

(** The secret and where it is from. *)
Definition secretFromEnvOrFile (fs : files) (env : environ) (valueEnv fileEnv appEnv : string)
    : result config_error (string * string) :=
  let value := TrimSpace (Getenv env valueEnv) in
  let filePath := TrimSpace (Getenv env fileEnv) in
  fail_if negb (is_empty value) && negb (is_empty filePath) with SecretExclusive valueEnv else
  if negb (is_empty value) then Ok (value, "environment")
  else if is_empty filePath then Ok (EmptyString, EmptyString)
  else
    let! info := of_option (SecretUnreadable fileEnv) (fs_Stat fs filePath) in
    fail_if fi_IsDir info with SecretNotFile fileEnv else
    fail_if maxSecretFileBytes <? fi_Size info with SecretTooLarge fileEnv else
    let! _ := validateSecretFilePermissions fs filePath (fi_Perm info) appEnv fileEnv in
    let! content := of_option (SecretUnreadable fileEnv) (fs_ReadFile fs filePath) in
    let secret := TrimSpace content in
    fail_if is_empty secret with SecretEmpty fileEnv else
    Ok (secret, "file").

(** * Credentials *)

Definition credential_id_byte (c : ascii) : bool :=
  in_range 97 122 c || in_range 65 90 c || in_range 48 57 c
  || bool_decide (c = "."%char) || bool_decide (c = "_"%char) || bool_decide (c = "-"%char).

(** The loop over the characters accepts bytes below 128 only. *)
Definition validCredentialID (value : string) : bool :=
  (1 <=? str_len value) && (str_len value <=? 64) && str_all credential_id_byte value.

(** [unicode.IsSpace] and [unicode.IsControl] *)
Definition IsSpace (r : Z) : bool :=
  ((9 <=? r) && (r <=? 13)) || (r =? 32) || (r =? 133) || (r =? 160) || (r =? 5760)
  || ((8192 <=? r) && (r <=? 8202)) || (r =? 8232) || (r =? 8233) || (r =? 8239) || (r =? 8287) || (r =? 12288).

Definition IsControl (r : Z) : bool := ((0 <=? r) && (r <=? 31)) || ((127 <=? r) && (r <=? 159)).

Definition validateCredential (id token : string) (minimumLength : Z) : result credential_error unit :=
  fail_if negb (validCredentialID id) with BadCredentialID else
  fail_if str_len token <? minimumLength with ShortToken else
  fail_if maxSecretFileBytes <? str_len token with LongToken else
  fail_if existsb (fun r => IsSpace r || IsControl r) (runes token) with BlankInToken else
  fail_if Contains (ToUpper token) "CHANGE_ME" || Contains (ToUpper token) "REPLACE_ME" with PlaceholderToken else
  fail_if bool_decide (ToLower token ∈ ["secret"; "token"; "password"; "changeme"]) with KnownToken else
  Ok tt.

Record CredentialSource := { cs_ID : string; cs_Source : string }.

Definition loadIngestCredentials (fs : files) (env : environ) (appEnv : string) (minimumLength : Z)
    : result config_error (list Credential * list CredentialSource) :=
  let currentID := TrimSpace (getEnv env "INGEST_BEARER_TOKEN_ID" "current") in
  let! (currentToken, currentSource) :=
    secretFromEnvOrFile fs env "INGEST_BEARER_TOKEN" "INGEST_BEARER_TOKEN_FILE" appEnv in
  fail_if is_empty currentToken with EnvRequired "INGEST_BEARER_TOKEN" else
  let! _ := rmap_err (CredentialError "current") (validateCredential currentID currentToken minimumLength) in
  let credentials := [{| ID := currentID; Token := currentToken |}] in
  let sources := [{| cs_ID := currentID; cs_Source := currentSource |}] in
  let previousID := TrimSpace (getEnv env "INGEST_BEARER_TOKEN_PREVIOUS_ID" "previous") in
  let! (previousToken, previousSource) :=
    secretFromEnvOrFile fs env "INGEST_BEARER_TOKEN_PREVIOUS" "INGEST_BEARER_TOKEN_PREVIOUS_FILE" appEnv in
  if is_empty previousToken then Ok (credentials, sources)
  else
    let! _ := rmap_err (CredentialError "previous") (validateCredential previousID previousToken minimumLength) in
    fail_if bool_decide (previousID = currentID) with SameCredentialID else
    fail_if bool_decide (previousToken = currentToken) with SameCredentialToken else
    Ok (credentials ++ [{| ID := previousID; Token := previousToken |}],
        sources ++ [{| cs_ID := previousID; cs_Source := previousSource |}]).

(** * The configuration of the server *)

Record ConfigT := {
  AppEnv : string;
  HTTPAddr : string;
  DatabaseURL : string;
  ReadTimeout : duration;
  ReadHeaderTimeout : duration;
  WriteTimeout : duration;
  IdleTimeout : duration;
  MaxHeaderBytes : Z;
  IngestCredentials : list Credential;
  IngestCredentialSources : list CredentialSource;
  IngestRequireHTTPS : bool;
  MaxIngestBodyBytes : Z;
  MaxPublicBodyBytes : Z;
  CORSAllowedOrigins : list string;
  RateLimitEnabled : bool;
  RateLimitRequestsPerSec : float64;
  RateLimitBurst : Z;
  RateLimitClientTTL : duration;
  TrustProxy : bool;
  LogColor : string;
  LogFormat : string;
}.

(** [Load] once the files have been read. *)
Definition load_config (fs : files) (env : environ) : result config_error ConfigT :=
  let appEnv := let e := app_environment env "development" in if is_empty e then "development" else e in
  let! readTimeout := durationEnv env "READ_TIMEOUT" (5 * second) in
  let! readHeaderTimeout := durationEnv env "READ_HEADER_TIMEOUT" (2 * second) in
  let! writeTimeout := durationEnv env "WRITE_TIMEOUT" (10 * second) in
  let! idleTimeout := durationEnv env "IDLE_TIMEOUT" (60 * second) in
  let! maxHeaderBytes := intEnv env "MAX_HEADER_BYTES" (Z.shiftl 1 20) in
  let! maxIngestBodyBytes := int64Env env "MAX_INGEST_BODY_BYTES" (Z.shiftl 5 20) in
  let! maxPublicBodyBytes := int64Env env "MAX_PUBLIC_BODY_BYTES" (Z.shiftl 1 20) in
  let! rateLimitEnabled := boolEnv env "RATE_LIMIT_ENABLED" true in
  let! rateLimitRequestsPerSec := float64Env env "RATE_LIMIT_REQUESTS_PER_SECOND" (of_Z 20) in
  let! rateLimitBurst := intEnv env "RATE_LIMIT_BURST" 40 in
  let! rateLimitClientTTL := durationEnv env "RATE_LIMIT_CLIENT_TTL" (10 * minute) in
  let! trustProxyHeaders := boolEnv env "TRUST_PROXY_HEADERS" false in
  let! ingestRequireHTTPS := boolEnv env "INGEST_REQUIRE_HTTPS" (is_production appEnv) in
  let logFormat := ToLower (TrimSpace (getEnv env "LOG_FORMAT" (defaultLogFormat appEnv))) in
  fail_if negb (bool_decide (logFormat = "text")) && negb (bool_decide (logFormat = "json")) with EnvInvalid "LOG_FORMAT" else
  let! minimumTokenLength := intEnv env "INGEST_MIN_TOKEN_LENGTH" 32 in
  fail_if (minimumTokenLength <? 16) || (maxSecretFileBytes <? minimumTokenLength)
    with EnvOutOfRange "INGEST_MIN_TOKEN_LENGTH" else
  fail_if is_production appEnv && (minimumTokenLength <? 32) with EnvProduction "INGEST_MIN_TOKEN_LENGTH" else
  let! (databaseURL, _) := secretFromEnvOrFile fs env "DATABASE_URL" "DATABASE_URL_FILE" appEnv in
  let! (credentials, credentialSources) := loadIngestCredentials fs env appEnv minimumTokenLength in
  let cfg :=
    {| AppEnv := appEnv;
       HTTPAddr := TrimSpace (getEnv env "HTTP_ADDR" ":8080");
       DatabaseURL := databaseURL;
       ReadTimeout := readTimeout;
       ReadHeaderTimeout := readHeaderTimeout;
       WriteTimeout := writeTimeout;
       IdleTimeout := idleTimeout;
       MaxHeaderBytes := maxHeaderBytes;
       IngestCredentials := credentials;
       IngestCredentialSources := credentialSources;
       IngestRequireHTTPS := ingestRequireHTTPS;
       MaxIngestBodyBytes := maxIngestBodyBytes;
       MaxPublicBodyBytes := maxPublicBodyBytes;
       CORSAllowedOrigins := csvEnv env "CORS_ALLOWED_ORIGINS" (defaultCORSOrigins appEnv);
       RateLimitEnabled := rateLimitEnabled;
       RateLimitRequestsPerSec := rateLimitRequestsPerSec;
       RateLimitBurst := rateLimitBurst;
       RateLimitClientTTL := rateLimitClientTTL;
       TrustProxy := trustProxyHeaders;
       LogColor := getEnv env "LOG_COLOR" "auto";
       LogFormat := logFormat |} in
  fail_if is_empty (HTTPAddr cfg) with EnvRequired "HTTP_ADDR" else
  fail_if is_empty (DatabaseURL cfg) with EnvRequired "DATABASE_URL" else
  fail_if RateLimitEnabled cfg && f_leb (RateLimitRequestsPerSec cfg) f_zero
    with EnvOutOfRange "RATE_LIMIT_REQUESTS_PER_SECOND" else
  fail_if RateLimitEnabled cfg && (RateLimitBurst cfg <=? 0) with EnvOutOfRange "RATE_LIMIT_BURST" else
  fail_if is_production (AppEnv cfg) && bool_decide ("*" ∈ CORSAllowedOrigins cfg) with EnvProduction "CORS_ALLOWED_ORIGINS" else
  Ok cfg.

(** The configuration and the environment it leaves. *)
Definition Load (fs : files) (dot : dotenv) (env : environ) : result config_error (ConfigT * environ) :=
  let! env := loadDotEnvFiles dot env in
  let! cfg := load_config fs env in
  Ok (cfg, env).

(** * The authentication of users *)

Definition productionAuthIssuer : string := "https://albion-production-calculator.us.auth0.com/".
Definition productionAuthAudience : string := "https://albion-market-api".

(** [authn.Config] *)
Record AuthConfig := {
  au_Enabled : bool;
  au_Issuer : string;
  au_Audience : string;
  au_CacheTTL : duration;
  au_HTTPTimeout : duration;
  au_ClockSkew : duration;
}.

Definition absolute_url `{Urls} (key s : string) : result config_error url :=
  let! u := of_option (EnvInvalid key) (url_Parse s) in
  fail_if is_empty (url_Scheme u) || is_empty (url_Host u) with EnvInvalid key else Ok u.

Definition LoadAccountAuth `{Urls} (env : environ) (appEnv : string) : result config_error AuthConfig :=
  let production := EqualFold (TrimSpace appEnv) "production" in
  let! enabled := boolEnv env "AUTH_ENABLED" false in
  let! emergencyDisabled := boolEnv env "AUTH_EMERGENCY_DISABLED" false in
  let enabled := if production then negb emergencyDisabled else enabled in
  let! cacheTTL := durationEnv env "AUTH_JWKS_CACHE_TTL" (15 * minute) in
  let! timeout := durationEnv env "AUTH_HTTP_TIMEOUT" (5 * second) in
  let! skew := durationEnv env "AUTH_CLOCK_SKEW" (30 * second) in
  let cfg :=
    {| au_Enabled := enabled;
       au_Issuer := if production then productionAuthIssuer else TrimSpace (getEnv env "AUTH_ISSUER" EmptyString);
       au_Audience := if production then productionAuthAudience else TrimSpace (getEnv env "AUTH_AUDIENCE" EmptyString);
       au_CacheTTL := cacheTTL; au_HTTPTimeout := timeout; au_ClockSkew := skew |} in
  if negb enabled then Ok cfg
  else
    let! issuer := absolute_url "AUTH_ISSUER" (au_Issuer cfg) in
    fail_if production && negb (bool_decide (url_Scheme issuer = "https")) with EnvProduction "AUTH_ISSUER" else
    fail_if is_empty (au_Audience cfg) with EnvRequired "AUTH_AUDIENCE" else
    fail_if (cacheTTL <? minute) || (timeout <? second) || (skew <? 0) with EnvOutOfRange "AUTH" else
    Ok {| au_Enabled := enabled; au_Issuer := TrimRight (url_String issuer) "/" +:+ "/"; au_Audience := au_Audience cfg;
          au_CacheTTL := cacheTTL; au_HTTPTimeout := timeout; au_ClockSkew := skew |}.

(** * Billing *)

Definition defaultLemonSqueezyAPIBaseURL : string := "https://api.lemonsqueezy.com".

Record BillingConfig := {
  bc_Enabled : bool;
  bc_Provider : string;
  bc_APIBaseURL : string;
  bc_APIKey : string;
  bc_StoreID : string;
  bc_VariantID : string;
  bc_WebhookSecret : string;
  bc_CheckoutRedirectURL : string;
  bc_TestMode : bool;
  bc_GracePeriod : duration;
  bc_HTTPTimeout : duration;
  bc_MaxWebhookBodyBytes : Z;
  bc_WebhookIngestTimeout : duration;
  bc_WorkerPollInterval : duration;
  bc_WorkerJobTimeout : duration;
  bc_WorkerLeaseDuration : duration;
  bc_WorkerBaseRetryDelay : duration;
  bc_WorkerMaxRetryDelay : duration;
  bc_WorkerBatchSize : Z;
  bc_WorkerMaxAttempts : Z;
}.

Definition positiveNumericIdentifier (name value : string) : result config_error unit :=
  match ParseInt min_int64 max_int64 value with
  | Some n => if n <=? 0 then Err (EnvInvalid name) else Ok tt
  | None => Err (EnvInvalid name)
  end.

Definition read_billing (fs : files) (env : environ) (appEnv : string) : result config_error BillingConfig :=
  let! enabled := boolEnv env "BILLING_ENABLED" false in
  let! testMode := boolEnv env "BILLING_TEST_MODE" true in
  let! gracePeriod := durationEnv env "BILLING_GRACE_PERIOD" (7 * (24 * hour)) in
  let! httpTimeout := durationEnv env "BILLING_HTTP_TIMEOUT" (10 * second) in
  let! maxWebhookBodyBytes := int64Env env "BILLING_MAX_WEBHOOK_BODY_BYTES" (Z.shiftl 1 20) in
  let! webhookIngestTimeout := durationEnv env "BILLING_WEBHOOK_INGEST_TIMEOUT" 1500000000 in
  let! workerPollInterval := durationEnv env "BILLING_WEBHOOK_WORKER_POLL_INTERVAL" 250000000 in
  let! workerJobTimeout := durationEnv env "BILLING_WEBHOOK_JOB_TIMEOUT" (15 * second) in
  let! workerLeaseDuration := durationEnv env "BILLING_WEBHOOK_LEASE_DURATION" minute in
  let! workerBaseRetryDelay := durationEnv env "BILLING_WEBHOOK_BASE_RETRY_DELAY" (5 * second) in
  let! workerMaxRetryDelay := durationEnv env "BILLING_WEBHOOK_MAX_RETRY_DELAY" (15 * minute) in
  let! workerBatchSize := intEnv env "BILLING_WEBHOOK_BATCH_SIZE" 10 in
  let! workerMaxAttempts := intEnv env "BILLING_WEBHOOK_MAX_ATTEMPTS" 8 in
  let! (apiKey, _) := secretFromEnvOrFile fs env "LEMONSQUEEZY_API_KEY" "LEMONSQUEEZY_API_KEY_FILE" appEnv in
  let! (webhookSecret, _) := secretFromEnvOrFile fs env "LEMONSQUEEZY_WEBHOOK_SECRET" "LEMONSQUEEZY_WEBHOOK_SECRET_FILE" appEnv in
  Ok {| bc_Enabled := enabled;
        bc_Provider := ToLower (TrimSpace (getEnv env "BILLING_PROVIDER" "lemonsqueezy"));
        bc_APIBaseURL := TrimRight (TrimSpace (getEnv env "LEMONSQUEEZY_API_BASE_URL" defaultLemonSqueezyAPIBaseURL)) "/";
        bc_APIKey := apiKey;
        bc_StoreID := TrimSpace (getEnv env "LEMONSQUEEZY_STORE_ID" EmptyString);
        bc_VariantID := TrimSpace (getEnv env "LEMONSQUEEZY_PRO_VARIANT_ID" EmptyString);
        bc_WebhookSecret := webhookSecret;
        bc_CheckoutRedirectURL := TrimSpace (getEnv env "BILLING_CHECKOUT_REDIRECT_URL" EmptyString);
        bc_TestMode := testMode; bc_GracePeriod := gracePeriod; bc_HTTPTimeout := httpTimeout;
        bc_MaxWebhookBodyBytes := maxWebhookBodyBytes; bc_WebhookIngestTimeout := webhookIngestTimeout;
        bc_WorkerPollInterval := workerPollInterval; bc_WorkerJobTimeout := workerJobTimeout;
        bc_WorkerLeaseDuration := workerLeaseDuration; bc_WorkerBaseRetryDelay := workerBaseRetryDelay;
        bc_WorkerMaxRetryDelay := workerMaxRetryDelay; bc_WorkerBatchSize := workerBatchSize;
        bc_WorkerMaxAttempts := workerMaxAttempts |}.

(** [x] is outside of [lo .. hi]. *)
Definition out_of (lo hi x : Z) : bool := (x <? lo) || (hi <? x).

(** The bounds, in the order of the code. *)
Definition validate_bounds (c : BillingConfig) : result config_error unit :=
  fail_if out_of 0 (30 * (24 * hour)) (bc_GracePeriod c) with EnvOutOfRange "BILLING_GRACE_PERIOD" else
  fail_if out_of second minute (bc_HTTPTimeout c) with EnvOutOfRange "BILLING_HTTP_TIMEOUT" else
  fail_if out_of 1024 (Z.shiftl 5 20) (bc_MaxWebhookBodyBytes c) with EnvOutOfRange "BILLING_MAX_WEBHOOK_BODY_BYTES" else
  fail_if (bc_WebhookIngestTimeout c <? 100000000) || (2 * second <=? bc_WebhookIngestTimeout c)
    with EnvOutOfRange "BILLING_WEBHOOK_INGEST_TIMEOUT" else
  fail_if out_of 100000000 minute (bc_WorkerPollInterval c) with EnvOutOfRange "BILLING_WEBHOOK_WORKER_POLL_INTERVAL" else
  fail_if out_of second (5 * minute) (bc_WorkerJobTimeout c) with EnvOutOfRange "BILLING_WEBHOOK_JOB_TIMEOUT" else
  fail_if (bc_WorkerLeaseDuration c <=? bc_WorkerJobTimeout c) || (30 * minute <? bc_WorkerLeaseDuration c)
    with EnvOutOfRange "BILLING_WEBHOOK_LEASE_DURATION" else
  fail_if out_of second hour (bc_WorkerBaseRetryDelay c) with EnvOutOfRange "BILLING_WEBHOOK_BASE_RETRY_DELAY" else
  fail_if out_of (bc_WorkerBaseRetryDelay c) (24 * hour) (bc_WorkerMaxRetryDelay c)
    with EnvOutOfRange "BILLING_WEBHOOK_MAX_RETRY_DELAY" else
  fail_if out_of 1 100 (bc_WorkerBatchSize c) with EnvOutOfRange "BILLING_WEBHOOK_BATCH_SIZE" else
  fail_if out_of 1 50 (bc_WorkerMaxAttempts c) with EnvOutOfRange "BILLING_WEBHOOK_MAX_ATTEMPTS" else
  Ok tt.

(** What billing in production asks for besides. *)
Definition validate_billing_urls `{Urls} (c : BillingConfig) (appEnv : string) : result config_error unit :=
  let! apiURL := absolute_url "LEMONSQUEEZY_API_BASE_URL" (bc_APIBaseURL c) in
  let! redirect := absolute_url "BILLING_CHECKOUT_REDIRECT_URL" (bc_CheckoutRedirectURL c) in
  let production := EqualFold (TrimSpace appEnv) "production" in
  fail_if production && (negb (bool_decide (url_Scheme apiURL = "https")) || negb (bool_decide (url_Scheme redirect = "https")))
    with EnvProduction "BILLING_URLS" else
  fail_if production && bc_TestMode c with EnvProduction "BILLING_TEST_MODE" else
  fail_if production && negb (bool_decide (bc_APIBaseURL c = defaultLemonSqueezyAPIBaseURL))
    with EnvProduction "LEMONSQUEEZY_API_BASE_URL" else
  fail_if production && (str_len (bc_WebhookSecret c) <? 32) with EnvProduction "LEMONSQUEEZY_WEBHOOK_SECRET" else
  Ok tt.

Definition LoadBilling `{Urls} (fs : files) (env : environ) (appEnv : string) : result config_error BillingConfig :=
  let! cfg := read_billing fs env appEnv in
  if negb (bc_Enabled cfg) then Ok cfg
  else
    fail_if negb (bool_decide (bc_Provider cfg = "lemonsqueezy")) with EnvInvalid "BILLING_PROVIDER" else
    fail_if is_empty (bc_APIKey cfg) with EnvRequired "LEMONSQUEEZY_API_KEY" else
    fail_if is_empty (bc_WebhookSecret cfg) with EnvRequired "LEMONSQUEEZY_WEBHOOK_SECRET" else
    let! _ := positiveNumericIdentifier "LEMONSQUEEZY_STORE_ID" (bc_StoreID cfg) in
    let! _ := positiveNumericIdentifier "LEMONSQUEEZY_PRO_VARIANT_ID" (bc_VariantID cfg) in
    let! _ := validate_bounds cfg in
    let! _ := validate_billing_urls cfg appEnv in
    Ok cfg.
End config.
