(* ===== verification/Startup.v ===== *)
(** The wiring of the server: [main] of [cmd/api/main.go] up to the listener, with
    [New] of [internal/authn/authn.go]. *)
From S2P Require Import Prelude GoLists GoBase Float64 Webhook BillingDB Json Billing BillingQueue Accounts Http RateLimiter IngestAuth IngestHandler UserAuth ObsMetrics Server PlayerProfile Strconv Config BillingHandler.
Local Open Scope Z_scope.

Inductive startup_error :=
  | ConfigFailed (e : config_error)
  | AuthConfigFailed (e : config_error)
  | BillingConfigFailed (e : config_error)
  | DatabaseFailed
  | PlayerProfilesFailed
  | AuthFailed
  | BillingProviderFailed
  | IngestAuthFailed (e : auth_config_error).

(** Billing when it is enabled. *)
Record BillingSystemParts := {
  bp_service : Service;
  bp_provider : LemonProvider;
  bp_handler : BillingHandler;
  bp_worker : WebhookWorkerConfig;
}.

Record System := {
  sy_config : ConfigT;
  sy_validator : option Validator;
  sy_keys_ttl : duration;
  sy_players : PlayerService;
  sy_billing : option BillingSystemParts;
  sy_ingest : IngestHandler;
  sy_rate : RateLimitOptions;
  sy_server : ServerConfig;
}.

Section startup.
Context `{Unicode} `{Urls} `{Sha256}.

(** [authn.New]: nothing when users are not authenticated. *)
Definition NewUserAuthenticator (cfg : AuthConfig) : result startup_error (option Validator) :=
  if negb (au_Enabled cfg) then Ok None
  else
    match url_Parse (TrimRight (TrimSpace (au_Issuer cfg)) "/" +:+ "/") with
    | Some issuer =>
        if is_empty (url_Scheme issuer) || is_empty (url_Host issuer) || is_empty (TrimSpace (au_Audience cfg))
        then Err AuthFailed
        else Ok (Some {| vl_issuer := url_String issuer; vl_audience := au_Audience cfg; vl_clockSkew := au_ClockSkew cfg |})
    | None => Err AuthFailed
    end.

Definition lemon_config (b : BillingConfig) : LemonProviderConfig :=
  {| lc_Provider := {| lp_apiBaseURL := bc_APIBaseURL b; lp_apiKey := bc_APIKey b; lp_storeID := bc_StoreID b;
                       lp_variantID := bc_VariantID b; lp_checkoutRedirectURL := bc_CheckoutRedirectURL b;
                       lp_testMode := bc_TestMode b |};
     lc_HTTPTimeout := bc_HTTPTimeout b |}.

Definition billing_service (b : BillingConfig) : Service :=
  NewService {| sc_ProviderName := bc_Provider b; sc_StoreID := bc_StoreID b; sc_VariantID := bc_VariantID b;
                sc_ExpectedTestMode := bc_TestMode b; sc_PastDueGracePeriod := bc_GracePeriod b |}.

Definition worker_config (b : BillingConfig) : WebhookWorkerConfig :=
  {| PollInterval := bc_WorkerPollInterval b; JobTimeout := bc_WorkerJobTimeout b;
     LeaseDuration := bc_WorkerLeaseDuration b; BaseRetryDelay := bc_WorkerBaseRetryDelay b;
     MaxRetryDelay := bc_WorkerMaxRetryDelay b; BatchSize := bc_WorkerBatchSize b; MaxAttempts := bc_WorkerMaxAttempts b |}.

Definition webhook_handler (b : BillingConfig) : BillingHandler :=
  {| bh_webhookSecret := bc_WebhookSecret b; bh_maxWebhookBodyBytes := bc_MaxWebhookBodyBytes b;
     bh_webhookIngestTimeout := bc_WebhookIngestTimeout b |}.

Definition configure_billing (b : BillingConfig) : result startup_error (option BillingSystemParts) :=
  if negb (bc_Enabled b) then Ok None
  else
    let! provider := of_option BillingProviderFailed (NewLemonProvider (lemon_config b)) in
    Ok (Some {| bp_service := billing_service b; bp_provider := provider; bp_handler := webhook_handler b;
                bp_worker := worker_config b |}).

(** The profiles of players are refreshed every five minutes and show fifty events. *)
Definition player_service : option PlayerService := NewPlayerService (5 * minute) 50.

Definition rate_options (cfg : ConfigT) : RateLimitOptions :=
  {| ro_Enabled := RateLimitEnabled cfg; ro_RequestsPerSecond := RateLimitRequestsPerSec cfg;
     ro_Burst := RateLimitBurst cfg; ro_ClientTTL := RateLimitClientTTL cfg; ro_TrustProxyHeaders := TrustProxy cfg |}.

Definition ingest_options (cfg : ConfigT) : Options :=
  {| RequireHTTPS := IngestRequireHTTPS cfg; TrustProxyHeaders := TrustProxy cfg |}.

(** The handler of the accounts has a database, and with it the admin panel. *)
Definition account_parts (billing : bool) : AccountRoutes :=
  {| ar_Handler := true; ar_AdminHandler := true; ar_Service := true; ar_BillingHandler := billing;
     ar_PlayerProfileHandler := true; ar_EconomicProfileHandler := true; ar_BlackMarketHandler := true;
     ar_SavedDataHandler := true; ar_Authenticator := true |}.

(** What is built from the three configurations. *)
Definition build (cfg : ConfigT) (auth : AuthConfig) (b : BillingConfig) : result startup_error System :=
  let! players := of_option PlayerProfilesFailed player_service in
  let! validator := NewUserAuthenticator auth in
  let! billing := configure_billing b in
  let! ingest := rmap_err IngestAuthFailed (NewAuthenticator (IngestCredentials cfg) (ingest_options cfg)) in
  Ok {| sy_config := cfg; sy_validator := validator; sy_keys_ttl := au_CacheTTL auth; sy_players := players;
        sy_billing := billing;
        sy_ingest := NewIngestHandler (Some ingest) (MaxIngestBodyBytes cfg);
        sy_rate := rate_options cfg;
        sy_server :=
          {| sc_AllowedOrigins := CORSAllowedOrigins cfg; sc_RateLimitEnabled := RateLimitEnabled cfg;
             sc_Routes := Some (account_parts (bool_decide (is_Some billing))); sc_Validator := validator |} |}.

(** [main]: the configurations, the database - [true] when it answers -, and the parts. *)
Definition startup (fs : files) (dot : dotenv) (env : environ) (database : bool) : result startup_error System :=
  let! (cfg, env) := rmap_err ConfigFailed (Load fs dot env) in
  let! auth := rmap_err AuthConfigFailed (LoadAccountAuth env (AppEnv cfg)) in
  let! billing := rmap_err BillingConfigFailed (LoadBilling fs env (AppEnv cfg)) in
  fail_if negb database with DatabaseFailed else
  build cfg auth billing.
End startup.
