(* ===== verification/ConfigSpec.v ===== *)
(** What an accepted configuration promises to the parts that are built from it.
    First, tokens without spaces: what the configuration checks rune by rune is what
    the header of a request is split by, byte by byte. *)
From S2P Require Import Prelude GoLists GoBase Float64 Strconv IngestAuth Webhook BillingDB Utf8 Json Billing BillingQueue BillingQueueSpec Accounts Http IngestHandler RateLimiter UserAuth ObsMetrics Server PlayerProfile BillingHandler Config Startup.
Local Open Scope Z_scope.

(** The rest of a rune follows continuation bytes. *)
Lemma decode_rune_rest a s r ok rest :
  decode_rune a s = (r, ok, rest) -> exists mid, s = mid +:+ rest /\ str_all continuation mid = true.
Proof.
  unfold decode_rune. intros Hd.
  assert (exists mid, s = mid +:+ s /\ str_all continuation mid = true) as H0 by by exists EmptyString.
  destruct (in_range 0 127 a); [by simplify_eq|].
  destruct (second_range a) as [[[lo hi] more]|] eqn:Hr; [|by simplify_eq].
  destruct (second_range_high _ _ _ _ Hr) as (_ & Hlo & Hhi & _).
  destruct s as [|b s1]; [by simplify_eq|].
  destruct (in_range lo hi b) eqn:Hb; simpl in Hd; [|by simplify_eq].
  pose proof (in_range_continuation _ _ _ Hlo Hhi Hb) as Hb'.
  destruct more as [|[|more]].
  - injection Hd as <- <- <-. exists (String b EmptyString). split; [reflexivity|]. simpl. by rewrite Hb'.
  - destruct s1 as [|c s2]; [by simplify_eq|]. destruct (continuation c) eqn:Hc; [|by simplify_eq].
    injection Hd as <- <- <-. exists (String b (String c EmptyString)). split; [reflexivity|]. simpl. by rewrite Hb', Hc.
  - destruct s1 as [|c [|d s3]]; try by simplify_eq.
    destruct (continuation c) eqn:Hc, (continuation d) eqn:Hdd; simpl in Hd; try by simplify_eq.
    injection Hd as <- <- <-. exists (String b (String c (String d EmptyString))).
    split; [reflexivity|]. simpl. by rewrite Hb', Hc, Hdd.
Qed.

(** Two ways to cut a string. *)
Lemma app_cut a t y p : a +:+ t = y +:+ p -> (exists x, y = a +:+ x /\ t = x +:+ p) \/ (exists z, a = y +:+ z /\ p = z +:+ t /\ z <> EmptyString).
Proof.
  revert y. induction a as [|c a IH]; intros y Hs.
  - left. by exists y.
  - destruct y as [|d y].
    + right. exists (String c a). split_and!; [done|symmetry; exact Hs|done].
    + rewrite !append_cons in Hs. injection Hs as -> Hs. apply IH in Hs as [(x & -> & ->)|(z & -> & -> & Hz)].
      * left. by exists x.
      * right. by exists z.
Qed.

(** A byte that does not continue a rune starts one. *)
Lemma runes_boundary n t x a u :
  (String.length t <= n)%nat -> t = x +:+ String a u -> continuation a = false ->
  (decode_rune a u).1.1 ∈ runes_fuel n t.
Proof.
  revert t x. induction n as [|n IH]; intros t x Hn -> Ha.
  - rewrite string_app_length in Hn. simpl in Hn. lia.
  - destruct x as [|b x].
    + change (EmptyString +:+ String a u) with (String a u). simpl. destruct (decode_rune a u) as [[r ok] rest]. left.
    + rewrite append_cons in *. simpl. destruct (decode_rune b (x +:+ String a u)) as [[r ok] rest] eqn:Hd.
      apply decode_rune_rest in Hd as (mid & Hs & Hmid). right.
      symmetry in Hs. apply app_cut in Hs as [(y & -> & ->)|(z & -> & Hz & Hne)].
      * apply (IH _ y); [|done..]. simpl in Hn. rewrite !string_app_length in *. lia.
      * exfalso. destruct z as [|c z]; [done|]. rewrite append_cons in Hz. injection Hz as -> _.
        rewrite str_all_app in Hmid. simpl in Hmid. rewrite Ha in Hmid. by destruct (str_all continuation x).
Qed.

(** * Spaces *)

Definition space_runes : list Z :=
  [9; 10; 11; 12; 13; 32; 133; 160; 5760; 8192; 8193; 8194; 8195; 8196; 8197; 8198; 8199; 8200; 8201; 8202; 8232; 8233;
   8239; 8287; 12288].

Lemma space_encodings_runes : space_encodings = map encode_rune space_runes.
Proof. vm_compute. reflexivity. Qed.

Lemma space_rune_scalar r : r ∈ space_runes -> scalar r /\ IsSpace r = true.
Proof.
  intros Hr. assert (forallb (fun r => (0 <=? r) && (r <=? 1114111) && negb (is_surrogate r) && IsSpace r) space_runes = true)
    as Hall by (vm_compute; reflexivity).
  rewrite forallb_forall in Hall. apply list_elem_of_In, Hall in Hr. bool_facts. by split; [split|].
Qed.

(** A string that starts with a space starts with the rune of one. *)
Lemma strip_first_space s v :
  strip_first space_encodings s = Some v ->
  exists a u, s = String a u /\ continuation a = false /\ IsSpace (decode_rune a u).1.1 = true.
Proof.
  intros (p & Hp & ->)%strip_first_app.
  assert (forallb (fun p => match p with String a _ => negb (continuation a) | EmptyString => false end) space_encodings = true)
    as Hhead by (vm_compute; reflexivity).
  rewrite forallb_forall in Hhead. pose proof (Hhead p (proj1 (list_elem_of_In _ _) Hp)) as Ha.
  rewrite space_encodings_runes in Hp. apply list_elem_of_fmap in Hp as (r & -> & Hr).
  apply space_rune_scalar in Hr as [Hsc Hsp]. destruct (decode_encode r Hsc) as (a & t & He & Hd). rewrite He in *.
  exists a, (t +:+ v). rewrite append_cons, Hd. bool_facts. by split_and!.
Qed.

(** A space is found. *)
Lemma strip_first_mem p s ps : p ∈ ps -> exists v, strip_first ps (p +:+ s) = Some v.
Proof.
  induction ps as [|q ps IH]; intros Hp; [by apply not_elem_of_nil in Hp|]. simpl.
  destruct (GoBase.strip_prefix q (p +:+ s)) as [v|] eqn:E; [by exists v|].
  apply elem_of_cons in Hp as [->|Hp]; [|by apply IH]. exfalso. revert E. clear.
  induction q as [|c q IH]; [done|]. rewrite append_cons. simpl. by rewrite bool_decide_eq_true_2.
Qed.

Definition spaceless (t : string) : Prop := forall r, r ∈ runes t -> IsSpace r = false.

Lemma spaceless_suffix t x u : spaceless t -> t = x +:+ u -> strip_first space_encodings u = None.
Proof.
  intros Hsp Ht. destruct (strip_first space_encodings u) as [v|] eqn:E; [|done]. exfalso.
  apply strip_first_space in E as (a & u' & -> & Ha & Hr).
  rewrite Hsp in Hr; [done|]. apply (runes_boundary _ _ x); [done|exact Ht|done].
Qed.

(** * The header *)

Lemma fields_plain n cur t :
  (forall x u, t = x +:+ u -> strip_first space_encodings u = None) -> (String.length t < n)%nat ->
  fields_fuel n cur t = if is_empty cur && is_empty t then [] else [String.rev cur +:+ t].
Proof.
  revert n cur. induction t as [|c t IH]; intros n cur Hno Hn; (destruct n as [|n]; [simpl in Hn; lia|]); cbn [fields_fuel].
  - rewrite (Hno EmptyString EmptyString) by done. destruct cur; [done|]. simpl. by rewrite app_nil_r_string.
  - rewrite (Hno EmptyString (String c t)) by done. simpl in Hn. rewrite IH; [|intros x u ->; by apply (Hno (String c x))|lia].
    simpl. rewrite andb_false_r. by rewrite rev_cons, app_assoc_string.
Qed.

Lemma bearer_trimmed t : spaceless t -> t <> EmptyString -> TrimSpace ("Bearer " +:+ t) = "Bearer " +:+ t.
Proof.
  intros Hsp Hne. apply TrimSpace_id. split; [by apply strip_first_graphic|].
  destruct (strip_first space_encodings_rev _) as [v|] eqn:E; [|done]. exfalso.
  apply strip_first_app in E as (q & Hq & E).
  assert ("Bearer " +:+ t = String.rev v +:+ String.rev q) as Hs by (by rewrite <- Utf8.rev_app_distr, <- E, Utf8.rev_involutive).
  assert (String.rev q ∈ space_encodings) as Hp.
  { change space_encodings_rev with (map String.rev space_encodings) in Hq. apply list_elem_of_fmap in Hq as (p & -> & Hp).
    by rewrite Utf8.rev_involutive. }
  apply app_cut in Hs as [(x & _ & Ht)|(z & Hz & Hpz & Hzne)].
  - pose proof (spaceless_suffix _ _ _ Hsp Ht) as Hnone.
    destruct (strip_first_mem _ EmptyString _ Hp) as [w Hw]. rewrite app_nil_r_string in Hw. congruence.
  - assert (forallb (fun p => match p with String a (String _ _) => negb (in_range 0 127 a) | _ => true end) space_encodings = true)
      as Hhead by (vm_compute; reflexivity).
    rewrite forallb_forall in Hhead. apply list_elem_of_In, Hhead in Hp. rewrite Hpz in Hp.
    assert (str_all (in_range 0 127) z = true) as Hza.
    { assert (str_all (in_range 0 127) "Bearer " = true) as Hb by reflexivity. rewrite Hz, str_all_app in Hb. by apply andb_true_iff in Hb as [_ ?]. }
    destruct z as [|c z]; [done|]. simpl in Hza. apply andb_true_iff in Hza as [Hc _]. rewrite append_cons in Hp.
    destruct (z +:+ t) as [|d w] eqn:Hzt; [by destruct z; [destruct t|]|]. by rewrite Hc in Hp.
Qed.

Lemma bearer_fields t : spaceless t -> t <> EmptyString -> Fields ("Bearer " +:+ t) = ["Bearer"; t].
Proof.
  intros Hsp Hne. unfold Fields.
  change (fields_fuel (S (String.length ("Bearer " +:+ t))) EmptyString ("Bearer " +:+ t))
    with ("Bearer" :: fields_fuel (S (String.length t)) EmptyString t).
  rewrite fields_plain; [by destruct t|intros x u; by apply spaceless_suffix|lia].
Qed.

(** ** What an accepted configuration promises to the parts that are built from it. *)

Section config.
Context `{Unicode}.

(** * The environment *)

Lemma load_file_keeps dot env name k v : env !! k = Some v -> load_file dot env name !! k = Some v.
Proof. intros Hk. unfold load_file. by apply lookup_union_Some_l. Qed.

Lemma unset (env : environ) k v : env !! k = None -> env !! k = Some v -> False.
Proof. congruence. Qed.

(** The variables of the process win: whatever the files say, a variable that
    is set keeps its value, and every other has the value of the first file that
    names it, of [.env.local], the two files of the environment and [.env]. *)
Theorem process_environment_wins dot env env' :
  loadDotEnvFiles dot env = Ok env' ->
  (forall k v, env !! k = Some v -> env' !! k = Some v) /\
  (forall k v, env !! k = None -> env' !! k = Some v ->
     exists before name after, dot name !! k = Some v /\ (forall n, n ∈ before -> dot n !! k = None) /\
       exists e, before ++ name :: after = [".env.local"] ++ e ++ [".env"] /\
         (e = [] \/ exists x, e = [".env." +:+ x +:+ ".local"; ".env." +:+ x])).
Proof.
  unfold loadDotEnvFiles. destruct (boolEnv _ _ _) as [[|]|]; simpl; [|intros [= <-]; split; [done|intros k v Hn Hv; by destruct (unset env k v)]|done].
  set (x := app_environment _ _). intros [= <-]. split.
  - intros k v Hk. destruct (is_empty x); by repeat apply load_file_keeps.
  - intros k v Hno Hv. unfold load_file in Hv. destruct (is_empty x).
    + apply lookup_union_Some_raw in Hv as [Hv|[H1 Hv]]; [apply lookup_union_Some_raw in Hv as [Hv|[_ Hv]]; [by destruct (unset env k v)|]|].
      * exists [], ".env.local", [".env"]. split_and!; [done|intros n Hn; by apply not_elem_of_nil in Hn|]. exists []. split; [done|by left].
      * apply lookup_union_None in H1 as [_ H1]. exists [".env.local"], ".env", []. split_and!; [done| |exists []; split; [done|by left]].
        by intros n ->%list_elem_of_singleton.
    + assert (exists e, [".env.local"; ".env." +:+ x +:+ ".local"; ".env." +:+ x; ".env"] = [".env.local"] ++ e ++ [".env"] /\
        (e = [] \/ exists x', e = [".env." +:+ x' +:+ ".local"; ".env." +:+ x'])) as Hlist by (eexists [_; _]; split; [done|right; by exists x]).
      apply lookup_union_Some_raw in Hv as [Hv|[H3 Hv]]; [|].
      1: apply lookup_union_Some_raw in Hv as [Hv|[H3 Hv]]; [|].
      1: apply lookup_union_Some_raw in Hv as [Hv|[H3 Hv]]; [|].
      1: apply lookup_union_Some_raw in Hv as [Hv|[H3 Hv]]; [by destruct (unset env k v)|].
      all: rewrite ?lookup_union_None in H3; destruct_and?.
      * eexists [], _, _. split_and!; [exact Hv|intros n Hn; by apply not_elem_of_nil in Hn|exact Hlist].
      * eexists [_], _, _. split_and!; [exact Hv| |exact Hlist]. by intros n ->%list_elem_of_singleton.
      * eexists [_; _], _, _. split_and!; [exact Hv| |exact Hlist].
        by intros n [->| ->%list_elem_of_singleton]%elem_of_cons.
      * eexists [_; _; _], _, _. split_and!; [exact Hv| |exact Hlist].
        by intros n [->|[->| ->%list_elem_of_singleton]%elem_of_cons]%elem_of_cons.
Qed.

(** * Credentials *)

(** A token the configuration accepts. *)
Lemma validateCredential_ok id token n :
  validateCredential id token n = Ok tt ->
  validCredentialID id = true /\ n <= str_len token <= maxSecretFileBytes /\ spaceless token /\
  Contains (ToUpper token) "CHANGE_ME" = false.
Proof.
  unfold validateCredential. intros Hv.
  destruct (validCredentialID id) eqn:Hid; simpl in Hv; [|done].
  destruct (str_len token <? n) eqn:Hn; [done|]. destruct (maxSecretFileBytes <? str_len token) eqn:Hm; [done|].
  destruct (existsb _ (runes token)) eqn:He; [done|].
  destruct (Contains (ToUpper token) "CHANGE_ME") eqn:Hc; simpl in Hv; [done|].
  bool_facts. split_and!; try done; try lia. intros r Hr. destruct (IsSpace r) eqn:Hs; [|done].
  rewrite (proj2 (existsb_exists _ _)) in He; [done|]. exists r. by rewrite <- list_elem_of_In, Hs.
Qed.

Lemma validCredentialID_graphic id : validCredentialID id = true -> TrimSpace id = id /\ id <> EmptyString.
Proof.
  unfold validCredentialID. intros Hid. apply andb_true_iff in Hid as [[Hlen _]%andb_true_iff Hall]. split.
  - apply TrimSpace_graphic. revert Hall. apply str_all_impl. intros c. unfold credential_id_byte, in_range.
    rewrite !orb_true_iff, !andb_true_iff, !Z.leb_le, !bool_decide_eq_true. intros Hc.
    assert (byte_val "." = 46 /\ byte_val "_" = 95 /\ byte_val "-" = 45) as (E1 & E2 & E3) by done.
    repeat destruct Hc as [Hc|Hc]; subst; rewrite ?E1, ?E2, ?E3; lia.
  - intros ->. done.
Qed.

Lemma secret_trimmed fs env v f e s src :
  secretFromEnvOrFile fs env v f e = Ok (s, src) -> TrimSpace s = s.
Proof.
  unfold secretFromEnvOrFile. intros Hs. destruct (_ && _); [done|]. destruct (negb _); [injection Hs as <- _; apply TrimSpace_idemp|].
  destruct (is_empty _); [by injection Hs as <- _|].
  inv_ok. apply TrimSpace_idemp.
Qed.

(** The credentials of an accepted configuration. *)
Record good_credential (n : Z) (c : Credential) : Prop := {
  gc_id : validCredentialID (ID c) = true;
  gc_length : n <= str_len (Token c) <= maxSecretFileBytes;
  gc_spaceless : spaceless (Token c);
  gc_trimmed : TrimSpace (Token c) = Token c;
  gc_placeholder : Contains (ToUpper (Token c)) "CHANGE_ME" = false;
}.

Lemma loadIngestCredentials_ok fs env appEnv n creds sources :
  loadIngestCredentials fs env appEnv n = Ok (creds, sources) ->
  Forall (good_credential n) creds /\ creds <> [] /\
  NoDup (map ID creds) /\ NoDup (map Token creds) /\ map cs_ID sources = map ID creds.
Proof.
  unfold loadIngestCredentials. intros Hl.
  apply rbind_ok in Hl as ([cur csrc] & Hcur & Hl). destruct (is_empty cur); [done|].
  apply rbind_ok in Hl as ([] & Hv1%rmap_err_ok & Hl).
  apply rbind_ok in Hl as ([prev psrc] & Hprev & Hl).
  pose proof (secret_trimmed _ _ _ _ _ _ _ Hcur) as Ht1. pose proof (secret_trimmed _ _ _ _ _ _ _ Hprev) as Ht2.
  apply validateCredential_ok in Hv1 as (? & ? & ? & ?).
  destruct (is_empty prev).
  - injection Hl as <- <-. split_and!; [apply Forall_singleton; by split|done|apply NoDup_singleton..|done].
  - apply rbind_ok in Hl as ([] & Hv2%rmap_err_ok & Hl). apply validateCredential_ok in Hv2 as (? & ? & ? & ?).
    inv_ok. bool_facts.
    split_and!; [apply Forall_cons; split; [by split|apply Forall_singleton; by split]|done| | |done].
    all: apply NoDup_cons; split; [|apply NoDup_singleton]; by rewrite list_elem_of_singleton.
Qed.

Lemma read_env_ok {A} env key (d : A) read a : read_env env key d read = Ok a -> a = d \/ exists v, read v = Some a.
Proof. unfold read_env. destruct (is_empty _); [intros [= <-]; by left|]. intros Hr%of_option_ok. right. by eexists. Qed.

Lemma durationEnv_pos env key d a : 0 < d -> durationEnv env key d = Ok a -> 0 < a.
Proof.
  intros Hd [->|(v & Hv)]%read_env_ok; [done|]. destruct (time_ParseDuration v); simpl in Hv; [|done].
  destruct (_ <=? 0) eqn:E; [done|]. injection Hv as ->. bool_facts. lia.
Qed.

Lemma int64Env_pos env key d a : 0 < d -> int64Env env key d = Ok a -> 0 < a.
Proof.
  intros Hd [->|(v & Hv)]%read_env_ok; [done|]. destruct (ParseInt _ _ v); simpl in Hv; [|done].
  destruct (_ <=? 0) eqn:E; [done|]. injection Hv as ->. bool_facts. lia.
Qed.

(** What [Load] guarantees of the configuration it returns. *)
Record valid_config (cfg : ConfigT) : Prop := {
  vc_credentials : exists n, 16 <= n /\ (AppEnv cfg = "production" -> 32 <= n) /\
    Forall (good_credential n) (IngestCredentials cfg) /\ IngestCredentials cfg <> [] /\
    NoDup (map ID (IngestCredentials cfg)) /\ NoDup (map Token (IngestCredentials cfg));
  vc_timeouts : 0 < ReadTimeout cfg /\ 0 < ReadHeaderTimeout cfg /\ 0 < WriteTimeout cfg /\ 0 < IdleTimeout cfg;
  vc_bodies : 0 < MaxIngestBodyBytes cfg /\ 0 < MaxPublicBodyBytes cfg /\ 0 < MaxHeaderBytes cfg;
  vc_rate : 0 < RateLimitBurst cfg /\ 0 < RateLimitClientTTL cfg /\ f_leb (RateLimitRequestsPerSec cfg) f_zero = false;
  vc_origins : AppEnv cfg = "production" -> "*" ∉ CORSAllowedOrigins cfg;
  vc_names : HTTPAddr cfg <> EmptyString /\ DatabaseURL cfg <> EmptyString /\ AppEnv cfg <> EmptyString;
  vc_log : LogFormat cfg = "text" \/ LogFormat cfg = "json";
}.

Lemma float64Env_pos env key d a : f_leb d f_zero = false -> float64Env env key d = Ok a -> f_leb a f_zero = false.
Proof.
  intros Hd [->|(v & Hv)]%read_env_ok; [done|]. destruct (strconv_ParseFloat v) as [f|]; simpl in Hv; [|done].
  destruct (f_leb f f_zero) eqn:E; [done|]. by injection Hv as <-.
Qed.

#[local] Ltac positive :=
  repeat match goal with
  | H : durationEnv _ _ _ = Ok _ |- _ => apply durationEnv_pos in H; [|vm_compute; reflexivity]
  | H : int64Env _ _ _ = Ok _ |- _ => apply int64Env_pos in H; [|vm_compute; reflexivity]
  | H : intEnv _ _ _ = Ok _ |- _ => apply int64Env_pos in H; [|vm_compute; reflexivity]
  | H : float64Env _ _ _ = Ok _ |- _ => apply float64Env_pos in H; [|vm_compute; reflexivity]
  end.

Lemma load_config_ok fs env cfg : load_config fs env = Ok cfg -> valid_config cfg.
Proof.
  unfold load_config. intros Hl.
  repeat match type of Hl with
  | rbind _ _ = Ok _ => apply rbind_ok in Hl as (? & ? & Hl)
  | (if ?b then Err _ else _) = Ok _ => destruct b eqn:?; [done|]
  | (let x := ?t in _) = Ok _ => cbv zeta in Hl
  | (let '(_, _) := ?p in _) = Ok _ => destruct p
  end.
  simpl in *. positive. injection Hl as <-.
  match goal with H : loadIngestCredentials _ _ _ _ = Ok _ |- _ => apply loadIngestCredentials_ok in H as (? & ? & ? & ? & _) end.
  unfold is_production in *.
  assert ((if is_empty (app_environment env "development") then "development" else app_environment env "development") <> EmptyString) as Hne
    by (destruct (is_empty (app_environment env "development")) eqn:E; [done|by apply is_empty_false]).
  revert Hne. generalize dependent (if is_empty (app_environment env "development") then "development" else app_environment env "development").
  intros appEnv; intros. bool_facts. split; simpl.
  - match goal with Hf : Forall (good_credential ?m) _ |- _ => exists m end. split_and!; [lia| |done..]. intros ->. rewrite bool_decide_eq_true_2 in * by done. bool_facts. lia.
  - done.
  - done.
  - done.
  - intros ->. rewrite bool_decide_eq_true_2 in * by done. simpl in *. by bool_facts.
  - split_and!; [by apply is_empty_false..|done].
  - destruct (bool_decide (_ = "text")) eqn:E; bool_facts; [by left|]. simpl in *. bool_facts. by right.
Qed.

Definition no_collision `{Sha256} (creds : list Credential) : Prop :=
  forall c1 c2, c1 ∈ creds -> c2 ∈ creds -> sha256 (Token c1) = sha256 (Token c2) -> Token c1 = Token c2.

Lemma good_credential_trim n c : good_credential n c -> TrimSpace (ID c) = ID c /\ TrimSpace (Token c) = Token c /\ ID c <> EmptyString.
Proof. intros []. by destruct (validCredentialID_graphic (ID c)) as [-> ?]. Qed.

Lemma store_credentials_good `{Sha256} n ids ds acc l :
  0 < n -> Forall (good_credential n) l ->
  NoDup (map ID l) -> (forall c, c ∈ l -> ID c ∉ ids) ->
  NoDup (map (fun c => sha256 (Token c)) l) -> (forall c, c ∈ l -> sha256 (Token c) ∉ ds) ->
  exists stored, store_credentials ids ds acc l = Ok stored.
Proof.
  intros Hn Hgood. revert ids ds acc. induction Hgood as [|c l Hc Hl IH]; intros ids ds acc Hids Hi Hds Hd; simpl; [by eexists|].
  pose proof (good_credential_trim _ _ Hc) as (-> & -> & Hne%is_empty_false). rewrite Hne.
  destruct Hc as [_ [Hlen _] _ _ _]. rewrite (proj2 (str_len_pos (Token c))) by lia.
  simpl in Hids, Hds. apply NoDup_cons in Hids as [Hi1 Hids]. apply NoDup_cons in Hds as [Hd1 Hds].
  rewrite bool_decide_eq_false_2 by (apply Hi; left). rewrite bool_decide_eq_false_2 by (apply Hd; left).
  apply IH; try done.
  - intros c' Hc' [Heq|Hin]%elem_of_cons; [|by eapply (Hi c'); [right|]]. apply Hi1. rewrite <- Heq. by apply list_elem_of_fmap_2.
  - intros c' Hc' [Heq|Hin]%elem_of_cons; [|by eapply (Hd c'); [right|]]. apply Hd1. rewrite <- Heq.
    by apply (list_elem_of_fmap_2 (fun c => sha256 (Token c))).
Qed.

Lemma NoDup_digests `{Sha256} (l : list Credential) :
  NoDup (map Token l) -> no_collision l -> NoDup (map (fun c => sha256 (Token c)) l).
Proof.
  intros Hnd Hno. induction l as [|c l IH]; simpl in *; [constructor|]. apply NoDup_cons in Hnd as [Hc Hnd]. apply NoDup_cons. split.
  - intros (c' & Heq & Hin)%list_elem_of_fmap. apply Hc. rewrite (Hno c c'); [by apply list_elem_of_fmap_2|left|by right|done].
  - apply IH; [done|]. intros c1 c2 H1 H2. apply Hno; by right.
Qed.

Lemma configured_authenticator `{Sha256} cfg opts :
  valid_config cfg -> no_collision (IngestCredentials cfg) -> exists a, NewAuthenticator (IngestCredentials cfg) opts = Ok a.
Proof.
  intros [(n & Hn & _ & Hgood & Hne & Hids & Htok) _ _ _ _ _ _] Hno. unfold NewAuthenticator. rewrite bool_decide_eq_false_2 by done.
  destruct (store_credentials_good n [] [] [] (IngestCredentials cfg)) as [stored ->]; try done.
  - lia.
  - intros c _. apply not_elem_of_nil.
  - by apply NoDup_digests.
  - intros c _. apply not_elem_of_nil.
  - by eexists.
Qed.

(** The characters of a header before its first comma, or all of them. *)
Definition before_comma (h first : string) : Prop :=
  str_all (fun c => negb (bool_decide (c = ","%char))) first = true /\
  exists rest, h = first +:+ rest /\ (rest = EmptyString \/ exists t, rest = String "," t).

Lemma split_on_first first rest cur :
  str_all (fun c => negb (bool_decide (c = ","%char))) first = true -> (rest = EmptyString \/ exists t, rest = String "," t) ->
  hd EmptyString (split_on "," cur (first +:+ rest)) = String.rev cur +:+ first.
Proof.
  intros Hf Hr. revert cur. induction first as [|c first IH]; intros cur.
  { rewrite app_nil_r_string. change (EmptyString +:+ rest) with rest. by destruct Hr as [->|[t ->]]. }
  cbn [str_all] in Hf. apply andb_true_iff in Hf as [Hc Hf]. apply negb_true_iff in Hc.
  rewrite append_cons. cbn [split_on]. rewrite Hc, IH by done. by rewrite Utf8.rev_cons, app_assoc_string.
Qed.

Lemma before_comma_Split h first : before_comma h first <-> hd EmptyString (Split h ",") = first.
Proof.
  assert (exists f, before_comma h f) as [f Hf].
  { induction h as [|c h (f & Hf & rest & -> & Hr)]; [exists EmptyString; split; [done|]; exists EmptyString; auto|].
    destruct (decide (c = ","%char)) as [->|Hc].
    - exists EmptyString. split; [done|]. eexists. split; [reflexivity|]. right. by eexists.
    - exists (String c f). split; [|by exists rest]. cbn [str_all]. by rewrite bool_decide_eq_false_2, Hf. }
  assert (forall f, before_comma h f -> hd EmptyString (Split h ",") = f) as Hs
    by (intros ? (Hf' & rest & -> & Hr); by apply split_on_first).
  split; [apply Hs|]. intros <-. by rewrite (Hs f Hf).
Qed.

(** How a request can have come over HTTPS: by a connection of the server itself, which
    listens on plain ones only, or to the proxy in front of it, when the configuration
    trusts the protocol the proxy names first. *)
Definition over_https `{Unicode} (trust : bool) (r : Request) : Prop :=
  req_TLS r = true \/
  trust = true /\ exists first, before_comma (req_Header r "X-Forwarded-Proto") first /\ EqualFold (TrimSpace first) "https" = true.

Lemma requestUsesHTTPS_spec `{Unicode} trust r : requestUsesHTTPS (Some r) trust = true <-> over_https trust r.
Proof.
  unfold over_https, requestUsesHTTPS. destruct (req_TLS r); [naive_solver|]. destruct trust; simpl; [|naive_solver].
  split; [intros Hf; right; split; [done|]; eexists; split; [by apply before_comma_Split|done]|].
  intros [|(_ & first & <-%before_comma_Split & Hf)]; done.
Qed.

Lemma transport_ok_spec `{Unicode} opts r :
  transport_ok opts r = true <-> RequireHTTPS opts = false \/ over_https (TrustProxyHeaders opts) r.
Proof. unfold transport_ok. by rewrite orb_true_iff, negb_true_iff, requestUsesHTTPS_spec. Qed.

(** C16. Every ingest token the configuration accepts works: the authenticator can
    be built, and a request that bears a token of the configuration is authenticated as
    the credential of that token, for tokens of up to the 16 KiB the configuration allows
    and whatever bytes they consist of - when HTTPS is not required, or the request came
    over HTTPS, which behind a trusted proxy is what the first protocol of
    [X-Forwarded-Proto] says.  Otherwise it is refused for its transport, token or not.
    Tokens are told apart by their digests: this is for configurations none of whose
    tokens, if they differ, have the same SHA-256. *)
Theorem configured_tokens_authenticate `{Sha256} fs env cfg opts :
  load_config fs env = Ok cfg -> no_collision (IngestCredentials cfg) ->
  exists a, NewAuthenticator (IngestCredentials cfg) opts = Ok a /\
    (forall c r, c ∈ IngestCredentials cfg -> req_Header r "Authorization" = "Bearer " +:+ Token c ->
      RequireHTTPS opts = false \/ over_https (TrustProxyHeaders opts) r ->
      Authenticate (Some a) r = {| Authenticated := true; KeyID := ID c; Failure := FailureNone |}) /\
    (forall r, RequireHTTPS opts = true -> ~ over_https (TrustProxyHeaders opts) r ->
      Authenticate (Some a) r = fail_with FailureInsecureTransport).
Proof.
  intros Hcfg%load_config_ok Hno. destruct (configured_authenticator cfg opts Hcfg Hno) as (a & Ha). exists a. split; [done|].
  split.
  2: { intros r Hreq Hno'. rewrite (Authenticate_eq _ _ _ _ Ha).
       destruct (transport_ok opts r) eqn:Et; [|done]. apply transport_ok_spec in Et as [|]; [congruence|done]. }
  intros c r Hc Hh Ht%transport_ok_spec. rewrite (Authenticate_eq _ _ _ _ Ha), Ht. cbn [negb].
  destruct Hcfg as [(n & Hn & _ & Hgood & _ & Hids & Htok) _ _ _ _ _ _].
  pose proof (proj1 (Forall_forall _ _) Hgood c Hc) as Hg. pose proof (good_credential_trim _ _ Hg) as (Hid & Htrim & _).
  destruct Hg as [_ [Hlo Hhi] Hsp _ _].
  assert (Token c <> EmptyString) as Hne by (apply is_empty_false, str_len_pos; lia).
  unfold bearer_token. rewrite Hh, bearer_trimmed, bearer_fields by done.
  change (is_empty ("Bearer " +:+ Token c)) with false. change (EqualFold "Bearer" "Bearer") with true.
  rewrite (proj2 (is_empty_false (Token c)) Hne). rewrite (proj2 (Z.leb_le _ maxBearerTokenLength)) by exact Hhi. cbn [negb andb].
  destruct (List.find _ _) as [c'|] eqn:F.
  - apply List.find_some in F as [Hc'%list_elem_of_In Heq]. bool_facts.
    pose proof (proj1 (Forall_forall _ _) Hgood c' Hc') as Hg'. pose proof (good_credential_trim _ _ Hg') as (Hid' & Htrim' & _).
    rewrite Htrim' in Heq. apply Hno in Heq; [|done..].
    assert (c' = c) as ->; [|by rewrite Hid].
    apply list_elem_of_lookup in Hc as [i Hi]. apply list_elem_of_lookup in Hc' as [j Hj].
    assert (i = j) as ->; [|by simplify_eq]. apply (NoDup_lookup _ _ _ (Token c) Htok); rewrite list_lookup_fmap; [by rewrite Hi|by rewrite Hj; simpl; rewrite Heq].
  - pose proof (List.find_none _ _ F c (proj1 (list_elem_of_In _ _) Hc)) as Hn'. cbn beta in Hn'. bool_facts. by rewrite Htrim in Hn'.
Qed.

(** * Billing *)

(** An address with a scheme is not blank. *)
Definition urls_lawful `{Urls} : Prop :=
  forall t u, url_Parse t = Some u -> TrimSpace t = EmptyString -> url_Scheme u = EmptyString.

Lemma absolute_url_ok `{Urls} key t u :
  absolute_url key t = Ok u -> url_Parse t = Some u /\ url_Scheme u <> EmptyString /\ url_Host u <> EmptyString.
Proof.
  unfold absolute_url. intros Ha. apply rbind_ok in Ha as (u' & Hu%of_option_ok & Ha).
  destruct (is_empty (url_Scheme u')) eqn:E1; [done|]. destruct (is_empty (url_Host u')) eqn:E2; [done|]. injection Ha as ->.
  split_and!; [done|by apply is_empty_false..].
Qed.

Lemma identifier_not_blank name v : positiveNumericIdentifier name (TrimSpace v) = Ok tt -> TrimSpace v <> EmptyString.
Proof. intros Hp Hv. by rewrite Hv in Hp. Qed.

(** What [LoadBilling] guarantees when billing is enabled. *)
Record valid_billing (appEnv : string) (b : BillingConfig) : Prop := {
  vb_secrets : bc_WebhookSecret b <> EmptyString /\ bc_APIKey b <> EmptyString;
  vb_provider : NewLemonProvider (lemon_config b) <> None;
  vb_lease : second <= bc_WorkerJobTimeout b < bc_WorkerLeaseDuration b;
  vb_retries : second <= bc_WorkerBaseRetryDelay b <= hour /\
    bc_WorkerBaseRetryDelay b <= bc_WorkerMaxRetryDelay b <= 24 * hour /\ 1 <= bc_WorkerMaxAttempts b <= 50;
  vb_batches : 1 <= bc_WorkerBatchSize b <= 100 /\ 0 < bc_WorkerPollInterval b;
  vb_webhooks : 1024 <= bc_MaxWebhookBodyBytes b <= Z.shiftl 5 20 /\ 0 < bc_WebhookIngestTimeout b < 2 * second;
  vb_grace : 0 <= bc_GracePeriod b <= 720 * hour;
  vb_production : EqualFold (TrimSpace appEnv) "production" = true ->
    bc_TestMode b = false /\ bc_APIBaseURL b = defaultLemonSqueezyAPIBaseURL /\ 32 <= str_len (bc_WebhookSecret b);
}.

Lemma read_billing_ok fs env appEnv b :
  read_billing fs env appEnv = Ok b ->
  TrimSpace (bc_APIKey b) = bc_APIKey b /\
  (exists v, bc_StoreID b = TrimSpace v) /\ (exists v, bc_VariantID b = TrimSpace v) /\
  (exists v, bc_CheckoutRedirectURL b = TrimSpace v) /\
  0 < bc_WorkerPollInterval b /\ 0 < bc_WebhookIngestTimeout b /\ 0 < bc_HTTPTimeout b.
Proof.
  unfold read_billing. intros Hl.
  repeat match type of Hl with
  | rbind _ _ = Ok _ => apply rbind_ok in Hl as (? & ? & Hl)
  | (let '(_, _) := ?p in _) = Ok _ => destruct p
  end.
  positive. injection Hl as <-. simpl.
  repeat match goal with H : secretFromEnvOrFile _ _ _ _ _ = Ok _ |- _ => apply secret_trimmed in H end.
  split_and!; try done; by eexists.
Qed.

Lemma LoadBilling_ok `{Urls} fs env appEnv b :
  urls_lawful -> LoadBilling fs env appEnv = Ok b -> bc_Enabled b = true -> valid_billing appEnv b.
Proof.
  unfold LoadBilling. intros Hurls Hl He. apply rbind_ok in Hl as (b' & Hr & Hl).
  destruct (bc_Enabled b') eqn:He'; simpl in Hl; [|injection Hl as ->; congruence].
  destruct (negb _); [done|]. destruct (is_empty (bc_APIKey b')) eqn:Hkey; [done|]. destruct (is_empty (bc_WebhookSecret b')) eqn:Hsec; [done|].
  apply rbind_ok in Hl as ([] & Hstore & Hl). apply rbind_ok in Hl as ([] & Hvar & Hl).
  apply rbind_ok in Hl as ([] & Hb & Hl). apply rbind_ok in Hl as ([] & Hu & Hl). injection Hl as ->.
  apply read_billing_ok in Hr as (Hk & (sv & Hsv) & (vv & Hvv) & (rv & Hrv) & Hpoll & Hing & Hhttp).
  unfold validate_bounds, out_of in Hb.
  repeat match type of Hb with (if ?c then _ else _) = Ok _ => let E := fresh "E" in destruct c eqn:E; [done|] end.
  unfold validate_billing_urls in Hu. apply rbind_ok in Hu as (api & [Hapi [Hs1 _]]%absolute_url_ok & Hu).
  apply rbind_ok in Hu as (red & [Hred [Hs2 _]]%absolute_url_ok & Hu).
  apply is_empty_false in Hkey, Hsec.
  split.
  - done.
  - unfold NewLemonProvider, lemon_config. simpl. rewrite Hk.
    assert (forall t, t <> EmptyString -> is_empty t = false) as Hf by (intros t; apply is_empty_false).
    rewrite (Hf (TrimSpace (bc_APIBaseURL b))) by (intros Hb0; by destruct Hs1; eapply Hurls).
    rewrite (Hf (TrimSpace (bc_CheckoutRedirectURL b))) by (intros Hb0; by destruct Hs2; eapply Hurls).
    rewrite Hsv, Hvv, !TrimSpace_idemp in *. apply identifier_not_blank in Hstore, Hvar.
    rewrite (Hf (bc_APIKey b)), (Hf (TrimSpace sv)), (Hf (TrimSpace vv)) by done. simpl.
    by rewrite (proj2 (Z.leb_gt _ _)).
  - bool_facts. lia.
  - bool_facts. lia.
  - bool_facts. lia.
  - bool_facts. lia.
  - bool_facts. unfold hour, minute, second in *. lia.
  - intros Hp. rewrite Hp in Hu. simpl in Hu. destruct (_ || _); [done|]. destruct (bc_TestMode b); [done|].
    destruct (bool_decide (bc_APIBaseURL b = _)) eqn:Ea; [|done]. simpl in Hu. destruct (_ <? _) eqn:El; [done|]. bool_facts.
    split_and!; [done|done|lia].
Qed.

(** C18. Billing that the configuration accepts is fit to run: the provider can be
    built, the worker runs, its leases outlive its jobs, its delays are those for
    which the retries are bounded, the webhook handler accepts deliveries and answers
    in time; and in production it uses the official address, real payments and a
    secret of 32 bytes. *)
Theorem accepted_billing_runs `{Urls} `{Sha256} fs env appEnv b :
  urls_lawful -> LoadBilling fs env appEnv = Ok b -> bc_Enabled b = true ->
  exists parts, configure_billing b = Ok (Some parts) /\
    let cfg := bp_worker parts in
    worker_runs cfg = true /\ JobTimeout cfg < LeaseDuration cfg /\ 1 <= MaxAttempts cfg <= 50 /\
    (forall attempt id, BaseRetryDelay cfg <= retryDelay cfg attempt id <= MaxRetryDelay cfg) /\
    bh_webhookSecret (bp_handler parts) <> EmptyString /\ 1024 <= bh_maxWebhookBodyBytes (bp_handler parts) /\
    0 < bh_webhookIngestTimeout (bp_handler parts) < 2 * second /\
    (EqualFold (TrimSpace appEnv) "production" = true ->
       expectedTestMode (bp_service parts) = false /\ lp_testMode (bp_provider parts) = false /\
       lp_apiBaseURL (bp_provider parts) = defaultLemonSqueezyAPIBaseURL /\
       32 <= str_len (bh_webhookSecret (bp_handler parts))).
Proof.
  intros Hurls Hl He. apply LoadBilling_ok in Hl; [|done..].
  destruct Hl as [[Hsec _] Hprov [Hj Hlease] (Hbase & Hmax & Hatt) [Hbatch Hpoll] [Hbody Hing] _ Hp].
  unfold configure_billing. rewrite He. simpl. destruct (NewLemonProvider (lemon_config b)) as [p|] eqn:Hnew; [|done]. simpl.
  eexists. split; [done|]. simpl. split_and!; try done; try lia.
  - unfold worker_runs. simpl. unfold second in *. rewrite !(proj2 (Z.ltb_lt _ _)) by lia. done.
  - intros attempt id. apply (retryDelay_bounds (worker_config b)); [exact Hbase|exact Hmax].
  - intros (Ht & Hapi & Hlen)%Hp. unfold NewLemonProvider in Hnew. simpl in Hnew. destruct (_ || _); [done|]. injection Hnew as <-. simpl.
    rewrite Hapi, Ht. split_and!; done.
Qed.

(** * The start *)

(** Parsing an address again gives an address. *)
Definition urls_reparse `{Urls} : Prop :=
  forall t u, url_Parse t = Some u -> url_Scheme u <> EmptyString -> url_Host u <> EmptyString ->
    exists u', url_Parse (TrimRight (TrimSpace (TrimRight (url_String u) "/" +:+ "/")) "/" +:+ "/") = Some u' /\
      url_Scheme u' = url_Scheme u /\ url_Host u' = url_Host u.

Lemma LoadAccountAuth_ok `{Urls} env appEnv auth :
  LoadAccountAuth env appEnv = Ok auth ->
  au_Enabled auth = false \/
  exists u t, url_Parse t = Some u /\ url_Scheme u <> EmptyString /\ url_Host u <> EmptyString /\
    au_Issuer auth = TrimRight (url_String u) "/" +:+ "/" /\ au_Audience auth <> EmptyString /\
    TrimSpace (au_Audience auth) = au_Audience auth /\ minute <= au_CacheTTL auth.
Proof.
  unfold LoadAccountAuth. intros Hl. repeat (apply rbind_ok in Hl as (? & ? & Hl)).
  destruct (negb _) eqn:Hen in Hl; [left; injection Hl as <-; simpl; by bool_facts|]. right.
  apply rbind_ok in Hl as (u & [Hu [Hs Hh]]%absolute_url_ok & Hl). destruct (_ && _); [done|].
  destruct (is_empty _) eqn:Ha; [done|]. destruct (_ || _) eqn:E; [done|]. injection Hl as <-. simpl in *. bool_facts.
  eexists u, _. split_and!; try done.
  - by apply is_empty_false.
  - destruct (EqualFold _ _); [vm_compute; reflexivity|apply TrimSpace_idemp].
Qed.

(** C17. What the configuration accepts starts: when the three configurations load
    and the database answers, every part can be built, unless two of the tokens have
    the same digest. *)
Theorem accepted_configuration_starts `{Urls} `{Sha256} fs dot env cfg env' auth b :
  urls_lawful -> urls_reparse ->
  Load fs dot env = Ok (cfg, env') -> LoadAccountAuth env' (AppEnv cfg) = Ok auth -> LoadBilling fs env' (AppEnv cfg) = Ok b ->
  no_collision (IngestCredentials cfg) ->
  exists sys, startup fs dot env true = Ok sys /\ valid_config (sy_config sys) /\
    (au_Enabled auth = true -> sy_validator sys <> None) /\ (bc_Enabled b = true -> sy_billing sys <> None).
Proof.
  intros Hlaw Hre Hload Hauth Hb Hno. unfold startup. rewrite Hload. simpl. rewrite Hauth. simpl. rewrite Hb. simpl.
  unfold Load in Hload. apply rbind_ok in Hload as (e & _ & Hload). apply rbind_ok in Hload as (c & Hc & [= -> ->]).
  apply load_config_ok in Hc. destruct (configured_authenticator cfg (ingest_options cfg) Hc Hno) as (a & Ha).
  unfold build. change player_service with (Some {| ps_cooldown := 5 * minute; ps_eventLimit := 50 |}). simpl.
  assert (exists v, NewUserAuthenticator auth = Ok v /\ (au_Enabled auth = true -> v <> None)) as (v & Hv & Hve).
  { unfold NewUserAuthenticator. destruct (LoadAccountAuth_ok _ _ _ Hauth) as [->|(u & t & Hu & Hs & Hh & Hi & Hne & Htr & _)]; [by exists None|].
    destruct (au_Enabled auth); [|by exists None]. simpl. rewrite Hi. destruct (Hre _ _ Hu Hs Hh) as (u' & -> & Hs' & Hh').
    rewrite Hs', Hh', Htr. apply is_empty_false in Hs, Hh, Hne. rewrite Hs, Hh, Hne. by eexists. }
  rewrite Hv. simpl.
  assert (exists p, configure_billing b = Ok p /\ (bc_Enabled b = true -> p <> None)) as (p & Hp & Hpe).
  { unfold configure_billing. destruct (bc_Enabled b) eqn:He; simpl; [|by exists None].
    pose proof (vb_provider _ _ (LoadBilling_ok _ _ _ _ Hlaw Hb He)) as Hnp.
    destruct (NewLemonProvider _) as [lp|]; [|done]. simpl. by eexists. }
  rewrite Hp. simpl. rewrite Ha. simpl. eexists. by split_and!.
Qed.

(** C11. Production is locked: whatever the environment and the files say, a server
    that starts as [production] validates the tokens of users against the issuer and
    the audience of the product - or, with the emergency switch, no token at all -,
    wants ingest tokens of 32 bytes, answers no wildcard origin, and, if it bills,
    bills for real at the official address. *)
Theorem production_locked `{Urls} `{Sha256} fs dot env sys u :
  urls_lawful -> url_Parse productionAuthIssuer = Some u -> url_String u = productionAuthIssuer ->
  startup fs dot env true = Ok sys -> AppEnv (sy_config sys) = "production" ->
  exists env' emergency,
    loadDotEnvFiles dot env = Ok env' /\ boolEnv env' "AUTH_EMERGENCY_DISABLED" false = Ok emergency /\
    (if emergency : bool then sy_validator sys = None
     else exists skew, sy_validator sys
            = Some {| vl_issuer := productionAuthIssuer; vl_audience := productionAuthAudience; vl_clockSkew := skew |}) /\
    sc_Validator (sy_server sys) = sy_validator sys /\
    Forall (fun c => 32 <= str_len (Token c)) (IngestCredentials (sy_config sys)) /\
    "*" ∉ sc_AllowedOrigins (sy_server sys) /\
    forall parts, sy_billing sys = Some parts ->
      expectedTestMode (bp_service parts) = false /\ lp_apiBaseURL (bp_provider parts) = defaultLemonSqueezyAPIBaseURL /\
      32 <= str_len (bh_webhookSecret (bp_handler parts)).
Proof.
  intros Hlaw Hu Hus Hs Hprod. unfold startup in Hs.
  apply rbind_ok in Hs as ([cfg env'] & Hload%rmap_err_ok & Hs). apply rbind_ok in Hs as (auth & Hauth%rmap_err_ok & Hs).
  apply rbind_ok in Hs as (b & Hb%rmap_err_ok & Hs). simpl in Hs.
  unfold build in Hs. apply rbind_ok in Hs as (pl & _ & Hs). apply rbind_ok in Hs as (v & Hv & Hs).
  apply rbind_ok in Hs as (p & Hp & Hs). apply rbind_ok in Hs as (a & _ & Hs). injection Hs as <-. simpl in *.
  unfold Load in Hload. apply rbind_ok in Hload as (e & Henv & Hload). apply rbind_ok in Hload as (c & Hc & [= -> ->]).
  apply load_config_ok in Hc. rewrite Hprod in Hauth, Hb.
  unfold LoadAccountAuth in Hauth. change (EqualFold (TrimSpace "production") "production") with true in Hauth. simpl in Hauth.
  apply rbind_ok in Hauth as (en & _ & Hauth). apply rbind_ok in Hauth as (emergency & Hem & Hauth).
  exists env', emergency. split_and!; [done|done| |done| | |].
  - repeat (apply rbind_ok in Hauth as (? & _ & Hauth)). destruct emergency; simpl in Hauth.
    + injection Hauth as <-. unfold NewUserAuthenticator in Hv. simpl in Hv. by injection Hv as <-.
    + destruct (absolute_url _ _) as [u'|] eqn:Hab; simpl in Hauth; [|done].
      apply absolute_url_ok in Hab as [Hab [Hs1 Hs2]]. rewrite Hu in Hab. injection Hab as <-.
      destruct (negb _) in Hauth; [done|]. destruct (_ || _) in Hauth; [done|]. injection Hauth as <-.
      unfold NewUserAuthenticator in Hv. simpl in Hv. rewrite Hus in Hv.
      change (TrimRight (TrimSpace (TrimRight productionAuthIssuer "/" +:+ "/")) "/" +:+ "/") with productionAuthIssuer in Hv.
      rewrite Hu in Hv. destruct (_ || _) in Hv; [done|]. injection Hv as <-. rewrite Hus. by eexists.
  - destruct (vc_credentials _ Hc) as (n & _ & Hn & Hg & _). specialize (Hn Hprod). eapply Forall_impl; [exact Hg|].
    intros cr [_ [Hl _] _ _ _]. lia.
  - by apply (vc_origins _ Hc).
  - intros parts ->. unfold configure_billing in Hp. destruct (bc_Enabled b) eqn:He; simpl in Hp; [|done].
    pose proof (LoadBilling_ok _ _ _ _ Hlaw Hb He) as Hvb. destruct (vb_production _ _ Hvb eq_refl) as (Ht & Hapi & Hlen).
    unfold NewLemonProvider, lemon_config in Hp. simpl in Hp. destruct (_ || _) in Hp; simpl in Hp; [done|]. injection Hp as <-. simpl.
    rewrite Hapi, Ht. by split_and!.
Qed.
End config.

(** * Examples *)

Section examples.
#[local] Existing Instance plain_unicode.
#[local] Existing Instance plain_sha256.

Definition known_urls : list string :=
  ["https://api.lemonsqueezy.com"; "https://api.lemonsqueezy.com/"; productionAuthIssuer; "https://example.com/account";
   "https://example.com/account/"].

#[local] Instance sample_urls : Urls := fun t =>
  if bool_decide (t ∈ known_urls) then Some {| url_Scheme := "https"; url_Host := "example.com"; url_String := t |} else None.

Lemma sample_urls_known t u : url_Parse t = Some u -> t ∈ known_urls /\ u = {| url_Scheme := "https"; url_Host := "example.com"; url_String := t |}.
Proof. unfold url_Parse, sample_urls. destruct (bool_decide (t ∈ known_urls)) eqn:E; [|done]. intros [= <-]. by bool_facts. Qed.

Lemma sample_urls_lawful : urls_lawful.
Proof.
  intros t u [Ht _]%sample_urls_known Hb. exfalso.
  assert (forallb (fun t => negb (is_empty (TrimSpace t))) known_urls = true) as Hall by (vm_compute; reflexivity).
  rewrite forallb_forall in Hall. apply list_elem_of_In, Hall in Ht. by rewrite Hb in Ht.
Qed.

Lemma sample_urls_reparse : urls_reparse.
Proof.
  intros t u [Ht ->]%sample_urls_known _ _. simpl.
  assert (forallb (fun t => bool_decide (TrimRight (TrimSpace (TrimRight t "/" +:+ "/")) "/" +:+ "/" ∈ known_urls)) known_urls = true)
    as Hall by (vm_compute; reflexivity).
  rewrite forallb_forall in Hall. apply list_elem_of_In, Hall in Ht. unfold url_Parse, sample_urls. rewrite Ht. by eexists.
Qed.

Definition sample_token : string := "Kx9.token-of-the-collector/2024+a".

Definition production_env : environ :=
  {["APP_ENV" := " Production "; "DATABASE_URL" := "postgres://db"; "INGEST_BEARER_TOKEN" := sample_token;
    "INGEST_BEARER_TOKEN_PREVIOUS" := "Kx9.token-of-the-collector/2023+b"; "AUTH_ISSUER" := "https://evil.example.com/";
    "BILLING_ENABLED" := "1"; "BILLING_TEST_MODE" := "false"; "LEMONSQUEEZY_API_KEY" := "key"; "LEMONSQUEEZY_STORE_ID" := "11";
    "LEMONSQUEEZY_PRO_VARIANT_ID" := "33"; "LEMONSQUEEZY_WEBHOOK_SECRET" := "0123456789abcdef0123456789abcdef";
    "BILLING_CHECKOUT_REDIRECT_URL" := "https://example.com/account"]}.

Definition no_files : files := {| fs_Stat := fun _ => None; fs_ReadFile := fun _ => None; fs_windows := false |}.
Definition no_dotenv : dotenv := fun _ => ∅.

(** The configurations that are refused, by the variable they are refused for. *)
Definition refusal (changes : environ) : option config_error :=
  match load_config no_files (changes ∪ production_env) with Ok _ => None | Err e => Some e end.

Example refusals :
  map refusal
    [∅; {["READ_TIMEOUT" := "0s"]}; {["RATE_LIMIT_BURST" := "1.5"]}; {["INGEST_MIN_TOKEN_LENGTH" := "31"]};
     {["CORS_ALLOWED_ORIGINS" := "https://a.example, *"]}; {["INGEST_BEARER_TOKEN" := "short"]};
     {["INGEST_BEARER_TOKEN_PREVIOUS" := sample_token]}; {["DATABASE_URL_FILE" := "/run/secrets/db"]};
     {["INGEST_BEARER_TOKEN" := "CHANGE_ME_CHANGE_ME_CHANGE_ME_CHANGE_ME"]}; {["LOG_FORMAT" := "xml"]}]
  = [None; Some (EnvInvalid "READ_TIMEOUT"); Some (EnvInvalid "RATE_LIMIT_BURST"); Some (EnvProduction "INGEST_MIN_TOKEN_LENGTH");
     Some (EnvProduction "CORS_ALLOWED_ORIGINS"); Some (CredentialError "current" ShortToken); Some SameCredentialToken;
     Some (SecretExclusive "DATABASE_URL"); Some (CredentialError "current" PlaceholderToken); Some (EnvInvalid "LOG_FORMAT")].
Proof. vm_compute. reflexivity. Qed.

(** Files of secrets are read by others in /run/secrets only; the path is cleaned
    before it is compared. *)
Example secret_files :
  let fs := {| fs_Stat := fun _ => Some {| fi_IsDir := false; fi_Size := 9; fi_Perm := 292 |};
               fs_ReadFile := fun _ => Some (" s3cret " +:+ of_bytes [byte 10]); fs_windows := false |} in
  map (fun path => secretFromEnvOrFile fs {["S_FILE" := path]} "S" "S_FILE" "production")
    ["/run/secrets/token"; "/run/secrets/../../etc/token"; "/run/secretsx"]
  = [Ok ("s3cret", "file"); Err (SecretTooBroad "S_FILE"); Err (SecretTooBroad "S_FILE")].
Proof. vm_compute. reflexivity. Qed.

(** The rate may be [NaN], which is not below zero. *)
Example nan_rate_accepted :
  match load_config no_files ({["RATE_LIMIT_REQUESTS_PER_SECOND" := "NaN"]} ∪ production_env) with
  | Ok cfg => IsNaN (RateLimitRequestsPerSec cfg) && RateLimitEnabled cfg
  | Err _ => false
  end = true.
Proof. vm_compute. reflexivity. Qed.

(** A store written [+11] or [011] is a positive number, but no webhook is for it,
    and the variant [033] is 27 for the checkout. *)
Example identifiers_not_canonical :
  match LoadBilling no_files ({["LEMONSQUEEZY_STORE_ID" := "011"; "LEMONSQUEEZY_PRO_VARIANT_ID" := "033"]} ∪ production_env) "production" with
  | Ok b => (bc_Enabled b, bool_decide (FormatInt 11 = storeID (billing_service b)), mustParseID (bc_VariantID b))
  | Err _ => (false, false, 0)
  end = (true, false, 27).
Proof. vm_compute. reflexivity. Qed.

(** The grace period of zero that the message of the check allows is refused. *)
Example zero_grace_refused :
  LoadBilling no_files ({["BILLING_GRACE_PERIOD" := "0s"]} ∪ production_env) "production" = Err (EnvInvalid "BILLING_GRACE_PERIOD").
Proof. vm_compute. reflexivity. Qed.

(** A result that is a value of some kind. *)
Definition ok_with {E A} (p : A -> bool) (r : result E A) : bool := match r with Ok a => p a | Err _ => false end.

Lemma ok_with_true {E A} (p : A -> bool) (r : result E A) : ok_with p r = true -> exists a, r = Ok a /\ p a = true.
Proof. destruct r as [a|]; [|done]. intros Hp. by exists a. Qed.

Lemma process_environment_wins_witness :
  let dot : dotenv := fun name => if bool_decide (name = ".env.local") then {["A" := "local"; "B" := "local"]} else {["A" := "x"; "C" := "y"]} in
  exists env', loadDotEnvFiles dot {["B" := "process"]} = Ok env' /\ env' !! "B" = Some "process".
Proof.
  intros dot. destruct (loadDotEnvFiles dot {["B" := "process"]}) as [env'|] eqn:E; [|vm_compute in E; discriminate].
  exists env'. split; [done|]. apply (proj1 (process_environment_wins dot {["B" := "process"]} env' E)). reflexivity.
Defined.

(** Behind a proxy that is trusted. *)
Definition proxied_env : environ := <["TRUST_PROXY_HEADERS" := "true"]> production_env.

Definition proxied_request (proto : string) : Request :=
  {| req_TLS := false; req_Header h := if bool_decide (h = "X-Forwarded-Proto") then proto else "Bearer " +:+ sample_token |}.

Lemma configured_tokens_authenticate_witness :
  exists cfg a, load_config no_files proxied_env = Ok cfg /\
    NewAuthenticator (IngestCredentials cfg) (ingest_options cfg) = Ok a /\
    Authenticate (Some a) (proxied_request " HTTPS, http") = {| Authenticated := true; KeyID := "current"; Failure := FailureNone |} /\
    Authenticate (Some a) (proxied_request "http, https") = fail_with FailureInsecureTransport.
Proof.
  destruct (load_config no_files proxied_env) as [cfg|] eqn:E; [|vm_compute in E; discriminate].
  destruct (configured_tokens_authenticate no_files proxied_env cfg (ingest_options cfg) E) as (a & Ha & Hok & Hbad); [by intros c1 c2 _ _|].
  assert (ingest_options cfg = {| RequireHTTPS := true; TrustProxyHeaders := true |}) as Ho
    by (vm_compute in E; injection E as <-; reflexivity).
  exists cfg, a. split_and!; [done|exact Ha| |].
  - apply (Hok {| ID := "current"; Token := sample_token |}); [vm_compute in E; injection E as <-; left|reflexivity|].
    rewrite Ho. right. right. split; [reflexivity|]. exists " HTTPS". split; [by apply before_comma_Split|by vm_compute].
  - apply Hbad; rewrite Ho; [reflexivity|]. intros Hx%requestUsesHTTPS_spec. by vm_compute in Hx.
Defined.

Lemma accepted_billing_runs_witness :
  exists b parts, LoadBilling no_files production_env "production" = Ok b /\ configure_billing b = Ok (Some parts) /\
    worker_runs (bp_worker parts) = true /\ expectedTestMode (bp_service parts) = false.
Proof.
  destruct (LoadBilling no_files production_env "production") as [b|] eqn:E; [|vm_compute in E; discriminate].
  assert (bc_Enabled b = true) as He by (vm_compute in E; by injection E as <-).
  destruct (accepted_billing_runs no_files production_env "production" b sample_urls_lawful E He)
    as (parts & Hp & Hw & _ & _ & _ & _ & _ & _ & Hprod).
  exists b, parts. split_and!; [done|exact Hp|exact Hw|]. by apply Hprod.
Defined.

#[local] Abbreviation started := (startup no_files no_dotenv production_env true).

Lemma accepted_configuration_starts_witness : exists sys, started = Ok sys /\ sy_billing sys <> None.
Proof.
  assert (match Load no_files no_dotenv production_env with
          | Ok (cfg, env') =>
              is_ok (LoadAccountAuth env' (AppEnv cfg)) &&
              match LoadBilling no_files env' (AppEnv cfg) with Ok b => bc_Enabled b | Err _ => false end
          | Err _ => false end = true) as Hall by (vm_compute; reflexivity).
  destruct (Load no_files no_dotenv production_env) as [[cfg env']|] eqn:E; [|discriminate].
  destruct (LoadAccountAuth env' (AppEnv cfg)) as [auth|] eqn:Ea; [|discriminate].
  destruct (LoadBilling no_files env' (AppEnv cfg)) as [b|] eqn:Eb; [|discriminate].
  destruct (accepted_configuration_starts no_files no_dotenv production_env cfg env' auth b sample_urls_lawful sample_urls_reparse E Ea Eb)
    as (sys & Hs & _ & _ & Hb); [by intros c1 c2 _ _|].
  exists sys. split; [exact Hs|]. by apply Hb.
Defined.

Lemma production_locked_witness :
  exists sys skew, started = Ok sys /\
    sy_validator sys = Some {| vl_issuer := productionAuthIssuer; vl_audience := productionAuthAudience; vl_clockSkew := skew |}.
Proof.
  assert (ok_with (fun sys => bool_decide (AppEnv (sy_config sys) = "production")) started = true) as Hp by (vm_compute; reflexivity).
  assert (ok_with (fun env' => ok_with negb (boolEnv env' "AUTH_EMERGENCY_DISABLED" false)) (loadDotEnvFiles no_dotenv production_env) = true)
    as Hem by (vm_compute; reflexivity).
  apply ok_with_true in Hp as (sys & E & Hp%bool_decide_eq_true). exists sys.
  destruct (production_locked no_files no_dotenv production_env sys _ sample_urls_lawful eq_refl eq_refl E Hp) as (env' & em & Henv & He & Hv & _).
  apply ok_with_true in Hem as (env2 & Henv2 & Hem). rewrite Henv in Henv2. injection Henv2 as <-. rewrite He in Hem.
  destruct em; [discriminate Hem|]. destruct Hv as [skew Hv]. exists skew. split; [exact E|exact Hv].
Defined.
End examples.
