(* ===== verification/Readiness.v ===== *)
(** Health and readiness: [internal/observability/readiness.go] and [database.go],
    [internal/handlers/health_handler.go] and [cmd/healthcheck/main.go].  The pool and
    the clock are arguments. *)
From S2P Require Import Prelude GoLists GoBase Float64 Http ObsMetrics.
Local Open Scope Z_scope.

(** * The monitor of the pool *)

Record DatabasePoolStats := {
  MaxConnections : Z;
  TotalConnections : Z;
  AcquiredConnections : Z;
  IdleConnections : Z;
  ConstructingConnections : Z;
  AcquireCount : Z;
  EmptyAcquireCount : Z;
  CanceledAcquireCount : Z;
  NewConnectionsCount : Z;
  AcquireDuration : duration;
}.

Inductive pool_error := AcquireError | PingError.

Record DatabaseSnapshot := {
  ds_Healthy : bool;
  ds_AcquisitionLatency : duration;
  ds_PingLatency : duration;
  ds_Pool : DatabasePoolStats;
  ds_Err : option pool_error;
}.

(** What asking the pool for a connection, and the connection for an answer, brings,
    and how long each takes. *)
Record pool_probe := {
  pp_acquired : bool;
  pp_acquire_time : duration;
  pp_answered : bool;
  pp_ping_time : duration;
}.

Definition pool_result (p : pool_probe) : option pool_error :=
  if negb (pp_acquired p) then Some AcquireError
  else if negb (pp_answered p) then Some PingError else None.

(** [PgxDatabaseMonitor.Snapshot] *)
Definition monitor_Snapshot (p : pool_probe) (stats : DatabasePoolStats) : DatabaseSnapshot :=
  let err := pool_result p in
  {| ds_Healthy := bool_decide (err = None);
     ds_AcquisitionLatency := pp_acquire_time p;
     ds_PingLatency := if pp_acquired p then pp_ping_time p else 0;
     ds_Pool := stats;
     ds_Err := err |}.

(** * The schema *)

(** The relations that exist, and the rows of [app_schema_state] with [singleton],
    of which there is at most one. *)
Record Schema := {
  sc_relations : gset string;
  sc_version : option Z;
}.

Definition ExpectedSchemaVersion : Z := 18.

Definition requiredReadinessRelations : list string :=
  ["public.account_admin_audit_events"; "public.app_admins"; "public.app_schema_state"; "public.albion_player_events";
   "public.albion_player_profiles"; "public.app_users"; "public.billing_notification_outbox"; "public.billing_orders";
   "public.billing_webhook_events"; "public.plan_entitlements"; "public.plans"; "public.player_economic_profiles";
   "public.saved_calculations"; "public.saved_presets"; "public.subscriptions"; "public.user_entitlement_overrides";
   "public.current_market_prices"; "public.market_history_buckets"; "public.market_history_ingest_raw";
   "public.market_history_ingest_requests"; "public.market_ingest_raw"; "public.market_ingest_requests"].

Inductive schema_error :=
  | SchemaQueryFailed
  | NoSchemaVersion
  | RelationsMissing (names : gset string)
  | SchemaTooOld (version : Z).

(** [checkSchema], with the two comparisons its caller makes of its result.  The two
    flags say whether the queries fail.  The missing relations are a set: only the
    text of the error has them in an order. *)
Definition checkSchema (fails1 fails2 : bool) (s : Schema) : result schema_error (gset string * Z) :=
  fail_if fails1 with SchemaQueryFailed else
  let missing := list_to_set (List.filter (fun r => negb (bool_decide (r ∈ sc_relations s))) requiredReadinessRelations) in
  if negb (bool_decide (missing = ∅)) then Ok (missing, 0)
  else
    fail_if fails2 with SchemaQueryFailed else
    let! version := of_option NoSchemaVersion (sc_version s) in
    Ok (∅, version).

Definition schema_problem (r : result schema_error (gset string * Z)) : option schema_error :=
  match r with
  | Err e => Some e
  | Ok (missing, version) =>
      if negb (bool_decide (missing = ∅)) then Some (RelationsMissing missing)
      else if version <? ExpectedSchemaVersion then Some (SchemaTooOld version)
      else None
  end.

(** * The counters *)

Definition ReadinessComponentPool : string := "database_pool".
Definition ReadinessComponentDatabase : string := "database".
Definition ReadinessComponentSchema : string := "schema".

Record ReadinessSnapshot := {
  rs_Ready : bool;
  rs_FailedComponent : string;
  rs_Duration : duration;
  rs_CheckedAt : time;
}.

Record ReadinessMetrics := {
  rm_ready : bool;
  rm_checks : gmap string Z;
  rm_failures : gmap string Z;
  rm_durations : durationHistogram;
  rm_lastSuccessAt : option time;
  rm_lastFailureAt : option time;
}.

Definition NewReadinessMetrics : ReadinessMetrics :=
  {| rm_ready := false; rm_checks := ∅; rm_failures := ∅; rm_durations := zero_histogram;
     rm_lastSuccessAt := None; rm_lastFailureAt := None |}.

Definition normalizeReadinessComponent (component : string) : string :=
  if bool_decide (component ∈ [ReadinessComponentPool; ReadinessComponentDatabase; ReadinessComponentSchema])
  then component else "unknown".

Definition observe_readiness (s : ReadinessSnapshot) (m : ReadinessMetrics) : ReadinessMetrics :=
  let ready := rs_Ready s in
  {| rm_ready := ready;
     rm_checks := bump (if ready then "success" else "error") (rm_checks m);
     rm_failures := if ready then rm_failures m else bump (normalizeReadinessComponent (rs_FailedComponent s)) (rm_failures m);
     rm_durations := observe (rm_durations m) (rs_Duration s);
     rm_lastSuccessAt := if ready then Some (rs_CheckedAt s) else rm_lastSuccessAt m;
     rm_lastFailureAt := if ready then rm_lastFailureAt m else Some (rs_CheckedAt s) |}.

(** * The check *)

(** What a check meets. *)
Record readiness_probe := {
  rp_started : time;
  rp_pool : pool_probe;
  rp_schema : Schema;
  rp_fails1 : bool;
  rp_fails2 : bool;
  rp_schema_time : duration;
  rp_total_time : duration;
}.

(** The counters a check reports to. *)
Record Monitoring := { mo_database : DatabaseMetrics; mo_readiness : ReadinessMetrics }.

Section readiness.
Context `{Unicode}.

Definition observe_database (operation : string) (d : duration) (failed : bool) (m : Monitoring) : Monitoring :=
  {| mo_database := Observe operation d failed (mo_database m); mo_readiness := mo_readiness m |}.

(** The deferred report. *)
Definition conclude (p : readiness_probe) (failed : option string) (m : Monitoring) : ReadinessSnapshot * Monitoring :=
  let s := {| rs_Ready := bool_decide (failed = None); rs_FailedComponent := default EmptyString failed;
              rs_Duration := rp_total_time p; rs_CheckedAt := rp_started p |} in
  (s, {| mo_database := mo_database m; mo_readiness := observe_readiness s (mo_readiness m) |}).

(** [PgxReadinessChecker.Check] *)
Definition Check (p : readiness_probe) (m : Monitoring) : ReadinessSnapshot * Monitoring :=
  let pool := rp_pool p in
  let m := observe_database "readiness_acquire" (pp_acquire_time pool) (negb (pp_acquired pool)) m in
  if negb (pp_acquired pool) then conclude p (Some ReadinessComponentPool) m
  else
    let m := observe_database "readiness_ping" (pp_ping_time pool) (negb (pp_answered pool)) m in
    if negb (pp_answered pool) then conclude p (Some ReadinessComponentDatabase) m
    else
      let problem := schema_problem (checkSchema (rp_fails1 p) (rp_fails2 p) (rp_schema p)) in
      let m := observe_database "readiness_schema" (rp_schema_time p) (bool_decide (is_Some problem)) m in
      if bool_decide (is_Some problem) then conclude p (Some ReadinessComponentSchema) m
      else conclude p None m.
End readiness.

(** * The endpoints *)

Inductive health_body := HealthOK | HealthError (message : string) | HealthUnavailable.

Definition health_reply (status : Z) (headers : list (string * string)) (body : health_body) : Response health_body :=
  {| rs_Status := status; rs_Headers := no_store :: headers ++ [json_type]; rs_Body := body |}.

Definition health_not_allowed : Response health_body :=
  health_reply StatusMethodNotAllowed [("Allow", "GET")] (HealthError "method not allowed").

Definition Healthz (r : HttpRequest) : Response health_body :=
  if negb (bool_decide (hr_Method r = "GET")) then health_not_allowed else health_reply StatusOK [] HealthOK.

(** The check of the pool runs under a timeout, which is part of what it meets. *)
Definition Readyz `{Unicode} (p : readiness_probe) (r : HttpRequest) (m : Monitoring) : Response health_body * Monitoring :=
  if negb (bool_decide (hr_Method r = "GET")) then (health_not_allowed, m)
  else
    let '(s, m) := Check p m in
    (if rs_Ready s then health_reply StatusOK [] HealthOK
     else health_reply StatusServiceUnavailable [] HealthUnavailable, m).

(** [checkHealth] of the probe of the container: whether the answer to its request, if
    there is one, is healthy. *)
Definition checkHealth (answer : option Z) : bool :=
  match answer with Some status => status =? StatusOK | None => false end.
