(* ===== verification/Migrate.v ===== *)
(** The migration tool: [cmd/migrate/main.go], and what the files of [migrations]
    do to the relations and the version the readiness check asks for. *)
From S2P Require Import Prelude GoLists GoBase Config Readiness.
Local Open Scope Z_scope.

(** * The files *)

Record dir_entry := { de_Name : string; de_IsDir : bool }.

Inductive migrate_error :=
  | DatabaseURLExclusive
  | DatabaseURLRequired
  | DatabaseURLUnreadable
  | DatabaseURLEmpty
  | ConnectFailed
  | LockFailed
  | DirectoryUnreadable
  | NoMigrations
  | MigrationUnreadable (file : string)
  | MigrationBegin (file : string)
  | MigrationApply (file : string)
  | MigrationCommit (file : string).

(** [filepath.Ext]: from the last dot of the name, if there is one. *)
Fixpoint ext_from (s : string) : option string :=
  match s with
  | EmptyString => None
  | String c s' =>
      match ext_from s' with
      | Some e => Some e
      | None => if bool_decide (c = "."%char) then Some s else None
      end
  end.

Definition Ext (name : string) : string := default EmptyString (ext_from name).

(** The names in the directory; the directory is put before each. *)
Definition listMigrationFiles (entries : option (list dir_entry)) : result migrate_error (list string) :=
  let! entries := of_option DirectoryUnreadable entries in
  let files := slice_stable str_ltb
    (map de_Name (List.filter (fun e => negb (de_IsDir e || negb (bool_decide (Ext (de_Name e) = ".sql")))) entries)) in
  fail_if bool_decide (files = []) with NoMigrations else
  Ok files.

Definition databaseURLFromEnvironment `{Unicode} (fs : files) (env : environ) : result migrate_error string :=
  let value := TrimSpace (Getenv env "DATABASE_URL") in
  let filePath := TrimSpace (Getenv env "DATABASE_URL_FILE") in
  fail_if negb (is_empty value) && negb (is_empty filePath) with DatabaseURLExclusive else
  if negb (is_empty value) then Ok value
  else
    fail_if is_empty filePath with DatabaseURLRequired else
    let! content := of_option DatabaseURLUnreadable (fs_ReadFile fs filePath) in
    let value := TrimSpace content in
    fail_if is_empty value with DatabaseURLEmpty else
    Ok value.

(** * Applying them

    [DB] is the database.  The text of a file changes it, or a statement is refused; it
    runs in a transaction, so that nothing of a file that fails stays - unless the text
    itself ends the transaction, as [ends_transaction] tells of a file whose last
    statement is a [commit]: what it did is then there before the tool commits, and the
    [commit] of the tool finds no transaction, which PostgreSQL answers with a warning.
    [None] for a file is one that cannot be read. *)
Section migrate.
Context {DB : Type} (exec : string -> DB -> option DB) (ends_transaction : string -> bool) (read : string -> option string).

(** The statement of the transaction that fails, if one does.  The connection may be lost
    before or after the server has executed what it was sent. *)
Inductive migration_fault := FaultBegin | FaultExec (executed : bool) | FaultCommit (executed : bool).

Definition applyMigration (fault : option migration_fault) (file : string) (db : DB) : result migrate_error unit * DB :=
  match read file with
  | None => (Err (MigrationUnreadable file), db)
  | Some content =>
      match fault with
      | Some FaultBegin => (Err (MigrationBegin file), db)
      | _ =>
          match exec content db with
          | None => (Err (MigrationApply file), db)
          | Some db' =>
              match fault with
              | Some (FaultExec executed) => (Err (MigrationApply file), if executed && ends_transaction content then db' else db)
              | Some (FaultCommit executed) => (Err (MigrationCommit file), if executed || ends_transaction content then db' else db)
              | _ => (Ok tt, db')
              end
          end
      end
  end.

(** The loop of [run]; the faults by the file. *)
Fixpoint applyMigrations (faults : string -> option migration_fault) (names : list string) (db : DB)
    : result migrate_error unit * DB :=
  match names with
  | [] => (Ok tt, db)
  | f :: names' =>
      match applyMigration (faults f) f db with
      | (Ok _, db') => applyMigrations faults names' db'
      | (Err e, db') => (Err e, db')
      end
  end.

(** What [run] meets besides: whether it connects and whether it gets the lock, which
    keeps every other run away until the end. *)
Definition run `{Unicode} (fs : files) (env : environ) (connected locked : bool) (entries : option (list dir_entry))
    (faults : string -> option migration_fault) (db : DB) : result migrate_error Z * DB :=
  match databaseURLFromEnvironment fs env with
  | Err e => (Err e, db)
  | Ok _ =>
      if negb connected then (Err ConnectFailed, db)
      else if negb locked then (Err LockFailed, db)
      else
        match listMigrationFiles entries with
        | Err e => (Err e, db)
        | Ok names =>
            let '(r, db) := applyMigrations faults names db in
            (match r with Ok _ => Ok (Z.of_nat (length names)) | Err e => Err e end, db)
        end
  end.
End migrate.

(** * The migrations of the repository *)

(** What a file does to the schema the check reads: the tables it expects to be there,
    those it creates, what it does to the version, and whether its text ends with a
    [commit] of its own. *)
Inductive version_change := VersionKept | VersionInserted (v : Z) | VersionRaised (v : Z).

Record schema_change := { sg_needs : list string; sg_tables : list string; sg_version : version_change; sg_commits : bool }.

Definition public (t : string) : string := "public." +:+ t.

(** [create table if not exists] in the schema [public]; the insert of a version raises
    it on conflict, and the update raises the version of the row if there is one. *)
Definition change_schema (c : schema_change) (s : Schema) : Schema :=
  {| sc_relations := list_to_set (map public (sg_tables c)) ∪ sc_relations s;
     sc_version :=
       match sg_version c with
       | VersionKept => sc_version s
       | VersionInserted v => Some (match sc_version s with Some w => Z.max w v | None => v end)
       | VersionRaised v => (fun w => Z.max w v) <$> sc_version s
       end |}.

(** The files before [0007] touch no version, but for [000006], which creates it. *)
Definition first_file (needs tables : list string) : schema_change :=
  {| sg_needs := needs; sg_tables := tables; sg_version := VersionKept; sg_commits := false |}.

(** The others end with an update of the version, and need its table. *)
Definition raising_file (v : Z) (needs tables : list string) : schema_change :=
  {| sg_needs := "app_schema_state" :: needs; sg_tables := tables; sg_version := VersionRaised v; sg_commits := false |}.

Definition init_sql : schema_change := first_file [] ["market_ingest_raw"; "current_market_prices"].
Definition ingest_request_idempotency_sql : schema_change := first_file [] ["market_ingest_requests"].
Definition raw_audit_write_path_sql : schema_change := first_file [] [].
Definition market_history_sql : schema_change :=
  first_file [] ["market_history_ingest_requests"; "market_history_ingest_raw"; "market_history_buckets"].
Definition retention_indexes_sql : schema_change :=
  first_file ["market_history_ingest_raw"; "market_ingest_raw"; "market_history_buckets"] [].
Definition observability_readiness_sql : schema_change :=
  {| sg_needs := []; sg_tables := ["app_schema_state"]; sg_version := VersionInserted 6; sg_commits := false |}.
Definition accounts_entitlements_sql : schema_change :=
  raising_file 7 [] ["plans"; "app_users"; "subscriptions"; "plan_entitlements"; "user_entitlement_overrides"; "billing_webhook_events"].
Definition account_integrity_constraints_sql : schema_change :=
  raising_file 8 ["app_users"; "billing_webhook_events"; "plan_entitlements"; "plans"; "subscriptions"; "user_entitlement_overrides"] [].
Definition billing_provider_metadata_sql : schema_change := raising_file 9 ["subscriptions"; "billing_webhook_events"] [].
Definition billing_subscription_conflict_target_sql : schema_change := raising_file 10 ["subscriptions"] [].
Definition account_admin_audit_sql : schema_change := raising_file 11 ["app_users"] ["account_admin_audit_events"].
Definition secure_admin_panel_sql : schema_change := raising_file 12 ["app_users"] ["app_admins"].
Definition albion_player_profiles_sql : schema_change :=
  raising_file 13 ["app_users"] ["albion_player_profiles"; "albion_player_events"].
Definition albion_player_event_equipment_sql : schema_change := raising_file 14 ["albion_player_events"] [].
Definition black_market_entitlement_sql : schema_change := raising_file 15 ["plan_entitlements"] [].
Definition cloud_saved_data_sql : schema_change :=
  raising_file 16 ["app_users"; "plan_entitlements"] ["saved_presets"; "saved_calculations"].
Definition player_economic_profiles_sql : schema_change := raising_file 17 ["app_users"] ["player_economic_profiles"].

(** The only file with a [begin] and a [commit] of its own. *)
Definition billing_webhook_queue_sql : schema_change :=
  {| sg_needs := ["app_schema_state"; "subscriptions"; "billing_webhook_events"; "app_users"];
     sg_tables := ["billing_orders"; "billing_notification_outbox"]; sg_version := VersionRaised 18; sg_commits := true |}.

(** The directory, in the order the names are listed here. *)
Definition migrations : list (string * schema_change) :=
  [("0007_accounts_entitlements.sql", accounts_entitlements_sql);
   ("0008_account_integrity_constraints.sql", account_integrity_constraints_sql);
   ("0009_billing_provider_metadata.sql", billing_provider_metadata_sql);
   ("0010_billing_subscription_conflict_target.sql", billing_subscription_conflict_target_sql);
   ("0011_account_admin_audit.sql", account_admin_audit_sql);
   ("0012_secure_admin_panel.sql", secure_admin_panel_sql);
   ("0013_albion_player_profiles.sql", albion_player_profiles_sql);
   ("0014_albion_player_event_equipment.sql", albion_player_event_equipment_sql);
   ("0015_black_market_entitlement.sql", black_market_entitlement_sql);
   ("0016_cloud_saved_data.sql", cloud_saved_data_sql);
   ("0017_player_economic_profiles.sql", player_economic_profiles_sql);
   ("0018_billing_webhook_queue.sql", billing_webhook_queue_sql);
   ("000001_init.sql", init_sql);
   ("000002_ingest_request_idempotency.sql", ingest_request_idempotency_sql);
   ("000003_raw_audit_write_path.sql", raw_audit_write_path_sql);
   ("000004_market_history.sql", market_history_sql);
   ("000005_retention_indexes.sql", retention_indexes_sql);
   ("000006_observability_readiness.sql", observability_readiness_sql)].

(** The text of a file stands for its change. *)
Definition change_of (content : string) : option schema_change :=
  snd <$> List.find (fun m => bool_decide (m.1 = content)) migrations.

(** A file is refused when a table it needs is not there, and whenever the database
    refuses one of its statements for what [Schema] does not hold: the rows (a constraint
    of [0008] they violate), the columns of tables of another origin. *)
Definition exec_schema (refused : string -> Schema -> bool) (content : string) (s : Schema) : option Schema :=
  c ← change_of content;
  if forallb (fun t => bool_decide (public t ∈ sc_relations s)) (sg_needs c) && negb (refused content s)
  then Some (change_schema c s) else None.

Definition commits_itself (content : string) : bool :=
  match change_of content with Some c => sg_commits c | None => false end.
