(* ===== verification/ReadinessSpec.v ===== *)
(** What readiness means, what its counters count, and that the migrations of the
    repository, and nothing less, make a database ready. *)
From S2P Require Import Prelude GoLists GoBase Float64 Utf8 Json Http ObsMetrics Config Readiness Migrate.
Local Open Scope Z_scope.

(** * The check *)

(** A schema the server can work with. *)
Definition schema_good (s : Schema) : Prop :=
  (forall r, r ∈ requiredReadinessRelations -> r ∈ sc_relations s) /\
  exists v, sc_version s = Some v /\ ExpectedSchemaVersion <= v.

Lemma none_missing (l : list string) (present : gset string) :
  (list_to_set (List.filter (fun r => negb (bool_decide (r ∈ present))) l) : gset string) = ∅ <->
  forall r, r ∈ l -> r ∈ present.
Proof.
  induction l as [|x l IH]; simpl; [set_solver|]. setoid_rewrite elem_of_cons. case_bool_decide as Hx; simpl; [naive_solver|].
  split; [set_solver|]. intros Hall. by destruct Hx; apply Hall; left.
Qed.

Lemma schema_problem_none f1 f2 s :
  schema_problem (checkSchema f1 f2 s) = None <-> f1 = false /\ f2 = false /\ schema_good s.
Proof.
  unfold checkSchema, schema_good. destruct f1; [split; [done|by intros [? _]]|]. cbv zeta. rewrite <- none_missing.
  generalize (list_to_set (C := gset string) (List.filter (fun r => negb (bool_decide (r ∈ sc_relations s))) requiredReadinessRelations)).
  intros missing. case_bool_decide as Hm; cbn [negb].
  - destruct f2; [split; [done|by intros (_ & ? & _)]|]. destruct (sc_version s) as [v|]; simpl.
    + destruct (v <? ExpectedSchemaVersion) eqn:E; bool_facts; split; try done; [intros (_ & _ & _ & w & [= <-] & Hw); lia|].
      intros _. split_and!; try done. by exists v.
    + split; [done|]. by intros (_ & _ & _ & w & ? & _).
  - simpl. rewrite bool_decide_eq_false_2 by done. split; [done|]. by intros (_ & _ & Hn & _).
Qed.

Section check.
Context `{Unicode}.

(** What the check of a probe says, whatever the counters are. *)
Definition failed_component (p : readiness_probe) : option string :=
  if negb (pp_acquired (rp_pool p)) then Some ReadinessComponentPool
  else if negb (pp_answered (rp_pool p)) then Some ReadinessComponentDatabase
  else if bool_decide (is_Some (schema_problem (checkSchema (rp_fails1 p) (rp_fails2 p) (rp_schema p))))
  then Some ReadinessComponentSchema else None.

(** What the check reports of the operations it makes. *)
Definition report (p : readiness_probe) : list (string * duration * bool) :=
  let pool := rp_pool p in
  ("readiness_acquire", pp_acquire_time pool, negb (pp_acquired pool)) ::
  if negb (pp_acquired pool) then []
  else ("readiness_ping", pp_ping_time pool, negb (pp_answered pool)) ::
    if negb (pp_answered pool) then []
    else [("readiness_schema", rp_schema_time p, bool_decide (failed_component p = Some ReadinessComponentSchema))].

Definition snapshot_of (p : readiness_probe) : ReadinessSnapshot :=
  {| rs_Ready := bool_decide (failed_component p = None); rs_FailedComponent := default EmptyString (failed_component p);
     rs_Duration := rp_total_time p; rs_CheckedAt := rp_started p |}.

Lemma Check_eq p m :
  Check p m = (snapshot_of p,
    {| mo_database := foldl (fun m o => Observe o.1.1 o.1.2 o.2 m) (mo_database m) (report p);
       mo_readiness := observe_readiness (snapshot_of p) (mo_readiness m) |}).
Proof.
  unfold Check, conclude, snapshot_of, report, failed_component. cbv zeta.
  destruct (pp_acquired (rp_pool p)); [|done]. destruct (pp_answered (rp_pool p)); [|done]. cbn [negb].
  destruct (bool_decide (is_Some _)); done.
Qed.

Lemma failed_component_cases p :
  (failed_component p = Some ReadinessComponentPool <-> pp_acquired (rp_pool p) = false) /\
  (failed_component p = Some ReadinessComponentDatabase <-> pp_acquired (rp_pool p) = true /\ pp_answered (rp_pool p) = false) /\
  (failed_component p = None <->
     pp_acquired (rp_pool p) = true /\ pp_answered (rp_pool p) = true /\
     rp_fails1 p = false /\ rp_fails2 p = false /\ schema_good (rp_schema p)).
Proof.
  unfold failed_component. rewrite <- (schema_problem_none (rp_fails1 p) (rp_fails2 p) (rp_schema p)).
  destruct (pp_acquired (rp_pool p)), (pp_answered (rp_pool p)); cbn [negb].
  2-4: split_and!; split; naive_solver.
  destruct (schema_problem _); split_and!; split; naive_solver.
Qed.

(** C20. A server is ready exactly when the pool gives a connection, the connection
    answers, the queries of the schema work, every required relation exists and the
    version is at least the expected one; a GET of /readyz is answered with 200 then
    and with 503 otherwise, the failed component is the first of pool, database and
    schema that fails, and /healthz, which the container asks, is answered with 200
    whatever the database does. *)
Theorem readiness_sound p r m :
  hr_Method r = "GET" ->
  let '(resp, m') := Readyz p r m in
  (rs_Status resp = StatusOK <->
     pp_acquired (rp_pool p) = true /\ pp_answered (rp_pool p) = true /\
     rp_fails1 p = false /\ rp_fails2 p = false /\ schema_good (rp_schema p)) /\
  (rs_Status resp <> StatusOK -> rs_Status resp = StatusServiceUnavailable) /\
  (rm_ready (mo_readiness m') = true <-> rs_Status resp = StatusOK) /\
  (pp_acquired (rp_pool p) = false -> rs_FailedComponent (Check p m).1 = ReadinessComponentPool) /\
  (pp_acquired (rp_pool p) = true -> pp_answered (rp_pool p) = false ->
     rs_FailedComponent (Check p m).1 = ReadinessComponentDatabase) /\
  (pp_acquired (rp_pool p) = true -> pp_answered (rp_pool p) = true -> rs_Status resp <> StatusOK ->
     rs_FailedComponent (Check p m).1 = ReadinessComponentSchema) /\
  checkHealth (Some (rs_Status (Healthz r))) = true.
Proof.
  intros Hget. unfold Readyz, Healthz. rewrite bool_decide_eq_true_2 by done. cbn [negb]. rewrite Check_eq.
  destruct (failed_component_cases p) as (Hpool & Hdb & Hnone). rewrite <- Hnone.
  cbn [fst snapshot_of rs_Ready rs_FailedComponent mo_readiness observe_readiness rm_ready].
  assert (failed_component p = None \/ exists c, failed_component p = Some c) as Hcase by (destruct (failed_component p); eauto).
  destruct Hcase as [Hf|[c Hf]]; rewrite Hf; [rewrite bool_decide_eq_true_2 by done|rewrite bool_decide_eq_false_2 by done];
    cbn [rs_Status health_reply from_option id].
  - split_and!; try done; intros; exfalso; [by rewrite (proj2 Hpool) in Hf|by rewrite (proj2 Hdb) in Hf].
  - split_and!; try done.
    + intros Ha. rewrite (proj2 Hpool) in Hf by done. by injection Hf.
    + intros Ha Hb. rewrite (proj2 Hdb) in Hf by done. by injection Hf.
    + intros Ha Hb _. revert Hf. unfold failed_component. rewrite Ha, Hb. cbn [negb]. case_bool_decide; [by intros [= <-]|done].
Qed.

(** * The counters *)

Definition count_of (p : readiness_probe -> bool) (probes : list readiness_probe) : Z :=
  Z.of_nat (length (List.filter p probes)).

Lemma count_of_app p l e : count_of p (l ++ [e]) = count_of p l + (if p e then 1 else 0).
Proof. unfold count_of. rewrite List.filter_app, length_app. simpl. destruct (p e); simpl; lia. Qed.

Lemma count_of_bounds p l : 0 <= count_of p l <= Z.of_nat (length l).
Proof. unfold count_of. pose proof (filter_length_le p l). lia. Qed.

Definition is_ready (p : readiness_probe) : bool := bool_decide (failed_component p = None).

Definition fails_at (c : string) (p : readiness_probe) : bool := bool_decide (failed_component p = Some c).

Definition check_all (probes : list readiness_probe) (m : Monitoring) : Monitoring :=
  foldl (fun m p => (Check p m).2) m probes.

(** The time of the last check of a kind. *)
Definition last_time (p : readiness_probe -> bool) (probes : list readiness_probe) : option time :=
  rp_started <$> last (List.filter p probes).

Record readiness_counts (probes : list readiness_probe) (m : ReadinessMetrics) : Prop := {
  rc_ready : rm_ready m = match last probes with Some p => is_ready p | None => false end;
  rc_success : default 0 (rm_checks m !! "success") = count_of is_ready probes;
  rc_error : default 0 (rm_checks m !! "error") = count_of (fun p => negb (is_ready p)) probes;
  rc_failures c : default 0 (rm_failures m !! c) = count_of (fails_at c) probes;
  rc_times : dh_Count (rm_durations m) = Z.of_nat (length probes);
  rc_last_success : rm_lastSuccessAt m = last_time is_ready probes;
  rc_last_failure : rm_lastFailureAt m = last_time (fun p => negb (is_ready p)) probes;
}.

Lemma last_time_app p l e :
  last_time p (l ++ [e]) = if p e then Some (rp_started e) else last_time p l.
Proof.
  unfold last_time. rewrite List.filter_app. simpl. destruct (p e); [by rewrite last_snoc|by rewrite app_nil_r].
Qed.

Lemma failed_known p c : failed_component p = Some c -> normalizeReadinessComponent c = c.
Proof.
  unfold failed_component. repeat (destruct (negb _); [by intros [= <-]|]). case_bool_decide; by intros [= <-].
Qed.

Lemma bump_count (f : readiness_probe -> bool) k k' (m : gmap string Z) probes e :
  Z.of_nat (length probes) < 2 ^ 63 -> default 0 (m !! k) < 2 ^ 63 -> 0 <= default 0 (m !! k) ->
  default 0 (m !! k') = count_of f probes -> f e = bool_decide (k = k') ->
  default 0 (bump k m !! k') = count_of f (probes ++ [e]).
Proof.
  intros Hlen Hk H0 Hm He. rewrite bump_lookup, Hm, count_of_app, He by lia. done.
Qed.

Lemma readiness_counts_step probes p m :
  Z.of_nat (length (probes ++ [p])) < 2 ^ 63 -> readiness_counts probes m ->
  readiness_counts (probes ++ [p]) (observe_readiness (snapshot_of p) m).
Proof.
  intros Hlen [Hr Hs He Hf Ht Hls Hlf]. rewrite length_app in Hlen. simpl in Hlen.
  pose proof (count_of_bounds is_ready probes). pose proof (count_of_bounds (fun p => negb (is_ready p)) probes).
  unfold observe_readiness, snapshot_of. cbn [rs_Ready rs_FailedComponent rs_Duration rs_CheckedAt].
  change (bool_decide (failed_component p = None)) with (is_ready p).
  split; cbn [rm_ready rm_checks rm_failures rm_durations rm_lastSuccessAt rm_lastFailureAt].
  - by rewrite last_snoc.
  - apply bump_count; [lia|..|exact Hs|]; destruct (is_ready p); rewrite ?Hs, ?He; try lia; done.
  - apply bump_count; [lia|..|exact He|]; destruct (is_ready p); rewrite ?Hs, ?He; try lia; done.
  - intros c. destruct (is_ready p) eqn:E; unfold is_ready in E; bool_facts.
    + rewrite Hf, count_of_app. unfold fails_at at 3. rewrite E. by rewrite Z.add_0_r.
    + destruct (failed_component p) as [c'|] eqn:Ec; [|done]. change (default EmptyString (Some c')) with c'. rewrite (failed_known _ _ Ec).
      pose proof (count_of_bounds (fails_at c') probes).
      apply bump_count; rewrite ?Hf; try lia. unfold fails_at. rewrite Ec. apply bool_decide_ext. split; [by intros [= ->]|by intros ->].
  - unfold observe. cbn [dh_Count]. rewrite Ht, length_app, u64_add_one by lia. simpl. lia.
  - rewrite last_time_app, Hls. done.
  - rewrite last_time_app, Hlf. by destruct (is_ready p).
Qed.

(** The operations of the checks in the database metrics. *)
Definition reported (op : string) (failed : bool) (probes : list readiness_probe) : Z :=
  Z.of_nat (length (List.filter (fun o => bool_decide (o.1.1 = op) && Bool.eqb o.2 failed) (concat (map report probes)))).

Definition result_label (failed : bool) : string := if failed then "error" else "success".

Lemma result_key (o op : string) e f :
  bool_decide ((o, result_label e) = (op, result_label f)) = bool_decide (o = op) && Bool.eqb e f.
Proof. apply eq_bool_prop_intro. rewrite andb_True, !bool_decide_spec. destruct e, f; simpl; naive_solver. Qed.

Lemma Observe_counts reports (l : list (string * duration * bool)) m :
  Forall (fun o => normalizeDatabaseOperation o.1.1 = o.1.1) reports ->
  Z.of_nat (length (l ++ reports)) < 2 ^ 63 ->
  (forall op f, default 0 (dm_operations m !! (op, result_label f)) =
     Z.of_nat (length (List.filter (fun o => bool_decide (o.1.1 = op) && Bool.eqb o.2 f) l))) ->
  forall op f, default 0 (dm_operations (foldl (fun m o => Observe o.1.1 o.1.2 o.2 m) m reports) !! (op, result_label f)) =
     Z.of_nat (length (List.filter (fun o => bool_decide (o.1.1 = op) && Bool.eqb o.2 f) (l ++ reports))).
Proof.
  intros Hall. revert l m. induction Hall as [|[[o d] e] reports Ho _ IH]; intros l m Hlen Hm op f; [by rewrite app_nil_r|].
  simpl in Ho. cbn [foldl fst snd]. rewrite (app_assoc l [(o, d, e)] reports : l ++ (o, d, e) :: reports = _). apply IH; [by rewrite <- app_assoc|].
  clear op f. intros op f. unfold Observe. cbn [dm_operations]. rewrite Ho.
  change (if e then "error" else "success") with (result_label e).
  rewrite length_app in Hlen. simpl in Hlen.
  rewrite bump_lookup.
  - rewrite Hm, List.filter_app, length_app. cbn [List.filter fst snd]. rewrite result_key. destruct (bool_decide _ && _); simpl; lia.
  - rewrite Hm. pose proof (filter_length_le (fun o' => bool_decide (o'.1.1 = o) && Bool.eqb o'.2 e) l). lia.
Qed.

Lemma reports_app l p :
  concat (map report (l ++ [p])) = concat (map report l) ++ report p.
Proof. rewrite map_app, concat_app. simpl. by rewrite List.app_nil_r. Qed.

Lemma length_report p : (length (report p) <= 3)%nat.
Proof. unfold report. destruct (pp_acquired _), (pp_answered _); simpl; lia. Qed.

Lemma length_reports l : (length (concat (map report l)) <= 3 * length l)%nat.
Proof.
  induction l as [|p l IH]; cbn [map concat length]; [lia|]. rewrite length_app. pose proof (length_report p). lia.
Qed.

Lemma report_known p : Forall (fun o => normalizeDatabaseOperation o.1.1 = o.1.1) (report p).
Proof.
  unfold report. repeat (apply Forall_cons; split; [done|]; destruct (negb _)); try apply Forall_nil; try done.
  by apply Forall_singleton.
Qed.

(** The checks since the start of the server. *)
Definition fresh_monitoring : Monitoring := {| mo_database := NewDatabaseMetrics; mo_readiness := NewReadinessMetrics |}.

(** The metrics of readiness are exact: after any checks the gauge is what the
    last one said, the counters are the numbers of checks that succeeded, that failed
    and that failed in each component, the timestamps are those of the last check of
    each kind, and the database metrics count every acquisition, ping and reading of
    the schema by its result, each step being made only after the one before it. *)
Theorem readiness_metrics_exact probes :
  3 * Z.of_nat (length probes) < 2 ^ 63 ->
  let m := check_all probes fresh_monitoring in
  readiness_counts probes (mo_readiness m) /\
  forall op failed, default 0 (dm_operations (mo_database m) !! (op, result_label failed)) = reported op failed probes.
Proof.
  intros Hlen. cbv zeta. induction probes as [|p probes IH] using rev_ind.
  { split; [split; try done; by intros|by intros]. }
  rewrite length_app in Hlen. simpl in Hlen. destruct IH as [Hc Ho]; [lia|].
  unfold check_all. rewrite foldl_snoc. fold (check_all probes fresh_monitoring). rewrite Check_eq. cbn [snd mo_readiness mo_database].
  split.
  - apply readiness_counts_step; [rewrite length_app; simpl; lia|exact Hc].
  - intros op f. unfold reported. rewrite reports_app.
    apply Observe_counts; [apply report_known| |exact Ho].
    rewrite length_app. pose proof (length_reports probes). pose proof (length_report p). lia.
Qed.
End check.

(** * The migrations *)

Section migrate.
Context {DB : Type} (exec : string -> DB -> option DB) (ends_transaction : string -> bool) (read : string -> option string).
Variable faults : string -> option migration_fault.

(** What a file does when nothing fails. *)
Definition file_effect (f : string) (db : DB) : option DB := c ← read f; exec c db.

Definition effects (files : list string) (db : DB) : option DB := foldl (fun r f => db ← r; file_effect f db) (Some db) files.

Lemma effects_cons f files db db' : file_effect f db = Some db' -> effects (f :: files) db = effects files db'.
Proof. intros Hf. unfold effects. simpl. by rewrite Hf. Qed.

Lemma effects_snoc files f db : effects (files ++ [f]) db = (db' ← effects files db; file_effect f db').
Proof. unfold effects. by rewrite foldl_snoc. Qed.

(** Why a run stops at a file that leaves nothing in the database... *)
Inductive stops (f : string) (db : DB) : migrate_error -> Prop :=
  | stops_unreadable : read f = None -> stops f db (MigrationUnreadable f)
  | stops_begin : faults f = Some FaultBegin -> stops f db (MigrationBegin f)
  | stops_refused content : read f = Some content -> exec content db = None -> stops f db (MigrationApply f)
  | stops_exec executed : faults f = Some (FaultExec executed) -> stops f db (MigrationApply f)
  | stops_commit : faults f = Some (FaultCommit false) -> stops f db (MigrationCommit f).

(** ... or after a file that is there without the tool knowing. *)
Inductive unacknowledged (f : string) : migrate_error -> Prop :=
  | lost_exec content : read f = Some content -> ends_transaction content = true ->
      faults f = Some (FaultExec true) -> unacknowledged f (MigrationApply f)
  | lost_commit content executed : read f = Some content -> executed || ends_transaction content = true ->
      faults f = Some (FaultCommit executed) -> unacknowledged f (MigrationCommit f).

Lemma applyMigration_cases f db r db' :
  applyMigration exec ends_transaction read (faults f) f db = (r, db') ->
  match r with
  | Ok _ => file_effect f db = Some db'
  | Err e => (db' = db /\ stops f db e) \/ (file_effect f db = Some db' /\ unacknowledged f e)
  end.
Proof.
  unfold applyMigration, file_effect. destruct (read f) as [content|] eqn:Hr; [|intros [= <- <-]; left; split; [done|by constructor]].
  destruct (faults f) as [[|executed|executed]|] eqn:Hf.
  - intros [= <- <-]. left. split; [done|by constructor].
  - destruct (exec content db) as [db1|] eqn:He; intros [= <- <-]; [|left; split; [done|by econstructor]].
    destruct (executed && ends_transaction content) eqn:Hx; [|left; split; [done|by econstructor]].
    apply andb_true_iff in Hx as [-> Hx]. right. split; [done|by econstructor].
  - destruct (exec content db) as [db1|] eqn:He; intros [= <- <-]; [|left; split; [done|by econstructor]].
    destruct (executed || ends_transaction content) eqn:Hx; [right; split; [done|by econstructor]|].
    apply orb_false_iff in Hx as [-> _]. left. split; [done|by constructor].
  - destruct (exec content db) as [db1|] eqn:He; intros [= <- <-]; [done|left; split; [done|by econstructor]].
Qed.

(** The files are applied in their order, and none after one that fails: what stays is
    the effect of a beginning of the list, the whole list when the run succeeds. *)
Lemma applyMigrations_prefix names db r db' :
  applyMigrations exec ends_transaction read faults names db = (r, db') ->
  exists n, effects (take n names) db = Some db' /\
    match r with
    | Ok _ => n = length names
    | Err e => (exists f, names !! n = Some f /\ stops f db' e) \/
               (exists f m, n = S m /\ names !! m = Some f /\ unacknowledged f e)
    end.
Proof.
  revert db. induction names as [|f names IH]; intros db; simpl.
  { intros [= <- <-]. by exists 0%nat. }
  destruct (applyMigration _ _ _ _ _ _) as [[[]|e] db1] eqn:E; apply applyMigration_cases in E.
  - intros (n & Hn & Hcase)%IH. exists (S n). rewrite firstn_cons, (effects_cons _ _ _ _ E). split; [done|].
    destruct r as [|e]; [lia|]. destruct Hcase as [(g & Hg & Hs)|(g & m & -> & Hg & Hu)]; [by left; exists g|right; by exists g, (S m)].
  - intros [= <- <-]. destruct E as [[-> Hs]|[Hf Hu]]; [exists 0%nat; split; [done|]; left; by exists f|].
    exists 1%nat. rewrite firstn_cons, (effects_cons _ _ _ _ Hf). split; [done|]. right. by exists f, 0%nat.
Qed.
End migrate.

(** The files of the repository in the order of their names. *)
Definition migration_order : list string :=
  ["000001_init.sql"; "000002_ingest_request_idempotency.sql"; "000003_raw_audit_write_path.sql"; "000004_market_history.sql";
   "000005_retention_indexes.sql"; "000006_observability_readiness.sql"; "0007_accounts_entitlements.sql";
   "0008_account_integrity_constraints.sql"; "0009_billing_provider_metadata.sql";
   "0010_billing_subscription_conflict_target.sql"; "0011_account_admin_audit.sql"; "0012_secure_admin_panel.sql";
   "0013_albion_player_profiles.sql"; "0014_albion_player_event_equipment.sql"; "0015_black_market_entitlement.sql";
   "0016_cloud_saved_data.sql"; "0017_player_economic_profiles.sql"; "0018_billing_webhook_queue.sql"].

Lemma listed_in_order names : names ≡ₚ map fst migrations -> slice_stable str_ltb names = migration_order.
Proof.
  intros Hp. rewrite (slice_stable_unique str_ltb names (map fst migrations)); [vm_compute; reflexivity|done|].
  intros x y _ _. apply str_ltb_eq.
Qed.

Lemma listed entries :
  map de_Name (List.filter (fun e => negb (de_IsDir e || negb (bool_decide (Ext (de_Name e) = ".sql")))) entries) ≡ₚ map fst migrations ->
  listMigrationFiles (Some entries) = Ok migration_order.
Proof. intros Hp. unfold listMigrationFiles. cbn [of_option rbind]. by rewrite (listed_in_order _ Hp). Qed.

Definition schema_after (files : list string) (s : Schema) : Schema :=
  foldl (fun s f => match change_of f with Some c => change_schema c s | None => s end) s files.

Lemma schema_after_snoc files f s :
  schema_after (files ++ [f]) s
  = match change_of f with Some c => change_schema c (schema_after files s) | None => schema_after files s end.
Proof. unfold schema_after. by rewrite foldl_snoc. Qed.

(** The files that can be read. *)
Definition reading (readable : string -> bool) (f : string) : option string := if readable f then Some f else None.

Lemma schema_effects refused readable files s s' :
  effects (exec_schema refused) (reading readable) files s = Some s' -> s' = schema_after files s.
Proof.
  revert s'. induction files as [|f files IH] using rev_ind; intros s'; [by intros [= <-]|].
  rewrite effects_snoc. intros (s1 & ->%IH & Hf)%bind_Some. rewrite schema_after_snoc.
  unfold file_effect, reading in Hf. destruct (readable f); [simpl in Hf|done]. unfold exec_schema in Hf.
  destruct (change_of f) as [c|]; [simpl in Hf|done]. destruct (_ && _); [|done]. by injection Hf as <-.
Qed.

Lemma schema_after_relations files s r :
  r ∈ sc_relations (schema_after files s) <->
  r ∈ sc_relations s \/ exists f c t, f ∈ files /\ change_of f = Some c /\ t ∈ sg_tables c /\ r = public t.
Proof.
  induction files as [|f files IH] using rev_ind; [naive_solver set_solver|].
  rewrite schema_after_snoc. setoid_rewrite elem_of_app. setoid_rewrite list_elem_of_singleton. split.
  - destruct (change_of f) as [c|] eqn:Hc; [intros [(t & -> & Ht)%elem_of_list_to_set%list_elem_of_fmap|Hr%IH]%elem_of_union|intros Hr%IH];
      [right; exists f, c, t; eauto|..]; destruct Hr as [|(g & c' & t & ? & ? & ? & ?)]; [by left|right; exists g, c', t; eauto|by left|].
    right. exists g, c', t. eauto.
  - intros [Hr|(g & c & t & [Hg | ->] & Hc & Ht & Hr)].
    + destruct (change_of f); [apply elem_of_union; right|]; apply IH; by left.
    + destruct (change_of f); [apply elem_of_union; right|]; apply IH; right; exists g, c, t; eauto.
    + rewrite Hc. apply elem_of_union. left. apply elem_of_list_to_set, list_elem_of_fmap. by exists t.
Qed.

Definition version_effect (o : option schema_change) (v : option Z) : option Z :=
  match o with Some c => sc_version (change_schema c {| sc_relations := ∅; sc_version := v |}) | None => v end.

Lemma schema_after_version files s :
  sc_version (schema_after files s) = foldl (fun v c => version_effect c v) (sc_version s) (map change_of files).
Proof.
  induction files as [|f files IH] using rev_ind; [done|].
  rewrite schema_after_snoc, map_app. cbn [map]. rewrite foldl_snoc, <- IH. by destruct (change_of f).
Qed.

(** The tables created by the files before one are enough for it. *)
Definition creates (files : list string) (t : string) : bool :=
  existsb (fun f => match change_of f with Some c => bool_decide (t ∈ sg_tables c) | None => false end) files.

Lemma creates_relation files s t : creates files t = true -> public t ∈ sc_relations (schema_after files s).
Proof.
  intros (f & Hf%list_elem_of_In & Ht)%existsb_exists. destruct (change_of f) as [c|] eqn:Hc; [|done].
  apply bool_decide_eq_true_1 in Ht. apply schema_after_relations. right. by exists f, c, t.
Qed.

Definition needs_met (n : nat) : bool :=
  match migration_order !! n with
  | Some f => match change_of f with Some c => forallb (creates (take n migration_order)) (sg_needs c) | None => false end
  | None => true
  end.

Lemma needs_are_met n f s :
  migration_order !! n = Some f ->
  exists c, change_of f = Some c /\
    forallb (fun t => bool_decide (public t ∈ sc_relations (schema_after (take n migration_order) s))) (sg_needs c) = true.
Proof.
  intros Hf. assert (forallb needs_met (seq 0 18) = true) as Hall by (vm_compute; reflexivity).
  rewrite forallb_forall in Hall. specialize (Hall n ltac:(apply in_seq; apply lookup_lt_Some in Hf; simpl in Hf; lia)).
  unfold needs_met in Hall. rewrite Hf in Hall. destruct (change_of f) as [c|]; [|done]. exists c. split; [done|].
  apply forallb_forall. intros t Ht. rewrite forallb_forall in Hall. apply bool_decide_eq_true_2, creates_relation, Hall, Ht.
Qed.

(** A file that is refused although those before it were applied is refused for more than
    its tables. *)
Lemma refused_for_cause refused n f s :
  migration_order !! n = Some f -> exec_schema refused f (schema_after (take n migration_order) s) = None ->
  refused f (schema_after (take n migration_order) s) = true.
Proof.
  intros (c & Hc & Hneeds)%(needs_are_met n f s) He. unfold exec_schema in He. rewrite Hc in He. simpl in He. rewrite Hneeds in He.
  by destruct (refused _ _).
Qed.

Lemma all_migrations_good s : schema_good (schema_after migration_order s).
Proof.
  split.
  - assert (forallb (fun r => existsb (fun t => bool_decide (r = public t) && creates migration_order t)
                                (flat_map (fun m => sg_tables m.2) migrations))
              requiredReadinessRelations = true) as Hall by (vm_compute; reflexivity).
    intros r Hr. rewrite forallb_forall in Hall. apply list_elem_of_In, Hall, existsb_exists in Hr as (t & _ & [Hr Ht]%andb_true_iff).
    apply bool_decide_eq_true_1 in Hr as ->. by apply creates_relation.
  - rewrite schema_after_version.
    assert (map change_of migration_order = map Some
      [init_sql; ingest_request_idempotency_sql; raw_audit_write_path_sql; market_history_sql; retention_indexes_sql;
       observability_readiness_sql; accounts_entitlements_sql; account_integrity_constraints_sql; billing_provider_metadata_sql;
       billing_subscription_conflict_target_sql; account_admin_audit_sql; secure_admin_panel_sql; albion_player_profiles_sql;
       albion_player_event_equipment_sql; black_market_entitlement_sql; cloud_saved_data_sql; player_economic_profiles_sql;
       billing_webhook_queue_sql]) as -> by (vm_compute; reflexivity).
    unfold ExpectedSchemaVersion. destruct (sc_version s) as [w|]; eexists; (split; [reflexivity|]); lia.
Qed.

(** The check of a schema as a function. *)
Definition schema_goodb (s : Schema) : bool :=
  match schema_problem (checkSchema false false s) with None => true | Some _ => false end.

Lemma schema_goodb_spec s : schema_goodb s = true <-> schema_good s.
Proof.
  unfold schema_goodb. pose proof (schema_problem_none false false s) as Hs. destruct (schema_problem _).
  - split; [done|]. intros Hg. discriminate (proj2 Hs (conj eq_refl (conj eq_refl Hg))).
  - split; [|done]. intros _. by destruct (proj1 Hs eq_refl) as (_ & _ & ?).
Qed.

Definition no_schema : Schema := {| sc_relations := ∅; sc_version := None |}.

Lemma fewer_migrations_not_good n : (n < 18)%nat -> ~ schema_good (schema_after (take n migration_order) no_schema).
Proof.
  intros Hn Hg%schema_goodb_spec.
  assert (forallb (fun n => negb (schema_goodb (schema_after (take n migration_order) no_schema))) (seq 0 18) = true) as Hall
    by (vm_compute; reflexivity).
  rewrite forallb_forall in Hall. specialize (Hall n). rewrite Hg in Hall. by discriminate Hall; apply in_seq; lia.
Qed.

#[local] Abbreviation last_migration := "0018_billing_webhook_queue.sql".

(** C19. The migrations make a database ready, and nothing less does.  Whatever else is
    in the directory and in whatever order it is read, the migrations are applied in the
    order of their numbers, and what a run leaves is the effect of the first of them, in
    whatever state it starts: all of them, and then a schema the readiness check accepts,
    when it succeeds; when it fails, those before the file it stops at - one that cannot
    be read, that the database refuses, or in which the connection is lost - or up to a
    file whose effect is there although the tool was not told, after a lost commit or,
    for a file with a commit of its own, a lost execution.  Relations are never lost.  A
    run in which all files can be read, nothing fails and the database refuses none of
    their statements for its rows or columns succeeds from every state: in this order
    every table a file needs has been created.  From an empty database, a run that does
    not succeed leaves a schema the check refuses - unless the last file is there and
    only the answer was lost - so that a server is not ready before the migrations are
    complete. *)
Theorem migrations_gate_readiness `{Unicode} refused readable fs env url entries faults s :
  databaseURLFromEnvironment fs env = Ok url ->
  map de_Name (List.filter (fun e => negb (de_IsDir e || negb (bool_decide (Ext (de_Name e) = ".sql")))) entries) ≡ₚ map fst migrations ->
  let exec := exec_schema refused in
  let read := reading readable in
  let '(r, s') := run exec commits_itself read fs env true true (Some entries) faults s in
  (exists n, s' = schema_after (take n migration_order) s /\
     match r with
     | Ok count => count = 18 /\ n = 18%nat /\ schema_good s'
     | Err e => (exists f, migration_order !! n = Some f /\ stops exec read faults f s' e) \/
                (exists f m, n = S m /\ migration_order !! m = Some f /\ unacknowledged commits_itself read faults f e)
     end) /\
  sc_relations s ⊆ sc_relations s' /\
  ((forall f, readable f = true) -> (forall f, faults f = None) -> (forall f s, refused f s = false) -> r = Ok 18) /\
  (s = no_schema -> schema_good s' ->
     r = Ok 18 \/ exists e, r = Err e /\ unacknowledged commits_itself read faults last_migration e).
Proof.
  intros Hurl Hlist%listed exec read. unfold run. rewrite Hurl. cbn [negb]. rewrite Hlist.
  destruct (applyMigrations exec commits_itself read faults migration_order s) as [r s'] eqn:E.
  apply applyMigrations_prefix in E as (n & Hn%schema_effects & Hcase).
  change (length migration_order) with 18%nat in *. split_and!.
  - exists n. split; [done|]. destruct r as [[]|e]; [|done]. split_and!; [done|done|]. subst n s'. apply (all_migrations_good s).
  - subst s'. intros x Hx. apply schema_after_relations. by left.
  - intros Hread Hno Hacc. destruct r as [[]|e]; [done|]. exfalso.
    assert (forall f, read f = Some f) as Hr by (intros f; unfold read, reading; by rewrite Hread).
    destruct Hcase as [(f & Hf & [Hx|Hx|content Hx He|executed Hx|Hx])|(f & m & _ & _ & [content Hx _ Hy|content executed Hx _ Hy])];
      rewrite ?Hno, ?Hr in *; try done.
    injection Hx as <-. subst s'. apply refused_for_cause in He; [|done]. by rewrite Hacc in He.
  - intros -> Hg. destruct r as [|e]; [by left|]. right. exists e. split; [done|]. destruct (decide (n < 18)%nat) as [Hlt|Hge].
    { subst s'. by destruct (fewer_migrations_not_good n Hlt). }
    destruct Hcase as [(f & Hf & _)|(f & m & -> & Hf & Hu)].
    { apply lookup_lt_Some in Hf. simpl in Hf. lia. }
    pose proof (lookup_lt_Some _ _ _ Hf) as Hm. simpl in Hm. replace m with 17%nat in Hf by lia. by injection Hf as <-.
Qed.

(** * Examples *)

Section examples.
#[local] Existing Instance plain_unicode.

Definition sample_probe (acquired answered : bool) (s : Schema) : readiness_probe :=
  {| rp_started := 1000; rp_pool := {| pp_acquired := acquired; pp_acquire_time := 5; pp_answered := answered; pp_ping_time := 7 |};
     rp_schema := s; rp_fails1 := false; rp_fails2 := false; rp_schema_time := 9; rp_total_time := 30 |}.

Definition sample_get : HttpRequest :=
  {| hr_Method := "GET"; hr_TLS := false; hr_Header := fun _ => EmptyString; hr_Query := fun _ => EmptyString;
     hr_PathValue := fun _ => EmptyString; hr_Body := {| st_bytes := EmptyString; st_end := AtEOF |}; hr_Identity := None;
     hr_CorrelationID := EmptyString |}.

#[local] Abbreviation migrated := (schema_after migration_order no_schema).

(** An older schema is not ready, nor is a newer one that lost a relation. *)
Example readiness_components :
  map (fun p => rs_FailedComponent (Check p fresh_monitoring).1)
    [sample_probe true true migrated; sample_probe false true migrated; sample_probe true false migrated;
     sample_probe true true (schema_after (take 17 migration_order) no_schema);
     sample_probe true true {| sc_relations := sc_relations migrated ∖ {["public.plans"]}; sc_version := Some 19 |}]
  = [EmptyString; "database_pool"; "database"; "schema"; "schema"].
Proof. vm_compute. reflexivity. Qed.

Lemma readiness_sound_witness :
  hr_Method sample_get = "GET" /\ rs_Status (Readyz (sample_probe true true no_schema) sample_get fresh_monitoring).1 = 503.
Proof.
  split; [reflexivity|].
  pose proof (readiness_sound (sample_probe true true no_schema) sample_get fresh_monitoring eq_refl) as Hs.
  destruct (Readyz (sample_probe true true no_schema) sample_get fresh_monitoring) as [resp m'] eqn:E.
  destruct Hs as (Hok & Hbad & _). apply Hbad. intros (_ & _ & _ & _ & Hg)%Hok.
  apply schema_goodb_spec in Hg. vm_compute in Hg. discriminate Hg.
Defined.

Definition sample_probes : list readiness_probe :=
  [sample_probe true true migrated; sample_probe false true migrated; sample_probe true false migrated].

Lemma readiness_metrics_exact_witness :
  let m := check_all sample_probes fresh_monitoring in
  default 0 (rm_checks (mo_readiness m) !! "error") = 2 /\
  default 0 (dm_operations (mo_database m) !! ("readiness_ping", "error")) = 1.
Proof.
  destruct (readiness_metrics_exact sample_probes ltac:(vm_compute; reflexivity)) as [Hc Ho]. split.
  - rewrite (rc_error _ _ Hc). vm_compute. reflexivity.
  - change ("readiness_ping", "error") with ("readiness_ping", result_label true). rewrite Ho. vm_compute. reflexivity.
Defined.

(** The directory, with a note and a directory of that name besides. *)
Definition sample_entries : list dir_entry :=
  {| de_Name := "README.md"; de_IsDir := false |} :: {| de_Name := "old.sql"; de_IsDir := true |} ::
  map (fun m => {| de_Name := m.1; de_IsDir := false |}) migrations.

Definition sample_url_env : environ := {["DATABASE_URL" := " postgres://db "]}.
#[local] Abbreviation no_files := {| fs_Stat := fun _ => None; fs_ReadFile := fun _ => None; fs_windows := false |}.

(** What the database refuses for its rows: here, nothing, and then the constraints
    of [0008] once the tables of the accounts are there. *)
#[local] Abbreviation accepting := (fun (_ : string) (_ : Schema) => false).
#[local] Abbreviation violated :=
  (fun (f : string) (s : Schema) => bool_decide (f = "0008_account_integrity_constraints.sql") && bool_decide (public "plans" ∈ sc_relations s)).
#[local] Abbreviation sample_run refused faults s :=
  (run (exec_schema refused) commits_itself (reading (fun _ => true)) no_files sample_url_env true true (Some sample_entries) faults s).

Lemma migrations_gate_readiness_witness :
  (exists s', sample_run accepting (fun _ => None) no_schema = (Ok 18, s') /\ schema_good s') /\
  ~ schema_good (sample_run violated (fun _ => None) no_schema).2.
Proof.
  pose proof (fun refused => migrations_gate_readiness refused (fun _ => true) no_files sample_url_env "postgres://db" sample_entries
    (fun _ => None) no_schema eq_refl ltac:(vm_compute; reflexivity)) as Hg. cbv zeta in Hg. split.
  - specialize (Hg accepting). destruct (sample_run accepting _ no_schema) as [r s'] eqn:E.
    destruct Hg as ((n & _ & Hgood) & _ & Hok & _). exists s'. rewrite Hok in * by done. by split; [|apply Hgood].
  - specialize (Hg violated). assert (is_ok (sample_run violated (fun _ => None) no_schema).1 = false) as Hr by (vm_compute; reflexivity).
    destruct (sample_run violated _ no_schema) as [r s'] eqn:E. destruct Hg as (_ & _ & _ & Hempty). clear E. cbn [fst snd] in *.
    intros Hx. destruct (Hempty eq_refl Hx) as [Hok|(e & _ & [content _ _ Hy|content executed _ _ Hy])]; [|discriminate Hy..].
    rewrite Hok in Hr. discriminate Hr.
Defined.

(** A run that is interrupted is completed by the next; one that loses the answer to the
    last file, which commits itself, leaves all of it. *)
Example interrupted_runs :
  let at_file f0 fault f := if bool_decide (f = f0) then Some fault else None in
  let '(r1, s1) := sample_run accepting (at_file "0012_secure_admin_panel.sql" (FaultExec true)) no_schema in
  let '(r2, s2) := sample_run accepting (fun _ => None) s1 in
  let '(r3, s3) := sample_run accepting (at_file last_migration (FaultExec true)) s1 in
  (r1, sc_version s1, schema_goodb s1, r2, sc_version s2, schema_goodb s2, r3, schema_goodb s3)
  = (Err (MigrationApply "0012_secure_admin_panel.sql"), Some 11, false, Ok 18, Some 18, true,
     Err (MigrationApply last_migration), true).
Proof. vm_compute. reflexivity. Qed.
End examples.
