(* ===== verification/Status.v ===== *)
(** The status endpoint: [internal/observability/data_trust.go] and
    [internal/handlers/status_handler.go]. *)
From S2P Require Import Prelude GoLists GoBase Float64 Http Domain PriceRepo HistoryRepo ObsMetrics Readiness.
Local Open Scope Z_scope.

(** * Data trust *)

Record DataCoverage := {
  cv_Key : string;
  cv_Name : string;
  cv_TotalObjects : Z;
  cv_RecentObjects : Z;
  cv_LastUpdatedAt : option time;
}.

Record DataTrustSnapshot := {
  dt_LastPriceReceptionAt : option time;
  dt_LastHistoryReceptionAt : option time;
  dt_TotalObjects : Z;
  dt_RecentObjects : Z;
  dt_Servers : list DataCoverage;
  dt_Markets : list DataCoverage;
}.

(** [knownServers], the first with the identifier 1, and [knownMarkets]. *)
Definition knownServers : list (string * string) := [("west", "Americas"); ("east", "Asia"); ("europe", "Europe")].

Definition knownMarkets : list (Z * (string * string)) :=
  [(2004, ("bridgewatch", "Bridgewatch")); (3008, ("martlock", "Martlock")); (1002, ("lymhurst", "Lymhurst"));
   (4002, ("fort_sterling", "Fort Sterling")); (7, ("thetford", "Thetford")); (3005, ("caerleon", "Caerleon"));
   (5003, ("brecilien", "Brecilien"))].

(** [greatest] leaves nulls out, and [max] does, too. *)
Definition greatest (t u : option time) : option time :=
  match t, u with
  | Some t, Some u => Some (Z.max t u)
  | Some t, None => Some t
  | None, u => u
  end.

Definition max_time (l : list (option time)) : option time := foldr greatest None l.

Abbreviation price_line := (price_key * current_row)%type (only parsing).

Definition observed_at (p : price_line) : option time := greatest (c_sell_price_min_at p.2) (c_buy_price_max_at p.2).

Definition recent (since : time) (p : price_line) : bool :=
  match observed_at p with Some t => since <=? t | None => false end.

(** [count(distinct ...)], of all rows and of the recent ones. *)
Definition count_distinct {K} `{EqDecision K} (object : price_line -> K) (rows : list price_line) : Z :=
  Z.of_nat (length (dedup (map object rows))).

Definition line_server (p : price_line) : Z := p.1.1.1.1.
Definition line_location (p : price_line) : Z := p.1.1.1.2.
Definition line_item (p : price_line) : string * Z := (p.1.1.2, p.1.2).
Definition line_object (p : price_line) : Z * (string * Z) := (line_server p, line_item p).

(** The row of a group, if it has one. *)
Definition coverage_row {K} `{EqDecision K} (object : price_line -> K) (since : time) (group : list price_line)
    : option (Z * Z * option time) :=
  match group with
  | [] => None
  | _ => Some (count_distinct object group, count_distinct object (List.filter (recent since) group),
               max_time (map observed_at group))
  end.

Definition coverage (name : string * string) (row : option (Z * Z * option time)) : DataCoverage :=
  let '(total, recent_, last_) := default (0, 0, None) row in
  {| cv_Key := name.1; cv_Name := name.2; cv_TotalObjects := total; cv_RecentObjects := recent_; cv_LastUpdatedAt := last_ |}.

Definition price_lines (db : DB) : list price_line := map_to_list (current_prices db).

Definition lastPriceReception (db : DB) : option time :=
  max_time (map (fun q => if bool_decide (q_status q.2 = "completed") then q_completed_at q.2 else None)
              (map_to_list (ingest_requests db))).

Definition lastHistoryReception (db : HistoryDB) : option time :=
  max_time (map (fun q => if bool_decide (hq_status q.2 = "completed") then hq_completed_at q.2 else None)
              (map_to_list (history_requests db))).

Definition server_coverage (since : time) (rows : list price_line) : list DataCoverage :=
  imap (fun index name =>
          coverage name (coverage_row line_item since
                           (List.filter (fun p => line_server p =? Z.of_nat index + 1) rows))) knownServers.

Definition market_coverage (since : time) (rows : list price_line) : list DataCoverage :=
  map (fun m => coverage m.2 (coverage_row line_object since (List.filter (fun p => line_location p =? m.1) rows)))
    knownMarkets.

(** The queries are not in one transaction: each sees a state of its own.  [fails]
    says which of the three fails.  The threshold is sent as a [timestamptz]. *)
Definition query_DataTrust (since : time) (fails : nat -> bool) (db1 db2 db3 : DB) (hist : HistoryDB) : option DataTrustSnapshot :=
  let since := pg_time since in
  if fails 0%nat || fails 1%nat || fails 2%nat then None
  else
    Some {| dt_LastPriceReceptionAt := lastPriceReception db1;
            dt_LastHistoryReceptionAt := lastHistoryReception hist;
            dt_TotalObjects := count_distinct line_object (price_lines db1);
            dt_RecentObjects := count_distinct line_object (List.filter (recent since) (price_lines db1));
            dt_Servers := server_coverage since (price_lines db2);
            dt_Markets := market_coverage since (price_lines db3) |}.

(** * The answer *)

Definition dataTrustRecentWindow : duration := 6 * hour.

Definition milliseconds (d : duration) : float64 := f_div (of_Z (Z.quot d 1000)) (of_Z 1000).

Definition coveragePercent (recent_ total : Z) : float64 :=
  if total <=? 0 then f_zero else f_div (f_mul (of_Z recent_) (of_Z 100)) (of_Z total).

Record dataCoverageStatus := {
  cs_Coverage : DataCoverage;
  cs_RecentObjectsPercent : float64;
}.

Record dataTrustStatus := {
  ts_Status : string;
  ts_GeneratedAt : time;
  ts_RecentWindowMinutes : Z;
  ts_LastPriceReceptionAt : option time;
  ts_LastHistoryReceptionAt : option time;
  ts_TotalObjects : Z;
  ts_RecentObjects : Z;
  ts_RecentObjectsPercent : float64;
  ts_Servers : list dataCoverageStatus;
  ts_Markets : list dataCoverageStatus;
}.

Definition buildCoverageStatus (c : DataCoverage) : dataCoverageStatus :=
  {| cs_Coverage := c; cs_RecentObjectsPercent := coveragePercent (cv_RecentObjects c) (cv_TotalObjects c) |}.

Definition buildDataTrustStatus (now : time) (s : DataTrustSnapshot) : dataTrustStatus :=
  {| ts_Status := "ok"; ts_GeneratedAt := now; ts_RecentWindowMinutes := Z.quot dataTrustRecentWindow minute;
     ts_LastPriceReceptionAt := dt_LastPriceReceptionAt s; ts_LastHistoryReceptionAt := dt_LastHistoryReceptionAt s;
     ts_TotalObjects := dt_TotalObjects s; ts_RecentObjects := dt_RecentObjects s;
     ts_RecentObjectsPercent := coveragePercent (dt_RecentObjects s) (dt_TotalObjects s);
     ts_Servers := map buildCoverageStatus (dt_Servers s); ts_Markets := map buildCoverageStatus (dt_Markets s) |}.

Definition unavailable_data_trust (now : time) : dataTrustStatus :=
  {| ts_Status := "unavailable"; ts_GeneratedAt := now; ts_RecentWindowMinutes := Z.quot dataTrustRecentWindow minute;
     ts_LastPriceReceptionAt := None; ts_LastHistoryReceptionAt := None; ts_TotalObjects := 0; ts_RecentObjects := 0;
     ts_RecentObjectsPercent := f_zero; ts_Servers := []; ts_Markets := [] |}.

Record databaseStatusResponse := {
  db_Status : string;
  db_PingLatencyMS : float64;
  db_Pool : DatabasePoolStats;
  db_AcquireDurationMS : float64;
}.

Definition databaseStatus (healthy : bool) : string := if healthy then "ok" else "unavailable".

Definition build_database_status (s : DatabaseSnapshot) : databaseStatusResponse :=
  {| db_Status := databaseStatus (ds_Healthy s); db_PingLatencyMS := milliseconds (ds_PingLatency s);
     db_Pool := ds_Pool s; db_AcquireDurationMS := milliseconds (AcquireDuration (ds_Pool s)) |}.

(** The counters shown of the prices: requests, in flight, succeeded, duplicates,
    errors, entries and rows; of the history the buckets, too. *)
Record ingestStatusResponse := {
  is_Counters : list Z;
  is_AverageDurationMS : float64;
  is_LastDurationMS : float64;
  is_MaxDurationMS : float64;
  is_LastRequestAt : option time;
  is_LastSuccessAt : option time;
  is_LastErrorAt : option time;
  is_LastErrorKind : string;
}.

Definition ingest_status (m : Ingest.IngestMetrics) : ingestStatusResponse :=
  let s := Ingest.Snapshot m in
  {| is_Counters := [Ingest.requestsTotal m; Ingest.inFlight m; Ingest.succeededTotal m; Ingest.duplicatesTotal m;
                     Ingest.errorsTotal m; Ingest.acceptedEntriesTotal m; Ingest.currentRowsTouchedTotal m];
     is_AverageDurationMS := milliseconds (Ingest.AverageDuration s);
     is_LastDurationMS := milliseconds (Ingest.lastDuration m);
     is_MaxDurationMS := milliseconds (Ingest.maxDuration m);
     is_LastRequestAt := Ingest.lastRequestAt m; is_LastSuccessAt := Ingest.lastSuccessAt m;
     is_LastErrorAt := Ingest.lastErrorAt m; is_LastErrorKind := Ingest.lastErrorKind m |}.

Definition history_status (m : History.HistoryIngestMetrics) : ingestStatusResponse :=
  let s := History.Snapshot m in
  {| is_Counters := [History.requestsTotal m; History.inFlight m; History.succeededTotal m; History.duplicatesTotal m;
                     History.errorsTotal m; History.acceptedEntriesTotal m; History.acceptedBucketsTotal m;
                     History.historyRowsTouchedTotal m];
     is_AverageDurationMS := milliseconds (History.AverageDuration s);
     is_LastDurationMS := milliseconds (History.lastDuration m);
     is_MaxDurationMS := milliseconds (History.maxDuration m);
     is_LastRequestAt := History.lastRequestAt m; is_LastSuccessAt := History.lastSuccessAt m;
     is_LastErrorAt := History.lastErrorAt m; is_LastErrorKind := History.lastErrorKind m |}.

Record statusResponse := {
  st_Status : string;
  st_Service : string;
  st_Environment : string;
  st_StartedAt : time;
  st_Now : time;
  st_UptimeSeconds : Z;
  st_Database : databaseStatusResponse;
  st_Ingest : ingestStatusResponse;
  st_HistoryIngest : ingestStatusResponse;
  st_DataTrust : dataTrustStatus;
}.

Record StatusHandler := { sh_serviceName : string; sh_environment : string; sh_startedAt : time }.

(** What a request meets: the pool, the clock, the counters and the queries. *)
Record status_env := {
  se_pool : pool_probe;
  se_stats : DatabasePoolStats;
  se_now : time;
  se_ingest : Ingest.IngestMetrics;
  se_history : History.HistoryIngestMetrics;
  se_fails : nat -> bool;
  se_db : nat -> DB;
  se_hist : HistoryDB;
}.

Inductive status_body := StatusMessage (message : string) | StatusReport (r : statusResponse).

Definition status_data_trust (e : status_env) : dataTrustStatus :=
  if bool_decide (pool_result (se_pool e) = None) then
    match query_DataTrust (se_now e - dataTrustRecentWindow) (se_fails e) (se_db e 0%nat) (se_db e 1%nat) (se_db e 2%nat) (se_hist e) with
    | Some s => buildDataTrustStatus (se_now e) s
    | None => unavailable_data_trust (se_now e)
    end
  else unavailable_data_trust (se_now e).

Definition ServeStatus (h : StatusHandler) (e : status_env) (r : HttpRequest) : Response status_body :=
  if negb (bool_decide (hr_Method r = "GET"))
  then {| rs_Status := StatusMethodNotAllowed; rs_Headers := [json_type]; rs_Body := StatusMessage "method not allowed" |}
  else
    let database := monitor_Snapshot (se_pool e) (se_stats e) in
    let healthy := ds_Healthy database in
    {| rs_Status := if healthy then StatusOK else StatusServiceUnavailable;
       rs_Headers := [json_type];
       rs_Body := StatusReport
         {| st_Status := if healthy then "ok" else "degraded";
            st_Service := sh_serviceName h; st_Environment := sh_environment h; st_StartedAt := sh_startedAt h;
            st_Now := se_now e;
            st_UptimeSeconds := to_int64 (integral trunc_of (Seconds (time_sub (se_now e) (sh_startedAt h))));
            st_Database := build_database_status database;
            st_Ingest := ingest_status (se_ingest e); st_HistoryIngest := history_status (se_history e);
            st_DataTrust := status_data_trust e |} |}.
