(* ===== verification/StatusSpec.v ===== *)
(** The status endpoint tells what the tables hold. *)
From S2P Require Import Prelude GoLists GoBase Float64 Json Http Domain Tx PriceRepo PriceRepoSpec HistoryRepo ObsMetrics Readiness Status.
Local Open Scope Z_scope.

(** * Times *)

Lemma greatest_ge t u v : greatest t u = Some v -> forall w, (t = Some w \/ u = Some w) -> w <= v.
Proof. destruct t, u; simpl; intros [= <-] w [[= <-]|[= <-]]; lia. Qed.

Lemma max_time_spec l :
  (forall t, Some t ∈ l -> exists m, max_time l = Some m /\ t <= m) /\
  (forall m, max_time l = Some m -> Some m ∈ l).
Proof.
  induction l as [|x l [IH1 IH2]]; simpl; [split; [intros t Ht; by apply elem_of_nil in Ht|done]|]. split.
  - intros t [<-|Ht]%elem_of_cons.
    + destruct (max_time l) as [m|]; simpl; eexists; (split; [reflexivity|lia]).
    + destruct (IH1 t Ht) as (m & -> & Hm). destruct x as [x|]; simpl; eexists; (split; [reflexivity|lia]).
  - intros m Hm. destruct x as [x|]; simpl in Hm.
    + destruct (max_time l) as [m'|] eqn:E; simpl in Hm; injection Hm as <-; [|left].
      destruct (Z.max_spec x m') as [[_ ->]|[_ ->]]; [right; by apply IH2|left].
    + right. by apply IH2.
Qed.

(** * Counting *)

Lemma count_distinct_le {K} `{EqDecision K} (object : price_line -> K) (l1 l2 : list price_line) :
  (forall p, p ∈ l1 -> p ∈ l2) -> 0 <= count_distinct object l1 <= count_distinct object l2.
Proof.
  intros Hsub. unfold count_distinct. split; [lia|]. apply Nat2Z.inj_le, submseteq_length, NoDup_submseteq; [apply NoDup_dedup|].
  intros k. rewrite !elem_of_dedup, !list_elem_of_fmap. intros (p & -> & Hp). exists p. auto.
Qed.

Lemma filter_elem (f : price_line -> bool) l p : p ∈ List.filter f l <-> p ∈ l /\ f p = true.
Proof. by rewrite !list_elem_of_In, filter_In. Qed.

Lemma filter_swap (f g : price_line -> bool) l : List.filter f (List.filter g l) = List.filter g (List.filter f l).
Proof.
  induction l as [|x l IH]; [done|]. simpl. destruct (f x) eqn:Ef, (g x) eqn:Eg; simpl; rewrite ?Ef, ?Eg, IH; done.
Qed.

Definition on_server (i : Z) (p : price_line) : bool := line_server p =? i.

(** The objects of a server, with it. *)
Definition server_objects (rows : list price_line) (i : Z) : list (Z * (string * Z)) :=
  map (pair i) (dedup (map line_item (List.filter (on_server i) rows))).

Lemma server_objects_elem rows i o : o ∈ server_objects rows i <-> o.1 = i /\ exists p, p ∈ rows /\ line_object p = o.
Proof.
  unfold server_objects, line_object. rewrite list_elem_of_fmap. setoid_rewrite elem_of_dedup. setoid_rewrite list_elem_of_fmap.
  setoid_rewrite filter_elem. unfold on_server. split.
  - intros (k & -> & p & -> & Hp & Hi%Z.eqb_eq). split; [done|]. exists p. by rewrite Hi.
  - intros (Hi & p & Hp & <-). simpl in Hi. exists (line_item p). split; [by rewrite Hi|]. exists p. split_and!; [done..|]. by apply Z.eqb_eq.
Qed.

Lemma server_objects_NoDup rows i : NoDup (server_objects rows i).
Proof. apply NoDup_fmap; [intros x y [= ?]; done|apply NoDup_dedup]. Qed.

(** The objects are those of the servers. *)
Lemma count_by_server rows :
  (forall p, p ∈ rows -> 1 <= line_server p <= 3) ->
  count_distinct line_object rows =
    count_distinct line_item (List.filter (on_server 1) rows) + count_distinct line_item (List.filter (on_server 2) rows)
    + count_distinct line_item (List.filter (on_server 3) rows).
Proof.
  intros Hs. unfold count_distinct. rewrite (Permutation_length (l' := server_objects rows 1 ++ server_objects rows 2 ++ server_objects rows 3)).
  { unfold server_objects. rewrite !length_app, !length_map. lia. }
  apply NoDup_Permutation.
  - apply NoDup_dedup.
  - assert (forall i j o, o ∈ server_objects rows i -> o ∈ server_objects rows j -> i = j) as Hdisj
      by (intros i j o [<- _]%server_objects_elem [<- _]%server_objects_elem; done).
    rewrite !NoDup_app. split_and!; try apply server_objects_NoDup.
    + intros o H1 [H2|H2]%elem_of_app; by pose proof (Hdisj _ _ _ H1 H2).
    + intros o H1 H2. by pose proof (Hdisj _ _ _ H1 H2).
  - intros o. rewrite !elem_of_app, !server_objects_elem, elem_of_dedup, list_elem_of_fmap. split.
    + intros (p & -> & Hp). specialize (Hs p Hp). change (line_object p).1 with (line_server p).
      destruct (decide (line_server p = 1)); [left|right; destruct (decide (line_server p = 2)); [left|right]];
        (split; [try done; lia|by exists p]).
    + intros [[_ (p & Hp & <-)]|[[_ (p & Hp & <-)]|[_ (p & Hp & <-)]]]; by exists p.
Qed.

(** A coverage counts its group, also when the group is empty. *)
Lemma coverage_counts {K} `{EqDecision K} (object : price_line -> K) since name group :
  let c := coverage name (coverage_row object since group) in
  cv_TotalObjects c = count_distinct object group /\
  cv_RecentObjects c = count_distinct object (List.filter (recent since) group) /\
  cv_LastUpdatedAt c = max_time (map observed_at group).
Proof. by destruct group. Qed.

Lemma server_coverage_eq since rows :
  server_coverage since rows =
  map (fun n => coverage n.2 (coverage_row line_item since (List.filter (on_server n.1) rows))) (zip [1; 2; 3] knownServers).
Proof. reflexivity. Qed.

(** * The tables *)

Section tables.
Context `{Sha256, RequestEncoding}.

(** Every key is of a server. *)
Definition servers_known (db : DB) : Prop := forall r, r ∈ ingest_raw db -> 1 <= r_server r <= 3.

Lemma servers_known_step db db' : ingest_step db db' -> db_inv db -> servers_known db -> servers_known db'.
Proof.
  intros [fs el now req] Hinv Hk. destruct (IngestPrices_atomic fs el now req db Hinv) as [->|(s & hash & uuid & [Hs _ _] & Hu & ->)]; [done|].
  pose proof (effect_spec now uuid hash s (ip_Entries req) db Hinv Hu) as He. destruct (effect _ _ _ _ _ _) as [n db1].
  destruct He as (_ & Hraw & _). intros r. simpl. rewrite Hraw, elem_of_app. intros [Hr|(_ & -> & _)%new_rows_spec]; [by apply Hk|].
  by apply mapServer_range in Hs.
Qed.

Lemma reachable_servers db : rtc ingest_step empty_db db -> db_inv db /\ servers_known db.
Proof.
  apply (rtc_ind_r (fun db => db_inv db /\ servers_known db) empty_db).
  - split; [apply db_inv_empty|]. intros r Hr. by apply elem_of_nil in Hr.
  - intros y z _ Hstep [Hinv Hk]. split; [by apply (ingest_step_inv y z)|by apply (servers_known_step y z)].
Qed.

Lemma price_lines_servers db p : db_inv db -> servers_known db -> p ∈ price_lines db -> 1 <= line_server p <= 3.
Proof.
  intros Hinv Hk Hp. destruct p as [k row]. unfold price_lines in Hp. apply elem_of_map_to_list in Hp.
  destruct (proj1 (inv_dom db Hinv k) ltac:(by eexists)) as (r & Hr & <-). apply (Hk r Hr).
Qed.

Definition total_of (l : list DataCoverage) : Z := foldr Z.add 0 (map cv_TotalObjects l).
Definition recent_of (l : list DataCoverage) : Z := foldr Z.add 0 (map cv_RecentObjects l).

(** When nothing is written between the queries the figures add up. *)
Record adds_up (db : DB) (s : DataTrustSnapshot) : Prop := {
  au_servers : map cv_Key (dt_Servers s) = ["west"; "east"; "europe"];
  au_total : dt_TotalObjects s = total_of (dt_Servers s);
  au_recent : dt_RecentObjects s = recent_of (dt_Servers s);
  au_bounds : 0 <= dt_RecentObjects s <= dt_TotalObjects s;
  au_parts c : c ∈ dt_Servers s ++ dt_Markets s -> 0 <= cv_RecentObjects c <= cv_TotalObjects c /\ cv_TotalObjects c <= dt_TotalObjects s;
  au_price u q t : ingest_requests db !! u = Some q -> q_completed_at q = Some t ->
    exists m, dt_LastPriceReceptionAt s = Some m /\ t <= m;
}.

Lemma query_adds_up since fails db hist s :
  db_inv db -> servers_known db -> query_DataTrust since fails db db db hist = Some s -> adds_up db s.
Proof.
  intros Hinv Hk. unfold query_DataTrust. cbv zeta. destruct (_ || _); [done|]. intros [= <-].
  set (since' := pg_time since). set (rows := price_lines db).
  assert (forall p, p ∈ rows -> 1 <= line_server p <= 3) as Hs by (intros p; by apply price_lines_servers).
  assert (count_distinct line_object rows =
    count_distinct line_item (List.filter (on_server 1) rows) + count_distinct line_item (List.filter (on_server 2) rows)
    + count_distinct line_item (List.filter (on_server 3) rows)) as Ht by by apply count_by_server.
  assert (count_distinct line_object (List.filter (recent since') rows) =
    count_distinct line_item (List.filter (recent since') (List.filter (on_server 1) rows))
    + count_distinct line_item (List.filter (recent since') (List.filter (on_server 2) rows))
    + count_distinct line_item (List.filter (recent since') (List.filter (on_server 3) rows))) as Hr.
  { rewrite !(filter_swap (recent since')). apply count_by_server. intros p [Hp _]%filter_elem. by apply Hs. }
  split; cbn [dt_Servers dt_TotalObjects dt_RecentObjects dt_Markets dt_LastPriceReceptionAt].
  - rewrite server_coverage_eq. cbn [map zip zip_with knownServers fst snd]. by repeat destruct (List.filter _ rows).
  - rewrite Ht, server_coverage_eq. unfold total_of. cbn [map zip zip_with knownServers fst snd foldr].
    rewrite !(proj1 (coverage_counts line_item since' _ _)). lia.
  - rewrite Hr, server_coverage_eq. unfold recent_of. cbn [map zip zip_with knownServers fst snd foldr].
    rewrite !(proj1 (proj2 (coverage_counts line_item since' _ _))). lia.
  - apply count_distinct_le. intros p [Hp _]%filter_elem. done.
  - assert (forall i, 0 <= count_distinct line_item (List.filter (on_server i) rows)) as Hpos by (intros i; unfold count_distinct; lia).
    pose proof (Hpos 1). pose proof (Hpos 2). pose proof (Hpos 3).
    intros c [Hc|Hc]%elem_of_app.
    + rewrite server_coverage_eq in Hc. apply list_elem_of_fmap in Hc as ([i n] & -> & Hi%elem_of_zip_l). cbn [fst snd].
      rewrite !elem_of_cons, elem_of_nil in Hi.
      destruct (coverage_counts line_item since' n (List.filter (on_server i) rows)) as (-> & -> & _). split.
      * apply count_distinct_le. intros p [Hp _]%filter_elem. done.
      * destruct Hi as [->|[->|[->|[]]]]; lia.
    + apply list_elem_of_fmap in Hc as ([l n] & -> & _). cbn [fst snd].
      destruct (coverage_counts line_object since' n (List.filter (fun p => line_location p =? l) rows)) as (-> & -> & _). split.
      * apply count_distinct_le. intros p [Hp _]%filter_elem. done.
      * apply (count_distinct_le line_object _ rows). intros p [Hp _]%filter_elem. done.
  - intros u q t Hu Hq. unfold lastPriceReception. apply (proj1 (max_time_spec _)). apply list_elem_of_fmap. exists (u, q). cbn [snd].
    destruct (inv_completed db Hinv u q Hu) as (-> & _). split; [by rewrite bool_decide_eq_true_2|by apply elem_of_map_to_list].
Qed.

(** The status tells the truth: a GET is answered with 200 and ok exactly when
    the database answers, and with 503 and degraded otherwise; the data trust is shown
    exactly when the database answers and none of its queries fails, otherwise it is
    marked unavailable; and when the tables were reached by ingests and nothing is
    written between the queries, the figures add up: the objects and the recent
    objects are the sums of those of the three servers, no part is greater than the
    whole, recent objects are among the objects, and no completed request is later
    than the last reception. *)
Theorem status_truthful h e r :
  hr_Method r = "GET" ->
  exists resp, rs_Body (ServeStatus h e r) = StatusReport resp /\
    (pool_result (se_pool e) = None -> rs_Status (ServeStatus h e r) = StatusOK /\ st_Status resp = "ok") /\
    (pool_result (se_pool e) <> None -> rs_Status (ServeStatus h e r) = StatusServiceUnavailable /\ st_Status resp = "degraded") /\
    (ts_Status (st_DataTrust resp) = "ok" <->
       pool_result (se_pool e) = None /\ forall i, (i < 3)%nat -> se_fails e i = false) /\
    (ts_Status (st_DataTrust resp) = "ok" ->
       (forall i, se_db e i = se_db e 0%nat) -> rtc ingest_step empty_db (se_db e 0%nat) ->
       exists s, st_DataTrust resp = buildDataTrustStatus (se_now e) s /\ adds_up (se_db e 0%nat) s).
Proof.
  intros Hget. unfold ServeStatus. rewrite bool_decide_eq_true_2 by done. cbn [negb rs_Body rs_Status]. eexists. split; [reflexivity|].
  cbn [ds_Healthy monitor_Snapshot st_Status st_DataTrust]. unfold status_data_trust. split_and!.
  - intros ->. done.
  - intros Hn. by rewrite bool_decide_eq_false_2.
  - case_bool_decide as Hp.
    + unfold query_DataTrust. cbv zeta. destruct (se_fails e 0%nat) eqn:E0; [split; [done|intros [_ Hf]; by rewrite Hf in E0 by lia]|].
      destruct (se_fails e 1%nat) eqn:E1; [split; [done|intros [_ Hf]; by rewrite Hf in E1 by lia]|].
      destruct (se_fails e 2%nat) eqn:E2; [split; [done|intros [_ Hf]; by rewrite Hf in E2 by lia]|].
      split; [|done]. intros _. split; [done|]. intros [|[|[|i]]] Hi; [done..|lia].
    + split; [done|]. by intros [? _].
  - case_bool_decide; [|done]. intros Hok Hsame [Hinv Hk]%reachable_servers. rewrite !(Hsame 1%nat), !(Hsame 2%nat) in *.
    destruct (query_DataTrust _ _ _ _ _ _) as [s|] eqn:E; [|done]. exists s. split; [done|]. by eapply query_adds_up.
Qed.
End tables.

(** * Examples *)

Section examples.
#[local] Existing Instance plain_sha256.
#[local] Existing Instance plain_encoding.

Definition ingested : DB :=
  (IngestPrices no_faults example_elapsed 50000 (example_prices "r1" example_batch) empty_db).2.

Definition quiet_pool : DatabasePoolStats :=
  {| MaxConnections := 4; TotalConnections := 1; AcquiredConnections := 0; IdleConnections := 1; ConstructingConnections := 0;
     AcquireCount := 9; EmptyAcquireCount := 0; CanceledAcquireCount := 0; NewConnectionsCount := 1; AcquireDuration := 1500000 |}.

Definition status_sample (answered : bool) (now : time) : status_env :=
  {| se_pool := {| pp_acquired := true; pp_acquire_time := 5; pp_answered := answered; pp_ping_time := 1234567 |};
     se_stats := quiet_pool; se_now := now; se_ingest := Ingest.NewIngestMetrics; se_history := History.NewHistoryIngestMetrics;
     se_fails := fun _ => false; se_db := fun _ => ingested; se_hist := empty_history_db |}.

Definition status_handler : StatusHandler := {| sh_serviceName := "api"; sh_environment := "test"; sh_startedAt := 0 |}.

Definition status_get : HttpRequest :=
  {| hr_Method := "GET"; hr_TLS := false; hr_Header := fun _ => EmptyString; hr_Query := fun _ => EmptyString;
     hr_PathValue := fun _ => EmptyString; hr_Body := {| st_bytes := EmptyString; st_end := AtEOF |}; hr_Identity := None;
     hr_CorrelationID := EmptyString |}.

(** Two objects, seen 8 and 9 microseconds after the epoch: the first is recent for
    six hours. *)
Example status_figures :
  map (fun now =>
         match rs_Body (ServeStatus status_handler (status_sample true now) status_get) with
         | StatusReport resp =>
             let s := st_DataTrust resp in
             (ts_TotalObjects s, ts_RecentObjects s, st_UptimeSeconds resp, db_PingLatencyMS (st_Database resp),
              map (fun c => (cv_Key (cs_Coverage c), cv_TotalObjects (cs_Coverage c), cs_RecentObjectsPercent c)) (ts_Servers s))
         | StatusMessage _ => (0, 0, 0, f_zero, [])
         end) [60 * minute; 360 * minute + 9000; 361 * minute]
  = [(2, 2, 3600, f_lit "1.234", [("west", 2, f_lit "100"); ("east", 0, f_zero); ("europe", 0, f_zero)]);
     (2, 1, 21600, f_lit "1.234", [("west", 2, f_lit "50"); ("east", 0, f_zero); ("europe", 0, f_zero)]);
     (2, 0, 21660, f_lit "1.234", [("west", 2, f_lit "0"); ("east", 0, f_zero); ("europe", 0, f_zero)])].
Proof. vm_compute. reflexivity. Qed.

Lemma status_truthful_witness :
  exists resp s, rs_Body (ServeStatus status_handler (status_sample true minute) status_get) = StatusReport resp /\
    st_Status resp = "ok" /\ st_DataTrust resp = buildDataTrustStatus minute s /\ adds_up ingested s.
Proof.
  destruct (status_truthful status_handler (status_sample true minute) status_get eq_refl) as (resp & Hb & Hok & _ & [_ Ht] & Hadd).
  assert (ts_Status (st_DataTrust resp) = "ok") as Hts by (apply Ht; by split).
  destruct (Hadd Hts ltac:(done)) as (s & Hs & Ha).
  { apply rtc_once. apply run_ingest. }
  exists resp, s. split; [exact Hb|]. split; [by apply Hok|]. by split.
Defined.
End examples.
