(* ===== verification/Exposition.v ===== *)
(** The Prometheus exposition: the exporter of [internal/observability/metrics.go] and
    [internal/handlers/metrics_handler.go], with [strconv.FormatFloat]. *)
From S2P Require Import Prelude GoLists GoBase Float64 Http ObsMetrics Readiness.
Local Open Scope Z_scope.

(** * [strconv.FormatFloat(f, 'g', -1, 64)]

    The shortest decimal that is read back as the value, and among these the nearest
    to it. *)

(** The least [k] with [num / den < 10^k], for a positive fraction. *)
Fixpoint leading_zeros (fuel : nat) (num den : Z) : Z :=
  match fuel with
  | O => 0
  | S fuel => if den <=? 10 * num then 0 else 1 + leading_zeros fuel (10 * num) den
  end.

Definition decimal_point (num den : Z) : Z :=
  if den <=? num then str_len (FormatInt (num / den)) else - leading_zeros 330 num den.

Definition scale10 (num den k : Z) : Z * Z := if 0 <=? k then (num * 10 ^ k, den) else (num, den * 10 ^ (- k)).

Definition reads_as (f : float64) (digits e : Z) : bool :=
  match decimal_float false digits e with
  | Some g => f_leb f g && f_leb g f
  | None => false
  end.

(** The decimal of [n] digits, then one more, and so on; seventeen always do. *)
Fixpoint shortest (fuel : nat) (n : Z) (f : float64) (num den dp : Z) : Z * Z :=
  let '(a, b) := scale10 num den (n - dp) in
  let lo := a / b in
  let hi := lo + 1 in
  let down := reads_as f lo (dp - n) in
  let up := reads_as f hi (dp - n) in
  let twice := 2 * (a - lo * b) in
  if down && (negb up || (twice <? b) || ((twice =? b) && Z.even lo)) then (lo, dp - n)
  else if up then (hi, dp - n)
  else match fuel with O => (lo, dp - n) | S fuel => shortest fuel (n + 1) f num den dp end.

Fixpoint zeros (n : nat) : string := match n with O => EmptyString | S n => String "0" (zeros n) end.

(** The digits of an integer without the zeros at their end. *)
Fixpoint drop_zeros (s : string) : string :=
  match s with
  | String c s' =>
      let t := drop_zeros s' in
      if is_empty t && bool_decide (c = "0"%char) then EmptyString else String c t
  | EmptyString => EmptyString
  end.

(** [%e] and [%f] of the digits and the position of their point. *)
Definition fmtE (digits : string) (dp : Z) : string :=
  let exp := dp - 1 in
  let text := FormatInt (Z.abs exp) in
  String.substring 0 1 digits
  +:+ (if str_len digits <=? 1 then EmptyString else "." +:+ String.substring 1 (String.length digits - 1) digits)
  +:+ "e" +:+ (if exp <? 0 then "-" else "+") +:+ (if str_len text <? 2 then "0" +:+ text else text).

Definition fmtF (digits : string) (dp : Z) : string :=
  let nd := str_len digits in
  if dp <=? 0 then "0" +:+ (if nd =? 0 then EmptyString else "." +:+ zeros (Z.to_nat (- dp)) +:+ digits)
  else if nd <=? dp then digits +:+ zeros (Z.to_nat (dp - nd))
  else String.substring 0 (Z.to_nat dp) digits +:+ "."
       +:+ String.substring (Z.to_nat dp) (String.length digits - Z.to_nat dp) digits.

(** The digits of a positive value and the position of their point. *)
Definition shortest_digits (m : positive) (e : Z) : string * Z :=
  let '(num, den) := if 0 <=? e then (Z.pos m * 2 ^ e, 1) else (Z.pos m, 2 ^ (- e)) in
  let '(digits, exp) := shortest 16 1 (S754_finite false m e) num den (decimal_point num den) in
  let text := FormatInt digits in
  (drop_zeros text, exp + str_len text).

Definition FormatFloat (f : float64) : string :=
  match f with
  | S754_nan => "NaN"
  | S754_infinity s => if s then "-Inf" else "+Inf"
  | S754_zero s => if s then "-0" else "0"
  | S754_finite s m e =>
      let '(digits, dp) := shortest_digits m e in
      (if s then "-" else EmptyString)
      +:+ (if (dp - 1 <? -4) || (6 <=? dp - 1) then fmtE digits dp else fmtF digits dp)
  end.

Example formatted :
  map (fun l => FormatFloat (f_lit l))
    ["0.005"; "0.01"; "0.1"; "2.5"; "10"; "123456"; "1234567"; "1000000"; "1e21"; "0.00001"; "0.0001234"; "-3.0"; "1e-7";
     "0.1234567890123456789"; "9007199254740993"; "5e-324"; "1.7976931348623157e308"; "9.5367431640625e-07"]
  = ["0.005"; "0.01"; "0.1"; "2.5"; "10"; "123456"; "1.234567e+06"; "1e+06"; "1e+21"; "1e-05"; "0.0001234"; "-3"; "1e-07";
     "0.12345678901234568"; "9.007199254740992e+15"; "5e-324"; "1.7976931348623157e+308"; "9.5367431640625e-07"].
Proof. vm_compute. reflexivity. Qed.

(** * Lines *)

Inductive line :=
  | Help (name help : string)
  | Kind (name kind : string)
  | Sample (name : string) (labels : list (string * string)) (value : float64).

Definition newline : string := String "010" EmptyString.

(** [strings.ReplaceAll] of one byte. *)
Fixpoint replace_byte (c : ascii) (by_ : string) (s : string) : string :=
  match s with
  | String d s' => (if bool_decide (d = c) then by_ else String d EmptyString) +:+ replace_byte c by_ s'
  | EmptyString => EmptyString
  end.

Definition escapePrometheusLabel (value : string) : string :=
  let value := replace_byte "\" "\\" value in
  let value := replace_byte "010" "\n" value in
  replace_byte "034" (String "\" (String "034" EmptyString)) value.

(** The text between the braces. *)
Fixpoint render_labels (labels : list (string * string)) : string :=
  match labels with
  | [] => EmptyString
  | (k, v) :: labels' =>
      k +:+ "=" +:+ String "034" (escapePrometheusLabel v +:+ String "034"
        (match labels' with [] => EmptyString | _ => "," +:+ render_labels labels' end))
  end.

Definition render_line (l : line) : string :=
  match l with
  | Help name help => "# HELP " +:+ name +:+ " " +:+ replace_byte "010" " " help +:+ newline
  | Kind name kind => "# TYPE " +:+ name +:+ " " +:+ kind +:+ newline
  | Sample name labels value =>
      name +:+ (match labels with [] => EmptyString | _ => "{" +:+ render_labels labels +:+ "}" end)
      +:+ " " +:+ FormatFloat value +:+ newline
  end.

Definition render (lines : list line) : string := foldr (fun l s => render_line l +:+ s) EmptyString lines.

Definition writeHelpType (name help kind : string) : list line := [Help name help; Kind name kind].

(** The keys of the labels in their order. *)
Definition sorted_labels (labels : gmap string string) : list (string * string) :=
  slice_stable (fun a b => str_ltb a.1 b.1) (map_to_list labels).

Definition writeMetric (name : string) (labels : gmap string string) (value : float64) : list line :=
  [Sample name (sorted_labels labels) value].

Definition writeHistogram (name : string) (labels : gmap string string) (h : durationHistogram) : list line :=
  concat (zip_with (fun upperBound n => writeMetric (name +:+ "_bucket") (<["le" := FormatFloat upperBound]> labels) (of_Z n))
            defaultDurationBuckets (dh_Buckets h))
  ++ writeMetric (name +:+ "_bucket") (<["le" := "+Inf"]> labels) (of_Z (dh_Count h))
  ++ writeMetric (name +:+ "_sum") labels (dh_Sum h)
  ++ writeMetric (name +:+ "_count") labels (of_Z (dh_Count h)).

(** [value.UTC().Unix()] *)
Definition unix_seconds (t : time) : float64 := of_Z (t / second).

Definition writeOptionalTimestamp (name : string) (labels : gmap string string) (value : option time) : list line :=
  match value with Some t => writeMetric name labels (unix_seconds t) | None => [] end.

(** The keys of a map in the order of [less]. *)
Definition sorted_keys {K} `{Countable K} {V} (less : K -> K -> bool) (m : gmap K V) : list K :=
  slice_stable less (map fst (map_to_list m)).

Definition api (name : string) : string := "albion_market_api_" +:+ name.

Definition gauge (name help : string) (value : float64) : list line :=
  writeHelpType (api name) help "gauge" ++ writeMetric (api name) ∅ value.

Definition of_bool (b : bool) : float64 := if b then of_Z 1 else f_zero.

(** * The exporter *)

Record PrometheusExporter := {
  pe_service : string;
  pe_environment : string;
  pe_version : string;
  pe_revision : string;
  pe_startedAt : time;
}.

Record runtime_stats := { rt_Goroutines : Z; rt_Alloc : Z; rt_HeapInuse : Z; rt_NumGC : Z }.

(** A label triple by its second, first and third component: the keys of requests and
    of errors are sorted by route, method and status or class. *)
Definition by_route {C} (less : C -> C -> bool) : string * string * C -> string * string * C -> bool :=
  then_less (fun a b => str_ltb a.1.2 b.1.2) (then_less (fun a b => str_ltb a.1.1 b.1.1) (fun a b => less a.2 b.2)).

Definition writeHTTP (m : HTTPMetrics) : list line :=
  gauge "http_requests_in_flight" "HTTP requests currently being processed." (of_Z (hm_inFlight m))
  ++ writeHelpType (api "http_requests_total") "Completed HTTP requests by method, route and status." "counter"
  ++ concat (map (fun k => writeMetric (api "http_requests_total")
                      {["method" := k.1.1; "route" := k.1.2; "status" := k.2]} (of_Z (default 0 (hm_requests m !! k))))
               (sorted_keys (by_route str_ltb) (hm_requests m)))
  ++ writeHelpType (api "http_errors_total") "HTTP 4xx and 5xx responses by method, route and status class." "counter"
  ++ concat (map (fun k => writeMetric (api "http_errors_total")
                      {["class" := k.2; "method" := k.1.1; "route" := k.1.2]} (of_Z (default 0 (hm_errors m !! k))))
               (sorted_keys (by_route str_ltb) (hm_errors m)))
  ++ writeHelpType (api "http_request_duration_seconds") "HTTP request duration in seconds." "histogram"
  ++ concat (map (fun k => writeHistogram (api "http_request_duration_seconds")
                      {["method" := k.1; "route" := k.2]} (default zero_histogram (hm_durations m !! k)))
               (sorted_keys (then_less (fun a b => str_ltb a.2 b.2) (fun a b => str_ltb a.1 b.1)) (hm_durations m))).

Definition writeReadiness (m : ReadinessMetrics) : list line :=
  gauge "readiness_ready" "Whether the most recent readiness check succeeded." (of_bool (rm_ready m))
  ++ writeHelpType (api "readiness_checks_total") "Readiness checks by result." "counter"
  ++ concat (map (fun result => writeMetric (api "readiness_checks_total") {["result" := result]}
                                  (of_Z (default 0 (rm_checks m !! result)))) ["success"; "error"])
  ++ writeHelpType (api "readiness_failures_total") "Readiness failures by bounded component." "counter"
  ++ concat (map (fun c => writeMetric (api "readiness_failures_total") {["component" := c]}
                             (of_Z (default 0 (rm_failures m !! c)))) (sorted_keys str_ltb (rm_failures m)))
  ++ writeHelpType (api "readiness_check_duration_seconds") "Readiness check duration in seconds." "histogram"
  ++ writeHistogram (api "readiness_check_duration_seconds") ∅ (rm_durations m)
  ++ writeOptionalTimestamp (api "readiness_last_success_timestamp_seconds") ∅ (rm_lastSuccessAt m)
  ++ writeOptionalTimestamp (api "readiness_last_failure_timestamp_seconds") ∅ (rm_lastFailureAt m).

(** The figures of the pool: name, description, kind and value. *)
Definition poolMetrics (p : DatabasePoolStats) : list (string * string * string * float64) :=
  [("max_connections", "Configured maximum PostgreSQL pool size.", "gauge", of_Z (MaxConnections p));
   ("total_connections", "Current PostgreSQL pool connections.", "gauge", of_Z (TotalConnections p));
   ("acquired_connections", "Current acquired PostgreSQL pool connections.", "gauge", of_Z (AcquiredConnections p));
   ("idle_connections", "Current idle PostgreSQL pool connections.", "gauge", of_Z (IdleConnections p));
   ("constructing_connections", "PostgreSQL connections currently being established.", "gauge", of_Z (ConstructingConnections p));
   ("acquire_total", "Total successful pool acquisitions.", "counter", of_Z (AcquireCount p));
   ("empty_acquire_total", "Pool acquisitions that initially found no idle connection.", "counter", of_Z (EmptyAcquireCount p));
   ("canceled_acquire_total", "Canceled PostgreSQL pool acquisitions.", "counter", of_Z (CanceledAcquireCount p));
   ("new_connections_total", "Connections created by the PostgreSQL pool.", "counter", of_Z (NewConnectionsCount p));
   ("acquire_duration_seconds_total", "Cumulative time spent acquiring PostgreSQL connections.", "counter",
    Seconds (AcquireDuration p))].

Definition writePool (s : DatabaseSnapshot) : list line :=
  let p := ds_Pool s in
  gauge "database_ready" "Whether PostgreSQL answered the most recent metrics-time ping." (of_bool (ds_Healthy s))
  ++ gauge "database_pool_acquisition_duration_seconds"
       "Duration of the most recent metrics-time PostgreSQL pool acquisition." (Seconds (ds_AcquisitionLatency s))
  ++ gauge "database_ping_duration_seconds" "Duration of the most recent metrics-time PostgreSQL ping." (Seconds (ds_PingLatency s))
  ++ gauge "database_pool_utilization_ratio" "Fraction of configured PostgreSQL connections currently acquired."
       (if 0 <? MaxConnections p then f_div (of_Z (AcquiredConnections p)) (of_Z (MaxConnections p)) else f_zero)
  ++ concat (map (fun x => let '(name, help, kind, value) := x in
                   writeHelpType (api ("database_pool_" +:+ name)) help kind
                   ++ writeMetric (api ("database_pool_" +:+ name)) ∅ value) (poolMetrics p))
  ++ gauge "database_pool_acquire_duration_seconds_average"
       "Average PostgreSQL pool acquisition duration since process start."
       (if 0 <? AcquireCount p then f_div (Seconds (AcquireDuration p)) (of_Z (AcquireCount p)) else f_zero).

Definition writeMappedDatabaseHistogram (name help : string) (durations : gmap string durationHistogram)
    (operations : gmap string string) : list line :=
  writeHelpType name help "histogram"
  ++ concat (map (fun op =>
        match durations !! op with
        | Some h => writeHistogram name {["stream" := default EmptyString (operations !! op)]} h
        | None => []
        end) (sorted_keys str_ltb operations)).

Definition writeDatabase (s : DatabaseSnapshot) (m : DatabaseMetrics) : list line :=
  let operationKeys := sorted_keys (then_less (fun a b => str_ltb a.1 b.1) (fun a b => str_ltb a.2 b.2)) (dm_operations m) in
  let number k := of_Z (default 0 (dm_operations m !! k)) in
  writePool s
  ++ writeHelpType (api "database_operations_total") "Database operations by bounded operation name and result." "counter"
  ++ concat (map (fun k => writeMetric (api "database_operations_total") {["operation" := k.1; "result" := k.2]} (number k))
               operationKeys)
  ++ writeHelpType (api "database_errors_total") "Failed database operations by bounded operation name." "counter"
  ++ concat (map (fun k => writeMetric (api "database_errors_total") {["operation" := k.1]} (number k))
               (List.filter (fun k => bool_decide (k.2 = "error")) operationKeys))
  ++ writeHelpType (api "database_operation_duration_seconds") "Database operation duration in seconds." "histogram"
  ++ concat (map (fun op => writeHistogram (api "database_operation_duration_seconds") {["operation" := op]}
                              (default zero_histogram (dm_durations m !! op))) (sorted_keys str_ltb (dm_durations m)))
  ++ writeMappedDatabaseHistogram (api "ingest_copy_duration_seconds") "CopyFrom duration by ingest stream." (dm_durations m)
       {["copy_raw_prices" := "prices"; "copy_raw_history" := "history"]}
  ++ writeMappedDatabaseHistogram (api "ingest_upsert_duration_seconds") "Hot read-model upsert duration by ingest stream."
       (dm_durations m) {["upsert_current_prices" := "prices"; "upsert_market_history" := "history"]}
  ++ writeMappedDatabaseHistogram (api "database_transaction_duration_seconds") "Database transaction duration by ingest stream."
       (dm_durations m) {["transaction_prices" := "prices"; "transaction_history" := "history"]}
  ++ writeMappedDatabaseHistogram (api "database_commit_duration_seconds") "Database commit duration by ingest stream."
       (dm_durations m) {["commit_prices" := "prices"; "commit_history" := "history"]}.

(** * The ingestion *)

Record ingestExportSnapshot := {
  ix_requestsTotal : Z;
  ix_inFlight : Z;
  ix_succeededTotal : Z;
  ix_duplicatesTotal : Z;
  ix_errorsTotal : Z;
  ix_receivedEntriesTotal : Z;
  ix_acceptedEntriesTotal : Z;
  ix_storedEntriesTotal : Z;
  ix_rejectedEntriesTotal : Z;
  ix_duplicateEntriesTotal : Z;
  ix_rowsTouchedTotal : Z;
  ix_durationTotal : duration;
  ix_lastRequestAt : option time;
  ix_lastSuccessAt : option time;
  ix_lastErrorAt : option time;
}.

Definition newSuccesses (s : ingestExportSnapshot) : Z :=
  if ix_duplicatesTotal s <=? ix_succeededTotal s then ix_succeededTotal s - ix_duplicatesTotal s else ix_succeededTotal s.

Definition writeIngestCommon (stream : string) (s : ingestExportSnapshot) : list line :=
  let labels : gmap string string := {["stream" := stream]} in
  let count name n := writeMetric (api name) labels (of_Z n) in
  concat (map (fun r => writeMetric (api "ingest_requests_total") {["result" := r.1; "stream" := stream]} (of_Z r.2)
                        ++ writeMetric (api "ingest_batches_total") {["result" := r.1; "stream" := stream]} (of_Z r.2))
            [("success", newSuccesses s); ("duplicate", ix_duplicatesTotal s); ("error", ix_errorsTotal s)])
  ++ count "ingest_errors_total" (ix_errorsTotal s)
  ++ count "ingest_requests_in_flight" (ix_inFlight s)
  ++ count "ingest_entries_received_total" (ix_receivedEntriesTotal s)
  ++ count "ingest_accepted_entries_total" (ix_acceptedEntriesTotal s)
  ++ count "ingest_entries_stored_total" (ix_storedEntriesTotal s)
  ++ count "ingest_entries_rejected_total" (ix_rejectedEntriesTotal s)
  ++ count "ingest_entries_duplicate_total" (ix_duplicateEntriesTotal s)
  ++ count "ingest_rows_touched_total" (ix_rowsTouchedTotal s)
  ++ writeMetric (api "ingest_request_duration_seconds_sum") labels (Seconds (ix_durationTotal s))
  ++ count "ingest_request_duration_seconds_count" (u64_add (ix_succeededTotal s) (ix_errorsTotal s))
  ++ count "ingest_observed_requests_total" (ix_requestsTotal s)
  ++ writeOptionalTimestamp (api "ingest_last_request_timestamp_seconds") labels (ix_lastRequestAt s)
  ++ writeOptionalTimestamp (api "ingest_last_success_timestamp_seconds") labels (ix_lastSuccessAt s)
  ++ writeOptionalTimestamp (api "ingest_last_error_timestamp_seconds") labels (ix_lastErrorAt s).

Definition ingest_export (m : Ingest.IngestMetrics) : ingestExportSnapshot :=
  {| ix_requestsTotal := Ingest.requestsTotal m; ix_inFlight := Ingest.inFlight m; ix_succeededTotal := Ingest.succeededTotal m;
     ix_duplicatesTotal := Ingest.duplicatesTotal m; ix_errorsTotal := Ingest.errorsTotal m;
     ix_receivedEntriesTotal := Ingest.receivedEntriesTotal m; ix_acceptedEntriesTotal := Ingest.acceptedEntriesTotal m;
     ix_storedEntriesTotal := Ingest.storedEntriesTotal m; ix_rejectedEntriesTotal := Ingest.rejectedEntriesTotal m;
     ix_duplicateEntriesTotal := Ingest.duplicateEntriesTotal m; ix_rowsTouchedTotal := Ingest.currentRowsTouchedTotal m;
     ix_durationTotal := Ingest.durationTotal m; ix_lastRequestAt := Ingest.lastRequestAt m;
     ix_lastSuccessAt := Ingest.lastSuccessAt m; ix_lastErrorAt := Ingest.lastErrorAt m |}.

Definition history_export (m : History.HistoryIngestMetrics) : ingestExportSnapshot :=
  {| ix_requestsTotal := History.requestsTotal m; ix_inFlight := History.inFlight m; ix_succeededTotal := History.succeededTotal m;
     ix_duplicatesTotal := History.duplicatesTotal m; ix_errorsTotal := History.errorsTotal m;
     ix_receivedEntriesTotal := History.receivedEntriesTotal m; ix_acceptedEntriesTotal := History.acceptedEntriesTotal m;
     ix_storedEntriesTotal := History.acceptedEntriesTotal m; ix_rejectedEntriesTotal := History.rejectedEntriesTotal m;
     ix_duplicateEntriesTotal := History.duplicateEntriesTotal m; ix_rowsTouchedTotal := History.historyRowsTouchedTotal m;
     ix_durationTotal := History.durationTotal m; ix_lastRequestAt := History.lastRequestAt m;
     ix_lastSuccessAt := History.lastSuccessAt m; ix_lastErrorAt := History.lastErrorAt m |}.

Definition writeHistoryIngest (stream : string) (m : History.HistoryIngestMetrics) : list line :=
  let count name n := writeMetric (api name) {["stream" := stream]} (of_Z n) in
  writeIngestCommon stream (history_export m)
  ++ count "ingest_buckets_received_total" (History.receivedBucketsTotal m)
  ++ count "ingest_accepted_buckets_total" (History.acceptedBucketsTotal m)
  ++ count "ingest_buckets_stored_total" (History.storedBucketsTotal m)
  ++ count "ingest_buckets_rejected_total" (History.rejectedBucketsTotal m)
  ++ count "ingest_buckets_duplicate_total" (History.duplicateBucketsTotal m).

Definition ingest_descriptions : list (string * string * string) :=
  [("ingest_requests_total", "Ingest requests by stream and outcome.", "counter");
   ("ingest_batches_total", "Completed ingest batches by stream and outcome.", "counter");
   ("ingest_errors_total", "Failed ingest batches by stream.", "counter");
   ("ingest_requests_in_flight", "Ingest requests currently being processed.", "gauge");
   ("ingest_entries_received_total", "Parsed entries received by ingest stream.", "counter");
   ("ingest_accepted_entries_total", "Accepted entries for non-duplicate ingest requests.", "counter");
   ("ingest_entries_stored_total", "Entries stored by non-duplicate ingest requests.", "counter");
   ("ingest_entries_rejected_total", "Parsed entries rejected with a failed ingest request.", "counter");
   ("ingest_entries_duplicate_total", "Entries associated with duplicate ingest requests.", "counter");
   ("ingest_buckets_received_total", "Parsed history buckets received.", "counter");
   ("ingest_accepted_buckets_total", "Accepted history buckets for non-duplicate requests.", "counter");
   ("ingest_buckets_stored_total", "History buckets stored by non-duplicate requests.", "counter");
   ("ingest_buckets_rejected_total", "Parsed history buckets rejected with a failed request.", "counter");
   ("ingest_buckets_duplicate_total", "History buckets associated with duplicate requests.", "counter");
   ("ingest_rows_touched_total", "Read-model rows touched by non-duplicate ingest requests.", "counter");
   ("ingest_request_duration_seconds", "Ingest request duration summary without quantiles.", "summary");
   ("ingest_observed_requests_total", "All ingest requests observed by the process.", "counter");
   ("ingest_last_request_timestamp_seconds", "Timestamp of the last ingest request.", "gauge");
   ("ingest_last_success_timestamp_seconds", "Timestamp of the last successful ingest request.", "gauge");
   ("ingest_last_error_timestamp_seconds", "Timestamp of the last failed ingest request.", "gauge")].

Definition writeIngestMetricDescriptions : list line :=
  concat (map (fun d => writeHelpType (api d.1.1) d.1.2 d.2) ingest_descriptions).

(** * A scrape *)

(** What the exporter reads: the clock, the runtime, the pool, and the counters. *)
Record scrape_env := {
  xe_now : time;
  xe_runtime : runtime_stats;
  xe_readiness : readiness_probe;
  xe_pool : pool_probe;
  xe_stats : DatabasePoolStats;
}.

Record AllMetrics := {
  am_http : HTTPMetrics;
  am_monitoring : Monitoring;
  am_ingest : Ingest.IngestMetrics;
  am_history : History.HistoryIngestMetrics;
}.

Section exporter.
Context `{Unicode}.

Definition NewPrometheusExporter (service environment version revision : string) (startedAt now : time) : PrometheusExporter :=
  {| pe_service := normalizeMetricLabel service "albion-market-api";
     pe_environment := normalizeMetricLabel environment "unknown";
     pe_version := normalizeMetricLabel version "dev";
     pe_revision := normalizeMetricLabel revision "unknown";
     pe_startedAt := if is_zero startedAt then now else startedAt |}.

Definition writeProcess (x : PrometheusExporter) (e : scrape_env) : list line :=
  writeHelpType (api "build_info") "Static build and deployment metadata." "gauge"
  ++ writeMetric (api "build_info")
       {["environment" := pe_environment x; "revision" := pe_revision x; "service" := pe_service x; "version" := pe_version x]}
       (of_Z 1)
  ++ gauge "process_start_time_seconds" "Unix timestamp when the API process started." (unix_seconds (pe_startedAt x))
  ++ gauge "process_uptime_seconds" "API process uptime in seconds." (Seconds (time_sub (xe_now e) (pe_startedAt x)))
  ++ gauge "go_goroutines" "Current number of goroutines." (of_Z (rt_Goroutines (xe_runtime e)))
  ++ gauge "go_memory_alloc_bytes" "Bytes currently allocated by the Go runtime." (of_Z (rt_Alloc (xe_runtime e)))
  ++ gauge "go_memory_heap_inuse_bytes" "Heap bytes currently in use." (of_Z (rt_HeapInuse (xe_runtime e)))
  ++ writeHelpType (api "go_gc_cycles_total") "Completed Go garbage collection cycles." "counter"
  ++ writeMetric (api "go_gc_cycles_total") ∅ (of_Z (rt_NumGC (xe_runtime e))).

(** [PrometheusExporter.Write]: the lines, and the counters after the check of the
    readiness, which is made once the HTTP metrics are written. *)
Definition export (x : PrometheusExporter) (e : scrape_env) (m : AllMetrics) : list line * AllMetrics :=
  let '(_, monitoring) := Check (xe_readiness e) (am_monitoring m) in
  (writeProcess x e
   ++ writeHTTP (am_http m)
   ++ writeReadiness (mo_readiness monitoring)
   ++ writeDatabase (monitor_Snapshot (xe_pool e) (xe_stats e)) (mo_database monitoring)
   ++ writeIngestMetricDescriptions
   ++ writeIngestCommon "prices" (ingest_export (am_ingest m))
   ++ writeHistoryIngest "history" (am_history m),
   {| am_http := am_http m; am_monitoring := monitoring; am_ingest := am_ingest m; am_history := am_history m |}).

Inductive metrics_body := MetricsMessage (message : string) | MetricsText (text : string).

Definition Metrics (x : PrometheusExporter) (e : scrape_env) (r : HttpRequest) (m : AllMetrics)
    : Response metrics_body * AllMetrics :=
  if negb (bool_decide (hr_Method r = "GET"))
  then ({| rs_Status := StatusMethodNotAllowed; rs_Headers := [no_store; ("Allow", "GET"); json_type];
           rs_Body := MetricsMessage "method not allowed" |}, m)
  else
    let '(lines, m) := export x e m in
    ({| rs_Status := StatusOK; rs_Headers := [no_store; ("Content-Type", "text/plain; version=0.0.4; charset=utf-8")];
        rs_Body := MetricsText (render lines) |}, m).
End exporter.
