(* ===== verification/ExpositionSpec.v ===== *)
(** What a scraper reads is what the exporter writes: a parser of the text format, the
    round trip, and the series of a scrape. *)
From S2P Require Import Prelude GoLists GoBase Float64 Utf8 Json Http ObsMetrics Config Readiness Migrate ReadinessSpec Exposition.
Local Open Scope Z_scope.

(** * A parser of the text format *)

Inductive parsed :=
  | PHelp (name help : string)
  | PKind (name kind : string)
  | PSample (name : string) (labels : list (string * string)) (value : string).

(** The characters of the names of metrics and labels. *)
Definition name_char (c : ascii) : bool :=
  in_range 97 122 c || in_range 65 90 c || in_range 48 57 c || bool_decide (c = "_"%char) || bool_decide (c = ":"%char).

Fixpoint span (p : ascii -> bool) (s : string) : string * string :=
  match s with
  | String c s' => if p c then let '(a, b) := span p s' in (String c a, b) else (EmptyString, s)
  | EmptyString => (EmptyString, EmptyString)
  end.

(** The value of a label up to its closing quote. *)
Fixpoint unescape (s : string) : option (string * string) :=
  match s with
  | EmptyString => None
  | String "034" s' => Some (EmptyString, s')
  | String "\" s' =>
      match s' with
      | String "\" t => '(v, r) ← unescape t; Some (String "\" v, r)
      | String "n" t => '(v, r) ← unescape t; Some (String "010" v, r)
      | String "034" t => '(v, r) ← unescape t; Some (String "034" v, r)
      | _ => None
      end
  | String c s' => '(v, r) ← unescape s'; Some (String c v, r)
  end.

Fixpoint parse_labels (fuel : nat) (s : string) : option (list (string * string) * string) :=
  match fuel with
  | O => None
  | S fuel =>
      let '(k, r) := span name_char s in
      match r with
      | String "=" (String "034" r) =>
          '(v, r) ← unescape r;
          match r with
          | String "}" r => Some ([(k, v)], r)
          | String "," r => '(l, r) ← parse_labels fuel r; Some ((k, v) :: l, r)
          | _ => None
          end
      | _ => None
      end
  end.

Definition parse_sample (s : string) : option parsed :=
  let '(name, r) := span name_char s in
  if is_empty name then None else
  match r with
  | String "{" r =>
      '(labels, r) ← parse_labels (S (String.length r)) r;
      match r with String " " v => Some (PSample name labels v) | _ => None end
  | String " " v => Some (PSample name [] v)
  | _ => None
  end.

Definition parse_comment (make : string -> string -> parsed) (s : string) : option parsed :=
  let '(name, r) := span name_char s in
  match r with String " " v => if is_empty name then None else Some (make name v) | _ => None end.

Definition parse_line (s : string) : option parsed :=
  match GoBase.strip_prefix "# HELP " s with
  | Some r => parse_comment PHelp r
  | None =>
      match GoBase.strip_prefix "# TYPE " s with
      | Some r => parse_comment PKind r
      | None => parse_sample s
      end
  end.

Fixpoint take_line (s : string) : option (string * string) :=
  match s with
  | EmptyString => None
  | String "010" s' => Some (EmptyString, s')
  | String c s' => '(l, r) ← take_line s'; Some (String c l, r)
  end.

Fixpoint parse_lines (fuel : nat) (s : string) : option (list parsed) :=
  match fuel with
  | O => None
  | S fuel =>
      if is_empty s then Some []
      else
        '(l, r) ← take_line s;
        x ← parse_line l;
        xs ← parse_lines fuel r;
        Some (x :: xs)
  end.

Definition parse_text (s : string) : option (list parsed) := parse_lines (S (String.length s)) s.

(** What a line says. *)
Definition view (l : line) : parsed :=
  match l with
  | Help name help => PHelp name (replace_byte "010" " " help)
  | Kind name kind => PKind name kind
  | Sample name labels value => PSample name labels (FormatFloat value)
  end.

(** * The round trip *)

Definition no_newline : string -> bool := str_all (fun c => negb (bool_decide (c = "010"%char))).

Definition name_ok (n : string) : bool := negb (is_empty n) && str_all name_char n.

Definition line_ok (l : line) : bool :=
  match l with
  | Help name _ => name_ok name
  | Kind name kind => name_ok name && no_newline kind
  | Sample name labels _ => name_ok name && forallb (fun kv => name_ok kv.1) labels
  end.

Lemma span_app p s c t : str_all p s = true -> p c = false -> span p (s +:+ String c t) = (s, String c t).
Proof.
  intros Hs Hc. induction s as [|a s IH]; [change (EmptyString +:+ String c t) with (String c t); simpl; by rewrite Hc|].
  rewrite append_cons. simpl in *. apply andb_true_iff in Hs as [-> Hs]. by rewrite IH.
Qed.

(** ** Labels *)

Definition escape_char (c : ascii) : string :=
  if bool_decide (c = "\"%char) then "\\"
  else if bool_decide (c = "010"%char) then "\n"
  else if bool_decide (c = "034"%char) then String "\" (String "034" EmptyString)
  else String c EmptyString.

Lemma replace_byte_app c b s t : replace_byte c b (s +:+ t) = replace_byte c b s +:+ replace_byte c b t.
Proof. induction s as [|a s IH]; [done|]. rewrite append_cons. simpl. by rewrite IH, app_assoc_string. Qed.

Lemma escape_cons c v : escapePrometheusLabel (String c v) = escape_char c +:+ escapePrometheusLabel v.
Proof.
  unfold escapePrometheusLabel. cbn [replace_byte]. rewrite !replace_byte_app. f_equal.
  unfold escape_char. destruct c as [[] [] [] [] [] [] [] []]; reflexivity.
Qed.

Lemma unescape_escape v t : unescape (escapePrometheusLabel v +:+ String "034" t) = Some (v, t).
Proof.
  induction v as [|c v IH]; [done|]. rewrite escape_cons, app_assoc_string.
  assert (forall s, unescape s = Some (v, t) -> unescape (escape_char c +:+ s) = Some (String c v, t)) as Hc; [|by apply Hc].
  clear. intros s Hs.
  assert (escape_char c +:+ s =
    if bool_decide (c = "\"%char) then String "\" (String "\" s)
    else if bool_decide (c = "010"%char) then String "\" (String "n" s)
    else if bool_decide (c = "034"%char) then String "\" (String "034" s) else String c s) as ->
    by (unfold escape_char; by repeat case_bool_decide).
  destruct c as [[] [] [] [] [] [] [] []]; simpl; by rewrite Hs.
Qed.

Lemma render_labels_cons k v l :
  render_labels ((k, v) :: l) =
  k +:+ "=" +:+ String "034" (escapePrometheusLabel v +:+ String "034" (match l with [] => EmptyString | _ => "," +:+ render_labels l end)).
Proof. done. Qed.

Lemma append_String a c b : String.append (a +:+ String c EmptyString) b = a +:+ String c b.
Proof. by rewrite app_assoc_string. Qed.

Lemma parse_labels_render fuel l t :
  (length l < fuel)%nat -> l <> [] -> forallb (fun kv => name_ok kv.1) l = true ->
  parse_labels fuel (render_labels l +:+ String "}" t) = Some (l, t).
Proof.
  revert fuel. induction l as [|[k v] l IH]; intros fuel Hf Hne Hok; [done|]. destruct fuel as [|fuel]; [lia|].
  simpl in Hok. apply andb_true_iff in Hok as [[_ Hk]%andb_true_iff Hok].
  rewrite render_labels_cons, app_assoc_string. change ("=" +:+ ?x) with (String "=" x). rewrite append_cons.
  rewrite append_cons. cbn [parse_labels]. rewrite span_app by done.
  rewrite app_assoc_string, append_cons, unescape_escape. cbn [mbind option_bind].
  destruct l as [|kv l].
  - done.
  - change ("," +:+ render_labels (kv :: l)) with (String "," (render_labels (kv :: l))). rewrite append_cons.
    rewrite IH; [done|simpl in *; lia|done|done].
Qed.

Lemma length_render_labels l : (length l <= String.length (render_labels l))%nat.
Proof.
  induction l as [|[k v] l IH]; [simpl; lia|]. rewrite render_labels_cons, string_app_length.
  change ("=" +:+ ?x) with (String "=" x). cbn [String.length length]. rewrite string_app_length. cbn [String.length].
  destruct l as [|kv l]; [simpl; lia|]. rewrite string_app_length. lia.
Qed.

(** ** Numbers *)

Definition plain_char (c : ascii) : bool := in_range 33 126 c.

Lemma pretty_N_go_all p n s :
  (forall d, p (pretty_N_char d) = true) -> str_all p s = true -> str_all p (pretty_N_go n s) = true.
Proof.
  intros Hp. revert s. induction (N.lt_wf_0 n) as [n _ IH]; intros s Hs.
  destruct (N.eq_0_gt_0_cases n) as [->|Hn]; [by rewrite pretty_N_go_0|].
  rewrite pretty_N_go_step by lia. apply IH; [apply N.div_lt; lia|]. simpl. by rewrite Hp, Hs.
Qed.

Lemma FormatInt_plain n : str_all plain_char (FormatInt n) = true.
Proof.
  assert (forall p, str_all plain_char (pretty (N.pos p)) = true) as Hpos.
  { intros p. unfold pretty, pretty_N. destruct (decide _); [done|]. apply pretty_N_go_all; [|done].
    intros [|d]; [done|]. do 8 (destruct d as [d|d|]; try done). }
  unfold FormatInt, pretty, pretty_Z. destruct n as [|p|p]; [done|apply Hpos|].
  rewrite str_all_app. simpl. apply Hpos.
Qed.

Lemma str_all_substring p i n s : str_all p s = true -> str_all p (String.substring i n s) = true.
Proof.
  revert i n. induction s as [|c s IH]; intros i n Hs; [by destruct i, n|]. simpl in Hs. apply andb_true_iff in Hs as [Hc Hs].
  destruct i as [|i], n as [|n]; simpl; try done; rewrite ?Hc; by apply IH.
Qed.

Lemma zeros_plain n : str_all plain_char (zeros n) = true.
Proof. by induction n. Qed.

Lemma drop_zeros_plain s : str_all plain_char s = true -> str_all plain_char (drop_zeros s) = true.
Proof.
  induction s as [|c s IH]; [done|]. simpl. intros [Hc Hs]%andb_true_iff. destruct (_ && _); [done|]. simpl. by rewrite Hc, IH.
Qed.

Lemma FormatFloat_plain f : str_all plain_char (FormatFloat f) = true.
Proof.
  destruct f as [[]|[]| |s m e]; try done. cbn [FormatFloat]. destruct (shortest_digits m e) as [digits dp] eqn:E.
  assert (str_all plain_char digits = true) as Hd.
  { unfold shortest_digits in E. destruct (if 0 <=? e then _ else _) as [num den]. destruct (shortest _ _ _ _ _ _) as [d exp].
    injection E as <- _. apply drop_zeros_plain, FormatInt_plain. }
  rewrite str_all_app, andb_true_iff. split; [by destruct s|]. destruct (_ || _).
  - unfold fmtE. rewrite !str_all_app, !andb_true_iff. split_and!; try done.
    + by apply str_all_substring.
    + destruct (_ <=? _); [done|]. rewrite str_all_app. simpl. by apply str_all_substring.
    + by destruct (_ <? _).
    + destruct (_ <? _); rewrite ?str_all_app; simpl; apply FormatInt_plain.
  - unfold fmtF. destruct (_ <=? 0).
    + rewrite str_all_app. simpl. destruct (_ =? 0); [done|]. rewrite !str_all_app, zeros_plain, Hd. done.
    + destruct (_ <=? dp); rewrite !str_all_app, ?zeros_plain, ?Hd; [done|]. simpl.
      by rewrite !str_all_substring.
Qed.

(** ** Lines *)

(** The text of a line before its end. *)
Definition line_text (l : line) : string :=
  match l with
  | Help name help => "# HELP " +:+ name +:+ " " +:+ replace_byte "010" " " help
  | Kind name kind => "# TYPE " +:+ name +:+ " " +:+ kind
  | Sample name labels value =>
      name +:+ (match labels with [] => EmptyString | _ => "{" +:+ render_labels labels +:+ "}" end) +:+ " " +:+ FormatFloat value
  end.

Lemma render_line_text l : render_line l = line_text l +:+ newline.
Proof. destruct l as [| |name [|kv labels] value]; simpl; by rewrite !app_assoc_string. Qed.

Lemma take_line_text s t : no_newline s = true -> take_line (s +:+ newline +:+ t) = Some (s, t).
Proof.
  change (newline +:+ t) with (String "010" t).
  induction s as [|c s IH]; [done|]. intros [Hc Hs]%andb_true_iff. rewrite append_cons.
  assert (take_line (String c (s +:+ String "010" t)) = ('(l, r) ← take_line (s +:+ String "010" t); Some (String c l, r))) as ->.
  { revert Hc. clear. destruct c as [[] [] [] [] [] [] [] []]; done. }
  by rewrite IH.
Qed.

Lemma no_newline_plain s : str_all plain_char s = true -> no_newline s = true.
Proof. apply str_all_impl. intros [[] [] [] [] [] [] [] []]; done. Qed.

Lemma name_plain n : name_ok n = true -> no_newline n = true /\ str_all name_char n = true /\ is_empty n = false.
Proof.
  intros [He Hn]%andb_true_iff. split_and!; [|done|by apply negb_true_iff].
  revert Hn. apply str_all_impl. intros [[] [] [] [] [] [] [] []]; done.
Qed.

Lemma escape_no_newline v : no_newline (escapePrometheusLabel v) = true.
Proof.
  induction v as [|c v IH]; [done|]. rewrite escape_cons. unfold no_newline. rewrite str_all_app. fold no_newline. rewrite IH, andb_true_r.
  destruct c as [[] [] [] [] [] [] [] []]; done.
Qed.

Lemma replace_newline s : no_newline (replace_byte "010" " " s) = true.
Proof.
  induction s as [|c s IH]; [done|]. cbn [replace_byte]. unfold no_newline. rewrite str_all_app. fold no_newline. rewrite IH, andb_true_r.
  destruct c as [[] [] [] [] [] [] [] []]; done.
Qed.

Lemma render_labels_no_newline l : forallb (fun kv => name_ok kv.1) l = true -> no_newline (render_labels l) = true.
Proof.
  induction l as [|[k v] l IH]; [done|]. simpl. intros [(Hk & _)%name_plain Hl]%andb_true_iff. cbn [fst] in Hk.
  fold (render_labels l). unfold no_newline in *. rewrite str_all_app, Hk. simpl. rewrite str_all_app, escape_no_newline. simpl.
  destruct l; [done|]. rewrite str_all_app. simpl. by apply IH.
Qed.

Lemma line_no_newline l : line_ok l = true -> no_newline (line_text l) = true.
Proof.
  unfold no_newline. destruct l as [name help|name kind|name labels value]; simpl.
  - intros (Hn & _)%name_plain. rewrite !str_all_app, replace_newline. unfold no_newline in Hn. by rewrite Hn.
  - intros [(Hn & _)%name_plain Hk]%andb_true_iff. unfold no_newline in *. by rewrite !str_all_app, Hn, Hk.
  - intros [(Hn & _)%name_plain Hl]%andb_true_iff. unfold no_newline in *. rewrite !str_all_app, Hn.
    pose proof (no_newline_plain _ (FormatFloat_plain value)) as Hf. unfold no_newline in Hf. rewrite Hf. simpl. rewrite andb_true_r.
    destruct labels as [|kv labels]; [done|]. rewrite !str_all_app.
    pose proof (render_labels_no_newline _ Hl) as Hr. unfold no_newline in Hr. by rewrite Hr.
Qed.

Lemma strip_prefix_self p s : GoBase.strip_prefix p (p +:+ s) = Some s.
Proof. induction p as [|c p IH]; [done|]. rewrite append_cons. simpl. by rewrite bool_decide_eq_true_2. Qed.

Lemma parse_line_text l : line_ok l = true -> parse_line (line_text l) = Some (view l).
Proof.
  destruct l as [name help|name kind|name labels value]; cbn [line_ok line_text view].
  - intros (_ & Hn & He)%name_plain. unfold parse_line. rewrite strip_prefix_self. unfold parse_comment.
    change (" " +:+ ?x) with (String " " x). rewrite span_app by done. by rewrite He.
  - intros [(_ & Hn & He)%name_plain _]%andb_true_iff. unfold parse_line.
    assert (forall s, GoBase.strip_prefix "# HELP " ("# TYPE " +:+ s) = None) as -> by done.
    rewrite strip_prefix_self. unfold parse_comment. change (" " +:+ ?x) with (String " " x). rewrite span_app by done. by rewrite He.
  - intros [(_ & Hn & He)%name_plain Hl]%andb_true_iff. unfold parse_line.
    assert (forall p t, GoBase.strip_prefix (String "#" p) (name +:+ t) = None) as Hstrip.
    { intros p t. destruct name as [|c name]; [done|]. rewrite append_cons. simpl in *. case_bool_decide as Hc; [|done]. by subst c. }
    rewrite !Hstrip. unfold parse_sample. destruct labels as [|kv labels].
    + change (EmptyString +:+ ?x) with x. change (" " +:+ ?x) with (String " " x). rewrite span_app by done. by rewrite He.
    + change (("{" +:+ ?x) +:+ ?y) with (String "{" (x +:+ y)). rewrite span_app by done. rewrite He. rewrite app_assoc_string.
      change ("}" +:+ ?x) with (String "}" x). rewrite parse_labels_render; [done| |done|done].
      rewrite string_app_length. pose proof (length_render_labels (kv :: labels)). lia.
Qed.

Lemma parse_lines_render fuel lines :
  (length lines < fuel)%nat -> forallb line_ok lines = true -> parse_lines fuel (render lines) = Some (map view lines).
Proof.
  revert fuel. induction lines as [|l lines IH]; intros [|fuel] Hf Hok; try lia; [done|].
  simpl in Hok. apply andb_true_iff in Hok as [Hl Hok]. cbn [parse_lines render foldr map]. fold (render lines).
  rewrite render_line_text, app_assoc_string.
  destruct (is_empty _) eqn:He.
  - apply is_empty_true in He. destruct (line_text l); done.
  - rewrite take_line_text by (by apply line_no_newline). cbn [mbind option_bind]. rewrite parse_line_text by done.
    cbn [mbind option_bind]. rewrite IH; [done|simpl in Hf; lia|done].
Qed.

Lemma length_render lines : (length lines <= String.length (render lines))%nat.
Proof.
  induction lines as [|l lines IH]; [done|]. cbn [render foldr]. fold (render lines).
  rewrite render_line_text, !string_app_length. cbn [length]. simpl (String.length newline). lia.
Qed.

Lemma parse_text_render lines : forallb line_ok lines = true -> parse_text (render lines) = Some (map view lines).
Proof. intros Hok. apply parse_lines_render; [pose proof (length_render lines); lia|done]. Qed.

(** * The series of a scrape *)

Definition series_of (l : line) : option (string * list (string * string)) :=
  match l with Sample name labels _ => Some (name, labels) | _ => None end.

Definition series (lines : list line) : list (string * list (string * string)) := omap series_of lines.

Lemma series_app a b : series (a ++ b) = series a ++ series b.
Proof. apply omap_app. Qed.

(** Lines that can be read back, with series of the given names, each once. *)
Record block (names : list string) (lines : list line) : Prop := {
  bl_ok : forallb line_ok lines = true;
  bl_names s : s ∈ series lines -> s.1 ∈ names;
  bl_once : NoDup (series lines);
}.

Lemma block_disjoint A B a b :
  block A a -> block B b -> (forall s, s ∈ series a -> s ∉ series b) -> block (A ++ B) (a ++ b).
Proof.
  intros [Ho1 Hn1 Hd1] [Ho2 Hn2 Hd2] Hab. split.
  - by rewrite forallb_app, Ho1, Ho2.
  - intros s. rewrite series_app, !elem_of_app. naive_solver.
  - rewrite series_app. by apply NoDup_app.
Qed.

Lemma block_app A B a b :
  block A a -> block B b -> forallb (fun n => negb (bool_decide (n ∈ B))) A = true -> block (A ++ B) (a ++ b).
Proof.
  intros Ha Hb Hd. apply block_disjoint; [done..|]. intros s Hs1%(bl_names _ _ Ha) Hs2%(bl_names _ _ Hb).
  rewrite forallb_forall in Hd. apply list_elem_of_In, Hd, negb_true_iff, bool_decide_eq_false_1 in Hs1. done.
Qed.

Lemma block_weaken A B l : block A l -> forallb (fun n => bool_decide (n ∈ B)) A = true -> block B l.
Proof.
  intros [Ho Hn Hd] Hab. split; [done| |done]. intros s Hs%Hn. rewrite forallb_forall in Hab.
  by apply list_elem_of_In, Hab, bool_decide_eq_true_1 in Hs.
Qed.

Lemma block_nil : block [] [].
Proof. split; [done|intros s Hs; by apply elem_of_nil in Hs|constructor]. Qed.

Lemma block_help name help kind : name_ok name = true -> no_newline kind = true -> block [] (writeHelpType name help kind).
Proof.
  intros Hn Hk. split; [simpl; by rewrite Hn, Hk|intros s Hs; by apply elem_of_nil in Hs|constructor].
Qed.

(** ** Labels *)

Definition labels_ok (m : gmap string string) : Prop := map_Forall (fun k _ => name_ok k = true) m.

Lemma sorted_labels_inj m m' : sorted_labels m = sorted_labels m' -> m = m'.
Proof.
  intros Hs. rewrite <- (list_to_map_to_list m), <- (list_to_map_to_list m').
  apply list_to_map_proper; [apply NoDup_fst_map_to_list|].
  rewrite <- (slice_stable_Permutation (fun a b => str_ltb a.1 b.1) (map_to_list m)).
  rewrite <- (slice_stable_Permutation (fun a b => str_ltb a.1 b.1) (map_to_list m')).
  unfold sorted_labels in Hs. by rewrite Hs.
Qed.

Lemma sorted_labels_ok m : labels_ok m -> forallb (fun kv => name_ok kv.1) (sorted_labels m) = true.
Proof.
  intros Hm. apply forallb_forall. intros [k v] Hk%list_elem_of_In. unfold sorted_labels in Hk.
  apply elem_of_slice_stable, elem_of_map_to_list in Hk. exact (Hm k v Hk).
Qed.

(** The lines have the labels of [m], and perhaps [le]. *)
Definition tagged (m : gmap string string) (lines : list line) : Prop :=
  forall s, s ∈ series lines -> exists m', s.2 = sorted_labels m' /\ delete "le" m' = m.

Lemma tagged_app m a b : tagged m a -> tagged m b -> tagged m (a ++ b).
Proof. intros Ha Hb s. rewrite series_app, elem_of_app. intros [Hs|Hs]; [by apply Ha|by apply Hb]. Qed.

Lemma tagged_same m m' a b s : tagged m a -> tagged m' b -> s ∈ series a -> s ∈ series b -> m = m'.
Proof.
  intros Ha Hb (m1 & H1 & <-)%Ha (m2 & H2 & <-)%Hb. rewrite H1 in H2. by apply sorted_labels_inj in H2 as ->.
Qed.

Lemma block_metric name m v : name_ok name = true -> labels_ok m -> block [name] (writeMetric name m v).
Proof.
  intros Hn Hm. split.
  - simpl. by rewrite Hn, sorted_labels_ok.
  - intros s ->%list_elem_of_singleton. by left.
  - apply NoDup_singleton.
Qed.

Lemma tagged_metric name m v : m !! "le" = None -> tagged m (writeMetric name m v).
Proof. intros Hle s ->%list_elem_of_singleton. exists m. split; [done|]. by apply delete_id. Qed.

(** The same lines for keys that the labels tell apart. *)
Lemma block_keys {K} names (keys : list K) (f : K -> list line) (labels : K -> gmap string string) :
  NoDup keys -> (forall k, k ∈ keys -> block names (f k)) -> (forall k, k ∈ keys -> tagged (labels k) (f k)) ->
  (forall k k', k ∈ keys -> k' ∈ keys -> labels k = labels k' -> k = k') ->
  block names (concat (map f keys)).
Proof.
  intros Hnd Hb Ht Hinj.
  assert (forall l s, s ∈ series (concat (map f l)) -> exists k, k ∈ l /\ s ∈ series (f k)) as Hin.
  { induction l as [|k l IH]; intros s; [intros Hs; by apply elem_of_nil in Hs|]. cbn [map concat]. rewrite series_app, elem_of_app.
    intros [Hs|(k' & Hk' & Hs)%IH]; [exists k; split; [left|done]|exists k'; split; [by right|done]]. }
  induction Hnd as [|k l Hk Hnd IH]; [destruct block_nil as [? _ ?]; split; [done|intros s Hs; by apply elem_of_nil in Hs|done]|].
  cbn [map concat]. assert (block names (concat (map f l))) as Hl.
  { apply IH; [intros k' Hk'; apply Hb; by right|intros k' Hk'; apply Ht; by right|intros k1 k2 H1 H2; apply Hinj; by right]. }
  destruct (block_disjoint names names (f k) (concat (map f l)) (Hb k ltac:(left)) Hl) as [Ho Hn Hd].
  - intros s H1 (k' & Hk' & H2)%Hin. apply Hk.
    rewrite (Hinj k k'); [done|left|by right|].
    eapply (tagged_same (labels k) (labels k')); [apply Ht; left|apply Ht; by right|exact H1|exact H2].
  - split; [done| |done]. intros s [?|?]%Hn%elem_of_app; done.
Qed.

Lemma block_metrics {K} name (keys : list K) (labels : K -> gmap string string) value :
  NoDup keys -> name_ok name = true -> (forall k, k ∈ keys -> labels_ok (labels k) /\ labels k !! "le" = None) ->
  (forall k k', k ∈ keys -> k' ∈ keys -> labels k = labels k' -> k = k') ->
  block [name] (concat (map (fun k => writeMetric name (labels k) (value k)) keys)).
Proof.
  intros Hnd Hn Hl Hinj. apply (block_keys _ _ _ labels); [done|..|done].
  - intros k Hk. apply block_metric; [done|]. by apply Hl.
  - intros k Hk. apply tagged_metric. by apply Hl.
Qed.

Lemma NoDup_sorted_keys {K} `{Countable K} {V} less (m : gmap K V) : NoDup (sorted_keys less m).
Proof. unfold sorted_keys. rewrite slice_stable_Permutation. apply NoDup_fst_map_to_list. Qed.

Lemma elem_of_sorted_keys {K} `{Countable K} {V} less (m : gmap K V) k : k ∈ sorted_keys less m <-> is_Some (m !! k).
Proof.
  unfold sorted_keys. rewrite elem_of_slice_stable, list_elem_of_fmap. split.
  - intros ([k' v] & -> & Hk%elem_of_map_to_list). by exists v.
  - intros [v Hv]. exists (k, v). split; [done|]. by apply elem_of_map_to_list.
Qed.

(** ** Histograms *)

Definition bucket_series (name : string) (m : gmap string string) (text : string) : string * list (string * string) :=
  (name +:+ "_bucket", sorted_labels (<["le" := text]> m)).

Lemma series_buckets name m bounds ns :
  series (concat (zip_with (fun b n => writeMetric (name +:+ "_bucket") (<["le" := FormatFloat b]> m) (of_Z n)) bounds ns))
  = map (bucket_series name m) (take (length ns) (map FormatFloat bounds)).
Proof.
  revert ns. induction bounds as [|b bounds IH]; intros [|n ns]; try done. cbn [zip_with concat]. rewrite series_app, IH. done.
Qed.

Lemma series_histogram name m h :
  series (writeHistogram name m h) =
  map (bucket_series name m) (take (length (dh_Buckets h)) (map FormatFloat defaultDurationBuckets) ++ ["+Inf"])
  ++ [(name +:+ "_sum", sorted_labels m); (name +:+ "_count", sorted_labels m)].
Proof.
  unfold writeHistogram. rewrite !series_app, series_buckets, map_app. by rewrite <- app_assoc.
Qed.

Lemma bucket_texts : NoDup (map FormatFloat defaultDurationBuckets ++ ["+Inf"]).
Proof.
  assert (bool_decide (NoDup (map FormatFloat defaultDurationBuckets ++ ["+Inf"])) = true) as Hd by (vm_compute; reflexivity).
  by apply bool_decide_eq_true_1 in Hd.
Qed.

Lemma bucket_series_inj name m t t' : bucket_series name m t = bucket_series name m t' -> t = t'.
Proof.
  intros [= Hs%sorted_labels_inj]. assert (<["le" := t]> m !! "le" = <["le" := t']> m !! "le") as Hl by (by rewrite Hs).
  rewrite !lookup_insert_eq in Hl. by injection Hl.
Qed.

Lemma suffix_inj (name s t : string) : name +:+ s = name +:+ t -> s = t.
Proof. induction name as [|c name IH]; [done|]. rewrite !append_cons. intros [= ?]. by apply IH. Qed.

Lemma name_ok_app name s : name_ok name = true -> str_all name_char s = true -> name_ok (name +:+ s) = true.
Proof.
  unfold name_ok. intros [He Hn]%andb_true_iff Hs. rewrite str_all_app, Hn, Hs, andb_true_r.
  destruct name as [|c name]; [done|]. by rewrite append_cons.
Qed.

Lemma labels_ok_insert k v m : name_ok k = true -> labels_ok m -> labels_ok (<[k := v]> m).
Proof. intros. by apply map_Forall_insert_2. Qed.

Lemma buckets_ok name m bounds ns :
  name_ok name = true -> labels_ok m ->
  forallb line_ok (concat (zip_with (fun b n => writeMetric name (<["le" := FormatFloat b]> m) (of_Z n)) bounds ns)) = true.
Proof.
  intros Hn Hm. revert ns. induction bounds as [|b bounds IH]; intros [|n ns]; try done. cbn [zip_with concat].
  rewrite forallb_app, IH, andb_true_r. simpl. rewrite Hn, sorted_labels_ok; [done|by apply labels_ok_insert].
Qed.

Lemma block_histogram name m h :
  name_ok name = true -> labels_ok m -> m !! "le" = None ->
  block [name +:+ "_bucket"; name +:+ "_sum"; name +:+ "_count"] (writeHistogram name m h).
Proof.
  intros Hn Hm Hle. split.
  - unfold writeHistogram. rewrite !forallb_app, buckets_ok by (done || (by apply name_ok_app)). simpl.
    rewrite !sorted_labels_ok by (done || (by apply labels_ok_insert)). by rewrite !name_ok_app.
  - intros s. rewrite series_histogram, elem_of_app, list_elem_of_fmap. intros [(t & -> & _)|Hs]; [by left|].
    apply elem_of_cons in Hs as [->|Hs%list_elem_of_singleton]; [by right; left|subst s; by right; right; left].
  - rewrite series_histogram. apply NoDup_app. split_and!.
    + apply NoDup_fmap; [intros t t'; apply bucket_series_inj|].
      eapply sublist_NoDup; [apply bucket_texts|]. apply sublist_app; [|done]. apply sublist_take.
    + intros s (t & -> & _)%list_elem_of_fmap Hs. rewrite !elem_of_cons, elem_of_nil in Hs.
      by destruct Hs as [[= Hs%suffix_inj]|[[= Hs%suffix_inj]|[]]].
    + apply NoDup_cons. split; [|apply NoDup_singleton]. intros [= Hs%suffix_inj]%list_elem_of_singleton. done.
Qed.

Lemma tagged_histogram name m h : m !! "le" = None -> tagged m (writeHistogram name m h).
Proof.
  intros Hle s. rewrite series_histogram, elem_of_app, list_elem_of_fmap. intros [(t & -> & _)|Hs].
  - exists (<["le" := t]> m). split; [done|]. by rewrite delete_insert_id.
  - exists m. split; [|by apply delete_id]. rewrite !elem_of_cons, elem_of_nil in Hs. by destruct Hs as [->|[->|[]]].
Qed.

(** * The exporter *)

#[local] Ltac labels :=
  lazymatch goal with
  | |- labels_ok (<[_ := _]> _) => apply labels_ok_insert; [reflexivity|labels]
  | |- labels_ok {[_ := _]} => apply map_Forall_singleton; reflexivity
  | |- labels_ok ∅ => apply map_Forall_empty
  | |- _ !! _ = None => by simplify_map_eq
  | |- labels_ok _ /\ _ => split; labels
  end.

Lemma block_gauge name help v : name_ok (api name) = true -> block [api name] (gauge name help v).
Proof.
  intros Hn. apply (block_app [] [api name]); [by apply block_help| |done]. apply block_metric; [done|apply map_Forall_empty].
Qed.

(** Maps that are equal have equal labels. *)
Lemma label_at (k : string) {m m' : gmap string string} {v v' : string} : m = m' -> m !! k = Some v -> m' !! k = Some v' -> v = v'.
Proof. congruence. Qed.

#[local] Ltac blocks :=
  lazymatch goal with
  | |- block _ (_ ++ _) => eapply block_app; [blocks|blocks|vm_compute; reflexivity]
  | |- block _ (writeHelpType _ _ _) => apply block_help; vm_compute; reflexivity
  | |- block _ (gauge _ _ _) => apply block_gauge; vm_compute; reflexivity
  | |- block _ (writeMetric _ _ _) => apply block_metric; [vm_compute; reflexivity|labels]
  | |- block _ (writeHistogram _ _ _) => apply block_histogram; [vm_compute; reflexivity|labels|labels]
  | |- block _ [] => apply block_nil
  | |- _ => eassumption
  end.

Lemma block_timestamp name m v : name_ok name = true -> labels_ok m -> block [name] (writeOptionalTimestamp name m v).
Proof.
  intros Hn Hm. destruct v as [t|]; [by apply block_metric|]. destruct block_nil as [? _ ?]. split; [done| |done].
  intros s Hs. by apply elem_of_nil in Hs.
Qed.

#[local] Ltac timestamps :=
  lazymatch goal with
  | |- block _ (_ ++ _) => eapply block_app; [timestamps|timestamps|vm_compute; reflexivity]
  | |- block _ (writeOptionalTimestamp _ _ _) => apply block_timestamp; [vm_compute; reflexivity|labels]
  | |- _ => blocks
  end.

(** The names of the parts. *)
Definition histogram_names (name : string) : list string := [name +:+ "_bucket"; name +:+ "_sum"; name +:+ "_count"].

Definition process_names : list string := map api
  ["build_info"; "process_start_time_seconds"; "process_uptime_seconds"; "go_goroutines"; "go_memory_alloc_bytes";
   "go_memory_heap_inuse_bytes"; "go_gc_cycles_total"].

#[local] Ltac whole_block := eapply block_weaken; [timestamps|vm_compute; reflexivity].

Lemma block_process x e : block process_names (writeProcess x e).
Proof. unfold writeProcess. whole_block. Qed.

Definition http_names : list string :=
  map api ["http_requests_in_flight"; "http_requests_total"; "http_errors_total"]
  ++ histogram_names (api "http_request_duration_seconds").

Lemma block_http m : block http_names (writeHTTP m).
Proof.
  unfold writeHTTP.
  assert (block [api "http_requests_total"] (concat (map (fun k => writeMetric (api "http_requests_total")
            {["method" := k.1.1; "route" := k.1.2; "status" := k.2]} (of_Z (default 0 (hm_requests m !! k))))
               (sorted_keys (by_route str_ltb) (hm_requests m))))) as Hr.
  { apply block_metrics; [apply NoDup_sorted_keys|reflexivity|intros; labels|].
    intros [[a b] c] [[a' b'] c'] _ _ Hl. cbn [fst snd] in Hl. f_equal; [f_equal|]; [apply (label_at "method" Hl)|apply (label_at "route" Hl)|apply (label_at "status" Hl)]; reflexivity. }
  assert (block [api "http_errors_total"] (concat (map (fun k => writeMetric (api "http_errors_total")
            {["class" := k.2; "method" := k.1.1; "route" := k.1.2]} (of_Z (default 0 (hm_errors m !! k))))
               (sorted_keys (by_route str_ltb) (hm_errors m))))) as He.
  { apply block_metrics; [apply NoDup_sorted_keys|reflexivity|intros; labels|].
    intros [[a b] c] [[a' b'] c'] _ _ Hl. cbn [fst snd] in Hl. f_equal; [f_equal|]; [apply (label_at "method" Hl)|apply (label_at "route" Hl)|apply (label_at "class" Hl)]; reflexivity. }
  match goal with |- context [concat (map ?f (sorted_keys ?l (hm_durations m)))] =>
    assert (block [api "http_request_duration_seconds" +:+ "_bucket"; api "http_request_duration_seconds" +:+ "_sum";
                   api "http_request_duration_seconds" +:+ "_count"] (concat (map f (sorted_keys l (hm_durations m))))) as Hd end.
  { apply (block_keys _ _ _ (fun k => {["method" := k.1; "route" := k.2]})); [apply NoDup_sorted_keys|..].
    - intros k _. apply block_histogram; [reflexivity|labels|labels].
    - intros k _. apply tagged_histogram. labels.
    - intros [a b] [a' b'] _ _ Hl. cbn [fst snd] in Hl. f_equal; [apply (label_at "method" Hl)|apply (label_at "route" Hl)]; reflexivity. }
  whole_block.
Qed.

Definition readiness_names : list string :=
  map api ["readiness_ready"; "readiness_checks_total"; "readiness_failures_total"; "readiness_last_success_timestamp_seconds";
           "readiness_last_failure_timestamp_seconds"]
  ++ histogram_names (api "readiness_check_duration_seconds").

Lemma block_readiness m : block readiness_names (writeReadiness m).
Proof.
  assert (block [api "readiness_checks_total"] (concat (map (fun result => writeMetric (api "readiness_checks_total")
            {["result" := result]} (of_Z (default 0 (rm_checks m !! result)))) ["success"; "error"]))) as Hc.
  { apply block_metrics; [apply bool_decide_eq_true_1 with (Decision0 := NoDup_dec _); reflexivity|reflexivity|intros; labels|].
    intros a b _ _ Hl. apply (label_at "result" Hl); reflexivity. }
  assert (block [api "readiness_failures_total"] (concat (map (fun c => writeMetric (api "readiness_failures_total")
            {["component" := c]} (of_Z (default 0 (rm_failures m !! c)))) (sorted_keys str_ltb (rm_failures m))))) as Hf.
  { apply block_metrics; [apply NoDup_sorted_keys|reflexivity|intros; labels|].
    intros a b _ _ Hl. apply (label_at "component" Hl); reflexivity. }
  unfold writeReadiness. whole_block.
Qed.

Definition pool_names : list string :=
  map api (["database_ready"; "database_pool_acquisition_duration_seconds"; "database_ping_duration_seconds";
            "database_pool_utilization_ratio"; "database_pool_acquire_duration_seconds_average"]
    ++ map (String.append "database_pool_")
         ["max_connections"; "total_connections"; "acquired_connections"; "idle_connections"; "constructing_connections";
          "acquire_total"; "empty_acquire_total"; "canceled_acquire_total"; "new_connections_total";
          "acquire_duration_seconds_total"]).

Lemma block_pool s : block pool_names (writePool s).
Proof. unfold writePool, poolMetrics. cbn [map concat]. whole_block. Qed.

Lemma block_mapped name help durations operations :
  name_ok name = true -> (forall k k' v, operations !! k = Some v -> operations !! k' = Some v -> k = k') ->
  block (histogram_names name) (writeMappedDatabaseHistogram name help durations operations).
Proof.
  intros Hn Hinj. apply (block_app [] (histogram_names name)); [by apply block_help| |done].
  apply (block_keys _ _ _ (fun op => {["stream" := default EmptyString (operations !! op)]})); [apply NoDup_sorted_keys|..].
  - intros op _. destruct (durations !! op); [by apply block_histogram; [|labels|labels]|].
    destruct block_nil as [? _ ?]. split; [done| |done]. intros s Hs. by apply elem_of_nil in Hs.
  - intros op _. destruct (durations !! op); [apply tagged_histogram; labels|]. intros s Hs. by apply elem_of_nil in Hs.
  - intros a b [v Ha]%elem_of_sorted_keys [w Hb]%elem_of_sorted_keys Hl. rewrite Ha, Hb in Hl.
    assert (v = w) as -> by (apply (label_at "stream" Hl); reflexivity). by eapply Hinj.
Qed.

Lemma block_streams name help durations a b :
  name_ok name = true -> a <> b ->
  block (histogram_names name) (writeMappedDatabaseHistogram name help durations {[a := "prices"; b := "history"]}).
Proof.
  intros Hn Hab. apply block_mapped; [done|]. intros k k' v H1 H2.
  rewrite lookup_insert_Some, lookup_singleton_Some in H1, H2. naive_solver.
Qed.

#[local] Ltac streams :=
  lazymatch goal with
  | |- block _ (_ ++ _) => eapply block_app; [streams|streams|vm_compute; reflexivity]
  | |- block _ (writeMappedDatabaseHistogram _ _ _ _) => by apply block_streams
  | |- _ => blocks
  end.

Definition database_names : list string :=
  pool_names ++ map api ["database_operations_total"; "database_errors_total"]
  ++ concat (map (fun n => histogram_names (api n))
       ["database_operation_duration_seconds"; "ingest_copy_duration_seconds"; "ingest_upsert_duration_seconds";
        "database_transaction_duration_seconds"; "database_commit_duration_seconds"]).

Lemma block_database s m : block database_names (writeDatabase s m).
Proof.
  unfold writeDatabase. cbv zeta. set (keys := sorted_keys _ (dm_operations m)).
  assert (NoDup keys) as Hk by apply NoDup_sorted_keys.
  assert (block [api "database_operations_total"] (concat (map (fun k => writeMetric (api "database_operations_total")
            {["operation" := k.1; "result" := k.2]} (of_Z (default 0 (dm_operations m !! k)))) keys))) as Ho.
  { apply block_metrics; [done|reflexivity|intros; labels|]. intros [a b] [a' b'] _ _ Hl. cbn [fst snd] in Hl.
    f_equal; [apply (label_at "operation" Hl)|apply (label_at "result" Hl)]; reflexivity. }
  assert (block [api "database_errors_total"] (concat (map (fun k => writeMetric (api "database_errors_total")
            {["operation" := k.1]} (of_Z (default 0 (dm_operations m !! k)))) (List.filter (fun k => bool_decide (k.2 = "error")) keys)))) as He.
  { apply block_metrics; [|reflexivity|intros; labels|].
    - apply NoDup_ListNoDup, List.NoDup_filter. by apply NoDup_ListNoDup.
    - intros [a b] [a' b'] [_ Hb]%list_elem_of_In%filter_In [_ Hb']%list_elem_of_In%filter_In Hl. cbn [fst snd] in *. bool_facts. subst.
      f_equal. apply (label_at "operation" Hl); reflexivity. }
  assert (block (histogram_names (api "database_operation_duration_seconds"))
            (concat (map (fun op => writeHistogram (api "database_operation_duration_seconds") {["operation" := op]}
                              (default zero_histogram (dm_durations m !! op))) (sorted_keys str_ltb (dm_durations m))))) as Hd.
  { apply (block_keys _ _ _ (fun op => {["operation" := op]})); [apply NoDup_sorted_keys|..].
    - intros k _. apply block_histogram; [reflexivity|labels|labels].
    - intros k _. apply tagged_histogram. labels.
    - intros a b _ _ Hl. apply (label_at "operation" Hl); reflexivity. }
  pose proof (block_pool s) as Hp.
  eapply block_weaken; [streams|vm_compute; reflexivity].
Qed.

(** ** The ingestion *)

(** The series of a stream carry it as a label. *)
Definition streamed (stream : string) (lines : list line) : Prop :=
  forall s, s ∈ series lines -> exists m, s.2 = sorted_labels m /\ m !! "stream" = Some stream.

Lemma streamed_app stream a b : streamed stream a -> streamed stream b -> streamed stream (a ++ b).
Proof. intros Ha Hb s. rewrite series_app, elem_of_app. intros [Hs|Hs]; [by apply Ha|by apply Hb]. Qed.

Lemma streamed_metric stream name m v : m !! "stream" = Some stream -> streamed stream (writeMetric name m v).
Proof. intros Hm s ->%list_elem_of_singleton. by exists m. Qed.

Lemma streamed_timestamp stream name m v : m !! "stream" = Some stream -> streamed stream (writeOptionalTimestamp name m v).
Proof. intros Hm. destruct v; [by apply streamed_metric|]. intros s Hs. by apply elem_of_nil in Hs. Qed.

Lemma streamed_disjoint s1 s2 a b s : streamed s1 a -> streamed s2 b -> s1 <> s2 -> s ∈ series a -> s ∉ series b.
Proof.
  intros Ha Hb Hne (m1 & H1 & Hm1)%Ha (m2 & H2 & Hm2)%Hb. rewrite H1 in H2. apply sorted_labels_inj in H2 as ->. congruence.
Qed.

#[local] Ltac stream_lines :=
  lazymatch goal with
  | |- streamed _ (_ ++ _) => apply streamed_app; stream_lines
  | |- streamed _ (writeMetric _ _ _) => apply streamed_metric; reflexivity
  | |- streamed _ (writeOptionalTimestamp _ _ _) => apply streamed_timestamp; reflexivity
  | |- streamed _ [] => intros ? Hs; by apply elem_of_nil in Hs
  end.

Definition common_names : list string := map api
  ["ingest_requests_total"; "ingest_batches_total"; "ingest_errors_total"; "ingest_requests_in_flight"; "ingest_entries_received_total";
   "ingest_accepted_entries_total"; "ingest_entries_stored_total"; "ingest_entries_rejected_total"; "ingest_entries_duplicate_total";
   "ingest_rows_touched_total"; "ingest_request_duration_seconds_sum"; "ingest_request_duration_seconds_count";
   "ingest_observed_requests_total"; "ingest_last_request_timestamp_seconds"; "ingest_last_success_timestamp_seconds";
   "ingest_last_error_timestamp_seconds"].

Definition bucket_names : list string := map api
  ["ingest_buckets_received_total"; "ingest_accepted_buckets_total"; "ingest_buckets_stored_total"; "ingest_buckets_rejected_total";
   "ingest_buckets_duplicate_total"].

Lemma block_outcomes stream (outcomes : list (string * Z)) :
  NoDup (map fst outcomes) ->
  block [api "ingest_requests_total"; api "ingest_batches_total"]
    (concat (map (fun r => writeMetric (api "ingest_requests_total") {["result" := r.1; "stream" := stream]} (of_Z r.2)
                           ++ writeMetric (api "ingest_batches_total") {["result" := r.1; "stream" := stream]} (of_Z r.2)) outcomes)).
Proof.
  intros Hnd. apply (block_keys _ _ _ (fun r => {["result" := r.1; "stream" := stream]})).
  - by eapply NoDup_fmap_1.
  - intros r _. apply (block_app [_] [_]); [apply block_metric; [reflexivity|labels]..|reflexivity].
  - intros r _. apply tagged_app; apply tagged_metric; labels.
  - intros [a x] [b y] Ha Hb Hl. assert (a = b) as -> by (apply (label_at "result" Hl); reflexivity). f_equal.
    apply list_elem_of_lookup in Ha as [i Hi], Hb as [j Hj].
    assert (i = j) as -> by (apply (NoDup_lookup (map fst outcomes) i j b); [done|by rewrite list_lookup_fmap, Hi|by rewrite list_lookup_fmap, Hj]).
    rewrite Hi in Hj. by injection Hj.
Qed.

Lemma block_common stream s : block common_names (writeIngestCommon stream s) /\ streamed stream (writeIngestCommon stream s).
Proof.
  unfold writeIngestCommon. cbv zeta. split.
  - pose proof (block_outcomes stream [("success", newSuccesses s); ("duplicate", ix_duplicatesTotal s); ("error", ix_errorsTotal s)]) as Ho.
    specialize (Ho ltac:(simpl; repeat (apply NoDup_cons; split; [set_solver|]); constructor)). whole_block.
  - cbn [map concat]. stream_lines.
Qed.

Lemma block_history stream m : block (common_names ++ bucket_names) (writeHistoryIngest stream m) /\ streamed stream (writeHistoryIngest stream m).
Proof.
  destruct (block_common stream (history_export m)) as [Hb Hs]. unfold writeHistoryIngest. cbv zeta. split.
  - apply block_app; [exact Hb| |vm_compute; reflexivity]. whole_block.
  - apply streamed_app; [exact Hs|]. stream_lines.
Qed.

Lemma block_descriptions : block [] writeIngestMetricDescriptions.
Proof.
  split; [vm_compute; reflexivity|intros s; assert (series writeIngestMetricDescriptions = []) as -> by (vm_compute; reflexivity);
    by intros Hs%elem_of_nil|].
  assert (series writeIngestMetricDescriptions = []) as -> by (vm_compute; reflexivity). constructor.
Qed.

(** ** The whole *)

Section scrape.
Context `{Unicode}.

Lemma block_export x e m : exists names, block names (export x e m).1.
Proof.
  unfold export. destruct (Check _ _) as [s monitoring]. cbn [fst]. rewrite app_assoc, app_assoc, app_assoc, app_assoc, app_assoc.
  eexists. apply (block_disjoint (process_names ++ http_names ++ readiness_names ++ database_names ++ common_names) (common_names ++ bucket_names)).
  - rewrite <- !app_assoc. apply block_app; [apply block_process| |vm_compute; reflexivity].
    apply block_app; [apply block_http| |vm_compute; reflexivity]. apply block_app; [apply block_readiness| |vm_compute; reflexivity].
    apply block_app; [apply block_database| |vm_compute; reflexivity].
    apply (block_app [] common_names); [apply block_descriptions|apply block_common|reflexivity].
  - apply block_history.
  - intros s0 Hs Hh. rewrite !series_app in Hs. apply elem_of_app in Hs as [Hs|Hs].
    + assert (s0.1 ∈ process_names ++ http_names ++ readiness_names ++ database_names) as Hn.
      { rewrite !elem_of_app in Hs. rewrite !elem_of_app. destruct Hs as [[[[Hs|Hs]|Hs]|Hs]|Hs].
        - left. by apply (bl_names _ _ (block_process x e)).
        - right; left. by apply (bl_names _ _ (block_http (am_http m))).
        - right; right; left. by apply (bl_names _ _ (block_readiness (mo_readiness monitoring))).
        - right; right; right. exact (bl_names _ _ (block_database _ _) _ Hs).
        - by apply (bl_names _ _ block_descriptions), elem_of_nil in Hs. }
      apply (bl_names _ _ (proj1 (block_history "history" (am_history m)))) in Hh.
      assert (forallb (fun n => negb (bool_decide (n ∈ common_names ++ bucket_names)))
                (process_names ++ http_names ++ readiness_names ++ database_names) = true) as Hall by (vm_compute; reflexivity).
      rewrite forallb_forall in Hall. apply list_elem_of_In, Hall, negb_true_iff, bool_decide_eq_false_1 in Hn. exact (Hn Hh).
    + assert ("prices" <> "history") as Hne by discriminate.
      exact (streamed_disjoint _ _ _ _ _ (proj2 (block_common "prices" _)) (proj2 (block_history "history" _)) Hne Hs Hh).
Qed.

(** The series of what was read. *)
Definition parsed_series (p : parsed) : option (string * list (string * string)) :=
  match p with PSample name labels _ => Some (name, labels) | _ => None end.

Lemma parsed_series_view l : parsed_series (view l) = series_of l.
Proof. by destruct l. Qed.

Lemma omap_view lines : omap parsed_series (map view lines) = series lines.
Proof.
  induction lines as [|l lines IH]; [done|]. cbn [map series omap list_omap]. rewrite parsed_series_view.
  unfold series in IH. cbn [omap] in IH. by rewrite IH.
Qed.

(** A series that occurs once has one value. *)
Lemma series_value l x y s : NoDup (series l) -> x ∈ l -> y ∈ l -> series_of x = Some s -> series_of y = Some s -> x = y.
Proof.
  assert (forall l z, z ∈ l -> series_of z = Some s -> s ∈ series l) as Hin by (intros; by apply list_elem_of_omap; eexists).
  induction l as [|a l IH]; [by intros _ Hx%elem_of_nil|]. intros Hnd Hx Hy Hsx Hsy.
  assert (series (a :: l) = match series_of a with Some s => s :: series l | None => series l end) as Hser by done. rewrite Hser in Hnd.
  apply elem_of_cons in Hx as [->|Hx], Hy as [->|Hy]; [done|..].
  - rewrite Hsx in Hnd. apply NoDup_cons in Hnd as [Hn _]. by destruct Hn; eapply Hin.
  - rewrite Hsy in Hnd. apply NoDup_cons in Hnd as [Hn _]. by destruct Hn; eapply Hin.
  - apply IH; try done. destruct (series_of a); [by apply NoDup_cons in Hnd as [_ ?]|done].
Qed.

Lemma http_labels method route status :
  sorted_labels {["method" := method; "route" := route; "status" := status]} = [("method", method); ("route", route); ("status", status)].
Proof.
  unfold sorted_labels.
  assert (slice_stable (fun a b => str_ltb a.1 b.1) [("method", method); ("route", route); ("status", status)]
          = [("method", method); ("route", route); ("status", status)]) as <- by (vm_compute; reflexivity).
  apply slice_stable_unique; [apply (less_on_strict_weak str_ltb fst)|..].
  - rewrite map_to_list_insert by done. apply Permutation_skip. rewrite map_to_list_insert by done. apply Permutation_skip.
    by rewrite map_to_list_singleton.
  - intros [k v] [k' v'] Hk%elem_of_map_to_list Hk'%elem_of_map_to_list H1 H2. cbn [fst] in *.
    assert (k = k') as <- by by apply str_ltb_eq. rewrite Hk in Hk'. by injection Hk' as ->.
Qed.

(** C40. What is scraped is what happened: a GET of the metrics is answered with 200
    and a text that a parser of the format reads back as exactly the lines that were
    written, whatever the labels contain - quotes, backslashes and line breaks
    included; no series occurs twice; and the counter of the requests of a method,
    route and status has the number of those requests as its one value. *)
Theorem scrape_exact x e r m events :
  hr_Method r = "GET" -> am_http m = http_run events -> well_ordered events -> Z.of_nat (length events) < 2 ^ 63 ->
  exists text lines,
    rs_Status (Metrics x e r m).1 = StatusOK /\ rs_Body (Metrics x e r m).1 = MetricsText text /\
    parse_text text = Some lines /\ lines = map view (export x e m).1 /\
    NoDup (omap parsed_series lines) /\
    forall method route status,
      let n := number (has request_label (method, route, status)) events in
      0 < n -> forall v,
        PSample (api "http_requests_total") [("method", method); ("route", route); ("status", status)] v ∈ lines <-> v = FormatFloat (of_Z n).
Proof.
  intros Hget Hm Hord Hlen. destruct (block_export x e m) as (names & [Hok _ Hnd]).
  pose proof (http_metrics_exact events Hord Hlen) as [_ Hreq _ _]. rewrite <- Hm in Hreq.
  unfold Metrics. rewrite bool_decide_eq_true_2 by done. cbn [negb].
  assert (forall method route status, 0 < number (has request_label (method, route, status)) events ->
    Sample (api "http_requests_total") [("method", method); ("route", route); ("status", status)]
      (of_Z (number (has request_label (method, route, status)) events)) ∈ (export x e m).1) as Hin.
  { intros method route status Hn. rewrite <- Hreq, <- http_labels in *. unfold export. destruct (Check _ _) as [s monitoring]. cbn [fst].
    apply elem_of_app; right. apply elem_of_app; left. unfold writeHTTP.
    apply elem_of_app; right. apply elem_of_app; right. apply elem_of_app; left.
    rewrite list_elem_of_In, in_concat. eexists. split; [|by apply in_eq].
    apply in_map_iff. exists (method, route, status). split; [reflexivity|]. apply list_elem_of_In, elem_of_sorted_keys.
    destruct (hm_requests (am_http m) !! _); [by eexists|simpl in Hn; lia]. }
  destruct (export x e m) as [lines m'] eqn:E. cbn [fst rs_Status rs_Body] in *. eexists _, _. split_and!; [reflexivity..|by apply parse_text_render|done| |].
  - by rewrite omap_view.
  - intros method route status. cbv zeta. intros Hn v. specialize (Hin method route status Hn).
    set (n := number (has request_label (method, route, status)) events) in *. split.
    + intros (l & Hl & Hlin)%list_elem_of_fmap. destruct l as [| |name labels value]; [done..|]. injection Hl as <- <- ->.
      assert (Sample (api "http_requests_total") [("method", method); ("route", route); ("status", status)] value
        = Sample (api "http_requests_total") [("method", method); ("route", route); ("status", status)] (of_Z n)) as [= ->]; [|done].
      by eapply series_value.
    + intros ->. apply list_elem_of_fmap. eexists. split; [|exact Hin]. done.
Qed.
End scrape.

(** * Examples *)

Section examples.
#[local] Existing Instance plain_unicode.

Definition sample_exporter : PrometheusExporter := NewPrometheusExporter "api" EmptyString "1.0" (quoted "a\'") 0 0.

Definition sample_scrape : scrape_env :=
  {| xe_now := minute; xe_runtime := {| rt_Goroutines := 7; rt_Alloc := 1048576; rt_HeapInuse := 2097152; rt_NumGC := 3 |};
     xe_readiness := sample_probe true true (schema_after migration_order no_schema);
     xe_pool := {| pp_acquired := true; pp_acquire_time := 5; pp_answered := true; pp_ping_time := 7 |};
     xe_stats := {| MaxConnections := 4; TotalConnections := 1; AcquiredConnections := 1; IdleConnections := 0;
                    ConstructingConnections := 0; AcquireCount := 9; EmptyAcquireCount := 0; CanceledAcquireCount := 0;
                    NewConnectionsCount := 1; AcquireDuration := 1500000 |} |}.

Definition sample_metrics (events : list http_event) : AllMetrics :=
  {| am_http := http_run events; am_monitoring := fresh_monitoring; am_ingest := Ingest.NewIngestMetrics;
     am_history := History.NewHistoryIngestMetrics |}.

(** Text of a few lines; a quote and a backslash are escaped. *)
Example rendered :
  render_line (Sample "m" [("a", quoted "x'\y"); ("b", "z" +:+ newline)] (f_lit "0.25"))
  = "m{a=" +:+ quoted "'x\'" +:+ quoted "\\y'" +:+ ",b=" +:+ quoted "'z\n'" +:+ "} 0.25" +:+ newline.
Proof. vm_compute. reflexivity. Qed.

(** The samples of the two outcome metrics alternate, although the format asks for the
    lines of a metric in one group. *)
Example outcomes_alternate :
  map fst (take 4 (series (writeIngestCommon "prices" (ingest_export Ingest.NewIngestMetrics))))
  = [api "ingest_requests_total"; api "ingest_batches_total"; api "ingest_requests_total"; api "ingest_batches_total"].
Proof. vm_compute. reflexivity. Qed.

Lemma scrape_exact_witness :
  exists text lines,
    rs_Body (Metrics sample_exporter sample_scrape sample_get (sample_metrics sample_events)).1 = MetricsText text /\
    parse_text text = Some lines /\
    PSample (api "http_requests_total") [("method", "OTHER"); ("route", "unmatched"); ("status", "503")] "1" ∈ lines.
Proof.
  destruct (scrape_exact sample_exporter sample_scrape sample_get (sample_metrics sample_events) sample_events
              eq_refl eq_refl sample_events_ordered ltac:(vm_compute; reflexivity))
    as (text & lines & _ & Hb & Hp & _ & _ & Hv).
  exists text, lines. split; [exact Hb|]. split; [exact Hp|].
  apply (Hv "OTHER" "unmatched" "503"); vm_compute; reflexivity.
Defined.
End examples.
