(* ===== verification/AccountCommand.v ===== *)
(** The command [account-admin]: [cmd/account-admin/main.go], with what it uses of the
    package [flag]. *)
From S2P Require Import Prelude GoLists GoBase Dates Strconv Http Accounts AccountAdmin Config.
Local Open Scope Z_scope.

(** * The package [flag] *)

(** A flag: its kind and its value. *)
Inductive flag_value := FString (s : string) | FBool (b : bool) | FInt (n : Z).

(** A [FlagSet]: its flags by name. *)
Abbreviation FlagSet := (gmap string flag_value) (only parsing).

Inductive flag_error :=
  | FlagHelp
  | FlagSyntax (arg : string)
  | FlagUndefined (name : string)
  | FlagNoValue (name : string)
  | FlagInvalid (name value : string).

Definition IsBoolFlag (v : flag_value) : bool := match v with FBool _ => true | _ => false end.

(** [Value.Set] *)
Definition flag_Set (v : flag_value) (text : string) : option flag_value :=
  match v with
  | FString _ => Some (FString text)
  | FBool _ => FBool <$> ParseBool text
  | FInt _ => FInt <$> ParseInt0 min_int64 max_int64 text
  end.

(** What an argument is: the end of the flags, the first that is none, or a flag
    without its dashes. *)
Inductive flag_arg := ArgNone | ArgEnd | ArgFlag (text : string).

Definition flag_arg_of (s : string) : flag_arg :=
  match s with
  | String a (String b s') =>
      if negb (bool_decide (a = "-"%char)) then ArgNone
      else if bool_decide (b = "-"%char) then if is_empty s' then ArgEnd else ArgFlag s'
      else ArgFlag (String b s')
  | _ => ArgNone
  end.

(** The name of a flag and the value written after an equals sign. *)
Fixpoint cut_equals (s : string) : string * option string :=
  match s with
  | EmptyString => (EmptyString, None)
  | String c s' =>
      if bool_decide (c = "="%char) then (EmptyString, Some s')
      else let '(name, value) := cut_equals s' in (String c name, value)
  end.

Definition bad_syntax (text : string) : bool :=
  match text with
  | EmptyString => true
  | String c _ => bool_decide (c = "-"%char) || bool_decide (c = "="%char)
  end.

(** [FlagSet.Parse]: the arguments that are left, and the flags.  A flag that is not a
    boolean takes the next argument, whatever it is, when there is no equals sign. *)
Fixpoint Parse (args : list string) (f : FlagSet) : result flag_error (list string * FlagSet) :=
  match args with
  | [] => Ok ([], f)
  | s :: rest =>
      match flag_arg_of s with
      | ArgNone => Ok (args, f)
      | ArgEnd => Ok (rest, f)
      | ArgFlag text =>
          fail_if bad_syntax text with FlagSyntax s else
          let '(name, value) := cut_equals text in
          match f !! name with
          | None => Err (if bool_decide (name ∈ ["help"; "h"]) then FlagHelp else FlagUndefined name)
          | Some v =>
              let set text := of_option (FlagInvalid name text) (flag_Set v text) in
              if IsBoolFlag v then
                let! v' := set (default "true" value) in Parse rest (<[name := v']> f)
              else
                match value, rest with
                | Some text, _ => let! v' := set text in Parse rest (<[name := v']> f)
                | None, text :: rest' => let! v' := set text in Parse rest' (<[name := v']> f)
                | None, [] => Err (FlagNoValue name)
                end
          end
      end
  end.

Definition flag_string (f : FlagSet) (name : string) : string :=
  match f !! name with Some (FString s) => s | _ => EmptyString end.

Definition flag_bool (f : FlagSet) (name : string) : bool :=
  match f !! name with Some (FBool b) => b | _ => false end.

Definition flag_int (f : FlagSet) (name : string) : Z :=
  match f !! name with Some (FInt n) => n | _ => 0 end.

(** * The command *)

Definition defaultMaxGrantDuration : duration := 365 * 24 * hour.

Inductive command_error :=
  | CommandRequired
  | CommandDatabaseURLExclusive
  | CommandDatabaseURLRequired
  | CommandDatabaseURLUnreadable
  | CommandDatabaseURLEmpty
  | CommandMaxDuration (e : admin_error)
  | CommandPool
  | CommandConnect
  | CommandUnknown (name : string)
  | CommandFlags (e : flag_error)
  | CommandPositional
  | CommandFailed (e : admin_error)
  | CommandOutput.

(** What is written: the usage, or the result of the command. *)
Inductive command_result :=
  | ROperation (r : OperationResult)
  | RStatus (r : StatusResult)
  | RList (l : list StatusResult)
  | RLifecycle (r : LifecycleVerification).

Inductive command_output := UsageText | ResultJSON (r : command_result).

Record commandConfig := { cc_Environment : string; cc_DatabaseURL : string; cc_MaxDuration : duration }.

Section command.
Context `{Unicode, AdminEncoding}.

Definition databaseURLFromEnvironment (fs : files) (env : environ) : result command_error string :=
  let value := TrimSpace (Getenv env "DATABASE_URL") in
  let filePath := TrimSpace (Getenv env "DATABASE_URL_FILE") in
  fail_if negb (is_empty value) && negb (is_empty filePath) with CommandDatabaseURLExclusive else
  if negb (is_empty value) then Ok value
  else
    fail_if is_empty filePath with CommandDatabaseURLRequired else
    let! content := of_option CommandDatabaseURLUnreadable (fs_ReadFile fs filePath) in
    let value := TrimSpace content in
    fail_if is_empty value with CommandDatabaseURLEmpty else
    Ok value.

Definition loadCommandConfig (fs : files) (env : environ) : result command_error commandConfig :=
  let! databaseURL := databaseURLFromEnvironment fs env in
  let environment := ToLower (TrimSpace (Getenv env "APP_ENV")) in
  let environment := if is_empty environment then "development" else environment in
  let value := TrimSpace (Getenv env "ACCOUNT_ADMIN_MAX_GRANT_DURATION") in
  let! maxDuration :=
    (if is_empty value then Ok defaultMaxGrantDuration else rmap_err CommandMaxDuration (ParseDuration value)) in
  Ok {| cc_Environment := environment; cc_DatabaseURL := databaseURL; cc_MaxDuration := maxDuration |}.

(** The flags of a command after its arguments, if there are no others. *)
Definition parse_flags (flags : FlagSet) (args : list string) : result command_error FlagSet :=
  let! (rest, flags) := rmap_err CommandFlags (Parse args flags) in
  fail_if negb (bool_decide (rest = [])) with CommandPositional else
  Ok flags.

Definition addSelectorFlags (flags : FlagSet) : FlagSet :=
  <["user-id" := FString EmptyString]> (<["email" := FString EmptyString]> (<["subject" := FString EmptyString]> flags)).

Definition selector_value (flags : FlagSet) : Selector :=
  {| sl_UserID := flag_string flags "user-id"; sl_Email := flag_string flags "email";
     sl_AuthSubject := flag_string flags "subject" |}.

Definition grant_flags : FlagSet :=
  <["duration" := FString "30d"]> (<["actor" := FString EmptyString]> (<["reason" := FString EmptyString]>
    (<["dry-run" := FBool false]> (<["confirm-production" := FString EmptyString]> (addSelectorFlags ∅))))).

Definition runGrant (s : AdminService) (c : admin_call) (args : list string) (d : AdminDB)
    : result command_error command_result * AdminDB :=
  match (let! flags := parse_flags grant_flags args in
         let! duration := rmap_err CommandFailed (ParseDuration (flag_string flags "duration")) in
         Ok {| gr_Selector := selector_value flags; gr_Duration := duration; gr_Actor := flag_string flags "actor";
               gr_Reason := flag_string flags "reason"; gr_DryRun := flag_bool flags "dry-run";
               gr_Confirmation := flag_string flags "confirm-production" |}) with
  | Err e => (Err e, d)
  | Ok request =>
      let '(r, d') := GrantPro s c request d in
      (let! r := rmap_err CommandFailed r in Ok (ROperation r), d')
  end.

Definition revoke_flags : FlagSet :=
  <["actor" := FString EmptyString]> (<["reason" := FString EmptyString]>
    (<["dry-run" := FBool false]> (<["confirm-production" := FString EmptyString]> (addSelectorFlags ∅)))).

Definition runRevoke (s : AdminService) (c : admin_call) (args : list string) (d : AdminDB)
    : result command_error command_result * AdminDB :=
  match parse_flags revoke_flags args with
  | Err e => (Err e, d)
  | Ok flags =>
      let '(r, d') := RevokePro s c
        {| rr_Selector := selector_value flags; rr_Actor := flag_string flags "actor";
           rr_Reason := flag_string flags "reason"; rr_DryRun := flag_bool flags "dry-run";
           rr_Confirmation := flag_string flags "confirm-production" |} d in
      (let! r := rmap_err CommandFailed r in Ok (ROperation r), d')
  end.

Definition runStatus (c : admin_call) (args : list string) (d : AdminDB) : result command_error command_result :=
  let! flags := parse_flags (addSelectorFlags ∅) args in
  let! r := rmap_err CommandFailed (AdminStatus c (selector_value flags) d) in
  Ok (RStatus r).

Definition runList (c : admin_call) (args : list string) (d : AdminDB) : result command_error command_result :=
  let! flags := parse_flags {["limit" := FInt 100]} args in
  let! l := rmap_err CommandFailed (ListActiveManualGrants c (flag_int flags "limit") d) in
  Ok (RList l).

Definition verify_flags : FlagSet :=
  <["actor" := FString EmptyString]> (<["reason" := FString EmptyString]> {["confirm-production" := FString EmptyString]}).

Definition runVerifyLifecycle (s : AdminService) (c : admin_call) (args : list string) (d : AdminDB)
    : result command_error command_result :=
  let! flags := parse_flags verify_flags args in
  let! r := rmap_err CommandFailed
    (VerifyLifecycle s c (flag_string flags "actor") (flag_string flags "reason")
       (flag_string flags "confirm-production") d) in
  Ok (RLifecycle r).

(** The outside of a run: the environment, the files, whether the pool accepts the
    address, whether the database answers, the call, and whether the result can be
    written. *)
Record command_env := {
  ce_env : environ;
  ce_files : files;
  ce_pool : string -> bool;
  ce_ping : bool;
  ce_call : admin_call;
  ce_output : bool;
}.

(** The [switch] of [run]. *)
Definition dispatch (s : AdminService) (c : admin_call) (name : string) (args : list string) (d : AdminDB)
    : result command_error command_result * AdminDB :=
  if bool_decide (name = "grant-pro") then runGrant s c args d
  else if bool_decide (name = "revoke-pro") then runRevoke s c args d
  else if bool_decide (name = "status") then (runStatus c args d, d)
  else if bool_decide (name = "list-active-manual-grants") then (runList c args d, d)
  else if bool_decide (name = "verify-lifecycle") then (runVerifyLifecycle s c args d, d)
  else (Err (CommandUnknown name), d).

(** What [run] does before it dispatches: the service of the command. *)
Definition command_service (e : command_env) : result command_error AdminService :=
  let! cfg := loadCommandConfig (ce_files e) (ce_env e) in
  fail_if negb (ce_pool e (cc_DatabaseURL cfg)) with CommandPool else
  fail_if negb (ce_ping e) with CommandConnect else
  rmap_err CommandFailed (NewAdminService (cc_Environment cfg) (cc_MaxDuration cfg)).

Definition run (e : command_env) (args : list string) (d : AdminDB) : result command_error command_output * AdminDB :=
  match args with
  | [] => (Err CommandRequired, d)
  | name :: args =>
      if bool_decide (name ∈ ["help"; "-h"; "--help"]) then (Ok UsageText, d) else
      match command_service e with
      | Err e => (Err e, d)
      | Ok s =>
          let '(r, d') := dispatch s (ce_call e) name args d in
          (let! r := r in fail_if negb (ce_output e) with CommandOutput else Ok (ResultJSON r), d')
      end
  end.
End command.
