(* ===== verification/AccountCommandSpec.v ===== *)
(** What a run of the command [account-admin] can change, and by which arguments. *)
From S2P Require Import Prelude GoLists GoBase Dates Strconv Http Webhook BillingDB Billing BillingSamples BillingSpec Accounts AccountsSpec AccountAdmin AccountAdminSpec Config AccountCommand.
Local Open Scope Z_scope.

(** * The grammar of the arguments

    A flag as it can be written: with one dash or two, its value after an equals sign
    or in the next argument, or without a value. *)
Inductive flag_word :=
  | WEquals (two : bool) (name value : string)
  | WNext (two : bool) (name value : string)
  | WBare (two : bool) (name : string).

Definition dashes (two : bool) : string := if two then "--" else "-".

Definition word_args (w : flag_word) : list string :=
  match w with
  | WEquals two name value => [dashes two +:+ (name +:+ String "=" value)]
  | WNext two name value => [dashes two +:+ name; value]
  | WBare two name => [dashes two +:+ name]
  end.

Definition words (ws : list flag_word) : list string := concat (map word_args ws).

Definition word_name (w : flag_word) : string :=
  match w with WEquals _ name _ | WNext _ name _ | WBare _ name => name end.

Definition word_text (w : flag_word) : string :=
  match w with WEquals _ _ value | WNext _ _ value => value | WBare _ _ => "true" end.

(** A boolean takes no value from the next argument, every other flag needs one. *)
Definition word_fits (w : flag_word) (v : flag_value) : bool :=
  match w with WEquals _ _ _ => true | WNext _ _ _ => negb (IsBoolFlag v) | WBare _ _ => IsBoolFlag v end.

Definition apply_word (w : flag_word) (f : FlagSet) : option FlagSet :=
  v ← f !! word_name w;
  if word_fits w v then v' ← flag_Set v (word_text w); Some (<[word_name w := v']> f) else None.

Fixpoint apply_words (ws : list flag_word) (f : FlagSet) : option FlagSet :=
  match ws with
  | [] => Some f
  | w :: ws' => f ← apply_word w f; apply_words ws' f
  end.

(** A name that can be written: not empty, no dash or equals sign at its beginning, no
    equals sign inside. *)
Fixpoint no_equals (s : string) : bool :=
  match s with EmptyString => true | String c s' => negb (bool_decide (c = "="%char)) && no_equals s' end.

Definition plain_name (name : string) : bool := negb (bad_syntax name) && no_equals name.

Definition plain_names (f : FlagSet) : Prop := forall name, is_Some (f !! name) -> plain_name name = true.

Lemma cut_equals_name name value : no_equals name = true -> cut_equals (name +:+ String "=" value) = (name, Some value).
Proof.
  induction name as [|c name IH]; simpl; intros Hn; [done|]. apply andb_prop in Hn as [Hc%negb_true_iff Hn].
  rewrite Hc, IH by done. done.
Qed.

Lemma cut_equals_bare name : no_equals name = true -> cut_equals name = (name, None).
Proof.
  induction name as [|c name IH]; simpl; intros Hn; [done|]. apply andb_prop in Hn as [Hc%negb_true_iff Hn].
  rewrite Hc, IH by done. done.
Qed.

(** What was cut is put together again. *)
Lemma cut_equals_inv text name value :
  cut_equals text = (name, value) ->
  text = match value with Some v => name +:+ String "=" v | None => name end.
Proof.
  revert name. induction text as [|c text IH]; simpl; intros name; [by intros [= <- <-]|].
  case_bool_decide as Hc; [intros [= <- <-]; by subst c|].
  destruct (cut_equals text) as [n v] eqn:E. intros [= <- <-]. specialize (IH _ eq_refl). destruct v; by rewrite IH.
Qed.

Lemma flag_arg_dashes two text : bad_syntax text = false -> flag_arg_of (dashes two +:+ text) = ArgFlag text.
Proof.
  destruct text as [|c text]; simpl; [done|]. intros Hb. apply orb_false_iff in Hb as [Hc _]. destruct two; simpl; [done|].
  by rewrite Hc.
Qed.

Lemma flag_arg_inv s text : flag_arg_of s = ArgFlag text -> exists two, s = dashes two +:+ text.
Proof.
  destruct s as [|a [|b s]]; simpl; try done. case_bool_decide as Ha; simpl; [|done]. subst a.
  case_bool_decide as Hb; [subst b; destruct (is_empty s) eqn:E; [done|]; intros [= <-]; by exists true|].
  intros [= <-]. by exists false.
Qed.

Lemma bad_syntax_app name value : bad_syntax name = false -> bad_syntax (name +:+ value) = false.
Proof. by destruct name. Qed.

Lemma plain_names_insert name v f : plain_names f -> is_Some (f !! name) -> plain_names (<[name := v]> f).
Proof.
  intros Hf Hn n [x Hx]. apply Hf. destruct (decide (n = name)) as [->|Hne]; [done|].
  rewrite lookup_insert_ne in Hx by done. by exists x.
Qed.

Lemma apply_word_plain w f f' : plain_names f -> apply_word w f = Some f' -> plain_name (word_name w) = true /\ plain_names f'.
Proof.
  unfold apply_word. intros Hf. destruct (f !! word_name w) as [v|] eqn:Hv; simpl; [|done].
  destruct (word_fits w v); [|done]. destruct (flag_Set v _) as [v'|]; simpl; [|done]. intros [= <-].
  split; [apply Hf; by exists v|]. apply plain_names_insert; [done|by exists v].
Qed.

(** One flag is read as it was written. *)
Lemma Parse_word w f f' rest : plain_names f -> apply_word w f = Some f' -> Parse (word_args w ++ rest) f = Parse rest f'.
Proof.
  intros Hf Hw. destruct (apply_word_plain _ _ _ Hf Hw) as [Hn _]. unfold plain_name in Hn.
  apply andb_prop in Hn as [Hbad%negb_true_iff Hne]. unfold apply_word in Hw.
  destruct (f !! word_name w) as [v|] eqn:Hv; simpl in Hw; [|done]. destruct (word_fits w v) eqn:Hfit; [|done].
  destruct (flag_Set v _) as [v'|] eqn:Hset; simpl in Hw; [|done]. injection Hw as <-.
  destruct w as [two name value|two name value|two name]; cbn [word_args word_name word_text word_fits app] in *.
  - cbn [Parse]. rewrite flag_arg_dashes by (by apply bad_syntax_app). rewrite bad_syntax_app by done.
    rewrite cut_equals_name by done. rewrite Hv. cbv zeta. cbn [from_option id]. rewrite Hset.
    by destruct (IsBoolFlag v).
  - cbn [Parse]. rewrite flag_arg_dashes, Hbad, cut_equals_bare by done. rewrite Hv.
    apply negb_true_iff in Hfit. rewrite Hfit. cbv zeta. rewrite Hset. done.
  - cbn [Parse]. rewrite flag_arg_dashes, Hbad, cut_equals_bare by done. rewrite Hv, Hfit.
    cbv zeta. cbn [from_option id]. rewrite Hset. done.
Qed.

(** The arguments that are not flags begin where no flag can. *)
Definition stops (rest : list string) : Prop :=
  match rest with [] => True | s :: _ => flag_arg_of s = ArgNone end.

Definition reads (args rest : list string) (ws : list flag_word) : Prop :=
  (args = words ws ++ rest /\ stops rest) \/ args = words ws ++ "--" :: rest.

Lemma reads_cons w ws args rest : reads args rest ws -> reads (word_args w ++ args) rest (w :: ws).
Proof. intros [[-> Hs]| ->]; [left|right]; cbn [words map concat]; [split; [|done]|]; by rewrite <- app_assoc. Qed.

(** The parser accepts exactly what is written so, and reads it as it was written. *)
Lemma Parse_spec args f rest f' :
  plain_names f ->
  Parse args f = Ok (rest, f') <-> exists ws, apply_words ws f = Some f' /\ reads args rest ws.
Proof.
  intros Hf. split.
  - remember (length args) as n eqn:Hn. assert (length args <= n)%nat as Hle by lia. clear Hn.
    revert args f Hf Hle. induction n as [|n IH]; intros args f Hf Hle.
    { destruct args; [|simpl in Hle; lia]. simpl. intros [= <- <-]. exists []. split; [done|]. left. done. }
    destruct args as [|s args]; [simpl; intros [= <- <-]; exists []; split; [done|]; by left|].
    simpl in Hle. cbn [Parse]. destruct (flag_arg_of s) as [| |text] eqn:Hs.
    + intros [= <- <-]. exists []. split; [done|]. by left.
    + intros [= <- <-]. exists []. split; [done|]. right. cbn. f_equal.
      destruct s as [|a [|b s]]; try done. simpl in Hs. repeat case_bool_decide; try done. simpl in Hs. subst.
      by destruct s.
    + destruct (flag_arg_inv _ _ Hs) as [two ->]. destruct (bad_syntax text) eqn:Hb; [done|].
      destruct (cut_equals text) as [name value] eqn:Hcut. apply cut_equals_inv in Hcut.
      destruct (f !! name) as [v|] eqn:Hv; [|done].
      assert (forall w rest' v', word_name w = name -> word_fits w v = true -> flag_Set v (word_text w) = Some v' ->
        (dashes two +:+ text) :: args = word_args w ++ rest' -> (length rest' <= n)%nat ->
        Parse rest' (<[name := v']> f) = Ok (rest, f') ->
        exists ws, apply_words ws f = Some f' /\ reads ((dashes two +:+ text) :: args) rest ws) as Hstep.
      { intros w rest' v' Hname Hfit Hset -> Hlen Hp.
        apply IH in Hp as (ws & Hws & Hr); [|apply plain_names_insert; [done|by exists v]|done].
        exists (w :: ws). split; [|by apply reads_cons]. simpl. unfold apply_word. rewrite Hname, Hv. simpl.
        rewrite Hfit, Hset. exact Hws. }
      destruct (IsBoolFlag v) eqn:Hbool.
      * destruct value as [value|]; (destruct (flag_Set v _) as [v'|] eqn:Hset; simpl; [|done]); intros Hp; subst text.
        -- by apply (Hstep (WEquals two name value) args v'); simpl; try done; lia.
        -- by apply (Hstep (WBare two name) args v'); simpl; try done; lia.
      * destruct value as [value|].
        -- destruct (flag_Set v _) as [v'|] eqn:Hset; simpl; [|done]. intros Hp. subst text.
           by apply (Hstep (WEquals two name value) args v'); simpl; try done; lia.
        -- destruct args as [|value args]; [done|]. destruct (flag_Set v _) as [v'|] eqn:Hset; simpl; [|done]. intros Hp.
           subst text. apply (Hstep (WNext two name value) args v'); simpl in *; try done; [by rewrite Hbool|lia].
  - intros (ws & Hws & Hr). revert args f Hf Hws Hr. induction ws as [|w ws IH]; intros args f Hf Hws Hr.
    + injection Hws as <-. destruct Hr as [[-> Hs]| ->]; [|done]. destruct rest as [|s rest]; [done|]. simpl in *. by rewrite Hs.
    + simpl in Hws. destruct (apply_word w f) as [f1|] eqn:Hw; simpl in Hws; [|done].
      assert (exists args', args = word_args w ++ args' /\ reads args' rest ws) as (args' & -> & Hr').
      { destruct Hr as [[-> Hs]| ->]; eexists; (split; [cbn [words map concat]; by rewrite <- app_assoc|]); [left|right]; done. }
      rewrite (Parse_word _ _ _ _ Hf Hw). apply IH; [|done..]. by eapply apply_word_plain.
Qed.

(** * What was written *)

(** The text of the last flag of a name. *)
Definition last_text (name : string) (ws : list flag_word) : option string :=
  word_text <$> last (List.filter (fun w => bool_decide (word_name w = name)) ws).

Lemma last_text_cons name w ws :
  last_text name (w :: ws) =
  match last_text name ws with
  | Some t => Some t
  | None => if bool_decide (word_name w = name) then Some (word_text w) else None
  end.
Proof.
  unfold last_text. cbn [List.filter]. case_bool_decide; [|by destruct (last _)].
  rewrite last_cons. by destruct (last (List.filter _ ws)).
Qed.

(** What a flag accepts depends on its kind only. *)
Lemma flag_Set_kind v text v' t : flag_Set v text = Some v' -> flag_Set v' t = flag_Set v t.
Proof.
  destruct v; simpl; [by intros [= <-]|..].
  - destruct (ParseBool text); simpl; by intros [= <-].
  - destruct (ParseInt0 _ _ text); simpl; by intros [= <-].
Qed.

(** A flag has the last value that was written, or its default. *)
Lemma apply_words_lookup ws f f' name v :
  apply_words ws f = Some f' -> f !! name = Some v ->
  f' !! name = match last_text name ws with Some t => flag_Set v t | None => Some v end /\ is_Some (f' !! name).
Proof.
  revert f v. induction ws as [|w ws IH]; intros f v; [by intros [= <-] ->|].
  simpl. unfold apply_word. destruct (f !! word_name w) as [x|] eqn:Hx; simpl; [|done].
  destruct (word_fits w x); simpl; [|done]. destruct (flag_Set x _) as [x'|] eqn:Hset; simpl; [|done].
  intros Hws Hv. rewrite last_text_cons. case_bool_decide as Hn.
  - rewrite Hn in *. rewrite Hv in Hx. injection Hx as <-.
    destruct (IH _ x' Hws) as [-> Hs]; [by rewrite lookup_insert_eq|].
    destruct (last_text name ws); [by rewrite (flag_Set_kind _ _ _ _ Hset) in *|done].
  - destruct (IH _ v Hws) as [-> Hs]; [by rewrite lookup_insert_ne|]. by destruct (last_text name ws).
Qed.

Lemma written_string ws f f' name d :
  apply_words ws f = Some f' -> f !! name = Some (FString d) -> flag_string f' name = default d (last_text name ws).
Proof.
  intros Hws Hv. destruct (apply_words_lookup _ _ _ _ _ Hws Hv) as [Hl _]. unfold flag_string. rewrite Hl.
  by destruct (last_text name ws).
Qed.

Lemma written_bool ws f f' name d :
  apply_words ws f = Some f' -> f !! name = Some (FBool d) ->
  flag_bool f' name = match last_text name ws with Some t => default false (ParseBool t) | None => d end.
Proof.
  intros Hws Hv. destruct (apply_words_lookup _ _ _ _ _ Hws Hv) as [Hl [x Hx]]. unfold flag_bool. rewrite Hl.
  destruct (last_text name ws) as [t|]; [|done]. simpl. by destruct (ParseBool t).
Qed.

(** The flags of the commands can be written. *)
Definition plain_names_b (f : FlagSet) : bool := forallb (fun '(name, _) => plain_name name) (map_to_list f).

Lemma plain_names_spec f : plain_names_b f = true -> plain_names f.
Proof.
  unfold plain_names_b. rewrite forallb_forall. intros Hall name [v Hv].
  apply elem_of_map_to_list, list_elem_of_In in Hv. apply (Hall _ Hv).
Qed.

Lemma parse_flags_words flags args f :
  plain_names flags -> parse_flags flags args = Ok f ->
  exists ws, apply_words ws flags = Some f /\ args ∈ [words ws; words ws ++ ["--"]].
Proof.
  unfold parse_flags. intros Hp Hf. inv_ok. bool_facts. subst.
  match goal with X : Parse _ _ = _ |- _ => apply Parse_spec in X as (ws & Hws & Hr); [|done] end.
  exists ws. split; [done|]. destruct Hr as [[-> _]| ->]; rewrite ?app_nil_r; set_solver.
Qed.

(** * What changes *)

Section command.
Context `{Unicode, AdminEncoding}.

(** The rows of subscriptions an action on a user may touch. *)
Definition touched (action user : string) (r : subscription_row) : bool :=
  if bool_decide (action = "grant_pro") then has_subscription "manual" (manualSubscriptionID user) r
  else is_manual user r.

(** One audited action, which touches manual rows of one user only. *)
Definition one_action (action actor reason : string) (d d' : AdminDB) : Prop :=
  exists l entry, d' = {| accounts := accounts (set_account_subscriptions l d); audit := audit d ++ [entry] |} /\
    ae_Action entry = action /\ ae_Actor entry = actor /\ ae_Reason entry = reason /\
    forall o, touched action (ae_UserID entry) o = false -> (o ∈ l <-> o ∈ admin_subscriptions d).

Lemma grant_tx_effect c req d res d' :
  grant_tx c req d = Ok (res, d') ->
  d' = d \/ gr_DryRun req = false /\ one_action "grant_pro" (gr_Actor req) (gr_Reason req) d d'.
Proof.
  unfold grant_tx. intros Hg.
  apply rbind_ok in Hg as (? & _ & Hg). apply rbind_ok in Hg as (u & _ & Hg). apply rbind_ok in Hg as (before & _ & Hg).
  apply rbind_ok in Hg as (manual & _ & Hg). destruct (activeManualGrant manual _); [left; by inv_ok|]. cbv zeta in Hg.
  destruct (gr_DryRun req); [left; by inv_ok|]. right. split; [done|].
  apply rbind_ok in Hg as ([g d1] & Hup%run_step_ok & Hg). apply rbind_ok in Hg as (after & _ & Hg).
  apply rbind_ok in Hg as (d2 & Haud%run_step_ok & Hg). injection Hg as <- <-.
  unfold insertAudit in Haud. destruct (audit_checks _); [|done]. injection Haud as <-.
  apply upsertManualGrant_steps in Hup as (l & row & -> & _ & _ & _ & _ & _ & _ & _ & _ & Hfr).
  eexists l, _. split; [reflexivity|]. done.
Qed.

Lemma revoke_tx_effect c req d res d' :
  revoke_tx c req d = Ok (res, d') ->
  d' = d \/ rr_DryRun req = false /\ one_action "revoke_pro" (rr_Actor req) (rr_Reason req) d d'.
Proof.
  unfold revoke_tx. intros Hg.
  apply rbind_ok in Hg as (? & _ & Hg). apply rbind_ok in Hg as (u & _ & Hg). apply rbind_ok in Hg as (before & _ & Hg).
  apply rbind_ok in Hg as (manual & _ & Hg). cbv zeta in Hg. destruct manual as [g|]; [|left; by inv_ok].
  destruct (negb _); [left; by inv_ok|]. apply rbind_ok in Hg as (without & _ & Hg).
  destruct (rr_DryRun req); [left; by inv_ok|]. right. split; [done|].
  apply rbind_ok in Hg as ([g' d1] & Hrev%run_step_ok & Hg). apply rbind_ok in Hg as (after & _ & Hg).
  apply rbind_ok in Hg as (d2 & Haud%run_step_ok & Hg). injection Hg as <- <-.
  unfold insertAudit in Haud. destruct (audit_checks _); [|done]. injection Haud as <-.
  unfold revoke_manual in Hrev. apply rbind_ok in Hrev as (l & Hl & Hrev).
  destruct (List.find _ l); [|done]. apply rbind_ok in Hrev as (? & _ & Hrev). injection Hrev as _ <-.
  unfold update_where in Hl. destruct (forallb _ _); [|done]. injection Hl as <-.
  eexists _, _. split; [reflexivity|]. split_and!; try done. cbn [ae_UserID]. intros o Ho. change (is_manual (au_ID u) o = false) in Ho.
  rewrite list_elem_of_fmap. split.
  - intros (q & -> & Hq). destruct (is_manual (au_ID u) q) eqn:E; [|done].
    change (is_manual (au_ID u) q = false) in Ho. by rewrite E in Ho.
  - intros Hin. exists o. by rewrite Ho.
Qed.

Lemma commit_changed {A} c d (r : result admin_error (A * AdminDB)) res d' :
  commit c d r = (res, d') -> d' <> d -> exists a, r = Ok (a, d').
Proof.
  unfold commit. destruct r as [[a d1]|]; [|intros [= _ <-]; done].
  destruct (dc_outcome c DCommit); intros [= _ <-]; [by exists a|done|by exists a].
Qed.

(** The service of a command has the environment and the limit of the variables. *)
Definition max_grant (env : environ) : result admin_error duration :=
  let value := TrimSpace (Getenv env "ACCOUNT_ADMIN_MAX_GRANT_DURATION") in
  if is_empty value then Ok (365 * 24 * hour) else ParseDuration value.

Lemma command_service_ok e s :
  command_service e = Ok s ->
  (ToLower (TrimSpace (Getenv (ce_env e) "APP_ENV")) = "production" -> environment s = "production") /\
  max_grant (ce_env e) = Ok (maxDuration s).
Proof.
  unfold command_service, loadCommandConfig, max_grant. intros Hs. inv_ok. cbn [cc_Environment cc_MaxDuration] in *.
  match goal with X : NewAdminService _ _ = Ok _ |- _ => unfold NewAdminService in X end. inv_ok.
  cbn [environment maxDuration]. split; [by intros ->|].
  destruct (is_empty _); [by inv_ok|]. by inv_ok.
Qed.

(** What a grant and a revocation that write have passed. *)
Lemma GrantPro_changed s c req d r d' :
  GrantPro s c req d = (r, d') -> d' <> d ->
  gr_DryRun req = false /\ Validate (Normalize (gr_Selector req)) = Ok tt /\ 0 < gr_Duration req <= maxDuration s /\
  (environment s = "production" -> TrimSpace (gr_Confirmation req) = ProductionConfirmation) /\
  one_action "grant_pro" (TrimSpace (gr_Actor req)) (TrimSpace (gr_Reason req)) d d'.
Proof.
  unfold GrantPro. destruct (validate_grant s req) as [q|] eqn:Hv; [|by intros [= _ <-]]. intros Hg Hne.
  apply commit_changed in Hg as [res Hg]; [|done]. apply grant_tx_effect in Hg as [?|[Hdry Hone]]; [done|].
  unfold validate_grant in Hv. inv_ok. bool_facts. simpl in *. split_and!; try done; try lia.
  - match goal with X : Validate _ = Ok ?u |- _ => by destruct u end.
  - intros Hprod. match goal with X : requireProductionConfirmation _ _ _ = Ok _ |- _ => rename X into Hc end.
    unfold requireProductionConfirmation in Hc. rewrite Hdry, bool_decide_eq_true_2 in Hc by done. simpl in Hc. inv_ok. by bool_facts.
Qed.

Lemma RevokePro_changed s c req d r d' :
  RevokePro s c req d = (r, d') -> d' <> d ->
  rr_DryRun req = false /\ Validate (Normalize (rr_Selector req)) = Ok tt /\
  (environment s = "production" -> TrimSpace (rr_Confirmation req) = ProductionConfirmation) /\
  one_action "revoke_pro" (TrimSpace (rr_Actor req)) (TrimSpace (rr_Reason req)) d d'.
Proof.
  unfold RevokePro. destruct (validate_revoke s req) as [q|] eqn:Hv; [|by intros [= _ <-]]. intros Hg Hne.
  apply commit_changed in Hg as [res Hg]; [|done]. apply revoke_tx_effect in Hg as [?|[Hdry Hone]]; [done|].
  unfold validate_revoke in Hv. inv_ok. simpl in *. split_and!; try done.
  - match goal with X : Validate _ = Ok ?u |- _ => by destruct u end.
  - intros Hprod. match goal with X : requireProductionConfirmation _ _ _ = Ok _ |- _ => rename X into Hc end.
    unfold requireProductionConfirmation in Hc. rewrite Hdry, bool_decide_eq_true_2 in Hc by done. simpl in Hc. inv_ok. by bool_facts.
Qed.

(** What was written of a flag, or its default. *)
Definition written (ws : list flag_word) (name fallback : string) : string := default fallback (last_text name ws).

Definition written_selector (ws : list flag_word) : Selector :=
  {| sl_UserID := written ws "user-id" EmptyString; sl_Email := written ws "email" EmptyString;
     sl_AuthSubject := written ws "subject" EmptyString |}.

(** The last [-dry-run] says no, or there is none. *)
Definition not_dry (ws : list flag_word) : Prop :=
  match last_text "dry-run" ws with Some t => ParseBool t = Some false | None => True end.

(** What every command that writes needs. *)
Record permitted (e : command_env) (action : string) (ws : list flag_word) (d d' : AdminDB) : Prop := {
  pm_dry : not_dry ws;
  pm_selector : Validate (Normalize (written_selector ws)) = Ok tt;
  pm_confirmed : ToLower (TrimSpace (Getenv (ce_env e) "APP_ENV")) = "production" ->
    TrimSpace (written ws "confirm-production" EmptyString) = "PRODUCTION";
  pm_action : one_action action (TrimSpace (written ws "actor" EmptyString)) (TrimSpace (written ws "reason" EmptyString)) d d';
}.

Lemma written_dry ws f f' :
  apply_words ws f = Some f' -> f !! "dry-run" = Some (FBool false) -> flag_bool f' "dry-run" = false -> not_dry ws.
Proof.
  intros Hws Hf Hdry. unfold not_dry. pose proof (apply_words_lookup _ _ _ _ _ Hws Hf) as [Hl [x Hx]].
  rewrite (written_bool _ _ _ _ _ Hws Hf) in Hdry. destruct (last_text "dry-run" ws) as [t|]; [|done].
  rewrite Hl in Hx. simpl in *. by destruct (ParseBool t) as [[]|].
Qed.

Lemma selector_written ws f f' :
  apply_words ws f = Some f' ->
  f !! "user-id" = Some (FString EmptyString) -> f !! "email" = Some (FString EmptyString) -> f !! "subject" = Some (FString EmptyString) ->
  selector_value f' = written_selector ws.
Proof.
  intros Hws H1 H2 H3. unfold selector_value, written_selector. f_equal; by eapply written_string.
Qed.

Lemma grant_plain : plain_names_b grant_flags = true.
Proof. reflexivity. Qed.

Lemma revoke_plain : plain_names_b revoke_flags = true.
Proof. reflexivity. Qed.

Lemma runGrant_changed e s args d r d' :
  command_service e = Ok s -> runGrant s (ce_call e) args d = (r, d') -> d' <> d ->
  exists ws dur limit, args ∈ [words ws; words ws ++ ["--"]] /\ permitted e "grant_pro" ws d d' /\
    ParseDuration (written ws "duration" "30d") = Ok dur /\ max_grant (ce_env e) = Ok limit /\ 0 < dur <= limit.
Proof.
  intros [Hprod Hlimit]%command_service_ok. unfold runGrant.
  destruct (parse_flags grant_flags args) as [f|] eqn:Hf; cbn [rbind]; [|by intros [= _ <-]].
  apply parse_flags_words in Hf as (ws & Hws & Hargs); [|apply plain_names_spec, grant_plain].
  destruct (ParseDuration (flag_string f "duration")) as [dur|] eqn:Hdur; cbn [rmap_err rbind]; [|by intros [= _ <-]].
  destruct (GrantPro s _ _ d) as [res d1] eqn:Hg. intros [= _ <-] Hne.
  apply GrantPro_changed in Hg as (Hdry & Hsel & Hbound & Hconf & Hone); [|done]. simpl in *.
  rewrite (written_string _ _ _ "duration" "30d" Hws) in Hdur by done.
  rewrite (written_string _ _ _ "confirm-production" EmptyString Hws) in Hconf by done.
  rewrite (written_string _ _ _ "actor" EmptyString Hws), (written_string _ _ _ "reason" EmptyString Hws) in Hone by done.
  rewrite (selector_written _ _ _ Hws) in Hsel by done.
  exists ws, dur, (maxDuration s). split_and!; try done; try lia. split; try done.
  - by apply (written_dry _ _ _ Hws).
  - intros Hp. by apply Hconf, Hprod.
Qed.

Lemma runRevoke_changed e s args d r d' :
  command_service e = Ok s -> runRevoke s (ce_call e) args d = (r, d') -> d' <> d ->
  exists ws, args ∈ [words ws; words ws ++ ["--"]] /\ permitted e "revoke_pro" ws d d'.
Proof.
  intros [Hprod _]%command_service_ok. unfold runRevoke.
  destruct (parse_flags revoke_flags args) as [f|] eqn:Hf; [|by intros [= _ <-]].
  apply parse_flags_words in Hf as (ws & Hws & Hargs); [|apply plain_names_spec, revoke_plain].
  destruct (RevokePro s _ _ d) as [res d1] eqn:Hg. intros [= _ <-] Hne.
  apply RevokePro_changed in Hg as (Hdry & Hsel & Hconf & Hone); [|done]. simpl in *.
  rewrite (written_string _ _ _ "confirm-production" EmptyString Hws) in Hconf by done.
  rewrite (written_string _ _ _ "actor" EmptyString Hws), (written_string _ _ _ "reason" EmptyString Hws) in Hone by done.
  rewrite (selector_written _ _ _ Hws) in Hsel by done.
  exists ws. split; [done|]. split; try done.
  - by apply (written_dry _ _ _ Hws).
  - intros Hp. by apply Hconf, Hprod.
Qed.

(** C14. Only two commands write, and only when everything asks for it: if a run of
    [account-admin] changes the database, whatever its arguments, its environment and
    the failures, its arguments are [grant-pro] or [revoke-pro] with flags and nothing
    else; the last [-dry-run] is not set; exactly one valid selector was given; in
    production the confirmation was given; the duration of a grant is positive and at
    most the limit of the environment; and what changes is one audited action with the
    actor and the reason that were written, on manual rows of the one user of the audit
    event. *)
Theorem account_command_safe e args d r d' :
  run e args d = (r, d') -> d' <> d ->
  exists name ws, args ∈ [name :: words ws; name :: words ws ++ ["--"]] /\
    (name = "grant-pro" /\ permitted e "grant_pro" ws d d' /\
       (exists dur limit, ParseDuration (written ws "duration" "30d") = Ok dur /\
          max_grant (ce_env e) = Ok limit /\ 0 < dur <= limit) \/
     name = "revoke-pro" /\ permitted e "revoke_pro" ws d d').
Proof.
  unfold run. destruct args as [|name args]; [by intros [= _ <-]|].
  destruct (bool_decide (name ∈ _)); [by intros [= _ <-]|].
  destruct (command_service e) as [s|] eqn:Hs; [|by intros [= _ <-]].
  destruct (dispatch s (ce_call e) name args d) as [res d1] eqn:Hd. intros [= _ <-] Hne. revert Hd. unfold dispatch.
  case_bool_decide; [intros Hd|case_bool_decide; [intros Hd|]].
  - eapply runGrant_changed in Hd as (ws & dur & limit & Hargs & Hp & Hrest); [|done..]. exists name, ws. split; [set_solver|].
    left. split; [done|]. split; [done|]. by exists dur, limit.
  - eapply runRevoke_changed in Hd as (ws & Hargs & Hp); [|done..]. exists name, ws. split; [set_solver|]. by right.
  - repeat case_bool_decide; by intros [= _ <-].
Qed.
(** What is written is what is asked for: a grant runs with the last value of every
    flag, and the defaults of the others. *)
Theorem grant_as_written e s ws f dur d :
  command_service e = Ok s -> apply_words ws grant_flags = Some f -> ParseDuration (written ws "duration" "30d") = Ok dur ->
  ce_output e = true ->
  run e ("grant-pro" :: words ws) d =
  let '(r, d') := GrantPro s (ce_call e)
    {| gr_Selector := written_selector ws; gr_Duration := dur; gr_Actor := written ws "actor" EmptyString;
       gr_Reason := written ws "reason" EmptyString;
       gr_DryRun := match last_text "dry-run" ws with Some t => default false (ParseBool t) | None => false end;
       gr_Confirmation := written ws "confirm-production" EmptyString |} d in
  (let! r := rmap_err CommandFailed r in Ok (ResultJSON (ROperation r)), d').
Proof.
  intros Hs Hws Hdur Hout. unfold run. change (bool_decide ("grant-pro" ∈ ["help"; "-h"; "--help"])) with false. cbn [andb].
  rewrite Hs. unfold dispatch. change (bool_decide ("grant-pro" = "grant-pro")) with true. cbv iota. unfold runGrant, parse_flags.
  assert (Parse (words ws) grant_flags = Ok ([], f)) as ->.
  { apply Parse_spec; [apply plain_names_spec, grant_plain|]. exists ws. split; [done|]. left. by rewrite app_nil_r. }
  cbn [rmap_err rbind]. change (bool_decide (([] : list string) = [])) with true. cbn [negb rbind].
  rewrite (written_string _ _ _ "duration" "30d" Hws) by done. fold (written ws "duration" "30d"). rewrite Hdur. cbn [rmap_err rbind].
  rewrite (selector_written _ _ _ Hws), (written_bool _ _ _ "dry-run" false Hws) by done.
  rewrite (written_string _ _ _ "actor" EmptyString Hws), (written_string _ _ _ "reason" EmptyString Hws),
    (written_string _ _ _ "confirm-production" EmptyString Hws) by done.
  destruct (GrantPro s _ _ d) as [[r|] d']; [|done]. cbn [rmap_err rbind]. by rewrite Hout.
Qed.
End command.

(** * Examples *)

Section examples.
#[local] Existing Instance plain_unicode.
#[local] Existing Instance sample_admin.

Definition production_env : environ :=
  {["APP_ENV" := " Production "; "DATABASE_URL_FILE" := "/run/db"; "ACCOUNT_ADMIN_MAX_GRANT_DURATION" := "60d"]}.

Definition sample_command_env (now : time) : command_env :=
  {| ce_env := production_env;
     ce_files := {| fs_Stat := fun _ => None; fs_ReadFile := fun p => if bool_decide (p = "/run/db") then Some " postgres://db " else None;
                    fs_windows := false |};
     ce_pool := fun _ => true; ce_ping := true; ce_call := admin_quiet now; ce_output := true |}.

Definition sample_args : list string :=
  ["grant-pro"; "--subject=auth0|buyer"; "-actor"; "ops"; "--reason"; "support case"; "--duration"; "24h";
   "--confirm-production"; "PRODUCTION"].

#[local] Abbreviation sample_run args := (run (sample_command_env (1200 * second)) args sample_admin_db).

Definition is_rest {A} (r : result command_error A) : option command_error := match r with Ok _ => None | Err e => Some e end.

Lemma account_command_safe_witness :
  exists r d', sample_run sample_args = (r, d') /\ audit d' <> [] /\
    exists name ws, sample_args ∈ [name :: words ws; name :: words ws ++ ["--"]].
Proof.
  destruct (sample_run sample_args) as [r d'] eqn:E. exists r, d'.
  assert (audit d' <> []) as Haud.
  { replace d' with (snd (sample_run sample_args)) by (by rewrite E). vm_compute. discriminate. }
  split; [reflexivity|]. split; [exact Haud|].
  assert (d' <> sample_admin_db) as Hne by (intros ->; by apply Haud).
  destruct (account_command_safe _ _ _ _ _ E Hne) as (name & ws & Hargs & _). by exists name, ws.
Defined.

(** The last flag counts; a boolean takes no value from the next argument, which then
    is a positional one; any other flag takes what follows, a flag included. *)
Example arguments :
  map (fun args => is_rest (sample_run args).1)
    [sample_args; sample_args ++ ["--"]; sample_args ++ ["--confirm-production="]; sample_args ++ ["--dry-run"; "false"];
     sample_args ++ ["--dry-run=F"]; sample_args ++ ["-duration"; "61d"]; sample_args ++ ["--email"; "a@b"]; sample_args ++ ["--actor"; "--dry-run"; "x"];
     sample_args ++ ["-dry-run"; "-confirm-production"]; sample_args ++ ["---x"]; sample_args ++ ["-h"]; ["grant"]; []; ["--help"; "x"];
     ["list-active-manual-grants"; "-limit=0x10"]; ["list-active-manual-grants"; "-limit=1001"]]
  = [None; None; Some (CommandFailed ConfirmationRequired); Some CommandPositional;
     None; Some (CommandFailed DurationTooLong); Some (CommandFailed SelectorCount); Some CommandPositional;
     Some (CommandFlags (FlagNoValue "confirm-production")); Some (CommandFlags (FlagSyntax "---x")); Some (CommandFlags FlagHelp);
     Some (CommandUnknown "grant"); Some CommandRequired; None; None; Some (CommandFailed LimitOutOfRange)].
Proof. vm_compute. reflexivity. Qed.
End examples.
