(* ===== verification/Marshal.v ===== *)
(** JSON as [encoding/json] writes it: [Marshal] of the values the program logs.  The
    reader is in [Json]. *)
From S2P Require Import Prelude GoLists GoBase Float64 Json Utf8 Exposition.
Local Open Scope Z_scope.

(** A value, with the members of an object in the order they are written. *)
Inductive jvalue :=
  | VNull
  | VBool (b : bool)
  | VInt (n : Z)
  | VFloat (f : float64)
  | VString (s : string)
  | VArray (l : list jvalue)
  | VObject (l : list (string * jvalue)).

(** * Strings *)

Definition hex_digit (n : Z) : ascii := byte (if n <? 10 then 48 + n else 87 + n).

Definition backslash (s : string) : string := String "\" s.

(** A character below 128: as it is unless it is in the way of JSON or HTML. *)
Definition escape_ascii (c : ascii) : string :=
  if in_range 34 34 c || in_range 92 92 c then backslash (String c EmptyString)
  else if in_range 8 8 c then backslash "b"
  else if in_range 12 12 c then backslash "f"
  else if in_range 10 10 c then backslash "n"
  else if in_range 13 13 c then backslash "r"
  else if in_range 9 9 c then backslash "t"
  else if in_range 0 31 c || in_range 38 38 c || in_range 60 60 c || in_range 62 62 c
  then backslash ("u00" +:+ String (hex_digit (byte_val c / 16)) (String (hex_digit (byte_val c mod 16)) EmptyString))
  else String c EmptyString.

(** A rune of more bytes: a byte that starts none is replaced, the separators of lines
    and paragraphs are escaped. *)
Definition escape_rune (r : Z) (proper : bool) : string :=
  if negb proper then backslash "ufffd"
  else if r =? 8232 then backslash "u2028"
  else if r =? 8233 then backslash "u2029"
  else encode_rune r.

Fixpoint escape_fuel (n : nat) (s : string) : string :=
  match n, s with
  | S n', String a s' =>
      let '(r, proper, rest) := decode_rune a s' in
      (if in_range 0 127 a then escape_ascii a else escape_rune r proper) +:+ escape_fuel n' rest
  | _, _ => EmptyString
  end.

(** [appendString] between the quotes; each rune takes a byte or more. *)
Definition escape_string (s : string) : string := escape_fuel (String.length s) s.

Definition quote_string (s : string) : string := String "034" (escape_string s +:+ String "034" EmptyString).

(** * Numbers *)

(** As [%e], but the exponent is not padded. *)
Definition fmtE_short (digits : string) (dp : Z) : string :=
  let exp := dp - 1 in
  String.substring 0 1 digits
  +:+ (if str_len digits <=? 1 then EmptyString else "." +:+ String.substring 1 (String.length digits - 1) digits)
  +:+ "e" +:+ (if exp <? 0 then "-" else "+") +:+ FormatInt (Z.abs exp).

(** [floatEncoder]: there is no text for what is not a number. *)
Definition float_text (f : float64) : option string :=
  match f with
  | S754_nan | S754_infinity _ => None
  | S754_zero s => Some (if s then "-0" else "0")
  | S754_finite s m e =>
      let abs := S754_finite false m e in
      let '(digits, dp) := shortest_digits m e in
      Some ((if s then "-" else EmptyString)
            +:+ (if f_ltb abs (f_lit "1e-6") || f_leb (f_lit "1e21") abs then fmtE_short digits dp else fmtF digits dp))
  end.

(** * Values *)

Definition enclose (left right : ascii) (parts : list string) : string :=
  String left (String.concat "," parts +:+ String right EmptyString).

(** [json.Marshal] *)
Fixpoint Marshal (v : jvalue) : option string :=
  match v with
  | VNull => Some "null"
  | VBool b => Some (if b then "true" else "false")
  | VInt n => Some (FormatInt n)
  | VFloat f => float_text f
  | VString s => Some (quote_string s)
  | VArray l => enclose "[" "]" <$> mapM Marshal l
  | VObject l =>
      enclose "{" "}" <$> mapM (fun '(k, v) => (fun t => quote_string k +:+ ":" +:+ t) <$> Marshal v) l
  end.

Example marshalled :
  Marshal (VObject [("a<b", VArray [VInt (-5); VFloat (f_lit "1.5"); VFloat (f_lit "1e-7"); VFloat (f_lit "1e21"); VFloat (f_lit "1e20")]);
                    ("t", VBool true); ("n", VNull); ("s", VString (of_bytes (map byte [34; 92; 10; 1; 127; 255; 195; 177; 226; 128; 168])))])
  = Some ("{" +:+ quoted "'a\u003cb':[-5,1.5,1e-7,1e+21,100000000000000000000],'t':true,'n':null,'s':'\" +:+ quoted "'\\\n\u0001"
          +:+ of_bytes (map byte [127]) +:+ "\ufffd" +:+ of_bytes (map byte [195; 177]) +:+ "\u2028" +:+ quoted "'}").
Proof. vm_compute. reflexivity. Qed.

Example not_numbers : map (fun f => Marshal (VArray [VFloat f])) [S754_nan; S754_infinity true] = [None; None].
Proof. vm_compute. reflexivity. Qed.
