(* ===== verification/MarshalSpec.v ===== *)
(** What [Marshal] writes, the scanner of [Json] reads back: every value with its text,
    whatever its strings contain; and the text is one line. *)
From S2P Require Import Prelude GoLists GoBase Float64 Utf8 Json Exposition ExpositionSpec Marshal.
Local Open Scope Z_scope.

(** * Strings *)

(** A piece of an escaped string: the scanner takes it whole. *)
Definition scans_as (chunk : string) : Prop :=
  forall t, scan_string (chunk +:+ t) = sbind (scan_string t) (fun u rest => Scanned (chunk +:+ u) rest).

Lemma scans_as_empty : scans_as EmptyString.
Proof. intros t. change (EmptyString +:+ t) with t. by destruct (scan_string t). Qed.

Lemma scans_as_app a b : scans_as a -> scans_as b -> scans_as (a +:+ b).
Proof.
  intros Ha Hb t. rewrite app_assoc_string, Ha, Hb. destruct (scan_string t); simpl; [|done..].
  by rewrite app_assoc_string.
Qed.

Lemma scans_as_high c s : 128 <= byte_val c -> scans_as s -> scans_as (String c s).
Proof.
  intros Hc Hs t. rewrite append_cons. cbn [scan_string].
  assert (forall d, byte_val d < 128 -> bool_decide (c = d) = false) as Hne
    by (intros d Hd; apply bool_decide_eq_false_2; intros ->; lia).
  rewrite !Hne by done. unfold in_range. rewrite (proj2 (Z.leb_gt (byte_val c) 31)) by lia. rewrite andb_false_r.
  rewrite Hs. by destruct (scan_string t).
Qed.

Lemma scans_as_bytes l : Forall (fun z => 128 <= z < 256) l -> scans_as (of_bytes (map byte l)).
Proof.
  induction 1 as [|z l Hz _ IH]; [apply scans_as_empty|]. cbn [map of_bytes]. apply scans_as_high; [|done].
  rewrite byte_val_byte; lia.
Qed.

Lemma escape_ascii_scans c : in_range 0 127 c = true -> scans_as (escape_ascii c).
Proof. destruct c as [[] [] [] [] [] [] [] []]; intros Hc t; try discriminate Hc; reflexivity. Qed.

Lemma escape_rune_scans r proper : scalar r -> 128 <= r -> scans_as (escape_rune r proper).
Proof.
  intros Hr Hlo. unfold escape_rune. destruct proper; [|by intros t]. cbn [negb].
  destruct (r =? 8232); [by intros t|]. destruct (r =? 8233); [by intros t|].
  rewrite encode_rune_scalar by done. destruct Hr as [Hr _]. unfold encode_valid.
  rewrite (proj2 (Z.ltb_ge r 128)) by lia.
  destruct (r <? 2048) eqn:E2; [|destruct (r <? 65536) eqn:E3]; bool_facts; apply scans_as_bytes;
    repeat (apply Forall_cons; split; [Z.to_euclidean_division_equations; lia|]); by apply Forall_nil.
Qed.

(** A piece, and the rune it is read back as. *)
Definition unquotes_as (chunk : string) (r : Z) : Prop :=
  (0 < String.length chunk)%nat /\ forall n t, unquote_fuel (S n) (chunk +:+ t) = encode_rune r +:+ unquote_fuel n t.

Lemma escape_unit_plain a s : a <> "\"%char -> escape_unit (String a s) = None.
Proof.
  intros Ha. unfold escape_unit. destruct s as [|u [|h3 [|h2 [|h1 [|h0 rest]]]]]; try done.
  by rewrite (bool_decide_eq_false_2 (a = "\"%char)).
Qed.

Lemma unquote_plain n a s t :
  a <> "\"%char ->
  unquote_fuel (S n) (String a s +:+ t) =
  let '(r, _, rest) := decode_rune a (s +:+ t) in encode_rune r +:+ unquote_fuel n rest.
Proof.
  intros Ha. rewrite append_cons. cbn [unquote_fuel]. rewrite escape_unit_plain by done.
  rewrite (bool_decide_eq_false_2 (a = "\"%char)) by done. by destruct (s +:+ t).
Qed.

Lemma unquote_simple n d t :
  d <> "u"%char ->
  unquote_fuel (S n) (String "\" (String d t)) = String (default d (simple_escape d)) (unquote_fuel n t).
Proof.
  intros Hd. cbn [unquote_fuel]. unfold escape_unit. rewrite (bool_decide_eq_false_2 (d = "u"%char)) by done.
  rewrite andb_false_r. by destruct t as [|h3 [|h2 [|h1 [|h0 rest]]]].
Qed.

Lemma escape_ascii_unquotes c : in_range 0 127 c = true -> unquotes_as (escape_ascii c) (byte_val c).
Proof.
  intros Hc. assert (escape_ascii c = String c EmptyString \/ escape_ascii c <> String c EmptyString) as [Hp|Hp].
  { destruct (decide (escape_ascii c = String c EmptyString)); [by left|by right]. }
  - rewrite Hp. split; [apply Nat.lt_0_succ|]. intros n t. rewrite unquote_plain.
    + unfold decode_rune. by rewrite Hc.
    + intros ->. discriminate Hp.
  - revert Hc Hp. destruct c as [[] [] [] [] [] [] [] []]; intros Hc Hp; try discriminate Hc; try (by destruct Hp);
      (split; [apply Nat.lt_0_succ|intros n t; first [reflexivity|apply unquote_simple; discriminate]]).
Qed.

Lemma encode_rune_high r a s : scalar r -> 128 <= r -> encode_rune r = String a s -> 128 <= byte_val a.
Proof.
  intros Hs Hr. rewrite encode_rune_scalar by done. destruct Hs as [Hs _]. unfold encode_valid.
  rewrite (proj2 (Z.ltb_ge r 128)) by lia.
  destruct (r <? 2048) eqn:E2; [|destruct (r <? 65536) eqn:E3]; bool_facts; cbn [map of_bytes]; intros [= <- _];
    rewrite byte_val_byte; Z.to_euclidean_division_equations; lia.
Qed.

Lemma escape_rune_unquotes r : scalar r -> 128 <= r -> unquotes_as (escape_rune r true) r.
Proof.
  intros Hs Hr. unfold escape_rune. cbn [negb].
  destruct (r =? 8232) eqn:E1; [bool_facts; subst r; split; [apply Nat.lt_0_succ|by intros n t]|].
  destruct (r =? 8233) eqn:E2; [bool_facts; subst r; split; [apply Nat.lt_0_succ|by intros n t]|].
  destruct (decode_encode r Hs) as (a & s & He & Hd). pose proof (encode_rune_high _ _ _ Hs Hr He) as Ha.
  rewrite He. split; [simpl; lia|]. intros n t. rewrite unquote_plain; [by rewrite Hd, He|].
  intros ->. by vm_compute in Ha.
Qed.

Lemma escape_improper_unquotes r : unquotes_as (escape_rune r false) RuneError.
Proof. split; [apply Nat.lt_0_succ|by intros n t]. Qed.

(** The pieces of a string. *)
Lemma decode_rune_ascii a s : in_range 0 127 a = true -> decode_rune a s = (byte_val a, true, s).
Proof. intros Ha. unfold decode_rune. by rewrite Ha. Qed.

Lemma decode_rune_high a s r proper rest :
  in_range 0 127 a = false -> decode_rune a s = (r, proper, rest) -> 128 <= r /\ scalar r /\ (proper = false -> r = RuneError).
Proof.
  intros Ha Hd. pose proof (encode_decode _ _ _ _ _ Hd) as [Hs _]. split_and!; [|done|].
  - revert Hd. unfold decode_rune. rewrite Ha. pose proof (byte_val_range a) as Hb.
    unfold in_range in Ha. apply andb_false_iff in Ha. rewrite !Z.leb_gt in Ha.
    destruct (second_range a) as [[[lo hi] more]|] eqn:Hf; [|by intros [= <- _ _]]. apply second_range_first in Hf.
    destruct s as [|b s1]; [by intros [= <- _ _]|]. destruct (in_range lo hi b) eqn:Hrb; simpl; [|by intros [= <- _ _]].
    apply in_range_true in Hrb.
    assert (128 <= lo) as Hlo by (inversion Hf; subst; repeat case_match; lia).
    destruct more as [|[|more]].
    + intros [= <- _ _]. unfold low6. inversion Hf; subst. lia.
    + destruct s1 as [|c s2]; [by intros [= <- _ _]|]. destruct (continuation c) eqn:Hc; [|by intros [= <- _ _]].
      apply in_range_true in Hc. intros [= <- _ _]. unfold low6. inversion Hf; subst. revert Hrb. repeat case_match; bool_facts; lia.
    + destruct s1 as [|c [|d s3]]; try by intros [= <- _ _]. destruct (continuation c && continuation d) eqn:Hc; [|by intros [= <- _ _]].
      apply andb_true_iff in Hc as [Hc Hd]. apply in_range_true in Hc, Hd. intros [= <- _ _]. unfold low6. inversion Hf; subst.
      revert Hrb. repeat case_match; bool_facts; lia.
  - intros ->. revert Hd. unfold decode_rune. rewrite Ha. repeat case_match; congruence.
Qed.

Lemma escape_piece a s r proper rest :
  decode_rune a s = (r, proper, rest) ->
  let chunk := if in_range 0 127 a then escape_ascii a else escape_rune r proper in
  scans_as chunk /\ unquotes_as chunk r.
Proof.
  intros Hd. cbv zeta. destruct (in_range 0 127 a) eqn:Ha.
  - rewrite decode_rune_ascii in Hd by done. injection Hd as <- _ _. split; [by apply escape_ascii_scans|by apply escape_ascii_unquotes].
  - destruct (decode_rune_high _ _ _ _ _ Ha Hd) as (Hr & Hs & Hi). split; [by apply escape_rune_scans|].
    destruct proper; [by apply escape_rune_unquotes|]. rewrite (Hi eq_refl). apply escape_improper_unquotes.
Qed.

Lemma escape_fuel_spec n s : scans_as (escape_fuel n s).
Proof.
  revert s. induction n as [|n IH]; intros [|a s]; try apply scans_as_empty. simpl.
  destruct (decode_rune a s) as [[r proper] rest] eqn:Hd. apply scans_as_app; [|apply IH]. by apply (escape_piece _ _ _ _ _ Hd).
Qed.

(** A quoted string is scanned to its end. *)
Lemma scan_escaped s t : scan_string (escape_string s +:+ String "034" t) = Scanned (escape_string s) t.
Proof.
  unfold escape_string. rewrite escape_fuel_spec. change (scan_string (String "034" t)) with (Scanned EmptyString t).
  cbn [sbind]. by rewrite app_nil_r_string.
Qed.

(** And it means what it was, except for the bytes that are not UTF-8. *)
Lemma unquote_escape s : unquote (escape_string s) = coerce_utf8 s.
Proof.
  unfold unquote, escape_string, coerce_utf8, runes.
  enough (forall n k s, (String.length (escape_fuel n s) <= k)%nat ->
            unquote_fuel k (escape_fuel n s) = encode_runes (runes_fuel n s)) as Hx by (by apply Hx).
  clear s. intros n. induction n as [|n IH]; intros k [|a s] Hk; try (by destruct k). simpl in *.
  destruct (decode_rune a s) as [[r proper] rest] eqn:Hd.
  destruct (escape_piece _ _ _ _ _ Hd) as [_ [Hlen Hu]]. cbv zeta in Hlen, Hu. rewrite string_app_length in Hk.
  destruct k as [|k]; [lia|]. rewrite Hu. simpl. f_equal. apply IH. lia.
Qed.

(** * Numbers *)

Definition digit_char (c : ascii) : bool := in_range 48 57 c.

(** Digits without a zero at the front. *)
Definition lead (s : string) : Prop :=
  exists c t, s = String c t /\ in_range 49 57 c = true /\ str_all digit_char t = true.

(** One digit at least. *)
Definition digits1 (s : string) : Prop := s <> EmptyString /\ str_all digit_char s = true.

Lemma lead_digit c : in_range 49 57 c = true -> digit_char c = true /\ c <> "0"%char.
Proof.
  intros Hc. split; [|by intros ->]. apply in_range_true in Hc. apply in_range_true. lia.
Qed.

Lemma lead_digits s : lead s -> digits1 s.
Proof.
  intros (c & t & -> & Hc & Ht). split; [done|]. simpl. by rewrite (proj1 (lead_digit c Hc)), Ht.
Qed.

(** What may follow a number. *)
Definition number_end (rest : string) : Prop :=
  match rest with
  | EmptyString => True
  | String c _ => digit_char c = false /\ c <> "."%char /\ c <> "e"%char /\ c <> "E"%char
  end.

Definition not_digit (rest : string) : Prop := match rest with EmptyString => True | String c _ => digit_char c = false end.

Lemma number_end_not_digit rest : number_end rest -> not_digit rest.
Proof. destruct rest; [done|]. by intros [? _]. Qed.

Lemma scan_digits_all t rest : str_all digit_char t = true -> not_digit rest -> Json.scan_digits (t +:+ rest) = (t, rest).
Proof.
  intros Ht Hr. induction t as [|c t IH].
  - change (EmptyString +:+ rest) with rest. destruct rest as [|c rest]; [done|]. simpl in *. unfold digit_char in Hr. by rewrite Hr.
  - simpl in Ht. apply andb_true_iff in Ht as [Hc Ht]. rewrite append_cons. simpl. unfold digit_char in Hc. by rewrite Hc, IH.
Qed.

Lemma scan_digits1_all t rest : digits1 t -> not_digit rest -> scan_digits1 (t +:+ rest) = Scanned t rest.
Proof.
  intros [Hne Ht] Hr. pose proof (scan_digits_all t rest Ht Hr) as Hs. destruct t as [|c t]; [done|].
  rewrite append_cons in *. unfold scan_digits1. simpl in Ht. apply andb_true_iff in Ht as [Hc _]. unfold digit_char in Hc.
  by rewrite Hc, Hs.
Qed.

(** The parts of a number. *)
Definition integer_part (i : string) : Prop := i = "0" \/ lead i.
Definition fraction_part (f : string) : Prop := f = EmptyString \/ exists t, f = String "." t /\ digits1 t.
Definition exponent_part (e : string) : Prop :=
  e = EmptyString \/ exists s t, e = String "e" (String s t) /\ (s = "+"%char \/ s = "-"%char) /\ digits1 t.
Definition sign_part (s : string) : Prop := s = EmptyString \/ s = "-".

Definition number_text (text : string) : Prop :=
  exists s i f e, text = s +:+ i +:+ f +:+ e /\ sign_part s /\ integer_part i /\ fraction_part f /\ exponent_part e.

Lemma scan_integer_part i rest : integer_part i -> not_digit rest -> scan_integer (i +:+ rest) = Scanned i rest.
Proof.
  intros [->|Hl] Hr; [done|]. pose proof (scan_digits1_all i rest (lead_digits _ Hl) Hr) as Hs.
  destruct Hl as (c & t & -> & Hc & Ht). rewrite append_cons in *. unfold scan_integer.
  rewrite (bool_decide_eq_false_2 (c = "0"%char)) by (by apply lead_digit). exact Hs.
Qed.

Lemma scan_fraction_part f rest :
  fraction_part f -> not_digit rest -> (forall c t, rest = String c t -> c <> "."%char) -> scan_fraction (f +:+ rest) = Scanned f rest.
Proof.
  intros [->|(t & -> & Ht)] Hr Hdot.
  - change (EmptyString +:+ rest) with rest. destruct rest as [|c rest]; [done|]. simpl.
    by rewrite (bool_decide_eq_false_2 (c = "."%char)) by (by eapply Hdot).
  - rewrite append_cons. cbn [scan_fraction]. rewrite bool_decide_eq_true_2 by done. by rewrite scan_digits1_all.
Qed.

Lemma scan_exponent_part e rest : exponent_part e -> number_end rest -> scan_exponent (e +:+ rest) = Scanned e rest.
Proof.
  intros [->|(s & t & -> & Hs & Ht)] Hr.
  - change (EmptyString +:+ rest) with rest. destruct rest as [|c rest]; [done|]. destruct Hr as (_ & _ & He & HE). simpl.
    by rewrite (bool_decide_eq_false_2 (c = "e"%char)), (bool_decide_eq_false_2 (c = "E"%char)).
  - rewrite !append_cons. cbn [scan_exponent]. rewrite bool_decide_eq_true_2 by done. cbn [orb].
    destruct Hs as [-> | ->]; (rewrite scan_digits1_all; [done|done|by apply number_end_not_digit]).
Qed.

Lemma exponent_not_digit e rest : exponent_part e -> number_end rest -> not_digit (e +:+ rest).
Proof. intros [->|(s & t & -> & _)] Hr; [by apply number_end_not_digit|done]. Qed.

Lemma fraction_not_digit f rest : fraction_part f -> not_digit rest -> not_digit (f +:+ rest).
Proof. by intros [->|(t & -> & _)]. Qed.

Lemma scan_number_text text rest : number_text text -> number_end rest -> scan_number (text +:+ rest) = Scanned text rest.
Proof.
  intros (s & i & f & e & -> & Hs & Hi & Hf & He) Hr. rewrite !app_assoc_string. unfold scan_number.
  assert ((let '(sign, s0) := match s +:+ (i +:+ (f +:+ (e +:+ rest))) with
             | String c s' => if bool_decide (c = "-"%char) then ("-", s') else (EmptyString, s +:+ (i +:+ (f +:+ (e +:+ rest))))
             | EmptyString => (EmptyString, s +:+ (i +:+ (f +:+ (e +:+ rest)))) end in (sign, s0)) = (s, i +:+ (f +:+ (e +:+ rest)))) as Hsign.
  { destruct Hs as [-> | ->]; [|done]. change (EmptyString +:+ (i +:+ (f +:+ (e +:+ rest)))) with (i +:+ (f +:+ (e +:+ rest))).
    destruct Hi as [->|(c & t & -> & Hc & _)]; [done|]. rewrite append_cons.
    by rewrite (bool_decide_eq_false_2 (c = "-"%char)) by (by intros ->). }
  destruct (match s +:+ _ with EmptyString => _ | String _ _ => _ end) as [sign s0]. injection Hsign as -> ->.
  pose proof (exponent_not_digit _ _ He Hr) as Hnd.
  rewrite scan_integer_part by (done || by apply fraction_not_digit). cbn [sbind].
  rewrite scan_fraction_part; [|done|done|]. 2: { destruct He as [->|(s1 & t & -> & _)]; [|by intros c t' [= <- _]].
    intros c t E. change (EmptyString +:+ rest) with rest in E. subst rest. by destruct Hr as (_ & ? & _). }
  cbn [sbind]. rewrite scan_exponent_part by done. done.
Qed.

(** ** What is formatted *)

Lemma pretty_N_char_digit n : digit_char (pretty_N_char n) = true.
Proof. destruct n as [|d]; [done|]. do 8 (destruct d as [d|d|]; try done). Qed.

Lemma pretty_N_go_lead n s :
  (0 < n)%N -> exists c t, pretty_N_go n s = String c (t +:+ s) /\ in_range 49 57 c = true /\ str_all digit_char t = true /\
    10 ^ str_len t <= Z.of_N n.
Proof.
  revert s. induction (N.lt_wf_0 n) as [n _ IH]; intros s Hn. rewrite pretty_N_go_step by done.
  destruct (N.eq_0_gt_0_cases (n `div` 10)) as [Hz|Hz].
  - rewrite Hz, pretty_N_go_0. apply N.div_small_iff in Hz; [|done]. rewrite N.mod_small by done.
    exists (pretty_N_char n), EmptyString. split_and!; [done| |done|change (10 ^ str_len EmptyString) with 1; lia].
    assert (n = 1 \/ n = 2 \/ n = 3 \/ n = 4 \/ n = 5 \/ n = 6 \/ n = 7 \/ n = 8 \/ n = 9)%N as Hc by lia.
    repeat (destruct Hc as [->|Hc]; [done|]). by subst n.
  - destruct (IH (n `div` 10)%N ltac:(apply N.div_lt; lia) (String (pretty_N_char (n `mod` 10)) s) Hz) as (c & t & -> & Hc & Ht & Hlen).
    exists c, (t +:+ String (pretty_N_char (n `mod` 10)) EmptyString). rewrite app_assoc_string, append_cons.
    change (EmptyString +:+ s) with s. split_and!; [done|done| |].
    + rewrite str_all_app, Ht. simpl. by rewrite pretty_N_char_digit.
    + unfold str_len in *. rewrite string_app_length. simpl. rewrite Nat2Z.inj_add. change (Z.of_nat 1) with 1.
      rewrite Z.pow_add_r by lia. change (10 ^ 1) with 10. pose proof (N.Div0.mul_div_le n 10). nia.
Qed.

Lemma FormatInt_pos n : 0 < n -> lead (FormatInt n) /\ 10 ^ (str_len (FormatInt n) - 1) <= n.
Proof.
  intros Hn. destruct n as [|p|p]; try lia. change (FormatInt (Z.pos p)) with (pretty_N_go (N.pos p) EmptyString).
  destruct (pretty_N_go_lead (N.pos p) EmptyString eq_refl) as (c & t & -> & Hc & Ht & Hlen).
  rewrite app_nil_r_string. split; [by exists c, t|]. unfold str_len in *. simpl String.length.
  replace (Z.of_nat (S (String.length t)) - 1) with (Z.of_nat (String.length t)) by lia. exact Hlen.
Qed.

Lemma FormatInt_digits n : 0 <= n -> digits1 (FormatInt n).
Proof.
  intros Hn. destruct (Z.eq_dec n 0) as [->|]; [done|]. by apply lead_digits, FormatInt_pos; lia.
Qed.

Lemma FormatInt_number n : number_text (FormatInt n).
Proof.
  destruct (Z.eq_dec n 0) as [->|Hn].
  { exists EmptyString, "0", EmptyString, EmptyString. split_and!; try done; by left. }
  assert (integer_part (FormatInt (Z.abs n))) as Hi by (right; apply FormatInt_pos; lia).
  exists (if n <? 0 then "-" else EmptyString), (FormatInt (Z.abs n)), EmptyString, EmptyString.
  change (EmptyString +:+ EmptyString) with EmptyString. rewrite app_nil_r_string.
  split_and!; [|destruct (n <? 0); [by right|by left]|done|by left|by left].
  destruct n as [|p|p]; [done|done|]. done.
Qed.

(** ** The digits of a float *)

Lemma leading_zeros_bound fuel num den :
  0 < num -> 0 < den -> den <= 10 ^ Z.of_nat fuel * num ->
  0 <= leading_zeros fuel num den /\ den <= 10 ^ (leading_zeros fuel num den + 1) * num.
Proof.
  revert num. induction fuel as [|fuel IH]; intros num Hn Hd Hle.
  { cbn [leading_zeros]. change (10 ^ Z.of_nat 0) with 1 in Hle. change (10 ^ (0 + 1)) with 10. lia. }
  cbn [leading_zeros]. destruct (den <=? 10 * num) eqn:E; bool_facts.
  { change (10 ^ (0 + 1)) with 10. lia. }
  destruct (IH (10 * num)) as [H0 H1]; [lia|lia| |].
  - rewrite Nat2Z.inj_succ, Z.pow_succ_r in Hle by lia. lia.
  - split; [lia|]. replace (1 + leading_zeros fuel (10 * num) den + 1) with (Z.succ (leading_zeros fuel (10 * num) den + 1)) by lia.
    rewrite Z.pow_succ_r by lia. lia.
Qed.

(** The first digit taken is not zero. *)
Lemma decimal_point_positive num den n :
  0 < num -> 0 < den -> den <= 10 ^ 330 * num -> 1 <= n ->
  let '(a, b) := scale10 num den (n - decimal_point num den) in 0 < a / b.
Proof.
  intros Hn Hd Hle H1. unfold decimal_point, scale10. destruct (den <=? num) eqn:E; bool_facts.
  - assert (1 <= num / den) as Hq by (apply Z.div_le_lower_bound; lia).
    destruct (FormatInt_pos (num / den) ltac:(lia)) as [_ Hlen]. set (dp := str_len (FormatInt (num / den))) in *.
    pose proof (Z.mul_div_le num den Hd). destruct (0 <=? n - dp) eqn:Ek; bool_facts; apply Z.div_str_pos.
    + assert (0 < 10 ^ (n - dp)) by (apply Z.pow_pos_nonneg; lia). nia.
    + replace (- (n - dp)) with (dp - n) by lia.
      assert (10 ^ (dp - n) <= 10 ^ (dp - 1)) by (apply Z.pow_le_mono_r; lia).
      assert (0 < 10 ^ (dp - n)) by (apply Z.pow_pos_nonneg; lia). nia.
  - destruct (leading_zeros_bound 330 num den Hn Hd Hle) as [H0 Hz]. set (k := leading_zeros 330 num den) in *.
    rewrite (proj2 (Z.leb_le 0 _)) by lia. apply Z.div_str_pos.
    assert (10 ^ (k + 1) <= 10 ^ (n - - k)) by (apply Z.pow_le_mono_r; lia). nia.
Qed.

Lemma shortest_positive fuel n f num den :
  0 < num -> 0 < den -> den <= 10 ^ 330 * num -> 1 <= n ->
  0 < fst (shortest fuel n f num den (decimal_point num den)).
Proof.
  intros Hn Hd Hle. revert n. induction fuel as [|fuel IH]; intros n H1;
    pose proof (decimal_point_positive num den n Hn Hd Hle H1) as Hpos; cbn [shortest];
    destruct (scale10 num den (n - decimal_point num den)) as [a b];
    (destruct (_ && _); [exact Hpos|]); (destruct (reads_as f (a / b + 1) _); [exact (Z.lt_lt_succ_r _ _ Hpos)|]); [exact Hpos|].
  apply IH. lia.
Qed.

Lemma drop_zeros_digits s : str_all digit_char s = true -> str_all digit_char (drop_zeros s) = true.
Proof.
  induction s as [|c s IH]; [done|]. simpl. intros [Hc Hs]%andb_true_iff. destruct (_ && _); [done|]. simpl. by rewrite Hc, IH.
Qed.

Lemma drop_zeros_lead s : lead s -> lead (drop_zeros s).
Proof.
  intros (c & t & -> & Hc & Ht). exists c, (drop_zeros t). simpl.
  rewrite (bool_decide_eq_false_2 (c = "0"%char)) by (by apply lead_digit). rewrite andb_false_r.
  split_and!; [done|done|by apply drop_zeros_digits].
Qed.

Lemma shortest_digits_lead m e : -1074 <= e -> lead (fst (shortest_digits m e)).
Proof.
  intros He. unfold shortest_digits.
  assert (exists num den, (if 0 <=? e then (Z.pos m * 2 ^ e, 1) else (Z.pos m, 2 ^ (- e))) = (num, den) /\
    0 < num /\ 0 < den /\ den <= 10 ^ 330 * num) as (num & den & -> & Hn & Hd & Hle).
  { destruct (0 <=? e) eqn:E; bool_facts; do 2 eexists; (split; [reflexivity|]).
    - assert (0 < 2 ^ e) by (apply Z.pow_pos_nonneg; lia). assert (1 <= 10 ^ 330) by (vm_compute; discriminate). nia.
    - assert (2 ^ (- e) <= 2 ^ 1074) by (apply Z.pow_le_mono_r; lia). assert (2 ^ 1074 <= 10 ^ 330) by (vm_compute; discriminate).
      assert (0 < 2 ^ (- e)) by (apply Z.pow_pos_nonneg; lia). generalize dependent (10 ^ 330). intros z. nia. }
  pose proof (shortest_positive 16 1 (S754_finite false m e) num den Hn Hd Hle ltac:(lia)) as Hpos.
  destruct (shortest _ _ _ _ _ _) as [digits exp]. simpl in *. by apply drop_zeros_lead, FormatInt_pos.
Qed.

(** ** The text of a float *)

Lemma str_all_take p n s : str_all p s = true -> str_all p (String.substring 0 n s) = true.
Proof. apply str_all_substring. Qed.

Lemma zeros_digits n : str_all digit_char (zeros n) = true.
Proof. by induction n. Qed.

Lemma substring_not_empty i n s : (i < String.length s)%nat -> (0 < n)%nat -> String.substring i n s <> EmptyString.
Proof.
  revert i. induction s as [|c s IH]; intros i Hi Hn; simpl in Hi; [lia|]. destruct i as [|i]; [destruct n; [lia|done]|].
  simpl. apply IH; lia.
Qed.

Lemma lead_prefix n s : lead s -> (0 < n)%nat -> lead (String.substring 0 n s).
Proof.
  intros (c & t & -> & Hc & Ht) Hn. destruct n as [|n]; [lia|]. exists c, (String.substring 0 n t). simpl.
  split_and!; [done|done|by apply str_all_substring].
Qed.

Lemma digits1_suffix i n s : lead s -> (i < String.length s)%nat -> (0 < n)%nat -> digits1 (String.substring i n s).
Proof.
  intros Hl Hi Hn. split; [by apply substring_not_empty|]. apply str_all_substring, lead_digits, Hl.
Qed.

(** A number after a sign is one. *)
Definition unsigned_text (text : string) : Prop :=
  exists i f e, text = i +:+ f +:+ e /\ integer_part i /\ fraction_part f /\ exponent_part e.

Lemma signed_number (neg : bool) text : unsigned_text text -> number_text ((if neg then "-" else EmptyString) +:+ text).
Proof.
  intros (i & f & e & -> & Hi & Hf & He). exists (if neg then "-" else EmptyString), i, f, e. split; [done|].
  split_and!; try done. destruct neg; [by right|by left].
Qed.

Lemma fmtF_number digits dp : lead digits -> unsigned_text (fmtF digits dp).
Proof.
  intros Hl. pose proof (lead_digits _ Hl) as [Hne Hd]. unfold fmtF.
  assert (0 < str_len digits) as Hlen by (unfold str_len; destruct digits; [done|simpl; lia]).
  destruct (dp <=? 0) eqn:E0; bool_facts.
  - rewrite (proj2 (Z.eqb_neq (str_len digits) 0)) by lia.
    exists "0", (String "." (zeros (Z.to_nat (- dp)) +:+ digits)), EmptyString. rewrite app_nil_r_string.
    split_and!; [done|by left| |by left]. right. eexists. split; [reflexivity|]. split.
    + destruct (zeros _); [done|]. by rewrite append_cons.
    + by rewrite str_all_app, zeros_digits, Hd.
  - destruct (str_len digits <=? dp) eqn:E1; bool_facts.
    + exists (digits +:+ zeros (Z.to_nat (dp - str_len digits))), EmptyString, EmptyString.
      change (EmptyString +:+ EmptyString) with EmptyString. rewrite app_nil_r_string.
      split_and!; [done| |by left|by left]. right. destruct Hl as (c & t & -> & Hc & Ht).
      exists c, (t +:+ zeros (Z.to_nat (dp - str_len (String c t)))). rewrite append_cons, str_all_app, Ht, zeros_digits. done.
    + unfold str_len in *.
      exists (String.substring 0 (Z.to_nat dp) digits),
        (String "." (String.substring (Z.to_nat dp) (String.length digits - Z.to_nat dp) digits)), EmptyString.
      rewrite app_nil_r_string. split_and!; [done| | |by left].
      * right. apply lead_prefix; [done|lia].
      * right. eexists. split; [reflexivity|]. apply digits1_suffix; [done|lia|lia].
Qed.

Lemma fmtE_number digits dp : lead digits -> unsigned_text (fmtE_short digits dp).
Proof.
  intros Hl. unfold fmtE_short.
  exists (String.substring 0 1 digits),
    (if str_len digits <=? 1 then EmptyString else "." +:+ String.substring 1 (String.length digits - 1) digits),
    ("e" +:+ (if dp - 1 <? 0 then "-" else "+") +:+ FormatInt (Z.abs (dp - 1))).
  split; [done|]. split_and!.
  - right. apply lead_prefix; [done|lia].
  - destruct (str_len digits <=? 1) eqn:E; [by left|]. bool_facts. unfold str_len in E. right. eexists. split; [reflexivity|].
    apply digits1_suffix; [done|lia|lia].
  - right. pose proof (FormatInt_digits (Z.abs (dp - 1)) ltac:(lia)).
    destruct (dp - 1 <? 0); [exists "-"%char|exists "+"%char]; eexists; (split; [reflexivity|]); auto.
Qed.

(** What a [float64] can be. *)
Definition representable (f : float64) : Prop := match f with S754_finite _ _ e => -1074 <= e | _ => True end.

Lemma valid_representable f : valid_binary prec64 emax64 f = true -> representable f.
Proof.
  destruct f as [| | |s m e]; try done. simpl. unfold bounded, canonical_mantissa. intros [Hc _]%andb_true_iff.
  apply Zeq_bool_eq in Hc. unfold fexp, emin, prec64, emax64 in Hc. lia.
Qed.

Lemma float_text_number f text : representable f -> float_text f = Some text -> number_text text.
Proof.
  destruct f as [neg|neg| |neg m e]; cbn [float_text representable]; [|done..|].
  - intros _ [= <-]. change (if neg then "-0" else "0") with (if neg then "-" +:+ "0" else EmptyString +:+ "0").
    replace (if neg then "-" +:+ "0" else EmptyString +:+ "0") with ((if neg then "-" else EmptyString) +:+ "0") by (by destruct neg).
    apply signed_number. exists "0", EmptyString, EmptyString. split_and!; [done|by left..].
  - intros He. pose proof (shortest_digits_lead m e He) as Hl. destruct (shortest_digits m e) as [digits dp]. cbn [fst] in Hl.
    generalize (f_ltb (S754_finite false m e) (f_lit "1e-6") || f_leb (f_lit "1e21") (S754_finite false m e)).
    intros b [= <-]. apply signed_number. destruct b; [by apply fmtE_number|by apply fmtF_number].
Qed.

(** * Values *)

(** What a value is read back as, with its text. *)
Definition text_of (v : jvalue) : string := default EmptyString (Marshal v).

Fixpoint shown (v : jvalue) : json :=
  match v with
  | VNull => JNull
  | VBool b => JBool b
  | VInt n => JNumber (FormatInt n)
  | VFloat f => JNumber (default EmptyString (float_text f))
  | VString s => JString (coerce_utf8 s)
  | VArray l => JArray (map (fun v => (shown v, text_of v)) l)
  | VObject l => JObject (map (fun '(k, v) => (coerce_utf8 k, (shown v, text_of v))) l)
  end.

(** The floats of a value are 64-bit floats, and its depth is in the limit of the
    scanner. *)
Fixpoint fits (d : Z) (v : jvalue) : Prop :=
  match v with
  | VFloat f => representable f
  | VArray l => d < maxNestingDepth /\ Forall id (map (fits (d + 1)) l)
  | VObject l => d < maxNestingDepth /\ Forall id (map (fun '(_, v) => fits (d + 1) v) l)
  | _ => True
  end.

Section jvalue_induction.
Context (P : jvalue -> Prop).
Context (Hnull : P VNull) (Hbool : forall b, P (VBool b)) (Hint : forall n, P (VInt n)) (Hfloat : forall f, P (VFloat f)).
Context (Hstring : forall s, P (VString s)).
Context (Harray : forall l, Forall P l -> P (VArray l)) (Hobject : forall l, Forall (fun kv => P kv.2) l -> P (VObject l)).

Fixpoint jvalue_all (v : jvalue) : P v :=
  match v with
  | VNull => Hnull | VBool b => Hbool b | VInt n => Hint n | VFloat f => Hfloat f | VString s => Hstring s
  | VArray l => Harray l ((fix go l : Forall P l := match l with [] => Forall_nil_2 _ | v :: l => Forall_cons_2 _ _ _ (jvalue_all v) (go l) end) l)
  | VObject l => Hobject l ((fix go l : Forall (fun kv => P kv.2) l :=
      match l with [] => Forall_nil_2 _ | kv :: l => Forall_cons_2 _ _ _ (jvalue_all kv.2) (go l) end) l)
  end.
End jvalue_induction.

(** A value begins with a character that is neither a space nor the end of a list. *)
Definition starts_value (t : string) : Prop :=
  exists c u, t = String c u /\ is_json_space c = false /\ c <> "]"%char /\ c <> "}"%char.

Lemma number_starts t : number_text t -> starts_value t /\ exists c u, t = String c u /\ (c = "-"%char \/ digit_char c = true).
Proof.
  intros (s & i & f & e & -> & Hs & Hi & _).
  assert (exists c u, i = String c u /\ digit_char c = true) as (c & u & -> & Hc).
  { destruct Hi as [->|(c & u & -> & Hc & _)]; [by exists "0"%char, EmptyString|]. exists c, u. split; [done|]. by apply lead_digit. }
  assert (is_json_space c = false /\ c <> "]"%char /\ c <> "}"%char) as Hn.
  { split; [|split; by intros ->]. apply in_range_true in Hc. unfold is_json_space, in_range.
    rewrite !orb_false_iff, !andb_false_iff, !Z.leb_gt. lia. }
  destruct Hs as [-> | ->]; (split; [do 2 eexists; (split; [reflexivity|]); done|do 2 eexists; split; [reflexivity|]; eauto]).
Qed.

Lemma Marshal_starts v t d : Marshal v = Some t -> fits d v -> starts_value t.
Proof.
  destruct v as [|b|n|f|s|l|l]; cbn [Marshal]; intros Ht Hf.
  - injection Ht as <-. by do 2 eexists.
  - injection Ht as <-. by destruct b; do 2 eexists.
  - injection Ht as <-. apply number_starts, FormatInt_number.
  - by eapply number_starts, float_text_number.
  - injection Ht as <-. by do 2 eexists.
  - destruct (mapM _ l); simpl in Ht; [|done]. injection Ht as <-. by do 2 eexists.
  - destruct (mapM _ l); simpl in Ht; [|done]. injection Ht as <-. by do 2 eexists.
Qed.

Lemma skip_spaces_starts t rest : starts_value t -> skip_spaces (t +:+ rest) = t +:+ rest.
Proof. intros (c & u & -> & Hc & _). rewrite append_cons. simpl. by rewrite Hc. Qed.

Lemma text_before_app t rest : text_before (t +:+ rest) rest = t.
Proof.
  unfold text_before. rewrite string_app_length, Nat.add_sub. induction t as [|c t IH]; [by destruct rest|].
  rewrite append_cons. simpl. by rewrite IH.
Qed.

(** What the theorem says of one value. *)
Definition reads_back (v : jvalue) : Prop :=
  forall t d fuel rest, Marshal v = Some t -> fits d v -> number_end rest ->
    (2 * String.length (t +:+ rest) + 1 <= fuel)%nat -> scan_value fuel d (t +:+ rest) = Scanned (shown v, t) rest.

Lemma scan_value_number fuel d t rest :
  number_text t -> number_end rest -> scan_value (S fuel) d (t +:+ rest) = Scanned (JNumber t, t) rest.
Proof.
  intros Ht Hr. destruct (number_starts t Ht) as [Hst (c & u & Hc & Hd)]. pose proof (scan_number_text t rest Ht Hr) as Hs.
  pose proof (text_before_app t rest) as Hb. pose proof (skip_spaces_starts t rest Hst) as Hsk.
  cbn [scan_value]. rewrite Hsk. subst t. rewrite append_cons in *. cbv zeta.
  assert (forall x, digit_char x = false -> x <> "-"%char -> bool_decide (c = x) = false) as Hne.
  { intros x Hx Hm. apply bool_decide_eq_false_2. intros ->. destruct Hd as [?|?]; [done|congruence]. }
  rewrite !Hne by done.
  assert (bool_decide (c = "-"%char) || in_range 48 57 c = true) as ->.
  { destruct Hd as [-> |Hd]; [done|]. unfold digit_char in Hd. rewrite Hd. apply orb_true_r. }
  rewrite Hs. cbn [sbind]. by rewrite Hb.
Qed.

(** The scanner by the first character of a value. *)
Definition with_text (s : string) (m : scan json) : scan (json * string) :=
  sbind m (fun v rest => Scanned (v, text_before s rest) rest).

Lemma scan_value_quote fuel d s :
  scan_value (S fuel) d (String "034" s) =
  with_text (String "034" s) (sbind (scan_string s) (fun t rest => Scanned (JString (unquote t)) rest)).
Proof. reflexivity. Qed.

Lemma scan_value_bracket fuel d s :
  d < maxNestingDepth ->
  scan_value (S fuel) d (String "[" s) =
  with_text (String "[" s)
    (match skip_spaces s with
     | EmptyString => Unfinished
     | String c s2 =>
         if bool_decide (c = "]"%char) then Scanned (JArray []) s2
         else sbind (scan_elements fuel (d + 1) s) (fun l rest => Scanned (JArray l) rest)
     end).
Proof. intros Hd. cbn [scan_value]. rewrite (proj2 (Z.leb_gt _ _) Hd). reflexivity. Qed.

Lemma scan_value_brace fuel d s :
  d < maxNestingDepth ->
  scan_value (S fuel) d (String "{" s) =
  with_text (String "{" s)
    (match skip_spaces s with
     | EmptyString => Unfinished
     | String c s2 =>
         if bool_decide (c = "}"%char) then Scanned (JObject []) s2
         else sbind (scan_members fuel (d + 1) s) (fun l rest => Scanned (JObject l) rest)
     end).
Proof. intros Hd. cbn [scan_value]. rewrite (proj2 (Z.leb_gt _ _) Hd). reflexivity. Qed.

Lemma with_text_app t rest v : with_text (t +:+ rest) (Scanned v rest) = Scanned (v, t) rest.
Proof. unfold with_text. cbn [sbind]. by rewrite text_before_app. Qed.

Lemma reads_back_string s : reads_back (VString s).
Proof.
  intros t d fuel rest [= <-] _ _ Hfuel. destruct fuel as [|fuel]; [lia|].
  cbn [shown]. rewrite <- (with_text_app (quote_string s) rest (JString (coerce_utf8 s))).
  unfold quote_string. rewrite !append_cons, scan_value_quote, app_assoc_string, !append_cons.
  change (EmptyString +:+ rest) with rest. rewrite scan_escaped. cbn [sbind]. by rewrite unquote_escape.
Qed.

Lemma skip_spaces_plain c s : is_json_space c = false -> skip_spaces (String c s) = String c s.
Proof. simpl. by intros ->. Qed.

Lemma enclose_app l r parts rest :
  enclose l r parts +:+ rest = String l (String.concat "," parts +:+ String r rest).
Proof. unfold enclose. by rewrite append_cons, app_assoc_string, append_cons. Qed.

Lemma concat_cons p q ps : String.concat "," (p :: q :: ps) = p +:+ String "," (String.concat "," (q :: ps)).
Proof. done. Qed.

Lemma length_concat_cons p q ps :
  String.length (String.concat "," (p :: q :: ps)) = S (String.length p + String.length (String.concat "," (q :: ps))).
Proof. rewrite concat_cons, string_app_length. simpl. lia. Qed.

Lemma scan_elements_parts l : Forall reads_back l -> forall parts d fuel rest,
  mapM Marshal l = Some parts -> Forall (fits d) l -> l <> [] ->
  (2 * String.length (String.concat "," parts +:+ String "]" rest) + 2 <= fuel)%nat ->
  scan_elements fuel d (String.concat "," parts +:+ String "]" rest) = Scanned (map (fun v => (shown v, text_of v)) l) rest.
Proof.
  induction 1 as [|v l Hv Hl IH]; intros parts d fuel rest Hm Hfits Hne Hfuel; [done|].
  destruct fuel as [|fuel]; [lia|]. simpl in Hm. destruct (Marshal v) as [t|] eqn:Ht; simpl in Hm; [|done].
  destruct (mapM Marshal l) as [ts|] eqn:Hts; simpl in Hm; [|done]. injection Hm as <-.
  apply Forall_cons in Hfits as [Hf Hfits]. cbn [scan_elements map].
  assert (text_of v = t) as -> by (unfold text_of; by rewrite Ht).
  destruct l as [|w l].
  - injection Hts as <-. change (String.concat "," [t]) with t in *.
    rewrite (Hv t d fuel _ Ht Hf) by (done || lia). cbn [sbind]. done.
  - destruct ts as [|t' ts]; [simpl in Hts; destruct (Marshal w), (mapM Marshal l); done|].
    rewrite concat_cons, app_assoc_string, append_cons in *.
    rewrite (Hv t d fuel _ Ht Hf) by (done || lia). cbn [sbind].
    rewrite skip_spaces_plain by done. cbv beta iota.
    rewrite (bool_decide_eq_false_2 (","%char = "]"%char)), (bool_decide_eq_true_2 (","%char = ","%char)) by done.
    rewrite (IH (t' :: ts) d fuel rest eq_refl Hfits) by (done || (rewrite string_app_length in Hfuel; cbn [String.length] in Hfuel; lia)).
    done.
Qed.

(** A member of an object, and its text. *)
Definition member_text (kv : string * jvalue) : option string :=
  let '(k, v) := kv in (fun t => quote_string k +:+ ":" +:+ t) <$> Marshal v.

Lemma member_shape k t tail :
  (quote_string k +:+ ":" +:+ t) +:+ tail = String "034" (escape_string k +:+ String "034" (String ":" (t +:+ tail))).
Proof. unfold quote_string. rewrite !append_cons, !app_assoc_string. done. Qed.

Lemma scan_char_at c s : is_json_space c = false -> scan_char c (String c s) = Scanned tt s.
Proof. intros Hc. unfold scan_char. rewrite skip_spaces_plain by done. by rewrite bool_decide_eq_true_2. Qed.

Lemma scan_members_parts l : Forall (fun kv => reads_back kv.2) l -> forall parts d fuel rest,
  mapM member_text l = Some parts -> Forall (fun kv => fits d kv.2) l -> l <> [] ->
  (2 * String.length (String.concat "," parts +:+ String "}" rest) + 2 <= fuel)%nat ->
  scan_members fuel d (String.concat "," parts +:+ String "}" rest)
  = Scanned (map (fun '(k, v) => (coerce_utf8 k, (shown v, text_of v))) l) rest.
Proof.
  induction 1 as [|[k v] l Hv Hl IH]; intros parts d fuel rest Hm Hfits Hne Hfuel; [done|].
  destruct fuel as [|fuel]; [lia|]. simpl in Hm. destruct (Marshal v) as [t|] eqn:Ht; simpl in Hm; [|done].
  destruct (mapM member_text l) as [ts|] eqn:Hts; simpl in Hm; [|done]. injection Hm as <-.
  apply Forall_cons in Hfits as [Hf Hfits]. cbn [snd] in *.
  assert (text_of v = t) as Htext by (unfold text_of; by rewrite Ht).
  assert (forall tail, (2 * String.length ((quote_string k +:+ ":" +:+ t) +:+ tail) + 2 <= S fuel)%nat -> number_end tail ->
    scan_members (S fuel) d ((quote_string k +:+ ":" +:+ t) +:+ tail) =
    match skip_spaces tail with
    | EmptyString => Unfinished
    | String c s' =>
        if bool_decide (c = "}"%char) then Scanned [(coerce_utf8 k, (shown v, t))] s'
        else if bool_decide (c = ","%char)
        then sbind (scan_members fuel d s') (fun l rest => Scanned ((coerce_utf8 k, (shown v, t)) :: l) rest)
        else Malformed
    end) as Hstep.
  { intros tail Hlen Hend. rewrite member_shape in *. cbn [scan_members].
    rewrite scan_char_at by done. cbn [sbind]. rewrite scan_escaped. cbn [sbind]. rewrite scan_char_at by done. cbn [sbind].
    rewrite (Hv t d fuel tail Ht Hf Hend).
    - cbn [sbind]. by rewrite unquote_escape.
    - cbn [String.length] in Hlen. rewrite string_app_length in Hlen. cbn [String.length] in Hlen. lia. }
  cbn [map]. rewrite Htext. destruct l as [|w l].
  - injection Hts as <-. change (String.concat "," [?x]) with x in *. by rewrite Hstep.
  - destruct ts as [|t' ts]; [simpl in Hts; destruct (member_text w), (mapM member_text l); done|].
    rewrite concat_cons, app_assoc_string, (append_cons ","%char) in Hfuel. rewrite concat_cons, app_assoc_string, (append_cons ","%char).
    rewrite Hstep by done.
    rewrite skip_spaces_plain by done. cbv beta iota.
    rewrite (bool_decide_eq_false_2 (","%char = "}"%char)), (bool_decide_eq_true_2 (","%char = ","%char)) by done.
    rewrite (IH (t' :: ts) d fuel rest eq_refl Hfits)
      by (done || (rewrite string_app_length in Hfuel; cbn [String.length] in Hfuel; lia)).
    done.
Qed.

Lemma fits_list d l : Forall id (map (fits d) l) <-> Forall (fits d) l.
Proof. by rewrite Forall_map. Qed.

Lemma mapM_nil {A B} (f : A -> option B) l : mapM f l = Some [] -> l = [].
Proof. destruct l as [|x l]; [done|]. simpl. destruct (f x); simpl; [|done]. by destruct (mapM f l). Qed.

(** What is written is read back: the value, with exactly its text, whatever follows. *)
Lemma Marshal_reads_back v : reads_back v.
Proof.
  induction v as [|b|n|f|s|l IH|l IH] using jvalue_all.
  - intros t d fuel rest [= <-] _ _ Hfuel. destruct fuel as [|fuel]; [lia|]. exact (with_text_app "null" rest JNull).
  - intros t d fuel rest [= <-] _ _ Hfuel. destruct fuel as [|fuel]; [lia|].
    destruct b; [exact (with_text_app "true" rest (JBool true))|exact (with_text_app "false" rest (JBool false))].
  - intros t d fuel rest [= <-] _ Hr Hfuel. destruct fuel as [|fuel]; [lia|]. by apply scan_value_number; [apply FormatInt_number|].
  - intros t d fuel rest Ht Hf Hr Hfuel. destruct fuel as [|fuel]; [lia|]. cbn [Marshal shown fits] in *. rewrite Ht.
    by apply scan_value_number; [eapply float_text_number|].
  - apply reads_back_string.
  - intros t d fuel rest Ht [Hd Hf%fits_list] Hr Hfuel. destruct fuel as [|fuel]; [lia|]. cbn [Marshal] in Ht.
    destruct (mapM Marshal l) as [parts|] eqn:Hm; simpl in Ht; [|done]. injection Ht as <-. cbn [shown].
    rewrite <- with_text_app. rewrite enclose_app in *. rewrite scan_value_bracket by done. f_equal.
    destruct parts as [|p parts]; [apply mapM_nil in Hm; by subst l|].
    destruct l as [|v l]; [done|]. pose proof Hm as Hp. simpl in Hp. destruct (Marshal v) as [tv|] eqn:Hv; simpl in Hp; [|done].
    destruct (mapM Marshal l) as [ts|]; simpl in Hp; [|done]. injection Hp as <- <-.
    pose proof Hf as Hfv. apply Forall_cons in Hfv as [Hfv _]. pose proof (Marshal_starts _ _ _ Hv Hfv) as Hst.
    rewrite (scan_elements_parts _ IH (tv :: ts) (d + 1) fuel rest Hm Hf ltac:(done)) by (cbn [String.length] in Hfuel; lia).
    destruct Hst as (c & u & -> & Hsp & Hc & _).
    assert (exists u', String.concat "," (String c u :: ts) +:+ String "]" rest = String c u') as [u' ->]
      by (destruct ts; [by eexists|rewrite concat_cons, append_cons; by eexists]).
    rewrite skip_spaces_plain by done. by rewrite (bool_decide_eq_false_2 (c = "]"%char)).
  - intros t d fuel rest Ht [Hd Hf] Hr Hfuel. destruct fuel as [|fuel]; [lia|]. cbn [Marshal] in Ht.
    change (mapM _ l) with (mapM member_text l) in Ht.
    destruct (mapM member_text l) as [parts|] eqn:Hm; simpl in Ht; [|done]. injection Ht as <-. cbn [shown].
    rewrite <- with_text_app. rewrite enclose_app in *. rewrite scan_value_brace by done. f_equal.
    destruct parts as [|p parts]; [apply mapM_nil in Hm; by subst l|].
    destruct l as [|[k v] l]; [done|]. pose proof Hm as Hp. simpl in Hp. destruct (Marshal v) as [tv|] eqn:Hv; simpl in Hp; [|done].
    destruct (mapM member_text l) as [ts|]; simpl in Hp; [|done]. injection Hp as <- <-.
    assert (Forall (fun kv => fits (d + 1) kv.2) ((k, v) :: l)) as Hf'.
    { rewrite Forall_map in Hf. eapply Forall_impl; [exact Hf|]. by intros []. }
    rewrite (scan_members_parts _ IH _ (d + 1) fuel rest Hm Hf' ltac:(done)) by (cbn [String.length] in Hfuel; lia).
    assert (exists u', String.concat "," ((quote_string k +:+ ":" +:+ tv) :: ts) +:+ String "}" rest = String "034" u') as [u' ->]
      by (destruct ts; [by eexists|rewrite concat_cons; by eexists]).
    by rewrite skip_spaces_plain by done.
Qed.

(** * One line *)

(** No character of the text is a control character. *)
Definition visible (c : ascii) : bool := negb (in_range 0 31 c).

Lemma plain_visible s : str_all plain_char s = true -> str_all visible s = true.
Proof.
  apply str_all_impl. intros c Hc. apply in_range_true in Hc. unfold visible. apply negb_true_iff, not_true_iff_false.
  rewrite in_range_true. lia.
Qed.

Lemma digits_plain s : str_all digit_char s = true -> str_all plain_char s = true.
Proof. apply str_all_impl. intros c Hc. apply in_range_true in Hc. apply in_range_true. lia. Qed.

Lemma number_plain t : number_text t -> str_all plain_char t = true.
Proof.
  intros (s & i & f & e & -> & Hs & Hi & Hf & He). rewrite !str_all_app, !andb_true_iff. split_and!.
  - by destruct Hs as [-> | ->].
  - destruct Hi as [->|Hl]; [done|]. by apply digits_plain, lead_digits.
  - destruct Hf as [->|(t & -> & _ & Ht)]; [done|]. simpl. by apply digits_plain.
  - destruct He as [->|(s' & t & -> & Hs' & _ & Ht)]; [done|]. simpl. rewrite (digits_plain _ Ht). by destruct Hs' as [-> | ->].
Qed.

Lemma high_visible l : Forall (fun z => 128 <= z < 256) l -> str_all visible (of_bytes (map byte l)) = true.
Proof.
  induction 1 as [|z l Hz _ IH]; [done|]. simpl. rewrite IH, andb_true_r. unfold visible. apply negb_true_iff, not_true_iff_false.
  rewrite in_range_true, byte_val_byte by lia. lia.
Qed.

Lemma escape_rune_visible r proper : scalar r -> 128 <= r -> str_all visible (escape_rune r proper) = true.
Proof.
  intros Hr Hlo. unfold escape_rune. destruct proper; [|done]. cbn [negb].
  destruct (r =? 8232); [done|]. destruct (r =? 8233); [done|].
  rewrite encode_rune_scalar by done. destruct Hr as [Hr _]. unfold encode_valid.
  rewrite (proj2 (Z.ltb_ge r 128)) by lia.
  destruct (r <? 2048) eqn:E2; [|destruct (r <? 65536) eqn:E3]; bool_facts; apply high_visible;
    repeat (apply Forall_cons; split; [Z.to_euclidean_division_equations; lia|]); by apply Forall_nil.
Qed.

Lemma escape_ascii_visible c : in_range 0 127 c = true -> str_all visible (escape_ascii c) = true.
Proof. destruct c as [[] [] [] [] [] [] [] []]; intros Hc; try discriminate Hc; reflexivity. Qed.

Lemma quote_visible s : str_all visible (quote_string s) = true.
Proof.
  unfold quote_string, escape_string. cbn [str_all]. rewrite str_all_app, !andb_true_iff. split_and!; [done| |done].
  generalize (String.length s). intros n. revert s. induction n as [|n IH]; intros [|a s]; try done. cbn [escape_fuel].
  destruct (decode_rune a s) as [[r proper] rest] eqn:Hd. rewrite str_all_app, IH, andb_true_r.
  destruct (in_range 0 127 a) eqn:Ha; [by apply escape_ascii_visible|].
  destruct (decode_rune_high _ _ _ _ _ Ha Hd) as (Hr & Hs & _). by apply escape_rune_visible.
Qed.

Lemma concat_visible sep parts :
  str_all visible sep = true -> Forall (fun p => str_all visible p = true) parts -> str_all visible (String.concat sep parts) = true.
Proof.
  intros Hsep. induction 1 as [|p ps Hp Hps IH]; [done|]. destruct ps as [|q ps]; [done|].
  change (String.concat sep (p :: q :: ps)) with (p +:+ sep +:+ String.concat sep (q :: ps)).
  by rewrite !str_all_app, Hp, Hsep, IH.
Qed.

Lemma Marshal_visible v d t : Marshal v = Some t -> fits d v -> str_all visible t = true.
Proof.
  revert d t. induction v as [|b|n|f|s|l IH|l IH] using jvalue_all; intros d t Ht Hf; cbn [Marshal fits] in *.
  - by injection Ht as <-.
  - injection Ht as <-. by destruct b.
  - injection Ht as <-. by apply plain_visible, number_plain, FormatInt_number.
  - by eapply plain_visible, number_plain, float_text_number.
  - injection Ht as <-. apply quote_visible.
  - destruct (mapM Marshal l) as [parts|] eqn:Hm; simpl in Ht; [|done]. injection Ht as <-. destruct Hf as [_ Hf%fits_list].
    unfold enclose. simpl. rewrite str_all_app. simpl. rewrite andb_true_r. apply concat_visible; [done|].
    apply mapM_Some in Hm. clear -Hm IH Hf. induction Hm as [|v p l ps Hv _ IHm]; [done|].
    apply Forall_cons in IH as [Hp IH]. apply Forall_cons in Hf as [Hfv Hf]. apply Forall_cons. split; [by eapply Hp|auto].
  - destruct (mapM _ l) as [parts|] eqn:Hm; simpl in Ht; [|done]. injection Ht as <-. destruct Hf as [_ Hf].
    unfold enclose. simpl. rewrite str_all_app. simpl. rewrite andb_true_r. apply concat_visible; [done|].
    apply mapM_Some in Hm. clear -Hm IH Hf. induction Hm as [|[k v] p l ps Hv _ IHm]; [done|].
    apply Forall_cons in IH as [Hp IH]. apply Forall_cons in Hf as [Hfv Hf]. apply Forall_cons. split; [|auto].
    destruct (Marshal v) as [tv|] eqn:Etv; simpl in Hv; [|done]. injection Hv as <-.
    rewrite !str_all_app, quote_visible. by rewrite (Hp _ _ Etv Hfv).
Qed.

(** Every value without an infinity or a NaN has a text. *)
Fixpoint finite_value (v : jvalue) : bool :=
  match v with
  | VFloat f => negb (IsNaN f) && negb (IsInf f)
  | VArray l => forallb finite_value l
  | VObject l => forallb (fun '(_, v) => finite_value v) l
  | _ => true
  end.

Lemma Marshal_total v : finite_value v = true -> is_Some (Marshal v).
Proof.
  induction v as [|b|n|f|s|l IH|l IH] using jvalue_all; cbn [finite_value Marshal]; intros Hv; try by eexists.
  - destruct f as [| | |s m e]; try done. cbn [float_text]. destruct (shortest_digits m e). by eexists.
  - assert (is_Some (mapM Marshal l)) as [parts ->]; [|by eexists].
    induction IH as [|v l Hp _ IHl]; [by eexists|]. simpl in Hv. apply andb_true_iff in Hv as [Hv Hl].
    destruct (Hp Hv) as [t Ht]. destruct (IHl Hl) as [ts Hts]. simpl. rewrite Ht. simpl. rewrite Hts. by eexists.
  - match goal with |- is_Some (_ <$> ?m) => assert (is_Some m) as [parts ->]; [|by eexists] end.
    induction IH as [|[k v] l Hp _ IHl]; [by eexists|]. simpl in Hv. apply andb_true_iff in Hv as [Hv Hl].
    destruct (Hp Hv) as [t Ht]. destruct (IHl Hl) as [ts Hts]. simpl. cbn [snd] in Ht. rewrite Ht. simpl. rewrite Hts. by eexists.
Qed.

(** The text of a value on a line of its own. *)
Lemma Marshal_line v t :
  Marshal v = Some t -> fits 0 v -> scan_json (t +:+ newline) = Scanned (shown v, t) newline /\ str_all visible t = true.
Proof.
  intros Ht Hf. split; [|by eapply Marshal_visible]. unfold scan_json, value_fuel.
  apply Marshal_reads_back; [done|done|done|lia].
Qed.
