(* ===== verification/Logger.v ===== *)
(** The log: [internal/observability/logger.go], and the line
    [internal/server/observability.go] writes for a request. *)
From S2P Require Import Prelude GoLists GoBase Float64 Dates Strconv Json Exposition Marshal.
Local Open Scope Z_scope.

(** * Fields *)

(** What the program logs as a value. *)
Inductive log_value :=
  | LNil
  | LString (s : string)
  | LError (message : string)
  | LTime (t : time)
  | LDuration (d : duration)
  | LBool (b : bool)
  | LInt (n : Z)
  | LFloat (f : float64).

Record Field := { F_Key : string; F_Value : log_value }.

(** * The logger *)

Record Logger := { lg_color : bool; lg_json : bool }.

(** What [shouldUseColor] asks of the system: whether [NO_COLOR] is set, whether the
    writer is a file that is a character device, and whether its console takes colors. *)
Record console := { cs_NO_COLOR : bool; cs_device : bool; cs_prepared : bool }.

(** The five methods, with the label and the color of each. *)
Inductive log_level := LevelInfo | LevelSuccess | LevelDuplicate | LevelWarn | LevelError.

Definition level_label (l : log_level) : string :=
  match l with LevelInfo => "INFO" | LevelSuccess => "OK" | LevelDuplicate => "DUP" | LevelWarn => "WARN" | LevelError => "ERROR" end.

Definition escape_code (code : string) : string := String "027" ("[" +:+ code +:+ "m").

Definition level_color (l : log_level) : string :=
  escape_code (match l with LevelInfo | LevelDuplicate => "36" | LevelSuccess => "32" | LevelWarn => "33" | LevelError => "31" end).

(** [%-5s] of a label. *)
Definition pad_label (s : string) : string := s +:+ of_bytes (replicate (5 - String.length s) " "%char).

Section logger.
Context `{Unicode}.

Definition shouldUseColor (c : console) (mode : string) : bool :=
  let mode := ToLower (TrimSpace mode) in
  if bool_decide (mode ∈ ["always"; "on"; "true"; "1"]) then true
  else if bool_decide (mode ∈ ["never"; "off"; "false"; "0"]) then false
  else if cs_NO_COLOR c then false
  else cs_device c && cs_prepared c.

Definition NewLoggerWithFormat (c : console) (colorMode format : string) : Logger :=
  let json := bool_decide (ToLower (TrimSpace format) = "json") in
  {| lg_color := negb json && shouldUseColor c colorMode; lg_json := json |}.

Definition HasSuffix (s suffix : string) : bool := HasPrefix (String.rev s) (String.rev suffix).

Definition isSensitiveLogKey (key : string) : bool :=
  let normalized := ToLower (TrimSpace key) in
  bool_decide (normalized ∈ ["authorization"; "proxy_authorization"; "database_url"; "dsn"; "connection_string"; "password"; "secret"; "token"])
  || HasSuffix normalized "_token" || HasSuffix normalized "_secret" || HasSuffix normalized "_password".

(** ** Lines of JSON *)

Definition normalizeJSONLogValue (v : log_value) : jvalue :=
  match v with
  | LNil => VNull
  | LString s => VString s
  | LError message => VString message
  | LTime t => VString (FormatRFC3339Nano t)
  | LDuration d => VString (Duration_String d)
  | LBool b => VBool b
  | LInt n => VInt n
  | LFloat f => VFloat f
  end.

Definition reserved_key (key : string) : bool := bool_decide (key ∈ [EmptyString; "timestamp"; "level"; "event"]).

Definition json_field (f : Field) : jvalue :=
  if isSensitiveLogKey (TrimSpace (F_Key f)) then VString "[REDACTED]" else normalizeJSONLogValue (F_Value f).

Definition add_json_field (record : gmap string jvalue) (f : Field) : gmap string jvalue :=
  let key := TrimSpace (F_Key f) in
  if reserved_key key then record else <[key := json_field f]> record.

Definition json_record (now : time) (l : log_level) (event : string) (fields : list Field) : gmap string jvalue :=
  foldl add_json_field
    (<["event" := VString event]> (<["level" := VString (level_label l)]> {["timestamp" := VString (FormatRFC3339Nano now)]})) fields.

(** [json.Marshal] of a map sorts its keys. *)
Definition sorted_members (m : gmap string jvalue) : list (string * jvalue) :=
  slice_stable (fun a b => str_ltb a.1 b.1) (map_to_list m).

(** A record that cannot be encoded is not written. *)
Definition write_json (now : time) (l : log_level) (event : string) (fields : list Field) : string :=
  match Marshal (VObject (sorted_members (json_record now l event fields))) with
  | Some text => text +:+ newline
  | None => EmptyString
  end.

(** ** Lines of text *)

Definition formatLogValue (v : log_value) : string :=
  match v with
  | LNil => "null"
  | LString s => quote_string s
  | LError message => quote_string message
  | LTime t => FormatRFC3339Nano t
  | LDuration d => Duration_String d
  | LBool b => if b then "true" else "false"
  | LInt n => FormatInt n
  | LFloat f => FormatFloat f
  end.

Definition formatLogField (f : Field) : string :=
  if isSensitiveLogKey (F_Key f) then quoted "'[REDACTED]'" else formatLogValue (F_Value f).

Definition text_field (f : Field) : string :=
  if is_empty (TrimSpace (F_Key f)) then EmptyString else " " +:+ F_Key f +:+ "=" +:+ formatLogField f.

Definition visible_label (lg : Logger) (l : log_level) : string :=
  let label := pad_label (level_label l) in
  if lg_color lg then level_color l +:+ label +:+ escape_code "0" else label.

Definition write_text (lg : Logger) (now : time) (l : log_level) (event : string) (fields : list Field) : string :=
  FormatRFC3339Nano now +:+ " [" +:+ visible_label lg l +:+ "] " +:+ event +:+ String.concat EmptyString (map text_field fields) +:+ newline.

(** [write]: what is written; the calls are under a mutex. *)
Definition log_write (lg : Logger) (now : time) (l : log_level) (event : string) (fields : list Field) : string :=
  if lg_json lg then write_json now l event fields else write_text lg now l event fields.
End logger.

(** * The line of a request *)

Definition durationMilliseconds (d : duration) : float64 := f_div (of_Z (Z.quot d 1000)) (of_Z 1000).

Record request_report := {
  rr_correlation : string;
  rr_method : string;
  rr_route : string;
  rr_status : Z;
  rr_duration : duration;
  rr_bytes : Z;
}.

Definition request_fields (r : request_report) : list Field :=
  [{| F_Key := "correlation_id"; F_Value := LString (rr_correlation r) |};
   {| F_Key := "method"; F_Value := LString (rr_method r) |};
   {| F_Key := "route"; F_Value := LString (rr_route r) |};
   {| F_Key := "status"; F_Value := LInt (rr_status r) |};
   {| F_Key := "duration_ms"; F_Value := LFloat (durationMilliseconds (rr_duration r)) |};
   {| F_Key := "response_bytes"; F_Value := LInt (rr_bytes r) |}].

Definition request_level (status : Z) : log_level :=
  if 500 <=? status then LevelError else if 400 <=? status then LevelWarn else LevelInfo.

(** The status is 200 if the handler wrote none; a panic is reported with its type. *)
Definition request_line `{Unicode} (lg : Logger) (now : time) (r : request_report) (panic : option string) : string :=
  match panic with
  | Some panic_type =>
      log_write lg now LevelError "http.request_panicked"
        (request_fields {| rr_correlation := rr_correlation r; rr_method := rr_method r; rr_route := rr_route r;
                           rr_status := 500; rr_duration := rr_duration r; rr_bytes := rr_bytes r |}
         ++ [{| F_Key := "panic_type"; F_Value := LString panic_type |}])
  | None =>
      let status := if rr_status r =? 0 then 200 else rr_status r in
      log_write lg now (request_level status) "http.request_completed"
        (request_fields {| rr_correlation := rr_correlation r; rr_method := rr_method r; rr_route := rr_route r;
                           rr_status := status; rr_duration := rr_duration r; rr_bytes := rr_bytes r |})
  end.
