(* ===== verification/LoggerSpec.v ===== *)
(** What the log promises: one line per record, without the values of sensitive keys,
    that is read back as what was logged. *)
From S2P Require Import Prelude GoLists GoBase Float64 Dates Strconv Utf8 Json Exposition ExpositionSpec Marshal MarshalSpec Logger.
Local Open Scope Z_scope.

(** * Texts without line breaks *)

Lemma visible_no_newline s : str_all visible s = true -> no_newline s = true.
Proof.
  apply str_all_impl. intros c Hc. apply negb_true_iff, bool_decide_eq_false_2. intros ->. discriminate Hc.
Qed.

Lemma no_newline_app s t : no_newline (s +:+ t) = no_newline s && no_newline t.
Proof. apply str_all_app. Qed.

(** An instant whose year has four digits. *)
Definition four_digit_year (t : time) : Prop := - 719528 <= day_of t < day_number 10000 1 1.

Lemma format_two_visible n : 0 <= n <= 99 -> str_all visible (format_two n) = true.
Proof.
  intros Hn. assert (forallb (fun n => str_all visible (format_two (Z.of_nat n))) (seq 0 100) = true) as Hall by (vm_compute; reflexivity).
  rewrite forallb_forall in Hall. rewrite <- (Z2Nat.id n) by lia. apply Hall, in_seq. lia.
Qed.

Lemma digit_value_visible c z : digit_value c = Some z -> visible c = true.
Proof.
  unfold digit_value. destruct (in_range 48 57 c) eqn:E; [|done]. intros _. apply in_range_true in E.
  unfold visible. apply negb_true_iff, not_true_iff_false. rewrite in_range_true. lia.
Qed.

Lemma format_day_visible d : - 719528 <= d < day_number 10000 1 1 -> str_all visible (format_day d) = true.
Proof.
  intros Hd. pose proof (ParseDate_format_day d Hd) as Hp. unfold ParseDate in Hp.
  destruct (parse_date (format_day d)) as [[[y m] dd]|] eqn:E; [|done]. clear Hp. apply parse_date_Some in E as [-> Hv].
  apply valid_date_spec in Hv. unfold format_date. cbn [of_bytes str_all].
  assert (forall z, 0 <= z <= 9 -> visible (Dates.digit_char z) = true) as Hc
    by (intros z Hz; by eapply digit_value_visible, digit_value_char).
  rewrite !Hc; [done|..]; pose proof (days_in_bounds m y); Z.to_euclidean_division_equations; lia.
Qed.

Lemma fmtFrac_plain prec v print acc :
  str_all plain_char acc = true -> str_all plain_char (fst (fmtFrac prec v print acc)) = true.
Proof.
  revert v print acc. induction prec as [|prec IH]; intros v print acc Ha; cbn [fmtFrac].
  - by destruct print.
  - apply IH. destruct (_ || _); [|done]. by rewrite str_all_app, FormatInt_plain.
Qed.

Lemma time_visible t : four_digit_year t -> str_all visible (FormatRFC3339Nano t) = true.
Proof.
  intros Ht. unfold FormatRFC3339Nano. cbv zeta. rewrite !str_all_app, format_day_visible by done.
  assert (0 <= t mod day / second < 86400) as Hc.
  { pose proof (Z.mod_pos_bound t day ltac:(done)). unfold day, hour, minute, second in *. Z.to_euclidean_division_equations; lia. }
  rewrite !format_two_visible by (Z.to_euclidean_division_equations; lia).
  by rewrite (plain_visible _ (fmtFrac_plain 9 (t mod second) false EmptyString eq_refl)).
Qed.

Lemma Duration_String_no_newline d : no_newline (Duration_String d) = true.
Proof.
  unfold Duration_String. cbv zeta.
  assert (forall s, str_all plain_char s = true -> no_newline s = true) as Hp by (intros s Hs; by apply visible_no_newline, plain_visible).
  assert (forall prec v, no_newline (fst (fmtFrac prec v false EmptyString)) = true) as Hf by (intros; by apply Hp, fmtFrac_plain).
  assert (forall n, no_newline (FormatInt n) = true) as Hi by (intros; apply Hp, FormatInt_plain).
  match goal with |- no_newline (if _ then "-" +:+ ?s else ?s) = true => enough (no_newline s = true) as Hs;
    [by destruct (d <? 0); rewrite ?no_newline_app|] end.
  destruct (Z.abs d <? second).
  - destruct (Z.abs d =? 0); [done|].
    assert (forall prec unit, no_newline unit = true ->
      no_newline (let '(frac, whole) := fmtFrac prec (Z.abs d) false EmptyString in FormatInt whole +:+ frac +:+ unit) = true) as Hu.
    { intros prec unit Hunit. pose proof (Hf prec (Z.abs d)) as Hx. destruct (fmtFrac _ _ _ _) as [frac whole]. cbn [fst] in Hx.
      by rewrite !no_newline_app, Hi, Hx, Hunit. }
    destruct (Z.abs d <? 1000); [by apply Hu|]. destruct (Z.abs d <? 1000000); by apply Hu.
  - pose proof (Hf 9%nat (Z.abs d)) as Hx. destruct (fmtFrac _ _ _ _) as [frac seconds]. cbn [fst] in Hx.
    rewrite !no_newline_app, Hi, Hx. destruct (0 <? seconds / 60); [|done]. rewrite !no_newline_app, Hi.
    destruct (0 <? seconds / 60 / 60); [|done]. by rewrite no_newline_app, Hi.
Qed.

(** * Fields *)

Section spec.
Context `{Unicode}.

(** A value that can be written in both formats. *)
Definition value_ok (v : log_value) : Prop :=
  match v with
  | LTime t => four_digit_year t
  | LFloat f => representable f /\ IsNaN f = false /\ IsInf f = false
  | _ => True
  end.

Definition field_ok (f : Field) : Prop :=
  no_newline (F_Key f) = true /\ ValidString (TrimSpace (F_Key f)) = true /\ value_ok (F_Value f).

(** The field without the value, when its key is sensitive. *)
Definition hide (f : Field) : Field :=
  {| F_Key := F_Key f; F_Value := if isSensitiveLogKey (F_Key f) then LNil else F_Value f |}.

Lemma sensitive_trim key : isSensitiveLogKey (TrimSpace key) = isSensitiveLogKey key.
Proof. unfold isSensitiveLogKey. by rewrite TrimSpace_idemp. Qed.

Lemma write_text_hide lg now l event fields : write_text lg now l event (map hide fields) = write_text lg now l event fields.
Proof.
  unfold write_text. rewrite map_map. do 6 f_equal. f_equal. apply map_ext. intros f. unfold text_field, formatLogField. cbn [hide F_Key F_Value].
  by destruct (isSensitiveLogKey (F_Key f)).
Qed.

Lemma json_field_hide f : json_field (hide f) = json_field f.
Proof. unfold json_field. cbn [hide F_Key F_Value]. rewrite sensitive_trim. by destruct (isSensitiveLogKey (F_Key f)). Qed.

Lemma json_record_hide now l event fields : json_record now l event (map hide fields) = json_record now l event fields.
Proof.
  unfold json_record. generalize (<["event" := VString event]> (<["level" := VString (level_label l)]>
    ({["timestamp" := VString (FormatRFC3339Nano now)]} : gmap string jvalue))). intros m. revert m.
  induction fields as [|f fields IH]; intros m; [done|]. cbn [map foldl]. rewrite <- IH. f_equal.
  unfold add_json_field. rewrite json_field_hide. done.
Qed.

Lemma log_write_hide lg now l event fields : log_write lg now l event (map hide fields) = log_write lg now l event fields.
Proof.
  unfold log_write, write_json. rewrite json_record_hide, write_text_hide. done.
Qed.

(** ** What a record holds *)

(** The last field of a key. *)
Definition last_field (key : string) (fields : list Field) : option Field :=
  last (List.filter (fun f => bool_decide (TrimSpace (F_Key f) = key)) fields).

Definition expected (now : time) (l : log_level) (event : string) (fields : list Field) (key : string) : option jvalue :=
  if bool_decide (key = "timestamp") then Some (VString (FormatRFC3339Nano now))
  else if bool_decide (key = "level") then Some (VString (level_label l))
  else if bool_decide (key = "event") then Some (VString event)
  else if is_empty key then None
  else json_field <$> last_field key fields.

Lemma json_record_lookup now l event fields key :
  json_record now l event fields !! key = expected now l event fields key.
Proof.
  unfold json_record, expected. induction fields as [|f fields IH] using rev_ind.
  - cbn [foldl]. unfold last_field. simpl. repeat (case_bool_decide; [by subst key|]).
    rewrite !lookup_insert_ne, lookup_singleton_ne by done. by destruct (is_empty key).
  - rewrite foldl_snoc. unfold add_json_field at 1. unfold last_field. rewrite List.filter_app. cbn [List.filter].
    destruct (reserved_key (TrimSpace (F_Key f))) eqn:Hr; unfold reserved_key in Hr; bool_facts.
    + rewrite IH. repeat (case_bool_decide; [done|]). destruct (is_empty key) eqn:He; [done|].
      rewrite (bool_decide_eq_false_2 (TrimSpace (F_Key f) = key)); [by rewrite app_nil_r|].
      intros Hk. rewrite Hk in Hr. destruct key; [done|]. set_solver.
    + destruct (decide (TrimSpace (F_Key f) = key)) as [Hk|Hk].
      * rewrite (bool_decide_eq_true_2 (TrimSpace (F_Key f) = key)), last_snoc by done. rewrite Hk, lookup_insert_eq. rewrite Hk in Hr.
        rewrite !bool_decide_eq_false_2 by (intros ->; apply Hr; set_solver). by destruct key; [exfalso; apply Hr; set_solver|].
      * rewrite lookup_insert_ne, IH by done. rewrite (bool_decide_eq_false_2 (TrimSpace (F_Key f) = key)), app_nil_r by done. done.
Qed.

Lemma last_field_in key fields f : last_field key fields = Some f -> f ∈ fields /\ TrimSpace (F_Key f) = key.
Proof.
  unfold last_field. intros Hl. apply last_Some in Hl as [l Hl].
  assert (In f (List.filter (fun f => bool_decide (TrimSpace (F_Key f) = key)) fields)) as Hin by (rewrite Hl; apply in_or_app; right; by left).
  apply filter_In in Hin as [Hin Hk]. bool_facts. split; [by apply list_elem_of_In|done].
Qed.

Lemma json_field_ok f : field_ok f -> fits 1 (json_field f) /\ finite_value (json_field f) = true.
Proof.
  intros (_ & _ & Hv). unfold json_field. destruct (isSensitiveLogKey _); [done|]. destruct (F_Value f); try done.
  destruct Hv as (Hr & Hn & Hi). simpl. by rewrite Hn, Hi.
Qed.

Lemma expected_ok now l event fields key v :
  Forall field_ok fields -> expected now l event fields key = Some v ->
  fits 1 v /\ finite_value v = true /\ ValidString key = true.
Proof.
  intros Hall. unfold expected. repeat (case_bool_decide; [intros [= <-]; by subst key|]).
  destruct (is_empty key); [done|]. destruct (last_field key fields) as [f|] eqn:Hf; [|done]. intros [= <-].
  apply last_field_in in Hf as [Hin Hk]. rewrite Forall_forall in Hall. pose proof (Hall f Hin) as Hok.
  destruct (json_field_ok f Hok) as [Hfit Hfin]. split_and!; [done|done|]. destruct Hok as (_ & Hvalid & _). by rewrite <- Hk.
Qed.

Lemma elem_of_sorted_members m k v : (k, v) ∈ sorted_members m <-> m !! k = Some v.
Proof. unfold sorted_members. rewrite slice_stable_Permutation. apply elem_of_map_to_list. Qed.

(** A record in JSON: one line that is read back as what is expected of each key. *)
Lemma write_json_line now l event fields :
  Forall field_ok fields ->
  exists line ms, write_json now l event fields = line +:+ newline /\ no_newline line = true /\
    scan_json (line +:+ newline) = Scanned (JObject ms, line) newline /\
    forall k x, (exists raw, (k, (x, raw)) ∈ ms) <-> exists v, expected now l event fields k = Some v /\ x = shown v.
Proof.
  intros Hall. set (members := sorted_members (json_record now l event fields)).
  assert (forall k v, (k, v) ∈ members <-> expected now l event fields k = Some v) as Hmem
    by (intros k v; unfold members; by rewrite elem_of_sorted_members, json_record_lookup).
  assert (fits 0 (VObject members)) as Hfits.
  { split; [done|]. apply Forall_map, Forall_forall. intros [k v] Hkv. by apply Hmem, expected_ok in Hkv as (? & _). }
  assert (finite_value (VObject members) = true) as Hfin.
  { apply forallb_forall. intros [k v] Hkv. apply list_elem_of_In, Hmem in Hkv. by apply (expected_ok _ _ _ _ _ _ Hall) in Hkv as (_ & ? & _). }
  destruct (Marshal_total _ Hfin) as [line Hline]. destruct (Marshal_line _ _ Hline Hfits) as [Hscan Hvis].
  exists line, (map (fun '(k, v) => (coerce_utf8 k, (shown v, text_of v))) members).
  unfold write_json. fold members. rewrite Hline. split_and!; [done|by apply visible_no_newline|exact Hscan|].
  intros k x. split.
  - intros [raw Hin]. apply list_elem_of_fmap in Hin as ([key v] & [= -> -> ->] & Hkv). apply Hmem in Hkv.
    destruct (expected_ok _ _ _ _ _ _ Hall Hkv) as (_ & _ & Hvalid). rewrite coerce_utf8_valid by done. by exists v.
  - intros (v & Hv & ->). exists (text_of v). apply list_elem_of_fmap. exists (k, v). split; [|by apply Hmem].
    destruct (expected_ok _ _ _ _ _ _ Hall Hv) as (_ & _ & Hvalid). by rewrite coerce_utf8_valid.
Qed.

(** A record in text: one line. *)
Lemma formatLogField_no_newline f : field_ok f -> no_newline (formatLogField f) = true.
Proof.
  intros (_ & _ & Hv). unfold formatLogField. destruct (isSensitiveLogKey _); [done|].
  destruct (F_Value f); cbn [formatLogValue value_ok] in *; try done.
  - by apply visible_no_newline, quote_visible.
  - by apply visible_no_newline, quote_visible.
  - by apply visible_no_newline, time_visible.
  - apply Duration_String_no_newline.
  - by destruct b.
  - apply visible_no_newline, plain_visible, FormatInt_plain.
  - apply visible_no_newline, plain_visible, FormatFloat_plain.
Qed.

Lemma text_fields_no_newline fields : Forall field_ok fields -> no_newline (String.concat EmptyString (map text_field fields)) = true.
Proof.
  induction 1 as [|f fields Hf Hfields IH]; [done|].
  assert (no_newline (text_field f) = true) as Ht.
  { unfold text_field. destruct (is_empty _); [done|]. rewrite !no_newline_app, formatLogField_no_newline by done. destruct Hf as [Hk _]. by rewrite Hk. }
  cbn [map]. destruct fields as [|g fields]; [done|]. cbn [map] in *.
  change (String.concat EmptyString (text_field f :: text_field g :: map text_field fields))
    with (text_field f +:+ EmptyString +:+ String.concat EmptyString (text_field g :: map text_field fields)).
  rewrite !no_newline_app, Ht. exact IH.
Qed.

Lemma write_text_line lg now l event fields :
  four_digit_year now -> no_newline event = true -> Forall field_ok fields ->
  exists line, write_text lg now l event fields = line +:+ newline /\ no_newline line = true.
Proof.
  intros Hnow Hevent Hall.
  exists (FormatRFC3339Nano now +:+ " [" +:+ visible_label lg l +:+ "] " +:+ event +:+ String.concat EmptyString (map text_field fields)).
  split; [unfold write_text; by rewrite !app_assoc_string|]. rewrite !no_newline_app.
  rewrite (visible_no_newline _ (time_visible _ Hnow)), Hevent, text_fields_no_newline by done.
  destruct lg as [[] json], l; reflexivity.
Qed.

(** C39. A log record is one line, and nothing that is logged can make it two or forge a
    field of it: for events and keys without a line break, which the callers write as
    literals, and any values - texts with line breaks, quotes or bytes that are not
    UTF-8 included - what is written is one line and its end.  The values of sensitive
    keys are not in it: they can be replaced without changing the line.  In the JSON
    format the line is read back as an object in which every key has exactly what is
    expected of it: the time, the level and the event, which no field can replace, and
    the last value of each other key. *)
Theorem log_lines_sound lg now l event fields :
  four_digit_year now -> no_newline event = true -> Forall field_ok fields ->
  exists line, log_write lg now l event fields = line +:+ newline /\ no_newline line = true /\
    (forall fields', map hide fields' = map hide fields -> log_write lg now l event fields' = line +:+ newline) /\
    (lg_json lg = true -> exists ms, scan_json (line +:+ newline) = Scanned (JObject ms, line) newline /\
       forall k x, (exists raw, (k, (x, raw)) ∈ ms) <-> exists v, expected now l event fields k = Some v /\ x = shown v).
Proof.
  intros Hnow Hevent Hall.
  assert (exists line, log_write lg now l event fields = line +:+ newline /\ no_newline line = true /\
    (lg_json lg = true -> exists ms, scan_json (line +:+ newline) = Scanned (JObject ms, line) newline /\
       forall k x, (exists raw, (k, (x, raw)) ∈ ms) <-> exists v, expected now l event fields k = Some v /\ x = shown v))
    as (line & Hline & Hno & Hjson).
  { unfold log_write. destruct (lg_json lg) eqn:Hf.
    - destruct (write_json_line now l event fields Hall) as (line & ms & ? & ? & ? & ?). exists line. split_and!; [done|done|]. by exists ms.
    - destruct (write_text_line lg now l event fields Hnow Hevent Hall) as (line & ? & ?). by exists line. }
  exists line. split_and!; [done|done| |done]. intros fields' Hsame. rewrite <- Hline, <- (log_write_hide _ _ _ _ fields), <- Hsame.
  by rewrite log_write_hide.
Qed.
End spec.

(** * Examples *)

Section examples.
#[local] Existing Instance plain_unicode.

(** A request whose method and identifier try to forge a line. *)
Definition forged_fields : list Field :=
  request_fields {| rr_correlation := "id" +:+ newline +:+ quoted "'} level='ERROR"; rr_method := "GET" +:+ newline; rr_route := "unmatched";
                    rr_status := 200; rr_duration := 1234567; rr_bytes := 12 |} ++
  [{| F_Key := "webhook_secret"; F_Value := LString "hunter2" |}].

Lemma forged_ok : Forall field_ok forged_fields.
Proof.
  unfold forged_fields, request_fields. cbn [app].
  repeat apply List.Forall_cons; try apply List.Forall_nil; split_and!; try reflexivity; try exact I; split_and!; vm_compute; congruence.
Qed.

Lemma log_lines_sound_witness :
  exists line, log_write {| lg_color := false; lg_json := true |} (1456790399 * second) LevelInfo "http.request_completed" forged_fields
      = line +:+ newline /\ no_newline line = true.
Proof.
  destruct (log_lines_sound {| lg_color := false; lg_json := true |} (1456790399 * second) LevelInfo "http.request_completed" forged_fields)
    as (line & Hline & Hno & _).
  - split; vm_compute; [discriminate|reflexivity].
  - reflexivity.
  - exact forged_ok.
  - exists line. split; [exact Hline|exact Hno].
Defined.
Definition sample_fields : list Field :=
  [{| F_Key := " a "; F_Value := LString ("x" +:+ newline +:+ "y") |}; {| F_Key := "Refresh_Token"; F_Value := LString "s3" |};
   {| F_Key := "d"; F_Value := LDuration (1500 * 1000000) |}; {| F_Key := "level"; F_Value := LNil |}; {| F_Key := " "; F_Value := LNil |};
   {| F_Key := "ms"; F_Value := LFloat (durationMilliseconds 1234567) |}; {| F_Key := "a"; F_Value := LInt 2 |}].

Example logged :
  map (fun lg => log_write lg (1456790399 * second + 120000000) LevelWarn "e.x" sample_fields)
    [{| lg_color := false; lg_json := false |}; {| lg_color := false; lg_json := true |}]
  = ["2016-02-29T23:59:59.12Z [WARN ] e.x  a =" +:+ quoted "'x\ny' Refresh_Token='[REDACTED]' d=1.5s level=null ms=1.234 a=2" +:+ newline;
     quoted "{'Refresh_Token':'[REDACTED]','a':2,'d':'1.5s','event':'e.x','level':'WARN','ms':1.234,'timestamp':'2016-02-29T23:59:59.12Z'}" +:+ newline].
Proof. vm_compute. reflexivity. Qed.

Example loggers :
  map (fun p => NewLoggerWithFormat {| cs_NO_COLOR := p.1.1; cs_device := true; cs_prepared := true |} p.1.2 p.2)
    [(false, "auto", "text"); (true, "auto", "x"); (true, " Always", "TEXT"); (false, "on", " JSON ")]
  = [{| lg_color := true; lg_json := false |}; {| lg_color := false; lg_json := false |}; {| lg_color := true; lg_json := false |};
     {| lg_color := false; lg_json := true |}].
Proof. vm_compute. reflexivity. Qed.
End examples.
