(* ===== verification/Lifecycle.v ===== *)
(** A run of the server: [main] of [cmd/api/main.go] from its configuration to its end,
    as the log records it.  The parts it builds are in [Startup]. *)
From S2P Require Import Prelude GoLists GoBase Float64 Dates BillingQueue Http RateLimiter IngestAuth IngestHandler UserAuth Server PlayerProfile Strconv Config BillingHandler Startup Exposition Logger.
Local Open Scope Z_scope.

(** A record that is logged, and the logger it is written by. *)
Record log_line := { ll_logger : Logger; ll_level : log_level; ll_event : string; ll_fields : list Field }.

Definition F (key : string) (v : log_value) : Field := {| F_Key := key; F_Value := v |}.

(** [http.Server]: what [main] sets. *)
Record HTTPServer := {
  hs_Addr : string;
  hs_ReadTimeout : duration;
  hs_ReadHeaderTimeout : duration;
  hs_WriteTimeout : duration;
  hs_IdleTimeout : duration;
  hs_MaxHeaderBytes : Z;
}.

Definition http_server (cfg : ConfigT) : HTTPServer :=
  {| hs_Addr := HTTPAddr cfg; hs_ReadTimeout := ReadTimeout cfg; hs_ReadHeaderTimeout := ReadHeaderTimeout cfg;
     hs_WriteTimeout := WriteTimeout cfg; hs_IdleTimeout := IdleTimeout cfg; hs_MaxHeaderBytes := MaxHeaderBytes cfg |}.

Definition credentialIDs (sources : list CredentialSource) : string :=
  String.concat "," (map (fun source => cs_ID source +:+ ":" +:+ cs_Source source) sources).

(** The variables the linker sets. *)
Record build_info := { bi_version : string; bi_revision : string; bi_created : string }.

Definition started_fields (i : build_info) (cfg : ConfigT) (auth : AuthConfig) (b : BillingConfig) (worker : bool) : list Field :=
  [F "address" (LString (HTTPAddr cfg)); F "environment" (LString (AppEnv cfg)); F "health" (LString "/healthz");
   F "readiness" (LString "/readyz"); F "metrics" (LString "/metrics"); F "status" (LString "/api/v1/status");
   F "markets" (LString "/api/v1/markets"); F "prices" (LString "/api/v1/prices"); F "prices_query" (LString "/api/v1/prices/query");
   F "history" (LString "/api/v1/history"); F "history_query" (LString "/api/v1/history/query");
   F "black_market_analysis" (LString "/api/v1/black-market/analysis"); F "account_me" (LString "/api/v1/me");
   F "account_entitlements" (LString "/api/v1/me/entitlements"); F "economic_profile" (LString "/api/v1/me/economic-profile");
   F "saved_presets" (LString "/api/v1/me/presets"); F "saved_calculations" (LString "/api/v1/me/calculations");
   F "auth_enabled" (LBool (au_Enabled auth)); F "billing_enabled" (LBool (bc_Enabled b));
   F "billing_provider" (LString (bc_Provider b)); F "billing_test_mode" (LBool (bc_TestMode b));
   F "billing_checkout" (LString "/api/v1/billing/checkout"); F "billing_portal" (LString "/api/v1/billing/portal");
   F "billing_webhook" (LString "/api/v1/webhooks/lemonsqueezy"); F "billing_webhook_worker" (LBool worker);
   F "history_ingest" (LString "/api/v1/ingest/history");
   F "ingest_credential_ids" (LString (credentialIDs (IngestCredentialSources cfg)));
   F "ingest_require_https" (LBool (IngestRequireHTTPS cfg)); F "cors_origins" (LInt (Z.of_nat (length (CORSAllowedOrigins cfg))));
   F "rate_limit_enabled" (LBool (RateLimitEnabled cfg)); F "trust_proxy_headers" (LBool (TrustProxy cfg));
   F "color" (LString (LogColor cfg)); F "log_format" (LString (LogFormat cfg));
   F "version" (LString (bi_version i)); F "revision" (LString (bi_revision i)); F "created" (LString (bi_created i))].

(** * The outside of a run *)

(** What becomes of the pool and of its ping, with the messages of the errors. *)
Inductive database_start :=
  | PoolFailed (message : string)
  | PingFailed (elapsed : duration) (message : string)
  | Connected (elapsed : duration) (maxConnections : Z).

(** What the [select] of [main] gets: a signal, or the end of [ListenAndServe].  The
    listener runs beside it, so that after an early signal its record may come at any
    later place, or not at all. *)
Inductive served :=
  | Signal (reason : string) (started : option nat)
  | ServeEnded (message : string)
  | ServerClosed.

Record main_env := {
  me_files : files;
  me_dotenv : dotenv;
  me_environ : environ;
  me_console : console;
  me_message : startup_error -> string;
  me_database : database_start;
  me_info : build_info;
  me_served : served;
  me_shutdown : option string;
  me_uptime : duration;
}.

Definition startup_event (e : startup_error) : string :=
  match e with
  | ConfigFailed _ => "config.load_failed"
  | AuthConfigFailed _ => "auth.config_load_failed"
  | BillingConfigFailed _ => "billing.config_load_failed"
  | DatabaseFailed => "database.ping_failed"
  | PlayerProfilesFailed => "player_profile.service_configure_failed"
  | AuthFailed => "auth.configure_failed"
  | BillingProviderFailed => "billing.provider_configure_failed"
  | IngestAuthFailed _ => "ingest_auth.configure_failed"
  end.

Section lifecycle.
Context `{Unicode} `{Urls} `{Sha256}.

Definition bootstrap_logger (e : main_env) : Logger := NewLoggerWithFormat (me_console e) "auto" "text".

Definition failed_line (lg : Logger) (e : main_env) (x : startup_error) : log_line :=
  {| ll_logger := lg; ll_level := LevelError; ll_event := startup_event x; ll_fields := [F "error" (LError (me_message e x))] |}.

(** After the [select]. *)
Definition shutdown_lines (lg : Logger) (e : main_env) : list log_line :=
  match me_shutdown e with
  | Some message => [{| ll_logger := lg; ll_level := LevelError; ll_event := "api.shutdown_failed"; ll_fields := [F "error" (LError message)] |}]
  | None => [{| ll_logger := lg; ll_level := LevelSuccess; ll_event := "api.stopped";
               ll_fields := [F "uptime" (LDuration (Round (me_uptime e) (1000 * 1000)))] |}]
  end.

Definition insert_at {A} (n : nat) (x : A) (l : list A) : list A := take n l ++ x :: drop n l.

Definition serve_lines (lg : Logger) (e : main_env) (cfg : ConfigT) (auth : AuthConfig) (b : BillingConfig) (worker : bool)
    : list log_line :=
  let started := {| ll_logger := lg; ll_level := LevelInfo; ll_event := "api.started"; ll_fields := started_fields (me_info e) cfg auth b worker |} in
  match me_served e with
  | Signal reason place =>
      let lines :=
        {| ll_logger := lg; ll_level := LevelInfo; ll_event := "api.shutdown_requested"; ll_fields := [F "reason" (LError reason)] |}
        :: shutdown_lines lg e in
      match place with Some n => insert_at n started lines | None => lines end
  | ServeEnded message =>
      [started; {| ll_logger := lg; ll_level := LevelError; ll_event := "api.serve_failed"; ll_fields := [F "error" (LError message)] |}]
  | ServerClosed => started :: shutdown_lines lg e
  end.

(** From the database on. *)
Definition run_lines (lg : Logger) (e : main_env) (cfg : ConfigT) (auth : AuthConfig) (b : BillingConfig) : list log_line :=
  match me_database e with
  | PoolFailed message =>
      [{| ll_logger := lg; ll_level := LevelError; ll_event := "database.pool_create_failed"; ll_fields := [F "error" (LError message)] |}]
  | PingFailed elapsed message =>
      [{| ll_logger := lg; ll_level := LevelError; ll_event := startup_event DatabaseFailed;
          ll_fields := [F "duration_ms" (LFloat (durationMilliseconds elapsed)); F "error" (LError message)] |}]
  | Connected elapsed maxConnections =>
      {| ll_logger := lg; ll_level := LevelSuccess; ll_event := "database.connected";
         ll_fields := [F "duration_ms" (LFloat (durationMilliseconds elapsed)); F "max_connections" (LInt maxConnections)] |}
      :: match build cfg auth b with
         | Err x => [failed_line lg e x]
         | Ok sys => serve_lines lg e cfg auth b (bool_decide (is_Some (sy_billing sys)))
         end
  end.

(** [main]: every way out is a [return], so that the exit status is always 0. *)
Definition main_lines (e : main_env) : list log_line :=
  let fail x := [failed_line (bootstrap_logger e) e x] in
  match Load (me_files e) (me_dotenv e) (me_environ e) with
  | Err x => fail (ConfigFailed x)
  | Ok (cfg, env) =>
      match LoadAccountAuth env (AppEnv cfg) with
      | Err x => fail (AuthConfigFailed x)
      | Ok auth =>
          match LoadBilling (me_files e) env (AppEnv cfg) with
          | Err x => fail (BillingConfigFailed x)
          | Ok b => run_lines (NewLoggerWithFormat (me_console e) (LogColor cfg) (LogFormat cfg)) e cfg auth b
          end
      end
  end.

(** * What the log tells *)

Definition is_error (l : log_line) : Prop := ll_level l = LevelError.

Definition connected (e : main_env) : bool := match me_database e with Connected _ _ => true | _ => false end.

(** Whether serving ends as it should. *)
Definition ends_well (e : main_env) : Prop :=
  me_shutdown e = None /\ match me_served e with ServeEnded _ => False | _ => True end.

Lemma insert_at_perm {A} n (x : A) l : insert_at n x l ≡ₚ x :: l.
Proof. unfold insert_at. rewrite <- Permutation_middle. by rewrite take_drop. Qed.

Definition fine (lines : list log_line) : Prop := Forall (fun l => ~ is_error l) lines.

Definition stopped (lines : list log_line) : Prop := exists l, l ∈ lines /\ ll_event l = "api.stopped".

Lemma fine_cons l lines : ~ is_error l -> fine (l :: lines) <-> fine lines.
Proof. unfold fine. rewrite Forall_cons. tauto. Qed.

Lemma stopped_cons l lines : ll_event l <> "api.stopped" -> stopped (l :: lines) <-> stopped lines.
Proof.
  intros Hl. unfold stopped. split; intros (l' & Hin & He); exists l'; split; try done; [|by right].
  apply elem_of_cons in Hin as [->|]; done.
Qed.

Lemma shutdown_reports lg e :
  (me_shutdown e = None <-> fine (shutdown_lines lg e)) /\ (me_shutdown e = None <-> stopped (shutdown_lines lg e)).
Proof.
  unfold shutdown_lines, fine, stopped, is_error. destruct (me_shutdown e); split; split; try done.
  - by intros [Hf _]%Forall_cons.
  - by intros (l & ->%list_elem_of_singleton & ?).
  - intros _. by repeat constructor.
  - intros _. eexists. split; [by apply list_elem_of_singleton|done].
Qed.

Lemma serve_reports lg e cfg auth b worker :
  (ends_well e <-> fine (serve_lines lg e cfg auth b worker)) /\ (ends_well e <-> stopped (serve_lines lg e cfg auth b worker)).
Proof.
  destruct (shutdown_reports lg e) as [Hf Hs]. unfold serve_lines, ends_well. destruct (me_served e) as [reason place|message|].
  - assert (forall lines lines' : list log_line, lines ≡ₚ lines' -> (fine lines <-> fine lines') /\ (stopped lines <-> stopped lines')) as Hperm.
    { intros lines lines' Hp. unfold fine, stopped. split; [by rewrite Hp|]. by setoid_rewrite Hp. }
    destruct place as [n|].
    + destruct (Hperm _ _ (insert_at_perm n {| ll_logger := lg; ll_level := LevelInfo; ll_event := "api.started";
        ll_fields := started_fields (me_info e) cfg auth b worker |}
        ({| ll_logger := lg; ll_level := LevelInfo; ll_event := "api.shutdown_requested"; ll_fields := [F "reason" (LError reason)] |}
         :: shutdown_lines lg e))) as [-> ->].
      rewrite !fine_cons, !stopped_cons, <- Hf, <- Hs by done. tauto.
    + rewrite !fine_cons, !stopped_cons, <- Hf, <- Hs by done. tauto.
  - rewrite !stopped_cons by done. unfold fine, stopped. split; split; try (by intros [_ []]).
    + intros [_ [Hn _]%Forall_cons]%Forall_cons. by destruct Hn.
    + intros (l & Hl & _). by apply elem_of_nil in Hl.
  - rewrite fine_cons, stopped_cons, <- Hf, <- Hs by done. tauto.
Qed.

(** A run logs an error exactly when the server does not start, or does not end as it
    should; it is then the only one, and for what does not start the last record, named
    after the part that failed and with its message. *)
Theorem main_reports e :
  match startup (me_files e) (me_dotenv e) (me_environ e) (connected e) with
  | Err x =>
      exists before failed, main_lines e = before ++ [failed] /\ is_error failed /\ fine before /\
        (x <> DatabaseFailed -> ll_event failed = startup_event x /\ ll_fields failed = [F "error" (LError (me_message e x))])
  | Ok _ =>
      (ends_well e <-> fine (main_lines e)) /\
      (ends_well e <-> stopped (main_lines e))
  end.
Proof.
  unfold startup, main_lines.
  destruct (Load _ _ _) as [[cfg env]|x]; cbn [rmap_err rbind]; [|exists [], (failed_line (bootstrap_logger e) e (ConfigFailed x)); by repeat constructor].
  destruct (LoadAccountAuth env (AppEnv cfg)) as [auth|x]; cbn [rmap_err rbind];
    [|exists [], (failed_line (bootstrap_logger e) e (AuthConfigFailed x)); by repeat constructor].
  destruct (LoadBilling _ env (AppEnv cfg)) as [b|x]; cbn [rmap_err rbind];
    [|exists [], (failed_line (bootstrap_logger e) e (BillingConfigFailed x)); by repeat constructor].
  unfold run_lines, connected. destruct (me_database e) as [message|elapsed message|elapsed maxc]; cbn [negb rbind].
  - eexists [], _. split_and!; [reflexivity|done|by constructor|by intros []].
  - eexists [], _. split_and!; [reflexivity|done|by constructor|by intros []].
  - destruct (build cfg auth b) as [sys|x].
    + rewrite fine_cons, stopped_cons by done. apply serve_reports.
    + eexists [_], (failed_line _ e x). by repeat constructor.
Qed.

(** What the configuration has of secrets: the address of the database, the tokens and
    the keys of the provider. *)
Definition public_config (c : ConfigT) : ConfigT :=
  {| AppEnv := AppEnv c; HTTPAddr := HTTPAddr c; DatabaseURL := EmptyString;
     ReadTimeout := ReadTimeout c; ReadHeaderTimeout := ReadHeaderTimeout c; WriteTimeout := WriteTimeout c;
     IdleTimeout := IdleTimeout c; MaxHeaderBytes := MaxHeaderBytes c;
     IngestCredentials := []; IngestCredentialSources := IngestCredentialSources c; IngestRequireHTTPS := IngestRequireHTTPS c;
     MaxIngestBodyBytes := MaxIngestBodyBytes c; MaxPublicBodyBytes := MaxPublicBodyBytes c;
     CORSAllowedOrigins := CORSAllowedOrigins c; RateLimitEnabled := RateLimitEnabled c;
     RateLimitRequestsPerSec := RateLimitRequestsPerSec c; RateLimitBurst := RateLimitBurst c;
     RateLimitClientTTL := RateLimitClientTTL c; TrustProxy := TrustProxy c; LogColor := LogColor c; LogFormat := LogFormat c |}.

(** Two servers that start with configurations that differ only in their secrets log the
    same, but for the messages of the errors of others. *)
Theorem secrets_not_logged lg e c1 c2 auth b1 b2 s1 s2 :
  public_config c1 = public_config c2 ->
  bc_Enabled b1 = bc_Enabled b2 -> bc_Provider b1 = bc_Provider b2 -> bc_TestMode b1 = bc_TestMode b2 ->
  build c1 auth b1 = Ok s1 -> build c2 auth b2 = Ok s2 ->
  run_lines lg e c1 auth b1 = run_lines lg e c2 auth b2.
Proof.
  intros Hc He Hp Ht Hs1 Hs2.
  assert (forall c b s, build c auth b = Ok s -> bool_decide (is_Some (sy_billing s)) = bc_Enabled b) as Hw.
  { intros c b s Hb. unfold build in Hb. apply rbind_ok in Hb as (? & _ & Hb). apply rbind_ok in Hb as (? & _ & Hb).
    apply rbind_ok in Hb as (p & Hp' & Hb). apply rbind_ok in Hb as (? & _ & [= <-]). cbn [sy_billing].
    unfold configure_billing in Hp'. destruct (bc_Enabled b); cbn [negb] in Hp'; [|by injection Hp' as <-].
    apply rbind_ok in Hp' as (? & _ & [= <-]). done. }
  unfold run_lines, serve_lines. rewrite Hs1, Hs2, (Hw _ _ _ Hs1), (Hw _ _ _ Hs2), He. unfold started_fields. rewrite He, Hp, Ht.
  unfold public_config in Hc. injection Hc. intros. repeat match goal with X : _ c1 = _ c2 |- _ => rewrite X; clear X end. done.
Qed.
End lifecycle.
