(* ===== verification/RequestJson.v ===== *)
(** The fingerprint of an ingestion request: what [canonicalRequestHash] and
    [canonicalHistoryRequestHash] of [internal/repository] hash is the request as
    [encoding/json] writes it.  The text is read back as the request, so that two requests
    have the same fingerprint only if they are equal or SHA-256 collides on their two
    texts.  With the real encoding, history requests are followed end to end: through the
    service, the repository and the tables. *)
From S2P Require Import Prelude GoLists GoBase Float64 Dates Strconv Domain Utf8 Json DomainJson Tx Lww MarketService MarketServiceSpec HistoryService HistoryServiceSpec PgxRepository PriceRepo PriceRepoSpec HistoryRepo HistoryRepoSpec Exposition ExpositionSpec Marshal MarshalSpec Logger LoggerSpec.
Local Open Scope Z_scope.

(** * The code *)

(** [Time.MarshalJSON] of an instant in UTC: the year must have four digits.  The offsets
    that a client may write in a price request are not modelled. *)
Definition time_json (t : time) : option jvalue :=
  if (- 719528 <=? day_of t) && (day_of t <? day_number 10000 1 1) then Some (VString (FormatRFC3339Nano t)) else None.

(** A pointer. *)
Definition pointer_json {A} (f : A -> option jvalue) (o : option A) : option jvalue :=
  match o with Some x => f x | None => Some VNull end.

Definition int_json (n : Z) : option jvalue := Some (VInt n).

Definition price_entry_json (e : PriceIngest) : option jvalue :=
  observed ← time_json (pi_ObservedAt e);
  sell ← pointer_json int_json (pi_SellPriceMin e);
  sellAt ← pointer_json time_json (pi_SellPriceMinAt e);
  buy ← pointer_json int_json (pi_BuyPriceMax e);
  buyAt ← pointer_json time_json (pi_BuyPriceMaxAt e);
  Some (VObject
    [("observed_at", observed); ("location_id", VInt (pi_LocationID e)); ("item_key", VString (pi_ItemKey e));
     ("quality", VInt (pi_Quality e)); ("sell_price_min", sell); ("sell_price_min_at", sellAt);
     ("buy_price_max", buy); ("buy_price_max_at", buyAt)]).

(** The slices of a request that is hashed are not nil. *)
Definition price_request_json (r : IngestPricesRequest) : option jvalue :=
  entries ← mapM price_entry_json (ip_Entries r);
  Some (VObject [("request_id", VString (ip_RequestID r)); ("server", VString (ip_Server r)); ("entries", VArray entries)]).

Definition bucket_json (b : HistoryBucketIngest) : option jvalue :=
  timestamp ← time_json (hb_Timestamp b);
  average ← pointer_json int_json (hb_AverageUnitPrice b);
  Some (VObject [("timestamp", timestamp); ("item_count", VInt (hb_ItemCount b)); ("average_unit_price", average)]).

Definition history_entry_json (e : HistoryIngest) : option jvalue :=
  observed ← time_json (hi_ObservedAt e);
  history ← mapM bucket_json (hi_History e);
  Some (VObject
    [("observed_at", observed); ("location_id", VInt (hi_LocationID e)); ("item_key", VString (hi_ItemKey e));
     ("quality", VInt (hi_Quality e)); ("history", VArray history)]).

Definition history_request_json (r : IngestHistoryRequest) : option jvalue :=
  entries ← mapM history_entry_json (ih_Entries r);
  Some (VObject [("request_id", VString (ih_RequestID r)); ("server", VString (ih_Server r)); ("entries", VArray entries)]).

(** The encoding the repositories use, over the parser of identifiers of [pgtype]. *)
Definition json_encoding (scan : string -> option string) : RequestEncoding := {|
  marshal_prices r := price_request_json r ≫= Marshal;
  marshal_history r := history_request_json r ≫= Marshal;
  scanUUID := scan;
|}.

(** * Numbers *)

Lemma decimal_digits_go n s k :
  exists k', decimal_digits (pretty_N_go n s) 0 k = decimal_digits s (Z.of_N n) k'.
Proof.
  revert s k. induction (N.lt_wf_0 n) as [n _ IH]; intros s k. destruct (N.eq_0_gt_0_cases n) as [->|Hn].
  { rewrite pretty_N_go_0. by exists k. }
  rewrite pretty_N_go_step by done.
  destruct (IH (n `div` 10)%N ltac:(apply N.div_lt; lia) (String (pretty_N_char (n `mod` 10)) s) k) as [k' ->].
  exists (S k'). cbn [decimal_digits]. pose proof (pretty_N_char_digit (n `mod` 10)) as Hd. unfold digit_char in Hd. rewrite Hd.
  f_equal. assert (forall d, (d < 10)%N -> byte_val (pretty_N_char d) - 48 = Z.of_N d) as Hv.
  { intros d Hd'. assert (d = 0 \/ d = 1 \/ d = 2 \/ d = 3 \/ d = 4 \/ d = 5 \/ d = 6 \/ d = 7 \/ d = 8 \/ d = 9)%N as Hc by lia.
    repeat (destruct Hc as [->|Hc]; [reflexivity|]). by subst d. }
  rewrite Hv by (apply N.mod_lt; lia). pose proof (N.Div0.div_mod n 10). lia.
Qed.

Lemma parse_int_FormatInt n : parse_int_literal (FormatInt n) = Some n.
Proof.
  assert (forall p, exists k, decimal_digits (FormatInt (Z.pos p)) 0 0 = (Z.pos p, k, EmptyString)) as Hp.
  { intros p. change (FormatInt (Z.pos p)) with (pretty_N_go (N.pos p) EmptyString).
    destruct (decimal_digits_go (N.pos p) EmptyString 0) as [k ->]. by exists k. }
  destruct n as [|p|p]; [done| |].
  - destruct (Hp p) as [k Hk]. destruct (FormatInt_pos (Z.pos p) ltac:(lia)) as [(c & t & Hct & Hc & _) _].
    unfold parse_int_literal. rewrite Hct in *. rewrite bool_decide_eq_false_2 by (by intros ->). by rewrite Hk.
  - destruct (Hp p) as [k Hk]. destruct (FormatInt_pos (Z.pos p) ltac:(lia)) as [(c & t & Hct & Hc & _) _].
    change (FormatInt (Z.neg p)) with (String "-" (FormatInt (Z.pos p))). unfold parse_int_literal. cbn [bool_decide]. rewrite bool_decide_eq_true_2 by done.
    rewrite Hct in *. by rewrite Hk.
Qed.

(** * Texts *)

Lemma append_nil_l s : EmptyString +:+ s = s.
Proof. reflexivity. Qed.

Lemma substring_first n s : String.substring 0 (String.length s) (s +:+ n) = s.
Proof. induction s as [|c s IH]; [by destruct n|]. rewrite append_cons. simpl. by rewrite IH. Qed.

Lemma substring_all s : String.substring 0 (String.length s) s = s.
Proof. induction s as [|c s IH]; [done|]. simpl. by rewrite IH. Qed.

Lemma substring_after s t : String.substring (String.length s) (String.length t) (s +:+ t) = t.
Proof. induction s as [|c s IH]; [apply substring_all|]. rewrite append_cons. simpl. exact IH. Qed.

(** Characters that stand for themselves in a JSON string. *)
Definition literal (c : ascii) : bool := digit_char c || bool_decide (c ∈ ["-"; "T"; ":"; "."; "Z"]%char).

Lemma literal_ascii c : literal c = true -> in_range 0 127 c = true /\ escape_ascii c = String c EmptyString.
Proof.
  unfold literal. intros [Hc|Hc]%orb_true_iff.
  - unfold digit_char in Hc. apply in_range_true in Hc. unfold escape_ascii.
    assert (forall lo hi, byte_val c < lo \/ hi < byte_val c -> in_range lo hi c = false) as Hr
      by (intros lo hi Hx; apply not_true_iff_false; rewrite in_range_true; lia).
    rewrite in_range_true. split; [lia|]. by rewrite !Hr by lia.
  - apply bool_decide_eq_true in Hc. set_unfold in Hc. destruct_or? Hc; subst; try done.
Qed.

Lemma escape_literal s : str_all literal s = true -> escape_string s = s.
Proof.
  unfold escape_string. enough (forall n s, (String.length s <= n)%nat -> str_all literal s = true -> escape_fuel n s = s) as Hx by (by apply Hx).
  induction n as [|n IH]; intros [|c t] Hn Hs; try done; [simpl in Hn; lia|].
  cbn [str_all] in Hs. apply andb_true_iff in Hs as [Hc Ht]. apply literal_ascii in Hc as [Ha He]. cbn [escape_fuel].
  rewrite decode_rune_ascii, Ha, He by done. cbn [String.length] in Hn. rewrite append_cons. f_equal. apply IH; [lia|done].
Qed.

Lemma inner_quote s : str_all literal s = true -> inner_text (quote_string s) = s.
Proof.
  intros Hs. unfold inner_text, quote_string. rewrite escape_literal by done. cbn [String.length]. rewrite string_app_length. cbn [String.length].
  replace (S (String.length s + 1) - 2)%nat with (String.length s) by lia. change (String.substring 1 (String.length s) (String "034" (s +:+ String "034" EmptyString)))
    with (String.substring 0 (String.length s) (s +:+ String "034" EmptyString)). apply substring_first.
Qed.

(** * Times *)

(** The value of digits after the value of what precedes them. *)
Definition digits_after (n : Z) (s : string) : Z := fst (fst (decimal_digits s n 0)).

Lemma decimal_digits_count s n k k' : fst (fst (decimal_digits s n k)) = fst (fst (decimal_digits s n k')).
Proof. revert n k k'. induction s as [|c s IH]; intros n k k'; [done|]. cbn [decimal_digits]. by destruct (in_range 48 57 c). Qed.

Lemma digits_after_app n s t : str_all digit_char s = true -> digits_after n (s +:+ t) = digits_after (digits_after n s) t.
Proof.
  unfold digits_after. revert n. induction s as [|c s IH]; intros n Hs; [done|]. cbn [str_all] in Hs. apply andb_true_iff in Hs as [Hc Hs].
  rewrite append_cons. cbn [decimal_digits]. unfold digit_char in Hc. rewrite Hc.
  rewrite (decimal_digits_count _ _ 1 0), IH by done. by rewrite (decimal_digits_count s _ 1 0).
Qed.

Lemma FormatInt_digit d : 0 <= d <= 9 -> FormatInt d = String (Dates.digit_char d) EmptyString.
Proof.
  intros Hd. assert (d = 0 \/ d = 1 \/ d = 2 \/ d = 3 \/ d = 4 \/ d = 5 \/ d = 6 \/ d = 7 \/ d = 8 \/ d = 9) as Hc by lia.
  repeat (destruct Hc as [->|Hc]; [reflexivity|]). by subst d.
Qed.

Lemma digit_char_of d : 0 <= d <= 9 -> digit_char (Dates.digit_char d) = true /\ byte_val (Dates.digit_char d) - 48 = d.
Proof.
  intros Hd. unfold digit_char, Dates.digit_char. rewrite in_range_true, byte_val_byte by lia. lia.
Qed.

Lemma fmtFrac_all p v acc :
  0 <= v < 10 ^ Z.of_nat p ->
  exists ds, fst (fmtFrac p v true acc) = "." +:+ ds +:+ acc /\ str_all digit_char ds = true /\ String.length ds = p /\
    forall n, digits_after n ds = n * 10 ^ Z.of_nat p + v.
Proof.
  revert v acc. induction p as [|p IH]; intros v acc Hv.
  { exists EmptyString. split_and!; [done|done|done|]. intros n. change (10 ^ Z.of_nat 0) with 1 in *. unfold digits_after. cbn. lia. }
  rewrite Nat2Z.inj_succ, Z.pow_succ_r in Hv by lia. pose proof (Z.mod_pos_bound v 10 ltac:(lia)) as Hd.
  pose proof (Z.div_mod v 10 ltac:(lia)) as Hvd. cbn [fmtFrac]. rewrite orb_true_l.
  destruct (IH (v / 10) (FormatInt (v mod 10) +:+ acc) ltac:(split; [apply Z.div_pos; lia|apply Z.div_lt_upper_bound; lia]))
    as (ds & -> & Hds & Hlen & Hval).
  rewrite FormatInt_digit by lia. destruct (digit_char_of (v mod 10) ltac:(lia)) as [Hc Hb].
  exists (ds +:+ String (Dates.digit_char (v mod 10)) EmptyString). split_and!.
  - by rewrite !app_assoc_string.
  - rewrite str_all_app, Hds. simpl. by rewrite Hc.
  - rewrite string_app_length, Hlen. simpl. lia.
  - intros n. rewrite digits_after_app, Hval by done. unfold digits_after. cbn [decimal_digits]. unfold digit_char in Hc. rewrite Hc, Hb.
    cbn [fst]. rewrite Nat2Z.inj_succ, Z.pow_succ_r by lia. lia.
Qed.

Lemma fmtFrac_value p v :
  0 <= v < 10 ^ Z.of_nat p ->
  (v = 0 /\ fst (fmtFrac p v false EmptyString) = EmptyString) \/
  exists ds, fst (fmtFrac p v false EmptyString) = "." +:+ ds /\ str_all digit_char ds = true /\ (0 < String.length ds <= p)%nat /\
    digits_after 0 ds * 10 ^ (Z.of_nat p - str_len ds) = v.
Proof.
  revert v. induction p as [|p IH]; intros v Hv.
  { left. change (10 ^ Z.of_nat 0) with 1 in Hv. split; [lia|done]. }
  pose proof Hv as Hv'. rewrite Nat2Z.inj_succ, Z.pow_succ_r in Hv by lia. pose proof (Z.div_mod v 10 ltac:(lia)) as Hvd.
  pose proof (Z.mod_pos_bound v 10 ltac:(lia)) as Hd.
  assert (0 <= v / 10 < 10 ^ Z.of_nat p) as Hq by (split; [apply Z.div_pos; lia|apply Z.div_lt_upper_bound; lia]).
  cbn [fmtFrac]. rewrite orb_false_l. destruct (Z.eqb_spec (v mod 10) 0) as [Hz|Hz]; cbn [negb].
  - destruct (IH (v / 10) Hq) as [[Hv0 ->]|(ds & -> & Hds & Hlen & Hval)]; [left; split; [lia|done]|right].
    exists ds. split_and!; [done|done|lia|lia|]. rewrite Nat2Z.inj_succ. unfold str_len in *.
    replace (Z.succ (Z.of_nat p) - Z.of_nat (String.length ds)) with (Z.succ (Z.of_nat p - Z.of_nat (String.length ds))) by lia.
    rewrite Z.pow_succ_r by lia. lia.
  - right. destruct (fmtFrac_all p (v / 10) (FormatInt (v mod 10) +:+ EmptyString) Hq) as (ds & -> & Hds & Hlen & Hval).
    rewrite FormatInt_digit by lia. destruct (digit_char_of (v mod 10) ltac:(lia)) as [Hc Hb].
    exists (ds +:+ String (Dates.digit_char (v mod 10)) EmptyString). unfold str_len. rewrite string_app_length, Hlen. cbn [String.length].
    split_and!; [done| |lia|lia|].
    + rewrite str_all_app, Hds. simpl. by rewrite Hc.
    + replace (Z.of_nat (S p) - Z.of_nat (p + 1)) with 0 by lia. rewrite digits_after_app, Hval by done. unfold digits_after. cbn [decimal_digits].
      unfold digit_char in Hc. rewrite Hc, Hb. cbn [fst]. lia.
Qed.

(** A fraction and the zone are read back. *)
Lemma nanoseconds_fraction v :
  0 <= v < second -> nanoseconds (fst (fmtFrac 9 v false EmptyString) +:+ "Z") = (v, "Z").
Proof.
  intros Hv. destruct (fmtFrac_value 9 v Hv) as [[-> ->]|(ds & -> & Hds & Hlen & Hval)]; [done|].
  change (("." +:+ ds) +:+ "Z") with (String "." (ds +:+ "Z")). unfold nanoseconds. rewrite scan_digits_all by done.
  rewrite bool_decide_eq_true_2, orb_true_l by done. destruct ds as [|c ds']; [simpl in Hlen; lia|].
  cbn [is_empty negb andb]. set (ds := String c ds') in *.
  assert (String.substring 0 9 ds = ds) as Hsub.
  { clear -Hlen. revert Hlen. generalize 9%nat. clearbody ds. induction ds as [|a s IH]; intros n [_ Hn]; [by destruct n|].
    destruct n as [|n]; [simpl in Hn; lia|]. simpl. f_equal. destruct s as [|b s]; [by destruct n|]. apply IH. simpl in *. lia. }
  rewrite Hsub. f_equal. exact Hval.
Qed.

Lemma format_two_digits n : 0 <= n <= 99 ->
  format_two n = String (Dates.digit_char (n / 10)) (String (Dates.digit_char (n mod 10)) EmptyString) /\
  two_digits (Dates.digit_char (n / 10)) (Dates.digit_char (n mod 10)) = Some n.
Proof.
  intros Hn. split; [done|]. unfold two_digits.
  rewrite !digit_value_char by (Z.to_euclidean_division_equations; lia). simpl. f_equal. Z.to_euclidean_division_equations; lia.
Qed.

Lemma parse_clock_format h m s rest :
  0 <= h <= 23 -> 0 <= m <= 59 -> 0 <= s <= 59 ->
  parse_clock (format_two h +:+ ":" +:+ format_two m +:+ ":" +:+ format_two s +:+ rest) = Some ((h * 60 + m) * 60 + s, rest).
Proof.
  intros Hh Hm Hs. destruct (format_two_digits m ltac:(lia)) as [-> Hm2], (format_two_digits s ltac:(lia)) as [-> Hs2].
  destruct (format_two_digits h ltac:(lia)) as [-> _]. unfold parse_clock.
  rewrite !append_cons, !append_nil_l. cbn [hour_of].
  rewrite !digit_value_char by (Z.to_euclidean_division_equations; lia). cbn [mbind option_bind].
  rewrite Hm2. cbn [mbind option_bind]. rewrite Hs2. cbn [mbind option_bind].
  replace (10 * (h / 10) + h mod 10) with h by (Z.to_euclidean_division_equations; lia).
  assert (h <=? 23 = true /\ m <=? 59 = true /\ s <=? 59 = true) as (-> & -> & ->) by (rewrite !Z.leb_le; lia). done.
Qed.

(** An instant is read back from its text. *)
Lemma ParseRFC3339_format t : four_digit_year t -> ParseRFC3339 (FormatRFC3339Nano t) = Some t.
Proof.
  intros Ht. unfold ParseRFC3339, FormatRFC3339Nano. cbv zeta.
  set (clock := t mod day / second). set (frac := fst (fmtFrac 9 (t mod second) false EmptyString)).
  set (tail := "T" +:+ _).
  assert (String.length (format_day (day_of t)) = 10%nat) as Hlen.
  { unfold format_day. by destruct (date_of_day (day_of t)) as [[y m] d]. }
  rewrite string_app_length, Hlen. replace (10 + String.length tail - 10)%nat with (String.length tail) by lia.
  replace (String.substring 0 10 _) with (format_day (day_of t)) by (rewrite <- Hlen; by rewrite substring_first).
  rewrite ParseDate_format_day by exact Ht. replace (String.substring 10 _ _) with tail by (rewrite <- Hlen; by rewrite substring_after).
  cbn [mbind option_bind]. unfold tail. rewrite append_cons. rewrite bool_decide_eq_true_2 by done.
  assert (0 <= clock < 86400) as Hc.
  { unfold clock. pose proof (Z.mod_pos_bound t day ltac:(done)). unfold day, hour, minute, second in *. Z.to_euclidean_division_equations; lia. }
  match goal with |- context [parse_clock ?s] => assert (parse_clock s = Some (clock, frac +:+ "Z")) as -> end.
  { rewrite append_nil_l, parse_clock_format by (Z.to_euclidean_division_equations; lia). f_equal. f_equal.
    Z.to_euclidean_division_equations; lia. }
  cbn [mbind option_bind]. unfold frac. rewrite nanoseconds_fraction by (apply Z.mod_pos_bound; done).
  change (zone_offset "Z") with (Some 0). cbn [mbind option_bind]. f_equal. unfold clock, day_of. clear -t.
  pose proof (Z.div_mod t day ltac:(done)) as H1. pose proof (Z.div_mod (t mod day) second ltac:(done)) as H2.
  assert ((t mod day) mod second = t mod second) as H3.
  { rewrite H1 at 2. replace (day * (t / day) + t mod day) with (t mod day + (t / day * 86400) * second) by (unfold day, hour, minute, second; lia).
    by rewrite Z.mod_add by done. }
  rewrite H3 in H2. rewrite Z.sub_0_r. lia.
Qed.

Lemma FormatRFC3339Nano_literal t : four_digit_year t -> str_all literal (FormatRFC3339Nano t) = true.
Proof.
  intros Ht. assert (forall z, 0 <= z <= 9 -> literal (Dates.digit_char z) = true) as Hd
    by (intros z Hz; unfold literal; by destruct (digit_char_of z Hz) as [-> _]).
  assert (forall n, 0 <= n <= 99 -> str_all literal (format_two n) = true) as H2.
  { intros n Hn. unfold format_two. cbn [of_bytes str_all]. rewrite !Hd by (Z.to_euclidean_division_equations; lia). done. }
  unfold FormatRFC3339Nano. cbv zeta. rewrite !str_all_app.
  assert (0 <= t mod day / second < 86400) as Hc.
  { pose proof (Z.mod_pos_bound t day ltac:(done)). unfold day, hour, minute, second in *. Z.to_euclidean_division_equations; lia. }
  rewrite !H2 by (Z.to_euclidean_division_equations; lia).
  assert (str_all literal (fst (fmtFrac 9 (t mod second) false EmptyString)) = true) as ->.
  { destruct (fmtFrac_value 9 (t mod second) (Z.mod_pos_bound t second ltac:(done))) as [[_ ->]|(ds & -> & Hds & _)]; [done|].
    rewrite str_all_app. apply andb_true_iff. split; [done|]. revert Hds. apply str_all_impl. intros c Hc'. unfold literal. by rewrite Hc'. }
  pose proof (ParseDate_format_day (day_of t) Ht) as Hp. unfold ParseDate in Hp.
  destruct (parse_date (format_day (day_of t))) as [[[y m] dd]|] eqn:E; [|done]. clear Hp. apply parse_date_Some in E as [-> Hv].
  apply valid_date_spec in Hv. unfold format_date. cbn [of_bytes str_all]. pose proof (days_in_bounds m y).
  rewrite !Hd; [done|..]; Z.to_euclidean_division_equations; lia.
Qed.

(** * Requests *)

(** A value is decoded to [a], whatever the destination holds. *)
Definition reads {A} (d : decoder A) (v : jvalue) (a : A) : Prop := forall cur, d cur (shown v) (text_of v) = Some a.

Lemma reads_string s : ValidString s = true -> reads dec_string (VString s) s.
Proof. intros Hs cur. simpl. by rewrite coerce_utf8_valid. Qed.

Lemma reads_int lo hi n : lo <= n <= hi -> reads (dec_int lo hi) (VInt n) n.
Proof. intros [Hlo Hhi] cur. simpl. rewrite parse_int_FormatInt. apply Z.leb_le in Hlo, Hhi. by rewrite Hlo, Hhi. Qed.

Lemma time_json_some t v : time_json t = Some v -> four_digit_year t /\ v = VString (FormatRFC3339Nano t).
Proof.
  unfold time_json, four_digit_year. destruct (_ <=? _) eqn:H1; [|done]. destruct (_ <? _) eqn:H2; [|done]. intros [= <-].
  apply Z.leb_le in H1. apply Z.ltb_lt in H2. by split.
Qed.

Lemma reads_time t v : time_json t = Some v -> reads dec_time v t.
Proof.
  intros [Ht ->]%time_json_some cur.
  change (ParseRFC3339 (inner_text (quote_string (FormatRFC3339Nano t))) = Some t).
  rewrite inner_quote by (by apply FormatRFC3339Nano_literal). by apply ParseRFC3339_format.
Qed.

Lemma reads_pointer {A} (zero : A) (d : decoder A) f o v :
  pointer_json f o = Some v -> (forall a u, o = Some a -> f a = Some u -> reads d u a /\ shown u <> JNull) ->
  reads (dec_pointer zero d) v o.
Proof.
  intros Hp Ho cur. destruct o as [a|]; simpl in Hp; [|by injection Hp as <-].
  destruct (Ho a v eq_refl Hp) as [Hr Hn]. unfold dec_pointer. destruct (shown v) eqn:Hs; try done;
    rewrite <- Hs; specialize (Hr (default zero cur)); by rewrite Hr.
Qed.

Lemma reads_slice {A} (zero : A) (d : decoder A) vs l : Forall2 (reads d) vs l -> reads (dec_slice zero d) (VArray vs) l.
Proof.
  intros Hl cur. unfold dec_slice. cbn [shown]. revert cur.
  induction Hl as [|v a vs l Hv Hl IH]; intros cur; [done|]. cbn [map dec_elements]. rewrite Hv. cbn [mbind option_bind]. by rewrite IH.
Qed.

Lemma mapM_Forall2 {A B} (f : A -> option B) l vs : mapM f l = Some vs -> Forall2 (fun a v => f a = Some v) l vs.
Proof. apply mapM_Some_1. Qed.

(** What the fields of a request hold that is decoded: integers of their width, and texts
    in which the decoder has replaced what is not UTF-8. *)
Definition int16 (n : Z) : Prop := - 2 ^ 15 <= n <= 2 ^ 15 - 1.
Definition int64 (n : Z) : Prop := min_int64 <= n <= max_int64.

Definition price_entry_ok (e : PriceIngest) : Prop :=
  int16 (pi_LocationID e) /\ ValidString (pi_ItemKey e) = true /\ int16 (pi_Quality e) /\
  (forall n, pi_SellPriceMin e = Some n -> int64 n) /\ (forall n, pi_BuyPriceMax e = Some n -> int64 n).

Definition price_request_ok (r : IngestPricesRequest) : Prop :=
  ValidString (ip_RequestID r) = true /\ ValidString (ip_Server r) = true /\ Forall price_entry_ok (ip_Entries r).

Definition bucket_ok (b : HistoryBucketIngest) : Prop :=
  int64 (hb_ItemCount b) /\ forall n, hb_AverageUnitPrice b = Some n -> int64 n.

Definition history_entry_ok (e : HistoryIngest) : Prop :=
  int16 (hi_LocationID e) /\ ValidString (hi_ItemKey e) = true /\ int16 (hi_Quality e) /\ Forall bucket_ok (hi_History e).

Definition history_request_ok (r : IngestHistoryRequest) : Prop :=
  ValidString (ih_RequestID r) = true /\ ValidString (ih_Server r) = true /\ Forall history_entry_ok (ih_Entries r).

Section decoding.
Context `{Unicode}.

Lemma dec_member {A B} (fs : fields A) (get : A -> B) set (d : decoder B) key v b cur l :
  reads d v b -> find_field fs key = Some (field get set d) ->
  dec_members fs cur ((key, (shown v, text_of v)) :: l) = dec_members fs (set b cur) l.
Proof. intros Hd Hf. cbn [dec_members]. rewrite Hf. cbn [mbind option_bind]. unfold field. by rewrite Hd. Qed.

(** A member of an object, by what its value is read as. *)
Ltac member R := erewrite (dec_member _ _ _ _ _ _ _ _ _ R) by reflexivity.

Lemma reads_opt_int o v : pointer_json int_json o = Some v -> (forall n, o = Some n -> int64 n) -> reads opt_int64 v o.
Proof.
  intros Hp Ho. eapply reads_pointer; [exact Hp|]. intros n u Hn [= <-]. split; [|done]. by apply reads_int, Ho.
Qed.

Lemma reads_opt_time o v : pointer_json time_json o = Some v -> reads opt_time v o.
Proof.
  intros Hp. eapply reads_pointer; [exact Hp|]. intros t u _ Hu. split; [by apply reads_time|]. by apply time_json_some in Hu as [_ ->].
Qed.

Lemma reads_price_entry e v : price_entry_json e = Some v -> price_entry_ok e -> reads dec_PriceIngest v e.
Proof.
  intros Hv (Hl & Hi & Hq & Hs & Hb) cur. unfold price_entry_json in Hv.
  destruct (time_json (pi_ObservedAt e)) as [o|] eqn:Ho; [|done]. destruct (pointer_json int_json (pi_SellPriceMin e)) as [s|] eqn:Es; [|done].
  destruct (pointer_json time_json (pi_SellPriceMinAt e)) as [sa|] eqn:Esa; [|done].
  destruct (pointer_json int_json (pi_BuyPriceMax e)) as [b|] eqn:Eb; [|done].
  destruct (pointer_json time_json (pi_BuyPriceMaxAt e)) as [ba|] eqn:Eba; [|done]. cbn [mbind option_bind] in Hv. injection Hv as <-.
  unfold dec_PriceIngest, dec_struct. cbn [shown map]. destruct cur as [o0 l0 i0 q0 s0 sa0 b0 ba0].
  member (reads_time _ _ Ho). member (reads_int _ _ _ Hl). member (reads_string _ Hi). member (reads_int _ _ _ Hq).
  member (reads_opt_int _ _ Es Hs). member (reads_opt_time _ _ Esa). member (reads_opt_int _ _ Eb Hb). member (reads_opt_time _ _ Eba).
  by destruct e.
Qed.

Lemma reads_bucket b v : bucket_json b = Some v -> bucket_ok b -> reads dec_HistoryBucketIngest v b.
Proof.
  intros Hv [Hn Ha] cur. unfold bucket_json in Hv. destruct (time_json (hb_Timestamp b)) as [t|] eqn:Ht; [|done].
  destruct (pointer_json int_json (hb_AverageUnitPrice b)) as [a|] eqn:Ea; [|done]. cbn [mbind option_bind] in Hv. injection Hv as <-.
  unfold dec_HistoryBucketIngest, dec_struct. cbn [shown map]. destruct cur as [t0 n0 p0].
  member (reads_time _ _ Ht). member (reads_int _ _ _ Hn). member (reads_opt_int _ _ Ea Ha). by destruct b.
Qed.

Lemma reads_all {A} (d : decoder A) (f : A -> option jvalue) (ok : A -> Prop) l vs :
  (forall a v, f a = Some v -> ok a -> reads d v a) -> mapM f l = Some vs -> Forall ok l -> Forall2 (reads d) vs l.
Proof.
  intros Hf Hm Hok. apply mapM_Forall2 in Hm. induction Hm as [|a v l vs Hv _ IH]; [constructor|].
  apply Forall_cons in Hok as [Ha Hok]. constructor; auto.
Qed.

Lemma reads_history_entry e v : history_entry_json e = Some v -> history_entry_ok e -> reads dec_HistoryIngest v e.
Proof.
  intros Hv (Hl & Hi & Hq & Hh) cur. unfold history_entry_json in Hv.
  destruct (time_json (hi_ObservedAt e)) as [o|] eqn:Ho; [|done]. destruct (mapM bucket_json (hi_History e)) as [h|] eqn:Eh; [|done].
  cbn [mbind option_bind] in Hv. injection Hv as <-. unfold dec_HistoryIngest, dec_struct. cbn [shown map]. destruct cur as [o0 l0 i0 q0 h0].
  member (reads_time _ _ Ho). member (reads_int _ _ _ Hl). member (reads_string _ Hi). member (reads_int _ _ _ Hq).
  pose proof (reads_slice zero_bucket _ _ _ (reads_all _ _ _ _ _ reads_bucket Eh Hh)) as R. member R. by destruct e.
Qed.

Lemma reads_price_request r v : price_request_json r = Some v -> price_request_ok r -> reads dec_IngestPricesRequest v r.
Proof.
  intros Hv (Hid & Hs & He) cur. unfold price_request_json in Hv. destruct (mapM price_entry_json (ip_Entries r)) as [es|] eqn:Ee; [|done].
  cbn [mbind option_bind] in Hv. injection Hv as <-. unfold dec_IngestPricesRequest, dec_struct. cbn [shown map].
  member (reads_string _ Hid). member (reads_string _ Hs).
  pose proof (reads_slice zero_PriceIngest _ _ _ (reads_all _ _ _ _ _ reads_price_entry Ee He)) as R. member R. by destruct r.
Qed.

Lemma reads_history_request r v : history_request_json r = Some v -> history_request_ok r -> reads dec_IngestHistoryRequest v r.
Proof.
  intros Hv (Hid & Hs & He) cur. unfold history_request_json in Hv. destruct (mapM history_entry_json (ih_Entries r)) as [es|] eqn:Ee; [|done].
  cbn [mbind option_bind] in Hv. injection Hv as <-. unfold dec_IngestHistoryRequest, dec_struct. cbn [shown map].
  member (reads_string _ Hid). member (reads_string _ Hs).
  pose proof (reads_slice zero_HistoryIngest _ _ _ (reads_all _ _ _ _ _ reads_history_entry Ee He)) as R. member R. by destruct r.
Qed.
End decoding.

(** * The text of a request *)

Lemma time_json_fits t v d : time_json t = Some v -> fits d v.
Proof. by intros [_ ->]%time_json_some. Qed.

Lemma pointer_json_fits {A} (f : A -> option jvalue) o v d :
  (forall a u, f a = Some u -> fits d u) -> pointer_json f o = Some v -> fits d v.
Proof. intros Hf. destruct o; simpl; [apply Hf|by intros [= <-]]. Qed.

Lemma mapM_fits {A} (f : A -> option jvalue) l vs d :
  (forall a v, f a = Some v -> fits d v) -> mapM f l = Some vs -> Forall id (map (fits d) vs).
Proof.
  intros Hf Hm%mapM_Forall2. apply Forall_map. induction Hm as [|a v l vs Hv _ IH]; constructor; [|exact IH]. by eapply Hf.
Qed.

#[local] Hint Resolve time_json_fits pointer_json_fits : fits.

(** The members of an object that is built from options. *)
Ltac parts H :=
  repeat match type of H with
  | (_ ≫= _) = Some _ => apply bind_Some in H as (? & ? & H)
  end; injection H as <-.

Ltac member_fits := unfold id; first [exact I | by eauto with fits].

Ltac object := split; [done|]; repeat (constructor; [member_fits|]); constructor.

Lemma int_json_fits n v d : int_json n = Some v -> fits d v.
Proof. by intros [= <-]. Qed.
#[local] Hint Resolve int_json_fits : fits.

Lemma price_entry_fits e v : price_entry_json e = Some v -> fits 2 v.
Proof. unfold price_entry_json. intros Hv. parts Hv. object. Qed.

Lemma bucket_fits b v : bucket_json b = Some v -> fits 4 v.
Proof. unfold bucket_json. intros Hv. parts Hv. object. Qed.

Lemma history_entry_fits e v : history_entry_json e = Some v -> fits 2 v.
Proof.
  unfold history_entry_json. intros Hv. parts Hv. split; [done|]. repeat (constructor; [member_fits|]).
  constructor; [|constructor]. split; [done|]. eapply mapM_fits; [|done]. apply bucket_fits.
Qed.

Lemma price_request_fits r v : price_request_json r = Some v -> fits 0 v.
Proof.
  unfold price_request_json. intros Hv. parts Hv. split; [done|]. repeat (constructor; [done|]). constructor; [|constructor].
  split; [done|]. eapply mapM_fits; [|done]. apply price_entry_fits.
Qed.

Lemma history_request_fits r v : history_request_json r = Some v -> fits 0 v.
Proof.
  unfold history_request_json. intros Hv. parts Hv. split; [done|]. repeat (constructor; [done|]). constructor; [|constructor].
  split; [done|]. eapply mapM_fits; [|done]. apply history_entry_fits.
Qed.

(** ** Which history requests can be encoded *)

Lemma time_json_known t : is_Some (time_json t) <-> four_digit_year t.
Proof.
  split; [by intros [v [Ht _]%time_json_some]|]. intros [Hlo Hhi]. unfold time_json.
  rewrite (proj2 (Z.leb_le _ _) Hlo), (proj2 (Z.ltb_lt _ _) Hhi). by eexists.
Qed.

Lemma bind_known {A B} (o : option A) (f : A -> option B) :
  (forall a, o = Some a -> is_Some (f a)) -> is_Some o -> is_Some (o ≫= f).
Proof. intros Hf [a Ha]. rewrite Ha. by apply Hf. Qed.

Lemma bucket_json_known b : is_Some (bucket_json b) <-> four_digit_year (hb_Timestamp b).
Proof.
  rewrite <- time_json_known. unfold bucket_json. destruct (time_json (hb_Timestamp b)) as [t|]; simpl; [|by split; intros []].
  split; intros _; [by eexists|]. destruct (hb_AverageUnitPrice b); by eexists.
Qed.

Definition entry_times (e : HistoryIngest) : list time := hi_ObservedAt e :: map hb_Timestamp (hi_History e).
Definition history_times (r : IngestHistoryRequest) : list time := flat_map entry_times (ih_Entries r).

Lemma history_entry_json_known e : is_Some (history_entry_json e) <-> Forall four_digit_year (entry_times e).
Proof.
  unfold history_entry_json, entry_times. rewrite Forall_cons, Forall_map, <- time_json_known.
  destruct (time_json (hi_ObservedAt e)) as [t|]; simpl; [|by split; [intros []|intros [[] _]]].
  assert (is_Some (mapM bucket_json (hi_History e)) <-> Forall (fun b => four_digit_year (hb_Timestamp b)) (hi_History e)) as Hm.
  { rewrite mapM_is_Some. apply Forall_iff. apply bucket_json_known. }
  unfold compose. rewrite <- Hm. destruct (mapM bucket_json (hi_History e)); simpl; [split; [split|]; by eexists|by split; [intros []|intros [_ []]]].
Qed.

Lemma history_request_json_known r : is_Some (history_request_json r) <-> Forall four_digit_year (history_times r).
Proof.
  unfold history_request_json, history_times.
  assert (is_Some (mapM history_entry_json (ih_Entries r)) <-> Forall four_digit_year (flat_map entry_times (ih_Entries r))) as Hm.
  { rewrite mapM_is_Some. rewrite (Forall_iff _ _ _ history_entry_json_known).
    induction (ih_Entries r) as [|e l IH]; [by split|]. cbn [flat_map]. by rewrite Forall_cons, Forall_app, IH. }
  rewrite <- Hm. destruct (mapM history_entry_json (ih_Entries r)); simpl; [split; by eexists|by split; intros []].
Qed.

Lemma mapM_finite {A} (f : A -> option jvalue) l vs :
  (forall a v, f a = Some v -> finite_value v = true) -> mapM f l = Some vs -> forallb finite_value vs = true.
Proof.
  intros Hf Hm%mapM_Forall2. induction Hm as [|a v l vs Hv _ IH]; [done|]. simpl. by rewrite (Hf _ _ Hv), IH.
Qed.

Lemma time_json_finite t v : time_json t = Some v -> finite_value v = true.
Proof. by intros [_ ->]%time_json_some. Qed.

Lemma bucket_json_finite b v : bucket_json b = Some v -> finite_value v = true.
Proof.
  unfold bucket_json. intros Hv. parts Hv. simpl. match goal with H : time_json _ = Some _ |- _ => rewrite (time_json_finite _ _ H) end.
  match goal with H : pointer_json _ _ = Some _ |- _ => destruct (hb_AverageUnitPrice b); injection H as <- end; done.
Qed.

Lemma history_entry_json_finite e v : history_entry_json e = Some v -> finite_value v = true.
Proof.
  unfold history_entry_json. intros Hv. parts Hv. simpl.
  match goal with H : time_json _ = Some _ |- _ => rewrite (time_json_finite _ _ H) end.
  match goal with H : mapM _ _ = Some _ |- _ => by rewrite (mapM_finite _ _ _ bucket_json_finite H) end.
Qed.

Lemma history_request_json_finite r v : history_request_json r = Some v -> finite_value v = true.
Proof.
  unfold history_request_json. intros Hv. parts Hv. simpl.
  match goal with H : mapM _ _ = Some _ |- _ => by rewrite (mapM_finite _ _ _ history_entry_json_finite H) end.
Qed.

(** A history request has a text exactly when the years of its times have four digits. *)
Lemma history_text_known r : is_Some (history_request_json r ≫= Marshal) <-> Forall four_digit_year (history_times r).
Proof.
  rewrite <- history_request_json_known. split.
  - intros [t (v & Hv & _)%bind_Some]. by eexists.
  - apply bind_known. intros v Hv. by eapply Marshal_total, history_request_json_finite.
Qed.

Section roundtrip.
Context `{Unicode}.
Variable scan : string -> option string.
#[local] Instance request_encoding : RequestEncoding := json_encoding scan.

Lemma Unmarshal_back {A} (d : decoder A) zero v text a :
  fits 0 v -> Marshal v = Some text -> reads d v a -> Unmarshal d zero text = Some a.
Proof.
  intros Hf Hm Hr. unfold Unmarshal, scan_json. pose proof (Marshal_reads_back v text 0 (value_fuel text) EmptyString Hm Hf I) as Hs.
  rewrite !app_nil_r_string in Hs. rewrite Hs by (unfold value_fuel; lia). change (is_empty (skip_spaces EmptyString)) with true. cbv iota.
  specialize (Hr zero). unfold text_of in Hr. by rewrite Hm in Hr.
Qed.

(** What is hashed of a request is read back as the request, by the decoders of the
    handlers. *)
Theorem marshal_prices_back r text :
  marshal_prices r = Some text -> price_request_ok r -> Unmarshal dec_IngestPricesRequest zero_price_request text = Some r.
Proof.
  intros Hm Hr. unfold marshal_prices, request_encoding, json_encoding in Hm. apply bind_Some in Hm as (v & Hv & Hm).
  eapply Unmarshal_back; [by eapply price_request_fits|done|by apply reads_price_request].
Qed.

Theorem marshal_history_back r text :
  marshal_history r = Some text -> history_request_ok r -> Unmarshal dec_IngestHistoryRequest zero_history_request text = Some r.
Proof.
  intros Hm Hr. unfold marshal_history, request_encoding, json_encoding in Hm. apply bind_Some in Hm as (v & Hv & Hm).
  eapply Unmarshal_back; [by eapply history_request_fits|done|by apply reads_history_request].
Qed.
End roundtrip.

(** * Fingerprints *)

Section fingerprint.
Context `{Unicode, Sha256}.
Variable scan : string -> option string.
#[local] Instance enc : RequestEncoding := request_encoding scan.

(** Two texts that were hashed are not the same and have the same SHA-256. *)
Definition collision (m1 m2 : option string) : Prop :=
  exists t1 t2, m1 = Some t1 /\ m2 = Some t2 /\ t1 <> t2 /\ sha256 t1 = sha256 t2.

Lemma same_digest t1 t2 : sha256 t1 = sha256 t2 -> t1 = t2 \/ collision (Some t1) (Some t2).
Proof. intros Hs. destruct (decide (t1 = t2)) as [|Hne]; [by left|]. right. by exists t1, t2. Qed.

Lemma fingerprint_prices r1 r2 h :
  canonicalRequestHash (H0 := enc) r1 = Ok h -> canonicalRequestHash (H0 := enc) r2 = Ok h ->
  price_request_ok r1 -> price_request_ok r2 -> r1 = r2 \/ collision (marshal_prices r1) (marshal_prices r2).
Proof.
  unfold canonicalRequestHash. destruct (marshal_prices r1) as [t1|] eqn:E1; [|done]. destruct (marshal_prices r2) as [t2|] eqn:E2; [|done].
  intros [= Hh1] [= Hh2] H1 H2. destruct (same_digest t1 t2) as [->|]; [congruence|left|by right].
  apply marshal_prices_back in E1, E2; congruence.
Qed.

(** The fingerprints of the history requests. *)
Theorem fingerprint_history r1 r2 h :
  canonicalHistoryRequestHash (H0 := enc) r1 = Ok h -> canonicalHistoryRequestHash (H0 := enc) r2 = Ok h ->
  history_request_ok r1 -> history_request_ok r2 -> r1 = r2 \/ collision (marshal_history r1) (marshal_history r2).
Proof.
  unfold canonicalHistoryRequestHash. destruct (marshal_history r1) as [t1|] eqn:E1; [|done]. destruct (marshal_history r2) as [t2|] eqn:E2; [|done].
  intros [= Hh1] [= Hh2] H1 H2. destruct (same_digest t1 t2) as [->|]; [congruence|left|by right].
  apply marshal_history_back in E1, E2; congruence.
Qed.

Lemma ledger_kept db db' uuid q :
  rtc (ingest_step (H0 := enc)) db db' -> db_inv db -> ingest_requests db !! uuid = Some q -> ingest_requests db' !! uuid = Some q /\ db_inv db'.
Proof.
  induction 1 as [db|db db1 db2 Hstep _ IH]; intros Hinv Hq; [done|]. apply IH; [by eapply ingest_step_inv|].
  destruct Hstep as [fs el now req]. destruct (IngestPrices_atomic fs el now req db Hinv) as [->|(s & hash & u & _ & Hu & ->)]; [done|].
  pose proof (effect_spec now u hash s (ip_Entries req) db Hinv Hu) as He. destruct (effect _ _ _ _ _ _) as [n db1]. destruct He as (Hr & _).
  simpl. rewrite Hr, lookup_insert_ne; [done|]. intros ->. congruence.
Qed.

(** What a request that is answered leaves in the ledger. *)
Lemma answered_row fs el now r db a db' :
  db_inv db -> IngestPrices (H0 := enc) fs el now r db = (Ok a, db') ->
  exists s hash uuid q, prepared (H0 := enc) r s hash uuid /\ ingest_requests db' !! uuid = Some q /\ q_request_sha256 q = hash /\
    Accepted a = q_accepted_count q /\ CurrentRowsTouched a = q_current_rows_touched q.
Proof.
  intros Hinv Hi. destruct (mapServer (ip_Server r)) as [s|e] eqn:Hs; [|unfold IngestPrices in Hi; by rewrite Hs in Hi].
  destruct (canonicalRequestHash r) as [hash|e] eqn:Hh; [|unfold IngestPrices in Hi; by rewrite Hs, Hh in Hi].
  destruct (scanUUID (ip_RequestID r)) as [uuid|] eqn:Hu; [|unfold IngestPrices in Hi; by rewrite Hs, Hh, Hu in Hi].
  assert (prepared r s hash uuid) as Hp by done.
  destruct (ingest_requests db !! uuid) as [q|] eqn:Hq.
  - destruct (inv_completed db Hinv uuid q Hq) as [Hst _]. rewrite (IngestPrices_known fs el now r s hash uuid db q Hp Hq Hst) in Hi.
    injection Hi as Hi <-. match type of Hi with match ?x with _ => _ end = _ => destruct x; [done|] end. case_bool_decide as Hqh; [|done]. injection Hi as <-. by exists s, hash, uuid, q.
  - rewrite (IngestPrices_new fs el now r s hash uuid db Hp Hq) in Hi. destruct (statement_fails fs); [done|].
    pose proof (effect_known now uuid hash s (ip_Entries r) db Hinv Hq) as Hk.
    destruct (effect _ _ _ _ _ _) as [n db1]. destruct (commit fs); [|done|done]. injection Hi as <- <-.
    exists s, hash, uuid, (completed_row now hash s (Z.of_nat (length (ip_Entries r))) n). by split_and!.
Qed.

(** C6. An identifier answers one request only.  Once a request has been answered,
    another one with its identifier that is answered too - however much later, and
    whatever other requests were sent and failed meanwhile - is the same request, field by
    field, and gets the counts of the first and no effect of its own; any other content is
    refused.  The content is compared by its fingerprint, which is a hash of its JSON: only
    when the JSON texts of these two requests differ and have the same SHA-256 could the
    answer be another request's. *)
Theorem identifier_answers_one_request r1 r2 fs1 el1 now1 fs2 el2 now2 db db1 db2 db3 a1 a2 :
  db_inv db -> price_request_ok r1 -> price_request_ok r2 -> scan (ip_RequestID r1) = scan (ip_RequestID r2) ->
  IngestPrices (H0 := enc) fs1 el1 now1 r1 db = (Ok a1, db1) -> rtc (ingest_step (H0 := enc)) db1 db2 ->
  IngestPrices (H0 := enc) fs2 el2 now2 r2 db2 = (Ok a2, db3) ->
  db3 = db2 /\ Duplicate a2 = true /\ Accepted a2 = Accepted a1 /\ CurrentRowsTouched a2 = CurrentRowsTouched a1 /\
  (r1 = r2 \/ collision (marshal_prices r1) (marshal_prices r2)).
Proof.
  intros Hinv Hok1 Hok2 Hid H1 Hsteps H2.
  destruct (answered_row _ _ _ _ _ _ _ Hinv H1) as (s1 & h1 & u1 & q & [Hs1 Hh1 Hu1] & Hq & Hqh & Ha & Hc).
  assert (db_inv db1) as Hinv1.
  { replace db1 with (IngestPrices fs1 el1 now1 r1 db).2 by (by rewrite H1). by eapply ingest_step_inv. }
  destruct (ledger_kept _ _ _ _ Hsteps Hinv1 Hq) as [Hq2 Hinv2].
  destruct (answered_row _ _ _ _ _ _ _ Hinv2 H2) as (s2 & h2 & u2 & _ & Hp2 & _). pose proof Hp2 as [_ Hh2 Hu2].
  assert (u2 = u1) as -> by (unfold scanUUID, enc, request_encoding, json_encoding in Hu1, Hu2; congruence).
  destruct (inv_completed db2 Hinv2 u1 q Hq2) as [Hst _]. rewrite (IngestPrices_known fs2 el2 now2 r2 s2 h2 u1 db2 q Hp2 Hq2 Hst) in H2.
  injection H2 as H2 <-. match type of H2 with match ?x with _ => _ end = _ => destruct x; [done|] end. case_bool_decide as Heq; [|done]. injection H2 as <-.
  split_and!; [done|done|done|done|]. apply (fingerprint_prices r1 r2 h1); [done| |done|done]. rewrite Hh2. congruence.
Qed.
End fingerprint.

(** * History requests, end to end *)

Section history.
Context `{Sha256, Collation}.
Variable scan : string -> option string.
#[local] Instance history_encoding : RequestEncoding := json_encoding scan.

Definition history_response (req : IngestHistoryRequest) (r : IngestHistoryResult) : IngestHistoryResponse :=
  {| ihr_RequestID := ih_RequestID req; ihr_AcceptedEntries := AcceptedEntries r; ihr_AcceptedBuckets := AcceptedBuckets r;
     ihr_HistoryRowsTouched := HistoryRowsTouched r; ihr_Duplicate := h_Duplicate r;
     ihr_PersistenceTiming := h_PersistenceTiming r |}.

(** What the service validated gets as far as the transaction of the repository when its
    times can be encoded, and no further otherwise. *)
Lemma normalized_prepared req req' :
  (forall v, isUUID v = true -> is_Some (scan v)) -> normalizeHistoryIngestRequest req = Ok req' ->
  Forall four_digit_year (history_times req') ->
  exists s uuid hash, history_prepared req' s hash uuid /\ storable s (ih_Entries req') = text_keys (ih_Entries req').
Proof.
  intros Hscan (Hid & Hs%validateServer_ok & _ & Hv & _ & ->)%normalizeHistoryIngestRequest_ok [text Ht]%history_text_known.
  destruct (Hscan _ Hid) as [uuid Hu].
  assert (exists s, mapServer (ih_Server req) = Ok s) as [s Hs'] by (apply is_ok_true; by rewrite <- validateServer_mapServer, Hs).
  exists s, uuid, (sha256 text). split; [split; [done| |done]|apply normal_storable; [by eapply mapServer_range|done]].
  unfold canonicalHistoryRequestHash. change (marshal_history ?r) with (history_request_json r ≫= Marshal). by rewrite Ht.
Qed.

Lemma normalized_not_hashed req req' fs el now hdb :
  normalizeHistoryIngestRequest req = Ok req' -> ~ Forall four_digit_year (history_times req') ->
  HistoryRepo.IngestHistory fs el now req' hdb = (Err HashRequest, hdb).
Proof.
  intros (_ & Hs%validateServer_ok & _ & _ & _ & ->)%normalizeHistoryIngestRequest_ok Ht.
  assert (exists s, mapServer (ih_Server req) = Ok s) as [s Hs'] by (apply is_ok_true; by rewrite <- validateServer_mapServer, Hs).
  unfold HistoryRepo.IngestHistory. cbn [ih_Server]. rewrite Hs'. unfold canonicalHistoryRequestHash.
  match goal with |- context [marshal_history ?r] => destruct (marshal_history r) eqn:E end; [|done].
  destruct Ht. apply history_text_known. by eexists.
Qed.

End history.

(** * Examples *)

Section examples.
#[local] Existing Instance plain_unicode.
#[local] Existing Instance plain_sha256.
#[local] Instance sample_encoding : RequestEncoding := request_encoding (fun id => if is_empty id then None else Some id).

Example request_text :
  marshal_prices (example_prices "r1" [example_entry "T4_BAG" 90 11])
  = Some (quoted "{'request_id':'r1','server':'west','entries':[{'observed_at':'1970-01-01T00:00:00.000011Z','location_id':3008,'item_key':'T4_BAG','quality':1,'sell_price_min':90,'sell_price_min_at':'1970-01-01T00:00:00.000011Z','buy_price_max':null,'buy_price_max_at':null}]}").
Proof. vm_compute. reflexivity. Qed.

Lemma sample_entry_ok item sell at_ : ValidString item = true -> int64 sell -> price_entry_ok (example_entry item sell at_).
Proof.
  intros Hi Hs. split; [by vm_compute|]. split; [exact Hi|]. split; [by vm_compute|]. split; [|done]. by intros n [= <-].
Qed.

Lemma identifier_answers_one_request_witness :
  let r := example_prices "r1" example_batch in
  let '(_, db1) := IngestPrices no_faults example_elapsed 50000 r empty_db in
  (IngestPrices no_faults example_elapsed 60000 r db1).2 = db1.
Proof.
  intros r. destruct (IngestPrices no_faults example_elapsed 50000 r empty_db) as [[a1|e] db1] eqn:E1; [|vm_compute in E1; discriminate].
  destruct (IngestPrices no_faults example_elapsed 60000 r db1) as [[a2|e] db3] eqn:E2;
    [|vm_compute in E1; injection E1 as _ <-; vm_compute in E2; discriminate].
  assert (price_request_ok r) as Hr.
  { split; [reflexivity|]. split; [reflexivity|]. repeat (apply Forall_cons; split; [apply sample_entry_ok; [reflexivity|by vm_compute]|]). by apply Forall_nil. }
  destruct (identifier_answers_one_request (fun id => if is_empty id then None else Some id) r r no_faults example_elapsed 50000
    no_faults example_elapsed 60000 empty_db db1 db1 db3 a1 a2 db_inv_empty Hr Hr eq_refl E1 (rtc_refl _ _) E2) as (-> & _).
  reflexivity.
Defined.

(** Requests the service accepts and the repository cannot keep: an instant of the year
    10000, which [9999-12-31T23:30:00-01:00] is, and an item key with the character 0. *)
Definition uuid_scan (id : string) : option string := if isUUID id then Some id else None.
#[local] Abbreviation sample_repository :=
  (PgxMarketRepository (H0 := json_encoding uuid_scan) (H1 := c_collation) example_median no_faults example_elapsed 50000).

Definition one_entry (at_ : time) (item : string) : IngestHistoryRequest :=
  {| ih_RequestID := example_uuid; ih_Server := ServerWest;
     ih_Entries := [{| hi_ObservedAt := at_; hi_LocationID := 3008; hi_ItemKey := item; hi_Quality := 1;
                       hi_History := [{| hb_Timestamp := 1000; hb_ItemCount := 4; hb_AverageUnitPrice := None |}] |}] |}.

Definition year_10000 : time := day_number 10000 1 1 * day + 30 * minute.

Example year_10000_decoded : Unmarshal dec_time 0 (quoted "'9999-12-31T23:30:00-01:00'") = Some year_10000.
Proof. vm_compute. reflexivity. Qed.

Example accepted_but_not_kept :
  map (fun req => (is_ok (normalizeHistoryIngestRequest req),
                   (HistoryService.IngestHistory (H := sample_repository) req (empty_db, empty_history_db)).1))
    [one_entry year_10000 "T4_BAG"; one_entry 5000 (String "000" "T4_BAG")]
  = [(true, Err (RepositoryError HashRequest)); (true, Err (RepositoryError ConstraintViolated))].
Proof. vm_compute. reflexivity. Qed.

End examples.
